(* ===== verification/_CoqProject ===== *)
-Q . S2P
Prelude.v
Machine.v
Spinlock.v
Mem.v
Kalloc.v
Vm.v
VmSpec.v
Uvm.v
Uvmcopy.v
Uvmfree.v
Kern.v
Sched.v
SchedSpec.v
SleepLk.v
Bio.v
Log.v
LogSpec.v
LogOps.v
LogSpace.v
UserMem.v
Fs.v
Uart.v
File.v
Proc.v
Exec.v
Sysfile.v
Virtio.v
Trap.v
Ring.v
FsSpec.v
Own.v
FsOps.v
DirSpec.v
DirLink.v
InodeSpec.v
NameSpec.v
PipeSpec.v
ReadSpec.v
ConsSpec.v
PrintSpec.v
FileSpec.v
ProcSpec.v
ForkSpec.v
BrkSpec.v
ExecSpec.v
ExitSpec.v
VirtioSpec.v
Riscv.v
Asm.v
AsmSpec.v
AsmType.v
Initcode.v
User.v
Grep.v
Tools.v
ToolsSpec.v
Umalloc.v
Sh.v
ShSpec.v
ShRun.v
Grind.v
UtMem.v
UtFs.v
UtProc.v
Usertests.v
