(* ===== verification/Prelude.v ===== *)
(** * xv6-riscv: a verification development

    xv6 is a small Unix-like kernel for RISC-V machines, with its user
    programs (src/xv6-riscv/kernel, src/xv6-riscv/user).  This library is a
    shallow embedding of the C and assembly sources with the theorems that
    say what they compute.  The definitions keep the names of the source,
    its order of statements, its early returns and panics, and the width of
    its integers.

    ** The program and how its parts fit together

    A hart enters entry.S and start() in machine mode, then main(), which
    sets up the page allocator (kalloc.c), page tables (vm.c), the process
    table (proc.c), trap vectors (trap.c), the interrupt controller (plic.c),
    the buffer cache (bio.c), inode and file tables (fs.c, file.c) and the
    disk (virtio_disk.c), makes the first process and enters scheduler().  A
    process enters the kernel through the trampoline (trampoline.S),
    usertrap() and syscall() (syscall.c, sysfile.c, sysproc.c).  File system
    calls run inside transactions of the log (log.c) on blocks of the buffer
    cache, which reads and writes through the disk driver.  Threads wait with
    sleep() and wakeup(), change with swtch(), and exclude each other with
    spin locks and sleep locks.  User programs see the kernel as the system
    calls of user.h.

    ** How the code is modelled

    Kernel C functions live in the monad [Machine.K S A]: from a context (the
    hart, the process table, a bound for spinning loops) and a state [S], a run
    returns, panics, faults on a wild pointer, hangs, or calls swtch(), which
    suspends it with its continuation.  [Machine.wp E m Q w] says that the run
    of [m] from [w] ends in [Q], whatever the other threads do while it is
    suspended within the rely of [E], and that each suspension meets the
    guarantee of [E]; panics, faults and hangs never satisfy it, so every
    wp theorem is one of total correctness.  [S] is [Kalloc.kst] (physical
    memory and the free list) for the memory code and [Kern.kern] (all global
    structures) for the rest; a function of a component addresses its part by
    a lens.  Pointers into static arrays are indices; physical memory is a map
    of bytes; strings are lists of bytes.  User programs live in the monad
    [User.U], over a world behind the class [User.Sys] of system calls.
    Assembly code is a list of instructions on the hart of [Riscv].

    ** Files

    Foundations
    - [Prelude]: integer widths, little-endian fields, splicing of arrays, strings.
    - [Machine]: records of proc.h, spinlock.h, sleeplock.h; lenses; [K]; [wp].
    - [Ring]: ring buffers with free-running counters, once for all drivers.

    Locks, memory, processes
    - [Spinlock]: spinlock.c; module [MP] is acquire() and release() at the
      grain of memory accesses on any number of harts.
    - [Mem]: string.c over anything addressed by bytes.
    - [Kalloc]: kalloc.c, against an abstract pool of pages.
    - [Vm]: vm.c and the page-table part of proc.c.  [VmSpec] describes a
      page table as a map from index paths to pages; [Uvm] is uvmunmap(),
      mappages() and the copies between kernel and user memory; [Uvmcopy] is
      uvmcopy(), with two page tables in one memory; [Uvmfree] is freewalk(),
      uvmfree() and proc_freepagetable().
    - [Sched]: sched(), yield(), sleep(), wakeup(), kill(), scheduler() of
      proc.c; [SchedSpec]: no RUNNABLE process starves.
    - [SleepLk]: sleeplock.c.
    - [Kern]: the global state.  [Proc]: the rest of proc.c; [ProcSpec]: freeproc()
      and wait(); [ForkSpec]: allocproc() and fork(); [BrkSpec]: uvmalloc(), growproc() and
      sys_sbrk(); [ExitSpec]: exit().  [Exec]: exec.c; [ExecSpec]: its second half, from
      the stack on.
    - [Trap]: trap.c, plic.c, main.c.
    - [Riscv], [Asm], [AsmSpec], [AsmType]: riscv.h, the four .S files, start.c.
    - [Initcode]: user/initcode.S, its encoding, and the first instructions of
      user code that run.

    Storage
    - [Bio]: bio.c over the interface [BlockDev]; [bio_ok] describes the cache by
      the logical contents of blocks, the pinned blocks and the locked buffers.
    - [Log], [LogSpec], [LogOps]: log.c; a disk is an image and the writes
      since, a crash is a prefix of the writes.  [LogSpace]: the room in the log
      that begin_op() reserves.
    - [Fs]: fs.c.  [FsSpec], [FsOps]: inodes, contents, blocks, paths;
      [ReadSpec]: readi() to each kind of destination, with [Own], by which a
      process that slept on the way still has its page table;
      [DirSpec]: iget() and dirlookup(); [DirLink]: dirlink(); [InodeSpec]: ilock(),
      iunlock(), iput(), reference counts; [NameSpec]: namex().
    - [Virtio], [VirtioSpec]: virtio_disk.c, against the classes [Device] and
      [DeviceOk] of what the device does with a request.

    Files and devices
    - [UserMem]: either_copyin(), either_copyout(), argument fetching.
    - [File], [PipeSpec], [FileSpec]: file.c and pipe.c; pipes as queues;
      reference counts of open files.
    - [Uart], [ConsSpec], [PrintSpec]: uart.c, console.c, printf.c.
    - [Sysfile]: sysfile.c, sysproc.c, syscall.c.

    User programs
    - [User]: user.h, ulib.c, printf.c.  [Umalloc]: umalloc.c.  [Grep]: grep.c.
    - [Tools], [ToolsSpec]: cat, wc, echo, ls, init, kill, ln, mkdir, rm, zombie,
      forktest, stressfs.
    - [Sh], [ShSpec], [ShRun]: sh.c, its grammar, and what its commands run
      with.  [Grind]: grind.c.
    - [UtMem], [UtFs], [UtProc], [Usertests]: usertests.c; the tests of memory, of the
      file system, of processes, and the driver.

    ** What the theorems show

    - Crash safety: [LogOps.end_op_crash_safe], [LogOps.initlog_recovers];
      log space: [LogSpace.log_space_reserved], and [LogSpace.log_overflow], which
      shows that a log area of LOGSIZE blocks is one too small.
    - Files, blocks, directories, paths: [ReadSpec.readi_correct] (to user,
      physical or kernel memory), [FsOps.writei_correct], [FsOps.balloc_correct], [NameSpec.namex_correct],
      [DirSpec.dirlookup_correct], [DirSpec.iget_correct],
      [DirLink.dirlink_dirlookup]; the cache below: [Bio.bread_correct]; the driver
      below that: [VirtioSpec.disk_rw_correct], [VirtioSpec.virtio_disk_intr_wakes].
    - Memory: [Kalloc.kalloc_refines], [Uvm.mappages_correct],
      [Uvmcopy.uvmcopy_correct], [BrkSpec.sys_sbrk_correct], [Uvm.copyin_copyout].
    - Processes: [ForkSpec.fork_correct], [ExecSpec.exec_stack_correct],
      [ExitSpec.exit_correct], [ProcSpec.wait_correct], and the first one, [Initcode.initcode_execs].
    - Concurrency: [Spinlock.MP.mutual_exclusion], [Sched.sleep_correct],
      [SchedSpec.scheduler_fair].
    - Registers across switches and traps: [AsmSpec.swtch_resumes],
      [AsmSpec.trap_roundtrip], [AsmSpec.kernelvec_transparent],
      [AsmSpec.timer_ticks]; what start() leaves to main(): [AsmType.start_prepares].
    - Pipes, console, descriptors: [PipeSpec.pipewrite_correct],
      [PipeSpec.piperead_correct], [ConsSpec.consoleintr_correct],
      [FileSpec.sys_dup_correct].
    - User programs: [ShSpec.parsecmd_correct], [ShSpec.parse_accepts],
      [ShRun.shell_runs], [Umalloc.malloc_correct], [Umalloc.free_correct],
      [Umalloc.malloc_overflow], [Grep.match_correct], [Grep.grep_correct],
      [ToolsSpec.printf_renders], [Usertests.usertests_verdict].

    Many further theorems (each operation's behaviour on its branches) are the
    lemmas these rest on, in the same files.

    ** Bounds and fuel

    A C loop whose bound is known is a recursion on that bound plus one (the
    bytes of a copy, the pages of a range, the entries of a table), so the fuel
    never runs out; the run lemmas show it.  Loops that wait for another
    thread or for the outside (spinning, [while] around sleep(), the shell's and
    init's endless loops, the loops of usertests.c without a bound) take the fuel of the context or an argument; theorems
    about them ask for the few rounds they need, such as two in
    [VirtioSpec.disk_rw_correct] or one pass of the scheduler.  The parser of the
    shell gets [4 * len + 8], and [ShSpec.parse_accepts] shows that this is enough
    for every line.  Panic and hang are outcomes of their own, never results.

    ** Parameters

    What is not source code is an argument: the linker's symbols ([Kalloc.Layout],
    [Proc.Symbols], [Asm.Linked]), the answers of device registers ([Uart.Mmio]), the
    addresses of DMA memory ([Virtio.DmaAddrs]) and the disk device
    ([VirtioSpec.Device]), the block device below
    the cache ([Bio.BlockDev], [Own.BlockDevOwn]), address translation in assembly ([Asm.Mmu]),
    and for user programs the kernel ([User.Sys], [FileIO], [ShRun.Fds],
    [Umalloc.Brk], [UtMem.UMem], [Usertests.Parent], [Usertests.Free]).  Their laws are classes of documented behaviour, and each
    theorem that uses one has a witness with a concrete instance.

    ** Not modelled

    - kernel/ramdisk.c: not part of the build, and it does not compile against the
      present struct buf.
    - kernel/kernel.ld, the Makefile, usys.pl, gdb script: placement, building
      and generated stubs; defs.h, types.h, user.h: declarations.
    - The weak memory model: spin locks are proved at the grain of memory
      accesses in sequentially consistent order; the fences of the source are not given
      a meaning beyond that.  Other harts are seen by a thread through
      the rely of [wp] when it is suspended, and through locks otherwise.
    - Timing, caches and the TLB: sfence.vma has no effect on the model. *)

From stdpp Require Import base numbers list list_numbers gmap strings.
From Stdlib Require Import ZArith Lia Ascii.

Local Open Scope Z_scope.

(** ** Machine integers

    C's unsigned types are kept as [Z] with the wrap-around written out. *)

Definition u8 (x : Z) : Z := x `mod` 2 ^ 8.
Definition u16 (x : Z) : Z := x `mod` 2 ^ 16.
Definition u32 (x : Z) : Z := x `mod` 2 ^ 32.
Definition u64 (x : Z) : Z := x `mod` 2 ^ 64.

(** Conversion to the signed types: the representative in [-2^(w-1), 2^(w-1)). *)
Definition sgn (w x : Z) : Z := (x + 2 ^ (w - 1)) `mod` 2 ^ w - 2 ^ (w - 1).
Definition i16 (x : Z) : Z := sgn 16 x.
Definition i32 (x : Z) : Z := sgn 32 x.

Lemma u32_range x : 0 <= u32 x < 2 ^ 32.
Proof. apply Z.mod_pos_bound; lia. Qed.

Lemma u64_range x : 0 <= u64 x < 2 ^ 64.
Proof. apply Z.mod_pos_bound; lia. Qed.

Lemma u32_small x : 0 <= x < 2 ^ 32 -> u32 x = x.
Proof. apply Z.mod_small. Qed.

Lemma u64_small x : 0 <= x < 2 ^ 64 -> u64 x = x.
Proof. apply Z.mod_small. Qed.

Lemma u32_idemp x : u32 (u32 x) = u32 x.
Proof. unfold u32. apply Z.mod_mod. lia. Qed.

Lemma i32_range x : - 2 ^ 31 <= i32 x < 2 ^ 31.
Proof. unfold i32, sgn. change (32 - 1) with 31.
  pose proof (Z.mod_pos_bound (x + 2 ^ 31) (2 ^ 32) ltac:(lia)). lia. Qed.

Lemma i32_small x : - 2 ^ 31 <= x < 2 ^ 31 -> i32 x = x.
Proof. unfold i32, sgn. intros. rewrite Z.mod_small by lia. lia. Qed.

(** ** Little-endian encoding of integers in bytes *)

Fixpoint le_enc (n : nat) (v : Z) : list Z :=
  match n with
  | O => []
  | S k => v `mod` 256 :: le_enc k (v / 256)
  end.

Fixpoint le_dec (bs : list Z) : Z :=
  match bs with
  | [] => 0
  | b :: r => b + 256 * le_dec r
  end.

Definition is_byte (b : Z) : Prop := 0 <= b < 256.

(** Deciding that a list holds bytes. *)
Lemma bytes_ok l : forallb (fun b => (0 <=? b) && (b <? 256)) l = true -> Forall is_byte l.
Proof.
  intros H. rewrite forallb_forall in H. apply Forall_forall. intros b Hb. specialize (H b (proj1 (list_elem_of_In _ _) Hb)).
  apply andb_true_iff in H as [H1 H2]. unfold is_byte. lia.
Qed.

Lemma length_le_enc n v : length (le_enc n v) = n.
Proof. revert v; induction n; intros; simpl; auto. Qed.

Lemma le_enc_bytes n v : Forall is_byte (le_enc n v).
Proof.
  revert v; induction n; intros; simpl; constructor; auto.
  apply Z.mod_pos_bound; lia.
Qed.

Lemma le_dec_enc n v : le_dec (le_enc n v) = v `mod` 256 ^ Z.of_nat n.
Proof.
  revert v; induction n as [|n IH]; intros v.
  - simpl. rewrite Z.mod_1_r. done.
  - cbn [le_enc le_dec]. rewrite IH, Nat2Z.inj_succ, Z.pow_succ_r by lia.
    rewrite Z.rem_mul_r by lia. lia.
Qed.

Lemma le_enc_dec bs : Forall is_byte bs -> le_enc (length bs) (le_dec bs) = bs.
Proof.
  unfold is_byte.
  induction 1 as [|b r Hb _ IH]; simpl; [done|].
  rewrite (Z.add_comm b), (Z.mul_comm 256), Z.div_add_l, Z.div_small, Z.add_0_r by lia.
  rewrite Z.add_comm, Z.mod_add, Z.mod_small by lia.
  by rewrite IH.
Qed.

Lemma le_dec_range bs : Forall is_byte bs -> 0 <= le_dec bs < 256 ^ Z.of_nat (length bs).
Proof.
  unfold is_byte. induction 1 as [|b r Hb _ IH]; [simpl; lia|].
  cbn [le_dec length]. rewrite Nat2Z.inj_succ, Z.pow_succ_r by lia. lia.
Qed.

(** ** Lists: overwriting a range in place *)

Section Splice.
Context {A : Type}.

(** [splice l i r] is [l] after storing the elements of [r] at index [i]
    and on, the effect of copying [r] over part of an array. *)
Definition splice (l : list A) (i : nat) (r : list A) : list A :=
  take i l ++ r ++ drop (i + length r) l.

Implicit Types l r : list A.

Lemma length_splice l i r :
  (i + length r <= length l)%nat -> length (splice l i r) = length l.
Proof. intros. unfold splice. rewrite !length_app, length_take, length_drop. lia. Qed.

Lemma lookup_splice_in l i r k :
  (i <= length l)%nat -> (i <= k < i + length r)%nat -> splice l i r !! k = r !! (k - i)%nat.
Proof.
  intros. unfold splice. rewrite lookup_app_r; rewrite length_take; [|lia].
  rewrite lookup_app_l by lia. f_equal. lia.
Qed.

Lemma lookup_splice_out l i r k :
  (i + length r <= length l)%nat -> (k < i \/ i + length r <= k)%nat ->
  splice l i r !! k = l !! k.
Proof.
  intros Hl [Hk|Hk]; unfold splice.
  - rewrite lookup_app_l by (rewrite length_take; lia). by rewrite lookup_take_lt.
  - rewrite lookup_app_r by (rewrite length_take; lia).
    rewrite lookup_app_r by (rewrite length_take; lia).
    rewrite lookup_drop, length_take. f_equal. lia.
Qed.

Lemma splice_nil l i : splice l i [] = l.
Proof. unfold splice. simpl. rewrite Nat.add_0_r. apply take_drop. Qed.

Lemma splice_all l r : length l = length r -> splice l 0 r = r.
Proof. intros H. unfold splice. simpl. rewrite drop_ge by lia. apply app_nil_r. Qed.

End Splice.

(** ** Fields of packed structures

    A little-endian field of [n] bytes at offset [off] of a byte array. *)

Definition slice {A} (off n : nat) (d : list A) : list A := take n (drop off d).
Definition getn (n off : nat) (d : list Z) : Z := le_dec (slice off n d).
Definition putn (n off : nat) (v : Z) (d : list Z) : list Z := splice d off (le_enc n v).

Lemma slice_ext {A} off n (d d' : list A) :
  (forall k, (k < n)%nat -> d !! (off + k)%nat = d' !! (off + k)%nat) -> slice off n d = slice off n d'.
Proof.
  intros H. apply list_eq. intros k. unfold slice. destruct (decide (k < n)%nat) as [Hk|Hk].
  - rewrite !lookup_take_lt, !lookup_drop by done. by apply H.
  - by rewrite !lookup_take_ge by lia.
Qed.

Lemma slice_splice_eq {A} off (d r : list A) :
  (off + length r <= length d)%nat -> slice off (length r) (splice d off r) = r.
Proof.
  intros H. apply list_eq. intros k. unfold slice. destruct (decide (k < length r)%nat) as [Hk|Hk].
  - rewrite lookup_take_lt, lookup_drop by done. rewrite lookup_splice_in by lia. f_equal. lia.
  - rewrite lookup_take_ge by lia. symmetry. apply lookup_ge_None. lia.
Qed.

Lemma slice_splice_ne {A} off n off' (d r : list A) :
  (off' + length r <= length d)%nat -> (off + n <= off' \/ off' + length r <= off)%nat ->
  slice off n (splice d off' r) = slice off n d.
Proof. intros H1 H2. apply slice_ext. intros k Hk. apply lookup_splice_out; lia. Qed.

Lemma getn_putn_eq n off v d :
  (off + n <= length d)%nat -> getn n off (putn n off v d) = v `mod` 256 ^ Z.of_nat n.
Proof.
  intros H. unfold getn, putn. rewrite <- (length_le_enc n v) at 1.
  rewrite slice_splice_eq by (by rewrite length_le_enc). apply le_dec_enc.
Qed.

Lemma getn_putn_ne n off n' off' v d :
  (off' + n' <= length d)%nat -> (off + n <= off' \/ off' + n' <= off)%nat ->
  getn n off (putn n' off' v d) = getn n off d.
Proof. intros H1 H2. unfold getn, putn. by rewrite slice_splice_ne by (rewrite length_le_enc; lia). Qed.

Lemma length_putn n off v d : (off + n <= length d)%nat -> length (putn n off v d) = length d.
Proof. intros H. apply length_splice. by rewrite length_le_enc. Qed.

(** ** Proof automation *)

(** Case split on the scrutinee of the first [match] of the goal, keeping
    the equation. *)
Ltac split_match :=
  match goal with
  | |- context [match ?x with _ => _ end] =>
      let E := fresh "E" in destruct x eqn:E; try discriminate
  end.

(** Turn the boolean tests of the code into propositions. *)
Ltac bool_to_prop :=
  repeat match goal with
  | H : (_ && _)%bool = true |- _ => apply andb_true_iff in H as [? ?]
  | H : (_ || _)%bool = false |- _ => apply orb_false_iff in H as [? ?]
  | H : (_ && _)%bool = false |- _ => apply andb_false_iff in H
  | H : (_ || _)%bool = true |- _ => apply orb_true_iff in H
  | H : negb _ = true |- _ => apply negb_true_iff in H
  | H : negb _ = false |- _ => apply negb_false_iff in H
  | H : (_ =? _) = true |- _ => apply Z.eqb_eq in H
  | H : (_ =? _) = false |- _ => apply Z.eqb_neq in H
  | H : (_ <? _) = true |- _ => apply Z.ltb_lt in H
  | H : (_ <? _) = false |- _ => apply Z.ltb_ge in H
  | H : (_ <=? _) = true |- _ => apply Z.leb_le in H
  | H : (_ <=? _) = false |- _ => apply Z.leb_gt in H
  | H : (_ =? _)%nat = true |- _ => apply Nat.eqb_eq in H
  | H : (_ =? _)%nat = false |- _ => apply Nat.eqb_neq in H
  | H : (_ <? _)%nat = true |- _ => apply Nat.ltb_lt in H
  | H : (_ <? _)%nat = false |- _ => apply Nat.ltb_ge in H
  | H : bool_decide _ = true |- _ => apply bool_decide_eq_true in H
  | H : bool_decide _ = false |- _ => apply bool_decide_eq_false in H
  end.

(** ** C strings *)

(** The bytes of a string literal. *)
Fixpoint bytes (s : string) : list Z :=
  match s with
  | EmptyString => []
  | String a r => Z.of_N (N_of_ascii a) :: bytes r
  end.

(** The C string in a char array. *)
Fixpoint cstring (bs : list Z) : list Z :=
  match bs with
  | [] => []
  | b :: r => if b =? 0 then [] else b :: cstring r
  end.

Lemma cstring_full l : 0 ∉ l -> cstring l = l.
Proof.
  induction l as [|c l IH]; [done|]. intros H. apply not_elem_of_cons in H as [H0 H]. simpl.
  rewrite (proj2 (Z.eqb_neq c 0)) by done. by rewrite IH by done.
Qed.

Lemma cstring_app l r : 0 ∉ l -> cstring (l ++ 0 :: r) = l.
Proof.
  induction l as [|c l IH]; [done|]. intros H. apply not_elem_of_cons in H as [H0 H]. simpl.
  rewrite (proj2 (Z.eqb_neq c 0)) by done. by rewrite IH by done.
Qed.

(** ** Fields of a string between separators *)

Fixpoint split_on (c : Z) (l : list Z) : list (list Z) :=
  match l with
  | [] => [[]]
  | x :: r =>
      if x =? c then [] :: split_on c r
      else match split_on c r with h :: t => (x :: h) :: t | [] => [[x]] end
  end.

Lemma split_on_ne c l : split_on c l <> [].
Proof. destruct l as [|x l]; simpl; [done|]. repeat case_match; done. Qed.

Lemma split_on_app c a b : c ∉ a -> split_on c (a ++ c :: b) = a :: split_on c b.
Proof.
  induction a as [|x a IH]; intros H; simpl; [by rewrite Z.eqb_refl|].
  apply not_elem_of_cons in H as [H0 H]. rewrite (proj2 (Z.eqb_neq x c)) by done. by rewrite IH.
Qed.

Lemma split_on_one c a : c ∉ a -> split_on c a = [a].
Proof.
  induction a as [|x a IH]; intros H; simpl; [done|].
  apply not_elem_of_cons in H as [H0 H]. rewrite (proj2 (Z.eqb_neq x c)) by done. by rewrite IH.
Qed.

(** The first separator, when there is one. *)
Lemma split_first (c : Z) (s : list Z) : (exists a b, s = a ++ c :: b /\ c ∉ a) \/ c ∉ s.
Proof.
  destruct (decide (c ∈ s)) as [H|H]; [left|by right]. apply list_elem_of_split_l in H as (a & b & -> & Ha). by exists a, b.
Qed.
