(* ===== verification/Machine.v ===== *)
(** * The machine a kernel function runs on

    The records of kernel/proc.h, kernel/spinlock.h and kernel/sleeplock.h,
    and the monad [K] in which the C functions are written.  A function runs
    on one hart, inside one process, over the state of its component; it
    returns, panics, faults, spins forever, or calls [swtch] to hand the CPU
    to the scheduler and waits to be resumed. *)

From stdpp Require Import base numbers list list_numbers gmap strings.
From Stdlib Require Import ZArith Lia.
From S2P Require Import Prelude.

Local Open Scope Z_scope.

(** ** kernel/param.h, kernel/riscv.h *)

Definition NPROC : Z := 64.
Definition NCPU : Z := 8.
Definition NOFILE : Z := 16.
Definition NFILE : Z := 100.
Definition NINODE : Z := 50.
Definition NDEV : Z := 10.
Definition ROOTDEV : Z := 1.
Definition MAXARG : Z := 32.
Definition MAXOPBLOCKS : Z := 10.
Definition LOGSIZE : Z := MAXOPBLOCKS * 3.
Definition NBUF : Z := MAXOPBLOCKS * 3.
Definition FSSIZE : Z := 1000.
Definition MAXPATH : Z := 128.

Definition PGSIZE : Z := 4096.
Definition PGSHIFT : Z := 12.

(** ** Locks *)

Record spinlock := Spinlock {
  locked : bool;
  lk_name : string;
  lk_cpu : option Z
}.

Record sleeplock := Sleeplock {
  sl_locked : bool;
  sl_lk : spinlock;
  sl_name : string;
  sl_pid : Z
}.

(** ** Wait channels

    [sleep] and [wakeup] compare addresses; every address the sources use as
    a channel is a constructor, so distinct objects are distinct channels. *)

Inductive chan :=
  | ChProc (i : nat)          (* struct proc *, wait() *)
  | ChBufLock (i : nat)       (* &bcache.buf[i].lock *)
  | ChInodeLock (i : nat)     (* &itable.inode[i].lock *)
  | ChLog                     (* &log *)
  | ChPipeNread (pi : Z)      (* &pi->nread *)
  | ChPipeNwrite (pi : Z)     (* &pi->nwrite *)
  | ChTicks                   (* &ticks *)
  | ChConsR                   (* &cons.r *)
  | ChUartTxR                 (* &uart_tx_r *)
  | ChDiskFree                (* &disk.free[0] *)
  | ChBuf (i : nat).          (* struct buf *, virtio_disk_rw() *)

#[export] Instance chan_eq_dec : EqDecision chan.
Proof. solve_decision. Defined.

(** ** struct cpu, struct proc *)

(** [c_id] is the hart number in [tp], [c_intr] the SIE bit of sstatus. *)
Record cpu := Cpu {
  c_id : Z;
  c_proc : option nat;
  c_noff : Z;
  c_intena : bool;
  c_intr : bool
}.

Inductive procstate := UNUSED | USED | SLEEPING | RUNNABLE | RUNNING | ZOMBIE.

#[export] Instance procstate_eq_dec : EqDecision procstate.
Proof. solve_decision. Defined.

(** The saved registers of a kernel thread: ra, sp and s0-s11. *)
Record context := Context { ctx_ra : Z; ctx_sp : Z; ctx_s : list Z }.

Record proc := Proc {
  p_lock : spinlock;
  p_state : procstate;
  p_chan : option chan;
  p_killed : Z;
  p_xstate : Z;
  p_pid : Z;
  p_parent : option nat;
  p_kstack : Z;
  p_sz : Z;
  p_pagetable : Z;
  p_trapframe : Z;
  p_context : context;
  p_ofile : list (option nat);
  p_cwd : option nat;
  p_name : list Z
}.

Definition set_p_lock v p := Proc v (p_state p) (p_chan p) (p_killed p) (p_xstate p) (p_pid p)
  (p_parent p) (p_kstack p) (p_sz p) (p_pagetable p) (p_trapframe p) (p_context p)
  (p_ofile p) (p_cwd p) (p_name p).
Definition set_p_state v p := Proc (p_lock p) v (p_chan p) (p_killed p) (p_xstate p) (p_pid p)
  (p_parent p) (p_kstack p) (p_sz p) (p_pagetable p) (p_trapframe p) (p_context p)
  (p_ofile p) (p_cwd p) (p_name p).
Definition set_p_chan v p := Proc (p_lock p) (p_state p) v (p_killed p) (p_xstate p) (p_pid p)
  (p_parent p) (p_kstack p) (p_sz p) (p_pagetable p) (p_trapframe p) (p_context p)
  (p_ofile p) (p_cwd p) (p_name p).
Definition set_p_killed v p := Proc (p_lock p) (p_state p) (p_chan p) v (p_xstate p) (p_pid p)
  (p_parent p) (p_kstack p) (p_sz p) (p_pagetable p) (p_trapframe p) (p_context p)
  (p_ofile p) (p_cwd p) (p_name p).
Definition set_p_xstate v p := Proc (p_lock p) (p_state p) (p_chan p) (p_killed p) v (p_pid p)
  (p_parent p) (p_kstack p) (p_sz p) (p_pagetable p) (p_trapframe p) (p_context p)
  (p_ofile p) (p_cwd p) (p_name p).
Definition set_p_pid v p := Proc (p_lock p) (p_state p) (p_chan p) (p_killed p) (p_xstate p) v
  (p_parent p) (p_kstack p) (p_sz p) (p_pagetable p) (p_trapframe p) (p_context p)
  (p_ofile p) (p_cwd p) (p_name p).
Definition set_p_parent v p := Proc (p_lock p) (p_state p) (p_chan p) (p_killed p) (p_xstate p)
  (p_pid p) v (p_kstack p) (p_sz p) (p_pagetable p) (p_trapframe p) (p_context p)
  (p_ofile p) (p_cwd p) (p_name p).
Definition set_p_kstack v p := Proc (p_lock p) (p_state p) (p_chan p) (p_killed p) (p_xstate p)
  (p_pid p) (p_parent p) v (p_sz p) (p_pagetable p) (p_trapframe p) (p_context p)
  (p_ofile p) (p_cwd p) (p_name p).
Definition set_p_sz v p := Proc (p_lock p) (p_state p) (p_chan p) (p_killed p) (p_xstate p)
  (p_pid p) (p_parent p) (p_kstack p) v (p_pagetable p) (p_trapframe p) (p_context p)
  (p_ofile p) (p_cwd p) (p_name p).
Definition set_p_pagetable v p := Proc (p_lock p) (p_state p) (p_chan p) (p_killed p) (p_xstate p)
  (p_pid p) (p_parent p) (p_kstack p) (p_sz p) v (p_trapframe p) (p_context p)
  (p_ofile p) (p_cwd p) (p_name p).
Definition set_p_trapframe v p := Proc (p_lock p) (p_state p) (p_chan p) (p_killed p) (p_xstate p)
  (p_pid p) (p_parent p) (p_kstack p) (p_sz p) (p_pagetable p) v (p_context p)
  (p_ofile p) (p_cwd p) (p_name p).
Definition set_p_context v p := Proc (p_lock p) (p_state p) (p_chan p) (p_killed p) (p_xstate p)
  (p_pid p) (p_parent p) (p_kstack p) (p_sz p) (p_pagetable p) (p_trapframe p) v
  (p_ofile p) (p_cwd p) (p_name p).
Definition set_p_ofile v p := Proc (p_lock p) (p_state p) (p_chan p) (p_killed p) (p_xstate p)
  (p_pid p) (p_parent p) (p_kstack p) (p_sz p) (p_pagetable p) (p_trapframe p) (p_context p)
  v (p_cwd p) (p_name p).
Definition set_p_cwd v p := Proc (p_lock p) (p_state p) (p_chan p) (p_killed p) (p_xstate p)
  (p_pid p) (p_parent p) (p_kstack p) (p_sz p) (p_pagetable p) (p_trapframe p) (p_context p)
  (p_ofile p) v (p_name p).
Definition set_p_name v p := Proc (p_lock p) (p_state p) (p_chan p) (p_killed p) (p_xstate p)
  (p_pid p) (p_parent p) (p_kstack p) (p_sz p) (p_pagetable p) (p_trapframe p) (p_context p)
  (p_ofile p) (p_cwd p) v.

(** ** The context of a kernel function

    The hart it runs on and the process table.  [cx_fuel] bounds how many
    times a [while(cond) sleep(...)] loop re-tests its condition. *)
Record ctx := Ctx {
  cx_cpu : cpu;
  cx_procs : list proc;
  cx_fuel : nat
}.

Definition set_cx_cpu v c := Ctx v (cx_procs c) (cx_fuel c).
Definition set_cx_procs v c := Ctx (cx_cpu c) v (cx_fuel c).

(** ** Lenses

    Where in the state an object lives.  [get] answers [None] for a null or
    out-of-range pointer. *)
Record lens (S T : Type) := Lens {
  get : S -> option T;
  put : T -> S -> S
}.
Arguments Lens {S T} get put.
Arguments get {S T} l s : rename.
Arguments put {S T} l t s : rename.

Class LensOk {S T} (l : lens S T) : Prop := {
  get_put : forall s t, is_Some (get l s) -> get l (put l t s) = Some t;
  put_put : forall s t t', put l t (put l t' s) = put l t s;
  put_get : forall s t, get l s = Some t -> put l t s = s
}.

(** A field of the component, seen from the whole state. *)
Definition inS {S T} (l : lens S T) : lens (ctx * S) T :=
  Lens (fun w => get l (snd w)) (fun t w => (fst w, put l t (snd w))).

Definition inC {S T} (l : lens ctx T) : lens (ctx * S) T :=
  Lens (fun w => get l (fst w)) (fun t w => (put l t (fst w), snd w)).

Definition comp {S T U} (l : lens S T) (k : lens T U) : lens S U :=
  Lens (fun s => t ← get l s; get k t)
       (fun u s => match get l s with Some t => put l (put k u t) s | None => s end).

#[export] Instance inS_ok {S T} (l : lens S T) `{!LensOk l} : LensOk (inS l).
Proof.
  split; unfold inS; intros [c s]; simpl; intros.
  - by apply get_put.
  - by rewrite put_put.
  - by rewrite put_get.
Qed.

#[export] Instance inC_ok {S T} (l : lens ctx T) `{!LensOk l} : LensOk (@inC S T l).
Proof.
  split; unfold inC; intros [c s]; simpl; intros.
  - by apply get_put.
  - by rewrite put_put.
  - by rewrite put_get.
Qed.

#[export] Instance comp_ok {S T U} (l : lens S T) (k : lens T U) `{!LensOk l, !LensOk k} :
  LensOk (comp l k).
Proof.
  split; unfold comp; simpl; intros s.
  - intros u [u0 Hu]. destruct (get l s) as [t|] eqn:Et; simpl in *; [|done].
    rewrite get_put by eauto. simpl. apply get_put. eauto.
  - intros u u'. destruct (get l s) as [t|] eqn:Et; [|by rewrite Et].
    rewrite get_put by eauto. by rewrite !put_put.
  - intros u Hu. destruct (get l s) as [t|] eqn:Et; [|done]. simpl in Hu.
    rewrite (put_get t u) by done. by apply put_get.
Qed.

(** The element of an array. *)
Definition elem {A} (i : nat) : lens (list A) A :=
  Lens (fun l => l !! i) (fun a l => <[i := a]> l).

#[export] Instance elem_ok {A} i : LensOk (@elem A i).
Proof.
  split; simpl; intros l.
  - intros a Ha. apply list_lookup_insert_eq. by apply lookup_lt_is_Some.
  - intros a b. apply list_insert_insert_eq.
  - intros a Ha. by apply list_insert_id.
Qed.

Definition procs_lens : lens ctx (list proc) := Lens (fun c => Some (cx_procs c)) set_cx_procs.
Definition proc_lens (i : nat) : lens ctx proc := comp procs_lens (elem i).
Definition p_lock_lens : lens proc spinlock := Lens (fun p => Some (p_lock p)) set_p_lock.
Definition plock (i : nat) : lens ctx spinlock := comp (proc_lens i) p_lock_lens.

#[export] Instance procs_lens_ok : LensOk procs_lens.
Proof. split; [done|done|]. intros [] t; simpl. intros [= ->]. done. Qed.

#[export] Instance p_lock_lens_ok : LensOk p_lock_lens.
Proof. split; [done|done|]. intros [] t; simpl. intros [= ->]. done. Qed.

(** ** The monad *)

Inductive outcome (S A : Type) :=
  | Ret (a : A) (w : ctx * S)
  | Panic (msg : string)
  | Fault                                   (* null or wild pointer *)
  | Hang                                    (* spins forever, or fuel used up *)
  | Swtch (w : ctx * S) (k : ctx * S -> outcome S A).
Arguments Ret {S A}.
Arguments Panic {S A}.
Arguments Fault {S A}.
Arguments Hang {S A}.
Arguments Swtch {S A}.

Definition K (S A : Type) : Type := ctx * S -> outcome S A.

Fixpoint obind {S A B} (o : outcome S A) (f : A -> K S B) : outcome S B :=
  match o with
  | Ret a w => f a w
  | Panic m => Panic m
  | Fault => Fault
  | Hang => Hang
  | Swtch w k => Swtch w (fun w' => obind (k w') f)
  end.

#[export] Instance K_ret S : MRet (K S) := fun A a w => Ret a w.
#[export] Instance K_bind S : MBind (K S) := fun A B f m w => obind (m w) f.

Section Primitives.
Context {S : Type}.

Definition panic {A} (msg : string) : K S A := fun _ => Panic msg.
Definition fault {A} : K S A := fun _ => Fault.
Definition hang {A} : K S A := fun _ => Hang.

(** Read and write the object at [l]. *)
Definition load {T} (l : lens (ctx * S) T) : K S T :=
  fun w => match get l w with Some t => Ret t w | None => Fault end.
Definition store {T} (l : lens (ctx * S) T) (t : T) : K S unit :=
  fun w => match get l w with Some _ => Ret tt (put l t w) | None => Fault end.
Definition update {T} (l : lens (ctx * S) T) (f : T -> T) : K S unit :=
  fun w => match get l w with Some t => Ret tt (put l (f t) w) | None => Fault end.

Definition asks {A} (f : ctx * S -> A) : K S A := fun w => Ret (f w) w.
Definition modify (f : S -> S) : K S unit := fun w => Ret tt (fst w, f (snd w)).

(** [swtch(&p->context, &mycpu()->context)] *)
Definition swtch : K S unit := fun w => Swtch w (fun w' => Ret tt w').

(** [while(cond) body] with the context's fuel. *)
Fixpoint while_fuel (n : nat) (cond : K S bool) (body : K S unit) : K S unit :=
  match n with
  | O => hang
  | Datatypes.S k => b ← cond; if (b : bool) then body ;; while_fuel k cond body else mret tt
  end.

Definition while (cond : K S bool) (body : K S unit) : K S unit :=
  fun w => while_fuel (cx_fuel (fst w)) cond body w.

(** A loop whose rounds the context's fuel bounds. *)
Definition with_fuel {A} (f : nat -> K S A) : K S A := fun w => f (cx_fuel (fst w)) w.

(** [for(i in l) body i] over a range that the loop does not change. *)
Fixpoint for_each {A} (l : list A) (body : A -> K S unit) : K S unit :=
  match l with
  | [] => mret tt
  | a :: r => body a ;; for_each r body
  end.

End Primitives.

(** Run a component's function inside a larger state. *)
Fixpoint ozoom {S T A} (l : lens S T) (s : S) (o : outcome T A) : outcome S A :=
  match o with
  | Ret a w => Ret a (fst w, put l (snd w) s)
  | Panic m => Panic m
  | Fault => Fault
  | Hang => Hang
  | Swtch w k =>
      Swtch (fst w, put l (snd w) s)
        (fun w' => match get l (snd w') with
                   | Some t => ozoom l (snd w') (k (fst w', t))
                   | None => Fault
                   end)
  end.

Definition zoom {S T A} (l : lens S T) (m : K T A) : K S A :=
  fun w => match get l (snd w) with
           | Some t => ozoom l (snd w) (m (fst w, t))
           | None => Fault
           end.

(** ** Weakest preconditions

    [wp E m Q w]: [m] started in [w] neither panics, faults nor hangs; each
    time it gives up the CPU the state satisfies [guar E], and whatever the
    rest of the system does in between within [rely E], it ends in [Q]. *)
Record env (S : Type) := Env {
  guar : ctx * S -> Prop;
  rely : ctx * S -> ctx * S -> Prop
}.
Arguments Env {S}.
Arguments guar {S}.
Arguments rely {S}.

(** The environment of a run that never gives up the CPU. *)
Definition solo {S} : env S := Env (fun _ => False) (fun _ _ => False).

Fixpoint owp {S A} (E : env S) (o : outcome S A) (Q : A -> ctx * S -> Prop) : Prop :=
  match o with
  | Ret a w => Q a w
  | Swtch w k => guar E w /\ forall w', rely E w w' -> owp E (k w') Q
  | _ => False
  end.

Definition wp {S A} (E : env S) (m : K S A) (Q : A -> ctx * S -> Prop) (w : ctx * S) : Prop :=
  owp E (m w) Q.

Section Wp.
Context {S : Type} (E : env S).
Implicit Types w : ctx * S.

Lemma owp_mono {A} (o : outcome S A) (Q Q' : A -> ctx * S -> Prop) :
  (forall a w, Q a w -> Q' a w) -> owp E o Q -> owp E o Q'.
Proof. intros HQ. induction o as [| | | |w k IH]; simpl; naive_solver. Qed.

Lemma owp_bind {A B} (o : outcome S A) (f : A -> K S B) Q :
  owp E (obind o f) Q <-> owp E o (fun a w => wp E (f a) Q w).
Proof. induction o as [| | | |w k IH]; simpl; try done. naive_solver. Qed.

Lemma wp_bind {A B} (m : K S A) (f : A -> K S B) Q w :
  wp E (m ≫= f) Q w <-> wp E m (fun a w' => wp E (f a) Q w') w.
Proof. apply owp_bind. Qed.

Lemma wp_mono {A} (m : K S A) (Q Q' : A -> ctx * S -> Prop) w :
  wp E m Q w -> (forall a w', Q a w' -> Q' a w') -> wp E m Q' w.
Proof. intros H HQ. by eapply owp_mono. Qed.

Lemma wp_ret {A} (a : A) Q w : wp E (mret a) Q w <-> Q a w.
Proof. done. Qed.

(** A run with a known result. *)
Lemma wp_run {A} (m : K S A) (Q : A -> ctx * S -> Prop) w a w' :
  m w = Ret a w' -> Q a w' -> wp E m Q w.
Proof. intros H HQ. unfold wp. by rewrite H. Qed.

Lemma wp_step {A B} (m : K S A) (f : A -> K S B) Q w a w' :
  m w = Ret a w' -> wp E (f a) Q w' -> wp E (m ≫= f) Q w.
Proof. intros H HQ. apply wp_bind. by eapply wp_run. Qed.

End Wp.

(** A loop over 0 .. n-1 keeps an invariant of the index. *)
Lemma wp_for_range {S} (E : env S) (n : Z) (body : Z -> K S unit) (I : Z -> ctx * S -> Prop) Q w :
  0 <= n -> I 0 w ->
  (forall k w, 0 <= k < n -> I k w -> wp E (body k) (fun _ w' => I (k + 1) w') w) ->
  (forall w, I n w -> Q tt w) ->
  wp E (for_each (seqZ 0 n) body) Q w.
Proof.
  intros Hn H0 Hb HQ.
  assert (H : forall m k w, 0 <= k -> k + Z.of_nat m = n -> I k w -> wp E (for_each (seqZ k (Z.of_nat m)) body) Q w).
  { induction m as [|m IH]; intros k w' Hk Hm HI.
    - replace k with n in HI by lia. simpl. by apply wp_ret, HQ.
    - rewrite seqZ_cons by lia. cbn [for_each]. apply wp_bind. eapply wp_mono; [apply Hb; [lia|done]|].
      intros [] w'' HI'. replace (Z.pred (Z.of_nat (Datatypes.S m))) with (Z.of_nat m) by lia.
      apply IH; [lia|lia|]. by replace (Z.succ k) with (k + 1) by lia. }
  rewrite <- (Z2Nat.id n Hn). apply H; lia || done.
Qed.

Lemma wp_solo {S A} (m : K S A) Q w :
  wp solo m Q w <-> exists a w', m w = Ret a w' /\ Q a w'.
Proof.
  unfold wp. split.
  - destruct (m w) eqn:Em; simpl; naive_solver.
  - intros (a & w' & -> & HQ). done.
Qed.

(** A run that never gives up the CPU does the same in every environment. *)
Lemma wp_solo_env {S A} (E : env S) (m : K S A) Q w : wp solo m Q w -> wp E m Q w.
Proof. rewrite wp_solo. intros (a & w' & Hm & HQ). by eapply wp_run. Qed.

(** Sequencing known runs. *)
Lemma bind_ret {S A B} (m : K S A) (f : A -> K S B) w a w' :
  m w = Ret a w' -> (m ≫= f) w = f a w'.
Proof. intros H. unfold mbind, K_bind. by rewrite H. Qed.

Lemma bind_panic {S A B} (m : K S A) (f : A -> K S B) w msg :
  m w = Panic msg -> (m ≫= f) w = Panic msg.
Proof. intros H. unfold mbind, K_bind. by rewrite H. Qed.

Lemma mret_bind {S A B} (a : A) (f : A -> K S B) w : (mret a ≫= f) w = f a w.
Proof. done. Qed.

Lemma load_some {S T} (l : lens (ctx * S) T) w t : get l w = Some t -> load l w = Ret t w.
Proof. intros H. unfold load. by rewrite H. Qed.

Lemma store_some {S T} (l : lens (ctx * S) T) w t t' :
  get l w = Some t -> store l t' w = Ret tt (put l t' w).
Proof. intros H. unfold store. by rewrite H. Qed.

Lemma update_some {S T} (l : lens (ctx * S) T) w t f :
  get l w = Some t -> update l f w = Ret tt (put l (f t) w).
Proof. intros H. unfold update. by rewrite H. Qed.

Lemma zoom_ret {S T A} (l : lens S T) (m : K T A) c s t a c' t' :
  get l s = Some t -> m (c, t) = Ret a (c', t') -> zoom l m (c, s) = Ret a (c', put l t' s).
Proof. intros Hg Hm. unfold zoom. simpl. by rewrite Hg, Hm. Qed.

Lemma zoom_panic {S T A} (l : lens S T) (m : K T A) c s t msg :
  get l s = Some t -> m (c, t) = Panic msg -> zoom l m (c, s) = Panic msg.
Proof. intros Hg Hm. unfold zoom. simpl. by rewrite Hg, Hm. Qed.

(** Run the goal's program forward over one known step. *)
Ltac kstep H := rewrite (bind_ret _ _ _ _ _ H).
(** Side conditions about contexts and locks. *)
Create HintDb kernel.

Tactic Notation "kstep" "by" tactic(tac) := erewrite bind_ret by tac.
