(* ===== verification/Spinlock.v ===== *)
(** * Spin locks (kernel/spinlock.c)

    The lock operations as functions of the hart that runs them, and, in
    [MP], the same code at the grain of single memory accesses run by any
    number of harts at once, where mutual exclusion is proved. *)

From stdpp Require Import base numbers list gmap strings relations functions.
From Stdlib Require Import ZArith Lia.
From S2P Require Import Prelude.
From S2P Require Import Machine.

Local Open Scope Z_scope.

(** ** The hart *)

Definition set_c_proc v c := Cpu (c_id c) v (c_noff c) (c_intena c) (c_intr c).
Definition set_c_noff v c := Cpu (c_id c) (c_proc c) v (c_intena c) (c_intr c).
Definition set_c_intena v c := Cpu (c_id c) (c_proc c) (c_noff c) v (c_intr c).
Definition set_c_intr v c := Cpu (c_id c) (c_proc c) (c_noff c) (c_intena c) v.

Definition cpu_lens : lens ctx cpu := Lens (fun c => Some (cx_cpu c)) set_cx_cpu.

#[export] Instance cpu_lens_ok : LensOk cpu_lens.
Proof. split; [done|done|]. intros [] t; simpl. by intros [= ->]. Qed.

Section Code.
Context {S : Type}.
Implicit Types l : lens (ctx * S) spinlock.

Definition mycpu : K S cpu := load (inC cpu_lens).
Definition upd_mycpu (f : cpu -> cpu) : K S unit := update (inC cpu_lens) f.
Definition cpuid : K S Z := c ← mycpu; mret (c_id c).

Definition intr_get : K S bool := c ← mycpu; mret (c_intr c).
Definition intr_on : K S unit := upd_mycpu (set_c_intr true).
Definition intr_off : K S unit := upd_mycpu (set_c_intr false).

Definition push_off : K S unit :=
  old ← intr_get;
  intr_off ;;
  c ← mycpu;
  (if c_noff c =? 0 then upd_mycpu (set_c_intena old) else mret tt) ;;
  upd_mycpu (fun c => set_c_noff (c_noff c + 1) c).

Definition pop_off : K S unit :=
  c ← mycpu;
  i ← intr_get;
  if (i : bool) then panic "pop_off - interruptible" else
  if c_noff c <? 1 then panic "pop_off" else
  upd_mycpu (fun c => set_c_noff (c_noff c - 1) c) ;;
  c ← mycpu;
  if (c_noff c =? 0) && c_intena c then intr_on else mret tt.

Definition myproc : K S (option nat) :=
  push_off ;;
  c ← mycpu;
  let p := c_proc c in
  pop_off ;;
  mret p.

Definition initlock l (name : string) : K S unit :=
  update l (fun lk => Spinlock (locked lk) name (lk_cpu lk)) ;;
  update l (fun lk => Spinlock false (lk_name lk) (lk_cpu lk)) ;;
  update l (fun lk => Spinlock (locked lk) (lk_name lk) None).

Definition holding l : K S bool :=
  lk ← load l;
  c ← mycpu;
  mret (locked lk && bool_decide (lk_cpu lk = Some (c_id c))).

(** [__sync_lock_test_and_set(&lk->locked, 1)] *)
Definition test_and_set l : K S bool :=
  lk ← load l;
  store l (Spinlock true (lk_name lk) (lk_cpu lk)) ;;
  mret (locked lk).

(** A hart that finds the lock taken spins; nothing it does itself can
    change the answer of the next swap. *)
Definition acquire l : K S unit :=
  push_off ;;
  h ← holding l;
  if (h : bool) then panic "acquire" else
  old ← test_and_set l;
  if (old : bool) then hang else
  c ← mycpu;
  update l (fun lk => Spinlock (locked lk) (lk_name lk) (Some (c_id c))).

Definition release l : K S unit :=
  h ← holding l;
  if negb h then panic "release" else
  update l (fun lk => Spinlock (locked lk) (lk_name lk) None) ;;
  update l (fun lk => Spinlock false (lk_name lk) (lk_cpu lk)) ;;
  pop_off.

End Code.

(** ** What the operations compute *)

Definition push_cpu (c : cpu) : cpu :=
  Cpu (c_id c) (c_proc c) (c_noff c + 1)
      (if c_noff c =? 0 then c_intr c else c_intena c) false.

Definition pop_cpu (c : cpu) : cpu :=
  Cpu (c_id c) (c_proc c) (c_noff c - 1) (c_intena c)
      (if (c_noff c - 1 =? 0) && c_intena c then true else c_intr c).

(** Interrupts are off whenever the nesting depth is positive. *)
Definition cpu_ok (c : cpu) : Prop := 0 <= c_noff c /\ (0 < c_noff c -> c_intr c = false).

(** What a matched pair leaves: the same hart, with [intena] caught up with
    the interrupt state when the depth is back to zero. *)
Definition settle (c : cpu) : cpu :=
  if c_noff c =? 0 then set_c_intena (c_intr c) c else c.

Definition upd_cpu {S} (f : cpu -> cpu) (w : ctx * S) : ctx * S :=
  (set_cx_cpu (f (cx_cpu (fst w))) (fst w), snd w).

Definition hart {S} (w : ctx * S) : cpu := cx_cpu (fst w).

Definition held_by (lk : spinlock) (h : Z) : Prop := locked lk = true /\ lk_cpu lk = Some h.
Definition held (lk : spinlock) (h : Z) : spinlock := Spinlock true (lk_name lk) (Some h).
Definition unheld (lk : spinlock) : spinlock := Spinlock false (lk_name lk) None.

(** A place that holds a lock, and no part of the hart. *)
Class LockAt {S} (l : lens (ctx * S) spinlock) : Prop := {
  lock_lens_ok :: LensOk l;
  lock_get_cpu : forall f w, get l (upd_cpu f w) = get l w;
  lock_put_cpu : forall f lk w, put l lk (upd_cpu f w) = upd_cpu f (put l lk w);
  lock_hart : forall lk w, hart (put l lk w) = hart w
}.

#[export] Instance inS_lock {S} (l : lens S spinlock) `{!LensOk l} : LockAt (inS l).
Proof. split; [apply _|by intros ? []..]. Qed.

#[export] Instance plock_lock {S} i : LockAt (@inC S _ (plock i)).
Proof.
  split; [apply _|done| |].
  - intros f lk [[cp ps fu] s]. unfold upd_cpu, inC, plock, proc_lens, procs_lens, comp. simpl.
    by destruct (ps !! i).
  - intros lk [[cp ps fu] s]. unfold hart, inC, plock, proc_lens, procs_lens, comp. simpl.
    by destruct (ps !! i).
Qed.

Lemma pop_push_cpu c : cpu_ok c -> pop_cpu (push_cpu c) = settle c.
Proof.
  intros [H0 Hi]. destruct c as [i p n ie it]. unfold pop_cpu, push_cpu, settle; simpl in *.
  replace (n + 1 - 1) with n by lia. destruct (Z.eqb_spec n 0); simpl.
  - by destruct it.
  - by rewrite Hi by lia.
Qed.

Lemma push_cpu_ok c : cpu_ok c -> cpu_ok (push_cpu c).
Proof. unfold cpu_ok, push_cpu; simpl. split; [lia|done]. Qed.

Lemma settle_idem c : settle (settle c) = settle c.
Proof. destruct c as [i p n ie it]; unfold settle; simpl. by destruct (Z.eqb_spec n 0) as [->|Hn]; simpl; [|apply Z.eqb_neq in Hn as ->]. Qed.

Lemma settle_ok c : cpu_ok c -> cpu_ok (settle c).
Proof. unfold cpu_ok, settle. by destruct (c_noff c =? 0). Qed.

Lemma push_settle c : push_cpu (settle c) = push_cpu c.
Proof. destruct c as [i p n ie it]; unfold settle, push_cpu; simpl. by destruct (n =? 0) eqn:En; simpl; rewrite En. Qed.

Lemma upd_cpu_upd {S} f g (w : ctx * S) : upd_cpu f (upd_cpu g w) = upd_cpu (fun c => f (g c)) w.
Proof. done. Qed.

Lemma mycpu_run {S} (w : ctx * S) : mycpu w = Ret (hart w) w.
Proof. done. Qed.

Lemma push_off_run {S} (w : ctx * S) : push_off w = Ret tt (upd_cpu push_cpu w).
Proof.
  destruct w as [[[i p n ie it] ps fu] s]. cbv -[Z.eqb Z.add]. by destruct (n =? 0).
Qed.

Lemma pop_off_run {S} (w : ctx * S) :
  c_intr (hart w) = false -> 1 <= c_noff (hart w) -> pop_off w = Ret tt (upd_cpu pop_cpu w).
Proof.
  destruct w as [[[i p n ie it] ps fu] s]. unfold hart; simpl. intros -> Hn.
  assert (Hlt : (n <? 1) = false) by (apply Z.ltb_ge; lia).
  unfold pop_off, mycpu, intr_get, upd_mycpu, upd_cpu, pop_cpu, mbind, K_bind, load, update; simpl.
  rewrite Hlt. simpl. by destruct ((n - 1 =? 0) && ie).
Qed.

Lemma myproc_run {S} (w : ctx * S) :
  cpu_ok (hart w) -> myproc w = Ret (c_proc (hart w)) (upd_cpu settle w).
Proof.
  intros Hok. unfold myproc. rewrite (bind_ret _ _ _ _ _ (push_off_run w)).
  erewrite bind_ret by reflexivity.
  destruct w as [[[i p n ie it] ps fu] s]. unfold hart in *. simpl in Hok.
  erewrite bind_ret by (apply pop_off_run; [done|destruct Hok; unfold hart; simpl in *; lia]).
  rewrite upd_cpu_upd. unfold mret, K_ret, upd_cpu. simpl. by rewrite pop_push_cpu.
Qed.

Section Runs.
Context {S : Type} (l : lens (ctx * S) spinlock) `{!LockAt l}.
Implicit Types w : ctx * S.

Lemma holding_run w lk :
  get l w = Some lk ->
  holding l w = Ret (locked lk && bool_decide (lk_cpu lk = Some (c_id (hart w)))) w.
Proof. intros H. unfold holding. by rewrite (bind_ret _ _ _ _ _ (load_some _ _ _ H)). Qed.

Lemma test_and_set_run w lk :
  get l w = Some lk ->
  test_and_set l w = Ret (locked lk) (put l (Spinlock true (lk_name lk) (lk_cpu lk)) w).
Proof.
  intros H. unfold test_and_set. rewrite (bind_ret _ _ _ _ _ (load_some _ _ _ H)).
  by rewrite (bind_ret _ _ _ _ _ (store_some _ _ _ _ H)).
Qed.

Lemma acquire_run w lk :
  get l w = Some lk -> locked lk = false ->
  acquire l w = Ret tt (put l (held lk (c_id (hart w))) (upd_cpu push_cpu w)).
Proof.
  intros Hg Hf. unfold acquire. rewrite (bind_ret _ _ _ _ _ (push_off_run w)).
  assert (Hg' : get l (upd_cpu push_cpu w) = Some lk) by by rewrite lock_get_cpu.
  rewrite (bind_ret _ _ _ _ _ (holding_run _ _ Hg')), Hf. simpl.
  rewrite (bind_ret _ _ _ _ _ (test_and_set_run _ _ Hg')), Hf.
  rewrite (bind_ret _ _ _ _ _ (mycpu_run _)).
  erewrite update_some by (apply get_put; eauto). by rewrite put_put, lock_hart.
Qed.

Lemma acquire_twice w lk :
  get l w = Some lk -> held_by lk (c_id (hart w)) -> acquire l w = Panic "acquire".
Proof.
  intros Hg [Hl Hc]. unfold acquire. rewrite (bind_ret _ _ _ _ _ (push_off_run w)).
  assert (Hg' : get l (upd_cpu push_cpu w) = Some lk) by by rewrite lock_get_cpu.
  rewrite (bind_ret _ _ _ _ _ (holding_run _ _ Hg')), Hl.
  by rewrite bool_decide_true by done.
Qed.

Lemma release_run w lk :
  get l w = Some lk -> held_by lk (c_id (hart w)) ->
  c_intr (hart w) = false -> 1 <= c_noff (hart w) ->
  release l w = Ret tt (upd_cpu pop_cpu (put l (unheld lk) w)).
Proof.
  intros Hg [Hl Hc] Hi Hn. unfold release.
  rewrite (bind_ret _ _ _ _ _ (holding_run _ _ Hg)), Hl, bool_decide_true by done. simpl.
  erewrite bind_ret by by eapply update_some.
  erewrite bind_ret by (eapply update_some, get_put; eauto).
  rewrite put_put. apply pop_off_run; by rewrite lock_hart.
Qed.

Lemma release_unheld w lk :
  get l w = Some lk -> ~ held_by lk (c_id (hart w)) -> release l w = Panic "release".
Proof.
  intros Hg Hn. unfold release. rewrite (bind_ret _ _ _ _ _ (holding_run _ _ Hg)).
  unfold held_by in Hn. destruct (locked lk); simpl; [|done].
  rewrite bool_decide_false; naive_solver.
Qed.

End Runs.

(** Step over an acquire() of a free lock, a release() of a held one, or a
    primitive that computes. *)
Ltac k_acquire := erewrite bind_ret; [|eapply acquire_run; [apply _|reflexivity|done]].
Ltac k_release :=
  erewrite bind_ret; [|eapply release_run; [apply _|reflexivity|done|done|unfold cpu_ok, hart in *; simpl in *; lia]].
Ltac k_prim := erewrite bind_ret by reflexivity.

(** A critical section whose body is known to run: the lock is free again
    and the hart is as [settle] leaves it. *)
Lemma crit_run {S A} (l : lens (ctx * S) spinlock) `{!LockAt l} (m : K S A) w lk a w' :
  get l w = Some lk -> locked lk = false -> cpu_ok (hart w) ->
  m (put l (held lk (c_id (hart w))) (upd_cpu push_cpu w)) = Ret a w' ->
  get l w' = Some (held lk (c_id (hart w))) -> hart w' = push_cpu (hart w) ->
  (acquire l ;; x ← m; release l ;; mret x) w =
    Ret a (upd_cpu (fun _ => settle (hart w)) (put l (unheld lk) w')).
Proof.
  intros Hg Hf Hok Hm Hg' Hh. rewrite (bind_ret _ _ _ _ _ (acquire_run l _ _ Hg Hf)).
  rewrite (bind_ret _ _ _ _ _ Hm). erewrite bind_ret; [|apply release_run; [done|exact Hg'|..]].
  - unfold mret, K_ret. f_equal. rewrite <- (pop_push_cpu _ Hok). unfold upd_cpu.
    fold (hart (put l (unheld (held lk (c_id (hart w)))) w')). by rewrite lock_hart, Hh.
  - by rewrite Hh.
  - by rewrite Hh.
  - rewrite Hh. simpl. destruct Hok. lia.
Qed.

(** ** Matched nesting *)

Fixpoint repeat_k {S} (n : nat) (m : K S unit) : K S unit :=
  match n with O => mret tt | Datatypes.S k => m ;; repeat_k k m end.

Lemma repeat_push {S} n (w : ctx * S) :
  repeat_k n push_off w = Ret tt (upd_cpu (Nat.iter n push_cpu) w).
Proof.
  revert w. induction n as [|n IH]; intros w; [by destruct w as [[] ?]|].
  cbn [repeat_k]. rewrite (bind_ret _ _ _ _ _ (push_off_run w)), IH, upd_cpu_upd.
  unfold upd_cpu. by rewrite Nat.iter_succ_r.
Qed.

Lemma iter_push_cpu n c :
  0 <= c_noff c ->
  Nat.iter (S n) push_cpu c =
    Cpu (c_id c) (c_proc c) (c_noff c + Z.of_nat (S n))
        (if c_noff c =? 0 then c_intr c else c_intena c) false.
Proof.
  intros H. induction n as [|n IH].
  - unfold push_cpu. simpl. done.
  - rewrite Nat.iter_succ, IH. unfold push_cpu at 1. cbn [c_id c_proc c_noff c_intena c_intr].
    rewrite (proj2 (Z.eqb_neq (c_noff c + Z.of_nat (S n)) 0)) by lia. f_equal. lia.
Qed.

Lemma repeat_pop {S} n (w : ctx * S) :
  c_intr (hart w) = false -> Z.of_nat (Datatypes.S n) <= c_noff (hart w) ->
  repeat_k (Datatypes.S n) pop_off w =
    Ret tt (upd_cpu (fun c => Cpu (c_id c) (c_proc c) (c_noff c - Z.of_nat (Datatypes.S n)) (c_intena c)
      ((c_noff c =? Z.of_nat (Datatypes.S n)) && c_intena c)) w).
Proof.
  revert w. induction n as [|n IH]; intros w Hi Hn.
  - cbn [repeat_k]. rewrite (bind_ret _ _ _ _ _ (pop_off_run w Hi ltac:(lia))).
    unfold mret, K_ret, upd_cpu, pop_cpu. fold (hart w). rewrite Hi. do 4 f_equal.
    replace (c_noff (hart w) =? Z.of_nat 1) with (c_noff (hart w) - 1 =? 0)
      by (apply eq_true_iff_eq; rewrite !Z.eqb_eq; lia).
    by destruct (_ && _).
  - remember (Datatypes.S n) as k eqn:Hk. cbn [repeat_k].
    rewrite (bind_ret _ _ _ _ _ (pop_off_run w Hi ltac:(lia))).
    assert (Hz : (c_noff (hart w) - 1 =? 0) = false) by (apply Z.eqb_neq; lia).
    rewrite IH; unfold upd_cpu, hart, pop_cpu in *; cbn [fst snd cx_cpu set_cx_cpu c_id c_proc c_noff c_intena c_intr] in *;
      rewrite ?Hz; [|done|lia].
    set (x := cx_cpu w.1) in *.
    replace (c_noff x - 1 - Z.of_nat k) with (c_noff x - Z.of_nat (Datatypes.S k)) by lia.
    by replace (c_noff x - 1 =? Z.of_nat k) with (c_noff x =? Z.of_nat (Datatypes.S k))
      by (apply eq_true_iff_eq; rewrite !Z.eqb_eq; lia).
Qed.

(** push_off()/pop_off() are matched.  However deep the nesting, after n
    push_off()s interrupts are off, and after n pop_off()s the nesting depth
    and the interrupt-enable state are what they were; nothing else changed. *)
Theorem push_pop_matched {S} n (w : ctx * S) :
  cpu_ok (hart w) ->
  exists w1 w2,
    repeat_k (Datatypes.S n) push_off w = Ret tt w1 /\
    c_intr (hart w1) = false /\ c_noff (hart w1) = c_noff (hart w) + Z.of_nat (Datatypes.S n) /\
    repeat_k (Datatypes.S n) pop_off w1 = Ret tt w2 /\
    w2 = upd_cpu settle w /\
    c_intr (hart w2) = c_intr (hart w) /\ c_noff (hart w2) = c_noff (hart w).
Proof.
  intros [H0 Hi]. eexists _, _. split; [apply repeat_push|].
  unfold hart at 1 2, upd_cpu. cbn [fst cx_cpu set_cx_cpu]. rewrite iter_push_cpu by done.
  split; [done|]. split; [done|]. split.
  - rewrite repeat_pop; [reflexivity|done|unfold hart in *; cbn [fst cx_cpu set_cx_cpu c_noff]; lia].
  - destruct w as [[[i p m ie it] ps fu] s]. unfold upd_cpu, settle, hart, set_cx_cpu in *. cbn in *.
    rewrite Z.add_simpl_r.
    replace (m + _ =? _) with (m =? 0) by (apply eq_true_iff_eq; rewrite !Z.eqb_eq; lia).
    destruct (Z.eqb_spec m 0) as [->|Hm]; simpl; [done|]. by rewrite Hi by lia.
Qed.

Example w0 : ctx * unit := (Ctx (Cpu 0 None 0 false true) [] 1, tt).

Lemma push_pop_matched_witness :
  exists w1 w2, repeat_k 3 push_off w0 = Ret tt w1 /\ c_intr (hart w1) = false /\
    repeat_k 3 pop_off w1 = Ret tt w2 /\ c_intr (hart w2) = true.
Proof.
  destruct (push_pop_matched 2 w0) as (w1 & w2 & H1 & H2 & _ & H3 & _ & H4 & _).
  - split; simpl; [lia|discriminate].
  - exists w1, w2. exact (conj H1 (conj H2 (conj H3 H4))).
Defined.

(** ** Several harts

    acquire() and release() cut at every access to the shared lock, as steps
    of one hart among any number, all using the same lock. *)
Module MP.

Inductive pc :=
  | Idle                   (* outside *)
  | AHold1                 (* acquire: push_off() done, read lk->locked for holding() *)
  | AHold2                 (* acquire: read lk->cpu for holding() *)
  | ASwap                  (* acquire: the test-and-set loop *)
  | ASetCpu                (* acquire: lk->cpu = mycpu() *)
  | Crit                   (* between acquire() and release() *)
  | RHold2                 (* release: holding() read lk->locked, read lk->cpu *)
  | RClear                 (* release: lk->cpu = 0 *)
  | RUnlock                (* release: __sync_lock_release(&lk->locked) *)
  | RPop                   (* release: pop_off() *)
  | Dead (msg : string).   (* panic() *)

Record state := State {
  lock : spinlock;
  pcs : Z -> pc;
  cpus : Z -> cpu
}.

Definition at_pc (st : state) (h : Z) (p : pc) : state :=
  State (lock st) (<[h := p]> (pcs st)) (cpus st).
Definition set_lock (lk : spinlock) (st : state) : state := State lk (pcs st) (cpus st).
Definition set_cpu (h : Z) (c : cpu) (st : state) : state :=
  State (lock st) (pcs st) (<[h := c]> (cpus st)).

(** One step of hart [h]. *)
Inductive step (h : Z) (st : state) : state -> Prop :=
  | step_acquire :
      pcs st h = Idle ->
      step h st (at_pc (set_cpu h (push_cpu (cpus st h)) st) h AHold1)
  | step_ahold1 :
      pcs st h = AHold1 ->
      step h st (at_pc st h (if locked (lock st) then AHold2 else ASwap))
  | step_ahold2 :
      pcs st h = AHold2 ->
      step h st (at_pc st h (if bool_decide (lk_cpu (lock st) = Some (c_id (cpus st h)))
                             then Dead "acquire" else ASwap))
  | step_swap :
      pcs st h = ASwap ->
      step h st (at_pc (set_lock (Spinlock true (lk_name (lock st)) (lk_cpu (lock st))) st) h
                   (if locked (lock st) then ASwap else ASetCpu))
  | step_setcpu :
      pcs st h = ASetCpu ->
      step h st (at_pc (set_lock (Spinlock (locked (lock st)) (lk_name (lock st))
                                    (Some (c_id (cpus st h)))) st) h Crit)
  | step_release :
      pcs st h = Crit ->
      step h st (at_pc st h (if locked (lock st) then RHold2 else Dead "release"))
  | step_rhold2 :
      pcs st h = RHold2 ->
      step h st (at_pc st h (if bool_decide (lk_cpu (lock st) = Some (c_id (cpus st h)))
                             then RClear else Dead "release"))
  | step_clear :
      pcs st h = RClear ->
      step h st (at_pc (set_lock (Spinlock (locked (lock st)) (lk_name (lock st)) None) st) h RUnlock)
  | step_unlock :
      pcs st h = RUnlock ->
      step h st (at_pc (set_lock (Spinlock false (lk_name (lock st)) (lk_cpu (lock st))) st) h RPop)
  | step_pop :
      pcs st h = RPop ->
      step h st (if c_intr (cpus st h) then at_pc st h (Dead "pop_off - interruptible")
                 else if c_noff (cpus st h) <? 1 then at_pc st h (Dead "pop_off")
                 else at_pc (set_cpu h (pop_cpu (cpus st h)) st) h Idle).

Definition any_step (st st' : state) : Prop := exists h, step h st st'.

(** All harts outside, the lock as initlock() leaves it. *)
Definition initial (st : state) : Prop :=
  locked (lock st) = false /\ lk_cpu (lock st) = None /\
  (forall h, pcs st h = Idle) /\ (forall h, c_id (cpus st h) = h) /\
  (forall h, cpu_ok (cpus st h)).

Definition owns (p : pc) : bool :=
  match p with ASetCpu | Crit | RHold2 | RClear | RUnlock => true | _ => false end.
Definition named (p : pc) : bool :=
  match p with Crit | RHold2 | RClear => true | _ => false end.
Definition alive (p : pc) : bool := match p with Dead _ => false | _ => true end.
Definition inside (p : pc) : bool := match p with Idle => false | _ => true end.

Record inv (st : state) : Prop := {
  inv_alive : forall h, alive (pcs st h) = true;
  inv_id : forall h, c_id (cpus st h) = h;
  inv_cpu : forall h, cpu_ok (cpus st h);
  inv_off : forall h, inside (pcs st h) = true -> 1 <= c_noff (cpus st h) /\ c_intr (cpus st h) = false;
  inv_locked : forall h, owns (pcs st h) = true -> locked (lock st) = true;
  inv_owner : locked (lock st) = true -> exists h, owns (pcs st h) = true;
  inv_unique : forall h h', owns (pcs st h) = true -> owns (pcs st h') = true -> h = h';
  inv_named : forall h, named (pcs st h) = true <-> lk_cpu (lock st) = Some h
}.

Lemma inv_initial st : initial st -> inv st.
Proof.
  intros (Hl & Hc & Hp & Hid & Hok). split; intros; rewrite ?Hp in *; simpl in *; try done.
  - congruence.
  - rewrite Hc. split; [done|congruence].
Qed.

(** Hart [h] moves to [p], its CPU becomes [c] and the lock [lk]: what has to
    be checked. *)
Lemma inv_move st h lk p cs :
  inv st ->
  (forall h', h' <> h -> cs h' = cpus st h') ->
  alive p = true -> c_id (cs h) = h -> cpu_ok (cs h) ->
  (inside p = true -> 1 <= c_noff (cs h) /\ c_intr (cs h) = false) ->
  (locked lk = true <-> owns p = true \/ exists h', h' <> h /\ owns (pcs st h') = true) ->
  (owns p = true -> forall h', h' <> h -> owns (pcs st h') = false) ->
  (named p = true <-> lk_cpu lk = Some h) ->
  (forall h', h' <> h -> (lk_cpu lk = Some h' <-> lk_cpu (lock st) = Some h')) ->
  inv (State lk (<[h := p]> (pcs st)) cs).
Proof.
  intros [Ha Hid Hok Hoff Hl Ho Hu Hn] Hcs Hp Hc Hcok Hin Hlk Hown Hname Hoth.
  assert (Hsplit : forall (P : Z -> pc -> cpu -> Prop), P h p (cs h) ->
            (forall h', h' <> h -> P h' (pcs st h') (cpus st h')) ->
            forall h', P h' (<[h := p]> (pcs st) h') (cs h')).
  { intros P H1 H2 h'. destruct (decide (h = h')) as [<-|Hne].
    - by rewrite fn_lookup_insert.
    - rewrite fn_lookup_insert_ne, Hcs by done. by apply H2. }
  split; cbn [lock pcs cpus].
  - apply (Hsplit (fun _ q _ => alive q = true)); auto.
  - apply (Hsplit (fun h' _ d => c_id d = h')); auto.
  - apply (Hsplit (fun _ _ d => cpu_ok d)); auto.
  - apply (Hsplit (fun _ q d => inside q = true -> 1 <= c_noff d /\ c_intr d = false)); auto.
  - apply (Hsplit (fun _ q _ => owns q = true -> locked lk = true)); intros; apply Hlk; eauto.
  - rewrite Hlk. intros [Hw|(h' & Hne & Hw)].
    + exists h. by rewrite fn_lookup_insert.
    + exists h'. by rewrite fn_lookup_insert_ne.
  - intros h1. apply (Hsplit (fun h2 q _ => owns (<[h := p]> (pcs st) h1) = true -> owns q = true -> h1 = h2)).
    + intros H1 H2. destruct (decide (h = h1)) as [<-|Hne]; [done|].
      rewrite fn_lookup_insert_ne in H1 by done. rewrite (Hown H2) in H1; done.
    + intros h2 Hne H1 H2. destruct (decide (h = h1)) as [<-|Hne1].
      * rewrite fn_lookup_insert in H1. rewrite (Hown H1) in H2; done.
      * rewrite fn_lookup_insert_ne in H1 by done. by apply Hu.
  - apply (Hsplit (fun h' q _ => named q = true <-> lk_cpu lk = Some h')); [done|].
    intros h' Hne. rewrite Hoth by done. apply Hn.
Qed.

Section Facts.
Context (st : state) (Hinv : inv st) (h : Z).

Lemma others_free : owns (pcs st h) = true -> forall h', h' <> h -> owns (pcs st h') = false.
Proof.
  intros Ho h' Hne. destruct (owns (pcs st h')) eqn:E; [|done].
  by destruct Hne; apply (inv_unique _ Hinv).
Qed.

(** Hart [h] not owning the lock, it is taken iff another hart owns it. *)
Lemma others_own :
  owns (pcs st h) = false ->
  (locked (lock st) = true <-> exists h', h' <> h /\ owns (pcs st h') = true).
Proof.
  intros Hno. split.
  - intros Hl. destruct (inv_owner _ Hinv Hl) as [h' Hh']. exists h'. split; [congruence|done].
  - intros (h' & _ & Hh'). by eapply inv_locked.
Qed.

Lemma named_cpu : named (pcs st h) = true -> lk_cpu (lock st) = Some h.
Proof. apply (inv_named _ Hinv). Qed.

(** The lock's cpu field is nobody's while a hart owns it without its name. *)
Lemma unnamed_cpu : owns (pcs st h) = true -> named (pcs st h) = false -> lk_cpu (lock st) = None.
Proof.
  intros Ho Hn. destruct (lk_cpu (lock st)) as [h'|] eqn:E; [|done].
  apply (inv_named _ Hinv) in E.
  assert (owns (pcs st h') = true) by (by destruct (pcs st h')).
  assert (h' = h) as -> by by apply (inv_unique _ Hinv). congruence.
Qed.

(** A step that changes neither the lock nor the hart's claim to it. *)
Lemma inv_goto p :
  alive p = true -> inside (pcs st h) = true ->
  owns p = owns (pcs st h) -> named p = named (pcs st h) -> inv (at_pc st h p).
Proof.
  intros Ha Hin Ho Hn. apply (inv_move st); auto; try apply Hinv.
  - by intros _; apply (inv_off _ Hinv).
  - rewrite Ho. destruct (owns (pcs st h)) eqn:E.
    + split; [auto|intros _; by eapply inv_locked].
    + rewrite (others_own E). naive_solver.
  - rewrite Ho. apply others_free.
  - rewrite Hn. apply (inv_named _ Hinv).
Qed.

End Facts.

Section Steps.
Context (st : state) (Hinv : inv st) (h : Z).

Lemma inv_acquire :
  pcs st h = Idle -> inv (at_pc (set_cpu h (push_cpu (cpus st h)) st) h AHold1).
Proof.
  intros Hp. apply (inv_move st); cbn [cpus set_cpu lock]; rewrite ?fn_lookup_insert; auto.
  - intros h' Hne. by rewrite fn_lookup_insert_ne.
  - apply (inv_id _ Hinv).
  - apply push_cpu_ok, (inv_cpu _ Hinv).
  - intros _. destruct (inv_cpu _ Hinv h). simpl. split; [lia|done].
  - rewrite (others_own st Hinv h) by by rewrite Hp. simpl. naive_solver.
  - done.
  - rewrite <- (inv_named _ Hinv), Hp. done.
Qed.

Lemma inv_swap :
  pcs st h = ASwap ->
  inv (at_pc (set_lock (Spinlock true (lk_name (lock st)) (lk_cpu (lock st))) st) h
         (if locked (lock st) then ASwap else ASetCpu)).
Proof.
  intros Hp. apply (inv_move st); cbn [cpus set_lock lock lk_cpu locked]; auto; try apply Hinv.
  - by destruct (locked (lock st)).
  - intros _. apply (inv_off _ Hinv). by rewrite Hp.
  - split; [intros _|done]. destruct (locked (lock st)) eqn:El; [|by left].
    right. by apply (others_own st Hinv h); [rewrite Hp|].
  - destruct (locked (lock st)) eqn:El; [done|]. intros _ h' Hne.
    destruct (owns (pcs st h')) eqn:E; [|done]. apply (inv_locked _ Hinv) in E. congruence.
  - rewrite <- (inv_named _ Hinv), Hp. by destruct (locked (lock st)).
Qed.

Lemma inv_setcpu :
  pcs st h = ASetCpu ->
  inv (at_pc (set_lock (Spinlock (locked (lock st)) (lk_name (lock st)) (Some (c_id (cpus st h)))) st)
         h Crit).
Proof.
  intros Hp. assert (Ho : owns (pcs st h) = true) by by rewrite Hp.
  apply (inv_move st); cbn [cpus set_lock lock lk_cpu locked]; auto; try apply Hinv.
  - intros _. apply (inv_off _ Hinv). by rewrite Hp.
  - split; [by left|intros _; by eapply inv_locked].
  - intros _. by apply others_free.
  - by rewrite (inv_id _ Hinv).
  - intros h' Hne. rewrite (unnamed_cpu st Hinv h Ho), (inv_id _ Hinv) by by rewrite Hp.
    split; congruence.
Qed.

Lemma inv_clear :
  pcs st h = RClear ->
  inv (at_pc (set_lock (Spinlock (locked (lock st)) (lk_name (lock st)) None) st) h RUnlock).
Proof.
  intros Hp. assert (Ho : owns (pcs st h) = true) by by rewrite Hp.
  apply (inv_move st); cbn [cpus set_lock lock lk_cpu locked]; auto; try apply Hinv.
  - intros _. apply (inv_off _ Hinv). by rewrite Hp.
  - split; [by left|intros _; by eapply inv_locked].
  - intros _. by apply others_free.
  - done.
  - intros h' Hne. rewrite (named_cpu st Hinv h) by by rewrite Hp. split; congruence.
Qed.

Lemma inv_unlock :
  pcs st h = RUnlock ->
  inv (at_pc (set_lock (Spinlock false (lk_name (lock st)) (lk_cpu (lock st))) st) h RPop).
Proof.
  intros Hp. assert (Ho : owns (pcs st h) = true) by by rewrite Hp.
  apply (inv_move st); cbn [cpus set_lock lock lk_cpu locked]; auto; try apply Hinv.
  - intros _. apply (inv_off _ Hinv). by rewrite Hp.
  - split; [done|]. intros [|(h' & Hne & Hh')]; [done|].
    rewrite (others_free st Hinv h Ho) in Hh'; done.
  - done.
  - rewrite <- (inv_named _ Hinv), Hp. done.
Qed.

Lemma inv_pop :
  pcs st h = RPop -> inv (at_pc (set_cpu h (pop_cpu (cpus st h)) st) h Idle).
Proof.
  intros Hp. destruct (inv_off _ Hinv h) as [Hn Hi]; [by rewrite Hp|].
  apply (inv_move st); cbn [cpus set_cpu lock]; rewrite ?fn_lookup_insert; auto.
  - intros h' Hne. by rewrite fn_lookup_insert_ne.
  - apply (inv_id _ Hinv).
  - unfold cpu_ok, pop_cpu. simpl. split; [lia|]. intros H.
    rewrite (proj2 (Z.eqb_neq _ 0)) by lia. done.
  - done.
  - rewrite (others_own st Hinv h) by by rewrite Hp. simpl. naive_solver.
  - done.
  - rewrite <- (inv_named _ Hinv), Hp. done.
Qed.

End Steps.

Lemma inv_step h st st' : inv st -> step h st st' -> inv st'.
Proof.
  intros Hi Hst.
  destruct Hst as [Hp|Hp|Hp|Hp|Hp|Hp|Hp|Hp|Hp|Hp].
  - by apply inv_acquire.
  - destruct (locked (lock st)); by apply inv_goto; rewrite ?Hp.
  - rewrite bool_decide_false; [by apply inv_goto; rewrite ?Hp|].
    rewrite (inv_id _ Hi), <- (inv_named _ Hi), Hp. done.
  - by apply inv_swap.
  - by apply inv_setcpu.
  - rewrite (inv_locked _ Hi h) by by rewrite Hp. by apply inv_goto; rewrite ?Hp.
  - rewrite bool_decide_true; [by apply inv_goto; rewrite ?Hp|].
    rewrite (inv_id _ Hi). apply named_cpu; [done|by rewrite Hp].
  - by apply inv_clear.
  - by apply inv_unlock.
  - destruct (inv_off _ Hi h) as [Hn ->]; [by rewrite Hp|].
    rewrite (proj2 (Z.ltb_ge _ _)) by lia. by apply inv_pop.
Qed.

Lemma inv_reachable st st' : inv st -> rtc any_step st st' -> inv st'.
Proof. intros Hi. induction 1 as [|x y z [h Hst] _ IH]; eauto using inv_step. Qed.

(** C30: spin locks exclude.  From the lock initlock() made and harts outside
    it, whatever the interleaving of the harts' accesses, no two harts are
    ever in the critical section, a hart in it has interrupts off and is the
    one the lock names, and no hart panics in acquire(), release() or
    pop_off(). *)
Theorem mutual_exclusion st st' :
  initial st -> rtc any_step st st' ->
  (forall h h', pcs st' h = Crit -> pcs st' h' = Crit -> h = h') /\
  (forall h, pcs st' h = Crit ->
     c_intr (cpus st' h) = false /\ locked (lock st') = true /\ lk_cpu (lock st') = Some h) /\
  (forall h msg, pcs st' h <> Dead msg).
Proof.
  intros Hinit Hrun. assert (Hi : inv st') by eauto using inv_initial, inv_reachable.
  split; [|split].
  - intros h h' H1 H2. apply (inv_unique _ Hi); by rewrite ?H1, ?H2.
  - intros h Hc. split; [|split].
    + apply (inv_off _ Hi). by rewrite Hc.
    + apply (inv_locked _ Hi h). by rewrite Hc.
    + apply named_cpu; [done|by rewrite Hc].
  - intros h msg Hd. pose proof (inv_alive _ Hi h) as H. by rewrite Hd in H.
Qed.

Definition start : state :=
  State (Spinlock false "lk" None) (fun _ => Idle) (fun h => Cpu h None 0 false true).

Lemma mutual_exclusion_witness :
  initial start /\
  exists st', rtc any_step start st' /\ pcs st' 0 = Crit /\ lk_cpu (lock st') = Some 0 /\
    c_intr (cpus st' 0) = false /\ pcs st' 1 = ASwap.
Proof.
  assert (Hinit : initial start).
  { repeat split; simpl; [lia|lia]. }
  split; [exact Hinit|].
  eexists. match goal with |- ?P /\ _ => assert (Hrun : P) end.
  - eapply rtc_l; [exists 0; apply step_acquire; reflexivity|].
    eapply rtc_l; [exists 1; apply step_acquire; reflexivity|].
    eapply rtc_l; [exists 0; apply step_ahold1; reflexivity|].
    eapply rtc_l; [exists 1; apply step_ahold1; reflexivity|].
    eapply rtc_l; [exists 0; apply step_swap; reflexivity|].
    eapply rtc_l; [exists 1; apply step_swap; reflexivity|].
    eapply rtc_l; [exists 0; apply step_setcpu; reflexivity|].
    apply rtc_refl.
  - split; [exact Hrun|].
    destruct (mutual_exclusion _ _ Hinit Hrun) as (_ & H & _).
    destruct (H 0 eq_refl) as (Hi & _ & Hc).
    split; [reflexivity|]. split; [exact Hc|]. split; [exact Hi|reflexivity].
Defined.

End MP.
