(* ===== verification/Mem.v ===== *)
(** * Memory and kernel/string.c

    A [ByteStore] is anything C code addresses byte by byte: physical memory,
    or a char array.  The functions of kernel/string.c are written once over
    it, pointer arithmetic and loop directions included. *)

From stdpp Require Import base numbers list list_numbers gmap.
From Stdlib Require Import ZArith Lia.
From S2P Require Import Prelude.

Local Open Scope Z_scope.

(** ** Byte stores *)

Class ByteStore (B : Type) := {
  bget : B -> Z -> Z;
  bset : Z -> Z -> B -> B;
  bvalid : B -> Z -> Prop
}.

Class ByteStoreOk (B : Type) `{!ByteStore B} : Prop := {
  bget_bset : forall (b : B) i v j,
    bvalid b i -> bget (bset i v b) j = if i =? j then v else bget b j;
  bvalid_bset : forall (b : B) i v j, bvalid (bset i v b) j <-> bvalid b j
}.

(** Physical memory; an address never written reads as 0. *)
Abbreviation mem := (gmap Z Z).

#[export] Instance mem_store : ByteStore mem := {
  bget m a := default 0 (m !! a);
  bset a v m := <[a := v]> m;
  bvalid _ _ := True
}.

#[export] Instance mem_store_ok : ByteStoreOk mem.
Proof.
  split; [|done]. intros m i v j _. simpl.
  destruct (Z.eqb_spec i j) as [->|H]; by simplify_map_eq.
Qed.

(** A char array, addressed from 0. *)
#[export] Instance array_store : ByteStore (list Z) := {
  bget l i := if 0 <=? i then default 0 (l !! Z.to_nat i) else 0;
  bset i v l := if 0 <=? i then <[Z.to_nat i := v]> l else l;
  bvalid l i := 0 <= i < Z.of_nat (length l)
}.

#[export] Instance array_store_ok : ByteStoreOk (list Z).
Proof.
  split; simpl.
  - intros l i v j [H0 H1]. destruct (Z.leb_spec 0 i); [|lia].
    destruct (Z.leb_spec 0 j).
    + destruct (Z.eqb_spec i j) as [->|Hne].
      * rewrite list_lookup_insert_eq by lia. done.
      * rewrite list_lookup_insert_ne by lia. done.
    + destruct (Z.eqb_spec i j); [lia|done].
  - intros l i v j. destruct (0 <=? i); [|done]. by rewrite length_insert.
Qed.

(** ** kernel/string.c *)

Section Code.
Context {B : Type} `{!ByteStore B}.
Implicit Types b : B.

(** [for(i = 0; i < n; i++) cdst[i] = c;] *)
Fixpoint memset_from b (dst c : Z) (i : Z) (n : nat) : B :=
  match n with
  | O => b
  | S k => memset_from (bset (dst + i) (u8 c) b) dst c (i + 1) k
  end.
Definition memset b (dst c : Z) (n : nat) : B := memset_from b dst c 0 n.

Fixpoint memcmp b (s1 s2 : Z) (n : nat) : Z :=
  match n with
  | O => 0
  | S k => if negb (bget b s1 =? bget b s2) then bget b s1 - bget b s2
           else memcmp b (s1 + 1) (s2 + 1) k
  end.

(** [while(n-- > 0) *--d = *--s;] *)
Fixpoint copy_down b (d s : Z) (n : nat) : B :=
  match n with
  | O => b
  | S k => copy_down (bset (d - 1) (bget b (s - 1)) b) (d - 1) (s - 1) k
  end.
(** [while(n-- > 0) *d++ = *s++;] *)
Fixpoint copy_up b (d s : Z) (n : nat) : B :=
  match n with
  | O => b
  | S k => copy_up (bset d (bget b s) b) (d + 1) (s + 1) k
  end.
Definition memmove b (dst src : Z) (n : nat) : B :=
  if (src <? dst) && (dst <? src + Z.of_nat n)
  then copy_down b (dst + Z.of_nat n) (src + Z.of_nat n) n
  else copy_up b dst src n.

Definition memcpy b (dst src : Z) (n : nat) : B := memmove b dst src n.

End Code.

(** The string functions read their arguments through a pointer into some
    object, given as the function from offsets to bytes. *)
Fixpoint strncmp (p q : Z -> Z) (i : Z) (n : nat) : Z :=
  match n with
  | O => 0
  | S k => if negb (p i =? 0) && (p i =? q i) then strncmp p q (i + 1) k
           else u8 (p i) - u8 (q i)
  end.

Section StringCode.
Context {B : Type} `{!ByteStore B}.
Implicit Types b : B.

(** [while(n-- > 0) *s++ = 0;] *)
Fixpoint zero_fill b (s : Z) (n : nat) : B :=
  match n with
  | O => b
  | S k => zero_fill (bset s 0 b) (s + 1) k
  end.
(** [while(n-- > 0 && ( *s++ = *t++) != 0);], then zeros to the end. *)
Fixpoint strncpy b (s : Z) (t : Z -> Z) (i : Z) (n : nat) : B :=
  match n with
  | O => b
  | S k => let b' := bset s (t i) b in
           if negb (t i =? 0) then strncpy b' (s + 1) t (i + 1) k
           else zero_fill b' (s + 1) k
  end.

(** [while(--n > 0 && ( *s++ = *t++) != 0); *s = 0;] *)
Fixpoint safestrcpy_loop b (s : Z) (t : Z -> Z) (i : Z) (n : nat) : B :=
  match n with
  | O => bset s 0 b
  | S k => let b' := bset s (t i) b in
           if negb (t i =? 0) then safestrcpy_loop b' (s + 1) t (i + 1) k
           else bset (s + 1) 0 b'
  end.
Definition safestrcpy b (s : Z) (t : Z -> Z) (n : Z) : B :=
  if n <=? 0 then b else safestrcpy_loop b s t 0 (Z.to_nat (n - 1)).

End StringCode.

(** [for(n = 0; s[n]; n++);]  [fuel] bounds the scan; [None] is a scan that
    met no NUL within it. *)
Fixpoint strlen_from (s : Z -> Z) (n : Z) (fuel : nat) : option Z :=
  match fuel with
  | O => None
  | S k => if s n =? 0 then Some n else strlen_from s (n + 1) k
  end.
Definition strlen (fuel : nat) (s : Z -> Z) : option Z := strlen_from s 0 fuel.

(** ** What they compute *)

Section Specs.
Context {B : Type} `{!ByteStore B, !ByteStoreOk B}.
Implicit Types b : B.

Definition valid_range b (a : Z) (n : nat) : Prop :=
  forall x, a <= x < a + Z.of_nat n -> bvalid b x.

Lemma valid_range_bset b i v a n : valid_range (bset i v b) a n <-> valid_range b a n.
Proof. unfold valid_range. by setoid_rewrite bvalid_bset. Qed.

Lemma valid_range_S b a n : valid_range b a (S n) -> bvalid b a /\ valid_range b (a + 1) n.
Proof. unfold valid_range. intros H. split; [apply H; lia|intros; apply H; lia]. Qed.

Lemma memset_from_get b dst c i n x :
  valid_range b (dst + i) n ->
  bget (memset_from b dst c i n) x =
    if (dst + i <=? x) && (x <? dst + i + Z.of_nat n) then u8 c else bget b x.
Proof.
  revert b i. induction n as [|n IH]; intros b i Hv; cbn [memset_from].
  - destruct (Z.leb_spec (dst + i) x); simpl; [|done]. by rewrite (proj2 (Z.ltb_ge _ _)) by lia.
  - apply valid_range_S in Hv as [Hv0 Hv].
    rewrite IH, bget_bset by (try apply valid_range_bset; replace (dst + (i + 1)) with (dst + i + 1) by lia; done).
    destruct (Z.eqb_spec (dst + i) x), (Z.leb_spec (dst + (i + 1)) x), (Z.leb_spec (dst + i) x),
      (Z.ltb_spec x (dst + (i + 1) + Z.of_nat n)), (Z.ltb_spec x (dst + i + Z.of_nat (S n)));
      simpl; try done; lia.
Qed.

Lemma memset_get b dst c n x :
  valid_range b dst n ->
  bget (memset b dst c n) x = if (dst <=? x) && (x <? dst + Z.of_nat n) then u8 c else bget b x.
Proof. intros H. unfold memset. rewrite memset_from_get; rewrite Z.add_0_r; done. Qed.

Lemma copy_up_get b d s n x :
  valid_range b d n -> d <= s \/ s + Z.of_nat n <= d ->
  bget (copy_up b d s n) x =
    if (d <=? x) && (x <? d + Z.of_nat n) then bget b (s + (x - d)) else bget b x.
Proof.
  revert b d s. induction n as [|n IH]; intros b d s Hv Hd; cbn [copy_up].
  - destruct (Z.leb_spec d x); simpl; [|done]. by rewrite (proj2 (Z.ltb_ge _ _)) by lia.
  - apply valid_range_S in Hv as [Hv0 Hv].
    rewrite IH, !bget_bset by (rewrite ?valid_range_bset; done || lia).
    destruct (Z.leb_spec (d + 1) x), (Z.leb_spec d x), (Z.ltb_spec x (d + 1 + Z.of_nat n)),
      (Z.ltb_spec x (d + Z.of_nat (S n))); simpl; try lia.
    + replace (s + 1 + (x - (d + 1))) with (s + (x - d)) by lia.
      destruct (Z.eqb_spec d (s + (x - d))); [|done].
      assert (s = d /\ x = d \/ False) as [[-> ->]|[]] by lia. lia.
    + destruct (Z.eqb_spec d x); [lia|done].
    + destruct (Z.eqb_spec d x) as [->|]; [|lia]. f_equal; lia.
    + destruct (Z.eqb_spec d x); [lia|done].
Qed.

Lemma copy_down_get b d s n x :
  valid_range b (d - Z.of_nat n) n -> s <= d ->
  bget (copy_down b d s n) x =
    if (d - Z.of_nat n <=? x) && (x <? d) then bget b (s + (x - d)) else bget b x.
Proof.
  revert b d s. induction n as [|n IH]; intros b d s Hv Hd; cbn [copy_down].
  - destruct (Z.leb_spec (d - Z.of_nat 0) x); simpl; [|done]. by rewrite (proj2 (Z.ltb_ge _ _)) by lia.
  - assert (Hv0 : bvalid b (d - 1)) by (apply Hv; lia).
    rewrite IH, !bget_bset by (rewrite ?valid_range_bset; (intros y ?; apply Hv; lia) || done || lia).
    destruct (Z.leb_spec (d - 1 - Z.of_nat n) x), (Z.leb_spec (d - Z.of_nat (S n)) x),
      (Z.ltb_spec x (d - 1)), (Z.ltb_spec x d); simpl; try lia.
    + replace (s - 1 + (x - (d - 1))) with (s + (x - d)) by lia.
      destruct (Z.eqb_spec (d - 1) (s + (x - d))); [lia|done].
    + destruct (Z.eqb_spec (d - 1) x) as [<-|]; [|lia]. f_equal; lia.
    + destruct (Z.eqb_spec (d - 1) x); [lia|done].
    + destruct (Z.eqb_spec (d - 1) x); [lia|done].
Qed.

Lemma memmove_get b dst src n x :
  valid_range b dst n ->
  bget (memmove b dst src n) x =
    if (dst <=? x) && (x <? dst + Z.of_nat n) then bget b (src + (x - dst)) else bget b x.
Proof.
  intros Hv. unfold memmove.
  destruct (Z.ltb_spec src dst), (Z.ltb_spec dst (src + Z.of_nat n)); simpl.
  2-4: apply copy_up_get; [done|lia].
  rewrite copy_down_get by (rewrite ?Z.add_simpl_r; done || lia).
  rewrite Z.add_simpl_r.
  by replace (src + Z.of_nat n + (x - (dst + Z.of_nat n))) with (src + (x - dst)) by lia.
Qed.

(** memmove() copies as if through a temporary.  For every placement of
    the two ranges, overlapping either way or not, each destination byte is
    the source byte as it was before the call, and every other byte keeps its
    value. *)
Theorem memmove_correct b dst src n x :
  valid_range b dst n ->
  bget (memmove b dst src n) x =
    if (dst <=? x) && (x <? dst + Z.of_nat n) then bget b (src + (x - dst)) else bget b x.
Proof. apply memmove_get. Qed.

Lemma valid_memset b dst c i n a k : valid_range (memset_from b dst c i n) a k <-> valid_range b a k.
Proof.
  revert b i. induction n as [|n IH]; intros b i; cbn [memset_from]; [done|].
  by rewrite IH, valid_range_bset.
Qed.

End Specs.

Lemma memmove_correct_witness :
  let b := [1; 2; 3; 4; 5; 6] in
  map (bget (memmove b 2 0 4)) [0; 1; 2; 3; 4; 5] = [1; 2; 1; 2; 3; 4] /\
  bget (memmove b 2 0 4) 5 = bget b 3.
Proof.
  intros b. split; [reflexivity|].
  rewrite (memmove_correct b 2 0 4 5); [reflexivity|].
  intros x Hx. simpl in *. lia.
Defined.

(** ** Strings *)

(** The bytes before the first NUL, at most [n]. *)
Fixpoint cstr (p : Z -> Z) (i : Z) (n : nat) : list Z :=
  match n with
  | O => []
  | S k => if p i =? 0 then [] else p i :: cstr p (i + 1) k
  end.

Lemma cstr_shift p i j n : cstr (fun x => p (j + x)) i n = cstr p (j + i) n.
Proof.
  revert i. induction n as [|n IH]; intros i; simpl; [done|].
  rewrite IH. by replace (j + (i + 1)) with (j + i + 1) by lia.
Qed.

Lemma length_cstr p i n : (length (cstr p i n) <= n)%nat.
Proof. revert i. induction n; intros; simpl; [lia|]. case_match; simpl; [lia|]. specialize (IHn (i + 1)). lia. Qed.

Lemma cstr_ext p q i n :
  (forall x, i <= x < i + Z.of_nat n -> p x = q x) -> cstr p i n = cstr q i n.
Proof.
  revert i. induction n as [|n IH]; intros i H; simpl; [done|].
  rewrite (H i) by lia. case_match; [done|]. rewrite (IH (i + 1)); [done|]. intros; apply H; lia.
Qed.

(** strncmp() decides equality of the strings cut to n bytes. *)
Lemma strncmp_zero p q n :
  (forall i, is_byte (p i)) -> (forall i, is_byte (q i)) ->
  strncmp p q 0 n = 0 <-> cstr p 0 n = cstr q 0 n.
Proof.
  intros Hp Hq. generalize 0 at 1 3 4. induction n as [|n IH]; intros i; simpl; [done|].
  assert (Hu : u8 (p i) - u8 (q i) = p i - q i).
  { unfold u8. rewrite !Z.mod_small; [done|apply Hq|apply Hp]. }
  destruct (Z.eqb_spec (p i) 0), (Z.eqb_spec (q i) 0), (Z.eqb_spec (p i) (q i)); simpl;
    rewrite ?Hu; try lia.
  all: try (split; [lia|discriminate]).
  - split; [done|lia].
  - rewrite IH. split; [intros ->; congruence|by intros [=]].
  - split; [lia|intros [=]; lia].
Qed.

Lemma array_bytes (l : list Z) i : Forall is_byte l -> is_byte (bget l i).
Proof.
  intros H. unfold is_byte. simpl. destruct (0 <=? i); [|lia].
  destruct (l !! Z.to_nat i) as [x|] eqn:E; simpl; [|lia].
  exact (Forall_lookup_1 _ _ _ _ H E).
Qed.

Section CopySpecs.
Context {B : Type} `{!ByteStore B, !ByteStoreOk B}.
Implicit Types b : B.

Lemma zero_fill_get b s n x :
  valid_range b s n ->
  bget (zero_fill b s n) x = if (s <=? x) && (x <? s + Z.of_nat n) then 0 else bget b x.
Proof.
  revert b s. induction n as [|n IH]; intros b s Hv; cbn [zero_fill].
  - destruct (Z.leb_spec s x); simpl; [|done]. by rewrite (proj2 (Z.ltb_ge _ _)) by lia.
  - apply valid_range_S in Hv as [Hv0 Hv].
    rewrite IH, bget_bset by (rewrite ?valid_range_bset; done).
    destruct (Z.eqb_spec s x), (Z.leb_spec (s + 1) x), (Z.leb_spec s x),
      (Z.ltb_spec x (s + 1 + Z.of_nat n)), (Z.ltb_spec x (s + Z.of_nat (S n))); simpl; done || lia.
Qed.

Lemma strncpy_get b s t i n x :
  valid_range b s n ->
  bget (strncpy b s t i n) x =
    if (s <=? x) && (x <? s + Z.of_nat n)
    then nth (Z.to_nat (x - s)) (cstr t i n) 0 else bget b x.
Proof.
  revert b s i. induction n as [|n IH]; intros b s i Hv; cbn [strncpy cstr].
  - destruct (Z.leb_spec s x); simpl; [|done]. by rewrite (proj2 (Z.ltb_ge _ _)) by lia.
  - apply valid_range_S in Hv as [Hv0 Hv].
    destruct (Z.eqb_spec (t i) 0) as [Ht|Ht]; simpl.
    + rewrite zero_fill_get, bget_bset, Ht by (rewrite ?valid_range_bset; done).
      destruct (Z.eqb_spec s x), (Z.leb_spec (s + 1) x), (Z.leb_spec s x),
        (Z.ltb_spec x (s + 1 + Z.of_nat n)), (Z.ltb_spec x (s + Z.of_nat (S n))); simpl; try lia;
        try done; by destruct (Z.to_nat (x - s)).
    + rewrite IH, bget_bset by (rewrite ?valid_range_bset; done).
      destruct (Z.eqb_spec s x) as [Hx|], (Z.leb_spec (s + 1) x), (Z.leb_spec s x),
        (Z.ltb_spec x (s + 1 + Z.of_nat n)), (Z.ltb_spec x (s + Z.of_nat (S n))); simpl; try done; try lia.
      * by rewrite Hx, Z.sub_diag.
      * replace (Z.to_nat (x - s)) with (S (Z.to_nat (x - (s + 1)))) by lia. done.
Qed.

(** What safestrcpy() leaves in the store: the string, cut to the room there
    is, and a NUL; nothing else moves. *)
Lemma safestrcpy_loop_get b s t i n x :
  valid_range b s (S n) ->
  (x < s \/ s + Z.of_nat (S n) <= x -> bget (safestrcpy_loop b s t i n) x = bget b x) /\
  (s <= x < s + Z.of_nat (length (cstr t i n)) ->
     bget (safestrcpy_loop b s t i n) x = nth (Z.to_nat (x - s)) (cstr t i n) 0) /\
  (x = s + Z.of_nat (length (cstr t i n)) -> bget (safestrcpy_loop b s t i n) x = 0).
Proof.
  revert b s i. induction n as [|n IH]; intros b s i Hv; cbn [safestrcpy_loop cstr];
    apply valid_range_S in Hv as [Hv0 Hv].
  - rewrite bget_bset by done. simpl. destruct (Z.eqb_spec s x); (split; [|split]); intros; done || lia.
  - destruct (Z.eqb_spec (t i) 0) as [Ht|Ht]; simpl.
    + apply valid_range_S in Hv as [Hv1 Hv].
      rewrite !bget_bset, Ht by (rewrite ?bvalid_bset; done).
      destruct (Z.eqb_spec s x), (Z.eqb_spec (s + 1) x); (split; [|split]); intros; done || lia.
    + destruct (IH (bset s (t i) b) (s + 1) (i + 1)) as (H1 & H2 & H3); [by rewrite valid_range_bset|].
      rewrite bget_bset in H1 by done.
      split; [|split].
      * intros. rewrite H1 by lia. destruct (Z.eqb_spec s x); [lia|done].
      * intros. destruct (decide (x = s)) as [->|].
        -- rewrite H1, Z.eqb_refl, Z.sub_diag by lia. done.
        -- rewrite H2 by lia. by replace (Z.to_nat (x - s)) with (S (Z.to_nat (x - (s + 1)))) by lia.
      * intros. apply H3. lia.
Qed.

End CopySpecs.

Lemma cstr_cons_nth l p i n :
  (forall k, (k < length l)%nat -> p (i + Z.of_nat k) = nth k l 0) ->
  p (i + Z.of_nat (length l)) = 0 -> Forall (fun c => c <> 0) l -> (length l < n)%nat ->
  cstr p i n = l.
Proof.
  revert i n. induction l as [|c l IH]; intros i n Hl Hz Hnz Hn; destruct n as [|n]; simpl in *; try lia.
  - rewrite Z.add_0_r in Hz. by rewrite Hz.
  - apply Forall_cons in Hnz as [Hc Hnz]. pose proof (Hl 0%nat ltac:(lia)) as H0.
    simpl in H0. rewrite Z.add_0_r in H0. rewrite H0. destruct (Z.eqb_spec c 0); [done|].
    f_equal. apply IH; [|by replace (i + 1 + _) with (i + Z.pos (Pos.of_succ_nat (length l))) by lia|done|lia].
    intros k Hk. specialize (Hl (S k) ltac:(lia)). simpl in Hl.
    by replace (i + 1 + Z.of_nat k) with (i + Z.pos (Pos.of_succ_nat k)) by lia.
Qed.

Lemma cstr_nonzero p i n : Forall (fun c => c <> 0) (cstr p i n).
Proof.
  revert i. induction n as [|n IH]; intros i; simpl; [done|].
  destruct (Z.eqb_spec (p i) 0); constructor; auto.
Qed.

(** safestrcpy() always NUL-terminates.  For n > 0 the n bytes at s hold
    the source string cut to n-1 bytes, with its NUL, and no byte outside
    them changes. *)
Theorem safestrcpy_correct {B} `{!ByteStore B, !ByteStoreOk B} (b : B) s t n :
  0 < n -> valid_range b s (Z.to_nat n) ->
  let b' := safestrcpy b s t n in
  cstr (fun i => bget b' (s + i)) 0 (Z.to_nat n) = cstr t 0 (Z.to_nat (n - 1)) /\
  (forall x, x < s \/ s + n <= x -> bget b' x = bget b x).
Proof.
  intros Hn Hv b'. unfold b', safestrcpy. rewrite (proj2 (Z.leb_gt n 0)) by lia.
  replace (Z.to_nat n) with (S (Z.to_nat (n - 1))) in * by lia.
  set (k := Z.to_nat (n - 1)) in *. pose proof (length_cstr t 0 k). split.
  - apply cstr_cons_nth; [| |apply cstr_nonzero|lia].
    + intros j Hj. destruct (safestrcpy_loop_get b s t 0 k (s + (0 + Z.of_nat j)) Hv) as (_ & H2 & _).
      rewrite H2 by lia. f_equal. lia.
    + destruct (safestrcpy_loop_get b s t 0 k (s + (0 + Z.of_nat (length (cstr t 0 k)))) Hv) as (_ & _ & H3).
      apply H3. lia.
  - intros x Hx. destruct (safestrcpy_loop_get b s t 0 k x Hv) as (H1 & _). apply H1. lia.
Qed.

Lemma safestrcpy_correct_witness :
  let t i := bget [105; 110; 105; 116; 99; 111; 100; 101; 0] i in
  let b := replicate 6 7 in
  cstr (fun i => bget (safestrcpy b 1 t 4) (1 + i)) 0 4 = [105; 110; 105] /\
  bget (safestrcpy b 1 t 4) 5 = 7.
Proof.
  intros t b. destruct (safestrcpy_correct b 1 t 4) as [H1 H2];
    [lia|intros x Hx; simpl in *; lia|].
  split; [exact H1|]. apply (H2 5). lia.
Defined.

(** strlen() finds the first NUL, given the scan is long enough. *)
Theorem strlen_correct s k fuel :
  (forall i, 0 <= i < Z.of_nat k -> s i <> 0) -> s (Z.of_nat k) = 0 -> (k < fuel)%nat ->
  strlen fuel s = Some (Z.of_nat k).
Proof.
  intros Hnz Hz Hf. unfold strlen.
  cut (forall j f, (j <= k)%nat -> (k - j < f)%nat -> strlen_from s (Z.of_nat j) f = Some (Z.of_nat k)).
  { intros H. apply (H 0%nat); lia. }
  intros j f. revert j. induction f as [|f IH]; intros j Hj Hf'; [lia|]. simpl.
  destruct (decide (j = k)) as [->|Hne]; [by rewrite Hz|].
  destruct (Z.eqb_spec (s (Z.of_nat j)) 0) as [E|E].
  - exfalso. apply (Hnz (Z.of_nat j)); [lia|done].
  - replace (Z.of_nat j + 1) with (Z.of_nat (S j)) by lia. apply IH; lia.
Qed.

Lemma strlen_correct_witness : strlen 10 (fun i => bget [104; 105; 0; 33] i) = Some 2.
Proof.
  apply (strlen_correct (fun i => bget [104; 105; 0; 33] i) 2 10); [|reflexivity|lia].
  intros i Hi. assert (i = 0 \/ i = 1) as [->| ->] by lia; simpl; lia.
Defined.

(** ** Words in a byte store *)

Section Words.
Context {B : Type} `{!ByteStore B}.
Implicit Types b : B.

Definition bytes_at b (a : Z) (n : nat) : list Z :=
  map (fun i => bget b (a + Z.of_nat i)) (seq 0 n).

Fixpoint store_bytes b (a : Z) (bs : list Z) : B :=
  match bs with
  | [] => b
  | x :: r => store_bytes (bset a x b) (a + 1) r
  end.

Definition ld (n : nat) b (a : Z) : Z := le_dec (bytes_at b a n).
Definition st (n : nat) b (a v : Z) : B := store_bytes b a (le_enc n v).

Lemma length_bytes_at b a n : length (bytes_at b a n) = n.
Proof. unfold bytes_at. by rewrite length_map, length_seq. Qed.

Lemma bytes_at_ext b b' a n :
  (forall x, a <= x < a + Z.of_nat n -> bget b x = bget b' x) -> bytes_at b a n = bytes_at b' a n.
Proof.
  intros H. unfold bytes_at. apply map_ext_in. intros i Hi. apply in_seq in Hi. apply H. lia.
Qed.

Lemma ld_ext n b b' a :
  (forall x, a <= x < a + Z.of_nat n -> bget b x = bget b' x) -> ld n b a = ld n b' a.
Proof. intros H. unfold ld. by rewrite (bytes_at_ext b b') by done. Qed.

Context `{!ByteStoreOk B}.

Lemma store_bytes_get b a bs x :
  valid_range b a (length bs) ->
  bget (store_bytes b a bs) x =
    if (a <=? x) && (x <? a + Z.of_nat (length bs)) then nth (Z.to_nat (x - a)) bs 0 else bget b x.
Proof.
  revert b a. induction bs as [|y bs IH]; intros b a Hv; cbn [store_bytes length].
  - destruct (Z.leb_spec a x); simpl; [|done]. by rewrite (proj2 (Z.ltb_ge _ _)) by lia.
  - apply valid_range_S in Hv as [Hv0 Hv].
    rewrite IH, bget_bset by (rewrite ?valid_range_bset; done).
    destruct (Z.eqb_spec a x) as [Hx|], (Z.leb_spec (a + 1) x), (Z.leb_spec a x),
      (Z.ltb_spec x (a + 1 + Z.of_nat (length bs))), (Z.ltb_spec x (a + Z.of_nat (S (length bs))));
      simpl; try done; try lia.
    + by rewrite Hx, Z.sub_diag.
    + by replace (Z.to_nat (x - a)) with (S (Z.to_nat (x - (a + 1)))) by lia.
Qed.

Lemma bytes_at_store b a bs :
  valid_range b a (length bs) -> bytes_at (store_bytes b a bs) a (length bs) = bs.
Proof.
  intros Hv. apply nth_ext with (d := 0) (d' := 0); [apply length_bytes_at|].
  rewrite length_bytes_at. intros i Hi. unfold bytes_at.
  rewrite (nth_indep _ 0 (bget (store_bytes b a bs) (a + Z.of_nat 0))) by (by rewrite length_map, length_seq).
  rewrite (map_nth (fun i => bget (store_bytes b a bs) (a + Z.of_nat i))), seq_nth by lia.
  rewrite store_bytes_get by done.
  rewrite (proj2 (Z.leb_le _ _)), (proj2 (Z.ltb_lt _ _)) by lia. simpl. f_equal. lia.
Qed.

Lemma st_get_out n b a v x :
  valid_range b a n -> x < a \/ a + Z.of_nat n <= x -> bget (st n b a v) x = bget b x.
Proof.
  intros Hv Hx. unfold st. rewrite store_bytes_get by (rewrite length_le_enc; done).
  rewrite length_le_enc.
  destruct (Z.leb_spec a x), (Z.ltb_spec x (a + Z.of_nat n)); simpl; done || lia.
Qed.

Lemma ld_st_eq n b a v : valid_range b a n -> ld n (st n b a v) a = v `mod` 256 ^ Z.of_nat n.
Proof.
  intros Hv. unfold ld, st. rewrite <- (length_le_enc n v) at 2.
  rewrite bytes_at_store by (rewrite length_le_enc; done). apply le_dec_enc.
Qed.

Lemma ld_st_ne n n' b a a' v :
  valid_range b a n -> a' + Z.of_nat n' <= a \/ a + Z.of_nat n <= a' ->
  ld n' (st n b a v) a' = ld n' b a'.
Proof. intros Hv Ha. apply ld_ext. intros x Hx. apply st_get_out; [done|lia]. Qed.

End Words.

Definition ld64 (m : mem) (a : Z) : Z := ld 8 m a.
Definition st64 (m : mem) (a v : Z) : mem := st 8 m a v.
Definition ld32 (m : mem) (a : Z) : Z := ld 4 m a.
Definition st32 (m : mem) (a v : Z) : mem := st 4 m a v.

(** Memory holds bytes. *)
Definition mem_ok (m : mem) : Prop := forall a, is_byte (bget m a).

Lemma mem_valid (m : mem) a n : valid_range m a n.
Proof. done. Qed.
#[export] Hint Resolve mem_valid : core.

Lemma ld64_st64_eq m a v : 0 <= v < 2 ^ 64 -> ld64 (st64 m a v) a = v.
Proof.
  intros Hv. unfold ld64, st64. rewrite ld_st_eq by auto.
  change (256 ^ Z.of_nat 8) with (2 ^ 64). by apply Z.mod_small.
Qed.

Lemma ld64_st64_ne m a a' v : a' + 8 <= a \/ a + 8 <= a' -> ld64 (st64 m a v) a' = ld64 m a'.
Proof. intros. apply ld_st_ne; [auto|lia]. Qed.

Lemma st64_get_out m a v x : x < a \/ a + 8 <= x -> bget (st64 m a v) x = bget m x.
Proof. intros. apply st_get_out; [auto|lia]. Qed.

Lemma ld64_ext m m' a :
  (forall x, a <= x < a + 8 -> bget m x = bget m' x) -> ld64 m a = ld64 m' a.
Proof. apply (ld_ext 8). Qed.

Lemma bytes_at_bytes m a n : mem_ok m -> Forall is_byte (bytes_at m a n).
Proof. intros H. unfold bytes_at. apply Forall_map, Forall_forall. intros. apply H. Qed.

Lemma ld64_range m a : mem_ok m -> 0 <= ld64 m a < 2 ^ 64.
Proof.
  intros H. pose proof (le_dec_range _ (bytes_at_bytes m a 8 H)) as Hr.
  rewrite length_bytes_at in Hr. exact Hr.
Qed.

Lemma store_bytes_ok (m : mem) a bs : mem_ok m -> Forall is_byte bs -> mem_ok (store_bytes m a bs).
Proof.
  intros Hm Hbs x. rewrite store_bytes_get by auto. case_match; [|apply Hm].
  rewrite nth_lookup. destruct (bs !! _) as [y|] eqn:E; simpl; [|unfold is_byte; lia].
  exact (Forall_lookup_1 _ _ _ _ Hbs E).
Qed.

Lemma st64_ok m a v : mem_ok m -> mem_ok (st64 m a v).
Proof. intros. apply store_bytes_ok; [done|apply le_enc_bytes]. Qed.

Lemma memset_ok (m : mem) a c n : mem_ok m -> mem_ok (memset m a c n).
Proof.
  intros H x. rewrite memset_get by auto. case_match; [|apply H].
  unfold is_byte, u8. pose proof (Z.mod_pos_bound c (2 ^ 8)). lia.
Qed.

Lemma memmove_ok (m : mem) d s n : mem_ok m -> mem_ok (memmove m d s n).
Proof. intros H x. rewrite memmove_get by auto. case_match; apply H. Qed.

(** Page-sized operations are never unrolled by [simpl]. *)
#[global] Arguments memset : simpl never.
#[global] Arguments memmove : simpl never.
#[global] Arguments ld64 : simpl never.
#[global] Arguments st64 : simpl never.
#[global] Arguments ld32 : simpl never.
#[global] Arguments st32 : simpl never.
