(* ===== verification/Kalloc.v ===== *)
(** * Physical page allocator (kernel/kalloc.c)

    The free list is threaded through the free pages themselves: the first
    word of a free page is the address of the next one. *)

From stdpp Require Import base numbers list list_numbers gmap strings sets.
From Stdlib Require Import ZArith Lia.
From S2P Require Import Prelude.
From S2P Require Import Machine.
From S2P Require Import Spinlock.
From S2P Require Import Mem.

Local Open Scope Z_scope.

(** ** Addresses (kernel/memlayout.h, kernel/riscv.h) *)

Definition KERNBASE : Z := 0x80000000.
Definition PHYSTOP : Z := KERNBASE + 128 * 1024 * 1024.

Definition PGROUNDUP (sz : Z) : Z := Z.land (u64 (sz + PGSIZE - 1)) (Z.lnot (PGSIZE - 1)).
Definition PGROUNDDOWN (a : Z) : Z := Z.land a (Z.lnot (PGSIZE - 1)).

(** The addresses the linker script kernel.ld defines. *)
Class Layout := {
  kend : Z;          (* char end[] *)
  etext : Z;         (* char etext[] *)
  trampoline : Z     (* char trampoline[] *)
}.

(** The kernel image sits at KERNBASE and leaves room for pages below
    PHYSTOP; etext and the trampoline start a page. *)
Class LayoutOk `{!Layout} : Prop := {
  layout_order : KERNBASE < etext /\ etext <= kend /\ kend <= PHYSTOP;
  layout_etext : etext `mod` PGSIZE = 0;
  layout_tramp : trampoline `mod` PGSIZE = 0 /\ KERNBASE <= trampoline < etext
}.

(** ** State and code *)

Record kst := Kst {
  k_mem : mem;
  k_lock : spinlock;
  k_freelist : Z
}.

Definition k_lock_lens : lens kst spinlock :=
  Lens (fun s => Some (k_lock s)) (fun v s => Kst (k_mem s) v (k_freelist s)).

#[export] Instance k_lock_lens_ok : LensOk k_lock_lens.
Proof. split; [done|done|]. intros [] t; simpl. by intros [= ->]. Qed.

Definition upd_mem (f : mem -> mem) (s : kst) : kst := Kst (f (k_mem s)) (k_lock s) (k_freelist s).
Definition set_freelist (v : Z) (s : kst) : kst := Kst (k_mem s) (k_lock s) v.

Section Code.
Context {LY : Layout}.

Definition kfree (pa : Z) : K kst unit :=
  if negb (pa `mod` PGSIZE =? 0) || (pa <? kend) || (PHYSTOP <=? pa) then panic "kfree" else
  (* Fill with junk to catch dangling refs. *)
  modify (upd_mem (fun m => memset m pa 1 (Z.to_nat PGSIZE))) ;;
  acquire (inS k_lock_lens) ;;
  modify (fun s => upd_mem (fun m => st64 m pa (k_freelist s)) s) ;;
  modify (set_freelist pa) ;;
  release (inS k_lock_lens).

Definition kalloc : K kst Z :=
  acquire (inS k_lock_lens) ;;
  r ← asks (fun w => k_freelist (snd w));
  (if r =? 0 then mret tt
   else modify (fun s => set_freelist (ld64 (k_mem s) r) s)) ;;
  release (inS k_lock_lens) ;;
  (if r =? 0 then mret tt
   else modify (upd_mem (fun m => memset m r 5 (Z.to_nat PGSIZE)))) ;;
  mret r.

(** [for(; p + PGSIZE <= pa_end; p += PGSIZE) kfree(p);] *)
Fixpoint freerange_loop (fuel : nat) (p pa_end : Z) : K kst unit :=
  match fuel with
  | O => hang
  | S n => if p + PGSIZE <=? pa_end
           then kfree p ;; freerange_loop n (p + PGSIZE) pa_end
           else mret tt
  end.
Definition freerange (pa_start pa_end : Z) : K kst unit :=
  let p := PGROUNDUP pa_start in
  freerange_loop (S (Z.to_nat ((pa_end - p) / PGSIZE))) p pa_end.

Definition kinit : K kst unit :=
  initlock (inS k_lock_lens) "kmem" ;;
  freerange kend PHYSTOP.

End Code.

(** ** Rounding *)

Lemma PGROUNDDOWN_eq a : PGROUNDDOWN a = a - a `mod` PGSIZE.
Proof.
  unfold PGROUNDDOWN, PGSIZE. change (4096 - 1) with (Z.ones 12).
  rewrite <- Z.ldiff_land, Z.ldiff_ones_r, Z.shiftl_mul_pow2, Z.shiftr_div_pow2 by lia.
  change (2 ^ 12) with 4096. pose proof (Z.div_mod a 4096). lia.
Qed.

Lemma PGROUNDUP_eq sz :
  0 <= sz -> sz + PGSIZE - 1 < 2 ^ 64 -> PGROUNDUP sz = (sz + PGSIZE - 1) / PGSIZE * PGSIZE.
Proof.
  intros. unfold PGROUNDUP. fold (PGROUNDDOWN (u64 (sz + PGSIZE - 1))).
  rewrite PGROUNDDOWN_eq, u64_small by (unfold PGSIZE in *; lia).
  pose proof (Z.div_mod (sz + PGSIZE - 1) PGSIZE). unfold PGSIZE in *. lia.
Qed.

Lemma PGROUNDDOWN_bounds a :
  PGROUNDDOWN a `mod` PGSIZE = 0 /\ PGROUNDDOWN a <= a < PGROUNDDOWN a + PGSIZE.
Proof.
  rewrite PGROUNDDOWN_eq. unfold PGSIZE. pose proof (Z.mod_pos_bound a 4096).
  split; [|lia]. rewrite Zminus_mod_idemp_r, Z.sub_diag. done.
Qed.

Lemma PGROUNDUP_bounds sz :
  0 <= sz -> sz + PGSIZE - 1 < 2 ^ 64 ->
  PGROUNDUP sz `mod` PGSIZE = 0 /\ sz <= PGROUNDUP sz < sz + PGSIZE.
Proof.
  intros. rewrite PGROUNDUP_eq by done. unfold PGSIZE in *.
  split; [apply Z.mod_mul; lia|]. pose proof (Z.div_mod (sz + 4096 - 1) 4096).
  pose proof (Z.mod_pos_bound (sz + 4096 - 1) 4096). lia.
Qed.

(** ** The free list *)

Fixpoint freelist_at (m : mem) (p : Z) (l : list Z) : Prop :=
  match l with
  | [] => p = 0
  | x :: r => p = x /\ freelist_at m (ld64 m x) r
  end.

(** Two places that are not in the same page. *)
Definition off_page (pa x : Z) : Prop := x < pa \/ pa + PGSIZE <= x.

Definition lock_free (lk : spinlock) : Prop := locked lk = false /\ lk_cpu lk = None.

Lemma unheld_free lk : lock_free lk -> unheld lk = lk.
Proof. destruct lk; intros [Hl Hc]; simpl in *. unfold unheld; simpl. by subst. Qed.

Lemma lock_free_unheld lk : lock_free (unheld lk).
Proof. done. Qed.

(** The context after a balanced critical section. *)
Definition settled (c : ctx) : ctx := set_cx_cpu (settle (cx_cpu c)) c.

Lemma settled_idem c : settled (settled c) = settled c.
Proof. unfold settled. destruct c; simpl. by rewrite settle_idem. Qed.

Lemma settled_ok c : cpu_ok (cx_cpu c) -> cpu_ok (cx_cpu (settled c)).
Proof. apply settle_ok. Qed.

Section Specs.
Context {LY : Layout} {LO : LayoutOk}.

(** A page the allocator manages. *)
Definition page_ok (pa : Z) : Prop := pa `mod` PGSIZE = 0 /\ kend <= pa /\ pa < PHYSTOP.

Definition page_okb (pa : Z) : bool :=
  (pa `mod` PGSIZE =? 0) && negb (pa <? kend) && negb (PHYSTOP <=? pa).

Lemma page_ok_pos pa : page_ok pa -> 0 < pa /\ pa + PGSIZE <= PHYSTOP.
Proof.
  destruct layout_order as (L1 & L2 & L3). unfold page_ok, PGSIZE, PHYSTOP, KERNBASE in *. intros (H1 & H2 & H3).
  pose proof (Z.div_mod pa 4096). lia.
Qed.

Lemma pages_apart p q x : page_ok p -> page_ok q -> p <> q -> q <= x < q + PGSIZE -> off_page p x.
Proof.
  unfold page_ok, off_page, PGSIZE. intros (H1 & _) (H2 & _) Hne Hx.
  pose proof (Z.div_mod p 4096). pose proof (Z.div_mod q 4096). lia.
Qed.

Record kinv (s : kst) (l : list Z) : Prop := {
  kinv_list : freelist_at (k_mem s) (k_freelist s) l;
  kinv_nodup : NoDup l;
  kinv_pages : Forall page_ok l;
  kinv_lock : lock_free (k_lock s);
  kinv_mem : mem_ok (k_mem s)
}.

(** The list only depends on the first word of each of its pages. *)
Lemma freelist_ext m m' p l :
  (forall x, x ∈ l -> ld64 m' x = ld64 m x) -> freelist_at m p l -> freelist_at m' p l.
Proof.
  revert p. induction l as [|x l IH]; intros p H; simpl; [done|].
  intros [-> Hl]. split; [done|]. rewrite H by set_solver. apply IH; [|done]. intros; apply H; set_solver.
Qed.

(** Memory that differs only inside pages off the list. *)
Lemma freelist_off (m m' : mem) p l :
  Forall page_ok l ->
  (forall pa x, pa ∈ l -> pa <= x < pa + 8 -> bget m' x = bget m x) ->
  freelist_at m p l -> freelist_at m' p l.
Proof.
  intros Hl H. apply freelist_ext. intros x Hx. apply ld64_ext. intros y Hy. by apply (H x).
Qed.

Lemma kfree_panics pa c s :
  page_okb pa = false -> kfree pa (c, s) = Panic "kfree".
Proof.
  unfold page_okb, kfree. intros H.
  destruct (_ =? 0), (pa <? kend), (PHYSTOP <=? pa); simpl in *; try done.
Qed.

Lemma page_okb_spec pa : page_okb pa = true <-> page_ok pa.
Proof.
  unfold page_okb, page_ok. rewrite !andb_true_iff, !negb_true_iff, Z.eqb_eq, Z.ltb_ge, Z.leb_gt. lia.
Qed.

Lemma kfree_run pa c s :
  page_ok pa -> cpu_ok (cx_cpu c) -> locked (k_lock s) = false ->
  kfree pa (c, s) =
    Ret tt (settled c, Kst (st64 (memset (k_mem s) pa 1 (Z.to_nat PGSIZE)) pa (k_freelist s))
                         (unheld (k_lock s)) pa).
Proof.
  intros Hpa Hok Hl. apply page_okb_spec in Hpa. unfold kfree, page_okb in *.
  destruct (_ =? 0), (pa <? kend), (PHYSTOP <=? pa); simpl in Hpa; try done. simpl.
  k_prim. k_acquire. k_prim. k_prim.
  erewrite release_run; [|apply _|reflexivity|done|done|].
  - f_equal. unfold upd_cpu, settled. simpl. by rewrite <- pop_push_cpu.
  - unfold hart. simpl. destruct Hok. lia.
Qed.

Lemma kalloc_run c s :
  cpu_ok (cx_cpu c) -> locked (k_lock s) = false ->
  kalloc (c, s) =
    Ret (k_freelist s)
      (settled c, if k_freelist s =? 0 then Kst (k_mem s) (unheld (k_lock s)) 0
                  else Kst (memset (k_mem s) (k_freelist s) 5 (Z.to_nat PGSIZE))
                         (unheld (k_lock s)) (ld64 (k_mem s) (k_freelist s))).
Proof.
  intros Hok Hl. unfold kalloc. k_acquire. k_prim. simpl.
  destruct (Z.eqb_spec (k_freelist s) 0) as [E|E]; k_prim; k_release; k_prim;
    unfold mret, K_ret, upd_cpu, settled; simpl; rewrite <- pop_push_cpu by done; by rewrite ?E.
Qed.

Lemma kinv_head s p l : kinv s (p :: l) -> k_freelist s = p /\ page_ok p /\ p ∉ l.
Proof.
  intros [[-> _] Hnd Hp _ _]. apply NoDup_cons in Hnd as [? _].
  apply Forall_cons in Hp as [? _]. by split_and!.
Qed.

(** A write to page [p] leaves a list without [p] alone. *)
Lemma freelist_write (m m' : mem) p q l :
  Forall page_ok l -> page_ok p -> p ∉ l ->
  (forall x, off_page p x -> bget m' x = bget m x) -> freelist_at m q l -> freelist_at m' q l.
Proof.
  intros Hl Hp Hnin H. apply freelist_off; [done|]. intros pa x Hpa Hx. apply H.
  rewrite Forall_forall in Hl. apply (pages_apart p pa); [done|by apply Hl|set_solver|].
  unfold PGSIZE. lia.
Qed.

Lemma memset_off (m : mem) pa c x : off_page pa x -> bget (memset m pa c (Z.to_nat PGSIZE)) x = bget m x.
Proof.
  unfold off_page, PGSIZE. intros H. rewrite memset_get by auto.
  destruct (Z.leb_spec pa x), (Z.ltb_spec x (pa + Z.of_nat (Z.to_nat 4096))); simpl; done || lia.
Qed.

Lemma memset_on (m : mem) pa c x :
  pa <= x < pa + PGSIZE -> bget (memset m pa c (Z.to_nat PGSIZE)) x = u8 c.
Proof.
  unfold PGSIZE. intros H. rewrite memset_get by auto.
  rewrite (proj2 (Z.leb_le _ _)), (proj2 (Z.ltb_lt _ _)) by lia. done.
Qed.

Lemma kalloc_empty c s :
  cpu_ok (cx_cpu c) -> kinv s [] -> kalloc (c, s) = Ret 0 (settled c, s).
Proof.
  intros Hok [Hl _ _ Hk _]. rewrite kalloc_run by (done || apply Hk).
  simpl in Hl. rewrite Hl, unheld_free by done. simpl. rewrite <- Hl. by destruct s.
Qed.

(** kalloc() takes the first page off the list. *)
Lemma kalloc_some c s p l :
  cpu_ok (cx_cpu c) -> kinv s (p :: l) ->
  exists s', kalloc (c, s) = Ret p (settled c, s') /\ kinv s' l /\
    (forall x, off_page p x -> bget (k_mem s') x = bget (k_mem s) x) /\
    (forall x, p <= x < p + PGSIZE -> bget (k_mem s') x = 5).
Proof.
  intros Hok Hinv. destruct (kinv_head _ _ _ Hinv) as (Hf & Hp & Hnin).
  destruct Hinv as [[_ Hl] Hnd Hps Hk Hm]. apply NoDup_cons in Hnd as [_ Hnd].
  apply Forall_cons in Hps as [_ Hps]. destruct (page_ok_pos p Hp) as [Hpos _].
  eexists. rewrite kalloc_run by (done || apply Hk).
  rewrite Hf, (proj2 (Z.eqb_neq p 0)), unheld_free by (done || lia). split; [done|]. split.
  - split; cbn [k_mem k_freelist k_lock]; [|done..|by apply memset_ok].
    eapply freelist_write; [..|exact Hl]; [done..|]. intros. by apply memset_off.
  - cbn [k_mem]. split; intros; [by apply memset_off|by rewrite memset_on].
Qed.

(** kfree() puts the page first on the list. *)
Lemma kfree_spec c s p l :
  cpu_ok (cx_cpu c) -> kinv s l -> page_ok p -> p ∉ l ->
  exists s', kfree p (c, s) = Ret tt (settled c, s') /\ kinv s' (p :: l) /\
    (forall x, off_page p x -> bget (k_mem s') x = bget (k_mem s) x).
Proof.
  intros Hok [Hl Hnd Hps Hk Hm] Hp Hnin. eexists.
  rewrite kfree_run, unheld_free by (done || apply Hk). split; [done|].
  assert (Hoff : forall x, off_page p x ->
    bget (st64 (memset (k_mem s) p 1 (Z.to_nat PGSIZE)) p (k_freelist s)) x = bget (k_mem s) x).
  { intros x Hx. rewrite st64_get_out by (unfold off_page, PGSIZE in Hx; lia). by apply memset_off. }
  split; [|exact Hoff].
  split; cbn [k_mem k_freelist k_lock]; [|by constructor|by constructor|done|by apply st64_ok, memset_ok].
  split; [done|]. rewrite ld64_st64_eq.
  - by eapply freelist_write.
  - destruct l as [|q l']; simpl in Hl; [lia|]. destruct Hl as [-> _].
    apply Forall_cons in Hps as [Hq _]. destruct (page_ok_pos q Hq).
    unfold page_ok, PHYSTOP, KERNBASE in *. lia.
Qed.

(** ** freerange() *)

Fixpoint pages_from (p : Z) (n : nat) : list Z :=
  match n with O => [] | S k => p :: pages_from (p + PGSIZE) k end.

Lemma elem_of_pages_from p n x :
  x ∈ pages_from p n <-> exists k, 0 <= k < Z.of_nat n /\ x = p + k * PGSIZE.
Proof.
  revert p. induction n as [|n IH]; intros p; cbn [pages_from].
  - split; [set_solver|]. intros (k & ? & _). lia.
  - rewrite elem_of_cons, IH. split.
    + intros [->|(k & Hk & ->)]; [exists 0; lia|exists (k + 1); lia].
    + intros (k & Hk & ->). destruct (decide (k = 0)) as [->|]; [left; lia|right; exists (k - 1); lia].
Qed.

Lemma freerange_loop_run n p pa_end c s l :
  cpu_ok (cx_cpu c) -> kinv s l ->
  p + Z.of_nat n * PGSIZE <= pa_end < p + (Z.of_nat n + 1) * PGSIZE ->
  Forall page_ok (pages_from p n) -> (forall x, x ∈ pages_from p n -> x ∉ l) ->
  exists c' s', freerange_loop (S n) p pa_end (c, s) = Ret tt (c', s') /\
    cpu_ok (cx_cpu c') /\ kinv s' (reverse (pages_from p n) ++ l).
Proof.
  revert p c s l. induction n as [|n IH]; intros p c s l Hok Hinv Hend Hps Hnin.
  - exists c, s. cbn [freerange_loop]. rewrite (proj2 (Z.leb_gt _ _)) by lia. done.
  - cbn [pages_from] in *. apply Forall_cons in Hps as [Hp Hps].
    destruct (kfree_spec c s p l Hok Hinv Hp) as (s1 & Hrun & Hinv1 & _); [set_solver|].
    destruct (IH (p + PGSIZE) (settled c) s1 (p :: l)) as (c2 & s2 & Hrun2 & Hok2 & Hinv2);
      [by apply settled_ok|done|lia|done| |].
    { intros x Hx. apply not_elem_of_cons. split; [|set_solver].
      apply elem_of_pages_from in Hx as (k & Hk & ->). unfold PGSIZE. lia. }
    exists c2, s2. split; [|split; [done|by rewrite reverse_cons, <- app_assoc]].
    remember (S n) as k. cbn [freerange_loop]. rewrite (proj2 (Z.leb_le _ _)) by (unfold PGSIZE in *; lia).
    by rewrite (bind_ret _ _ _ _ _ Hrun).
Qed.

(** The pages between end and PHYSTOP. *)
Definition all_pages : list Z :=
  pages_from (PGROUNDUP kend) (Z.to_nat ((PHYSTOP - PGROUNDUP kend) / PGSIZE)).

Lemma kend_round :
  PGROUNDUP kend `mod` PGSIZE = 0 /\ kend <= PGROUNDUP kend < kend + PGSIZE /\
  PGROUNDUP kend <= PHYSTOP.
Proof.
  destruct layout_order as (L1 & L2 & L3).
  destruct (PGROUNDUP_bounds kend) as [H1 H2]; [unfold KERNBASE in *; lia|
    unfold PGSIZE, PHYSTOP, KERNBASE in *; lia|].
  split; [done|]. split; [done|].
  unfold PHYSTOP, KERNBASE, PGSIZE in *. pose proof (Z.div_mod (PGROUNDUP kend) 4096). lia.
Qed.

Lemma all_pages_spec pa : pa ∈ all_pages <-> page_ok pa.
Proof.
  destruct kend_round as (H1 & H2 & H3). unfold all_pages. rewrite elem_of_pages_from.
  unfold page_ok, PGSIZE, PHYSTOP, KERNBASE in *. set (r := PGROUNDUP kend) in *.
  rewrite Z2Nat.id by (apply Z.div_pos; lia).
  pose proof (Z.div_mod r 4096). pose proof (Z.div_mod (2147483648 + 128 * 1024 * 1024 - r) 4096).
  pose proof (Z.mod_pos_bound (2147483648 + 128 * 1024 * 1024 - r) 4096). split.
  - intros (k & Hk & ->). split; [rewrite Z.mod_add by lia; done|lia].
  - intros (P1 & P2 & P3). pose proof (Z.div_mod pa 4096).
    exists (pa / 4096 - r / 4096). split; lia.
Qed.

Lemma NoDup_pages_from p n : NoDup (pages_from p n).
Proof.
  revert p. induction n as [|n IH]; intros p; cbn [pages_from]; constructor; [|done].
  rewrite elem_of_pages_from. intros (k & Hk & E). unfold PGSIZE in E. lia.
Qed.

Lemma kinit_run c s :
  cpu_ok (cx_cpu c) -> k_freelist s = 0 -> mem_ok (k_mem s) ->
  exists c' s' l, kinit (c, s) = Ret tt (c', s') /\ cpu_ok (cx_cpu c') /\
    kinv s' l /\ NoDup l /\ (forall pa, pa ∈ l <-> page_ok pa).
Proof.
  intros Hok Hf Hm. destruct kend_round as (H1 & H2 & H3).
  pose (s1 := Kst (k_mem s) (Spinlock false "kmem" None) 0).
  assert (Hi : initlock (inS k_lock_lens) "kmem" (c, s) = Ret tt (c, s1)) by (unfold s1; by rewrite <- Hf).
  destruct (freerange_loop_run (Z.to_nat ((PHYSTOP - PGROUNDUP kend) / PGSIZE)) (PGROUNDUP kend) PHYSTOP
              c s1 [] Hok) as (c' & s' & Hrun & Hok' & Hinv').
  - split; [done|apply NoDup_nil_2|by apply Forall_nil|done|done].
  - rewrite Z2Nat.id by (apply Z.div_pos; unfold PGSIZE; lia). unfold PGSIZE.
    pose proof (Z.div_mod (PHYSTOP - PGROUNDUP kend) 4096).
    pose proof (Z.mod_pos_bound (PHYSTOP - PGROUNDUP kend) 4096). lia.
  - apply Forall_forall. intros x Hx. by apply all_pages_spec.
  - set_solver.
  - exists c', s', (reverse all_pages). rewrite app_nil_r in Hinv'. split; [|split; [done|split; [done|split]]].
    + unfold kinit. rewrite (bind_ret _ _ _ _ _ Hi). exact Hrun.
    + apply (kinv_nodup _ _ Hinv').
    + intros pa. rewrite elem_of_reverse. apply all_pages_spec.
Qed.

(** kinit() fills the allocator.  From a zeroed free list it leaves a
    well-formed list on which every page between end and PHYSTOP stands
    exactly once, and terminates without panicking. *)
Theorem kinit_all_pages c s :
  cpu_ok (cx_cpu c) -> k_freelist s = 0 -> mem_ok (k_mem s) ->
  exists c' s' l, kinit (c, s) = Ret tt (c', s') /\ cpu_ok (cx_cpu c') /\
    kinv s' l /\ NoDup l /\ (forall pa, pa ∈ l <-> page_ok pa).
Proof. exact (kinit_run c s). Qed.

(** ** The allocator's contract

    Abstractly the allocator splits the pages into free and handed-out ones. *)
Record pool := Pool { free : gset Z; used : gset Z }.

Definition pool_alloc (pl : pool) (r : Z) (pl' : pool) : Prop :=
  (free pl = ∅ /\ r = 0 /\ pl' = pl) \/
  (r ∈ free pl /\ pl' = Pool (free pl ∖ {[r]}) (used pl ∪ {[r]})).
Definition pool_free (pl : pool) (pa : Z) (pl' : pool) : Prop :=
  pa ∈ used pl /\ pl' = Pool (free pl ∪ {[pa]}) (used pl ∖ {[pa]}).

Definition implements (s : kst) (pl : pool) : Prop :=
  exists l, kinv s l /\ free pl = list_to_set l /\ free pl ## used pl /\
    forall pa, pa ∈ free pl ∪ used pl <-> page_ok pa.

Lemma kalloc_pool c s pl :
  cpu_ok (cx_cpu c) -> implements s pl ->
  exists r s' pl', kalloc (c, s) = Ret r (settled c, s') /\
    pool_alloc pl r pl' /\ implements s' pl' /\
    (forall u x, u ∈ used pl -> u <= x < u + PGSIZE -> bget (k_mem s') x = bget (k_mem s) x) /\
    (r <> 0 -> forall x, r <= x < r + PGSIZE -> bget (k_mem s') x = 5).
Proof.
  intros Hok (l & Hinv & Hfree & Hdisj & Hall). destruct l as [|p l].
  - exists 0, s, pl. split; [by apply kalloc_empty|]. split; [left; by rewrite Hfree|].
    split; [by exists []|]. done.
  - destruct (kalloc_some c s p l Hok Hinv) as (s' & Hrun & Hinv' & Hoff & Hfill).
    destruct (kinv_head _ _ _ Hinv) as (_ & Hp & Hnin).
    exists p, s', (Pool (free pl ∖ {[p]}) (used pl ∪ {[p]})). split; [done|].
    split; [right; rewrite Hfree; set_solver|].
    split; [exists l; split; [done|]|split; [|done]].
    + cbn [free used]. rewrite Hfree in *. split; [set_solver|]. split; [set_solver|].
      intros pa. rewrite <- Hall. set_unfold. destruct (decide (pa = p)); naive_solver.
    + intros u x Hu Hx. apply Hoff. apply (pages_apart p u); [done|apply Hall; set_solver| |done].
      rewrite Hfree in Hdisj. set_solver.
Qed.

(** C31: kalloc() implements the contract: it answers 0 only when no page is
    free, otherwise a page that was free and not handed out, filled with 5s;
    no byte of a handed-out page changes. *)
Theorem kalloc_refines c s pl :
  cpu_ok (cx_cpu c) -> implements s pl ->
  exists r s' pl', kalloc (c, s) = Ret r (settled c, s') /\
    pool_alloc pl r pl' /\ implements s' pl' /\
    (forall u x, u ∈ used pl -> u <= x < u + PGSIZE -> bget (k_mem s') x = bget (k_mem s) x) /\
    (r <> 0 -> forall x, r <= x < r + PGSIZE -> bget (k_mem s') x = 5).
Proof. exact (kalloc_pool c s pl). Qed.

(** kfree() of a handed-out page implements the contract, and changes no
    byte of the pages that stay handed out. *)
Theorem kfree_refines c s pl pa :
  cpu_ok (cx_cpu c) -> implements s pl -> pa ∈ used pl ->
  exists s' pl', kfree pa (c, s) = Ret tt (settled c, s') /\
    pool_free pl pa pl' /\ implements s' pl' /\
    (forall u x, u ∈ used pl' -> u <= x < u + PGSIZE -> bget (k_mem s') x = bget (k_mem s) x).
Proof.
  intros Hok (l & Hinv & Hfree & Hdisj & Hall) Hu.
  assert (Hp : page_ok pa) by (apply Hall; set_solver).
  destruct (kfree_spec c s pa l Hok Hinv Hp) as (s' & Hrun & Hinv' & Hoff); [set_solver|].
  exists s', (Pool (free pl ∪ {[pa]}) (used pl ∖ {[pa]})). split; [done|]. split; [done|].
  split; [exists (pa :: l); split; [done|]|].
  - cbn [free used]. rewrite Hfree in *. split; [set_solver|]. split; [set_solver|].
    intros q. rewrite <- Hall. set_unfold. destruct (decide (q = pa)); naive_solver.
  - cbn [used]. intros u x Hux Hx. apply Hoff.
    apply (pages_apart pa u); [done|apply Hall; set_solver|set_solver|done].
Qed.

(** kfree() panics on every address that is not a page of the pool:
    unaligned, inside the kernel image, or at or above PHYSTOP. *)
Theorem kfree_rejects pa c s : ~ page_ok pa -> kfree pa (c, s) = Panic "kfree".
Proof.
  intros H. apply kfree_panics. destruct (page_okb pa) eqn:E; [|done].
  by apply page_okb_spec in E.
Qed.

End Specs.

(** ** A concrete layout: two pages below PHYSTOP *)

Definition small_layout : Layout := {|
  kend := PHYSTOP - 2 * PGSIZE - 100;
  etext := KERNBASE + 0x8000;
  trampoline := KERNBASE + 0x7000
|}.

Lemma small_layout_ok : @LayoutOk small_layout.
Proof. split; vm_compute; repeat split; discriminate. Qed.

Definition cpu0 : cpu := Cpu 0 None 0 false true.
Definition ctx0 : ctx := Ctx cpu0 [] 1.
Definition kst0 : kst := Kst ∅ (Spinlock false "" None) 0.

Lemma cpu0_ok : cpu_ok cpu0.
Proof. split; simpl; [lia|discriminate]. Qed.

Lemma mem_ok_empty : mem_ok ∅.
Proof. intros a. unfold is_byte. simpl. rewrite lookup_empty. simpl. lia. Qed.

Lemma kinit_all_pages_witness :
  exists c' s' l, @kinit small_layout (ctx0, kst0) = Ret tt (c', s') /\ @kinv small_layout s' l /\
    (PHYSTOP - PGSIZE) ∈ l /\ (PHYSTOP - 3 * PGSIZE) ∉ l.
Proof.
  destruct (@kinit_all_pages small_layout small_layout_ok ctx0 kst0 cpu0_ok eq_refl mem_ok_empty)
    as (c' & s' & l & Hrun & _ & Hinv & _ & Hl).
  exists c', s', l. split; [exact Hrun|]. split; [exact Hinv|]. split; rewrite Hl.
  - vm_compute. repeat split; discriminate || reflexivity.
  - intros (_ & H & _). vm_compute in H. by apply H.
Defined.

(** The allocator right after boot: both pages free. *)
Definition kst2 : kst :=
  match @kinit small_layout (ctx0, kst0) with Ret _ (_, s) => s | _ => kst0 end.
Definition pool2 : pool := Pool {[PHYSTOP - PGSIZE; PHYSTOP - 2 * PGSIZE]} ∅.

Lemma kst2_pool : @implements small_layout kst2 pool2.
Proof.
  destruct (@kinit_run small_layout small_layout_ok ctx0 kst0 cpu0_ok eq_refl mem_ok_empty)
    as (c' & s' & l & Hrun & _ & Hinv & _ & Hl).
  exists l. unfold kst2. rewrite Hrun. split; [exact Hinv|].
  assert (Hset : free pool2 = list_to_set l).
  { apply leibniz_equiv. intros pa. rewrite elem_of_list_to_set, Hl. unfold page_ok.
    cbn [free pool2 kend small_layout]. unfold PHYSTOP, KERNBASE, PGSIZE. rewrite elem_of_union, !elem_of_singleton. split.
    - intros [->| ->]; vm_compute; repeat split; discriminate || reflexivity.
    - intros (H1 & H2 & H3). pose proof (Z.div_mod pa 4096). lia. }
  split; [exact Hset|]. split; [apply disjoint_empty_r|].
  intros pa. rewrite Hset, elem_of_union, elem_of_list_to_set, Hl. cbn [used pool2].
  rewrite elem_of_empty. tauto.
Qed.

Lemma kalloc_refines_witness :
  exists r s' pl', @kalloc (ctx0, kst2) = Ret r (settled ctx0, s') /\ pool_alloc pool2 r pl' /\
    @implements small_layout s' pl'.
Proof.
  destruct (@kalloc_refines small_layout small_layout_ok ctx0 kst2 pool2 cpu0_ok kst2_pool)
    as (r & s' & pl' & H1 & H2 & H3 & _).
  exists r, s', pl'. exact (conj H1 (conj H2 H3)).
Defined.

Lemma kfree_refines_witness :
  exists r s' pl' s2 pl2, kalloc (ctx0, kst2) = Ret r (settled ctx0, s') /\ r <> 0 /\
    @kfree small_layout r (settled ctx0, s') = Ret tt (settled ctx0, s2) /\
    pool_free pl' r pl2 /\ @implements small_layout s2 pl2.
Proof.
  destruct (@kalloc_pool small_layout small_layout_ok ctx0 kst2 pool2 cpu0_ok kst2_pool)
    as (r & s' & pl' & H1 & H2 & H3 & _).
  destruct H2 as [[H2 _]|[H2 ->]]; [exfalso; clear -H2; set_solver|].
  destruct (@kfree_refines small_layout small_layout_ok (settled ctx0) s' _ r
              (settled_ok ctx0 cpu0_ok) H3) as (s2 & pl2 & H4 & H5 & H6 & _); [clear; set_solver|].
  rewrite settled_idem in H4.
  exists r, s', (Pool (free pool2 ∖ {[r]}) (used pool2 ∪ {[r]})), s2, pl2. split; [exact H1|].
  split; [|exact (conj H4 (conj H5 H6))].
  intros ->. simpl in H2. rewrite elem_of_union, !elem_of_singleton in H2.
  destruct H2 as [H2|H2]; vm_compute in H2; discriminate.
Defined.

Lemma kfree_rejects_witness :
  @kfree small_layout (KERNBASE + PGSIZE) (ctx0, kst0) = Panic "kfree".
Proof.
  apply (@kfree_rejects small_layout). intros (_ & H & _). vm_compute in H. by apply H.
Defined.
