(* ===== verification/Vm.v ===== *)
(** * Page tables (kernel/vm.c, the page-table part of kernel/proc.c)

    The code: three-level Sv39 tables kept in pages of physical memory,
    written over the allocator's state [kst].  PTEs and their addresses are
    the 64-bit words the hardware reads.  VmSpec.v says what the functions
    compute. *)

From stdpp Require Import base numbers list list_numbers gmap strings.
From Stdlib Require Import ZArith Lia.
From S2P Require Import Prelude.
From S2P Require Import Machine.
From S2P Require Import Spinlock.
From S2P Require Import Mem.
From S2P Require Import Kalloc.

Local Open Scope Z_scope.

(** ** kernel/riscv.h, kernel/memlayout.h *)

Definition PTE_V : Z := Z.shiftl 1 0.
Definition PTE_R : Z := Z.shiftl 1 1.
Definition PTE_W : Z := Z.shiftl 1 2.
Definition PTE_X : Z := Z.shiftl 1 3.
Definition PTE_U : Z := Z.shiftl 1 4.

Definition PA2PTE (pa : Z) : Z := u64 (Z.shiftl (Z.shiftr pa 12) 10).
Definition PTE2PA (pte : Z) : Z := u64 (Z.shiftl (Z.shiftr pte 10) 12).
Definition PTE_FLAGS (pte : Z) : Z := Z.land pte 0x3FF.

Definition PXMASK : Z := 0x1FF.
Definition PXSHIFT (level : Z) : Z := PGSHIFT + 9 * level.
Definition PX (level va : Z) : Z := Z.land (Z.shiftr va (PXSHIFT level)) PXMASK.

Definition MAXVA : Z := Z.shiftl 1 (9 + 9 + 9 + 12 - 1).

Definition TRAMPOLINE : Z := MAXVA - PGSIZE.
Definition TRAPFRAME : Z := TRAMPOLINE - PGSIZE.
Definition KSTACK (p : Z) : Z := TRAMPOLINE - (p + 1) * 2 * PGSIZE.

Definition UART0 : Z := 0x10000000.
Definition VIRTIO0 : Z := 0x10001000.
Definition PLIC : Z := 0x0c000000.

(** A bit test of C: [x & y] used as a condition. *)
Definition has (x y : Z) : bool := negb (Z.land x y =? 0).

(** Access to words of physical memory. *)
Definition rd64 (a : Z) : K kst Z := asks (fun w => ld64 (k_mem (snd w)) a).
Definition wr64 (a v : Z) : K kst unit := modify (upd_mem (fun m => st64 m a v)).
Definition zero_page (pa : Z) : K kst unit :=
  modify (upd_mem (fun m => memset m pa 0 (Z.to_nat PGSIZE))).

Section Code.
Context {LY : Layout}.

(** [for(int level = 2; level > 0; level--)], then [&pagetable[PX(0, va)]].
    The result is the address of the PTE, or 0. *)
Fixpoint walk_loop (level : nat) (pagetable va : Z) (alloc : bool) : K kst Z :=
  match level with
  | O => mret (pagetable + 8 * PX 0 va)
  | S n =>
      let pte := pagetable + 8 * PX (Z.of_nat level) va in
      v ← rd64 pte;
      if has v PTE_V then walk_loop n (PTE2PA v) va alloc
      else if negb alloc then mret 0
      else
        pagetable' ← kalloc;
        if pagetable' =? 0 then mret 0 else
        zero_page pagetable' ;;
        wr64 pte (Z.lor (PA2PTE pagetable') PTE_V) ;;
        walk_loop n pagetable' va alloc
  end.

Definition walk (pagetable va : Z) (alloc : bool) : K kst Z :=
  if MAXVA <=? va then panic "walk" else walk_loop 2 pagetable va alloc.

Definition walkaddr (pagetable va : Z) : K kst Z :=
  if MAXVA <=? va then mret 0 else
  pte ← walk pagetable va false;
  if pte =? 0 then mret 0 else
  v ← rd64 pte;
  if negb (has v PTE_V) then mret 0 else
  if negb (has v PTE_U) then mret 0 else
  mret (PTE2PA v).

(** The loop of mappages(); it ends when [a] meets [last], after
    [(last - a) / PGSIZE + 1] rounds of 64-bit arithmetic. *)
Fixpoint mappages_loop (fuel : nat) (pagetable a last pa perm : Z) : K kst Z :=
  match fuel with
  | O => hang
  | S n =>
      pte ← walk pagetable a true;
      if pte =? 0 then mret (-1) else
      v ← rd64 pte;
      if has v PTE_V then panic "remap" else
      wr64 pte (Z.lor (Z.lor (PA2PTE pa) perm) PTE_V) ;;
      if a =? last then mret 0
      else mappages_loop n pagetable (u64 (a + PGSIZE)) last (u64 (pa + PGSIZE)) perm
  end.

Definition mappages (pagetable va size pa perm : Z) : K kst Z :=
  let a := PGROUNDDOWN va in
  let last := PGROUNDDOWN (u64 (va + size - 1)) in
  mappages_loop (S (Z.to_nat (u64 (last - a) / PGSIZE))) pagetable a last pa perm.

Definition kvmmap (kpgtbl va pa sz perm : Z) : K kst unit :=
  r ← mappages kpgtbl va sz pa perm;
  if negb (r =? 0) then panic "kvmmap" else mret tt.

(** [for(a = va; a < va + npages*PGSIZE; a += PGSIZE)] *)
Fixpoint uvmunmap_loop (fuel : nat) (pagetable a end_ : Z) (do_free : bool) : K kst unit :=
  match fuel with
  | O => hang
  | S n =>
      if negb (a <? end_) then mret tt else
      pte ← walk pagetable a false;
      if pte =? 0 then panic "uvmunmap: walk" else
      v ← rd64 pte;
      if Z.land v PTE_V =? 0 then panic "uvmunmap: not mapped" else
      if PTE_FLAGS v =? PTE_V then panic "uvmunmap: not a leaf" else
      (if do_free then kfree (PTE2PA v) else mret tt) ;;
      wr64 pte 0 ;;
      uvmunmap_loop n pagetable (u64 (a + PGSIZE)) end_ do_free
  end.

Definition uvmunmap (pagetable va npages : Z) (do_free : bool) : K kst unit :=
  if negb (va `mod` PGSIZE =? 0) then panic "uvmunmap: not aligned" else
  uvmunmap_loop (S (Z.to_nat npages)) pagetable va (u64 (va + npages * PGSIZE)) do_free.

Definition uvmcreate : K kst Z :=
  pagetable ← kalloc;
  if pagetable =? 0 then mret 0 else
  zero_page pagetable ;;
  mret pagetable.

(** [src] is the byte array initcode, of [sz] bytes. *)
Definition uvminit (pagetable : Z) (src : list Z) : K kst unit :=
  if PGSIZE <=? Z.of_nat (length src) then panic "inituvm: more than a page" else
  mem ← kalloc;
  zero_page mem ;;
  _ ← mappages pagetable 0 PGSIZE mem (Z.lor (Z.lor (Z.lor PTE_W PTE_R) PTE_X) PTE_U);
  modify (upd_mem (fun m => store_bytes m mem src)).

Definition uvmdealloc (pagetable oldsz newsz : Z) : K kst Z :=
  if oldsz <=? newsz then mret oldsz else
  (if PGROUNDUP newsz <? PGROUNDUP oldsz
   then let npages := i32 ((PGROUNDUP oldsz - PGROUNDUP newsz) / PGSIZE) in
        uvmunmap pagetable (PGROUNDUP newsz) (u64 npages) true
   else mret tt) ;;
  mret newsz.

(** [for(a = oldsz; a < newsz; a += PGSIZE)] of uvmalloc(). *)
Fixpoint uvmalloc_loop (fuel : nat) (pagetable a oldsz newsz : Z) : K kst Z :=
  match fuel with
  | O => hang
  | S n =>
      if negb (a <? newsz) then mret newsz else
      mem ← kalloc;
      if mem =? 0 then
        _ ← uvmdealloc pagetable a oldsz;
        mret 0
      else
        zero_page mem ;;
        r ← mappages pagetable a PGSIZE mem (Z.lor (Z.lor (Z.lor PTE_W PTE_X) PTE_R) PTE_U);
        if negb (r =? 0) then
          kfree mem ;;
          _ ← uvmdealloc pagetable a oldsz;
          mret 0
        else uvmalloc_loop n pagetable (u64 (a + PGSIZE)) oldsz newsz
  end.

Definition uvmalloc (pagetable oldsz newsz : Z) : K kst Z :=
  if newsz <? oldsz then mret oldsz else
  let oldsz := PGROUNDUP oldsz in
  uvmalloc_loop (S (Z.to_nat ((newsz - oldsz + PGSIZE - 1) / PGSIZE))) pagetable oldsz oldsz newsz.

(** freewalk() recurses into lower-level tables; [depth] bounds the
    recursion, three being the levels of a table. *)
Fixpoint freewalk (depth : nat) (pagetable : Z) : K kst unit :=
  match depth with
  | O => hang
  | S d =>
      for_each (seqZ 0 512) (fun i =>
        pte ← rd64 (pagetable + 8 * i);
        if has pte PTE_V && (Z.land pte (Z.lor (Z.lor PTE_R PTE_W) PTE_X) =? 0) then
          freewalk d (PTE2PA pte) ;;
          wr64 (pagetable + 8 * i) 0
        else if has pte PTE_V then panic "freewalk: leaf"
        else mret tt) ;;
      kfree pagetable
  end.

Definition uvmfree (pagetable sz : Z) : K kst unit :=
  (if 0 <? sz then uvmunmap pagetable 0 (PGROUNDUP sz / PGSIZE) true else mret tt) ;;
  freewalk 3 pagetable.

(** [for(i = 0; i < sz; i += PGSIZE)] of uvmcopy(), with its [err:] exit. *)
Fixpoint uvmcopy_loop (fuel : nat) (old new i sz : Z) : K kst Z :=
  match fuel with
  | O => hang
  | S n =>
      if negb (i <? sz) then mret 0 else
      pte ← walk old i false;
      if pte =? 0 then panic "uvmcopy: pte should exist" else
      v ← rd64 pte;
      if Z.land v PTE_V =? 0 then panic "uvmcopy: page not present" else
      let pa := PTE2PA v in
      let flags := PTE_FLAGS v in
      let err := uvmunmap new 0 (i / PGSIZE) true ;; mret (-1) in
      mem ← kalloc;
      if mem =? 0 then err else
      modify (upd_mem (fun m => memmove m mem pa (Z.to_nat PGSIZE))) ;;
      r ← mappages new i PGSIZE mem flags;
      if negb (r =? 0) then kfree mem ;; err
      else uvmcopy_loop n old new (u64 (i + PGSIZE)) sz
  end.

Definition uvmcopy (old new sz : Z) : K kst Z :=
  uvmcopy_loop (S (Z.to_nat ((sz + PGSIZE - 1) / PGSIZE))) old new 0 sz.

Definition uvmclear (pagetable va : Z) : K kst unit :=
  pte ← walk pagetable va false;
  if pte =? 0 then panic "uvmclear" else
  v ← rd64 pte;
  wr64 pte (Z.land v (Z.lnot PTE_U)).

(** Copy the kernel bytes [src] to user address [dstva].  One round copies
    at least one byte, so the length bounds the rounds. *)
Fixpoint copyout_loop (fuel : nat) (pagetable dstva : Z) (src : list Z) : K kst Z :=
  match fuel with
  | O => hang
  | S k =>
      let len := Z.of_nat (length src) in
      if negb (0 <? len) then mret 0 else
      let va0 := PGROUNDDOWN dstva in
      pa0 ← walkaddr pagetable va0;
      if pa0 =? 0 then mret (-1) else
      let n := Z.min (PGSIZE - (dstva - va0)) len in
      modify (upd_mem (fun m => store_bytes m (pa0 + (dstva - va0)) (take (Z.to_nat n) src))) ;;
      copyout_loop k pagetable (u64 (va0 + PGSIZE)) (drop (Z.to_nat n) src)
  end.
Definition copyout (pagetable dstva : Z) (src : list Z) : K kst Z :=
  copyout_loop (S (length src)) pagetable dstva src.

(** Copy [len] user bytes; the result is what reached the kernel buffer and
    the return code. *)
Fixpoint copyin_loop (fuel : nat) (pagetable srcva len : Z) (dst : list Z) : K kst (list Z * Z) :=
  match fuel with
  | O => hang
  | S k =>
      if negb (0 <? len) then mret (dst, 0) else
      let va0 := PGROUNDDOWN srcva in
      pa0 ← walkaddr pagetable va0;
      if pa0 =? 0 then mret (dst, -1) else
      let n := Z.min (PGSIZE - (srcva - va0)) len in
      m ← asks (fun w => k_mem (snd w));
      copyin_loop k pagetable (u64 (va0 + PGSIZE)) (len - n)
        (dst ++ bytes_at m (pa0 + (srcva - va0)) (Z.to_nat n))
  end.
Definition copyin (pagetable srcva len : Z) : K kst (list Z * Z) :=
  copyin_loop (S (Z.to_nat len)) pagetable srcva len [].

(** The inner loop of copyinstr(): bytes up to a NUL, at most [n]. *)
Fixpoint copyinstr_page (m : mem) (p : Z) (n : nat) (dst : list Z) : list Z * bool :=
  match n with
  | O => (dst, false)
  | S k => if bget m p =? 0 then (dst ++ [0], true)
           else copyinstr_page m (p + 1) k (dst ++ [bget m p])
  end.
Fixpoint copyinstr_loop (fuel : nat) (pagetable srcva max : Z) (dst : list Z) : K kst (list Z * Z) :=
  match fuel with
  | O => hang
  | S k =>
      if negb (0 <? max) then mret (dst, -1) else
      let va0 := PGROUNDDOWN srcva in
      pa0 ← walkaddr pagetable va0;
      if pa0 =? 0 then mret (dst, -1) else
      let n := Z.min (PGSIZE - (srcva - va0)) max in
      m ← asks (fun w => k_mem (snd w));
      let '(dst', got_null) := copyinstr_page m (pa0 + (srcva - va0)) (Z.to_nat n) dst in
      if (got_null : bool) then mret (dst', 0)
      else copyinstr_loop k pagetable (u64 (va0 + PGSIZE)) (max - n) dst'
  end.
Definition copyinstr (pagetable srcva max : Z) : K kst (list Z * Z) :=
  copyinstr_loop (S (Z.to_nat max)) pagetable srcva max [].

(** ** The page tables of processes and of the kernel *)

Definition proc_pagetable (trapframe : Z) : K kst Z :=
  pagetable ← uvmcreate;
  if pagetable =? 0 then mret 0 else
  r ← mappages pagetable TRAMPOLINE PGSIZE trampoline (Z.lor PTE_R PTE_X);
  if r <? 0 then uvmfree pagetable 0 ;; mret 0 else
  r ← mappages pagetable TRAPFRAME PGSIZE trapframe (Z.lor PTE_R PTE_W);
  if r <? 0 then
    uvmunmap pagetable TRAMPOLINE 1 false ;;
    uvmfree pagetable 0 ;;
    mret 0
  else mret pagetable.

Definition proc_freepagetable (pagetable sz : Z) : K kst unit :=
  uvmunmap pagetable TRAMPOLINE 1 false ;;
  uvmunmap pagetable TRAPFRAME 1 false ;;
  uvmfree pagetable sz.

Definition proc_mapstacks (kpgtbl : Z) : K kst unit :=
  for_each (seqZ 0 NPROC) (fun i =>
    pa ← kalloc;
    if pa =? 0 then panic "kalloc" else
    kvmmap kpgtbl (KSTACK i) pa PGSIZE (Z.lor PTE_R PTE_W)).

Definition kvmmake : K kst Z :=
  kpgtbl ← kalloc;
  zero_page kpgtbl ;;
  kvmmap kpgtbl UART0 UART0 PGSIZE (Z.lor PTE_R PTE_W) ;;
  kvmmap kpgtbl VIRTIO0 VIRTIO0 PGSIZE (Z.lor PTE_R PTE_W) ;;
  kvmmap kpgtbl PLIC PLIC 0x400000 (Z.lor PTE_R PTE_W) ;;
  kvmmap kpgtbl KERNBASE KERNBASE (etext - KERNBASE) (Z.lor PTE_R PTE_X) ;;
  kvmmap kpgtbl etext etext (PHYSTOP - etext) (Z.lor PTE_R PTE_W) ;;
  kvmmap kpgtbl TRAMPOLINE trampoline PGSIZE (Z.lor PTE_R PTE_X) ;;
  proc_mapstacks kpgtbl ;;
  mret kpgtbl.

End Code.
