(* ===== verification/VmSpec.v ===== *)
(** * Page tables: what the code of Vm.v computes

    A page table is described by the map from index paths to table pages
    ([] the root, [i] the page under its entry i, [i; j] the level-0 pages).
    [vinv] ties the map to memory and to the free list; the functions of Vm.v
    are shown to change the address space they describe as they should. *)

From stdpp Require Import base numbers list list_numbers gmap strings sets.
From Stdlib Require Import ZArith Lia.
From S2P Require Import Prelude.
From S2P Require Import Machine.
From S2P Require Import Spinlock.
From S2P Require Import Mem.
From S2P Require Import Kalloc.
From S2P Require Import Vm.

Local Open Scope Z_scope.

(** ** Bits of PTEs and virtual addresses *)

Lemma has_bit k v : 0 <= k -> has v (Z.shiftl 1 k) = Z.testbit v k.
Proof.
  intros Hk. unfold has. destruct (Z.testbit v k) eqn:E.
  - rewrite (proj2 (Z.eqb_neq _ 0)); [done|]. intros H.
    assert (Hb : Z.testbit (Z.land v (Z.shiftl 1 k)) k = false) by (by rewrite H, Z.bits_0).
    rewrite Z.land_spec, E, Z.shiftl_spec, Z.sub_diag in Hb by lia. done.
  - rewrite (proj2 (Z.eqb_eq _ 0)); [done|]. apply Z.bits_inj'. intros i Hi.
    rewrite Z.land_spec, Z.bits_0, Z.shiftl_spec by lia.
    destruct (decide (i = k)) as [->|Hne]; [by rewrite E|].
    change 1 with (2 ^ 0). rewrite Z.pow2_bits_false by lia. apply andb_false_r.
Qed.

Lemma testbit_u64 x i : 0 <= i -> Z.testbit (u64 x) i = (i <? 64) && Z.testbit x i.
Proof.
  intros Hi. unfold u64. destruct (Z.ltb_spec i 64); simpl.
  - by rewrite Z.mod_pow2_bits_low.
  - by rewrite Z.mod_pow2_bits_high by lia.
Qed.

Lemma testbit_high x n i : 0 <= x < 2 ^ n -> 0 <= n <= i -> Z.testbit x i = false.
Proof. intros Hx Hi. rewrite <- (Z.mod_small x (2 ^ n)) by done. apply Z.mod_pow2_bits_high. lia. Qed.

Lemma testbit_aligned x n i : x `mod` 2 ^ n = 0 -> 0 <= i < n -> Z.testbit x i = false.
Proof. intros Hx Hi. rewrite <- (Z.mod_pow2_bits_low x n i) by lia. by rewrite Hx, Z.bits_0. Qed.

Lemma testbit_PA2PTE pa i :
  0 <= i -> Z.testbit (PA2PTE pa) i = (i <? 64) && (10 <=? i) && Z.testbit pa (i + 2).
Proof.
  intros Hi. unfold PA2PTE. rewrite testbit_u64 by done.
  destruct (i <? 64); simpl; [|done]. rewrite Z.shiftl_spec by lia.
  destruct (Z.leb_spec 10 i); simpl; [|by rewrite Z.testbit_neg_r by lia].
  rewrite Z.shiftr_spec by lia. f_equal. lia.
Qed.

Lemma testbit_PTE2PA v i :
  0 <= i -> Z.testbit (PTE2PA v) i = (i <? 64) && (12 <=? i) && Z.testbit v (i - 2).
Proof.
  intros Hi. unfold PTE2PA. rewrite testbit_u64 by done.
  destruct (i <? 64); simpl; [|done]. rewrite Z.shiftl_spec by lia.
  destruct (Z.leb_spec 12 i); simpl; [|by rewrite Z.testbit_neg_r by lia].
  rewrite Z.shiftr_spec by lia. f_equal. lia.
Qed.

(** Physical page addresses fit the 44 bits of a PTE. *)
Definition pa_ok (pa : Z) : Prop := pa `mod` PGSIZE = 0 /\ 0 <= pa < 2 ^ 56.

Definition mkpte (pa perm : Z) : Z := Z.lor (Z.lor (PA2PTE pa) perm) PTE_V.

Section Pte.
Context (pa perm : Z) (Hpa : pa_ok pa) (Hperm : 0 <= perm < 1024).

Lemma PTE2PA_mkpte : PTE2PA (mkpte pa perm) = pa.
Proof.
  destruct Hpa as [Ha Hr]. apply Z.bits_inj'. intros i Hi. rewrite testbit_PTE2PA by done.
  destruct (Z.leb_spec 12 i).
  - destruct (Z.ltb_spec i 64); simpl.
    + unfold mkpte, PTE_V. rewrite !Z.lor_spec, testbit_PA2PTE by lia.
      rewrite (testbit_high perm 10), (Z.shiftl_spec 1 0), (testbit_high 1 1) by lia.
      rewrite (proj2 (Z.ltb_lt _ _)), (proj2 (Z.leb_le _ _)) by lia. rewrite !orb_false_r. simpl. f_equal. lia.
    + by rewrite (testbit_high pa 56) by lia.
  - rewrite andb_false_r. simpl. symmetry. apply (testbit_aligned pa 12); [done|lia].
Qed.

Lemma mkpte_bit k : 0 <= k < 10 -> Z.testbit (mkpte pa perm) k = Z.testbit perm k || (k =? 0).
Proof.
  intros Hk. unfold mkpte, PTE_V. rewrite !Z.lor_spec, testbit_PA2PTE, (Z.shiftl_spec 1 0) by lia.
  rewrite (proj2 (Z.leb_gt 10 k)) by lia. rewrite andb_false_r. simpl. f_equal. rewrite Z.sub_0_r.
  destruct (Z.eqb_spec k 0) as [->|]; [done|]. apply (testbit_high 1 1); lia.
Qed.

Lemma mkpte_valid : has (mkpte pa perm) PTE_V = true.
Proof. unfold PTE_V. rewrite has_bit, mkpte_bit by lia. apply orb_true_r. Qed.

Lemma mkpte_user : has (mkpte pa perm) PTE_U = has perm PTE_U.
Proof. unfold PTE_U. rewrite !has_bit, mkpte_bit by lia. apply orb_false_r. Qed.

Lemma mkpte_flags : PTE_FLAGS (mkpte pa perm) = Z.lor perm PTE_V.
Proof.
  apply Z.bits_inj'. intros i Hi. unfold PTE_FLAGS. change 0x3FF with (Z.ones 10).
  rewrite Z.land_spec, Z.lor_spec, Z.testbit_ones_nonneg by lia. unfold PTE_V.
  destruct (Z.ltb_spec i 10).
  - rewrite mkpte_bit, andb_true_r, Z.shiftl_spec, Z.sub_0_r by lia. apply (f_equal (orb _)).
    destruct (Z.eqb_spec i 0) as [->|]; [done|]. symmetry. apply (testbit_high 1 1); lia.
  - rewrite andb_false_r, (testbit_high perm 10), Z.shiftl_spec, (testbit_high 1 1) by lia. done.
Qed.

Lemma mkpte_range : 0 <= mkpte pa perm < 2 ^ 64.
Proof.
  assert (H0 : 0 <= mkpte pa perm).
  { unfold mkpte. rewrite !Z.lor_nonneg. split_and!; [|lia|done].
    unfold PA2PTE. pose proof (u64_range (Z.shiftl (Z.shiftr pa 12) 10)). lia. }
  split; [done|]. destruct (Z.eq_dec (mkpte pa perm) 0) as [->|Hne]; [lia|].
  apply Z.log2_lt_pow2; [lia|]. apply Z.nle_gt. intros Hl.
  pose proof (Z.bit_log2 (mkpte pa perm) ltac:(lia)) as Hb.
  assert (Hf : forall i, 64 <= i -> Z.testbit (mkpte pa perm) i = false).
  { intros i Hi. unfold mkpte, PTE_V. rewrite !Z.lor_spec, testbit_PA2PTE by lia.
    rewrite (proj2 (Z.ltb_ge i 64)), (testbit_high perm 10), Z.shiftl_spec, (testbit_high 1 1) by lia. done. }
  rewrite Hf in Hb by lia. discriminate.
Qed.

End Pte.

(** A pointer to a table page is a PTE without permissions. *)
Lemma table_pte p : Z.lor (PA2PTE p) PTE_V = mkpte p 0.
Proof. unfold mkpte. by rewrite Z.lor_0_r. Qed.

Lemma has_0 y : has 0 y = false.
Proof. done. Qed.

Lemma PX_eq level va : 0 <= level -> PX level va = (va / 2 ^ (12 + 9 * level)) `mod` 512.
Proof.
  intros H. unfold PX, PXSHIFT, PGSHIFT, PXMASK. change 0x1FF with (Z.ones 9).
  rewrite Z.land_ones, Z.shiftr_div_pow2 by lia. reflexivity.
Qed.

Lemma PX_range level va : 0 <= level -> 0 <= PX level va < 512.
Proof. intros. rewrite PX_eq by done. apply Z.mod_pos_bound. lia. Qed.

(** The indices determine the page. *)
Lemma PX_page va :
  0 <= va < MAXVA -> va / PGSIZE = PX 2 va * 512 * 512 + PX 1 va * 512 + PX 0 va.
Proof.
  intros H. rewrite !PX_eq by lia. unfold PGSIZE, MAXVA in *.
  change (Z.shiftl 1 (9 + 9 + 9 + 12 - 1)) with (2 ^ 38) in H.
  change (2 ^ (12 + 9 * 2)) with (4096 * 512 * 512). change (2 ^ (12 + 9 * 1)) with (4096 * 512).
  change (2 ^ (12 + 9 * 0)) with 4096.
  rewrite <- !Z.div_div by lia. set (v := va / 4096).
  assert (0 <= v < 2 ^ 26) by (subst v; split; [apply Z.div_pos|apply Z.div_lt_upper_bound]; lia).
  pose proof (Z.div_mod v 512). pose proof (Z.div_mod (v / 512) 512).
  rewrite (Z.mod_small (v / 512 / 512)); [lia|].
  split; [do 2 (apply Z.div_pos; [|lia]); lia|]. do 2 (apply Z.div_lt_upper_bound; [lia|]). lia.
Qed.

Lemma PX_inj va va' :
  0 <= va < MAXVA -> 0 <= va' < MAXVA ->
  PX 2 va = PX 2 va' -> PX 1 va = PX 1 va' -> PX 0 va = PX 0 va' -> va / PGSIZE = va' / PGSIZE.
Proof. intros. rewrite !PX_page by done. congruence. Qed.

(** ** Table trees *)

Abbreviation ptree := (gmap (list Z) Z).

Section Tree.
Context {LY : Layout} {LO : LayoutOk}.

Definition in_tree (T : ptree) (p : Z) : Prop := exists path, T !! path = Some p.
Definition off_tree (T : ptree) (x : Z) : Prop := forall p, in_tree T p -> off_page p x.

Record tree_wf (root : Z) (T : ptree) : Prop := {
  tw_root : T !! [] = Some root;
  tw_page : forall path p, T !! path = Some p -> page_ok p;
  tw_depth : forall path p, T !! path = Some p -> (length path <= 2)%nat;
  tw_up : forall path i p, T !! (path ++ [i]) = Some p -> is_Some (T !! path);
  tw_inj : forall a b p, T !! a = Some p -> T !! b = Some p -> a = b
}.

(** The content of an interior entry: the PTE of the page below, or no PTE. *)
Definition points (m : mem) (a : Z) (o : option Z) : Prop :=
  match o with
  | Some p => ld64 m a = mkpte p 0
  | None => has (ld64 m a) PTE_V = false
  end.

Definition tree_at (m : mem) (T : ptree) : Prop :=
  forall path p i, T !! path = Some p -> (length path < 2)%nat -> 0 <= i < 512 ->
    points m (p + 8 * i) (T !! (path ++ [i])).

(** The address of the level-0 entry of [va], and the PTE in it if valid. *)
Definition leaf (T : ptree) (va : Z) : option Z :=
  (fun q => q + 8 * PX 0 va) <$> T !! [PX 2 va; PX 1 va].

Definition pte_at (m : mem) (T : ptree) (va : Z) : option Z :=
  a ← leaf T va; let v := ld64 m a in if has v PTE_V then Some v else None.

Record vinv (root : Z) (s : kst) (T : ptree) (l : list Z) : Prop := {
  v_kinv : kinv s l;
  v_wf : tree_wf root T;
  v_at : tree_at (k_mem s) T;
  v_sep : forall p, in_tree T p -> p ∉ l
}.

(** The indices that addresses below MAXVA have. *)
Definition path_ok (path : list Z) : Prop :=
  match path with [] => True | a :: r => 0 <= a < 256 /\ Forall (fun i => 0 <= i < 512) r end.

Definition tree_dom (T : ptree) : Prop := forall path p, T !! path = Some p -> path_ok path.

(** What building a deeper tree may change. *)
Record grow (s : kst) (T : ptree) (l : list Z) (s' : kst) (T' : ptree) (l' : list Z) : Prop := {
  g_sub : T ⊆ T';
  g_new : forall p, in_tree T' p -> in_tree T p \/ (p ∈ l /\ p ∉ l');
  g_free : forall p, p ∈ l' -> p ∈ l;
  g_kept : forall p, p ∈ l -> p ∈ l' \/ in_tree T' p;
  g_dom : tree_dom T -> tree_dom T';
  g_mem : forall x, off_tree T' x -> bget (k_mem s') x = bget (k_mem s) x
}.

Definition calm (c c' : ctx) : Prop := c' = c \/ c' = settled c.

Lemma calm_refl c : calm c c.
Proof. by left. Qed.

Lemma calm_settled c : calm c (settled c).
Proof. by right. Qed.

Lemma calm_trans c1 c2 c3 : calm c1 c2 -> calm c2 c3 -> calm c1 c3.
Proof. unfold calm. intros [->| ->] [->| ->]; rewrite ?settled_idem; auto. Qed.

Lemma calm_ok c c' : calm c c' -> cpu_ok (cx_cpu c) -> cpu_ok (cx_cpu c').
Proof. intros [->| ->]; [done|apply settled_ok]. Qed.

Lemma in_tree_sub T T' p : T ⊆ T' -> in_tree T p -> in_tree T' p.
Proof. intros H [path Hp]. exists path. by eapply lookup_weaken. Qed.

Lemma off_tree_sub T T' x : T ⊆ T' -> off_tree T' x -> off_tree T x.
Proof. intros H Hx p Hp. by eapply Hx, in_tree_sub. Qed.

Lemma grow_refl s T l : grow s T l s T l.
Proof. split; auto. Qed.

Lemma grow_trans s1 T1 l1 s2 T2 l2 s3 T3 l3 :
  grow s1 T1 l1 s2 T2 l2 -> grow s2 T2 l2 s3 T3 l3 -> grow s1 T1 l1 s3 T3 l3.
Proof.
  intros [A1 A2 A3 A5 A6 A4] [B1 B2 B3 B5 B6 B4]. split.
  - by transitivity T2.
  - intros p Hp. destruct (B2 p Hp) as [H|[H1 H2]]; [|naive_solver].
    destruct (A2 p H) as [?|[? ?]]; [by left|right; naive_solver].
  - auto.
  - intros p Hp. destruct (A5 p Hp) as [H|H]; [by apply B5|right; by eapply in_tree_sub].
  - auto.
  - intros x Hx. rewrite B4 by done. by eapply A4, off_tree_sub.
Qed.

Lemma page_pa p : page_ok p -> pa_ok p.
Proof.
  intros H. pose proof (page_ok_pos p H). destruct H as [H _]. split; [done|].
  unfold PHYSTOP, KERNBASE, PGSIZE in *. lia.
Qed.

Lemma ld64_zero (m : mem) a : (forall x, a <= x < a + 8 -> bget m x = 0) -> ld64 m a = 0.
Proof.
  intros H. rewrite (ld64_ext m (∅ : mem) a); [done|]. intros x Hx. by rewrite H.
Qed.

Lemma off_word p i x : 0 <= i < 512 -> off_page p x -> x < p + 8 * i \/ p + 8 * i + 8 <= x.
Proof. unfold off_page, PGSIZE. lia. Qed.

(** Entries of table pages do not overlap. *)
Lemma entry_apart T root p q i j x :
  tree_wf root T -> in_tree T p -> in_tree T q -> 0 <= i < 512 -> 0 <= j < 512 ->
  p <> q \/ i <> j -> q + 8 * j <= x < q + 8 * j + 8 -> x < p + 8 * i \/ p + 8 * i + 8 <= x.
Proof.
  intros W [a Ha] [b Hb] Hi Hj Hne Hx. destruct (decide (p = q)) as [->|Hpq]; [lia|].
  apply off_word; [done|]. apply (pages_apart p q x); [by eapply tw_page..|done|unfold PGSIZE; lia].
Qed.

Definition prefix_of (level : nat) (va : Z) : list Z :=
  match level with
  | O => [PX 2 va; PX 1 va]
  | 1%nat => [PX 2 va]
  | _ => []
  end.

Lemma prefix_step n va :
  (S n <= 2)%nat -> prefix_of n va = prefix_of (S n) va ++ [PX (Z.of_nat (S n)) va].
Proof. intros H. destruct n as [|[|n]]; [done|done|lia]. Qed.

Lemma prefix_len n va : (n <= 2)%nat -> length (prefix_of n va) = (2 - n)%nat.
Proof. intros H. destruct n as [|[|[|n]]]; [done..|lia]. Qed.

Lemma leaf_none root T n va :
  tree_wf root T -> (n <= 2)%nat -> T !! prefix_of n va = None -> leaf T va = None.
Proof.
  intros W Hn. induction n as [|n IH]; intros H.
  - unfold leaf. simpl in H. by rewrite H.
  - apply IH; [lia|]. rewrite prefix_step by done.
    apply eq_None_not_Some. intros [p E]. apply (tw_up _ _ W) in E as [? ?]. congruence.
Qed.

Lemma rd64_bind {A} a (k : Z -> K kst A) c s :
  (v ← rd64 a; k v) (c, s) = k (ld64 (k_mem s) a) (c, s).
Proof. done. Qed.

Lemma wr64_bind {A} a v (k : K kst A) c s :
  (wr64 a v ;; k) (c, s) = k (c, Kst (st64 (k_mem s) a v) (k_lock s) (k_freelist s)).
Proof. done. Qed.

Lemma zero_bind {A} pa (k : K kst A) c s :
  (zero_page pa ;; k) (c, s) =
  k (c, Kst (memset (k_mem s) pa 0 (Z.to_nat PGSIZE)) (k_lock s) (k_freelist s)).
Proof. done. Qed.

(** walk() without allocation finds the entry the tree describes. *)
Lemma walk_find root T n pt va c s :
  tree_wf root T -> tree_at (k_mem s) T -> (n <= 2)%nat -> T !! prefix_of n va = Some pt ->
  walk_loop n pt va false (c, s) = Ret (default 0 (leaf T va)) (c, s).
Proof.
  intros W A. revert pt. induction n as [|n IH]; intros pt Hn Hpt.
  - simpl. unfold leaf. simpl in Hpt. by rewrite Hpt.
  - cbn [walk_loop]. rewrite rd64_bind.
    pose proof (A _ _ (PX (Z.of_nat (S n)) va) Hpt) as P. rewrite prefix_len in P by done.
    specialize (P ltac:(lia) ltac:(apply PX_range; lia)). rewrite <- prefix_step in P by done.
    destruct (T !! prefix_of n va) as [p|] eqn:E; simpl in P.
    + rewrite P. pose proof (page_pa p (tw_page _ _ W _ _ E)).
      rewrite mkpte_valid, PTE2PA_mkpte by (done || lia). apply IH; [lia|done].
    + rewrite P. simpl. by rewrite (leaf_none root T n va W) by (done || lia).
Qed.

(** Hanging a fresh zeroed page under an empty entry. *)
Section Graft.
Context (root : Z) (T : ptree) (m m' : mem) (path : list Z) (pt i p : Z).
Context (W : tree_wf root T) (A : tree_at m T) (Hpt : T !! path = Some pt).
Context (Hlen : (length path < 2)%nat) (Hi : 0 <= i < 512) (Hnone : T !! (path ++ [i]) = None).
Context (Hp : page_ok p) (Hnew : ~ in_tree T p).
Context (Hzero : forall x, p <= x < p + PGSIZE -> bget m' x = 0).
Context (Hword : ld64 m' (pt + 8 * i) = mkpte p 0).
Context (Hsame : forall x, off_page p x -> x < pt + 8 * i \/ pt + 8 * i + 8 <= x -> bget m' x = bget m x).

Let T' : ptree := <[path ++ [i] := p]> T.

Lemma graft_page q j : 0 <= j < 512 -> in_tree T q -> q <> pt \/ j <> i -> ld64 m' (q + 8 * j) = ld64 m (q + 8 * j).
Proof.
  intros Hj Hq Hne. apply ld64_ext. intros x Hx. apply Hsame.
  - destruct Hq as [b Hb]. apply (pages_apart p q); [done|by eapply tw_page| |unfold PGSIZE; lia].
    intros ->. apply Hnew. by exists b.
  - eapply (entry_apart T root pt q i j); [done|by exists path|done|done|done|naive_solver|done].
Qed.

Lemma graft_new j : 0 <= j < 512 -> has (ld64 m' (p + 8 * j)) PTE_V = false.
Proof.
  intros Hj. rewrite ld64_zero; [done|]. intros x Hx. apply Hzero. unfold PGSIZE. lia.
Qed.

Lemma graft_wf : tree_wf root T'.
Proof.
  split.
  - unfold T'. rewrite lookup_insert_ne; [by apply (tw_root _ _ W)|]. by destruct path.
  - intros b q. unfold T'. rewrite lookup_insert_Some. intros [[_ <-]|[_ H]]; [done|by eapply tw_page].
  - intros b q. unfold T'. rewrite lookup_insert_Some. intros [[<- _]|[_ H]]; [|by eapply tw_depth].
    rewrite length_app. simpl. lia.
  - intros b j q. unfold T'. rewrite lookup_insert_Some. intros [[E _]|[_ H]].
    + apply app_inj_2 in E as [-> _]; [|done]. rewrite lookup_insert_is_Some'. by eauto.
    + apply (tw_up _ _ W) in H. rewrite lookup_insert_is_Some'. auto.
  - intros a b q. unfold T'. rewrite !lookup_insert_Some.
    intros [[<- <-]|[_ H1]] [[<- E]|[_ H2]]; subst; [done|..|by eapply tw_inj].
    + destruct Hnew. by exists b.
    + destruct Hnew. by exists a.
Qed.

Lemma graft_at : tree_at m' T'.
Proof.
  intros b q j Hb Hl Hj. unfold T' in *. apply lookup_insert_Some in Hb as [[<- <-]|[Hne Hb]].
  - rewrite lookup_insert_ne by (intros E%(f_equal length); rewrite !length_app in E; simpl in E; lia).
    assert (T !! ((path ++ [i]) ++ [j]) = None) as ->; [|by apply graft_new].
    apply eq_None_not_Some. intros [q E]. apply (tw_up _ _ W) in E as [? ?]. congruence.
  - destruct (decide (path ++ [i] = b ++ [j])) as [E|Hne'].
    + rewrite E, lookup_insert_eq. apply app_inj_2 in E as [-> [= ->]]; [|done]. by simplify_eq.
    + rewrite lookup_insert_ne by done. pose proof (A b q j Hb Hl Hj) as P.
      assert (E : ld64 m' (q + 8 * j) = ld64 m (q + 8 * j)).
      { apply graft_page; [done|by exists b|]. destruct (decide (q = pt)) as [->|]; [right|by left].
        intros ->. apply Hne'. by rewrite (tw_inj _ _ W _ _ _ Hpt Hb). }
      unfold points in *. by rewrite E.
Qed.

Lemma graft_look va : pte_at m' T' va = pte_at m T va.
Proof.
  unfold pte_at, leaf, T'. destruct (decide (path ++ [i] = [PX 2 va; PX 1 va])) as [E|Hne].
  - rewrite <- E, lookup_insert_eq, Hnone. simpl. by rewrite graft_new by (apply PX_range; lia).
  - rewrite lookup_insert_ne by done. destruct (T !! [PX 2 va; PX 1 va]) as [q|] eqn:E; [|done]. simpl.
    rewrite graft_page; [done|apply PX_range; lia|by eexists|left].
    intros ->. pose proof (tw_inj _ _ W _ _ _ Hpt E) as ->. simpl in Hlen. lia.
Qed.

End Graft.

Lemma kinv_write s l (m' : mem) :
  kinv s l -> mem_ok m' ->
  (forall pa x, pa ∈ l -> pa <= x < pa + 8 -> bget m' x = bget (k_mem s) x) ->
  kinv (Kst m' (k_lock s) (k_freelist s)) l.
Proof. intros [K1 K2 K3 K4 K5] Hm H. split; cbn [k_mem k_lock k_freelist]; auto. by eapply freelist_off. Qed.

(** kalloc() and the assignments of walk() that use its page: [z] is the
    memory with the page zeroed. *)
Section Extend.
Context (root : Z) (s : kst) (T : ptree) (l : list Z) (p : Z) (path : list Z) (pt i : Z).
Context (V : vinv root s T (p :: l)) (Hpt : T !! path = Some pt) (Hlen : (length path < 2)%nat).
Context (Hi : 0 <= i < 512) (Hnone : T !! (path ++ [i]) = None).
Context (s1 : kst) (z : mem) (K1 : kinv s1 l) (Hzm : mem_ok z).
Context (Hoff : forall x, off_page p x -> bget z x = bget (k_mem s) x).
Context (Hoff1 : forall x, off_page p x -> bget z x = bget (k_mem s1) x).
Context (Hz : forall x, p <= x < p + PGSIZE -> bget z x = 0).

Let m2 : mem := st64 z (pt + 8 * i) (mkpte p 0).
Let T' : ptree := <[path ++ [i] := p]> T.

Lemma extend_pages : page_ok p /\ page_ok pt /\ ~ in_tree T p /\ p <> pt.
Proof.
  destruct V as [VK VW VA VS]. destruct (kinv_head _ _ _ VK) as (_ & Hp & Hpl).
  assert (Hnew : ~ in_tree T p) by (intros H; apply (VS p H); left).
  split_and!; [done|by eapply tw_page|done|]. intros ->. apply Hnew. by exists path.
Qed.

Lemma extend_zero x : p <= x < p + PGSIZE -> bget m2 x = 0.
Proof.
  destruct extend_pages as (? & ? & ? & ?). intros Hx. unfold m2.
  rewrite st64_get_out; [by apply Hz|]. apply off_word; [done|]. by apply (pages_apart pt p).
Qed.

Lemma extend_word : ld64 m2 (pt + 8 * i) = mkpte p 0.
Proof. apply ld64_st64_eq, mkpte_range. lia. Qed.

Lemma extend_same x : off_page p x -> x < pt + 8 * i \/ pt + 8 * i + 8 <= x -> bget m2 x = bget (k_mem s) x.
Proof. intros H1 H2. unfold m2. rewrite st64_get_out by done. by apply Hoff. Qed.

Lemma extend_kinv : kinv (Kst m2 (k_lock s1) (k_freelist s1)) l.
Proof.
  destruct extend_pages as (Hp & Hptok & _ & _). destruct V as [VK VW VA VS].
  destruct (kinv_head _ _ _ VK) as (_ & _ & Hpl).
  apply kinv_write; [exact K1|by apply st64_ok|]. intros pa x Hpa Hx.
  pose proof (kinv_pages _ _ K1) as Hps. rewrite Forall_forall in Hps.
  unfold m2. rewrite st64_get_out, Hoff1; [done| |].
  - apply (pages_apart p pa); [done|by apply Hps|set_solver|unfold PGSIZE; lia].
  - apply off_word; [done|]. apply (pages_apart pt pa); [done|by apply Hps| |unfold PGSIZE; lia].
    intros ->. apply (VS pa); [by exists path|by right].
Qed.

Lemma extend_vinv : vinv root (Kst m2 (k_lock s1) (k_freelist s1)) T' l.
Proof.
  pose proof extend_kinv as HK. destruct extend_pages as (Hp & _ & Hnew & _).
  destruct V as [VK VW VA VS]. destruct (kinv_head _ _ _ VK) as (_ & _ & Hpl). split; cbn [k_mem].
  - exact HK.
  - apply (graft_wf root T (k_mem s) m2 path pt i p); auto using extend_zero, extend_word, extend_same.
  - apply (graft_at root T (k_mem s) m2 path pt i p); auto using extend_zero, extend_word, extend_same.
  - intros q [b Hb]. apply lookup_insert_Some in Hb as [[_ <-]|[_ Hb]]; [done|].
    assert (in_tree T q) as H by (by exists b). apply VS in H. set_solver.
Qed.

Lemma extend_grow : path_ok (path ++ [i]) -> grow s T (p :: l) (Kst m2 (k_lock s1) (k_freelist s1)) T' l.
Proof.
  intros Hpi. assert (Hsub : T ⊆ T') by (by apply insert_subseteq).
  destruct (kinv_head _ _ _ (v_kinv _ _ _ _ V)) as (_ & _ & Hpl). split; cbn [k_mem].
  - done.
  - intros q [b Hb]. apply lookup_insert_Some in Hb as [[_ <-]|[_ Hb]]; [right; set_solver|left; by exists b].
  - set_solver.
  - intros q Hq. apply elem_of_cons in Hq as [->|Hq]; [right|by left]. exists (path ++ [i]). apply lookup_insert_eq.
  - intros D b q Hb. apply lookup_insert_Some in Hb as [[<- _]|[_ Hb]]; [done|by eapply D].
  - intros x Hx. apply extend_same.
    + apply Hx. exists (path ++ [i]). apply lookup_insert_eq.
    + apply off_word, Hx; [done|]. exists path. by eapply lookup_weaken.
Qed.

Lemma extend_look va : pte_at m2 T' va = pte_at (k_mem s) T va.
Proof.
  destruct extend_pages as (Hp & _ & Hnew & _). destruct V as [VK VW VA VS].
  apply (graft_look root T (k_mem s) m2 path pt i p); auto using extend_zero, extend_word, extend_same.
Qed.

End Extend.

(** What walk() with allocation leaves behind. *)
Definition walked (root : Z) (s : kst) (T : ptree) (l : list Z) (va r : Z) (s' : kst)
    (T' : ptree) (l' : list Z) : Prop :=
  vinv root s' T' l' /\ grow s T l s' T' l' /\
  (forall va', pte_at (k_mem s') T' va' = pte_at (k_mem s) T va') /\
  (r = 0 /\ l' = [] /\ leaf T' va = None \/ r <> 0 /\ leaf T' va = Some r).

Lemma walked_trans root s T l va r s1 T1 l1 s' T' l' :
  grow s T l s1 T1 l1 -> (forall va', pte_at (k_mem s1) T1 va' = pte_at (k_mem s) T va') ->
  walked root s1 T1 l1 va r s' T' l' -> walked root s T l va r s' T' l'.
Proof.
  intros G L (V & G' & L' & R). split_and!; [done|by eapply grow_trans| |done].
  intros va'. by rewrite L', L.
Qed.

Lemma kalloc_zeroed c s p l :
  cpu_ok (cx_cpu c) -> kinv s (p :: l) ->
  exists s1, kalloc (c, s) = Ret p (settled c, s1) /\ kinv s1 l /\
    let z := memset (k_mem s1) p 0 (Z.to_nat PGSIZE) in
    mem_ok z /\ (forall x, off_page p x -> bget z x = bget (k_mem s) x) /\
    (forall x, off_page p x -> bget z x = bget (k_mem s1) x) /\
    (forall x, p <= x < p + PGSIZE -> bget z x = 0).
Proof.
  intros Hok K. destruct (kalloc_some c s p l Hok K) as (s1 & E & K1 & Ho & _).
  exists s1. split; [exact E|]. split; [exact K1|]. intros z. subst z. split_and!.
  - apply memset_ok, K1.
  - intros x Hx. rewrite memset_off by exact Hx. by apply Ho.
  - intros x Hx. by rewrite memset_off.
  - intros x Hx. by rewrite memset_on.
Qed.

Lemma PX2_small va : 0 <= va < MAXVA -> 0 <= PX 2 va < 256.
Proof.
  intros H. split; [apply PX_range; lia|]. rewrite PX_eq by lia. change (2 ^ (12 + 9 * 2)) with (2 ^ 30).
  change MAXVA with (2 ^ 38) in H. assert (va / 2 ^ 30 < 256) by (apply Z.div_lt_upper_bound; lia).
  pose proof (Z.div_pos va (2 ^ 30)). rewrite Z.mod_small; lia.
Qed.

Lemma prefix_ok n va : 0 <= va < MAXVA -> path_ok (prefix_of n va).
Proof.
  intros H. pose proof (PX2_small va H). pose proof (PX_range 1 va ltac:(lia)).
  destruct n as [|[|n]]; cbn [prefix_of path_ok]; [|by split|done]. split; [done|]. by constructor.
Qed.

Lemma walk_grow root n T pt va c s l :
  0 <= va < MAXVA -> vinv root s T l -> cpu_ok (cx_cpu c) -> (n <= 2)%nat -> T !! prefix_of n va = Some pt ->
  exists r c' s' T' l', walk_loop n pt va true (c, s) = Ret r (c', s') /\ calm c c' /\
    walked root s T l va r s' T' l' /\ (size T' <= size T + n)%nat.
Proof.
  intros Hva. revert T pt c s l. induction n as [|n IH]; intros T pt c s l V Hok Hn Hpt.
  - exists (pt + 8 * PX 0 va), c, s, T, l. split_and!; [done|apply calm_refl| |lia].
    split_and!; [done|apply grow_refl|done|right]. unfold leaf. simpl in Hpt. rewrite Hpt. split; [|done].
    pose proof (page_ok_pos pt (tw_page _ _ (v_wf _ _ _ _ V) _ _ Hpt)). pose proof (PX_range 0 va ltac:(lia)). lia.
  - cbn [walk_loop]. rewrite rd64_bind. pose proof (v_wf _ _ _ _ V) as W.
    pose proof (PX_range (Z.of_nat (S n)) va ltac:(lia)) as Hi. set (i := PX (Z.of_nat (S n)) va) in *.
    assert (Hlen : (length (prefix_of (S n) va) < 2)%nat) by (rewrite prefix_len; lia).
    pose proof (v_at _ _ _ _ V _ _ _ Hpt Hlen Hi) as P.
    assert (Hpre : prefix_of n va = prefix_of (S n) va ++ [i]) by (by apply prefix_step).
    rewrite <- Hpre in P. destruct (T !! prefix_of n va) as [p|] eqn:E; simpl in P; rewrite P.
    { pose proof (page_pa p (tw_page _ _ W _ _ E)).
      rewrite mkpte_valid, PTE2PA_mkpte by (done || lia).
      destruct (IH T p c s l V Hok ltac:(lia) E) as (r & c' & s' & T' & l' & R & Hc & Hw & Hs).
      exists r, c', s', T', l'. split_and!; [done..|lia]. }
    cbn [negb]. destruct l as [|p l].
    { rewrite (bind_ret _ _ _ _ _ (kalloc_empty c s Hok (v_kinv _ _ _ _ V))).
      exists 0, (settled c), s, T, []. split_and!; [done|apply calm_settled| |lia].
      split_and!; [done|apply grow_refl|done|left]. split_and!; [done..|]. by apply (leaf_none root T n); [|lia|]. }
    destruct (kalloc_zeroed c s p l Hok (v_kinv _ _ _ _ V)) as (s1 & Hrun & K1 & Hzm & Ho & Ho1 & Hz).
    rewrite (bind_ret _ _ _ _ _ Hrun). clear Hrun.
    destruct (kinv_head _ _ _ (v_kinv _ _ _ _ V)) as (_ & Hp & _).
    rewrite (proj2 (Z.eqb_neq p 0)) by (pose proof (page_ok_pos p Hp); lia).
    rewrite zero_bind, wr64_bind, table_pte. cbn [k_mem k_lock k_freelist].
    set (z := memset _ _ _ _) in *. clearbody z. rewrite Hpre in E.
    pose proof (extend_vinv root s T l p _ pt i V Hpt Hlen Hi E s1 z K1 Hzm Ho Ho1 Hz) as V2.
    pose proof (extend_grow root s T l p _ pt i V Hpt Hlen Hi E s1 z K1 Hzm Ho Ho1 Hz ltac:(rewrite <- Hpre; by apply prefix_ok)) as G2.
    pose proof (extend_look root s T l p _ pt i V Hpt Hlen Hi E s1 z Ho Ho1 Hz) as L2.
    destruct (IH _ p (settled c) _ l V2 (settled_ok c Hok) ltac:(lia)) as (r & c' & s' & T' & l' & R & Hc & Hw & Hs).
    { by rewrite Hpre, lookup_insert_eq. }
    rewrite map_size_insert_None in Hs by done. exists r, c', s', T', l'. split_and!; [exact R| | |lia].
    + eapply calm_trans; [apply calm_settled|done].
    + by eapply walked_trans.
Qed.

Definition same_page (va va' : Z) : bool := va / PGSIZE =? va' / PGSIZE.

Definition valid_pte (v : Z) : option Z := if has v PTE_V then Some v else None.

Definition with_mem (s : kst) (m : mem) : kst := Kst m (k_lock s) (k_freelist s).

(** Writing the level-0 entry of [a]. *)
Section LeafWrite.
Context (root : Z) (s : kst) (T : ptree) (l : list Z) (a r v : Z).
Context (V : vinv root s T l) (Hr : leaf T a = Some r) (Hv : 0 <= v < 2 ^ 64).

Lemma leaf_in : exists q, T !! [PX 2 a; PX 1 a] = Some q /\ r = q + 8 * PX 0 a.
Proof. unfold leaf in Hr. apply fmap_Some in Hr as (q & Hq & ->). by exists q. Qed.

Lemma leaf_write_out x : off_tree T x -> bget (st64 (k_mem s) r v) x = bget (k_mem s) x.
Proof.
  destruct leaf_in as (q & Hq & ->). intros Hx. apply st64_get_out, off_word; [apply PX_range; lia|].
  apply Hx. by eexists.
Qed.

Lemma leaf_write_vinv : vinv root (with_mem s (st64 (k_mem s) r v)) T l.
Proof.
  destruct leaf_in as (q & Hq & E). destruct V as [VK VW VA VS]. split; unfold with_mem; cbn [k_mem].
  - apply kinv_write; [done|apply st64_ok, VK|]. intros pa x Hpa Hx. apply leaf_write_out.
    intros p [b Hb]. pose proof (kinv_pages _ _ VK) as Hps. rewrite Forall_forall in Hps.
    apply (pages_apart p pa); [by eapply tw_page|by apply Hps| |unfold PGSIZE; lia].
    intros ->. apply (VS pa); [by exists b|done].
  - done.
  - intros b p i Hb Hlen Hi. pose proof (VA b p i Hb Hlen Hi) as P.
    assert (p <> q) by (intros ->; pose proof (tw_inj _ _ VW _ _ _ Hb Hq) as ->; simpl in Hlen; lia).
    assert (E' : ld64 (st64 (k_mem s) r v) (p + 8 * i) = ld64 (k_mem s) (p + 8 * i)).
    { apply ld64_ext. intros x Hx. apply st64_get_out. subst r.
      eapply (entry_apart T root q p); [done|by eexists|by eexists|apply PX_range; lia|done|auto|done]. }
    unfold points in *. by rewrite E'.
  - done.
Qed.

Lemma leaf_write_look va :
  0 <= a < MAXVA -> 0 <= va < MAXVA ->
  pte_at (st64 (k_mem s) r v) T va = if same_page va a then valid_pte v else pte_at (k_mem s) T va.
Proof.
  intros Ha Hva. destruct leaf_in as (q & Hq & E). unfold pte_at, same_page.
  destruct (Z.eqb_spec (va / PGSIZE) (a / PGSIZE)) as [Hp|Hp].
  - assert (leaf T va = Some r) as ->; [|simpl; by rewrite ld64_st64_eq].
    rewrite <- Hr. rewrite !PX_page in Hp by done.
    pose proof (PX_range 0 va ltac:(lia)). pose proof (PX_range 1 va ltac:(lia)). pose proof (PX_range 2 va ltac:(lia)).
    pose proof (PX_range 0 a ltac:(lia)). pose proof (PX_range 1 a ltac:(lia)). pose proof (PX_range 2 a ltac:(lia)).
    assert (E2 : PX 2 va = PX 2 a) by lia. rewrite E2 in Hp.
    assert (E1 : PX 1 va = PX 1 a) by lia. rewrite E1 in Hp.
    assert (E0 : PX 0 va = PX 0 a) by lia. unfold leaf. by rewrite E0, E1, E2.
  - unfold leaf. destruct (T !! [PX 2 va; PX 1 va]) as [q'|] eqn:Hq'; [|done]. simpl.
    rewrite (ld64_ext _ (k_mem s)); [done|]. intros x Hx. apply st64_get_out. subst r.
    apply (entry_apart T root q q' (PX 0 a) (PX 0 va)); [apply V|by eexists|by eexists|apply PX_range; lia..| |done].
    destruct (decide (q = q')) as [->|]; [right|by left]. intros E.
    pose proof (tw_inj _ _ (v_wf _ _ _ _ V) _ _ _ Hq Hq') as [= E2 E1]. by apply Hp, PX_inj.
Qed.

End LeafWrite.

(** What [k] successful rounds of mappages() from [a] make of the PTE of [va]. *)
Definition mapped (a pa perm : Z) (k : nat) (va : Z) (o : option Z) : option Z :=
  if (a <=? va) && (va <? a + Z.of_nat k * PGSIZE)
  then Some (mkpte (pa + (va - a) / PGSIZE * PGSIZE) perm) else o.

Lemma mapped_0 a pa perm va o : mapped a pa perm 0 va o = o.
Proof. unfold mapped. destruct (Z.leb_spec a va), (Z.ltb_spec va (a + Z.of_nat 0 * PGSIZE)); simpl; done || lia. Qed.

Lemma mapped_S a pa perm k va o :
  a `mod` PGSIZE = 0 ->
  mapped (a + PGSIZE) (pa + PGSIZE) perm k va (if same_page va a then Some (mkpte pa perm) else o) =
  mapped a pa perm (S k) va o.
Proof.
  intros Ha. unfold mapped, same_page, PGSIZE in *.
  pose proof (Z.div_mod a 4096). pose proof (Z.div_mod va 4096). pose proof (Z.mod_pos_bound va 4096).
  destruct (Z.eqb_spec (va / 4096) (a / 4096)) as [E|E].
  - rewrite (proj2 (Z.leb_gt (a + 4096) va)), (proj2 (Z.leb_le a va)), (proj2 (Z.ltb_lt va (a + Z.of_nat (S k) * 4096))) by lia.
    simpl. rewrite (Z.div_small (va - a) 4096) by lia. by rewrite Z.mul_0_l, Z.add_0_r.
  - destruct (Z.leb_spec (a + 4096) va).
    + rewrite (proj2 (Z.leb_le a va)) by lia.
      replace (a + 4096 + Z.of_nat k * 4096) with (a + Z.of_nat (S k) * 4096) by lia. simpl.
      case_match; [|done]. do 2 f_equal.
      replace (va - a) with (va - (a + 4096) + 1 * 4096) by lia. rewrite Z.div_add by lia. lia.
    + by rewrite (proj2 (Z.leb_gt a va)) by lia.
Qed.

Lemma walk_alloc root T va c s l :
  vinv root s T l -> cpu_ok (cx_cpu c) -> 0 <= va < MAXVA ->
  exists r c' s' T' l', walk root va true (c, s) = Ret r (c', s') /\ calm c c' /\
    walked root s T l va r s' T' l' /\ (size T' <= size T + 2)%nat.
Proof.
  intros V Hok Hva. unfold walk. rewrite (proj2 (Z.leb_gt MAXVA va)) by lia.
  apply (walk_grow root 2); [done..|apply V].
Qed.

Lemma walk_look root T va c s :
  tree_wf root T -> tree_at (k_mem s) T -> 0 <= va < MAXVA ->
  walk root va false (c, s) = Ret (default 0 (leaf T va)) (c, s).
Proof.
  intros W A Hva. unfold walk. rewrite (proj2 (Z.leb_gt MAXVA va)) by lia.
  apply (walk_find root T 2); [done..|apply W].
Qed.

Lemma pte_at_leaf m T va r : leaf T va = Some r -> pte_at m T va = valid_pte (ld64 m r).
Proof. unfold pte_at. by intros ->. Qed.

Lemma grow_write s T l s1 T1 l1 a r v :
  grow s T l s1 T1 l1 -> leaf T1 a = Some r ->
  grow s T l (with_mem s1 (st64 (k_mem s1) r v)) T1 l1.
Proof.
  intros [G1 G2 G3 G5 G6 G4] Hr. split; [done..|]. intros x Hx. unfold with_mem. cbn [k_mem].
  rewrite (leaf_write_out s1 T1 a r v Hr x Hx). by apply G4.
Qed.

(** What mappages() leaves behind after [k] rounds, and at most [n] calls of walk(). *)
Definition mapped_to (root : Z) (s : kst) (T : ptree) (l : list Z) (a pa perm : Z) (k n : nat)
    (s' : kst) (T' : ptree) (l' : list Z) : Prop :=
  vinv root s' T' l' /\ grow s T l s' T' l' /\ (size T' <= size T + 2 * n)%nat /\
  forall va, 0 <= va < MAXVA ->
    pte_at (k_mem s') T' va = mapped a pa perm k va (pte_at (k_mem s) T va).

Lemma MAXVA_eq : MAXVA = 2 ^ 38.
Proof. done. Qed.

(** One round of the loop of mappages(): it fails without memory, or sets the entry of [a]. *)
Lemma mappages_round root T a last pa perm n c s l :
  vinv root s T l -> cpu_ok (cx_cpu c) -> 0 <= a < MAXVA -> a `mod` PGSIZE = 0 ->
  pa_ok pa -> 0 <= perm < 1024 -> pte_at (k_mem s) T a = None ->
  exists c' s' T' l', calm c c' /\
    ((mappages_loop (S n) root a last pa perm (c, s) = Ret (-1) (c', s') /\ l' = [] /\
      mapped_to root s T l a pa perm 0 1 s' T' l') \/
     (mappages_loop (S n) root a last pa perm (c, s) =
        (if a =? last then mret 0
         else mappages_loop n root (u64 (a + PGSIZE)) last (u64 (pa + PGSIZE)) perm) (c', s') /\
      mapped_to root s T l a pa perm 1 1 s' T' l')).
Proof.
  intros V Hok Ha Hal Hpa Hperm Hnone.
  destruct (walk_alloc root T a c s l V Hok Ha) as (r & c' & s' & T' & l' & R & Hc & (V' & G' & L' & Hr) & Hsz).
  cbn [mappages_loop]. rewrite (bind_ret _ _ _ _ _ R).
  destruct Hr as [(-> & -> & Hl)|(Hr0 & Hl)].
  - exists c', s', T', []. split; [done|left]. split_and!; [done..|].
    split_and!; [done..|]. intros va Hva. by rewrite mapped_0.
  - rewrite (proj2 (Z.eqb_neq r 0) Hr0), rd64_bind.
    assert (Hv : has (ld64 (k_mem s') r) PTE_V = false).
    { rewrite <- (L' a), (pte_at_leaf _ _ _ _ Hl) in Hnone. unfold valid_pte in Hnone. by case_match. }
    rewrite Hv, wr64_bind. fold (mkpte pa perm).
    pose proof (mkpte_range pa perm Hperm) as Hrange.
    exists c', (with_mem s' (st64 (k_mem s') r (mkpte pa perm))), T', l'. split; [done|right]. split; [done|].
    split_and!.
    + by apply (leaf_write_vinv _ _ _ _ a).
    + by apply (grow_write _ _ _ _ _ _ a).
    + lia.
    + intros va Hva. unfold with_mem. cbn [k_mem]. rewrite (leaf_write_look root s' T' l' a r _ V' Hl Hrange va Ha Hva).
      rewrite <- (mapped_S a pa perm 0 va _ Hal), mapped_0, L'. unfold valid_pte. by rewrite mkpte_valid.
Qed.

Lemma mapped_to_S root s T l a pa perm k n s1 T1 l1 s2 T2 l2 :
  a `mod` PGSIZE = 0 ->
  mapped_to root s T l a pa perm 1 1 s1 T1 l1 ->
  mapped_to root s1 T1 l1 (a + PGSIZE) (pa + PGSIZE) perm k n s2 T2 l2 ->
  mapped_to root s T l a pa perm (S k) (S n) s2 T2 l2.
Proof.
  intros Ha (V1 & G1 & H1 & L1) (V2 & G2 & H2 & L2). split_and!; [done|by eapply grow_trans|lia|].
  intros va Hva. rewrite L2, L1 by done. rewrite <- (mapped_S a pa perm k va _ Ha).
  rewrite <- (mapped_S a pa perm 0 va _ Ha). by rewrite mapped_0.
Qed.

Lemma mapped_to_le root s T l a pa perm k n n' s' T' l' :
  (n <= n')%nat -> mapped_to root s T l a pa perm k n s' T' l' -> mapped_to root s T l a pa perm k n' s' T' l'.
Proof. intros H (V & G & Hs & L). split_and!; [done..|lia|done]. Qed.

Lemma mapped_out a pa perm k va o :
  va < a \/ a + Z.of_nat k * PGSIZE <= va -> mapped a pa perm k va o = o.
Proof.
  intros H. unfold mapped. destruct (Z.leb_spec a va), (Z.ltb_spec va (a + Z.of_nat k * PGSIZE)); simpl; done || lia.
Qed.

Lemma mod_add_page a : a `mod` PGSIZE = 0 -> (a + PGSIZE) `mod` PGSIZE = 0.
Proof. intros H. unfold PGSIZE in *. rewrite <- (Z.mul_1_l 4096) at 1. by rewrite Z.mod_add. Qed.

Lemma pa_ok_next pa : pa_ok pa -> pa + PGSIZE < 2 ^ 56 -> pa_ok (pa + PGSIZE) /\ u64 (pa + PGSIZE) = pa + PGSIZE.
Proof.
  intros [H1 H2] H. split; [split|]; [by apply mod_add_page|unfold PGSIZE in *; lia|].
  apply u64_small. unfold PGSIZE in *. lia.
Qed.

Lemma mappages_loop_run n root T a pa perm c s l :
  vinv root s T l -> cpu_ok (cx_cpu c) -> 0 <= a -> a `mod` PGSIZE = 0 ->
  a + Z.of_nat (S n) * PGSIZE <= MAXVA -> pa_ok pa -> pa + Z.of_nat (S n) * PGSIZE <= 2 ^ 56 ->
  0 <= perm < 1024 ->
  (forall va, a <= va < a + Z.of_nat (S n) * PGSIZE -> pte_at (k_mem s) T va = None) ->
  exists k r c' s' T' l',
    mappages_loop (S n) root a (a + Z.of_nat n * PGSIZE) pa perm (c, s) = Ret r (c', s') /\ calm c c' /\
    mapped_to root s T l a pa perm k (S n) s' T' l' /\
    (r = 0 /\ k = S n \/ r = -1 /\ (k <= n)%nat /\ l' = []).
Proof.
  revert T a pa c s l. induction n as [|n IH]; intros T a pa c s l V Hok Ha Hal Hend Hpa Hpend Hperm Hnone;
    match goal with |- context [mappages_loop (S ?k) _ _ ?last] =>
      destruct (mappages_round root T a last pa perm k c s l V Hok
        ltac:(unfold PGSIZE in *; lia) Hal Hpa Hperm ltac:(apply Hnone; unfold PGSIZE in *; lia))
        as (c1 & s1 & T1 & l1 & Hc & [(-> & -> & M)|(-> & M)]) end.
  1,3: exists 0%nat, (-1), c1, s1, T1, []; split_and!; [done..|by eapply mapped_to_le; [|apply M]; lia|right; split_and!; lia || done].
  - rewrite (proj2 (Z.eqb_eq a _)) by lia.
    exists 1%nat, 0, c1, s1, T1, l1. split_and!; [done..|by left].
  - rewrite (proj2 (Z.eqb_neq a _)) by (unfold PGSIZE; lia).
    destruct (pa_ok_next pa Hpa) as [Hpa' ->]; [unfold PGSIZE in *; lia|].
    rewrite (u64_small (a + PGSIZE)) by (rewrite MAXVA_eq in Hend; unfold PGSIZE in *; lia).
    replace (a + Z.of_nat (S n) * PGSIZE) with (a + PGSIZE + Z.of_nat n * PGSIZE) by lia.
    pose proof M as (V1 & G1 & _ & L1).
    destruct (IH T1 (a + PGSIZE) (pa + PGSIZE) c1 s1 l1) as (k & r & c' & s' & T' & l' & R & Hc' & M' & Hr);
      [done|by eapply calm_ok|unfold PGSIZE; lia|by apply mod_add_page|lia|done|lia|done| |].
    { intros va Hva. rewrite L1, mapped_out by (unfold PGSIZE in *; lia). apply Hnone. unfold PGSIZE in *; lia. }
    exists (S k), r, c', s', T', l'. split_and!; [done|by eapply calm_trans| |naive_solver lia].
    by eapply mapped_to_S.
Qed.

(** ** mappages() *)

(** The pages that hold the bytes va .. va+size-1. *)
Definition npages (va size : Z) : nat :=
  S (Z.to_nat ((PGROUNDDOWN (va + size - 1) - PGROUNDDOWN va) / PGSIZE)).

Lemma PGROUNDDOWN_mono a b : a <= b -> PGROUNDDOWN a <= PGROUNDDOWN b.
Proof.
  intros H. rewrite !PGROUNDDOWN_eq. unfold PGSIZE.
  pose proof (Z.div_mod a 4096). pose proof (Z.div_mod b 4096). pose proof (Z.div_le_mono a b 4096). lia.
Qed.

Lemma npages_last va size :
  0 < size -> PGROUNDDOWN (va + size - 1) = PGROUNDDOWN va + (Z.of_nat (npages va size) - 1) * PGSIZE.
Proof.
  intros H. unfold npages. pose proof (PGROUNDDOWN_mono va (va + size - 1)).
  destruct (PGROUNDDOWN_bounds va) as [H1 _], (PGROUNDDOWN_bounds (va + size - 1)) as [H2 _].
  set (a := PGROUNDDOWN va) in *. set (b := PGROUNDDOWN (va + size - 1)) in *.
  unfold PGSIZE in *. pose proof (Z.div_mod a 4096). pose proof (Z.div_mod b 4096).
  assert (E : (b - a) / 4096 = b / 4096 - a / 4096).
  { replace (b - a) with ((b / 4096 - a / 4096) * 4096) by lia. by rewrite Z.div_mul. }
  rewrite E, Nat2Z.inj_succ, Z2Nat.id by lia. lia.
Qed.

Lemma mappages_run root T va size pa perm c s l :
  vinv root s T l -> cpu_ok (cx_cpu c) -> 0 <= va -> 0 < size -> va + size <= MAXVA ->
  pa_ok pa -> pa + Z.of_nat (npages va size) * PGSIZE <= 2 ^ 56 -> 0 <= perm < 1024 ->
  (forall va', PGROUNDDOWN va <= va' < PGROUNDDOWN va + Z.of_nat (npages va size) * PGSIZE ->
    pte_at (k_mem s) T va' = None) ->
  exists k r c' s' T' l',
    mappages root va size pa perm (c, s) = Ret r (c', s') /\ calm c c' /\
    mapped_to root s T l (PGROUNDDOWN va) pa perm k (npages va size) s' T' l' /\
    (r = 0 /\ k = npages va size \/ r = -1 /\ (k < npages va size)%nat /\ l' = []).
Proof.
  intros V Hok Hva Hsz Hend Hpa Hpend Hperm Hnone. unfold mappages.
  pose proof (npages_last va size Hsz) as HL. rewrite MAXVA_eq in Hend.
  rewrite (u64_small (va + size - 1)) by lia.
  destruct (PGROUNDDOWN_bounds va) as [Hal Hb], (PGROUNDDOWN_bounds (va + size - 1)) as [Hal2 Hb2].
  pose proof (PGROUNDDOWN_mono va (va + size - 1) ltac:(lia)).
  assert (0 <= PGROUNDDOWN va) by (rewrite PGROUNDDOWN_eq; unfold PGSIZE; pose proof (Z.div_mod va 4096);
    pose proof (Z.div_pos va 4096); lia).
  rewrite u64_small by (unfold PGSIZE in *; lia). fold (npages va size). rewrite HL.
  unfold npages in *. set (n := Z.to_nat ((PGROUNDDOWN (va + size - 1) - PGROUNDDOWN va) / PGSIZE)) in *.
  replace (Z.of_nat (S n) - 1) with (Z.of_nat n) in * by lia.
  destruct (mappages_loop_run n root T (PGROUNDDOWN va) pa perm c s l) as (k & r & c' & s' & T' & l' & R & Hc & M & Hr);
    try done.
  { rewrite MAXVA_eq. unfold PGSIZE in *. pose proof (Z.div_mod (PGROUNDDOWN (va + size - 1)) 4096). lia. }
  exists k, r, c', s', T', l'. split_and!; [exact R|done|done|naive_solver lia].
Qed.

End Tree.
