(* ===== verification/Uvm.v ===== *)
(** * User address spaces

    uvmunmap(), walkaddr(), copyout(), copyin() and copyinstr() against the
    page-table description of VmSpec.v: a user address space is a partial
    map from virtual addresses to bytes ([uread]). *)

From stdpp Require Import base numbers list list_numbers gmap strings sets.
From Stdlib Require Import ZArith Lia.
From S2P Require Import Prelude.
From S2P Require Import Machine.
From S2P Require Import Spinlock.
From S2P Require Import Mem.
From S2P Require Import Kalloc.
From S2P Require Import Vm.
From S2P Require Import VmSpec.

Local Open Scope Z_scope.

Section Uvm.
Context {LY : Layout} {LO : LayoutOk}.

(** ** Memory outside the tables *)

Definition tree_same (T : ptree) (m m' : mem) : Prop :=
  forall q x, in_tree T q -> q <= x < q + PGSIZE -> bget m' x = bget m x.

Lemma tree_same_word T m m' q i :
  tree_same T m m' -> in_tree T q -> 0 <= i < 512 -> ld64 m' (q + 8 * i) = ld64 m (q + 8 * i).
Proof. intros H Hq Hi. apply ld64_ext. intros x Hx. apply (H q); [done|unfold PGSIZE; lia]. Qed.

Lemma tree_same_at T m m' : tree_same T m m' -> tree_at m T -> tree_at m' T.
Proof.
  intros H A path p i Hp Hl Hi. pose proof (A path p i Hp Hl Hi) as P. unfold points in *.
  by rewrite (tree_same_word T m) by (done || by exists path).
Qed.

Lemma tree_same_look T m m' va : tree_same T m m' -> pte_at m' T va = pte_at m T va.
Proof.
  intros H. unfold pte_at, leaf. destruct (T !! _) as [q|] eqn:E; [|done]. simpl.
  by rewrite (tree_same_word T m) by (done || (by eexists) || apply PX_range; lia).
Qed.

(** Changing one page that is neither free nor a table. *)
Lemma page_write root s T l p (m' : mem) :
  vinv root s T l -> page_ok p -> ~ in_tree T p -> p ∉ l -> mem_ok m' ->
  (forall x, off_page p x -> bget m' x = bget (k_mem s) x) ->
  tree_same T (k_mem s) m' /\ vinv root (with_mem s m') T l.
Proof.
  intros [VK VW VA VS] Hp Hnt Hnl Hm Hoff.
  assert (Hs : tree_same T (k_mem s) m').
  { intros q x [b Hb] Hx. apply Hoff. apply (pages_apart p q); [done|by eapply tw_page| |done].
    intros ->. apply Hnt. by exists b. }
  split; [done|]. split; unfold with_mem; cbn [k_mem]; [|done|by eapply tree_same_at|done].
  apply kinv_write; [done..|]. intros pa x Hpa Hx. apply Hoff.
  pose proof (kinv_pages _ _ VK) as Hps. rewrite Forall_forall in Hps.
  apply (pages_apart p pa); [done|by apply Hps|set_solver|unfold PGSIZE; lia].
Qed.

Lemma vinv_kfree root s T l p c :
  vinv root s T l -> cpu_ok (cx_cpu c) -> page_ok p -> ~ in_tree T p -> p ∉ l ->
  exists s', kfree p (c, s) = Ret tt (settled c, s') /\ vinv root s' T (p :: l) /\
    tree_same T (k_mem s) (k_mem s') /\
    (forall x, off_page p x -> bget (k_mem s') x = bget (k_mem s) x).
Proof.
  intros [VK VW VA VS] Hok Hp Hnt Hnl.
  destruct (kfree_spec c s p l Hok VK Hp Hnl) as (s' & R & K' & Hoff).
  assert (Hs : tree_same T (k_mem s) (k_mem s')).
  { intros q x [b Hb] Hx. apply Hoff. apply (pages_apart p q); [done|by eapply tw_page| |done].
    intros ->. apply Hnt. by exists b. }
  exists s'. split_and!; [done| |done|done]. split; [done|done|by eapply tree_same_at|].
  intros q Hq. rewrite not_elem_of_cons. split; [by intros ->|by apply VS].
Qed.

(** ** uvmunmap() *)

(** The PTEs of the pages from [a] on. *)
Definition ptes_from (m : mem) (T : ptree) (a : Z) (vs : list Z) : Prop :=
  forall i v, vs !! i = Some v -> pte_at m T (a + Z.of_nat i * PGSIZE) = Some v.

Definition unmapped (a : Z) (k : nat) (va : Z) (o : option Z) : option Z :=
  if (a <=? va) && (va <? a + Z.of_nat k * PGSIZE) then None else o.

Lemma unmapped_S a k va o :
  a `mod` PGSIZE = 0 ->
  unmapped (a + PGSIZE) k va (if same_page va a then None else o) = unmapped a (S k) va o.
Proof.
  intros Ha. unfold unmapped, same_page, PGSIZE in *.
  pose proof (Z.div_mod a 4096). pose proof (Z.div_mod va 4096). pose proof (Z.mod_pos_bound va 4096).
  replace (a + 4096 + Z.of_nat k * 4096) with (a + Z.of_nat (S k) * 4096) by lia.
  destruct (Z.eqb_spec (va / 4096) (a / 4096)) as [E|E].
  - rewrite (proj2 (Z.leb_gt (a + 4096) va)), (proj2 (Z.leb_le a va)) by lia. simpl.
    by rewrite (proj2 (Z.ltb_lt va (a + Z.of_nat (S k) * 4096))) by lia.
  - destruct (Z.leb_spec (a + 4096) va), (Z.leb_spec a va); simpl; done || lia.
Qed.

Lemma unmapped_0 a va o : unmapped a 0 va o = o.
Proof. unfold unmapped. destruct (Z.leb_spec a va), (Z.ltb_spec va (a + Z.of_nat 0 * PGSIZE)); simpl; done || lia. Qed.

(** The free list after unmapping pages with PTEs [vs]. *)
Definition freed (do_free : bool) (vs l : list Z) : list Z :=
  if do_free then reverse (PTE2PA <$> vs) ++ l else l.

(** Which pages uvmunmap() may hand to kfree(). *)
Definition releasable (T : ptree) (vs l : list Z) : Prop :=
  NoDup (PTE2PA <$> vs) /\ forall v, v ∈ vs -> page_ok (PTE2PA v) /\ ~ in_tree T (PTE2PA v) /\ PTE2PA v ∉ l.

Lemma releasable_tail T v vs l :
  releasable T (v :: vs) l -> releasable T vs (PTE2PA v :: l).
Proof.
  intros [N H]. apply NoDup_cons in N as [Hn N]. split; [done|]. intros u Hu.
  destruct (H u) as (? & ? & ?); [by right|]. split_and!; [done..|].
  rewrite not_elem_of_cons. split; [|done]. intros E. apply Hn. rewrite <- E. by apply list_elem_of_fmap_2.
Qed.

Lemma pte_in_leaf m T va v : pte_at m T va = Some v -> exists r, leaf T va = Some r /\ ld64 m r = v /\ has v PTE_V = true.
Proof.
  unfold pte_at. destruct (leaf T va) as [r|]; [|done]. simpl. intros H. exists r.
  by case_match; simplify_eq.
Qed.

Lemma leaf_nz root T va r : tree_wf root T -> leaf T va = Some r -> r <> 0.
Proof.
  intros W H. unfold leaf in H. apply fmap_Some in H as (q & Hq & ->).
  pose proof (page_ok_pos q (tw_page _ _ W _ _ Hq)). pose proof (PX_range 0 va ltac:(lia)). lia.
Qed.

(** Only the tables and the pages of [vs] may differ. *)
Definition untouched (T : ptree) (vs : list Z) (m m' : mem) : Prop :=
  forall x, off_tree T x -> (forall v, v ∈ vs -> off_page (PTE2PA v) x) -> bget m' x = bget m x.

(** The pages uvmunmap() hands to kfree(). *)
Definition gone (do_free : bool) (vs : list Z) : list Z := if do_free then vs else [].

Lemma leaf_untouched T vs va r v m : leaf T va = Some r -> untouched T vs m (st64 m r v).
Proof.
  intros Hr x Hx _. unfold leaf in Hr. apply fmap_Some in Hr as (q & Hq & ->).
  apply st64_get_out. apply off_word; [apply PX_range; lia|]. apply Hx. by eexists.
Qed.

Lemma untouched_trans T vs ws m1 m2 m3 :
  (forall v, v ∈ vs -> v ∈ ws) -> untouched T vs m1 m2 -> untouched T ws m2 m3 -> untouched T ws m1 m3.
Proof. intros Hs H1 H2 x Hx Hv. rewrite H2 by done. apply H1; [done|]. intros v Hin. by apply Hv, Hs. Qed.

Lemma uvmunmap_round n root T a end_ do_free v c s l :
  vinv root s T l -> cpu_ok (cx_cpu c) -> 0 <= a < MAXVA -> a < end_ ->
  pte_at (k_mem s) T a = Some v -> PTE_FLAGS v <> PTE_V ->
  (do_free = true -> page_ok (PTE2PA v) /\ ~ in_tree T (PTE2PA v) /\ PTE2PA v ∉ l) ->
  exists c' s', uvmunmap_loop (S n) root a end_ do_free (c, s) =
      uvmunmap_loop n root (u64 (a + PGSIZE)) end_ do_free (c', s') /\
    calm c c' /\ vinv root s' T (freed do_free [v] l) /\ untouched T (gone do_free [v]) (k_mem s) (k_mem s') /\
    forall va, 0 <= va < MAXVA ->
      pte_at (k_mem s') T va = if same_page va a then None else pte_at (k_mem s) T va.
Proof.
  intros V Hok Ha He Hv Hf Hfree. destruct (pte_in_leaf _ _ _ _ Hv) as (r & Hr & Hld & Hval).
  cbn [uvmunmap_loop]. rewrite (proj2 (Z.ltb_lt a end_) He). cbn [negb].
  rewrite (bind_ret _ _ _ _ _ (walk_look root T a c s (v_wf _ _ _ _ V) (v_at _ _ _ _ V) Ha)), Hr.
  cbn [from_option id]. rewrite (proj2 (Z.eqb_neq r 0)) by (by eapply leaf_nz; [apply V|]).
  rewrite rd64_bind, Hld. assert (E : (Z.land v PTE_V =? 0) = false) by (by apply negb_true_iff).
  rewrite E, (proj2 (Z.eqb_neq _ _) Hf). destruct do_free.
  - destruct Hfree as (Hp & Hnt & Hnl); [done|].
    destruct (vinv_kfree root s T l (PTE2PA v) c V Hok Hp Hnt Hnl) as (s1 & R & V1 & S1 & O1).
    rewrite (bind_ret _ _ _ _ _ R), wr64_bind. exists (settled c), (with_mem s1 (st64 (k_mem s1) r 0)).
    split_and!; [done|apply calm_settled|by apply (leaf_write_vinv _ _ _ _ a)| |].
    { apply (untouched_trans T [v] [v] _ (k_mem s1)); [done| |by eapply leaf_untouched].
      intros x _ Hx. apply O1, Hx. by left. }
    intros va Hva. cbn [with_mem k_mem].
    rewrite (leaf_write_look root s1 T _ a r 0 V1 Hr ltac:(lia) va Ha Hva).
    by rewrite (tree_same_look T (k_mem s)).
  - rewrite mret_bind, wr64_bind. exists c, (with_mem s (st64 (k_mem s) r 0)).
    split_and!; [done|apply calm_refl|by apply (leaf_write_vinv _ _ _ _ a)|by eapply leaf_untouched|].
    intros va Hva. cbn [with_mem k_mem].
    by rewrite (leaf_write_look root s T _ a r 0 V Hr ltac:(lia) va Ha Hva).
Qed.

Lemma freed_cons do_free v vs l : freed do_free (v :: vs) l = freed do_free vs (freed do_free [v] l).
Proof. destruct do_free; [|done]. unfold freed. cbn [fmap list_fmap]. by rewrite reverse_cons, <- app_assoc. Qed.

Lemma ptes_from_tail m T a v vs : ptes_from m T a (v :: vs) -> ptes_from m T (a + PGSIZE) vs.
Proof.
  intros H i u Hu. replace (a + PGSIZE + Z.of_nat i * PGSIZE) with (a + Z.of_nat (S i) * PGSIZE) by lia.
  by apply H.
Qed.

Lemma same_page_next a i : same_page (a + PGSIZE + Z.of_nat i * PGSIZE) a = false.
Proof.
  unfold same_page, PGSIZE. apply Z.eqb_neq.
  replace (a + 4096 + Z.of_nat i * 4096) with (a + (1 + Z.of_nat i) * 4096) by lia.
  rewrite Z.div_add by lia. lia.
Qed.

Lemma uvmunmap_loop_run vs root T a do_free c s l :
  vinv root s T l -> cpu_ok (cx_cpu c) -> 0 <= a -> a `mod` PGSIZE = 0 ->
  a + Z.of_nat (length vs) * PGSIZE <= MAXVA -> ptes_from (k_mem s) T a vs ->
  Forall (fun v => PTE_FLAGS v <> PTE_V) vs -> (do_free = true -> releasable T vs l) ->
  exists c' s', uvmunmap_loop (S (length vs)) root a (a + Z.of_nat (length vs) * PGSIZE) do_free (c, s) =
      Ret tt (c', s') /\ calm c c' /\ vinv root s' T (freed do_free vs l) /\ untouched T (gone do_free vs) (k_mem s) (k_mem s') /\
    forall va, 0 <= va < MAXVA -> pte_at (k_mem s') T va = unmapped a (length vs) va (pte_at (k_mem s) T va).
Proof.
  revert a c s l. induction vs as [|v vs IH]; intros a c s l V Hok Ha Hal Hend Hv Hf Hrel.
  - exists c, s. cbn [uvmunmap_loop length]. rewrite (proj2 (Z.ltb_ge a _)) by lia.
    split_and!; [done|apply calm_refl|by destruct do_free|by destruct do_free|]. intros. by rewrite unmapped_0.
  - apply Forall_cons in Hf as [Hf0 Hf]. cbn [length] in *.
    destruct (uvmunmap_round (S (length vs)) root T a (a + Z.of_nat (S (length vs)) * PGSIZE) do_free v c s l V Hok)
      as (c1 & s1 & -> & Hc & V1 & O1 & L1); [unfold PGSIZE in *; lia..| |done| |].
    { rewrite <- (Hv 0%nat v) by done. f_equal. lia. }
    { intros E. destruct (Hrel E) as [_ H]. apply H. by left. }
    rewrite (u64_small (a + PGSIZE)) by (rewrite MAXVA_eq in Hend; unfold PGSIZE in *; lia).
    replace (a + Z.of_nat (S (length vs)) * PGSIZE) with (a + PGSIZE + Z.of_nat (length vs) * PGSIZE) by lia.
    destruct (IH (a + PGSIZE) c1 s1 (freed do_free [v] l)) as (c2 & s2 & R & Hc2 & V2 & O2 & L2);
      [done|by eapply calm_ok|unfold PGSIZE; lia|by apply mod_add_page|lia| |done| |].
    { intros i u Hu. assert (Hlt : (i < length vs)%nat) by (by eapply lookup_lt_Some).
      rewrite L1, same_page_next by (unfold PGSIZE in *; lia). by eapply ptes_from_tail. }
    { intros ->. by apply releasable_tail, Hrel. }
    exists c2, s2. split_and!; [exact R|by eapply calm_trans|by rewrite freed_cons| |].
    { intros x Hx Hp. rewrite O2, O1; [done|done| |done|]; intros u Hu; apply Hp; (destruct do_free; [|done]); [|by right].
      apply list_elem_of_singleton in Hu as ->. by left. }
    intros va Hva. by rewrite L2, L1, unmapped_S.
Qed.

Lemma uvmunmap_run vs root T va do_free c s l :
  vinv root s T l -> cpu_ok (cx_cpu c) -> 0 <= va -> va `mod` PGSIZE = 0 ->
  va + Z.of_nat (length vs) * PGSIZE <= MAXVA -> ptes_from (k_mem s) T va vs ->
  Forall (fun v => PTE_FLAGS v <> PTE_V) vs -> (do_free = true -> releasable T vs l) ->
  exists c' s', uvmunmap root va (Z.of_nat (length vs)) do_free (c, s) = Ret tt (c', s') /\
    calm c c' /\ vinv root s' T (freed do_free vs l) /\ untouched T (gone do_free vs) (k_mem s) (k_mem s') /\
    forall va', 0 <= va' < MAXVA ->
      pte_at (k_mem s') T va' = unmapped va (length vs) va' (pte_at (k_mem s) T va').
Proof.
  intros V Hok Ha Hal Hend Hv Hf Hrel. unfold uvmunmap. rewrite Hal. cbn [Z.eqb negb].
  rewrite u64_small by (rewrite MAXVA_eq in Hend; unfold PGSIZE in *; lia). rewrite Nat2Z.id.
  by apply uvmunmap_loop_run.
Qed.

(** ** Reading and writing user memory *)

(** The physical page and address behind a user address, and the byte there. *)
Definition upage (m : mem) (T : ptree) (va : Z) : option Z :=
  if negb (va <? MAXVA) then None else
  v ← pte_at m T va; if has v PTE_U then Some (PTE2PA v) else None.
Definition uaddr (m : mem) (T : ptree) (va : Z) : option Z := (fun p => p + va `mod` PGSIZE) <$> upage m T va.
Definition uread (m : mem) (T : ptree) (va : Z) : option Z := bget m <$> uaddr m T va.

(** User pages are pages of their own, each mapped once. *)
Record user_ok (m : mem) (T : ptree) (l : list Z) : Prop := {
  u_page : forall va p, 0 <= va -> upage m T va = Some p -> page_ok p /\ ~ in_tree T p /\ p ∉ l;
  u_inj : forall va va' p, 0 <= va -> 0 <= va' -> upage m T va = Some p -> upage m T va' = Some p ->
    same_page va va' = true
}.

Lemma walkaddr_run root T va c s :
  tree_wf root T -> tree_at (k_mem s) T -> 0 <= va ->
  walkaddr root va (c, s) = Ret (default 0 (upage (k_mem s) T va)) (c, s).
Proof.
  intros W A Hva. unfold walkaddr, upage. rewrite Z.ltb_antisym, negb_involutive.
  destruct (Z.leb_spec MAXVA va); [done|].
  rewrite (bind_ret _ _ _ _ _ (walk_look root T va c s W A ltac:(lia))). unfold pte_at.
  destruct (leaf T va) as [r|] eqn:Hr; [|done]. cbn [from_option id mbind option_bind].
  rewrite (proj2 (Z.eqb_neq r 0)) by (by eapply leaf_nz). rewrite rd64_bind.
  destruct (has (ld64 (k_mem s) r) PTE_V); [|done]. cbn [negb mbind option_bind].
  by destruct (has (ld64 (k_mem s) r) PTE_U).
Qed.

Lemma PGROUNDDOWN_div va : PGROUNDDOWN va = va / PGSIZE * PGSIZE.
Proof. rewrite PGROUNDDOWN_eq. unfold PGSIZE. pose proof (Z.div_mod va 4096). lia. Qed.

Lemma pte_at_page m T va va' :
  0 <= va < MAXVA -> 0 <= va' < MAXVA -> same_page va va' = true -> pte_at m T va = pte_at m T va'.
Proof.
  intros H H' E. apply Z.eqb_eq in E. rewrite !PX_page in E by done.
  pose proof (PX_range 0 va ltac:(lia)). pose proof (PX_range 1 va ltac:(lia)). pose proof (PX_range 2 va ltac:(lia)).
  pose proof (PX_range 0 va' ltac:(lia)). pose proof (PX_range 1 va' ltac:(lia)). pose proof (PX_range 2 va' ltac:(lia)).
  assert (E2 : PX 2 va = PX 2 va') by lia. rewrite E2 in E.
  assert (E1 : PX 1 va = PX 1 va') by lia. rewrite E1 in E.
  assert (E0 : PX 0 va = PX 0 va') by lia. unfold pte_at, leaf. by rewrite E0, E1, E2.
Qed.

(** The page of an address: MAXVA is page aligned, so rounding stays on the
    same side of it. *)
Lemma upage_page m T va va' :
  0 <= va -> 0 <= va' -> same_page va va' = true -> upage m T va = upage m T va'.
Proof.
  intros H H' E. unfold upage. assert (Hp := E). apply Z.eqb_eq in Hp. unfold PGSIZE in Hp.
  pose proof (Z.div_mod va 4096). pose proof (Z.div_mod va' 4096).
  pose proof (Z.mod_pos_bound va 4096). pose proof (Z.mod_pos_bound va' 4096).
  destruct (Z.ltb_spec va MAXVA), (Z.ltb_spec va' MAXVA); simpl; [|rewrite MAXVA_eq in *; lia..|done].
  by rewrite (pte_at_page m T va va').
Qed.

(** An offset inside the page of [va]. *)
Lemma same_page_add va i :
  0 <= i -> va `mod` PGSIZE + i < PGSIZE ->
  same_page (va + i) va = true /\ (va + i) `mod` PGSIZE = va `mod` PGSIZE + i.
Proof.
  intros Hi H. unfold same_page, PGSIZE in *. pose proof (Z.mod_pos_bound va 4096). pose proof (Z.div_mod va 4096).
  assert (E : va + i = (va `mod` 4096 + i) + va / 4096 * 4096) by lia. split.
  - apply Z.eqb_eq. rewrite E, Z.div_add, Z.div_small by lia. lia.
  - rewrite E, Z.mod_add, Z.mod_small by lia. lia.
Qed.

Lemma uaddr_add m T va p i :
  0 <= va -> upage m T va = Some p -> 0 <= i -> va `mod` PGSIZE + i < PGSIZE ->
  uaddr m T (va + i) = Some (p + va `mod` PGSIZE + i).
Proof.
  intros Hva Hp Hi H. destruct (same_page_add va i Hi H) as [E1 E2]. unfold uaddr.
  rewrite (upage_page m T (va + i) va), Hp by (lia || done). simpl. f_equal. rewrite E2. lia.
Qed.

Lemma upage_round m T va : 0 <= va -> upage m T (PGROUNDDOWN va) = upage m T va.
Proof.
  intros H. rewrite PGROUNDDOWN_div. apply upage_page; unfold PGSIZE; [|done|].
  - apply Z.mul_nonneg_nonneg; [apply Z.div_pos|]; lia.
  - unfold same_page, PGSIZE. apply Z.eqb_eq. by rewrite Z.div_mul by lia.
Qed.

(** What one round of the copy loops sees. *)
Lemma copy_page root T va c s l :
  vinv root s T l -> user_ok (k_mem s) T l -> 0 <= va ->
  exists pa0, walkaddr root (PGROUNDDOWN va) (c, s) = Ret pa0 (c, s) /\
    va - PGROUNDDOWN va = va `mod` PGSIZE /\ PGROUNDDOWN va + PGSIZE = va + (PGSIZE - va `mod` PGSIZE) /\
    (pa0 = 0 /\ upage (k_mem s) T va = None \/
     pa0 <> 0 /\ upage (k_mem s) T va = Some pa0 /\ va < MAXVA).
Proof.
  intros V U Hva. exists (default 0 (upage (k_mem s) T va)).
  assert (Hr : 0 <= PGROUNDDOWN va) by (rewrite PGROUNDDOWN_div; unfold PGSIZE;
    apply Z.mul_nonneg_nonneg; [apply Z.div_pos|]; lia).
  rewrite (walkaddr_run root T _ c s (v_wf _ _ _ _ V) (v_at _ _ _ _ V) Hr), upage_round by done.
  split; [done|]. rewrite PGROUNDDOWN_eq. split; [lia|]. split; [lia|].
  destruct (upage (k_mem s) T va) as [p|] eqn:E; [right|by left]. simpl.
  destruct (u_page _ _ _ U va p Hva E) as [Hp _]. pose proof (page_ok_pos p Hp).
  split; [lia|]. split; [done|]. unfold upage in E. by destruct (Z.ltb_spec va MAXVA).
Qed.

Lemma tree_same_upage T m m' va : tree_same T m m' -> upage m' T va = upage m T va.
Proof. intros H. unfold upage. by rewrite (tree_same_look T m). Qed.

Lemma tree_same_uaddr T m m' va : tree_same T m m' -> uaddr m' T va = uaddr m T va.
Proof. intros H. unfold uaddr. by rewrite (tree_same_upage T m). Qed.

Lemma tree_same_user T m m' l : tree_same T m m' -> user_ok m T l -> user_ok m' T l.
Proof.
  intros H [U1 U2]. split; [intros va p Hva|intros va va' p Hva Hva'];
    rewrite !(tree_same_upage T m m') by done; eauto.
Qed.

Lemma tree_same_trans T m1 m2 m3 : tree_same T m1 m2 -> tree_same T m2 m3 -> tree_same T m1 m3.
Proof. intros H1 H2 q x Hq Hx. rewrite (H2 q x), (H1 q x) by done. done. Qed.

(** Bytes [bs] written at the user addresses from [va] on. *)
Definition ustored (va : Z) (bs : list Z) (va' : Z) (o : option Z) : option Z :=
  if (va <=? va') && (va' <? va + Z.of_nat (length bs)) then bs !! Z.to_nat (va' - va) else o.

Lemma ustored_nil va va' o : ustored va [] va' o = o.
Proof. unfold ustored. cbn [length]. destruct (Z.leb_spec va va'), (Z.ltb_spec va' (va + Z.of_nat 0)); simpl; done || lia. Qed.

Lemma ustored_app va b1 b2 va' o :
  ustored (va + Z.of_nat (length b1)) b2 va' (ustored va b1 va' o) = ustored va (b1 ++ b2) va' o.
Proof.
  unfold ustored. rewrite length_app, Nat2Z.inj_add, Z.add_assoc.
  destruct (Z.leb_spec va va'), (Z.leb_spec (va + Z.of_nat (length b1)) va'),
    (Z.ltb_spec va' (va + Z.of_nat (length b1))),
    (Z.ltb_spec va' (va + Z.of_nat (length b1) + Z.of_nat (length b2))); simpl; try lia; try done.
  - rewrite lookup_app_r by lia. f_equal. lia.
  - by rewrite lookup_app_l by lia.
Qed.

(** Two user addresses meet in memory only if they are equal. *)
Lemma uaddr_inj m T l va va' p p' :
  user_ok m T l -> 0 <= va -> 0 <= va' -> upage m T va = Some p -> upage m T va' = Some p' ->
  p + va `mod` PGSIZE = p' + va' `mod` PGSIZE -> va = va'.
Proof.
  intros U Hva Hva' Hp Hp' E. destruct (u_page _ _ _ U va p Hva Hp) as (Hpo & _).
  destruct (u_page _ _ _ U va' p' Hva' Hp') as (Hpo' & _).
  pose proof (Z.mod_pos_bound va PGSIZE ltac:(done)). pose proof (Z.mod_pos_bound va' PGSIZE ltac:(done)).
  destruct (decide (p = p')) as [->|Hne].
  - pose proof (u_inj _ _ _ U va va' p' Hva Hva' Hp Hp') as Hs. apply Z.eqb_eq in Hs.
    pose proof (Z.div_mod va PGSIZE ltac:(done)). pose proof (Z.div_mod va' PGSIZE ltac:(done)). lia.
  - exfalso. destruct (pages_apart p p' (p' + va' `mod` PGSIZE) Hpo Hpo' Hne); lia.
Qed.

(** Bytes of no user page. *)
Definition off_user (m : mem) (T : ptree) (x : Z) : Prop := forall va p, 0 <= va -> upage m T va = Some p -> off_page p x.

(** One page's worth of copyout(). *)
Lemma store_user root s T l va p bs :
  vinv root s T l -> user_ok (k_mem s) T l -> 0 <= va -> Forall is_byte bs ->
  upage (k_mem s) T va = Some p -> va `mod` PGSIZE + Z.of_nat (length bs) <= PGSIZE ->
  let m1 := store_bytes (k_mem s) (p + va `mod` PGSIZE) bs in
  vinv root (with_mem s m1) T l /\ tree_same T (k_mem s) m1 /\
  (forall x, off_page p x -> bget m1 x = bget (k_mem s) x) /\
  forall va', 0 <= va' -> uread m1 T va' = ustored va bs va' (uread (k_mem s) T va').
Proof.
  intros V U Hva Hbs Hp Hlen m1. destruct (u_page _ _ _ U va p Hva Hp) as (Hpo & Hnt & Hnl).
  pose proof (Z.mod_pos_bound va PGSIZE ltac:(done)) as Hmod. set (d := p + va `mod` PGSIZE) in *.
  assert (Hget : forall x, bget m1 x = if (d <=? x) && (x <? d + Z.of_nat (length bs))
    then nth (Z.to_nat (x - d)) bs 0 else bget (k_mem s) x).
  { intros x. apply store_bytes_get. auto. }
  assert (Hoff : forall x, off_page p x -> bget m1 x = bget (k_mem s) x).
  { intros x Hx. rewrite Hget. unfold off_page in Hx.
    destruct (Z.leb_spec d x), (Z.ltb_spec x (d + Z.of_nat (length bs))); simpl; done || lia. }
  destruct (page_write root s T l p m1 V Hpo Hnt Hnl) as [Hs V']; [apply store_bytes_ok; [apply V|done]|done|].
  clearbody m1. split_and!; [done..|]. intros va' Hva'. unfold uread, ustored.
  rewrite (tree_same_uaddr T (k_mem s)) by done.
  destruct ((va <=? va') && (va' <? va + Z.of_nat (length bs))) eqn:Hin.
  - apply andb_true_iff in Hin as [H1%Z.leb_le H2%Z.ltb_lt].
    replace va' with (va + (va' - va)) at 1 by lia. rewrite (uaddr_add _ T va p) by (done || lia). fold d.
    cbn [fmap option_fmap option_map].
    rewrite Hget, (proj2 (Z.leb_le _ _)), (proj2 (Z.ltb_lt _ _)) by lia. simpl.
    replace (d + (va' - va) - d) with (va' - va) by lia.
    destruct (nth_lookup_or_length bs (Z.to_nat (va' - va)) 0) as [->|]; [done|lia].
  - unfold uaddr. destruct (upage (k_mem s) T va') as [p'|] eqn:Hp'; [|done].
    cbn [fmap option_fmap option_map]. f_equal. rewrite Hget. set (x := p' + va' `mod` PGSIZE).
    destruct ((d <=? x) && (x <? d + Z.of_nat (length bs))) eqn:Hx; [exfalso|done].
    apply andb_true_iff in Hx as [H1%Z.leb_le H2%Z.ltb_lt].
    set (i := x - d) in *. subst x.
    destruct (same_page_add va i) as [E1 E2]; [lia..|].
    assert (va + i = va'); [|apply andb_false_iff in Hin as [Hin%Z.leb_gt|Hin%Z.ltb_ge]; lia].
    apply (uaddr_inj (k_mem s) T l (va + i) va' p p'); [done|lia|done| |done|lia].
    rewrite (upage_page _ _ (va + i) va); [done|lia|done|done].
Qed.

Lemma uread_none m T va : upage m T va = None -> uread m T va = None.
Proof. unfold uread, uaddr. by intros ->. Qed.

Lemma asks_bind {A} (k : mem -> K kst A) c s :
  (m ← asks (fun w => k_mem (snd w)); k m) (c, s) = k (k_mem s) (c, s).
Proof. done. Qed.

Lemma upd_mem_bind {A} (f : mem -> mem) (k : K kst A) c s :
  (modify (upd_mem f) ;; k) (c, s) = k (c, with_mem s (f (k_mem s))).
Proof. done. Qed.

Lemma copyout_loop_run fuel root T va src c s l :
  vinv root s T l -> user_ok (k_mem s) T l -> 0 <= va -> Forall is_byte src -> (length src < fuel)%nat ->
  exists r s', copyout_loop fuel root va src (c, s) = Ret r (c, s') /\
    vinv root s' T l /\ tree_same T (k_mem s) (k_mem s') /\
    (forall x, off_user (k_mem s) T x -> bget (k_mem s') x = bget (k_mem s) x) /\
    (r = 0 /\ (forall va', 0 <= va' -> uread (k_mem s') T va' = ustored va src va' (uread (k_mem s) T va')) \/
     r = -1 /\ exists va', va <= va' < va + Z.of_nat (length src) /\ uread (k_mem s) T va' = None).
Proof.
  revert va src s. induction fuel as [|fuel IH]; intros va src s V U Hva Hb Hf; [lia|].
  cbn [copyout_loop]. destruct (Z.ltb_spec 0 (Z.of_nat (length src))) as [Hl|Hl]; cbn [negb].
  2: { destruct src; [|simpl in Hl; lia]. exists 0, s. split_and!; [done..|].
       left. split; [done|]. intros. by rewrite ustored_nil. }
  destruct (copy_page root T va c s l V U Hva) as (pa0 & R & E1 & E2 & Hpa).
  rewrite (bind_ret _ _ _ _ _ R), E1, E2. destruct Hpa as [(-> & Hp)|(Hpa & Hp & Hmax)].
  { exists (-1), s. split_and!; [done..|]. right. split; [done|]. exists va. split; [lia|by apply uread_none]. }
  rewrite (proj2 (Z.eqb_neq pa0 0) Hpa), upd_mem_bind.
  pose proof (Z.mod_pos_bound va PGSIZE ltac:(done)) as Hm.
  set (n := Z.min (PGSIZE - va `mod` PGSIZE) (Z.of_nat (length src))).
  assert (Hn : length (take (Z.to_nat n) src) = Z.to_nat n) by (rewrite length_take; lia).
  destruct (store_user root s T l va pa0 (take (Z.to_nat n) src)) as (V1 & S1 & O1 & L1);
    [done..|by apply Forall_take|done|rewrite Hn; lia|].
  set (s1 := with_mem s _) in *. change (store_bytes _ _ _) with (k_mem s1) in S1, O1, L1.
  assert (Hu : u64 (va + (PGSIZE - va `mod` PGSIZE)) = va + (PGSIZE - va `mod` PGSIZE))
    by (apply u64_small; rewrite MAXVA_eq in Hmax; unfold PGSIZE in *; lia).
  destruct (IH (va + (PGSIZE - va `mod` PGSIZE)) (drop (Z.to_nat n) src) s1 V1
              (tree_same_user _ _ _ _ S1 U) ltac:(lia) ltac:(by apply Forall_drop)) as (r & s' & R' & V' & S' & O' & Hr).
  { rewrite length_drop. lia. }
  rewrite Hu, R'. exists r, s'. split_and!; [done..|by eapply tree_same_trans| |].
  { intros x Hx. rewrite O', O1; [done|by eapply Hx|]. intros va' p'. rewrite (tree_same_upage T (k_mem s)) by done. apply Hx. }
  destruct Hr as [(-> & L')|(-> & va' & Hin & Hnone)].
  - left. split; [done|]. intros va' Hva'. rewrite L', L1 by done.
    rewrite <- (take_drop (Z.to_nat n) src) at 3. rewrite <- ustored_app, Hn.
    destruct (drop (Z.to_nat n) src) as [|y ys] eqn:Ed; [by rewrite !ustored_nil|].
    apply (f_equal length) in Ed. rewrite length_drop in Ed. simpl in Ed.
    f_equal. lia.
  - right. split; [done|]. rewrite length_drop in Hin. exists va'. split; [lia|].
    unfold uread in *. rewrite (tree_same_uaddr T (k_mem s)) in Hnone by done.
    by destruct (uaddr (k_mem s) T va').
Qed.

(** [bs] are the bytes of the user addresses from [va] on. *)
Definition ubytes (m : mem) (T : ptree) (va : Z) (bs : list Z) : Prop :=
  forall i b, bs !! i = Some b -> uread m T (va + Z.of_nat i) = Some b.

Lemma ubytes_app m T va b1 b2 :
  ubytes m T va b1 -> ubytes m T (va + Z.of_nat (length b1)) b2 -> ubytes m T va (b1 ++ b2).
Proof.
  intros H1 H2 i b Hi. apply lookup_app_Some in Hi as [Hi|[Hl Hi]]; [by apply H1|].
  apply H2 in Hi. rewrite <- Hi. f_equal. lia.
Qed.

Lemma ubytes_page m T va p n :
  0 <= va -> upage m T va = Some p -> va `mod` PGSIZE + Z.of_nat n <= PGSIZE ->
  ubytes m T va (bytes_at m (p + va `mod` PGSIZE) n).
Proof.
  intros Hva Hp Hn i b Hi. pose proof (Z.mod_pos_bound va PGSIZE ltac:(done)).
  assert (Hlt : (i < n)%nat) by (apply lookup_lt_Some in Hi; by rewrite length_bytes_at in Hi).
  unfold uread. rewrite (uaddr_add m T va p) by (done || lia). cbn [fmap option_fmap option_map].
  unfold bytes_at in Hi. apply list_lookup_fmap_Some in Hi as (j & -> & Hj).
  apply lookup_seq in Hj as [-> _]. do 2 f_equal; lia.
Qed.

Lemma copyin_loop_run fuel root T va len dst c s l :
  vinv root s T l -> user_ok (k_mem s) T l -> 0 <= va -> 0 <= len -> (Z.to_nat len < fuel)%nat ->
  exists bs r, copyin_loop fuel root va len dst (c, s) = Ret (dst ++ bs, r) (c, s) /\
    ubytes (k_mem s) T va bs /\
    (r = 0 /\ Z.of_nat (length bs) = len \/
     r = -1 /\ exists va', va <= va' < va + len /\ uread (k_mem s) T va' = None).
Proof.
  revert va len dst. induction fuel as [|fuel IH]; intros va len dst V U Hva Hlen Hf; [lia|].
  cbn [copyin_loop]. destruct (Z.ltb_spec 0 len) as [Hl|Hl]; cbn [negb].
  2: { exists [], 0. rewrite app_nil_r. split_and!; [done|by intros ?? ?|left; simpl; lia]. }
  destruct (copy_page root T va c s l V U Hva) as (pa0 & R & E1 & E2 & Hpa).
  rewrite (bind_ret _ _ _ _ _ R), E1, E2. destruct Hpa as [(-> & Hp)|(Hpa & Hp & Hmax)].
  { exists [], (-1). rewrite app_nil_r. split_and!; [done|by intros ?? ?|right]. split; [done|].
    exists va. split; [lia|by apply uread_none]. }
  rewrite (proj2 (Z.eqb_neq pa0 0) Hpa), asks_bind.
  pose proof (Z.mod_pos_bound va PGSIZE ltac:(done)) as Hm. set (n := Z.min (PGSIZE - va `mod` PGSIZE) len).
  set (b0 := bytes_at (k_mem s) (pa0 + va `mod` PGSIZE) (Z.to_nat n)).
  assert (Hb0 : length b0 = Z.to_nat n) by apply length_bytes_at.
  assert (H0 : ubytes (k_mem s) T va b0) by (apply ubytes_page; [done..|lia]).
  rewrite (u64_small (va + (PGSIZE - va `mod` PGSIZE))) by (rewrite MAXVA_eq in Hmax; unfold PGSIZE in *; lia).
  destruct (IH (va + (PGSIZE - va `mod` PGSIZE)) (len - n) (dst ++ b0) V U) as (bs & r & R' & B & Hr); [lia..|].
  exists (b0 ++ bs), r. split_and!; [by rewrite app_assoc| |].
  - apply ubytes_app; [done|]. destruct (decide (n = len)) as [Hn|Hn].
    + destruct bs as [|b bs]; [by intros ?? ?|exfalso]. destruct Hr as [(_ & Hr)|(_ & va' & Hr & _)].
      * simpl in Hr. lia.
      * lia.
    + replace (va + Z.of_nat (length b0)) with (va + (PGSIZE - va `mod` PGSIZE)) by lia. done.
  - destruct Hr as [(-> & Hr)|(-> & va' & Hin & Hnone)].
    + left. split; [done|]. rewrite length_app. lia.
    + right. split; [done|]. exists va'. split; [lia|done].
Qed.

(** The inner loop of copyinstr(). *)
Lemma copyinstr_page_run m n p dst :
  exists bs g, copyinstr_page m p n dst = (dst ++ bs, g) /\ (length bs <= n)%nat /\
    bs = bytes_at m p (length bs) /\
    (g = true /\ (exists str, bs = str ++ [0] /\ 0 ∉ str) \/ g = false /\ length bs = n /\ 0 ∉ bs).
Proof.
  revert p dst. induction n as [|n IH]; intros p dst; cbn [copyinstr_page].
  { exists [], false. rewrite app_nil_r. split_and!; [done|done|done|right]. split_and!; [done..|set_solver]. }
  assert (Hb : forall k, bytes_at m p (S k) = bget m p :: bytes_at m (p + 1) k).
  { intros k. unfold bytes_at. cbn [seq map]. f_equal; [f_equal; lia|].
    rewrite <- seq_shift, map_map. apply map_ext. intros i. f_equal. lia. }
  destruct (Z.eqb_spec (bget m p) 0) as [E|E].
  { exists [0], true. cbn [length]. rewrite Hb, E. split_and!; [done|lia|done|left]. split; [done|].
    exists []. split; [done|set_solver]. }
  destruct (IH (p + 1) (dst ++ [bget m p])) as (bs & g & -> & Hl & Hbs & Hg).
  exists (bget m p :: bs), g. rewrite <- app_assoc. cbn [length]. rewrite Hb.
  split_and!; [done|lia|by rewrite <- Hbs|]. destruct Hg as [(-> & str & -> & Hs)|(-> & Hn & Hs)].
  - left. split; [done|]. exists (bget m p :: str). split; [done|set_solver].
  - right. split_and!; [done|lia|set_solver].
Qed.

(** The outcome of copyinstr(): a string with its NUL, or no NUL among the
    first [max] bytes that are mapped. *)
Definition str_read (m : mem) (T : ptree) (va max : Z) (bs : list Z) (r : Z) : Prop :=
  ubytes m T va bs /\ Z.of_nat (length bs) <= max /\
  (r = 0 /\ (exists str, bs = str ++ [0] /\ 0 ∉ str) \/
   r = -1 /\ (0 ∉ bs) /\ (Z.of_nat (length bs) = max \/ uread m T (va + Z.of_nat (length bs)) = None)).

Lemma str_read_app m T va max b0 bs r :
  ubytes m T va b0 -> 0 ∉ b0 ->
  str_read m T (va + Z.of_nat (length b0)) (max - Z.of_nat (length b0)) bs r -> str_read m T va max (b0 ++ bs) r.
Proof.
  intros U0 N0 (U & L & H). split; [by apply ubytes_app|]. rewrite length_app. split; [lia|].
  destruct H as [(-> & str & -> & Hs)|(-> & Hn & Hr)].
  - left. split; [done|]. exists (b0 ++ str). split; [by rewrite app_assoc|set_solver].
  - right. split_and!; [done|set_solver|]. destruct Hr as [Hr|Hr]; [left; lia|right].
    rewrite Nat2Z.inj_add, Z.add_assoc. done.
Qed.

Lemma copyinstr_loop_run fuel root T va max dst c s l :
  vinv root s T l -> user_ok (k_mem s) T l -> 0 <= va -> 0 <= max -> (Z.to_nat max < fuel)%nat ->
  exists bs r, copyinstr_loop fuel root va max dst (c, s) = Ret (dst ++ bs, r) (c, s) /\
    str_read (k_mem s) T va max bs r.
Proof.
  revert va max dst. induction fuel as [|fuel IH]; intros va max dst V U Hva Hmx Hf; [lia|].
  cbn [copyinstr_loop]. destruct (Z.ltb_spec 0 max) as [Hl|Hl]; cbn [negb].
  2: { exists [], (-1). rewrite app_nil_r. split; [done|]. split_and!; [by intros ?? ?|done|right].
       split_and!; [done|set_solver|left; simpl; lia]. }
  destruct (copy_page root T va c s l V U Hva) as (pa0 & R & E1 & E2 & Hpa).
  rewrite (bind_ret _ _ _ _ _ R), E1, E2. destruct Hpa as [(-> & Hp)|(Hpa & Hp & Hmax)].
  { exists [], (-1). rewrite app_nil_r. split; [done|]. split_and!; [by intros ?? ?|simpl; lia|right].
    split_and!; [done|set_solver|right]. rewrite Z.add_0_r. by apply uread_none. }
  rewrite (proj2 (Z.eqb_neq pa0 0) Hpa), asks_bind.
  pose proof (Z.mod_pos_bound va PGSIZE ltac:(done)) as Hm. set (n := Z.min (PGSIZE - va `mod` PGSIZE) max).
  destruct (copyinstr_page_run (k_mem s) (Z.to_nat n) (pa0 + va `mod` PGSIZE) dst) as (b0 & g & -> & Hl0 & Hb0 & Hg).
  assert (H0 : ubytes (k_mem s) T va b0) by (rewrite Hb0; apply ubytes_page; [done..|lia]).
  destruct Hg as [(-> & Hg)|(-> & Hn & Hg)].
  { exists b0, 0. split; [done|]. split_and!; [done|lia|by left]. }
  rewrite (u64_small (va + (PGSIZE - va `mod` PGSIZE))) by (rewrite MAXVA_eq in Hmax; unfold PGSIZE in *; lia).
  destruct (IH (va + (PGSIZE - va `mod` PGSIZE)) (max - n) (dst ++ b0) V U) as (bs & r & R' & B); [lia..|].
  exists (b0 ++ bs), r. rewrite app_assoc. split; [exact R'|]. apply str_read_app; [done..|].
  destruct (decide (n = max)) as [Hnm|Hnm].
  - destruct B as (B1 & B2 & B3). assert (bs = []) as -> by (destruct bs; [done|simpl in *; lia]).
    split_and!; [by intros ?? ?|simpl; lia|].
    destruct B3 as [(_ & str & E & _)|(-> & _ & _)]; [by destruct str|].
    right. split_and!; [done|set_solver|left; simpl; lia].
  - replace (va + Z.of_nat (length b0)) with (va + (PGSIZE - va `mod` PGSIZE)) by lia.
    by replace (max - Z.of_nat (length b0)) with (max - n) by lia.
Qed.

(** ** The properties *)

(** C4: mappages() walks down from a well-formed page table, building the
    tables it needs, and returns 0 with exactly the pages of va .. va+size-1
    mapped to consecutive physical pages with the given permissions, or -1
    when the allocator is exhausted, with a prefix of them mapped; every
    other translation, all memory outside the tables and the remaining free
    list are as before. *)
Theorem mappages_correct root T va size pa perm c s l :
  vinv root s T l -> cpu_ok (cx_cpu c) -> 0 <= va -> 0 < size -> va + size <= MAXVA ->
  pa_ok pa -> pa + Z.of_nat (npages va size) * PGSIZE <= 2 ^ 56 -> 0 <= perm < 1024 ->
  (forall va', PGROUNDDOWN va <= va' < PGROUNDDOWN va + Z.of_nat (npages va size) * PGSIZE ->
    pte_at (k_mem s) T va' = None) ->
  exists k r c' s' T' l',
    mappages root va size pa perm (c, s) = Ret r (c', s') /\ calm c c' /\
    vinv root s' T' l' /\ grow s T l s' T' l' /\
    (forall va', 0 <= va' < MAXVA ->
      pte_at (k_mem s') T' va' = mapped (PGROUNDDOWN va) pa perm k va' (pte_at (k_mem s) T va')) /\
    (r = 0 /\ k = npages va size \/ r = -1 /\ (k < npages va size)%nat /\ l' = []).
Proof.
  intros. destruct (mappages_run root T va size pa perm c s l) as (k & r & c' & s' & T' & l' & R & Hc & (V & G & _ & L) & Hr);
    [done..|]. exists k, r, c', s', T', l'. by split_and!.
Qed.

(** uvmunmap() removes exactly the mappings of npages pages from va on,
    and with do_free puts each mapped page on the free list, once; the page
    table stays well formed. *)
Theorem uvmunmap_correct vs root T va do_free c s l :
  vinv root s T l -> cpu_ok (cx_cpu c) -> 0 <= va -> va `mod` PGSIZE = 0 ->
  va + Z.of_nat (length vs) * PGSIZE <= MAXVA -> ptes_from (k_mem s) T va vs ->
  Forall (fun v => PTE_FLAGS v <> PTE_V) vs -> (do_free = true -> releasable T vs l) ->
  exists c' s', uvmunmap root va (Z.of_nat (length vs)) do_free (c, s) = Ret tt (c', s') /\
    calm c c' /\ vinv root s' T (freed do_free vs l) /\
    forall va', 0 <= va' < MAXVA ->
      pte_at (k_mem s') T va' = unmapped va (length vs) va' (pte_at (k_mem s) T va').
Proof.
  intros. destruct (uvmunmap_run vs root T va do_free c s l) as (c' & s' & R & Hc & V & _ & L); [done..|]. by exists c', s'.
Qed.

(** copyout() returns 0 having stored the bytes at the user addresses
    dstva on and changed no other user byte and no translation, or -1 when
    one of these addresses is not mapped for the user. *)
Theorem copyout_correct root T dstva src c s l :
  vinv root s T l -> user_ok (k_mem s) T l -> 0 <= dstva -> Forall is_byte src ->
  exists r s', copyout root dstva src (c, s) = Ret r (c, s') /\
    vinv root s' T l /\ (forall va, pte_at (k_mem s') T va = pte_at (k_mem s) T va) /\
    (r = 0 /\ (forall va, 0 <= va -> uread (k_mem s') T va = ustored dstva src va (uread (k_mem s) T va)) \/
     r = -1 /\ exists va, dstva <= va < dstva + Z.of_nat (length src) /\ uread (k_mem s) T va = None).
Proof.
  intros V U Hva Hb. destruct (copyout_loop_run (S (length src)) root T dstva src c s l) as (r & s' & R & V' & S' & _ & H);
    [done..|lia|]. exists r, s'. split_and!; [exact R|done| |done]. intros va. by apply tree_same_look.
Qed.

(** copyin() after a successful copyout() to the same user address gives
    back the bytes that were copied out. *)
Theorem copyin_copyout root T va src c s l :
  vinv root s T l -> user_ok (k_mem s) T l -> 0 <= va -> Forall is_byte src ->
  (forall va', va <= va' < va + Z.of_nat (length src) -> uread (k_mem s) T va' <> None) ->
  exists s', copyout root va src (c, s) = Ret 0 (c, s') /\
    copyin root va (Z.of_nat (length src)) (c, s') = Ret (src, 0) (c, s').
Proof.
  intros V U Hva Hb Hmap.
  destruct (copyout_loop_run (S (length src)) root T va src c s l) as (r & s' & R & V' & S' & _ & H); [done..|lia|].
  destruct H as [(-> & L)|(_ & va' & Hin & Hn)]; [|by destruct (Hmap va' Hin)].
  exists s'. split; [exact R|].
  destruct (copyin_loop_run (S (Z.to_nat (Z.of_nat (length src)))) root T va (Z.of_nat (length src)) [] c s' l)
    as (bs & r & R' & B & Hr); [done|by eapply tree_same_user|lia..|].
  assert (Hu : forall i, (i < length src)%nat -> uread (k_mem s') T (va + Z.of_nat i) = src !! i).
  { intros i Hi. rewrite L by lia. unfold ustored.
    rewrite (proj2 (Z.leb_le _ _)), (proj2 (Z.ltb_lt _ _)) by lia. simpl. f_equal. lia. }
  destruct Hr as [(-> & Hlen)|(_ & va' & Hin & Hn)].
  - unfold copyin. rewrite R'. cbn [app]. do 2 f_equal. apply list_eq_same_length with (length src); [lia..|].
    intros i x y Hi Hx Hy. apply B in Hx. rewrite Hu in Hx by done. congruence.
  - exfalso. replace va' with (va + Z.of_nat (Z.to_nat (va' - va))) in Hn by lia. rewrite Hu in Hn by lia.
    apply lookup_ge_None in Hn. lia.
Qed.

(** copyinstr() delivers the user string at srcva with its terminating
    NUL and returns 0, or returns -1: then it met no NUL, and stopped after
    max bytes or at an address that is not mapped for the user. *)
Theorem copyinstr_correct root T srcva max c s l :
  vinv root s T l -> user_ok (k_mem s) T l -> 0 <= srcva -> 0 <= max ->
  exists bs r, copyinstr root srcva max (c, s) = Ret (bs, r) (c, s) /\
    str_read (k_mem s) T srcva max bs r.
Proof. intros. apply (copyinstr_loop_run (S (Z.to_nat max)) root T srcva max [] c s l); done || lia. Qed.

End Uvm.

(** ** Concrete page tables

    Deciding the invariants of a finite tree. *)

Section Decide.
Context {LY : Layout} {LO : LayoutOk}.

Definition pointsb (m : mem) (a : Z) (o : option Z) : bool :=
  match o with
  | Some p => ld64 m a =? mkpte p 0
  | None => negb (has (ld64 m a) PTE_V)
  end.

Definition tree_atb (m : mem) (T : ptree) : bool :=
  forallb (fun kp => if (length (fst kp) <? 2)%nat
                     then forallb (fun i => pointsb m (snd kp + 8 * i) (T !! (fst kp ++ [i]))) (seqZ 0 512)
                     else true) (map_to_list T).

Definition tree_wfb (root : Z) (T : ptree) : bool :=
  bool_decide (T !! [] = Some root) && bool_decide (NoDup (map_to_list T).*2) &&
  forallb (fun kp => page_okb (snd kp) && (length (fst kp) <=? 2)%nat &&
                     match reverse (fst kp) with
                     | [] => true
                     | _ :: up => bool_decide (is_Some (T !! reverse up))
                     end) (map_to_list T).

Lemma tree_atb_sound m T : tree_atb m T = true -> tree_at m T.
Proof.
  unfold tree_atb. rewrite forallb_forall. intros H path p i Hp Hl Hi.
  specialize (H (path, p)). cbn [fst snd] in H. rewrite (proj2 (Nat.ltb_lt _ _)) in H by done.
  specialize (H ltac:(by apply list_elem_of_In, elem_of_map_to_list)). rewrite forallb_forall in H.
  specialize (H i ltac:(apply list_elem_of_In, elem_of_seqZ; lia)). unfold pointsb, points in *.
  destruct (T !! (path ++ [i])); [by apply Z.eqb_eq|by apply negb_true_iff].
Qed.

Lemma NoDup_snd {A B} (l : list (A * B)) a b y : NoDup l.*2 -> (a, y) ∈ l -> (b, y) ∈ l -> a = b.
Proof.
  intros N Ha Hb. apply list_elem_of_lookup in Ha as [i Ha]. apply list_elem_of_lookup in Hb as [j Hb].
  assert (i = j) as ->; [|congruence].
  apply (NoDup_lookup l.*2 i j y); [done|by rewrite list_lookup_fmap, Ha|by rewrite list_lookup_fmap, Hb].
Qed.

Lemma tree_wfb_sound root T : tree_wfb root T = true -> tree_wf root T.
Proof.
  unfold tree_wfb. rewrite !andb_true_iff, !bool_decide_eq_true, forallb_forall. intros [[Hr Hn] H].
  assert (H' : forall path p, T !! path = Some p -> page_okb p && (length path <=? 2)%nat &&
    match reverse path with [] => true | _ :: up => bool_decide (is_Some (T !! reverse up)) end = true).
  { intros path p Hp. apply (H (path, p)). by apply list_elem_of_In, elem_of_map_to_list. }
  split; [done|..].
  - intros path p Hp. apply H' in Hp. rewrite !andb_true_iff in Hp. apply page_okb_spec. tauto.
  - intros path p Hp. apply H' in Hp. rewrite !andb_true_iff in Hp. apply Nat.leb_le. tauto.
  - intros path i p Hp. apply H' in Hp. rewrite !andb_true_iff, reverse_snoc, reverse_involutive in Hp.
    destruct Hp as [_ Hp]. by apply bool_decide_eq_true in Hp.
  - intros a b p Ha Hb. apply elem_of_map_to_list in Ha, Hb. by eapply NoDup_snd.
Qed.

End Decide.

(** Eight pages below PHYSTOP. *)
Definition vm_layout : Layout := {|
  kend := PHYSTOP - 8 * PGSIZE;
  etext := KERNBASE + 0x8000;
  trampoline := KERNBASE + 0x7000
|}.

Lemma vm_layout_ok : @LayoutOk vm_layout.
Proof. split; vm_compute; repeat split; discriminate. Qed.

Definition pg (i : Z) : Z := PHYSTOP - i * PGSIZE.

(** An empty table, three free pages. *)
Definition vm_s0 : kst :=
  Kst (st64 (st64 ∅ (pg 3) (pg 2)) (pg 2) (pg 1)) (Spinlock false "kmem" None) (pg 3).
Definition vm_T0 : ptree := {[ [] := pg 8 ]}.
Definition vm_l0 : list Z := [pg 3; pg 2; pg 1].

Definition UPERM : Z := Z.lor (Z.lor PTE_R PTE_W) PTE_U.

(** A table that maps page 0 to a user page, one page free. *)
Definition vm_s1 : kst :=
  Kst (st64 (st64 (st64 ∅ (pg 8) (mkpte (pg 7) 0)) (pg 7) (mkpte (pg 6) 0)) (pg 6) (mkpte (pg 5) UPERM))
      (Spinlock false "kmem" None) (pg 1).
Definition vm_T1 : ptree := {[ [] := pg 8; [0] := pg 7; [0; 0] := pg 6 ]}.
Definition vm_l1 : list Z := [pg 1].

Lemma mem_ok_st64s : mem_ok (k_mem vm_s0) /\ mem_ok (k_mem vm_s1).
Proof. split; repeat apply st64_ok; apply mem_ok_empty. Qed.

#[local] Instance vm_lay : Layout := vm_layout.

Lemma vm_kinv (s : kst) l :
  freelist_at (k_mem s) (k_freelist s) l -> bool_decide (NoDup l) = true -> forallb page_okb l = true ->
  lock_free (k_lock s) -> mem_ok (k_mem s) -> kinv s l.
Proof.
  intros H1 H2%bool_decide_eq_true H3 H4 H5. split; try done. rewrite forallb_forall in H3.
  apply Forall_forall. intros x Hx. apply page_okb_spec, H3. by apply list_elem_of_In.
Qed.

Lemma vm_vinv0 : vinv (pg 8) vm_s0 vm_T0 vm_l0.
Proof.
  split.
  - apply vm_kinv; [vm_compute; auto|by vm_compute|by vm_compute|done|apply mem_ok_st64s].
  - apply tree_wfb_sound. by vm_compute.
  - apply tree_atb_sound. by vm_compute.
  - intros p [path Hp]. unfold vm_T0 in Hp. apply lookup_singleton_Some in Hp as [_ <-].
    apply (bool_decide_unpack (pg 8 ∉ vm_l0)). by vm_compute.
Qed.

Lemma vm_in1 p : in_tree vm_T1 p -> p = pg 8 \/ p = pg 7 \/ p = pg 6.
Proof. intros [path Hp]. unfold vm_T1 in Hp. rewrite !lookup_insert_Some, lookup_singleton_Some in Hp. naive_solver. Qed.

Lemma vm_vinv1 : vinv (pg 8) vm_s1 vm_T1 vm_l1.
Proof.
  split.
  - apply vm_kinv; [vm_compute; auto|by vm_compute|by vm_compute|done|apply mem_ok_st64s].
  - apply tree_wfb_sound. by vm_compute.
  - apply tree_atb_sound. by vm_compute.
  - intros p Hp. apply (bool_decide_unpack (p ∉ vm_l1)).
    destruct (vm_in1 p Hp) as [->|[->| ->]]; by vm_compute.
Qed.

Lemma vm_leaf1 va v : pte_at (k_mem vm_s1) vm_T1 va = Some v ->
  v = mkpte (pg 5) UPERM /\ PX 2 va = 0 /\ PX 1 va = 0 /\ PX 0 va = 0.
Proof.
  intros H. destruct (pte_in_leaf _ _ _ _ H) as (r & Hr & Hld & Hv). unfold leaf in Hr.
  apply fmap_Some in Hr as (q & Hq & ->). unfold vm_T1 in Hq.
  rewrite !lookup_insert_Some, lookup_singleton_Some in Hq.
  assert (q = pg 6 /\ PX 2 va = 0 /\ PX 1 va = 0) as (-> & E2 & E1).
  { destruct Hq as [[[=] _]|[_ [[[=] _]|[_ [[= E1 E2] <-]]]]]. by rewrite <- E1, <- E2. }
  pose proof (PX_range 0 va ltac:(lia)) as Hr.
  assert (C : forallb (fun i => (i =? 0) || negb (has (ld64 (k_mem vm_s1) (pg 6 + 8 * i)) PTE_V)) (seqZ 0 512) = true)
    by (by vm_compute).
  rewrite forallb_forall in C. specialize (C (PX 0 va) ltac:(apply list_elem_of_In, elem_of_seqZ; lia)).
  rewrite Hld, Hv, orb_false_r in C. apply Z.eqb_eq in C. rewrite C in Hld.
  split_and!; [|done..]. rewrite <- Hld. by vm_compute.
Qed.

Lemma vm_user1 : user_ok (k_mem vm_s1) vm_T1 vm_l1.
Proof.
  assert (H : forall va p, 0 <= va -> upage (k_mem vm_s1) vm_T1 va = Some p -> p = pg 5 /\ va / PGSIZE = 0).
  { intros va p Hva. unfold upage. destruct (Z.ltb_spec va MAXVA); [|done]. cbn [negb].
    destruct (pte_at (k_mem vm_s1) vm_T1 va) as [v|] eqn:E; [|done]. cbn [mbind option_bind].
    destruct (vm_leaf1 va v E) as (-> & E2 & E1 & E0).
    change (has (mkpte (pg 5) UPERM) PTE_U) with true. intros [= <-].
    split; [by vm_compute|]. rewrite PX_page by lia. by rewrite E2, E1, E0. }
  split.
  - intros va p Hva Hp. destruct (H va p Hva Hp) as [-> _]. split_and!.
    + apply page_okb_spec. by vm_compute.
    + intros Hin. destruct (vm_in1 _ Hin) as [E|[E|E]]; by vm_compute in E.
    + apply (bool_decide_unpack (pg 5 ∉ vm_l1)). by vm_compute.
  - intros va va' p Hva Hva' Hp Hp'. destruct (H va p Hva Hp), (H va' p Hva' Hp').
    unfold same_page. apply Z.eqb_eq. congruence.
Qed.

Lemma vm_none0 va : pte_at (k_mem vm_s0) vm_T0 va = None.
Proof. unfold pte_at, leaf, vm_T0. by rewrite lookup_singleton_ne. Qed.

Lemma pg_pa_ok : pa_ok (pg 5).
Proof. split; [by vm_compute|split; by vm_compute]. Qed.

Lemma vm_ptes1 : ptes_from (k_mem vm_s1) vm_T1 0 [mkpte (pg 5) UPERM].
Proof. intros [|i] v [= <-]. by vm_compute. Qed.

Lemma vm_releasable1 : releasable vm_T1 [mkpte (pg 5) UPERM] vm_l1.
Proof.
  split; [apply NoDup_singleton|]. intros v ->%list_elem_of_singleton.
  rewrite PTE2PA_mkpte by (apply pg_pa_ok || (split; by vm_compute)).
  apply (u_page _ _ _ vm_user1 0); [done|by vm_compute].
Qed.

Lemma mappages_correct_witness :
  exists k r c' s' T' l',
    mappages (pg 8) PGSIZE PGSIZE (pg 5) UPERM (ctx0, vm_s0) = Ret r (c', s') /\ vinv (pg 8) s' T' l' /\
    (r = 0 /\ k = 1%nat \/ r = -1 /\ (k < 1)%nat /\ l' = []).
Proof.
  destruct (@mappages_correct vm_layout vm_layout_ok (pg 8) vm_T0 PGSIZE PGSIZE (pg 5) UPERM ctx0 vm_s0 vm_l0
    vm_vinv0 cpu0_ok ltac:(done) ltac:(done) ltac:(by vm_compute) pg_pa_ok ltac:(by vm_compute)
    ltac:(split; by vm_compute) ltac:(intros; apply vm_none0))
    as (k & r & c' & s' & T' & l' & R & _ & V & _ & _ & H).
  exists k, r, c', s', T', l'. split; [exact R|]. split; [exact V|exact H].
Defined.

Lemma uvmunmap_correct_witness :
  exists c' s', uvmunmap (pg 8) 0 1 true (ctx0, vm_s1) = Ret tt (c', s') /\
    vinv (pg 8) s' vm_T1 [pg 5; pg 1] /\ pte_at (k_mem s') vm_T1 0 = None.
Proof.
  destruct (@uvmunmap_correct vm_layout vm_layout_ok [mkpte (pg 5) UPERM] (pg 8) vm_T1 0 true ctx0 vm_s1 vm_l1
    vm_vinv1 cpu0_ok ltac:(done) ltac:(done) ltac:(by vm_compute) vm_ptes1
    ltac:(by constructor) (fun _ => vm_releasable1)) as (c' & s' & R & _ & V & L).
  exists c', s'. split; [exact R|]. split; [exact V|]. rewrite L by (split; by vm_compute). reflexivity.
Defined.

Lemma copyout_correct_witness :
  exists r s', copyout (pg 8) 100 [1; 2; 3] (ctx0, vm_s1) = Ret r (ctx0, s') /\
    (r = 0 -> uread (k_mem s') vm_T1 101 = Some 2).
Proof.
  destruct (@copyout_correct vm_layout vm_layout_ok (pg 8) vm_T1 100 [1; 2; 3] ctx0 vm_s1 vm_l1
    vm_vinv1 vm_user1 ltac:(done) ltac:(repeat constructor; unfold is_byte; lia)) as (r & s' & R & _ & _ & H).
  exists r, s'. split; [exact R|]. intros ->. destruct H as [(_ & H)|(H & _)]; [|discriminate H].
  rewrite H by lia. reflexivity.
Defined.

Lemma copyin_copyout_witness :
  exists s', copyout (pg 8) 100 [1; 2; 3] (ctx0, vm_s1) = Ret 0 (ctx0, s') /\
    copyin (pg 8) 100 3 (ctx0, s') = Ret ([1; 2; 3], 0) (ctx0, s').
Proof.
  apply (@copyin_copyout vm_layout vm_layout_ok (pg 8) vm_T1 100 [1; 2; 3] ctx0 vm_s1 vm_l1
    vm_vinv1 vm_user1); [lia|repeat constructor; unfold is_byte; lia|].
  cbn [length]. intros va Hva. assert (va = 100 \/ va = 101 \/ va = 102) as [->|[->| ->]] by lia; by vm_compute.
Defined.

Lemma copyinstr_correct_witness :
  exists bs r, copyinstr (pg 8) 100 10 (ctx0, vm_s1) = Ret (bs, r) (ctx0, vm_s1) /\
    str_read (k_mem vm_s1) vm_T1 100 10 bs r.
Proof.
  apply (@copyinstr_correct vm_layout vm_layout_ok (pg 8) vm_T1 100 10 ctx0 vm_s1 vm_l1 vm_vinv1 vm_user1); lia.
Defined.
