(* ===== verification/Uvmcopy.v ===== *)
(** * Copying an address space (kernel/vm.c, uvmcopy())

    What fork() relies on.  Two page tables live in the same memory: the
    parent's, which is only read, and the child's, which is built.  The
    parent's table pages and data pages, and the pages copied so far, are pages
    that neither the child's tables nor the free list own, so no later step
    changes them ([kept], [same_pages]). *)

From stdpp Require Import base numbers list list_numbers gmap strings.
From Stdlib Require Import ZArith Lia.
From S2P Require Import Prelude.
From S2P Require Import Machine.
From S2P Require Import Spinlock.
From S2P Require Import Mem.
From S2P Require Import Kalloc.
From S2P Require Import Vm.
From S2P Require Import VmSpec.
From S2P Require Import Uvm.

Local Open Scope Z_scope.

Section Copy.
Context {LY : Layout} {LO : LayoutOk}.

(** ** Pages nobody else owns *)

Definition kept (P : Z -> Prop) (T : ptree) (l : list Z) : Prop :=
  forall q, P q -> page_ok q /\ ~ in_tree T q /\ q ∉ l.

Definition same_pages (P : Z -> Prop) (m m' : mem) : Prop :=
  forall q x, P q -> q <= x < q + PGSIZE -> bget m' x = bget m x.

Lemma same_pages_trans P m1 m2 m3 : same_pages P m1 m2 -> same_pages P m2 m3 -> same_pages P m1 m3.
Proof. intros H1 H2 q x Hq Hx. rewrite (H2 q), (H1 q); done. Qed.

Lemma same_pages_sub (P Q : Z -> Prop) m m' : (forall q, Q q -> P q) -> same_pages P m m' -> same_pages Q m m'.
Proof. intros H S q x Hq. by apply S, H. Qed.

Lemma off_page_same (P : Z -> Prop) T l p m m' :
  kept P T l -> page_ok p -> ~ P p -> (forall x, off_page p x -> bget m' x = bget m x) -> same_pages P m m'.
Proof.
  intros K Hp Hn H q x Hq Hx. apply H. apply (pages_apart p q); [done|by apply K| |done]. by intros ->.
Qed.

Lemma off_page_tree root T p m m' :
  tree_wf root T -> page_ok p -> ~ in_tree T p -> (forall x, off_page p x -> bget m' x = bget m x) -> tree_same T m m'.
Proof.
  intros W Hp Hn H q x [b Hb] Hx. apply H. apply (pages_apart p q); [done|by eapply tw_page| |done].
  intros ->. apply Hn. by exists b.
Qed.

Lemma grow_keeps P root s T l s' T' l' :
  vinv root s' T' l' -> grow s T l s' T' l' -> kept P T l -> kept P T' l' /\ same_pages P (k_mem s) (k_mem s').
Proof.
  intros V G K.
  assert (K' : kept P T' l').
  { intros q Hq. destruct (K q Hq) as (H1 & H2 & H3). split_and!; [done| |].
    - intros Hin. destruct (g_new _ _ _ _ _ _ G q Hin) as [H|[H _]]; by auto.
    - intros Hin. by apply H3, (g_free _ _ _ _ _ _ G). }
  split; [done|]. intros q x Hq Hx. apply (g_mem _ _ _ _ _ _ G). intros p [b Hb].
  apply (pages_apart p q); [by eapply tw_page; [apply V|]|by apply K| |done].
  destruct (K' q Hq) as (_ & Hn & _). intros ->. apply Hn. by exists b.
Qed.

Lemma untouched_keeps P root T l ws m m' :
  tree_wf root T -> kept P T l -> (forall w, w ∈ ws -> page_ok (PTE2PA w) /\ ~ P (PTE2PA w)) ->
  untouched T ws m m' -> same_pages P m m'.
Proof.
  intros W K Hw U q x Hq Hx. destruct (K q Hq) as (Hp & Hn & _). apply U.
  - intros p [b Hb]. apply (pages_apart p q); [by eapply tw_page|done| |done]. intros ->. apply Hn. by exists b.
  - intros w Hin. destruct (Hw w Hin) as [H1 H2]. apply (pages_apart (PTE2PA w) q); [done..| |done]. by intros <-.
Qed.

(** ** Taking a page and filling it *)

Lemma vinv_kalloc root s T p l c :
  vinv root s T (p :: l) -> cpu_ok (cx_cpu c) ->
  exists s', kalloc (c, s) = Ret p (settled c, s') /\ vinv root s' T l /\ page_ok p /\ ~ in_tree T p /\ (p ∉ l) /\
    (forall x, off_page p x -> bget (k_mem s') x = bget (k_mem s) x).
Proof.
  intros [VK VW VA VS] Hok. destruct (kalloc_some c s p l Hok VK) as (s' & R & K' & Ho & _).
  destruct (kinv_head _ _ _ VK) as (_ & Hp & Hpl). assert (Hn : ~ in_tree T p) by (intros H; apply (VS p H); left).
  exists s'. split_and!; [done| |done..]. split; [done|done| |].
  - eapply tree_same_at; [|done]. by eapply off_page_tree.
  - intros q Hq Hin. apply (VS q Hq). by right.
Qed.

Definition page_is (m m' : mem) (p pa : Z) : Prop := forall o, 0 <= o < PGSIZE -> bget m' (p + o) = bget m (pa + o).

Lemma kalloc_copy P root s T p l pa c :
  vinv root s T (p :: l) -> cpu_ok (cx_cpu c) -> kept P T (p :: l) -> P pa ->
  exists s1, kalloc (c, s) = Ret p (settled c, s1) /\
    let s2 := with_mem s1 (memmove (k_mem s1) p pa (Z.to_nat PGSIZE)) in
    vinv root s2 T l /\ kept P T l /\ same_pages P (k_mem s) (k_mem s2) /\ tree_same T (k_mem s) (k_mem s2) /\
    page_is (k_mem s) (k_mem s2) p pa /\ page_ok p /\ ~ in_tree T p /\ (p ∉ l) /\ ~ P p.
Proof.
  intros V Hok K Hpa. destruct (vinv_kalloc root s T p l c V Hok) as (s1 & R & V1 & Hp & Hn & Hpl & Ho).
  assert (HnP : ~ P p) by (intros H; destruct (K p H) as (_ & _ & Hl); apply Hl; left). exists s1. split; [done|]. cbn zeta.
  set (m2 := memmove _ _ _ _). assert (Hget : forall x, bget m2 x = if (p <=? x) && (x <? p + PGSIZE) then bget (k_mem s1) (pa + (x - p)) else bget (k_mem s1) x).
  { intros x. unfold m2. by rewrite memmove_get. }
  assert (Ho2 : forall x, off_page p x -> bget m2 x = bget (k_mem s1) x).
  { intros x [Hx|Hx]; rewrite Hget; [rewrite (proj2 (Z.leb_gt _ _)) by lia; done|].
    rewrite (proj2 (Z.ltb_ge _ _)) by lia. by rewrite andb_false_r. }
  assert (Hm : mem_ok m2) by (apply memmove_ok, V1).
  destruct (page_write root s1 T l p m2 V1 Hp Hn Hpl Hm Ho2) as [S2 V2].
  assert (K1 : kept P T l).
  { intros q Hq. destruct (K q Hq) as (? & ? & Hl). split_and!; [done..|]. intros Hin. apply Hl. by right. }
  split_and!; [done|done| | | |done..]; cbn [with_mem k_mem].
  - eapply same_pages_trans; by eapply (off_page_same P T l p).
  - eapply tree_same_trans; [|done]. eapply off_page_tree; [apply V1|done..].
  - intros o Ho'. rewrite Hget, (proj2 (Z.leb_le _ _)), (proj2 (Z.ltb_lt _ _)) by lia. cbn [andb].
    replace (pa + (p + o - p)) with (pa + o) by lia. apply Ho. apply (pages_apart p pa); [done|by apply K| |lia]. by intros ->.
Qed.

(** ** Mapping one page *)

Lemma page_rounds i : PGROUNDDOWN (i * PGSIZE) = i * PGSIZE /\ npages (i * PGSIZE) PGSIZE = 1%nat.
Proof.
  assert (E : forall o, 0 <= o < PGSIZE -> PGROUNDDOWN (i * PGSIZE + o) = i * PGSIZE).
  { intros o Ho. rewrite PGROUNDDOWN_div, Z.div_add_l, (Z.div_small o) by (done || lia). lia. }
  assert (E0 : PGROUNDDOWN (i * PGSIZE) = i * PGSIZE) by (rewrite <- (Z.add_0_r (i * PGSIZE)) at 1; by apply E).
  split; [done|]. unfold npages. rewrite E0. replace (i * PGSIZE + PGSIZE - 1) with (i * PGSIZE + (PGSIZE - 1)) by lia.
  rewrite E by (unfold PGSIZE; lia). by rewrite Z.sub_diag.
Qed.

Lemma mapped_one i pa perm va o :
  mapped (i * PGSIZE) pa perm 1 va o = if va / PGSIZE =? i then Some (mkpte pa perm) else o.
Proof.
  unfold mapped, PGSIZE. pose proof (Z.div_mod va 4096). pose proof (Z.mod_pos_bound va 4096).
  destruct (Z.leb_spec (i * 4096) va), (Z.ltb_spec va (i * 4096 + Z.of_nat 1 * 4096)), (Z.eqb_spec (va / 4096) i); simpl; try lia; try done.
  rewrite Z.div_small by lia. by rewrite Z.add_0_r.
Qed.

Lemma page_below p : page_ok p -> p + PGSIZE <= 2 ^ 56.
Proof. intros H%page_ok_pos. unfold PHYSTOP, KERNBASE, PGSIZE in *. lia. Qed.

Lemma map_one root T i pa perm c s l :
  vinv root s T l -> cpu_ok (cx_cpu c) -> 0 <= i -> (i + 1) * PGSIZE <= MAXVA -> pa_ok pa -> pa + PGSIZE <= 2 ^ 56 -> 0 <= perm < 1024 ->
  (forall va, i * PGSIZE <= va < (i + 1) * PGSIZE -> pte_at (k_mem s) T va = None) ->
  exists r c' s' T' l',
    mappages root (i * PGSIZE) PGSIZE pa perm (c, s) = Ret r (c', s') /\ calm c c' /\ vinv root s' T' l' /\ grow s T l s' T' l' /\ (size T' <= size T + 2)%nat /\
    (r = 0 /\ (forall va, 0 <= va < MAXVA -> pte_at (k_mem s') T' va =
                 if va / PGSIZE =? i then Some (mkpte pa perm) else pte_at (k_mem s) T va) \/
     r = -1 /\ l' = [] /\ (forall va, 0 <= va < MAXVA -> pte_at (k_mem s') T' va = pte_at (k_mem s) T va)).
Proof.
  intros V Hok Hi Hmax Hp Hpm Hperm Hnone. destruct (page_rounds i) as [E1 E2].
  destruct (mappages_run root T (i * PGSIZE) PGSIZE pa perm c s l) as (k & r & c' & s' & T' & l' & R & Hc & (V' & G & Hs & L) & Hr);
    rewrite ?E1, ?E2; [done|done|unfold PGSIZE; lia|done|lia|done|lia|done| |].
  { intros va Hva. apply Hnone. unfold PGSIZE in *. lia. }
  rewrite E1 in L. rewrite E2 in Hs, Hr. exists r, c', s', T', l'. split_and!; [done..|].
  destruct Hr as [[-> ->]|(-> & Hk & ->)]; [left|right].
  - split; [done|]. intros va Hva. by rewrite L, mapped_one.
  - split_and!; [done..|]. intros va Hva. rewrite L by done. replace k with 0%nat by lia. apply mapped_0.
Qed.

(** ** Flags *)

Lemma PTE_FLAGS_range v : 0 <= PTE_FLAGS v < 1024.
Proof. unfold PTE_FLAGS. change 0x3FF with (Z.ones 10). rewrite Z.land_ones by lia. apply Z.mod_pos_bound. lia. Qed.

Lemma PTE_FLAGS_has v k : 0 <= k < 10 -> has (PTE_FLAGS v) (Z.shiftl 1 k) = has v (Z.shiftl 1 k).
Proof.
  intros H. rewrite !has_bit by lia. unfold PTE_FLAGS. change 0x3FF with (Z.ones 10).
  rewrite Z.land_spec, Z.testbit_ones_nonneg by lia. rewrite (proj2 (Z.ltb_lt k 10)) by lia. apply andb_true_r.
Qed.

Lemma flags_valid v : has v PTE_V = true -> Z.lor (PTE_FLAGS v) PTE_V = PTE_FLAGS v.
Proof.
  unfold PTE_V. intros H. rewrite <- (PTE_FLAGS_has v 0) in H by lia. rewrite has_bit in H by lia.
  apply Z.bits_inj'. intros i Hi. rewrite Z.lor_spec. change (Z.shiftl 1 0) with 1.
  destruct (Z.eqb_spec i 0) as [->|Hne]; [by rewrite H|]. rewrite (testbit_high 1 1 i) by lia. apply orb_false_r.
Qed.

(** ** The pages copied so far *)

(** A page of the parent: of its table or of its memory. *)
Definition parent_page (TO : ptree) (vs : list Z) (q : Z) : Prop := in_tree TO q \/ q ∈ PTE2PA <$> vs.

(** [P] are pages in use, the parent's among them; [hi] is what the child maps above the copied memory;
    [L0] are the pages that were free or tables of the child. *)
Section Loop.
Context (old new : Z) (TO : ptree) (vs : list Z) (P : Z -> Prop) (hi : Z -> option Z) (m0 : mem) (L0 : Z -> Prop).
Context (HO : tree_wf old TO) (HA : tree_at m0 TO) (HV : ptes_from m0 TO 0 vs).
Context (HF : Forall (fun v => PTE_FLAGS v <> PTE_V) vs) (HM : Z.of_nat (length vs) * PGSIZE <= MAXVA).
Context (HP : forall q, parent_page TO vs q -> P q).

Definition taken (ws : list Z) (q : Z) : Prop := P q \/ q ∈ PTE2PA <$> ws.

Definition is_copy (m : mem) (v w : Z) : Prop :=
  PTE_FLAGS w = PTE_FLAGS v /\ page_is m0 m (PTE2PA w) (PTE2PA v).

(** The child's table [T] has the PTEs [ws] for the first pages, and none after. *)
Record copied (s : kst) (T : ptree) (l ws : list Z) : Prop := {
  cp_vinv : vinv new s T l;
  cp_kept : kept (taken ws) T l;
  cp_same : same_pages P m0 (k_mem s);
  cp_nodup : NoDup (PTE2PA <$> ws);
  cp_apart : forall w, w ∈ ws -> ~ P (PTE2PA w);
  cp_ptes : forall va, 0 <= va < Z.of_nat (length vs) * PGSIZE -> pte_at (k_mem s) T va = ws !! Z.to_nat (va / PGSIZE);
  cp_copy : forall i v w, vs !! i = Some v -> ws !! i = Some w -> is_copy (k_mem s) v w;
  cp_len : (length ws <= length vs)%nat;
  cp_acc : forall p, L0 p -> p ∈ l \/ in_tree T p \/ p ∈ PTE2PA <$> ws;
  cp_dom : tree_dom T;
  cp_high : forall va, Z.of_nat (length vs) * PGSIZE <= va < MAXVA -> pte_at (k_mem s) T va = hi va
}.

Lemma page_is_same Q m m' p pa : same_pages Q m m' -> Q p -> page_is m0 m p pa -> page_is m0 m' p pa.
Proof. intros S Hp H o Ho. rewrite <- H by done. apply (S p); [done|lia]. Qed.

(** A step that leaves the pages taken alone, and the child's PTEs. *)
Lemma copied_frame s T l ws s' T' l' :
  copied s T l ws -> vinv new s' T' l' -> kept (taken ws) T' l' -> same_pages (taken ws) (k_mem s) (k_mem s') ->
  (forall va, 0 <= va < MAXVA -> pte_at (k_mem s') T' va = pte_at (k_mem s) T va) ->
  (forall p, in_tree T p -> in_tree T' p) -> (tree_dom T -> tree_dom T') -> (forall p, p ∈ l -> p ∈ l' \/ in_tree T' p) -> copied s' T' l' ws.
Proof.
  intros [C1 C2 C3 C4 C5 C6 C7 C8 C9 C10 C11] V K S L HT HD Hl. split; [done|done| |done|done| | |done| |by apply HD|].
  - eapply same_pages_trans; [done|]. eapply same_pages_sub; [|done]. by left.
  - intros va Hva. rewrite L by lia. by apply C6.
  - intros i v w Hv Hw. destruct (C7 i v w Hv Hw) as [H1 H2]. split; [done|].
    eapply page_is_same; [done| |done]. right. by eapply list_elem_of_fmap_2, list_elem_of_lookup_2.
  - intros p Hp. destruct (C9 p Hp) as [H|[H|H]]; [|auto|auto]. destruct (Hl p H); auto.
  - intros va Hva. rewrite L by (unfold PGSIZE in *; lia). by apply C11.
Qed.

(** A step that also maps one more page. *)
Lemma copied_snoc s T l ws v p s' T' l' :
  copied s T (p :: l) ws -> vs !! length ws = Some v -> has v PTE_V = true ->
  vinv new s' T' l' -> kept (taken ws) T' l' -> same_pages (taken ws) (k_mem s) (k_mem s') ->
  page_ok p -> ~ in_tree T' p -> p ∉ l' -> ~ taken ws p -> page_is m0 (k_mem s') p (PTE2PA v) ->
  (forall va, 0 <= va < MAXVA -> pte_at (k_mem s') T' va =
     if va / PGSIZE =? Z.of_nat (length ws) then Some (mkpte p (PTE_FLAGS v)) else pte_at (k_mem s) T va) ->
  (forall q, in_tree T q -> in_tree T' q) -> (tree_dom T -> tree_dom T') -> (forall q, q ∈ l -> q ∈ l' \/ in_tree T' q) ->
  copied s' T' l' (ws ++ [mkpte p (PTE_FLAGS v)]).
Proof.
  intros [C1 C2 C3 C4 C5 C6 C7 C8 C9 C10 C11] Hv Hval V K S Hp Hnt Hnl Htk Hpg L HT HD Hl.
  pose proof (page_pa p Hp) as Hpa. pose proof (PTE_FLAGS_range v) as Hfl.
  assert (Epa : PTE2PA (mkpte p (PTE_FLAGS v)) = p) by (by apply PTE2PA_mkpte).
  assert (Htake : forall q, taken (ws ++ [mkpte p (PTE_FLAGS v)]) q -> taken ws q \/ q = p).
  { intros q [H|H]; [by left; left|]. rewrite fmap_app, elem_of_app in H. destruct H as [H|H]; [by left; right|right].
    apply list_elem_of_singleton in H. by rewrite H. }
  split.
  - done.
  - intros q Hq. destruct (Htake q Hq) as [H| ->]; [by apply K|done].
  - eapply same_pages_trans; [done|]. eapply same_pages_sub; [|done]. by left.
  - rewrite fmap_app. apply NoDup_app. split_and!; [done| |by apply NoDup_singleton].
    intros q Hq Hin. apply list_elem_of_singleton in Hin as ->. apply Htk. right. cbn in Hq. by rewrite Epa in Hq.
  - intros w Hw. apply elem_of_app in Hw as [Hw|Hw]; [by apply C5|]. apply list_elem_of_singleton in Hw as ->.
    rewrite Epa. intros H. apply Htk. by left.
  - intros va Hva. rewrite L by lia. pose proof (Z.div_pos va PGSIZE ltac:(lia) ltac:(done)).
    destruct (Z.eqb_spec (va / PGSIZE) (Z.of_nat (length ws))) as [->|Hne].
    + rewrite Nat2Z.id, lookup_app_r, Nat.sub_diag by lia. done.
    + rewrite C6 by done. destruct (decide (Z.to_nat (va / PGSIZE) < length ws)%nat).
      * by rewrite lookup_app_l.
      * rewrite !lookup_ge_None_2; [done|rewrite length_app; simpl; lia|lia].
  - intros i v' w Hv' Hw. apply lookup_app_Some in Hw as [Hw|[Hi Hw]].
    + destruct (C7 i v' w Hv' Hw) as [H1 H2]. split; [done|].
      eapply page_is_same; [done| |done]. right. by eapply list_elem_of_fmap_2, list_elem_of_lookup_2.
    + apply list_lookup_singleton_Some in Hw as [Hi' <-]. replace i with (length ws) in Hv' by lia. simplify_eq.
      split; [|by rewrite Epa]. rewrite mkpte_flags by done. by apply flags_valid.
  - rewrite length_app. simpl. apply lookup_lt_Some in Hv. lia.
  - intros q Hq. rewrite fmap_app, elem_of_app. destruct (C9 q Hq) as [H|[H|H]]; [|auto|auto].
    apply elem_of_cons in H as [->|H]; [right; right; right|destruct (Hl q H); auto].
    apply list_elem_of_singleton. by rewrite Epa.
  - by apply HD.
  - intros va Hva. rewrite L by (unfold PGSIZE in *; lia). apply lookup_lt_Some in Hv.
    pose proof (Z.div_le_lower_bound va PGSIZE (Z.of_nat (length vs)) ltac:(done)). rewrite (proj2 (Z.eqb_neq _ _)) by lia. by apply C11.
Qed.

(** ** The [err:] exit *)

(** What a failed uvmcopy() leaves: the child maps none of the pages, and the pages that were
    free are free again or tables of the child. *)
Definition undone (s : kst) (T : ptree) (l : list Z) : Prop :=
  vinv new s T l /\ same_pages P m0 (k_mem s) /\ kept P T l /\ tree_dom T /\
  (forall va, 0 <= va < MAXVA -> pte_at (k_mem s) T va = if va <? Z.of_nat (length vs) * PGSIZE then None else hi va) /\
  (forall p, L0 p -> p ∈ l \/ in_tree T p) /\ (length l <= length vs)%nat.

Lemma copied_from s T l ws : copied s T l ws -> ptes_from (k_mem s) T 0 ws.
Proof.
  intros C i w Hw. pose proof (lookup_lt_Some _ _ _ Hw). pose proof (cp_len _ _ _ _ C).
  rewrite (cp_ptes _ _ _ _ C) by (unfold PGSIZE in *; lia). rewrite Z.add_0_l, Z.div_mul by done. by rewrite Nat2Z.id.
Qed.

Lemma copied_flags s T l ws : copied s T l ws -> Forall (fun w => PTE_FLAGS w <> PTE_V) ws.
Proof.
  intros C. apply Forall_lookup. intros i w Hw. pose proof (lookup_lt_Some _ _ _ Hw). pose proof (cp_len _ _ _ _ C).
  destruct (lookup_lt_is_Some_2 vs i) as [v Hv]; [lia|]. destruct (cp_copy _ _ _ _ C i v w Hv Hw) as [-> _].
  by eapply Forall_lookup_1 in HF.
Qed.

Lemma copied_releasable s T l ws : copied s T l ws -> releasable T ws l.
Proof.
  intros C. split; [apply C|]. intros w Hw. apply (cp_kept _ _ _ _ C). right. by apply list_elem_of_fmap_2.
Qed.

Lemma copy_err s T l ws c :
  copied s T l ws -> cpu_ok (cx_cpu c) -> (length l + length ws <= length vs)%nat ->
  exists c' s', (uvmunmap new 0 (Z.of_nat (length ws) * PGSIZE / PGSIZE) true ;; mret (-1)) (c, s) = Ret (-1) (c', s') /\
    calm c c' /\ undone s' T (freed true ws l).
Proof.
  intros C Hok Hl. pose proof (cp_len _ _ _ _ C) as Hlen.
  destruct (uvmunmap_run ws new T 0 true c s l) as (c' & s' & R & Hc & V & U & L);
    [apply C|done|done|done|unfold PGSIZE in *; lia|by eapply copied_from|by eapply copied_flags|intros _; by eapply copied_releasable|].
  rewrite Z.div_mul by done. rewrite (bind_ret _ _ _ _ _ R). exists c', s'. split_and!; [done|done|]. split_and!; [done| | |apply C| | |].
  - eapply same_pages_trans; [apply C|]. eapply (untouched_keeps _ new T l ws); [apply C| | |done].
    + intros q Hq. apply (cp_kept _ _ _ _ C). by left.
    + intros w Hw. split; [|by apply (cp_apart _ _ _ _ C)]. by apply (copied_releasable s T l ws C).
  - intros q Hq. destruct (cp_kept _ _ _ _ C q) as (H1 & H2 & H3); [by left|]. split_and!; [done..|].
    unfold freed. rewrite elem_of_app, elem_of_reverse. intros [(w & -> & Hw)%list_elem_of_fmap|H]; [by apply (cp_apart _ _ _ _ C w)|done].
  - intros va Hva. rewrite L by lia. unfold unmapped. rewrite (proj2 (Z.leb_le 0 va)) by lia. cbn [andb].
    destruct (Z.ltb_spec va (Z.of_nat (length vs) * PGSIZE)) as [Hv|Hv].
    2: { rewrite (proj2 (Z.ltb_ge _ _)) by (unfold PGSIZE in *; lia). apply (cp_high _ _ _ _ C). lia. }
    destruct (Z.ltb_spec va (0 + Z.of_nat (length ws) * PGSIZE)); [done|]. rewrite (cp_ptes _ _ _ _ C) by lia.
    apply lookup_ge_None_2. pose proof (Z.div_le_lower_bound va PGSIZE (Z.of_nat (length ws)) ltac:(done)). lia.
  - intros p Hp. unfold freed. rewrite elem_of_app, elem_of_reverse. destruct (cp_acc _ _ _ _ C p Hp) as [H|[H|H]]; auto.
  - unfold freed. rewrite length_app, length_reverse, length_fmap. lia.
Qed.

(** ** One round *)

Lemma parent_same s T l ws : copied s T l ws -> tree_same TO m0 (k_mem s).
Proof. intros C q x Hq. apply (cp_same _ _ _ _ C), HP. by left. Qed.

Lemma read_parent s T l ws v c {A} (k : Z -> K kst A) :
  copied s T l ws -> vs !! length ws = Some v ->
  has v PTE_V = true /\
  (pte ← walk old (Z.of_nat (length ws) * PGSIZE) false;
   if pte =? 0 then panic "uvmcopy: pte should exist" else
   v ← rd64 pte; if Z.land v PTE_V =? 0 then panic "uvmcopy: page not present" else k v) (c, s) = k v (c, s).
Proof.
  intros C Hv. pose proof (parent_same _ _ _ _ C) as HS. pose proof (lookup_lt_Some _ _ _ Hv).
  pose proof (HV _ _ Hv) as Hpte. rewrite Z.add_0_l, <- (tree_same_look TO m0 (k_mem s)) in Hpte by done.
  destruct (pte_in_leaf _ _ _ _ Hpte) as (r & Hr & Hld & Hval). split; [done|].
  rewrite (bind_ret _ _ _ _ _ (walk_look old TO (Z.of_nat (length ws) * PGSIZE) c s HO (tree_same_at _ _ _ HS HA) ltac:(unfold PGSIZE in *; lia))), Hr.
  cbn [from_option id]. rewrite (proj2 (Z.eqb_neq r 0)) by (by eapply leaf_nz). rewrite rd64_bind, Hld.
  assert (E : (Z.land v PTE_V =? 0) = false) by (by apply negb_true_iff). by rewrite E.
Qed.

(** A page that could not be mapped goes back to the free list. *)
Lemma copied_kfree s T l ws p s3 T3 c :
  copied s T (p :: l) ws -> vinv new s3 T3 [] -> cpu_ok (cx_cpu c) -> page_ok p -> ~ in_tree T3 p -> ~ taken ws p ->
  kept (taken ws) T3 [] -> same_pages (taken ws) (k_mem s) (k_mem s3) ->
  (forall va, 0 <= va < MAXVA -> pte_at (k_mem s3) T3 va = pte_at (k_mem s) T va) ->
  (forall q, in_tree T q -> in_tree T3 q) -> (tree_dom T -> tree_dom T3) -> (forall q, q ∈ l -> in_tree T3 q) ->
  exists s4, kfree p (c, s3) = Ret tt (settled c, s4) /\ copied s4 T3 [p] ws.
Proof.
  intros C V3 Hok Hp Hnt Htk K3 S3 L3 Hsub HD Hl.
  destruct (vinv_kfree new s3 T3 [] p c V3 Hok Hp Hnt (not_elem_of_nil p)) as (s4 & R4 & V4 & S4 & O4).
  exists s4. split; [done|]. apply (copied_frame s T (p :: l) ws); [done|done| | | |done|done|].
  - intros q Hq. destruct (K3 q Hq) as (? & ? & _). split_and!; [done..|]. by intros ->%list_elem_of_singleton.
  - eapply same_pages_trans; [done|]. by eapply (off_page_same _ T3 []).
  - intros va Hva. by rewrite (tree_same_look T3 (k_mem s3)), L3.
  - intros q [->|Hq]%elem_of_cons; [left; by left|right; by apply Hl].
Qed.

Lemma uvmcopy_round fuel sz s T l ws v c :
  copied s T l ws -> vs !! length ws = Some v -> cpu_ok (cx_cpu c) -> Z.of_nat (length ws) * PGSIZE < sz ->
  exists c' s' T' l', calm c c' /\ (size T' <= size T + 2)%nat /\
    (let r := uvmcopy_loop (S fuel) old new (Z.of_nat (length ws) * PGSIZE) sz (c, s) in
     (exists w, r = uvmcopy_loop fuel old new (Z.of_nat (length (ws ++ [w])) * PGSIZE) sz (c', s') /\ copied s' T' l' (ws ++ [w])) \/
     (r = Ret (-1) (c', s') /\ undone s' T' l')).
Proof.
  intros C Hv Hok Hsz. pose proof (lookup_lt_Some _ _ _ Hv) as Hlt. cbn [uvmcopy_loop]. rewrite (proj2 (Z.ltb_lt _ _) Hsz). cbn [negb].
  assert (Hval : has v PTE_V = true) by exact (proj1 (read_parent s T l ws v c mret C Hv)).
  cbv zeta. rewrite (proj2 (read_parent s T l ws v c _ C Hv)).
  destruct l as [|p l].
  { rewrite (bind_ret _ _ _ _ _ (kalloc_empty c s Hok (v_kinv _ _ _ _ (cp_vinv _ _ _ _ C)))). cbn [Z.eqb].
    destruct (copy_err s T [] ws (settled c) C (settled_ok _ Hok)) as (c' & s' & R & Hc & U); [simpl; lia|].
    exists c', s', T, (freed true ws []). split_and!; [eapply calm_trans; [apply calm_settled|done]|lia|]. by right. }
  assert (Hpar : taken ws (PTE2PA v)) by (left; apply HP; right; by eapply list_elem_of_fmap_2, list_elem_of_lookup_2).
  destruct (kalloc_copy (taken ws) new s T p l (PTE2PA v) c (cp_vinv _ _ _ _ C) Hok (cp_kept _ _ _ _ C) Hpar)
    as (s1 & R1 & V2 & K2 & S2 & TS2 & Pg & Hp & Hnt & Hnl & Htk).
  rewrite (bind_ret _ _ _ _ _ R1), (proj2 (Z.eqb_neq p 0)), upd_mem_bind by (pose proof (page_ok_pos p Hp); lia).
  set (s2 := with_mem _ _) in *.
  destruct (map_one new T (Z.of_nat (length ws)) p (PTE_FLAGS v) (settled c) s2 l V2 (settled_ok _ Hok))
    as (r & c3 & s3 & T3 & l3 & R3 & Hc3 & V3 & G3 & Hs3 & Hr); [lia|unfold PGSIZE in *; lia|by apply page_pa|by apply page_below|apply PTE_FLAGS_range| |].
  { intros va Hva. assert (Hd : va / PGSIZE = Z.of_nat (length ws)).
    { symmetry. apply (Z.div_unique va PGSIZE _ (va - Z.of_nat (length ws) * PGSIZE)); unfold PGSIZE in *; lia. }
    rewrite (tree_same_look T (k_mem s)) by done. rewrite (cp_ptes _ _ _ _ C), Hd, Nat2Z.id by (unfold PGSIZE in *; lia).
    by apply lookup_ge_None_2. }
  rewrite (bind_ret _ _ _ _ _ R3). set (P' := fun q => taken ws q \/ q = p).
  destruct (grow_keeps P' new s2 T l s3 T3 l3 V3 G3) as [K3 S3]; [by intros q [H| ->]; [apply K2|]|].
  assert (HP' : forall q, taken ws q -> P' q) by (by left). destruct (K3 p) as (_ & Hnt3 & Hnl3); [by right|].
  assert (K3' : kept (taken ws) T3 l3) by (intros q Hq; by apply K3, HP').
  assert (S3' : same_pages (taken ws) (k_mem s) (k_mem s3)) by (eapply same_pages_trans; [done|by eapply same_pages_sub]).
  assert (Hsub : forall q, in_tree T q -> in_tree T3 q) by (intros q; apply in_tree_sub, G3).
  assert (Hc : calm c c3) by (eapply calm_trans; [apply calm_settled|done]).
  destruct Hr as [[-> L3]|(-> & -> & L3)]; cbn [Z.eqb negb].
  - exists c3, s3, T3, l3. split_and!; [done|done|]. left. exists (mkpte p (PTE_FLAGS v)). split.
    + f_equal. rewrite length_app. simpl. rewrite u64_small by (rewrite MAXVA_eq in HM; unfold PGSIZE in *; lia). lia.
    + eapply (copied_snoc s T l ws v p); try done; [|intros va Hva; by rewrite L3, (tree_same_look T (k_mem s))|apply G3|apply G3].
      intros o Ho. rewrite (S3 p), Pg by (done || lia || by right). apply (cp_same _ _ _ _ C (PTE2PA v)); [|lia].
      apply HP. right. by eapply list_elem_of_fmap_2, list_elem_of_lookup_2.
  - destruct (copied_kfree s T l ws p s3 T3 c3) as (s4 & R4 & C4); [done|done|by eapply calm_ok|done..| |done|apply G3| |].
    { intros va Hva. by rewrite L3, (tree_same_look T (k_mem s)). }
    { intros q Hq. by destruct (g_kept _ _ _ _ _ _ G3 q Hq) as [?%elem_of_nil|]. }
    rewrite (bind_ret _ _ _ _ _ R4).
    destruct (copy_err s4 T3 [p] ws (settled c3) C4) as (c' & s' & R & Hc' & U); [by eapply settled_ok, calm_ok|simpl; lia|].
    exists c', s', T3, (freed true ws [p]). split_and!; [|done|by right]. eapply calm_trans; [done|]. eapply calm_trans; [apply calm_settled|done].
Qed.

Lemma uvmcopy_loop_run k sz s T l ws c :
  copied s T l ws -> cpu_ok (cx_cpu c) -> (length ws + k = length vs)%nat -> sz <= Z.of_nat (length vs) * PGSIZE ->
  (forall i, 0 <= i < Z.of_nat (length vs) -> i * PGSIZE < sz) ->
  exists r c' s' T' l', uvmcopy_loop (S k) old new (Z.of_nat (length ws) * PGSIZE) sz (c, s) = Ret r (c', s') /\ calm c c' /\ (size T' <= size T + 2 * k)%nat /\
    (r = 0 /\ (exists ws, length ws = length vs /\ copied s' T' l' ws) \/ r = -1 /\ undone s' T' l').
Proof.
  revert s T l ws c. induction k as [|k IH]; intros s T l ws c C Hok Hk Hsz Hlt.
  - exists 0, c, s, T, l. cbn [uvmcopy_loop]. rewrite (proj2 (Z.ltb_ge _ _)) by (rewrite Nat.add_0_r in Hk; by rewrite Hk).
    split_and!; [done|apply calm_refl|lia|]. left. split; [done|]. exists ws. split; [lia|done].
  - destruct (lookup_lt_is_Some_2 vs (length ws)) as [v Hv]; [lia|].
    destruct (uvmcopy_round (S k) sz s T l ws v c C Hv Hok) as (c1 & s1 & T1 & l1 & Hc & Hs & [(w & E & C1)|(E & U)]); [apply Hlt; lia|..].
    + rewrite E. destruct (IH s1 T1 l1 (ws ++ [w]) c1 C1) as (r & c' & s' & T' & l' & R & Hc' & Hs' & Hr);
        [by eapply calm_ok|rewrite length_app; simpl; lia|done..|].
      exists r, c', s', T', l'. split_and!; [done|by eapply calm_trans|lia|done].
    + exists (-1), c1, s1, T1, l1. split_and!; [done..|lia|]. by right.
Qed.

End Loop.

(** ** Both address spaces *)

(** The memory of a fork: a child's table that maps none of the addresses, and a parent's whose
    pages have the PTEs [vs]; no page in use, the parent's among them, is free or a table of the child. *)
Record fork_ready (P : Z -> Prop) (old new : Z) (s : kst) (TO T : ptree) (vs l : list Z) : Prop := {
  fr_new : vinv new s T l;
  fr_dom : tree_dom T;
  fr_old : tree_wf old TO;
  fr_at : tree_at (k_mem s) TO;
  fr_ptes : ptes_from (k_mem s) TO 0 vs;
  fr_leaf : Forall (fun v => PTE_FLAGS v <> PTE_V) vs;
  fr_apart : kept P T l;
  fr_parent : forall q, parent_page TO vs q -> P q;
  fr_empty : forall va, 0 <= va < Z.of_nat (length vs) * PGSIZE -> pte_at (k_mem s) T va = None
}.

Lemma fork_copied P old new s TO T vs l :
  fork_ready P old new s TO T vs l -> copied new vs P (pte_at (k_mem s) T) (k_mem s) (fun p => p ∈ l \/ in_tree T p) s T l [].
Proof.
  intros [H1 HD H2 H3 H4 H5 H6 _ H7]. split; [done| |done|by apply NoDup_nil| | |done|simpl; lia| |done|done].
  - intros q [Hq|Hq%elem_of_nil]; [by apply H6|done].
  - by intros w ?%elem_of_nil.
  - intros va Hva. by rewrite H7.
  - intros p [?|?]; auto.
Qed.

(** The child reads what the parent reads. *)
Lemma copied_uread P hi old new TO vs m0 L0 s T l ws va :
  Z.of_nat (length vs) * PGSIZE <= MAXVA -> tree_wf old TO -> ptes_from m0 TO 0 vs ->
  copied new vs P hi m0 L0 s T l ws -> length ws = length vs ->
  0 <= va < Z.of_nat (length vs) * PGSIZE -> uread (k_mem s) T va = uread m0 TO va.
Proof.
  intros HM W HV C Hlen Hva. pose proof (Z.div_pos va PGSIZE ltac:(lia) ltac:(done)).
  assert (Hi : va / PGSIZE < Z.of_nat (length vs)) by (apply Z.div_lt_upper_bound; [done|lia]).
  destruct (lookup_lt_is_Some_2 vs (Z.to_nat (va / PGSIZE))) as [v Hv]; [lia|].
  destruct (lookup_lt_is_Some_2 ws (Z.to_nat (va / PGSIZE))) as [w Hw]; [lia|].
  destruct (cp_copy _ _ _ _ _ _ _ _ _ _ C _ v w Hv Hw) as [Hfl Hpg].
  pose proof (Z.mod_pos_bound va PGSIZE ltac:(done)). pose proof (Z.div_mod va PGSIZE ltac:(done)) as Hdm.
  assert (Hpo : pte_at m0 TO va = Some v).
  { rewrite <- (HV _ _ Hv), Z2Nat.id by lia. apply pte_at_page; [lia|unfold PGSIZE in *; lia|].
    apply Z.eqb_eq. by rewrite Z.add_0_l, Z.div_mul. }
  assert (Hu : has w PTE_U = has v PTE_U) by (unfold PTE_U; rewrite <- (PTE_FLAGS_has w 4), <- (PTE_FLAGS_has v 4), Hfl by lia; done).
  unfold uread, uaddr, upage. rewrite (cp_ptes _ _ _ _ _ _ _ _ _ _ C va Hva), Hw, Hpo, (proj2 (Z.ltb_lt va MAXVA)) by lia.
  cbn [negb mbind option_bind]. rewrite Hu. destruct (has v PTE_U); [|done]. simpl. f_equal. by apply Hpg.
Qed.

Lemma round_pages sz n : 0 <= sz -> n = Z.to_nat ((sz + PGSIZE - 1) / PGSIZE) ->
  sz <= Z.of_nat n * PGSIZE /\ forall i, 0 <= i < Z.of_nat n -> i * PGSIZE < sz.
Proof.
  intros Hsz ->. unfold PGSIZE. pose proof (Z.div_pos (sz + 4096 - 1) 4096 ltac:(lia) ltac:(lia)). rewrite Z2Nat.id by lia.
  pose proof (Z.div_mod (sz + 4096 - 1) 4096 ltac:(lia)). pose proof (Z.mod_pos_bound (sz + 4096 - 1) 4096 ltac:(lia)). split; lia.
Qed.

(** What uvmcopy() returned: the memory copied to the pages of the PTEs [ws], or nothing. *)
Inductive copy_end (P : Z -> Prop) (TO T : ptree) (vs l : list Z) (m m' : mem) (T' : ptree) (l' : list Z) : Z -> Prop :=
  | copy_done ws :
      length ws = length vs -> ptes_from m' T' 0 ws -> releasable T' ws l' -> (forall w, w ∈ ws -> ~ P (PTE2PA w)) ->
      (forall i v w, vs !! i = Some v -> ws !! i = Some w -> PTE_FLAGS w = PTE_FLAGS v /\ page_is m m' (PTE2PA w) (PTE2PA v)) ->
      (forall va, 0 <= va < Z.of_nat (length vs) * PGSIZE -> uread m' T' va = uread m TO va) ->
      (forall p, p ∈ l \/ in_tree T p -> p ∈ l' \/ in_tree T' p \/ p ∈ PTE2PA <$> ws) -> copy_end P TO T vs l m m' T' l' 0
  | copy_failed :
      (forall va, 0 <= va < Z.of_nat (length vs) * PGSIZE -> pte_at m' T' va = None) ->
      (forall p, p ∈ l \/ in_tree T p -> p ∈ l' \/ in_tree T' p) -> (length l' <= length vs)%nat -> (size T' <= size T + 2 * length vs)%nat -> copy_end P TO T vs l m m' T' l' (-1).

Lemma uvmcopy_run P old new TO T vs sz c s l :
  fork_ready P old new s TO T vs l -> cpu_ok (cx_cpu c) -> 0 <= sz -> length vs = Z.to_nat ((sz + PGSIZE - 1) / PGSIZE) ->
  Z.of_nat (length vs) * PGSIZE <= MAXVA ->
  exists r c' s' T' l', uvmcopy old new sz (c, s) = Ret r (c', s') /\ calm c c' /\ vinv new s' T' l' /\ tree_dom T' /\
    kept P T' l' /\ same_pages P (k_mem s) (k_mem s') /\
    (forall va, Z.of_nat (length vs) * PGSIZE <= va < MAXVA -> pte_at (k_mem s') T' va = pte_at (k_mem s) T va) /\
    copy_end P TO T vs l (k_mem s) (k_mem s') T' l' r.
Proof.
  intros F Hok Hsz Hn HM. destruct (round_pages sz (length vs) Hsz Hn) as [Hle Hlt]. unfold uvmcopy. rewrite <- Hn.
  destruct (uvmcopy_loop_run old new TO vs P (pte_at (k_mem s) T) (k_mem s) (fun p => p ∈ l \/ in_tree T p) (fr_old _ _ _ _ _ _ _ _ F) (fr_at _ _ _ _ _ _ _ _ F) (fr_ptes _ _ _ _ _ _ _ _ F)
    (fr_leaf _ _ _ _ _ _ _ _ F) HM (fr_parent _ _ _ _ _ _ _ _ F) (length vs) sz s T l [] c (fork_copied _ _ _ _ _ _ _ _ F) Hok eq_refl Hle Hlt)
    as (r & c' & s' & T' & l' & R & Hc & Hs & [(-> & ws & Hlen & C)|(-> & V & S & K & D & N & A & L)]).
  - exists 0, c', s', T', l'. split_and!; [done|done|apply C|apply C| |apply C|apply C|].
    { intros q Hq. apply (cp_kept _ _ _ _ _ _ _ _ _ _ C). by left. }
    apply (copy_done _ _ _ _ _ _ _ _ _ ws); [done|by eapply copied_from|by eapply copied_releasable|apply C|apply C| |apply C].
    intros va Hva. eapply copied_uread; [done|apply F|apply F|done..].
  - exists (-1), c', s', T', l'. split_and!; [done..| |].
    + intros va Hva. rewrite N by (unfold PGSIZE in *; lia). by rewrite (proj2 (Z.ltb_ge _ _)) by lia.
    + apply copy_failed; [|done..]. intros va Hva. rewrite N by lia. by rewrite (proj2 (Z.ltb_lt _ _)) by lia.
Qed.

(** C5: uvmcopy() gives the child a copy of the parent's memory.  On success every page below
    [sz] is mapped, with the parent's flags, to a page of its own that holds the same bytes, so
    the child reads at every address what the parent reads.  When memory runs out it
    returns -1 with none of the pages mapped: the free list holds at most the pages
    that were copied, every page that was free is free or a table of the child, and
    at most two tables were added for each page.
    No page in use, of the parent or of another, is changed or taken; what the child maps above
    [sz] is as before, and its table stays well formed. *)
Theorem uvmcopy_correct P old new TO T vs sz c s l :
  fork_ready P old new s TO T vs l -> cpu_ok (cx_cpu c) -> 0 <= sz -> length vs = Z.to_nat ((sz + PGSIZE - 1) / PGSIZE) ->
  Z.of_nat (length vs) * PGSIZE <= MAXVA ->
  exists r c' s' T' l', uvmcopy old new sz (c, s) = Ret r (c', s') /\ calm c c' /\ vinv new s' T' l' /\ tree_dom T' /\
    kept P T' l' /\ same_pages P (k_mem s) (k_mem s') /\
    (forall va, Z.of_nat (length vs) * PGSIZE <= va < MAXVA -> pte_at (k_mem s') T' va = pte_at (k_mem s) T va) /\
    copy_end P TO T vs l (k_mem s) (k_mem s') T' l' r.
Proof. apply uvmcopy_run. Qed.

End Copy.

(** ** A concrete fork

    The parent's table is the one of [Uvm.vm_T1]: three table pages and one user page.  The
    child has an empty root, and three pages are free. *)

#[local] Instance cp_lay : Layout := vm_layout.

Definition cp_s : kst :=
  Kst (st64 (st64 (k_mem vm_s1) (pg 3) (pg 2)) (pg 2) (pg 1)) (Spinlock false "kmem" None) (pg 3).
Definition cp_T : ptree := {[ [] := pg 4 ]}.
Definition cp_l : list Z := [pg 3; pg 2; pg 1].
Definition cp_vs : list Z := [mkpte (pg 5) UPERM].
Definition cp_ctx : ctx := Ctx (Cpu 0 None 0 false true) [] 0.

Lemma cp_in p : in_tree cp_T p -> p = pg 4.
Proof. intros [path Hp]. unfold cp_T in Hp. by apply lookup_singleton_Some in Hp as [_ <-]. Qed.

Lemma cp_vinv0 : vinv (pg 4) cp_s cp_T cp_l.
Proof.
  split.
  - apply vm_kinv; [vm_compute; auto|by vm_compute|by vm_compute|done|apply st64_ok, st64_ok, mem_ok_st64s].
  - apply tree_wfb_sound. by vm_compute.
  - apply tree_atb_sound. by vm_compute.
  - intros p ->%cp_in. apply (bool_decide_unpack (pg 4 ∉ cp_l)). by vm_compute.
Qed.

Lemma cp_ready : fork_ready (parent_page vm_T1 cp_vs) (pg 8) (pg 4) cp_s vm_T1 cp_T cp_vs cp_l.
Proof.
  split.
  - apply cp_vinv0.
  - intros path p Hp. unfold cp_T in Hp. by apply lookup_singleton_Some in Hp as [<- _].
  - apply tree_wfb_sound. by vm_compute.
  - apply tree_atb_sound. by vm_compute.
  - intros [|i] v Hv; [|done]. injection Hv as <-. by vm_compute.
  - constructor; [by vm_compute|constructor].
  - intros q Hq. assert (H : q = pg 8 \/ q = pg 7 \/ q = pg 6 \/ q = pg 5).
    { destruct Hq as [Hq%vm_in1|Hq]; [tauto|]. apply list_elem_of_singleton in Hq as ->. do 3 right. by vm_compute. }
    split_and!.
    + apply page_okb_spec. destruct H as [->|[->|[->| ->]]]; by vm_compute.
    + intros E%cp_in. revert E. destruct H as [->|[->|[->| ->]]]; by vm_compute.
    + apply (bool_decide_unpack (q ∉ cp_l)). destruct H as [->|[->|[->| ->]]]; by vm_compute.
  - done.
  - intros va _. unfold pte_at, leaf, cp_T. by rewrite lookup_singleton_ne.
Qed.

Lemma uvmcopy_correct_witness :
  exists r c' s', uvmcopy (pg 8) (pg 4) 4096 (cp_ctx, cp_s) = Ret r (c', s') /\
    same_pages (parent_page vm_T1 cp_vs) (k_mem cp_s) (k_mem s').
Proof.
  destruct (@uvmcopy_correct cp_lay vm_layout_ok (parent_page vm_T1 cp_vs) (pg 8) (pg 4) vm_T1 cp_T cp_vs 4096 cp_ctx cp_s cp_l cp_ready)
    as (r & c' & s' & T' & l' & R & _ & _ & _ & _ & S & _); [split; simpl; [lia|done]|lia|reflexivity|vm_compute; discriminate|].
  exists r, c', s'. split; [exact R|exact S].
Defined.
