(* ===== verification/Uvmfree.v ===== *)
(** * Freeing an address space (kernel/vm.c, freewalk() and uvmfree())

    freewalk() walks a page table that maps nothing and gives back every page
    of it, children first; uvmfree() unmaps and frees the user's pages before
    that.  Nothing is lost and nothing freed twice: the free list afterwards is
    the old one with the user's pages and the table's, each once. *)

From stdpp Require Import base numbers list list_numbers gmap strings.
From Stdlib Require Import ZArith Lia.
From S2P Require Import Prelude.
From S2P Require Import Machine.
From S2P Require Import Spinlock.
From S2P Require Import Mem.
From S2P Require Import Kalloc.
From S2P Require Import Vm.
From S2P Require Import VmSpec.
From S2P Require Import Uvm.

Local Open Scope Z_scope.

(** ** The pages of a table, in the order they are freed *)

(** The table page at [path] after those below it; [d] levels are below. *)
Fixpoint tpages (T : ptree) (d : nat) (path : list Z) : list Z :=
  match T !! path with
  | None => []
  | Some p =>
      match d with
      | O => [p]
      | S d => (seqZ 0 512 ≫= fun i => tpages T d (path ++ [i])) ++ [p]
      end
  end.

Definition under (T : ptree) (path : list Z) (p : Z) : Prop := exists suf, T !! (path ++ suf) = Some p.

Lemma under_step T path i p : under T (path ++ [i]) p -> under T path p.
Proof. intros [suf H]. exists ([i] ++ suf). by rewrite app_assoc. Qed.

Lemma tpages_under T d : forall path p, p ∈ tpages T d path -> under T path p.
Proof.
  assert (Hself : forall path p, T !! path = Some p -> under T path p) by (intros path p H; exists []; by rewrite app_nil_r).
  induction d as [|d IH]; intros path p Hp; cbn [tpages] in Hp; destruct (T !! path) as [q|] eqn:E;
    [apply list_elem_of_singleton in Hp as ->; auto|by apply elem_of_nil in Hp| |by apply elem_of_nil in Hp].
  apply elem_of_app in Hp as [Hp|Hp]; [|apply list_elem_of_singleton in Hp as ->; auto].
  apply list_elem_of_bind in Hp as (i & Hi & _). by eapply under_step, IH.
Qed.

Section Free.
Context {LY : Layout} {LO : LayoutOk}.

Lemma under_inj root T path i j p : tree_wf root T -> under T (path ++ [i]) p -> under T (path ++ [j]) p -> i = j.
Proof.
  intros W [a Ha] [b Hb]. pose proof (tw_inj _ _ W _ _ _ Ha Hb) as E. rewrite <- !app_assoc in E. apply app_inv_head in E. by injection E.
Qed.

Lemma under_self root T path i p : tree_wf root T -> T !! path = Some p -> ~ under T (path ++ [i]) p.
Proof.
  intros W H [a Ha]. pose proof (tw_inj _ _ W _ _ _ H Ha) as E. rewrite <- app_assoc in E.
  rewrite <- (app_nil_r path) in E at 1. apply app_inv_head in E. done.
Qed.

Lemma tpages_NoDup root T d : tree_wf root T -> forall path, NoDup (tpages T d path).
Proof.
  intros W. induction d as [|d IH]; intros path; cbn [tpages]; destruct (T !! path) as [q|] eqn:E; try constructor; try (apply NoDup_nil).
  - by intros ?%elem_of_nil.
  - constructor.
  - apply NoDup_app. split_and!; [| |apply NoDup_singleton].
    + apply NoDup_bind; [|done|apply NoDup_seqZ].
      intros i j p _ _ Hi Hj. eapply under_inj; [done|by eapply tpages_under|by eapply tpages_under].
    + intros p Hp Hq. apply list_elem_of_singleton in Hq as ->. apply list_elem_of_bind in Hp as (i & Hi & _).
      by eapply (under_self root T path i q), tpages_under.
Qed.

(** ** The part of a table below a page, in memory *)

(** Interior entries point to the pages below; the level-0 tables map nothing. *)
Definition sub_at (m : mem) (T : ptree) (path : list Z) : Prop :=
  forall suf q i, T !! (path ++ suf) = Some q -> 0 <= i < 512 ->
    if (length (path ++ suf) <? 2)%nat then points m (q + 8 * i) (T !! (path ++ suf ++ [i]))
    else has (ld64 m (q + 8 * i)) PTE_V = false.

Lemma sub_at_step m T path i : sub_at m T path -> sub_at m T (path ++ [i]).
Proof. intros H suf q j Hq Hj. specialize (H ([i] ++ suf) q j). rewrite <- !app_assoc in *. by apply H. Qed.

Lemma sub_at_same m m' T path :
  (forall q x, under T path q -> q <= x < q + PGSIZE -> bget m' x = bget m x) -> sub_at m T path -> sub_at m' T path.
Proof.
  intros Hs H suf q i Hq Hi. specialize (H suf q i Hq Hi).
  assert (E : ld64 m' (q + 8 * i) = ld64 m (q + 8 * i)).
  { apply ld64_ext. intros x Hx. apply (Hs q); [by exists suf|unfold PGSIZE; lia]. }
  unfold points in *. by rewrite !E.
Qed.

(** Pages that can be given to kfree() one after the other. *)
Definition fresh (ps l : list Z) : Prop := NoDup ps /\ forall p, p ∈ ps -> page_ok p /\ p ∉ l.

Lemma fresh_app a b l : fresh (a ++ b) l -> fresh a l /\ fresh b (reverse a ++ l).
Proof.
  intros [N H]. apply NoDup_app in N as (Na & Hab & Nb). split; (split; [done|]); intros p Hp.
  - apply H. rewrite elem_of_app. by left.
  - destruct (H p) as [H1 H2]; [rewrite elem_of_app; by right|]. split; [done|]. rewrite elem_of_app, elem_of_reverse.
    intros [Hin|Hin]; [by eapply Hab|done].
Qed.

(** Bytes outside the pages [ps]. *)
Definition off_all (ps : list Z) (x : Z) : Prop := forall p, p ∈ ps -> off_page p x.

(** ** freewalk() *)

(** One round of the loop of freewalk(). *)
Definition fw_entry (f : Z -> K kst unit) (pagetable i : Z) : K kst unit :=
  pte ← rd64 (pagetable + 8 * i);
  if has pte PTE_V && (Z.land pte (Z.lor (Z.lor PTE_R PTE_W) PTE_X) =? 0) then f (PTE2PA pte) ;; wr64 (pagetable + 8 * i) 0
  else if has pte PTE_V then panic "freewalk: leaf"
  else mret tt.

Lemma freewalk_eq d pt : freewalk (S d) pt = (for_each (seqZ 0 512) (fw_entry (freewalk d) pt) ;; kfree pt).
Proof. done. Qed.

Lemma table_rwx p : page_ok p -> Z.land (mkpte p 0) (Z.lor (Z.lor PTE_R PTE_W) PTE_X) = 0.
Proof.
  intros Hp. change (Z.lor (Z.lor PTE_R PTE_W) PTE_X) with (Z.land 0x3FF 14). rewrite Z.land_assoc.
  change (Z.land (mkpte p 0) 0x3FF) with (PTE_FLAGS (mkpte p 0)). rewrite mkpte_flags by ((by apply page_pa) || lia). done.
Qed.

Lemma fw_skip f pt i c s : has (ld64 (k_mem s) (pt + 8 * i)) PTE_V = false -> fw_entry f pt i (c, s) = Ret tt (c, s).
Proof. intros H. unfold fw_entry. rewrite rd64_bind, H. done. Qed.

Lemma leaf_loop f pt c s l : (forall i, i ∈ l -> has (ld64 (k_mem s) (pt + 8 * i)) PTE_V = false) ->
  for_each l (fw_entry f pt) (c, s) = Ret tt (c, s).
Proof.
  induction l as [|i l IH]; intros H; [done|]. cbn [for_each]. rewrite (bind_ret _ _ _ _ _ (fw_skip f pt i c s (H i ltac:(left)))).
  apply IH. intros j Hj. apply H. by right.
Qed.

Definition freed_by (ps l : list Z) (s s' : kst) : Prop :=
  kinv s' (reverse ps ++ l) /\ forall x, off_all ps x -> bget (k_mem s') x = bget (k_mem s) x.

Section Loop.
Context (root : Z) (T : ptree) (W : tree_wf root T) (d : nat).
Context (IH : forall path pt c s l, (length path + d = 2)%nat -> T !! path = Some pt -> kinv s l -> cpu_ok (cx_cpu c) ->
  sub_at (k_mem s) T path -> fresh (tpages T d path) l ->
  exists c' s', freewalk (S d) pt (c, s) = Ret tt (c', s') /\ calm c c' /\ freed_by (tpages T d path) l s s').
Context (path : list Z) (pt : Z) (Hlen : (length path + S d = 2)%nat) (Hpt : T !! path = Some pt).

Abbreviation child := (fun i => tpages T d (path ++ [i])).

(** Child [i] is freed, and its entry cleared. *)
Lemma free_child i c s l :
  0 <= i < 512 -> kinv s l -> cpu_ok (cx_cpu c) -> points (k_mem s) (pt + 8 * i) (T !! (path ++ [i])) ->
  sub_at (k_mem s) T (path ++ [i]) -> fresh (child i ++ [pt]) l ->
  exists c' s', fw_entry (freewalk (S d)) pt i (c, s) = Ret tt (c', s') /\ calm c c' /\ kinv s' (reverse (child i) ++ l) /\
    (forall x, off_all (child i) x -> x < pt + 8 * i \/ pt + 8 * i + 8 <= x -> bget (k_mem s') x = bget (k_mem s) x).
Proof.
  intros Hi K Hok P A F. destruct (T !! (path ++ [i])) as [p|] eqn:E; cbn [points] in P.
  2: { assert (Ep : child i = []) by (destruct d; cbn [tpages]; by rewrite E). exists c, s.
       rewrite fw_skip by done. split_and!; [done|apply calm_refl|by rewrite Ep|done]. }
  pose proof (tw_page _ _ W _ _ E) as Hp. apply fresh_app in F as [Fc Fp].
  destruct (IH (path ++ [i]) p c s l) as (c1 & s1 & R & Hc & K1 & O1); [rewrite length_app; simpl; lia|done..|].
  assert (Efw : forall w, (c, s) = w -> fw_entry (freewalk (S d)) pt i w = (freewalk (S d) p ;; wr64 (pt + 8 * i) 0) w).
  { intros w <-. unfold fw_entry. rewrite rd64_bind, P, mkpte_valid, table_rwx, PTE2PA_mkpte by (done || (by apply page_pa) || lia). done. }
  rewrite (Efw _ eq_refl), (bind_ret _ _ _ _ _ R). exists c1, (with_mem s1 (st64 (k_mem s1) (pt + 8 * i) 0)).
  split_and!; [done|done| |].
  - apply kinv_write; [done|apply st64_ok, K1|]. intros pa x Hpa Hx. apply st64_get_out.
    destruct (proj2 Fp pt) as [Hptok Hptl]; [by left|]. apply off_word; [done|].
    pose proof (kinv_pages _ _ K1) as Hps. rewrite Forall_forall in Hps.
    apply (pages_apart pt pa); [done|by apply Hps| |unfold PGSIZE; lia]. by intros ->.
  - intros x Hx Hx'. cbn [with_mem k_mem]. rewrite st64_get_out by done. by apply O1.
Qed.

Lemma fresh_one i r l : fresh (child i ++ r ++ [pt]) l -> fresh (child i ++ [pt]) l.
Proof.
  intros [N H]. apply NoDup_app in N as (Na & Hab & _). split.
  - apply NoDup_app. split_and!; [done| |apply NoDup_singleton]. intros p Hp Hq. apply (Hab p Hp). rewrite elem_of_app. by right.
  - intros p Hp. apply H. rewrite !elem_of_app in *. tauto.
Qed.

(** The other children are as they were. *)
Lemma siblings_same i j s s' :
  i <> j -> 0 <= i < 512 -> 0 <= j < 512 -> (forall p, p ∈ child i -> page_ok p) ->
  (forall x, off_all (child i) x -> x < pt + 8 * i \/ pt + 8 * i + 8 <= x -> bget (k_mem s') x = bget (k_mem s) x) ->
  points (k_mem s) (pt + 8 * j) (T !! (path ++ [j])) /\ sub_at (k_mem s) T (path ++ [j]) ->
  points (k_mem s') (pt + 8 * j) (T !! (path ++ [j])) /\ sub_at (k_mem s') T (path ++ [j]).
Proof.
  intros Hij Hi Hj Hc O [P A]. pose proof (tw_page _ _ W _ _ Hpt) as Hptok. split.
  - assert (E : ld64 (k_mem s') (pt + 8 * j) = ld64 (k_mem s) (pt + 8 * j)); [|unfold points in *; by rewrite E].
    apply ld64_ext. intros x Hx. apply O; [|lia]. intros p Hp. apply (pages_apart p pt); [by apply Hc|done| |unfold PGSIZE; lia].
    intros ->. by eapply (under_self root T path i pt), tpages_under.
  - eapply sub_at_same; [|done]. intros q x Hq Hx. pose proof Hq as [suf Hsuf]. pose proof (tw_page _ _ W _ _ Hsuf) as Hqok. apply O.
    + intros p Hp. apply (pages_apart p q); [by apply Hc|done| |done]. intros ->. apply Hij. eapply under_inj; [done|by eapply tpages_under|done].
    + apply off_word; [done|]. apply (pages_apart pt q); [done|done| |done]. intros ->. by eapply (under_self root T path j q).
Qed.

Lemma freewalk_loop n : forall k c s l,
  0 <= k -> k + Z.of_nat n = 512 -> kinv s l -> cpu_ok (cx_cpu c) ->
  (forall i, k <= i < 512 -> points (k_mem s) (pt + 8 * i) (T !! (path ++ [i])) /\ sub_at (k_mem s) T (path ++ [i])) ->
  fresh ((seqZ k (Z.of_nat n) ≫= child) ++ [pt]) l ->
  exists c' s', for_each (seqZ k (Z.of_nat n)) (fw_entry (freewalk (S d)) pt) (c, s) = Ret tt (c', s') /\ calm c c' /\
    kinv s' (reverse (seqZ k (Z.of_nat n) ≫= child) ++ l) /\
    (forall x, off_all ((seqZ k (Z.of_nat n) ≫= child) ++ [pt]) x -> bget (k_mem s') x = bget (k_mem s) x).
Proof.
  induction n as [|n IHn]; intros k c s l Hk Hn K Hok P F.
  { exists c, s. split_and!; [done|apply calm_refl|done|done]. }
  rewrite seqZ_cons by lia. replace (Z.pred (Z.of_nat (S n))) with (Z.of_nat n) by lia. rewrite seqZ_cons in F by lia.
  replace (Z.pred (Z.of_nat (S n))) with (Z.of_nat n) in F by lia. rewrite bind_cons in *. set (rest := seqZ (Z.succ k) (Z.of_nat n) ≫= child) in *.
  cbn [for_each]. rewrite <- app_assoc in F. destruct (fresh_app _ _ _ F) as [Fc Fr].
  destruct (P k ltac:(lia)) as [Pk Ak].
  destruct (free_child k c s l ltac:(lia) K Hok Pk Ak (fresh_one _ _ _ F)) as (c1 & s1 & R1 & Hc1 & K1 & O1).
  rewrite (bind_ret _ _ _ _ _ R1).
  destruct (IHn (Z.succ k) c1 s1 (reverse (child k) ++ l)) as (c2 & s2 & R2 & Hc2 & K2 & O2); [lia|lia|done|by eapply calm_ok| |done|].
  { intros i Hi. apply (siblings_same k i s); [lia..| |done|apply P; lia]. intros p Hp. by apply Fc. }
  fold rest in R2, K2, O2. exists c2, s2. split_and!; [done|by eapply calm_trans| |].
  - by rewrite reverse_app, <- app_assoc.
  - intros x Hx. assert (Hx' : forall p, p ∈ child k \/ p ∈ rest \/ p = pt -> off_page p x).
    { intros p Hp. apply Hx. rewrite !elem_of_app, list_elem_of_singleton. tauto. }
    rewrite O2, O1; [done| | |].
    + intros p Hp. apply Hx'. by left.
    + apply off_word; [lia|]. apply Hx'. auto.
    + intros p Hp. rewrite elem_of_app, list_elem_of_singleton in Hp. apply Hx'. tauto.
Qed.
End Loop.

Lemma freewalk_run root T d : tree_wf root T -> forall path pt c s l,
  (length path + d = 2)%nat -> T !! path = Some pt -> kinv s l -> cpu_ok (cx_cpu c) ->
  sub_at (k_mem s) T path -> fresh (tpages T d path) l ->
  exists c' s', freewalk (S d) pt (c, s) = Ret tt (c', s') /\ calm c c' /\ freed_by (tpages T d path) l s s'.
Proof.
  intros W. induction d as [|d IH]; intros path pt c s l Hlen Hpt K Hok A F; rewrite freewalk_eq.
  - cbn [tpages] in *. rewrite Hpt in *. destruct (proj2 F pt) as [Hp Hl]; [by left|]. rewrite (bind_ret _ _ _ tt (c, s)).
    2: { apply leaf_loop. intros i Hi%elem_of_seqZ. specialize (A [] pt i). rewrite app_nil_r in A. specialize (A Hpt ltac:(lia)).
         by rewrite (proj2 (Nat.ltb_ge _ _)) in A by lia. }
    destruct (kfree_spec c s pt l Hok K Hp Hl) as (s' & R & K' & O). exists (settled c), s'. split_and!; [done|apply calm_settled|].
    split; [done|]. intros x Hx. apply O, Hx. by left.
  - cbn [tpages] in *. rewrite Hpt in *. set (ch := seqZ 0 512 ≫= _) in *.
    destruct (freewalk_loop root T W d IH path pt Hlen Hpt 512 0 c s l) as (c1 & s1 & R1 & Hc1 & K1 & O1); [done|done|done|done| |done|].
    { intros i Hi. split; [|by apply sub_at_step]. specialize (A [] pt i). rewrite app_nil_r in A. specialize (A Hpt Hi).
      by rewrite (proj2 (Nat.ltb_lt _ _)) in A by lia. }
    change (Z.of_nat 512) with 512 in *. fold ch in R1, K1, O1. rewrite (bind_ret _ _ _ _ _ R1).
    destruct (fresh_app _ _ _ F) as [_ [_ Fp]]. destruct (Fp pt) as [Hp Hl]; [by left|].
    destruct (kfree_spec c1 s1 pt (reverse ch ++ l)) as (s2 & R2 & K2 & O2); [by eapply calm_ok|done..|].
    exists (settled c1), s2. split_and!; [done|eapply calm_trans; [done|apply calm_settled]|]. split; [by rewrite reverse_app|].
    intros x Hx. rewrite O2, O1; [done|done|]. apply Hx. rewrite elem_of_app. right. by left.
Qed.
(** ** uvmfree() *)

Lemma in_tpages root T p : tree_wf root T -> tree_dom T -> in_tree T p -> p ∈ tpages T 2 [].
Proof.
  intros W D [path Hp]. pose proof (tw_depth _ _ W _ _ Hp) as Hd. pose proof (D _ _ Hp) as Hok.
  assert (Hin : forall d base i q r, T !! base = Some r -> 0 <= i < 512 -> q ∈ tpages T d (base ++ [i]) -> q ∈ tpages T (S d) base).
  { intros d base i q r Hr Hi Hq. cbn [tpages]. rewrite Hr, elem_of_app. left. apply list_elem_of_bind. exists i. split; [done|apply elem_of_seqZ; lia]. }
  assert (Hself : forall d base q, T !! base = Some q -> q ∈ tpages T d base).
  { intros [|d] base q Hq; cbn [tpages]; rewrite Hq; [by left|]. rewrite elem_of_app. right. by left. }
  destruct path as [|a [|b [|? ?]]]; [by apply Hself| | |simpl in Hd; lia]; destruct Hok as [Ha Hr].
  - apply (Hin 1%nat [] a p root); [apply W|lia|]. by apply Hself.
  - apply Forall_cons in Hr as [Hb _]. destruct (tw_up _ _ W [a] b p Hp) as [r Hra].
    apply (Hin 1%nat [] a p root); [apply W|lia|]. apply (Hin 0%nat [a] b p r); [done|done|]. by apply Hself.
Qed.

Lemma PX_index a b i : 0 <= a < 256 -> 0 <= b < 512 -> 0 <= i < 512 ->
  let va := ((a * 512 + b) * 512 + i) * PGSIZE in 0 <= va < MAXVA /\ PX 2 va = a /\ PX 1 va = b /\ PX 0 va = i.
Proof.
  intros Ha Hb Hi va. unfold va. rewrite !PX_eq by lia. unfold PGSIZE. change MAXVA with (256 * 512 * 512 * 4096).
  change (2 ^ (12 + 9 * 2)) with (4096 * 512 * 512). change (2 ^ (12 + 9 * 1)) with (4096 * 512). change (2 ^ (12 + 9 * 0)) with 4096.
  rewrite <- !Z.div_div by lia. rewrite !Z.div_mul by lia.
  assert (E1 : ((a * 512 + b) * 512 + i) / 512 = a * 512 + b) by (rewrite Z.div_add_l, (Z.div_small i) by lia; lia).
  assert (E2 : (a * 512 + b) / 512 = a) by (rewrite Z.div_add_l, (Z.div_small b) by lia; lia).
  rewrite E1, E2. rewrite (Z.mod_small a), (Z.add_comm (a * 512)), (Z.add_comm ((_ : Z) * 512) i), !Z.mod_add, (Z.mod_small b), (Z.mod_small i) by lia. lia.
Qed.

(** A table that maps no address maps nothing. *)
Lemma empty_table root T m : tree_wf root T -> tree_dom T -> tree_at m T ->
  (forall va, 0 <= va < MAXVA -> pte_at m T va = None) -> sub_at m T [].
Proof.
  intros W D A N suf q i Hq Hi. rewrite app_nil_l in *. destruct (Nat.ltb_spec (length suf) 2) as [Hl|Hl]; [by apply A|].
  pose proof (tw_depth _ _ W _ _ Hq) as Hd. destruct suf as [|a [|b [|? ?]]]; simpl in Hl, Hd; try lia.
  destruct (D _ _ Hq) as [Ha Hb]. apply Forall_cons in Hb as [Hb _]. destruct (PX_index a b i Ha Hb Hi) as (Hva & E2 & E1 & E0).
  specialize (N _ Hva). unfold pte_at, leaf in N. rewrite E2, E1, E0, Hq in N. cbn in N. by destruct (has _ PTE_V).
Qed.

Lemma tpages_fresh root s T l d path : vinv root s T l -> fresh (tpages T d path) l.
Proof.
  intros V. split; [by eapply tpages_NoDup, V|]. intros p Hp. destruct (tpages_under T d path p Hp) as [suf H].
  split; [by eapply tw_page; [apply V|]|]. apply (v_sep _ _ _ _ V). by eexists.
Qed.

Lemma uvmfree_run root T vs sz c s l :
  vinv root s T l -> tree_dom T -> cpu_ok (cx_cpu c) -> 0 <= sz -> PGROUNDUP sz = Z.of_nat (length vs) * PGSIZE ->
  Z.of_nat (length vs) * PGSIZE <= MAXVA -> ptes_from (k_mem s) T 0 vs -> Forall (fun v => PTE_FLAGS v <> PTE_V) vs -> releasable T vs l ->
  (forall va, Z.of_nat (length vs) * PGSIZE <= va < MAXVA -> pte_at (k_mem s) T va = None) ->
  exists c' s' l', uvmfree root sz (c, s) = Ret tt (c', s') /\ calm c c' /\ kinv s' l' /\
    (forall p, p ∈ l' <-> p ∈ l \/ p ∈ PTE2PA <$> vs \/ in_tree T p) /\
    (forall x, off_tree T x -> (forall v, v ∈ vs -> off_page (PTE2PA v) x) -> bget (k_mem s') x = bget (k_mem s) x).
Proof.
  intros V D Hok Hsz Hup HM Hv Hf Hrel Hrest.
  assert (H1 : exists c1 s1, (if 0 <? sz then uvmunmap root 0 (PGROUNDUP sz / PGSIZE) true else mret tt) (c, s) = Ret tt (c1, s1) /\
    calm c c1 /\ vinv root s1 T (freed true vs l) /\ untouched T vs (k_mem s) (k_mem s1) /\ forall va, 0 <= va < MAXVA -> pte_at (k_mem s1) T va = None).
  { destruct (Z.ltb_spec 0 sz) as [Hpos|Hz].
    - rewrite Hup, Z.div_mul by done. destruct (uvmunmap_run vs root T 0 true c s l) as (c1 & s1 & R & Hc & V1 & U & L); [done..|].
      exists c1, s1. split_and!; [done..|]. intros va Hva. rewrite L by done. unfold unmapped. rewrite (proj2 (Z.leb_le 0 va)) by lia. cbn [andb].
      destruct (Z.ltb_spec va (0 + Z.of_nat (length vs) * PGSIZE)); [done|]. apply Hrest. lia.
    - replace sz with 0 in Hup by lia. change (PGROUNDUP 0) with 0 in Hup.
      destruct vs as [|v vs]; [|cbn [length] in Hup; unfold PGSIZE in Hup; lia].
      exists c, s. split_and!; [done|apply calm_refl|done|done|]. intros va Hva. apply Hrest. cbn. lia. }
  destruct H1 as (c1 & s1 & R1 & Hc1 & V1 & U1 & N1). unfold uvmfree. rewrite (bind_ret _ _ _ _ _ R1).
  destruct (freewalk_run root T 2 (v_wf _ _ _ _ V) [] root c1 s1 (freed true vs l)) as (c2 & s2 & R2 & Hc2 & K2 & O2);
    [done|apply V|apply V1|by eapply calm_ok|by eapply empty_table; [apply V|done|apply V1|]|by eapply tpages_fresh|].
  exists c2, s2, (reverse (tpages T 2 []) ++ freed true vs l). split_and!; [done|by eapply calm_trans|done| |].
  - intros p. unfold freed. rewrite !elem_of_app, !elem_of_reverse.
    assert (Hin : p ∈ tpages T 2 [] <-> in_tree T p); [|tauto].
    split; [|by eapply in_tpages, D; apply V]. intros [suf H]%tpages_under. by exists suf.
  - intros x Hx Hp. rewrite O2; [by apply U1|]. intros p [suf H]%tpages_under. apply Hx. by exists suf.
Qed.

(** ** proc_freepagetable() *)

(** A mapping taken away, its page kept. *)
Lemma unmap_one root T va v c s l :
  vinv root s T l -> cpu_ok (cx_cpu c) -> 0 <= va -> va `mod` PGSIZE = 0 -> va + PGSIZE <= MAXVA ->
  pte_at (k_mem s) T va = Some v -> PTE_FLAGS v <> PTE_V ->
  exists c' s', uvmunmap root va 1 false (c, s) = Ret tt (c', s') /\ calm c c' /\ vinv root s' T l /\ untouched T [] (k_mem s) (k_mem s') /\
    forall va', 0 <= va' < MAXVA -> pte_at (k_mem s') T va' = unmapped va 1 va' (pte_at (k_mem s) T va').
Proof.
  intros V Hok Hva Hal Hmax Hv Hf. apply (uvmunmap_run [v] root T va false c s l); [done..|simpl; lia| |by repeat constructor|done].
  intros [|j] u Hu; [|done]. injection Hu as <-. by rewrite Z.add_0_r.
Qed.

(** The address space of a process: its memory from 0 to [sz], the trapframe and the trampoline. *)
Record pspace (root : Z) (s : kst) (T : ptree) (vt vf : Z) (vs l : list Z) (sz : Z) : Prop := {
  ps_vinv : vinv root s T l;
  ps_dom : tree_dom T;
  ps_tramp : pte_at (k_mem s) T TRAMPOLINE = Some vt /\ PTE_FLAGS vt <> PTE_V;
  ps_tf : pte_at (k_mem s) T TRAPFRAME = Some vf /\ PTE_FLAGS vf <> PTE_V;
  ps_size : 0 <= sz <= TRAPFRAME /\ PGROUNDUP sz = Z.of_nat (length vs) * PGSIZE /\ Z.of_nat (length vs) * PGSIZE <= TRAPFRAME;
  ps_user : ptes_from (k_mem s) T 0 vs /\ Forall (fun v => PTE_FLAGS v <> PTE_V) vs /\ releasable T vs l;
  ps_rest : forall va, Z.of_nat (length vs) * PGSIZE <= va < TRAPFRAME -> pte_at (k_mem s) T va = None
}.

Lemma unmapped_in a va o : a <= va < a + PGSIZE -> unmapped a 1 va o = None.
Proof. intros H. unfold unmapped. by rewrite (proj2 (Z.leb_le _ _)), (proj2 (Z.ltb_lt _ _)) by lia. Qed.

Lemma unmapped_out a va o : va < a -> unmapped a 1 va o = o.
Proof. intros H. unfold unmapped. by rewrite (proj2 (Z.leb_gt _ _)) by lia. Qed.

Lemma proc_freepagetable_run root s T vt vf vs l sz c :
  pspace root s T vt vf vs l sz -> cpu_ok (cx_cpu c) ->
  exists c' s' l', proc_freepagetable root sz (c, s) = Ret tt (c', s') /\ calm c c' /\ kinv s' l' /\
    (forall p, p ∈ l' <-> p ∈ l \/ p ∈ PTE2PA <$> vs \/ in_tree T p) /\ untouched T vs (k_mem s) (k_mem s').
Proof.
  intros [V D [Ht Hft] [Hf Hff] (Hsz & Hup & Hle) (Hv & Hfl & Hrel) Hrest] Hok.
  assert (E1 : TRAMPOLINE = TRAPFRAME + PGSIZE) by done. assert (E2 : MAXVA = TRAMPOLINE + PGSIZE) by done. assert (E3 : 0 <= TRAPFRAME) by done.
  assert (EP : PGSIZE = 4096) by done.
  destruct (unmap_one root T TRAMPOLINE vt c s l V Hok) as (c1 & s1 & R1 & Hc1 & V1 & U1 & L1); [lia|done|lia|done|done|].
  assert (Hf1 : pte_at (k_mem s1) T TRAPFRAME = Some vf) by (rewrite L1, unmapped_out by lia; done).
  destruct (unmap_one root T TRAPFRAME vf c1 s1 l V1) as (c2 & s2 & R2 & Hc2 & V2 & U2 & L2); [by eapply calm_ok|lia|done|lia|done|done|].
  assert (Hlow : forall va, 0 <= va < TRAPFRAME -> pte_at (k_mem s2) T va = pte_at (k_mem s) T va).
  { intros va Hva. by rewrite L2, L1, !unmapped_out by lia. }
  destruct (uvmfree_run root T vs sz c2 s2 l) as (c3 & s3 & l' & R3 & Hc3 & K3 & M3 & O3); [done|done|by eapply calm_ok, calm_ok|lia|done|lia| |done|done| |].
  { intros j v Hj. pose proof (lookup_lt_Some _ _ _ Hj). rewrite Hlow by lia. by apply Hv. }
  { intros va Hva. destruct (decide (va < TRAPFRAME)); [rewrite Hlow by lia; apply Hrest; lia|]. rewrite L2 by lia.
    destruct (decide (va < TRAMPOLINE)); [apply unmapped_in; lia|]. rewrite L1, (unmapped_in TRAMPOLINE) by lia. unfold unmapped. by destruct (_ && _). }
  unfold proc_freepagetable. rewrite (bind_ret _ _ _ _ _ R1), (bind_ret _ _ _ _ _ R2). exists c3, s3, l'.
  split_and!; [done|by do 2 (eapply calm_trans; [done|])|done|done|].
  intros x Hx Hp. rewrite O3 by done. rewrite (U2 x Hx), (U1 x Hx); [done| |]; by intros v ?%elem_of_nil.
Qed.

End Free.
