(* ===== verification/Kern.v ===== *)
(** * The kernel's global state

    The structures and global variables of the kernel above the memory
    allocator, collected in one record [kern]: the buffer cache, the log, the
    inode and file tables, pipes, console, UART, clock, disk driver and the
    disk itself.  Table entries are addressed by index, as the C code does by
    pointer into a static array. *)

From stdpp Require Import base numbers list gmap strings.
From Stdlib Require Import ZArith Lia.
From S2P Require Import Prelude.
From S2P Require Import Machine.
From S2P Require Import Spinlock.
From S2P Require Import Mem.
From S2P Require Import Kalloc.

Local Open Scope Z_scope.

(** ** kernel/fs.h, kernel/stat.h, kernel/fcntl.h *)

Definition ROOTINO : Z := 1.
Definition BSIZE : Z := 1024.
Definition FSMAGIC : Z := 0x10203040.
Definition NDIRECT : Z := 12.
Definition NINDIRECT : Z := BSIZE / 4.
Definition MAXFILE : Z := NDIRECT + NINDIRECT.
(** sizeof(struct dinode) and sizeof(struct dirent) *)
Definition DINODE_SIZE : Z := 64.
Definition DIRENT_SIZE : Z := 16.
Definition IPB : Z := BSIZE / DINODE_SIZE.
Definition BPB : Z := BSIZE * 8.
Definition DIRSIZ : Z := 14.
Definition T_DIR : Z := 1.
Definition T_FILE : Z := 2.
Definition T_DEVICE : Z := 3.
Definition CONSOLE : Z := 1.
Definition O_RDONLY : Z := 0x000.
Definition O_WRONLY : Z := 0x001.
Definition O_RDWR : Z := 0x002.
Definition O_CREATE : Z := 0x200.
Definition O_TRUNC : Z := 0x400.

(** kernel/fs.h *)
Record superblock := Superblock {
  sb_magic : Z;
  sb_size : Z;
  sb_nblocks : Z;
  sb_ninodes : Z;
  sb_nlog : Z;
  sb_logstart : Z;
  sb_inodestart : Z;
  sb_bmapstart : Z
}.
Definition set_sb_magic (v : Z) (x : superblock) : superblock :=
  Superblock v (sb_size x) (sb_nblocks x) (sb_ninodes x) (sb_nlog x) (sb_logstart x) (sb_inodestart x)
    (sb_bmapstart x).
Definition set_sb_size (v : Z) (x : superblock) : superblock :=
  Superblock (sb_magic x) v (sb_nblocks x) (sb_ninodes x) (sb_nlog x) (sb_logstart x) (sb_inodestart x)
    (sb_bmapstart x).
Definition set_sb_nblocks (v : Z) (x : superblock) : superblock :=
  Superblock (sb_magic x) (sb_size x) v (sb_ninodes x) (sb_nlog x) (sb_logstart x) (sb_inodestart x)
    (sb_bmapstart x).
Definition set_sb_ninodes (v : Z) (x : superblock) : superblock :=
  Superblock (sb_magic x) (sb_size x) (sb_nblocks x) v (sb_nlog x) (sb_logstart x) (sb_inodestart x)
    (sb_bmapstart x).
Definition set_sb_nlog (v : Z) (x : superblock) : superblock :=
  Superblock (sb_magic x) (sb_size x) (sb_nblocks x) (sb_ninodes x) v (sb_logstart x) (sb_inodestart x)
    (sb_bmapstart x).
Definition set_sb_logstart (v : Z) (x : superblock) : superblock :=
  Superblock (sb_magic x) (sb_size x) (sb_nblocks x) (sb_ninodes x) (sb_nlog x) v (sb_inodestart x)
    (sb_bmapstart x).
Definition set_sb_inodestart (v : Z) (x : superblock) : superblock :=
  Superblock (sb_magic x) (sb_size x) (sb_nblocks x) (sb_ninodes x) (sb_nlog x) (sb_logstart x)
    v (sb_bmapstart x).
Definition set_sb_bmapstart (v : Z) (x : superblock) : superblock :=
  Superblock (sb_magic x) (sb_size x) (sb_nblocks x) (sb_ninodes x) (sb_nlog x) (sb_logstart x)
    (sb_inodestart x) v.

Definition IBLOCK (i : Z) (sb : superblock) : Z := i / IPB + sb_inodestart sb.
Definition BBLOCK (b : Z) (sb : superblock) : Z := b / BPB + sb_bmapstart sb.

(** ** kernel/buf.h, kernel/bio.c

    The LRU list runs through the buffers and the list head. *)
Inductive bufp := Head | Buf (i : nat).

#[export] Instance bufp_eq_dec : EqDecision bufp.
Proof. solve_decision. Defined.

(** struct buf *)
Record buf := MkBuf {
  b_valid : bool;
  b_disk : bool;
  b_dev : Z;
  b_blockno : Z;
  b_lock : sleeplock;
  b_refcnt : Z;
  b_prev : bufp;
  b_next : bufp;
  b_data : list Z
}.
Definition set_b_valid (v : bool) (x : buf) : buf :=
  MkBuf v (b_disk x) (b_dev x) (b_blockno x) (b_lock x) (b_refcnt x) (b_prev x) (b_next x) (b_data x).
Definition set_b_disk (v : bool) (x : buf) : buf :=
  MkBuf (b_valid x) v (b_dev x) (b_blockno x) (b_lock x) (b_refcnt x) (b_prev x) (b_next x) (b_data x).
Definition set_b_dev (v : Z) (x : buf) : buf :=
  MkBuf (b_valid x) (b_disk x) v (b_blockno x) (b_lock x) (b_refcnt x) (b_prev x) (b_next x) (b_data x).
Definition set_b_blockno (v : Z) (x : buf) : buf :=
  MkBuf (b_valid x) (b_disk x) (b_dev x) v (b_lock x) (b_refcnt x) (b_prev x) (b_next x) (b_data x).
Definition set_b_lock (v : sleeplock) (x : buf) : buf :=
  MkBuf (b_valid x) (b_disk x) (b_dev x) (b_blockno x) v (b_refcnt x) (b_prev x) (b_next x) (b_data x).
Definition set_b_refcnt (v : Z) (x : buf) : buf :=
  MkBuf (b_valid x) (b_disk x) (b_dev x) (b_blockno x) (b_lock x) v (b_prev x) (b_next x) (b_data x).
Definition set_b_prev (v : bufp) (x : buf) : buf :=
  MkBuf (b_valid x) (b_disk x) (b_dev x) (b_blockno x) (b_lock x) (b_refcnt x) v (b_next x) (b_data x).
Definition set_b_next (v : bufp) (x : buf) : buf :=
  MkBuf (b_valid x) (b_disk x) (b_dev x) (b_blockno x) (b_lock x) (b_refcnt x) (b_prev x) v (b_data x).
Definition set_b_data (v : list Z) (x : buf) : buf :=
  MkBuf (b_valid x) (b_disk x) (b_dev x) (b_blockno x) (b_lock x) (b_refcnt x) (b_prev x) (b_next x) v.

(** bcache *)
Record bcache := Bcache {
  bc_lock : spinlock;
  bc_buf : list buf;
  bc_prev : bufp;
  bc_next : bufp
}.
Definition set_bc_lock (v : spinlock) (x : bcache) : bcache :=
  Bcache v (bc_buf x) (bc_prev x) (bc_next x).
Definition set_bc_buf (v : list buf) (x : bcache) : bcache :=
  Bcache (bc_lock x) v (bc_prev x) (bc_next x).
Definition set_bc_prev (v : bufp) (x : bcache) : bcache :=
  Bcache (bc_lock x) (bc_buf x) v (bc_next x).
Definition set_bc_next (v : bufp) (x : bcache) : bcache :=
  Bcache (bc_lock x) (bc_buf x) (bc_prev x) v.

(** ** kernel/log.c *)
(** struct logheader *)
Record logheader := Logheader {
  lh_n : Z;
  lh_block : list Z
}.
Definition set_lh_n (v : Z) (x : logheader) : logheader :=
  Logheader v (lh_block x).
Definition set_lh_block (v : list Z) (x : logheader) : logheader :=
  Logheader (lh_n x) v.

(** struct log *)
Record log := Log {
  lg_lock : spinlock;
  lg_start : Z;
  lg_size : Z;
  lg_outstanding : Z;
  lg_committing : bool;
  lg_dev : Z;
  lg_lh : logheader
}.
Definition set_lg_lock (v : spinlock) (x : log) : log :=
  Log v (lg_start x) (lg_size x) (lg_outstanding x) (lg_committing x) (lg_dev x) (lg_lh x).
Definition set_lg_start (v : Z) (x : log) : log :=
  Log (lg_lock x) v (lg_size x) (lg_outstanding x) (lg_committing x) (lg_dev x) (lg_lh x).
Definition set_lg_size (v : Z) (x : log) : log :=
  Log (lg_lock x) (lg_start x) v (lg_outstanding x) (lg_committing x) (lg_dev x) (lg_lh x).
Definition set_lg_outstanding (v : Z) (x : log) : log :=
  Log (lg_lock x) (lg_start x) (lg_size x) v (lg_committing x) (lg_dev x) (lg_lh x).
Definition set_lg_committing (v : bool) (x : log) : log :=
  Log (lg_lock x) (lg_start x) (lg_size x) (lg_outstanding x) v (lg_dev x) (lg_lh x).
Definition set_lg_dev (v : Z) (x : log) : log :=
  Log (lg_lock x) (lg_start x) (lg_size x) (lg_outstanding x) (lg_committing x) v (lg_lh x).
Definition set_lg_lh (v : logheader) (x : log) : log :=
  Log (lg_lock x) (lg_start x) (lg_size x) (lg_outstanding x) (lg_committing x) (lg_dev x) v.

(** ** kernel/file.h *)
(** struct inode *)
Record inode := Inode {
  i_dev : Z;
  i_inum : Z;
  i_ref : Z;
  i_lock : sleeplock;
  i_valid : bool;
  i_type : Z;
  i_major : Z;
  i_minor : Z;
  i_nlink : Z;
  i_size : Z;
  i_addrs : list Z
}.
Definition set_i_dev (v : Z) (x : inode) : inode :=
  Inode v (i_inum x) (i_ref x) (i_lock x) (i_valid x) (i_type x) (i_major x) (i_minor x) (i_nlink x)
    (i_size x) (i_addrs x).
Definition set_i_inum (v : Z) (x : inode) : inode :=
  Inode (i_dev x) v (i_ref x) (i_lock x) (i_valid x) (i_type x) (i_major x) (i_minor x) (i_nlink x)
    (i_size x) (i_addrs x).
Definition set_i_ref (v : Z) (x : inode) : inode :=
  Inode (i_dev x) (i_inum x) v (i_lock x) (i_valid x) (i_type x) (i_major x) (i_minor x) (i_nlink x)
    (i_size x) (i_addrs x).
Definition set_i_lock (v : sleeplock) (x : inode) : inode :=
  Inode (i_dev x) (i_inum x) (i_ref x) v (i_valid x) (i_type x) (i_major x) (i_minor x) (i_nlink x)
    (i_size x) (i_addrs x).
Definition set_i_valid (v : bool) (x : inode) : inode :=
  Inode (i_dev x) (i_inum x) (i_ref x) (i_lock x) v (i_type x) (i_major x) (i_minor x) (i_nlink x)
    (i_size x) (i_addrs x).
Definition set_i_type (v : Z) (x : inode) : inode :=
  Inode (i_dev x) (i_inum x) (i_ref x) (i_lock x) (i_valid x) v (i_major x) (i_minor x) (i_nlink x)
    (i_size x) (i_addrs x).
Definition set_i_major (v : Z) (x : inode) : inode :=
  Inode (i_dev x) (i_inum x) (i_ref x) (i_lock x) (i_valid x) (i_type x) v (i_minor x) (i_nlink x)
    (i_size x) (i_addrs x).
Definition set_i_minor (v : Z) (x : inode) : inode :=
  Inode (i_dev x) (i_inum x) (i_ref x) (i_lock x) (i_valid x) (i_type x) (i_major x) v (i_nlink x)
    (i_size x) (i_addrs x).
Definition set_i_nlink (v : Z) (x : inode) : inode :=
  Inode (i_dev x) (i_inum x) (i_ref x) (i_lock x) (i_valid x) (i_type x) (i_major x) (i_minor x)
    v (i_size x) (i_addrs x).
Definition set_i_size (v : Z) (x : inode) : inode :=
  Inode (i_dev x) (i_inum x) (i_ref x) (i_lock x) (i_valid x) (i_type x) (i_major x) (i_minor x)
    (i_nlink x) v (i_addrs x).
Definition set_i_addrs (v : list Z) (x : inode) : inode :=
  Inode (i_dev x) (i_inum x) (i_ref x) (i_lock x) (i_valid x) (i_type x) (i_major x) (i_minor x)
    (i_nlink x) (i_size x) v.

(** itable *)
Record itable := Itable {
  it_lock : spinlock;
  it_inode : list inode
}.
Definition set_it_lock (v : spinlock) (x : itable) : itable :=
  Itable v (it_inode x).
Definition set_it_inode (v : list inode) (x : itable) : itable :=
  Itable (it_lock x) v.

Inductive filetype := FD_NONE | FD_PIPE | FD_INODE | FD_DEVICE.

#[export] Instance filetype_eq_dec : EqDecision filetype.
Proof. solve_decision. Defined.

(** struct file *)
Record file := File {
  f_type : filetype;
  f_ref : Z;
  f_readable : bool;
  f_writable : bool;
  f_pipe : Z;
  f_ip : option nat;
  f_off : Z;
  f_major : Z
}.
Definition set_f_type (v : filetype) (x : file) : file :=
  File v (f_ref x) (f_readable x) (f_writable x) (f_pipe x) (f_ip x) (f_off x) (f_major x).
Definition set_f_ref (v : Z) (x : file) : file :=
  File (f_type x) v (f_readable x) (f_writable x) (f_pipe x) (f_ip x) (f_off x) (f_major x).
Definition set_f_readable (v : bool) (x : file) : file :=
  File (f_type x) (f_ref x) v (f_writable x) (f_pipe x) (f_ip x) (f_off x) (f_major x).
Definition set_f_writable (v : bool) (x : file) : file :=
  File (f_type x) (f_ref x) (f_readable x) v (f_pipe x) (f_ip x) (f_off x) (f_major x).
Definition set_f_pipe (v : Z) (x : file) : file :=
  File (f_type x) (f_ref x) (f_readable x) (f_writable x) v (f_ip x) (f_off x) (f_major x).
Definition set_f_ip (v : option nat) (x : file) : file :=
  File (f_type x) (f_ref x) (f_readable x) (f_writable x) (f_pipe x) v (f_off x) (f_major x).
Definition set_f_off (v : Z) (x : file) : file :=
  File (f_type x) (f_ref x) (f_readable x) (f_writable x) (f_pipe x) (f_ip x) v (f_major x).
Definition set_f_major (v : Z) (x : file) : file :=
  File (f_type x) (f_ref x) (f_readable x) (f_writable x) (f_pipe x) (f_ip x) (f_off x) v.

(** ftable *)
Record ftable := Ftable {
  ft_lock : spinlock;
  ft_file : list file
}.
Definition set_ft_lock (v : spinlock) (x : ftable) : ftable :=
  Ftable v (ft_file x).
Definition set_ft_file (v : list file) (x : ftable) : ftable :=
  Ftable (ft_lock x) v.

(** The functions a [struct devsw] can hold. *)
Inductive devfn := DevConsole.

(** ** kernel/pipe.c *)

Definition PIPESIZE : Z := 512.

(** struct pipe *)
Record pipe := Pipe {
  pi_lock : spinlock;
  pi_data : list Z;
  pi_nread : Z;
  pi_nwrite : Z;
  pi_readopen : bool;
  pi_writeopen : bool
}.
Definition set_pi_lock (v : spinlock) (x : pipe) : pipe :=
  Pipe v (pi_data x) (pi_nread x) (pi_nwrite x) (pi_readopen x) (pi_writeopen x).
Definition set_pi_data (v : list Z) (x : pipe) : pipe :=
  Pipe (pi_lock x) v (pi_nread x) (pi_nwrite x) (pi_readopen x) (pi_writeopen x).
Definition set_pi_nread (v : Z) (x : pipe) : pipe :=
  Pipe (pi_lock x) (pi_data x) v (pi_nwrite x) (pi_readopen x) (pi_writeopen x).
Definition set_pi_nwrite (v : Z) (x : pipe) : pipe :=
  Pipe (pi_lock x) (pi_data x) (pi_nread x) v (pi_readopen x) (pi_writeopen x).
Definition set_pi_readopen (v : bool) (x : pipe) : pipe :=
  Pipe (pi_lock x) (pi_data x) (pi_nread x) (pi_nwrite x) v (pi_writeopen x).
Definition set_pi_writeopen (v : bool) (x : pipe) : pipe :=
  Pipe (pi_lock x) (pi_data x) (pi_nread x) (pi_nwrite x) (pi_readopen x) v.

(** ** kernel/console.c, kernel/uart.c *)

Definition INPUT_BUF : Z := 128.
Definition UART_TX_BUF_SIZE : Z := 32.

(** cons *)
Record cons := Cons {
  cn_lock : spinlock;
  cn_buf : list Z;
  cn_r : Z;
  cn_w : Z;
  cn_e : Z
}.
Definition set_cn_lock (v : spinlock) (x : cons) : cons :=
  Cons v (cn_buf x) (cn_r x) (cn_w x) (cn_e x).
Definition set_cn_buf (v : list Z) (x : cons) : cons :=
  Cons (cn_lock x) v (cn_r x) (cn_w x) (cn_e x).
Definition set_cn_r (v : Z) (x : cons) : cons :=
  Cons (cn_lock x) (cn_buf x) v (cn_w x) (cn_e x).
Definition set_cn_w (v : Z) (x : cons) : cons :=
  Cons (cn_lock x) (cn_buf x) (cn_r x) v (cn_e x).
Definition set_cn_e (v : Z) (x : cons) : cons :=
  Cons (cn_lock x) (cn_buf x) (cn_r x) (cn_w x) v.

(** The transmit buffer of kernel/uart.c *)
Record uart := Uart {
  ua_lock : spinlock;
  ua_buf : list Z;
  ua_w : Z;
  ua_r : Z
}.
Definition set_ua_lock (v : spinlock) (x : uart) : uart :=
  Uart v (ua_buf x) (ua_w x) (ua_r x).
Definition set_ua_buf (v : list Z) (x : uart) : uart :=
  Uart (ua_lock x) v (ua_w x) (ua_r x).
Definition set_ua_w (v : Z) (x : uart) : uart :=
  Uart (ua_lock x) (ua_buf x) v (ua_r x).
Definition set_ua_r (v : Z) (x : uart) : uart :=
  Uart (ua_lock x) (ua_buf x) (ua_w x) v.

(** The lock of kernel/printf.c *)
Record pr := Pr {
  pr_lock : spinlock;
  pr_locking : bool
}.
Definition set_pr_lock (v : spinlock) (x : pr) : pr :=
  Pr v (pr_locking x).
Definition set_pr_locking (v : bool) (x : pr) : pr :=
  Pr (pr_lock x) v.

(** ** Supervisor registers

    The control registers of the hart that kernel/trap.c reads and writes;
    of sstatus the SPP and SPIE bits (SIE is [c_intr] of the cpu). *)
(** CSRs *)
Record csr := Csr {
  cs_stvec : Z;
  cs_sepc : Z;
  cs_scause : Z;
  cs_stval : Z;
  cs_spp : bool;
  cs_spie : bool;
  cs_sip : Z;
  cs_satp : Z
}.
Definition set_cs_stvec (v : Z) (x : csr) : csr :=
  Csr v (cs_sepc x) (cs_scause x) (cs_stval x) (cs_spp x) (cs_spie x) (cs_sip x) (cs_satp x).
Definition set_cs_sepc (v : Z) (x : csr) : csr :=
  Csr (cs_stvec x) v (cs_scause x) (cs_stval x) (cs_spp x) (cs_spie x) (cs_sip x) (cs_satp x).
Definition set_cs_scause (v : Z) (x : csr) : csr :=
  Csr (cs_stvec x) (cs_sepc x) v (cs_stval x) (cs_spp x) (cs_spie x) (cs_sip x) (cs_satp x).
Definition set_cs_stval (v : Z) (x : csr) : csr :=
  Csr (cs_stvec x) (cs_sepc x) (cs_scause x) v (cs_spp x) (cs_spie x) (cs_sip x) (cs_satp x).
Definition set_cs_spp (v : bool) (x : csr) : csr :=
  Csr (cs_stvec x) (cs_sepc x) (cs_scause x) (cs_stval x) v (cs_spie x) (cs_sip x) (cs_satp x).
Definition set_cs_spie (v : bool) (x : csr) : csr :=
  Csr (cs_stvec x) (cs_sepc x) (cs_scause x) (cs_stval x) (cs_spp x) v (cs_sip x) (cs_satp x).
Definition set_cs_sip (v : Z) (x : csr) : csr :=
  Csr (cs_stvec x) (cs_sepc x) (cs_scause x) (cs_stval x) (cs_spp x) (cs_spie x) v (cs_satp x).
Definition set_cs_satp (v : Z) (x : csr) : csr :=
  Csr (cs_stvec x) (cs_sepc x) (cs_scause x) (cs_stval x) (cs_spp x) (cs_spie x) (cs_sip x) v.

(** ** kernel/virtio_disk.c *)

Definition NUM : Z := 8.

Record virtq_desc := Desc { d_addr : Z; d_len : Z; d_flags : Z; d_next : Z }.
Record blk_req := BlkReq { rq_type : Z; rq_reserved : Z; rq_sector : Z }.

(** struct disk: the three rings shared with the device and the driver's own book-keeping *)
Record vdisk := Vdisk {
  vd_desc : list virtq_desc;
  vd_avail_idx : Z;
  vd_avail_ring : list Z;
  vd_used_idx_dev : Z;
  vd_used_ring : list Z;
  vd_free : list bool;
  vd_used_idx : Z;
  vd_info_b : list (option nat);
  vd_info_status : list Z;
  vd_ops : list blk_req;
  vd_lock : spinlock
}.
Definition set_vd_desc (v : list virtq_desc) (x : vdisk) : vdisk :=
  Vdisk v (vd_avail_idx x) (vd_avail_ring x) (vd_used_idx_dev x) (vd_used_ring x) (vd_free x)
    (vd_used_idx x) (vd_info_b x) (vd_info_status x) (vd_ops x) (vd_lock x).
Definition set_vd_avail_idx (v : Z) (x : vdisk) : vdisk :=
  Vdisk (vd_desc x) v (vd_avail_ring x) (vd_used_idx_dev x) (vd_used_ring x) (vd_free x) (vd_used_idx x)
    (vd_info_b x) (vd_info_status x) (vd_ops x) (vd_lock x).
Definition set_vd_avail_ring (v : list Z) (x : vdisk) : vdisk :=
  Vdisk (vd_desc x) (vd_avail_idx x) v (vd_used_idx_dev x) (vd_used_ring x) (vd_free x) (vd_used_idx x)
    (vd_info_b x) (vd_info_status x) (vd_ops x) (vd_lock x).
Definition set_vd_used_idx_dev (v : Z) (x : vdisk) : vdisk :=
  Vdisk (vd_desc x) (vd_avail_idx x) (vd_avail_ring x) v (vd_used_ring x) (vd_free x) (vd_used_idx x)
    (vd_info_b x) (vd_info_status x) (vd_ops x) (vd_lock x).
Definition set_vd_used_ring (v : list Z) (x : vdisk) : vdisk :=
  Vdisk (vd_desc x) (vd_avail_idx x) (vd_avail_ring x) (vd_used_idx_dev x) v (vd_free x) (vd_used_idx x)
    (vd_info_b x) (vd_info_status x) (vd_ops x) (vd_lock x).
Definition set_vd_free (v : list bool) (x : vdisk) : vdisk :=
  Vdisk (vd_desc x) (vd_avail_idx x) (vd_avail_ring x) (vd_used_idx_dev x) (vd_used_ring x)
    v (vd_used_idx x) (vd_info_b x) (vd_info_status x) (vd_ops x) (vd_lock x).
Definition set_vd_used_idx (v : Z) (x : vdisk) : vdisk :=
  Vdisk (vd_desc x) (vd_avail_idx x) (vd_avail_ring x) (vd_used_idx_dev x) (vd_used_ring x) (vd_free x)
    v (vd_info_b x) (vd_info_status x) (vd_ops x) (vd_lock x).
Definition set_vd_info_b (v : list (option nat)) (x : vdisk) : vdisk :=
  Vdisk (vd_desc x) (vd_avail_idx x) (vd_avail_ring x) (vd_used_idx_dev x) (vd_used_ring x) (vd_free x)
    (vd_used_idx x) v (vd_info_status x) (vd_ops x) (vd_lock x).
Definition set_vd_info_status (v : list Z) (x : vdisk) : vdisk :=
  Vdisk (vd_desc x) (vd_avail_idx x) (vd_avail_ring x) (vd_used_idx_dev x) (vd_used_ring x) (vd_free x)
    (vd_used_idx x) (vd_info_b x) v (vd_ops x) (vd_lock x).
Definition set_vd_ops (v : list blk_req) (x : vdisk) : vdisk :=
  Vdisk (vd_desc x) (vd_avail_idx x) (vd_avail_ring x) (vd_used_idx_dev x) (vd_used_ring x) (vd_free x)
    (vd_used_idx x) (vd_info_b x) (vd_info_status x) v (vd_lock x).
Definition set_vd_lock (v : spinlock) (x : vdisk) : vdisk :=
  Vdisk (vd_desc x) (vd_avail_idx x) (vd_avail_ring x) (vd_used_idx_dev x) (vd_used_ring x) (vd_free x)
    (vd_used_idx x) (vd_info_b x) (vd_info_status x) (vd_ops x) v.

(** ** The disk

    What is stored on the medium: an image and the block writes that reached
    it since, oldest first. *)

(** The medium *)
Record disk := Disk {
  dk_image : Z -> list Z;
  dk_writes : list (Z * list Z)
}.
Definition set_dk_image (v : Z -> list Z) (x : disk) : disk :=
  Disk v (dk_writes x).
Definition set_dk_writes (v : list (Z * list Z)) (x : disk) : disk :=
  Disk (dk_image x) v.

(** ** The whole kernel *)
(** [k_mmio] is the stores to device registers (UART, PLIC, virtio), oldest
    first. *)
(** Global variables *)
Record kern := Kern {
  kk : kst;
  k_bcache : bcache;
  k_log : log;
  k_sb : superblock;
  k_itable : itable;
  k_ftable : ftable;
  k_devsw : list (option devfn);
  k_pipes : gmap Z pipe;
  k_cons : cons;
  k_uart : uart;
  k_tickslock : spinlock;
  k_ticks : Z;
  k_vdisk : vdisk;
  k_disk : disk;
  k_pid_lock : spinlock;
  k_wait_lock : spinlock;
  k_nextpid : Z;
  k_initproc : option nat;
  k_first : bool;
  k_pr : pr;
  k_panicked : bool;
  k_started : bool;
  k_kernel_pagetable : Z;
  k_csr : csr;
  k_mmio : list (Z * Z)
}.
Definition set_kk (v : kst) (x : kern) : kern :=
  Kern v (k_bcache x) (k_log x) (k_sb x) (k_itable x) (k_ftable x) (k_devsw x) (k_pipes x) (k_cons x)
    (k_uart x) (k_tickslock x) (k_ticks x) (k_vdisk x) (k_disk x) (k_pid_lock x) (k_wait_lock x)
    (k_nextpid x) (k_initproc x) (k_first x) (k_pr x) (k_panicked x) (k_started x) (k_kernel_pagetable x)
    (k_csr x) (k_mmio x).
Definition set_k_bcache (v : bcache) (x : kern) : kern :=
  Kern (kk x) v (k_log x) (k_sb x) (k_itable x) (k_ftable x) (k_devsw x) (k_pipes x) (k_cons x)
    (k_uart x) (k_tickslock x) (k_ticks x) (k_vdisk x) (k_disk x) (k_pid_lock x) (k_wait_lock x)
    (k_nextpid x) (k_initproc x) (k_first x) (k_pr x) (k_panicked x) (k_started x) (k_kernel_pagetable x)
    (k_csr x) (k_mmio x).
Definition set_k_log (v : log) (x : kern) : kern :=
  Kern (kk x) (k_bcache x) v (k_sb x) (k_itable x) (k_ftable x) (k_devsw x) (k_pipes x) (k_cons x)
    (k_uart x) (k_tickslock x) (k_ticks x) (k_vdisk x) (k_disk x) (k_pid_lock x) (k_wait_lock x)
    (k_nextpid x) (k_initproc x) (k_first x) (k_pr x) (k_panicked x) (k_started x) (k_kernel_pagetable x)
    (k_csr x) (k_mmio x).
Definition set_k_sb (v : superblock) (x : kern) : kern :=
  Kern (kk x) (k_bcache x) (k_log x) v (k_itable x) (k_ftable x) (k_devsw x) (k_pipes x) (k_cons x)
    (k_uart x) (k_tickslock x) (k_ticks x) (k_vdisk x) (k_disk x) (k_pid_lock x) (k_wait_lock x)
    (k_nextpid x) (k_initproc x) (k_first x) (k_pr x) (k_panicked x) (k_started x) (k_kernel_pagetable x)
    (k_csr x) (k_mmio x).
Definition set_k_itable (v : itable) (x : kern) : kern :=
  Kern (kk x) (k_bcache x) (k_log x) (k_sb x) v (k_ftable x) (k_devsw x) (k_pipes x) (k_cons x)
    (k_uart x) (k_tickslock x) (k_ticks x) (k_vdisk x) (k_disk x) (k_pid_lock x) (k_wait_lock x)
    (k_nextpid x) (k_initproc x) (k_first x) (k_pr x) (k_panicked x) (k_started x) (k_kernel_pagetable x)
    (k_csr x) (k_mmio x).
Definition set_k_ftable (v : ftable) (x : kern) : kern :=
  Kern (kk x) (k_bcache x) (k_log x) (k_sb x) (k_itable x) v (k_devsw x) (k_pipes x) (k_cons x)
    (k_uart x) (k_tickslock x) (k_ticks x) (k_vdisk x) (k_disk x) (k_pid_lock x) (k_wait_lock x)
    (k_nextpid x) (k_initproc x) (k_first x) (k_pr x) (k_panicked x) (k_started x) (k_kernel_pagetable x)
    (k_csr x) (k_mmio x).
Definition set_k_devsw (v : list (option devfn)) (x : kern) : kern :=
  Kern (kk x) (k_bcache x) (k_log x) (k_sb x) (k_itable x) (k_ftable x) v (k_pipes x) (k_cons x)
    (k_uart x) (k_tickslock x) (k_ticks x) (k_vdisk x) (k_disk x) (k_pid_lock x) (k_wait_lock x)
    (k_nextpid x) (k_initproc x) (k_first x) (k_pr x) (k_panicked x) (k_started x) (k_kernel_pagetable x)
    (k_csr x) (k_mmio x).
Definition set_k_pipes (v : gmap Z pipe) (x : kern) : kern :=
  Kern (kk x) (k_bcache x) (k_log x) (k_sb x) (k_itable x) (k_ftable x) (k_devsw x) v (k_cons x)
    (k_uart x) (k_tickslock x) (k_ticks x) (k_vdisk x) (k_disk x) (k_pid_lock x) (k_wait_lock x)
    (k_nextpid x) (k_initproc x) (k_first x) (k_pr x) (k_panicked x) (k_started x) (k_kernel_pagetable x)
    (k_csr x) (k_mmio x).
Definition set_k_cons (v : cons) (x : kern) : kern :=
  Kern (kk x) (k_bcache x) (k_log x) (k_sb x) (k_itable x) (k_ftable x) (k_devsw x) (k_pipes x)
    v (k_uart x) (k_tickslock x) (k_ticks x) (k_vdisk x) (k_disk x) (k_pid_lock x) (k_wait_lock x)
    (k_nextpid x) (k_initproc x) (k_first x) (k_pr x) (k_panicked x) (k_started x) (k_kernel_pagetable x)
    (k_csr x) (k_mmio x).
Definition set_k_uart (v : uart) (x : kern) : kern :=
  Kern (kk x) (k_bcache x) (k_log x) (k_sb x) (k_itable x) (k_ftable x) (k_devsw x) (k_pipes x)
    (k_cons x) v (k_tickslock x) (k_ticks x) (k_vdisk x) (k_disk x) (k_pid_lock x) (k_wait_lock x)
    (k_nextpid x) (k_initproc x) (k_first x) (k_pr x) (k_panicked x) (k_started x) (k_kernel_pagetable x)
    (k_csr x) (k_mmio x).
Definition set_k_tickslock (v : spinlock) (x : kern) : kern :=
  Kern (kk x) (k_bcache x) (k_log x) (k_sb x) (k_itable x) (k_ftable x) (k_devsw x) (k_pipes x)
    (k_cons x) (k_uart x) v (k_ticks x) (k_vdisk x) (k_disk x) (k_pid_lock x) (k_wait_lock x)
    (k_nextpid x) (k_initproc x) (k_first x) (k_pr x) (k_panicked x) (k_started x) (k_kernel_pagetable x)
    (k_csr x) (k_mmio x).
Definition set_k_ticks (v : Z) (x : kern) : kern :=
  Kern (kk x) (k_bcache x) (k_log x) (k_sb x) (k_itable x) (k_ftable x) (k_devsw x) (k_pipes x)
    (k_cons x) (k_uart x) (k_tickslock x) v (k_vdisk x) (k_disk x) (k_pid_lock x) (k_wait_lock x)
    (k_nextpid x) (k_initproc x) (k_first x) (k_pr x) (k_panicked x) (k_started x) (k_kernel_pagetable x)
    (k_csr x) (k_mmio x).
Definition set_k_vdisk (v : vdisk) (x : kern) : kern :=
  Kern (kk x) (k_bcache x) (k_log x) (k_sb x) (k_itable x) (k_ftable x) (k_devsw x) (k_pipes x)
    (k_cons x) (k_uart x) (k_tickslock x) (k_ticks x) v (k_disk x) (k_pid_lock x) (k_wait_lock x)
    (k_nextpid x) (k_initproc x) (k_first x) (k_pr x) (k_panicked x) (k_started x) (k_kernel_pagetable x)
    (k_csr x) (k_mmio x).
Definition set_k_disk (v : disk) (x : kern) : kern :=
  Kern (kk x) (k_bcache x) (k_log x) (k_sb x) (k_itable x) (k_ftable x) (k_devsw x) (k_pipes x)
    (k_cons x) (k_uart x) (k_tickslock x) (k_ticks x) (k_vdisk x) v (k_pid_lock x) (k_wait_lock x)
    (k_nextpid x) (k_initproc x) (k_first x) (k_pr x) (k_panicked x) (k_started x) (k_kernel_pagetable x)
    (k_csr x) (k_mmio x).
Definition set_k_pid_lock (v : spinlock) (x : kern) : kern :=
  Kern (kk x) (k_bcache x) (k_log x) (k_sb x) (k_itable x) (k_ftable x) (k_devsw x) (k_pipes x)
    (k_cons x) (k_uart x) (k_tickslock x) (k_ticks x) (k_vdisk x) (k_disk x) v (k_wait_lock x)
    (k_nextpid x) (k_initproc x) (k_first x) (k_pr x) (k_panicked x) (k_started x) (k_kernel_pagetable x)
    (k_csr x) (k_mmio x).
Definition set_k_wait_lock (v : spinlock) (x : kern) : kern :=
  Kern (kk x) (k_bcache x) (k_log x) (k_sb x) (k_itable x) (k_ftable x) (k_devsw x) (k_pipes x)
    (k_cons x) (k_uart x) (k_tickslock x) (k_ticks x) (k_vdisk x) (k_disk x) (k_pid_lock x)
    v (k_nextpid x) (k_initproc x) (k_first x) (k_pr x) (k_panicked x) (k_started x)
    (k_kernel_pagetable x) (k_csr x) (k_mmio x).
Definition set_k_nextpid (v : Z) (x : kern) : kern :=
  Kern (kk x) (k_bcache x) (k_log x) (k_sb x) (k_itable x) (k_ftable x) (k_devsw x) (k_pipes x)
    (k_cons x) (k_uart x) (k_tickslock x) (k_ticks x) (k_vdisk x) (k_disk x) (k_pid_lock x)
    (k_wait_lock x) v (k_initproc x) (k_first x) (k_pr x) (k_panicked x) (k_started x)
    (k_kernel_pagetable x) (k_csr x) (k_mmio x).
Definition set_k_initproc (v : option nat) (x : kern) : kern :=
  Kern (kk x) (k_bcache x) (k_log x) (k_sb x) (k_itable x) (k_ftable x) (k_devsw x) (k_pipes x)
    (k_cons x) (k_uart x) (k_tickslock x) (k_ticks x) (k_vdisk x) (k_disk x) (k_pid_lock x)
    (k_wait_lock x) (k_nextpid x) v (k_first x) (k_pr x) (k_panicked x) (k_started x)
    (k_kernel_pagetable x) (k_csr x) (k_mmio x).
Definition set_k_first (v : bool) (x : kern) : kern :=
  Kern (kk x) (k_bcache x) (k_log x) (k_sb x) (k_itable x) (k_ftable x) (k_devsw x) (k_pipes x)
    (k_cons x) (k_uart x) (k_tickslock x) (k_ticks x) (k_vdisk x) (k_disk x) (k_pid_lock x)
    (k_wait_lock x) (k_nextpid x) (k_initproc x) v (k_pr x) (k_panicked x) (k_started x)
    (k_kernel_pagetable x) (k_csr x) (k_mmio x).
Definition set_k_pr (v : pr) (x : kern) : kern :=
  Kern (kk x) (k_bcache x) (k_log x) (k_sb x) (k_itable x) (k_ftable x) (k_devsw x) (k_pipes x)
    (k_cons x) (k_uart x) (k_tickslock x) (k_ticks x) (k_vdisk x) (k_disk x) (k_pid_lock x)
    (k_wait_lock x) (k_nextpid x) (k_initproc x) (k_first x) v (k_panicked x) (k_started x)
    (k_kernel_pagetable x) (k_csr x) (k_mmio x).
Definition set_k_panicked (v : bool) (x : kern) : kern :=
  Kern (kk x) (k_bcache x) (k_log x) (k_sb x) (k_itable x) (k_ftable x) (k_devsw x) (k_pipes x)
    (k_cons x) (k_uart x) (k_tickslock x) (k_ticks x) (k_vdisk x) (k_disk x) (k_pid_lock x)
    (k_wait_lock x) (k_nextpid x) (k_initproc x) (k_first x) (k_pr x) v (k_started x)
    (k_kernel_pagetable x) (k_csr x) (k_mmio x).
Definition set_k_started (v : bool) (x : kern) : kern :=
  Kern (kk x) (k_bcache x) (k_log x) (k_sb x) (k_itable x) (k_ftable x) (k_devsw x) (k_pipes x)
    (k_cons x) (k_uart x) (k_tickslock x) (k_ticks x) (k_vdisk x) (k_disk x) (k_pid_lock x)
    (k_wait_lock x) (k_nextpid x) (k_initproc x) (k_first x) (k_pr x) (k_panicked x)
    v (k_kernel_pagetable x) (k_csr x) (k_mmio x).
Definition set_k_kernel_pagetable (v : Z) (x : kern) : kern :=
  Kern (kk x) (k_bcache x) (k_log x) (k_sb x) (k_itable x) (k_ftable x) (k_devsw x) (k_pipes x)
    (k_cons x) (k_uart x) (k_tickslock x) (k_ticks x) (k_vdisk x) (k_disk x) (k_pid_lock x)
    (k_wait_lock x) (k_nextpid x) (k_initproc x) (k_first x) (k_pr x) (k_panicked x) (k_started x)
    v (k_csr x) (k_mmio x).
Definition set_k_csr (v : csr) (x : kern) : kern :=
  Kern (kk x) (k_bcache x) (k_log x) (k_sb x) (k_itable x) (k_ftable x) (k_devsw x) (k_pipes x)
    (k_cons x) (k_uart x) (k_tickslock x) (k_ticks x) (k_vdisk x) (k_disk x) (k_pid_lock x)
    (k_wait_lock x) (k_nextpid x) (k_initproc x) (k_first x) (k_pr x) (k_panicked x) (k_started x)
    (k_kernel_pagetable x) v (k_mmio x).
Definition set_k_mmio (v : list (Z * Z)) (x : kern) : kern :=
  Kern (kk x) (k_bcache x) (k_log x) (k_sb x) (k_itable x) (k_ftable x) (k_devsw x) (k_pipes x)
    (k_cons x) (k_uart x) (k_tickslock x) (k_ticks x) (k_vdisk x) (k_disk x) (k_pid_lock x)
    (k_wait_lock x) (k_nextpid x) (k_initproc x) (k_first x) (k_pr x) (k_panicked x) (k_started x)
    (k_kernel_pagetable x) (k_csr x) v.

(** ** Lenses *)

Definition field {S T} (g : S -> T) (s : T -> S -> S) : lens S T := Lens (fun x => Some (g x)) s.

Lemma field_ok {S T} (g : S -> T) (s : T -> S -> S) :
  (forall x t, g (s t x) = t) -> (forall x t t', s t (s t' x) = s t x) -> (forall x, s (g x) x = x) ->
  LensOk (field g s).
Proof.
  intros H1 H2 H3. split; simpl; [by intros; rewrite H1|done|].
  intros x t [= <-]. apply H3.
Qed.

Ltac solve_field := apply field_ok; [by intros []|by intros []|by intros []].

Definition kk_l := field kk set_kk.
#[export] Instance kk_l_ok : LensOk kk_l.
Proof. solve_field. Qed.

Definition k_bcache_l := field k_bcache set_k_bcache.
#[export] Instance k_bcache_l_ok : LensOk k_bcache_l.
Proof. solve_field. Qed.

Definition k_log_l := field k_log set_k_log.
#[export] Instance k_log_l_ok : LensOk k_log_l.
Proof. solve_field. Qed.

Definition k_sb_l := field k_sb set_k_sb.
#[export] Instance k_sb_l_ok : LensOk k_sb_l.
Proof. solve_field. Qed.

Definition k_itable_l := field k_itable set_k_itable.
#[export] Instance k_itable_l_ok : LensOk k_itable_l.
Proof. solve_field. Qed.

Definition k_ftable_l := field k_ftable set_k_ftable.
#[export] Instance k_ftable_l_ok : LensOk k_ftable_l.
Proof. solve_field. Qed.

Definition k_devsw_l := field k_devsw set_k_devsw.
#[export] Instance k_devsw_l_ok : LensOk k_devsw_l.
Proof. solve_field. Qed.

Definition k_pipes_l := field k_pipes set_k_pipes.
#[export] Instance k_pipes_l_ok : LensOk k_pipes_l.
Proof. solve_field. Qed.

Definition k_cons_l := field k_cons set_k_cons.
#[export] Instance k_cons_l_ok : LensOk k_cons_l.
Proof. solve_field. Qed.

Definition k_uart_l := field k_uart set_k_uart.
#[export] Instance k_uart_l_ok : LensOk k_uart_l.
Proof. solve_field. Qed.

Definition k_tickslock_l := field k_tickslock set_k_tickslock.
#[export] Instance k_tickslock_l_ok : LensOk k_tickslock_l.
Proof. solve_field. Qed.

Definition k_ticks_l := field k_ticks set_k_ticks.
#[export] Instance k_ticks_l_ok : LensOk k_ticks_l.
Proof. solve_field. Qed.

Definition k_vdisk_l := field k_vdisk set_k_vdisk.
#[export] Instance k_vdisk_l_ok : LensOk k_vdisk_l.
Proof. solve_field. Qed.

Definition k_disk_l := field k_disk set_k_disk.
#[export] Instance k_disk_l_ok : LensOk k_disk_l.
Proof. solve_field. Qed.

Definition k_pid_lock_l := field k_pid_lock set_k_pid_lock.
#[export] Instance k_pid_lock_l_ok : LensOk k_pid_lock_l.
Proof. solve_field. Qed.

Definition k_wait_lock_l := field k_wait_lock set_k_wait_lock.
#[export] Instance k_wait_lock_l_ok : LensOk k_wait_lock_l.
Proof. solve_field. Qed.

Definition k_nextpid_l := field k_nextpid set_k_nextpid.
#[export] Instance k_nextpid_l_ok : LensOk k_nextpid_l.
Proof. solve_field. Qed.

Definition k_initproc_l := field k_initproc set_k_initproc.
#[export] Instance k_initproc_l_ok : LensOk k_initproc_l.
Proof. solve_field. Qed.

Definition k_first_l := field k_first set_k_first.
#[export] Instance k_first_l_ok : LensOk k_first_l.
Proof. solve_field. Qed.

Definition k_pr_l := field k_pr set_k_pr.
#[export] Instance k_pr_l_ok : LensOk k_pr_l.
Proof. solve_field. Qed.

Definition k_panicked_l := field k_panicked set_k_panicked.
#[export] Instance k_panicked_l_ok : LensOk k_panicked_l.
Proof. solve_field. Qed.

Definition k_started_l := field k_started set_k_started.
#[export] Instance k_started_l_ok : LensOk k_started_l.
Proof. solve_field. Qed.

Definition k_kernel_pagetable_l := field k_kernel_pagetable set_k_kernel_pagetable.
#[export] Instance k_kernel_pagetable_l_ok : LensOk k_kernel_pagetable_l.
Proof. solve_field. Qed.

Definition k_csr_l := field k_csr set_k_csr.
#[export] Instance k_csr_l_ok : LensOk k_csr_l.
Proof. solve_field. Qed.

Definition k_mmio_l := field k_mmio set_k_mmio.
#[export] Instance k_mmio_l_ok : LensOk k_mmio_l.
Proof. solve_field. Qed.

Definition bc_lock_l := field bc_lock set_bc_lock.
#[export] Instance bc_lock_l_ok : LensOk bc_lock_l.
Proof. solve_field. Qed.

Definition bc_buf_l := field bc_buf set_bc_buf.
#[export] Instance bc_buf_l_ok : LensOk bc_buf_l.
Proof. solve_field. Qed.

Definition b_lock_l := field b_lock set_b_lock.
#[export] Instance b_lock_l_ok : LensOk b_lock_l.
Proof. solve_field. Qed.

Definition lg_lock_l := field lg_lock set_lg_lock.
#[export] Instance lg_lock_l_ok : LensOk lg_lock_l.
Proof. solve_field. Qed.

Definition it_lock_l := field it_lock set_it_lock.
#[export] Instance it_lock_l_ok : LensOk it_lock_l.
Proof. solve_field. Qed.

Definition it_inode_l := field it_inode set_it_inode.
#[export] Instance it_inode_l_ok : LensOk it_inode_l.
Proof. solve_field. Qed.

Definition i_lock_l := field i_lock set_i_lock.
#[export] Instance i_lock_l_ok : LensOk i_lock_l.
Proof. solve_field. Qed.

Definition ft_lock_l := field ft_lock set_ft_lock.
#[export] Instance ft_lock_l_ok : LensOk ft_lock_l.
Proof. solve_field. Qed.

Definition ft_file_l := field ft_file set_ft_file.
#[export] Instance ft_file_l_ok : LensOk ft_file_l.
Proof. solve_field. Qed.

Definition pi_lock_l := field pi_lock set_pi_lock.
#[export] Instance pi_lock_l_ok : LensOk pi_lock_l.
Proof. solve_field. Qed.

Definition cn_lock_l := field cn_lock set_cn_lock.
#[export] Instance cn_lock_l_ok : LensOk cn_lock_l.
Proof. solve_field. Qed.

Definition ua_lock_l := field ua_lock set_ua_lock.
#[export] Instance ua_lock_l_ok : LensOk ua_lock_l.
Proof. solve_field. Qed.

Definition vd_lock_l := field vd_lock set_vd_lock.
#[export] Instance vd_lock_l_ok : LensOk vd_lock_l.
Proof. solve_field. Qed.

Definition pr_lock_l := field pr_lock set_pr_lock.
#[export] Instance pr_lock_l_ok : LensOk pr_lock_l.
Proof. solve_field. Qed.

Definition sl_lk_l : lens sleeplock spinlock :=
  field sl_lk (fun v x => Sleeplock (sl_locked x) v (sl_name x) (sl_pid x)).
#[export] Instance sl_lk_l_ok : LensOk sl_lk_l.
Proof. solve_field. Qed.

(** The entry of a map. *)
Definition mapped_at (a : Z) {T} : lens (gmap Z T) T := Lens (fun m => m !! a) (fun t m => <[a := t]> m).
#[export] Instance mapped_at_ok a T : LensOk (@mapped_at a T).
Proof.
  split; simpl; intros m.
  - intros t _. apply lookup_insert_eq.
  - intros t t'. apply insert_insert_eq.
  - intros t H. by apply insert_id.
Qed.

(** Table entries seen from the kernel state. *)
Definition bufs_l : lens kern (list buf) := comp k_bcache_l bc_buf_l.
Definition buf_l (b : nat) : lens kern buf := comp bufs_l (elem b).
Definition inode_l (i : nat) : lens kern inode := comp (comp k_itable_l it_inode_l) (elem i).
Definition file_l (f : nat) : lens kern file := comp (comp k_ftable_l ft_file_l) (elem f).
Definition pipe_l (pi : Z) : lens kern pipe := comp k_pipes_l (mapped_at pi).

(** What a block holds now. *)
Fixpoint blocks_after (img : Z -> list Z) (ws : list (Z * list Z)) : Z -> list Z :=
  match ws with
  | [] => img
  | (b, d) :: ws => blocks_after (fun x => if x =? b then d else img x) ws
  end.
Definition disk_get (d : disk) : Z -> list Z := blocks_after (dk_image d) (dk_writes d).
Definition disk_put (b : Z) (data : list Z) (d : disk) : disk :=
  Disk (dk_image d) (dk_writes d ++ [(b, data)]).

Lemma blocks_after_app img ws ws' :
  blocks_after img (ws ++ ws') = blocks_after (blocks_after img ws) ws'.
Proof. revert img. induction ws as [|[b d] ws IH]; intros img; simpl; [done|apply IH]. Qed.

Lemma disk_get_put b data d x : disk_get (disk_put b data d) x = if x =? b then data else disk_get d x.
Proof. unfold disk_get, disk_put. simpl. by rewrite blocks_after_app. Qed.
