(* ===== verification/Sched.v ===== *)
(** * Sleeping, waking and switching (kernel/proc.c)

    sched(), yield(), sleep(), wakeup(), kill() and the scheduler loop.  They
    touch only the hart and the process table, so they run over any component
    state.  [swtch] is where a run is suspended: what sleep() and sched()
    guarantee at that point, and what they need to be resumed, is stated with
    [wp]. *)

From stdpp Require Import base numbers list list_numbers gmap strings.
From Stdlib Require Import ZArith Lia.
From S2P Require Import Prelude.
From S2P Require Import Machine.
From S2P Require Import Spinlock.
From S2P Require Import Kalloc.

Local Open Scope Z_scope.

Section Code.
Context {S : Type}.

(** The pointer myproc() returns, dereferenced. *)
Definition curproc : K S nat :=
  p ← myproc;
  match p with Some i => mret i | None => fault end.

Definition pget (i : nat) : K S proc := load (inC (proc_lens i)).
Definition pupd (i : nat) (f : proc -> proc) : K S unit := update (inC (proc_lens i)) f.
Definition p_lk (i : nat) : lens (ctx * S) spinlock := inC (plock i).

Definition all_procs : list nat := seq 0 (Z.to_nat NPROC).

Definition sched : K S unit :=
  p ← curproc;
  h ← holding (p_lk p);
  if negb h then panic "sched p->lock" else
  c ← mycpu;
  if negb (c_noff c =? 1) then panic "sched locks" else
  pr ← pget p;
  if bool_decide (p_state pr = RUNNING) then panic "sched running" else
  i ← intr_get;
  if (i : bool) then panic "sched interruptible" else
  c ← mycpu;
  let intena := c_intena c in
  swtch ;;
  upd_mycpu (set_c_intena intena).

Definition yield : K S unit :=
  p ← curproc;
  acquire (p_lk p) ;;
  pupd p (set_p_state RUNNABLE) ;;
  sched ;;
  release (p_lk p).

Definition sleep (ch : chan) (lk : lens (ctx * S) spinlock) : K S unit :=
  p ← curproc;
  acquire (p_lk p) ;;
  release lk ;;
  pupd p (set_p_chan (Some ch)) ;;
  pupd p (set_p_state SLEEPING) ;;
  sched ;;
  pupd p (set_p_chan None) ;;
  release (p_lk p) ;;
  acquire lk.

Definition wakeup_body (ch : chan) (p : nat) : K S unit :=
  me ← myproc;
  if bool_decide (me = Some p) then mret tt else
  acquire (p_lk p) ;;
  pr ← pget p;
  (if bool_decide (p_state pr = SLEEPING) && bool_decide (p_chan pr = Some ch)
   then pupd p (set_p_state RUNNABLE) else mret tt) ;;
  release (p_lk p).
Definition wakeup (ch : chan) : K S unit := for_each all_procs (wakeup_body ch).

Fixpoint kill_loop (ps : list nat) (pid : Z) : K S Z :=
  match ps with
  | [] => mret (-1)
  | p :: ps =>
      acquire (p_lk p) ;;
      pr ← pget p;
      if p_pid pr =? pid then
        pupd p (set_p_killed 1) ;;
        pr ← pget p;
        (if bool_decide (p_state pr = SLEEPING) then pupd p (set_p_state RUNNABLE) else mret tt) ;;
        release (p_lk p) ;;
        mret 0
      else
        release (p_lk p) ;;
        kill_loop ps pid
  end.
Definition kill (pid : Z) : K S Z := kill_loop all_procs pid.

(** One process of the scheduler's inner loop. *)
Definition scheduler_body (p : nat) : K S unit :=
  acquire (p_lk p) ;;
  pr ← pget p;
  (if bool_decide (p_state pr = RUNNABLE) then
     pupd p (set_p_state RUNNING) ;;
     upd_mycpu (set_c_proc (Some p)) ;;
     swtch ;;
     upd_mycpu (set_c_proc None)
   else mret tt) ;;
  release (p_lk p).
Definition scheduler : K S unit :=
  upd_mycpu (set_c_proc None) ;;
  while (mret true) (intr_on ;; for_each all_procs scheduler_body).

End Code.

(** ** Process contexts

    The context of a process in the kernel with no spin lock held: it runs on
    this hart, the table has all its entries and their locks are free. *)
Record ctx_ok (c : ctx) (i : nat) (pid : Z) : Prop := {
  co_cpu : cpu_ok (cx_cpu c);
  co_proc : c_proc (cx_cpu c) = Some i;
  co_pid : exists p, cx_procs c !! i = Some p /\ p_pid p = pid;
  co_len : length (cx_procs c) = Z.to_nat NPROC;
  co_locks : Forall (fun p => lock_free (p_lock p)) (cx_procs c)
}.

(** What wakeup() on [ch] makes of a process. *)
Definition woken (ch : chan) (p : proc) : proc :=
  if bool_decide (p_state p = SLEEPING) && bool_decide (p_chan p = Some ch)
  then set_p_state RUNNABLE p else p.

Definition wake_ctx (ch : chan) (c : ctx) : ctx :=
  Ctx (settle (cx_cpu c))
      (imap (fun j p => if bool_decide (c_proc (cx_cpu c) = Some j) then p else woken ch p) (cx_procs c))
      (cx_fuel c).

Section Runs.
Context {S : Type}.
Implicit Types (c : ctx) (s : S).

Definition set_proc (j : nat) (p : proc) (c : ctx) : ctx := set_cx_procs (<[j := p]> (cx_procs c)) c.

Lemma p_lk_get c s j p : cx_procs c !! j = Some p -> get (p_lk j) (c, s) = Some (p_lock p).
Proof. intros H. unfold p_lk, inC, plock, proc_lens, procs_lens, comp. simpl. by rewrite H. Qed.

Lemma p_lk_put c s j p lk :
  cx_procs c !! j = Some p -> put (p_lk j) lk (c, s) = (set_proc j (set_p_lock lk p) c, s).
Proof. intros H. unfold p_lk, inC, plock, proc_lens, procs_lens, comp. simpl. by rewrite H. Qed.

Lemma pget_run c s j p : cx_procs c !! j = Some p -> pget j (c, s) = Ret p (c, s).
Proof. intros H. unfold pget. apply load_some. unfold inC, proc_lens, procs_lens, comp. simpl. done. Qed.

Lemma pupd_run c s j p f : cx_procs c !! j = Some p -> pupd j f (c, s) = Ret tt (set_proc j (f p) c, s).
Proof.
  intros H. unfold pupd. rewrite (update_some _ _ p) by (unfold inC, proc_lens, procs_lens, comp; done).
  unfold inC, proc_lens, procs_lens, comp. simpl. done.
Qed.

Lemma set_proc_get j p c : is_Some (cx_procs c !! j) -> cx_procs (set_proc j p c) !! j = Some p.
Proof. intros H. simpl. apply list_lookup_insert_eq. by apply lookup_lt_is_Some. Qed.

Lemma set_proc_set j p q c : set_proc j p (set_proc j q c) = set_proc j p c.
Proof. unfold set_proc. destruct c. simpl. by rewrite list_insert_insert_eq. Qed.

Lemma set_proc_cpu j p c cp : set_cx_cpu cp (set_proc j p c) = set_proc j p (set_cx_cpu cp c).
Proof. done. Qed.

(** A critical section of p->lock. *)
Lemma acquire_p c s j p :
  cx_procs c !! j = Some p -> lock_free (p_lock p) ->
  acquire (p_lk j) (c, s) =
    Ret tt (set_proc j (set_p_lock (held (p_lock p) (c_id (cx_cpu c))) p) (set_cx_cpu (push_cpu (cx_cpu c)) c), s).
Proof.
  intros H [Hl _]. unfold p_lk.
  rewrite (acquire_run _ _ (p_lock p)) by (done || by apply p_lk_get).
  unfold upd_cpu. cbn [fst snd]. f_equal. by apply (p_lk_put (set_cx_cpu (push_cpu (cx_cpu c)) c) s j p).
Qed.

Lemma release_p c s j p :
  cx_procs c !! j = Some p -> held_by (p_lock p) (c_id (cx_cpu c)) ->
  c_intr (cx_cpu c) = false -> 1 <= c_noff (cx_cpu c) ->
  release (p_lk j) (c, s) =
    Ret tt (set_proc j (set_p_lock (unheld (p_lock p)) p) (set_cx_cpu (pop_cpu (cx_cpu c)) c), s).
Proof.
  intros H Hh Hi Hn. unfold p_lk.
  rewrite (release_run _ _ (p_lock p)) by (done || by apply p_lk_get).
  fold (@p_lk S j). by rewrite (p_lk_put c s j p).
Qed.

(** Lock p->lock, change the process by [f], unlock. *)
Lemma crit_p c s j p f :
  cx_procs c !! j = Some p -> lock_free (p_lock p) -> cpu_ok (cx_cpu c) ->
  p_lock (f (set_p_lock (held (p_lock p) (c_id (cx_cpu c))) p)) = held (p_lock p) (c_id (cx_cpu c)) ->
  release (p_lk j)
    (set_proc j (f (set_p_lock (held (p_lock p) (c_id (cx_cpu c))) p)) (set_cx_cpu (push_cpu (cx_cpu c)) c), s) =
  Ret tt (set_proc j (set_p_lock (p_lock p) (f (set_p_lock (held (p_lock p) (c_id (cx_cpu c))) p))) (settled c), s).
Proof.
  intros H Hf [Hok1 Hok2] Hlk. set (q := f _) in *.
  rewrite (release_p _ s j q).
  - f_equal. f_equal. rewrite Hlk, set_proc_cpu, set_proc_set. unfold settled. cbn [cx_cpu set_proc set_cx_procs set_cx_cpu].
    rewrite pop_push_cpu by done. f_equal. f_equal. exact (unheld_free _ Hf).
  - apply set_proc_get. simpl. rewrite H. eauto.
  - rewrite Hlk. done.
  - done.
  - simpl. lia.
Qed.

Lemma set_p_lock_same p : set_p_lock (p_lock p) p = p.
Proof. by destruct p. Qed.

Lemma wakeup_body_run c s ch j p :
  cpu_ok (cx_cpu c) -> cx_procs c !! j = Some p -> lock_free (p_lock p) ->
  wakeup_body ch j (c, s) =
    Ret tt (set_proc j (if bool_decide (c_proc (cx_cpu c) = Some j) then p else woken ch p) (settled c), s).
Proof.
  intros Hok Hp Hl. unfold wakeup_body. rewrite (bind_ret _ _ _ _ _ (myproc_run (c, s) Hok)).
  change (upd_cpu settle (c, s)) with (settled c, s). change (c_proc (hart (c, s))) with (c_proc (cx_cpu c)).
  case_bool_decide as Hme.
  { unfold set_proc, set_cx_procs. rewrite list_insert_id by done. done. }
  rewrite (bind_ret _ _ _ _ _ (acquire_p (settled c) s j p Hp Hl)).
  set (p1 := set_p_lock _ p). set (c1 := set_proc j p1 _).
  assert (H1 : cx_procs c1 !! j = Some p1) by (apply set_proc_get; simpl; rewrite Hp; eauto).
  rewrite (bind_ret _ _ _ _ _ (pget_run c1 s j p1 H1)).
  assert (Hcrit := crit_p (settled c) s j p). unfold woken.
  change (p_state p1) with (p_state p). change (p_chan p1) with (p_chan p).
  destruct (bool_decide (p_state p = SLEEPING) && bool_decide (p_chan p = Some ch)).
  - rewrite (bind_ret _ _ _ _ _ (pupd_run c1 s j p1 _ H1)). unfold c1. rewrite set_proc_set. unfold p1.
    rewrite (Hcrit (set_p_state RUNNABLE) Hp Hl (settled_ok _ Hok) eq_refl), settled_idem. by destruct p.
  - rewrite mret_bind. unfold c1, p1. rewrite (Hcrit (fun q => q) Hp Hl (settled_ok _ Hok) eq_refl), settled_idem.
    by destruct p.
Qed.

Lemma settle_proc cp : c_proc (settle cp) = c_proc cp.
Proof. unfold settle. by destruct (c_noff cp =? 0). Qed.

Lemma settle_id cp : c_id (settle cp) = c_id cp.
Proof. unfold settle. by destruct (c_noff cp =? 0). Qed.

Definition wake1 (ch : chan) (me : option nat) (j : nat) (p : proc) : proc :=
  if bool_decide (me = Some j) then p else woken ch p.

Lemma wakeup_loop ch n k c s :
  cpu_ok (cx_cpu c) ->
  (forall j, (k <= j < k + n)%nat -> exists p, cx_procs c !! j = Some p /\ lock_free (p_lock p)) ->
  exists c', for_each (seq k n) (wakeup_body ch) (c, s) = Ret tt (c', s) /\
    cx_cpu c' = (if decide (n = 0%nat) then cx_cpu c else settle (cx_cpu c)) /\ cx_fuel c' = cx_fuel c /\
    (forall j, cx_procs c' !! j =
      if decide (k <= j < k + n)%nat then wake1 ch (c_proc (cx_cpu c)) j <$> cx_procs c !! j else cx_procs c !! j).
Proof.
  revert k c. induction n as [|n IH]; intros k c Hok Hl.
  { exists c. cbn [seq for_each]. split_and!; [done..|]. intros j. by rewrite decide_False by lia. }
  cbn [seq for_each]. destruct (Hl k) as (p & Hp & Hf); [lia|].
  rewrite (bind_ret _ _ _ _ _ (wakeup_body_run c s ch k p Hok Hp Hf)). set (c1 := set_proc k _ _).
  destruct (IH (Datatypes.S k) c1) as (c' & R & Hcpu & Hfu & Hlk).
  { apply settle_ok, Hok. }
  { intros j Hj. destruct (Hl j) as (q & Hq & Hqf); [lia|]. exists q. split; [|done].
    simpl. rewrite list_lookup_insert_ne by lia. done. }
  exists c'. split; [exact R|]. rewrite Hcpu, Hfu. split; [|split; [done|]].
  - destruct (decide (Datatypes.S n = 0%nat)); [lia|]. simpl. rewrite settle_idem. by destruct (decide _).
  - intros j. rewrite Hlk. subst c1. unfold set_proc, settled. cbn [cx_procs cx_cpu set_cx_procs set_cx_cpu]. rewrite settle_proc.
    destruct (decide (j = k)) as [->|Hne].
    + rewrite decide_False, decide_True by lia. rewrite list_lookup_insert_eq by (by eapply lookup_lt_Some).
      rewrite Hp. done.
    + rewrite list_lookup_insert_ne by done.
      destruct (decide (Datatypes.S k <= j < Datatypes.S k + n)%nat), (decide (k <= j < k + Datatypes.S n)%nat); done || lia.
Qed.

Lemma wakeup_run ch c s i pid :
  ctx_ok c i pid -> wakeup ch (c, s) = Ret tt (wake_ctx ch c, s).
Proof.
  intros [Hok Hpr Hpid Hlen Hl]. unfold wakeup, all_procs.
  destruct (wakeup_loop ch (Z.to_nat NPROC) 0 c s Hok) as (c' & R & Hcpu & Hfu & Hlk).
  { intros j Hj. destruct (lookup_lt_is_Some_2 (cx_procs c) j) as [p Hp]; [lia|].
    exists p. split; [done|]. rewrite Forall_forall in Hl. apply Hl. by eapply list_elem_of_lookup_2. }
  rewrite R. f_equal. f_equal. destruct c' as [cp ps fu]. simpl in *. subst cp fu. unfold wake_ctx. f_equal.
  apply list_eq. intros j. rewrite Hlk, list_lookup_imap. destruct (decide _) as [Hj|Hj]; [done|].
  rewrite (proj2 (lookup_ge_None (cx_procs c) j)); [done|lia].
Qed.

Lemma woken_pid ch p : p_pid (woken ch p) = p_pid p.
Proof. unfold woken. by destruct (_ && _). Qed.

Lemma woken_lock ch p : p_lock (woken ch p) = p_lock p.
Proof. unfold woken. by destruct (_ && _). Qed.

Lemma ctx_ok_wake ch c i pid : ctx_ok c i pid -> ctx_ok (wake_ctx ch c) i pid.
Proof.
  intros [Hok Hpr (p & Hp & Hpid) Hlen Hl]. split; simpl.
  - by apply settle_ok.
  - by rewrite settle_proc.
  - rewrite list_lookup_imap, Hp, Hpr. simpl. rewrite bool_decide_true by done. eauto.
  - by rewrite length_imap.
  - apply Forall_lookup. intros j q Hq. rewrite list_lookup_imap in Hq.
    destruct (cx_procs c !! j) as [q0|] eqn:Eq; simplify_eq/=. apply (Forall_lookup_1 _ _ _ _ Hl) in Eq.
    case_bool_decide; [done|]. by rewrite woken_lock.
Qed.

Lemma ctx_ok_settled c i pid : ctx_ok c i pid -> ctx_ok (settled c) i pid.
Proof. intros [Hok Hpr Hpid Hlen Hl]. split; simpl; try done; [by apply settle_ok|by rewrite settle_proc]. Qed.

Lemma curproc_run c s i pid : ctx_ok c i pid -> curproc (c, s) = Ret i (settled c, s).
Proof.
  intros [Hok Hpr _ _ _]. unfold curproc. rewrite (bind_ret _ _ _ _ _ (myproc_run (c, s) Hok)).
  unfold hart. simpl. by rewrite Hpr.
Qed.

(** sched() called as it should be: only p->lock held, the state changed. *)
Lemma sched_run c s i p :
  c_proc (cx_cpu c) = Some i -> cx_procs c !! i = Some p -> held_by (p_lock p) (c_id (cx_cpu c)) ->
  c_noff (cx_cpu c) = 1 -> c_intr (cx_cpu c) = false -> p_state p <> RUNNING ->
  sched (c, s) = Swtch (c, s) (fun w => upd_mycpu (set_c_intena (c_intena (cx_cpu c))) w).
Proof.
  intros Hpr Hp [Hl Hh] Hn Hi Hst. unfold sched, curproc.
  assert (Hok : cpu_ok (hart (c, s))) by (split; unfold hart; simpl; [lia|done]).
  assert (Hse : settle (cx_cpu c) = cx_cpu c) by (unfold settle; by rewrite Hn).
  assert (Hc : upd_cpu settle (c, s) = (c, s)) by (unfold upd_cpu; cbn [fst snd]; rewrite Hse; by destruct c).
  assert (Hm : (p ← myproc; match p with Some i => mret i | None => fault end) (c, s) = Ret i (c, s)).
  { rewrite (bind_ret _ _ _ _ _ (myproc_run (c, s) Hok)), Hc. unfold hart. cbn [fst]. by rewrite Hpr. }
  rewrite (bind_ret _ _ _ _ _ Hm).
  rewrite (bind_ret _ _ _ _ _ (holding_run (p_lk i) (c, s) _ (p_lk_get c s i p Hp))), Hl, Hh.
  rewrite bool_decide_true by done. cbn [andb negb].
  rewrite (bind_ret _ _ _ _ _ (mycpu_run _)). unfold hart. cbn [fst]. rewrite Hn. change (1 =? 1) with true. cbn [negb].
  rewrite (bind_ret _ _ _ _ _ (pget_run c s i p Hp)), bool_decide_false by done.
  assert (Hg : intr_get (c, s) = Ret (c_intr (cx_cpu c)) (c, s)) by done.
  rewrite (bind_ret _ _ _ _ _ Hg), Hi. cbn [negb].
  rewrite (bind_ret _ _ _ _ _ (mycpu_run _)). done.
Qed.

(** The state a process that calls sleep(ch, lk) leaves behind when it gives
    up the CPU: it is on [ch], asleep, with only its own p->lock held. *)
Definition asleep (ch : chan) (h : Z) (p : proc) : proc :=
  set_p_state SLEEPING (set_p_chan (Some ch) (set_p_lock (held (p_lock p) h) p)).

(** The hart of a process that holds exactly one lock. *)
Definition one_lock (i : nat) (c : ctx) : Prop :=
  c_proc (cx_cpu c) = Some i /\ c_noff (cx_cpu c) = 1 /\ c_intr (cx_cpu c) = false.

(** Up to the switch, for any lock that release() can let go of while p->lock
    is held. *)
Lemma sleep_to_switch (lk : lens (ctx * S) spinlock) ch c s s' i p :
  one_lock i c -> cx_procs c !! i = Some p -> lock_free (p_lock p) ->
  (let q := set_p_lock (held (p_lock p) (c_id (cx_cpu c))) p in
   release lk (set_proc i q (set_cx_cpu (push_cpu (cx_cpu c)) c), s) = Ret tt (set_proc i q c, s')) ->
  exists k, sleep ch lk (c, s) = Swtch (set_proc i (asleep ch (c_id (cx_cpu c)) p) c, s') k /\
    forall w, k w = (upd_mycpu (set_c_intena (c_intena (cx_cpu c))) ;;
                     pupd i (set_p_chan None) ;; release (p_lk i) ;; acquire lk) w.
Proof.
  intros (Hpr & Hn & Hi) Hp Hf Hrel. eexists. unfold sleep, curproc.
  assert (Hok : cpu_ok (hart (c, s))) by (split; unfold hart; simpl; [lia|done]).
  assert (Hse : settle (cx_cpu c) = cx_cpu c) by (unfold settle; by rewrite Hn).
  assert (Hc : upd_cpu settle (c, s) = (c, s)) by (unfold upd_cpu; cbn [fst snd]; rewrite Hse; by destruct c).
  assert (Hm : (p ← myproc; match p with Some i => mret i | None => fault end) (c, s) = Ret i (c, s)).
  { rewrite (bind_ret _ _ _ _ _ (myproc_run (c, s) Hok)), Hc. unfold hart. cbn [fst]. by rewrite Hpr. }
  rewrite (bind_ret _ _ _ _ _ Hm), (bind_ret _ _ _ _ _ (acquire_p c s i p Hp Hf)), (bind_ret _ _ _ _ _ Hrel).
  set (c2 := set_proc i (set_p_lock (held (p_lock p) (c_id (cx_cpu c))) p) c).
  assert (Hc2 : cx_procs c2 !! i = Some (set_p_lock (held (p_lock p) (c_id (cx_cpu c))) p)) by (apply set_proc_get; eauto).
  rewrite (bind_ret _ _ _ _ _ (pupd_run c2 _ i _ _ Hc2)). unfold c2. rewrite set_proc_set.
  set (c3 := set_proc i _ c).
  assert (Hc3 : cx_procs c3 !! i = Some (set_p_chan (Some ch) (set_p_lock (held (p_lock p) (c_id (cx_cpu c))) p)))
    by (apply set_proc_get; eauto).
  rewrite (bind_ret _ _ _ _ _ (pupd_run c3 _ i _ _ Hc3)). unfold c3. rewrite set_proc_set.
  unfold mbind at 1, K_bind at 1. fold (asleep ch (c_id (cx_cpu c)) p).
  rewrite (sched_run _ _ i (asleep ch (c_id (cx_cpu c)) p)); [|done|apply set_proc_get; eauto|done..].
  cbn [obind]. split; [reflexivity|]. intros w. done.
Qed.

(** One lock deeper and back. *)
Lemma pop_push_one c i q : one_lock i c -> set_cx_cpu (pop_cpu (push_cpu (cx_cpu c))) (set_proc i q c) = set_proc i q c.
Proof. intros (Hpr & Hn & Hi). destruct c as [[id pr n ie it] ps fu]. simpl in *. by subst. Qed.

Lemma sleep_suspends (l : lens S spinlock) `{!LensOk l} ch c s i p lk :
  one_lock i c -> cx_procs c !! i = Some p -> lock_free (p_lock p) ->
  get l s = Some lk -> held_by lk (c_id (cx_cpu c)) ->
  exists k, sleep ch (inS l) (c, s) = Swtch (set_proc i (asleep ch (c_id (cx_cpu c)) p) c, put l (unheld lk) s) k /\
    forall w, k w = (upd_mycpu (set_c_intena (c_intena (cx_cpu c))) ;;
                     pupd i (set_p_chan None) ;; release (p_lk i) ;; acquire (inS l)) w.
Proof.
  intros H1 Hp Hf Hg Hh. apply sleep_to_switch; [done..|]. cbv zeta. pose proof H1 as (Hpr & Hn & Hi).
  set (c1 := set_proc i _ (set_cx_cpu _ c)).
  rewrite (release_run (inS l) (c1, s) lk Hg Hh eq_refl ltac:(unfold hart; simpl; lia)).
  unfold upd_cpu, inS. cbn [fst snd put]. f_equal. f_equal. exact (pop_push_one c i _ H1).
Qed.

(** Resumed with p->lock held for it, sleep() tidies up and takes lk back. *)
Lemma sleep_resumes (l : lens S spinlock) `{!LensOk l} intena c s i p lk :
  one_lock i c -> cx_procs c !! i = Some p -> held_by (p_lock p) (c_id (cx_cpu c)) ->
  get l s = Some lk -> locked lk = false ->
  (upd_mycpu (set_c_intena intena) ;; pupd i (set_p_chan None) ;; release (p_lk i) ;; acquire (inS l)) (c, s) =
    Ret tt (set_proc i (set_p_lock (unheld (p_lock p)) (set_p_chan None p)) (set_cx_cpu (set_c_intena intena (cx_cpu c)) c),
            put l (held lk (c_id (cx_cpu c))) s).
Proof.
  intros (Hpr & Hn & Hi) Hp Hh Hg Hl.
  assert (H0 : upd_mycpu (set_c_intena intena) (c, s) = Ret tt (set_cx_cpu (set_c_intena intena (cx_cpu c)) c, s)) by done.
  rewrite (bind_ret _ _ _ _ _ H0). set (c1 := set_cx_cpu _ c).
  rewrite (bind_ret _ _ _ _ _ (pupd_run c1 s i p _ Hp)).
  assert (H1 : cx_procs (set_proc i (set_p_chan None p) c1) !! i = Some (set_p_chan None p)) by (apply set_proc_get; simpl; eauto).
  rewrite (bind_ret _ _ _ _ _ (release_p _ s i _ H1 Hh Hi ltac:(simpl; lia))).
  rewrite (acquire_run (inS l) _ lk) by done.
  unfold upd_cpu, inS, hart, set_proc. destruct c as [[id pr n ie it] ps fu]. simpl in *. subst.
  unfold pop_cpu, push_cpu. simpl. rewrite list_insert_insert_eq. by destruct intena.
Qed.

End Runs.

(** ** The order of the locks

    [watched l] is the lock at [l] with a record of every write to it: the
    value written and the process table at that moment. *)

Section Order.
Context {S : Type}.
Implicit Types (c : ctx) (s : S).

Definition watched (l : lens S spinlock) : lens (ctx * (S * list (spinlock * list proc))) spinlock :=
  Lens (fun w => get l (fst (snd w)))
       (fun t w => (fst w, (put l t (fst (snd w)), snd (snd w) ++ [(t, cx_procs (fst w))]))).

Lemma watched_release (l : lens S spinlock) `{!LensOk l} c s tr lk :
  get l s = Some lk -> held_by lk (c_id (cx_cpu c)) -> c_intr (cx_cpu c) = false -> 1 <= c_noff (cx_cpu c) ->
  release (watched l) (c, (s, tr)) =
    Ret tt (set_cx_cpu (pop_cpu (cx_cpu c)) c,
            (put l (unheld lk) s, tr ++ [(Spinlock true (lk_name lk) None, cx_procs c); (unheld lk, cx_procs c)])).
Proof.
  intros Hg [Hl Hc] Hi Hn. unfold release.
  assert (Hh : holding (watched l) (c, (s, tr)) = Ret true (c, (s, tr))).
  { rewrite (holding_run (watched l) (c, (s, tr)) lk Hg). unfold hart. cbn [fst]. by rewrite Hl, bool_decide_true. }
  rewrite (bind_ret _ _ _ _ _ Hh). cbn [negb].
  erewrite bind_ret by (eapply update_some; exact Hg). cbn [put watched fst snd]. rewrite Hl.
  set (lk1 := Spinlock true (lk_name lk) None).
  assert (Hg1 : get (watched l) (c, (put l lk1 s, tr ++ [(lk1, cx_procs c)])) = Some lk1) by (cbn [get watched fst snd]; apply get_put; eauto).
  rewrite (bind_ret _ _ _ _ _ (update_some _ _ _ _ Hg1)). cbn [put watched fst snd]. rewrite put_put, <- app_assoc. by apply pop_off_run.
Qed.

Lemma watched_acquire (l : lens S spinlock) `{!LensOk l} c s tr lk :
  get l s = Some lk -> locked lk = false ->
  acquire (watched l) (c, (s, tr)) =
    Ret tt (set_cx_cpu (push_cpu (cx_cpu c)) c,
            (put l (held lk (c_id (cx_cpu c))) s,
             tr ++ [(Spinlock true (lk_name lk) (lk_cpu lk), cx_procs c); (held lk (c_id (cx_cpu c)), cx_procs c)])).
Proof.
  intros Hg Hf. unfold acquire. rewrite (bind_ret _ _ _ _ _ (push_off_run _)). unfold upd_cpu. cbn [fst snd].
  set (c1 := set_cx_cpu _ c). assert (Hg1 : get (watched l) (c1, (s, tr)) = Some lk) by exact Hg.
  rewrite (bind_ret _ _ _ _ _ (holding_run (watched l) (c1, (s, tr)) lk Hg1)), Hf. cbn [andb].
  rewrite (bind_ret _ _ _ _ _ (test_and_set_run (watched l) (c1, (s, tr)) lk Hg1)), Hf. cbn [put watched fst snd].
  set (lk1 := Spinlock true (lk_name lk) (lk_cpu lk)). rewrite (bind_ret _ _ _ _ _ (mycpu_run _)).
  erewrite update_some by (cbn [get watched fst snd]; apply get_put; eauto). cbn [put watched fst snd]. by rewrite put_put, <- app_assoc.
Qed.

(** The two writes of release() find p->lock held. *)
Lemma watched_suspends (l : lens S spinlock) `{!LensOk l} ch c s tr i p lk :
  one_lock i c -> cx_procs c !! i = Some p -> lock_free (p_lock p) ->
  get l s = Some lk -> held_by lk (c_id (cx_cpu c)) ->
  let ps := <[i := set_p_lock (held (p_lock p) (c_id (cx_cpu c))) p]> (cx_procs c) in
  exists k,
    sleep ch (watched l) (c, (s, tr)) =
      Swtch (set_proc i (asleep ch (c_id (cx_cpu c)) p) c,
             (put l (unheld lk) s, tr ++ [(Spinlock true (lk_name lk) None, ps); (unheld lk, ps)])) k /\
    forall w, k w = (upd_mycpu (set_c_intena (c_intena (cx_cpu c))) ;;
                     pupd i (set_p_chan None) ;; release (p_lk i) ;; acquire (watched l)) w.
Proof.
  intros H1 Hp Hf Hg Hh ps. apply sleep_to_switch; [done..|]. cbv zeta. pose proof H1 as (Hpr & Hn & Hi).
  set (c1 := set_proc i _ (set_cx_cpu _ c)). rewrite (watched_release l c1 s tr lk Hg Hh eq_refl ltac:(simpl; lia)). f_equal. f_equal. exact (pop_push_one c i _ H1).
Qed.

(** Resumed, sleep() writes lk only after p->lock is released. *)
Lemma watched_resumes (l : lens S spinlock) `{!LensOk l} intena c s tr i p lk :
  one_lock i c -> cx_procs c !! i = Some p -> held_by (p_lock p) (c_id (cx_cpu c)) ->
  get l s = Some lk -> locked lk = false ->
  let q := set_p_lock (unheld (p_lock p)) (set_p_chan None p) in
  let ps := <[i := q]> (cx_procs c) in
  (upd_mycpu (set_c_intena intena) ;; pupd i (set_p_chan None) ;; release (p_lk i) ;; acquire (watched l)) (c, (s, tr)) =
    Ret tt (set_proc i q (set_cx_cpu (set_c_intena intena (cx_cpu c)) c),
            (put l (held lk (c_id (cx_cpu c))) s,
             tr ++ [(Spinlock true (lk_name lk) (lk_cpu lk), ps); (held lk (c_id (cx_cpu c)), ps)])).
Proof.
  intros (Hpr & Hn & Hi) Hp Hh Hg Hl q ps.
  assert (H0 : upd_mycpu (set_c_intena intena) (c, (s, tr)) = Ret tt (set_cx_cpu (set_c_intena intena (cx_cpu c)) c, (s, tr))) by done.
  rewrite (bind_ret _ _ _ _ _ H0). set (c1 := set_cx_cpu _ c).
  rewrite (bind_ret _ _ _ _ _ (pupd_run c1 (s, tr) i p _ Hp)).
  assert (H1 : cx_procs (set_proc i (set_p_chan None p) c1) !! i = Some (set_p_chan None p)) by (apply set_proc_get; simpl; eauto).
  rewrite (bind_ret _ _ _ _ _ (release_p _ (s, tr) i _ H1 Hh Hi ltac:(simpl; lia))).
  rewrite (watched_acquire l _ s tr lk) by done. unfold set_proc, ps, q, c1.
  destruct c as [[id pr n ie it] qs fu]. simpl in *. subst. rewrite list_insert_insert_eq. unfold pop_cpu, push_cpu. simpl. by destruct intena.
Qed.

(** A lock that another hart holds: acquire() spins. *)
Lemma acquire_p_spins c s i p h :
  cx_procs c !! i = Some p -> held_by (p_lock p) h -> c_id (cx_cpu c) <> h -> acquire (p_lk i) (c, s) = Hang.
Proof.
  intros Hp [Hl Hc] Hne. unfold acquire. rewrite (bind_ret _ _ _ _ _ (push_off_run (c, s))).
  assert (Hg : get (p_lk i) (upd_cpu push_cpu (c, s)) = Some (p_lock p)) by (by apply p_lk_get).
  rewrite (bind_ret _ _ _ _ _ (holding_run (p_lk i) _ _ Hg)), Hl, Hc, bool_decide_false by (unfold hart; cbn; congruence). cbn [andb].
  by rewrite (bind_ret _ _ _ _ _ (test_and_set_run (p_lk i) _ _ Hg)), Hl.
Qed.

End Order.

Section More.
Context {S : Type}.
Implicit Types (c : ctx) (s : S).

(** ** kill() *)

Definition killed_proc (p : proc) : proc :=
  let p' := set_p_killed 1 p in
  if bool_decide (p_state p = SLEEPING) then set_p_state RUNNABLE p' else p'.

Lemma kill_loop_run ps pid c s :
  cpu_ok (cx_cpu c) -> (forall j, j ∈ ps -> exists p, cx_procs c !! j = Some p /\ lock_free (p_lock p)) -> ps <> [] ->
  kill_loop ps pid (c, s) =
    match list_find (fun j => (p_pid <$> cx_procs c !! j) = Some pid) ps with
    | Some (_, j) => match cx_procs c !! j with
                     | Some p => Ret 0 (set_proc j (killed_proc p) (settled c), s)
                     | None => Fault
                     end
    | None => Ret (-1) (settled c, s)
    end.
Proof.
  revert c. induction ps as [|j ps IH]; intros c Hok Hl Hne; [done|]. clear Hne. cbn [kill_loop list_find].
  destruct (Hl j) as (p & Hp & Hf); [by left|].
  rewrite (bind_ret _ _ _ _ _ (acquire_p c s j p Hp Hf)). set (p1 := set_p_lock _ p). set (c1 := set_proc j p1 _).
  assert (H1 : cx_procs c1 !! j = Some p1) by (apply set_proc_get; simpl; eauto).
  rewrite (bind_ret _ _ _ _ _ (pget_run c1 s j p1 H1)). change (p_pid p1) with (p_pid p).
  rewrite Hp. cbn [fmap option_fmap option_map]. destruct (Z.eqb_spec (p_pid p) pid) as [E|E].
  - rewrite decide_True by (by rewrite E). rewrite (bind_ret _ _ _ _ _ (pupd_run c1 s j p1 _ H1)).
    unfold c1. rewrite set_proc_set. set (c2 := set_proc j _ _).
    assert (H2 : cx_procs c2 !! j = Some (set_p_killed 1 p1)) by (apply set_proc_get; simpl; eauto).
    rewrite (bind_ret _ _ _ _ _ (pget_run c2 s j _ H2)). change (p_state (set_p_killed 1 p1)) with (p_state p).
    unfold killed_proc. pose proof (crit_p c s j p) as Hcr. destruct (bool_decide (p_state p = SLEEPING)) eqn:Eb.
    + rewrite (bind_ret _ _ _ _ _ (pupd_run c2 s j _ _ H2)). unfold c2. rewrite set_proc_set. unfold p1.
      rewrite (bind_ret _ _ _ _ _ (Hcr (fun q => set_p_state RUNNABLE (set_p_killed 1 q)) Hp Hf Hok eq_refl)), Hp.
      rewrite Eb. by destruct p.
    + rewrite mret_bind. unfold c2, p1.
      rewrite (bind_ret _ _ _ _ _ (Hcr (set_p_killed 1) Hp Hf Hok eq_refl)), Hp, Eb. by destruct p.
  - rewrite decide_False by congruence. unfold c1, p1.
    rewrite (bind_ret _ _ _ _ _ (crit_p c s j p (fun q => q) Hp Hf Hok eq_refl)).
    replace (set_proc j _ (settled c)) with (settled c).
    2: { unfold set_proc, settled. destruct c, p. simpl in *. by rewrite list_insert_id. }
    destruct ps as [|j' ps].
    + done.
    + rewrite IH; [|by apply settled_ok| |done].
      * rewrite settled_idem. cbn [cx_procs settled set_cx_cpu]. by destruct (list_find _ (j' :: ps)) as [[? ?]|].
      * intros q Hq. destruct (Hl q) as (? & ? & ?); [by right|]. eauto.
Qed.

Lemma scheduler_suspends c s j p :
  cx_procs c !! j = Some p -> lock_free (p_lock p) -> p_state p = RUNNABLE ->
  let cp := set_c_proc (Some j) (push_cpu (cx_cpu c)) in
  scheduler_body j (c, s) =
    Swtch (set_cx_cpu cp (set_proc j (set_p_state RUNNING (set_p_lock (held (p_lock p) (c_id cp)) p)) c), s)
          (fun w => (upd_mycpu (set_c_proc None) ;; release (p_lk j)) w).
Proof.
  intros Hp Hf Hst. cbv zeta. unfold scheduler_body.
  rewrite (bind_ret _ _ _ _ _ (acquire_p c s j p Hp Hf)). set (p1 := set_p_lock _ p). set (c1 := set_proc j p1 _).
  assert (H1 : cx_procs c1 !! j = Some p1) by (apply set_proc_get; simpl; eauto).
  rewrite (bind_ret _ _ _ _ _ (pget_run c1 s j p1 H1)). change (p_state p1) with (p_state p).
  rewrite bool_decide_true by done. unfold mbind at 1, K_bind at 1.
  rewrite (bind_ret _ _ _ _ _ (pupd_run c1 s j p1 _ H1)). unfold c1. rewrite set_proc_set. done.
Qed.

(** ** The properties *)

(** wakeup(chan) makes RUNNABLE exactly the other processes that sleep on
    chan; every other field of every process, and the component's state, is
    unchanged, and all p->lock are released again. *)
Theorem wakeup_correct ch c s i pid :
  ctx_ok c i pid ->
  wakeup ch (c, s) = Ret tt (wake_ctx ch c, s) /\ ctx_ok (wake_ctx ch c) i pid /\
  forall j p, cx_procs c !! j = Some p ->
    cx_procs (wake_ctx ch c) !! j =
      Some (if bool_decide (j <> i /\ p_state p = SLEEPING /\ p_chan p = Some ch)
            then set_p_state RUNNABLE p else p).
Proof.
  intros H. split; [by eapply wakeup_run|]. split; [by apply ctx_ok_wake|].
  intros j p Hp. simpl. rewrite list_lookup_imap, Hp. simpl. rewrite (co_proc _ _ _ H). unfold woken. f_equal.
  repeat case_bool_decide; simpl; naive_solver.
Qed.

(** C32: sleep(chan, lk) loses no wakeup().  It gives up the CPU with lk
    released, the process SLEEPING on chan and no other lock than p->lock held;
    resumed with p->lock held for it, on any hart, it returns with p->chan
    cleared, p->lock released and lk held again, with its own interrupt-enable
    state.  The record of the writes to lk shows the order: both writes with
    which release() lets lk go happen while p->lock is held and the process is
    otherwise as it was, so that a wakeup() on another hart that takes lk first
    spins at p->lock until the process is asleep and the scheduler has released
    p->lock, and then finds it on chan and makes it RUNNABLE; both writes with
    which lk is taken again happen after p->lock is released. *)
Theorem sleep_correct (l : lens S spinlock) `{!LensOk l} ch c s tr i p lk :
  one_lock i c -> cx_procs c !! i = Some p -> lock_free (p_lock p) ->
  get l s = Some lk -> held_by lk (c_id (cx_cpu c)) ->
  let h := c_id (cx_cpu c) in
  let ps := <[i := set_p_lock (held (p_lock p) h) p]> (cx_procs c) in
  (exists k,
    sleep ch (inS l) (c, s) = Swtch (set_proc i (asleep ch h p) c, put l (unheld lk) s) k /\
    forall c' s' p' lk',
      one_lock i c' -> cx_procs c' !! i = Some p' -> held_by (p_lock p') (c_id (cx_cpu c')) ->
      get l s' = Some lk' -> locked lk' = false ->
      k (c', s') =
        Ret tt (set_proc i (set_p_lock (unheld (p_lock p')) (set_p_chan None p'))
                  (set_cx_cpu (set_c_intena (c_intena (cx_cpu c)) (cx_cpu c')) c'),
                put l (held lk' (c_id (cx_cpu c'))) s')) /\
  (exists k,
    sleep ch (watched l) (c, (s, tr)) =
      Swtch (set_proc i (asleep ch h p) c,
             (put l (unheld lk) s, tr ++ [(Spinlock true (lk_name lk) None, ps); (unheld lk, ps)])) k /\
    forall c' s' tr' p' lk',
      one_lock i c' -> cx_procs c' !! i = Some p' -> held_by (p_lock p') (c_id (cx_cpu c')) ->
      get l s' = Some lk' -> locked lk' = false ->
      let q := set_p_lock (unheld (p_lock p')) (set_p_chan None p') in
      let ps' := <[i := q]> (cx_procs c') in
      k (c', (s', tr')) =
        Ret tt (set_proc i q (set_cx_cpu (set_c_intena (c_intena (cx_cpu c)) (cx_cpu c')) c'),
                (put l (held lk' (c_id (cx_cpu c'))) s',
                 tr' ++ [(Spinlock true (lk_name lk') (lk_cpu lk'), ps'); (held lk' (c_id (cx_cpu c')), ps')]))) /\
  (forall cp fu s', c_id cp <> h -> acquire (p_lk i) (Ctx cp ps fu, s') = Hang) /\
  (forall c' s' j pid, ctx_ok c' j pid -> j <> i ->
    cx_procs c' !! i = Some (set_p_lock (unheld (p_lock p)) (asleep ch h p)) ->
    exists c'', wakeup ch (c', s') = Ret tt (c'', s') /\
      cx_procs c'' !! i = Some (set_p_state RUNNABLE (set_p_lock (unheld (p_lock p)) (asleep ch h p)))).
Proof.
  intros H1 H2 H3 H4 H5 h ps. split_and!.
  - destruct (sleep_suspends l ch c s i p lk H1 H2 H3 H4 H5) as (k & Hk & Hr).
    exists k. split; [done|]. intros. rewrite Hr. by apply sleep_resumes.
  - destruct (watched_suspends l ch c s tr i p lk H1 H2 H3 H4 H5) as (k & Hk & Hr).
    exists k. split; [done|]. intros. rewrite Hr. by apply watched_resumes.
  - intros cp fu s' Hne. eapply (acquire_p_spins _ s' i _ h); [cbn [cx_procs]; apply list_lookup_insert_eq, lookup_lt_is_Some; eauto|done|done].
  - intros c' s' j pid Hc Hj Hp. exists (wake_ctx ch c'). split; [by eapply wakeup_run|].
    simpl. rewrite list_lookup_imap, Hp. simpl. rewrite (co_proc _ _ _ Hc). rewrite bool_decide_false by congruence. unfold woken. cbn -[bool_decide]. by rewrite !bool_decide_true by done.
Qed.

(** kill(pid) marks the first process with that pid killed, wakes it if it
    sleeps, and returns 0; without such a process it returns -1 and changes
    nothing. *)
Theorem kill_correct pid c s i me :
  ctx_ok c i me ->
  match list_find (fun p => p_pid p = pid) (cx_procs c) with
  | Some (j, p) => kill pid (c, s) = Ret 0 (set_proc j (killed_proc p) (settled c), s)
  | None => kill pid (c, s) = Ret (-1) (settled c, s)
  end.
Proof.
  intros [Hok Hpr _ Hlen Hl]. unfold kill. rewrite kill_loop_run; [|done| |done].
  2: { intros j Hj. unfold all_procs in Hj. apply elem_of_seq in Hj.
       destruct (lookup_lt_is_Some_2 (cx_procs c) j) as [p Hp]; [lia|]. exists p. split; [done|].
       by eapply (Forall_lookup_1 _ _ _ _ Hl). }
  destruct (list_find (fun p => p_pid p = pid) (cx_procs c)) as [[j p]|] eqn:E.
  - apply list_find_Some in E as (Hp & Hpid & Hfst).
    assert (list_find (fun j => (p_pid <$> cx_procs c !! j) = Some pid) all_procs = Some (j, j)) as ->.
    { apply list_find_Some. split_and!.
      - unfold all_procs. apply lookup_seq. apply lookup_lt_Some in Hp. lia.
      - rewrite Hp. simpl. by rewrite Hpid.
      - intros k y Hk Hlt. unfold all_procs in Hk. apply lookup_seq in Hk as [-> _].
        destruct (cx_procs c !! (0 + k)%nat) as [q|] eqn:Eq; simpl; [|done]. intros [= Hq]. by eapply (Hfst k). }
    by rewrite Hp.
  - assert (list_find (fun j => (p_pid <$> cx_procs c !! j) = Some pid) all_procs = None) as ->; [|done].
    apply list_find_None. apply list_find_None in E. apply Forall_forall. intros j _.
    destruct (cx_procs c !! j) as [q|] eqn:Eq; simpl; [|done]. intros [= Hq].
    by apply (Forall_lookup_1 _ _ _ _ E Eq).
Qed.

End More.

(** ** A concrete process table *)

Definition lk0 : spinlock := Spinlock false "" None.
Definition proc0 : proc :=
  Proc lk0 UNUSED None 0 0 0 None 0 0 0 0 (Context 0 0 []) (replicate 16 None) None [].
Definition sleeper (pid : Z) (ch : chan) : proc := set_p_chan (Some ch) (set_p_state SLEEPING (set_p_pid pid proc0)).
Definition runner (pid : Z) : proc := set_p_state RUNNING (set_p_pid pid proc0).
(** Process 1 runs, process 2 sleeps on the log, process 3 on the clock. *)
Definition procs3 : list proc :=
  [runner 1; sleeper 2 ChLog; sleeper 3 ChTicks] ++ replicate 61 proc0.
Definition ctx3 : ctx := Ctx (Cpu 0 (Some 0%nat) 0 false true) procs3 1.

Lemma procs3_free : Forall (fun p => lock_free (p_lock p)) procs3.
Proof. unfold procs3. apply Forall_app. split; [by repeat constructor|]. by apply Forall_replicate. Qed.

Lemma ctx3_ok : ctx_ok ctx3 0 1.
Proof. split; [split; simpl; [lia|done]|done|by exists (runner 1)|done|apply procs3_free]. Qed.

Lemma wakeup_correct_witness :
  wakeup ChLog (ctx3, tt) = Ret tt (wake_ctx ChLog ctx3, tt) /\
  cx_procs (wake_ctx ChLog ctx3) !! 1%nat = Some (set_p_state RUNNABLE (sleeper 2 ChLog)) /\
  cx_procs (wake_ctx ChLog ctx3) !! 2%nat = Some (sleeper 3 ChTicks).
Proof.
  destruct (wakeup_correct ChLog ctx3 tt 0 1 ctx3_ok) as (R & _ & H).
  split; [exact R|]. split; [exact (H 1%nat _ eq_refl)|exact (H 2%nat _ eq_refl)].
Defined.

Definition ctx3_locked : ctx := set_cx_cpu (Cpu 0 (Some 0%nat) 1 true false) ctx3.
Definition only_lock : lens spinlock spinlock := Lens Some (fun l _ => l).
#[export] Instance only_lock_ok : LensOk only_lock.
Proof. split; [done|done|]. by intros s t [= ->]. Qed.

Lemma sleep_correct_witness :
  exists k, sleep ChTicks (watched only_lock) (ctx3_locked, (held lk0 0, [])) =
    Swtch (set_proc 0 (asleep ChTicks 0 (runner 1)) ctx3_locked,
           (lk0, [(Spinlock true "" None, <[0%nat := set_p_lock (held lk0 0) (runner 1)]> procs3);
                  (lk0, <[0%nat := set_p_lock (held lk0 0) (runner 1)]> procs3)])) k.
Proof.
  destruct (sleep_correct only_lock ChTicks ctx3_locked (held lk0 0) [] 0 (runner 1) (held lk0 0))
    as (_ & (k & Hk & _) & _); [done..|]. exists k. exact Hk.
Defined.

Lemma kill_correct_witness :
  kill 3 (ctx3, tt) = Ret 0 (set_proc 2 (killed_proc (sleeper 3 ChTicks)) (settled ctx3), tt).
Proof. exact (kill_correct 3 ctx3 tt 0 1 ctx3_ok). Defined.
