(* ===== verification/SchedSpec.v ===== *)
(** * Every runnable process gets the CPU (kernel/proc.c, scheduler())

    The scheduler's run is a tree: at each swtch() it waits for the process to
    give the CPU back.  [turn n Q R] says that on every branch the CPU reaches
    a state in [Q] after at most [n] other processes have had it, when each
    of them gives it back as [R] allows.  [handed] is what a process owes the
    scheduler when it calls sched(); yield() and sleep() are shown to give it. *)

From stdpp Require Import base numbers list list_numbers gmap strings.
From Stdlib Require Import ZArith Lia.
From S2P Require Import Prelude.
From S2P Require Import Machine.
From S2P Require Import Spinlock.
From S2P Require Import Kalloc.
From S2P Require Import Sched.

Local Open Scope Z_scope.

(** ** Eventually, through the runs of other processes *)

Inductive turn {S A : Type} (Q : ctx * S -> Prop) (R : ctx * S -> ctx * S -> Prop) : nat -> outcome S A -> Prop :=
  | turn_now n w k : Q w -> turn Q R n (Swtch w k)
  | turn_later n w k : (forall w', R w w' -> turn Q R n (k w')) -> turn Q R (Datatypes.S n) (Swtch w k).

(** The process table as the scheduler of a hart sees it between two
    processes: no lock is held, and process [j] waits for the CPU. *)
Record waiting (j : nat) (c : ctx) : Prop := {
  wt_noff : c_noff (cx_cpu c) = 0;
  wt_len : length (cx_procs c) = Z.to_nat NPROC;
  wt_locks : forall i p, cx_procs c !! i = Some p -> lock_free (p_lock p);
  wt_runnable : exists p, cx_procs c !! j = Some p /\ p_state p = RUNNABLE
}.

(** What process [i] leaves when it switches back to the scheduler: it is still the hart's
    process, its own p->lock is the one lock held, and [j] still waits. *)
Record handed (j i : nat) (c : ctx) : Prop := {
  hd_lock : one_lock i c;
  hd_held : exists p, cx_procs c !! i = Some p /\ held_by (p_lock p) (c_id (cx_cpu c));
  hd_len : length (cx_procs c) = Z.to_nat NPROC;
  hd_locks : forall i' p, i' <> i -> cx_procs c !! i' = Some p -> lock_free (p_lock p);
  hd_runnable : i <> j /\ exists p, cx_procs c !! j = Some p /\ p_state p = RUNNABLE
}.

(** The CPU is process [j]'s: it is RUNNING on this hart, with only its lock held. *)
Definition given {S} (j : nat) (w : ctx * S) : Prop :=
  one_lock j (fst w) /\ exists p, cx_procs (fst w) !! j = Some p /\ p_state p = RUNNING /\ held_by (p_lock p) (c_id (cx_cpu (fst w))).

(** A process that was given the CPU gives it back. *)
Definition gives_back {S} (j : nat) (w w' : ctx * S) : Prop :=
  exists i, c_proc (cx_cpu (fst w)) = Some i /\ handed j i (fst w').

Section Pass.
Context {S : Type} (j : nat).
Implicit Types (c : ctx) (s : S).
Abbreviation turn_of n o := (turn (given j) (gives_back j) n o).

Lemma turn_mono {A} n m (o : outcome S A) : (n <= m)%nat -> turn_of n o -> turn_of m o.
Proof.
  intros Hm H. revert m Hm. induction H as [n w k Hq|n w k _ IH]; intros m Hm; [by left|].
  destruct m as [|m]; [lia|]. right. intros w' Hr. apply IH; [done|lia].
Qed.

Lemma turn_assoc {A B C} n (m : K S A) (f : A -> K S B) (g : B -> K S C) w :
  turn_of n ((x ← m; y ← f x; g y) w) -> turn_of n ((y ← (x ← m; f x); g y) w).
Proof.
  unfold mbind, K_bind. generalize (m w). intros o. revert n. induction o as [a w'|msg| | |w' k IH]; intros n; [done..|]. cbn [obind].
  intros H. inversion H as [? ? ? Hq|n' ? ? Hr]; subst; [by left|]. right. intros w2 H2. by apply IH, Hr.
Qed.

Lemma waiting_lookup c i : waiting j c -> (i < Z.to_nat NPROC)%nat -> exists p, cx_procs c !! i = Some p /\ lock_free (p_lock p).
Proof.
  intros H Hi. pose proof (wt_len _ _ H) as Hl. destruct (lookup_lt_is_Some_2 (cx_procs c) i) as [p Hp]; [lia|].
  exists p. split; [done|]. by apply (wt_locks _ _ H i).
Qed.

Lemma waiting_cpu c cp : waiting j c -> c_noff cp = 0 -> waiting j (set_cx_cpu cp c).
Proof. intros [? ? ? ?] ?. by split. Qed.

Lemma waiting_settled c : waiting j c -> waiting j (settled c).
Proof. intros H. apply waiting_cpu; [done|]. unfold settle. rewrite (wt_noff _ _ H). apply H. Qed.

(** A process that is not RUNNABLE is passed over. *)
Lemma scheduler_skips c s i p :
  cpu_ok (cx_cpu c) -> cx_procs c !! i = Some p -> lock_free (p_lock p) -> p_state p <> RUNNABLE ->
  scheduler_body i (c, s) = Ret tt (settled c, s).
Proof.
  intros Hok Hp Hf Hst. unfold scheduler_body. rewrite (bind_ret _ _ _ _ _ (acquire_p c s i p Hp Hf)).
  set (p1 := set_p_lock _ p). set (c1 := set_proc i p1 _).
  assert (H1 : cx_procs c1 !! i = Some p1) by (apply set_proc_get; simpl; eauto).
  rewrite (bind_ret _ _ _ _ _ (pget_run c1 s i p1 H1)). change (p_state p1) with (p_state p).
  rewrite bool_decide_false by done. rewrite mret_bind. unfold c1, p1.
  rewrite (crit_p c s i p (fun q => q) Hp Hf Hok eq_refl). f_equal. f_equal.
  unfold set_proc, settled. destruct c, p. simpl in *. by rewrite list_insert_id.
Qed.

(** The scheduler resumes: the process's lock is released. *)
Lemma scheduler_resumes c s i :
  handed j i c -> exists c', (upd_mycpu (set_c_proc None) ;; release (p_lk i)) (c, s) = Ret tt (c', s) /\ waiting j c'.
Proof.
  intros [(Hpr & Hn & Hi) (p & Hp & Hh) Hlen Hlk (Hij & q & Hq & Hst)].
  assert (E : upd_mycpu (set_c_proc None) (c, s) = Ret tt (set_cx_cpu (set_c_proc None (cx_cpu c)) c, s)) by done.
  rewrite (bind_ret _ _ _ _ _ E). erewrite release_p; [|exact Hp|exact Hh|exact Hi|simpl; lia].
  eexists. split; [reflexivity|]. split; simpl.
  - lia.
  - by rewrite length_insert.
  - intros i' p' Hp'. apply list_lookup_insert_Some in Hp' as [(<- & <- & _)|(Hne & Hp')]; [done|by eapply (Hlk i')].
  - exists q. by rewrite list_lookup_insert_ne.
Qed.

(** One step of the inner loop, before [j]'s turn. *)
Lemma scheduler_step n c s i (rest : K S unit) :
  waiting j c -> (i < Z.to_nat NPROC)%nat -> i <> j ->
  (forall c' s', waiting j c' -> turn_of n (rest (c', s'))) -> turn_of (Datatypes.S n) ((scheduler_body i ;; rest) (c, s)).
Proof.
  intros H Hi Hij Hrest. destruct (waiting_lookup c i H Hi) as (p & Hp & Hf).
  assert (Hok : cpu_ok (cx_cpu c)) by (split; rewrite (wt_noff _ _ H); lia).
  destruct (decide (p_state p = RUNNABLE)) as [Hst|Hst].
  - unfold mbind, K_bind. rewrite (scheduler_suspends c s i p Hp Hf Hst). cbn [obind]. right.
    intros [c' s'] (i' & Hi' & Hh). injection Hi' as <-.
    destruct (scheduler_resumes c' s' i Hh) as (c2 & E & H2). cbn beta. rewrite E. cbn [obind]. by apply Hrest.
  - rewrite (bind_ret _ _ _ _ _ (scheduler_skips c s i p Hok Hp Hf Hst)).
    apply (turn_mono n); [lia|]. by apply Hrest, waiting_settled.
Qed.

(** [j]'s turn. *)
Lemma scheduler_gives c s (rest : K S unit) n :
  waiting j c -> turn_of n ((scheduler_body j ;; rest) (c, s)).
Proof.
  intros H. destruct (wt_runnable _ _ H) as (p & Hp & Hst). pose proof (wt_locks _ _ H _ _ Hp) as Hf.
  unfold mbind, K_bind. rewrite (scheduler_suspends c s j p Hp Hf Hst). cbn [obind]. left.
  split; [split_and!; simpl; [done|rewrite (wt_noff _ _ H); lia|done]|]. cbn [fst].
  eexists. split; [apply list_lookup_insert_eq; by eapply lookup_lt_Some|done].
Qed.

(** The inner loop from process [k] on reaches [j], or ends with [j] still waiting. *)
Lemma pass_reaches m k n c s (rest : K S unit) :
  waiting j c -> (k + m <= Z.to_nat NPROC)%nat -> (k <= j < k + m)%nat -> (j - k <= n)%nat ->
  turn_of n ((for_each (seq k m) scheduler_body ;; rest) (c, s)).
Proof.
  revert k n c s. induction m as [|m IH]; intros k n c s H Hk Hj Hn; [lia|]. cbn [seq for_each].
  apply turn_assoc. destruct (decide (k = j)) as [->|Hne]; [by apply scheduler_gives|].
  destruct n as [|n]; [lia|]. apply scheduler_step; [done|lia|done|]. intros c' s' H'. apply IH; [done|lia..].
Qed.

Lemma pass_ends m k n c s (rest : K S unit) :
  waiting j c -> (k + m <= Z.to_nat NPROC)%nat -> (j < k)%nat -> (m <= n)%nat ->
  (forall c' s', waiting j c' -> turn_of (n - m) (rest (c', s'))) ->
  turn_of n ((for_each (seq k m) scheduler_body ;; rest) (c, s)).
Proof.
  revert k n c s. induction m as [|m IH]; intros k n c s H Hk Hj Hn Hr; cbn [seq for_each].
  { rewrite mret_bind. specialize (Hr c s H). by rewrite Nat.sub_0_r in Hr. }
  apply turn_assoc. destruct n as [|n]; [lia|]. apply scheduler_step; [done|lia..|].
  intros c' s' H'. apply IH; [done|lia..|done].
Qed.

Lemma loop_reaches n f c s :
  waiting j c -> (j < Z.to_nat NPROC)%nat -> (j <= n)%nat ->
  turn_of n (while_fuel (Datatypes.S f) (mret true) (intr_on ;; for_each all_procs scheduler_body) (c, s)).
Proof.
  intros H Hj Hn. cbn [while_fuel]. rewrite mret_bind. apply turn_assoc.
  assert (E : intr_on (c, s) = Ret tt (set_cx_cpu (set_c_intr true (cx_cpu c)) c, s)) by done.
  rewrite (bind_ret _ _ _ _ _ E). apply pass_reaches; [by apply waiting_cpu; [|apply H]|lia..].
Qed.
End Pass.

(** ** Giving the CPU back *)

Section Back.
Context {S : Type} (j : nat).
Implicit Types (c : ctx) (s : S).

(** A process [i] in the kernel while [j] waits: it holds no lock, or one that is no process's. *)
Record in_kernel (i : nat) (c : ctx) : Prop := {
  ik_proc : c_proc (cx_cpu c) = Some i;
  ik_len : length (cx_procs c) = Z.to_nat NPROC;
  ik_locks : forall i' p, cx_procs c !! i' = Some p -> lock_free (p_lock p);
  ik_self : i <> j /\ is_Some (cx_procs c !! i);
  ik_runnable : exists p, cx_procs c !! j = Some p /\ p_state p = RUNNABLE
}.

Lemma handed_proc i c q cp :
  in_kernel i c -> held_by (p_lock q) (c_id cp) -> c_proc cp = Some i -> c_noff cp = 1 -> c_intr cp = false ->
  handed j i (set_proc i q (set_cx_cpu cp c)).
Proof.
  intros [Hpr Hlen Hlk (Hij & Hi) (p & Hp & Hst)] Hh H1 H2 H3. split.
  - done.
  - exists q. split; [by apply set_proc_get|done].
  - simpl. by rewrite length_insert.
  - intros i' p' Hne. simpl. rewrite list_lookup_insert_ne by done. apply Hlk.
  - split; [done|]. exists p. simpl. by rewrite list_lookup_insert_ne.
Qed.

Lemma yield_hands i c s :
  in_kernel i c -> c_noff (cx_cpu c) = 0 -> exists w k, yield (c, s) = Swtch w k /\ handed j i (fst w).
Proof.
  intros H Hn. destruct (ik_self _ _ H) as [Hij [p Hp]]. pose proof (ik_locks _ _ H _ _ Hp) as Hf.
  assert (Hok : cpu_ok (hart (c, s))) by (split; unfold hart; simpl; lia).
  assert (Hm : curproc (c, s) = Ret i (settled c, s)).
  { unfold curproc. rewrite (bind_ret _ _ _ _ _ (myproc_run (c, s) Hok)). unfold hart. cbn [fst]. by rewrite (ik_proc _ _ H). }
  unfold yield. rewrite (bind_ret _ _ _ _ _ Hm), (bind_ret _ _ _ _ _ (acquire_p (settled c) s i p Hp Hf)).
  set (p1 := set_p_lock _ p). set (c1 := set_proc i p1 _).
  assert (H1 : cx_procs c1 !! i = Some p1) by (apply set_proc_get; simpl; eauto).
  rewrite (bind_ret _ _ _ _ _ (pupd_run c1 s i p1 _ H1)). unfold c1. rewrite set_proc_set. set (c2 := set_proc i _ _).
  assert (E0 : settle (cx_cpu c) = set_c_intena (c_intr (cx_cpu c)) (cx_cpu c)) by (unfold settle; by rewrite Hn).
  assert (Hd : handed j i c2).
  { apply (handed_proc i c); [done|done|..]; cbn [settled cx_cpu set_cx_cpu]; rewrite E0; simpl; [apply H|lia|done]. }
  destruct (hd_lock _ _ _ Hd) as (Hc2 & Hn2 & Hi2). destruct (hd_held _ _ _ Hd) as (p2 & Hp2 & Hh2).
  unfold mbind, K_bind. rewrite (sched_run c2 s i p2 Hc2 Hp2 Hh2 Hn2 Hi2).
  - cbn [obind]. eexists _, _. by split.
  - unfold c2 in Hp2. rewrite set_proc_get in Hp2 by (simpl; eauto). by injection Hp2 as <-.
Qed.

Lemma sleep_hands i c s (l : lens S spinlock) `{!LensOk l} ch lk :
  in_kernel i c -> one_lock i c -> get l s = Some lk -> held_by lk (c_id (cx_cpu c)) ->
  exists w k, sleep ch (inS l) (c, s) = Swtch w k /\ handed j i (fst w).
Proof.
  intros H Ho Hg Hh. destruct (ik_self _ _ H) as [Hij [p Hp]]. pose proof (ik_locks _ _ H _ _ Hp) as Hf.
  destruct (sleep_suspends l ch c s i p lk Ho Hp Hf Hg Hh) as (k & -> & _). eexists _, _. split; [done|].
  destruct Ho as (? & ? & ?). replace c with (set_cx_cpu (cx_cpu c) c) at 2 by (by destruct c). by apply handed_proc.
Qed.
End Back.

(** ** The property *)

(** C33: No process starves.  Whenever a process is RUNNABLE, scheduler() gives it the CPU,
    RUNNING and with its lock held: from its start after at most as many other processes
    as precede it in the table, and from any point of the inner loop after at most
    NPROC - 1 others, provided each of these gives the CPU back, as yield() and
    sleep() do. *)
Theorem scheduler_fair {S : Type} j c (s : S) :
  waiting j c ->
  ((1 <= cx_fuel c)%nat -> turn (given j) (gives_back j) j (scheduler (c, s))) /\
  (forall k f, (k <= Z.to_nat NPROC)%nat ->
     turn (given j) (gives_back j) (Z.to_nat NPROC - 1)
       ((for_each (drop k all_procs) scheduler_body ;;
         while_fuel (Datatypes.S f) (mret true) (intr_on ;; for_each all_procs scheduler_body)) (c, s))) /\
  (forall i w w' (s' : S), c_proc (cx_cpu (fst w)) = Some i -> in_kernel j i w' -> c_noff (cx_cpu w') = 0 ->
     exists w2 k, yield (w', s') = Swtch w2 k /\ gives_back j w w2) /\
  (forall i w w' (s' : S) (l : lens S spinlock) ch lk, LensOk l -> c_proc (cx_cpu (fst w)) = Some i -> in_kernel j i w' ->
     one_lock i w' -> get l s' = Some lk -> held_by lk (c_id (cx_cpu w')) ->
     exists w2 k, sleep ch (inS l) (w', s') = Swtch w2 k /\ gives_back j (S := S) w w2).
Proof.
  intros H. assert (Hj : (j < Z.to_nat NPROC)%nat).
  { destruct (wt_runnable _ _ H) as (p & Hp & _). rewrite <- (wt_len _ _ H). by eapply lookup_lt_Some. }
  split_and!.
  - intros Hf. unfold scheduler. assert (E : upd_mycpu (set_c_proc None) (c, s) = Ret tt (set_cx_cpu (set_c_proc None (cx_cpu c)) c, s)) by done.
    rewrite (bind_ret _ _ _ _ _ E). unfold while. cbn [fst cx_fuel set_cx_cpu]. destruct (cx_fuel c) as [|f]; [lia|].
    apply loop_reaches; [by apply waiting_cpu; [|apply H]|done..].
  - intros k f Hk. change (drop k all_procs) with (drop k (seq 0 (Z.to_nat NPROC))). rewrite skipn_seq. cbn [Nat.add]. destruct (decide (k <= j)%nat).
    + apply pass_reaches; [done|lia..].
    + apply pass_ends; [done|lia..|]. intros c' s' H'. apply loop_reaches; [done|lia..].
  - intros i w w' s' Hw Hk Hn. destruct (yield_hands j i w' s' Hk Hn) as (w2 & k & E & Hh). exists w2, k. split; [done|]. by exists i.
  - intros i w w' s' l ch lk Hl Hw Hk Ho Hg Hh. destruct (sleep_hands j i w' s' l ch lk Hk Ho Hg Hh) as (w2 & k & E & Hd).
    exists w2, k. split; [done|]. by exists i.
Qed.

(** Process 0 sleeps, processes 1 and 2 wait for the CPU. *)
Definition procs_r : list proc := [sleeper 1 ChTicks; set_p_state RUNNABLE (set_p_pid 2 proc0); set_p_state RUNNABLE (set_p_pid 3 proc0)] ++ replicate 61 proc0.
Definition ctx_r : ctx := Ctx (Cpu 0 None 0 false true) procs_r 1.

Lemma ctx_r_waiting : waiting 2 ctx_r.
Proof.
  split; [done|done| |by eexists]. intros i p Hp.
  assert (H : Forall (fun p => lock_free (p_lock p)) procs_r)
    by (unfold procs_r; apply Forall_app; split; [by repeat constructor|by apply Forall_replicate]).
  by apply (Forall_lookup_1 _ _ _ _ H Hp).
Qed.

Lemma scheduler_fair_witness : turn (given 2) (gives_back 2) 2 (scheduler (ctx_r, tt)).
Proof. exact (proj1 (scheduler_fair 2 ctx_r tt ctx_r_waiting) (le_n 1)). Defined.
