(* ===== verification/SleepLk.v ===== *)
(** * Sleep locks (kernel/sleeplock.c)

    A sleep lock lives at a place [l] of the component's state; [ch] is its
    address as a wait channel. *)

From stdpp Require Import base numbers list list_numbers gmap strings.
From Stdlib Require Import ZArith Lia.
From S2P Require Import Prelude.
From S2P Require Import Machine.
From S2P Require Import Spinlock.
From S2P Require Import Kalloc.
From S2P Require Import Kern.
From S2P Require Import Sched.

Local Open Scope Z_scope.

Definition set_sl_locked v x := Sleeplock v (sl_lk x) (sl_name x) (sl_pid x).
Definition set_sl_lk v x := Sleeplock (sl_locked x) v (sl_name x) (sl_pid x).
Definition set_sl_name v x := Sleeplock (sl_locked x) (sl_lk x) v (sl_pid x).
Definition set_sl_pid v x := Sleeplock (sl_locked x) (sl_lk x) (sl_name x) v.

Section Code.
Context {S : Type}.
Implicit Types l : lens S sleeplock.

(** [&lk->lk] *)
Definition inner l : lens (ctx * S) spinlock := inS (comp l sl_lk_l).

Definition initsleeplock l (name : string) : K S unit :=
  initlock (inner l) "sleep lock" ;;
  update (inS l) (set_sl_name name) ;;
  update (inS l) (set_sl_locked false) ;;
  update (inS l) (set_sl_pid 0).

Definition acquiresleep (ch : chan) l : K S unit :=
  acquire (inner l) ;;
  while (lk ← load (inS l); mret (sl_locked lk)) (sleep ch (inner l)) ;;
  update (inS l) (set_sl_locked true) ;;
  p ← curproc;
  pr ← pget p;
  update (inS l) (set_sl_pid (p_pid pr)) ;;
  release (inner l).

Definition releasesleep (ch : chan) l : K S unit :=
  acquire (inner l) ;;
  update (inS l) (set_sl_locked false) ;;
  update (inS l) (set_sl_pid 0) ;;
  wakeup ch ;;
  release (inner l).

Definition holdingsleep l : K S bool :=
  acquire (inner l) ;;
  lk ← load (inS l);
  p ← curproc;
  pr ← pget p;
  let r := sl_locked lk && (sl_pid lk =? p_pid pr) in
  release (inner l) ;;
  mret r.

End Code.

Section Runs.
Context {S : Type} (l : lens S sleeplock) `{!LensOk l}.
Implicit Types (c : ctx) (s : S).

Lemma inner_get s sl c : get l s = Some sl -> get (inner l) (c, s) = Some (sl_lk sl).
Proof. intros H. unfold inner, inS, comp. simpl. by rewrite H. Qed.

Lemma inner_put s sl c lk : get l s = Some sl -> put (inner l) lk (c, s) = (c, put l (set_sl_lk lk sl) s).
Proof. intros H. unfold inner, inS, comp. simpl. by rewrite H. Qed.

Lemma get_put_l s sl sl' : get l s = Some sl -> get l (put l sl' s) = Some sl'.
Proof. intros H. apply get_put. by eexists. Qed.

(** Inside a section guarded by one spin lock. *)
Definition pushed (c : ctx) : ctx := set_cx_cpu (push_cpu (cx_cpu c)) c.

Lemma acquire_inner c s sl :
  get l s = Some sl -> lock_free (sl_lk sl) ->
  acquire (inner l) (c, s) = Ret tt (pushed c, put l (set_sl_lk (held (sl_lk sl) (c_id (cx_cpu c))) sl) s).
Proof.
  intros H [Hl _]. unfold inner. rewrite (acquire_run _ _ (sl_lk sl)) by (done || by apply inner_get).
  unfold upd_cpu. cbn [fst snd]. f_equal. by apply (inner_put s sl).
Qed.

(** Releasing it restores the hart, whatever the section did to the process
    table. *)
Lemma release_inner c c1 s sl lk :
  cpu_ok (cx_cpu c) -> cx_cpu c1 = push_cpu (cx_cpu c) -> lock_free lk ->
  get l s = Some sl -> sl_lk sl = held lk (c_id (cx_cpu c)) ->
  release (inner l) (c1, s) = Ret tt (set_cx_cpu (settle (cx_cpu c)) c1, put l (set_sl_lk lk sl) s).
Proof.
  intros [Hok1 Hok2] Hc1 Hf Hg Hlk. unfold inner.
  rewrite (release_run _ _ (sl_lk sl)); [|by apply inner_get|rewrite Hlk; unfold hart; simpl; by rewrite Hc1|
    unfold hart; simpl; by rewrite Hc1|unfold hart; simpl; rewrite Hc1; simpl; lia].
  fold (inner l). rewrite (inner_put s sl) by done. unfold upd_cpu. cbn [fst snd].
  rewrite Hc1, pop_push_cpu by done. f_equal. f_equal. f_equal. f_equal. rewrite Hlk. exact (unheld_free _ Hf).
Qed.

Lemma ctx_ok_pushed c i pid : ctx_ok c i pid -> ctx_ok (pushed c) i pid.
Proof. intros [H1 H2 H3 H4 H5]. split; simpl; try done. by apply push_cpu_ok. Qed.

Lemma settled_pushed c : cpu_ok (cx_cpu c) -> settled (pushed c) = pushed c.
Proof.
  intros [H _]. unfold settled, pushed, settle. simpl. by rewrite (proj2 (Z.eqb_neq _ 0)) by lia.
Qed.

Lemma curproc_pushed c s i pid : ctx_ok c i pid -> curproc (pushed c, s) = Ret i (pushed c, s).
Proof.
  intros H. rewrite (curproc_run _ _ i pid) by (by apply ctx_ok_pushed). rewrite settled_pushed by apply H. done.
Qed.

(** acquiresleep() of a free lock. *)
Lemma acquiresleep_run ch c s sl i pid :
  ctx_ok c i pid -> get l s = Some sl -> lock_free (sl_lk sl) -> sl_locked sl = false -> (0 < cx_fuel c)%nat ->
  acquiresleep ch l (c, s) = Ret tt (settled c, put l (Sleeplock true (sl_lk sl) (sl_name sl) pid) s).
Proof.
  intros Hc Hg Hf Hl Hfu. unfold acquiresleep.
  rewrite (bind_ret _ _ _ _ _ (acquire_inner c s sl Hg Hf)).
  set (sl1 := set_sl_lk _ sl). set (s1 := put l sl1 s). assert (Hg1 : get l s1 = Some sl1) by (by eapply get_put_l).
  assert (Hw : while (lk ← load (inS l); mret (sl_locked lk)) (sleep ch (inner l)) (pushed c, s1) = Ret tt (pushed c, s1)).
  { unfold while. cbn [fst pushed set_cx_cpu cx_fuel]. destruct (cx_fuel c) as [|n]; [lia|]. cbn [while_fuel].
    assert (Hld : (lk ← load (inS l); mret (sl_locked lk)) (pushed c, s1) = Ret false (pushed c, s1)).
    { rewrite (bind_ret _ _ _ _ _ (load_some (inS l) (pushed c, s1) sl1 Hg1)). subst sl1. simpl. by rewrite Hl. }
    by rewrite (bind_ret _ _ _ _ _ Hld). }
  rewrite (bind_ret _ _ _ _ _ Hw). rewrite (bind_ret _ _ _ _ _ (update_some (inS l) (pushed c, s1) sl1 _ Hg1)).
  simpl (put (inS l) _ _). rewrite (bind_ret _ _ _ _ _ (curproc_pushed c _ i pid Hc)).
  destruct (co_pid _ _ _ Hc) as (p & Hp & Hpid). rewrite (bind_ret _ _ _ _ _ (pget_run (pushed c) _ i p Hp)).
  set (s2 := put l _ s1). set (sl2 := set_sl_locked true sl1) in *.
  assert (Hg2 : get l s2 = Some sl2) by (by eapply get_put_l).
  rewrite (bind_ret _ _ _ _ _ (update_some (inS l) (pushed c, s2) sl2 _ Hg2)). simpl (put (inS l) _ _).
  rewrite (release_inner c (pushed c) _ (set_sl_pid (p_pid p) sl2) (sl_lk sl)); [|apply Hc|done|done|by eapply get_put_l|done].
  unfold s2, s1. rewrite !put_put, Hpid. done.
Qed.

Lemma releasesleep_run ch c s sl i pid :
  ctx_ok c i pid -> get l s = Some sl -> lock_free (sl_lk sl) ->
  releasesleep ch l (c, s) = Ret tt (wake_ctx ch c, put l (Sleeplock false (sl_lk sl) (sl_name sl) 0) s).
Proof.
  intros Hc Hg Hf. unfold releasesleep. rewrite (bind_ret _ _ _ _ _ (acquire_inner c s sl Hg Hf)).
  set (sl1 := set_sl_lk _ sl). set (s1 := put l sl1 s). assert (Hg1 : get l s1 = Some sl1) by (by eapply get_put_l).
  rewrite (bind_ret _ _ _ _ _ (update_some (inS l) (pushed c, s1) sl1 _ Hg1)). simpl (put (inS l) _ _).
  set (s2 := put l _ s1). set (sl2 := set_sl_locked false sl1) in *.
  assert (Hg2 : get l s2 = Some sl2) by (by eapply get_put_l).
  rewrite (bind_ret _ _ _ _ _ (update_some (inS l) (pushed c, s2) sl2 _ Hg2)). simpl (put (inS l) _ _).
  rewrite (bind_ret _ _ _ _ _ (wakeup_run ch (pushed c) _ i pid (ctx_ok_pushed _ _ _ Hc))).
  rewrite (release_inner c _ _ (set_sl_pid 0 sl2) (sl_lk sl)); [|apply Hc| |done|by eapply get_put_l|done].
  - unfold s2, s1. rewrite !put_put. done.
  - simpl. change (settle (push_cpu (cx_cpu c))) with (cx_cpu (settled (pushed c))). by rewrite settled_pushed by apply Hc.
Qed.

Lemma holdingsleep_run c s sl i pid :
  ctx_ok c i pid -> get l s = Some sl -> lock_free (sl_lk sl) ->
  holdingsleep l (c, s) = Ret (sl_locked sl && (sl_pid sl =? pid)) (settled c, s).
Proof.
  intros Hc Hg Hf. unfold holdingsleep. rewrite (bind_ret _ _ _ _ _ (acquire_inner c s sl Hg Hf)).
  set (sl1 := set_sl_lk _ sl). set (s1 := put l sl1 s). assert (Hg1 : get l s1 = Some sl1) by (by eapply get_put_l).
  rewrite (bind_ret _ _ _ _ _ (load_some (inS l) (pushed c, s1) sl1 Hg1)).
  rewrite (bind_ret _ _ _ _ _ (curproc_pushed c _ i pid Hc)).
  destruct (co_pid _ _ _ Hc) as (p & Hp & Hpid). rewrite (bind_ret _ _ _ _ _ (pget_run (pushed c) _ i p Hp)).
  rewrite (bind_ret _ _ _ _ _ (release_inner c (pushed c) s1 sl1 (sl_lk sl) (co_cpu _ _ _ Hc) eq_refl Hf Hg1 eq_refl)).
  unfold s1. rewrite put_put, Hpid. replace (set_sl_lk (sl_lk sl) sl1) with sl by (by destruct sl).
  by rewrite put_get.
Qed.

(** acquiresleep() of a lock that is taken: the caller goes to sleep on the
    lock's own address, with the guarding spin lock released. *)
Lemma acquiresleep_blocks ch c s sl i p :
  ctx_ok c i (p_pid p) -> cx_procs c !! i = Some p -> c_noff (cx_cpu c) = 0 ->
  get l s = Some sl -> lock_free (sl_lk sl) -> sl_locked sl = true -> (0 < cx_fuel c)%nat ->
  exists k, acquiresleep ch l (c, s) = Swtch (set_proc i (asleep ch (c_id (cx_cpu c)) p) (pushed c), s) k.
Proof.
  intros Hc Hp Hn Hg Hf Hl Hfu. unfold acquiresleep. rewrite (bind_ret _ _ _ _ _ (acquire_inner c s sl Hg Hf)).
  set (sl1 := set_sl_lk _ sl). set (s1 := put l sl1 s). assert (Hg1 : get l s1 = Some sl1) by (by eapply get_put_l).
  unfold while. cbn [fst pushed set_cx_cpu cx_fuel]. destruct (cx_fuel c) as [|n] eqn:En; [lia|]. cbn [while_fuel].
  fold (pushed c).
  assert (Hld : (lk ← load (inS l); mret (sl_locked lk)) (pushed c, s1) = Ret true (pushed c, s1)).
  { rewrite (bind_ret _ _ _ _ _ (load_some (inS l) (pushed c, s1) sl1 Hg1)). subst sl1. simpl. by rewrite Hl. }
  destruct (sleep_suspends (comp l sl_lk_l) ch (pushed c) s1 i p (sl_lk sl1)) as (k & Hk & _).
  { split_and!; [apply Hc|simpl; lia|done]. }
  { done. }
  { by eapply (Forall_lookup_1 _ _ _ _ (co_locks _ _ _ Hc)). }
  { simpl. by rewrite Hg1. }
  { done. }
  fold (inner l) in Hk. eexists. unfold mbind at 1, K_bind at 1. unfold while.
  cbn [fst pushed set_cx_cpu cx_fuel]. rewrite En. cbn [while_fuel]. fold (pushed c).
  rewrite (bind_ret _ _ _ _ _ Hld). unfold mbind at 1, K_bind at 1. rewrite Hk. cbn [obind].
  f_equal. f_equal. simpl. rewrite Hg1. unfold s1. rewrite put_put.
  match goal with |- put l ?x s = s => replace x with sl; [by apply put_get|] end.
  destruct sl; simpl. f_equal. symmetry. exact (unheld_free _ Hf).
Qed.

End Runs.

(** A critical section of a spin lock of the component's state. *)
Section Crit.
Context {S : Type} (l : lens S spinlock) `{!LensOk l}.

Lemma acquire_S c s lk :
  get l s = Some lk -> lock_free lk ->
  acquire (inS l) (c, s) = Ret tt (pushed c, put l (held lk (c_id (cx_cpu c))) s).
Proof. intros H [Hl _]. by rewrite (acquire_run _ _ lk). Qed.

Lemma release_S c c1 s lk :
  cpu_ok (cx_cpu c) -> cx_cpu c1 = push_cpu (cx_cpu c) -> lock_free lk ->
  get l s = Some (held lk (c_id (cx_cpu c))) ->
  release (inS l) (c1, s) = Ret tt (set_cx_cpu (settle (cx_cpu c)) c1, put l lk s).
Proof.
  intros [Hok1 Hok2] Hc1 Hf Hg.
  rewrite (release_run _ _ (held lk (c_id (cx_cpu c)))); [|done|unfold hart; simpl; by rewrite Hc1|
    unfold hart; simpl; by rewrite Hc1|unfold hart; simpl; rewrite Hc1; simpl; lia].
  unfold upd_cpu. cbn [fst snd inS put]. rewrite Hc1, pop_push_cpu by done. f_equal. f_equal. f_equal.
  exact (unheld_free _ Hf).
Qed.

End Crit.

(** A process in the kernel that holds no spin lock and can still wait. *)
Record kctx (c : ctx) (i : nat) (pid : Z) : Prop := {
  kc_ok : ctx_ok c i pid;
  kc_noff : c_noff (cx_cpu c) = 0;
  kc_fuel : (0 < cx_fuel c)%nat
}.

Lemma settle_noff cp : c_noff (settle cp) = c_noff cp.
Proof. unfold settle. by destruct (c_noff cp =? 0). Qed.

Lemma kctx_settled c i pid : kctx c i pid -> kctx (settled c) i pid.
Proof. intros [H1 H2 H3]. split; [by apply ctx_ok_settled|simpl; by rewrite settle_noff|done]. Qed.

Lemma kctx_wake ch c i pid : kctx c i pid -> kctx (wake_ctx ch c) i pid.
Proof. intros [H1 H2 H3]. split; [by apply ctx_ok_wake|simpl; by rewrite settle_noff|done]. Qed.

#[export] Hint Resolve kctx_settled kctx_wake kc_ok : kernel.
