(* ===== verification/Bio.v ===== *)
(** * Buffer cache (kernel/bio.c)

    The code, over the kernel state; the disk driver is the interface
    [BlockDev].  [bio_ok] describes the cache by the logical contents of the
    blocks [V], the pinned blocks [X] and the buffers this process has locked
    [L]; the operations are specified by what they do to the three and to the
    disk. *)

From stdpp Require Import base numbers list list_numbers gmap strings sets fin_sets.
From Stdlib Require Import ZArith Lia.
From S2P Require Import Prelude.
From S2P Require Import Machine.
From S2P Require Import Spinlock.
From S2P Require Import Mem.
From S2P Require Import Kalloc.
From S2P Require Import Kern.
From S2P Require Import Sched.
From S2P Require Import SleepLk.

Local Open Scope Z_scope.

(** ** Code *)

Definition bc_lk : lens (ctx * kern) spinlock := inS (comp k_bcache_l bc_lock_l).

(** [&p->next] and [&p->prev] *)
Definition next_l (p : bufp) : lens bcache bufp :=
  match p with
  | Head => field bc_next set_bc_next
  | Buf i => comp bc_buf_l (comp (elem i) (field b_next set_b_next))
  end.
Definition prev_l (p : bufp) : lens bcache bufp :=
  match p with
  | Head => field bc_prev set_bc_prev
  | Buf i => comp bc_buf_l (comp (elem i) (field b_prev set_b_prev))
  end.

Definition ld_next (p : bufp) : K kern bufp := load (inS (comp k_bcache_l (next_l p))).
Definition ld_prev (p : bufp) : K kern bufp := load (inS (comp k_bcache_l (prev_l p))).
Definition st_next (p q : bufp) : K kern unit := store (inS (comp k_bcache_l (next_l p))) q.
Definition st_prev (p q : bufp) : K kern unit := store (inS (comp k_bcache_l (prev_l p))) q.
Definition ld_buf (b : nat) : K kern buf := load (inS (buf_l b)).
Definition up_buf (b : nat) (f : buf -> buf) : K kern unit := update (inS (buf_l b)) f.
(** [&b->lock] *)
Definition buf_lock (b : nat) : lens kern sleeplock := comp (buf_l b) b_lock_l.

Definition binit_body (b : nat) : K kern unit :=
  n ← ld_next Head;
  st_next (Buf b) n ;;
  st_prev (Buf b) Head ;;
  initsleeplock (buf_lock b) "buffer" ;;
  n ← ld_next Head;
  st_prev n (Buf b) ;;
  st_next Head (Buf b).
Definition binit : K kern unit :=
  initlock bc_lk "bcache" ;;
  st_prev Head Head ;;
  st_next Head Head ;;
  for_each (seq 0 (Z.to_nat NBUF)) binit_body.

(** [for(b = bcache.head.next; b != &bcache.head; b = b->next)] up to the
    first buffer that holds the block.  The ring has NBUF buffers. *)
Fixpoint find_cached (fuel : nat) (p : bufp) (dev blockno : Z) : K kern (option nat) :=
  match fuel with
  | O => hang
  | S n =>
      match p with
      | Head => mret None
      | Buf b =>
          bf ← ld_buf b;
          if (b_dev bf =? dev) && (b_blockno bf =? blockno) then mret (Some b)
          else q ← ld_next p; find_cached n q dev blockno
      end
  end.

(** [for(b = bcache.head.prev; b != &bcache.head; b = b->prev)] up to the
    first unused buffer. *)
Fixpoint find_unused (fuel : nat) (p : bufp) : K kern (option nat) :=
  match fuel with
  | O => hang
  | S n =>
      match p with
      | Head => mret None
      | Buf b =>
          bf ← ld_buf b;
          if b_refcnt bf =? 0 then mret (Some b)
          else q ← ld_prev p; find_unused n q
      end
  end.

Definition ring_fuel : nat := S (Z.to_nat NBUF).

(** bget() *)
Definition b_get (dev blockno : Z) : K kern nat :=
  acquire bc_lk ;;
  h ← ld_next Head;
  r ← find_cached ring_fuel h dev blockno;
  match r with
  | Some b =>
      up_buf b (fun x => set_b_refcnt (b_refcnt x + 1) x) ;;
      release bc_lk ;;
      acquiresleep (ChBufLock b) (buf_lock b) ;;
      mret b
  | None =>
      t ← ld_prev Head;
      r ← find_unused ring_fuel t;
      match r with
      | Some b =>
          up_buf b (set_b_dev dev) ;;
          up_buf b (set_b_blockno blockno) ;;
          up_buf b (set_b_valid false) ;;
          up_buf b (set_b_refcnt 1) ;;
          release bc_lk ;;
          acquiresleep (ChBufLock b) (buf_lock b) ;;
          mret b
      | None => panic "bget: no buffers"
      end
  end.

(** The disk driver: [virtio_disk_rw b write] moves a block between buffer
    [b] and the disk. *)
Class BlockDev := {
  bd_env : env kern;
  virtio_disk_rw : nat -> bool -> K kern unit
}.

Section Code.
Context {BD : BlockDev}.

Definition bread (dev blockno : Z) : K kern nat :=
  b ← b_get dev blockno;
  bf ← ld_buf b;
  (if negb (b_valid bf) then
     virtio_disk_rw b false ;;
     up_buf b (set_b_valid true)
   else mret tt) ;;
  mret b.

Definition bwrite (b : nat) : K kern unit :=
  h ← holdingsleep (buf_lock b);
  if negb h then panic "bwrite" else
  virtio_disk_rw b true.

End Code.

(** The pointer writes of brelse() on a buffer with no references left. *)
Definition move_front (b : nat) : K kern unit :=
  n ← ld_next (Buf b); p ← ld_prev (Buf b);
  st_prev n p ;;
  p ← ld_prev (Buf b); n ← ld_next (Buf b);
  st_next p n ;;
  h ← ld_next Head;
  st_next (Buf b) h ;;
  st_prev (Buf b) Head ;;
  h ← ld_next Head;
  st_prev h (Buf b) ;;
  st_next Head (Buf b).

Definition brelse (b : nat) : K kern unit :=
  h ← holdingsleep (buf_lock b);
  if negb h then panic "brelse" else
  releasesleep (ChBufLock b) (buf_lock b) ;;
  acquire bc_lk ;;
  up_buf b (fun x => set_b_refcnt (b_refcnt x - 1) x) ;;
  bf ← ld_buf b;
  (if b_refcnt bf =? 0 then
     move_front b
   else mret tt) ;;
  release bc_lk.

Definition bpin (b : nat) : K kern unit :=
  acquire bc_lk ;;
  up_buf b (fun x => set_b_refcnt (b_refcnt x + 1) x) ;;
  release bc_lk.

Definition bunpin (b : nat) : K kern unit :=
  acquire bc_lk ;;
  up_buf b (fun x => set_b_refcnt (b_refcnt x - 1) x) ;;
  release bc_lk.

(** ** The driver's contract *)

Definition upd_bufs (f : list buf -> list buf) (s : kern) : kern :=
  set_k_bcache (set_bc_buf (f (bc_buf (k_bcache s))) (k_bcache s)) s.

Definition bufs (s : kern) : list buf := bc_buf (k_bcache s).

(** A request of a process without spin locks, for a buffer with BSIZE bytes,
    completes: a read fills the buffer with the block, a write puts the buffer
    on the disk; nothing else of the kernel's state differs. *)
Class BlockDevOk (BD : BlockDev) : Prop := {
  bd_read : forall b bf c s i pid (Q : unit -> ctx * kern -> Prop),
    kctx c i pid -> bufs s !! b = Some bf ->
    (forall c', kctx c' i pid ->
      Q tt (c', upd_bufs (insert b (set_b_data (disk_get (k_disk s) (b_blockno bf)) bf)) s)) ->
    wp bd_env (virtio_disk_rw b false) Q (c, s);
  bd_write : forall b bf c s i pid (Q : unit -> ctx * kern -> Prop),
    kctx c i pid -> bufs s !! b = Some bf -> length (b_data bf) = Z.to_nat BSIZE ->
    (forall c', kctx c' i pid ->
      Q tt (c', set_k_disk (disk_put (b_blockno bf) (b_data bf) (k_disk s)) s)) ->
    wp bd_env (virtio_disk_rw b true) Q (c, s)
}.

(** ** The ring *)

#[export] Instance next_l_ok p : LensOk (next_l p).
Proof. destruct p; simpl; [solve_field|]. apply comp_ok; [apply _|]. apply comp_ok; [apply _|solve_field]. Qed.
#[export] Instance prev_l_ok p : LensOk (prev_l p).
Proof. destruct p; simpl; [solve_field|]. apply comp_ok; [apply _|]. apply comp_ok; [apply _|solve_field]. Qed.

Definition valid_p (bc : bcache) (p : bufp) : Prop :=
  match p with Head => True | Buf i => (i < length (bc_buf bc))%nat end.

Lemma valid_get bc p : valid_p bc p -> is_Some (get (next_l p) bc) /\ is_Some (get (prev_l p) bc).
Proof.
  destruct p as [|i]; simpl; [split; eauto|]. intros H. apply lookup_lt_is_Some in H as [b Hb].
  rewrite Hb. simpl. eauto.
Qed.

Section Pointers.
Context (bc : bcache) (p q v : bufp).

Lemma put_next_valid r : valid_p (put (next_l q) v bc) r <-> valid_p bc r.
Proof. destruct q as [|i], r as [|j]; simpl; try done; destruct (bc_buf bc !! i); simpl; rewrite ?length_insert; done. Qed.

Lemma put_prev_valid r : valid_p (put (prev_l q) v bc) r <-> valid_p bc r.
Proof. destruct q as [|i], r as [|j]; simpl; try done; destruct (bc_buf bc !! i); simpl; rewrite ?length_insert; done. Qed.

Lemma next_put_ne : p <> q -> get (next_l p) (put (next_l q) v bc) = get (next_l p) bc.
Proof.
  intros Hne. destruct p as [|i], q as [|j]; simpl; try done; destruct (bc_buf bc !! j) eqn:E; simpl; try done.
  by rewrite list_lookup_insert_ne by congruence.
Qed.

Lemma prev_put_ne : p <> q -> get (prev_l p) (put (prev_l q) v bc) = get (prev_l p) bc.
Proof.
  intros Hne. destruct p as [|i], q as [|j]; simpl; try done; destruct (bc_buf bc !! j) eqn:E; simpl; try done.
  by rewrite list_lookup_insert_ne by congruence.
Qed.

Lemma next_put_prev : get (next_l p) (put (prev_l q) v bc) = get (next_l p) bc.
Proof.
  destruct p as [|i], q as [|j]; simpl; try done; destruct (bc_buf bc !! j) as [b|] eqn:E; simpl; try done.
  destruct (decide (i = j)) as [->|]; [|by rewrite list_lookup_insert_ne by done].
  rewrite list_lookup_insert_eq by (by eapply lookup_lt_Some). by rewrite E.
Qed.

Lemma prev_put_next : get (prev_l p) (put (next_l q) v bc) = get (prev_l p) bc.
Proof.
  destruct p as [|i], q as [|j]; simpl; try done; destruct (bc_buf bc !! j) as [b|] eqn:E; simpl; try done.
  destruct (decide (i = j)) as [->|]; [|by rewrite list_lookup_insert_ne by done].
  rewrite list_lookup_insert_eq by (by eapply lookup_lt_Some). by rewrite E.
Qed.

Lemma next_put_eq : valid_p bc p -> get (next_l p) (put (next_l p) v bc) = Some v.
Proof. intros H. apply get_put, valid_get, H. Qed.

Lemma prev_put_eq : valid_p bc p -> get (prev_l p) (put (prev_l p) v bc) = Some v.
Proof. intros H. apply get_put, valid_get, H. Qed.

End Pointers.

(** Neighbours point at each other. *)
Definition edge (bc : bcache) (p q : bufp) : Prop := get (next_l p) bc = Some q /\ get (prev_l q) bc = Some p.

Fixpoint links (bc : bcache) (l : list bufp) : Prop :=
  match l with
  | p :: (q :: _) as r => edge bc p q /\ links bc r
  | _ => True
  end.

Definition ring (bc : bcache) (order : list nat) : Prop := links bc (Head :: (Buf <$> order) ++ [Head]).

Lemma links_app bc l1 x l2 : links bc (l1 ++ x :: l2) <-> links bc (l1 ++ [x]) /\ links bc (x :: l2).
Proof.
  induction l1 as [|y [|z l1] IH]; simpl in *; [tauto|destruct l2; simpl; tauto|].
  rewrite IH. tauto.
Qed.

Lemma links_cons bc x y l : links bc (x :: y :: l) <-> edge bc x y /\ links bc (y :: l).
Proof. done. Qed.

Lemma links_ext bc bc' l :
  (forall x, x ∈ removelast l -> get (next_l x) bc' = get (next_l x) bc) ->
  (forall x, x ∈ tail l -> get (prev_l x) bc' = get (prev_l x) bc) ->
  links bc l -> links bc' l.
Proof.
  induction l as [|p [|q l] IH]; intros Hn Hp; [done|done|]. rewrite !links_cons.
  intros [[E1 E2] Hl]. split.
  - split; [rewrite Hn by (simpl; set_solver); done|rewrite Hp by (simpl; set_solver); done].
  - apply IH; [|intros x Hx; apply Hp; simpl in *; set_solver|done].
    intros x Hx. apply Hn. change (removelast (p :: q :: l)) with (p :: removelast (q :: l)). by right.
Qed.

(** The pointer writes of brelse(). *)
Definition unlink (b : nat) (u v : bufp) (bc : bcache) : bcache :=
  put (next_l u) v (put (prev_l v) u bc).
Definition push_front (b : nat) (h : bufp) (bc : bcache) : bcache :=
  put (next_l Head) (Buf b) (put (prev_l h) (Buf b) (put (prev_l (Buf b)) Head (put (next_l (Buf b)) h bc))).

Lemma elem_of_removelast {A} (x : A) l : x ∈ removelast l -> x ∈ l.
Proof.
  induction l as [|y [|z l] IH]; [done|simpl; set_solver|].
  change (removelast (y :: z :: l)) with (y :: removelast (z :: l)). set_solver.
Qed.

Lemma removelast_snoc {A} (l : list A) x : removelast (l ++ [x]) = l.
Proof. apply removelast_last. Qed.

(** Splitting a ring around a buffer: its neighbours are [u] and [v]. *)
Lemma ring_around l1 b l2 :
  exists A u v B, Head :: (Buf <$> l1) = A ++ [u] /\ (Buf <$> l2) ++ [Head] = v :: B /\
    Head :: (Buf <$> (l1 ++ b :: l2)) ++ [Head] = A ++ u :: Buf b :: v :: B /\
    Head :: (Buf <$> (l1 ++ l2)) ++ [Head] = A ++ u :: v :: B.
Proof.
  destruct (exists_last (l := Head :: (Buf <$> l1))) as (A & u & EA); [done|].
  destruct ((Buf <$> l2) ++ [Head]) as [|v B] eqn:EB; [by apply app_eq_nil in EB as [_ ?]|].
  exists A, u, v, B. split_and!; [done..| |].
  - rewrite fmap_app, fmap_cons, <- app_assoc, <- app_comm_cons, EB, app_comm_cons, EA, <- app_assoc. done.
  - rewrite fmap_app, <- app_assoc, EB, app_comm_cons, EA, <- app_assoc. done.
Qed.

#[export] Instance Buf_inj : Inj eq eq Buf.
Proof. by intros x y [= ->]. Qed.

Lemma nodup_bufs order : NoDup order -> NoDup (Head :: (Buf <$> order)).
Proof.
  intros H. constructor; [|by apply (NoDup_fmap_2 _)]. intros (x & ? & _)%list_elem_of_fmap. done.
Qed.

(** Any two positions of the ring differ, the head being at both ends. *)
Lemma ring_nodup l1 b l2 A u v B :
  NoDup (l1 ++ b :: l2) -> Head :: (Buf <$> l1) = A ++ [u] -> (Buf <$> l2) ++ [Head] = v :: B ->
  NoDup (A ++ [u]) /\ (forall x, x ∈ A ++ [u] -> x <> Buf b) /\ (forall x, x ∈ v :: B -> x <> Buf b) /\
  (forall x, x ∈ tail (A ++ [u]) -> x ∉ v :: B) /\ (forall x, x ∈ removelast (v :: B) -> x ∉ A ++ [u]) /\
  NoDup (v :: B).
Proof.
  intros N EA EB. rewrite <- EA, <- EB. apply NoDup_app in N as (N1 & N12 & N2).
  apply NoDup_cons in N2 as [Nb N2]. split_and!.
  - by apply nodup_bufs.
  - intros x [->|(y & -> & Hy)%list_elem_of_fmap]%elem_of_cons; [done|]. intros [= ->]. apply (N12 b); [done|by left].
  - intros x [(y & -> & Hy)%list_elem_of_fmap|Hx]%elem_of_app; [|set_solver]. intros [= ->]. done.
  - simpl. intros x (y & -> & Hy)%list_elem_of_fmap. rewrite elem_of_app. intros [(z & [= <-] & Hz)%list_elem_of_fmap|Hx]; [|set_solver].
    apply (N12 y); [done|by right].
  - rewrite removelast_snoc. intros x (y & -> & Hy)%list_elem_of_fmap.
    intros [?|(z & [= <-] & Hz)%list_elem_of_fmap]%elem_of_cons; [done|]. apply (N12 y); [done|by right].
  - apply NoDup_app. split_and!; [by apply (NoDup_fmap_2 _)| |apply NoDup_singleton].
    intros x (y & -> & _)%list_elem_of_fmap. set_solver.
Qed.

Lemma ring_unlink bc l1 b l2 :
  NoDup (l1 ++ b :: l2) -> (forall i, i ∈ l1 ++ b :: l2 -> valid_p bc (Buf i)) -> ring bc (l1 ++ b :: l2) ->
  exists u v, get (next_l (Buf b)) bc = Some v /\ get (prev_l (Buf b)) bc = Some u /\
    valid_p bc u /\ valid_p bc v /\ v <> Buf b /\ ring (unlink b u v bc) (l1 ++ l2).
Proof.
  intros N Hv HR. destruct (ring_around l1 b l2) as (A & u & v & B & EA & EB & E1 & E2).
  destruct (ring_nodup _ _ _ _ _ _ _ N EA EB) as (NA & HA & HB & HT & HL & NB).
  assert (Hval : forall x, x ∈ A ++ [u] \/ x ∈ v :: B -> valid_p bc x).
  { rewrite <- EA, <- EB. intros x [Hx|Hx].
    - apply elem_of_cons in Hx as [->|(y & -> & Hy)%list_elem_of_fmap]; [done|]. apply Hv. set_solver.
    - apply elem_of_app in Hx as [(y & -> & Hy)%list_elem_of_fmap|Hx]; [apply Hv; set_solver|].
      apply list_elem_of_singleton in Hx as ->. done. }
  unfold ring in *. rewrite E1 in HR. rewrite E2.
  apply (links_app bc A u) in HR as [R1 R2]. rewrite !links_cons in R2. destruct R2 as ([_ P1] & [P2 _] & R3).
  assert (Hu : valid_p bc u) by (apply Hval; left; set_solver).
  assert (Hvv : valid_p bc v) by (apply Hval; right; set_solver).
  exists u, v. split_and!; [done..|apply HB; set_solver|].
  apply (links_app _ A u). unfold unlink. split; [|rewrite links_cons; split].
  - apply (links_ext bc); [..|done].
    + rewrite removelast_snoc. intros x Hx. rewrite next_put_ne, next_put_prev; [done|].
      intros ->. apply NoDup_app in NA as (_ & NA & _). apply (NA u Hx). set_solver.
    + intros x Hx. rewrite prev_put_next. apply prev_put_ne. intros ->. apply (HT v Hx). set_solver.
  - split.
    + apply next_put_eq. by rewrite put_prev_valid.
    + rewrite prev_put_next. by apply prev_put_eq.
  - apply (links_ext bc); [..|done].
    + intros x Hx. rewrite next_put_ne, next_put_prev; [done|]. intros ->. apply (HL u Hx). set_solver.
    + simpl. intros x Hx. rewrite prev_put_next. apply prev_put_ne. intros ->. by apply NoDup_cons in NB as [? _].
Qed.

Lemma ring_push bc b order :
  NoDup (b :: order) -> (forall i, i ∈ b :: order -> valid_p bc (Buf i)) -> ring bc order ->
  exists h, get (next_l Head) bc = Some h /\ valid_p bc h /\ h <> Buf b /\
    ring (push_front b h bc) (b :: order).
Proof.
  intros N Hv HR. unfold ring in *. apply NoDup_cons in N as [Nb N].
  destruct ((Buf <$> order) ++ [Head]) as [|h M] eqn:EM; [by apply app_eq_nil in EM as [_ ?]|].
  rewrite links_cons in HR. destruct HR as [[Hh _] HR].
  assert (HM : forall x, x ∈ h :: M -> valid_p bc x /\ x <> Buf b).
  { rewrite <- EM. intros x [(y & -> & Hy)%list_elem_of_fmap|Hx]%elem_of_app.
    - split; [apply Hv; by right|]. intros [= ->]. done.
    - apply list_elem_of_singleton in Hx as ->. done. }
  assert (NM : NoDup (h :: M)).
  { rewrite <- EM. apply NoDup_app. split_and!; [by apply (NoDup_fmap_2 _)| |apply NoDup_singleton].
    intros x (y & -> & _)%list_elem_of_fmap. set_solver. }
  assert (HL : forall x, x ∈ removelast (h :: M) -> x <> Head).
  { rewrite <- EM, removelast_snoc. by intros x (y & -> & _)%list_elem_of_fmap. }
  assert (Hb : valid_p bc (Buf b)) by (apply Hv; by left).
  destruct (HM h) as [Hhv Hhb]; [by left|]. exists h. split_and!; [done..|].
  rewrite fmap_cons, <- app_comm_cons, EM. unfold push_front. rewrite !links_cons. split; [|split].
  - split; [apply next_put_eq; done|]. rewrite prev_put_next, prev_put_ne by done.
    apply prev_put_eq. by rewrite put_next_valid.
  - split.
    + rewrite next_put_ne, !next_put_prev by done. by apply next_put_eq.
    + rewrite prev_put_next. apply prev_put_eq. by rewrite put_prev_valid, put_next_valid.
  - apply (links_ext bc); [..|done].
    + intros x Hx. assert (x <> Head) by (by apply HL). assert (x <> Buf b) by (apply HM; by apply elem_of_removelast).
      rewrite next_put_ne, !next_put_prev by done. by apply next_put_ne.
    + cbn [tail]. intros x Hx. assert (x <> Buf b) by (apply HM; by right).
      assert (x <> h) by (intros ->; by apply NoDup_cons in NM as [? _]).
      rewrite prev_put_next, !prev_put_ne by done. by rewrite prev_put_next.
Qed.

(** ** The invariant *)

Definition pins (X : gset Z) (bno : Z) : Z := if bool_decide (bno ∈ X) then 1 else 0.

(** A buffer, locked by this process for block [bno] ([o = Some bno]) or not. *)
Definition buf_ok (V : Z -> list Z) (X : gset Z) (pid : Z) (o : option Z) (b : buf) : Prop :=
  lock_free (sl_lk (b_lock b)) /\ length (b_data b) = Z.to_nat BSIZE /\
  match o with
  | Some bno =>
      b_dev b = ROOTDEV /\ b_blockno b = bno /\ b_valid b = true /\ b_data b = V bno /\
      sl_locked (b_lock b) = true /\ sl_pid (b_lock b) = pid /\ b_refcnt b = 1 + pins X bno
  | None =>
      sl_locked (b_lock b) = false /\
      (if b_dev b =? ROOTDEV
       then b_refcnt b = pins X (b_blockno b) /\ (b_valid b = true -> b_data b = V (b_blockno b))
       else b_refcnt b = 0)
  end.

Definition holds_block (b : buf) (bno : Z) : Prop := b_dev b = ROOTDEV /\ b_blockno b = bno.

Record bio_ok (pid : Z) (s : kern) (V : Z -> list Z) (X : gset Z) (L : gmap nat Z) : Prop := {
  bo_lock : lock_free (bc_lock (k_bcache s));
  bo_order : exists order, ring (k_bcache s) order /\ NoDup order /\
    forall j, j ∈ order <-> (j < Z.to_nat NBUF)%nat;
  bo_len : length (bufs s) = Z.to_nat NBUF;
  bo_buf : forall j b, bufs s !! j = Some b -> buf_ok V X pid (L !! j) b;
  bo_dom : forall j bno, L !! j = Some bno -> (j < Z.to_nat NBUF)%nat;
  bo_uniq : forall j k b b' bno, bufs s !! j = Some b -> bufs s !! k = Some b' ->
    holds_block b bno -> holds_block b' bno -> j = k;
  bo_pin : forall bno, bno ∈ X -> exists j b, bufs s !! j = Some b /\ holds_block b bno /\ b_valid b = true;
  bo_clean : forall bno, bno ∉ X -> (forall j, L !! j <> Some bno) -> V bno = disk_get (k_disk s) bno;
  bo_size : forall bno, length (disk_get (k_disk s) bno) = Z.to_nat BSIZE
}.

(** ** Searching the ring *)

Fixpoint pick (f : buf -> bool) (bs : list buf) (l : list nat) : option nat :=
  match l with
  | [] => None
  | x :: l => if from_option f false (bs !! x) then Some x else pick f bs l
  end.

Lemma pick_Some f bs l x : pick f bs l = Some x -> x ∈ l /\ exists b, bs !! x = Some b /\ f b = true.
Proof.
  induction l as [|y l IH]; [done|]. simpl. destruct (bs !! y) as [b|] eqn:E; simpl.
  - destruct (f b) eqn:Ef; [intros [= ->]; split; [by left|eauto]|]. intros [? ?]%IH. split; [by right|done].
  - intros [? ?]%IH. split; [by right|done].
Qed.

Lemma pick_None f bs l x b : pick f bs l = None -> x ∈ l -> bs !! x = Some b -> f b = false.
Proof.
  induction l as [|y l IH]; [set_solver|]. simpl. intros H [->|Hx]%elem_of_cons Hb.
  - rewrite Hb in H. simpl in H. by destruct (f b).
  - apply IH; [|done..]. by destruct (from_option f false (bs !! y)).
Qed.

Lemma ld_buf_run c s b bf : bufs s !! b = Some bf -> ld_buf b (c, s) = Ret bf (c, s).
Proof. intros H. apply load_some. unfold inS, buf_l, bufs_l, comp. simpl. done. Qed.

Lemma up_buf_run c s b bf f : bufs s !! b = Some bf -> up_buf b f (c, s) = Ret tt (c, upd_bufs (insert b (f bf)) s).
Proof.
  intros H. unfold up_buf. rewrite (update_some _ _ bf) by done. unfold inS, buf_l, bufs_l, comp. simpl. done.
Qed.

Lemma ld_next_run c s p q : get (next_l p) (k_bcache s) = Some q -> ld_next p (c, s) = Ret q (c, s).
Proof. intros H. apply load_some. unfold inS, comp. simpl. done. Qed.

Lemma ld_prev_run c s p q : get (prev_l p) (k_bcache s) = Some q -> ld_prev p (c, s) = Ret q (c, s).
Proof. intros H. apply load_some. unfold inS, comp. simpl. done. Qed.

Lemma st_next_run c s p q :
  valid_p (k_bcache s) p -> st_next p q (c, s) = Ret tt (c, set_k_bcache (put (next_l p) q (k_bcache s)) s).
Proof. intros H. destruct (proj1 (valid_get _ _ H)) as [x Hx]. unfold st_next, st_prev. by rewrite (store_some _ _ x). Qed.

Lemma st_prev_run c s p q :
  valid_p (k_bcache s) p -> st_prev p q (c, s) = Ret tt (c, set_k_bcache (put (prev_l p) q (k_bcache s)) s).
Proof. intros H. destruct (proj2 (valid_get _ _ H)) as [x Hx]. unfold st_next, st_prev. by rewrite (store_some _ _ x). Qed.

Definition matches (dev bno : Z) (b : buf) : bool := (b_dev b =? dev) && (b_blockno b =? bno).

Lemma find_cached_run dev bno l fuel p q c s :
  links (k_bcache s) (p :: (Buf <$> l) ++ [Head]) -> get (next_l p) (k_bcache s) = Some q ->
  (forall x, x ∈ l -> is_Some (bufs s !! x)) -> (length l < fuel)%nat ->
  find_cached fuel q dev bno (c, s) = Ret (pick (matches dev bno) (bufs s) l) (c, s).
Proof.
  revert p q fuel. induction l as [|x l IH]; intros p q [|fuel] HL Hq Hv Hf; simpl in Hf; try lia.
  - destruct HL as [[E _] _]. assert (q = Head) as -> by congruence. done.
  - change (links (k_bcache s) (p :: Buf x :: (Buf <$> l) ++ [Head])) in HL. rewrite links_cons in HL.
    destruct HL as [[E _] HL]. assert (q = Buf x) as -> by congruence. cbn [find_cached pick].
    destruct (Hv x) as [b Hb]; [by left|]. rewrite (bind_ret _ _ _ _ _ (ld_buf_run c s x b Hb)), Hb.
    cbn [from_option]. fold (matches dev bno b). destruct (matches dev bno b); [done|].
    destruct (get (next_l (Buf x)) (k_bcache s)) as [q|] eqn:Eq.
    2: { simpl in Eq. fold (bufs s) in Eq. by rewrite Hb in Eq. }
    rewrite (bind_ret _ _ _ _ _ (ld_next_run c s _ q Eq)). eapply IH; [done..| |lia]. intros y Hy. apply Hv. by right.
Qed.

Lemma find_unused_run l fuel p q c s :
  links (k_bcache s) (Head :: (Buf <$> l) ++ [p]) -> get (prev_l p) (k_bcache s) = Some q ->
  (forall x, x ∈ l -> is_Some (bufs s !! x)) -> (length l < fuel)%nat ->
  find_unused fuel q (c, s) = Ret (pick (fun b => b_refcnt b =? 0) (bufs s) (reverse l)) (c, s).
Proof.
  revert p q fuel. induction l as [|x l IH] using rev_ind; intros p q fuel HL Hq Hv Hf.
  - destruct fuel as [|fuel]; simpl in Hf; [lia|]. destruct HL as [[_ E] _]. assert (q = Head) as -> by congruence. done.
  - destruct fuel as [|fuel]; [simpl in Hf; lia|]. rewrite length_app in Hf. simpl in Hf. rewrite fmap_app, <- app_assoc in HL.
    change (links (k_bcache s) ((Head :: (Buf <$> l)) ++ Buf x :: [p])) in HL.
    apply links_app in HL as [HL [[_ E] _]]. assert (q = Buf x) as -> by congruence.
    rewrite reverse_snoc. cbn [find_unused pick].
    destruct (Hv x) as [b Hb]; [set_solver|]. rewrite (bind_ret _ _ _ _ _ (ld_buf_run c s x b Hb)), Hb.
    cbn [from_option]. destruct (b_refcnt b =? 0); [done|].
    destruct (get (prev_l (Buf x)) (k_bcache s)) as [q|] eqn:Eq.
    2: { simpl in Eq. fold (bufs s) in Eq. by rewrite Hb in Eq. }
    rewrite (bind_ret _ _ _ _ _ (ld_prev_run c s _ q Eq)). eapply IH; [done..| |lia]. intros y Hy. apply Hv. set_solver.
Qed.

(** ** State manipulation *)

Definition bc_l : lens kern spinlock := comp k_bcache_l bc_lock_l.
Definition with_lk (lk : spinlock) (s : kern) : kern := put bc_l lk s.

Lemma with_lk_with lk lk' s : with_lk lk (with_lk lk' s) = with_lk lk s.
Proof. apply put_put. Qed.

Lemma with_lk_same s : with_lk (bc_lock (k_bcache s)) s = s.
Proof. by destruct s as [? []]. Qed.

Lemma upd_bufs_lk f lk s : upd_bufs f (with_lk lk s) = with_lk lk (upd_bufs f s).
Proof. done. Qed.

Lemma upd_bufs_bufs f s : bufs (upd_bufs f s) = f (bufs s).
Proof. done. Qed.

Lemma upd_bufs_insert b x y s : upd_bufs (insert b x) (upd_bufs (insert b y) s) = upd_bufs (insert b x) s.
Proof. destruct s as [? [? bs ? ?]]. unfold upd_bufs. simpl. by rewrite list_insert_insert_eq. Qed.

Lemma upd_bufs_id b x s : bufs s !! b = Some x -> upd_bufs (insert b x) s = s.
Proof.
  destruct s as [? [? bs ? ?]]. unfold upd_bufs, bufs. simpl. intros H. by rewrite list_insert_id.
Qed.

Lemma bufs_insert_eq b x y s : bufs s !! b = Some y -> bufs (upd_bufs (insert b x) s) !! b = Some x.
Proof. intros H. simpl. apply list_lookup_insert_eq. by eapply lookup_lt_Some. Qed.

Lemma get_buf_lock s b bf : bufs s !! b = Some bf -> get (buf_lock b) s = Some (b_lock bf).
Proof. intros H. unfold bufs in H. simpl. by rewrite H. Qed.

Lemma put_buf_lock s b bf lk :
  bufs s !! b = Some bf -> put (buf_lock b) lk s = upd_bufs (insert b (set_b_lock lk bf)) s.
Proof. intros H. unfold bufs in H. simpl. rewrite H. done. Qed.

Lemma acquire_bc c s :
  lock_free (bc_lock (k_bcache s)) ->
  acquire bc_lk (c, s) = Ret tt (pushed c, with_lk (held (bc_lock (k_bcache s)) (c_id (cx_cpu c))) s).
Proof. intros H. by apply (acquire_S bc_l). Qed.

Lemma release_bc c s lk :
  cpu_ok (cx_cpu c) -> lock_free lk ->
  release bc_lk (pushed c, with_lk (held lk (c_id (cx_cpu c))) s) = Ret tt (settled c, with_lk lk s).
Proof.
  intros Hc Hf. unfold bc_lk. fold bc_l. rewrite (release_S bc_l c (pushed c) _ lk Hc eq_refl Hf) by done.
  unfold with_lk. by rewrite put_put.
Qed.

Definition slocked (pid : Z) (x : sleeplock) : sleeplock := Sleeplock true (sl_lk x) (sl_name x) pid.

(** Leaving bget() with buffer [b] changed to [bf1]. *)
Lemma take_buf c s b bf bf1 i pid :
  kctx c i pid -> lock_free (bc_lock (k_bcache s)) -> bufs s !! b = Some bf ->
  lock_free (sl_lk (b_lock bf1)) -> sl_locked (b_lock bf1) = false ->
  exists c', kctx c' i pid /\
    (release bc_lk ;; acquiresleep (ChBufLock b) (buf_lock b) ;; mret b)
      (pushed c, upd_bufs (insert b bf1) (with_lk (held (bc_lock (k_bcache s)) (c_id (cx_cpu c))) s)) =
    Ret b (c', upd_bufs (insert b (set_b_lock (slocked pid (b_lock bf1)) bf1)) s).
Proof.
  intros Hc Hlk Hb Hf Hl. exists (settled (settled c)). split; [auto with kernel|].
  rewrite upd_bufs_lk. assert (Hcpu : cpu_ok (cx_cpu c)) by apply Hc.
  rewrite (bind_ret _ _ _ _ _ (release_bc c _ _ Hcpu Hlk)).
  assert (E : with_lk (bc_lock (k_bcache s)) (upd_bufs (insert b bf1) s) = upd_bufs (insert b bf1) s)
    by (rewrite <- upd_bufs_lk; by rewrite with_lk_same).
  rewrite E. assert (Hb1 : bufs (upd_bufs (insert b bf1) s) !! b = Some bf1) by (by eapply bufs_insert_eq).
  rewrite (bind_ret _ _ _ _ _ (acquiresleep_run (buf_lock b) (ChBufLock b) (settled c) _ _ i pid
    (kc_ok _ _ _ (kctx_settled _ _ _ Hc)) (get_buf_lock _ _ _ Hb1) Hf Hl (kc_fuel _ _ _ Hc))).
  rewrite (put_buf_lock _ _ _ _ Hb1), upd_bufs_insert. done.
Qed.

(** What bget() makes of the buffer it returns. *)
Definition got (bno pid : Z) (bf : buf) : buf :=
  set_b_lock (slocked pid (b_lock bf)) (set_b_refcnt (b_refcnt bf + 1) bf).
Definition recycled (bno pid : Z) (bf : buf) : buf :=
  set_b_lock (slocked pid (b_lock bf))
    (set_b_refcnt 1 (set_b_valid false (set_b_blockno bno (set_b_dev ROOTDEV bf)))).

Lemma full_ring pid s V X L order :
  bio_ok pid s V X L -> (forall j, j ∈ order <-> (j < Z.to_nat NBUF)%nat) ->
  (forall x, x ∈ order -> is_Some (bufs s !! x)) /\ (NoDup order -> length order = Z.to_nat NBUF).
Proof.
  intros B Ho. split.
  - intros x Hx. apply lookup_lt_is_Some. rewrite (bo_len _ _ _ _ _ B). by apply Ho.
  - intros N. rewrite <- (length_seq (Z.to_nat NBUF) 0). apply Permutation_length, NoDup_Permutation; [done|apply NoDup_seq|].
    intros j. rewrite Ho, elem_of_seq. lia.
Qed.

(** bget() after its two searches. *)
Lemma b_get_search pid s V X L bno c order :
  bio_ok pid s V X L -> ring (k_bcache s) order -> NoDup order -> (forall j, j ∈ order <-> (j < Z.to_nat NBUF)%nat) ->
  let s1 := with_lk (held (bc_lock (k_bcache s)) (c_id (cx_cpu c))) s in
  b_get ROOTDEV bno (c, s) = match pick (matches ROOTDEV bno) (bufs s) order with
    | Some b => (up_buf b (fun x => set_b_refcnt (b_refcnt x + 1) x) ;; release bc_lk ;;
                 acquiresleep (ChBufLock b) (buf_lock b) ;; mret b) (pushed c, s1)
    | None => match pick (fun b => b_refcnt b =? 0) (bufs s) (reverse order) with
              | Some b => (up_buf b (set_b_dev ROOTDEV) ;; up_buf b (set_b_blockno bno) ;;
                           up_buf b (set_b_valid false) ;; up_buf b (set_b_refcnt 1) ;; release bc_lk ;;
                           acquiresleep (ChBufLock b) (buf_lock b) ;; mret b) (pushed c, s1)
              | None => Panic "bget: no buffers"
              end
    end.
Proof.
  intros B HR N Ho s1. destruct (full_ring _ _ _ _ _ _ B Ho) as [Hv Hlen]. specialize (Hlen N).
  assert (HR1 : links (k_bcache s1) (Head :: (Buf <$> order) ++ [Head])).
  { eapply (links_ext (k_bcache s)); [intros []; done|intros []; done|exact HR]. }
  destruct (get (next_l Head) (k_bcache s1)) as [h|] eqn:Eh; [|done].
  destruct (get (prev_l Head) (k_bcache s1)) as [t|] eqn:Et; [|done].
  pose proof (find_cached_run ROOTDEV bno order ring_fuel Head h (pushed c) s1 HR1 Eh Hv) as F1.
  pose proof (find_unused_run order ring_fuel Head t (pushed c) s1 HR1 Et Hv) as F2.
  change (bufs s1) with (bufs s) in F1, F2. unfold ring_fuel in F1, F2 at 1. rewrite Hlen in F1, F2.
  specialize (F1 ltac:(lia)). specialize (F2 ltac:(lia)).
  unfold b_get. rewrite (bind_ret _ _ _ _ _ (acquire_bc c s (bo_lock _ _ _ _ _ B))). fold s1.
  rewrite (bind_ret _ _ _ _ _ (ld_next_run _ _ _ _ Eh)), (bind_ret _ _ _ _ _ F1).
  destruct (pick (matches ROOTDEV bno) (bufs s) order) as [b|]; [done|].
  rewrite (bind_ret _ _ _ _ _ (ld_prev_run _ _ _ _ Et)), (bind_ret _ _ _ _ _ F2).
  by destruct (pick _ (bufs s) (reverse order)).
Qed.

(** A buffer that is not locked: its sleep lock is free. *)
Lemma unlocked_buf pid s V X L b bf :
  bio_ok pid s V X L -> bufs s !! b = Some bf -> L !! b = None ->
  lock_free (sl_lk (b_lock bf)) /\ sl_locked (b_lock bf) = false.
Proof. intros B Hb HL. pose proof (bo_buf _ _ _ _ _ B b bf Hb) as (Hf & _ & H). rewrite HL in H. by destruct H. Qed.

(** The three outcomes of bget(): found, recycled, none left. *)
Lemma b_get_run pid s V X L bno c i :
  bio_ok pid s V X L -> kctx c i pid -> (forall j, L !! j <> Some bno) ->
  exists c', kctx c' i pid /\
    ((exists b bf, bufs s !! b = Some bf /\ holds_block bf bno /\ L !! b = None /\
       b_get ROOTDEV bno (c, s) = Ret b (c', upd_bufs (insert b (got bno pid bf)) s)) \/
     ((forall j b, bufs s !! j = Some b -> ~ holds_block b bno) /\
      ((exists b bf, bufs s !! b = Some bf /\ b_refcnt bf = 0 /\ L !! b = None /\
         b_get ROOTDEV bno (c, s) = Ret b (c', upd_bufs (insert b (recycled bno pid bf)) s)) \/
       (forall j b, bufs s !! j = Some b -> b_refcnt b <> 0)))).
Proof.
  intros B Hc HL. destruct (bo_order _ _ _ _ _ B) as (order & HR & N & Ho).
  pose proof (b_get_search pid s V X L bno c order B HR N Ho) as Run. cbv zeta in Run.
  set (s1 := with_lk _ s) in Run.
  assert (Hj : forall j b, bufs s !! j = Some b -> j ∈ order)
    by (intros j b Hb; apply Ho; rewrite <- (bo_len _ _ _ _ _ B); by eapply lookup_lt_Some).
  destruct (pick (matches ROOTDEV bno) (bufs s) order) as [b|] eqn:P1.
  - apply pick_Some in P1 as (Hb & bf & Hbf & Hm). apply andb_true_iff in Hm as [D%Z.eqb_eq E%Z.eqb_eq].
    assert (HLb : L !! b = None).
    { pose proof (bo_buf _ _ _ _ _ B b bf Hbf) as (_ & _ & H). destruct (L !! b) as [z|] eqn:EL; [|done].
      destruct H as (_ & Hz & _). exfalso. apply (HL b). congruence. }
    destruct (unlocked_buf _ _ _ _ _ _ _ B Hbf HLb) as [Hf Hl].
    rewrite (bind_ret _ _ _ _ _ (up_buf_run (pushed c) s1 b bf _ Hbf)) in Run.
    destruct (take_buf c s b bf (set_b_refcnt (b_refcnt bf + 1) bf) i pid Hc (bo_lock _ _ _ _ _ B) Hbf Hf Hl) as (c' & Hc' & R).
    exists c'. split; [done|]. left. exists b, bf. split_and!; [done..|]. by rewrite Run.
  - assert (Hno : forall j b, bufs s !! j = Some b -> ~ holds_block b bno).
    { intros j b Hb [D E]. pose proof (pick_None _ _ _ _ _ P1 (Hj _ _ Hb) Hb) as Hm.
      unfold matches in Hm. rewrite D, E, !Z.eqb_refl in Hm. done. }
    destruct (pick (fun b => b_refcnt b =? 0) (bufs s) (reverse order)) as [b|] eqn:P2.
    + apply pick_Some in P2 as (Hb & bf & Hbf & Hm). apply Z.eqb_eq in Hm.
      assert (HLb : L !! b = None).
      { pose proof (bo_buf _ _ _ _ _ B b bf Hbf) as (_ & _ & Hst). destruct (L !! b) as [z|]; [|done].
        destruct Hst as (_ & _ & _ & _ & _ & _ & Hr). unfold pins in Hr. case_bool_decide; lia. }
      destruct (unlocked_buf _ _ _ _ _ _ _ B Hbf HLb) as [Hf Hl].
      rewrite (bind_ret _ _ _ _ _ (up_buf_run (pushed c) s1 b bf _ Hbf)) in Run.
      do 3 (erewrite bind_ret in Run; [|eapply up_buf_run; eapply bufs_insert_eq; exact Hbf]; rewrite upd_bufs_insert in Run).
      destruct (take_buf c s b bf (set_b_refcnt 1 (set_b_valid false (set_b_blockno bno (set_b_dev ROOTDEV bf))))
        i pid Hc (bo_lock _ _ _ _ _ B) Hbf Hf Hl) as (c' & Hc' & R).
      exists c'. split; [done|]. right. split; [done|]. left. exists b, bf. split_and!; [done..|]. by rewrite Run.
    + exists c. split; [done|]. right. split; [done|]. right. intros j b Hb Hz.
      pose proof (pick_None _ _ _ _ _ P2 (proj2 (elem_of_reverse _ _) (Hj _ _ Hb)) Hb) as Hm. simpl in Hm. by rewrite Hz in Hm.
Qed.

(** ** Changing one buffer *)

Definition same_links (b b' : buf) : Prop := b_prev b' = b_prev b /\ b_next b' = b_next b.

Lemma insert_links s b bf bf' p :
  bufs s !! b = Some bf -> same_links bf bf' ->
  get (next_l p) (k_bcache (upd_bufs (insert b bf') s)) = get (next_l p) (k_bcache s) /\
  get (prev_l p) (k_bcache (upd_bufs (insert b bf') s)) = get (prev_l p) (k_bcache s).
Proof.
  intros Hb [Hp Hn]. unfold bufs in Hb. destruct p as [|j]; [done|]. simpl. destruct (decide (j = b)) as [->|Hne].
  - rewrite list_lookup_insert_eq by (by eapply lookup_lt_Some). rewrite Hb. simpl. by rewrite Hp, Hn.
  - by rewrite list_lookup_insert_ne by done.
Qed.

Lemma ring_same bc bc' order :
  (forall p, get (next_l p) bc' = get (next_l p) bc) -> (forall p, get (prev_l p) bc' = get (prev_l p) bc) ->
  ring bc order -> ring bc' order.
Proof. intros H1 H2. apply links_ext; auto. Qed.

(** The other buffers are untouched, and [bf'] is right for the new view. *)
Lemma bio_change pid s V X L b bf bf' V' X' L' :
  bio_ok pid s V X L -> bufs s !! b = Some bf -> same_links bf bf' ->
  buf_ok V' X' pid (L' !! b) bf' ->
  (forall j bj, j <> b -> bufs s !! j = Some bj -> buf_ok V' X' pid (L' !! j) bj) ->
  (forall j, j <> b -> L' !! j = L !! j) ->
  (forall j bj bno, j <> b -> bufs s !! j = Some bj -> holds_block bj bno -> ~ holds_block bf' bno) ->
  (forall bno, bno ∈ X' -> (holds_block bf' bno /\ b_valid bf' = true) \/ (bno ∈ X /\ ~ holds_block bf bno)) ->
  (forall bno, bno ∉ X' -> (forall j, L' !! j <> Some bno) -> V' bno = disk_get (k_disk s) bno) ->
  bio_ok pid (upd_bufs (insert b bf') s) V' X' L'.
Proof.
  intros B Hb Hl H1 H2 HL H3 H4 H5. pose proof (lookup_lt_Some _ _ _ Hb) as Hlt. rewrite (bo_len _ _ _ _ _ B) in Hlt.
  assert (Hlk : forall j x, bufs (upd_bufs (insert b bf') s) !! j = Some x ->
    (j = b /\ x = bf') \/ (j <> b /\ bufs s !! j = Some x)).
  { intros j x. simpl. intros Hx. apply list_lookup_insert_Some in Hx. naive_solver. }
  split.
  - apply (bo_lock _ _ _ _ _ B).
  - destruct (bo_order _ _ _ _ _ B) as (order & HR & N & Ho). exists order. split_and!; [|done..].
    eapply ring_same; [..|exact HR]; intros p; by eapply insert_links.
  - rewrite upd_bufs_bufs, length_insert. apply (bo_len _ _ _ _ _ B).
  - intros j x [[-> ->]|[Hne Hx]]%Hlk; [done|by apply H2].
  - intros j bno Hj. destruct (decide (j = b)) as [->|Hne]; [done|].
    rewrite HL in Hj by done. by apply (bo_dom _ _ _ _ _ B) in Hj.
  - intros j k x y bno [[-> ->]|[Hj Hx]]%Hlk [[-> ->]|[Hk Hy]]%Hlk Hhx Hhy; [done|..].
    + by destruct (H3 k y bno Hk Hy Hhy).
    + by destruct (H3 j x bno Hj Hx Hhx).
    + by apply (bo_uniq _ _ _ _ _ B j k x y bno).
  - intros bno Hx. destruct (H4 bno Hx) as [[Hh Hv]|[Hx' Hn]].
    + exists b, bf'. split; [by eapply bufs_insert_eq|done].
    + destruct (bo_pin _ _ _ _ _ B bno Hx') as (j & x & Hj & Hh & Hv). exists j, x. split; [|done].
      rewrite upd_bufs_bufs, list_lookup_insert_ne; [done|]. intros ->. by simplify_eq.
  - done.
  - apply (bo_size _ _ _ _ _ B).
Qed.

(** bread() hands the buffer over. *)
Lemma bio_lock_buf pid s V X L b bf bf' bno :
  bio_ok pid s V X L -> bufs s !! b = Some bf -> L !! b = None -> (forall j, L !! j <> Some bno) ->
  holds_block bf bno \/ (b_refcnt bf = 0 /\ forall j x, bufs s !! j = Some x -> ~ holds_block x bno) ->
  same_links bf bf' -> buf_ok V X pid (Some bno) bf' ->
  bio_ok pid (upd_bufs (insert b bf') s) V X (<[b := bno]> L).
Proof.
  intros B Hb HLb HL Hc Hl Hok. assert (Hh : holds_block bf' bno) by (destruct Hok as (_ & _ & ? & ? & _); done).
  eapply (bio_change pid s V X L b bf bf'); try done.
  - by rewrite lookup_insert_eq.
  - intros j bj Hne Hj. rewrite lookup_insert_ne by done. by apply (bo_buf _ _ _ _ _ B).
  - intros j Hne. by rewrite lookup_insert_ne by done.
  - intros j bj z Hne Hj Hz Hz'. assert (z = bno) as -> by (destruct Hh, Hz'; congruence). destruct Hc as [Hc|[_ Hc]].
    + apply Hne. by apply (bo_uniq _ _ _ _ _ B j b bj bf bno).
    + by apply (Hc j bj).
  - intros z Hz. destruct (decide (z = bno)) as [->|Hne].
    + left. split; [done|]. by destruct Hok as (_ & _ & _ & _ & ? & _).
    + right. split; [done|]. intros Hz'. destruct Hc as [[? ?]|[Hr _]]; [destruct Hz'; congruence|].
      pose proof (bo_buf _ _ _ _ _ B b bf Hb) as (_ & _ & Hst). rewrite HLb in Hst. destruct Hst as [_ Hst], Hz' as [D E].
      rewrite D in Hst. simpl in Hst. rewrite E in Hst. unfold pins in Hst. rewrite bool_decide_true in Hst by done. lia.
  - intros z Hz Hn. apply (bo_clean _ _ _ _ _ B z Hz). intros j Hj. destruct (decide (j = b)) as [->|Hne]; [congruence|].
    apply (Hn j). by rewrite lookup_insert_ne.
Qed.

Section Ops.
Context {BD : BlockDev} {BO : BlockDevOk BD}.

(** Not all buffers can be in use when fewer than NBUF blocks are pinned or
    locked. *)
Lemma some_unused pid s V X L :
  bio_ok pid s V X L -> (size X + size L < Z.to_nat NBUF)%nat ->
  exists j b, bufs s !! j = Some b /\ b_refcnt b = 0.
Proof.
  intros B Hsz. destruct (decide (Exists (fun b => b_refcnt b = 0) (bufs s))) as [He|Hn].
  { apply Exists_exists in He as (b & Hb & Hr). apply list_elem_of_lookup in Hb as [j Hj]. eauto. }
  exfalso. apply not_Exists_Forall in Hn; [|apply _].
  set (used := elements X ++ (map_to_list L).*2).
  assert (Hin : forall j b, bufs s !! j = Some b -> b_dev b = ROOTDEV /\ b_blockno b ∈ used).
  { intros j b Hj. pose proof (Forall_lookup_1 _ _ _ _ Hn Hj) as Hr. simpl in Hr.
    pose proof (bo_buf _ _ _ _ _ B j b Hj) as (_ & _ & Hst). unfold used. rewrite elem_of_app.
    destruct (L !! j) as [z|] eqn:EL.
    - destruct Hst as (D & -> & _). split; [done|]. right. apply list_elem_of_fmap. exists (j, z).
      split; [done|by apply elem_of_map_to_list].
    - destruct Hst as [_ Hst]. destruct (Z.eqb_spec (b_dev b) ROOTDEV) as [D|D]; [|done]. destruct Hst as [Hst _].
      split; [done|]. left. apply elem_of_elements. unfold pins in Hst. case_bool_decide; [done|lia]. }
  assert (N : NoDup (b_blockno <$> bufs s)).
  { apply NoDup_alt. intros j k z Hj Hk. apply list_lookup_fmap_Some in Hj as (x & -> & Hx), Hk as (y & E & Hy).
    apply (bo_uniq _ _ _ _ _ B j k x y (b_blockno x)); [done|done|..]; (split; [by eapply Hin|done]). }
  assert (Hsub : b_blockno <$> bufs s ⊆+ used).
  { apply NoDup_submseteq; [done|]. intros z (b & -> & Hb)%list_elem_of_fmap.
    apply list_elem_of_lookup in Hb as [j Hj]. by eapply Hin. }
  apply submseteq_length in Hsub. unfold used in Hsub.
  rewrite length_app, !length_fmap, (bo_len _ _ _ _ _ B), length_map_to_list in Hsub.
  change (size X) with (length (elements X)) in Hsz. lia.
Qed.

(** The buffer between bget() and the read of its block. *)
Record half_ok (V : Z -> list Z) (X : gset Z) (pid bno : Z) (dk : list Z) (bf b : buf) : Prop := {
  ho_free : lock_free (sl_lk (b_lock b));
  ho_locked : sl_locked (b_lock b) = true /\ sl_pid (b_lock b) = pid;
  ho_block : holds_block b bno;
  ho_ref : b_refcnt b = 1 + pins X bno;
  ho_links : same_links bf b;
  ho_len : length (b_data b) = Z.to_nat BSIZE;
  ho_data : if b_valid b then b_data b = V bno else V bno = dk
}.

Lemma half_ok_full V X pid bno dk bf b :
  half_ok V X pid bno dk bf b -> b_valid b = true -> buf_ok V X pid (Some bno) b.
Proof. intros [H1 [H2 H2'] [H3 H3'] H4 H5 H6 H7] Hv. rewrite Hv in H7. by split_and!. Qed.

Lemma bread_fill pid s V X L bno b bf bf1 c i (Q : nat -> ctx * kern -> Prop) :
  bio_ok pid s V X L -> kctx c i pid -> (forall j, L !! j <> Some bno) -> bufs s !! b = Some bf -> L !! b = None ->
  holds_block bf bno \/ (b_refcnt bf = 0 /\ forall j x, bufs s !! j = Some x -> ~ holds_block x bno) ->
  half_ok V X pid bno (disk_get (k_disk s) bno) bf bf1 ->
  (forall bf' c', kctx c' i pid -> buf_ok V X pid (Some bno) bf' ->
    let s' := upd_bufs (insert b bf') s in bio_ok pid s' V X (<[b := bno]> L) -> Q b (c', s')) ->
  wp bd_env (bf ← ld_buf b;
     (if negb (b_valid bf) then virtio_disk_rw b false ;; up_buf b (set_b_valid true) else mret tt) ;; mret b)
    Q (c, upd_bufs (insert b bf1) s).
Proof.
  intros B Hc HL Hb HLb Hcase Hh HQ.
  assert (Hb1 : bufs (upd_bufs (insert b bf1) s) !! b = Some bf1) by (by eapply bufs_insert_eq).
  apply wp_bind. eapply wp_run; [by apply ld_buf_run|]. apply wp_bind. destruct (b_valid bf1) eqn:Ev; cbn [negb].
  - apply wp_ret, wp_ret. pose proof (half_ok_full _ _ _ _ _ _ _ Hh Ev) as Hok.
    apply HQ; [done..|]. by apply (bio_lock_buf pid s V X L b bf); try done; apply Hh.
  - apply wp_bind. apply (bd_read b bf1 c _ i pid); [done..|]. intros c' Hc'.
    rewrite upd_bufs_insert. change (k_disk (upd_bufs _ s)) with (k_disk s).
    rewrite (proj2 (ho_block _ _ _ _ _ _ _ Hh)). set (bf2 := set_b_data _ bf1).
    assert (Hb2 : bufs (upd_bufs (insert b bf2) s) !! b = Some bf2) by (by eapply bufs_insert_eq).
    eapply wp_run; [by apply up_buf_run|]. rewrite upd_bufs_insert. apply wp_ret.
    assert (Hok : buf_ok V X pid (Some bno) (set_b_valid true bf2)).
    { destruct Hh as [H1 [H2 H2'] [H3 H3'] H4 H5 H6 H7]. rewrite Ev in H7. split_and!; try done.
      apply (bo_size _ _ _ _ _ B). }
    apply HQ; [done..|]. by apply (bio_lock_buf pid s V X L b bf); try done; apply Hh.
Qed.

(** bread(): a locked buffer with the block's logical contents. *)
Lemma bread_wp pid s V X L bno c i (Q : nat -> ctx * kern -> Prop) :
  bio_ok pid s V X L -> kctx c i pid -> (forall j, L !! j <> Some bno) ->
  bno ∈ X \/ (size X + size L < Z.to_nat NBUF)%nat ->
  (forall b bf c', kctx c' i pid -> L !! b = None -> is_Some (bufs s !! b) -> buf_ok V X pid (Some bno) bf ->
    let s' := upd_bufs (insert b bf) s in bio_ok pid s' V X (<[b := bno]> L) -> Q b (c', s')) ->
  wp bd_env (bread ROOTDEV bno) Q (c, s).
Proof.
  intros B Hc HL Hsz HQ. destruct (b_get_run pid s V X L bno c i B Hc HL) as (c1 & Hc1 & Hr).
  unfold bread. apply wp_bind. destruct Hr as [(b & bf & Hb & Hh & HLb & R)|(Hno & [(b & bf & Hb & Hz & HLb & R)|Hall])].
  - eapply wp_run; [exact R|]. pose proof (bo_buf _ _ _ _ _ B b bf Hb) as (Hf & Hlen & Hst). rewrite HLb in Hst.
    destruct Hst as [Hl Hst]. assert (Hh' := Hh). destruct Hh as [D E]. rewrite D in Hst. simpl in Hst. rewrite E in Hst.
    destruct Hst as [Hrc Hd]. eapply bread_fill; try done; [by left| |].
    + split; try done; simpl; [lia|]. destruct (b_valid bf) eqn:Ev; [by apply Hd|].
      apply (bo_clean _ _ _ _ _ B); [|done]. intros Hx. destruct (bo_pin _ _ _ _ _ B bno Hx) as (j & x & Hj & Hhx & Hv).
      assert (j = b) as -> by (by apply (bo_uniq _ _ _ _ _ B j b x bf bno)). congruence.
    + intros bf' c' Hc' Hok s' B'. apply HQ; eauto.
  - eapply wp_run; [exact R|]. pose proof (bo_buf _ _ _ _ _ B b bf Hb) as (Hf & Hlen & Hst). rewrite HLb in Hst.
    assert (Hx : bno ∉ X) by (intros Hx; destruct (bo_pin _ _ _ _ _ B bno Hx) as (j & x & Hj & Hhx & _); by apply (Hno j x)).
    eapply bread_fill; try done; [by right| |].
    + split; try done; simpl; [|by apply (bo_clean _ _ _ _ _ B)]. unfold pins. by rewrite bool_decide_false.
    + intros bf' c' Hc' Hok s' B'. apply HQ; eauto.
  - exfalso. destruct Hsz as [Hx|Hsz].
    + destruct (bo_pin _ _ _ _ _ B bno Hx) as (j & x & Hj & Hh & _). by apply (Hno j x).
    + destruct (some_unused _ _ _ _ _ B Hsz) as (j & x & Hj & Hx). by apply (Hall j x).
Qed.

Definition vset (bno : Z) (d : list Z) (V : Z -> list Z) : Z -> list Z := fun x => if x =? bno then d else V x.

Lemma locked_buf pid s V X L b bno :
  bio_ok pid s V X L -> L !! b = Some bno -> exists bf, bufs s !! b = Some bf /\ buf_ok V X pid (Some bno) bf.
Proof.
  intros B HL. destruct (lookup_lt_is_Some_2 (bufs s) b) as [bf Hb].
  { rewrite (bo_len _ _ _ _ _ B). by eapply bo_dom. }
  exists bf. split; [done|]. pose proof (bo_buf _ _ _ _ _ B b bf Hb) as H. by rewrite HL in H.
Qed.

(** No other buffer holds a locked buffer's block. *)
Lemma locked_uniq pid s V X L b bno j bj :
  bio_ok pid s V X L -> L !! b = Some bno -> j <> b -> bufs s !! j = Some bj -> ~ holds_block bj bno.
Proof.
  intros B HL Hne Hj Hh. destruct (locked_buf _ _ _ _ _ _ _ B HL) as (bf & Hb & _ & _ & D & E & _).
  apply Hne. by apply (bo_uniq _ _ _ _ _ B j b bj bf bno).
Qed.

Lemma locked_once pid s V X L b b' bno :
  bio_ok pid s V X L -> L !! b = Some bno -> L !! b' = Some bno -> b = b'.
Proof.
  intros B H1 H2. destruct (locked_buf _ _ _ _ _ _ _ B H1) as (x & Hx & _ & _ & D & E & _).
  destruct (locked_buf _ _ _ _ _ _ _ B H2) as (y & Hy & _ & _ & D' & E' & _).
  by apply (bo_uniq _ _ _ _ _ B b b' x y bno).
Qed.

(** The other buffers when only block [bno]'s contents or pin change. *)
Lemma others_ok pid s V X L V' X' b bno j bj :
  bio_ok pid s V X L -> L !! b = Some bno -> j <> b -> bufs s !! j = Some bj ->
  (forall z, z <> bno -> V' z = V z) -> (forall z, z <> bno -> pins X' z = pins X z) ->
  buf_ok V' X' pid (L !! j) bj.
Proof.
  intros B HL Hne Hj HV HX. pose proof (bo_buf _ _ _ _ _ B j bj Hj) as (Hf & Hlen & Hst).
  pose proof (locked_uniq _ _ _ _ _ _ _ _ _ B HL Hne Hj) as Hn. split_and!; [done..|].
  destruct (L !! j) as [z|] eqn:EL.
  - assert (z <> bno) by (intros ->; apply Hne; by eapply locked_once). rewrite HV, HX by done. done.
  - destruct Hst as [Hl Hst]. split; [done|]. destruct (Z.eqb_spec (b_dev bj) ROOTDEV) as [D|]; [|done].
    assert (b_blockno bj <> bno) by (intros E; by apply Hn). by rewrite HV, HX by done.
Qed.

(** Changing the contents of a locked buffer. *)
Lemma set_data_ok pid s V X L b bno d bf :
  bio_ok pid s V X L -> L !! b = Some bno -> bufs s !! b = Some bf -> length d = Z.to_nat BSIZE ->
  bio_ok pid (upd_bufs (insert b (set_b_data d bf)) s) (vset bno d V) X L.
Proof.
  intros B HL Hb Hd. pose proof (bo_buf _ _ _ _ _ B b bf Hb) as Hok. rewrite HL in Hok.
  destruct Hok as (Hf & Hlen & D & E & Hv & Hdat & Hl & Hp & Hr).
  eapply (bio_change pid s V X L b bf); try done.
  - rewrite HL. split_and!; try done. simpl. unfold vset. by rewrite Z.eqb_refl.
  - intros j bj Hne Hj. eapply others_ok; try done. intros z Hz. unfold vset. by rewrite (proj2 (Z.eqb_neq _ _)).
  - intros j bj z Hne Hj Hz [D' E']. simpl in E'. rewrite E in E'. subst z. by eapply locked_uniq.
  - intros z Hz. destruct (decide (z = bno)) as [->|Hne]; [by left|]. right. split; [done|]. intros [_ E']. congruence.
  - intros z Hz Hn. unfold vset. destruct (Z.eqb_spec z bno) as [->|]; [by destruct (Hn b)|]. by apply (bo_clean _ _ _ _ _ B).
Qed.

(** bpin() and bunpin() of a locked buffer. *)
Lemma repin_ok pid s V X X' L b bno bf :
  bio_ok pid s V X L -> L !! b = Some bno -> bufs s !! b = Some bf ->
  (forall z, z <> bno -> z ∈ X' <-> z ∈ X) ->
  bio_ok pid (upd_bufs (insert b (set_b_refcnt (1 + pins X' bno) bf)) s) V X' L.
Proof.
  intros B HL Hb HX. pose proof (bo_buf _ _ _ _ _ B b bf Hb) as Hok. rewrite HL in Hok.
  destruct Hok as (Hf & Hlen & D & E & Hv & Hdat & Hl & Hp & Hr).
  eapply (bio_change pid s V X L b bf); try done.
  - rewrite HL. by split_and!.
  - intros j bj Hne Hj. eapply others_ok; try done. intros z Hz. unfold pins. by rewrite (bool_decide_ext _ _ (HX z Hz)).
  - intros j bj z Hne Hj Hz [D' E']. simpl in E'. rewrite E in E'. subst z. by eapply locked_uniq.
  - intros z Hz. destruct (decide (z = bno)) as [->|Hne]; [by left|]. right. split; [by apply HX|]. intros [_ E']. congruence.
  - intros z Hz Hn. apply (bo_clean _ _ _ _ _ B); [|done]. rewrite <- HX; [done|]. intros ->. by destruct (Hn b).
Qed.

(** The pin count of a locked buffer, changed in a critical section. *)
Lemma pin_crit pid s V X L b bf c (g : buf -> buf) :
  bio_ok pid s V X L -> cpu_ok (cx_cpu c) -> bufs s !! b = Some bf ->
  (acquire bc_lk ;; up_buf b g ;; release bc_lk) (c, s) = Ret tt (settled c, upd_bufs (insert b (g bf)) s).
Proof.
  intros B Hc Hb. rewrite (bind_ret _ _ _ _ _ (acquire_bc c s (bo_lock _ _ _ _ _ B))).
  rewrite (bind_ret _ _ _ _ _ (up_buf_run _ (with_lk _ s) b bf g Hb)), upd_bufs_lk.
  rewrite release_bc; [|done|apply B]. rewrite <- upd_bufs_lk, with_lk_same. done.
Qed.

Lemma bpin_run pid s V X L b bno c :
  bio_ok pid s V X L -> cpu_ok (cx_cpu c) -> L !! b = Some bno -> bno ∉ X ->
  exists bc, bpin b (c, s) = Ret tt (settled c, set_k_bcache bc s) /\ bio_ok pid (set_k_bcache bc s) V ({[bno]} ∪ X) L.
Proof.
  intros B Hc HL Hx. destruct (locked_buf _ _ _ _ _ _ _ B HL) as (bf & Hb & _ & _ & _ & _ & _ & _ & _ & _ & Hr).
  eexists. split; [unfold bpin; rewrite (pin_crit pid s V X L b bf c _ B Hc Hb); reflexivity|].
  assert (E : b_refcnt bf + 1 = 1 + pins ({[bno]} ∪ X) bno).
  { rewrite Hr. unfold pins. rewrite bool_decide_false, bool_decide_true by set_solver. lia. }
  rewrite E. eapply repin_ok; [done..|]. intros z Hz. set_solver.
Qed.

Lemma bunpin_run pid s V X L b bno c i :
  bio_ok pid s V X L -> kctx c i pid -> L !! b = Some bno -> bno ∈ X ->
  exists bc, bunpin b (c, s) = Ret tt (settled c, set_k_bcache bc s) /\ bio_ok pid (set_k_bcache bc s) V (X ∖ {[bno]}) L.
Proof.
  intros B Hc HL Hx. destruct (locked_buf _ _ _ _ _ _ _ B HL) as (bf & Hb & _ & _ & _ & _ & _ & _ & _ & _ & Hr).
  eexists. split; [unfold bunpin; rewrite (pin_crit pid s V X L b bf c _ B (co_cpu _ _ _ (kc_ok _ _ _ Hc)) Hb); reflexivity|].
  assert (E : b_refcnt bf - 1 = 1 + pins (X ∖ {[bno]}) bno).
  { rewrite Hr. unfold pins. rewrite bool_decide_true, bool_decide_false by set_solver. lia. }
  rewrite E. eapply repin_ok; [done..|]. intros z Hz. set_solver.
Qed.

Lemma bwrite_wp pid s V X L b bno c i (Q : unit -> ctx * kern -> Prop) :
  bio_ok pid s V X L -> kctx c i pid -> L !! b = Some bno ->
  (forall c', kctx c' i pid -> let s' := set_k_disk (disk_put bno (V bno) (k_disk s)) s in
    bio_ok pid s' V X L -> Q tt (c', s')) ->
  wp bd_env (bwrite b) Q (c, s).
Proof.
  intros B Hc HL HQ. destruct (locked_buf _ _ _ _ _ _ _ B HL) as (bf & Hb & Hok).
  destruct Hok as (Hf & Hlen & D & E & Hv & Hdat & Hl & Hp & Hr). unfold bwrite. apply wp_bind.
  eapply wp_run; [apply (holdingsleep_run (buf_lock b) c s (b_lock bf) i pid); [apply Hc|by apply get_buf_lock|done]|].
  rewrite Hl, Hp, Z.eqb_refl. cbn [andb negb].
  apply (bd_write b bf _ _ i pid); [auto with kernel|done|done|]. intros c' Hc'. rewrite E, Hdat. apply HQ; [done|].
  destruct B as [B1 B2 B3 B4 B5 B6 B7 B8 B9]. split; try done.
  - intros z Hz Hn. simpl. rewrite disk_get_put. destruct (Z.eqb_spec z bno) as [->|]; [by destruct (Hn b)|]. by apply B8.
  - intros z. simpl. rewrite disk_get_put. case_match; [|apply B9]. by rewrite <- Hdat.
Qed.

(** ** Moving a buffer in the ring *)

Definition strip (b : buf) : buf := set_b_next Head (set_b_prev Head b).

(** The same buffers up to their place in the ring. *)
Definition relinked (bc bc' : bcache) : Prop :=
  bc_lock bc' = bc_lock bc /\ forall j, strip <$> bc_buf bc' !! j = strip <$> bc_buf bc !! j.

Lemma relinked_trans a b c : relinked a b -> relinked b c -> relinked a c.
Proof. intros [H1 H2] [H3 H4]. split; [congruence|]. intros j. by rewrite H4, H2. Qed.

Lemma relinked_next p v bc : relinked bc (put (next_l p) v bc).
Proof.
  destruct p as [|i]; [done|]. simpl. destruct (bc_buf bc !! i) as [b|] eqn:E; simpl; [|done].
  split; [done|]. intros j. simpl. destruct (decide (j = i)) as [->|Hne].
  - rewrite list_lookup_insert_eq by (by eapply lookup_lt_Some). by rewrite E.
  - by rewrite list_lookup_insert_ne.
Qed.

Lemma relinked_prev p v bc : relinked bc (put (prev_l p) v bc).
Proof.
  destruct p as [|i]; [done|]. simpl. destruct (bc_buf bc !! i) as [b|] eqn:E; simpl; [|done].
  split; [done|]. intros j. simpl. destruct (decide (j = i)) as [->|Hne].
  - rewrite list_lookup_insert_eq by (by eapply lookup_lt_Some). by rewrite E.
  - by rewrite list_lookup_insert_ne.
Qed.

Lemma relinked_len bc bc' : relinked bc bc' -> length (bc_buf bc') = length (bc_buf bc).
Proof.
  intros [_ H]. apply Nat.le_antisymm.
  - apply lookup_ge_None. apply (fmap_None strip). rewrite H, fmap_None. by apply lookup_ge_None.
  - apply lookup_ge_None. apply (fmap_None strip). rewrite <- H, fmap_None. by apply lookup_ge_None.
Qed.

Lemma strip_ok V X pid o b b' : strip b = strip b' -> buf_ok V X pid o b -> buf_ok V X pid o b'.
Proof. destruct b, b'. intros [= -> -> -> -> -> -> ->]. done. Qed.

Lemma strip_holds b b' bno : strip b = strip b' -> holds_block b bno -> holds_block b' bno.
Proof. destruct b, b'. intros [= -> -> -> -> -> -> ->]. done. Qed.

Lemma strip_valid b b' : strip b = strip b' -> b_valid b = b_valid b'.
Proof. destruct b, b'. by intros [= -> -> -> -> -> -> ->]. Qed.

Lemma bio_relink pid s V X L bc' order :
  bio_ok pid s V X L -> relinked (k_bcache s) bc' -> ring bc' order -> NoDup order ->
  (forall j, j ∈ order <-> (j < Z.to_nat NBUF)%nat) -> bio_ok pid (set_k_bcache bc' s) V X L.
Proof.
  intros B HR Hring N Ho. pose proof (relinked_len _ _ HR) as Hlen. destruct HR as [Hlk Hst].
  assert (Hback : forall j b, bc_buf bc' !! j = Some b -> exists b0, bufs s !! j = Some b0 /\ strip b0 = strip b).
  { intros j b Hb. pose proof (Hst j) as E. rewrite Hb in E. unfold bufs. destruct (bc_buf (k_bcache s) !! j) as [b0|]; [|done].
    exists b0. split; [done|]. cbn [fmap option_fmap option_map] in E. congruence. }
  destruct B as [B1 B2 B3 B4 B5 B6 B7 B8 B9]. split; [..|done|done].
  - change (lock_free (bc_lock bc')). rewrite Hlk. exact B1.
  - by exists order.
  - unfold bufs. simpl. by rewrite Hlen.
  - intros j b Hb. destruct (Hback j b Hb) as (b0 & Hb0 & E). eapply strip_ok; [exact E|by apply B4].
  - done.
  - intros j k b b' bno Hj Hk Hh Hh'. destruct (Hback j b Hj) as (b0 & Hb0 & E), (Hback k b' Hk) as (b1 & Hb1 & E').
    apply (B6 j k b0 b1 bno); [done..|by eapply strip_holds|by eapply strip_holds].
  - intros bno Hx. destruct (B7 bno Hx) as (j & b & Hj & Hh & Hv). pose proof (Hst j) as E. unfold bufs in *.
    rewrite Hj in E. destruct (bc_buf bc' !! j) as [b'|] eqn:Eb; [|done].
    assert (E' : strip b' = strip b) by (cbn [fmap option_fmap option_map] in E; congruence).
    exists j, b'. split_and!; [done|by eapply strip_holds|]. by rewrite (strip_valid b' b).
Qed.

Lemma put_next_lock p v lk bc : put (next_l p) v (set_bc_lock lk bc) = set_bc_lock lk (put (next_l p) v bc).
Proof. destruct p as [|i]; [done|]. simpl. by destruct (bc_buf bc !! i). Qed.

Lemma put_prev_lock p v lk bc : put (prev_l p) v (set_bc_lock lk bc) = set_bc_lock lk (put (prev_l p) v bc).
Proof. destruct p as [|i]; [done|]. simpl. by destruct (bc_buf bc !! i). Qed.

Lemma move_front_run c s b l1 l2 :
  ring (k_bcache s) (l1 ++ b :: l2) -> NoDup (l1 ++ b :: l2) ->
  (forall j, j ∈ l1 ++ b :: l2 -> valid_p (k_bcache s) (Buf j)) ->
  exists bc', move_front b (c, s) = Ret tt (c, set_k_bcache bc' s) /\ relinked (k_bcache s) bc' /\
    ring bc' (b :: l1 ++ l2).
Proof.
  intros HR N Hv. destruct (ring_unlink _ l1 b l2 N Hv HR) as (u & v & En & Ep & Hu & Hvv & Hne & HR1).
  assert (N' : NoDup (b :: l1 ++ l2)) by (by rewrite Permutation_middle).
  assert (Hb : valid_p (k_bcache s) (Buf b)) by (apply Hv; set_solver).
  destruct (ring_push (unlink b u v (k_bcache s)) b (l1 ++ l2) N') as (h & Eh & Hh & Hhb & HR2).
  { intros j Hj. unfold unlink. rewrite put_next_valid, put_prev_valid. apply Hv. set_solver. }
  { done. }
  unfold unlink in Hh. rewrite put_next_valid, put_prev_valid in Hh.
  exists (push_front b h (unlink b u v (k_bcache s))). split_and!; [|unfold push_front, unlink|done].
  2: { repeat (eapply relinked_trans; [|apply relinked_next || apply relinked_prev]). done. }
  unfold move_front. rewrite (bind_ret _ _ _ _ _ (ld_next_run c s _ _ En)), (bind_ret _ _ _ _ _ (ld_prev_run c s _ _ Ep)).
  rewrite (bind_ret _ _ _ _ _ (st_prev_run c s v u Hvv)).
  erewrite bind_ret by (apply ld_prev_run; cbn [k_bcache set_k_bcache]; rewrite prev_put_ne by congruence; exact Ep).
  erewrite bind_ret by (apply ld_next_run; cbn [k_bcache set_k_bcache]; rewrite next_put_prev; exact En).
  erewrite bind_ret by (apply st_next_run; cbn [k_bcache set_k_bcache]; by rewrite put_prev_valid).
  cbn [k_bcache set_k_bcache]. fold (unlink b u v (k_bcache s)). set (bc1 := unlink b u v (k_bcache s)) in *.
  erewrite bind_ret by (apply ld_next_run; exact Eh).
  assert (Hv1 : forall x, valid_p bc1 x <-> valid_p (k_bcache s) x) by (intros x; unfold bc1, unlink; by rewrite put_next_valid, put_prev_valid).
  erewrite bind_ret by (apply st_next_run; cbn [k_bcache set_k_bcache]; by apply Hv1). cbn [k_bcache set_k_bcache].
  erewrite bind_ret by (apply st_prev_run; cbn [k_bcache set_k_bcache]; rewrite put_next_valid; by apply Hv1). cbn [k_bcache set_k_bcache].
  erewrite bind_ret by (apply ld_next_run; cbn [k_bcache set_k_bcache]; rewrite next_put_prev, next_put_ne by done; exact Eh).
  erewrite bind_ret by (apply st_prev_run; cbn [k_bcache set_k_bcache]; rewrite put_prev_valid, put_next_valid; by apply Hv1).
  by rewrite st_next_run.
Qed.

(** A buffer as brelse() leaves it. *)
Definition released (bf : buf) : buf :=
  set_b_refcnt (b_refcnt bf - 1) (set_b_lock (Sleeplock false (sl_lk (b_lock bf)) (sl_name (b_lock bf)) 0) bf).

Lemma released_ok pid s V X L b bno bf :
  bio_ok pid s V X L -> L !! b = Some bno -> bufs s !! b = Some bf ->
  bno ∈ X \/ V bno = disk_get (k_disk s) bno ->
  bio_ok pid (upd_bufs (insert b (released bf)) s) V X (delete b L).
Proof.
  intros B HL Hb Hd. pose proof (bo_buf _ _ _ _ _ B b bf Hb) as Hok. rewrite HL in Hok.
  destruct Hok as (Hf & Hlen & D & E & Hv & Hdat & Hl & Hp & Hr).
  eapply (bio_change pid s V X L b bf); try done.
  - rewrite lookup_delete_eq. split_and!; try done. simpl. rewrite D. simpl. rewrite E. split; [lia|done].
  - intros j bj Hne Hj. rewrite lookup_delete_ne by done. by apply (bo_buf _ _ _ _ _ B).
  - intros j Hne. by rewrite lookup_delete_ne.
  - intros j bj z Hne Hj Hz [D' E']. simpl in E'. rewrite E in E'. subst z. by eapply locked_uniq.
  - intros z Hz. destruct (decide (z = bno)) as [->|Hne]; [by left|]. right. split; [done|]. intros [_ E']. congruence.
  - intros z Hz Hn. destruct (decide (z = bno)) as [->|Hne]; [by destruct Hd|].
    apply (bo_clean _ _ _ _ _ B); [done|]. intros j Hj. destruct (decide (j = b)) as [->|Hj']; [congruence|].
    apply (Hn j). by rewrite lookup_delete_ne.
Qed.

Lemma brelse_tail pid s V X L b bf c i :
  bio_ok pid (upd_bufs (insert b bf) s) V X L -> kctx c i pid -> is_Some (bufs s !! b) ->
  exists bc, ((if b_refcnt bf =? 0 then move_front b else mret tt) ;; release bc_lk)
      (pushed c, with_lk (held (bc_lock (k_bcache s)) (c_id (cx_cpu c))) (upd_bufs (insert b bf) s)) =
      Ret tt (settled c, set_k_bcache bc s) /\ bio_ok pid (set_k_bcache bc s) V X L.
Proof.
  intros B Hc [bf0 Hb]. set (s2 := upd_bufs (insert b bf) s) in *. assert (Hcpu : cpu_ok (cx_cpu c)) by apply Hc.
  pose proof (bo_lock _ _ _ _ _ B) as Hlk. change (bc_lock (k_bcache s2)) with (bc_lock (k_bcache s)) in Hlk.
  destruct (b_refcnt bf =? 0).
  - destruct (bo_order _ _ _ _ _ B) as (order & HR & N & Ho).
    assert (Hbo : b ∈ order) by (apply Ho; rewrite <- (bo_len _ _ _ _ _ B); unfold s2; rewrite upd_bufs_bufs, length_insert; by eapply lookup_lt_Some).
    apply list_elem_of_split in Hbo as (l1 & l2 & ->).
    assert (Hval : forall j, j ∈ l1 ++ b :: l2 -> valid_p (k_bcache s2) (Buf j))
      by (intros j Hj; apply Ho in Hj; rewrite <- (bo_len _ _ _ _ _ B) in Hj; exact Hj).
    set (s3 := with_lk _ s2).
    destruct (move_front_run (pushed c) s3 b l1 l2) as (bc' & R & Hrel & HR'); [|done|exact Hval|].
    { apply (ring_same (k_bcache s2)); [intros []; done|intros []; done|exact HR]. }
    rewrite (bind_ret _ _ _ _ _ R).
    assert (Hbl : bc_lock bc' = held (bc_lock (k_bcache s)) (c_id (cx_cpu c))) by apply Hrel.
    replace (set_k_bcache bc' s3) with (with_lk (held (bc_lock (k_bcache s)) (c_id (cx_cpu c))) (set_k_bcache bc' s)).
    2: { destruct s, bc'. simpl in *. by subst. }
    rewrite (release_bc c _ _ Hcpu Hlk). exists (set_bc_lock (bc_lock (k_bcache s)) bc'). split; [done|].
    apply (bio_relink pid s2 V X L _ (b :: l1 ++ l2)); [done|..].
    + split; [done|]. intros j. exact (proj2 Hrel j).
    + apply (ring_same bc'); [intros []; done|intros []; done|exact HR'].
    + by rewrite Permutation_middle.
    + intros j. rewrite <- Ho. set_solver.
  - rewrite mret_bind, (release_bc c _ _ Hcpu Hlk). exists (k_bcache s2). split; [done|exact B].
Qed.

(** brelse(): the buffer is unlocked; its block keeps its logical contents,
    which the disk must have unless the block is pinned. *)
Lemma brelse_run pid s V X L b bno c i :
  bio_ok pid s V X L -> kctx c i pid -> L !! b = Some bno -> bno ∈ X \/ V bno = disk_get (k_disk s) bno ->
  exists c' bc, brelse b (c, s) = Ret tt (c', set_k_bcache bc s) /\ kctx c' i pid /\
    bio_ok pid (set_k_bcache bc s) V X (delete b L).
Proof.
  intros B Hc HL Hd. destruct (locked_buf _ _ _ _ _ _ _ B HL) as (bf & Hb & Hok).
  pose proof (released_ok _ _ _ _ _ _ _ _ B HL Hb Hd) as B2.
  destruct Hok as (Hf & Hlen & D & E & Hv & Hdat & Hl & Hp & Hr). unfold brelse.
  rewrite (bind_ret _ _ _ _ _ (holdingsleep_run (buf_lock b) c s (b_lock bf) i pid (kc_ok _ _ _ Hc) (get_buf_lock _ _ _ Hb) Hf)).
  rewrite Hl, Hp, Z.eqb_refl. cbn [andb negb].
  rewrite (bind_ret _ _ _ _ _ (releasesleep_run (buf_lock b) (ChBufLock b) (settled c) s (b_lock bf) i pid
    (kc_ok _ _ _ (kctx_settled _ _ _ Hc)) (get_buf_lock _ _ _ Hb) Hf)).
  rewrite (put_buf_lock _ _ _ _ Hb). set (c1 := wake_ctx _ _). assert (Hc1 : kctx c1 i pid) by (unfold c1; auto with kernel).
  set (bf1 := set_b_lock _ bf). rewrite (bind_ret _ _ _ _ _ (acquire_bc c1 (upd_bufs (insert b bf1) s) (bo_lock _ _ _ _ _ B))).
  assert (Hb1 : forall lk, bufs (with_lk lk (upd_bufs (insert b bf1) s)) !! b = Some bf1) by (intros; by eapply bufs_insert_eq).
  rewrite (bind_ret _ _ _ _ _ (up_buf_run _ _ b bf1 _ (Hb1 _))), upd_bufs_lk, upd_bufs_insert.
  assert (Hb2 : forall lk, bufs (with_lk lk (upd_bufs (insert b (released bf)) s)) !! b = Some (released bf)) by (intros; by eapply bufs_insert_eq).
  rewrite (bind_ret _ _ _ _ _ (ld_buf_run _ _ b _ (Hb2 _))).
  destruct (brelse_tail pid s V X (delete b L) b (released bf) c1 i B2 Hc1) as (bc & R & B'); [eauto|].
  exists (settled c1), bc. split_and!; [exact R|auto with kernel|done].
Qed.

End Ops.

(** ** binit() *)

Definition fresh_lock : sleeplock := Sleeplock false (Spinlock false "sleep lock" None) "buffer" 0.

Lemma initsleeplock_run {S} (l : lens S sleeplock) `{!LensOk l} c s sl name :
  get l s = Some sl ->
  initsleeplock l name (c, s) = Ret tt (c, put l (Sleeplock false (Spinlock false "sleep lock" None) name 0) s).
Proof.
  intros Hg. unfold initsleeplock, initlock.
  assert (Hu : forall (f : spinlock -> spinlock) s sl, get l s = Some sl ->
    update (inner l) f (c, s) = Ret tt (c, put l (set_sl_lk (f (sl_lk sl)) sl) s)).
  { intros f s0 sl0 H0. rewrite (update_some _ _ (sl_lk sl0)) by (by apply inner_get). by rewrite (inner_put l s0 sl0). }
  assert (H1 : (update (inner l) (fun lk => Spinlock (locked lk) "sleep lock" (lk_cpu lk)) ;;
    update (inner l) (fun lk => Spinlock false (lk_name lk) (lk_cpu lk)) ;;
    update (inner l) (fun lk => Spinlock (locked lk) (lk_name lk) None)) (c, s) =
    Ret tt (c, put l (set_sl_lk (Spinlock false "sleep lock" None) sl) s)).
  { rewrite (bind_ret _ _ _ _ _ (Hu _ s sl Hg)).
    rewrite (bind_ret _ _ _ _ _ (Hu _ _ _ (get_put_l l s sl _ Hg))).
    rewrite (Hu _ _ _ (get_put_l l _ _ _ (get_put_l l s sl _ Hg))). by rewrite !put_put. }
  rewrite (bind_ret _ _ _ _ _ H1).
  assert (Hs : forall f s sl, get l s = Some sl -> update (inS l) f (c, s) = Ret tt (c, put l (f sl) s))
    by (intros f s0 sl0 H0; by rewrite (update_some _ _ sl0)).
  rewrite (bind_ret _ _ _ _ _ (Hs _ _ _ (get_put_l l s sl _ Hg))).
  rewrite (bind_ret _ _ _ _ _ (Hs _ _ _ (get_put_l l _ _ _ (get_put_l l s sl _ Hg)))).
  rewrite (Hs _ _ _ (get_put_l l _ _ _ (get_put_l l _ _ _ (get_put_l l s sl _ Hg)))). by rewrite !put_put.
Qed.

(** What binit() makes of a buffer, apart from its links. *)
Definition inited (b : buf) : buf := set_b_lock fresh_lock b.

Lemma binit_body_run c s b bf order :
  bufs s !! b = Some bf -> ring (k_bcache s) order -> NoDup (b :: order) ->
  (forall i, i ∈ b :: order -> valid_p (k_bcache s) (Buf i)) ->
  exists bc', binit_body b (c, s) = Ret tt (c, set_k_bcache bc' s) /\ ring bc' (b :: order) /\
    relinked (set_bc_buf (<[b := inited bf]> (bc_buf (k_bcache s))) (k_bcache s)) bc'.
Proof.
  intros Hb HR N Hv. destruct (ring_push _ b order N Hv HR) as (h & Eh & Hh & Hhb & HR').
  assert (Hbv : valid_p (k_bcache s) (Buf b)) by (apply Hv; by left).
  set (bc0 := put (prev_l (Buf b)) Head (put (next_l (Buf b)) h (k_bcache s))).
  destruct (lookup_lt_is_Some_2 (bc_buf bc0) b) as [bf1 Hb1].
  { change (valid_p bc0 (Buf b)). unfold bc0. by rewrite put_prev_valid, put_next_valid. }
  assert (Hrel : relinked (k_bcache s) bc0) by (unfold bc0; eapply relinked_trans; [apply relinked_next|apply relinked_prev]).
  set (s1 := set_k_bcache bc0 s). set (bc1 := set_bc_buf (<[b := set_b_lock fresh_lock bf1]> (bc_buf bc0)) bc0).
  assert (Hb1' : bufs s1 !! b = Some bf1) by done.
  assert (Hl : forall p, get (next_l p) bc1 = get (next_l p) bc0 /\ get (prev_l p) bc1 = get (prev_l p) bc0)
    by (intros p; by apply (insert_links s1 b bf1)).
  assert (Hv1 : forall p, valid_p bc1 p <-> valid_p (k_bcache s) p).
  { intros p. transitivity (valid_p bc0 p); [|unfold bc0; by rewrite put_prev_valid, put_next_valid].
    destruct p; simpl; [done|]. by rewrite length_insert. }
  exists (put (next_l Head) (Buf b) (put (prev_l h) (Buf b) bc1)). split_and!.
  - unfold binit_body. rewrite (bind_ret _ _ _ _ _ (ld_next_run c s _ _ Eh)).
    rewrite (bind_ret _ _ _ _ _ (st_next_run c s _ _ Hbv)).
    erewrite bind_ret by (apply st_prev_run; cbn [k_bcache set_k_bcache]; by rewrite put_next_valid).
    cbn [k_bcache set_k_bcache]. fold bc0.
    change (set_k_bcache bc0 (set_k_bcache _ s)) with s1.
    rewrite (bind_ret _ _ _ _ _ (initsleeplock_run (buf_lock b) c s1 (b_lock bf1) "buffer" (get_buf_lock _ _ _ Hb1'))).
    rewrite (put_buf_lock _ _ _ _ Hb1'). change (upd_bufs _ s1) with (set_k_bcache bc1 s).
    assert (Eh1 : get (next_l Head) bc1 = Some h).
    { rewrite (proj1 (Hl Head)). unfold bc0. by rewrite next_put_prev, next_put_ne. }
    rewrite (bind_ret _ _ _ _ _ (ld_next_run c (set_k_bcache bc1 s) _ _ Eh1)).
    rewrite (bind_ret _ _ _ _ _ (st_prev_run c (set_k_bcache bc1 s) h (Buf b) (proj2 (Hv1 h) Hh))).
    by rewrite st_next_run.
  - eapply links_ext; [..|exact HR']; intros x _; unfold push_front; fold bc0.
    + destruct (decide (x = Head)) as [->|Hne]; [by rewrite !next_put_eq|].
      rewrite !next_put_ne, !next_put_prev by done. apply Hl.
    + rewrite !prev_put_next. destruct (decide (x = h)) as [->|Hne].
      * rewrite !prev_put_eq; [done| |by apply Hv1]. unfold bc0. by rewrite put_prev_valid, put_next_valid.
      * rewrite !prev_put_ne by done. apply Hl.
  - eapply relinked_trans; [|eapply relinked_trans; [apply relinked_prev|apply relinked_next]].
    split; [apply Hrel|]. intros j. cbn [bc_buf set_bc_buf bc1]. destruct (decide (j = b)) as [->|Hne].
    + rewrite !list_lookup_insert_eq by (by eapply lookup_lt_Some). cbn [fmap option_fmap option_map]. f_equal.
      pose proof (proj2 Hrel b) as E. unfold bufs in Hb. rewrite Hb1, Hb in E. destruct bf, bf1. cbn in E |- *. by injection E as -> -> -> -> -> -> ->.
    + rewrite !list_lookup_insert_ne by done. apply Hrel.
Qed.

Lemma strip_inited b b' : strip b = strip b' -> strip (inited b) = strip (inited b').
Proof. destruct b, b'. by intros [= -> -> -> -> -> -> ->]. Qed.

Lemma binit_loop n k c s order :
  ring (k_bcache s) order -> NoDup order -> (forall j, j ∈ order <-> (j < k)%nat) -> (k + n <= length (bufs s))%nat ->
  exists bc' order', for_each (seq k n) binit_body (c, s) = Ret tt (c, set_k_bcache bc' s) /\
    bc_lock bc' = bc_lock (k_bcache s) /\ ring bc' order' /\ NoDup order' /\
    (forall j, j ∈ order' <-> (j < k + n)%nat) /\
    forall j, strip <$> bc_buf bc' !! j =
      (fun b => strip (if decide (k <= j < k + n)%nat then inited b else b)) <$> bufs s !! j.
Proof.
  revert k s order. induction n as [|n IH]; intros k s order HR N Ho Hlen.
  { exists (k_bcache s), order. split_and!; [by destruct s|done..| |].
    - intros j. rewrite Ho. lia.
    - intros j. unfold bufs. destruct (bc_buf (k_bcache s) !! j); [|done]. simpl. by rewrite decide_False by lia. }
  cbn [seq for_each]. destruct (lookup_lt_is_Some_2 (bufs s) k) as [bf Hb]; [lia|].
  destruct (binit_body_run c s k bf order Hb HR) as (bc1 & R & HR1 & Hrel).
  { constructor; [|done]. rewrite Ho. lia. }
  { intros j [->|Hj]%elem_of_cons; unfold valid_p; fold (bufs s); [lia|]. apply Ho in Hj. lia. }
  rewrite (bind_ret _ _ _ _ _ R). pose proof (relinked_len _ _ Hrel) as Hl1. cbn [bc_buf set_bc_buf] in Hl1.
  rewrite length_insert in Hl1.
  destruct (IH (Datatypes.S k) (set_k_bcache bc1 s) (k :: order)) as (bc' & order' & R' & Hlk & HR' & N' & Ho' & Hst).
  { done. }
  { constructor; [|done]. rewrite Ho. lia. }
  { intros j. rewrite elem_of_cons, Ho. lia. }
  { unfold bufs in *. cbn [k_bcache set_k_bcache]. rewrite Hl1. lia. }
  exists bc', order'. split_and!; [exact R'|by rewrite Hlk; apply Hrel|done..| |].
  - intros j. rewrite Ho'. lia.
  - intros j. rewrite Hst. pose proof (proj2 Hrel j) as Ej. cbn [bc_buf set_bc_buf] in Ej. unfold bufs in *.
    cbn [k_bcache set_k_bcache] in *. destruct (decide (j = k)) as [->|Hne].
    + rewrite list_lookup_insert_eq in Ej by (by eapply lookup_lt_Some). rewrite Hb. simpl in Ej |- *.
      rewrite decide_True by lia. destruct (bc_buf bc1 !! k) as [x|]; [|done]. simpl in *. by rewrite decide_False by lia.
    + rewrite list_lookup_insert_ne in Ej by done.
      destruct (bc_buf bc1 !! j) as [x|], (bc_buf (k_bcache s) !! j) as [y|]; try done.
      cbn [fmap option_fmap option_map] in *. apply (f_equal Some).
      assert (E : strip x = strip y) by congruence.
      destruct (decide (Datatypes.S k <= j < Datatypes.S k + n)%nat), (decide (k <= j < k + Datatypes.S n)%nat); try lia; [|exact E].
      by apply strip_inited.
Qed.

Definition zeroed (b : buf) : Prop := b_dev b <> ROOTDEV /\ b_refcnt b = 0 /\ length (b_data b) = Z.to_nat BSIZE.

Lemma binit_run pid c s :
  length (bufs s) = Z.to_nat NBUF -> Forall zeroed (bufs s) ->
  (forall bno, length (disk_get (k_disk s) bno) = Z.to_nat BSIZE) ->
  exists bc, binit (c, s) = Ret tt (c, set_k_bcache bc s) /\
    bio_ok pid (set_k_bcache bc s) (disk_get (k_disk s)) ∅ ∅.
Proof.
  intros Hlen Hz Hd. unfold binit.
  set (bc0 := Bcache (Spinlock false "bcache" None) (bufs s) Head Head).
  destruct (binit_loop (Z.to_nat NBUF) 0 c (set_k_bcache bc0 s) []) as (bc & order & R & Hlk & HR & N & Ho & Hst).
  { done. }
  { constructor. }
  { intros j. split; [set_solver|lia]. }
  { change (bufs (set_k_bcache bc0 s)) with (bufs s). lia. }
  change (bufs (set_k_bcache bc0 s)) with (bufs s) in Hst.
  exists bc. split; [exact R|].
  assert (Hb : forall j b, bc_buf bc !! j = Some b -> exists b0, bufs s !! j = Some b0 /\ strip b = strip (inited b0)).
  { intros j b Hj. pose proof (Hst j) as E. rewrite Hj in E. destruct (bufs s !! j) as [b0|] eqn:E0; [|done].
    exists b0. split; [done|]. apply lookup_lt_Some in E0. simpl in E. rewrite decide_True in E by lia. congruence. }
  assert (Hno : forall j b bno, bc_buf bc !! j = Some b -> ~ holds_block b bno).
  { intros j b bno Hj [D _]. destruct (Hb j b Hj) as (b0 & H0 & E). destruct (Forall_lookup_1 _ _ _ _ Hz H0) as [Hdev _].
    apply Hdev. rewrite <- D. destruct b, b0. by injection E. }
  split; try done.
  - change (lock_free (bc_lock bc)). by rewrite Hlk.
  - by exists order.
  - unfold bufs. cbn [k_bcache set_k_bcache]. rewrite <- Hlen. apply Nat.le_antisymm.
    + apply lookup_ge_None, (fmap_None strip). rewrite Hst, fmap_None. by apply lookup_ge_None.
    + apply lookup_ge_None. pose proof (Hst (length (bc_buf bc))) as E.
      rewrite (proj2 (lookup_ge_None (bc_buf bc) _) ltac:(done)) in E. by destruct (bufs s !! length (bc_buf bc)).
  - intros j b Hj. destruct (Hb j b Hj) as (b0 & H0 & E). destruct (Forall_lookup_1 _ _ _ _ Hz H0) as (Hdev & Hr & Hl).
    eapply (strip_ok _ _ _ _ (inited b0)); [done|]. rewrite lookup_empty. split_and!; [done|done|done|]. simpl.
    by rewrite (proj2 (Z.eqb_neq _ _) Hdev).
  - intros j k b b' bno Hj Hk Hh _. by destruct (Hno j b bno Hj).
Qed.

Lemma bio_ok_ext pid s V V' X L : (forall x, V' x = V x) -> bio_ok pid s V X L -> bio_ok pid s V' X L.
Proof.
  intros HV [B1 B2 B3 B4 B5 B6 B7 B8 B9]. split; try done.
  - intros j b Hb. destruct (B4 j b Hb) as (H1 & H2 & H3). split_and!; [done..|].
    destruct (L !! j); rewrite HV; done.
  - intros bno Hx Hl. rewrite HV. by apply B8.
Qed.

(** ** What the cache operations leave alone *)

Definition bd_frame (s s' : kern) : Prop := s' = set_k_disk (k_disk s') (set_k_bcache (k_bcache s') s).

Lemma bd_frame_refl s : bd_frame s s.
Proof. by destruct s. Qed.

Lemma bd_frame_trans s1 s2 s3 : bd_frame s1 s2 -> bd_frame s2 s3 -> bd_frame s1 s3.
Proof. unfold bd_frame. intros -> ->. done. Qed.

Lemma bd_frame_bc bc s : bd_frame s (set_k_bcache bc s).
Proof. by destruct s. Qed.

Lemma bd_frame_disk d s : bd_frame s (set_k_disk d s).
Proof. by destruct s. Qed.

Lemma bd_frame_bufs f s : bd_frame s (upd_bufs f s).
Proof. by destruct s. Qed.

#[export] Hint Resolve bd_frame_refl bd_frame_bc bd_frame_disk bd_frame_bufs : kernel.

(** ** The properties *)

Section Claims.
Context {BD : BlockDev} {BO : BlockDevOk BD}.

(** bread(ROOTDEV, bno) returns a buffer that this process has locked and
    that holds the block's current contents, whether it was cached, pinned
    with unwritten changes or had to be read from the disk; no other buffer,
    and nothing on the disk, changes.  One buffer must be neither pinned nor
    locked, unless the block is already pinned. *)
Theorem bread_correct pid s V X L bno c i :
  bio_ok pid s V X L -> kctx c i pid -> (forall j, L !! j <> Some bno) ->
  bno ∈ X \/ (size X + size L < Z.to_nat NBUF)%nat ->
  wp bd_env (bread ROOTDEV bno) (fun b w' => exists bf,
    kctx (fst w') i pid /\ L !! b = None /\ snd w' = upd_bufs (insert b bf) s /\ buf_ok V X pid (Some bno) bf /\
    bio_ok pid (snd w') V X (<[b := bno]> L)) (c, s).
Proof. intros B Hc HL Hs. apply (bread_wp pid s V X L bno c i); [done..|]. intros b bf c' Hc' Hb _ Hok s' B'. by exists bf. Qed.

(** What is written through the cache is what is read back.  A process
    that reads block bno, replaces its contents by d, writes it and releases
    it finds d in the block when it reads it again, and so does the disk. *)
Theorem read_after_write pid s V X bno d c i :
  bio_ok pid s V X ∅ -> kctx c i pid -> (size X + 1 < Z.to_nat NBUF)%nat -> length d = Z.to_nat BSIZE ->
  wp bd_env (b ← bread ROOTDEV bno; up_buf b (set_b_data d) ;; bwrite b ;; brelse b ;;
             b ← bread ROOTDEV bno; bf ← ld_buf b; mret (b_data bf))
    (fun r w' => r = d /\ disk_get (k_disk (snd w')) bno = d) (c, s).
Proof.
  intros B Hc Hs Hd. apply wp_bind. apply (bread_wp pid s V X ∅ bno c i _ B Hc); [by intros j|right; rewrite map_size_empty; lia|].
  intros b bf c1 Hc1 _ [z Hz] Hok s1 B1. assert (HL : (<[b := bno]> ∅ : gmap nat Z) !! b = Some bno) by apply lookup_insert_eq.
  assert (Hb1 : bufs s1 !! b = Some bf) by (by eapply bufs_insert_eq).
  eapply wp_step; [by apply up_buf_run|]. pose proof (set_data_ok pid s1 V X _ b bno d bf B1 HL Hb1 Hd) as B2.
  assert (Ev : vset bno d V bno = d) by (unfold vset; by rewrite Z.eqb_refl). set (s2 := upd_bufs _ s1) in *.
  apply wp_bind. apply (bwrite_wp pid s2 _ X _ b bno c1 i _ B2 Hc1 HL). intros c3 Hc3 s3 B3.
  destruct (brelse_run pid s3 _ X _ b bno c3 i B3 Hc3 HL) as (c4 & bc & R4 & Hc4 & B4).
  { right. simpl. by rewrite disk_get_put, Z.eqb_refl. }
  eapply wp_step; [exact R4|]. rewrite delete_insert_id in B4 by apply lookup_empty.
  apply wp_bind. apply (bread_wp pid _ _ X ∅ bno c4 i _ B4 Hc4); [by intros j|right; rewrite map_size_empty; lia|].
  intros b5 bf5 c5 Hc5 _ [z5 Hz5] Hok5 s5 B5. eapply wp_step; [apply ld_buf_run; by eapply bufs_insert_eq|]. apply wp_ret.
  split; [rewrite <- Ev; apply Hok5|]. unfold s5. simpl. by rewrite disk_get_put, Z.eqb_refl.
Qed.

End Claims.

(** binit() makes a cache that satisfies the invariant: every buffer is in
    the LRU ring once, unlocked and unused, and the logical contents of every
    block are those of the disk. *)
Theorem binit_correct pid c s :
  length (bufs s) = Z.to_nat NBUF -> Forall zeroed (bufs s) ->
  (forall bno, length (disk_get (k_disk s) bno) = Z.to_nat BSIZE) ->
  exists bc, binit (c, s) = Ret tt (c, set_k_bcache bc s) /\
    bio_ok pid (set_k_bcache bc s) (disk_get (k_disk s)) ∅ ∅.
Proof. apply binit_run. Qed.

(** ** A concrete device and kernel *)

(** A device that completes a request at once. *)
Definition sync_rw (b : nat) (write : bool) : K kern unit :=
  bf ← ld_buf b;
  d ← asks (fun w => k_disk (snd w));
  if write then modify (set_k_disk (disk_put (b_blockno bf) (b_data bf) d))
  else up_buf b (set_b_data (disk_get d (b_blockno bf))).
Definition sync_dev : BlockDev := {| virtio_disk_rw := sync_rw; bd_env := solo |}.

Lemma sync_ok : BlockDevOk sync_dev.
Proof.
  split; intros b bf c s i pid Q Hc Hb.
  - intros HQ. apply wp_solo. eexists _, _. split; [|by apply (HQ c)]. simpl. unfold sync_rw.
    rewrite (bind_ret _ _ _ _ _ (ld_buf_run c s b bf Hb)). by apply up_buf_run.
  - intros Hl HQ. apply wp_solo. eexists _, _. split; [|by apply (HQ c)]. simpl. unfold sync_rw.
    by rewrite (bind_ret _ _ _ _ _ (ld_buf_run c s b bf Hb)).
Qed.

(** A kernel before binit(), with an empty 1000-block file system of 200
    inodes on its disk, as kernel/fs.h lays it out. *)
Definition sb0 : superblock := Superblock FSMAGIC FSSIZE 954 200 LOGSIZE 2 32 45.
Definition buf0 : buf := MkBuf false false 0 0 (Sleeplock false lk0 "" 0) 0 Head Head (replicate (Z.to_nat BSIZE) 0).
Definition inode0 : inode := Inode 0 0 0 (Sleeplock false lk0 "" 0) false 0 0 0 0 0 (replicate 13 0).
Definition kern0 : kern :=
  Kern kst0 (Bcache lk0 (replicate (Z.to_nat NBUF) buf0) Head Head)
    (Log lk0 0 0 0 false 0 (Logheader 0 (replicate (Z.to_nat LOGSIZE) 0))) sb0
    (Itable lk0 (replicate (Z.to_nat NINODE) inode0))
    (Ftable lk0 (replicate (Z.to_nat NFILE) (File FD_NONE 0 false false 0 None 0 0)))
    (replicate (Z.to_nat NDEV) None) ∅
    (Cons lk0 (replicate (Z.to_nat INPUT_BUF) 0) 0 0 0) (Uart lk0 (replicate (Z.to_nat UART_TX_BUF_SIZE) 0) 0 0)
    lk0 0 (Vdisk [] 0 [] 0 [] [] 0 [] [] [] lk0) (Disk (fun _ => replicate (Z.to_nat BSIZE) 0) []) lk0 lk0 1 None true
    (Pr lk0 true) false false 0 (Csr 0 0 0 0 false false 0 0) [].

Lemma kctx3 : kctx ctx3 0 1.
Proof. split; [apply ctx3_ok|done|simpl; lia]. Qed.

Lemma kern0_bufs : Forall zeroed (bufs kern0).
Proof. apply Forall_replicate. split_and!; [done|done|apply length_replicate]. Qed.

Lemma kern0_bio : exists bc, bio_ok 1 (set_k_bcache bc kern0) (disk_get (k_disk kern0)) ∅ ∅.
Proof.
  destruct (binit_run 1 ctx3 kern0) as (bc & _ & B); [apply length_replicate|apply kern0_bufs|intros; apply length_replicate|].
  by exists bc.
Qed.

Lemma binit_correct_witness : exists bc, binit (ctx3, kern0) = Ret tt (ctx3, set_k_bcache bc kern0).
Proof.
  destruct (binit_correct 1 ctx3 kern0) as (bc & H & _); [apply length_replicate|apply kern0_bufs|intros; apply length_replicate|].
  exists bc. exact H.
Defined.

Lemma bread_correct_witness : exists bc,
  wp solo (@bread sync_dev ROOTDEV 7) (fun b w' => exists bf, bufs (snd w') !! b = Some bf /\ b_data bf = replicate (Z.to_nat BSIZE) 0)
    (ctx3, set_k_bcache bc kern0).
Proof.
  destruct kern0_bio as (bc & B). exists bc.
  eapply wp_mono; [apply (@bread_correct sync_dev sync_ok 1 _ _ ∅ ∅ 7 ctx3 0 B kctx3); [by intros j|right; rewrite size_empty, map_size_empty; unfold NBUF, MAXOPBLOCKS; lia]|].
  intros b [c' s'] (bf & _ & _ & E & Hok & B'). simpl in *. exists bf.
  assert (is_Some (bufs (set_k_bcache bc kern0) !! b)) as [z Hz].
  { apply lookup_lt_is_Some. rewrite (bo_len _ _ _ _ _ B). eapply (bo_dom _ _ _ _ _ B'). apply lookup_insert_eq. }
  split; [rewrite E; by eapply bufs_insert_eq|apply Hok].
Defined.

Lemma read_after_write_witness : exists bc d,
  wp solo (b ← @bread sync_dev ROOTDEV 7; up_buf b (set_b_data d) ;; @bwrite sync_dev b ;; brelse b ;;
           b ← @bread sync_dev ROOTDEV 7; bf ← ld_buf b; mret (b_data bf))
    (fun r w' => r = d /\ disk_get (k_disk (snd w')) 7 = d) (ctx3, set_k_bcache bc kern0).
Proof.
  destruct kern0_bio as (bc & B). exists bc, (replicate (Z.to_nat BSIZE) 65).
  apply (@read_after_write sync_dev sync_ok 1 _ _ ∅ 7 _ ctx3 0 B kctx3); [|apply length_replicate].
  rewrite size_empty. unfold NBUF, MAXOPBLOCKS. lia.
Defined.
