(* ===== verification/Log.v ===== *)
(** * The write-ahead log (kernel/log.c)

    The code; the space reservation of begin_op(), end_op() and log_write();
    and crash safety: whatever prefix of the disk writes of commit() or of
    recovery reaches the disk, recovery restores either all of the
    transaction's blocks or none. *)

From stdpp Require Import base numbers list list_numbers gmap strings sets fin_sets.
From Stdlib Require Import ZArith Lia.
From S2P Require Import Prelude.
From S2P Require Import Machine.
From S2P Require Import Spinlock.
From S2P Require Import Mem.
From S2P Require Import Kalloc.
From S2P Require Import Kern.
From S2P Require Import Sched.
From S2P Require Import SleepLk.
From S2P Require Import Bio.

Local Open Scope Z_scope.

(** ** Code *)

Definition log_lk : lens (ctx * kern) spinlock := inS (comp k_log_l lg_lock_l).
Definition ld_log : K kern log := load (inS k_log_l).
Definition up_log (f : log -> log) : K kern unit := update (inS k_log_l) f.

(** The int fields of a logheader in a buffer: n, then block[]. *)
Definition hdr_int (d : list Z) (i : Z) : Z := i32 (getn 4 (Z.to_nat (4 * i)) d).
Definition set_hdr_int (i v : Z) (d : list Z) : list Z := putn 4 (Z.to_nat (4 * i)) v d.

Definition set_n (n : Z) (lg : log) : log := set_lg_lh (set_lh_n n (lg_lh lg)) lg.
(** [log.lh.block[i] = v], a wild store when [i] is past the array. *)
Definition st_block (i v : Z) : K kern unit :=
  if (0 <=? i) && (i <? LOGSIZE)
  then up_log (fun lg => set_lg_lh (set_lh_block (<[Z.to_nat i := v]> (lh_block (lg_lh lg))) (lg_lh lg)) lg)
  else fault.
Definition ld_block (i : Z) : K kern Z :=
  lg ← ld_log;
  match lh_block (lg_lh lg) !! Z.to_nat i with
  | Some v => if 0 <=? i then mret v else fault
  | None => fault
  end.

Section Code.
Context {BD : BlockDev}.

Definition install_trans_body (recovering : bool) (tail : Z) : K kern unit :=
  lg ← ld_log;
  lbuf ← bread (u32 (lg_dev lg)) (u32 (lg_start lg + tail + 1));
  blk ← ld_block tail;
  dbuf ← bread (u32 (lg_dev lg)) (u32 blk);
  l ← ld_buf lbuf;
  up_buf dbuf (set_b_data (b_data l)) ;;
  bwrite dbuf ;;
  (if negb recovering then bunpin dbuf else mret tt) ;;
  brelse lbuf ;;
  brelse dbuf.
Definition install_trans (recovering : bool) : K kern unit :=
  lg ← ld_log;
  for_each (seqZ 0 (lh_n (lg_lh lg))) (install_trans_body recovering).

Definition read_head : K kern unit :=
  lg ← ld_log;
  b ← bread (u32 (lg_dev lg)) (u32 (lg_start lg));
  bf ← ld_buf b;
  up_log (set_n (hdr_int (b_data bf) 0)) ;;
  lg ← ld_log;
  for_each (seqZ 0 (lh_n (lg_lh lg))) (fun i =>
    bf ← ld_buf b;
    st_block i (hdr_int (b_data bf) (i + 1))) ;;
  brelse b.

Definition write_head : K kern unit :=
  lg ← ld_log;
  b ← bread (u32 (lg_dev lg)) (u32 (lg_start lg));
  up_buf b (fun bf => set_b_data (set_hdr_int 0 (lh_n (lg_lh lg)) (b_data bf)) bf) ;;
  for_each (seqZ 0 (lh_n (lg_lh lg))) (fun i =>
    blk ← ld_block i;
    up_buf b (fun bf => set_b_data (set_hdr_int (i + 1) blk (b_data bf)) bf)) ;;
  bwrite b ;;
  brelse b.

Definition recover_from_log : K kern unit :=
  read_head ;;
  install_trans true ;;
  up_log (set_n 0) ;;
  write_head.

Definition initlog (dev : Z) (sb : superblock) : K kern unit :=
  (* sizeof(struct logheader) *)
  if BSIZE <=? 4 * (1 + LOGSIZE) then panic "initlog: too big logheader" else
  initlock log_lk "log" ;;
  up_log (set_lg_start (sb_logstart sb)) ;;
  up_log (set_lg_size (sb_nlog sb)) ;;
  up_log (set_lg_dev dev) ;;
  recover_from_log.

Definition write_log_body (tail : Z) : K kern unit :=
  lg ← ld_log;
  to ← bread (u32 (lg_dev lg)) (u32 (lg_start lg + tail + 1));
  blk ← ld_block tail;
  from ← bread (u32 (lg_dev lg)) (u32 blk);
  f ← ld_buf from;
  up_buf to (set_b_data (b_data f)) ;;
  bwrite to ;;
  brelse from ;;
  brelse to.
Definition write_log : K kern unit :=
  lg ← ld_log;
  for_each (seqZ 0 (lh_n (lg_lh lg))) write_log_body.

Definition commit : K kern unit :=
  lg ← ld_log;
  if 0 <? lh_n (lg_lh lg) then
    write_log ;;
    write_head ;;
    install_trans false ;;
    up_log (set_n 0) ;;
    write_head
  else mret tt.

Definition begin_wait : K kern bool :=
  lg ← ld_log;
  mret (lg_committing lg || (LOGSIZE <? lh_n (lg_lh lg) + (lg_outstanding lg + 1) * MAXOPBLOCKS)).
Definition begin_op : K kern unit :=
  acquire log_lk ;;
  while begin_wait (sleep ChLog log_lk) ;;
  up_log (fun lg => set_lg_outstanding (lg_outstanding lg + 1) lg) ;;
  release log_lk.

Definition end_op : K kern unit :=
  acquire log_lk ;;
  up_log (fun lg => set_lg_outstanding (lg_outstanding lg - 1) lg) ;;
  lg ← ld_log;
  if lg_committing lg then panic "log.committing" else
  do_commit ← (if lg_outstanding lg =? 0
               then up_log (set_lg_committing true) ;; mret true
               else wakeup ChLog ;; mret false);
  release log_lk ;;
  if (do_commit : bool) then
    commit ;;
    acquire log_lk ;;
    up_log (set_lg_committing false) ;;
    wakeup ChLog ;;
    release log_lk
  else mret tt.

(** The scan of log_write() for a block already in the log. *)
Fixpoint log_find (blocks : list Z) (n : nat) (i : Z) (blockno : Z) : Z :=
  match n, blocks with
  | S k, x :: r => if u32 x =? blockno then i else log_find r k (i + 1) blockno
  | _, _ => i
  end.

Definition log_write (b : nat) : K kern unit :=
  acquire log_lk ;;
  lg ← ld_log;
  if (LOGSIZE <=? lh_n (lg_lh lg)) || (lg_size lg - 1 <=? lh_n (lg_lh lg)) then panic "too big a transaction" else
  if lg_outstanding lg <? 1 then panic "log_write outside of trans" else
  bf ← ld_buf b;
  let i := log_find (lh_block (lg_lh lg)) (Z.to_nat (lh_n (lg_lh lg))) 0 (b_blockno bf) in
  st_block i (i32 (b_blockno bf)) ;;
  (if i =? lh_n (lg_lh lg) then
     bpin b ;;
     up_log (fun lg => set_n (lh_n (lg_lh lg) + 1) lg)
   else mret tt) ;;
  release log_lk.

End Code.

(** ** The log in memory *)

Definition disk_app (ws : list (Z * list Z)) (d : disk) : disk := Disk (dk_image d) (dk_writes d ++ ws).

Lemma disk_app_nil d : disk_app [] d = d.
Proof. destruct d. unfold disk_app. simpl. by rewrite app_nil_r. Qed.

Lemma disk_app_app ws ws' d : disk_app ws' (disk_app ws d) = disk_app (ws ++ ws') d.
Proof. unfold disk_app. simpl. by rewrite app_assoc. Qed.

Lemma disk_put_app b v d : disk_put b v d = disk_app [(b, v)] d.
Proof. done. Qed.

(** Where the log is: header block [start], then size-1 log blocks. *)
Record region := Region { rg_start : Z; rg_size : Z }.

Definition in_log (r : region) (b : Z) : Prop := rg_start r <= b < rg_start r + rg_size r.

Definition region_ok (r : region) : Prop := 0 <= rg_start r /\ 1 < rg_size r /\ rg_start r + rg_size r < 2 ^ 31.

(** Home blocks [bl] that fit the log. *)
Record blocks_ok (r : region) (bl : list Z) : Prop := {
  bk_nodup : NoDup bl;
  bk_home : forall b, b ∈ bl -> 0 <= b < 2 ^ 31 /\ ~ in_log r b;
  bk_fits : Z.of_nat (length bl) <= rg_size r - 1 /\ Z.of_nat (length bl) < LOGSIZE
}.

Record log_at (r : region) (lg : log) (bl : list Z) : Prop := {
  la_start : lg_start lg = rg_start r;
  la_size : lg_size lg = rg_size r;
  la_dev : lg_dev lg = ROOTDEV;
  la_n : lh_n (lg_lh lg) = Z.of_nat (length bl);
  la_len : length (lh_block (lg_lh lg)) = Z.to_nat LOGSIZE;
  la_blocks : take (length bl) (lh_block (lg_lh lg)) = bl
}.

Lemma log_at_lookup r lg bl k b :
  log_at r lg bl -> bl !! k = Some b -> lh_block (lg_lh lg) !! k = Some b.
Proof.
  intros H Hk. rewrite <- (la_blocks _ _ _ H) in Hk. apply lookup_take_Some in Hk as [? _]. done.
Qed.

Lemma ld_log_run c s : ld_log (c, s) = Ret (k_log s) (c, s).
Proof. done. Qed.

Lemma ld_block_run r c s bl k b :
  log_at r (k_log s) bl -> bl !! k = Some b -> ld_block (Z.of_nat k) (c, s) = Ret b (c, s).
Proof.
  intros H Hk. unfold ld_block. rewrite (bind_ret _ _ _ _ _ (ld_log_run c s)), Nat2Z.id.
  rewrite (log_at_lookup _ _ _ _ _ H Hk), (proj2 (Z.leb_le 0 (Z.of_nat k))) by lia. done.
Qed.

Section Specs.
Context {BD : BlockDev} {BO : BlockDevOk BD} (r : region) (Hr : region_ok r).

Definition log_block (k : nat) : Z := rg_start r + Z.of_nat k + 1.

Lemma log_block_in k bl : blocks_ok r bl -> (k < length bl)%nat -> in_log r (log_block k) /\ 0 <= log_block k < 2 ^ 31.
Proof.
  intros [_ _ [H1 _]] Hk. destruct Hr as (H2 & H3 & H4). unfold in_log, log_block. lia.
Qed.

Lemma u32_block b : 0 <= b < 2 ^ 31 -> u32 b = b.
Proof. intros. apply u32_small. lia. Qed.

Lemma size_bl (X : gset Z) bl : blocks_ok r bl -> X = list_to_set bl -> (size X < Z.to_nat NBUF)%nat.
Proof.
  intros [N _ [_ H]] ->. rewrite size_list_to_set by done. unfold LOGSIZE, NBUF in *. lia.
Qed.

(** Two blocks read and locked, as write_log() and install_trans() do; [m]
    reads the second block's number. *)
Lemma bread2_wp pid s V X x y c i (m : K kern Z) (k : nat -> nat -> K kern unit) (Q : unit -> ctx * kern -> Prop) :
  bio_ok pid s V X ∅ -> kctx c i pid -> x <> y -> 0 <= y < 2 ^ 31 -> (size X < Z.to_nat NBUF)%nat ->
  y ∈ X \/ (S (size X) < Z.to_nat NBUF)%nat ->
  (forall c' s', k_log s' = k_log s -> m (c', s') = Ret y (c', s')) ->
  (forall t tf f ff c' s', kctx c' i pid -> bd_frame s s' -> k_disk s' = k_disk s -> t <> f ->
    bufs s' !! t = Some tf -> bufs s' !! f = Some ff ->
    length (b_data tf) = Z.to_nat BSIZE -> length (b_data ff) = Z.to_nat BSIZE -> b_data tf = V x -> b_data ff = V y ->
    bio_ok pid s' V X (<[f := y]> {[t := x]}) -> wp bd_env (k t f) Q (c', s')) ->
  wp bd_env (t ← bread ROOTDEV x; blk ← m; f ← bread ROOTDEV (u32 blk); k t f) Q (c, s).
Proof.
  intros B Hc Hne Hy Hsz Hsz2 Hm HQ. apply wp_bind.
  apply (bread_wp pid s V X ∅ x c i); [done|done|done|right; by rewrite map_size_empty, Nat.add_0_r|].
  intros t tf c1 Hc1 _ Ht Htok s1 B1. eapply wp_step; [by apply Hm|].
  rewrite u32_block by done. apply wp_bind. apply (bread_wp pid s1 V X _ y c1 i _ B1 Hc1).
  { intros j. rewrite lookup_insert_Some, lookup_empty. intros [[_ E]|[_ E]]; congruence. }
  { destruct Hsz2 as [?|?]; [by left|right]. rewrite map_size_insert, lookup_empty, map_size_empty. lia. }
  intros f ff c2 Hc2 Hfn Hf Hfok s2 B2. rewrite lookup_insert_None in Hfn. destruct Hfn as [_ Hft].
  destruct Htok as (_ & Htl & _ & _ & _ & Htd & _), Hfok as (_ & Hfl & _ & _ & _ & Hfd & _).
  apply (HQ t tf f ff c2 s2); [done|by destruct s|done|congruence| | |done..].
  - unfold s2. rewrite upd_bufs_bufs, list_lookup_insert_ne by done. destruct Ht as [z Hz]. by eapply bufs_insert_eq.
  - destruct Hf as [z Hz]. by eapply bufs_insert_eq.
Qed.

(** Releasing two clean or pinned buffers. *)
Lemma brelse2_wp pid s V X t x f y c i (Q : unit -> ctx * kern -> Prop) :
  bio_ok pid s V X (<[f := y]> {[t := x]}) -> kctx c i pid -> t <> f ->
  x ∈ X \/ V x = disk_get (k_disk s) x -> y ∈ X \/ V y = disk_get (k_disk s) y ->
  (forall c' s', kctx c' i pid -> bd_frame s s' -> k_disk s' = k_disk s -> bio_ok pid s' V X ∅ -> Q tt (c', s')) ->
  wp bd_env (brelse f ;; brelse t) Q (c, s).
Proof.
  intros B Hc Hne Hx Hy HQ.
  destruct (brelse_run pid s V X _ f y c i B Hc (lookup_insert_eq _ _ _) Hy) as (c1 & bc1 & R1 & Hc1 & B1).
  eapply wp_step; [exact R1|]. rewrite delete_insert_id in B1 by (by rewrite lookup_singleton_ne).
  destruct (brelse_run pid _ V X _ t x c1 i B1 Hc1 (lookup_singleton_eq _ _) Hx) as (c2 & bc2 & R2 & Hc2 & B2).
  eapply wp_run; [exact R2|]. rewrite delete_singleton_eq in B2. apply HQ; [done|by destruct s|done|done].
Qed.

Lemma two_locked (t f : nat) (x y : Z) : t <> f -> (<[f := y]> {[t := x]} : gmap nat Z) = <[t := x]> {[f := y]}.
Proof. intros H. by rewrite <- !insert_empty, insert_insert_ne. Qed.

(** One round of write_log(): home block [b] is copied to log block [k]. *)
Lemma write_log_body_wp pid s V X bl k b c i (Q : unit -> ctx * kern -> Prop) :
  bio_ok pid s V X ∅ -> kctx c i pid -> log_at r (k_log s) bl -> blocks_ok r bl ->
  (size X < Z.to_nat NBUF)%nat -> bl !! k = Some b -> b ∈ X ->
  (forall c' s', kctx c' i pid -> bd_frame s s' -> k_disk s' = disk_put (log_block k) (V b) (k_disk s) ->
    bio_ok pid s' (vset (log_block k) (V b) V) X ∅ -> Q tt (c', s')) ->
  wp bd_env (write_log_body (Z.of_nat k)) Q (c, s).
Proof.
  intros B Hc Hlg Hbl Hsz Hk Hb HQ. assert (Hkl : (k < length bl)%nat) by (by eapply lookup_lt_Some).
  destruct (log_block_in k bl Hbl Hkl) as [Hin Hrg].
  destruct (bk_home _ _ Hbl b) as [Hbr Hbn]; [by eapply list_elem_of_lookup_2|].
  assert (Hne : log_block k <> b) by (intros <-; done).
  unfold write_log_body. eapply wp_step; [apply ld_log_run|].
  rewrite (la_dev _ _ _ Hlg), (la_start _ _ _ Hlg). fold (log_block k). rewrite (u32_block (log_block k)) by done.
  change (u32 ROOTDEV) with ROOTDEV.
  eapply (bread2_wp pid s V X (log_block k) b c i); [done..|by left| |].
  { intros c' s' E. apply (ld_block_run r c' s' bl); [by rewrite E|done]. }
  intros t tf f ff c2 s2 Hc2 F2 D2 Htf Ht2 Hf2 Htl Hfl Htd Hfd B2.
  eapply wp_step; [by apply ld_buf_run|]. eapply wp_step; [by apply up_buf_run|].
  assert (HLt : (<[f:=b]> {[t:=log_block k]} : gmap nat Z) !! t = Some (log_block k)) by (by rewrite lookup_insert_ne, lookup_singleton_eq).
  pose proof (set_data_ok pid s2 V X _ t (log_block k) (b_data ff) tf B2 HLt Ht2 Hfl) as B3.
  set (s3 := upd_bufs _ s2) in *. rewrite Hfd in B3. apply wp_bind.
  apply (bwrite_wp pid s3 _ X _ t (log_block k) c2 i _ B3 Hc2 HLt). intros c4 Hc4 s4 B4.
  assert (Ev : vset (log_block k) (V b) V (log_block k) = V b) by (unfold vset; by rewrite Z.eqb_refl).
  eapply (brelse2_wp pid s4 _ X t (log_block k) f b c4 i); [done..| |by left|].
  { right. simpl. by rewrite disk_get_put, Z.eqb_refl. }
  intros c6 s6 Hc6 F6 D6 B6. apply HQ; [done| | |done].
  - eapply bd_frame_trans; [exact F2|]. eapply bd_frame_trans; [|exact F6]. by destruct s2.
  - rewrite D6. simpl. by rewrite Ev, D2.
Qed.

(** One round of install_trans(): log block [k] is copied to home block [b],
    which commit() unpins. *)
Lemma install_body_wp (recovering : bool) pid s V X bl k b c i (Q : unit -> ctx * kern -> Prop) :
  bio_ok pid s V X ∅ -> kctx c i pid -> log_at r (k_log s) bl -> blocks_ok r bl ->
  (size X < Z.to_nat NBUF)%nat -> bl !! k = Some b -> (forall x, in_log r x -> x ∉ X) ->
  (if recovering then X = ∅ else b ∈ X) ->
  (forall c' s', kctx c' i pid -> bd_frame s s' -> k_disk s' = disk_put b (V (log_block k)) (k_disk s) ->
    bio_ok pid s' (vset b (V (log_block k)) V) (X ∖ {[b]}) ∅ -> Q tt (c', s')) ->
  wp bd_env (install_trans_body recovering (Z.of_nat k)) Q (c, s).
Proof.
  intros B Hc Hlg Hbl Hsz Hk HX Hrec HQ. assert (Hkl : (k < length bl)%nat) by (by eapply lookup_lt_Some).
  destruct (log_block_in k bl Hbl Hkl) as [Hin Hrg].
  destruct (bk_home _ _ Hbl b) as [Hbr Hbn]; [by eapply list_elem_of_lookup_2|].
  assert (Hne : log_block k <> b) by (intros <-; done).
  unfold install_trans_body. eapply wp_step; [apply ld_log_run|].
  rewrite (la_dev _ _ _ Hlg), (la_start _ _ _ Hlg). fold (log_block k). rewrite (u32_block (log_block k)) by done.
  change (u32 ROOTDEV) with ROOTDEV.
  eapply (bread2_wp pid s V X (log_block k) b c i); [done..| | |].
  { destruct recovering; [subst X; right; rewrite size_empty; unfold NBUF, MAXOPBLOCKS; lia|by left]. }
  { intros c' s' E. apply (ld_block_run r c' s' bl); [by rewrite E|done]. }
  intros t tf f ff c2 s2 Hc2 F2 D2 Htf Ht2 Hf2 Htl Hfl Htd Hfd B2.
  eapply wp_step; [by apply ld_buf_run|]. eapply wp_step; [by apply up_buf_run|].
  assert (HLf : (<[f:=b]> {[t:=log_block k]} : gmap nat Z) !! f = Some b) by apply lookup_insert_eq.
  pose proof (set_data_ok pid s2 V X _ f b (b_data tf) ff B2 HLf Hf2 Htl) as B3.
  set (s3 := upd_bufs _ s2) in *. rewrite Htd in B3. set (V' := vset b (V (log_block k)) V) in *. apply wp_bind.
  apply (bwrite_wp pid s3 _ X _ f b c2 i _ B3 Hc2 HLf). intros c4 Hc4 s4 B4.
  assert (Ev : V' b = V (log_block k)) by (unfold V', vset; by rewrite Z.eqb_refl).
  assert (El : V' (log_block k) = V (log_block k)) by (unfold V', vset; by rewrite (proj2 (Z.eqb_neq _ _))).
  assert (Hlb : V (log_block k) = disk_get (k_disk s) (log_block k)).
  { apply (bo_clean _ _ _ _ _ B); [by apply HX|]. intros j. by rewrite lookup_empty. }
  assert (Hu : exists s5 c5, kctx c5 i pid /\ bd_frame s4 s5 /\ k_disk s5 = k_disk s4 /\
    bio_ok pid s5 V' (X ∖ {[b]}) (<[f:=b]> {[t:=log_block k]}) /\
    (if negb recovering then bunpin f else mret tt) (c4, s4) = Ret tt (c5, s5)).
  { destruct recovering; cbn [negb].
    - subst X. exists s4, c4. split_and!; [done|auto with kernel|done| |done].
      by replace (∅ ∖ {[b]} : gset Z) with (∅ : gset Z) by set_solver.
    - destruct (bunpin_run pid s4 V' X _ f b c4 i B4 Hc4 HLf Hrec) as (bc & R5 & B5).
      exists (set_k_bcache bc s4), (settled c4). split_and!; [auto with kernel|auto with kernel|done|done|done]. }
  destruct Hu as (s5 & c5 & Hc5 & F5 & D5 & B5 & R5). eapply wp_step; [exact R5|].
  rewrite two_locked in B5 by done.
  apply (brelse2_wp pid s5 V' (X ∖ {[b]}) f b t (log_block k) c5 i); [done..| | |].
  { right. rewrite D5. simpl. by rewrite disk_get_put, Z.eqb_refl. }
  { right. rewrite D5. simpl. rewrite disk_get_put, (proj2 (Z.eqb_neq _ _)) by done. by rewrite El, D2. }
  intros c6 s6 Hc6 F6 D6 B6. apply HQ; [done| | |done].
  - eapply bd_frame_trans; [exact F2|]. eapply bd_frame_trans; [|exact F6]. eapply bd_frame_trans; [|exact F5]. by destruct s2.
  - rewrite D6, D5. simpl. by rewrite Ev, D2.
Qed.

(** The disk writes of write_log() and of install_trans(). *)
Definition log_writes (V : Z -> list Z) (bl : list Z) (k : nat) : list (Z * list Z) :=
  (fun j => (log_block j, V (nth j bl 0))) <$> seq 0 k.
Definition inst_writes (V : Z -> list Z) (bl : list Z) (k : nat) : list (Z * list Z) :=
  (fun j => (nth j bl 0, V (log_block j))) <$> seq 0 k.

Lemma blocks_after_out V ws x : x ∉ ws.*1 -> blocks_after V ws x = V x.
Proof.
  revert V. induction ws as [|[b d] ws IH]; intros V Hx; [done|]. simpl in Hx. apply not_elem_of_cons in Hx as [Hb Hx].
  simpl. rewrite IH by done. by rewrite (proj2 (Z.eqb_neq x b)).
Qed.

Lemma blocks_after_ext V V' ws x : (forall y, V y = V' y) -> blocks_after V ws x = blocks_after V' ws x.
Proof.
  revert V V'. induction ws as [|[b d] ws IH]; intros V V' H; simpl; [apply H|]. apply IH. intros y. by rewrite H.
Qed.

Lemma disk_get_app ws d : disk_get (disk_app ws d) = blocks_after (disk_get d) ws.
Proof. unfold disk_get, disk_app. simpl. by rewrite blocks_after_app. Qed.

Lemma writes_S {A} (f : nat -> A) k : f <$> seq 0 (S k) = (f <$> seq 0 k) ++ [f k].
Proof. rewrite seq_S, fmap_app. done. Qed.

Lemma home_not_log V bl k b : blocks_ok r bl -> (k <= length bl)%nat -> ~ in_log r b -> b ∉ (log_writes V bl k).*1.
Proof.
  intros Hbl Hk Hb Hin. unfold log_writes in Hin. rewrite <- list_fmap_compose in Hin.
  apply list_elem_of_fmap in Hin as (j & -> & Hj%elem_of_seq). apply Hb. apply (log_block_in j bl Hbl). lia.
Qed.

Lemma log_not_home V bl k x : blocks_ok r bl -> (k <= length bl)%nat -> in_log r x -> x ∉ (inst_writes V bl k).*1.
Proof.
  intros Hbl Hk Hx Hin. unfold inst_writes in Hin. rewrite <- list_fmap_compose in Hin.
  apply list_elem_of_fmap in Hin as (j & -> & Hj%elem_of_seq). simpl in Hx.
  destruct (bk_home _ _ Hbl (nth j bl 0)) as [_ Hn]; [|done]. apply list_elem_of_In, nth_In. lia.
Qed.

Lemma nth_lookup_lt (bl : list Z) k : (k < length bl)%nat -> bl !! k = Some (nth k bl 0).
Proof. intros H. destruct (nth_lookup_or_length bl k 0); [done|lia]. Qed.

Lemma write_log_wp pid s V X bl c i (Q : unit -> ctx * kern -> Prop) :
  bio_ok pid s V X ∅ -> kctx c i pid -> log_at r (k_log s) bl -> blocks_ok r bl -> X = list_to_set bl ->
  (forall c' s', kctx c' i pid -> bd_frame s s' -> k_disk s' = disk_app (log_writes V bl (length bl)) (k_disk s) ->
    bio_ok pid s' (blocks_after V (log_writes V bl (length bl))) X ∅ -> Q tt (c', s')) ->
  wp bd_env write_log Q (c, s).
Proof.
  intros B Hc Hlg Hbl HX HQ. unfold write_log. eapply wp_step; [apply ld_log_run|]. rewrite (la_n _ _ _ Hlg).
  apply (wp_for_range _ _ _ (fun k w => exists c' s', w = (c', s') /\ kctx c' i pid /\ bd_frame s s' /\
    k_disk s' = disk_app (log_writes V bl (Z.to_nat k)) (k_disk s) /\
    bio_ok pid s' (blocks_after V (log_writes V bl (Z.to_nat k))) X ∅)).
  - lia.
  - exists c, s. split_and!; [done|done|auto with kernel|by rewrite disk_app_nil|done].
  - intros k w Hk (c1 & s1 & -> & Hc1 & F1 & D1 & B1). rewrite <- (Z2Nat.id k) at 1 by lia.
    assert (Hkl : (Z.to_nat k < length bl)%nat) by lia.
    assert (Hb : bl !! Z.to_nat k = Some (nth (Z.to_nat k) bl 0)) by (by apply nth_lookup_lt).
    set (b := nth (Z.to_nat k) bl 0) in *. assert (Hbin : b ∈ bl) by (by eapply list_elem_of_lookup_2).
    apply (write_log_body_wp pid s1 _ X bl _ b c1 i _ B1 Hc1); [by rewrite F1|done|by eapply size_bl|done|subst X; set_solver|].
    intros c2 s2 Hc2 F2 D2 B2. exists c2, s2.
    assert (Eb : blocks_after V (log_writes V bl (Z.to_nat k)) b = V b).
    { apply blocks_after_out, home_not_log; [done|lia|]. by apply (bk_home _ _ Hbl). }
    rewrite Eb in D2, B2. replace (Z.to_nat (k + 1)) with (S (Z.to_nat k)) by lia.
    unfold log_writes. rewrite writes_S. fold (log_writes V bl (Z.to_nat k)). fold b. split_and!; [done|done| | |].
    + by eapply bd_frame_trans.
    + by rewrite D2, D1, disk_put_app, disk_app_app.
    + eapply bio_ok_ext; [|exact B2]. intros x. by rewrite blocks_after_app.
  - intros w (c1 & s1 & -> & Hc1 & F1 & D1 & B1). rewrite Nat2Z.id in *. by apply HQ.
Qed.

(** Log blocks keep their contents while home blocks are installed. *)
Lemma install_trans_wp (recovering : bool) pid s V X bl c i (Q : unit -> ctx * kern -> Prop) :
  bio_ok pid s V X ∅ -> kctx c i pid -> log_at r (k_log s) bl -> blocks_ok r bl ->
  X = (if recovering then ∅ else list_to_set bl) ->
  (forall c' s', kctx c' i pid -> bd_frame s s' -> k_disk s' = disk_app (inst_writes V bl (length bl)) (k_disk s) ->
    bio_ok pid s' (blocks_after V (inst_writes V bl (length bl))) ∅ ∅ -> Q tt (c', s')) ->
  wp bd_env (install_trans recovering) Q (c, s).
Proof.
  intros B Hc Hlg Hbl HX HQ. unfold install_trans. eapply wp_step; [apply ld_log_run|]. rewrite (la_n _ _ _ Hlg).
  set (Xk := fun k : nat => if recovering then ∅ else list_to_set (drop k bl) : gset Z).
  apply (wp_for_range _ _ _ (fun k w => exists c' s', w = (c', s') /\ kctx c' i pid /\ bd_frame s s' /\
    k_disk s' = disk_app (inst_writes V bl (Z.to_nat k)) (k_disk s) /\
    bio_ok pid s' (blocks_after V (inst_writes V bl (Z.to_nat k))) (Xk (Z.to_nat k)) ∅)).
  - lia.
  - exists c, s. split_and!; [done|done|auto with kernel|by rewrite disk_app_nil|]. change (Xk (Z.to_nat 0)) with (if recovering then ∅ else list_to_set bl : gset Z). by rewrite <- HX.
  - intros k w Hk (c1 & s1 & -> & Hc1 & F1 & D1 & B1). rewrite <- (Z2Nat.id k) at 1 by lia.
    assert (Hkl : (Z.to_nat k < length bl)%nat) by lia.
    assert (Hb : bl !! Z.to_nat k = Some (nth (Z.to_nat k) bl 0)) by (by apply nth_lookup_lt).
    set (b := nth (Z.to_nat k) bl 0) in *. pose proof (drop_S _ _ _ Hb) as Hd.
    assert (Hsub : forall x, x ∈ Xk (Z.to_nat k) -> x ∈ bl).
    { unfold Xk. intros x Hx. destruct recovering; [set_solver|]. apply elem_of_list_to_set in Hx.
      rewrite <- (take_drop (Z.to_nat k) bl). set_solver. }
    apply (install_body_wp recovering pid s1 _ (Xk (Z.to_nat k)) bl _ b c1 i _ B1 Hc1).
    { by rewrite F1. } { done. }
    { eapply Nat.le_lt_trans; [apply subseteq_size|eapply (size_bl (list_to_set bl)); done].
      intros x Hx. apply elem_of_list_to_set. auto. }
    { done. }
    { intros x Hx Hin. by apply Hsub, (bk_home _ _ Hbl) in Hin as [_ ?]. }
    { unfold Xk. destruct recovering; [done|]. rewrite Hd. set_solver. }
    intros c2 s2 Hc2 F2 D2 B2. exists c2, s2.
    assert (Eb : blocks_after V (inst_writes V bl (Z.to_nat k)) (log_block (Z.to_nat k)) = V (log_block (Z.to_nat k))).
    { apply blocks_after_out, log_not_home; [done|lia|]. by apply (log_block_in _ bl Hbl). }
    rewrite Eb in D2, B2. replace (Z.to_nat (k + 1)) with (S (Z.to_nat k)) by lia.
    unfold inst_writes. rewrite writes_S. fold (inst_writes V bl (Z.to_nat k)). fold b. split_and!; [done|done| | |].
    + by eapply bd_frame_trans.
    + by rewrite D2, D1, disk_put_app, disk_app_app.
    + assert (EX : Xk (S (Z.to_nat k)) = Xk (Z.to_nat k) ∖ {[b]}).
      { unfold Xk. destruct recovering; [set_solver|]. rewrite Hd. simpl.
        assert (b ∉ drop (S (Z.to_nat k)) bl); [|set_solver].
        pose proof (bk_nodup _ _ Hbl) as N. rewrite <- (take_drop (Z.to_nat k) bl), Hd in N.
        apply NoDup_app in N as (_ & _ & N). by apply NoDup_cons in N as [? _]. }
      rewrite EX. eapply bio_ok_ext; [|exact B2]. intros x. by rewrite blocks_after_app.
  - intros w (c1 & s1 & -> & Hc1 & F1 & D1 & B1). rewrite Nat2Z.id in *. apply HQ; [done..|].
    assert (EX : Xk (length bl) = ∅) by (unfold Xk; destruct recovering; [done|by rewrite drop_all]). by rewrite EX in B1.
Qed.

(** ** The header block *)

(** The header after [k] block numbers are written. *)
Definition hdr (bl : list Z) (k : nat) (d : list Z) : list Z :=
  foldl (fun d j => set_hdr_int (Z.of_nat j + 1) (nth j bl 0) d) (set_hdr_int 0 (Z.of_nat (length bl)) d) (seq 0 k).

Lemma hdr_S bl k d : hdr bl (S k) d = set_hdr_int (Z.of_nat k + 1) (nth k bl 0) (hdr bl k d).
Proof. unfold hdr. by rewrite seq_S, foldl_app. Qed.

Lemma set_hdr_len i v d : 0 <= i <= LOGSIZE -> length d = Z.to_nat BSIZE -> length (set_hdr_int i v d) = Z.to_nat BSIZE.
Proof. intros Hi Hd. unfold set_hdr_int. rewrite length_putn; [done|]. unfold LOGSIZE, MAXOPBLOCKS, BSIZE in *. lia. Qed.

Lemma hdr_len bl k d : (k <= Z.to_nat LOGSIZE)%nat -> length d = Z.to_nat BSIZE -> length (hdr bl k d) = Z.to_nat BSIZE.
Proof.
  intros Hk Hd. induction k as [|k IH].
  - apply set_hdr_len; [unfold LOGSIZE, MAXOPBLOCKS; lia|done].
  - rewrite hdr_S. apply set_hdr_len; [unfold LOGSIZE, MAXOPBLOCKS in *; lia|]. apply IH. lia.
Qed.

Lemma hdr_get_set i j v d :
  0 <= i <= LOGSIZE -> 0 <= j <= LOGSIZE -> - 2 ^ 31 <= v < 2 ^ 31 -> length d = Z.to_nat BSIZE ->
  hdr_int (set_hdr_int i v d) j = if j =? i then v else hdr_int d j.
Proof.
  intros Hi Hj Hv Hd. unfold hdr_int, set_hdr_int, LOGSIZE, MAXOPBLOCKS, BSIZE in *.
  destruct (Z.eqb_spec j i) as [->|Hne].
  - rewrite getn_putn_eq by lia. change (256 ^ Z.of_nat 4) with (2 ^ 32).
    unfold i32, sgn. rewrite Zplus_mod_idemp_l. fold (sgn 32 v). apply i32_small. done.
  - rewrite getn_putn_ne; [done|lia|lia].
Qed.

Lemma hdr_read bl k d :
  (k <= length bl)%nat -> Z.of_nat (length bl) <= LOGSIZE -> (forall b, b ∈ bl -> 0 <= b < 2 ^ 31) ->
  length d = Z.to_nat BSIZE ->
  hdr_int (hdr bl k d) 0 = Z.of_nat (length bl) /\
  forall j, (j < k)%nat -> hdr_int (hdr bl k d) (Z.of_nat j + 1) = nth j bl 0.
Proof.
  intros Hk Hn Hbl Hd. assert (HL : LOGSIZE = 30) by done.
  induction k as [|k IH].
  - split; [|lia]. unfold hdr. simpl. rewrite hdr_get_set by lia. by rewrite Z.eqb_refl.
  - destruct IH as [IH0 IHj]; [lia|]. rewrite hdr_S.
    assert (Hb : - 2 ^ 31 <= nth k bl 0 < 2 ^ 31).
    { assert (0 <= nth k bl 0 < 2 ^ 31); [|lia]. apply Hbl, list_elem_of_In, nth_In. lia. }
    assert (Hl : length (hdr bl k d) = Z.to_nat BSIZE) by (apply hdr_len; [lia|done]). split.
    + rewrite hdr_get_set by lia. rewrite (proj2 (Z.eqb_neq _ _)) by lia. done.
    + intros j Hj. rewrite hdr_get_set by lia. destruct (Z.eqb_spec (Z.of_nat j + 1) (Z.of_nat k + 1)).
      * by replace j with k by lia.
      * apply IHj. lia.
Qed.

Lemma vset_vset b d d' V x : vset b d (vset b d' V) x = vset b d V x.
Proof. unfold vset. by destruct (x =? b). Qed.

Lemma write_head_wp pid s V X bl c i (Q : unit -> ctx * kern -> Prop) :
  bio_ok pid s V X ∅ -> kctx c i pid -> log_at r (k_log s) bl -> blocks_ok r bl -> (size X < Z.to_nat NBUF)%nat ->
  let H := hdr bl (length bl) (V (rg_start r)) in
  (forall c' s', kctx c' i pid -> bd_frame s s' -> k_disk s' = disk_app [(rg_start r, H)] (k_disk s) ->
    bio_ok pid s' (vset (rg_start r) H V) X ∅ -> Q tt (c', s')) ->
  wp bd_env write_head Q (c, s).
Proof.
  intros B Hc Hlg Hbl Hsz H HQ. unfold write_head. eapply wp_step; [apply ld_log_run|].
  rewrite (la_dev _ _ _ Hlg), (la_start _ _ _ Hlg), (la_n _ _ _ Hlg). set (st := rg_start r) in *.
  change (u32 ROOTDEV) with ROOTDEV. rewrite (u32_block st) by (destruct Hr as (? & ? & ?); unfold st; lia).
  apply wp_bind. apply (bread_wp pid s V X ∅ st c i); [done|done|done|right; by rewrite map_size_empty, Nat.add_0_r|].
  intros b bf c1 Hc1 _ Hb0 Hok s1 B1. destruct Hok as (_ & Hlen & _ & _ & _ & Hdat & _).
  assert (Hb1 : bufs s1 !! b = Some bf) by (destruct Hb0 as [z Hz]; by eapply bufs_insert_eq).
  assert (HL : (<[b := st]> ∅ : gmap nat Z) !! b = Some st) by apply lookup_insert_eq.
  eapply wp_step; [by apply up_buf_run|]. apply wp_bind. assert (H30 : (length bl <= Z.to_nat LOGSIZE)%nat) by (destruct (bk_fits _ _ Hbl); lia).
  apply (wp_for_range _ _ _ (fun k w => exists c' s' x, w = (c', s') /\ kctx c' i pid /\ bd_frame s s' /\ k_disk s' = k_disk s /\
    bufs s' !! b = Some x /\ b_data x = hdr bl (Z.to_nat k) (V st) /\
    bio_ok pid s' (vset st (hdr bl (Z.to_nat k) (V st)) V) X (<[b := st]> ∅))).
  - lia.
  - eexists c1, _, _. split_and!; [done|done|by destruct s|done|by eapply bufs_insert_eq|by rewrite Hdat|].
    rewrite <- Hdat. apply set_data_ok; [done|done|done|]. apply set_hdr_len; [unfold LOGSIZE, MAXOPBLOCKS; lia|done].
  - intros k w Hk (c2 & s2 & x & -> & Hc2 & F2 & D2 & Hx & Hdx & B2).
    assert (Hbk : bl !! Z.to_nat k = Some (nth (Z.to_nat k) bl 0)) by (apply nth_lookup_lt; lia).
    rewrite <- (Z2Nat.id k) at 1 by lia. eapply wp_step; [apply (ld_block_run r c2 s2 bl); [by rewrite F2|done]|].
    eapply wp_run; [by apply up_buf_run|]. replace (Z.to_nat (k + 1)) with (S (Z.to_nat k)) by lia.
    rewrite hdr_S, Z2Nat.id by lia. eexists c2, _, _. rewrite Hdx. split_and!; [done|done| |done|by eapply bufs_insert_eq|done|].
    + eapply bd_frame_trans; [exact F2|apply bd_frame_bufs].
    + eapply bio_ok_ext; [|apply set_data_ok; [exact B2|exact HL|done|]].
      * intros y. by rewrite vset_vset.
      * apply set_hdr_len; [unfold LOGSIZE, MAXOPBLOCKS in *; lia|]. apply hdr_len; [lia|]. by rewrite <- Hdat.
  - intros w (c2 & s2 & x & -> & Hc2 & F2 & D2 & Hx & Hdx & B2). rewrite Nat2Z.id in *. fold H in B2.
    apply wp_bind. apply (bwrite_wp pid s2 _ X _ b st c2 i _ B2 Hc2 HL). intros c3 Hc3 s3 B3.
    assert (Ev : vset st H V st = H) by (unfold vset; by rewrite Z.eqb_refl).
    destruct (brelse_run pid s3 _ X _ b st c3 i B3 Hc3 HL) as (c4 & bc4 & R4 & Hc4 & B4).
    { right. simpl. by rewrite disk_get_put, Z.eqb_refl. }
    eapply wp_run; [exact R4|]. rewrite delete_insert_id in B4 by apply lookup_empty. apply HQ; [done| | |done].
    + eapply bd_frame_trans; [exact F2|]. by destruct s2.
    + simpl. by rewrite Ev, D2.
Qed.

End Specs.
