(* ===== verification/LogSpec.v ===== *)
(** * Crash safety of the log

    What recovery would make of a disk ([logical]), and that it changes only
    at the one write of the header that commits a transaction.  The disk is
    an image with the block writes since, so a crash is a prefix of the
    writes. *)

From stdpp Require Import base numbers list list_numbers gmap strings sets fin_sets.
From Stdlib Require Import ZArith Lia.
From S2P Require Import Prelude.
From S2P Require Import Machine.
From S2P Require Import Spinlock.
From S2P Require Import Mem.
From S2P Require Import Kalloc.
From S2P Require Import Kern.
From S2P Require Import Sched.
From S2P Require Import SleepLk.
From S2P Require Import Bio.
From S2P Require Import Log.

Local Open Scope Z_scope.

(** ** The contents recovery restores *)

(** The block numbers a header block lists. *)
Definition header_of (d : list Z) : list Z :=
  (fun j => hdr_int d (Z.of_nat j + 1)) <$> seq 0 (Z.to_nat (hdr_int d 0)).

Lemma header_of_hdr bl d :
  Z.of_nat (length bl) <= LOGSIZE -> (forall b, b ∈ bl -> 0 <= b < 2 ^ 31) -> length d = Z.to_nat BSIZE ->
  hdr_int (hdr bl (length bl) d) 0 = Z.of_nat (length bl) /\ header_of (hdr bl (length bl) d) = bl.
Proof.
  intros Hn Hbl Hd. destruct (hdr_read bl (length bl) d) as [H0 Hj]; [lia|done..|]. split; [done|].
  unfold header_of. rewrite H0, Nat2Z.id. apply list_eq. intros j. rewrite list_lookup_fmap.
  destruct (decide (j < length bl)%nat) as [Hlt|Hge].
  - rewrite lookup_seq_lt by lia. simpl. rewrite Hj by lia. symmetry. by apply nth_lookup_lt.
  - rewrite lookup_seq_ge by lia. simpl. symmetry. apply lookup_ge_None. lia.
Qed.

Section Crash.
Context (r : region) (Hr : region_ok r).
Implicit Types (D V : Z -> list Z) (bl : list Z).

(** A disk whose header lists [bl]. *)
Record on_disk D bl : Prop := {
  od_n : hdr_int (D (rg_start r)) 0 = Z.of_nat (length bl);
  od_bl : header_of (D (rg_start r)) = bl
}.

(** What a home block holds once the transaction in the log is installed. *)
Definition logical D (b : Z) : list Z :=
  let bl := header_of (D (rg_start r)) in blocks_after D (inst_writes r D bl (length bl)) b.

Lemma start_in : in_log r (rg_start r).
Proof. destruct Hr as (? & ? & ?). unfold in_log. lia. Qed.

Lemma log_block_start k : log_block r k <> rg_start r.
Proof. unfold log_block. lia. Qed.

(** Installing overwrites the listed blocks with their copies in the log. *)
Lemma inst_in V D bl k j b :
  NoDup bl -> bl !! j = Some b -> (j < k <= length bl)%nat ->
  blocks_after D (inst_writes r V bl k) b = V (log_block r j).
Proof.
  intros N Hj [Hlt Hk]. unfold inst_writes. replace (seq 0 k) with (seq 0 j ++ j :: seq (S j) (k - S j)).
  2: { change (j :: seq (S j) (k - S j)) with (seq j (S (k - S j))). rewrite <- seq_app. f_equal. lia. }
  rewrite fmap_app, fmap_cons, blocks_after_app. cbn [blocks_after].
  rewrite blocks_after_out.
  - rewrite <- (nth_lookup_Some _ _ 0 _ Hj), Z.eqb_refl. done.
  - rewrite <- list_fmap_compose. intros (i & E & Hi%elem_of_seq)%list_elem_of_fmap. simpl in E.
    assert (Hi' : bl !! i = Some b) by (rewrite E; apply nth_lookup_lt; lia).
    pose proof (NoDup_lookup _ _ _ _ N Hi' Hj). lia.
Qed.

Lemma inst_out V D bl k b : b ∉ bl -> (k <= length bl)%nat -> blocks_after D (inst_writes r V bl k) b = D b.
Proof.
  intros Hb Hk. apply blocks_after_out. unfold inst_writes. rewrite <- list_fmap_compose.
  intros (i & -> & Hi%elem_of_seq)%list_elem_of_fmap. apply Hb. simpl. apply list_elem_of_In, nth_In. lia.
Qed.

Lemma logical_in D bl j b :
  on_disk D bl -> NoDup bl -> bl !! j = Some b -> logical D b = D (log_block r j).
Proof.
  intros [_ E] N Hj. unfold logical. cbv zeta. rewrite E. apply inst_in; [done|done|]. apply lookup_lt_Some in Hj. lia.
Qed.

Lemma logical_out D bl b : on_disk D bl -> b ∉ bl -> logical D b = D b.
Proof. intros [_ E] Hb. unfold logical. cbv zeta. rewrite E. by apply inst_out. Qed.

(** Installing any part of the logged transaction does not change what
    recovery restores: it can be interrupted and started over. *)
Lemma install_prefix D bl k b :
  on_disk D bl -> blocks_ok r bl -> (k <= length bl)%nat ->
  let D' := blocks_after D (inst_writes r D bl k) in
  on_disk D' bl /\ (~ in_log r b -> logical D' b = logical D b).
Proof.
  intros Hd Hbl Hk D'.
  assert (HL : forall x, in_log r x -> D' x = D x) by (intros x Hx; apply blocks_after_out; by eapply log_not_home).
  assert (Hd' : on_disk D' bl) by (destruct Hd; split; rewrite HL by apply start_in; done).
  split; [done|]. intros Hb. pose proof (bk_nodup _ _ Hbl) as N.
  destruct (decide (b ∈ bl)) as [(j & Hj)%list_elem_of_lookup|Hn].
  - rewrite (logical_in D' bl j), (logical_in D bl j) by done. apply HL.
    apply (log_block_in r Hr j bl Hbl). by eapply lookup_lt_Some.
  - rewrite (logical_out D' bl), (logical_out D bl) by done. by apply inst_out.
Qed.

(** Filling the log under an empty header changes nothing either. *)
Lemma log_prefix D V bl k b :
  on_disk D [] -> blocks_ok r bl -> (k <= length bl)%nat -> ~ in_log r b ->
  let D' := blocks_after D (log_writes r V bl k) in on_disk D' [] /\ logical D' b = D b.
Proof.
  intros Hd Hbl Hk Hb D'.
  assert (Hs : D' (rg_start r) = D (rg_start r)).
  { apply blocks_after_out. unfold log_writes. rewrite <- list_fmap_compose.
    intros (i & E & _)%list_elem_of_fmap. simpl in E. by apply (log_block_start i). }
  assert (Hd' : on_disk D' []) by (destruct Hd; split; by rewrite Hs).
  split; [done|]. rewrite (logical_out D' []) by (done || set_solver). apply blocks_after_out. by eapply home_not_log.
Qed.

Lemma log_in V D bl k j b :
  bl !! j = Some b -> (j < k <= length bl)%nat -> blocks_after D (log_writes r V bl k) (log_block r j) = V b.
Proof.
  intros Hj [Hlt Hk]. unfold log_writes. replace (seq 0 k) with (seq 0 j ++ j :: seq (S j) (k - S j)).
  2: { change (j :: seq (S j) (k - S j)) with (seq j (S (k - S j))). rewrite <- seq_app. f_equal. lia. }
  rewrite fmap_app, fmap_cons, blocks_after_app. cbn [blocks_after].
  rewrite blocks_after_out.
  - rewrite Z.eqb_refl. by rewrite (nth_lookup_Some _ _ 0 _ Hj).
  - rewrite <- list_fmap_compose. intros (i & E & Hi%elem_of_seq)%list_elem_of_fmap. simpl in E. unfold log_block in E. lia.
Qed.

(** The block writes of commit() for the blocks [bl], with contents [V] in the
    cache and [D] on the disk: the log, its header, the home blocks, and the
    header again, now empty. *)
Definition head1 D bl : list Z := hdr bl (length bl) (D (rg_start r)).
Definition logged D V bl : Z -> list Z :=
  vset (rg_start r) (head1 D bl) (blocks_after V (log_writes r V bl (length bl))).
Definition commit_writes D V bl : list (Z * list Z) :=
  log_writes r V bl (length bl) ++ (rg_start r, head1 D bl) ::
  inst_writes r (logged D V bl) bl (length bl) ++ [(rg_start r, hdr [] 0 (head1 D bl))].

(** The disk is in a state recovery accepts, and would restore [C]. *)
Definition recoverable D (C : Z -> list Z) : Prop :=
  exists bl, blocks_ok r bl /\ on_disk D bl /\ (forall b, ~ in_log r b -> logical D b = C b).

Lemma blocks_ok_nil : blocks_ok r [].
Proof. destruct Hr as (? & ? & ?). split; [constructor|set_solver|unfold LOGSIZE, MAXOPBLOCKS; simpl; lia]. Qed.

Section Commit.
Context D V bl (Hbl : blocks_ok r bl) (Hd : on_disk D []) (Hlen : length (D (rg_start r)) = Z.to_nat BSIZE)
  (Hclean : forall b, b ∉ bl -> V b = D b).

Let n := length bl.
Let D1 := blocks_after D (log_writes r V bl n).
Let D2 := vset (rg_start r) (head1 D bl) D1.

Lemma log_home_only x : ~ in_log r x -> D2 x = D x.
Proof.
  intros Hx. unfold D2, vset. rewrite (proj2 (Z.eqb_neq _ _)) by (intros ->; apply Hx, start_in).
  apply blocks_after_out. by eapply home_not_log.
Qed.

Lemma committed_header : on_disk D2 bl.
Proof.
  destruct (header_of_hdr bl (D (rg_start r))) as [H0 H1]; [|intros b Hb; by apply (bk_home _ _ Hbl)|done|].
  { destruct (bk_fits _ _ Hbl). lia. }
  split; unfold D2, vset; rewrite Z.eqb_refl; done.
Qed.

(** Once the header is written the transaction is durable. *)
Lemma committed_logical b : ~ in_log r b -> logical D2 b = V b.
Proof.
  intros Hb. pose proof committed_header as Hh. pose proof (bk_nodup _ _ Hbl) as N.
  destruct (decide (b ∈ bl)) as [(j & Hj)%list_elem_of_lookup|Hn].
  - rewrite (logical_in D2 bl j) by done. unfold D2, vset.
    rewrite (proj2 (Z.eqb_neq _ _)) by apply log_block_start. unfold D1. apply log_in; [done|].
    apply lookup_lt_Some in Hj. unfold n. lia.
  - rewrite (logical_out D2 bl), log_home_only by done. symmetry. by apply Hclean.
Qed.

Lemma logged_log j : (j < n)%nat -> logged D V bl (log_block r j) = D2 (log_block r j).
Proof.
  intros Hj. destruct (lookup_lt_is_Some_2 bl j Hj) as [b Hb]. unfold logged, D2, D1, vset.
  rewrite (proj2 (Z.eqb_neq _ _)) by apply log_block_start. by rewrite !(log_in _ _ _ _ j b) by (done || unfold n in *; lia).
Qed.

Lemma inst_writes_ext V1 V2 k :
  (k <= n)%nat -> (forall j, (j < n)%nat -> V1 (log_block r j) = V2 (log_block r j)) -> inst_writes r V1 bl k = inst_writes r V2 bl k.
Proof.
  intros Hk H. unfold inst_writes. apply list_fmap_ext. intros i j Hij. apply lookup_seq in Hij as [-> ?].
  rewrite H by lia. done.
Qed.

Lemma take_inst V1 k m : take m (inst_writes r V1 bl k) = inst_writes r V1 bl (m `min` k).
Proof. unfold inst_writes. by rewrite <- fmap_take, take_seq. Qed.

Lemma take_logw k m : take m (log_writes r V bl k) = log_writes r V bl (m `min` k).
Proof. unfold log_writes. by rewrite <- fmap_take, take_seq. Qed.

Lemma length_inst V1 k : length (inst_writes r V1 bl k) = k.
Proof. unfold inst_writes. by rewrite length_fmap, length_seq. Qed.

Lemma length_logw k : length (log_writes r V bl k) = k.
Proof. unfold log_writes. by rewrite length_fmap, length_seq. Qed.

Lemma install_stage k b :
  (k <= n)%nat -> ~ in_log r b ->
  let D3 := blocks_after D2 (inst_writes r (logged D V bl) bl k) in on_disk D3 bl /\ logical D3 b = V b.
Proof.
  intros Hk Hb. rewrite (inst_writes_ext _ D2) by (done || apply logged_log).
  destruct (install_prefix D2 bl k b committed_header Hbl Hk) as [H1 H2].
  split; [exact H1|]. rewrite H2 by done. by apply committed_logical.
Qed.

Lemma finished x : ~ in_log r x ->
  blocks_after D (commit_writes D V bl) x = V x.
Proof.
  intros Hx. unfold commit_writes. rewrite blocks_after_app. cbn [blocks_after]. fold n D1 D2. rewrite blocks_after_app. cbn [blocks_after].
  rewrite (proj2 (Z.eqb_neq _ _)) by (intros ->; apply Hx, start_in). rewrite (inst_writes_ext _ D2) by (done || apply logged_log).
  rewrite <- committed_logical by done. unfold logical. cbv zeta. by rewrite (od_bl _ _ committed_header).
Qed.

Lemma finished_header : on_disk (blocks_after D (commit_writes D V bl)) [].
Proof.
  unfold commit_writes. rewrite app_comm_cons, app_assoc.
  destruct (header_of_hdr [] (head1 D bl)) as [H0 H1].
  { done. } { set_solver. } { apply hdr_len; [|done]. destruct (bk_fits _ _ Hbl). lia. }
  split; rewrite blocks_after_app; cbn [blocks_after]; rewrite Z.eqb_refl; done.
Qed.

(** Whatever prefix of commit()'s writes reaches the disk, recovery restores
    the old contents of every block or the new contents of every block. *)
Lemma commit_prefix m :
  let D' := blocks_after D (take m (commit_writes D V bl)) in recoverable D' D \/ recoverable D' V.
Proof.
  intros D'. unfold D', commit_writes. rewrite take_app, take_logw. rewrite length_logw.
  destruct (m - length bl)%nat as [|m1] eqn:E1.
  { left. cbn [take]. rewrite app_nil_r. exists []. split; [apply blocks_ok_nil|].
    assert (Hk : (m `min` length bl <= length bl)%nat) by lia.
    split; [apply (log_prefix D V bl _ (-1) Hd Hbl Hk); destruct Hr as (? & ? & ?); unfold in_log; lia|].
    intros b Hb. by apply (log_prefix D V bl _ b Hd Hbl Hk). }
  right. rewrite (Nat.min_r m) by lia. cbn [take]. rewrite blocks_after_app. cbn [blocks_after]. fold n D1 D2.
  rewrite take_app, take_inst. rewrite length_inst.
  destruct (m1 - n)%nat as [|m2] eqn:E2.
  - cbn [take]. rewrite app_nil_r. exists bl. assert (Hk : (m1 `min` n <= n)%nat) by lia.
    assert (Hm : ~ in_log r (-1)) by (destruct Hr as (? & ? & ?); unfold in_log; lia).
    split; [done|]. split; [exact (proj1 (install_stage _ (-1) Hk Hm))|]. intros b Hb. by apply install_stage.
  - rewrite (Nat.min_r m1) by lia. cbn [take]. rewrite take_nil. exists []. split; [apply blocks_ok_nil|].
    pose proof finished_header as Hf. pose proof finished as Hx. unfold commit_writes in Hf, Hx.
    rewrite !blocks_after_app in Hf. cbn [blocks_after] in Hf. fold n D1 D2 in Hf.
    split; [exact Hf|]. intros b Hb. rewrite (logical_out _ [] b Hf) by set_solver.
    specialize (Hx b Hb). rewrite blocks_after_app in Hx. cbn [blocks_after] in Hx. exact Hx.
Qed.

End Commit.

End Crash.

(** ** commit() *)

(** Only the log, the cache and the disk differ. *)
Definition log_frame (s s' : kern) : Prop :=
  s' = set_k_log (k_log s') (set_k_disk (k_disk s') (set_k_bcache (k_bcache s') s)).

Lemma log_frame_refl s : log_frame s s.
Proof. by destruct s. Qed.

Lemma log_frame_trans s1 s2 s3 : log_frame s1 s2 -> log_frame s2 s3 -> log_frame s1 s3.
Proof. unfold log_frame. intros -> ->. done. Qed.

Lemma log_frame_bd s s' : bd_frame s s' -> log_frame s s'.
Proof. unfold bd_frame, log_frame. intros ->. by destruct s. Qed.

Lemma log_frame_log lg s : log_frame s (set_k_log lg s).
Proof. by destruct s. Qed.

#[export] Hint Resolve log_frame_refl log_frame_bd log_frame_log : kernel.

Lemma bio_ok_log pid s lg V X L : bio_ok pid s V X L -> bio_ok pid (set_k_log lg s) V X L.
Proof. by intros []. Qed.

Lemma up_log_run c s f : up_log f (c, s) = Ret tt (c, set_k_log (f (k_log s)) s).
Proof. done. Qed.

Lemma log_at_clear r lg bl : log_at r lg bl -> log_at r (set_n 0 lg) [].
Proof. by intros []. Qed.

Lemma bio_clean pid s V : bio_ok pid s V ∅ ∅ -> forall x, disk_get (k_disk s) x = V x.
Proof. intros B x. symmetry. apply (bo_clean _ _ _ _ _ B); [set_solver|]. intros j. by rewrite lookup_empty. Qed.

Section CommitRun.
Context {BD : BlockDev} {BO : BlockDevOk BD} (r : region) (Hr : region_ok r).

Lemma start_unpinned bl : blocks_ok r bl -> rg_start r ∉ bl.
Proof. intros H Hin. apply (bk_home _ _ H) in Hin as [_ Hn]. by apply Hn, start_in. Qed.

Lemma commit_wp pid s V bl c i (Q : unit -> ctx * kern -> Prop) :
  bio_ok pid s V (list_to_set bl) ∅ -> kctx c i pid -> log_at r (k_log s) bl -> blocks_ok r bl ->
  let D := disk_get (k_disk s) in
  let W := if bool_decide (bl = []) then [] else commit_writes r D V bl in
  (forall c' s', kctx c' i pid -> log_frame s s' -> k_disk s' = disk_app W (k_disk s) ->
    k_log s' = set_n 0 (k_log s) -> bio_ok pid s' (disk_get (k_disk s')) ∅ ∅ -> Q tt (c', s')) ->
  wp bd_env commit Q (c, s).
Proof.
  intros B Hc Hlg Hbl D W HQ. unfold commit. eapply wp_step; [apply ld_log_run|]. rewrite (la_n _ _ _ Hlg).
  destruct (decide (bl = [])) as [->|Hne].
  { change (0 <? Z.of_nat (length (@nil Z))) with false. apply wp_ret, HQ; [done|auto with kernel| | |].
    - unfold W. by rewrite bool_decide_true, disk_app_nil.
    - pose proof (la_n _ _ _ Hlg) as E. destruct (k_log s) as [? ? ? ? ? ? [n bk]]. simpl in E. unfold set_n. simpl. by rewrite E.
    - eapply bio_ok_ext; [|exact B]. by eapply bio_clean. }
  rewrite (proj2 (Z.ltb_lt 0 _)) by (destruct bl; [done|simpl; lia]).
  unfold W in HQ. rewrite bool_decide_false in HQ by done. clear W.
  assert (HVs : V (rg_start r) = D (rg_start r)).
  { apply (bo_clean _ _ _ _ _ B); [rewrite elem_of_list_to_set; by apply start_unpinned|]. intros j. by rewrite lookup_empty. }
  apply wp_bind. apply (write_log_wp r Hr pid s V _ bl c i _ B Hc Hlg Hbl eq_refl). intros c1 s1 Hc1 F1 D1 B1.
  apply wp_bind. apply (write_head_wp r Hr pid s1 _ _ bl c1 i _ B1 Hc1); [by rewrite F1|done|by eapply size_bl|].
  intros c2 s2 Hc2 F2 D2 B2.
  assert (HV1 : blocks_after V (log_writes r V bl (length bl)) (rg_start r) = D (rg_start r)).
  { rewrite blocks_after_out; [done|]. unfold log_writes. rewrite <- list_fmap_compose.
    intros (j & E & _)%list_elem_of_fmap. by apply (log_block_start r j). }
  rewrite HV1 in D2, B2. fold (head1 r D bl) in D2, B2. fold (logged r D V bl) in B2.
  apply wp_bind. apply (install_trans_wp r Hr false pid s2 _ _ bl c2 i _ B2 Hc2); [by rewrite F2, F1|done|done|].
  intros c3 s3 Hc3 F3 D3 B3. eapply wp_step; [apply up_log_run|].
  assert (EL : k_log s3 = k_log s) by (by rewrite F3, F2, F1).
  apply (bio_ok_log _ _ (set_n 0 (k_log s3))) in B3.
  apply (write_head_wp r Hr pid _ _ ∅ [] c3 i _ B3 Hc3).
  { simpl. rewrite EL. by eapply log_at_clear. } { by apply blocks_ok_nil. } { rewrite size_empty. unfold NBUF, MAXOPBLOCKS. lia. }
  intros c4 s4 Hc4 F4 D4 B4.
  assert (HV3 : blocks_after (logged r D V bl) (inst_writes r (logged r D V bl) bl (length bl)) (rg_start r) = head1 r D bl).
  { rewrite inst_out; [unfold logged, vset; by rewrite Z.eqb_refl|by apply start_unpinned|done]. }
  rewrite HV3 in D4, B4. apply HQ; [done| | | |].
  - eapply log_frame_trans; [by apply log_frame_bd, F1|]. eapply log_frame_trans; [by apply log_frame_bd, F2|].
    eapply log_frame_trans; [by apply log_frame_bd, F3|]. eapply log_frame_trans; [|by apply log_frame_bd, F4]. auto with kernel.
  - rewrite D4. simpl. rewrite D3, D2, D1, !disk_app_app. unfold commit_writes. done.
  - rewrite F4. simpl. by rewrite EL.
  - eapply bio_ok_ext; [|exact B4]. by eapply bio_clean.
Qed.

Lemma log_lk_get s : get (comp k_log_l lg_lock_l) s = Some (lg_lock (k_log s)).
Proof. done. Qed.

Lemma log_lk_put s lk : put (comp k_log_l lg_lock_l) lk s = set_k_log (set_lg_lock lk (k_log s)) s.
Proof. done. Qed.

(** Taking and dropping log.lock. *)
Lemma log_acquire c s :
  lock_free (lg_lock (k_log s)) ->
  acquire log_lk (c, s) = Ret tt (pushed c, set_k_log (set_lg_lock (held (lg_lock (k_log s)) (c_id (cx_cpu c))) (k_log s)) s).
Proof. intros H. unfold log_lk. by rewrite (acquire_S (comp k_log_l lg_lock_l) c s (lg_lock (k_log s)) eq_refl H). Qed.

Lemma log_release c c1 s lk :
  cpu_ok (cx_cpu c) -> cx_cpu c1 = push_cpu (cx_cpu c) -> lock_free lk -> lg_lock (k_log s) = held lk (c_id (cx_cpu c)) ->
  release log_lk (c1, s) = Ret tt (set_cx_cpu (settle (cx_cpu c)) c1, set_k_log (set_lg_lock lk (k_log s)) s).
Proof.
  intros H1 H2 H3 H4. unfold log_lk. rewrite (release_S (comp k_log_l lg_lock_l) c c1 s lk H1 H2 H3); [done|].
  by rewrite log_lk_get, H4.
Qed.

Lemma wake_pushed ch c : cpu_ok (cx_cpu c) -> cx_cpu (wake_ctx ch (pushed c)) = push_cpu (cx_cpu c).
Proof.
  intros H. simpl. change (settle (push_cpu (cx_cpu c))) with (cx_cpu (settled (pushed c))). by rewrite settled_pushed.
Qed.

(** The last end_op() commits what the transaction logged. *)
Lemma end_op_wp pid s V bl c i (Q : unit -> ctx * kern -> Prop) :
  bio_ok pid s V (list_to_set bl) ∅ -> kctx c i pid -> log_at r (k_log s) bl -> blocks_ok r bl ->
  lock_free (lg_lock (k_log s)) -> lg_outstanding (k_log s) = 1 -> lg_committing (k_log s) = false ->
  let D := disk_get (k_disk s) in
  let W := if bool_decide (bl = []) then [] else commit_writes r D V bl in
  (forall c' s', kctx c' i pid -> log_frame s s' -> k_disk s' = disk_app W (k_disk s) ->
    k_log s' = set_lg_outstanding 0 (set_n 0 (k_log s)) -> bio_ok pid s' (disk_get (k_disk s')) ∅ ∅ -> Q tt (c', s')) ->
  wp bd_env end_op Q (c, s).
Proof.
  intros B Hc Hlg Hbl Hf Ho Hcm D W HQ. unfold end_op. pose proof (co_cpu _ _ _ (kc_ok _ _ _ Hc)) as Hcp.
  eapply wp_step; [by apply log_acquire|]. eapply wp_step; [apply up_log_run|]. eapply wp_step; [apply ld_log_run|].
  destruct (k_log s) as [lk st sz out com dv lh] eqn:EL. simpl in Ho, Hcm, Hf. subst out com. cbn [k_log set_k_log set_lg_lock
    set_lg_outstanding lg_lock lg_start lg_size lg_outstanding lg_committing lg_dev lg_lh].
  change (1 - 1 =? 0) with true. cbn match.
  eapply wp_step; [reflexivity|]. eapply wp_step; [by apply (log_release c (pushed c) _ lk)|]. cbn match.
  assert (Hs1 : forall x, x = set_k_log (Log lk st sz 0 true dv lh) s -> log_frame s x) by (intros x ->; auto with kernel).
  set (s1 := set_k_log _ _). specialize (Hs1 s1 eq_refl). change (set_cx_cpu (settle (cx_cpu c)) (pushed c)) with (settled c).
  apply wp_bind. apply (commit_wp pid s1 V bl (settled c) i); [by repeat apply bio_ok_log|auto with kernel|by destruct Hlg|done|].
  intros c2 s2 Hc2 F2 D2 L2 B2. pose proof (co_cpu _ _ _ (kc_ok _ _ _ Hc2)) as Hcp2.
  eapply wp_step; [apply log_acquire; by rewrite L2|]. eapply wp_step; [apply up_log_run|].
  eapply wp_step; [apply (wakeup_run ChLog (pushed c2) _ i pid), ctx_ok_pushed, Hc2|].
  eapply wp_run; [apply (log_release c2 _ _ lk Hcp2); [by apply wake_pushed|done|by rewrite L2]|].
  apply HQ; [by apply (kctx_wake ChLog c2)| | | |].
  - eapply log_frame_trans; [exact Hs1|]. eapply log_frame_trans; [exact F2|by destruct s2].
  - exact D2.
  - simpl. by rewrite L2.
  - by repeat apply bio_ok_log.
Qed.

End CommitRun.

(** ** Recovery *)

Section Recover.
Context {BD : BlockDev} {BO : BlockDevOk BD} (r : region) (Hr : region_ok r).

(** log.start, log.size and log.dev as initlog() sets them. *)
Record log_base (lg : log) : Prop := {
  lb_start : lg_start lg = rg_start r;
  lb_size : lg_size lg = rg_size r;
  lb_dev : lg_dev lg = ROOTDEV;
  lb_len : length (lh_block (lg_lh lg)) = Z.to_nat LOGSIZE
}.

Lemma st_block_run c s i v :
  0 <= i < LOGSIZE ->
  st_block i v (c, s) = Ret tt (c, set_k_log (set_lg_lh (set_lh_block (<[Z.to_nat i := v]> (lh_block (lg_lh (k_log s)))) (lg_lh (k_log s))) (k_log s)) s).
Proof. intros H. unfold st_block. by rewrite (proj2 (Z.leb_le 0 i)), (proj2 (Z.ltb_lt i _)) by lia. Qed.

Lemma read_head_wp pid s V bl c i (Q : unit -> ctx * kern -> Prop) :
  bio_ok pid s V ∅ ∅ -> kctx c i pid -> log_base (k_log s) -> on_disk r V bl -> Z.of_nat (length bl) <= LOGSIZE ->
  (forall c' s', kctx c' i pid -> log_frame s s' -> k_disk s' = k_disk s ->
    (exists lh, k_log s' = set_lg_lh lh (k_log s)) -> log_at r (k_log s') bl ->
    bio_ok pid s' V ∅ ∅ -> Q tt (c', s')) ->
  wp bd_env read_head Q (c, s).
Proof.
  intros B Hc Hlb Hod Hfit HQ. unfold read_head. eapply wp_step; [apply ld_log_run|].
  rewrite (lb_dev _ Hlb), (lb_start _ Hlb). change (u32 ROOTDEV) with ROOTDEV.
  rewrite (u32_block (rg_start r)) by (destruct Hr as (? & ? & ?); lia).
  apply wp_bind. apply (bread_wp pid s V ∅ ∅ (rg_start r) c i); [done|done|by intros j|right; rewrite size_empty, map_size_empty; unfold NBUF, MAXOPBLOCKS; lia|].
  intros b bf c1 Hc1 _ Hb0 Hok s1 B1. destruct Hok as (_ & Hlen & _ & _ & _ & Hdat & _).
  assert (Hb1 : bufs s1 !! b = Some bf) by (destruct Hb0 as [z Hz]; by eapply bufs_insert_eq).
  eapply wp_step; [by apply ld_buf_run|]. rewrite Hdat, (od_n _ _ _ Hod). eapply wp_step; [apply up_log_run|].
  eapply wp_step; [apply ld_log_run|]. cbn [k_log set_k_log]. change (k_log s1) with (k_log s).
  change (lh_n (lg_lh (set_n (Z.of_nat (length bl)) (k_log s)))) with (Z.of_nat (length bl)).
  set (lgk := fun bk => set_lg_lh (Logheader (Z.of_nat (length bl)) bk) (k_log s)).
  apply wp_bind. apply (wp_for_range _ _ _ (fun k w => exists bk, w = (c1, set_k_log (lgk bk) s1) /\
    length bk = Z.to_nat LOGSIZE /\ take (Z.to_nat k) bk = take (Z.to_nat k) bl)).
  - lia.
  - exists (lh_block (lg_lh (k_log s))). split_and!; [done|apply Hlb|done].
  - intros k w Hk (bk & -> & Hbk & Htk). eapply wp_step; [by apply ld_buf_run|].
    eapply wp_run; [apply st_block_run; lia|].
    exists (<[Z.to_nat k := hdr_int (b_data bf) (k + 1)]> bk). split_and!; [done|by rewrite length_insert|].
    replace (Z.to_nat (k + 1)) with (S (Z.to_nat k)) by lia.
    assert (E : bl !! Z.to_nat k = Some (hdr_int (b_data bf) (k + 1))).
    { rewrite Hdat, <- (od_bl _ _ _ Hod) at 1. unfold header_of. rewrite (od_n _ _ _ Hod), Nat2Z.id.
      rewrite list_lookup_fmap, lookup_seq_lt by lia. simpl. by rewrite Z2Nat.id by lia. }
    rewrite (take_S_r bl _ _ E), (take_S_r _ _ (hdr_int (b_data bf) (k + 1))).
    + by rewrite take_insert_ge, Htk.
    + apply list_lookup_insert_eq. lia.
  - intros w (bk & -> & Hbk & Htk). rewrite Nat2Z.id, (take_ge bl) in Htk by done.
    assert (HL : (<[b := rg_start r]> ∅ : gmap nat Z) !! b = Some (rg_start r)) by apply lookup_insert_eq.
    destruct (brelse_run pid (set_k_log (lgk bk) s1) V ∅ _ b (rg_start r) c1 i (bio_ok_log _ _ _ _ _ _ B1) Hc1 HL) as (c2 & bc & R & Hc2 & B2).
    { right. symmetry. by apply (bio_clean _ _ _ B). }
    eapply wp_run; [exact R|]. rewrite delete_insert_id in B2 by apply lookup_empty.
    apply HQ; [done|by destruct s|done|by eexists| |done]. destruct Hlb. by split.
Qed.

(** The writes of recovery, and what the disk holds after them. *)
Definition recover_writes (D : Z -> list Z) (bl : list Z) : list (Z * list Z) :=
  inst_writes r D bl (length bl) ++ [(rg_start r, hdr [] 0 (D (rg_start r)))].

Lemma recover_prefix D bl m :
  blocks_ok r bl -> on_disk r D bl -> length (D (rg_start r)) = Z.to_nat BSIZE ->
  recoverable r (blocks_after D (take m (recover_writes D bl))) (logical r D).
Proof.
  intros Hbl Hod Hlen. unfold recover_writes. rewrite take_app, length_inst, take_inst.
  destruct (m - length bl)%nat as [|m1] eqn:E.
  - cbn [take]. rewrite app_nil_r. exists bl. assert (Hk : (m `min` length bl <= length bl)%nat) by lia.
    split; [done|]. split; [exact (proj1 (install_prefix r Hr D bl _ 0 Hod Hbl Hk))|].
    intros b Hb. exact (proj2 (install_prefix r Hr D bl _ b Hod Hbl Hk) Hb).
  - rewrite (Nat.min_r m) by lia. cbn [take]. rewrite take_nil, blocks_after_app. cbn [blocks_after].
    exists []. split; [by apply blocks_ok_nil|].
    destruct (header_of_hdr [] (D (rg_start r))) as [H0 H1]; [done|set_solver|done|].
    match goal with |- on_disk r ?d [] /\ _ => assert (Hd : on_disk r d []) end.
    { split; rewrite Z.eqb_refl; done. }
    split; [done|]. intros b Hb. rewrite (logical_out r _ [] b Hd) by set_solver.
    rewrite (proj2 (Z.eqb_neq _ _)) by (intros ->; apply Hb, start_in, Hr).
    unfold logical. cbv zeta. by rewrite (od_bl _ _ _ Hod).
Qed.

Lemma recover_done D bl :
  blocks_ok r bl -> on_disk r D bl -> length (D (rg_start r)) = Z.to_nat BSIZE ->
  let D' := blocks_after D (recover_writes D bl) in
  on_disk r D' [] /\ forall b, ~ in_log r b -> D' b = logical r D b.
Proof.
  intros Hbl Hod Hlen. cbv zeta. unfold recover_writes. rewrite blocks_after_app. cbn [blocks_after].
  destruct (header_of_hdr [] (D (rg_start r))) as [H0 H1]; [done|set_solver|done|].
  split; [split; rewrite Z.eqb_refl; done|]. intros b Hb.
  rewrite (proj2 (Z.eqb_neq _ _)) by (intros ->; apply Hb, start_in, Hr). unfold logical. cbv zeta. by rewrite (od_bl _ _ _ Hod).
Qed.

Lemma recover_wp pid s V bl c i (Q : unit -> ctx * kern -> Prop) :
  bio_ok pid s V ∅ ∅ -> kctx c i pid -> log_base (k_log s) -> on_disk r V bl -> blocks_ok r bl ->
  (forall c' s', kctx c' i pid -> log_frame s s' -> k_disk s' = disk_app (recover_writes V bl) (k_disk s) ->
    (exists lh, k_log s' = set_lg_lh lh (k_log s)) -> log_at r (k_log s') [] ->
    bio_ok pid s' (disk_get (k_disk s')) ∅ ∅ -> Q tt (c', s')) ->
  wp bd_env recover_from_log Q (c, s).
Proof.
  intros B Hc Hlb Hod Hbl HQ. unfold recover_from_log. apply wp_bind.
  apply (read_head_wp pid s V bl c i _ B Hc Hlb Hod); [destruct (bk_fits _ _ Hbl); lia|].
  intros c1 s1 Hc1 F1 D1 (lh & Hlh) L1 B1. apply wp_bind.
  apply (install_trans_wp r Hr true pid s1 V ∅ bl c1 i _ B1 Hc1 L1 Hbl eq_refl). intros c2 s2 Hc2 F2 D2 B2.
  eapply wp_step; [apply up_log_run|]. assert (EL : k_log s2 = k_log s1) by (by rewrite F2).
  apply (bio_ok_log _ _ (set_n 0 (k_log s2))) in B2.
  apply (write_head_wp r Hr pid _ _ ∅ [] c2 i _ B2 Hc2).
  { simpl. rewrite EL. by eapply log_at_clear. } { by apply blocks_ok_nil. } { rewrite size_empty. unfold NBUF, MAXOPBLOCKS. lia. }
  intros c3 s3 Hc3 F3 D3 B3.
  assert (HV : blocks_after V (inst_writes r V bl (length bl)) (rg_start r) = V (rg_start r)) by (apply inst_out; [by apply start_unpinned|done]).
  rewrite HV in D3, B3. apply HQ; [done| | | | |].
  - eapply log_frame_trans; [exact F1|]. eapply log_frame_trans; [by apply log_frame_bd, F2|].
    eapply log_frame_trans; [|by apply log_frame_bd, F3]. auto with kernel.
  - rewrite D3. simpl. by rewrite D2, D1, disk_app_app.
  - exists (set_lh_n 0 lh). rewrite F3. simpl. by rewrite EL, Hlh.
  - rewrite F3. simpl. rewrite EL. by eapply log_at_clear.
  - eapply bio_ok_ext; [|exact B3]. by eapply bio_clean.
Qed.

End Recover.
