(* ===== verification/LogOps.v ===== *)
(** * Transactions: begin_op(), log_write(), end_op()

    What each of them does to log, and the crash-safety theorems.  The
    reservation of log space is in [LogSpace]. *)

From stdpp Require Import base numbers list list_numbers gmap strings sets fin_sets relations.
From Stdlib Require Import ZArith Lia.
From S2P Require Import Prelude.
From S2P Require Import Machine.
From S2P Require Import Spinlock.
From S2P Require Import Mem.
From S2P Require Import Kalloc.
From S2P Require Import Kern.
From S2P Require Import Sched.
From S2P Require Import SleepLk.
From S2P Require Import Bio.
From S2P Require Import Log.
From S2P Require Import LogSpec.

Local Open Scope Z_scope.

(** ** Runs of the critical sections *)

(** The condition begin_op() waits on. *)
Definition must_wait (lg : log) : bool :=
  lg_committing lg || (LOGSIZE <? lh_n (lg_lh lg) + (lg_outstanding lg + 1) * MAXOPBLOCKS).

Definition op_begun (lg : log) : log := set_lg_outstanding (lg_outstanding lg + 1) lg.

Lemma begin_op_run c s :
  cpu_ok (cx_cpu c) -> (0 < cx_fuel c)%nat -> lock_free (lg_lock (k_log s)) -> must_wait (k_log s) = false ->
  begin_op (c, s) = Ret tt (settled c, set_k_log (op_begun (k_log s)) s).
Proof.
  intros Hc Hfu Hf Hw. unfold begin_op. rewrite (bind_ret _ _ _ _ _ (log_acquire c s Hf)).
  set (s1 := set_k_log _ s).
  assert (W : while begin_wait (sleep ChLog log_lk) (pushed c, s1) = Ret tt (pushed c, s1)).
  { unfold while. cbn [fst pushed set_cx_cpu cx_fuel]. destruct (cx_fuel c) as [|n]; [lia|]. cbn [while_fuel].
    assert (E : begin_wait (pushed c, s1) = Ret false (pushed c, s1)) by (rewrite <- Hw; done).
    by rewrite (bind_ret _ _ _ _ _ E). }
  rewrite (bind_ret _ _ _ _ _ W), (bind_ret _ _ _ _ _ (up_log_run _ _ _)).
  rewrite (log_release c (pushed c) _ (lg_lock (k_log s))); [|done..].
  done.
Qed.

(** When there is no room the caller goes to sleep on the log, which stays as
    it was. *)
Lemma begin_op_waits c s i p :
  ctx_ok c i (p_pid p) -> cx_procs c !! i = Some p -> c_noff (cx_cpu c) = 0 -> (0 < cx_fuel c)%nat ->
  lock_free (lg_lock (k_log s)) -> must_wait (k_log s) = true ->
  exists k, begin_op (c, s) = Swtch (set_proc i (asleep ChLog (c_id (cx_cpu c)) p) (pushed c), s) k.
Proof.
  intros Hc Hp Hn Hfu Hf Hw. unfold begin_op. rewrite (bind_ret _ _ _ _ _ (log_acquire c s Hf)).
  set (s1 := set_k_log _ s).
  destruct (sleep_suspends (comp k_log_l lg_lock_l) ChLog (pushed c) s1 i p (held (lg_lock (k_log s)) (c_id (cx_cpu c)))) as (k & Hk & _).
  { split_and!; [apply Hc|simpl; lia|done]. }
  { done. } { by eapply (Forall_lookup_1 _ _ _ _ (co_locks _ _ _ Hc)). } { done. } { done. }
  assert (Hs : put (comp k_log_l lg_lock_l) (unheld (held (lg_lock (k_log s)) (c_id (cx_cpu c)))) s1 = s).
  { rewrite log_lk_put. change (unheld (held (lg_lock (k_log s)) (c_id (cx_cpu c)))) with (unheld (lg_lock (k_log s))).
    rewrite unheld_free by done. unfold s1. destruct s as [? ? lg]. simpl. by destruct lg. }
  fold log_lk in Hk. destruct (cx_fuel c) as [|n] eqn:En; [lia|]. eexists. unfold mbind at 1, K_bind at 1. unfold while.
  cbn [fst pushed set_cx_cpu cx_fuel]. rewrite En. cbn [while_fuel]. fold (pushed c).
  assert (E : begin_wait (pushed c, s1) = Ret true (pushed c, s1)) by (rewrite <- Hw; done).
  rewrite (bind_ret _ _ _ _ _ E). unfold mbind at 1, K_bind at 1. rewrite Hk. cbn [obind].
  rewrite Hs. reflexivity.
Qed.

(** log_write() of block [bno], when the log lists the blocks [bl]. *)
Definition log_add (bno : Z) (bl : list Z) : list Z := if bool_decide (bno ∈ bl) then bl else bl ++ [bno].

Lemma log_find_spec bl rest bno i :
  (forall b, b ∈ bl -> 0 <= b < 2 ^ 31) ->
  log_find (bl ++ rest) (length bl) i bno =
    match list_find (fun b => b = bno) bl with Some (j, _) => i + Z.of_nat j | None => i + Z.of_nat (length bl) end.
Proof.
  revert i. induction bl as [|x bl IH]; intros i Hb; cbn [length app log_find list_find].
  { destruct rest; simpl; lia. }
  rewrite u32_small by (pose proof (Hb x ltac:(set_solver)); lia).
  destruct (Z.eqb_spec x bno) as [->|Hne]; [rewrite decide_True by done; lia|]. rewrite decide_False by done.
  rewrite IH by set_solver. destruct (list_find _ bl) as [[j y]|]; simpl; lia.
Qed.

Section End.
Context {BD : BlockDev}.

Lemma wake_ctx_settled ch c : wake_ctx ch (settled c) = wake_ctx ch c.
Proof. unfold wake_ctx, settled. cbn. by rewrite settle_idem, settle_proc. Qed.

(** end_op() of an operation that is not the last, or when the log is empty:
    no block is written, and those that wait for the log wake up. *)
Lemma end_op_quiet c s i pid :
  kctx c i pid -> lock_free (lg_lock (k_log s)) -> lg_committing (k_log s) = false ->
  (lg_outstanding (k_log s) = 1 -> lh_n (lg_lh (k_log s)) = 0) ->
  end_op (c, s) = Ret tt (wake_ctx ChLog c, set_k_log (set_lg_outstanding (lg_outstanding (k_log s) - 1) (k_log s)) s).
Proof.
  intros Hc Hf Hcm Hn. pose proof (co_cpu _ _ _ (kc_ok _ _ _ Hc)) as Hok. unfold end_op.
  rewrite (bind_ret _ _ _ _ _ (log_acquire c s Hf)), (bind_ret _ _ _ _ _ (up_log_run _ _ _)), (bind_ret _ _ _ _ _ (ld_log_run _ _)).
  destruct (k_log s) as [lk st sz out com dv lh] eqn:EL. cbn in Hcm, Hn, Hf. subst com.
  cbn [k_log set_k_log set_lg_lock set_lg_outstanding lg_lock lg_start lg_size lg_outstanding lg_committing lg_dev lg_lh].
  destruct (Z.eqb_spec (out - 1) 0) as [E|E].
  - erewrite bind_ret; [|reflexivity]. erewrite bind_ret; [|by apply (log_release c (pushed c) _ lk)].
    change (set_cx_cpu (settle (cx_cpu c)) (pushed c)) with (settled c). set (s1 := set_k_log _ _).
    assert (Hcom : commit (settled c, s1) = Ret tt (settled c, s1)).
    { unfold commit. rewrite (bind_ret _ _ _ _ _ (ld_log_run _ _)). unfold s1. cbn. rewrite Hn by lia. done. }
    rewrite (bind_ret _ _ _ _ _ Hcom), (bind_ret _ _ _ _ _ (log_acquire (settled c) s1 Hf)), (bind_ret _ _ _ _ _ (up_log_run _ _ _)).
    rewrite (bind_ret _ _ _ _ _ (wakeup_run ChLog (pushed (settled c)) _ i pid (ctx_ok_pushed _ _ _ (ctx_ok_settled _ _ _ (kc_ok _ _ _ Hc))))).
    rewrite (log_release (settled c) _ _ lk); [|by apply settled_ok|by apply wake_pushed, settled_ok|done|done].
    rewrite <- (wake_ctx_settled ChLog c). by destruct s.
  - erewrite bind_ret; [|rewrite (bind_ret _ _ _ _ _ (wakeup_run ChLog (pushed c) _ i pid (ctx_ok_pushed _ _ _ (kc_ok _ _ _ Hc)))); reflexivity].
    erewrite bind_ret; [|apply (log_release c _ _ lk); [done|by apply wake_pushed|done|done]]. cbn match. by destruct s.
Qed.

End End.

Section Write.
Context {BD : BlockDev} {BO : BlockDevOk BD} (r : region).

Lemma log_write_run pid s V L b bno bl c :
  bio_ok pid s V (list_to_set bl) L -> cpu_ok (cx_cpu c) -> L !! b = Some bno ->
  log_at r (k_log s) bl -> (forall x, x ∈ bl -> 0 <= x < 2 ^ 31) -> 0 <= bno < 2 ^ 31 ->
  lock_free (lg_lock (k_log s)) -> 1 <= lg_outstanding (k_log s) ->
  Z.of_nat (length bl) < LOGSIZE -> Z.of_nat (length bl) < rg_size r - 1 ->
  exists s', log_write b (c, s) = Ret tt (settled c, s') /\ log_frame s s' /\ k_disk s' = k_disk s /\
    (exists lh, k_log s' = set_lg_lh lh (k_log s)) /\ log_at r (k_log s') (log_add bno bl) /\
    bio_ok pid s' V (list_to_set (log_add bno bl)) L.
Proof.
  intros B Hc HL Hlg Hb31 Hbno Hf Hout Hn Hsz. pose proof Hlg as [G1 G2 G3 G4 G5 G6].
  destruct (locked_buf _ _ _ _ _ _ _ B HL) as (bf & Hb & _ & _ & _ & E & _).
  unfold log_write. rewrite (bind_ret _ _ _ _ _ (log_acquire c s Hf)). set (s1 := set_k_log _ s).
  rewrite (bind_ret _ _ _ _ _ (ld_log_run (pushed c) s1)).
  change (lh_n (lg_lh (k_log s1))) with (lh_n (lg_lh (k_log s))). change (lg_size (k_log s1)) with (lg_size (k_log s)).
  change (lg_outstanding (k_log s1)) with (lg_outstanding (k_log s)). change (lh_block (lg_lh (k_log s1))) with (lh_block (lg_lh (k_log s))).
  rewrite G4, G2, (proj2 (Z.leb_gt _ _) Hn), (proj2 (Z.leb_gt _ _)), (proj2 (Z.ltb_ge _ _) Hout) by lia. cbn [orb].
  rewrite (bind_ret _ _ _ _ _ (ld_buf_run (pushed c) s1 b bf Hb)), E, Nat2Z.id.
  set (bk := lh_block (lg_lh (k_log s))) in *.
  assert (Ebk : bk = bl ++ drop (length bl) bk) by (rewrite <- G6 at 1; by rewrite take_drop).
  pose proof (log_find_spec bl (drop (length bl) bk) bno 0 Hb31) as Hfind. rewrite <- Ebk in Hfind. rewrite Hfind.
  rewrite i32_small by lia. unfold log_add.
  destruct (list_find (fun b => b = bno) bl) as [[j y]|] eqn:Ef.
  - apply list_find_Some in Ef as (Hj & -> & _). rewrite bool_decide_true by (by eapply list_elem_of_lookup_2).
    pose proof (lookup_lt_Some _ _ _ Hj) as Hjl.
    rewrite (bind_ret _ _ _ _ _ (st_block_run (pushed c) s1 (0 + Z.of_nat j) bno ltac:(lia))).
    rewrite (proj2 (Z.eqb_neq _ _)), mret_bind by lia. rewrite (log_release c (pushed c) _ (lg_lock (k_log s))); [|done..].
    replace (Z.to_nat (0 + Z.of_nat j)) with j by lia.
    assert (Ej : <[j := bno]> bk = bk) by (apply list_insert_id, (log_at_lookup r _ bl); done).
    eexists. split; [reflexivity|]. simpl. fold bk. rewrite Ej. split_and!; [by destruct s|done|by eexists|by split|by repeat apply bio_ok_log].
  - apply list_find_None in Ef. assert (Hnin : bno ∉ bl) by (intros Hin; rewrite Forall_forall in Ef; by apply (Ef bno)).
    rewrite bool_decide_false by done.
    rewrite (bind_ret _ _ _ _ _ (st_block_run (pushed c) s1 (0 + Z.of_nat (length bl)) bno ltac:(lia))).
    rewrite (proj2 (Z.eqb_eq _ _)) by lia. set (s2 := set_k_log _ s1).
    assert (B2 : bio_ok pid s2 V (list_to_set bl) L) by (by repeat apply bio_ok_log).
    destruct (bpin_run pid s2 V (list_to_set bl) L b bno (pushed c) B2 (push_cpu_ok _ Hc) HL) as (bc & R & B3); [set_solver|].
    rewrite settled_pushed in R by done. unfold mbind at 1, K_bind at 1. rewrite (bind_ret _ _ _ _ _ R), up_log_run. cbn [obind].
    rewrite (log_release c (pushed c) _ (lg_lock (k_log s))); [|done..].
    replace (Z.to_nat (0 + Z.of_nat (length bl))) with (length bl) by lia.
    eexists. split; [reflexivity|]. split_and!; [by destruct s|done|by eexists| |].
    + split; simpl; try done.
      * rewrite G4, length_app. simpl. lia.
      * fold bk. by rewrite length_insert.
      * fold bk. rewrite length_app. cbn [length]. rewrite Nat.add_1_r. rewrite (take_S_r _ _ bno).
        -- by rewrite take_insert_ge, G6 by lia.
        -- replace (Z.to_nat (0 + Z.of_nat (length bl))) with (length bl) by lia. apply list_lookup_insert_eq. rewrite G5. lia.
    + eapply (bio_ok_log _ _ _) , bio_ok_log. replace (list_to_set (bl ++ [bno]) : gset Z) with ({[bno]} ∪ list_to_set bl : gset Z) by set_solver. exact B3.
Qed.

End Write.

Definition log_idle (lg : log) : Prop := lg_outstanding lg = 0 /\ lg_committing lg = false /\ lh_n (lg_lh lg) = 0.

(** ** The properties *)

Section Claims.
Context {BD : BlockDev} {BO : BlockDevOk BD} (r : region) (Hr : region_ok r).

(** C1: A transaction is atomic under crashes.  When the last operation calls
    end_op() with the blocks bl logged, the writes ws it makes put the new
    contents V in place and leave an empty log; and if the machine stops after
    any prefix of ws, the log on the disk is one recovery accepts, and
    recovery restores the old contents of every block outside the log or the
    new contents of every one of them. *)
Theorem end_op_crash_safe pid s V bl c i :
  let D := disk_get (k_disk s) in
  bio_ok pid s V (list_to_set bl) ∅ -> kctx c i pid -> log_at r (k_log s) bl -> blocks_ok r bl -> on_disk r D [] ->
  lock_free (lg_lock (k_log s)) -> lg_outstanding (k_log s) = 1 -> lg_committing (k_log s) = false ->
  wp bd_env end_op (fun _ w' => exists ws,
    k_disk (snd w') = disk_app ws (k_disk s) /\
    (forall m, let D' := blocks_after D (take m ws) in recoverable r D' D \/ recoverable r D' V) /\
    (forall b, ~ in_log r b -> disk_get (k_disk (snd w')) b = V b) /\
    on_disk r (disk_get (k_disk (snd w'))) [] /\ log_idle (k_log (snd w')) /\
    bio_ok pid (snd w') (disk_get (k_disk (snd w'))) ∅ ∅) (c, s).
Proof.
  intros D B Hc Hlg Hbl Hod Hf Ho Hcm. apply (end_op_wp r Hr pid s V bl c i _ B Hc Hlg Hbl Hf Ho Hcm).
  intros c' s' Hc' F HD HL B'. eexists. split; [exact HD|]. cbn [snd]. rewrite HD, disk_get_app. fold D.
  assert (Hlen : length (D (rg_start r)) = Z.to_nat BSIZE) by apply (bo_size _ _ _ _ _ B).
  assert (Hclean : forall b, b ∉ bl -> V b = D b).
  { intros b Hb. apply (bo_clean _ _ _ _ _ B); [by rewrite elem_of_list_to_set|]. intros j. by rewrite lookup_empty. }
  assert (Hid : log_idle (k_log s')) by (by rewrite HL).
  rewrite HD, disk_get_app in B'. fold D in B'.
  case_bool_decide as E.
  - subst bl. split_and!; [|intros b _; symmetry; apply Hclean; set_solver|done|done|done].
    intros m. left. rewrite take_nil. exists []. split; [by apply blocks_ok_nil|]. split; [done|].
    intros b Hb. apply (logical_out r _ []); [done|set_solver].
  - split_and!; [|intros b Hb; by apply finished|by apply finished_header|done|done].
    intros m. by apply commit_prefix.
Qed.

(** C12: Recovery is correct and can itself be interrupted.  initlog() on a disk
    whose log lists the blocks bl installs them, empties the log, and changes
    no other block; stopped after any prefix of its writes, it leaves a disk
    from which recovery restores the same contents. *)
Theorem initlog_recovers pid s sb bl c i :
  let D := disk_get (k_disk s) in
  bio_ok pid s D ∅ ∅ -> kctx c i pid -> sb_logstart sb = rg_start r -> sb_nlog sb = rg_size r ->
  length (lh_block (lg_lh (k_log s))) = Z.to_nat LOGSIZE -> on_disk r D bl -> blocks_ok r bl ->
  wp bd_env (initlog ROOTDEV sb) (fun _ w' => exists ws,
    k_disk (snd w') = disk_app ws (k_disk s) /\
    (forall m, recoverable r (blocks_after D (take m ws)) (logical r D)) /\
    (forall b, ~ in_log r b -> disk_get (k_disk (snd w')) b = logical r D b) /\
    on_disk r (disk_get (k_disk (snd w'))) [] /\ log_at r (k_log (snd w')) [] /\
    bio_ok pid (snd w') (disk_get (k_disk (snd w'))) ∅ ∅) (c, s).
Proof.
  intros D B Hc Hst Hsz Hlen Hod Hbl. unfold initlog. change (BSIZE <=? 4 * (1 + LOGSIZE)) with false. cbn match.
  eapply wp_step; [reflexivity|]. eapply wp_step; [apply up_log_run|]. eapply wp_step; [apply up_log_run|].
  eapply wp_step; [apply up_log_run|]. set (s1 := set_k_log _ _).
  assert (B1 : bio_ok pid s1 D ∅ ∅) by (by repeat apply bio_ok_log).
  apply (recover_wp r Hr pid s1 D bl c i _ B1 Hc); [by split|done|done|].
  intros c' s' Hc' F HD _ HL B'. eexists. split; [exact HD|]. cbn [snd]. rewrite HD in *. rewrite disk_get_app in *.
  change (disk_get (k_disk s1)) with D in *. assert (Hl : length (D (rg_start r)) = Z.to_nat BSIZE) by apply (bo_size _ _ _ _ _ B).
  destruct (recover_done r Hr D bl Hbl Hod Hl) as [H1 H2]. split_and!; [|done|done|done|done].
  intros m. by apply recover_prefix.
Qed.

End Claims.


(** ** Concrete runs *)

Definition log30 (size out n : Z) : log := Log lk0 2 size out false ROOTDEV (Logheader n (replicate (Z.to_nat LOGSIZE) 0)).

Definition rg0 : region := Region 2 (LOGSIZE + 1).

Lemma rg0_ok : region_ok rg0.
Proof. unfold region_ok. simpl. unfold LOGSIZE, MAXOPBLOCKS. lia. Qed.

(** A disk on which a crash left one block, 100, committed but not installed. *)
Definition crashed : disk :=
  Disk (fun b => if b =? 2 then hdr [100] 1 (replicate (Z.to_nat BSIZE) 0)
                 else if b =? 3 then replicate (Z.to_nat BSIZE) 65 else replicate (Z.to_nat BSIZE) 0) [].

Definition kern_on (d : disk) (lg : log) : kern := set_k_log lg (set_k_disk d kern0).

Lemma kern_on_bio d lg :
  (forall b, length (disk_get d b) = Z.to_nat BSIZE) ->
  exists bc, bio_ok 1 (set_k_bcache bc (kern_on d lg)) (disk_get d) ∅ ∅.
Proof.
  intros Hd. destruct (binit_run 1 ctx3 (kern_on d lg)) as (bc & _ & B); [apply length_replicate|apply kern0_bufs|done|]. by exists bc.
Qed.

Lemma initlog_recovers_witness : exists bc,
  wp solo (@initlog sync_dev ROOTDEV (set_sb_nlog (LOGSIZE + 1) sb0))
    (fun _ w' => disk_get (k_disk (snd w')) 100 = replicate (Z.to_nat BSIZE) 65)
    (ctx3, set_k_bcache bc (kern_on crashed (log30 0 0 0))).
Proof.
  destruct (kern_on_bio crashed (log30 0 0 0)) as (bc & B).
  { intros b. unfold disk_get. cbn [crashed dk_image dk_writes blocks_after]. repeat case_match; [apply hdr_len; [unfold LOGSIZE, MAXOPBLOCKS; lia|]|..]; apply length_replicate. }
  exists bc. eapply wp_mono.
  - apply (@initlog_recovers sync_dev sync_ok rg0 rg0_ok 1 _ (set_sb_nlog (LOGSIZE + 1) sb0) [100] ctx3 0 B kctx3 eq_refl eq_refl eq_refl).
    + split; vm_compute; reflexivity.
    + split; [apply NoDup_singleton|intros b ->%list_elem_of_singleton; unfold in_log; simpl; unfold LOGSIZE, MAXOPBLOCKS; lia|simpl; unfold LOGSIZE, MAXOPBLOCKS; lia].
  - intros [] [c' s'] (ws & _ & _ & H & _). rewrite H by (unfold in_log; simpl; unfold LOGSIZE, MAXOPBLOCKS; lia). vm_compute. reflexivity.
Defined.

(** A transaction in progress: one operation has begun and logged block 100. *)
Lemma txn_state : exists c s V, kctx c 0 1 /\ bio_ok 1 s V (list_to_set [100]) ∅ /\ log_at rg0 (k_log s) [100] /\
  lock_free (lg_lock (k_log s)) /\ lg_outstanding (k_log s) = 1 /\ lg_committing (k_log s) = false /\
  disk_get (k_disk s) = disk_get (k_disk kern0) /\ V 100 = replicate (Z.to_nat BSIZE) 65.
Proof.
  destruct (kern_on_bio (k_disk kern0) (log30 (LOGSIZE + 1) 1 0)) as (bc & B); [intros; apply length_replicate|].
  set (s0 := set_k_bcache bc _) in *.
  assert (W : wp solo (@bread sync_dev ROOTDEV 100) (fun b w' => exists bf, kctx (fst w') 0 1 /\ bufs (snd w') !! b = Some bf /\
    snd w' = upd_bufs (insert b bf) s0 /\ bio_ok 1 (snd w') (disk_get (k_disk kern0)) ∅ (<[b := 100]> ∅)) (ctx3, s0)).
  { apply (@bread_wp sync_dev sync_ok 1 s0 (disk_get (k_disk kern0)) ∅ ∅ 100 ctx3 0); [done|apply kctx3|by intros j| |].
    - right. rewrite size_empty, map_size_empty. unfold NBUF, MAXOPBLOCKS. lia.
    - intros b bf c' Hc' _ [z Hz] _ s' B'. exists bf. split_and!; [done|by eapply bufs_insert_eq|done|done]. }
  apply wp_solo in W as (b & [c1 s1] & _ & bf & Hc1 & Hb & Es & B1). cbn [fst snd] in Hc1, Hb, Es, B1.
  assert (HL : (<[b := 100]> ∅ : gmap nat Z) !! b = Some 100) by apply lookup_insert_eq.
  set (d := replicate (Z.to_nat BSIZE) 65). pose proof (set_data_ok 1 s1 _ ∅ _ b 100 d bf B1 HL Hb (length_replicate _ _)) as B2.
  set (s2 := upd_bufs _ s1) in *. assert (E2 : k_log s2 = log30 (LOGSIZE + 1) 1 0) by (unfold s2; by rewrite Es).
  destruct (@log_write_run sync_dev sync_ok rg0 1 s2 (vset 100 d (disk_get (k_disk kern0))) _ b 100 [] c1 B2)
    as (s3 & _ & F & HD & (lh & Hlh) & Hlg & B3); try (rewrite E2); try done; [apply Hc1|set_solver|].
  destruct (@brelse_run sync_dev sync_ok 1 s3 _ _ _ b 100 c1 0 B3 Hc1 HL) as (c4 & bc4 & _ & Hc4 & B4); [left; set_solver|].
  rewrite delete_insert_id in B4 by apply lookup_empty.
  exists c4, (set_k_bcache bc4 s3), (vset 100 d (disk_get (k_disk kern0))). cbn [k_log set_k_bcache k_disk]. rewrite Hlh, E2 in *.
  split_and!; try done. rewrite HD. unfold s2. by rewrite Es.
Qed.

Lemma end_op_crash_safe_witness : exists c s V,
  V 100 = replicate (Z.to_nat BSIZE) 65 /\
  wp solo (@end_op sync_dev) (fun _ w' => exists ws, k_disk (snd w') = disk_app ws (k_disk s) /\
    (forall m, recoverable rg0 (blocks_after (disk_get (k_disk s)) (take m ws)) (disk_get (k_disk s)) \/
               recoverable rg0 (blocks_after (disk_get (k_disk s)) (take m ws)) V) /\
    disk_get (k_disk (snd w')) 100 = V 100) (c, s).
Proof.
  destruct txn_state as (c & s & V & Hc & B & Hlg & Hf & Ho & Hcm & HD & HV). exists c, s, V. split; [done|].
  eapply wp_mono.
  - apply (@end_op_crash_safe sync_dev sync_ok rg0 rg0_ok 1 s V [100] c 0 B Hc Hlg); [| |done..].
    + split; [apply NoDup_singleton|intros b ->%list_elem_of_singleton; unfold in_log; simpl; unfold LOGSIZE, MAXOPBLOCKS; lia|simpl; unfold LOGSIZE, MAXOPBLOCKS; lia].
    + rewrite HD. split; vm_compute; reflexivity.
  - intros [] w' (ws & H1 & H2 & H3 & _). exists ws. split_and!; [done|done|]. apply H3. unfold in_log. simpl. unfold LOGSIZE, MAXOPBLOCKS. lia.
Defined.
