(* ===== verification/LogSpace.v ===== *)
(** * Room in the log (kernel/log.c)

    begin_op() admits an operation when the log has room for MAXOPBLOCKS more
    blocks for it and for every operation in progress.  [reserved] is the
    invariant behind it, kept by begin_op(), log_write() and end_op() whatever
    happens to the log while a process sleeps in begin_op(); with it
    log_write() never finds the log full, when the log has LOGSIZE blocks
    besides its header.  With one block less it does. *)

From stdpp Require Import base numbers list list_numbers gmap strings sets fin_sets.
From Stdlib Require Import ZArith Lia.
From S2P Require Import Prelude.
From S2P Require Import Machine.
From S2P Require Import Spinlock.
From S2P Require Import Mem.
From S2P Require Import Kalloc.
From S2P Require Import Kern.
From S2P Require Import Sched.
From S2P Require Import SleepLk.
From S2P Require Import Bio.
From S2P Require Import Log.
From S2P Require Import LogSpec.
From S2P Require Import LogOps.

Local Open Scope Z_scope.

(** ** Reservations

    [us] has one entry for each operation between begin_op() and end_op(): the
    number of blocks it has added to the log. *)

(** The blocks the operations in progress may still add. *)
Definition budget (us : list Z) : Z := foldr (fun u n => MAXOPBLOCKS - u + n) 0 us.

Record reserved (lg : log) (us : list Z) : Prop := {
  rs_out : lg_outstanding lg = Z.of_nat (length us);
  rs_us : Forall (fun u => 0 <= u <= MAXOPBLOCKS) us;
  rs_n : 0 <= lh_n (lg_lh lg);
  rs_room : lh_n (lg_lh lg) + budget us <= LOGSIZE;
  rs_com : lg_committing lg = true -> us = []
}.

Lemma budget_app us vs : budget (us ++ vs) = budget us + budget vs.
Proof. unfold budget. induction us; simpl; lia. Qed.

Lemma budget_insert us i u v : us !! i = Some u -> budget (<[i := v]> us) = budget us + u - v.
Proof.
  intros H. rewrite <- (take_drop_middle us i u H) at 2. rewrite insert_take_drop by (by eapply lookup_lt_Some).
  rewrite !budget_app. unfold budget. simpl. lia.
Qed.

Lemma budget_pos us : Forall (fun u => 0 <= u <= MAXOPBLOCKS) us -> 0 <= budget us.
Proof. unfold budget. induction 1; simpl; lia. Qed.

(** begun operations never count more than their reservation *)
Lemma budget_le us : Forall (fun u => 0 <= u <= MAXOPBLOCKS) us -> budget us <= Z.of_nat (length us) * MAXOPBLOCKS.
Proof. unfold budget, MAXOPBLOCKS. induction 1; simpl length; simpl foldr; lia. Qed.

Lemma budget_lookup us i u :
  Forall (fun u => 0 <= u <= MAXOPBLOCKS) us -> us !! i = Some u -> MAXOPBLOCKS - u <= budget us.
Proof.
  intros H Hi. rewrite <- (take_drop_middle us i u Hi), budget_app in *. apply Forall_app in H as [H1 H2].
  apply Forall_cons in H2 as [_ H2]. pose proof (budget_pos _ H1). pose proof (budget_pos _ H2).
  unfold budget in *. simpl. lia.
Qed.

Lemma reserved_lock lg us lk : reserved lg us -> reserved (set_lg_lock lk lg) us.
Proof. by intros []. Qed.

Lemma reserved_idle lg : log_idle lg -> reserved lg [].
Proof. intros (H1 & H2 & H3). split; [done|done|lia|rewrite H3; unfold budget, LOGSIZE, MAXOPBLOCKS; simpl; lia|by rewrite H2]. Qed.

Lemma reserved_begun lg us : reserved lg us -> must_wait lg = false -> reserved (op_begun lg) (us ++ [0]).
Proof.
  intros [R1 R2 R3 R4 R5] [Hc Hr%Z.ltb_ge]%orb_false_iff. split; simpl; [rewrite length_app; simpl; lia| |done| |by rewrite Hc].
  - apply Forall_app. split; [done|]. constructor; [unfold MAXOPBLOCKS; lia|done].
  - rewrite budget_app. pose proof (budget_le us R2). rewrite R1 in Hr. unfold budget at 2. simpl. lia.
Qed.

Lemma reserved_written lg lh us i u :
  reserved lg us -> us !! i = Some u -> u < MAXOPBLOCKS -> lh_n lh = lh_n (lg_lh lg) + 1 -> reserved (set_lg_lh lh lg) (<[i := u + 1]> us).
Proof.
  intros [R1 R2 R3 R4 R5] Hi Hu Hn. split; simpl in *; [by rewrite length_insert| |lia| |].
  - apply Forall_insert; [done|]. pose proof (Forall_lookup_1 _ _ _ _ R2 Hi). simpl in *. lia.
  - rewrite (budget_insert _ _ _ _ Hi). lia.
  - intros Hc. by apply R5 in Hc as ->.
Qed.

Lemma reserved_absorbed lg lh us : reserved lg us -> lh_n lh = lh_n (lg_lh lg) -> reserved (set_lg_lh lh lg) us.
Proof. intros [R1 R2 R3 R4 R5] Hn. split; simpl in *; try done; lia. Qed.

Lemma reserved_ended lg us i u :
  reserved lg us -> us !! i = Some u -> reserved (set_lg_outstanding (lg_outstanding lg - 1) lg) (delete i us).
Proof.
  intros [R1 R2 R3 R4 R5] Hi. assert (Hl : length (delete i us) = (length us - 1)%nat) by (apply length_delete; eauto).
  pose proof (lookup_lt_Some _ _ _ Hi). split; simpl; [rewrite Hl; lia|by apply Forall_delete|done| |intros Hc; apply R5 in Hc as ->; done].
  rewrite delete_take_drop, budget_app. pose proof (take_drop_middle us i u Hi) as E. rewrite <- E, budget_app in R4. rewrite <- E in R2.
  apply Forall_app in R2 as [_ [Hu _]%Forall_cons]. unfold budget in *. simpl in R4. lia.
Qed.

(** ** begin_op() *)

(** The scheduler resumes process [i]: its lock is held for it, and no other. *)
Definition resumed (i : nat) (c : ctx) : Prop :=
  one_lock i c /\ exists p, cx_procs c !! i = Some p /\ held_by (p_lock p) (c_id (cx_cpu c)).

(** How begin_op() of process [i] goes on from the log [lg] with reservations
    [us].  It returns with the operation counted and a reservation of its own
    added to the others; or it sleeps on the log with log.lock free and the log
    as it was, and goes on in the same way from whatever log and reservations
    there are when it is resumed.  [n] bounds how often it looks. *)
Inductive admits (i : nat) : nat -> log -> list Z -> outcome kern unit -> Prop :=
  | admits_in n lg us c s :
      must_wait lg = false -> k_log s = op_begun lg -> reserved (k_log s) (us ++ [0]) -> admits i n lg us (Ret tt (c, s))
  | admits_sleeps n lg us c s p k :
      must_wait lg = true -> k_log s = lg -> cx_procs c !! i = Some p -> p_state p = SLEEPING -> p_chan p = Some ChLog ->
      (forall c' s' us', resumed i c' -> lock_free (lg_lock (k_log s')) -> reserved (k_log s') us' ->
        admits i n (k_log s') us' (k (c', s'))) ->
      admits i (S n) lg us (Swtch (c, s) k)
  | admits_out lg us : admits i 0 lg us Hang.

(** The loop, with log.lock held. *)
Lemma begin_loop i n : forall lg us c s p,
  one_lock i c -> cx_procs c !! i = Some p -> lock_free (p_lock p) ->
  lock_free (lg_lock lg) -> k_log s = set_lg_lock (held (lg_lock lg) (c_id (cx_cpu c))) lg -> reserved lg us ->
  admits i n lg us ((while_fuel n begin_wait (sleep ChLog log_lk) ;;
    up_log (fun lg => set_lg_outstanding (lg_outstanding lg + 1) lg) ;; release log_lk) (c, s)).
Proof.
  induction n as [|n IH]; intros lg us c s p H1 Hp Hpl Hf Hlg Hres; [apply admits_out|].
  assert (E : begin_wait (c, s) = Ret (must_wait lg) (c, s)) by (unfold begin_wait; rewrite (bind_ret _ _ _ _ _ (ld_log_run c s)), Hlg; done).
  assert (Hlk : lg_lock (k_log s) = held (lg_lock lg) (c_id (cx_cpu c))) by (by rewrite Hlg).
  assert (Hback : unheld (held (lg_lock lg) (c_id (cx_cpu c))) = lg_lock lg) by exact (unheld_free _ Hf).
  unfold mbind at 1, K_bind at 1. cbn [while_fuel]. rewrite (bind_ret _ _ _ _ _ E).
  destruct (must_wait lg) eqn:Hw.
  - destruct (sleep_suspends (comp k_log_l lg_lock_l) ChLog c s i p (held (lg_lock lg) (c_id (cx_cpu c))) H1 Hp Hpl) as (k & Hk & Hr);
      [by rewrite log_lk_get, Hlk|done|]. fold log_lk in Hk, Hr. unfold mbind at 1, K_bind at 1. rewrite Hk. cbn [obind].
    eapply admits_sleeps; [done| |apply set_proc_get; eauto|done|done|].
    { rewrite log_lk_put, Hlg, Hback. by destruct lg. }
    intros c' s' us' [H1' (p' & Hp' & Hh')] Hf' Hres'. rewrite Hr. unfold log_lk.
    rewrite (sleep_resumes (comp k_log_l lg_lock_l) _ c' s' i p' (lg_lock (k_log s')) H1' Hp' Hh' (log_lk_get s') (proj1 Hf')).
    cbn [obind]. fold log_lk. eapply (IH (k_log s') us'); [done|apply set_proc_get; simpl; eauto|done|done|by rewrite log_lk_put|done].
  - unfold mret, K_ret. cbn [obind]. rewrite (bind_ret _ _ _ _ _ (up_log_run _ _ _)). set (s1 := set_k_log _ s). destruct H1 as (_ & Hn & Hi).
    unfold log_lk. rewrite (release_run (inS (comp k_log_l lg_lock_l)) (c, s1) (held (lg_lock lg) (c_id (cx_cpu c)))); [|exact (f_equal Some Hlk)|done|done|unfold hart; simpl; lia].
    assert (Es : k_log (put (comp k_log_l lg_lock_l) (unheld (held (lg_lock lg) (c_id (cx_cpu c)))) s1) = op_begun lg).
    { rewrite log_lk_put, Hback. unfold s1. cbn [k_log set_k_log]. rewrite Hlg. by destruct lg. }
    apply admits_in; [done|exact Es|]. cbn [snd upd_cpu inS put]. rewrite Es. by apply reserved_begun.
Qed.

Lemma begin_op_admits c s i pid us :
  kctx c i pid -> lock_free (lg_lock (k_log s)) -> reserved (k_log s) us -> admits i (cx_fuel c) (k_log s) us (begin_op (c, s)).
Proof.
  intros [Hok Hn Hfu] Hf Hres. destruct (co_pid _ _ _ Hok) as (p & Hp & _). unfold begin_op. rewrite (bind_ret _ _ _ _ _ (log_acquire c s Hf)).
  apply (begin_loop i (cx_fuel c) (k_log s) us (pushed c) _ p); [|done| |done|done|done].
  - split_and!; [apply Hok|simpl; lia|done].
  - by eapply (Forall_lookup_1 _ _ _ _ (co_locks _ _ _ Hok)).
Qed.

(** ** The properties *)

Section Claims.
Context {BD : BlockDev} {BO : BlockDevOk BD} (r : region) (Hr : region_ok r).

Lemma log_write_reserved pid s V L b bno bl c us j u :
  LOGSIZE < rg_size r -> reserved (k_log s) us -> us !! j = Some u -> u < MAXOPBLOCKS ->
  bio_ok pid s V (list_to_set bl) L -> cpu_ok (cx_cpu c) -> L !! b = Some bno -> log_at r (k_log s) bl ->
  (forall x, x ∈ bl -> 0 <= x < 2 ^ 31) -> 0 <= bno < 2 ^ 31 -> lock_free (lg_lock (k_log s)) ->
  exists s', log_write b (c, s) = Ret tt (settled c, s') /\ lock_free (lg_lock (k_log s')) /\
    reserved (k_log s') (if bool_decide (bno ∈ bl) then us else <[j := u + 1]> us) /\
    log_at r (k_log s') (log_add bno bl) /\ bio_ok pid s' V (list_to_set (log_add bno bl)) L.
Proof.
  intros Hsz Hres Hi Hu B Hc HL Hlg H31 Hb Hf. pose proof Hres as [R1 R2 R3 R4 R5].
  pose proof (budget_lookup us j u R2 Hi) as Hbud. pose proof (lookup_lt_Some _ _ _ Hi) as Hlen. rewrite (la_n _ _ _ Hlg) in R4.
  destruct (log_write_run r pid s V L b bno bl c B Hc HL Hlg H31 Hb Hf) as (s' & R & F & HD & (lh & Hlh) & Hlg' & B'); [lia..|].
  pose proof (la_n _ _ _ Hlg) as E. pose proof (la_n _ _ _ Hlg') as E'. exists s'. rewrite Hlh in *. split_and!; [done|done| |done|done].
  unfold log_add in *. cbn in E'. case_bool_decide; [apply reserved_absorbed|apply reserved_written]; try done; rewrite E', E, ?length_app; simpl; lia.
Qed.

(** C35: An operation that begin_op() admitted never overflows the log.  [us]
    lists for every operation in progress how many blocks it added to the log,
    and [reserved] says that the log has room for MAXOPBLOCKS blocks of each.
    initlog() establishes it with no operation in progress.  begin_op() returns
    only with MAXOPBLOCKS blocks reserved for the caller, and otherwise sleeps
    with the log unchanged and log.lock free, however often it is woken and
    whatever the reservations are then.  log_write() by an operation that added
    fewer than MAXOPBLOCKS blocks does not panic, counts the block against that
    operation unless the log has it already, and keeps the invariant.  end_op()
    gives the operation's reservation back; the last one commits, with fewer
    than LOGSIZE blocks in the log, and leaves none.  So in every interleaving of their critical sections the panic is
    never reached by operations within MAXOPBLOCKS, provided that the log has
    LOGSIZE blocks besides its header. *)
Theorem log_space_reserved pid :
  LOGSIZE < rg_size r ->
  (forall s sb bl c i,
    bio_ok pid s (disk_get (k_disk s)) ∅ ∅ -> kctx c i pid -> sb_logstart sb = rg_start r -> sb_nlog sb = rg_size r ->
    length (lh_block (lg_lh (k_log s))) = Z.to_nat LOGSIZE -> on_disk r (disk_get (k_disk s)) bl -> blocks_ok r bl ->
    lg_outstanding (k_log s) = 0 -> lg_committing (k_log s) = false ->
    wp bd_env (initlog ROOTDEV sb) (fun _ w' => reserved (k_log (snd w')) [] /\ lock_free (lg_lock (k_log (snd w')))) (c, s)) /\
  forall s us, reserved (k_log s) us -> lock_free (lg_lock (k_log s)) ->
  (forall c i, kctx c i pid -> admits i (cx_fuel c) (k_log s) us (begin_op (c, s))) /\
  (forall c V L b bno bl j u,
    us !! j = Some u -> u < MAXOPBLOCKS ->
    bio_ok pid s V (list_to_set bl) L -> cpu_ok (cx_cpu c) -> L !! b = Some bno -> log_at r (k_log s) bl ->
    (forall x, x ∈ bl -> 0 <= x < 2 ^ 31) -> 0 <= bno < 2 ^ 31 ->
    exists s', log_write b (c, s) = Ret tt (settled c, s') /\ lock_free (lg_lock (k_log s')) /\
      reserved (k_log s') (if bool_decide (bno ∈ bl) then us else <[j := u + 1]> us) /\
      log_at r (k_log s') (log_add bno bl) /\ bio_ok pid s' V (list_to_set (log_add bno bl)) L) /\
  (forall c i j u, kctx c i pid -> us !! j = Some u -> (1 < length us)%nat ->
    exists c' s', end_op (c, s) = Ret tt (c', s') /\ kctx c' i pid /\ lock_free (lg_lock (k_log s')) /\ reserved (k_log s') (delete j us)) /\
  (forall c i V bl u, us = [u] -> bio_ok pid s V (list_to_set bl) ∅ -> kctx c i pid -> log_at r (k_log s) bl -> blocks_ok r bl ->
    wp bd_env end_op (fun _ w' => reserved (k_log (snd w')) [] /\ lock_free (lg_lock (k_log (snd w')))) (c, s)).
Proof.
  intros Hsz. split; [|intros s us Hres Hf; pose proof Hres as [R1 R2 R3 R4 R5]; split_and!].
  - intros s sb bl c i B Hc H1 H2 H3 H4 H5 H6 H7. unfold initlog. change (BSIZE <=? 4 * (1 + LOGSIZE)) with false. cbn match.
    eapply wp_step; [reflexivity|]. do 3 (eapply wp_step; [apply up_log_run|]). set (s1 := set_k_log _ _).
    assert (B1 : bio_ok pid s1 (disk_get (k_disk s)) ∅ ∅) by (by repeat apply bio_ok_log).
    apply (recover_wp r Hr pid s1 (disk_get (k_disk s)) bl c i _ B1 Hc); [by split|done|done|].
    intros c' s' Hc' F HD (lh & Hlh) HL B'. cbn [snd]. pose proof (la_n _ _ _ HL) as En. rewrite Hlh in *. split; [|done].
    by apply reserved_idle.
  - intros c i Hc. by eapply begin_op_admits.
  - intros. by eapply log_write_reserved.
  - intros c i j u Hc Hj Hl. assert (Hcm : lg_committing (k_log s) = false) by (destruct (lg_committing (k_log s)); [rewrite R5 in Hl by done; simpl in Hl; lia|done]).
    eexists _, _. split; [eapply (end_op_quiet c s i pid Hc Hf Hcm); lia|]. split_and!; [by apply kctx_wake|done|by eapply reserved_ended].
  - intros c i V bl u -> B Hc Hlg Hbl. assert (Hcm : lg_committing (k_log s) = false) by (destruct (lg_committing (k_log s)); [by specialize (R5 eq_refl)|done]).
    apply (end_op_wp r Hr pid s V bl c i _ B Hc Hlg Hbl Hf R1 Hcm). intros c' s' _ _ _ HL _. cbn [snd]. rewrite HL. split; [|done]. by apply reserved_idle.
Qed.

End Claims.

(** ** Three operations *)

(** The kernel section of process [i]. *)
Definition as_proc {A} (i : nat) (m : K kern A) : K kern A := upd_mycpu (set_c_proc (Some i)) ;; m.

Section Three.
Context {BD : BlockDev}.

(** What the file system does with a block it has changed. *)
Definition log_block (bno : Z) : K kern unit :=
  b ← bread ROOTDEV bno;
  log_write b ;;
  brelse b.

(** From start-up: a log area of [nlog] blocks, an operation of each of the
    processes 0, 1 and 2, and then the first [n] of thirty blocks, ten for each
    operation. *)
Definition three_ops (nlog : Z) (n : nat) : K kern unit :=
  binit ;;
  initlog ROOTDEV (set_sb_nlog nlog sb0) ;;
  for_each [0; 1; 2]%nat (fun i => as_proc i begin_op) ;;
  for_each (take n (seqZ 100 30)) (fun b => as_proc (Z.to_nat ((b - 100) / MAXOPBLOCKS)) (log_block b)).

End Three.



(** A full log cannot be committed: its LOGSIZE blocks are all pinned, there are
    only NBUF = LOGSIZE buffers, and commit() needs one for the log block. *)
Lemma full_log_no_buffers :
  (@three_ops sync_dev (LOGSIZE + 1) 30 ;; for_each [0; 1; 2]%nat (fun i => as_proc i (@end_op sync_dev))) (ctx3, kern0) =
    Panic "bget: no buffers".
Proof. vm_compute. reflexivity. Qed.

(** ** A concrete log *)

Lemma log_space_reserved_witness : exists s b s',
  admits 0 1 (k_log s) [0] (begin_op (ctx3, s)) /\
  log_write b (ctx3, s) = Ret tt (settled ctx3, s') /\ reserved (k_log s') [1].
Proof.
  destruct (kern_on_bio (k_disk kern0) (log30 (LOGSIZE + 1) 1 0)) as (bc & B); [intros; apply length_replicate|].
  set (s0 := set_k_bcache bc _) in *.
  pose proof (@bread_wp sync_dev sync_ok 1 s0 (disk_get (k_disk kern0)) ∅ ∅ 100 ctx3 0 (fun b w' => k_log (snd w') = k_log s0 /\
    bio_ok 1 (snd w') (disk_get (k_disk kern0)) ∅ (<[b := 100]> ∅)) B kctx3 ltac:(by intros j)
    ltac:(right; rewrite size_empty, map_size_empty; unfold NBUF, MAXOPBLOCKS; lia) ltac:(done)) as W.
  apply wp_solo in W as (b & [c1 s1] & _ & EL & B1). cbn [fst snd] in EL, B1.
  destruct (@log_space_reserved sync_dev sync_ok rg0 rg0_ok 1 eq_refl) as [_ H].
  destruct (H s1 [0]) as (H1 & H2 & _); [rewrite EL; split; [done|repeat constructor; discriminate|done|done|done]|by rewrite EL|].
  destruct (H2 ctx3 (disk_get (k_disk kern0)) (<[b := 100]> ∅) b 100 [] 0%nat 0) as (s' & W & _ & R & _);
    [done|done|exact B1|apply ctx3_ok|apply lookup_insert_eq|by rewrite EL|set_solver|lia|].
  exists s1, b, s'. split_and!; [exact (H1 ctx3 0%nat kctx3)|exact W|exact R].
Defined.
