(* ===== verification/UserMem.v ===== *)
(** * Moving data between the kernel and the current process

    either_copyout() and either_copyin() of kernel/proc.c, and the argument
    fetching of kernel/syscall.c. *)

From stdpp Require Import base numbers list list_numbers gmap strings.
From Stdlib Require Import ZArith Lia.
From S2P Require Import Prelude.
From S2P Require Import Machine.
From S2P Require Import Spinlock.
From S2P Require Import Mem.
From S2P Require Import Kalloc.
From S2P Require Import Vm.
From S2P Require Import Kern.
From S2P Require Import Sched.

Local Open Scope Z_scope.

(** The memory functions inside the kernel state. *)
Definition kmem {A} (m : K kst A) : K kern A := zoom kk_l m.

(** ** kernel/proc.h: struct trapframe

    p->trapframe is the physical address of a page; a field is a 64-bit word
    at its offset. *)
Definition TF_kernel_satp : Z := 0.
Definition TF_kernel_sp : Z := 8.
Definition TF_kernel_trap : Z := 16.
Definition TF_epc : Z := 24.
Definition TF_kernel_hartid : Z := 32.
Definition TF_sp : Z := 48.
Definition TF_a0 : Z := 112.
Definition TF_a1 : Z := 120.
Definition TF_a7 : Z := 168.
(** sizeof(struct trapframe) *)
Definition TF_SIZE : Z := 288.

Section Code.
Context {LY : Layout}.

Definition tf_get (p : nat) (off : Z) : K kern Z :=
  pr ← pget p;
  if p_trapframe pr =? 0 then fault else kmem (rd64 (p_trapframe pr + off)).
Definition tf_set (p : nat) (off v : Z) : K kern unit :=
  pr ← pget p;
  if p_trapframe pr =? 0 then fault else kmem (wr64 (p_trapframe pr + off) (u64 v)).

(** ** kernel/proc.c: either_copyout(), either_copyin()

    The destination is a user address, a physical address, or a local
    variable of the caller, which is filled in order; the result is the
    destination as the copy leaves it and the return value. *)
Inductive kdst := DUser (va : Z) | DPhys (pa : Z) | DLocal (bs : list Z).
Inductive ksrc := SUser (va : Z) | SPhys (pa : Z) | SLocal (bs : list Z).

(** [dst += m], [src += m] in the caller. *)
Definition dst_add (d : kdst) (m : Z) : kdst :=
  match d with DUser va => DUser (u64 (va + m)) | DPhys pa => DPhys (u64 (pa + m)) | DLocal bs => DLocal bs end.
Definition src_add (s : ksrc) (m : Z) : ksrc :=
  match s with
  | SUser va => SUser (u64 (va + m)) | SPhys pa => SPhys (u64 (pa + m)) | SLocal bs => SLocal (drop (Z.to_nat m) bs)
  end.

Definition either_copyout (dst : kdst) (src : list Z) : K kern (kdst * Z) :=
  p ← myproc;
  match dst with
  | DUser va =>
      match p with
      | Some i => pr ← pget i; r ← kmem (copyout (p_pagetable pr) va src); mret (dst, r)
      | None => fault
      end
  | DPhys pa => kmem (modify (upd_mem (fun m => store_bytes m pa src))) ;; mret (dst, 0)
  | DLocal bs => mret (DLocal (bs ++ src), 0)
  end.

Definition either_copyin (src : ksrc) (len : Z) : K kern (list Z * Z) :=
  p ← myproc;
  match src with
  | SUser va =>
      match p with
      | Some i => pr ← pget i; kmem (copyin (p_pagetable pr) va len)
      | None => fault
      end
  | SPhys pa => bs ← kmem (asks (fun w => bytes_at (k_mem (snd w)) pa (Z.to_nat len))); mret (bs, 0)
  | SLocal bs => mret (take (Z.to_nat len) bs, 0)
  end.

(** ** kernel/syscall.c: arguments *)

(** The word at [addr], and the return value. *)
Definition fetchaddr (addr : Z) : K kern (Z * Z) :=
  i ← curproc;
  p ← pget i;
  if (p_sz p <=? addr) || (p_sz p <? u64 (addr + 8)) then mret (0, -1) else
  r ← kmem (copyin (p_pagetable p) addr 8);
  if negb (snd r =? 0) then mret (0, -1) else mret (le_dec (fst r), 0).

(** What reached buf, and the length of the string or a negative error. *)
Definition fetchstr (addr max : Z) : K kern (list Z * Z) :=
  i ← curproc;
  p ← pget i;
  r ← kmem (copyinstr (p_pagetable p) addr max);
  if snd r <? 0 then mret r else
  match strlen (length (fst r)) (fun j => nth (Z.to_nat j) (fst r) 0) with
  | Some n => mret (fst r, n)
  | None => fault
  end.

Definition argraw (n : Z) : K kern Z :=
  i ← curproc;
  if (0 <=? n) && (n <=? 5) then tf_get i (TF_a0 + 8 * n) else panic "argraw".

(** argint() and argaddr() always return 0. *)
Definition argint (n : Z) : K kern Z := x ← argraw n; mret (i32 x).
Definition argaddr (n : Z) : K kern Z := argraw n.
Definition argstr (n max : Z) : K kern (list Z * Z) :=
  addr ← argaddr n;
  fetchstr addr max.

End Code.
