(* ===== verification/Fs.v ===== *)
(** * The file system (kernel/fs.c)

    The code: block allocator, inodes, file contents, directories and path
    names, over the buffer cache and the log.  An inode pointer is an index
    of itable.inode; path names are C strings without their NUL. *)

From stdpp Require Import base numbers list list_numbers gmap strings.
From Stdlib Require Import ZArith Lia.
From S2P Require Import Prelude.
From S2P Require Import Machine.
From S2P Require Import Spinlock.
From S2P Require Import Mem.
From S2P Require Import Kalloc.
From S2P Require Import Vm.
From S2P Require Import Kern.
From S2P Require Import Sched.
From S2P Require Import SleepLk.
From S2P Require Import Bio.
From S2P Require Import Log.
From S2P Require Import UserMem.

Local Open Scope Z_scope.

(** ** On-disk structures (kernel/fs.h) *)

(** The superblock in the bytes of block 1. *)
Definition sb_of (d : list Z) : superblock :=
  Superblock (getn 4 0 d) (getn 4 4 d) (getn 4 8 d) (getn 4 12 d) (getn 4 16 d) (getn 4 20 d) (getn 4 24 d) (getn 4 28 d).

(** struct dinode, 64 bytes: four shorts, the size, NDIRECT+1 addresses. *)
Record dinode := Dinode {
  di_type : Z;
  di_major : Z;
  di_minor : Z;
  di_nlink : Z;
  di_size : Z;
  di_addrs : list Z
}.

(** [(struct dinode* )bp->data + inum%IPB] *)
Definition dip_off (inum : Z) : nat := Z.to_nat (DINODE_SIZE * (inum `mod` IPB)).

Definition get_dinode (inum : Z) (d : list Z) : dinode :=
  let o := dip_off inum in
  Dinode (i16 (getn 2 o d)) (i16 (getn 2 (o + 2) d)) (i16 (getn 2 (o + 4) d)) (i16 (getn 2 (o + 6) d))
    (getn 4 (o + 8) d) ((fun j => getn 4 (o + 12 + 4 * j) d) <$> seq 0 13).

Definition put_addrs (o : nat) (addrs : list Z) (d : list Z) : list Z :=
  splice d o (mjoin (le_enc 4 <$> addrs)).

Definition put_dinode (inum : Z) (di : dinode) (d : list Z) : list Z :=
  let o := dip_off inum in
  put_addrs (o + 12) (di_addrs di)
    (putn 4 (o + 8) (di_size di)
      (putn 2 (o + 6) (di_nlink di)
        (putn 2 (o + 4) (di_minor di)
          (putn 2 (o + 2) (di_major di)
            (putn 2 o (di_type di) d))))).

(** struct dirent: inum, then DIRSIZ bytes of name. *)
Record dirent := Dirent { de_inum : Z; de_name : list Z }.
Definition dirent_of (bs : list Z) : dirent := Dirent (getn 2 0 bs) (slice 2 (Z.to_nat DIRSIZ) bs).
Definition dirent_bytes (de : dirent) : list Z := le_enc 2 (de_inum de) ++ de_name de.

Definition byte_at (d : list Z) (i : Z) : Z := nth (Z.to_nat i) d 0.
Definition set_byte (i v : Z) (d : list Z) : list Z := <[Z.to_nat i := u8 v]> d.

(** ** Access to the kernel state *)

Definition ld_sb : K kern superblock := load (inS k_sb_l).
Definition it_lk : lens (ctx * kern) spinlock := inS (comp k_itable_l it_lock_l).
Definition ld_inode (ip : nat) : K kern inode := load (inS (inode_l ip)).
Definition up_inode (ip : nat) (f : inode -> inode) : K kern unit := update (inS (inode_l ip)) f.
Definition ilock_l (ip : nat) : lens kern sleeplock := comp (inode_l ip) i_lock_l.

Definition iinit : K kern unit :=
  initlock it_lk "itable" ;;
  for_each (seq 0 (Z.to_nat NINODE)) (fun i => initsleeplock (ilock_l i) "inode").

Section Code.
Context {LY : Layout} {BD : BlockDev}.

Definition readsb (dev : Z) : K kern unit :=
  bp ← bread (u32 dev) 1;
  bf ← ld_buf bp;
  store (inS k_sb_l) (sb_of (b_data bf)) ;;
  brelse bp.

Definition fsinit (dev : Z) : K kern unit :=
  readsb dev ;;
  sb ← ld_sb;
  if negb (sb_magic sb =? FSMAGIC) then panic "invalid file system" else
  initlog dev sb.

(** ** Blocks *)

Definition bzero (dev bno : Z) : K kern unit :=
  bp ← bread (u32 dev) (u32 bno);
  up_buf bp (set_b_data (replicate (Z.to_nat BSIZE) 0)) ;;
  log_write bp ;;
  brelse bp.

(** [for(bi = 0; bi < BPB && b + bi < sb.size; bi++)] until a clear bit. *)
Fixpoint free_bit (fuel : nat) (d : list Z) (b bi size : Z) : option Z :=
  match fuel with
  | O => None
  | S k =>
      if (bi <? BPB) && (u32 (b + bi) <? size) then
        let m := Z.shiftl 1 (bi `mod` 8) in
        if Z.land (byte_at d (bi / 8)) m =? 0 then Some bi else free_bit k d b (bi + 1) size
      else None
  end.

(** [for(b = 0; b < sb.size; b += BPB)] *)
Fixpoint balloc_loop (fuel : nat) (dev b : Z) : K kern Z :=
  match fuel with
  | O => hang
  | S k =>
      sb ← ld_sb;
      if u32 b <? sb_size sb then
        bp ← bread dev (u32 (BBLOCK b sb));
        bf ← ld_buf bp;
        match free_bit (Z.to_nat BPB) (b_data bf) b 0 (sb_size sb) with
        | Some bi =>
            let m := Z.shiftl 1 (bi `mod` 8) in
            up_buf bp (fun bf => set_b_data (set_byte (bi / 8) (Z.lor (byte_at (b_data bf) (bi / 8)) m) (b_data bf)) bf) ;;
            log_write bp ;;
            brelse bp ;;
            bzero (i32 dev) (b + bi) ;;
            mret (u32 (b + bi))
        | None =>
            brelse bp ;;
            balloc_loop k dev (b + BPB)
        end
      else panic "balloc: out of blocks"
  end.
Definition balloc (dev : Z) : K kern Z :=
  sb ← ld_sb;
  balloc_loop (S (S (Z.to_nat (sb_size sb / BPB)))) dev 0.

Definition bfree (dev b : Z) : K kern unit :=
  sb ← ld_sb;
  bp ← bread (u32 dev) (u32 (BBLOCK b sb));
  let bi := b `mod` BPB in
  let m := Z.shiftl 1 (bi `mod` 8) in
  bf ← ld_buf bp;
  if Z.land (byte_at (b_data bf) (bi / 8)) m =? 0 then panic "freeing free block" else
  up_buf bp (fun bf => set_b_data (set_byte (bi / 8) (Z.land (byte_at (b_data bf) (bi / 8)) (Z.lnot m)) (b_data bf)) bf) ;;
  log_write bp ;;
  brelse bp.

(** ** Inodes *)

(** The scan of iget(): the entry for (dev, inum), or the first free one. *)
Fixpoint iget_scan (l : list inode) (i : nat) (dev inum : Z) (empty : option nat) : nat + option nat :=
  match l with
  | [] => inr empty
  | ip :: r =>
      if (0 <? i_ref ip) && (i_dev ip =? dev) && (i_inum ip =? inum) then inl i
      else iget_scan r (S i) dev inum
             (match empty with None => if i_ref ip =? 0 then Some i else None | Some _ => empty end)
  end.

Definition iget (dev inum : Z) : K kern nat :=
  acquire it_lk ;;
  tbl ← load (inS (comp k_itable_l it_inode_l));
  match iget_scan (take (Z.to_nat NINODE) tbl) 0 dev inum None with
  | inl ip =>
      up_inode ip (fun x => set_i_ref (i_ref x + 1) x) ;;
      release it_lk ;;
      mret ip
  | inr None => panic "iget: no inodes"
  | inr (Some ip) =>
      up_inode ip (set_i_dev dev) ;;
      up_inode ip (set_i_inum inum) ;;
      up_inode ip (set_i_ref 1) ;;
      up_inode ip (set_i_valid false) ;;
      release it_lk ;;
      mret ip
  end.

(** [for(inum = 1; inum < sb.ninodes; inum++)] *)
Fixpoint ialloc_loop (fuel : nat) (dev type inum : Z) : K kern nat :=
  match fuel with
  | O => hang
  | S k =>
      sb ← ld_sb;
      if u32 inum <? sb_ninodes sb then
        bp ← bread dev (u32 (IBLOCK inum sb));
        bf ← ld_buf bp;
        if di_type (get_dinode inum (b_data bf)) =? 0 then
          up_buf bp (fun bf => set_b_data
            (putn 2 (dip_off inum) type
              (splice (b_data bf) (dip_off inum) (replicate (Z.to_nat DINODE_SIZE) 0))) bf) ;;
          log_write bp ;;
          brelse bp ;;
          iget dev (u32 inum)
        else
          brelse bp ;;
          ialloc_loop k dev type (inum + 1)
      else panic "ialloc: no inodes"
  end.
Definition ialloc (dev type : Z) : K kern nat :=
  sb ← ld_sb;
  ialloc_loop (S (Z.to_nat (sb_ninodes sb))) dev type 1.

Definition iupdate (ip : nat) : K kern unit :=
  x ← ld_inode ip;
  sb ← ld_sb;
  bp ← bread (i_dev x) (u32 (IBLOCK (i_inum x) sb));
  x ← ld_inode ip;
  up_buf bp (fun bf => set_b_data
    (put_dinode (i_inum x) (Dinode (i_type x) (i_major x) (i_minor x) (i_nlink x) (i_size x) (i_addrs x)) (b_data bf)) bf) ;;
  log_write bp ;;
  brelse bp.

Definition idup (ip : nat) : K kern nat :=
  acquire it_lk ;;
  up_inode ip (fun x => set_i_ref (i_ref x + 1) x) ;;
  release it_lk ;;
  mret ip.

Definition ilock (p : option nat) : K kern unit :=
  match p with
  | None => panic "ilock"
  | Some ip =>
      x ← ld_inode ip;
      if i_ref x <? 1 then panic "ilock" else
      acquiresleep (ChInodeLock ip) (ilock_l ip) ;;
      x ← ld_inode ip;
      if negb (i_valid x) then
        sb ← ld_sb;
        bp ← bread (i_dev x) (u32 (IBLOCK (i_inum x) sb));
        bf ← ld_buf bp;
        let di := get_dinode (i_inum x) (b_data bf) in
        up_inode ip (set_i_type (di_type di)) ;;
        up_inode ip (set_i_major (di_major di)) ;;
        up_inode ip (set_i_minor (di_minor di)) ;;
        up_inode ip (set_i_nlink (di_nlink di)) ;;
        up_inode ip (set_i_size (di_size di)) ;;
        up_inode ip (set_i_addrs (di_addrs di)) ;;
        brelse bp ;;
        up_inode ip (set_i_valid true) ;;
        x ← ld_inode ip;
        if i_type x =? 0 then panic "ilock: no type" else mret tt
      else mret tt
  end.

Definition iunlock (p : option nat) : K kern unit :=
  match p with
  | None => panic "iunlock"
  | Some ip =>
      h ← holdingsleep (ilock_l ip);
      x ← ld_inode ip;
      if negb h || (i_ref x <? 1) then panic "iunlock" else
      releasesleep (ChInodeLock ip) (ilock_l ip)
  end.

(** ** Inode content *)

Definition bmap (ip : nat) (bn : Z) : K kern Z :=
  x ← ld_inode ip;
  if bn <? NDIRECT then
    let addr := nth (Z.to_nat bn) (i_addrs x) 0 in
    if addr =? 0 then
      addr ← balloc (i_dev x);
      up_inode ip (fun x => set_i_addrs (<[Z.to_nat bn := addr]> (i_addrs x)) x) ;;
      mret addr
    else mret addr
  else
  let bn := bn - NDIRECT in
  if bn <? NINDIRECT then
    addr ← (let addr := nth (Z.to_nat NDIRECT) (i_addrs x) 0 in
            if addr =? 0 then
              addr ← balloc (i_dev x);
              up_inode ip (fun x => set_i_addrs (<[Z.to_nat NDIRECT := addr]> (i_addrs x)) x) ;;
              mret addr
            else mret addr);
    bp ← bread (i_dev x) addr;
    bf ← ld_buf bp;
    let a := getn 4 (Z.to_nat (4 * bn)) (b_data bf) in
    addr ← (if a =? 0 then
              addr ← balloc (i_dev x);
              up_buf bp (fun bf => set_b_data (putn 4 (Z.to_nat (4 * bn)) addr (b_data bf)) bf) ;;
              log_write bp ;;
              mret addr
            else mret a);
    brelse bp ;;
    mret addr
  else panic "bmap: out of range".

Definition itrunc (ip : nat) : K kern unit :=
  for_each (seqZ 0 NDIRECT) (fun i =>
    x ← ld_inode ip;
    let a := nth (Z.to_nat i) (i_addrs x) 0 in
    if negb (a =? 0) then
      bfree (i32 (i_dev x)) a ;;
      up_inode ip (fun x => set_i_addrs (<[Z.to_nat i := 0]> (i_addrs x)) x)
    else mret tt) ;;
  x ← ld_inode ip;
  let a := nth (Z.to_nat NDIRECT) (i_addrs x) 0 in
  (if negb (a =? 0) then
     bp ← bread (i_dev x) a;
     for_each (seqZ 0 NINDIRECT) (fun j =>
       bf ← ld_buf bp;
       let aj := getn 4 (Z.to_nat (4 * j)) (b_data bf) in
       if negb (aj =? 0) then bfree (i32 (i_dev x)) aj else mret tt) ;;
     brelse bp ;;
     bfree (i32 (i_dev x)) a ;;
     up_inode ip (fun x => set_i_addrs (<[Z.to_nat NDIRECT := 0]> (i_addrs x)) x)
   else mret tt) ;;
  up_inode ip (set_i_size 0) ;;
  iupdate ip.

Definition iput (ip : nat) : K kern unit :=
  acquire it_lk ;;
  x ← ld_inode ip;
  (if (i_ref x =? 1) && i_valid x && (i_nlink x =? 0) then
     acquiresleep (ChInodeLock ip) (ilock_l ip) ;;
     release it_lk ;;
     itrunc ip ;;
     up_inode ip (set_i_type 0) ;;
     iupdate ip ;;
     up_inode ip (set_i_valid false) ;;
     releasesleep (ChInodeLock ip) (ilock_l ip) ;;
     acquire it_lk
   else mret tt) ;;
  up_inode ip (fun x => set_i_ref (i_ref x - 1) x) ;;
  release it_lk.

Definition iunlockput (ip : nat) : K kern unit :=
  iunlock (Some ip) ;;
  iput ip.

(** struct stat *)
Record stat := Stat { st_dev : Z; st_ino : Z; st_type : Z; st_nlink : Z; st_size : Z }.

Definition stati (ip : nat) : K kern stat :=
  x ← ld_inode ip;
  mret (Stat (i32 (i_dev x)) (i_inum x) (i_type x) (i_nlink x) (i_size x)).

(** [for(tot=0; tot<n; tot+=m, off+=m, dst+=m)]; a round copies at least one
    byte. *)
Fixpoint readi_loop (fuel : nat) (ip : nat) (dst : kdst) (off n tot : Z) : K kern (kdst * Z) :=
  match fuel with
  | O => hang
  | S k =>
      if negb (tot <? n) then mret (dst, tot) else
      x ← ld_inode ip;
      addr ← bmap ip (off / BSIZE);
      bp ← bread (i_dev x) addr;
      let m := Z.min (n - tot) (BSIZE - off `mod` BSIZE) in
      bf ← ld_buf bp;
      r ← either_copyout dst (slice (Z.to_nat (off `mod` BSIZE)) (Z.to_nat m) (b_data bf));
      if snd r =? -1 then
        brelse bp ;;
        mret (fst r, -1)
      else
        brelse bp ;;
        readi_loop k ip (dst_add (fst r) m) (u32 (off + m)) n (tot + m)
  end.
Definition readi (ip : nat) (dst : kdst) (off n : Z) : K kern (kdst * Z) :=
  x ← ld_inode ip;
  if (i_size x <? off) || (u32 (off + n) <? off) then mret (dst, 0) else
  let n := if i_size x <? u32 (off + n) then i_size x - off else n in
  r ← readi_loop (S (Z.to_nat n)) ip dst off n 0;
  mret (fst r, i32 (snd r)).

(** The loop of writei(); the result is the final [off] and [tot].  A failed
    copy leaves what it copied in the buffer. *)
Fixpoint writei_loop (fuel : nat) (ip : nat) (src : ksrc) (off n tot : Z) : K kern (Z * Z) :=
  match fuel with
  | O => hang
  | S k =>
      if negb (tot <? n) then mret (off, tot) else
      x ← ld_inode ip;
      addr ← bmap ip (off / BSIZE);
      bp ← bread (i_dev x) addr;
      let m := Z.min (n - tot) (BSIZE - off `mod` BSIZE) in
      r ← either_copyin src m;
      up_buf bp (fun bf => set_b_data (splice (b_data bf) (Z.to_nat (off `mod` BSIZE)) (fst r)) bf) ;;
      if snd r =? -1 then
        brelse bp ;;
        mret (off, tot)
      else
        log_write bp ;;
        brelse bp ;;
        writei_loop k ip (src_add src m) (u32 (off + m)) n (tot + m)
  end.
Definition writei (ip : nat) (src : ksrc) (off n : Z) : K kern Z :=
  x ← ld_inode ip;
  if (i_size x <? off) || (u32 (off + n) <? off) then mret (-1) else
  if MAXFILE * BSIZE <? u32 (off + n) then mret (-1) else
  r ← writei_loop (S (Z.to_nat n)) ip src off n 0;
  x ← ld_inode ip;
  (if i_size x <? fst r then up_inode ip (set_i_size (fst r)) else mret tt) ;;
  iupdate ip ;;
  mret (i32 (snd r)).

(** ** Directories *)

(** Reading a char array or the C string of a path element. *)
Definition chars (s : list Z) : Z -> Z := fun i => if i <? 0 then 0 else nth (Z.to_nat i) s 0.
Definition namecmp (s t : list Z) : Z := strncmp (chars s) (chars t) 0 (Z.to_nat DIRSIZ).

Definition local_bytes (d : kdst) : list Z := match d with DLocal bs => bs | _ => [] end.

(** The entry's inode and byte offset. *)
Fixpoint dirlookup_loop (fuel : nat) (dp : nat) (name : list Z) (off : Z) : K kern (option (nat * Z)) :=
  match fuel with
  | O => hang
  | S k =>
      x ← ld_inode dp;
      if negb (off <? i_size x) then mret None else
      r ← readi dp (DLocal []) off DIRENT_SIZE;
      if negb (snd r =? DIRENT_SIZE) then panic "dirlookup read" else
      let de := dirent_of (local_bytes (fst r)) in
      if de_inum de =? 0 then dirlookup_loop k dp name (u32 (off + DIRENT_SIZE))
      else if namecmp name (de_name de) =? 0 then
        ip ← iget (i_dev x) (de_inum de);
        mret (Some (ip, off))
      else dirlookup_loop k dp name (u32 (off + DIRENT_SIZE))
  end.
Definition dirlookup (dp : nat) (name : list Z) : K kern (option (nat * Z)) :=
  x ← ld_inode dp;
  if negb (i_type x =? T_DIR) then panic "dirlookup not DIR" else
  dirlookup_loop (S (Z.to_nat (i_size x))) dp name 0.

(** The offset of the first free entry, or the end of the directory. *)
Fixpoint free_dirent (fuel : nat) (dp : nat) (off : Z) : K kern Z :=
  match fuel with
  | O => hang
  | S k =>
      x ← ld_inode dp;
      if negb (u32 off <? i_size x) then mret off else
      r ← readi dp (DLocal []) (u32 off) DIRENT_SIZE;
      if negb (snd r =? DIRENT_SIZE) then panic "dirlink read" else
      if de_inum (dirent_of (local_bytes (fst r))) =? 0 then mret off
      else free_dirent k dp (off + DIRENT_SIZE)
  end.
Definition dirlink (dp : nat) (name : list Z) (inum : Z) : K kern Z :=
  r ← dirlookup dp name;
  match r with
  | Some (ip, _) => iput ip ;; mret (-1)
  | None =>
      x ← ld_inode dp;
      off ← free_dirent (S (Z.to_nat (i_size x))) dp 0;
      let de := Dirent (u16 inum) (strncpy (replicate (Z.to_nat DIRSIZ) 0) 0 (chars name) 0 (Z.to_nat DIRSIZ)) in
      n ← writei dp (SLocal (dirent_bytes de)) (u32 off) DIRENT_SIZE;
      if negb (n =? DIRENT_SIZE) then panic "dirlink" else mret 0
  end.

End Code.

(** ** Paths *)

Definition slash : Z := 47.

(** [while( *path == '/') path++;] *)
Fixpoint skip_slashes (path : list Z) : list Z :=
  match path with
  | c :: r => if c =? slash then skip_slashes r else path
  | [] => []
  end.
(** [while( *path != '/' && *path != 0) path++;] *)
Fixpoint elem_end (path : list Z) : list Z * list Z :=
  match path with
  | c :: r => if c =? slash then ([], path) else let '(a, b) := elem_end r in (c :: a, b)
  | [] => ([], [])
  end.
(** The rest of the path and the name array, or nothing for a path without
    elements. *)
Definition skipelem (path name : list Z) : option (list Z * list Z) :=
  let path := skip_slashes path in
  match path with
  | [] => None
  | _ =>
      let '(s, path) := elem_end path in
      let len := Z.of_nat (length s) in
      let name := if DIRSIZ <=? len then splice name 0 (take (Z.to_nat DIRSIZ) s)
                  else splice name 0 (s ++ [0]) in
      Some (skip_slashes path, name)
  end.

Section Names.
Context {LY : Layout} {BD : BlockDev}.

(** [while((path = skipelem(path, name)) != 0)] *)
Fixpoint namex_loop (fuel : nat) (ip : nat) (path name : list Z) (nameiparent : bool) : K kern (option nat * list Z) :=
  match fuel with
  | O => hang
  | S k =>
      match skipelem path name with
      | None =>
          if nameiparent then iput ip ;; mret (None, name) else mret (Some ip, name)
      | Some (path, name) =>
          ilock (Some ip) ;;
          x ← ld_inode ip;
          if negb (i_type x =? T_DIR) then
            iunlockput ip ;;
            mret (None, name)
          else if nameiparent && bool_decide (path = []) then
            iunlock (Some ip) ;;
            mret (Some ip, name)
          else
            next ← dirlookup ip name;
            match next with
            | None => iunlockput ip ;; mret (None, name)
            | Some (next, _) => iunlockput ip ;; namex_loop k next path name nameiparent
            end
      end
  end.
Definition namex (path : list Z) (nameiparent : bool) (name : list Z) : K kern (option nat * list Z) :=
  ip ← (if bool_decide (head path = Some slash) then iget ROOTDEV ROOTINO
        else i ← curproc; p ← pget i;
             match p_cwd p with Some cwd => idup cwd | None => fault end);
  namex_loop (S (length path)) ip path name nameiparent.

Definition name_buf : list Z := replicate (Z.to_nat DIRSIZ) 0.

Definition namei (path : list Z) : K kern (option nat) :=
  r ← namex path false name_buf;
  mret (fst r).
(** The parent's inode and the last path element. *)
Definition nameiparent (path : list Z) : K kern (option nat * list Z) :=
  namex path true name_buf.

End Names.
