(* ===== verification/Uart.v ===== *)
(** * Serial port, kernel printf and console (kernel/uart.c, kernel/printf.c,
      kernel/console.c)

    Reads of device registers are answered by the hardware: [mmio_read] is a
    parameter.  Stores to device registers are recorded in k_mmio. *)

From stdpp Require Import base numbers list list_numbers gmap strings.
From Stdlib Require Import ZArith Lia Ascii.
From S2P Require Import Prelude.
From S2P Require Import Machine.
From S2P Require Import Spinlock.
From S2P Require Import Mem.
From S2P Require Import Kalloc.
From S2P Require Import Vm.
From S2P Require Import Kern.
From S2P Require Import Sched.
From S2P Require Import SleepLk.
From S2P Require Import UserMem.

Local Open Scope Z_scope.

(** ** Devices *)

(** What a load from a device register answers. *)
Class Mmio := { mmio_read : Z -> K kern Z }.

Definition mmio_write (a v : Z) : K kern unit :=
  modify (fun s => set_k_mmio (k_mmio s ++ [(a, v)]) s).

(** ** kernel/uart.c *)

Definition RHR : Z := 0.
Definition THR : Z := 0.
Definition IER : Z := 1.
Definition IER_RX_ENABLE : Z := Z.shiftl 1 0.
Definition IER_TX_ENABLE : Z := Z.shiftl 1 1.
Definition FCR : Z := 2.
Definition FCR_FIFO_ENABLE : Z := Z.shiftl 1 0.
Definition FCR_FIFO_CLEAR : Z := Z.shiftl 3 1.
Definition ISR : Z := 2.
Definition LCR : Z := 3.
Definition LCR_EIGHT_BITS : Z := Z.shiftl 3 0.
Definition LCR_BAUD_LATCH : Z := Z.shiftl 1 7.
Definition LSR : Z := 5.
Definition LSR_RX_READY : Z := Z.shiftl 1 0.
Definition LSR_TX_IDLE : Z := Z.shiftl 1 5.

Definition WriteReg (reg v : Z) : K kern unit := mmio_write (UART0 + reg) (u8 v).

Definition uart_tx_lock : lens (ctx * kern) spinlock := inS (comp k_uart_l ua_lock_l).
Definition ld_uart : K kern uart := load (inS k_uart_l).
Definition up_uart (f : uart -> uart) : K kern unit := update (inS k_uart_l) f.
Definition panicked : K kern bool := asks (fun w => k_panicked (snd w)).

Definition uartinit : K kern unit :=
  WriteReg IER 0x00 ;;
  WriteReg LCR LCR_BAUD_LATCH ;;
  WriteReg 0 0x03 ;;
  WriteReg 1 0x00 ;;
  WriteReg LCR LCR_EIGHT_BITS ;;
  WriteReg FCR (Z.lor FCR_FIFO_ENABLE FCR_FIFO_CLEAR) ;;
  WriteReg IER (Z.lor IER_TX_ENABLE IER_RX_ENABLE) ;;
  initlock uart_tx_lock "uart".

Section Uart.
Context {IO : Mmio}.

Definition ReadReg (reg : Z) : K kern Z := mmio_read (UART0 + reg).

(** [while(1)]: every round takes one character out of the buffer. *)
Fixpoint uartstart_loop (fuel : nat) : K kern unit :=
  match fuel with
  | O => hang
  | S k =>
      u ← ld_uart;
      if ua_w u =? ua_r u then mret tt else
      lsr ← ReadReg LSR;
      if Z.land lsr LSR_TX_IDLE =? 0 then mret tt else
      u ← ld_uart;
      let c := nth (Z.to_nat (ua_r u `mod` UART_TX_BUF_SIZE)) (ua_buf u) 0 in
      up_uart (set_ua_r (u64 (ua_r u + 1))) ;;
      wakeup ChUartTxR ;;
      WriteReg THR c ;;
      uartstart_loop k
  end.
Definition uartstart : K kern unit :=
  u ← ld_uart;
  uartstart_loop (S (Z.to_nat (u64 (ua_w u - ua_r u)))).

(** [while(1)] of uartputc(): sleeps while the buffer is full. *)
Definition uartputc (c : Z) : K kern unit :=
  acquire uart_tx_lock ;;
  p ← panicked;
  if (p : bool) then hang else
  while (u ← ld_uart; mret (ua_w u =? u64 (ua_r u + UART_TX_BUF_SIZE))) (sleep ChUartTxR uart_tx_lock) ;;
  u ← ld_uart;
  up_uart (set_ua_buf (<[Z.to_nat (ua_w u `mod` UART_TX_BUF_SIZE) := u8 c]> (ua_buf u))) ;;
  up_uart (set_ua_w (u64 (ua_w u + 1))) ;;
  uartstart ;;
  release uart_tx_lock.

Definition uartputc_sync (c : Z) : K kern unit :=
  push_off ;;
  p ← panicked;
  if (p : bool) then hang else
  while (lsr ← ReadReg LSR; mret (Z.land lsr LSR_TX_IDLE =? 0)) (mret tt) ;;
  WriteReg THR c ;;
  pop_off.

Definition uartgetc : K kern Z :=
  lsr ← ReadReg LSR;
  if negb (Z.land lsr 0x01 =? 0) then ReadReg RHR else mret (-1).

(** ** kernel/printf.c *)

Definition BACKSPACE : Z := 0x100.

Definition consputc (c : Z) : K kern unit :=
  if c =? BACKSPACE then uartputc_sync 8 ;; uartputc_sync 32 ;; uartputc_sync 8
  else uartputc_sync c.

(** char digits[] *)
Definition digit (x : Z) : Z := if x <? 10 then 48 + x else 87 + x.

(** [do buf[i++] = digits[x % base]; while((x /= base) != 0);], the digits
    most significant first; 32 rounds are enough for a uint. *)
Fixpoint digits_of (fuel : nat) (x base : Z) (acc : list Z) : list Z :=
  match fuel with
  | O => acc
  | S k =>
      let acc := digit (x `mod` base) :: acc in
      if x / base =? 0 then acc else digits_of k (x / base) base acc
  end.

(** What printint() hands to consputc(), in order. *)
Definition int_chars (xx base : Z) (sign : bool) : list Z :=
  let neg := sign && (xx <? 0) in
  let x := if neg then u32 (- xx) else u32 xx in
  (if neg then [45] else []) ++ digits_of 32 x base [].

Definition put_all (cs : list Z) : K kern unit := for_each cs consputc.
Definition printint (xx base : Z) (sign : bool) : K kern unit := put_all (int_chars xx base sign).

(** [for(i = 0; i < sizeof(uint64) * 2; i++, x <<= 4) consputc(digits[x >> 60])] *)
Fixpoint hex_chars (n : nat) (x : Z) : list Z :=
  match n with
  | O => []
  | S k => digit (Z.shiftr x 60) :: hex_chars k (u64 (Z.shiftl x 4))
  end.
Definition printptr (x : Z) : K kern unit :=
  consputc 48 ;; consputc 120 ;; put_all (hex_chars 16 x).

(** An argument of printf(): an int, a uint64 or a char pointer. *)
Inductive va := VInt (x : Z) | VPtr (x : Z) | VStr (s : option (list Z)).

(** The loop over fmt; a missing or ill-typed argument is undefined
    behaviour. *)
Fixpoint printf_loop (fmt : list Z) (ap : list va) : K kern unit :=
  match fmt with
  | [] => mret tt
  | c :: fmt =>
      if negb (c =? 37) then consputc c ;; printf_loop fmt ap else
      match fmt with
      | [] => mret tt
      | c :: fmt =>
          if c =? 100 then
            match ap with VInt x :: ap => printint x 10 true ;; printf_loop fmt ap | _ => fault end
          else if c =? 120 then
            match ap with VInt x :: ap => printint x 16 true ;; printf_loop fmt ap | _ => fault end
          else if c =? 112 then
            match ap with VPtr x :: ap => printptr x ;; printf_loop fmt ap | _ => fault end
          else if c =? 115 then
            match ap with
            | VStr s :: ap => put_all (default (bytes "(null)") s) ;; printf_loop fmt ap
            | _ => fault
            end
          else if c =? 37 then consputc 37 ;; printf_loop fmt ap
          else consputc 37 ;; consputc c ;; printf_loop fmt ap
      end
  end.

Definition pr_lk : lens (ctx * kern) spinlock := inS (comp k_pr_l pr_lock_l).
Definition up_pr (f : pr -> pr) : K kern unit := update (inS k_pr_l) f.

Definition printf (fmt : list Z) (ap : list va) : K kern unit :=
  p ← load (inS k_pr_l);
  let locking := pr_locking p in
  (if locking then acquire pr_lk else mret tt) ;;
  printf_loop fmt ap ;;
  (if locking then release pr_lk else mret tt).

(** panic() as it runs: it prints, stops the other harts' output and spins.
    Elsewhere a call of panic(msg) is the outcome [Panic msg]. *)
Definition panic_stop (s : list Z) : K kern unit :=
  up_pr (set_pr_locking false) ;;
  printf (bytes "panic: ") [] ;;
  printf s [] ;;
  printf [10] [] ;;
  modify (set_k_panicked true) ;;
  hang.

Definition printfinit : K kern unit :=
  initlock pr_lk "pr" ;;
  up_pr (set_pr_locking true).

(** ** kernel/proc.c: procdump() *)

(** states[p->state]; the array has no entry for USED. *)
Definition state_name (st : procstate) : option (list Z) :=
  match st with
  | UNUSED => Some (bytes "unused")
  | USED => None
  | SLEEPING => Some (bytes "sleep ")
  | RUNNABLE => Some (bytes "runble")
  | RUNNING => Some (bytes "run   ")
  | ZOMBIE => Some (bytes "zombie")
  end.

Definition procdump : K kern unit :=
  printf [10] [] ;;
  for_each all_procs (fun p =>
    pr ← pget p;
    if bool_decide (p_state pr = UNUSED) then mret tt else
    let state := default (bytes "???") (state_name (p_state pr)) in
    printf (bytes "%d %s %s") [VInt (p_pid pr); VStr (Some state); VStr (Some (cstring (p_name pr)))] ;;
    printf [10] []).

(** ** kernel/console.c *)

(** C(x), Control-x *)
Definition ctrl (x : Z) : Z := x - 64.

Definition cons_lk : lens (ctx * kern) spinlock := inS (comp k_cons_l cn_lock_l).
Definition ld_cons : K kern cons := load (inS k_cons_l).
Definition up_cons (f : cons -> cons) : K kern unit := update (inS k_cons_l) f.

(** [for(i = 0; i < n; i++)] of consolewrite() *)
Fixpoint consolewrite_loop (fuel : nat) (src : ksrc) (i n : Z) : K kern Z :=
  match fuel with
  | O => hang
  | S k =>
      if negb (i <? n) then mret i else
      r ← either_copyin src 1;
      if snd r =? -1 then mret i else
      uartputc (nth 0 (fst r) 0) ;;
      consolewrite_loop k (src_add src 1) (i + 1) n
  end.
Definition consolewrite (src : ksrc) (n : Z) : K kern Z :=
  consolewrite_loop (S (Z.to_nat n)) src 0 n.

(** [while(cons.r == cons.w)]: wait for a line; true if killed meanwhile. *)
Fixpoint cons_wait (fuel : nat) : K kern bool :=
  match fuel with
  | O => hang
  | S k =>
      cn ← ld_cons;
      if negb (cn_r cn =? cn_w cn) then mret false else
      i ← curproc;
      p ← pget i;
      if negb (p_killed p =? 0) then mret true else
      sleep ChConsR cons_lk ;;
      cons_wait k
  end.

(** [while(n > 0)] of consoleread(): the remaining n, or nothing when the
    process was killed. *)
Fixpoint consoleread_loop (fuel : nat) (dst : kdst) (n target : Z) : K kern (option Z) :=
  match fuel with
  | O => hang
  | S k =>
      if negb (0 <? n) then mret (Some n) else
      killed ← with_fuel cons_wait;
      if (killed : bool) then release cons_lk ;; mret None else
      cn ← ld_cons;
      let c := nth (Z.to_nat (cn_r cn `mod` INPUT_BUF)) (cn_buf cn) 0 in
      up_cons (set_cn_r (u32 (cn_r cn + 1))) ;;
      if c =? ctrl 68 then
        (if n <? target then up_cons (fun cn => set_cn_r (u32 (cn_r cn - 1)) cn) else mret tt) ;;
        mret (Some n)
      else
      r ← either_copyout dst [u8 c];
      if snd r =? -1 then mret (Some n) else
      if c =? 10 then mret (Some (n - 1))
      else consoleread_loop k (dst_add (fst r) 1) (n - 1) target
  end.
Definition consoleread (dst : kdst) (n : Z) : K kern Z :=
  acquire cons_lk ;;
  r ← consoleread_loop (S (Z.to_nat n)) dst n n;
  match r with
  | None => mret (-1)
  | Some rest => release cons_lk ;; mret (n - rest)
  end.

(** [while(cons.e != cons.w && cons.buf[(cons.e-1) % INPUT_BUF] != '\n')] *)
Fixpoint kill_line (fuel : nat) : K kern unit :=
  match fuel with
  | O => hang
  | S k =>
      cn ← ld_cons;
      if (cn_e cn =? cn_w cn) ||
         (nth (Z.to_nat (u32 (cn_e cn - 1) `mod` INPUT_BUF)) (cn_buf cn) 0 =? 10) then mret tt else
      up_cons (set_cn_e (u32 (cn_e cn - 1))) ;;
      consputc BACKSPACE ;;
      kill_line k
  end.

Definition consoleintr (c : Z) : K kern unit :=
  acquire cons_lk ;;
  (if c =? ctrl 80 then procdump
   else if c =? ctrl 85 then cn ← ld_cons; kill_line (S (Z.to_nat (u32 (cn_e cn - cn_w cn))))
   else if (c =? ctrl 72) || (c =? 127) then
     cn ← ld_cons;
     if negb (cn_e cn =? cn_w cn) then
       up_cons (set_cn_e (u32 (cn_e cn - 1))) ;;
       consputc BACKSPACE
     else mret tt
   else
     cn ← ld_cons;
     if negb (c =? 0) && (u32 (cn_e cn - cn_r cn) <? INPUT_BUF) then
       let c := if c =? 13 then 10 else c in
       consputc c ;;
       cn ← ld_cons;
       up_cons (set_cn_buf (<[Z.to_nat (cn_e cn `mod` INPUT_BUF) := u8 c]> (cn_buf cn))) ;;
       up_cons (set_cn_e (u32 (cn_e cn + 1))) ;;
       cn ← ld_cons;
       if (c =? 10) || (c =? ctrl 68) || (cn_e cn =? u32 (cn_r cn + INPUT_BUF)) then
         up_cons (set_cn_w (cn_e cn)) ;;
         wakeup ChConsR
       else mret tt
     else mret tt) ;;
  release cons_lk.

Definition consoleinit : K kern unit :=
  initlock cons_lk "cons" ;;
  uartinit ;;
  (* devsw[CONSOLE].read = consoleread; devsw[CONSOLE].write = consolewrite; *)
  update (inS k_devsw_l) (fun sw => <[Z.to_nat CONSOLE := Some DevConsole]> sw).

(** [while(1)] of uartintr(): until no character is waiting, at most [cx_fuel]
    of them. *)
Fixpoint uart_input (fuel : nat) : K kern unit :=
  match fuel with
  | O => hang
  | S k => c ← uartgetc; if c =? -1 then mret tt else consoleintr c ;; uart_input k
  end.
Definition uartintr : K kern unit :=
  with_fuel uart_input ;;
  acquire uart_tx_lock ;;
  uartstart ;;
  release uart_tx_lock.

End Uart.
