(* ===== verification/File.v ===== *)
(** * Open files and pipes (kernel/file.c, kernel/pipe.c)

    The code.  A struct file is an index of ftable.file; a pipe is named by
    the page kalloc() gave it, its contents kept in k_pipes. *)

From stdpp Require Import base numbers list list_numbers gmap strings.
From Stdlib Require Import ZArith Lia.
From S2P Require Import Prelude.
From S2P Require Import Machine.
From S2P Require Import Spinlock.
From S2P Require Import Mem.
From S2P Require Import Kalloc.
From S2P Require Import Vm.
From S2P Require Import Kern.
From S2P Require Import Sched.
From S2P Require Import SleepLk.
From S2P Require Import Bio.
From S2P Require Import Log.
From S2P Require Import UserMem.
From S2P Require Import Fs.
From S2P Require Import Uart.

Local Open Scope Z_scope.

Definition ft_lk : lens (ctx * kern) spinlock := inS (comp k_ftable_l ft_lock_l).
Definition ld_file (f : nat) : K kern file := load (inS (file_l f)).
Definition up_file (f : nat) (g : file -> file) : K kern unit := update (inS (file_l f)) g.
Definition pi_lk (pi : Z) : lens kern spinlock := comp (pipe_l pi) pi_lock_l.
Definition ld_pipe (pi : Z) : K kern pipe := load (inS (pipe_l pi)).
Definition up_pipe (pi : Z) (g : pipe -> pipe) : K kern unit := update (inS (pipe_l pi)) g.

(** Bytes that C leaves unspecified: the padding of a struct stat. *)
Class Undef := { stat_pad : list Z }.

Definition fileinit : K kern unit := initlock ft_lk "ftable".

(** [for(f = ftable.file; f < ftable.file + NFILE; f++) if(f->ref == 0)] *)
Fixpoint free_file (l : list file) (i : nat) : option nat :=
  match l with
  | [] => None
  | f :: r => if f_ref f =? 0 then Some i else free_file r (S i)
  end.

Definition filealloc : K kern (option nat) :=
  acquire ft_lk ;;
  tbl ← load (inS (comp k_ftable_l ft_file_l));
  match free_file (take (Z.to_nat NFILE) tbl) 0 with
  | Some f =>
      up_file f (set_f_ref 1) ;;
      release ft_lk ;;
      mret (Some f)
  | None =>
      release ft_lk ;;
      mret None
  end.

Definition filedup (f : nat) : K kern nat :=
  acquire ft_lk ;;
  x ← ld_file f;
  if f_ref x <? 1 then panic "filedup" else
  up_file f (fun x => set_f_ref (f_ref x + 1) x) ;;
  release ft_lk ;;
  mret f.

Section Code.
Context {LY : Layout} {BD : BlockDev} {IO : Mmio} {UN : Undef}.

Definition pipeclose (pi : Z) (writable : bool) : K kern unit :=
  acquire (inS (pi_lk pi)) ;;
  (if writable then
     up_pipe pi (set_pi_writeopen false) ;;
     wakeup (ChPipeNread pi)
   else
     up_pipe pi (set_pi_readopen false) ;;
     wakeup (ChPipeNwrite pi)) ;;
  x ← ld_pipe pi;
  if negb (pi_readopen x) && negb (pi_writeopen x) then
    release (inS (pi_lk pi)) ;;
    kmem (kfree pi) ;;
    update (inS k_pipes_l) (delete pi)
  else release (inS (pi_lk pi)).

Definition fileclose (f : nat) : K kern unit :=
  acquire ft_lk ;;
  x ← ld_file f;
  if f_ref x <? 1 then panic "fileclose" else
  up_file f (set_f_ref (f_ref x - 1)) ;;
  if 0 <? f_ref x - 1 then release ft_lk else
  ff ← ld_file f;
  up_file f (set_f_ref 0) ;;
  up_file f (set_f_type FD_NONE) ;;
  release ft_lk ;;
  match f_type ff with
  | FD_PIPE => pipeclose (f_pipe ff) (f_writable ff)
  | FD_INODE | FD_DEVICE =>
      begin_op ;;
      match f_ip ff with Some ip => iput ip | None => fault end ;;
      end_op
  | FD_NONE => mret tt
  end.

(** The two files and the return value; what kalloc() left in the page is in
    the data array until it is written. *)
Definition pipealloc : K kern (option (nat * nat)) :=
  f0 ← filealloc;
  match f0 with
  | None => mret None
  | Some f0 =>
    f1 ← filealloc;
    match f1 with
    | None => fileclose f0 ;; mret None
    | Some f1 =>
      pi ← kmem kalloc;
      if pi =? 0 then fileclose f0 ;; fileclose f1 ;; mret None else
      data ← kmem (asks (fun w => bytes_at (k_mem (snd w)) (pi + 24) (Z.to_nat PIPESIZE)));
      update (inS k_pipes_l) (insert pi (Pipe (Spinlock false "" None) data 0 0 true true)) ;;
      initlock (inS (pi_lk pi)) "pipe" ;;
      up_file f0 (set_f_type FD_PIPE) ;;
      up_file f0 (set_f_readable true) ;;
      up_file f0 (set_f_writable false) ;;
      up_file f0 (set_f_pipe pi) ;;
      up_file f1 (set_f_type FD_PIPE) ;;
      up_file f1 (set_f_readable false) ;;
      up_file f1 (set_f_writable true) ;;
      up_file f1 (set_f_pipe pi) ;;
      mret (Some (f0, f1))
    end
  end.

(** [while(i < n)] of pipewrite(): the count so far and whether it ended with
    an error; it waits at most [cx_fuel] times between two bytes. *)
Fixpoint pipewrite_loop (fuel : nat) (pi : Z) (pr : nat) (addr i n : Z) : K kern (option Z) :=
  match fuel with
  | O => hang
  | S k =>
      if negb (i <? n) then mret (Some i) else
      x ← ld_pipe pi;
      p ← pget pr;
      if negb (pi_readopen x) || negb (p_killed p =? 0) then
        release (inS (pi_lk pi)) ;;
        mret None
      else if pi_nwrite x =? u32 (pi_nread x + PIPESIZE) then
        wakeup (ChPipeNread pi) ;;
        sleep (ChPipeNwrite pi) (inS (pi_lk pi)) ;;
        pipewrite_loop k pi pr addr i n
      else
        p ← pget pr;
        r ← kmem (copyin (p_pagetable p) (u64 (addr + i)) 1);
        if snd r =? -1 then mret (Some i) else
        up_pipe pi (fun x => set_pi_data (<[Z.to_nat (pi_nwrite x `mod` PIPESIZE) := nth 0 (fst r) 0]> (pi_data x)) x) ;;
        up_pipe pi (fun x => set_pi_nwrite (u32 (pi_nwrite x + 1)) x) ;;
        pipewrite_loop k pi pr addr (i + 1) n
  end.
Definition pipewrite (pi addr n : Z) : K kern Z :=
  pr ← curproc;
  acquire (inS (pi_lk pi)) ;;
  r ← with_fuel (fun fuel => pipewrite_loop (S (Z.to_nat n) * S fuel) pi pr addr 0 n);
  match r with
  | None => mret (-1)
  | Some i =>
      wakeup (ChPipeNread pi) ;;
      release (inS (pi_lk pi)) ;;
      mret i
  end.

(** [while(pi->nread == pi->nwrite && pi->writeopen)]: true if killed. *)
Fixpoint pipe_wait (fuel : nat) (pi : Z) (pr : nat) : K kern bool :=
  match fuel with
  | O => hang
  | S k =>
      x ← ld_pipe pi;
      if (pi_nread x =? pi_nwrite x) && pi_writeopen x then
        p ← pget pr;
        if negb (p_killed p =? 0) then release (inS (pi_lk pi)) ;; mret true else
        sleep (ChPipeNread pi) (inS (pi_lk pi)) ;;
        pipe_wait k pi pr
      else mret false
  end.
(** [for(i = 0; i < n; i++)] of piperead() *)
Fixpoint piperead_loop (fuel : nat) (pi : Z) (pr : nat) (addr i n : Z) : K kern Z :=
  match fuel with
  | O => hang
  | S k =>
      if negb (i <? n) then mret i else
      x ← ld_pipe pi;
      if pi_nread x =? pi_nwrite x then mret i else
      let ch := nth (Z.to_nat (pi_nread x `mod` PIPESIZE)) (pi_data x) 0 in
      up_pipe pi (set_pi_nread (u32 (pi_nread x + 1))) ;;
      p ← pget pr;
      r ← kmem (copyout (p_pagetable p) (u64 (addr + i)) [ch]);
      if r =? -1 then mret i else
      piperead_loop k pi pr addr (i + 1) n
  end.
Definition piperead (pi addr n : Z) : K kern Z :=
  pr ← curproc;
  acquire (inS (pi_lk pi)) ;;
  killed ← with_fuel (fun fuel => pipe_wait fuel pi pr);
  if (killed : bool) then mret (-1) else
  i ← piperead_loop (S (Z.to_nat n)) pi pr addr 0 n;
  wakeup (ChPipeNwrite pi) ;;
  release (inS (pi_lk pi)) ;;
  mret i.

(** The bytes of a struct stat: dev, ino, type, nlink, padding, size. *)
Definition stat_bytes (st : stat) : list Z :=
  le_enc 4 (st_dev st) ++ le_enc 4 (st_ino st) ++ le_enc 2 (st_type st) ++ le_enc 2 (st_nlink st) ++
  stat_pad ++ le_enc 8 (st_size st).

Definition filestat (f : nat) (addr : Z) : K kern Z :=
  i ← curproc;
  x ← ld_file f;
  match f_type x with
  | FD_INODE | FD_DEVICE =>
      match f_ip x with
      | None => panic "ilock"
      | Some ip =>
          ilock (Some ip) ;;
          st ← stati ip;
          iunlock (Some ip) ;;
          p ← pget i;
          r ← kmem (copyout (p_pagetable p) addr (stat_bytes st));
          if r <? 0 then mret (-1) else mret 0
      end
  | _ => mret (-1)
  end.

(** devsw[major], for a major number in range. *)
Definition dev_lookup (major : Z) : K kern (option devfn) :=
  if (major <? 0) || (NDEV <=? major) then mret None else
  sw ← load (inS k_devsw_l);
  mret (default None (sw !! Z.to_nat major)).

Definition fileread (f : nat) (addr n : Z) : K kern Z :=
  x ← ld_file f;
  if negb (f_readable x) then mret (-1) else
  match f_type x with
  | FD_PIPE => piperead (f_pipe x) addr n
  | FD_DEVICE =>
      d ← dev_lookup (f_major x);
      match d with Some DevConsole => consoleread (DUser addr) n | None => mret (-1) end
  | FD_INODE =>
      ilock (f_ip x) ;;
      match f_ip x with
      | None => fault
      | Some ip =>
          r ← readi ip (DUser addr) (f_off x) (u32 n);
          (if 0 <? snd r then up_file f (fun x => set_f_off (u32 (f_off x + snd r)) x) else mret tt) ;;
          iunlock (Some ip) ;;
          mret (snd r)
      end
  | FD_NONE => panic "fileread"
  end.

(** [int max = ((MAXOPBLOCKS-1-1-2) / 2) * BSIZE] *)
Definition write_max : Z := ((MAXOPBLOCKS - 1 - 1 - 2) / 2) * BSIZE.

(** [while(i < n)]: one transaction for each piece. *)
Fixpoint filewrite_loop (fuel : nat) (f : nat) (ip : nat) (addr i n : Z) : K kern Z :=
  match fuel with
  | O => hang
  | S k =>
      if negb (i <? n) then mret i else
      let n1 := if write_max <? n - i then write_max else n - i in
      begin_op ;;
      ilock (Some ip) ;;
      x ← ld_file f;
      r ← writei ip (SUser (u64 (addr + i))) (f_off x) (u32 n1);
      (if 0 <? r then up_file f (fun x => set_f_off (u32 (f_off x + r)) x) else mret tt) ;;
      iunlock (Some ip) ;;
      end_op ;;
      if negb (r =? n1) then mret i
      else filewrite_loop k f ip addr (i + r) n
  end.

Definition filewrite (f : nat) (addr n : Z) : K kern Z :=
  x ← ld_file f;
  if negb (f_writable x) then mret (-1) else
  match f_type x with
  | FD_PIPE => pipewrite (f_pipe x) addr n
  | FD_DEVICE =>
      d ← dev_lookup (f_major x);
      match d with Some DevConsole => consolewrite (SUser addr) n | None => mret (-1) end
  | FD_INODE =>
      match f_ip x with
      | None => if 0 <? n then begin_op ;; panic "ilock" else mret (if n =? 0 then n else -1)
      | Some ip =>
          i ← filewrite_loop (S (Z.to_nat n)) f ip addr 0 n;
          mret (if i =? n then n else -1)
      end
  | FD_NONE => panic "filewrite"
  end.

End Code.
