(* ===== verification/Proc.v ===== *)
(** * Processes (kernel/proc.c)

    The code: allocating and freeing process slots, the first process,
    growing memory, fork(), exit() and wait(). *)

From stdpp Require Import base numbers list list_numbers gmap strings.
From Stdlib Require Import ZArith Lia.
From S2P Require Import Prelude.
From S2P Require Import Machine.
From S2P Require Import Spinlock.
From S2P Require Import Mem.
From S2P Require Import Kalloc.
From S2P Require Import Vm.
From S2P Require Import Kern.
From S2P Require Import Sched.
From S2P Require Import SleepLk.
From S2P Require Import Bio.
From S2P Require Import Log.
From S2P Require Import UserMem.
From S2P Require Import Fs.
From S2P Require Import Uart.
From S2P Require Import File.

Local Open Scope Z_scope.

(** Addresses of code the kernel stores in registers and trapframes. *)
Class Symbols := {
  sym_forkret : Z;
  sym_usertrap : Z;
  sym_kernelvec : Z;
  off_uservec : Z;      (* uservec - trampoline *)
  off_userret : Z       (* userret - trampoline *)
}.

Definition pid_lk : lens (ctx * kern) spinlock := inS k_pid_lock_l.
Definition wait_lk : lens (ctx * kern) spinlock := inS k_wait_lock_l.

Definition procinit : K kern unit :=
  initlock pid_lk "nextpid" ;;
  initlock wait_lk "wait_lock" ;;
  for_each all_procs (fun p =>
    initlock (p_lk p) "proc" ;;
    pupd p (set_p_kstack (KSTACK (Z.of_nat p)))).

(** nextpid is an int; its overflow, after 2^31 - 2 processes, has no meaning
    in C and none here: pids are integers. *)
Definition allocpid : K kern Z :=
  acquire pid_lk ;;
  pid ← load (inS k_nextpid_l);
  store (inS k_nextpid_l) (pid + 1) ;;
  release pid_lk ;;
  mret pid.

(** uchar initcode[] *)
Definition initcode : list Z := [
  0x17; 0x05; 0x00; 0x00; 0x13; 0x05; 0x45; 0x02;
  0x97; 0x05; 0x00; 0x00; 0x93; 0x85; 0x35; 0x02;
  0x93; 0x08; 0x70; 0x00; 0x73; 0x00; 0x00; 0x00;
  0x93; 0x08; 0x20; 0x00; 0x73; 0x00; 0x00; 0x00;
  0xef; 0xf0; 0x9f; 0xff; 0x2f; 0x69; 0x6e; 0x69;
  0x74; 0x00; 0x00; 0x24; 0x00; 0x00; 0x00; 0x00;
  0x00; 0x00; 0x00; 0x00].

Section Code.
Context {LY : Layout} {SY : Symbols} {BD : BlockDev} {IO : Mmio}.

Definition freeproc (p : nat) : K kern unit :=
  x ← pget p;
  (if negb (p_trapframe x =? 0) then kmem (kfree (p_trapframe x)) else mret tt) ;;
  pupd p (set_p_trapframe 0) ;;
  x ← pget p;
  (if negb (p_pagetable x =? 0) then kmem (proc_freepagetable (p_pagetable x) (p_sz x)) else mret tt) ;;
  pupd p (set_p_pagetable 0) ;;
  pupd p (set_p_sz 0) ;;
  pupd p (set_p_pid 0) ;;
  pupd p (set_p_parent None) ;;
  pupd p (fun x => set_p_name (<[0%nat := 0]> (p_name x)) x) ;;
  pupd p (set_p_chan None) ;;
  pupd p (set_p_killed 0) ;;
  pupd p (set_p_xstate 0) ;;
  pupd p (set_p_state UNUSED).

(** The search for an UNUSED slot, which it returns with p->lock held. *)
Fixpoint find_unused_proc (ps : list nat) : K kern (option nat) :=
  match ps with
  | [] => mret None
  | p :: ps =>
      acquire (p_lk p) ;;
      x ← pget p;
      if bool_decide (p_state x = UNUSED) then mret (Some p) else
      release (p_lk p) ;;
      find_unused_proc ps
  end.

Definition allocproc : K kern (option nat) :=
  r ← find_unused_proc all_procs;
  match r with
  | None => mret None
  | Some p =>
      pid ← allocpid;
      pupd p (set_p_pid pid) ;;
      pupd p (set_p_state USED) ;;
      tf ← kmem kalloc;
      pupd p (set_p_trapframe tf) ;;
      if tf =? 0 then
        freeproc p ;;
        release (p_lk p) ;;
        mret None
      else
      pagetable ← kmem (proc_pagetable tf);
      pupd p (set_p_pagetable pagetable) ;;
      if pagetable =? 0 then
        freeproc p ;;
        release (p_lk p) ;;
        mret None
      else
      pupd p (fun x => set_p_context (Context sym_forkret (u64 (p_kstack x + PGSIZE)) (replicate 12 0)) x) ;;
      mret (Some p)
  end.

Definition userinit : K kern unit :=
  r ← allocproc;
  store (inS k_initproc_l) r ;;
  match r with
  | None => fault
  | Some p =>
      x ← pget p;
      kmem (uvminit (p_pagetable x) initcode) ;;
      pupd p (set_p_sz PGSIZE) ;;
      tf_set p TF_epc 0 ;;
      tf_set p TF_sp PGSIZE ;;
      pupd p (fun x => set_p_name (safestrcpy (p_name x) 0 (chars (bytes "initcode")) 16) x) ;;
      cwd ← namei (bytes "/");
      pupd p (set_p_cwd cwd) ;;
      pupd p (set_p_state RUNNABLE) ;;
      release (p_lk p)
  end.

(** [uint sz]: the size passes through 32 bits. *)
Definition growproc (n : Z) : K kern Z :=
  i ← curproc;
  p ← pget i;
  let sz := u32 (p_sz p) in
  if 0 <? n then
    r ← kmem (uvmalloc (p_pagetable p) sz (u32 (sz + n)));
    let sz := u32 r in
    if sz =? 0 then mret (-1) else
    pupd i (set_p_sz sz) ;;
    mret 0
  else if n <? 0 then
    r ← kmem (uvmdealloc (p_pagetable p) sz (u32 (sz + n)));
    pupd i (set_p_sz (u32 r)) ;;
    mret 0
  else
    pupd i (set_p_sz sz) ;;
    mret 0.

Definition fork : K kern Z :=
  p ← curproc;
  r ← allocproc;
  match r with
  | None => mret (-1)
  | Some np =>
      x ← pget p;
      y ← pget np;
      e ← kmem (uvmcopy (p_pagetable x) (p_pagetable y) (p_sz x));
      if e <? 0 then
        freeproc np ;;
        release (p_lk np) ;;
        mret (-1)
      else
      pupd np (set_p_sz (p_sz x)) ;;
      (* *(np->trapframe) = *(p->trapframe) *)
      kmem (modify (upd_mem (fun m => memmove m (p_trapframe y) (p_trapframe x) (Z.to_nat TF_SIZE)))) ;;
      tf_set np TF_a0 0 ;;
      for_each (seq 0 (Z.to_nat NOFILE)) (fun i =>
        x ← pget p;
        match default None (p_ofile x !! i) with
        | Some f =>
            g ← filedup f;
            pupd np (fun y => set_p_ofile (<[i := Some g]> (p_ofile y)) y)
        | None => mret tt
        end) ;;
      x ← pget p;
      cwd ← (match p_cwd x with Some c => idup c | None => fault end);
      pupd np (set_p_cwd (Some cwd)) ;;
      x ← pget p;
      pupd np (fun y => set_p_name (safestrcpy (p_name y) 0 (chars (p_name x)) 16) y) ;;
      y ← pget np;
      let pid := p_pid y in
      release (p_lk np) ;;
      acquire wait_lk ;;
      pupd np (set_p_parent (Some p)) ;;
      release wait_lk ;;
      acquire (p_lk np) ;;
      pupd np (set_p_state RUNNABLE) ;;
      release (p_lk np) ;;
      mret pid
  end.

(** wakeup(p) of a process; the sources never wake a null channel: initproc
    is set before the first process runs, and init never exits. *)
Definition wakeup_proc (p : option nat) : K kern unit :=
  match p with Some i => wakeup (ChProc i) | None => fault end.

Definition reparent (p : nat) : K kern unit :=
  for_each all_procs (fun pp =>
    x ← pget pp;
    if bool_decide (p_parent x = Some p) then
      init ← load (inS k_initproc_l);
      pupd pp (set_p_parent init) ;;
      wakeup_proc init
    else mret tt).

Definition exit (status : Z) : K kern unit :=
  p ← curproc;
  init ← load (inS k_initproc_l);
  if bool_decide (init = Some p) then panic "init exiting" else
  for_each (seq 0 (Z.to_nat NOFILE)) (fun fd =>
    x ← pget p;
    match default None (p_ofile x !! fd) with
    | Some f =>
        fileclose f ;;
        pupd p (fun x => set_p_ofile (<[fd := None]> (p_ofile x)) x)
    | None => mret tt
    end) ;;
  begin_op ;;
  x ← pget p;
  (match p_cwd x with Some c => iput c | None => fault end) ;;
  end_op ;;
  pupd p (set_p_cwd None) ;;
  acquire wait_lk ;;
  reparent p ;;
  x ← pget p;
  wakeup_proc (p_parent x) ;;
  acquire (p_lk p) ;;
  pupd p (set_p_xstate status) ;;
  pupd p (set_p_state ZOMBIE) ;;
  release wait_lk ;;
  sched ;;
  panic "zombie exit".

(** One scan of the table by wait(): its return value, or whether there are
    children. *)
Fixpoint wait_scan (ps : list nat) (p : nat) (addr : Z) (havekids : bool) : K kern (Z + bool) :=
  match ps with
  | [] => mret (inr havekids)
  | np :: ps =>
      y ← pget np;
      if bool_decide (p_parent y = Some p) then
        acquire (p_lk np) ;;
        y ← pget np;
        if bool_decide (p_state y = ZOMBIE) then
          let pid := p_pid y in
          e ← (if addr =? 0 then mret 0 else
               x ← pget p; kmem (copyout (p_pagetable x) addr (le_enc 4 (p_xstate y))));
          if e <? 0 then
            release (p_lk np) ;;
            release wait_lk ;;
            mret (inl (-1))
          else
            freeproc np ;;
            release (p_lk np) ;;
            release wait_lk ;;
            mret (inl pid)
        else
          release (p_lk np) ;;
          wait_scan ps p addr true
      else wait_scan ps p addr havekids
  end.
(** [for(;;)] *)
Fixpoint wait_loop (fuel : nat) (p : nat) (addr : Z) : K kern Z :=
  match fuel with
  | O => hang
  | S k =>
      r ← wait_scan all_procs p addr false;
      match r with
      | inl ret => mret ret
      | inr havekids =>
          x ← pget p;
          if negb havekids || negb (p_killed x =? 0) then
            release wait_lk ;;
            mret (-1)
          else
            sleep (ChProc p) wait_lk ;;
            wait_loop k p addr
      end
  end.
Definition wait (addr : Z) : K kern Z :=
  p ← curproc;
  acquire wait_lk ;;
  with_fuel (fun fuel => wait_loop fuel p addr).

End Code.
