(* ===== verification/Exec.v ===== *)
(** * exec() (kernel/exec.c, kernel/elf.h)

    The code.  argv is the array of pages that hold the argument strings. *)

From stdpp Require Import base numbers list list_numbers gmap strings.
From Stdlib Require Import ZArith Lia.
From S2P Require Import Prelude.
From S2P Require Import Machine.
From S2P Require Import Spinlock.
From S2P Require Import Mem.
From S2P Require Import Kalloc.
From S2P Require Import Vm.
From S2P Require Import Kern.
From S2P Require Import Sched.
From S2P Require Import Bio.
From S2P Require Import Log.
From S2P Require Import UserMem.
From S2P Require Import Fs.

Local Open Scope Z_scope.

(** ** kernel/elf.h *)

Definition ELF_MAGIC : Z := 0x464C457F.
Definition ELF_PROG_LOAD : Z := 1.

(** struct elfhdr, 64 bytes: the fields exec() uses. *)
Record elfhdr := Elfhdr { e_magic : Z; e_entry : Z; e_phoff : Z; e_phnum : Z }.
Definition ELFHDR_SIZE : Z := 64.
Definition elfhdr_of (d : list Z) : elfhdr := Elfhdr (getn 4 0 d) (getn 8 24 d) (getn 8 32 d) (getn 2 56 d).

(** struct proghdr, 56 bytes. *)
Record proghdr := Proghdr {
  ph_type : Z; ph_flags : Z; ph_off : Z; ph_vaddr : Z; ph_paddr : Z; ph_filesz : Z; ph_memsz : Z; ph_align : Z
}.
Definition PROGHDR_SIZE : Z := 56.
Definition proghdr_of (d : list Z) : proghdr :=
  Proghdr (getn 4 0 d) (getn 4 4 d) (getn 8 8 d) (getn 8 16 d) (getn 8 24 d) (getn 8 32 d) (getn 8 40 d) (getn 8 48 d).

(** The path element after the last slash. *)
Fixpoint last_elem (last s : list Z) : list Z :=
  match s with
  | [] => last
  | c :: r => last_elem (if c =? slash then r else last) r
  end.

Section Code.
Context {LY : Layout} {BD : BlockDev}.

(** [for(i = 0; i < sz; i += PGSIZE)] *)
Fixpoint loadseg_loop (fuel : nat) (pagetable va : Z) (ip : nat) (offset sz i : Z) : K kern Z :=
  match fuel with
  | O => hang
  | S k =>
      if negb (i <? sz) then mret 0 else
      pa ← kmem (walkaddr pagetable (u64 (va + i)));
      if pa =? 0 then panic "loadseg: address should exist" else
      let n := if sz - i <? PGSIZE then sz - i else PGSIZE in
      r ← readi ip (DPhys pa) (u32 (offset + i)) n;
      if negb (u32 (snd r) =? n) then mret (-1)
      else loadseg_loop k pagetable va ip offset sz (u32 (i + PGSIZE))
  end.
Definition loadseg (pagetable va : Z) (ip : nat) (offset sz : Z) : K kern Z :=
  if negb (va `mod` PGSIZE =? 0) then panic "loadseg: va must be page aligned" else
  loadseg_loop (S (S (Z.to_nat (sz / PGSIZE)))) pagetable va ip offset sz 0.

(** [for(i=0, off=elf.phoff; i<elf.phnum; i++, off+=sizeof(ph))]: the size of
    the image so far, and whether every segment was loaded. *)
Fixpoint exec_load (n : nat) (ip : nat) (pagetable off sz : Z) : K kern (Z * bool) :=
  match n with
  | O => mret (sz, true)
  | S k =>
      r ← readi ip (DLocal []) (u32 off) PROGHDR_SIZE;
      if negb (snd r =? PROGHDR_SIZE) then mret (sz, false) else
      let ph := proghdr_of (local_bytes (fst r)) in
      if negb (ph_type ph =? ELF_PROG_LOAD) then exec_load k ip pagetable (i32 (off + PROGHDR_SIZE)) sz else
      if ph_memsz ph <? ph_filesz ph then mret (sz, false) else
      if u64 (ph_vaddr ph + ph_memsz ph) <? ph_vaddr ph then mret (sz, false) else
      sz1 ← kmem (uvmalloc pagetable sz (u64 (ph_vaddr ph + ph_memsz ph)));
      if sz1 =? 0 then mret (sz, false) else
      if negb (ph_vaddr ph `mod` PGSIZE =? 0) then mret (sz1, false) else
      e ← loadseg pagetable (ph_vaddr ph) ip (u32 (ph_off ph)) (u32 (ph_filesz ph));
      if e <? 0 then mret (sz1, false)
      else exec_load k ip pagetable (i32 (off + PROGHDR_SIZE)) sz1
  end.

(** The string at [pa]; it ends within its page. *)
Definition str_at (pa : Z) : K kern (list Z) :=
  m ← kmem (asks (fun w => k_mem (snd w)));
  match strlen (Z.to_nat PGSIZE) (fun j => bget m (pa + j)) with
  | Some n => mret (bytes_at m pa (Z.to_nat n))
  | None => fault
  end.

(** Pushing the argument strings: the stack pointer and the addresses, or
    nothing when they do not fit. *)
Fixpoint push_args (argv : list Z) (pagetable sp stackbase : Z) (ustack : list Z) : K kern (option (Z * list Z)) :=
  match argv with
  | [] => mret (Some (sp, ustack))
  | a :: argv =>
      if MAXARG <=? Z.of_nat (length ustack) then mret None else
      s ← str_at a;
      let sp := u64 (sp - (Z.of_nat (length s) + 1)) in
      let sp := sp - sp `mod` 16 in
      if sp <? stackbase then mret None else
      r ← kmem (copyout pagetable sp (s ++ [0]));
      if r <? 0 then mret None
      else push_args argv pagetable sp stackbase (ustack ++ [sp])
  end.

(** The label bad: *)
Definition exec_bad (pagetable sz : Z) (ip : option nat) : K kern Z :=
  (if negb (pagetable =? 0) then kmem (proc_freepagetable pagetable sz) else mret tt) ;;
  (match ip with Some ip => iunlockput ip ;; end_op | None => mret tt end) ;;
  mret (-1).

(** From the user stack on; ip is 0 by now. *)
Definition exec_stack (p : nat) (path : list Z) (argv : list Z) (entry pagetable sz : Z) : K kern Z :=
  x ← pget p;
  let oldsz := p_sz x in
  let sz := PGROUNDUP sz in
  sz1 ← kmem (uvmalloc pagetable sz (u64 (sz + 2 * PGSIZE)));
  if sz1 =? 0 then exec_bad pagetable sz None else
  let sz := sz1 in
  kmem (uvmclear pagetable (u64 (sz - 2 * PGSIZE))) ;;
  let stackbase := u64 (sz - PGSIZE) in
  r ← push_args argv pagetable sz stackbase [];
  match r with
  | None => exec_bad pagetable sz None
  | Some (sp, ustack) =>
      let argc := Z.of_nat (length ustack) in
      let ustack := ustack ++ [0] in
      let sp := u64 (sp - (argc + 1) * 8) in
      let sp := sp - sp `mod` 16 in
      if sp <? stackbase then exec_bad pagetable sz None else
      e ← kmem (copyout pagetable sp (mjoin (le_enc 8 <$> ustack)));
      if e <? 0 then exec_bad pagetable sz None else
      tf_set p TF_a1 sp ;;
      pupd p (fun x => set_p_name (safestrcpy (p_name x) 0 (chars (last_elem path path)) 16) x) ;;
      x ← pget p;
      let oldpagetable := p_pagetable x in
      pupd p (set_p_pagetable pagetable) ;;
      pupd p (set_p_sz sz) ;;
      tf_set p TF_epc entry ;;
      tf_set p TF_sp sp ;;
      kmem (proc_freepagetable oldpagetable oldsz) ;;
      mret argc
  end.

Definition exec (path : list Z) (argv : list Z) : K kern Z :=
  p ← curproc;
  begin_op ;;
  r ← namei path;
  match r with
  | None => end_op ;; mret (-1)
  | Some ip =>
      ilock (Some ip) ;;
      r ← readi ip (DLocal []) 0 ELFHDR_SIZE;
      if negb (snd r =? ELFHDR_SIZE) then exec_bad 0 0 (Some ip) else
      let elf := elfhdr_of (local_bytes (fst r)) in
      if negb (e_magic elf =? ELF_MAGIC) then exec_bad 0 0 (Some ip) else
      x ← pget p;
      pagetable ← kmem (proc_pagetable (p_trapframe x));
      if pagetable =? 0 then exec_bad 0 0 (Some ip) else
      r ← exec_load (Z.to_nat (e_phnum elf)) ip pagetable (i32 (e_phoff elf)) 0;
      if negb (snd r) then exec_bad pagetable (fst r) (Some ip) else
      iunlockput ip ;;
      end_op ;;
      p ← curproc;
      exec_stack p path argv (e_entry elf) pagetable (fst r)
  end.

End Code.
