(* ===== verification/Sysfile.v ===== *)
(** * System calls (kernel/sysfile.c, kernel/sysproc.c, kernel/syscall.c)

    The code of every system call and of the dispatcher. *)

From stdpp Require Import base numbers list list_numbers gmap strings.
From Stdlib Require Import ZArith Lia.
From S2P Require Import Prelude.
From S2P Require Import Machine.
From S2P Require Import Spinlock.
From S2P Require Import Mem.
From S2P Require Import Kalloc.
From S2P Require Import Vm.
From S2P Require Import Kern.
From S2P Require Import Sched.
From S2P Require Import SleepLk.
From S2P Require Import Bio.
From S2P Require Import Log.
From S2P Require Import UserMem.
From S2P Require Import Fs.
From S2P Require Import Uart.
From S2P Require Import File.
From S2P Require Import Proc.
From S2P Require Import Exec.

Local Open Scope Z_scope.

Definition tick_lk : lens (ctx * kern) spinlock := inS k_tickslock_l.

Section Code.
Context {LY : Layout} {SY : Symbols} {BD : BlockDev} {IO : Mmio} {UN : Undef}.

(** ** kernel/sysfile.c *)

(** The descriptor and its file, or nothing where the C code returns -1. *)
Definition argfd (n : Z) : K kern (option (Z * nat)) :=
  fd ← argint n;
  if (fd <? 0) || (NOFILE <=? fd) then mret None else
  i ← curproc;
  p ← pget i;
  match default None (p_ofile p !! Z.to_nat fd) with
  | Some f => mret (Some (fd, f))
  | None => mret None
  end.

(** [for(fd = 0; fd < NOFILE; fd++) if(p->ofile[fd] == 0)] *)
Fixpoint free_fd (l : list (option nat)) (fd : nat) : option nat :=
  match l with
  | [] => None
  | None :: _ => Some fd
  | Some _ :: r => free_fd r (S fd)
  end.
Definition fdalloc (f : nat) : K kern Z :=
  i ← curproc;
  p ← pget i;
  match free_fd (take (Z.to_nat NOFILE) (p_ofile p)) 0 with
  | Some fd =>
      pupd i (fun p => set_p_ofile (<[fd := Some f]> (p_ofile p)) p) ;;
      mret (Z.of_nat fd)
  | None => mret (-1)
  end.
Definition fdclear (fd : Z) : K kern unit :=
  i ← curproc;
  pupd i (fun p => set_p_ofile (<[Z.to_nat fd := None]> (p_ofile p)) p).

Definition sys_dup : K kern Z :=
  a ← argfd 0;
  match a with
  | None => mret (-1)
  | Some (_, f) =>
      fd ← fdalloc f;
      if fd <? 0 then mret (-1) else
      _ ← filedup f;
      mret fd
  end.

Definition sys_read : K kern Z :=
  a ← argfd 0;
  match a with
  | None => mret (-1)
  | Some (_, f) => n ← argint 2; p ← argaddr 1; fileread f p n
  end.

Definition sys_write : K kern Z :=
  a ← argfd 0;
  match a with
  | None => mret (-1)
  | Some (_, f) => n ← argint 2; p ← argaddr 1; filewrite f p n
  end.

Definition sys_close : K kern Z :=
  a ← argfd 0;
  match a with
  | None => mret (-1)
  | Some (fd, f) => fdclear fd ;; fileclose f ;; mret 0
  end.

Definition sys_fstat : K kern Z :=
  a ← argfd 0;
  match a with
  | None => mret (-1)
  | Some (_, f) => st ← argaddr 1; filestat f st
  end.

Definition sys_link : K kern Z :=
  old ← argstr 0 MAXPATH;
  if snd old <? 0 then mret (-1) else
  new ← argstr 1 MAXPATH;
  if snd new <? 0 then mret (-1) else
  begin_op ;;
  r ← namei (cstring (fst old));
  match r with
  | None => end_op ;; mret (-1)
  | Some ip =>
      ilock (Some ip) ;;
      x ← ld_inode ip;
      if i_type x =? T_DIR then iunlockput ip ;; end_op ;; mret (-1) else
      up_inode ip (fun x => set_i_nlink (i16 (i_nlink x + 1)) x) ;;
      iupdate ip ;;
      iunlock (Some ip) ;;
      let bad :=
        ilock (Some ip) ;;
        up_inode ip (fun x => set_i_nlink (i16 (i_nlink x - 1)) x) ;;
        iupdate ip ;;
        iunlockput ip ;;
        end_op ;;
        mret (-1) in
      r ← nameiparent (cstring (fst new));
      match fst r with
      | None => bad
      | Some dp =>
          ilock (Some dp) ;;
          d ← ld_inode dp;
          x ← ld_inode ip;
          e ← (if negb (i_dev d =? i_dev x) then mret (-1) else dirlink dp (snd r) (i_inum x));
          if e <? 0 then iunlockput dp ;; bad else
          iunlockput dp ;;
          iput ip ;;
          end_op ;;
          mret 0
      end
  end.

(** [for(off=2*sizeof(de); off<dp->size; off+=sizeof(de))] *)
Fixpoint isdirempty_loop (fuel : nat) (dp : nat) (off : Z) : K kern bool :=
  match fuel with
  | O => hang
  | S k =>
      x ← ld_inode dp;
      if negb (u32 off <? i_size x) then mret true else
      r ← readi dp (DLocal []) (u32 off) DIRENT_SIZE;
      if negb (snd r =? DIRENT_SIZE) then panic "isdirempty: readi" else
      if negb (de_inum (dirent_of (local_bytes (fst r))) =? 0) then mret false
      else isdirempty_loop k dp (off + DIRENT_SIZE)
  end.
Definition isdirempty (dp : nat) : K kern bool :=
  x ← ld_inode dp;
  isdirempty_loop (S (Z.to_nat (i_size x))) dp (2 * DIRENT_SIZE).

Definition sys_unlink : K kern Z :=
  path ← argstr 0 MAXPATH;
  if snd path <? 0 then mret (-1) else
  begin_op ;;
  r ← nameiparent (cstring (fst path));
  match fst r with
  | None => end_op ;; mret (-1)
  | Some dp =>
      let name := snd r in
      ilock (Some dp) ;;
      let bad := iunlockput dp ;; end_op ;; mret (-1) in
      if (namecmp name (bytes ".") =? 0) || (namecmp name (bytes "..") =? 0) then bad else
      r ← dirlookup dp name;
      match r with
      | None => bad
      | Some (ip, off) =>
          ilock (Some ip) ;;
          x ← ld_inode ip;
          if i_nlink x <? 1 then panic "unlink: nlink < 1" else
          empty ← (if i_type x =? T_DIR then isdirempty ip else mret true);
          if negb empty then iunlockput ip ;; bad else
          n ← writei dp (SLocal (replicate (Z.to_nat DIRENT_SIZE) 0)) off DIRENT_SIZE;
          if negb (n =? DIRENT_SIZE) then panic "unlink: writei" else
          x ← ld_inode ip;
          (if i_type x =? T_DIR then
             up_inode dp (fun d => set_i_nlink (i16 (i_nlink d - 1)) d) ;;
             iupdate dp
           else mret tt) ;;
          iunlockput dp ;;
          up_inode ip (fun x => set_i_nlink (i16 (i_nlink x - 1)) x) ;;
          iupdate ip ;;
          iunlockput ip ;;
          end_op ;;
          mret 0
      end
  end.

Definition create (path : list Z) (type major minor : Z) : K kern (option nat) :=
  r ← nameiparent path;
  match fst r with
  | None => mret None
  | Some dp =>
      let name := snd r in
      ilock (Some dp) ;;
      r ← dirlookup dp name;
      match r with
      | Some (ip, _) =>
          iunlockput dp ;;
          ilock (Some ip) ;;
          x ← ld_inode ip;
          if (type =? T_FILE) && ((i_type x =? T_FILE) || (i_type x =? T_DEVICE)) then mret (Some ip) else
          iunlockput ip ;;
          mret None
      | None =>
          d ← ld_inode dp;
          ip ← ialloc (i_dev d) type;
          ilock (Some ip) ;;
          up_inode ip (set_i_major major) ;;
          up_inode ip (set_i_minor minor) ;;
          up_inode ip (set_i_nlink 1) ;;
          iupdate ip ;;
          (if type =? T_DIR then
             up_inode dp (fun d => set_i_nlink (i16 (i_nlink d + 1)) d) ;;
             iupdate dp ;;
             x ← ld_inode ip;
             e1 ← dirlink ip (bytes ".") (i_inum x);
             if e1 <? 0 then panic "create dots" else
             d ← ld_inode dp;
             e2 ← dirlink ip (bytes "..") (i_inum d);
             if e2 <? 0 then panic "create dots" else mret tt
           else mret tt) ;;
          x ← ld_inode ip;
          e ← dirlink dp name (i_inum x);
          if e <? 0 then panic "create: dirlink" else
          iunlockput dp ;;
          mret (Some ip)
      end
  end.

(** The second half of sys_open(), with ip locked. *)
Definition open_file (ip : nat) (omode : Z) : K kern Z :=
  let fail := iunlockput ip ;; end_op ;; mret (-1) in
  x ← ld_inode ip;
  if (i_type x =? T_DEVICE) && ((i_major x <? 0) || (NDEV <=? i_major x)) then fail else
  f ← filealloc;
  match f with
  | None => fail
  | Some f =>
      fd ← fdalloc f;
      if fd <? 0 then fileclose f ;; fail else
      x ← ld_inode ip;
      (if i_type x =? T_DEVICE then
         up_file f (set_f_type FD_DEVICE) ;;
         up_file f (set_f_major (i_major x))
       else
         up_file f (set_f_type FD_INODE) ;;
         up_file f (set_f_off 0)) ;;
      up_file f (set_f_ip (Some ip)) ;;
      up_file f (set_f_readable (negb (has omode O_WRONLY))) ;;
      up_file f (set_f_writable (has omode O_WRONLY || has omode O_RDWR)) ;;
      x ← ld_inode ip;
      (if has omode O_TRUNC && (i_type x =? T_FILE) then itrunc ip else mret tt) ;;
      iunlock (Some ip) ;;
      end_op ;;
      mret fd
  end.

Definition sys_open : K kern Z :=
  path ← argstr 0 MAXPATH;
  if snd path <? 0 then mret (-1) else
  omode ← argint 1;
  begin_op ;;
  if has omode O_CREATE then
    r ← create (cstring (fst path)) T_FILE 0 0;
    match r with
    | None => end_op ;; mret (-1)
    | Some ip => open_file ip omode
    end
  else
    r ← namei (cstring (fst path));
    match r with
    | None => end_op ;; mret (-1)
    | Some ip =>
        ilock (Some ip) ;;
        x ← ld_inode ip;
        if (i_type x =? T_DIR) && negb (omode =? O_RDONLY) then iunlockput ip ;; end_op ;; mret (-1)
        else open_file ip omode
    end.

Definition sys_mkdir : K kern Z :=
  begin_op ;;
  path ← argstr 0 MAXPATH;
  r ← (if snd path <? 0 then mret None else create (cstring (fst path)) T_DIR 0 0);
  match r with
  | None => end_op ;; mret (-1)
  | Some ip => iunlockput ip ;; end_op ;; mret 0
  end.

Definition sys_mknod : K kern Z :=
  begin_op ;;
  path ← argstr 0 MAXPATH;
  r ← (if snd path <? 0 then mret None else
       major ← argint 1;
       minor ← argint 2;
       create (cstring (fst path)) T_DEVICE (i16 major) (i16 minor));
  match r with
  | None => end_op ;; mret (-1)
  | Some ip => iunlockput ip ;; end_op ;; mret 0
  end.

Definition sys_chdir : K kern Z :=
  i ← curproc;
  begin_op ;;
  path ← argstr 0 MAXPATH;
  r ← (if snd path <? 0 then mret None else namei (cstring (fst path)));
  match r with
  | None => end_op ;; mret (-1)
  | Some ip =>
      ilock (Some ip) ;;
      x ← ld_inode ip;
      if negb (i_type x =? T_DIR) then iunlockput ip ;; end_op ;; mret (-1) else
      iunlock (Some ip) ;;
      p ← pget i;
      (match p_cwd p with Some c => iput c | None => fault end) ;;
      end_op ;;
      pupd i (set_p_cwd (Some ip)) ;;
      mret 0
  end.

(** [for(i=0;; i++)] of sys_exec(): the pages of the strings fetched so far,
    and whether the list ended properly. *)
Fixpoint fetch_argv (fuel : nat) (uargv i : Z) (argv : list Z) : K kern (list Z * bool) :=
  match fuel with
  | O => mret (argv, false)
  | S k =>
      r ← fetchaddr (u64 (uargv + 8 * i));
      if snd r <? 0 then mret (argv, false) else
      if fst r =? 0 then mret (argv, true) else
      pa ← kmem kalloc;
      if pa =? 0 then mret (argv, false) else
      s ← fetchstr (fst r) PGSIZE;
      kmem (modify (upd_mem (fun m => store_bytes m pa (fst s)))) ;;
      if snd s <? 0 then mret (argv ++ [pa], false)
      else fetch_argv k uargv (i + 1) (argv ++ [pa])
  end.
Definition sys_exec : K kern Z :=
  path ← argstr 0 MAXPATH;
  if snd path <? 0 then mret (-1) else
  uargv ← argaddr 1;
  r ← fetch_argv (Z.to_nat MAXARG) uargv 0 [];
  ret ← (if (snd r : bool) then exec (cstring (fst path)) (fst r) else mret (-1));
  for_each (fst r) (fun pa => kmem (kfree pa)) ;;
  mret ret.

Definition sys_pipe : K kern Z :=
  i ← curproc;
  fdarray ← argaddr 0;
  r ← pipealloc;
  match r with
  | None => mret (-1)
  | Some (rf, wf) =>
      let close := fileclose rf ;; fileclose wf ;; mret (-1) in
      fd0 ← fdalloc rf;
      if fd0 <? 0 then close else
      fd1 ← fdalloc wf;
      if fd1 <? 0 then fdclear fd0 ;; close else
      p ← pget i;
      e ← kmem (copyout (p_pagetable p) fdarray (le_enc 4 fd0));
      e ← (if e <? 0 then mret e else kmem (copyout (p_pagetable p) (u64 (fdarray + 4)) (le_enc 4 fd1)));
      if e <? 0 then fdclear fd0 ;; fdclear fd1 ;; close else mret 0
  end.

(** ** kernel/sysproc.c *)

Definition sys_exit : K kern Z :=
  n ← argint 0;
  exit n ;;
  mret 0.

Definition sys_getpid : K kern Z :=
  i ← curproc;
  p ← pget i;
  mret (p_pid p).

Definition sys_fork : K kern Z := fork.

Definition sys_wait : K kern Z :=
  p ← argaddr 0;
  wait p.

Definition sys_sbrk : K kern Z :=
  n ← argint 0;
  i ← curproc;
  p ← pget i;
  let addr := i32 (p_sz p) in
  e ← growproc n;
  if e <? 0 then mret (-1) else mret addr.

(** [while(ticks - ticks0 < n)], an unsigned comparison: false when killed. *)
Fixpoint sleep_ticks (fuel : nat) (ticks0 n : Z) : K kern bool :=
  match fuel with
  | O => hang
  | S k =>
      t ← load (inS k_ticks_l);
      if negb (u32 (t - ticks0) <? u32 n) then mret true else
      i ← curproc;
      p ← pget i;
      if negb (p_killed p =? 0) then release tick_lk ;; mret false else
      sleep ChTicks tick_lk ;;
      sleep_ticks k ticks0 n
  end.
Definition sys_sleep : K kern Z :=
  n ← argint 0;
  acquire tick_lk ;;
  ticks0 ← load (inS k_ticks_l);
  ok ← with_fuel (fun fuel => sleep_ticks fuel ticks0 n);
  if (ok : bool) then release tick_lk ;; mret 0 else mret (-1).

Definition sys_kill : K kern Z :=
  pid ← argint 0;
  kill pid.

Definition sys_uptime : K kern Z :=
  acquire tick_lk ;;
  xticks ← load (inS k_ticks_l);
  release tick_lk ;;
  mret xticks.

(** ** kernel/syscall.c: the table and the dispatcher *)

(** syscalls[num], with the numbers of kernel/syscall.h *)
Definition syscalls (num : Z) : option (K kern Z) :=
  match num with
  | 1 => Some sys_fork
  | 2 => Some sys_exit
  | 3 => Some sys_wait
  | 4 => Some sys_pipe
  | 5 => Some sys_read
  | 6 => Some sys_kill
  | 7 => Some sys_exec
  | 8 => Some sys_fstat
  | 9 => Some sys_chdir
  | 10 => Some sys_dup
  | 11 => Some sys_getpid
  | 12 => Some sys_sbrk
  | 13 => Some sys_sleep
  | 14 => Some sys_uptime
  | 15 => Some sys_open
  | 16 => Some sys_write
  | 17 => Some sys_mknod
  | 18 => Some sys_unlink
  | 19 => Some sys_link
  | 20 => Some sys_mkdir
  | 21 => Some sys_close
  | _ => None
  end.

Definition syscall : K kern unit :=
  p ← curproc;
  a7 ← tf_get p TF_a7;
  let num := i32 a7 in
  match syscalls num with
  | Some f =>
      r ← f;
      tf_set p TF_a0 r
  | None =>
      x ← pget p;
      printf (bytes "%d %s: unknown sys call %d" ++ [10]) [VInt (p_pid x); VStr (Some (cstring (p_name x))); VInt num] ;;
      tf_set p TF_a0 (-1)
  end.

End Code.
