(* ===== verification/Virtio.v ===== *)
(** * The disk driver (kernel/virtio_disk.c, kernel/virtio.h)

    The code.  The descriptor table and the two rings are shared with the
    device, which reads the requests the driver makes available and appends
    to the used ring when it has done them. *)

From stdpp Require Import base numbers list list_numbers gmap strings.
From Stdlib Require Import ZArith Lia.
From S2P Require Import Prelude.
From S2P Require Import Machine.
From S2P Require Import Spinlock.
From S2P Require Import Mem.
From S2P Require Import Kalloc.
From S2P Require Import Vm.
From S2P Require Import Kern.
From S2P Require Import Sched.
From S2P Require Import Bio.
From S2P Require Import Uart.

Local Open Scope Z_scope.

(** ** kernel/virtio.h *)

Definition VIRTIO_MMIO_MAGIC_VALUE : Z := 0x000.
Definition VIRTIO_MMIO_VERSION : Z := 0x004.
Definition VIRTIO_MMIO_DEVICE_ID : Z := 0x008.
Definition VIRTIO_MMIO_VENDOR_ID : Z := 0x00c.
Definition VIRTIO_MMIO_DEVICE_FEATURES : Z := 0x010.
Definition VIRTIO_MMIO_DRIVER_FEATURES : Z := 0x020.
Definition VIRTIO_MMIO_GUEST_PAGE_SIZE : Z := 0x028.
Definition VIRTIO_MMIO_QUEUE_SEL : Z := 0x030.
Definition VIRTIO_MMIO_QUEUE_NUM_MAX : Z := 0x034.
Definition VIRTIO_MMIO_QUEUE_NUM : Z := 0x038.
Definition VIRTIO_MMIO_QUEUE_PFN : Z := 0x040.
Definition VIRTIO_MMIO_QUEUE_NOTIFY : Z := 0x050.
Definition VIRTIO_MMIO_INTERRUPT_STATUS : Z := 0x060.
Definition VIRTIO_MMIO_INTERRUPT_ACK : Z := 0x064.
Definition VIRTIO_MMIO_STATUS : Z := 0x070.

Definition VIRTIO_CONFIG_S_ACKNOWLEDGE : Z := 1.
Definition VIRTIO_CONFIG_S_DRIVER : Z := 2.
Definition VIRTIO_CONFIG_S_DRIVER_OK : Z := 4.
Definition VIRTIO_CONFIG_S_FEATURES_OK : Z := 8.

Definition VIRTIO_BLK_F_RO : Z := 5.
Definition VIRTIO_BLK_F_SCSI : Z := 7.
Definition VIRTIO_BLK_F_CONFIG_WCE : Z := 11.
Definition VIRTIO_BLK_F_MQ : Z := 12.
Definition VIRTIO_F_ANY_LAYOUT : Z := 27.
Definition VIRTIO_RING_F_INDIRECT_DESC : Z := 28.
Definition VIRTIO_RING_F_EVENT_IDX : Z := 29.

Definition VRING_DESC_F_NEXT : Z := 1.
Definition VRING_DESC_F_WRITE : Z := 2.
Definition VIRTIO_BLK_T_IN : Z := 0.
Definition VIRTIO_BLK_T_OUT : Z := 1.

(** Where the linker puts what the device accesses. *)
Class DmaAddrs := {
  addr_pages : Z;             (* disk.pages *)
  addr_op : Z -> Z;           (* &disk.ops[i] *)
  addr_status : Z -> Z;       (* &disk.info[i].status *)
  addr_data : nat -> Z        (* bcache.buf[b].data *)
}.

Definition vd_lk : lens (ctx * kern) spinlock := inS (comp k_vdisk_l vd_lock_l).
Definition ld_vd : K kern vdisk := load (inS k_vdisk_l).
Definition up_vd (f : vdisk -> vdisk) : K kern unit := update (inS k_vdisk_l) f.

Definition R (r : Z) : Z := VIRTIO0 + r.

Definition desc0 : virtq_desc := Desc 0 0 0 0.
Definition desc_at (vd : vdisk) (i : Z) : virtq_desc := nth (Z.to_nat i) (vd_desc vd) desc0.
Definition set_desc (i : Z) (d : virtq_desc) (vd : vdisk) : vdisk :=
  set_vd_desc (<[Z.to_nat i := d]> (vd_desc vd)) vd.

(** ** kernel/virtio_disk.c *)

(** [for(int i = 0; i < NUM; i++) if(disk.free[i])] *)
Fixpoint free_slot (l : list bool) (i : Z) : option Z :=
  match l with
  | [] => None
  | b :: r => if (b : bool) then Some i else free_slot r (i + 1)
  end.
Definition alloc_desc : K kern Z :=
  vd ← ld_vd;
  match free_slot (take (Z.to_nat NUM) (vd_free vd)) 0 with
  | Some i =>
      up_vd (fun vd => set_vd_free (<[Z.to_nat i := false]> (vd_free vd)) vd) ;;
      mret i
  | None => mret (-1)
  end.

Definition free_desc (i : Z) : K kern unit :=
  if NUM <=? i then panic "free_desc 1" else
  vd ← ld_vd;
  if nth (Z.to_nat i) (vd_free vd) false then panic "free_desc 2" else
  up_vd (set_desc i desc0) ;;
  up_vd (fun vd => set_vd_free (<[Z.to_nat i := true]> (vd_free vd)) vd) ;;
  wakeup ChDiskFree.

(** [while(1)]: a descriptor is freed in every round, so NUM rounds are
    enough; one more panics. *)
Fixpoint free_chain_loop (fuel : nat) (i : Z) : K kern unit :=
  match fuel with
  | O => hang
  | S k =>
      vd ← ld_vd;
      let flag := d_flags (desc_at vd i) in
      let nxt := d_next (desc_at vd i) in
      free_desc i ;;
      if negb (Z.land flag VRING_DESC_F_NEXT =? 0) then free_chain_loop k nxt else mret tt
  end.
Definition free_chain (i : Z) : K kern unit := free_chain_loop (S (Z.to_nat NUM)) i.

(** [for(int i = 0; i < 3; i++) idx[i] = alloc_desc()], the earlier ones
    freed again when one is not to be had. *)
Fixpoint alloc3_loop (n : nat) (idx : list Z) : K kern (option (list Z)) :=
  match n with
  | O => mret (Some idx)
  | S k =>
      i ← alloc_desc;
      if i <? 0 then for_each idx free_desc ;; mret None
      else alloc3_loop k (idx ++ [i])
  end.
Definition alloc3_desc : K kern (option (list Z)) := alloc3_loop 3 [].

(** [while(1)] until three descriptors are to be had. *)
Fixpoint alloc3_wait (fuel : nat) : K kern (Z * Z * Z) :=
  match fuel with
  | O => hang
  | S k =>
      r ← alloc3_desc;
      match r with
      | Some [i0; i1; i2] => mret (i0, i1, i2)
      | _ => sleep ChDiskFree vd_lk ;; alloc3_wait k
      end
  end.

Section Code.
Context {IO : Mmio} {DA : DmaAddrs}.

Definition clear_feature (f bit : Z) : Z := Z.land f (Z.lnot (Z.shiftl 1 bit)).

Definition reg_differs (r v : Z) : K kern bool :=
  x ← mmio_read (R r); mret (negb (x =? v)).
(** C's [||]: the right side is read only when the left is false. *)
Definition orelse (m n : K kern bool) : K kern bool :=
  a ← m; if (a : bool) then mret true else n.
Local Infix "|||" := orelse (at level 50, left associativity).

Definition virtio_disk_init : K kern unit :=
  initlock vd_lk "virtio_disk" ;;
  other ← (reg_differs VIRTIO_MMIO_MAGIC_VALUE 0x74726976 ||| reg_differs VIRTIO_MMIO_VERSION 1
           ||| reg_differs VIRTIO_MMIO_DEVICE_ID 2 ||| reg_differs VIRTIO_MMIO_VENDOR_ID 0x554d4551);
  if (other : bool) then panic "could not find virtio disk" else
  let status := VIRTIO_CONFIG_S_ACKNOWLEDGE in
  mmio_write (R VIRTIO_MMIO_STATUS) status ;;
  let status := Z.lor status VIRTIO_CONFIG_S_DRIVER in
  mmio_write (R VIRTIO_MMIO_STATUS) status ;;
  features ← mmio_read (R VIRTIO_MMIO_DEVICE_FEATURES);
  let features := clear_feature features VIRTIO_BLK_F_RO in
  let features := clear_feature features VIRTIO_BLK_F_SCSI in
  let features := clear_feature features VIRTIO_BLK_F_CONFIG_WCE in
  let features := clear_feature features VIRTIO_BLK_F_MQ in
  let features := clear_feature features VIRTIO_F_ANY_LAYOUT in
  let features := clear_feature features VIRTIO_RING_F_EVENT_IDX in
  let features := clear_feature features VIRTIO_RING_F_INDIRECT_DESC in
  mmio_write (R VIRTIO_MMIO_DRIVER_FEATURES) (u32 features) ;;
  let status := Z.lor status VIRTIO_CONFIG_S_FEATURES_OK in
  mmio_write (R VIRTIO_MMIO_STATUS) status ;;
  let status := Z.lor status VIRTIO_CONFIG_S_DRIVER_OK in
  mmio_write (R VIRTIO_MMIO_STATUS) status ;;
  mmio_write (R VIRTIO_MMIO_GUEST_PAGE_SIZE) PGSIZE ;;
  mmio_write (R VIRTIO_MMIO_QUEUE_SEL) 0 ;;
  max ← mmio_read (R VIRTIO_MMIO_QUEUE_NUM_MAX);
  if max =? 0 then panic "virtio disk has no queue 0" else
  if max <? NUM then panic "virtio disk max queue too short" else
  mmio_write (R VIRTIO_MMIO_QUEUE_NUM) NUM ;;
  (* memset(disk.pages, 0, sizeof(disk.pages)) *)
  up_vd (set_vd_desc (replicate (Z.to_nat NUM) desc0)) ;;
  up_vd (set_vd_avail_idx 0) ;;
  up_vd (set_vd_avail_ring (replicate (Z.to_nat NUM) 0)) ;;
  up_vd (set_vd_used_idx_dev 0) ;;
  up_vd (set_vd_used_ring (replicate (Z.to_nat NUM) 0)) ;;
  mmio_write (R VIRTIO_MMIO_QUEUE_PFN) (u32 (Z.shiftr addr_pages PGSHIFT)) ;;
  up_vd (set_vd_free (replicate (Z.to_nat NUM) true)).

(** Filling in the three descriptors and publishing the request. *)
Definition virtio_submit (b : nat) (write : bool) (sector i0 i1 i2 : Z) : K kern unit :=
  up_vd (fun vd => set_vd_ops (<[Z.to_nat i0 :=
    BlkReq (if write then VIRTIO_BLK_T_OUT else VIRTIO_BLK_T_IN) 0 sector]> (vd_ops vd)) vd) ;;
  up_vd (set_desc i0 (Desc (addr_op i0) 16 VRING_DESC_F_NEXT i1)) ;;
  up_vd (set_desc i1 (Desc (addr_data b) BSIZE
    (Z.lor (if write then 0 else VRING_DESC_F_WRITE) VRING_DESC_F_NEXT) i2)) ;;
  up_vd (fun vd => set_vd_info_status (<[Z.to_nat i0 := 0xff]> (vd_info_status vd)) vd) ;;
  up_vd (set_desc i2 (Desc (addr_status i0) 1 VRING_DESC_F_WRITE 0)) ;;
  up_buf b (set_b_disk true) ;;
  up_vd (fun vd => set_vd_info_b (<[Z.to_nat i0 := Some b]> (vd_info_b vd)) vd) ;;
  up_vd (fun vd => set_vd_avail_ring (<[Z.to_nat (vd_avail_idx vd `mod` NUM) := i0]> (vd_avail_ring vd)) vd) ;;
  up_vd (fun vd => set_vd_avail_idx (u16 (vd_avail_idx vd + 1)) vd) ;;
  mmio_write (R VIRTIO_MMIO_QUEUE_NOTIFY) 0.

(** [while(b->disk == 1) sleep(b, &disk.vdisk_lock);] *)
Definition virtio_wait (b : nat) : K kern unit :=
  while (bf ← ld_buf b; mret (b_disk bf)) (sleep (ChBuf b) vd_lk).

Definition disk_rw (b : nat) (write : bool) : K kern unit :=
  bf ← ld_buf b;
  let sector := u32 (b_blockno bf * (BSIZE / 512)) in
  acquire vd_lk ;;
  idx ← with_fuel alloc3_wait;
  let '(i0, i1, i2) := idx in
  virtio_submit b write sector i0 i1 i2 ;;
  virtio_wait b ;;
  up_vd (fun vd => set_vd_info_b (<[Z.to_nat i0 := None]> (vd_info_b vd)) vd) ;;
  free_chain i0 ;;
  release vd_lk.

(** [while(disk.used_idx != disk.used->idx)] *)
Fixpoint used_loop (fuel : nat) : K kern unit :=
  match fuel with
  | O => hang
  | S k =>
      vd ← ld_vd;
      if vd_used_idx vd =? vd_used_idx_dev vd then mret tt else
      let id := nth (Z.to_nat (vd_used_idx vd `mod` NUM)) (vd_used_ring vd) 0 in
      if negb (nth (Z.to_nat id) (vd_info_status vd) 0 =? 0) then panic "virtio_disk_intr status" else
      match default None (vd_info_b vd !! Z.to_nat id) with
      | None => fault
      | Some b =>
          up_buf b (set_b_disk false) ;;
          wakeup (ChBuf b) ;;
          up_vd (fun vd => set_vd_used_idx (u16 (vd_used_idx vd + 1)) vd) ;;
          used_loop k
      end
  end.
Definition virtio_disk_intr : K kern unit :=
  acquire vd_lk ;;
  st ← mmio_read (R VIRTIO_MMIO_INTERRUPT_STATUS);
  mmio_write (R VIRTIO_MMIO_INTERRUPT_ACK) (Z.land st 0x3) ;;
  with_fuel used_loop ;;
  release vd_lk.

End Code.
