(* ===== verification/Trap.v ===== *)
(** * Traps, interrupts and start-up (kernel/trap.c, kernel/plic.c,
      kernel/main.c, the rest of kernel/vm.c and kernel/proc.c) *)

From stdpp Require Import base numbers list list_numbers gmap strings.
From Stdlib Require Import ZArith Lia.
From S2P Require Import Prelude.
From S2P Require Import Machine.
From S2P Require Import Spinlock.
From S2P Require Import Mem.
From S2P Require Import Kalloc.
From S2P Require Import Vm.
From S2P Require Import Kern.
From S2P Require Import Sched.
From S2P Require Import SleepLk.
From S2P Require Import Bio.
From S2P Require Import Log.
From S2P Require Import UserMem.
From S2P Require Import Fs.
From S2P Require Import Uart.
From S2P Require Import File.
From S2P Require Import Proc.
From S2P Require Import Exec.
From S2P Require Import Sysfile.
From S2P Require Import Virtio.

Local Open Scope Z_scope.

(** ** kernel/memlayout.h, kernel/riscv.h *)

Definition UART0_IRQ : Z := 10.
Definition VIRTIO0_IRQ : Z := 1.
Definition PLIC_SENABLE (hart : Z) : Z := PLIC + 0x2080 + hart * 0x100.
Definition PLIC_SPRIORITY (hart : Z) : Z := PLIC + 0x201000 + hart * 0x2000.
Definition PLIC_SCLAIM (hart : Z) : Z := PLIC + 0x201004 + hart * 0x2000.

Definition SATP_SV39 : Z := Z.shiftl 8 60.
Definition MAKE_SATP (pagetable : Z) : Z := Z.lor SATP_SV39 (Z.shiftr pagetable 12).

Definition ld_csr : K kern csr := load (inS k_csr_l).
Definition up_csr (f : csr -> csr) : K kern unit := update (inS k_csr_l) f.

(** ** kernel/plic.c *)

Definition plicinit : K kern unit :=
  mmio_write (PLIC + UART0_IRQ * 4) 1 ;;
  mmio_write (PLIC + VIRTIO0_IRQ * 4) 1.

Definition plicinithart : K kern unit :=
  hart ← cpuid;
  mmio_write (PLIC_SENABLE hart) (Z.lor (Z.shiftl 1 UART0_IRQ) (Z.shiftl 1 VIRTIO0_IRQ)) ;;
  mmio_write (PLIC_SPRIORITY hart) 0.

Section Code.
Context {LY : Layout} {SY : Symbols} {BD : BlockDev} {IO : Mmio} {UN : Undef} {DA : DmaAddrs}.

Definition plic_claim : K kern Z :=
  hart ← cpuid;
  irq ← mmio_read (PLIC_SCLAIM hart);
  mret (i32 irq).

Definition plic_complete (irq : Z) : K kern unit :=
  hart ← cpuid;
  mmio_write (PLIC_SCLAIM hart) (u32 irq).

(** ** kernel/trap.c *)

Definition trapinit : K kern unit := initlock tick_lk "time".

Definition trapinithart : K kern unit := up_csr (set_cs_stvec sym_kernelvec).

Definition clockintr : K kern unit :=
  acquire tick_lk ;;
  update (inS k_ticks_l) (fun t => u32 (t + 1)) ;;
  wakeup ChTicks ;;
  release tick_lk.

Definition devintr : K kern Z :=
  cs ← ld_csr;
  let scause := cs_scause cs in
  if has scause 0x8000000000000000 && (Z.land scause 0xff =? 9) then
    irq ← plic_claim;
    (if irq =? UART0_IRQ then uartintr
     else if irq =? VIRTIO0_IRQ then virtio_disk_intr
     else if negb (irq =? 0) then printf (bytes "unexpected interrupt irq=%d" ++ [10]) [VInt irq]
     else mret tt) ;;
    (if negb (irq =? 0) then plic_complete irq else mret tt) ;;
    mret 1
  else if scause =? 0x8000000000000001 then
    id ← cpuid;
    (if id =? 0 then clockintr else mret tt) ;;
    up_csr (fun cs => set_cs_sip (Z.land (cs_sip cs) (Z.lnot 2)) cs) ;;
    mret 2
  else mret 0.

(** The jump to userret in the trampoline: its address and arguments. *)
Definition usertrapret : K kern (Z * Z * Z) :=
  i ← curproc;
  intr_off ;;
  up_csr (set_cs_stvec (TRAMPOLINE + off_uservec)) ;;
  cs ← ld_csr;
  tf_set i TF_kernel_satp (cs_satp cs) ;;
  p ← pget i;
  tf_set i TF_kernel_sp (p_kstack p + PGSIZE) ;;
  tf_set i TF_kernel_trap sym_usertrap ;;
  id ← cpuid;
  tf_set i TF_kernel_hartid id ;;
  up_csr (set_cs_spp false) ;;
  up_csr (set_cs_spie true) ;;
  epc ← tf_get i TF_epc;
  up_csr (set_cs_sepc epc) ;;
  p ← pget i;
  mret (TRAMPOLINE + off_userret, TRAPFRAME, MAKE_SATP (p_pagetable p)).

Definition usertrap : K kern (Z * Z * Z) :=
  cs ← ld_csr;
  if cs_spp cs then panic "usertrap: not from user mode" else
  up_csr (set_cs_stvec sym_kernelvec) ;;
  i ← curproc;
  cs ← ld_csr;
  tf_set i TF_epc (cs_sepc cs) ;;
  which_dev ← (if cs_scause cs =? 8 then
                 p ← pget i;
                 (if negb (p_killed p =? 0) then exit (-1) else mret tt) ;;
                 epc ← tf_get i TF_epc;
                 tf_set i TF_epc (epc + 4) ;;
                 intr_on ;;
                 syscall ;;
                 mret 0
               else
                 d ← devintr;
                 if negb (d =? 0) then mret d else
                 cs ← ld_csr;
                 p ← pget i;
                 printf (bytes "usertrap(): unexpected scause %p pid=%d" ++ [10]) [VPtr (cs_scause cs); VInt (p_pid p)] ;;
                 printf (bytes "            sepc=%p stval=%p" ++ [10]) [VPtr (cs_sepc cs); VPtr (cs_stval cs)] ;;
                 pupd i (set_p_killed 1) ;;
                 mret 0);
  p ← pget i;
  (if negb (p_killed p =? 0) then exit (-1) else mret tt) ;;
  (if which_dev =? 2 then yield else mret tt) ;;
  usertrapret.

Definition kerneltrap : K kern unit :=
  cs ← ld_csr;
  let sepc := cs_sepc cs in
  let spp := cs_spp cs in
  let spie := cs_spie cs in
  let scause := cs_scause cs in
  sie ← intr_get;
  if negb spp then panic "kerneltrap: not from supervisor mode" else
  if (sie : bool) then panic "kerneltrap: interrupts enabled" else
  which_dev ← devintr;
  if which_dev =? 0 then
    cs ← ld_csr;
    printf (bytes "scause %p" ++ [10]) [VPtr scause] ;;
    printf (bytes "sepc=%p stval=%p" ++ [10]) [VPtr (cs_sepc cs); VPtr (cs_stval cs)] ;;
    panic "kerneltrap"
  else
  (if which_dev =? 2 then
     me ← myproc;
     match me with
     | None => mret tt
     | Some i => p ← pget i; if bool_decide (p_state p = RUNNING) then yield else mret tt
     end
   else mret tt) ;;
  up_csr (set_cs_sepc sepc) ;;
  (* w_sstatus(sstatus) *)
  up_csr (set_cs_spp spp) ;;
  up_csr (set_cs_spie spie) ;;
  upd_mycpu (set_c_intr sie).

(** ** kernel/proc.c: forkret() *)

Definition forkret : K kern (Z * Z * Z) :=
  i ← curproc;
  release (p_lk i) ;;
  first ← load (inS k_first_l);
  (if (first : bool) then
     store (inS k_first_l) false ;;
     fsinit ROOTDEV
   else mret tt) ;;
  usertrapret.

(** ** kernel/vm.c: the kernel page table *)

Definition kvminit : K kern unit :=
  pt ← kmem kvmmake;
  store (inS k_kernel_pagetable_l) pt.

(** sfence_vma() flushes translations, which the model does not cache. *)
Definition kvminithart : K kern unit :=
  pt ← load (inS k_kernel_pagetable_l);
  up_csr (set_cs_satp (MAKE_SATP pt)).

(** ** kernel/main.c *)

Definition main : K kern unit :=
  id ← cpuid;
  (if id =? 0 then
     consoleinit ;;
     printfinit ;;
     printf [10] [] ;;
     printf (bytes "xv6 kernel is booting" ++ [10]) [] ;;
     printf [10] [] ;;
     kmem kinit ;;
     kvminit ;;
     kvminithart ;;
     procinit ;;
     trapinit ;;
     trapinithart ;;
     plicinit ;;
     plicinithart ;;
     binit ;;
     iinit ;;
     fileinit ;;
     virtio_disk_init ;;
     userinit ;;
     modify (set_k_started true)
   else
     while (s ← load (inS k_started_l); mret (negb s)) (mret tt) ;;
     id ← cpuid;
     printf (bytes "hart %d starting" ++ [10]) [VInt id] ;;
     kvminithart ;;
     trapinithart ;;
     plicinithart) ;;
  scheduler.

End Code.
