(* ===== verification/Ring.v ===== *)
(** * Ring buffers with free-running counters

    Pipes, the console's input buffer and the UART's output buffer all keep
    two counters that only grow, wrapping at the width of their type, and use
    them modulo the size of the buffer.  This works because the size divides
    the width; here it is proved once. *)

From stdpp Require Import base numbers list list_numbers.
From Stdlib Require Import ZArith Lia.
From S2P Require Import Prelude.

Local Open Scope Z_scope.

Section Ring.
(** [M] is where the counters wrap, [N] the size of the buffer. *)
Context (M N : Z).
Implicit Types (buf : list Z) (r w : Z).

Definition rcount r w : Z := (w - r) `mod` M.
Definition rslot buf r (j : Z) : Z := nth (Z.to_nat ((r + j) `mod` N)) buf 0.
(** The elements between the counters, oldest first. *)
Definition rlist buf r w : list Z := rslot buf r <$> seqZ 0 (rcount r w).

Lemma length_rlist buf r w : length (rlist buf r w) = Z.to_nat (rcount r w).
Proof. unfold rlist. by rewrite length_fmap, length_seqZ. Qed.

Context (HN : 0 < N < M) (HD : (N | M)).

Lemma rcount_range r w : 0 <= rcount r w < M.
Proof. apply Z.mod_pos_bound. lia. Qed.

Lemma lookup_rlist buf r w j : 0 <= j < rcount r w -> rlist buf r w !! Z.to_nat j = Some (rslot buf r j).
Proof. intros Hj. unfold rlist. rewrite list_lookup_fmap, lookup_seqZ_lt by lia. simpl. do 2 f_equal. lia. Qed.

Lemma wrap_mod a : (a `mod` M) `mod` N = a `mod` N.
Proof. by apply Z.mod_mod_divide. Qed.

(** The slot the next element goes to. *)
Lemma next_slot r w : w `mod` N = (r + rcount r w) `mod` N.
Proof. unfold rcount. rewrite <- (Zplus_mod_idemp_r ((w - r) `mod` M)), wrap_mod, Zplus_mod_idemp_r. f_equal. lia. Qed.

Lemma slots_ne r c j : 0 <= j < c -> c < N -> (r + j) `mod` N <> (r + c) `mod` N.
Proof.
  intros Hj Hc E. assert (H : (c - j) `mod` N = 0).
  { replace (c - j) with ((r + c) - (r + j)) by lia. rewrite Zminus_mod, E, Z.sub_diag. by apply Z.mod_0_l; lia. }
  rewrite Z.mod_small in H by lia. lia.
Qed.

Lemma rcount_push r w : rcount r w + 1 < M -> rcount r ((w + 1) `mod` M) = rcount r w + 1.
Proof.
  intros H. pose proof (rcount_range r w) as Hr. unfold rcount in *. rewrite Zminus_mod_idemp_l.
  replace (w + 1 - r) with (w - r + 1) by lia. rewrite <- Zplus_mod_idemp_l. apply Z.mod_small. lia.
Qed.

Lemma rcount_pop r w : 0 < rcount r w -> rcount ((r + 1) `mod` M) w = rcount r w - 1.
Proof.
  intros H. pose proof (rcount_range r w) as Hr. unfold rcount in *. rewrite Zminus_mod_idemp_r.
  replace (w - (r + 1)) with (w - r - 1) by lia. rewrite <- Zminus_mod_idemp_l. apply Z.mod_small. lia.
Qed.

Lemma rcount_unpush r w : 0 < rcount r w -> rcount r ((w - 1) `mod` M) = rcount r w - 1.
Proof.
  intros H. pose proof (rcount_range r w) as Hr. unfold rcount in *. rewrite Zminus_mod_idemp_l.
  replace (w - 1 - r) with (w - r - 1) by lia. rewrite <- (Zminus_mod_idemp_l (w - r)). apply Z.mod_small. lia.
Qed.

(** [buf[w++ % N] = b] *)
Lemma rlist_push buf r w b :
  length buf = Z.to_nat N -> rcount r w < N ->
  rlist (<[Z.to_nat (w `mod` N) := b]> buf) r ((w + 1) `mod` M) = rlist buf r w ++ [b].
Proof.
  intros Hl Hc. pose proof (rcount_range r w) as Hr. unfold rlist. rewrite rcount_push, seqZ_app by lia. rewrite fmap_app, Z.add_0_l. f_equal.
  - apply list_fmap_ext. intros k j Hk. apply lookup_seqZ in Hk as [-> Hk]. rewrite Z.add_0_l. unfold rslot.
    rewrite !nth_lookup. f_equal. apply list_lookup_insert_ne. rewrite (next_slot r w).
    pose proof (slots_ne r (rcount r w) (Z.of_nat k) ltac:(lia) Hc) as Hne.
    pose proof (Z.mod_pos_bound (r + rcount r w) N ltac:(lia)). pose proof (Z.mod_pos_bound (r + Z.of_nat k) N ltac:(lia)). lia.
  - rewrite (seqZ_cons (rcount r w) 1) by lia. simpl. f_equal. unfold rslot.
    rewrite <- (next_slot r w), nth_lookup, list_lookup_insert_eq; [done|].
    pose proof (Z.mod_pos_bound w N ltac:(lia)). rewrite Hl. lia.
Qed.

(** [buf[r++ % N]] *)
Lemma rlist_pop buf r w : 0 < rcount r w -> rlist buf r w = rslot buf r 0 :: rlist buf ((r + 1) `mod` M) w.
Proof.
  intros Hc. unfold rlist. rewrite rcount_pop by done. rewrite (seqZ_cons 0 (rcount r w)) by lia. rewrite fmap_cons. f_equal.
  change (Z.succ 0) with (1 + 0). rewrite <- fmap_add_seqZ, <- list_fmap_compose. replace (Z.pred (rcount r w)) with (rcount r w - 1) by lia.
  apply list_fmap_ext. intros k j Hk. unfold rslot, compose. do 2 f_equal.
  rewrite <- (Zplus_mod_idemp_l ((r + 1) `mod` M)), wrap_mod, Zplus_mod_idemp_l. f_equal. lia.
Qed.

(** [w--] *)
Lemma rlist_unpush buf r w :
  0 < rcount r w -> rlist buf r w = rlist buf r ((w - 1) `mod` M) ++ [nth (Z.to_nat (((w - 1) `mod` M) `mod` N)) buf 0].
Proof.
  intros Hc. unfold rlist. rewrite rcount_unpush by done. replace (rcount r w) with (rcount r w - 1 + 1) at 1 by lia.
  rewrite seqZ_app by lia. rewrite fmap_app, Z.add_0_l, (seqZ_cons _ 1) by lia. cbn [fmap list_fmap]. do 2 f_equal. unfold rslot. do 2 f_equal.
  rewrite wrap_mod. pose proof (next_slot r w) as E. rewrite <- (Zminus_mod_idemp_l w), E, Zminus_mod_idemp_l. f_equal. lia.
Qed.

(** Two stretches in a row. *)
Lemma rlist_app buf r w e :
  rcount r w + rcount w e < M -> rlist buf r e = rlist buf r w ++ rlist buf w e /\ rcount r e = rcount r w + rcount w e.
Proof.
  intros H. pose proof (rcount_range r w). pose proof (rcount_range w e).
  assert (E : rcount r e = rcount r w + rcount w e).
  { unfold rcount in *. replace (e - r) with ((w - r) + (e - w)) by lia. rewrite Zplus_mod. apply Z.mod_small. lia. }
  split; [|done]. unfold rlist. rewrite E, seqZ_app, fmap_app by lia. f_equal. rewrite Z.add_0_l.
  replace (rcount r w) with (rcount r w + 0) at 1 by lia. rewrite <- fmap_add_seqZ, <- list_fmap_compose.
  apply list_fmap_ext. intros k j Hk. unfold rslot, compose. do 2 f_equal.
  rewrite Z.add_assoc, <- (Zplus_mod_idemp_l (r + rcount r w)), <- (next_slot r w), Zplus_mod_idemp_l. done.
Qed.

(** The tests of the code. *)
Lemma rlist_full r w : 0 <= w < M -> (w =? (r + N) `mod` M) = (rcount r w =? N).
Proof.
  intros Hw. apply eq_true_iff_eq. rewrite !Z.eqb_eq. unfold rcount. split; intros H.
  - rewrite H, Zminus_mod_idemp_l. replace (r + N - r) with N by lia. apply Z.mod_small. lia.
  - rewrite <- H, Zplus_mod_idemp_r. replace (r + (w - r)) with w by lia. symmetry. by apply Z.mod_small.
Qed.

Lemma rlist_empty r w : 0 <= r < M -> 0 <= w < M -> (r =? w) = (rcount r w =? 0).
Proof.
  intros Hr Hw. apply eq_true_iff_eq. rewrite !Z.eqb_eq. unfold rcount. split; intros H.
  - rewrite H, Z.sub_diag. apply Z.mod_0_l. lia.
  - assert (E : (r + (w - r)) `mod` M = r `mod` M) by (by rewrite <- Zplus_mod_idemp_r, H, Z.add_0_r).
    replace (r + (w - r)) with w in E by lia. rewrite !Z.mod_small in E by lia. done.
Qed.

Lemma rlist_nil buf r w : rcount r w = 0 -> rlist buf r w = [].
Proof. intros E. unfold rlist. by rewrite E. Qed.

Lemma rcount_self r : rcount r r = 0.
Proof. unfold rcount. rewrite Z.sub_diag. apply Z.mod_0_l. lia. Qed.

End Ring.
