(* ===== verification/FsSpec.v ===== *)
(** * The file system: layouts, paths, contents (kernel/fs.c)

    What the on-disk encodings, the path splitting and the inode operations
    of [Fs] compute.  Inside a transaction the logical contents of the disk
    are a function from block numbers to blocks ([txn]); the operations are
    specified by what they do to it. *)

From stdpp Require Import base numbers list list_numbers gmap strings.
From Stdlib Require Import ZArith Lia.
From S2P Require Import Prelude.
From S2P Require Import Machine.
From S2P Require Import Spinlock.
From S2P Require Import Mem.
From S2P Require Import Kalloc.
From S2P Require Import Kern.
From S2P Require Import Sched.
From S2P Require Import SleepLk.
From S2P Require Import Bio.
From S2P Require Import Log.
From S2P Require Import LogSpec.
From S2P Require Import LogOps.
From S2P Require Import UserMem.
From S2P Require Import Fs.

Local Open Scope Z_scope.

(** ** On-disk inodes *)

Definition short (x : Z) : Prop := - 2 ^ 15 <= x < 2 ^ 15.
Definition uint (x : Z) : Prop := 0 <= x < 2 ^ 32.

Record dinode_ok (di : dinode) : Prop := {
  di_ok_type : short (di_type di);
  di_ok_major : short (di_major di);
  di_ok_minor : short (di_minor di);
  di_ok_nlink : short (di_nlink di);
  di_ok_size : uint (di_size di);
  di_ok_len : length (di_addrs di) = 13%nat;
  di_ok_addrs : Forall uint (di_addrs di)
}.

Lemma i16_mod x : short x -> i16 (x `mod` 256 ^ Z.of_nat 2) = x.
Proof.
  unfold short, i16, sgn. change (256 ^ Z.of_nat 2) with (2 ^ 16). change (16 - 1) with 15. intros H.
  rewrite Zplus_mod_idemp_l. rewrite Z.mod_small by lia. lia.
Qed.

Lemma uint_mod x : uint x -> x `mod` 256 ^ Z.of_nat 4 = x.
Proof. change (256 ^ Z.of_nat 4) with (2 ^ 32). apply Z.mod_small. Qed.

Lemma dip_off_le inum : (dip_off inum + 64 <= Z.to_nat BSIZE)%nat.
Proof.
  unfold dip_off. change BSIZE with 1024. change DINODE_SIZE with 64.
  pose proof (Z.mod_pos_bound inum IPB ltac:(reflexivity)) as H. change IPB with 16 in *. lia.
Qed.

Lemma join_enc_cons n x l : mjoin (le_enc n <$> x :: l) = le_enc n x ++ mjoin (le_enc n <$> l).
Proof. done. Qed.

Lemma length_join_enc n l : length (mjoin (le_enc n <$> l)) = (n * length l)%nat.
Proof. induction l as [|x l IH]; [simpl; lia|]. rewrite join_enc_cons, length_app, length_le_enc, IH. simpl. lia. Qed.

Lemma slice_join_enc n l j x :
  l !! j = Some x -> slice (n * j) n (mjoin (le_enc n <$> l)) = le_enc n x.
Proof.
  revert j. induction l as [|y l IH]; intros j; [done|]. unfold slice in *. rewrite join_enc_cons. destruct j as [|j]; simpl lookup.
  - intros [= ->]. rewrite Nat.mul_0_r. rewrite drop_0, take_app_le by (by rewrite length_le_enc). apply take_ge. by rewrite length_le_enc.
  - intros Hj. rewrite drop_app_ge by (rewrite length_le_enc; lia). rewrite length_le_enc.
    replace (n * S j - n)%nat with (n * j)%nat by lia. by apply IH.
Qed.

Lemma slice_splice_in {A} off n k (d r : list A) :
  (off + length r <= length d)%nat -> (k + n <= length r)%nat ->
  slice (off + k) n (splice d off r) = slice k n r.
Proof.
  intros H1 H2. apply list_eq. intros j. unfold slice. destruct (decide (j < n)%nat) as [Hj|Hj].
  - rewrite !lookup_take_lt, !lookup_drop by done. rewrite lookup_splice_in by lia. f_equal. lia.
  - by rewrite !lookup_take_ge by lia.
Qed.

Lemma length_put_addrs o l d : (o + 4 * length l <= length d)%nat -> length (put_addrs o l d) = length d.
Proof. intros H. apply length_splice. by rewrite length_join_enc. Qed.

Lemma getn_put_addrs_ne n off o l d :
  (o + 4 * length l <= length d)%nat -> (off + n <= o \/ o + 4 * length l <= off)%nat ->
  getn n off (put_addrs o l d) = getn n off d.
Proof. intros H1 H2. unfold getn, put_addrs. by rewrite slice_splice_ne by (rewrite length_join_enc; lia). Qed.

Lemma getn_put_addrs o l d j x :
  (o + 4 * length l <= length d)%nat -> l !! j = Some x -> uint x ->
  getn 4 (o + 4 * j) (put_addrs o l d) = x.
Proof.
  intros H Hj Hx. pose proof (lookup_lt_Some _ _ _ Hj). unfold getn, put_addrs.
  rewrite slice_splice_in by (rewrite length_join_enc; lia). rewrite (slice_join_enc 4 l j x Hj), le_dec_enc. by apply uint_mod.
Qed.

(** Bounds on offsets in a block some of whose fields were stored. *)
Ltac putlen := first [lia | rewrite length_putn by putlen; putlen | rewrite length_put_addrs by putlen; putlen].

Lemma length_put_dinode inum di d :
  dinode_ok di -> length d = Z.to_nat BSIZE -> length (put_dinode inum di d) = length d.
Proof.
  intros Hok Hd. pose proof (dip_off_le inum). unfold put_dinode. set (o := dip_off inum) in *.
  pose proof (di_ok_len _ Hok). putlen.
Qed.

Lemma get_put_dinode inum di d :
  dinode_ok di -> length d = Z.to_nat BSIZE -> get_dinode inum (put_dinode inum di d) = di.
Proof.
  intros [H1 H2 H3 H4 H5 H6 H7] Hd. pose proof (dip_off_le inum) as Ho. unfold get_dinode, put_dinode.
  set (o := dip_off inum) in *. destruct di as [t ma mi nl sz ad]; cbn [di_type di_major di_minor di_nlink di_size di_addrs] in *.
  f_equal.
  1-5: repeat first
    [ rewrite getn_put_addrs_ne; [|putlen|lia]
    | rewrite getn_putn_eq; [first [by apply i16_mod|by apply uint_mod]|putlen]
    | rewrite getn_putn_ne; [|putlen|lia] ].
  apply list_eq. intros j. rewrite list_lookup_fmap. destruct (decide (j < 13)%nat) as [Hj|Hj].
  - rewrite lookup_seq_lt by done. simpl. destruct (lookup_lt_is_Some_2 ad j) as [x Hx]; [lia|]. rewrite Hx. f_equal.
    apply getn_put_addrs; [putlen|done|by eapply Forall_lookup_1].
  - rewrite lookup_seq_ge by lia. symmetry. apply lookup_ge_None. lia.
Qed.

Lemma getn_put_dinode_ne n off inum di d :
  dinode_ok di -> length d = Z.to_nat BSIZE ->
  (off + n <= dip_off inum \/ dip_off inum + 64 <= off)%nat ->
  getn n off (put_dinode inum di d) = getn n off d.
Proof.
  intros Hok Hd Hoff. pose proof (dip_off_le inum) as Ho. pose proof (di_ok_len _ Hok) as Hl. unfold put_dinode.
  set (o := dip_off inum) in *. rewrite getn_put_addrs_ne; [|putlen|lia].
  repeat (rewrite getn_putn_ne; [|putlen|lia]). done.
Qed.

(** The slots of two different inodes of a block do not overlap. *)
Lemma dip_off_disj i j :
  i `mod` IPB <> j `mod` IPB -> (dip_off i + 64 <= dip_off j \/ dip_off j + 64 <= dip_off i)%nat.
Proof.
  unfold dip_off. change DINODE_SIZE with 64. change IPB with 16. intros H.
  pose proof (Z.mod_pos_bound i 16 ltac:(lia)). pose proof (Z.mod_pos_bound j 16 ltac:(lia)). lia.
Qed.

Lemma get_put_dinode_ne i j di d :
  dinode_ok di -> length d = Z.to_nat BSIZE -> i `mod` IPB <> j `mod` IPB ->
  get_dinode j (put_dinode i di d) = get_dinode j d.
Proof.
  intros Hok Hd Hij. pose proof (dip_off_disj i j Hij) as Hdis. unfold get_dinode. f_equal.
  1-5: by rewrite getn_put_dinode_ne by (done || lia).
  apply list_fmap_ext. intros k x Hx. apply lookup_seq in Hx as [-> Hk]. apply getn_put_dinode_ne; [done..|lia].
Qed.

(** ** Paths *)

(** The reference: the maximal runs of bytes other than '/'. *)
Definition elements (path : list Z) : list (list Z) := filter (fun e => e <> []) (split_on slash path).

Lemma elements_slash path : elements (slash :: path) = elements path.
Proof. done. Qed.

Lemma elements_skip path : elements (skip_slashes path) = elements path.
Proof.
  induction path as [|c path IH]; [done|]. cbn [skip_slashes]. destruct (Z.eqb_spec c slash) as [->|]; [|done].
  by rewrite elements_slash.
Qed.

Lemma skip_head path c r : skip_slashes path = c :: r -> c <> slash.
Proof.
  induction path as [|x path IH]; [done|]. cbn [skip_slashes]. destruct (Z.eqb_spec x slash) as [->|]; [done|].
  by intros [= -> ->].
Qed.

(** One run and what follows it. *)
Lemma elem_end_split l a b : elem_end l = (a, b) ->
  l = a ++ b /\ (slash ∉ a) /\ (exists t, split_on slash l = a :: t /\ filter (fun e => e <> []) t = elements b).
Proof.
  revert a b. induction l as [|c l IH]; intros a b; simpl.
  - intros [= <- <-]. split_and!; [done|set_solver|by exists []].
  - destruct (Z.eqb_spec c slash) as [->|Hc].
    + intros [= <- <-]. split_and!; [done|set_solver|]. exists (split_on slash l). by rewrite elements_slash.
    + destruct (elem_end l) as [a' b'] eqn:E. intros [= <- <-]. destruct (IH _ _ eq_refl) as (-> & Hn & t & Ht & Hf).
      split_and!; [done|set_solver|]. exists t. by rewrite Ht.
Qed.

Lemma elements_cons l a b : elem_end l = (a, b) -> a <> [] -> elements l = a :: elements b.
Proof.
  intros E Ha. destruct (elem_end_split _ _ _ E) as (_ & _ & t & Ht & Hf). unfold elements at 1.
  by rewrite Ht, filter_cons_True, Hf.
Qed.

Lemma elem_end_head c r a b : c <> slash -> elem_end (c :: r) = (a, b) -> a <> [].
Proof. intros Hc. simpl. rewrite (proj2 (Z.eqb_neq _ _) Hc). by destruct (elem_end r); intros [= <- <-]. Qed.

Lemma elements_skip_nil path : elements path = [] <-> skip_slashes path = [].
Proof.
  rewrite <- (elements_skip path). split; [|by intros ->].
  destruct (skip_slashes path) as [|c r] eqn:E; [done|]. apply skip_head in E.
  destruct (elem_end (c :: r)) as [a b] eqn:Ee. pose proof (elem_end_head _ _ _ _ E Ee) as Ha. by rewrite (elements_cons _ _ _ Ee Ha).
Qed.

(** The bytes stored in the name array. *)
Definition name_bytes (s : list Z) : list Z :=
  if DIRSIZ <=? Z.of_nat (length s) then take (Z.to_nat DIRSIZ) s else s ++ [0].

Lemma name_bytes_ok s name :
  0 ∉ s -> length name = Z.to_nat DIRSIZ ->
  length (splice name 0 (name_bytes s)) = Z.to_nat DIRSIZ /\
  cstring (splice name 0 (name_bytes s)) = take (Z.to_nat DIRSIZ) s.
Proof.
  change DIRSIZ with 14. intros Hs Hn. unfold name_bytes. change DIRSIZ with 14. destruct (Z.leb_spec 14 (Z.of_nat (length s))).
  - rewrite splice_all by (rewrite length_take; lia). rewrite length_take. split; [lia|].
    apply cstring_full. intros Hin. apply Hs. rewrite <- (take_drop (Z.to_nat 14) s). set_solver.
  - rewrite length_splice by (rewrite length_app; simpl; lia). split; [done|].
    unfold splice. simpl. rewrite <- app_assoc. simpl. rewrite cstring_app by done. by rewrite take_ge by lia.
Qed.

Lemma skipelem_spec path name :
  0 ∉ path -> length name = Z.to_nat DIRSIZ ->
  match elements path with
  | [] => skipelem path name = None
  | e :: es => exists rest name', skipelem path name = Some (rest, name') /\ elements rest = es /\
      (rest = [] <-> es = []) /\ (0 ∉ rest) /\ length name' = Z.to_nat DIRSIZ /\ cstring name' = take (Z.to_nat DIRSIZ) e
  end.
Proof.
  intros Hp Hn. destruct (elements path) as [|e es] eqn:E.
  - apply elements_skip_nil in E. unfold skipelem. by rewrite E.
  - unfold skipelem. destruct (skip_slashes path) as [|c r] eqn:Es.
    { apply elements_skip_nil in Es. congruence. }
    assert (Hsub : forall z, z ∈ c :: r -> z ∈ path).
    { intros z. rewrite <- Es. clear. induction path as [|x p IH]; [done|]. simpl. case_match; set_solver. }
    pose proof (skip_head _ _ _ Es) as Hc. destruct (elem_end (c :: r)) as [a b] eqn:Ee.
    pose proof (elem_end_head _ _ _ _ Hc Ee) as Ha. rewrite <- elements_skip, Es, (elements_cons _ _ _ Ee Ha) in E.
    injection E as <- <-. destruct (elem_end_split _ _ _ Ee) as (Hcr & _ & _). rewrite Hcr in Hsub.
    assert (Hna : 0 ∉ a) by (intros H0; apply Hp, Hsub; set_solver).
    assert (Hnb : 0 ∉ skip_slashes b).
    { intros H0. apply Hp, Hsub, elem_of_app. right. clear -H0. induction b as [|x b IH]; [done|]. simpl in H0. case_match; set_solver. }
    destruct (name_bytes_ok a name Hna Hn) as [L U].
    eexists (skip_slashes b), (splice name 0 (name_bytes a)).
    split; [unfold name_bytes; by destruct (DIRSIZ <=? _)|]. rewrite elements_skip. split; [done|]. split; [split; intros H; by apply elements_skip_nil|done].
Qed.

(** ** Inodes in memory and their contents *)

Definition inodes (s : kern) : list inode := it_inode (k_itable s).

Lemma ld_inode_run c s ip x : inodes s !! ip = Some x -> ld_inode ip (c, s) = Ret x (c, s).
Proof. intros H. by apply load_some. Qed.

Lemma bd_frame_inodes s s' : bd_frame s s' -> inodes s' = inodes s.
Proof. intros ->. done. Qed.

Lemma log_frame_inodes s s' : log_frame s s' -> inodes s' = inodes s.
Proof. intros ->. done. Qed.

(** The disk block of the file's block [bn], as addrs[] and the indirect
    block record it. *)
Definition blk (V : Z -> list Z) (x : inode) (bn : Z) : Z :=
  if bn <? NDIRECT then nth (Z.to_nat bn) (i_addrs x) 0
  else getn 4 (Z.to_nat (4 * (bn - NDIRECT))) (V (nth (Z.to_nat NDIRECT) (i_addrs x) 0)).

Definition mapped (V : Z -> list Z) (x : inode) (bn : Z) : Prop :=
  0 <= bn < MAXFILE /\ blk V x bn <> 0 /\ (NDIRECT <= bn -> nth (Z.to_nat NDIRECT) (i_addrs x) 0 <> 0).

(** Bytes [off] .. [off + n - 1] of the file. *)
Definition fbyte (V : Z -> list Z) (x : inode) (k : Z) : Z := nth (Z.to_nat (k `mod` BSIZE)) (V (blk V x (k / BSIZE))) 0.
Definition fdata (V : Z -> list Z) (x : inode) (off n : Z) : list Z := (fun j => fbyte V x (off + j)) <$> seqZ 0 n.

Lemma fdata_nil V x off : fdata V x off 0 = [].
Proof. done. Qed.

Lemma length_fdata V x off n : length (fdata V x off n) = Z.to_nat n.
Proof. unfold fdata. by rewrite length_fmap, length_seqZ. Qed.

Lemma lookup_fdata V x off n k :
  0 <= n -> (k < Z.to_nat n)%nat -> fdata V x off n !! k = Some (fbyte V x (off + Z.of_nat k)).
Proof. intros Hn Hk. unfold fdata. rewrite list_lookup_fmap, lookup_seqZ_lt by lia. done. Qed.

Lemma fdata_app V x off n m :
  0 <= n -> 0 <= m -> fdata V x off (n + m) = fdata V x off n ++ fdata V x (off + n) m.
Proof.
  intros Hn Hm. apply list_eq. intros k. destruct (decide (k < Z.to_nat (n + m))%nat) as [Hk|Hk].
  - rewrite lookup_fdata by lia. destruct (decide (k < Z.to_nat n)%nat).
    + rewrite lookup_app_l by (rewrite length_fdata; lia). by rewrite lookup_fdata by lia.
    + rewrite lookup_app_r by (rewrite length_fdata; lia). rewrite length_fdata, lookup_fdata by lia. do 2 f_equal. lia.
  - rewrite !lookup_ge_None_2; [done| |]; rewrite ?length_app, ?length_fdata; lia.
Qed.

(** What one round of the loops covers. *)
Lemma fdata_slice V x off m :
  0 <= off -> 0 <= m -> off `mod` BSIZE + m <= BSIZE -> length (V (blk V x (off / BSIZE))) = Z.to_nat BSIZE ->
  slice (Z.to_nat (off `mod` BSIZE)) (Z.to_nat m) (V (blk V x (off / BSIZE))) = fdata V x off m.
Proof.
  intros Ho Hm Hle Hlen. pose proof (Z.mod_pos_bound off BSIZE ltac:(reflexivity)) as Hb.
  apply list_eq. intros k. destruct (decide (k < Z.to_nat m)%nat) as [Hk|Hk].
  - rewrite lookup_fdata by lia. unfold slice. rewrite lookup_take_lt, lookup_drop by done. unfold fbyte.
    assert (E : (off + Z.of_nat k) / BSIZE = off / BSIZE /\ (off + Z.of_nat k) `mod` BSIZE = off `mod` BSIZE + Z.of_nat k).
    { pose proof (Z.div_mod off BSIZE ltac:(done)). split.
      - symmetry. apply (Z.div_unique_pos _ _ _ (off `mod` BSIZE + Z.of_nat k)); lia.
      - symmetry. apply (Z.mod_unique_pos _ _ (off / BSIZE)); lia. }
    destruct E as [-> ->]. rewrite Z2Nat.inj_add, Nat2Z.id by lia.
    destruct (lookup_lt_is_Some_2 (V (blk V x (off / BSIZE))) (Z.to_nat (off `mod` BSIZE) + k)) as [v Hv]; [lia|].
    rewrite Hv. f_equal. symmetry. by apply nth_lookup_Some.
  - rewrite !lookup_ge_None_2; [done| |].
    + rewrite length_fdata. lia.
    + unfold slice. rewrite length_take. lia.
Qed.

Section Contents.
Context {LY : Layout} {BD : BlockDev} {BO : BlockDevOk BD}.

(** Reading block [bno] and doing something with its contents that leaves the
    cache alone. *)
Lemma bread_body pid s V X bno c i (A : Type) (body : nat -> K kern A) (Q : A -> ctx * kern -> Prop) :
  bio_ok pid s V X ∅ -> kctx c i pid -> (size X < Z.to_nat NBUF)%nat ->
  (forall b bf c' s', kctx c' i pid -> bd_frame s s' -> k_disk s' = k_disk s -> bufs s' !! b = Some bf -> b_data bf = V bno ->
     length (V bno) = Z.to_nat BSIZE ->
     bio_ok pid s' V X {[b := bno]} -> wp bd_env (body b) Q (c', s')) ->
  wp bd_env (b ← bread ROOTDEV bno; body b) Q (c, s).
Proof.
  intros B Hc Hs HQ. apply wp_bind. apply (bread_wp pid s V X ∅ bno c i _ B Hc); [by intros j|right; rewrite map_size_empty; lia|].
  intros b bf c1 Hc1 _ [z Hz] Hok s1 B1. apply (HQ b bf); [done|apply bd_frame_bufs|done|by eapply bufs_insert_eq|apply Hok| |done].
  destruct Hok as (_ & Hl & _ & _ & _ & Hd & _). by rewrite <- Hd.
Qed.

(** brelse() of the only locked buffer, its contents not changed. *)
Lemma brelse_body pid s V X b bno c i (A : Type) (k : unit -> K kern A) (Q : A -> ctx * kern -> Prop) :
  bio_ok pid s V X {[b := bno]} -> kctx c i pid -> bno ∈ X \/ V bno = disk_get (k_disk s) bno ->
  (forall c' s', kctx c' i pid -> bd_frame s s' -> k_disk s' = k_disk s -> bio_ok pid s' V X ∅ -> wp bd_env (k tt) Q (c', s')) ->
  wp bd_env (brelse b ≫= k) Q (c, s).
Proof.
  intros B Hc Hd HQ. destruct (brelse_run pid s V X _ b bno c i B Hc ltac:(apply lookup_insert_eq) Hd) as (c' & bc & R & Hc' & B').
  eapply wp_step; [exact R|]. rewrite delete_singleton_eq in B'. apply HQ; [done|apply bd_frame_bc|done|done].
Qed.

(** A block that is not being written has its contents on the disk or
    pinned. *)
Lemma bio_disk pid s V X bno : bio_ok pid s V X ∅ -> bno ∈ X \/ V bno = disk_get (k_disk s) bno.
Proof. intros B. destruct (decide (bno ∈ X)); [by left|right]. apply (bo_clean _ _ _ _ _ B); [done|]. intros j. by rewrite lookup_empty. Qed.

Lemma bmap_mapped pid s V X ip x bn c i (Q : Z -> ctx * kern -> Prop) :
  bio_ok pid s V X ∅ -> kctx c i pid -> (size X < Z.to_nat NBUF)%nat ->
  inodes s !! ip = Some x -> i_dev x = ROOTDEV -> mapped V x bn ->
  (forall c' s', kctx c' i pid -> bd_frame s s' -> k_disk s' = k_disk s -> bio_ok pid s' V X ∅ -> Q (blk V x bn) (c', s')) ->
  wp bd_env (bmap ip bn) Q (c, s).
Proof.
  intros B Hc Hs Hx Hdev (Hr & Hnz & Hind) HQ. unfold bmap. eapply wp_step; [by apply ld_inode_run|].
  unfold blk in *. destruct (Z.ltb_spec bn NDIRECT) as [Hbn|Hbn].
  - rewrite (proj2 (Z.eqb_neq _ _)) by done. apply wp_ret, HQ; [done|apply bd_frame_refl|done|done].
  - rewrite (proj2 (Z.ltb_lt _ _)) by (unfold MAXFILE in Hr; lia). rewrite (proj2 (Z.eqb_neq _ 0)) by (by apply Hind).
    apply wp_bind, wp_ret. rewrite Hdev. set (a := nth (Z.to_nat NDIRECT) (i_addrs x) 0) in *.
    apply (bread_body pid s V X a c i); [done..|]. intros b bf c1 s1 Hc1 F1 D1 Hb Hd _ B1.
    eapply wp_step; [by apply ld_buf_run|]. cbv zeta. rewrite Hd. rewrite (proj2 (Z.eqb_neq _ 0)) by done. apply wp_bind, wp_ret.
    apply (brelse_body pid s1 V X b a c1 i); [done..|rewrite D1; by eapply bio_disk|]. intros c2 s2 Hc2 F2 D2 B2.
    apply wp_ret, HQ; [done|by eapply bd_frame_trans|congruence|done].
Qed.

Lemma either_copyout_local bs src c s i pid :
  kctx c i pid -> exists c', either_copyout (DLocal bs) src (c, s) = Ret (DLocal (bs ++ src), 0) (c', s) /\ kctx c' i pid.
Proof.
  intros Hc. unfold either_copyout. rewrite (bind_ret _ _ _ _ _ (myproc_run (c, s) (co_cpu _ _ _ (kc_ok _ _ _ Hc)))).
  eexists. split; [reflexivity|]. by apply kctx_settled.
Qed.

(** Every block of bytes [off] .. [off + n - 1] is allocated. *)
Definition range_mapped (V : Z -> list Z) (x : inode) (off n : Z) : Prop :=
  forall k, off <= k < off + n -> mapped V x (k / BSIZE).

Lemma range_mapped_step V x off n m : 0 <= m <= n -> range_mapped V x off n -> range_mapped V x (off + m) (n - m).
Proof. intros Hm H k Hk. apply H. lia. Qed.

(** The length of a round. *)
Lemma chunk_bounds off l m : 0 <= off -> 0 < l -> m = Z.min l (BSIZE - off `mod` BSIZE) -> 0 < m <= l /\ off `mod` BSIZE + m <= BSIZE.
Proof. intros Ho Hl ->. pose proof (Z.mod_pos_bound off BSIZE ltac:(reflexivity)). lia. Qed.

Lemma readi_loop_wp pid V X ip x i fuel : forall s c bs off n tot (Q : kdst * Z -> ctx * kern -> Prop),
  bio_ok pid s V X ∅ -> kctx c i pid -> (size X < Z.to_nat NBUF)%nat ->
  inodes s !! ip = Some x -> i_dev x = ROOTDEV -> 0 <= off -> 0 <= tot <= n -> off + (n - tot) < 2 ^ 32 ->
  range_mapped V x off (n - tot) -> n - tot < Z.of_nat fuel ->
  (forall c' s', kctx c' i pid -> bd_frame s s' -> k_disk s' = k_disk s -> bio_ok pid s' V X ∅ ->
     Q (DLocal (bs ++ fdata V x off (n - tot)), n) (c', s')) ->
  wp bd_env (readi_loop fuel ip (DLocal bs) off n tot) Q (c, s).
Proof.
  induction fuel as [|fuel IH]; intros s c bs off n tot Q B Hc Hs Hx Hdev Hoff Htot H32 Hmap Hf HQ; [lia|].
  cbn [readi_loop]. destruct (Z.ltb_spec tot n) as [Hlt|Hge]; cbn [negb]; cycle 1.
  { apply wp_ret. replace tot with n in * by lia. rewrite Z.sub_diag, fdata_nil, app_nil_r in HQ. apply HQ; [done|apply bd_frame_refl|done|done]. }
  eapply wp_step; [by apply ld_inode_run|]. apply wp_bind. apply (bmap_mapped pid s V X ip x (off / BSIZE) c i); [done..| |].
  { apply Hmap. lia. }
  intros c1 s1 Hc1 F1 D1 B1. rewrite Hdev. apply (bread_body pid s1 V X _ c1 i); [done..|].
  intros b bf c2 s2 Hc2 F2 D2 Hb Hd Hlen B2. cbv zeta.
  set (m := Z.min (n - tot) (BSIZE - off `mod` BSIZE)). destruct (chunk_bounds off (n - tot) m Hoff ltac:(lia) eq_refl) as [Hm Hmb].
  eapply wp_step; [by apply ld_buf_run|]. rewrite Hd, (fdata_slice V x off m) by (done || lia).
  destruct (either_copyout_local bs (fdata V x off m) c2 s2 i pid Hc2) as (c3 & R3 & Hc3). eapply wp_step; [exact R3|]. cbn [fst snd].
  change (0 =? -1) with false. cbn [dst_add].
  apply (brelse_body pid s2 V X b (blk V x (off / BSIZE)) c3 i); [done..|rewrite D2; by eapply bio_disk|]. intros c4 s4 Hc4 F4 D4 B4.
  assert (F : bd_frame s s4) by (eapply bd_frame_trans; [done|by eapply bd_frame_trans]).
  rewrite u32_small by lia. apply IH; [done..|by rewrite (bd_frame_inodes s s4)|done|lia|lia|lia| |lia|].
  - replace (n - (tot + m)) with (n - tot - m) by lia. apply range_mapped_step; [lia|done].
  - intros c5 s5 Hc5 F5 D5 B5. rewrite <- app_assoc. replace (n - (tot + m)) with (n - tot - m) by lia.
    rewrite <- fdata_app by lia. replace (m + (n - tot - m)) with (n - tot) by lia.
    apply HQ; [done|by eapply bd_frame_trans|congruence|done].
Qed.

(** How many bytes readi() can deliver. *)
Definition read_len (size off n : Z) : Z :=
  if (size <? off) || (2 ^ 32 <=? off + n) then 0 else Z.min n (size - off).

Lemma readi_wp pid V X ip x i s c off n (Q : kdst * Z -> ctx * kern -> Prop) :
  bio_ok pid s V X ∅ -> kctx c i pid -> (size X < Z.to_nat NBUF)%nat ->
  inodes s !! ip = Some x -> i_dev x = ROOTDEV -> uint off -> uint n -> 0 <= i_size x < 2 ^ 31 ->
  range_mapped V x 0 (i_size x) ->
  (forall c' s', kctx c' i pid -> bd_frame s s' -> k_disk s' = k_disk s -> bio_ok pid s' V X ∅ ->
     Q (DLocal (fdata V x off (read_len (i_size x) off n)), read_len (i_size x) off n) (c', s')) ->
  wp bd_env (readi ip (DLocal []) off n) Q (c, s).
Proof.
  intros B Hc Hs Hx Hdev Hoff Hn Hsz Hmap HQ. unfold uint in *. unfold readi. eapply wp_step; [by apply ld_inode_run|].
  unfold read_len in HQ. destruct (Z.ltb_spec (i_size x) off) as [Hso|Hso]; cbn [orb] in *.
  { apply wp_ret. apply HQ; [done|apply bd_frame_refl|done|done]. }
  destruct (Z.leb_spec (2 ^ 32) (off + n)) as [Hov|Hov].
  { assert (E : u32 (off + n) = off + n - 2 ^ 32) by (unfold u32; symmetry; apply (Z.mod_unique_pos _ _ 1); lia).
    rewrite E, (proj2 (Z.ltb_lt _ off)) by lia. apply wp_ret. apply HQ; [done|apply bd_frame_refl|done|done]. }
  rewrite (u32_small (off + n)), (proj2 (Z.ltb_ge _ off)) by lia. cbv zeta.
  assert (E : (if i_size x <? off + n then i_size x - off else n) = Z.min n (i_size x - off)) by (destruct (Z.ltb_spec (i_size x) (off + n)); lia).
  rewrite E. set (l := Z.min n (i_size x - off)) in *. apply wp_bind.
  apply (readi_loop_wp pid V X ip x i _ s c [] off l 0); [done..|lia|lia|lia| |lia|].
  { intros k Hk. apply Hmap. lia. }
  intros c1 s1 Hc1 F1 D1 B1. apply wp_ret. rewrite Z.sub_0_r. cbn [fst snd app]. rewrite i32_small by lia. by apply HQ.
Qed.

(** ** Transactions

    Between begin_op() and end_op(): [V] is the logical contents of the disk
    and [bl] the blocks logged so far. *)
Context (r : region).

Record tlog (s : kern) (bl : list Z) : Prop := {
  tl_log : log_at r (k_log s) bl;
  tl_lock : lock_free (lg_lock (k_log s));
  tl_out : 1 <= lg_outstanding (k_log s);
  tl_range : forall b, b ∈ bl -> 0 <= b < 2 ^ 31
}.
Definition txn (pid : Z) (s : kern) (V : Z -> list Z) (bl : list Z) : Prop :=
  bio_ok pid s V (list_to_set bl) ∅ /\ tlog s bl.

(** The log has room for [n] more blocks. *)
Definition room (bl : list Z) (n : Z) : Prop :=
  Z.of_nat (length bl) + n <= LOGSIZE /\ Z.of_nat (length bl) + n <= rg_size r - 1.

Lemma room_add bl n bno : room bl (n + 1) -> room (log_add bno bl) n.
Proof. unfold room, log_add. case_bool_decide; rewrite ?length_app; simpl; lia. Qed.

Lemma room_le bl n m : m <= n -> room bl n -> room bl m.
Proof. unfold room. lia. Qed.

Lemma room_bufs bl n : 1 <= n -> room bl n -> (size (list_to_set bl : gset Z) < Z.to_nat NBUF)%nat.
Proof.
  intros Hn [H _]. assert (Hs : (size (list_to_set bl : gset Z) <= length bl)%nat).
  { clear. induction bl as [|b bl IH]; [by rewrite list_to_set_nil, size_empty|].
    rewrite list_to_set_cons, size_union_alt, size_singleton. cbn [length].
    assert ((size (list_to_set bl ∖ {[b]} : gset Z) <= size (list_to_set bl : gset Z))%nat) by (apply subseteq_size; set_solver). lia. }
  change NBUF with 30. change LOGSIZE with 30 in H. lia.
Qed.

Lemma tlog_frame s s' bl : tlog s bl -> bd_frame s s' -> tlog s' bl.
Proof. intros [T2 T3 T4 T5] F. assert (E : k_log s' = k_log s) by (by rewrite F). by split; rewrite ?E. Qed.

(** log_write() and brelse() of the only locked buffer, just modified. *)
Lemma log_write_body pid s V bl b bno c i (A : Type) (k : unit -> K kern A) (Q : A -> ctx * kern -> Prop) :
  bio_ok pid s V (list_to_set bl) {[b := bno]} -> kctx c i pid -> tlog s bl -> 0 <= bno < 2 ^ 31 -> room bl 1 ->
  (forall c' s', kctx c' i pid -> log_frame s s' -> txn pid s' V (log_add bno bl) -> wp bd_env (k tt) Q (c', s')) ->
  wp bd_env (log_write b ;; (brelse b ≫= k)) Q (c, s).
Proof.
  intros B Hc [Hlg Hf Hout Hr] Hbno [R1 R2] HQ.
  destruct (log_write_run r pid s V _ b bno bl c B (co_cpu _ _ _ (kc_ok _ _ _ Hc)) ltac:(apply lookup_insert_eq) Hlg Hr Hbno Hf Hout) as (s1 & E1 & F1 & _ & (lh & Elg) & Hlg1 & B1); [lia..|].
  eapply wp_step; [exact E1|]. assert (Hin : bno ∈ log_add bno bl) by (unfold log_add; case_bool_decide; [done|set_solver]).
  apply (brelse_body pid s1 V (list_to_set (log_add bno bl)) b bno _ i); [done|by apply kctx_settled|left; by apply elem_of_list_to_set|].
  intros c2 s2 Hc2 F2 D2 B2. apply HQ; [done|eapply log_frame_trans; [done|by apply log_frame_bd]|].
  assert (E : k_log s2 = k_log s1) by (by rewrite F2). split; [done|]. split; rewrite ?E; try done.
  - by rewrite Elg.
  - by rewrite Elg.
  - intros z. unfold log_add. case_bool_decide; [by apply Hr|]. rewrite elem_of_app, list_elem_of_singleton. intros [Hz| ->]; [by apply Hr|done].
Qed.

(** Replace the contents of the locked buffer by [d], log and release it. *)
Lemma bmodify_wp pid s V bl b bno bf d c i (A : Type) (f : buf -> buf) (k : unit -> K kern A) (Q : A -> ctx * kern -> Prop) :
  bio_ok pid s V (list_to_set bl) {[b := bno]} -> bufs s !! b = Some bf -> tlog s bl -> kctx c i pid -> room bl 1 -> 0 <= bno < 2 ^ 31 ->
  f bf = set_b_data d bf -> length d = Z.to_nat BSIZE ->
  (forall c' s', kctx c' i pid -> log_frame s s' -> txn pid s' (vset bno d V) (log_add bno bl) -> wp bd_env (k tt) Q (c', s')) ->
  wp bd_env (up_buf b f ;; log_write b ;; (brelse b ≫= k)) Q (c, s).
Proof.
  intros B Hb T Hc Hr Hbno Hf Hd HQ. eapply wp_step; [by apply up_buf_run|]. rewrite Hf.
  assert (HL : ({[b := bno]} : gmap nat Z) !! b = Some bno) by apply lookup_insert_eq.
  pose proof (set_data_ok pid s V _ _ b bno d bf B HL Hb Hd) as B2.
  set (s2 := upd_bufs _ s) in *. assert (F : bd_frame s s2) by apply bd_frame_bufs.
  apply (log_write_body pid s2 (vset bno d V) bl b bno c i); [done|done|by eapply tlog_frame|done|done|].
  intros c3 s3 Hc3 F3 T3'. apply HQ; [done| |done]. eapply log_frame_trans; [|done]. by apply log_frame_bd.
Qed.

Lemma bmodify_end pid s V bl b bno bf d c i (f : buf -> buf) (Q : unit -> ctx * kern -> Prop) :
  bio_ok pid s V (list_to_set bl) {[b := bno]} -> bufs s !! b = Some bf -> tlog s bl -> kctx c i pid -> room bl 1 -> 0 <= bno < 2 ^ 31 ->
  f bf = set_b_data d bf -> length d = Z.to_nat BSIZE ->
  (forall c' s', kctx c' i pid -> log_frame s s' -> txn pid s' (vset bno d V) (log_add bno bl) -> Q tt (c', s')) ->
  wp bd_env (up_buf b f ;; log_write b ;; brelse b) Q (c, s).
Proof.
  intros B Hb T Hc Hr Hbno Hf Hd HQ.
  assert (H : wp bd_env (up_buf b f ;; log_write b ;; (brelse b ≫= mret)) Q (c, s)) by (by eapply bmodify_wp).
  apply wp_bind in H. apply wp_bind. eapply wp_mono; [exact H|]. intros [] w H1.
  apply wp_bind in H1. apply wp_bind. eapply wp_mono; [exact H1|]. intros [] w1 H2.
  apply wp_bind in H2. eapply wp_mono; [exact H2|]. by intros [] w2.
Qed.

(** Read a block, replace its contents, log and release it. *)
Lemma bupdate_wp pid s V bl bno d c i (A : Type) (f : buf -> buf) (k : unit -> K kern A) (Q : A -> ctx * kern -> Prop) :
  txn pid s V bl -> kctx c i pid -> room bl 1 -> 0 <= bno < 2 ^ 31 ->
  (forall bf, b_data bf = V bno -> f bf = set_b_data d bf) -> (length (V bno) = Z.to_nat BSIZE -> length d = Z.to_nat BSIZE) ->
  (forall c' s', kctx c' i pid -> log_frame s s' -> txn pid s' (vset bno d V) (log_add bno bl) -> wp bd_env (k tt) Q (c', s')) ->
  wp bd_env (b ← bread ROOTDEV bno; up_buf b f ;; log_write b ;; (brelse b ≫= k)) Q (c, s).
Proof.
  intros [B T] Hc Hr Hbno Hf Hd HQ. apply (bread_body pid s V (list_to_set bl) bno c i); [done..|by apply (room_bufs bl 1)|].
  intros b bf c1 s1 Hc1 F1 D1 Hb Hdat Hlen B1.
  apply (bmodify_wp pid s1 V bl b bno bf d c1 i); [done|done|by eapply tlog_frame|done|done|done|auto|auto|].
  intros c3 s3 Hc3 F3 T3. apply HQ; [done| |done]. eapply log_frame_trans; [|done]. by apply log_frame_bd.
Qed.

(** The data blocks of a file are distinct, and none is its indirect block. *)
Record layout_ok (V : Z -> list Z) (x : inode) (off n : Z) : Prop := {
  lo_mapped : range_mapped V x off n;
  lo_range : forall k, off <= k < off + n -> 0 <= blk V x (k / BSIZE) < 2 ^ 31;
  lo_inj : forall k k', off <= k < off + n -> mapped V x k' -> blk V x (k / BSIZE) = blk V x k' -> k / BSIZE = k';
  lo_ind : forall k, off <= k < off + n -> blk V x (k / BSIZE) <> nth (Z.to_nat NDIRECT) (i_addrs x) 0
}.

(** [V'] is [V] with [bs] stored at offset [off] of the file. *)
Record stored (V V' : Z -> list Z) (x : inode) (off : Z) (bs : list Z) : Prop := {
  sd_blk : forall bn, blk V' x bn = blk V x bn;
  sd_in : forall k, off <= k < off + Z.of_nat (length bs) -> fbyte V' x k = nth (Z.to_nat (k - off)) bs 0;
  sd_out : forall k, mapped V x (k / BSIZE) -> ~ off <= k < off + Z.of_nat (length bs) -> fbyte V' x k = fbyte V x k;
  sd_same : forall bno, (forall k, off <= k < off + Z.of_nat (length bs) -> bno <> blk V x (k / BSIZE)) -> V' bno = V bno;
  sd_len : (forall bno, length (V bno) = Z.to_nat BSIZE) -> forall bno, length (V' bno) = Z.to_nat BSIZE
}.

Lemma stored_nil V x off : stored V V x off [].
Proof. split; try done; simpl; intros; lia. Qed.

Lemma vset_eq bno d V : vset bno d V bno = d.
Proof. unfold vset. by rewrite Z.eqb_refl. Qed.

Lemma vset_ne bno d V b : b <> bno -> vset bno d V b = V b.
Proof. unfold vset. intros H. by rewrite (proj2 (Z.eqb_neq _ _) H). Qed.

(** Storing within one block. *)
Lemma stored_chunk V x off bs :
  layout_ok V x off (Z.of_nat (length bs)) -> 0 <= off -> bs <> [] -> off `mod` BSIZE + Z.of_nat (length bs) <= BSIZE ->
  length (V (blk V x (off / BSIZE))) = Z.to_nat BSIZE ->
  stored V (vset (blk V x (off / BSIZE)) (splice (V (blk V x (off / BSIZE))) (Z.to_nat (off `mod` BSIZE)) bs) V) x off bs.
Proof.
  intros Hl Ho Hne Hm Hlen. set (a := blk V x (off / BSIZE)) in *. set (V' := vset a _ V).
  pose proof (Z.mod_pos_bound off BSIZE ltac:(reflexivity)) as Hmod. pose proof (Z.div_mod off BSIZE ltac:(done)) as Hdm.
  assert (Hpos : 0 < Z.of_nat (length bs)) by (destruct bs; [done|simpl; lia]).
  assert (Hdiv : forall k, off <= k < off + Z.of_nat (length bs) -> k / BSIZE = off / BSIZE /\ k `mod` BSIZE = off `mod` BSIZE + (k - off)).
  { intros k Hk. split; symmetry.
    - apply (Z.div_unique_pos _ _ _ (off `mod` BSIZE + (k - off))); lia.
    - apply (Z.mod_unique_pos _ _ (off / BSIZE)); lia. }
  assert (Hblk : forall bn, blk V' x bn = blk V x bn).
  { intros bn. unfold blk. destruct (bn <? NDIRECT); [done|]. unfold V'. rewrite vset_ne; [done|].
    intros Heq. apply (lo_ind _ _ _ _ Hl off); [lia|]. by rewrite Heq. }
  assert (Hspl : (Z.to_nat (off `mod` BSIZE) + length bs <= length (V a))%nat) by lia.
  split; [done| | | |].
  - intros k Hk. destruct (Hdiv k Hk) as [E1 E2]. unfold fbyte. rewrite Hblk, E1, E2. fold a. unfold V'. rewrite vset_eq.
    apply nth_lookup_Some. rewrite lookup_splice_in by lia.
    replace (Z.to_nat (off `mod` BSIZE + (k - off)) - Z.to_nat (off `mod` BSIZE))%nat with (Z.to_nat (k - off)) by lia.
    destruct (lookup_lt_is_Some_2 bs (Z.to_nat (k - off))) as [v Hv]; [lia|]. rewrite Hv. f_equal. symmetry. by apply nth_lookup_Some.
  - intros k Hk Hout. unfold fbyte. rewrite Hblk. destruct (decide (blk V x (k / BSIZE) = a)) as [Heq|Hneq].
    + rewrite Heq. unfold V'. rewrite vset_eq. assert (Hkd : off / BSIZE = k / BSIZE) by (apply (lo_inj _ _ _ _ Hl off); [lia|done|done]).
      pose proof (Z.mod_pos_bound k BSIZE ltac:(reflexivity)). pose proof (Z.div_mod k BSIZE ltac:(done)) as Hkm.
      rewrite !nth_lookup, lookup_splice_out by lia. done.
    + unfold V'. by rewrite vset_ne.
  - intros bno Hb. unfold V'. rewrite vset_ne; [done|]. apply Hb. lia.
  - intros Hall bno. unfold V', vset. case_match; [by rewrite length_splice|apply Hall].
Qed.

Lemma stored_trans V V' V'' x off bs bs' :
  stored V V' x off bs -> stored V' V'' x (off + Z.of_nat (length bs)) bs' ->
  range_mapped V x off (Z.of_nat (length bs + length bs')) -> stored V V'' x off (bs ++ bs').
Proof.
  intros [A1 A2 A3 A4 A5] [B1 B2 B3 B4 B5] Hmap.
  assert (Hm' : forall bn, mapped V x bn -> mapped V' x bn) by (intros bn; unfold mapped; by rewrite A1).
  split.
  - intros bn. by rewrite B1.
  - intros k Hk. rewrite length_app in Hk. destruct (decide (k < off + Z.of_nat (length bs))) as [Hlt|Hge].
    + rewrite B3; [|by apply Hm', Hmap; lia|lia]. rewrite A2 by lia. by rewrite app_nth1 by lia.
    + rewrite B2 by lia. rewrite app_nth2 by lia. f_equal. lia.
  - intros k Hk Hout. rewrite length_app in Hout. rewrite B3; [|by apply Hm'|lia]. apply A3; [done|lia].
  - intros bno Hb. rewrite length_app in Hb. rewrite B4; [|intros k Hk; rewrite A1; apply Hb; lia]. apply A4. intros k Hk. apply Hb. lia.
  - intros H. auto.
Qed.

Lemma layout_prefix V x off n m : layout_ok V x off n -> m <= n -> layout_ok V x off m.
Proof.
  intros [L1 L2 L3 L4] Hm. split.
  - intros k Hk. apply L1. lia.
  - intros k Hk. apply L2. lia.
  - intros k k' Hk. apply L3. lia.
  - intros k Hk. apply L4. lia.
Qed.

Lemma layout_step V V' x off n m bs :
  layout_ok V x off n -> stored V V' x off bs -> 0 <= m <= n -> layout_ok V' x (off + m) (n - m).
Proof.
  intros [L1 L2 L3 L4] [A1 _ _ _ _] Hm.
  assert (Hiff : forall bn, mapped V' x bn <-> mapped V x bn) by (intros bn; unfold mapped; by rewrite A1).
  split.
  - intros k Hk. apply Hiff, L1. lia.
  - intros k Hk. rewrite A1. apply L2. lia.
  - intros k k' Hk Hk'. rewrite !A1. apply L3; [lia|by apply Hiff].
  - intros k Hk. rewrite A1. apply L4. lia.
Qed.

(** The blocks that bytes [off] .. [off + n - 1] lie in. *)
Definition nblocks (off n : Z) : Z := if n <=? 0 then 0 else (off + n - 1) / BSIZE - off / BSIZE + 1.

Lemma nblocks_pos off n : 0 <= off -> 0 <= nblocks off n /\ (0 < n -> 1 <= nblocks off n).
Proof.
  intros Ho. unfold nblocks. destruct (Z.leb_spec n 0); [lia|].
  assert (off / BSIZE <= (off + n - 1) / BSIZE) by (apply Z.div_le_mono; [done|lia]). lia.
Qed.

Lemma nblocks_step off n m :
  0 <= off -> 0 < n -> m = Z.min n (BSIZE - off `mod` BSIZE) -> nblocks (off + m) (n - m) + 1 <= nblocks off n.
Proof.
  intros Ho Hn Hm. pose proof (Z.mod_pos_bound off BSIZE ltac:(reflexivity)). pose proof (Z.div_mod off BSIZE ltac:(done)) as Hd.
  destruct (Z.le_gt_cases n m).
  - unfold nblocks at 1. rewrite (proj2 (Z.leb_le _ _)) by lia. apply (nblocks_pos off n); lia.
  - assert (E : (off + m) / BSIZE = off / BSIZE + 1) by (symmetry; apply (Z.div_unique_pos _ _ _ 0); [done|lia]).
    unfold nblocks. rewrite !(proj2 (Z.leb_gt _ _)) by lia. rewrite E. replace (off + m + (n - m) - 1) with (off + n - 1) by lia. lia.
Qed.

Lemma either_copyin_local bs n c s i pid :
  kctx c i pid -> exists c', either_copyin (SLocal bs) n (c, s) = Ret (take (Z.to_nat n) bs, 0) (c', s) /\ kctx c' i pid.
Proof.
  intros Hc. unfold either_copyin. rewrite (bind_ret _ _ _ _ _ (myproc_run (c, s) (co_cpu _ _ _ (kc_ok _ _ _ Hc)))).
  eexists. split; [reflexivity|]. by apply kctx_settled.
Qed.

Lemma writei_loop_wp pid ip x i fuel : forall s V bl c bs off n tot (Q : Z * Z -> ctx * kern -> Prop),
  txn pid s V bl -> kctx c i pid -> room bl (nblocks off (n - tot)) ->
  inodes s !! ip = Some x -> i_dev x = ROOTDEV -> 0 <= off -> 0 <= tot <= n -> off + (n - tot) < 2 ^ 32 ->
  layout_ok V x off (n - tot) -> Z.of_nat (length bs) = n - tot -> n - tot < Z.of_nat fuel ->
  (forall c' s' V' bl', kctx c' i pid -> log_frame s s' -> txn pid s' V' bl' -> stored V V' x off bs ->
     Z.of_nat (length bl') <= Z.of_nat (length bl) + nblocks off (n - tot) ->
     Q (off + (n - tot), n) (c', s')) ->
  wp bd_env (writei_loop fuel ip (SLocal bs) off n tot) Q (c, s).
Proof.
  induction fuel as [|fuel IH]; intros s V bl c bs off n tot Q [B T] Hc Hr Hx Hdev Hoff Htot H32 Hlay Hbs Hf HQ; [lia|].
  pose proof (nblocks_pos off (n - tot) Hoff) as [Hnb0 Hnb1].
  cbn [writei_loop]. destruct (Z.ltb_spec tot n) as [Hlt|Hge]; cbn [negb]; cycle 1.
  { apply wp_ret. replace tot with n in * by lia. destruct bs; [|simpl in Hbs; lia]. rewrite Z.sub_diag, (Z.add_0_r off) in HQ.
    apply (HQ c s V bl); [done|apply log_frame_refl|done|apply stored_nil|rewrite Z.sub_diag in Hnb0; lia]. }
  assert (HX : (size (list_to_set bl : gset Z) < Z.to_nat NBUF)%nat) by (eapply room_bufs; [|done]; lia).
  eapply wp_step; [by apply ld_inode_run|]. apply wp_bind. apply (bmap_mapped pid s V (list_to_set bl) ip x (off / BSIZE) c i); [done..| |].
  { apply (lo_mapped _ _ _ _ Hlay). lia. }
  intros c1 s1 Hc1 F1 D1 B1. rewrite Hdev. apply (bread_body pid s1 V (list_to_set bl) _ c1 i); [done..|].
  intros b bf c2 s2 Hc2 F2 D2 Hb Hd Hlen B2. cbv zeta.
  set (m := Z.min (n - tot) (BSIZE - off `mod` BSIZE)). destruct (chunk_bounds off (n - tot) m Hoff ltac:(lia) eq_refl) as [Hm Hmb].
  destruct (either_copyin_local bs m c2 s2 i pid Hc2) as (c3 & R3 & Hc3). eapply wp_step; [exact R3|]. cbn [fst snd].
  change (0 =? -1) with false. cbn [src_add]. set (a := blk V x (off / BSIZE)) in *.
  assert (Hlt' : length (take (Z.to_nat m) bs) = Z.to_nat m) by (rewrite length_take; lia).
  apply (bmodify_wp pid s2 V bl b a bf (splice (V a) (Z.to_nat (off `mod` BSIZE)) (take (Z.to_nat m) bs)) c3 i);
    [done|done|by eapply tlog_frame, bd_frame_trans|done|eapply room_le; [|done]; lia|by apply (lo_range _ _ _ _ Hlay); lia|by rewrite Hd| |].
  { pose proof (Z.mod_pos_bound off BSIZE ltac:(reflexivity)). rewrite length_splice; [done|]. lia. }
  intros c4 s4 Hc4 F4 T4. rewrite u32_small by lia. set (V1 := vset a _ V) in *.
  assert (HS : stored V V1 x off (take (Z.to_nat m) bs)).
  { apply stored_chunk; [|lia|intros E; rewrite E in Hlt'; simpl in Hlt'; lia|lia|done].
    rewrite Hlt', Z2Nat.id by lia. eapply layout_prefix; [done|lia]. }
  assert (F : log_frame s s4) by (eapply log_frame_trans; [|done]; apply log_frame_bd; by eapply bd_frame_trans).
  pose proof (nblocks_step off (n - tot) m Hoff ltac:(lia) eq_refl) as Hnb.
  apply (IH s4 V1 (log_add a bl)); [done|done| |by rewrite (log_frame_inodes s s4)|done|lia|lia|lia| |rewrite length_drop; lia|lia|].
  - replace (n - (tot + m)) with (n - tot - m) by lia. apply room_add. eapply room_le; [|done]. lia.
  - replace (n - (tot + m)) with (n - tot - m) by lia. eapply layout_step; [done|done|lia].
  - intros c5 s5 V5 bl5 Hc5 F5 T5 S5 Hl5. replace (n - (tot + m)) with (n - tot - m) in * by lia.
    replace (off + m + (n - tot - m)) with (off + (n - tot)) by lia.
    apply (HQ c5 s5 V5 bl5); [done|by eapply log_frame_trans|done| |].
    + rewrite <- (take_drop (Z.to_nat m) bs). eapply stored_trans; [done| |].
      * by rewrite Hlt', Z2Nat.id by lia.
      * rewrite Hlt', length_drop. replace (Z.of_nat (Z.to_nat m + (length bs - Z.to_nat m))) with (n - tot) by lia. apply Hlay.
    + unfold log_add in Hl5. case_bool_decide; rewrite ?length_app in Hl5; simpl in Hl5; lia.
Qed.

(** ** The inode on the disk *)

Definition dinode_of (x : inode) : dinode := Dinode (i_type x) (i_major x) (i_minor x) (i_nlink x) (i_size x) (i_addrs x).

Definition upd_inodes (f : list inode -> list inode) (s : kern) : kern :=
  set_k_itable (set_it_inode (f (inodes s)) (k_itable s)) s.

Lemma up_inode_run c s ip x f : inodes s !! ip = Some x -> up_inode ip f (c, s) = Ret tt (c, upd_inodes (insert ip (f x)) s).
Proof. intros H. unfold up_inode. by rewrite (update_some _ _ x) by done. Qed.

Lemma inodes_upd f s : inodes (upd_inodes f s) = f (inodes s).
Proof. done. Qed.

Lemma txn_inodes pid s V bl f : txn pid s V bl -> txn pid (upd_inodes f s) V bl.
Proof. intros [[B1 B2 B3 B4 B5 B6 B7 B8 B9] [T1 T2 T3 T4]]. by split; split. Qed.

(** What the file system changes: the cache, the disk, the log and the
    inode table. *)
Definition fs_frame (s s' : kern) : Prop := log_frame (set_k_itable (k_itable s') s) s'.

Lemma fs_frame_log s s' : log_frame s s' -> fs_frame s s'.
Proof. unfold fs_frame, log_frame. intros ->. by destruct s. Qed.

Lemma fs_frame_inodes f s : fs_frame s (upd_inodes f s).
Proof. by destruct s. Qed.

Lemma fs_frame_trans s1 s2 s3 : fs_frame s1 s2 -> fs_frame s2 s3 -> fs_frame s1 s3.
Proof. unfold fs_frame, log_frame. intros -> ->. done. Qed.

Lemma fs_frame_sb s s' : fs_frame s s' -> k_sb s' = k_sb s.
Proof. by intros ->. Qed.

Lemma ld_sb_run c s : ld_sb (c, s) = Ret (k_sb s) (c, s).
Proof. done. Qed.

Lemma iupdate_wp pid s V bl ip x ib c i (Q : unit -> ctx * kern -> Prop) :
  txn pid s V bl -> kctx c i pid -> room bl 1 -> inodes s !! ip = Some x -> i_dev x = ROOTDEV -> dinode_ok (dinode_of x) ->
  ib = IBLOCK (i_inum x) (k_sb s) -> 0 <= ib < 2 ^ 31 ->
  (forall c' s', kctx c' i pid -> log_frame s s' ->
     txn pid s' (vset ib (put_dinode (i_inum x) (dinode_of x) (V ib)) V) (log_add ib bl) -> Q tt (c', s')) ->
  wp bd_env (iupdate ip) Q (c, s).
Proof.
  intros [B T] Hc Hr Hx Hdev Hok Hib Hr31 HQ. unfold iupdate. eapply wp_step; [by apply ld_inode_run|]. eapply wp_step; [apply ld_sb_run|].
  rewrite Hdev, <- Hib, u32_small by lia. apply (bread_body pid s V (list_to_set bl) ib c i); [done..|by apply (room_bufs bl 1)|].
  intros b bf c1 s1 Hc1 F1 D1 Hb Hd Hlen B1.
  eapply wp_step; [apply ld_inode_run; by rewrite (bd_frame_inodes s s1)|]. fold (dinode_of x).
  apply (bmodify_end pid s1 V bl b ib bf (put_dinode (i_inum x) (dinode_of x) (V ib)) c1 i);
    [done|done|by eapply tlog_frame|done|done|done|by rewrite Hd|by rewrite length_put_dinode|].
  intros c2 s2 Hc2 F2 T2. apply HQ; [done| |done]. eapply log_frame_trans; [|done]. by apply log_frame_bd.
Qed.

(** A file of [sz] bytes whose inode is in block [ib]. *)
Record file_ok (V : Z -> list Z) (x : inode) (ib sz : Z) : Prop := {
  fo_dev : i_dev x = ROOTDEV;
  fo_lay : layout_ok V x 0 sz;
  fo_ib : 0 <= ib < 2 ^ 31;
  fo_ib_data : forall k, 0 <= k < sz -> blk V x (k / BSIZE) <> ib;
  fo_ib_ind : nth (Z.to_nat NDIRECT) (i_addrs x) 0 <> ib;
  fo_di : dinode_ok (dinode_of x)
}.

(** The size after a write of [n] bytes at [off]. *)
Definition grown (x : inode) (off n : Z) : inode := if i_size x <? off + n then set_i_size (off + n) x else x.

Lemma grown_blk V x off n bn : blk V (grown x off n) bn = blk V x bn.
Proof. unfold grown. by case_match. Qed.

Lemma grown_byte V x off n k : fbyte V (grown x off n) k = fbyte V x k.
Proof. unfold fbyte. by rewrite grown_blk. Qed.

Lemma grown_size x off n : i_size (grown x off n) = Z.max (i_size x) (off + n).
Proof. unfold grown. destruct (Z.ltb_spec (i_size x) (off + n)); simpl; lia. Qed.

Lemma grown_di x off n : dinode_ok (dinode_of x) -> 0 <= off + n < 2 ^ 32 -> dinode_ok (dinode_of (grown x off n)).
Proof. intros [] H. unfold grown. case_match; by split. Qed.

(** Writing the inode block changes no byte of the file. *)
Lemma fbyte_vset V x ib d k :
  blk V x (k / BSIZE) <> ib -> nth (Z.to_nat NDIRECT) (i_addrs x) 0 <> ib -> fbyte (vset ib d V) x k = fbyte V x k.
Proof.
  intros H1 H2. assert (E : blk (vset ib d V) x (k / BSIZE) = blk V x (k / BSIZE)).
  { unfold blk. case_match; [done|]. by rewrite vset_ne. }
  unfold fbyte. rewrite E. by rewrite vset_ne.
Qed.

(** The whole contents after the write. *)
Lemma contents_splice V V' x x' off bs :
  0 <= off <= i_size x -> (forall k, fbyte V' x' k = fbyte V' x k) -> i_size x' = Z.max (i_size x) (off + Z.of_nat (length bs)) ->
  (forall k, 0 <= k < i_size x' -> fbyte V' x k =
     if (off <=? k) && (k <? off + Z.of_nat (length bs)) then nth (Z.to_nat (k - off)) bs 0 else fbyte V x k) ->
  fdata V' x' 0 (i_size x') = splice (fdata V x 0 (i_size x)) (Z.to_nat off) bs.
Proof.
  intros Ho Hx' Hsz Hb. apply list_eq. intros k. set (f := fdata V x 0 (i_size x)).
  assert (Hf : length f = Z.to_nat (i_size x)) by apply length_fdata.
  destruct (decide (k < Z.to_nat (i_size x'))%nat) as [Hk|Hk]; cycle 1.
  { rewrite !lookup_ge_None_2; [done| |].
    - unfold splice. rewrite !length_app, length_take, length_drop. lia.
    - rewrite length_fdata. lia. }
  rewrite lookup_fdata, Hx', Hb by lia. rewrite Z.add_0_l.
  destruct (Z.leb_spec off (Z.of_nat k)), (Z.ltb_spec (Z.of_nat k) (off + Z.of_nat (length bs))); cbn [andb].
  - rewrite lookup_splice_in by lia. destruct (lookup_lt_is_Some_2 bs (k - Z.to_nat off)) as [v Hv]; [lia|]. rewrite Hv. f_equal.
    apply nth_lookup_Some. by replace (Z.to_nat (Z.of_nat k - off)) with (k - Z.to_nat off)%nat by lia.
  - unfold splice. rewrite !lookup_app_r, lookup_drop by (rewrite ?length_take; lia). unfold f. rewrite length_take, length_fdata, lookup_fdata by lia.
    do 2 f_equal. lia.
  - unfold splice. rewrite lookup_app_l, lookup_take_lt by (rewrite ?length_take; lia). unfold f. by rewrite lookup_fdata by lia.
  - unfold splice. rewrite lookup_app_l, lookup_take_lt by (rewrite ?length_take; lia). unfold f. by rewrite lookup_fdata by lia.
Qed.

Lemma bio_len pid s V X bno : bio_ok pid s V X ∅ -> length (V bno) = Z.to_nat BSIZE.
Proof.
  intros B. destruct (decide (bno ∈ X)) as [Hin|Hin].
  - destruct (bo_pin _ _ _ _ _ B bno Hin) as (j & b & Hj & [D E] & Hv).
    destruct (bo_buf _ _ _ _ _ B j b Hj) as (_ & Hl & _ & Hd). rewrite D in Hd. simpl in Hd.
    destruct Hd as [_ Hd]. rewrite <- E, <- Hd; done.
  - rewrite (bo_clean _ _ _ _ _ B bno Hin); [apply (bo_size _ _ _ _ _ B)|]. intros j. by rewrite lookup_empty.
Qed.

(** What writei() leaves: [bs] at [off] of the file, the inode updated in
    memory and on the disk, and no other block touched. *)
Record written (s s' : kern) (V V' : Z -> list Z) (ip : nat) (x x' : inode) (ib off : Z) (bs : list Z) : Prop := {
  wr_frame : fs_frame s s';
  wr_inodes : inodes s' = <[ip := x']> (inodes s);
  wr_inode : x' = grown x off (Z.of_nat (length bs));
  wr_blk : forall bn, blk V' x' bn = blk V x bn;
  wr_data : fdata V' x' 0 (i_size x') = splice (fdata V x 0 (i_size x)) (Z.to_nat off) bs;
  wr_disk : get_dinode (i_inum x) (V' ib) = dinode_of x';
  wr_other : forall bno, bno <> ib -> (forall k, off <= k < off + Z.of_nat (length bs) -> bno <> blk V x (k / BSIZE)) -> V' bno = V bno;
  wr_itlock : it_lock (k_itable s') = it_lock (k_itable s)
}.

Lemma written_intro s s1 s' V V1 ip x x' ib off bs :
  log_frame s s1 -> fs_frame (upd_inodes (insert ip x') s1) s' -> inodes s' = <[ip := x']> (inodes s) -> it_lock (k_itable s') = it_lock (k_itable s) ->
  0 <= off <= i_size x -> off + Z.of_nat (length bs) < 2 ^ 32 -> file_ok V x ib (i_size x') ->
  x' = grown x off (Z.of_nat (length bs)) -> stored V V1 x off bs -> length (V1 ib) = Z.to_nat BSIZE ->
  written s s' V (vset ib (put_dinode (i_inum x) (dinode_of x') (V1 ib)) V1) ip x x' ib off bs.
Proof.
  intros F1 F2 Hin Hlk Hoff H32 [O1 O2 O3 O4 O5 O6] Hx' [S1 S2 S3 S4 S5] Hlen. set (V2 := vset ib _ V1).
  assert (Hsz : i_size x' = Z.max (i_size x) (off + Z.of_nat (length bs))) by (rewrite Hx'; apply grown_size).
  assert (Hb2 : forall bn, blk V2 x bn = blk V x bn).
  { intros bn. rewrite <- S1. unfold blk. case_match; [done|]. unfold V2. by rewrite vset_ne. }
  split; [|done|done| | | | |done].
  - eapply fs_frame_trans; [by apply fs_frame_log|]. eapply fs_frame_trans; [apply fs_frame_inodes|done].
  - intros bn. by rewrite Hx', grown_blk.
  - apply contents_splice; [done|intros k; by rewrite Hx', grown_byte|done|]. intros k Hk.
    unfold V2. rewrite fbyte_vset; [|rewrite S1; by apply O4; lia|done].
    destruct (Z.leb_spec off k), (Z.ltb_spec k (off + Z.of_nat (length bs))); cbn [andb]; [by apply S2; lia| | |];
      (apply S3; [by apply (lo_mapped _ _ _ _ O2); lia|lia]).
  - unfold V2. rewrite vset_eq. apply get_put_dinode; [rewrite Hx'; apply grown_di; [done|lia]|done].
  - intros bno Hne Hno. unfold V2. rewrite vset_ne by done. by apply S4.
Qed.

Lemma writei_wp pid s V bl ip x ib off bs c i (Q : Z -> ctx * kern -> Prop) :
  let n := Z.of_nat (length bs) in
  txn pid s V bl -> kctx c i pid -> room bl (nblocks off n + 1) -> inodes s !! ip = Some x ->
  ib = IBLOCK (i_inum x) (k_sb s) -> 0 <= off <= i_size x -> off + n <= MAXFILE * BSIZE ->
  file_ok V x ib (Z.max (i_size x) (off + n)) ->
  (forall c' s' V' bl' x', kctx c' i pid -> txn pid s' V' bl' -> written s s' V V' ip x x' ib off bs ->
     Z.of_nat (length bl') <= Z.of_nat (length bl) + nblocks off n + 1 -> Q n (c', s')) ->
  wp bd_env (writei ip (SLocal bs) off n) Q (c, s).
Proof.
  intros n T Hc Hr Hx Hib Hoff Hmax Hok HQ. change (MAXFILE * BSIZE) with 274432 in *. pose proof Hok as [O1 O2 O3 O4 O5 O6].
  assert (Hn : 0 <= n) by lia. unfold writei. eapply wp_step; [by apply ld_inode_run|].
  rewrite u32_small, !(proj2 (Z.ltb_ge _ _)) by lia. cbn [orb]. change (MAXFILE * BSIZE) with 274432. rewrite (proj2 (Z.ltb_ge 274432 _)) by lia.
  destruct (nblocks_pos off n ltac:(lia)) as [Hnb _]. apply wp_bind.
  apply (writei_loop_wp pid ip x i _ s V bl c bs off n 0); rewrite ?Z.sub_0_r;
    [done|done|eapply room_le; [|done]; lia|done|done|lia|lia|lia| |done|lia|].
  { pose proof (layout_prefix V x 0 _ (off + n) O2 ltac:(lia)) as HL.
    apply (layout_step V V x 0 (off + n) off []) in HL; [|apply stored_nil|lia]. by rewrite Z.add_0_l, Z.add_simpl_l in HL. }
  intros c1 s1 V1 bl1 Hc1 F1 T1 S1 Hl1. cbn [fst snd].
  eapply wp_step; [apply ld_inode_run; by rewrite (log_frame_inodes s s1)|].
  set (x' := grown x off n).
  assert (Hsz' : i_size x' = Z.max (i_size x) (off + n)) by apply grown_size.
  set (s2 := upd_inodes (insert ip x') s1).
  assert (Hs2 : inodes s2 = <[ip := x']> (inodes s)) by (unfold s2; by rewrite inodes_upd, (log_frame_inodes s s1)).
  apply wp_bind. eapply (wp_mono _ _ (fun _ w => w = (c1, s2))).
  { destruct (Z.ltb_spec (i_size x) (off + n)) as [Hg|Hg].
    - eapply wp_run; [apply up_inode_run; by rewrite (log_frame_inodes s s1)|]. unfold s2, x', grown. by rewrite (proj2 (Z.ltb_lt _ _) Hg).
    - apply wp_ret. unfold s2, x', grown. rewrite (proj2 (Z.ltb_ge _ _) Hg). f_equal. unfold upd_inodes.
      rewrite list_insert_id by (by rewrite (log_frame_inodes s s1)). by destruct s1 as [? ? ? ? []]. }
  intros [] w ->. apply wp_bind.
  assert (Hinum : i_inum x' = i_inum x) by (unfold x', grown; by case_match).
  assert (Hroom1 : room bl1 1) by (unfold room in *; lia).
  apply (iupdate_wp pid s2 V1 bl1 ip x' ib c1 i); [by apply txn_inodes|done|done| | |by apply grown_di; [done|lia]| |done|].
  { rewrite Hs2. apply list_lookup_insert_eq. by eapply lookup_lt_Some. }
  { unfold x', grown. by case_match. }
  { rewrite Hinum. unfold s2. simpl. by rewrite F1. }
  intros c3 s3 Hc3 F3 T3. apply wp_ret. rewrite Hinum in T3. rewrite i32_small by lia. eapply HQ; [done|exact T3| |].
  2: { fold n in Hl1. unfold log_add. case_bool_decide; rewrite ?length_app; cbn [length]; lia. }
  apply (written_intro s s1 s3 V V1); [done|by apply fs_frame_log|by rewrite (log_frame_inodes s2 s3)|by rewrite F3; unfold s2; simpl; rewrite F1|done|fold n; lia| |done|done|by eapply bio_len, T1].
  by rewrite Hsz'.
Qed.

(** ** The block bitmap *)

Lemma land_bit x k : 0 <= k -> (Z.land x (Z.shiftl 1 k) =? 0) = negb (Z.testbit x k).
Proof.
  intros Hk. rewrite Z.shiftl_1_l. destruct (Z.testbit x k) eqn:E; cbn [negb].
  - apply Z.eqb_neq. intros H. assert (Ht : Z.testbit (Z.land x (2 ^ k)) k = false) by (rewrite H; apply Z.testbit_0_l).
    rewrite Z.land_spec, E, Z.pow2_bits_true in Ht by lia. done.
  - apply Z.eqb_eq. apply Z.bits_inj'. intros j Hj. rewrite Z.land_spec, Z.testbit_0_l, Z.pow2_bits_eqb by lia.
    destruct (Z.eqb_spec k j) as [->|]; [by rewrite E|by rewrite andb_false_r].
Qed.

(** Is block [b] marked in use?  The bit of a bitmap block, and of the disk. *)
Definition bit_of (d : list Z) (bi : Z) : bool := Z.testbit (byte_at d (bi / 8)) (bi `mod` 8).
Definition in_use (sb : superblock) (V : Z -> list Z) (b : Z) : bool := bit_of (V (BBLOCK b sb)) (b `mod` BPB).

Lemma free_bit_spec d b size fuel : forall bi,
  0 <= b -> b + BPB < 2 ^ 32 -> 0 <= bi <= BPB -> BPB - bi <= Z.of_nat fuel ->
  match free_bit fuel d b bi size with
  | Some j => bi <= j < BPB /\ b + j < size /\ bit_of d j = false /\ forall k, bi <= k < j -> bit_of d k = true
  | None => forall k, bi <= k < BPB -> b + k < size -> bit_of d k = true
  end.
Proof.
  induction fuel as [|fuel IH]; intros bi Hb H32 Hbi Hf; simpl; [intros; lia|].
  destruct (Z.ltb_spec bi BPB) as [Hlt|Hge]; cbn [andb]; [|intros; lia].
  rewrite u32_small by lia. destruct (Z.ltb_spec (b + bi) size) as [Hs|Hs]; [|intros; lia].
  rewrite land_bit by (apply Z.mod_pos_bound; lia). fold (bit_of d bi). destruct (bit_of d bi) eqn:Eb; cbn [negb].
  - specialize (IH (bi + 1) Hb H32 ltac:(lia) ltac:(lia)). destruct (free_bit fuel d b (bi + 1) size) as [j|].
    + destruct IH as (H1 & H2 & H3 & H4). split_and!; [lia|lia|done|done|]. intros k Hk.
      destruct (decide (k = bi)) as [->|]; [done|]. apply H4. lia.
    + intros k Hk Hks. destruct (decide (k = bi)) as [->|]; [done|]. apply IH; lia.
  - split_and!; [lia|lia|done|done|lia].
Qed.

(** Setting and clearing a bit of a bitmap block. *)
Definition put_bit (v : bool) (d : list Z) (bi : Z) : list Z :=
  set_byte (bi / 8)
    (let m := Z.shiftl 1 (bi `mod` 8) in
     if v then Z.lor (byte_at d (bi / 8)) m else Z.land (byte_at d (bi / 8)) (Z.lnot m)) d.

Lemma length_put_bit v d bi : length (put_bit v d bi) = length d.
Proof. apply length_insert. Qed.

Lemma bit_of_put v d bi k :
  0 <= bi < 8 * Z.of_nat (length d) -> 0 <= k -> bit_of (put_bit v d bi) k = if k =? bi then v else bit_of d k.
Proof.
  intros Hbi Hk. unfold bit_of, put_bit, byte_at, set_byte.
  pose proof (Z.mod_pos_bound bi 8 ltac:(lia)). pose proof (Z.mod_pos_bound k 8 ltac:(lia)).
  pose proof (Z.div_mod bi 8 ltac:(lia)). pose proof (Z.div_mod k 8 ltac:(lia)).
  rewrite nth_lookup. destruct (decide (k / 8 = bi / 8)) as [He|Hne].
  - rewrite He, list_lookup_insert_eq by lia. cbn [default from_option id]. unfold u8. rewrite Z.mod_pow2_bits_low by lia.
    destruct (Z.eqb_spec k bi) as [->|Hnk].
    + destruct v; [rewrite Z.lor_spec, Z.shiftl_1_l, Z.pow2_bits_true by lia; apply orb_true_r|].
      rewrite Z.land_spec, Z.lnot_spec, Z.shiftl_1_l, Z.pow2_bits_true by lia. apply andb_false_r.
    + destruct v; [rewrite Z.lor_spec, Z.shiftl_1_l, Z.pow2_bits_false, orb_false_r by lia; done|].
      rewrite Z.land_spec, Z.lnot_spec, Z.shiftl_1_l, Z.pow2_bits_false, andb_true_r by lia. done.
  - rewrite list_lookup_insert_ne by lia. rewrite (proj2 (Z.eqb_neq k bi)) by (intros ->; lia). by rewrite <- nth_lookup.
Qed.

(** The bitmap lies on the disk and marks its own blocks as in use. *)
Record bitmap_ok (sb : superblock) (V : Z -> list Z) : Prop := {
  bm_size : 0 <= sb_size sb < 2 ^ 31;
  bm_start : 0 <= sb_bmapstart sb /\ sb_bmapstart sb + sb_size sb < 2 ^ 31;
  bm_self : forall b, 0 <= b < sb_size sb -> in_use sb V (BBLOCK b sb) = true
}.

Lemma BBLOCK_range sb V b : bitmap_ok sb V -> 0 <= b < sb_size sb -> 0 <= BBLOCK b sb < 2 ^ 31.
Proof.
  intros [H1 H2 _] Hb. unfold BBLOCK. assert (0 <= b / BPB <= b); [|lia].
  split; [apply Z.div_pos; [lia|done]|]. apply Z.div_le_upper_bound; [done|]. change BPB with 8192. lia.
Qed.

(** [V'] is [V] with the lowest free block, [b], taken and zeroed. *)
Record allocated (sb : superblock) (V V' : Z -> list Z) (b : Z) : Prop := {
  al_range : 0 <= b < sb_size sb;
  al_free : in_use sb V b = false;
  al_lowest : forall b', 0 <= b' < b -> in_use sb V b' = true;
  al_used : forall b', 0 <= b' < sb_size sb -> in_use sb V' b' = (b' =? b) || in_use sb V b';
  al_zero : V' b = replicate (Z.to_nat BSIZE) 0;
  al_other : forall bno, bno <> b -> bno <> BBLOCK b sb -> V' bno = V bno
}.

Lemma div_BPB t bi : 0 <= bi < BPB -> (BPB * t + bi) / BPB = t /\ (BPB * t + bi) `mod` BPB = bi.
Proof.
  intros H. split; symmetry.
  - apply (Z.div_unique_pos _ _ _ bi); lia.
  - apply (Z.mod_unique_pos _ _ t); lia.
Qed.

Lemma BBLOCK_base sb t k : 0 <= k < BPB -> BBLOCK (BPB * t + k) sb = BBLOCK (BPB * t) sb.
Proof.
  intros Hk. destruct (div_BPB t k Hk) as [Ed _]. unfold BBLOCK. by rewrite Ed, (Z.mul_comm BPB t), Z.div_mul.
Qed.

Lemma in_use_bit sb V b t :
  BPB * t <= b < BPB * (t + 1) -> in_use sb V b = bit_of (V (BBLOCK (BPB * t) sb)) (b - BPB * t).
Proof.
  intros Hb. destruct (div_BPB t (b - BPB * t) ltac:(lia)) as [_ Em]. rewrite <- (BBLOCK_base sb t (b - BPB * t)) by lia.
  rewrite Zplus_minus in *. unfold in_use. by rewrite Em.
Qed.

Lemma allocated_intro sb V t bi :
  bitmap_ok sb V -> (forall b, length (V b) = Z.to_nat BSIZE) -> let b := BPB * t + bi in let bb := BBLOCK b sb in
  0 <= t -> 0 <= bi < BPB -> b < sb_size sb -> bit_of (V bb) bi = false -> (forall b', 0 <= b' < b -> in_use sb V b' = true) ->
  b <> bb /\ allocated sb V (vset b (replicate (Z.to_nat BSIZE) 0) (vset bb (put_bit true (V bb) bi) V)) b.
Proof.
  intros Hbm Hlen b bb Ht Hbi Hb Hfree Hlow. destruct (div_BPB t bi Hbi) as [Ed Em]. fold b in Ed, Em.
  assert (Hb0 : 0 <= b) by (unfold b; change BPB with 8192 in *; lia).
  assert (Hf : in_use sb V b = false) by (unfold in_use; by rewrite Em).
  assert (Hnb : forall b', 0 <= b' < sb_size sb -> BBLOCK b' sb <> b).
  { intros b' Hb' E. pose proof (bm_self _ _ Hbm b' Hb') as Hu. rewrite E in Hu. congruence. }
  assert (Hne : b <> bb) by (intros E; by apply (Hnb b)).
  split; [done|]. split; [done|done|done| | |].
  - intros b' Hb'. unfold in_use. rewrite vset_ne by (by apply Hnb).
    assert (Hm : 0 <= b' `mod` BPB) by (by apply Z.mod_pos_bound).
    destruct (decide (BBLOCK b' sb = bb)) as [Eb|Nb].
    + rewrite Eb, vset_eq, bit_of_put by (rewrite ?Hlen; change BPB with (8 * Z.of_nat (Z.to_nat BSIZE)) in *; lia).
      assert (Hq : b' / BPB = b / BPB) by (unfold bb, BBLOCK in Eb; lia).
      pose proof (Z.div_mod b' BPB ltac:(done)). pose proof (Z.div_mod b BPB ltac:(done)).
      destruct (Z.eqb_spec b' b) as [->|Hn]; [by rewrite Em, Z.eqb_refl|]. rewrite (proj2 (Z.eqb_neq _ bi)); [done|]. lia.
    + rewrite vset_ne by done. by rewrite (proj2 (Z.eqb_neq b' b)) by (intros ->; done).
  - apply vset_eq.
  - intros bno H1 H2. by rewrite !vset_ne.
Qed.

Lemma bzero_wp pid s V bl bno c i (A : Type) (k : unit -> K kern A) (Q : A -> ctx * kern -> Prop) :
  txn pid s V bl -> kctx c i pid -> room bl 1 -> 0 <= bno < 2 ^ 31 ->
  (forall c' s', kctx c' i pid -> log_frame s s' -> txn pid s' (vset bno (replicate (Z.to_nat BSIZE) 0) V) (log_add bno bl) ->
    wp bd_env (k tt) Q (c', s')) ->
  wp bd_env (bzero ROOTDEV bno ≫= k) Q (c, s).
Proof.
  intros [B T] Hc Hr Hb HQ. apply wp_bind. unfold bzero. change (u32 ROOTDEV) with ROOTDEV. rewrite u32_small by lia.
  apply (bread_body pid s V (list_to_set bl) bno c i); [done..|by apply (room_bufs bl 1)|]. intros b bf c1 s1 Hc1 F1 D1 Hbf Hd Hl B1.
  apply (bmodify_end pid s1 V bl b bno bf (replicate (Z.to_nat BSIZE) 0) c1 i); [done|done|by eapply tlog_frame|done|done|done|done|apply length_replicate|].
  intros c2 s2 Hc2 F2 T2. apply HQ; [done| |done]. eapply log_frame_trans; [|done]. by apply log_frame_bd.
Qed.

(** A free block found in bitmap block [bb]: mark it, log, zero it. *)
Lemma balloc_take pid s V bl sb t bi p bf c i (Q : Z -> ctx * kern -> Prop) :
  let b := BPB * t + bi in let bb := BBLOCK (BPB * t) sb in
  bio_ok pid s V (list_to_set bl) {[p := bb]} -> bufs s !! p = Some bf -> b_data bf = V bb -> length (V bb) = Z.to_nat BSIZE ->
  tlog s bl -> kctx c i pid -> room bl 2 -> 0 <= bb < 2 ^ 31 -> 0 <= b < 2 ^ 31 -> b <> bb ->
  (forall c' s', kctx c' i pid -> log_frame s s' ->
     txn pid s' (vset b (replicate (Z.to_nat BSIZE) 0) (vset bb (put_bit true (V bb) bi) V)) (log_add b (log_add bb bl)) -> Q b (c', s')) ->
  wp bd_env (let m := Z.shiftl 1 (bi `mod` 8) in
    up_buf p (fun bf => set_b_data (set_byte (bi / 8) (Z.lor (byte_at (b_data bf) (bi / 8)) m) (b_data bf)) bf) ;;
    log_write p ;; brelse p ;; bzero (i32 ROOTDEV) b ;; mret (u32 b)) Q (c, s).
Proof.
  intros b bb B Hbf Hd Hl T Hc Hr Hbb Hb Hne HQ. cbv zeta.
  apply (bmodify_wp pid s V bl p bb bf (put_bit true (V bb) bi) c i);
    [done|done|done|done|eapply room_le; [|done]; lia|done|by rewrite Hd|by rewrite length_put_bit|].
  intros c2 s2 Hc2 F2 T2. change (i32 ROOTDEV) with ROOTDEV.
  apply (bzero_wp pid s2 _ _ b c2 i _ _ _ T2 Hc2); [by apply room_add|done|].
  intros c3 s3 Hc3 F3 T3. apply wp_ret. rewrite u32_small by lia. apply HQ; [done|by eapply log_frame_trans|done].
Qed.

Lemma balloc_loop_wp pid sb V bl i (Q : Z -> ctx * kern -> Prop) fuel : forall s c t,
  txn pid s V bl -> kctx c i pid -> room bl 2 -> k_sb s = sb -> bitmap_ok sb V ->
  (forall b, 0 <= b < BPB * t -> b < sb_size sb -> in_use sb V b = true) ->
  (exists b, 0 <= b < sb_size sb /\ in_use sb V b = false) -> 0 <= t -> sb_size sb <= BPB * (t + Z.of_nat fuel) ->
  (forall c' s' V' b, kctx c' i pid -> log_frame s s' -> txn pid s' V' (log_add b (log_add (BBLOCK b sb) bl)) ->
     allocated sb V V' b -> Q b (c', s')) ->
  wp bd_env (balloc_loop fuel ROOTDEV (BPB * t)) Q (c, s).
Proof.
  assert (HP : BPB = 8192) by done.
  induction fuel as [|fuel IH]; intros s c t [B T] Hc Hr Hsb Hbm Hlow [f0 [Hf0 Hfree0]] Ht Hfuel HQ.
  { exfalso. rewrite Hlow in Hfree0; [done|lia|lia]. }
  assert (Ht0 : BPB * t <= f0) by (destruct (decide (f0 < BPB * t)); [rewrite Hlow in Hfree0; [done|lia|lia]|lia]).
  pose proof (bm_size _ _ Hbm) as Hsz.
  set (bb := BBLOCK (BPB * t) sb). assert (Hbb : 0 <= bb < 2 ^ 31) by (apply (BBLOCK_range sb V); [done|lia]).
  cbn [balloc_loop]. eapply wp_step; [apply ld_sb_run|]. rewrite Hsb, u32_small, (proj2 (Z.ltb_lt _ _)) by lia.
  fold bb. rewrite (u32_small bb) by lia.
  apply (bread_body pid s V (list_to_set bl) bb c i); [done..|eapply room_bufs; [|done]; lia|]. intros p bf c1 s1 Hc1 F1 D1 Hbf Hd Hl B1.
  eapply wp_step; [by apply ld_buf_run|]. rewrite Hd.
  pose proof (free_bit_spec (V bb) (BPB * t) (sb_size sb) (Z.to_nat BPB) 0 ltac:(lia) ltac:(lia) ltac:(lia) ltac:(lia)) as Hfb.
  destruct (free_bit (Z.to_nat BPB) (V bb) (BPB * t) 0 (sb_size sb)) as [bi|].
  - destruct Hfb as (Hbi & Hbs & Hbit & Hbl). pose proof (BBLOCK_base sb t bi Hbi) as Ebb. fold bb in Ebb.
    destruct (allocated_intro sb V t bi Hbm ltac:(intros; by eapply bio_len) Ht Hbi Hbs) as [Hne Hal]; [by rewrite Ebb| |].
    { intros b' Hb'. destruct (decide (b' < BPB * t)); [apply Hlow; lia|]. rewrite (in_use_bit sb V b' t) by lia. apply Hbl. lia. }
    rewrite Ebb in *. apply (balloc_take pid s1 V bl sb t bi p bf c1 i); [done..|by eapply tlog_frame|done|done|done|lia|done|].
    intros c2 s2 Hc2 F2 T2. eapply HQ; [done| |rewrite Ebb; exact T2|done]. eapply log_frame_trans; [by apply log_frame_bd|done].
  - apply (brelse_body pid s1 V (list_to_set bl) p bb c1 i); [done..|rewrite D1; by eapply bio_disk|]. intros c2 s2 Hc2 F2 D2 B2.
    assert (F : bd_frame s s2) by (by eapply bd_frame_trans).
    replace (BPB * t + BPB) with (BPB * (t + 1)) by lia.
    apply IH; [split; [done|by eapply tlog_frame]|done|done|by rewrite F|done| |by exists f0|lia|lia|].
    + intros b' Hb' Hin. destruct (decide (b' < BPB * t)); [apply Hlow; lia|]. rewrite (in_use_bit sb V b' t) by lia. apply Hfb; lia.
    + intros c3 s3 V3 b3 Hc3 F3. apply HQ; [done|]. eapply log_frame_trans; [by apply log_frame_bd|done].
Qed.

Lemma balloc_wp pid s V bl c i (Q : Z -> ctx * kern -> Prop) :
  let sb := k_sb s in
  txn pid s V bl -> kctx c i pid -> room bl 2 -> bitmap_ok sb V -> (exists b, 0 <= b < sb_size sb /\ in_use sb V b = false) ->
  (forall c' s' V' b, kctx c' i pid -> log_frame s s' -> txn pid s' V' (log_add b (log_add (BBLOCK b sb) bl)) ->
     allocated sb V V' b -> Q b (c', s')) ->
  wp bd_env (balloc ROOTDEV) Q (c, s).
Proof.
  intros sb T Hc Hr Hbm Hex HQ. unfold balloc. eapply wp_step; [apply ld_sb_run|]. fold sb. change 0 with (BPB * 0) at 1.
  apply (balloc_loop_wp pid sb V bl i); try done; [intros; lia|].
  pose proof (bm_size _ _ Hbm). change BPB with 8192. pose proof (Z.div_mod (sb_size sb) 8192 ltac:(lia)).
  pose proof (Z.mod_pos_bound (sb_size sb) 8192 ltac:(lia)). pose proof (Z.div_pos (sb_size sb) 8192 ltac:(lia) ltac:(lia)). lia.
Qed.

Lemma bfree_wp pid s V bl b c i (Q : unit -> ctx * kern -> Prop) :
  let sb := k_sb s in let bb := BBLOCK b sb in
  txn pid s V bl -> kctx c i pid -> room bl 1 -> bitmap_ok sb V -> 0 <= b < sb_size sb -> in_use sb V b = true ->
  (forall c' s', kctx c' i pid -> log_frame s s' ->
     txn pid s' (vset bb (put_bit false (V bb) (b `mod` BPB)) V) (log_add bb bl) -> Q tt (c', s')) ->
  wp bd_env (bfree ROOTDEV b) Q (c, s).
Proof.
  intros sb bb [B T] Hc Hr Hbm Hb Hu HQ. unfold bfree. eapply wp_step; [apply ld_sb_run|]. change (u32 ROOTDEV) with ROOTDEV.
  fold sb bb. pose proof (BBLOCK_range sb V b Hbm Hb) as Hbb. rewrite u32_small by lia.
  apply (bread_body pid s V (list_to_set bl) bb c i); [done..|by apply (room_bufs bl 1)|]. intros p bf c1 s1 Hc1 F1 D1 Hbf Hd Hl B1.
  cbv zeta. eapply wp_step; [by apply ld_buf_run|]. rewrite Hd, land_bit by (apply Z.mod_pos_bound; lia).
  change (Z.testbit _ _) with (in_use sb V b). rewrite Hu. cbn [negb].
  apply (bmodify_end pid s1 V bl p bb bf (put_bit false (V bb) (b `mod` BPB)) c1 i);
    [done|done|by eapply tlog_frame|done|done|done|by rewrite Hd|by rewrite length_put_bit|].
  intros c2 s2 Hc2 F2 T2. apply HQ; [done| |done]. eapply log_frame_trans; [|done]. by apply log_frame_bd.
Qed.

End Contents.
