(* ===== verification/Own.v ===== *)
(** * What a kernel path leaves alone (kernel/proc.h)

    The page table of a process is private to it: "these are private to the
    process, so p->lock need not be held".  [keeps i m] says that no step of
    [m] changes the page table of process [i], provided that nobody else does
    while [m] is suspended.  It holds of the locks, of sleep() and wakeup(), of
    the buffer cache, the log and bmap(), by composition, and with it a [wp]
    theorem about them also says that the process has the page table it had. *)

From stdpp Require Import base numbers list list_numbers gmap strings.
From Stdlib Require Import ZArith Lia.
From S2P Require Import Prelude.
From S2P Require Import Machine.
From S2P Require Import Spinlock.
From S2P Require Import Mem.
From S2P Require Import Kalloc.
From S2P Require Import Kern.
From S2P Require Import Sched.
From S2P Require Import SleepLk.
From S2P Require Import Bio.
From S2P Require Import Log.
From S2P Require Import UserMem.
From S2P Require Import Fs.
From S2P Require Import Uart.
From S2P Require Import Virtio.

Local Open Scope Z_scope.

Create HintDb keeps.

Section Keeps.
Context {S : Type} (i : nat).
Implicit Types w : ctx * S.

Definition own (w w' : ctx * S) : Prop := p_pagetable <$> cx_procs (fst w') !! i = p_pagetable <$> cx_procs (fst w) !! i.

Lemma own_trans w w1 w2 : own w w1 -> own w1 w2 -> own w w2.
Proof. unfold own. congruence. Qed.

(** Up to each switch and up to the end the page table is what it was; after a
    switch this is asked only when the others kept it. *)
Fixpoint okeeps {A} (w : ctx * S) (o : outcome S A) : Prop :=
  match o with
  | Ret _ w' => own w w'
  | Swtch w1 k => own w w1 /\ forall w2, own w1 w2 -> okeeps w2 (k w2)
  | _ => True
  end.

Definition keeps {A} (m : K S A) : Prop := forall w, okeeps w (m w).

Lemma okeeps_from {A} w w1 (o : outcome S A) : own w w1 -> okeeps w1 o -> okeeps w o.
Proof. intros H. destruct o; simpl; try done; [by apply own_trans|]. intros [H1 H2]. split; [by eapply own_trans|done]. Qed.

Lemma keeps_bind {A B} (m : K S A) (f : A -> K S B) : keeps m -> (forall a, keeps (f a)) -> keeps (m ≫= f).
Proof.
  intros Hm Hf w. specialize (Hm w). unfold mbind, K_bind. revert Hm. generalize w at 1 3 as w0.
  induction (m w) as [a w'| | | |w1 k IH]; intros w0 H; simpl in *; try done.
  - eapply okeeps_from; [exact H|apply Hf].
  - destruct H as [H1 H2]. split; [done|]. intros w2 Hw. by apply IH, H2.
Qed.

Lemma keeps_ret {A} (a : A) : keeps (mret a).
Proof. done. Qed.
Lemma keeps_panic {A} msg : keeps (@panic S A msg).
Proof. done. Qed.
Lemma keeps_fault {A} : keeps (@fault S A).
Proof. done. Qed.
Lemma keeps_hang {A} : keeps (@hang S A).
Proof. done. Qed.
Lemma keeps_asks {A} (f : ctx * S -> A) : keeps (asks f).
Proof. done. Qed.
Lemma keeps_modify f : keeps (@modify S f).
Proof. done. Qed.
Lemma keeps_swtch : keeps (@swtch S).
Proof. by intros w. Qed.

Lemma keeps_load {T} (l : lens (ctx * S) T) : keeps (load l).
Proof. intros w. unfold load. by destruct (get l w). Qed.

(** Places in which no page table is stored. *)
Class KeepLens {T} (l : lens (ctx * S) T) : Prop := { put_own : forall t w, own w (put l t w) }.

Lemma keeps_store {T} (l : lens (ctx * S) T) `{!KeepLens l} t : keeps (store l t).
Proof. intros w. unfold store. destruct (get l w); [apply put_own|done]. Qed.
Lemma keeps_update {T} (l : lens (ctx * S) T) `{!KeepLens l} f : keeps (update l f).
Proof. intros w. unfold update. destruct (get l w); [apply put_own|done]. Qed.

#[export] Instance keep_inS {T} (l : lens S T) : KeepLens (inS l).
Proof. by split. Qed.
#[export] Instance keep_cpu : KeepLens (@inC S _ cpu_lens).
Proof. by split. Qed.
#[export] Instance keep_p_lk j : KeepLens (@p_lk S j).
Proof.
  split. intros t [[cp ps fu] s]. unfold own, p_lk, inC, plock, proc_lens, procs_lens, comp. simpl.
  destruct (ps !! j) as [p|] eqn:Hp; [|done]. simpl. destruct (decide (i = j)) as [<-|Hne].
  - rewrite list_lookup_insert_eq, Hp by (by eapply lookup_lt_Some). done.
  - by rewrite list_lookup_insert_ne.
Qed.

Lemma keeps_pupd j f : (forall p, p_pagetable (f p) = p_pagetable p) -> keeps (@pupd S j f).
Proof.
  intros Hf [[cp ps fu] s]. unfold pupd, update, inC, proc_lens, procs_lens, comp. simpl.
  destruct (ps !! j) as [p|] eqn:Hp; simpl; [|done]. unfold own. simpl. destruct (decide (i = j)) as [<-|Hne].
  - rewrite list_lookup_insert_eq, Hp by (by eapply lookup_lt_Some). simpl. by rewrite Hf.
  - by rewrite list_lookup_insert_ne.
Qed.

Lemma keeps_while cond body : keeps cond -> keeps body -> keeps (@while S cond body).
Proof.
  intros Hc Hb w. unfold while. generalize (cx_fuel (fst w)). intros n. revert w. induction n as [|n IH]; [done|].
  apply keeps_bind; [done|]. intros []; [by apply keeps_bind|apply keeps_ret].
Qed.

Lemma keeps_for_each {A} (l : list A) body : (forall a, keeps (body a)) -> keeps (@for_each S A l body).
Proof. intros Hb. induction l as [|a l IH]; [apply keeps_ret|]. by apply keeps_bind. Qed.

(** What [wp] says, and that the page table is kept. *)
Lemma wp_keeps {A} (E : env S) (m : K S A) (Q : A -> ctx * S -> Prop) w :
  (forall w1 w2, rely E w1 w2 -> own w1 w2) -> keeps m -> wp E m Q w -> wp E m (fun a w' => Q a w' /\ own w w') w.
Proof.
  intros HE Hm. specialize (Hm w). unfold wp. revert Hm. generalize w at 1 5 as w0.
  induction (m w) as [a w'| | | |w1 k IH]; intros w0 Hk H; simpl in *; try done.
  destruct H as [Hg H]. split; [done|]. intros w2 Hw. destruct Hk as [K1 K2].
  eapply owp_mono; [|apply (IH w2 w2); [apply K2, HE, Hw|by apply H]]. cbn beta. intros a w' [HQ Ho]. split; [done|].
  eapply own_trans; [exact K1|]. eapply own_trans; [apply HE, Hw|done].
Qed.

Lemma keeps_run {A} (m : K S A) w a w' : keeps m -> m w = Ret a w' -> own w w'.
Proof. intros H E. specialize (H w). by rewrite E in H. Qed.

End Keeps.

Arguments own {S} i w w'.
Arguments keeps {S} i {A} m.

#[export] Hint Resolve keeps_ret keeps_panic keeps_fault keeps_hang keeps_asks keeps_modify keeps_swtch keeps_load keeps_pupd
  keeps_while keeps_for_each : keeps.
#[export] Hint Extern 2 (keeps _ (store _ _)) => apply keeps_store; apply _ : keeps.
#[export] Hint Extern 2 (keeps _ (update _ _)) => apply keeps_update; apply _ : keeps.

(** Through binds and case distinctions down to known operations. *)
Ltac keep :=
  cbv zeta;
  lazymatch goal with
  | |- keeps _ (_ ≫= _) => apply keeps_bind; [keep|intros ?; keep]
  | |- keeps _ (while _ _) => apply keeps_while; keep
  | |- keeps _ (if ?b then _ else _) => destruct b; keep
  | |- keeps _ (match ?x with _ => _ end) => destruct x; keep
  | |- keeps _ (let '(_, _) := ?x in _) => destruct x; keep
  | |- _ => eauto with keeps
  end.

Section Locks.
Context {S : Type} (i : nat).

Lemma keeps_push_off : keeps i (@push_off S).
Proof. unfold push_off, intr_get, intr_off, mycpu, upd_mycpu. keep. Qed.
Lemma keeps_pop_off : keeps i (@pop_off S).
Proof. unfold pop_off, intr_get, intr_on, mycpu, upd_mycpu. keep. Qed.
#[local] Hint Resolve keeps_push_off keeps_pop_off : keeps.

Lemma keeps_myproc : keeps i (@myproc S).
Proof. unfold myproc, mycpu. keep. Qed.
Lemma keeps_holding (l : lens (ctx * S) spinlock) : keeps i (holding l).
Proof. unfold holding, mycpu. keep. Qed.
#[local] Hint Resolve keeps_myproc keeps_holding : keeps.
Lemma keeps_acquire (l : lens (ctx * S) spinlock) `{!KeepLens i l} : keeps i (acquire l).
Proof. unfold acquire, test_and_set, mycpu. keep. Qed.
Lemma keeps_release (l : lens (ctx * S) spinlock) `{!KeepLens i l} : keeps i (release l).
Proof. unfold release. keep. Qed.
Lemma keeps_pget j : keeps i (@pget S j).
Proof. apply keeps_load. Qed.
Lemma keeps_curproc : keeps i (@curproc S).
Proof. unfold curproc. keep. Qed.

End Locks.

#[export] Hint Resolve keeps_push_off keeps_pop_off keeps_myproc keeps_holding keeps_pget keeps_curproc : keeps.
#[export] Hint Extern 2 (keeps _ (acquire _)) => apply keeps_acquire; apply _ : keeps.
#[export] Hint Extern 2 (keeps _ (release _)) => apply keeps_release; apply _ : keeps.
#[export] Hint Extern 1 (KeepLens _ _) => apply _ : keeps.

Section Sleeping.
Context {S : Type} (i : nat).

Lemma keeps_sched : keeps i (@sched S).
Proof. unfold sched, intr_get, mycpu, upd_mycpu. keep. Qed.
#[local] Hint Resolve keeps_sched : keeps.
Lemma keeps_sleep ch (lk : lens (ctx * S) spinlock) `{!KeepLens i lk} : keeps i (sleep ch lk).
Proof. unfold sleep. keep. Qed.
Lemma keeps_wakeup ch : keeps i (@wakeup S ch).
Proof. unfold wakeup. apply keeps_for_each. intros p. unfold wakeup_body. keep. Qed.
#[local] Hint Resolve keeps_wakeup : keeps.
#[local] Hint Extern 2 (keeps _ (sleep _ _)) => apply keeps_sleep; apply _ : keeps.

Lemma keep_inner (l : lens S sleeplock) : KeepLens i (inner l).
Proof. apply keep_inS. Qed.
#[local] Existing Instance keep_inner.

Lemma keeps_acquiresleep ch (l : lens S sleeplock) : keeps i (acquiresleep ch l).
Proof. unfold acquiresleep. keep. Qed.
Lemma keeps_releasesleep ch (l : lens S sleeplock) : keeps i (releasesleep ch l).
Proof. unfold releasesleep. keep. Qed.
Lemma keeps_holdingsleep (l : lens S sleeplock) : keeps i (holdingsleep l).
Proof. unfold holdingsleep. keep. Qed.

End Sleeping.

#[export] Hint Resolve keeps_sched keeps_wakeup keeps_acquiresleep keeps_releasesleep keeps_holdingsleep : keeps.
#[export] Hint Extern 2 (keeps _ (sleep _ _)) => apply keeps_sleep; apply _ : keeps.

(** What the file system asks of the disk driver: neither it nor anybody else
    while it waits changes the page table of a process. *)
Class BlockDevOwn (BD : BlockDev) : Prop := {
  bd_own_rely : forall i w w', rely bd_env w w' -> own i w w';
  bd_own_rw : forall i b write, keeps i (virtio_disk_rw b write)
}.

Section Storage.
Context {LY : Layout} {BD : BlockDev} {BW : BlockDevOwn BD} (i : nat).

#[local] Hint Resolve bd_own_rw : keeps.
#[local] Hint Unfold ld_next ld_prev ld_buf ld_log ld_inode ld_sb : keeps.
#[local] Hint Extern 2 (keeps _ (up_buf _ _)) => apply keeps_update; apply _ : keeps.
#[local] Hint Extern 2 (keeps _ (up_log _)) => apply keeps_update; apply _ : keeps.
#[local] Hint Extern 2 (keeps _ (up_inode _ _)) => apply keeps_update; apply _ : keeps.
#[local] Hint Extern 2 (keeps _ (st_next _ _)) => apply keeps_store; apply _ : keeps.
#[local] Hint Extern 2 (keeps _ (st_prev _ _)) => apply keeps_store; apply _ : keeps.

Lemma keeps_find_cached n p dev bno : keeps i (find_cached n p dev bno).
Proof. revert p. induction n as [|n IH]; intros p; cbn [find_cached]; [keep|]. destruct p; keep. Qed.
Lemma keeps_find_unused n p : keeps i (find_unused n p).
Proof. revert p. induction n as [|n IH]; intros p; cbn [find_unused]; [keep|]. destruct p; keep. Qed.
#[local] Hint Resolve keeps_find_cached keeps_find_unused : keeps.

Lemma keeps_bread dev bno : keeps i (bread dev bno).
Proof. unfold bread, b_get, bc_lk. keep. Qed.
Lemma keeps_brelse b : keeps i (brelse b).
Proof. unfold brelse, move_front, bc_lk. keep. Qed.
#[local] Hint Resolve keeps_bread keeps_brelse : keeps.
Lemma keeps_log_write b : keeps i (log_write b).
Proof. unfold log_write, log_lk, st_block, bpin, bc_lk. keep. Qed.
#[local] Hint Resolve keeps_log_write : keeps.
Lemma keeps_bzero dev bno : keeps i (bzero dev bno).
Proof. unfold bzero. keep. Qed.
#[local] Hint Resolve keeps_bzero : keeps.
Lemma keeps_balloc dev : keeps i (balloc dev).
Proof.
  unfold balloc. apply keeps_bind; [keep|]. intros sb. generalize (S (S (Z.to_nat (sb_size sb / BPB)))) as n. intros n. generalize 0 as b.
  induction n as [|n IH]; intros b; cbn [balloc_loop]; [keep|]. keep.
Qed.
#[local] Hint Resolve keeps_balloc : keeps.
Lemma keeps_bmap ip bn : keeps i (bmap ip bn).
Proof. unfold bmap. keep. Qed.

End Storage.

(** The driver of virtio_disk.c does its part. *)
Section Driver.
Context {IO : Mmio} {DA : DmaAddrs} (i : nat).

#[local] Hint Unfold ld_vd ld_buf : keeps.
#[local] Hint Extern 2 (keeps _ (up_vd _)) => apply keeps_update; apply _ : keeps.
#[local] Hint Extern 2 (keeps _ (up_buf _ _)) => apply keeps_update; apply _ : keeps.

Lemma keeps_free_desc d : keeps i (free_desc d).
Proof. unfold free_desc. keep. Qed.
Lemma keeps_alloc_desc : keeps i alloc_desc.
Proof. unfold alloc_desc. keep. Qed.
#[local] Hint Resolve keeps_free_desc keeps_alloc_desc : keeps.
Lemma keeps_alloc3_loop n idx : keeps i (alloc3_loop n idx).
Proof. revert idx. induction n as [|n IH]; intros idx; cbn [alloc3_loop]; keep. Qed.
Lemma keeps_free_chain d : keeps i (free_chain d).
Proof. unfold free_chain. generalize (S (Z.to_nat NUM)) as n. intros n. revert d. induction n as [|n IH]; intros d; cbn [free_chain_loop]; keep. Qed.
Lemma keeps_alloc3_wait n : keeps i (alloc3_wait n).
Proof.
  induction n as [|n IH]; cbn [alloc3_wait]; [keep|]. unfold alloc3_desc, vd_lk. apply keeps_bind; [apply keeps_alloc3_loop|].
  intros [[|x [|y [|z [|]]]]|]; keep.
Qed.
#[local] Hint Resolve keeps_free_chain : keeps.

Lemma keeps_disk_rw b write : keeps i (disk_rw b write).
Proof.
  unfold disk_rw, vd_lk. apply keeps_bind; [keep|]. intros bf. apply keeps_bind; [keep|]. intros _. apply keeps_bind.
  { intros w. unfold with_fuel. apply keeps_alloc3_wait. }
  intros [[i0 i1] i2]. unfold virtio_submit, virtio_wait, mmio_write, vd_lk. keep.
Qed.

End Driver.
