(* ===== verification/FsOps.v ===== *)
(** * The file system: what its operations guarantee (kernel/fs.c)

    The theorems about inodes, file contents, blocks, directories and paths,
    each with a run on a concrete disk. *)

From stdpp Require Import base numbers list list_numbers gmap strings.
From Stdlib Require Import ZArith Lia.
From S2P Require Import Prelude.
From S2P Require Import Machine.
From S2P Require Import Spinlock.
From S2P Require Import Mem.
From S2P Require Import Kalloc.
From S2P Require Import Kern.
From S2P Require Import Sched.
From S2P Require Import SleepLk.
From S2P Require Import Bio.
From S2P Require Import Log.
From S2P Require Import LogSpec.
From S2P Require Import LogOps.
From S2P Require Import UserMem.
From S2P Require Import Fs.
From S2P Require Import FsSpec.

Local Open Scope Z_scope.

(** The on-disk inode is a faithful copy.  What iupdate() stores in an
    inode block is what ilock() reads back from it, whatever the block held
    before, and the other inodes of the block are not disturbed. *)
Theorem dinode_roundtrip inum di d :
  dinode_ok di -> length d = Z.to_nat BSIZE ->
  get_dinode inum (put_dinode inum di d) = di /\
  length (put_dinode inum di d) = Z.to_nat BSIZE /\
  forall j, inum `mod` IPB <> j `mod` IPB -> get_dinode j (put_dinode inum di d) = get_dinode j d.
Proof.
  intros Hok Hd. split_and!; [by apply get_put_dinode|by rewrite length_put_dinode|]. intros j Hj. by apply get_put_dinode_ne.
Qed.

(** skipelem() walks the elements of a path.  On a path without elements it
    returns 0; otherwise the name array holds the first one, cut to DIRSIZ
    bytes, and the result has the remaining elements and no leading slash, so
    that it is empty exactly when the element was the last one (which is how
    nameiparent() finds the parent). *)
Theorem skipelem_correct path name :
  0 ∉ path -> length name = Z.to_nat DIRSIZ ->
  match elements path with
  | [] => skipelem path name = None
  | e :: es => exists rest name', skipelem path name = Some (rest, name') /\ elements rest = es /\
      (rest = [] <-> es = []) /\ (0 ∉ rest) /\ length name' = Z.to_nat DIRSIZ /\ cstring name' = take (Z.to_nat DIRSIZ) e
  end.
Proof. apply skipelem_spec. Qed.

Section Claims.
Context {LY : Layout} {BD : BlockDev} {BO : BlockDevOk BD} (r : region).

(** C3: writei() stores the bytes and nothing else.  Writing bs at an offset
    within a file whose blocks are allocated there leaves the file with bs
    spliced into its contents and its size grown to cover them, the inode
    written back, and every block outside the range untouched, all of it in
    the current transaction, which grows by at most the blocks of the range
    and the inode's. *)
Theorem writei_correct pid s V bl ip x ib off bs c i :
  let n := Z.of_nat (length bs) in
  txn r pid s V bl -> kctx c i pid -> room r bl (nblocks off n + 1) -> inodes s !! ip = Some x ->
  ib = IBLOCK (i_inum x) (k_sb s) -> 0 <= off <= i_size x -> off + n <= MAXFILE * BSIZE ->
  file_ok V x ib (Z.max (i_size x) (off + n)) ->
  wp bd_env (writei ip (SLocal bs) off n) (fun res w' => res = n /\ kctx (fst w') i pid /\
    exists V' bl' x', txn r pid (snd w') V' bl' /\
      Z.of_nat (length bl') <= Z.of_nat (length bl) + nblocks off n + 1 /\ written s (snd w') V V' ip x x' ib off bs) (c, s).
Proof.
  intros n T Hc Hr Hx Hib Hoff Hmax Hok. apply (writei_wp r pid s V bl ip x ib off bs c i); [done..|].
  intros c' s' V' bl' x' Hc' T' W Hl. split; [done|]. split; [done|]. by exists V', bl', x'.
Qed.

(** C17: balloc() takes the lowest free block.  When some block is free, balloc()
    returns the first one, marked in use and zeroed, with every other bit of
    the bitmap and every other block as before. *)
Theorem balloc_correct pid s V bl c i :
  let sb := k_sb s in
  txn r pid s V bl -> kctx c i pid -> room r bl 2 -> bitmap_ok sb V -> (exists b, 0 <= b < sb_size sb /\ in_use sb V b = false) ->
  wp bd_env (balloc ROOTDEV) (fun b w' => kctx (fst w') i pid /\ log_frame s (snd w') /\ exists V',
    txn r pid (snd w') V' (log_add b (log_add (BBLOCK b sb) bl)) /\ allocated sb V V' b) (c, s).
Proof.
  intros sb T Hc Hr Hbm Hex. apply (balloc_wp r pid s V bl c i); [done..|]. intros c' s' V' b Hc' F T' Hal.
  split; [done|]. split; [done|]. by exists V'.
Qed.

End Claims.

(** ** A concrete disk *)

(** The inode of a file of 1500 bytes in blocks 100 and 101. *)
Definition file_inode : inode :=
  Inode ROOTDEV 5 1 (Sleeplock false lk0 "inode" 0) true T_FILE 0 0 1 1500 (100 :: 101 :: replicate 11 0).

(** A bitmap with the first 102 blocks in use. *)
Definition bitmap0 : list Z := replicate 12 255 ++ [63] ++ replicate (Z.to_nat BSIZE - 13) 0.
Definition fs_disk : disk := Disk (fun b => if b =? 45 then bitmap0 else replicate (Z.to_nat BSIZE) 0) [].

Lemma fs_disk_len b : length (disk_get fs_disk b) = Z.to_nat BSIZE.
Proof. unfold disk_get, fs_disk. cbn [dk_image dk_writes blocks_after]. case_match; [reflexivity|apply length_replicate]. Qed.

(** A transaction has begun and inode 3 of the table is the file's. *)
Lemma fs_state : exists s, txn rg0 1 s (disk_get fs_disk) [] /\ inodes s !! 3%nat = Some file_inode /\ k_sb s = sb0.
Proof.
  destruct (kern_on_bio fs_disk (log30 (LOGSIZE + 1) 1 0) fs_disk_len) as (bc & B).
  set (s0 := set_k_bcache bc _) in *. assert (T : txn rg0 1 s0 (disk_get fs_disk) []).
  { split; [exact B|]. split; [by split|done|done|intros b Hb; by apply elem_of_nil in Hb]. }
  exists (upd_inodes (insert 3%nat file_inode) s0). split; [by apply txn_inodes|]. split; [|done].
  rewrite inodes_upd. apply list_lookup_insert_eq. unfold inodes. cbn. rewrite length_replicate. unfold NINODE. lia.
Qed.

Lemma file_blocks V k : 0 <= k < 1600 -> k / BSIZE = 0 /\ blk V file_inode (k / BSIZE) = 100 \/ k / BSIZE = 1 /\ blk V file_inode (k / BSIZE) = 101.
Proof.
  intros Hk. change BSIZE with 1024. assert (H : k / 1024 = 0 \/ k / 1024 = 1).
  { pose proof (Z.div_le_lower_bound k 1024 0 ltac:(lia) ltac:(lia)). pose proof (Z.div_lt_upper_bound k 1024 2 ltac:(lia) ltac:(lia)). lia. }
  destruct H as [->| ->]; [by left|by right].
Qed.

Lemma file_mapped V n : n <= 1600 -> range_mapped V file_inode 0 n.
Proof.
  intros Hn k Hk. destruct (file_blocks V k ltac:(lia)) as [[E H]|[E H]]; split_and!; rewrite ?H, ?E; unfold MAXFILE; change NDIRECT with 12; change NINDIRECT with 256; lia.
Qed.

Lemma file_unmapped V bn : mapped V file_inode bn -> bn = 0 \/ bn = 1.
Proof.
  intros (H1 & H2 & H3). unfold blk in *. change NDIRECT with 12 in *. destruct (Z.ltb_spec bn 12); [|by destruct H3; [lia|]].
  destruct (decide (bn < 2)); [lia|]. destruct H2.
  assert (Hc : bn = 2 \/ bn = 3 \/ bn = 4 \/ bn = 5 \/ bn = 6 \/ bn = 7 \/ bn = 8 \/ bn = 9 \/ bn = 10 \/ bn = 11) by lia.
  by repeat destruct Hc as [->|Hc]; [..|subst bn].
Qed.

Lemma file_inode_ok V ib : 0 <= ib < 100 -> ib <> 0 -> file_ok V file_inode ib 1600.
Proof.
  intros Hib Hne. split; try done.
  - split.
    + by apply file_mapped.
    + intros k Hk. destruct (file_blocks V k Hk) as [[_ ->]|[_ ->]]; lia.
    + intros k k' Hk Hm. destruct (file_unmapped V k' Hm) as [->| ->], (file_blocks V k Hk) as [[E H]|[E H]]; rewrite H, E; done.
    + intros k Hk. destruct (file_blocks V k Hk) as [[_ ->]|[_ ->]]; done.
  - lia.
  - intros k Hk. destruct (file_blocks V k Hk) as [[_ ->]|[_ ->]]; lia.
  - split; cbn; unfold short, uint, T_FILE; try lia. repeat constructor; lia.
Qed.

Lemma dinode_roundtrip_witness :
  get_dinode 21 (put_dinode 21 (dinode_of file_inode) (replicate (Z.to_nat BSIZE) 7)) = dinode_of file_inode.
Proof.
  apply (dinode_roundtrip 21 (dinode_of file_inode) (replicate (Z.to_nat BSIZE) 7)).
  - apply (file_inode_ok (fun _ => []) 33); lia.
  - apply length_replicate.
Defined.

(** [skipelem("///a//bb", name)] is ["bb"] with name ["a"]. *)
Lemma skipelem_correct_witness : exists rest name',
  skipelem [47; 47; 47; 97; 47; 47; 98; 98] name_buf = Some (rest, name') /\ elements rest = [[98; 98]] /\ cstring name' = [97].
Proof.
  pose proof (skipelem_correct [47; 47; 47; 97; 47; 47; 98; 98] name_buf ltac:(vm_compute; set_solver) eq_refl) as H.
  destruct H as (rest & name' & H1 & H2 & _ & _ & _ & H3). exists rest, name'. exact (conj H1 (conj H2 H3)).
Defined.

Lemma writei_correct_witness : exists s,
  wp solo (@writei sync_dev 3 (SLocal (replicate 600 65)) 1000 600)
    (fun res w' => res = 600 /\ exists x', inodes (snd w') !! 3%nat = Some x' /\ i_size x' = 1600) (ctx3, s).
Proof.
  destruct fs_state as (s & T & Hx & Hsb). exists s. eapply wp_mono.
  - apply (@writei_correct sync_dev sync_ok rg0 1 s (disk_get fs_disk) [] 3 file_inode 32 1000 (replicate 600 65) ctx3 0 T kctx3);
      [|done|by rewrite Hsb|cbn; lia|vm_compute; discriminate|by apply file_inode_ok].
    unfold room. split; vm_compute; discriminate.
  - intros res [c' s'] [-> (_ & V' & bl' & x' & _ & _ & W)]. split; [done|]. exists x'. destruct W as [_ E1 E2 _ _ _ _ _]. rewrite E1.
    split; [apply list_lookup_insert_eq; by eapply lookup_lt_Some|rewrite E2, grown_size; done].
Defined.

Lemma balloc_correct_witness : exists s, wp solo (@balloc sync_dev ROOTDEV) (fun b _ => b = 102) (ctx3, s).
Proof.
  destruct fs_state as (s & T & Hx & Hsb). exists s. eapply wp_mono.
  - apply (@balloc_correct sync_dev sync_ok rg0 1 s (disk_get fs_disk) [] ctx3 0 T kctx3); rewrite ?Hsb.
    + unfold room. split; vm_compute; discriminate.
    + split; [cbn; unfold FSSIZE; lia|cbn; unfold FSSIZE; lia|]. intros b Hb. cbn in Hb. unfold BBLOCK. rewrite Z.div_small; [done|]. unfold FSSIZE in Hb. change BPB with 8192. lia.
    + exists 102. split; [cbn; unfold FSSIZE; lia|reflexivity].
  - intros b [c' s'] (_ & _ & V' & _ & Hal). rewrite Hsb in Hal. destruct (Z.lt_trichotomy b 102) as [H|[H|H]]; [|done|].
    + exfalso. pose proof (al_free _ _ _ _ Hal) as Hf. pose proof (al_range _ _ _ _ Hal) as Hr.
      assert (Hall : forallb (fun b => in_use sb0 (disk_get fs_disk) b) (seqZ 0 102) = true) by (vm_compute; reflexivity).
      rewrite forallb_forall in Hall. rewrite Hall in Hf; [done|]. apply list_elem_of_In, elem_of_seqZ. lia.
    + exfalso. pose proof (al_lowest _ _ _ _ Hal 102 ltac:(lia)) as Hl. vm_compute in Hl. done.
Defined.
