(* ===== verification/DirSpec.v ===== *)
(** * The inode table and directories (kernel/fs.c)

    iget() on the table of inodes in memory, and dirlookup() on the contents
    of a directory as [FsSpec] describes them. *)

From stdpp Require Import base numbers list list_numbers gmap strings.
From Stdlib Require Import ZArith Lia.
From S2P Require Import Prelude.
From S2P Require Import Machine.
From S2P Require Import Spinlock.
From S2P Require Import Mem.
From S2P Require Import Kalloc.
From S2P Require Import Kern.
From S2P Require Import Sched.
From S2P Require Import SleepLk.
From S2P Require Import Bio.
From S2P Require Import Log.
From S2P Require Import LogSpec.
From S2P Require Import LogOps.
From S2P Require Import UserMem.
From S2P Require Import Fs.
From S2P Require Import FsSpec.
From S2P Require Import FsOps.

Local Open Scope Z_scope.

(** ** The inode table *)

(** Entry [x] is in use for inode [inum] of [dev]. *)
Definition live (dev inum : Z) (x : inode) : Prop := 0 < i_ref x /\ i_dev x = dev /\ i_inum x = inum.

#[export] Instance live_dec dev inum x : Decision (live dev inum x).
Proof. unfold live. apply _. Defined.

(** At most one entry per inode. *)
Definition it_uniq (l : list inode) : Prop :=
  forall j k x y dev inum, l !! j = Some x -> l !! k = Some y -> live dev inum x -> live dev inum y -> j = k.

(** The entry iget() returns, and what it holds afterwards. *)
Inductive iget_spec (l : list inode) (dev inum : Z) : nat -> inode -> Prop :=
  | iget_cached ip x :
      l !! ip = Some x -> live dev inum x ->
      iget_spec l dev inum ip (set_i_ref (i_ref x + 1) x)
  | iget_new ip x :
      (forall j y, l !! j = Some y -> ~ live dev inum y) -> l !! ip = Some x -> i_ref x = 0 ->
      iget_spec l dev inum ip (set_i_valid false (set_i_ref 1 (set_i_inum inum (set_i_dev dev x)))).

Lemma live_test dev inum x :
  (0 <? i_ref x) && (i_dev x =? dev) && (i_inum x =? inum) = bool_decide (live dev inum x).
Proof.
  unfold live. case_bool_decide as H.
  - destruct H as (H1 & -> & ->). by rewrite (proj2 (Z.ltb_lt _ _) H1), !Z.eqb_refl.
  - destruct (Z.ltb_spec 0 (i_ref x)), (Z.eqb_spec (i_dev x) dev), (Z.eqb_spec (i_inum x) inum); cbn; tauto.
Qed.

Lemma iget_scan_spec l : forall i dev inum empty,
  match iget_scan l i dev inum empty with
  | inl j => exists k x, j = (i + k)%nat /\ l !! k = Some x /\ live dev inum x
  | inr e => (forall k y, l !! k = Some y -> ~ live dev inum y) /\
      match empty with
      | Some _ => e = empty
      | None => match e with
                | Some j => exists k x, j = (i + k)%nat /\ l !! k = Some x /\ i_ref x = 0
                | None => forall k y, l !! k = Some y -> i_ref y <> 0
                end
      end
  end.
Proof.
  induction l as [|x l IH]; intros i dev inum empty; simpl.
  - split; [by intros [] ?|]. destruct empty; [done|]. by intros [] ?.
  - rewrite live_test. case_bool_decide as Hl; [exists 0%nat, x; split_and!; [lia|done|apply Hl..]|].
    set (e' := match empty with None => _ | Some _ => _ end). specialize (IH (S i) dev inum e').
    destruct (iget_scan l (S i) dev inum e') as [j|e].
    + destruct IH as (k & y & -> & Hk & Hy). exists (S k), y. split_and!; [lia|done|apply Hy..].
    + destruct IH as [Hno He]. split; [by intros [|k] y; [intros [= <-]|apply Hno]|]. unfold e' in He.
      destruct empty as [e0|]; [done|]. destruct (Z.eqb_spec (i_ref x) 0) as [Hz|Hz].
      * subst e. exists 0%nat, x. split_and!; [lia|done|done].
      * destruct e as [j|].
        -- destruct He as (k & y & -> & Hk & Hy). exists (S k), y. split_and!; [lia|done|done].
        -- by intros [|k] y; [intros [= <-]|apply He].
Qed.

Definition it_ok (s : kern) : Prop := lock_free (it_lock (k_itable s)) /\ length (inodes s) = Z.to_nat NINODE.

Lemma it_acquire c s :
  lock_free (it_lock (k_itable s)) ->
  acquire it_lk (c, s) = Ret tt (pushed c, set_k_itable (set_it_lock (held (it_lock (k_itable s)) (c_id (cx_cpu c))) (k_itable s)) s).
Proof. intros H. unfold it_lk. by rewrite (acquire_S (comp k_itable_l it_lock_l) c s (it_lock (k_itable s)) eq_refl H). Qed.

Lemma it_release c s lk :
  cpu_ok (cx_cpu c) -> lock_free lk -> it_lock (k_itable s) = held lk (c_id (cx_cpu c)) ->
  release it_lk (pushed c, s) = Ret tt (settled c, set_k_itable (set_it_lock lk (k_itable s)) s).
Proof.
  intros H1 H3 H4. unfold it_lk. rewrite (release_S (comp k_itable_l it_lock_l) c (pushed c) s lk H1 eq_refl H3); [done|].
  unfold comp. simpl. by rewrite H4.
Qed.

Lemma upd_inodes_lock lk lk' f s :
  lk' = it_lock (k_itable s) ->
  set_k_itable (set_it_lock lk' (k_itable (upd_inodes f (set_k_itable (set_it_lock lk (k_itable s)) s)))) (upd_inodes f (set_k_itable (set_it_lock lk (k_itable s)) s)) = upd_inodes f s.
Proof. intros ->. by destruct s as [? ? ? ? []]. Qed.

Lemma upd_inodes_twice ip x y s : upd_inodes (insert ip y) (upd_inodes (insert ip x) s) = upd_inodes (insert ip y) s.
Proof. unfold upd_inodes. destruct s as [? ? ? ? []]. cbn. unfold inodes. cbn. by rewrite list_insert_insert_eq. Qed.

Lemma iget_run dev inum c s :
  it_ok s -> cpu_ok (cx_cpu c) ->
  (exists ip x', iget dev inum (c, s) = Ret ip (settled c, upd_inodes (insert ip x') s) /\ iget_spec (inodes s) dev inum ip x') \/
  ((forall j y, inodes s !! j = Some y -> ~ live dev inum y /\ i_ref y <> 0) /\ iget dev inum (c, s) = Panic "iget: no inodes").
Proof.
  intros [Hf Hlen] Hc. unfold iget. rewrite (bind_ret _ _ _ _ _ (it_acquire c s Hf)).
  set (s1 := set_k_itable _ s). rewrite (bind_ret _ _ _ (inodes s) (pushed c, s1)) by done.
  rewrite take_ge by (by rewrite Hlen). pose proof (iget_scan_spec (inodes s) 0 dev inum None) as Hs.
  destruct (iget_scan (inodes s) 0 dev inum None) as [ip|[ip|]].
  - left. destruct Hs as (k & x & -> & Hk & Hl). rewrite Nat.add_0_l. eexists k, _. split; [|by eapply iget_cached].
    rewrite (bind_ret _ _ _ _ _ (up_inode_run _ s1 k x _ Hk)).
    erewrite bind_ret; [|apply (it_release c _ (it_lock (k_itable s))); [done|done|done]]. unfold s1. by rewrite upd_inodes_lock.
  - left. destruct Hs as (Hno & k & x & -> & Hk & Hz). rewrite Nat.add_0_l. eexists k, _. split; [|by eapply iget_new].
    pose proof (lookup_lt_Some _ _ _ Hk) as Hlt.
    rewrite (bind_ret _ _ _ _ _ (up_inode_run _ s1 k x _ Hk)).
    do 3 (erewrite bind_ret; [|apply up_inode_run; rewrite inodes_upd; apply list_lookup_insert_eq; rewrite ?inodes_upd, ?length_insert; exact Hlt]; rewrite upd_inodes_twice).
    erewrite bind_ret; [|apply (it_release c _ (it_lock (k_itable s))); [done|done|done]]. unfold s1. by rewrite upd_inodes_lock.
  - right. destruct Hs as [Hno Hz]. split; [|done]. intros j y Hj. split; [by eapply Hno|by eapply Hz].
Qed.

Lemma iget_spec_live l dev inum ip x' :
  iget_spec l dev inum ip x' -> (ip < length l)%nat /\ live dev inum x'.
Proof.
  intros [? x Hx (H1 & <- & <-)|? x Hno Hx Hz]; (split; [by eapply lookup_lt_Some|]); unfold live; simpl; split_and!; lia || done.
Qed.

Lemma iget_spec_uniq l dev inum ip x' : it_uniq l -> iget_spec l dev inum ip x' -> it_uniq (<[ip := x']> l).
Proof.
  intros Hu Hg. destruct (iget_spec_live _ _ _ _ _ Hg) as [Hlt Hlive].
  assert (H : forall j y d n, j <> ip -> l !! j = Some y -> live d n y -> live d n x' -> False).
  { intros j y d n Hj Hy Hly (_ & <- & <-). destruct Hlive as (_ & E1 & E2). rewrite E1, E2 in Hly.
    destruct Hg as [? x Hx Hlx|? x Hno Hx Hz]; [apply Hj; by eapply Hu|by eapply Hno]. }
  intros j k x y d n Hj Hk Hx Hy. apply list_lookup_insert_Some in Hj as [(-> & -> & _)|[Hj1 Hj2]];
    apply list_lookup_insert_Some in Hk as [(<- & <- & _)|[Hk1 Hk2]]; [done| | |by eapply Hu].
  - destruct (H k y d n); done.
  - destruct (H j x d n); done.
Qed.

(** ** Directories *)

(** The name in a char array of DIRSIZ bytes. *)
Definition name_str (s : list Z) : list Z := cstr (chars s) 0 (Z.to_nat DIRSIZ).

(** Entry [j] of a directory. *)
Definition entry (V : Z -> list Z) (x : inode) (j : Z) : dirent := dirent_of (fdata V x (DIRENT_SIZE * j) DIRENT_SIZE).

(** The reference: the first used entry with the name, from entry [j] on. *)
Fixpoint find_name (name : list Z) (l : list dirent) (j : Z) : option (Z * Z) :=
  match l with
  | [] => None
  | e :: r => if negb (de_inum e =? 0) && bool_decide (name_str name = name_str (de_name e))
              then Some (j, de_inum e) else find_name name r (j + 1)
  end.
Definition entries (V : Z -> list Z) (x : inode) (j n : Z) : list dirent := (entry V x) <$> seqZ j n.

Lemma chars_bytes s i : Forall is_byte s -> is_byte (chars s i).
Proof.
  intros H. unfold chars. case_match; [unfold is_byte; lia|]. rewrite nth_lookup.
  destruct (s !! Z.to_nat i) eqn:E; simpl; [by eapply Forall_lookup_1|unfold is_byte; lia].
Qed.

Lemma namecmp_spec s t :
  Forall is_byte s -> Forall is_byte t -> (namecmp s t =? 0) = bool_decide (name_str s = name_str t).
Proof.
  intros Hs Ht. pose proof (strncmp_zero (chars s) (chars t) (Z.to_nat DIRSIZ) (fun i => chars_bytes s i Hs) (fun i => chars_bytes t i Ht)) as H.
  unfold namecmp, name_str. case_bool_decide as E; [apply Z.eqb_eq; by apply H|apply Z.eqb_neq; intros E'; by apply E, H].
Qed.

Lemma dirent_name_bytes bs : Forall is_byte bs -> Forall is_byte (de_name (dirent_of bs)).
Proof. intros H. unfold dirent_of, slice. cbn [de_name]. by apply Forall_take, Forall_drop. Qed.

Lemma fdata_bytes V x off n : (forall k, off <= k < off + n -> is_byte (fbyte V x k)) -> Forall is_byte (fdata V x off n).
Proof. intros H. unfold fdata. apply Forall_fmap, Forall_forall. intros k Hk%elem_of_seqZ. apply H. lia. Qed.

(** A directory of [n] entries, all of its blocks allocated. *)
Record dir_ok (V : Z -> list Z) (x : inode) (n : Z) : Prop := {
  dr_dev : i_dev x = ROOTDEV;
  dr_type : i_type x = T_DIR;
  dr_size : i_size x = DIRENT_SIZE * n;
  dr_len : 0 <= n /\ DIRENT_SIZE * n < 2 ^ 31;
  dr_map : range_mapped V x 0 (DIRENT_SIZE * n);
  dr_bytes : forall k, 0 <= k < DIRENT_SIZE * n -> is_byte (fbyte V x k)
}.

Lemma it_ok_bd s s' : bd_frame s s' -> it_ok s -> it_ok s'.
Proof. intros F [H1 H2]. unfold it_ok. rewrite (bd_frame_inodes s s' F). split; [|done]. by rewrite F. Qed.

Lemma upd_inodes_bio pid s V X L f : bio_ok pid s V X L -> bio_ok pid (upd_inodes f s) V X L.
Proof. by intros []. Qed.

Section Dirs.
Context {BD : BlockDev} {BO : BlockDevOk BD}.

(** What dirlookup() finds. *)
Inductive lookup_spec (s : kern) (x : inode) (found : option (Z * Z)) : option (nat * Z) -> kern -> Prop :=
  | lookup_none s' : found = None -> bd_frame s s' -> lookup_spec s x found None s'
  | lookup_some j inum ip x' s1 :
      found = Some (j, inum) -> bd_frame s s1 -> iget_spec (inodes s) (i_dev x) inum ip x' ->
      lookup_spec s x found (Some (ip, DIRENT_SIZE * j)) (upd_inodes (insert ip x') s1).

Lemma dirlookup_loop_wp pid V X dp x name n i (Q : option (nat * Z) -> ctx * kern -> Prop) fuel : forall s c j,
  bio_ok pid s V X ∅ -> kctx c i pid -> (size X < Z.to_nat NBUF)%nat -> it_ok s ->
  inodes s !! dp = Some x -> dir_ok V x n -> Forall is_byte name -> 0 <= j <= n -> n - j < Z.of_nat fuel ->
  (forall inum, exists k y, inodes s !! k = Some y /\ (live (i_dev x) inum y \/ i_ref y = 0)) ->
  (forall c' s' res, kctx c' i pid -> lookup_spec s x (find_name name (entries V x j (n - j)) j) res s' ->
     bio_ok pid s' V X ∅ -> Q res (c', s')) ->
  wp bd_env (dirlookup_loop fuel dp name (DIRENT_SIZE * j)) Q (c, s).
Proof.
  induction fuel as [|fuel IH]; intros s c j B Hc Hs Hit Hx Hdir Hname Hj Hf Hroom HQ; [lia|].
  pose proof Hdir as [D1 D2 D3 D4 D5 D6]. change DIRENT_SIZE with 16 in *.
  cbn [dirlookup_loop]. change DIRENT_SIZE with 16. eapply wp_step; [by apply ld_inode_run|]. rewrite D3.
  destruct (Z.ltb_spec (16 * j) (16 * n)) as [Hlt|Hge]; cbn [negb]; cycle 1.
  { apply wp_ret. apply HQ; [done| |done]. replace (n - j) with 0 by lia. apply lookup_none; [done|apply bd_frame_refl]. }
  apply wp_bind. apply (readi_wp pid V X dp x i s c (16 * j) 16); [done..|unfold uint; lia|unfold uint; lia|lia|by rewrite D3|].
  intros c1 s1 Hc1 F1 K1 B1. assert (El : read_len (i_size x) (16 * j) 16 = 16).
  { unfold read_len. rewrite D3, (proj2 (Z.ltb_ge _ _)), (proj2 (Z.leb_gt _ _)) by lia. cbn [orb]. lia. }
  rewrite El. cbn [fst snd local_bytes]. change (negb (16 =? 16)) with false. cbv zeta.
  change (dirent_of (fdata V x (16 * j) 16)) with (entry V x j).
  assert (Hstep : entries V x j (n - j) = entry V x j :: entries V x (j + 1) (n - (j + 1))).
  { unfold entries. rewrite seqZ_cons by lia. rewrite fmap_cons. do 3 f_equal; lia. }
  rewrite namecmp_spec by (done || (apply dirent_name_bytes, fdata_bytes; intros k Hk; apply D6; change DIRENT_SIZE with 16 in Hk; lia)).
  rewrite Hstep in HQ. cbn [find_name] in HQ.
  assert (Hin1 : inodes s1 = inodes s) by (by apply bd_frame_inodes).
  assert (Hnext : negb (de_inum (entry V x j) =? 0) && bool_decide (name_str name = name_str (de_name (entry V x j))) = false ->
    wp bd_env (dirlookup_loop fuel dp name (u32 (16 * j + 16))) Q (c1, s1)).
  { intros Hno. rewrite Hno in HQ. rewrite u32_small by lia. replace (16 * j + 16) with (16 * (j + 1)) by lia.
    apply IH; [done|done|done|by eapply it_ok_bd|by rewrite Hin1|done|done|lia|lia|by rewrite Hin1|].
    intros c2 s2 res Hc2 Hl B2. apply HQ; [done| |done].
    destruct Hl as [s' E F|j' inum ip x' s' E F G]; [apply lookup_none; [done|by eapply bd_frame_trans]|].
    eapply lookup_some; [done|by eapply bd_frame_trans|by rewrite <- Hin1]. }
  destruct (de_inum (entry V x j) =? 0) eqn:E0; cbn [negb andb] in *; [by apply Hnext|].
  case_bool_decide as Hn; [|by apply Hnext].
  destruct (iget_run (i_dev x) (de_inum (entry V x j)) c1 s1) as [(ip & x' & R & G)|[Hfull _]];
    [by eapply it_ok_bd|apply Hc1| |].
  - eapply wp_step; [exact R|]. apply wp_ret. apply HQ; [by apply kctx_settled| |by apply upd_inodes_bio].
    eapply lookup_some; [done|done|]. by rewrite <- Hin1.
  - exfalso. destruct (Hroom (de_inum (entry V x j))) as (k & y & Hk & Hy). rewrite Hin1 in Hfull. destruct (Hfull k y Hk). tauto.
Qed.

Lemma dirlookup_wp pid V X dp x name n i s c (Q : option (nat * Z) -> ctx * kern -> Prop) :
  bio_ok pid s V X ∅ -> kctx c i pid -> (size X < Z.to_nat NBUF)%nat -> it_ok s ->
  inodes s !! dp = Some x -> dir_ok V x n -> Forall is_byte name ->
  (forall inum, exists k y, inodes s !! k = Some y /\ (live (i_dev x) inum y \/ i_ref y = 0)) ->
  (forall c' s' res, kctx c' i pid -> lookup_spec s x (find_name name (entries V x 0 n) 0) res s' ->
     bio_ok pid s' V X ∅ -> Q res (c', s')) ->
  wp bd_env (dirlookup dp name) Q (c, s).
Proof.
  intros B Hc Hs Hit Hx Hdir Hname Hroom HQ. pose proof Hdir as [D1 D2 D3 D4 D5 D6]. change DIRENT_SIZE with 16 in *.
  unfold dirlookup. eapply wp_step; [by apply ld_inode_run|]. rewrite D2, D3. change (negb (T_DIR =? T_DIR)) with false. cbv iota.
  apply (dirlookup_loop_wp pid V X dp x name n i Q _ s c 0); [done..|lia|lia|done|]. by rewrite Z.sub_0_r.
Qed.

(** C13: dirlookup() finds the entry.  On a directory whose blocks are all
    allocated, it returns the inode of the first used entry with the given
    name (compared up to DIRSIZ bytes) and the entry's byte offset, or 0 when
    there is none; the disk does not change, and in the inode table only the
    reference count of the inode it returns. *)
Theorem dirlookup_correct pid V X dp x name n i s c :
  bio_ok pid s V X ∅ -> kctx c i pid -> (size X < Z.to_nat NBUF)%nat -> it_ok s ->
  inodes s !! dp = Some x -> dir_ok V x n -> Forall is_byte name ->
  (forall inum, exists k y, inodes s !! k = Some y /\ (live (i_dev x) inum y \/ i_ref y = 0)) ->
  wp bd_env (dirlookup dp name) (fun res w' => kctx (fst w') i pid /\
    lookup_spec s x (find_name name (entries V x 0 n) 0) res (snd w') /\ bio_ok pid (snd w') V X ∅) (c, s).
Proof. intros. by eapply dirlookup_wp. Qed.

End Dirs.

(** iget() returns the one entry for an inode.  When the table has an entry
    for it or a free one, iget() returns an entry that holds (dev, inum) with
    one more reference, every other entry is as it was, and there is still at
    most one entry in use per inode; with a full table it panics. *)
Theorem iget_correct dev inum c s :
  it_ok s -> cpu_ok (cx_cpu c) -> it_uniq (inodes s) ->
  ((exists k y, inodes s !! k = Some y /\ (live dev inum y \/ i_ref y = 0)) ->
   exists ip x', iget dev inum (c, s) = Ret ip (settled c, upd_inodes (insert ip x') s) /\
     iget_spec (inodes s) dev inum ip x' /\ live dev inum x' /\ it_uniq (<[ip := x']> (inodes s))) /\
  ((forall k y, inodes s !! k = Some y -> ~ live dev inum y /\ i_ref y <> 0) -> iget dev inum (c, s) = Panic "iget: no inodes").
Proof.
  intros Hit Hc Hu. destruct (iget_run dev inum c s Hit Hc) as [(ip & x' & R & G)|[Hfull R]]; (split; [intros (k & y & Hk & Hy)|intros Hf]).
  - exists ip, x'. split_and!; [done|done|by eapply iget_spec_live|by eapply iget_spec_uniq].
  - exfalso. destruct G as [ip x Hx Hl|ip x _ Hx Hz]; destruct (Hf _ _ Hx); done.
  - destruct (Hfull k y Hk). tauto.
  - done.
Qed.

(** ** A concrete directory: ".", a removed entry and "a" *)

Definition name14 (s : list Z) : list Z := s ++ replicate (Z.to_nat DIRSIZ - length s) 0.
Definition dir_block : list Z :=
  dirent_bytes (Dirent 1 (name14 [46])) ++ dirent_bytes (Dirent 0 (name14 [97])) ++ dirent_bytes (Dirent 7 (name14 [97])) ++
  replicate (Z.to_nat BSIZE - 48) 0.
Definition dir_disk : disk := Disk (fun b => if b =? 100 then dir_block else replicate (Z.to_nat BSIZE) 0) [].
Definition dir_inode : inode :=
  Inode ROOTDEV 1 1 (Sleeplock false lk0 "inode" 0) true T_DIR 0 0 1 48 (100 :: replicate 12 0).

Lemma dir_disk_len b : length (disk_get dir_disk b) = Z.to_nat BSIZE.
Proof. unfold disk_get, dir_disk. cbn [dk_image dk_writes blocks_after]. case_match; [reflexivity|apply length_replicate]. Qed.

Lemma dir_disk_bytes b : Forall is_byte (disk_get dir_disk b).
Proof.
  unfold disk_get, dir_disk. cbn [dk_image dk_writes blocks_after]. case_match; [|apply Forall_replicate; unfold is_byte; lia].
  apply bytes_ok. vm_compute. reflexivity.
Qed.

Lemma dir_state : exists s, bio_ok 1 s (disk_get dir_disk) ∅ ∅ /\ it_ok s /\ inodes s = <[0%nat := dir_inode]> (replicate (Z.to_nat NINODE) inode0).
Proof.
  destruct (kern_on_bio dir_disk (log30 (LOGSIZE + 1) 1 0) dir_disk_len) as (bc & B).
  exists (upd_inodes (insert 0%nat dir_inode) (set_k_bcache bc (kern_on dir_disk (log30 (LOGSIZE + 1) 1 0)))).
  split; [by apply upd_inodes_bio|]. split; [|done]. split; [done|]. rewrite inodes_upd, length_insert. apply length_replicate.
Qed.

Lemma dir_inode_ok : dir_ok (disk_get dir_disk) dir_inode 3.
Proof.
  split; try done.
  - intros k Hk. change (DIRENT_SIZE * 3) with 48 in Hk. rewrite Z.div_small by (change BSIZE with 1024; lia). split_and!; done.
  - intros k _. unfold fbyte. rewrite nth_lookup. destruct (disk_get dir_disk _ !! _) eqn:E; cbn; [|unfold is_byte; lia].
    eapply Forall_lookup_1; [apply dir_disk_bytes|exact E].
Qed.

Lemma dir_free_entry n inum : (2 <= n)%nat -> exists k y,
  (<[0%nat := dir_inode]> (replicate n inode0) : list inode) !! k = Some y /\ (live (i_dev dir_inode) inum y \/ i_ref y = 0).
Proof.
  intros Hl. exists 1%nat, inode0. split; [|by right]. rewrite list_lookup_insert_ne by done. apply lookup_replicate_2. lia.
Qed.

Lemma dirlookup_correct_witness : exists s,
  wp solo (@dirlookup sync_dev 0 [97]) (fun res _ => exists ip, res = Some (ip, 32)) (ctx3, s).
Proof.
  destruct dir_state as (s & B & Hit & Hin). exists s. eapply wp_mono.
  - apply (@dirlookup_correct sync_dev sync_ok 1 (disk_get dir_disk) ∅ 0 dir_inode [97] 3 0 s ctx3 B kctx3);
      [rewrite size_empty; unfold NBUF, MAXOPBLOCKS; lia|done|by rewrite Hin|apply dir_inode_ok|repeat constructor; unfold is_byte; lia|].
    intros inum. rewrite Hin. apply dir_free_entry. unfold NINODE. lia.
  - intros res w' (_ & Hl & _). remember (find_name _ _ _) as f eqn:Ef. vm_compute in Ef. subst f.
    inversion Hl as [? E|j inum ip x' s1 E]; [done|]. injection E as <- <-. by exists ip.
Defined.

Lemma iget_correct_witness : exists s ip x',
  iget ROOTDEV 1 (ctx3, s) = Ret ip (settled ctx3, upd_inodes (insert ip x') s) /\ i_ref x' = 2.
Proof.
  destruct dir_state as (s & B & Hit & Hin). exists s.
  assert (Hu : it_uniq (inodes s)).
  { rewrite Hin. assert (H : forall j x d n, (<[0%nat := dir_inode]> (replicate (Z.to_nat NINODE) inode0) : list inode) !! j = Some x -> live d n x -> j = 0%nat).
    { intros j x d n Hj [Hr _]. apply list_lookup_insert_Some in Hj as [(-> & _)|[_ Hj]]; [done|]. apply lookup_replicate in Hj as [-> _]. cbn in Hr. lia. }
    intros j k x y d n Hj Hk Hx Hy. by rewrite (H j x d n), (H k y d n). }
  destruct (iget_correct ROOTDEV 1 ctx3 s Hit (co_cpu _ _ _ ctx3_ok) Hu) as [H _].
  destruct H as (ip & x' & R & G & _). { exists 0%nat, dir_inode. rewrite Hin. split; [done|]. left. by unfold live. }
  exists ip, x'. split; [exact R|]. destruct G as [ip x Hx [Hr _]|ip x Hno _ _].
  - rewrite Hin in Hx. apply list_lookup_insert_Some in Hx as [(_ & <- & _)|[_ Hx]]; [done|]. apply lookup_replicate in Hx as [-> _]. cbn in Hr. lia.
  - exfalso. apply (Hno 0%nat dir_inode); [by rewrite Hin|by unfold live].
Defined.
