(* ===== verification/DirLink.v ===== *)
(** * Adding directory entries (kernel/fs.c, dirlink())

    dirlink() and dirlookup() together: the entry that was added is the one
    that is found.  The directory is described by its entries, as in
    [DirSpec]; dirlink() uses the first free one, or a new one at the end. *)

From stdpp Require Import base numbers list list_numbers gmap strings.
From Stdlib Require Import ZArith Lia.
From S2P Require Import Prelude.
From S2P Require Import Machine.
From S2P Require Import Spinlock.
From S2P Require Import Mem.
From S2P Require Import Kalloc.
From S2P Require Import Kern.
From S2P Require Import Sched.
From S2P Require Import SleepLk.
From S2P Require Import Bio.
From S2P Require Import Log.
From S2P Require Import LogSpec.
From S2P Require Import LogOps.
From S2P Require Import UserMem.
From S2P Require Import Fs.
From S2P Require Import FsSpec.
From S2P Require Import FsOps.
From S2P Require Import DirSpec.

Local Open Scope Z_scope.

(** ** The new entry *)

(** The name array that strncpy() fills. *)
Definition name_array (name : list Z) : list Z :=
  strncpy (replicate (Z.to_nat DIRSIZ) 0) 0 (chars name) 0 (Z.to_nat DIRSIZ).

Lemma length_array_set i v (b : list Z) : length (bset i v b) = length b.
Proof. simpl. case_match; [apply length_insert|done]. Qed.

Lemma length_strncpy n : forall (b : list Z) s t i, length (strncpy b s t i n) = length b.
Proof.
  assert (Z0 : forall n (b : list Z) s, length (zero_fill b s n) = length b).
  { clear n. induction n as [|n IH]; intros b s; cbn [zero_fill]; [done|]. by rewrite IH, length_array_set. }
  induction n as [|n IH]; intros b s t i; cbn [strncpy]; [done|]. case_match; by rewrite ?IH, ?Z0, length_array_set.
Qed.

Lemma length_name_array name : length (name_array name) = Z.to_nat DIRSIZ.
Proof. unfold name_array. rewrite length_strncpy. apply length_replicate. Qed.

Lemma name_array_nth name j : (j < Z.to_nat DIRSIZ)%nat -> name_array name !! j = Some (nth j (name_str name) 0).
Proof.
  intros Hj. destruct (lookup_lt_is_Some_2 (name_array name) j) as [c Hc]; [by rewrite length_name_array|]. rewrite Hc. f_equal.
  pose proof (strncpy_get (replicate (Z.to_nat DIRSIZ) 0) 0 (chars name) 0 (Z.to_nat DIRSIZ) (Z.of_nat j)) as H.
  fold (name_array name) (name_str name) in H. rewrite (proj2 (Z.leb_le _ _)), (proj2 (Z.ltb_lt _ _)) in H by lia. cbn [andb] in H.
  rewrite Z.sub_0_r, Nat2Z.id in H. rewrite <- H.
  - unfold bget, array_store. rewrite (proj2 (Z.leb_le _ _)), Nat2Z.id by lia. by rewrite Hc.
  - intros k Hk. unfold bvalid, array_store. rewrite length_replicate. lia.
Qed.

(** A string padded with zeros, or cut to the array, is the same name. *)
Lemma cstr_padded t u n : forall i j,
  (forall k, (k < n)%nat -> t (i + Z.of_nat k) = nth k (cstr u j n) 0) -> cstr t i n = cstr u j n.
Proof.
  induction n as [|n IH]; intros i j H; cbn [cstr] in *; [done|]. pose proof (H 0%nat ltac:(lia)) as H0. rewrite Z.add_0_r in H0.
  destruct (Z.eqb_spec (u j) 0) as [E|E]; cbn [nth] in H0; rewrite H0; [done|].
  rewrite (proj2 (Z.eqb_neq _ _) E). f_equal. apply IH. intros k Hk.
  replace (i + 1 + Z.of_nat k) with (i + Z.of_nat (S k)) by lia. by rewrite H by lia.
Qed.

Lemma name_array_str name : name_str (name_array name) = name_str name.
Proof.
  unfold name_str at 1. apply cstr_padded. intros k Hk. unfold chars at 1. rewrite (proj2 (Z.ltb_ge _ _)) by lia.
  rewrite Z.add_0_l, Nat2Z.id. apply nth_lookup_Some. by apply name_array_nth.
Qed.

Lemma name_array_bytes name : Forall is_byte name -> Forall is_byte (name_array name).
Proof.
  intros H. apply Forall_lookup. intros j c Hc. pose proof (lookup_lt_Some _ _ _ Hc) as Hj. rewrite length_name_array in Hj.
  rewrite name_array_nth in Hc by done. injection Hc as <-. rewrite nth_lookup.
  destruct (name_str name !! j) as [c|] eqn:E; simpl; [|unfold is_byte; lia].
  assert (Hall : forall n i, Forall is_byte (cstr (chars name) i n)).
  { clear -H. induction n as [|n IH]; intros i; cbn [cstr]; [constructor|]. case_match; [constructor|]. constructor; [by apply chars_bytes|done]. }
  by eapply Forall_lookup_1; [apply Hall|].
Qed.

Lemma dirent_roundtrip de : length (de_name de) = Z.to_nat DIRSIZ -> 0 <= de_inum de < 2 ^ 16 -> dirent_of (dirent_bytes de) = de.
Proof.
  intros Hl Hr. unfold dirent_of, dirent_bytes, getn, slice. destruct de as [inum nm]. cbn [de_inum de_name] in *. f_equal.
  - rewrite drop_0, take_app_length' by (by rewrite length_le_enc). rewrite le_dec_enc. apply Z.mod_small. done.
  - rewrite drop_app_length' by (by rewrite length_le_enc). by rewrite take_ge by lia.
Qed.

Lemma length_dirent_bytes de : length (de_name de) = Z.to_nat DIRSIZ -> length (dirent_bytes de) = 16%nat.
Proof. intros H. unfold dirent_bytes. rewrite length_app, length_le_enc, H. done. Qed.

(** ** The directory after a write of one entry *)

Lemma written_byte s s' V V' ip x x' ib off bs k :
  written s s' V V' ip x x' ib off bs -> 0 <= off <= i_size x -> 0 <= k < i_size x' ->
  fbyte V' x' k = if (off <=? k) && (k <? off + Z.of_nat (length bs)) then nth (Z.to_nat (k - off)) bs 0 else fbyte V x k.
Proof.
  intros W Hoff Hk. pose proof (wr_data _ _ _ _ _ _ _ _ _ _ W) as H.
  assert (Hsz : i_size x' = Z.max (i_size x) (off + Z.of_nat (length bs))) by (rewrite (wr_inode _ _ _ _ _ _ _ _ _ _ W); apply grown_size).
  assert (Hl : fdata V' x' 0 (i_size x') !! Z.to_nat k = Some (fbyte V' x' k)) by (rewrite lookup_fdata by lia; do 2 f_equal; lia).
  rewrite H in Hl. pose proof (length_fdata V x 0 (i_size x)) as Hlen.
  destruct (Z.leb_spec off k), (Z.ltb_spec k (off + Z.of_nat (length bs))); cbn [andb].
  - rewrite lookup_splice_in in Hl by lia. replace (Z.to_nat (k - off)) with (Z.to_nat k - Z.to_nat off)%nat by lia. symmetry. by apply nth_lookup_Some.
  - rewrite lookup_splice_out, lookup_fdata in Hl by lia. injection Hl as <-. f_equal. lia.
  - unfold splice in Hl. rewrite lookup_app_l, lookup_take_lt, lookup_fdata in Hl by (rewrite ?length_take; lia). injection Hl as <-. f_equal. lia.
  - unfold splice in Hl. rewrite lookup_app_l, lookup_take_lt, lookup_fdata in Hl by (rewrite ?length_take; lia). injection Hl as <-. f_equal. lia.
Qed.

(** The first free entry, or the end of the list. *)
Fixpoint first_free (l : list dirent) (j : Z) : Z :=
  match l with
  | [] => j
  | e :: r => if de_inum e =? 0 then j else first_free r (j + 1)
  end.

Lemma first_free_range l : forall j, j <= first_free l j <= j + Z.of_nat (length l).
Proof. induction l as [|e l IH]; intros j; cbn [first_free length]; [lia|]. case_match; [lia|]. pose proof (IH (j + 1)). lia. Qed.

Lemma length_entries V x j n : length (entries V x j n) = Z.to_nat n.
Proof. unfold entries. by rewrite length_fmap, length_seqZ. Qed.

Lemma entries_cons V x j n : 0 < n -> entries V x j n = entry V x j :: entries V x (j + 1) (n - 1).
Proof. intros H. unfold entries. rewrite seqZ_cons by lia. rewrite fmap_cons. do 3 f_equal; lia. Qed.

Lemma lookup_entries V x n k : (k < Z.to_nat n)%nat -> entries V x 0 n !! k = Some (entry V x (Z.of_nat k)).
Proof. intros H. unfold entries. rewrite list_lookup_fmap, lookup_seqZ_lt by lia. simpl. do 2 f_equal. Qed.

Definition matches (name : list Z) (e : dirent) : bool := negb (de_inum e =? 0) && bool_decide (name_str name = name_str (de_name e)).

Lemma find_name_none name l : forall b, find_name name l b = None -> forall k e, l !! k = Some e -> matches name e = false.
Proof.
  induction l as [|e0 l IH]; intros b H k e Hk; [done|]. cbn [find_name] in H. fold (matches name e0) in H.
  destruct (matches name e0) eqn:E; [done|]. destruct k as [|k]; [by injection Hk as <-|by eapply IH].
Qed.

Lemma find_name_first name l : forall b k e, l !! k = Some e -> matches name e = true ->
  (forall k' e', (k' < k)%nat -> l !! k' = Some e' -> matches name e' = false) -> find_name name l b = Some (b + Z.of_nat k, de_inum e).
Proof.
  induction l as [|e0 l IH]; intros b k e Hk He Hno; [done|]. cbn [find_name]. fold (matches name e0). destruct k as [|k].
  - injection Hk as ->. rewrite He. do 2 f_equal. lia.
  - rewrite (Hno 0%nat e0) by (done || lia). rewrite (IH (b + 1) k e); [do 2 f_equal; lia|done|done|].
    intros k' e' Hk' He'. apply (Hno (S k')); [lia|done].
Qed.

(** The directory with [name] linked to [inum] in entry [j]. *)
Record linked (V V' : Z -> list Z) (x x' : inode) (n j inum : Z) (name : list Z) : Prop := {
  ln_dir : dir_ok V' x' (Z.max n (j + 1));
  ln_new : entry V' x' j = Dirent inum (name_array name);
  ln_old : forall k, 0 <= k < n -> k <> j -> entry V' x' k = entry V x k
}.

Lemma linked_found V V' x x' n j inum name :
  linked V V' x x' n j inum name -> 0 <= j <= n -> inum <> 0 -> find_name name (entries V x 0 n) 0 = None ->
  find_name name (entries V' x' 0 (Z.max n (j + 1))) 0 = Some (j, inum).
Proof.
  intros [L1 L2 L3] Hj Hin Hno. rewrite (find_name_first name _ 0 (Z.to_nat j) (Dirent inum (name_array name))).
  - do 2 f_equal. lia.
  - rewrite lookup_entries by lia. by rewrite Z2Nat.id, L2 by lia.
  - unfold matches. cbn [de_inum de_name]. rewrite (proj2 (Z.eqb_neq _ _) Hin), name_array_str. by apply bool_decide_true.
  - intros k e Hk He. rewrite lookup_entries, L3 in He by lia. apply (find_name_none name _ 0 Hno k). by rewrite lookup_entries by lia.
Qed.

Lemma written_linked s s' V V' dp x x' ib n j inum name :
  dir_ok V x n -> 0 <= j <= n -> 16 * j + 16 <= MAXFILE * BSIZE -> file_ok V x ib (Z.max (i_size x) (16 * j + 16)) ->
  Forall is_byte name -> 0 <= inum < 2 ^ 16 ->
  written s s' V V' dp x x' ib (16 * j) (dirent_bytes (Dirent inum (name_array name))) -> linked V V' x x' n j inum name.
Proof.
  intros [D1 D2 D3 D4 D5 D6] Hj Hmax Hok Hname Hinum W. change DIRENT_SIZE with 16 in *. change (MAXFILE * BSIZE) with 274432 in Hmax.
  set (bs := dirent_bytes _) in *. assert (Hlen : length bs = 16%nat) by (apply length_dirent_bytes, length_name_array).
  pose proof (wr_inode _ _ _ _ _ _ _ _ _ _ W) as Hx'. rewrite Hlen in Hx'. change (Z.of_nat 16) with 16 in Hx'.
  assert (Hsz : i_size x' = 16 * Z.max n (j + 1)) by (rewrite Hx', grown_size; lia).
  assert (HB : forall k, 0 <= k < 16 * Z.max n (j + 1) -> fbyte V' x' k = if (16 * j <=? k) && (k <? 16 * j + 16) then nth (Z.to_nat (k - 16 * j)) bs 0 else fbyte V x k).
  { intros k Hk. rewrite (written_byte _ _ _ _ _ _ _ _ _ _ k W), Hlen by lia. done. }
  assert (Hbs : Forall is_byte bs) by (apply Forall_app; split; [apply le_enc_bytes|by apply name_array_bytes]).
  split.
  - split; [rewrite Hx'; unfold grown; by case_match|rewrite Hx'; unfold grown; by case_match|done|change DIRENT_SIZE with 16; lia| |].
    + intros k Hk. unfold mapped. rewrite (wr_blk _ _ _ _ _ _ _ _ _ _ W).
      destruct (lo_mapped _ _ _ _ (fo_lay _ _ _ _ Hok) k) as (M1 & M2 & M3); [change DIRENT_SIZE with 16 in Hk; lia|].
      split_and!; [apply M1..|done|]. rewrite Hx'. unfold grown. by case_match.
    + intros k Hk. change DIRENT_SIZE with 16 in Hk. rewrite HB by done.
      destruct (Z.leb_spec (16 * j) k), (Z.ltb_spec k (16 * j + 16)); cbn [andb]; [|apply D6; lia..].
      rewrite nth_lookup. destruct (lookup_lt_is_Some_2 bs (Z.to_nat (k - 16 * j))) as [v Hv]; [lia|]. rewrite Hv. simpl. by eapply Forall_lookup_1.
  - rewrite <- (dirent_roundtrip (Dirent inum (name_array name))) by (done || apply length_name_array). unfold entry. f_equal. fold bs.
    apply list_eq. intros k. change DIRENT_SIZE with 16. destruct (decide (k < 16)%nat) as [Hk|Hk].
    + rewrite lookup_fdata, HB, (proj2 (Z.leb_le _ _)), (proj2 (Z.ltb_lt _ _)) by lia. cbn [andb].
      destruct (lookup_lt_is_Some_2 bs k) as [v Hv]; [lia|]. rewrite Hv. f_equal. apply nth_lookup_Some. rewrite <- Hv. f_equal. lia.
    + rewrite !lookup_ge_None_2; [done|lia|rewrite length_fdata; lia].
  - intros k Hk Hne. unfold entry. f_equal. unfold fdata. apply list_fmap_ext. intros ? o Ho%lookup_seqZ. change DIRENT_SIZE with 16 in *.
    rewrite HB by lia. destruct (Z.leb_spec (16 * j) (16 * k + o)), (Z.ltb_spec (16 * k + o) (16 * j + 16)); cbn [andb]; done || lia.
Qed.

(** ** dirlink() *)

Section Link.
Context {BD : BlockDev} {BO : BlockDevOk BD} (r : region).

Lemma free_dirent_wp pid V X dp x n i (Q : Z -> ctx * kern -> Prop) fuel : forall s c j,
  bio_ok pid s V X ∅ -> kctx c i pid -> (size X < Z.to_nat NBUF)%nat ->
  inodes s !! dp = Some x -> dir_ok V x n -> 0 <= j <= n -> n - j < Z.of_nat fuel ->
  (forall c' s', kctx c' i pid -> bd_frame s s' -> bio_ok pid s' V X ∅ -> Q (16 * first_free (entries V x j (n - j)) j) (c', s')) ->
  wp bd_env (free_dirent fuel dp (16 * j)) Q (c, s).
Proof.
  induction fuel as [|fuel IH]; intros s c j B Hc Hs Hx Hdir Hj Hf HQ; [lia|].
  pose proof Hdir as [D1 D2 D3 D4 D5 D6]. change DIRENT_SIZE with 16 in *.
  cbn [free_dirent]. eapply wp_step; [by apply ld_inode_run|]. change DIRENT_SIZE with 16. rewrite D3, u32_small by lia.
  destruct (Z.ltb_spec (16 * j) (16 * n)) as [Hlt|Hge]; cbn [negb]; cycle 1.
  { apply wp_ret. replace (n - j) with 0 in HQ by lia. apply HQ; [done|apply bd_frame_refl|done]. }
  apply wp_bind. apply (readi_wp pid V X dp x i s c (16 * j) 16); [done..|unfold uint; lia|unfold uint; lia|lia|by rewrite D3|].
  intros c1 s1 Hc1 F1 K1 B1. assert (El : read_len (i_size x) (16 * j) 16 = 16).
  { unfold read_len. rewrite D3, (proj2 (Z.ltb_ge _ _)), (proj2 (Z.leb_gt _ _)) by lia. cbn [orb]. lia. }
  rewrite El. cbn [fst snd local_bytes]. change (negb (16 =? 16)) with false. cbv iota.
  change (dirent_of (fdata V x (16 * j) 16)) with (entry V x j). rewrite entries_cons in HQ by lia. cbn [first_free] in HQ.
  destruct (de_inum (entry V x j) =? 0); [apply wp_ret; by apply HQ|].
  replace (16 * j + 16) with (16 * (j + 1)) by lia.
  apply IH; [done|done|done|by rewrite (bd_frame_inodes s s1)|done|lia|lia|].
  intros c2 s2 Hc2 F2 B2. replace (n - (j + 1)) with (n - j - 1) by lia. apply HQ; [done|by eapply bd_frame_trans|done].
Qed.

Lemma txn_bd pid s s' V bl : txn r pid s V bl -> bd_frame s s' -> bio_ok pid s' V (list_to_set bl) ∅ -> txn r pid s' V bl.
Proof. intros [_ T] F B. split; [done|by eapply tlog_frame]. Qed.

(** A name that is not there yet is linked in the first free entry. *)
Lemma dirlink_wp pid s V bl dp x ib n name inum c i (Q : Z -> ctx * kern -> Prop) :
  let j := first_free (entries V x 0 n) 0 in
  txn r pid s V bl -> kctx c i pid -> room r bl 2 -> it_ok s -> inodes s !! dp = Some x -> dir_ok V x n ->
  ib = IBLOCK (i_inum x) (k_sb s) -> 16 * j + 16 <= MAXFILE * BSIZE -> file_ok V x ib (Z.max (i_size x) (16 * j + 16)) ->
  Forall is_byte name -> 0 <= inum < 2 ^ 16 -> find_name name (entries V x 0 n) 0 = None ->
  (forall inum, exists k y, inodes s !! k = Some y /\ (live (i_dev x) inum y \/ i_ref y = 0)) ->
  (forall c' s' V' bl' x', kctx c' i pid -> txn r pid s' V' bl' -> linked V V' x x' n j inum name ->
     inodes s' = <[dp := x']> (inodes s) -> x' = grown x (16 * j) 16 -> it_ok s' -> Z.of_nat (length bl') <= Z.of_nat (length bl) + 2 -> Q 0 (c', s')) ->
  wp bd_env (dirlink dp name inum) Q (c, s).
Proof.
  intros j T Hc Hr Hit Hx Hdir Hib Hmax Hok Hname Hinum Hno Hroom HQ. pose proof Hdir as [D1 D2 D3 D4 D5 D6].
  assert (Hbufs : (size (list_to_set bl : gset Z) < Z.to_nat NBUF)%nat) by (by apply (room_bufs r bl 2)).
  assert (Hj : 0 <= j <= n) by (pose proof (first_free_range (entries V x 0 n) 0) as H; rewrite length_entries in H; lia).
  unfold dirlink. apply wp_bind. eapply dirlookup_wp; [apply T|done|done|done|done|done|done|done|].
  intros c1 s1 res Hc1 L B1. rewrite Hno in L. inversion L as [? _ F1|]; subst; [|done]. clear L.
  assert (Hx1 : inodes s1 !! dp = Some x) by (by rewrite (bd_frame_inodes s s1)).
  eapply wp_step; [by apply ld_inode_run|]. apply wp_bind.
  change 0 with (16 * 0) at 1. eapply free_dirent_wp; [done|done|done|done|done|lia|change DIRENT_SIZE with 16 in D3; lia|].
  rewrite Z.sub_0_r. fold j. intros c2 s2 Hc2 F2 B2. change DIRENT_SIZE with 16 in *. rewrite !u32_small by lia. unfold u16. rewrite Z.mod_small by lia.
  fold (name_array name). set (bs := dirent_bytes _). assert (Hlen : length bs = 16%nat) by (apply length_dirent_bytes, length_name_array).
  assert (F : bd_frame s s2) by (by eapply bd_frame_trans). apply wp_bind.
  assert (Hnb : nblocks (16 * j) 16 = 1).
  { unfold nblocks. cbn [Z.leb]. change (16 <=? 0) with false. cbv iota. change BSIZE with 1024.
    pose proof (Z.div_mod (16 * j) 1024). pose proof (Z.div_mod (16 * j + 16 - 1) 1024).
    pose proof (Z.mod_pos_bound (16 * j) 1024). pose proof (Z.mod_pos_bound (16 * j + 16 - 1) 1024). lia. }
  pose proof (writei_wp r pid s2 V bl dp x (IBLOCK (i_inum x) (k_sb s)) (16 * j) bs c2 i) as W. cbv zeta in W. rewrite Hlen in W. change (Z.of_nat 16) with 16 in W.
  apply W; [by eapply txn_bd|done|by rewrite Hnb|by rewrite (bd_frame_inodes s s2)|by rewrite F|lia|done|done|]. clear W.
  intros c3 s3 V3 bl3 x3 Hc3 T3 W Hbl. change (negb (16 =? 16)) with false. cbv iota. apply wp_ret.
  pose proof (wr_inodes _ _ _ _ _ _ _ _ _ _ W) as Hin3. rewrite (bd_frame_inodes s s2) in Hin3 by done.
  apply (HQ c3 s3 V3 bl3 x3); [done|done|by eapply written_linked|done| | |lia].
  - rewrite (wr_inode _ _ _ _ _ _ _ _ _ _ W), Hlen. done.
  - destruct Hit as [Hlk Hle]. split; [by rewrite (wr_itlock _ _ _ _ _ _ _ _ _ _ W), F|]. by rewrite Hin3, length_insert.
Qed.

(** The table still has room for every inode: the directory's own entry keeps its identity. *)
Lemma room_grown (l : list inode) (dp : nat) x off n : l !! dp = Some x ->
  (forall inum, exists k y, l !! k = Some y /\ (live (i_dev x) inum y \/ i_ref y = 0)) ->
  forall inum, exists k y, <[dp := grown x off n]> l !! k = Some y /\ (live (i_dev (grown x off n)) inum y \/ i_ref y = 0).
Proof.
  intros Hx H inum. assert (E : i_dev (grown x off n) = i_dev x) by (unfold grown; by case_match). rewrite E.
  destruct (H inum) as (k & y & Hk & Hy). destruct (decide (k = dp)) as [->|Hne].
  - exists dp, (grown x off n). split; [apply list_lookup_insert_eq; by eapply lookup_lt_Some|]. replace y with x in Hy by congruence.
    unfold grown, live in *. by case_match.
  - exists k, y. by rewrite list_lookup_insert_ne.
Qed.

(** C14: A linked name is found.  In a transaction with room for three more blocks, dirlink() of a
    name that the directory does not have returns 0 and stores (inum, name, cut to DIRSIZ
    bytes) in the first free entry or at the end, leaving every other entry alone; dirlookup() of
    the name then returns the inode inum, with its reference count raised, and
    the offset of that entry. *)
Theorem dirlink_dirlookup pid s V bl dp x ib n name inum c i :
  let j := first_free (entries V x 0 n) 0 in
  txn r pid s V bl -> kctx c i pid -> room r bl 3 -> it_ok s -> inodes s !! dp = Some x -> dir_ok V x n ->
  ib = IBLOCK (i_inum x) (k_sb s) -> DIRENT_SIZE * (j + 1) <= MAXFILE * BSIZE ->
  file_ok V x ib (Z.max (i_size x) (DIRENT_SIZE * (j + 1))) ->
  Forall is_byte name -> 0 < inum < 2 ^ 16 -> find_name name (entries V x 0 n) 0 = None ->
  (forall inum, exists k y, inodes s !! k = Some y /\ (live (i_dev x) inum y \/ i_ref y = 0)) ->
  wp bd_env (res ← dirlink dp name inum; found ← dirlookup dp name; mret (res, found))
    (fun res w' => kctx (fst w') i pid /\ exists V' bl' x' ip y,
       res = (0, Some (ip, DIRENT_SIZE * j)) /\ live ROOTDEV inum y /\ inodes (snd w') !! ip = Some y /\
       bio_ok pid (snd w') V' (list_to_set bl') ∅ /\ linked V V' x x' n j inum name /\
       Z.of_nat (length bl') <= Z.of_nat (length bl) + 2) (c, s).
Proof.
  intros j T Hc Hr Hit Hx Hdir Hib Hmax Hok Hname Hinum Hno Hroom. change DIRENT_SIZE with 16 in *.
  replace (16 * (j + 1)) with (16 * j + 16) in * by lia.
  assert (Hj : 0 <= j <= n) by (pose proof (first_free_range (entries V x 0 n) 0) as H; rewrite length_entries in H; pose proof (dr_len _ _ _ Hdir); lia).
  apply wp_bind. apply (dirlink_wp pid s V bl dp x ib n name inum c i); [done|done|by eapply room_le; [|done]|done..|lia|done|done|].
  intros c1 s1 V1 bl1 x1 Hc1 T1 L1 Hin1 Hx1 Hit1 Hbl1. apply wp_bind.
  assert (Hd1 : inodes s1 !! dp = Some x1) by (rewrite Hin1; apply list_lookup_insert_eq; by eapply lookup_lt_Some).
  eapply dirlookup_wp; [apply T1|done| |done|done|apply L1|done| |].
  { apply (room_bufs r bl1 1); [done|]. unfold room in *. lia. }
  { rewrite Hin1, Hx1. by apply room_grown. }
  intros c2 s2 res Hc2 Hl B2. fold j in L1, Hl. rewrite (linked_found _ _ _ _ _ _ _ _ L1) in Hl by (done || lia). apply wp_ret.
  inversion Hl as [|j' inum' ip y s1' E F G]; [done|]. injection E as <- <-. split; [done|]. exists V1, bl1, x1, ip, y.
  destruct (iget_spec_live _ _ _ _ _ G) as [Hlt Hlive]. rewrite (dr_dev _ _ _ (ln_dir _ _ _ _ _ _ _ _ L1)) in Hlive.
  split_and!; [done|apply Hlive..| |subst s2; done|done|done].
  cbn [snd]. rewrite inodes_upd, (bd_frame_inodes s1 s1') by done. by apply list_lookup_insert_eq.
Qed.
End Link.

(** ** A concrete directory: the one of [DirSpec], with its second entry free. *)

Lemma link_state : exists s, txn rg0 1 s (disk_get dir_disk) [] /\ it_ok s /\ k_sb s = sb0 /\
  inodes s = <[0%nat := dir_inode]> (replicate (Z.to_nat NINODE) inode0).
Proof.
  destruct (kern_on_bio dir_disk (log30 (LOGSIZE + 1) 1 0) dir_disk_len) as (bc & B).
  set (s0 := set_k_bcache bc _) in *. assert (T : txn rg0 1 s0 (disk_get dir_disk) []).
  { split; [exact B|]. split; [by split|done|done|intros b Hb; by apply elem_of_nil in Hb]. }
  exists (upd_inodes (insert 0%nat dir_inode) s0). split; [by apply txn_inodes|]. split; [|by split].
  split; [done|]. rewrite inodes_upd, length_insert. apply length_replicate.
Qed.

Lemma dir_blk V k : 0 <= k < 48 -> k / BSIZE = 0 /\ blk V dir_inode (k / BSIZE) = 100.
Proof. intros Hk. rewrite Z.div_small by (change BSIZE with 1024; lia). done. Qed.

Lemma dir_file V : file_ok V dir_inode 32 48.
Proof.
  split; try done.
  - split.
    + intros k Hk. destruct (dir_blk V k Hk) as [E H]. split_and!; rewrite ?H, ?E; done.
    + intros k Hk. destruct (dir_blk V k Hk) as [_ ->]. lia.
    + intros k k' Hk (H1 & H2 & H3) E. destruct (dir_blk V k Hk) as [E0 Eb]. rewrite E0. rewrite Eb in E. clear Eb E0. unfold blk in *. change NDIRECT with 12 in *.
      destruct (Z.ltb_spec k' 12); [|by destruct H3; [lia|]].
      assert (Hc : k' = 0 \/ k' = 1 \/ k' = 2 \/ k' = 3 \/ k' = 4 \/ k' = 5 \/ k' = 6 \/ k' = 7 \/ k' = 8 \/ k' = 9 \/ k' = 10 \/ k' = 11) by lia.
      by repeat destruct Hc as [->|Hc]; [..|subst k'].
    + intros k Hk. by destruct (dir_blk V k Hk) as [_ ->].
  - intros k Hk. by destruct (dir_blk V k Hk) as [_ ->].
  - split; cbn; unfold short, uint, T_DIR; try lia. repeat constructor; lia.
Qed.

Lemma dir_free : first_free (entries (disk_get dir_disk) dir_inode 0 3) 0 = 1 /\
  find_name [98] (entries (disk_get dir_disk) dir_inode 0 3) 0 = None.
Proof. split; vm_compute; reflexivity. Qed.

Lemma dirlink_dirlookup_witness : exists s,
  wp solo (res ← @dirlink sync_dev 0 [98] 9; found ← @dirlookup sync_dev 0 [98]; mret (res, found))
    (fun res _ => exists ip, res = (0, Some (ip, 16))) (ctx3, s).
Proof.
  destruct link_state as (s & T & Hit & Hsb & Hin). exists s. eapply wp_mono.
  - apply (@dirlink_dirlookup sync_dev sync_ok rg0 1 s (disk_get dir_disk) [] 0 dir_inode 32 3 [98] 9 ctx3 0 T kctx3);
      rewrite ?(proj1 dir_free).
    + unfold room. split; vm_compute; discriminate.
    + done.
    + by rewrite Hin.
    + apply dir_inode_ok.
    + by rewrite Hsb.
    + vm_compute. discriminate.
    + apply dir_file.
    + repeat constructor; unfold is_byte; lia.
    + lia.
    + apply dir_free.
    + intros inum. rewrite Hin. apply dir_free_entry. unfold NINODE. lia.
  - intros res w' (_ & V' & bl' & x' & ip & y & -> & _). exists ip. by rewrite (proj1 dir_free).
Defined.
