(* ===== verification/InodeSpec.v ===== *)
(** * Inodes in memory: locking, loading, references (kernel/fs.c)

    ilock(), iunlock(), iput() and idup() on the inode table.  [refs l n] is the number
    of references to inode [n]; [tab_ok] says that the table has one entry per inode,
    that its locks are free but for the one [held], and that what it holds of an inode
    agrees with the disk. *)

From stdpp Require Import base numbers list list_numbers gmap strings sets fin_sets.
From Stdlib Require Import ZArith Lia.
From S2P Require Import Prelude.
From S2P Require Import Machine.
From S2P Require Import Spinlock.
From S2P Require Import Mem.
From S2P Require Import Kalloc.
From S2P Require Import Kern.
From S2P Require Import Sched.
From S2P Require Import SleepLk.
From S2P Require Import Bio.
From S2P Require Import Log.
From S2P Require Import LogSpec.
From S2P Require Import LogOps.
From S2P Require Import UserMem.
From S2P Require Import Fs.
From S2P Require Import FsSpec.
From S2P Require Import FsOps.
From S2P Require Import DirSpec.

Local Open Scope Z_scope.

(** ** Counting references *)

Definition rc (n : Z) (x : inode) : Z := if bool_decide (live ROOTDEV n x) then i_ref x else 0.
Definition refs (l : list inode) (n : Z) : Z := foldr (fun x a => rc n x + a) 0 l.

Lemma rc_nonneg n x : 0 <= rc n x.
Proof. unfold rc. case_bool_decide as H; [destruct H|]; lia. Qed.

Lemma rc_live n x : live ROOTDEV n x -> rc n x = i_ref x.
Proof. intros H. unfold rc. by rewrite bool_decide_true. Qed.

Lemma rc_dead n x : ~ live ROOTDEV n x -> rc n x = 0.
Proof. intros H. unfold rc. by rewrite bool_decide_false. Qed.

Lemma refs_nonneg l n : 0 <= refs l n.
Proof. induction l as [|x l IH]; simpl; [lia|]. pose proof (rc_nonneg n x). lia. Qed.

Lemma refs_insert l k x y n : l !! k = Some x -> refs (<[k := y]> l) n = refs l n - rc n x + rc n y.
Proof.
  revert k. induction l as [|z l IH]; intros [|k] H; simpl in *; [done|done|injection H as ->; lia|]. rewrite (IH k H). lia.
Qed.

Lemma refs_pos l n : 0 < refs l n <-> exists k x, l !! k = Some x /\ live ROOTDEV n x.
Proof.
  induction l as [|z l IH]; simpl; [split; [lia|by intros (k & x & H & _)]|].
  pose proof (rc_nonneg n z). pose proof (refs_nonneg l n). destruct (decide (live ROOTDEV n z)) as [Hz|Hz].
  - split; [intros _; by exists 0%nat, z|]. intros _. rewrite rc_live by done. destruct Hz. lia.
  - rewrite rc_dead by done. rewrite Z.add_0_l, IH. split; intros (k & x & Hk & Hx); [by exists (S k), x|].
    destruct k as [|k]; [injection Hk as ->; done|by exists k, x].
Qed.

(** The inodes in use. *)
Definition live_set (l : list inode) : gset Z := list_to_set (i_inum <$> filter (fun x => 0 < i_ref x) l).

Definition one_dev (l : list inode) : Prop := forall k x, l !! k = Some x -> 0 <= i_ref x /\ (0 < i_ref x -> i_dev x = ROOTDEV).

Lemma elem_of_live_set l n : one_dev l -> n ∈ live_set l <-> 0 < refs l n.
Proof.
  intros Hd. unfold live_set. rewrite elem_of_list_to_set, list_elem_of_fmap, refs_pos. split.
  - intros (x & -> & Hx). apply list_elem_of_filter in Hx as [Hr Hx]. apply list_elem_of_lookup in Hx as [k Hk].
    exists k, x. split; [done|]. split_and!; [done|by eapply Hd|done].
  - intros (k & x & Hk & Hr & _ & <-). exists x. split; [done|]. apply list_elem_of_filter. split; [done|by eapply list_elem_of_lookup_2].
Qed.

(** With fewer inodes in use than entries, an entry is free. *)
Lemma free_entry l : it_uniq l -> one_dev l -> (size (live_set l) < length l)%nat -> exists k y, l !! k = Some y /\ i_ref y = 0.
Proof.
  intros Hu Hd Hs. destruct (decide (Exists (fun x => i_ref x = 0) l)) as [He|He].
  { apply Exists_exists in He as (y & Hy & Hz). apply list_elem_of_lookup in Hy as [k Hk]. by exists k, y. }
  exfalso. assert (Hall : forall k x, l !! k = Some x -> 0 < i_ref x).
  { intros k x Hk. destruct (Hd k x Hk) as [H0 _]. destruct (decide (i_ref x = 0)) as [Hz|]; [|lia].
    destruct He. apply Exists_exists. exists x. split; [by eapply list_elem_of_lookup_2|done]. }
  assert (Hf : filter (fun x => 0 < i_ref x) l = l).
  { clear -Hall. induction l as [|x l IH]; [done|]. rewrite filter_cons, decide_True by (by apply (Hall 0%nat)).
    f_equal. apply IH. intros k y Hk. by apply (Hall (S k)). }
  assert (Hn : NoDup (i_inum <$> l)).
  { apply NoDup_alt. intros j k n Hj Hk. rewrite !list_lookup_fmap in *. apply fmap_Some in Hj as (x & Hx & ->). apply fmap_Some in Hk as (y & Hy & E).
    apply (Hu j k x y ROOTDEV (i_inum x)); [done|done| |]; (split_and!; [by eapply Hall|eapply Hd; [done|by eapply Hall]|done]). }
  unfold live_set in Hs. rewrite Hf, size_list_to_set, length_fmap in Hs by done. lia.
Qed.

(** ** The table *)

Definition sl_free (sl : sleeplock) : Prop := lock_free (sl_lk sl) /\ sl_locked sl = false.
Definition sl_held (pid : Z) (sl : sleeplock) : Prop := lock_free (sl_lk sl) /\ sl_locked sl = true /\ sl_pid sl = pid.

(** Inode [n] on the disk. *)
Definition dnode (V : Z -> list Z) (sb : superblock) (n : Z) : dinode := get_dinode n (V (IBLOCK n sb)).

Section Table.
Context (V : Z -> list Z) (sb : superblock) (G : Z -> Prop) (pid : Z).

(** What entry [x] may hold; the inodes in [G] are known to be good. *)
Definition entry_ok (locked : bool) (x : inode) : Prop :=
  (if locked then sl_held pid (i_lock x) else sl_free (i_lock x)) /\
  (0 < i_ref x -> G (i_inum x) -> i_valid x = true -> dinode_of x = dnode V sb (i_inum x)).

Record tab_ok (held : option nat) (l : list inode) : Prop := {
  to_len : length l = Z.to_nat NINODE;
  to_uniq : it_uniq l;
  to_dev : one_dev l;
  to_entry : forall k x, l !! k = Some x -> entry_ok (bool_decide (held = Some k)) x
}.

Lemma uniq_same l k x y : it_uniq l -> l !! k = Some x -> (forall d n, live d n y -> live d n x) -> it_uniq (<[k := y]> l).
Proof.
  intros Hu Hk Hs i j a b d n Hi Hj Ha Hb. apply list_lookup_insert_Some in Hi as [(-> & -> & _)|[Hi1 Hi2]];
    apply list_lookup_insert_Some in Hj as [(-> & -> & _)|[Hj1 Hj2]]; [done|..]; eapply Hu; eauto.
Qed.

(** Changing one entry. *)
Lemma tab_insert h h' l k x y :
  tab_ok h l -> l !! k = Some x -> it_uniq (<[k := y]> l) -> 0 <= i_ref y -> (0 < i_ref y -> i_dev y = ROOTDEV) ->
  entry_ok (bool_decide (h' = Some k)) y -> (forall j, j <> k -> bool_decide (h' = Some j) = bool_decide (h = Some j)) ->
  tab_ok h' (<[k := y]> l).
Proof.
  intros [T1 T2 T3 T4] Hk Hu Hr Hd He Hh. split; [by rewrite length_insert|done| |]; intros j z Hj;
    apply list_lookup_insert_Some in Hj as [(<- & <- & _)|[Hne Hj]]; [done|by eapply T3|done|].
  rewrite Hh by done. by apply T4.
Qed.

(** iget() adds a reference. *)
Lemma tab_iget h l n ip x' : tab_ok h l -> iget_spec l ROOTDEV n ip x' ->
  tab_ok h (<[ip := x']> l) /\ live ROOTDEV n x' /\ forall m, refs (<[ip := x']> l) m = refs l m + (if decide (m = n) then 1 else 0).
Proof.
  intros T Hg. destruct (iget_spec_live _ _ _ _ _ Hg) as [Hlt Hl]. pose proof (iget_spec_uniq _ _ _ _ _ (to_uniq _ _ T) Hg) as Hu.
  assert (Hrc : forall a b m, (live ROOTDEV n a \/ i_ref a = 0) -> live ROOTDEV n b -> i_ref b = i_ref a + 1 -> - rc m a + rc m b = if decide (m = n) then 1 else 0).
  { intros a b m Ha (Hb1 & Hb2 & Hb3) E. unfold rc, live. destruct (decide (m = n)) as [->|Hm].
    - rewrite (bool_decide_true (0 < i_ref b /\ _)) by done. destruct Ha as [(? & ? & ?)|?]; [rewrite bool_decide_true by done; lia|].
      rewrite bool_decide_false by lia. lia.
    - rewrite (bool_decide_false (0 < i_ref b /\ _)) by naive_solver. rewrite bool_decide_false; [lia|]. destruct Ha as [(? & ? & ?)|?]; naive_solver lia. }
  destruct Hg as [ip x Hx Hlx|ip x Hno Hx Hz].
  - destruct (to_entry _ _ T _ _ Hx) as [E1 E2]. split_and!; [|done|].
    + eapply tab_insert; [done|done|done|simpl; destruct Hlx; lia|intros _; apply Hlx| |done]. split; [done|]. intros _. apply E2, Hlx.
    + intros m. rewrite (refs_insert l ip x) by done. rewrite <- (Hrc x (set_i_ref (i_ref x + 1) x) m); [lia|by left|done|done].
  - destruct (to_entry _ _ T _ _ Hx) as [E1 E2]. split_and!; [|done|].
    + eapply tab_insert; [done|done|done|simpl; lia|done| |done]. by split.
    + intros m. rewrite (refs_insert l ip x) by done. erewrite <- (Hrc x _ m); [|by right|exact Hl|simpl; lia]. lia.
Qed.

(** iput() takes one away. *)
Lemma tab_iput l n ip x : tab_ok None l -> l !! ip = Some x -> live ROOTDEV n x ->
  let y := set_i_ref (i_ref x - 1) x in
  tab_ok None (<[ip := y]> l) /\ forall m, refs (<[ip := y]> l) m = refs l m - (if decide (m = n) then 1 else 0).
Proof.
  intros T Hx (Hl1 & Hl2 & Hl3) y. destruct (to_entry _ _ T _ _ Hx) as [E1 E2]. split.
  - eapply tab_insert; [done|done| |simpl; lia|done| |done].
    + eapply uniq_same; [apply T|done|]. intros d m (? & ? & ?). simpl in *. split_and!; [lia|done..].
    + split; [done|]. intros _. by apply E2.
  - intros m. rewrite (refs_insert l ip x) by done. unfold rc, live. simpl. destruct (decide (m = n)) as [->|Hm].
    + rewrite (bool_decide_true (0 < i_ref x /\ _)) by done. destruct (decide (0 < i_ref x - 1)); [rewrite bool_decide_true by done|rewrite bool_decide_false by tauto]; lia.
    + rewrite !bool_decide_false by naive_solver. lia.
Qed.

(** Locking an entry once its inode is read, and unlocking it. *)
Lemma refs_same l k x y m : l !! k = Some x -> i_ref y = i_ref x -> i_dev y = i_dev x -> i_inum y = i_inum x -> refs (<[k := y]> l) m = refs l m.
Proof. intros Hk E1 E2 E3. rewrite (refs_insert l k x) by done.
  assert (E : live ROOTDEV m y <-> live ROOTDEV m x) by (unfold live; by rewrite E1, E2, E3).
  unfold rc. rewrite (bool_decide_ext _ _ E), E1. lia. Qed.

Lemma tab_lock l k x y : tab_ok None l -> l !! k = Some x -> i_ref y = i_ref x -> i_dev y = i_dev x -> i_inum y = i_inum x ->
  sl_held pid (i_lock y) -> dinode_of y = dnode V sb (i_inum x) -> tab_ok (Some k) (<[k := y]> l).
Proof.
  intros T Hk E1 E2 E3 Hl Hd. pose proof (to_dev _ _ T _ _ Hk) as [H1 H2]. eapply tab_insert; [done|done| |lia|rewrite E1, E2; done| |].
  - eapply uniq_same; [apply T|done|]. intros d n. unfold live. by rewrite E1, E2, E3.
  - rewrite bool_decide_true by done. split; [done|]. intros _ _ _. by rewrite E3.
  - intros j Hj. rewrite !bool_decide_false by congruence. done.
Qed.

Lemma tab_unlock l k x y : tab_ok (Some k) l -> l !! k = Some x -> i_ref y = i_ref x -> i_dev y = i_dev x -> i_inum y = i_inum x ->
  sl_free (i_lock y) -> dinode_of y = dinode_of x -> i_valid y = i_valid x -> tab_ok None (<[k := y]> l).
Proof.
  intros T Hk E1 E2 E3 Hl Hd Hv. pose proof (to_dev _ _ T _ _ Hk) as [H1 H2]. destruct (to_entry _ _ T _ _ Hk) as [_ He].
  eapply tab_insert; [done|done| |lia|rewrite E1, E2; done| |].
  - eapply uniq_same; [apply T|done|]. intros d n. unfold live. by rewrite E1, E2, E3.
  - split; [done|]. rewrite E1, E3, Hd, Hv. done.
  - intros j Hj. rewrite !bool_decide_false by congruence. done.
Qed.

End Table.

(** ** The operations *)

Lemma ilock_get s ip x : inodes s !! ip = Some x -> get (ilock_l ip) s = Some (i_lock x).
Proof. intros H. unfold ilock_l, inode_l, comp. simpl. unfold inodes in H. by rewrite H. Qed.

Lemma ilock_put s ip x sl : inodes s !! ip = Some x -> put (ilock_l ip) sl s = upd_inodes (insert ip (set_i_lock sl x)) s.
Proof. intros H. unfold ilock_l, inode_l, comp. simpl. unfold inodes in H. by rewrite H. Qed.

Lemma upd_lookup s ip x y : inodes s !! ip = Some x -> inodes (upd_inodes (insert ip y) s) !! ip = Some y.
Proof. intros H. rewrite inodes_upd. apply list_lookup_insert_eq. by eapply lookup_lt_Some. Qed.

Lemma upd_same s ip x : inodes s !! ip = Some x -> upd_inodes (insert ip x) s = s.
Proof. intros H. unfold upd_inodes. rewrite list_insert_id by done. by destruct s as [? ? ? ? []]. Qed.

(** Changes of the cache and of the table do not meet. *)
Lemma bd_upd s s1 f : bd_frame s s1 -> bd_frame (upd_inodes f s) (upd_inodes f s1).
Proof. unfold bd_frame. intros ->. by destruct s. Qed.

(** Only the cache, the disk and the entries of the table may differ. *)
Definition it_frame (s s' : kern) : Prop :=
  s' = set_k_disk (k_disk s') (set_k_bcache (k_bcache s') (upd_inodes (fun _ => inodes s') s)).

Lemma it_frame_bd s s' : bd_frame s s' -> it_frame s s'.
Proof. unfold bd_frame, it_frame. intros ->. by destruct s as [? ? ? ? []]. Qed.

Lemma it_frame_refl s : it_frame s s.
Proof. by destruct s as [? ? ? ? []]. Qed.

Lemma it_frame_upd f s : it_frame s (upd_inodes f s).
Proof. by destruct s as [? ? ? ? []]. Qed.

Lemma it_frame_trans s1 s2 s3 : it_frame s1 s2 -> it_frame s2 s3 -> it_frame s1 s3.
Proof. unfold it_frame. intros -> ->. by destruct s1 as [? ? ? ? []]. Qed.

Lemma it_frame_facts s s' : it_frame s s' -> k_sb s' = k_sb s /\ it_lock (k_itable s') = it_lock (k_itable s).
Proof. intros ->. done. Qed.

Definition unlocked (x : inode) : inode := set_i_lock (Sleeplock false (sl_lk (i_lock x)) (sl_name (i_lock x)) 0) x.

(** The entry of a locked inode that has been read from the disk. *)
Definition loaded (pid : Z) (di : dinode) (x : inode) : inode :=
  Inode (i_dev x) (i_inum x) (i_ref x) (Sleeplock true (sl_lk (i_lock x)) (sl_name (i_lock x)) pid) true
    (di_type di) (di_major di) (di_minor di) (di_nlink di) (di_size di) (di_addrs di).

Section Ops.
Context {BD : BlockDev} {BO : BlockDevOk BD}.

Lemma iput_run ip x c s :
  lock_free (it_lock (k_itable s)) -> cpu_ok (cx_cpu c) -> inodes s !! ip = Some x -> (i_valid x = true -> i_nlink x <> 0) ->
  iput ip (c, s) = Ret tt (settled c, upd_inodes (insert ip (set_i_ref (i_ref x - 1) x)) s).
Proof.
  intros Hf Hc Hx Hn. unfold iput. rewrite (bind_ret _ _ _ _ _ (it_acquire c s Hf)). set (s1 := set_k_itable _ s).
  rewrite (bind_ret _ _ _ _ _ (ld_inode_run (pushed c) s1 ip x Hx)).
  assert (E : (i_ref x =? 1) && i_valid x && (i_nlink x =? 0) = false).
  { destruct (i_valid x); [|by rewrite andb_false_r]. rewrite (proj2 (Z.eqb_neq _ _) (Hn eq_refl)). by rewrite andb_false_r. }
  rewrite E, mret_bind, (bind_ret _ _ _ _ _ (up_inode_run _ s1 ip x _ Hx)).
  rewrite (it_release c _ (it_lock (k_itable s))) by done. unfold s1. by rewrite upd_inodes_lock.
Qed.

Lemma iunlock_run ip x c s i pid :
  kctx c i pid -> inodes s !! ip = Some x -> sl_held pid (i_lock x) -> 0 < i_ref x ->
  exists c', iunlock (Some ip) (c, s) = Ret tt (c', upd_inodes (insert ip (unlocked x)) s) /\ kctx c' i pid.
Proof.
  intros Hc Hx (Hf & Hl & Hp) Hr. unfold iunlock.
  rewrite (bind_ret _ _ _ _ _ (holdingsleep_run (ilock_l ip) c s (i_lock x) i pid (kc_ok _ _ _ Hc) (ilock_get s ip x Hx) Hf)).
  rewrite (bind_ret _ _ _ _ _ (ld_inode_run (settled c) s ip x Hx)), Hl, Hp, Z.eqb_refl, (proj2 (Z.ltb_ge _ _)) by lia. cbn [andb negb orb].
  rewrite (releasesleep_run (ilock_l ip) (ChInodeLock ip) (settled c) s (i_lock x) i pid); [|by apply ctx_ok_settled, Hc|by apply ilock_get|done].
  rewrite (ilock_put s ip x) by done. eexists. split; [done|]. by apply kctx_wake, kctx_settled.
Qed.

(** ilock() locks the inode and reads it from the disk if the table does not have it yet. *)
Lemma ilock_wp pid s V X G ip x n c i (Q : unit -> ctx * kern -> Prop) :
  bio_ok pid s V X ∅ -> kctx c i pid -> (size X < Z.to_nat NBUF)%nat -> inodes s !! ip = Some x -> live ROOTDEV n x -> G n ->
  entry_ok V (k_sb s) G pid false x -> 0 <= IBLOCK n (k_sb s) < 2 ^ 32 -> di_type (dnode V (k_sb s) n) <> 0 ->
  (forall c' s', kctx c' i pid -> bd_frame (upd_inodes (insert ip (loaded pid (dnode V (k_sb s) n) x)) s) s' -> bio_ok pid s' V X ∅ -> Q tt (c', s')) ->
  wp bd_env (ilock (Some ip)) Q (c, s).
Proof.
  intros B Hc Hs Hx (Hl1 & Hl2 & <-) HG [[Hf Hun] Hval] Hib Hty HQ. unfold ilock. eapply wp_step; [by apply ld_inode_run|].
  rewrite (proj2 (Z.ltb_ge _ _)) by lia.
  eapply wp_step; [apply (acquiresleep_run (ilock_l ip) (ChInodeLock ip) c s (i_lock x) i pid); [apply Hc|by apply ilock_get|done|done|apply Hc]|].
  rewrite (ilock_put s ip x) by done. set (x1 := set_i_lock _ x). set (s1 := upd_inodes _ s).
  assert (Hx1 : inodes s1 !! ip = Some x1) by (by eapply upd_lookup). assert (B1 : bio_ok pid s1 V X ∅) by (by apply upd_inodes_bio).
  apply kctx_settled in Hc. eapply wp_step; [by apply ld_inode_run|]. change (i_valid x1) with (i_valid x). destruct (i_valid x) eqn:Ev; cbn [negb].
  - apply wp_ret. apply HQ; [done| |done]. rewrite <- (Hval Hl1 HG eq_refl). unfold s1.
    replace (loaded pid (dinode_of x) x) with x1; [apply bd_frame_refl|]. unfold x1, loaded, set_i_lock, dinode_of. cbn. by rewrite Ev.
  - eapply wp_step; [apply ld_sb_run|]. change (k_sb s1) with (k_sb s). change (i_inum x1) with (i_inum x). change (i_dev x1) with (i_dev x). rewrite Hl2, u32_small by done.
    apply (bread_body pid s1 V X (IBLOCK (i_inum x) (k_sb s)) (settled c) i); [done..|]. intros b bf c2 s2 Hc2 F2 D2 Hb Hd _ B2.
    eapply wp_step; [by apply load_some|]. rewrite Hd. fold (dnode V (k_sb s) (i_inum x)). set (di := dnode _ _ _) in *.
    assert (Hx2 : inodes s2 !! ip = Some x1) by (by rewrite (bd_frame_inodes s1 s2)).
    eapply wp_step; [by apply up_inode_run|].
    do 5 (eapply wp_step; [apply up_inode_run; by eapply upd_lookup|]; rewrite upd_inodes_twice).
    set (x2 := set_i_addrs _ _). set (s3 := upd_inodes _ s2).
    assert (Hd3 : IBLOCK (i_inum x) (k_sb s) ∈ X \/ V (IBLOCK (i_inum x) (k_sb s)) = disk_get (k_disk s3) (IBLOCK (i_inum x) (k_sb s))).
    { replace (k_disk s3) with (k_disk s1) by (symmetry; exact D2). by apply (bio_disk pid s1). }
    eapply brelse_body; [apply upd_inodes_bio, B2|done|exact Hd3|].
    intros c4 s4 Hc4 F4 _ B4. assert (Hx4 : inodes s4 !! ip = Some x2) by (rewrite (bd_frame_inodes s3 s4) by done; by eapply upd_lookup).
    eapply wp_step; [by apply up_inode_run|]. eapply wp_step; [apply ld_inode_run; by eapply upd_lookup|].
    rewrite (proj2 (Z.eqb_neq _ _)) by done. apply wp_ret. apply HQ; [done| |by apply upd_inodes_bio].
    change (set_i_valid true x2) with (loaded pid di x). set (f := insert ip (loaded pid di x)).
    pose proof (bd_upd s1 s2 f F2) as H1. pose proof (bd_upd s3 s4 f F4) as H2. unfold s1, s3, f in H1, H2. rewrite upd_inodes_twice in H1, H2.
    by eapply bd_frame_trans.
Qed.
End Ops.
