(* ===== verification/NameSpec.v ===== *)
(** * Path names (kernel/fs.c, namex(), namei(), nameiparent())

    A path is resolved one element at a time from the root, each in the
    directory the previous one names.  [resolve] does it on the contents of the disk;
    namex() is shown to compute it, with the reference counts of the inode
    table back to what they were except for the inode it returns. *)

From stdpp Require Import base numbers list list_numbers gmap strings sets fin_sets.
From Stdlib Require Import ZArith Lia.
From S2P Require Import Prelude.
From S2P Require Import Machine.
From S2P Require Import Spinlock.
From S2P Require Import Mem.
From S2P Require Import Kalloc.
From S2P Require Import Kern.
From S2P Require Import Sched.
From S2P Require Import SleepLk.
From S2P Require Import Bio.
From S2P Require Import Log.
From S2P Require Import LogSpec.
From S2P Require Import LogOps.
From S2P Require Import UserMem.
From S2P Require Import Fs.
From S2P Require Import FsSpec.
From S2P Require Import FsOps.
From S2P Require Import DirSpec.
From S2P Require Import InodeSpec.

Local Open Scope Z_scope.

(** ** Names *)

Lemma cstr_cstring s n : forall k, cstr (chars s) (Z.of_nat k) n = take n (cstring (drop k s)).
Proof.
  induction n as [|n IH]; intros k; cbn [cstr]; [done|]. unfold chars at 1. rewrite (proj2 (Z.ltb_ge _ _)), Nat2Z.id by lia. rewrite nth_lookup.
  destruct (s !! k) as [c|] eqn:E; simpl.
  - rewrite (drop_S s c k E). cbn [cstring]. destruct (c =? 0) eqn:Ec; [done|]. cbn [take]. f_equal.
    + unfold chars. rewrite (proj2 (Z.ltb_ge _ _)), Nat2Z.id by lia. by rewrite nth_lookup, E.
    + replace (Z.of_nat k + 1) with (Z.of_nat (S k)) by lia. apply IH.
  - rewrite drop_ge by (by apply lookup_ge_None). done.
Qed.

Lemma name_str_eq s : name_str s = take (Z.to_nat DIRSIZ) (cstring s).
Proof. unfold name_str. exact (cstr_cstring s (Z.to_nat DIRSIZ) 0). Qed.

Lemma find_name_ext a b l : name_str a = name_str b -> forall j, find_name a l j = find_name b l j.
Proof. intros E. induction l as [|e l IH]; intros j; cbn [find_name]; [done|]. by rewrite E, IH. Qed.

Lemma elem_name e name : 0 ∉ e -> cstring name = take (Z.to_nat DIRSIZ) e -> name_str name = name_str e.
Proof. intros He Hn. rewrite !name_str_eq, Hn, (cstring_full e He), take_take. done. Qed.

Lemma length_elements path : (length (elements path) <= length path)%nat.
Proof.
  unfold elements. induction path as [|x p IH]; [done|]. cbn [split_on length]. destruct (x =? slash); [rewrite filter_cons_False by auto; lia|].
  destruct (split_on slash p) as [|h t]; [simpl in *; lia|]. rewrite filter_cons_True by done. cbn [length].
  destruct (decide (h = [])) as [->|Hh]; [rewrite filter_cons_False in IH by auto|rewrite filter_cons_True in IH by done; cbn [length] in IH]; lia.
Qed.

Lemma elements_sub path e c : e ∈ elements path -> c ∈ e -> c ∈ path.
Proof.
  unfold elements. intros He%list_elem_of_filter Hc. destruct He as [_ He]. revert e He Hc. induction path as [|x p IH]; intros e He Hc; cbn [split_on] in He.
  - apply list_elem_of_singleton in He as ->. done.
  - destruct (x =? slash).
    + apply elem_of_cons in He as [->|He]; [by apply elem_of_nil in Hc|right; by eapply IH].
    + destruct (split_on slash p) as [|h t] eqn:E; [by apply split_on_ne in E|].
      apply elem_of_cons in He as [->|He]; [|right; eapply IH; [|done]; by right].
      apply elem_of_cons in Hc as [->|Hc]; [by left|right]. eapply IH; [|done]. by left.
Qed.

(** The name array keeps its bytes bytes. *)
Lemma skipelem_bytes path name rest name' :
  Forall is_byte path -> Forall is_byte name -> skipelem path name = Some (rest, name') -> Forall is_byte name' /\ Forall is_byte rest.
Proof.
  intros Hp Hn. unfold skipelem. assert (Hs : forall p, Forall is_byte p -> Forall is_byte (skip_slashes p)).
  { clear. induction p as [|c p IH]; intros H; [done|]. cbn [skip_slashes]. case_match; [|done]. apply IH. by apply Forall_cons in H as [_ H]. }
  apply Hs in Hp. destruct (skip_slashes path) as [|c r]; [done|]. destruct (elem_end (c :: r)) as [a b] eqn:E.
  destruct (elem_end_split _ _ _ E) as (Hab & _). rewrite Hab in Hp. apply Forall_app in Hp as [Ha Hb]. intros [= <- <-]. split; [|by apply Hs].
  assert (Hsp : forall bs, Forall is_byte bs -> Forall is_byte (splice name 0 bs)).
  { intros bs Hbs. unfold splice. rewrite take_0. apply Forall_app. split; [done|]. apply Forall_app. split; [done|by apply Forall_drop]. }
  case_match; apply Hsp; [by apply Forall_take|]. apply Forall_app. split; [done|]. constructor; [unfold is_byte; lia|constructor].
Qed.

(** ** Resolving a path on the disk *)

Definition inode_of (di : dinode) : inode :=
  Inode ROOTDEV 0 0 (Sleeplock false lk0 "" 0) true (di_type di) (di_major di) (di_minor di) (di_nlink di) (di_size di) (di_addrs di).
Definition dir_entries (V : Z -> list Z) (di : dinode) : list dirent := entries V (inode_of di) 0 (di_size di / DIRENT_SIZE).

(** The inode that [name] is in the directory [n]. *)
Definition child (V : Z -> list Z) (sb : superblock) (n : Z) (name : list Z) : option Z :=
  let di := dnode V sb n in
  if di_type di =? T_DIR then snd <$> find_name name (dir_entries V di) 0 else None.

(** The inode a path names, or with [parent] the directory of its last element. *)
Fixpoint resolve (V : Z -> list Z) (sb : superblock) (parent : bool) (n : Z) (es : list (list Z)) : option Z :=
  match es with
  | [] => if parent then None else Some n
  | e :: es =>
      if parent && bool_decide (es = []) then (if di_type (dnode V sb n) =? T_DIR then Some n else None)
      else child V sb n e ≫= fun m => resolve V sb parent m es
  end.

(** The inodes [G] are allocated and linked, and directories among them lead to others. *)
Record good_fs (V : Z -> list Z) (sb : superblock) (G : Z -> Prop) : Prop := {
  gf_root : G ROOTINO;
  gf_node : forall n, G n -> 0 <= IBLOCK n sb < 2 ^ 32 /\ di_type (dnode V sb n) <> 0 /\ di_nlink (dnode V sb n) <> 0;
  gf_dir : forall n, G n -> di_type (dnode V sb n) = T_DIR -> dir_ok V (inode_of (dnode V sb n)) (di_size (dnode V sb n) / DIRENT_SIZE);
  gf_closed : forall n e, G n -> di_type (dnode V sb n) = T_DIR -> e ∈ dir_entries V (dnode V sb n) -> de_inum e <> 0 -> G (de_inum e)
}.

Lemma find_name_elem name l : forall j k m, find_name name l j = Some (k, m) -> exists e, e ∈ l /\ de_inum e = m /\ m <> 0.
Proof.
  induction l as [|e l IH]; intros j k m; cbn [find_name]; [done|]. destruct (Z.eqb_spec (de_inum e) 0) as [E|E]; cbn [negb andb].
  - intros H. destruct (IH _ _ _ H) as (e' & He' & ?). exists e'. split; [by right|done].
  - case_bool_decide; [intros [= _ <-]; exists e; split; [by left|done]|]. intros H'. destruct (IH _ _ _ H') as (e' & He' & ?). exists e'. split; [by right|done].
Qed.

Lemma dir_ok_loaded V pid di x n : i_dev x = ROOTDEV -> dir_ok V (inode_of di) n -> dir_ok V (loaded pid di x) n.
Proof. intros Hd [D1 D2 D3 D4 D5 D6]. by split. Qed.

(** ** namex() *)

Section Walk.
Context {BD : BlockDev} {BO : BlockDevOk BD}.
Context (V : Z -> list Z) (X : gset Z) (sb : superblock) (G : Z -> Prop) (pid : Z) (i : nat) (l0 : list inode).
Context (HX : (size X < Z.to_nat NBUF)%nat) (HG : good_fs V sb G).
Context (Hdev : one_dev l0) (Hroom : (size (live_set l0) + 2 <= Z.to_nat NINODE)%nat).

(** The state between the steps; [h] is the inode this process has locked. *)
Record nm_ok (h : option nat) (s : kern) : Prop := {
  nm_bio : bio_ok pid s V X ∅;
  nm_sb : k_sb s = sb;
  nm_lock : lock_free (it_lock (k_itable s));
  nm_tab : tab_ok V sb G pid h (inodes s)
}.

Definition holds (s : kern) (ip : nat) (n : Z) : Prop := exists x, inodes s !! ip = Some x /\ live ROOTDEV n x.

(** The references of the start, and one to [n]. *)
Definition plus (s : kern) (o : option Z) : Prop := forall m, refs (inodes s) m = refs l0 m + (if decide (o = Some m) then 1 else 0).

Lemma nm_it_ok h s : nm_ok h s -> it_ok s.
Proof. intros N. split; [apply N|]. apply (nm_tab _ _ N). Qed.

Lemma nm_frame h h' s s' : nm_ok h s -> it_frame s s' -> bio_ok pid s' V X ∅ -> tab_ok V sb G pid h' (inodes s') -> nm_ok h' s'.
Proof. intros [N1 N2 N3 N4] F B T. destruct (it_frame_facts s s' F) as [E1 E2]. split; [done|by rewrite E1|by rewrite E2|done]. Qed.

(** While one inode is held, the table has a free entry. *)
Lemma nm_free h s n : nm_ok h s -> plus s (Some n) -> forall inum, exists k y, inodes s !! k = Some y /\ (live ROOTDEV inum y \/ i_ref y = 0).
Proof.
  intros N P inum. pose proof (nm_tab _ _ N) as T. destruct (free_entry (inodes s)) as (k & y & Hk & Hy); [apply T|apply T| |by exists k, y; auto].
  assert (Hsub : live_set (inodes s) ⊆ live_set l0 ∪ {[n]}).
  { intros m. rewrite elem_of_union, elem_of_singleton, !elem_of_live_set by (done || apply T). rewrite P. case_decide as E; [injection E as ->; auto|rewrite Z.add_0_r; auto]. }
  apply subseteq_size in Hsub. rewrite size_union_alt in Hsub. pose proof (subseteq_size ({[n]} ∖ live_set l0) {[n]}) as H1.
  rewrite size_singleton in H1. rewrite (to_len _ _ _ _ _ _ T). specialize (H1 ltac:(set_solver)). lia.
Qed.

Lemma lock_wp s ip n c (Q : unit -> ctx * kern -> Prop) :
  nm_ok None s -> kctx c i pid -> holds s ip n -> G n ->
  (forall c' s' x, kctx c' i pid -> it_frame s s' -> nm_ok (Some ip) s' -> inodes s' !! ip = Some (loaded pid (dnode V sb n) x) -> live ROOTDEV n x ->
     (forall m, refs (inodes s') m = refs (inodes s) m) -> Q tt (c', s')) ->
  wp bd_env (ilock (Some ip)) Q (c, s).
Proof.
  intros N Hc (x & Hx & Hl) Hg HQ. destruct (gf_node _ _ _ HG n Hg) as (Hib & Hty & _). pose proof (nm_sb _ _ N) as Esb.
  pose proof (to_entry _ _ _ _ _ _ (nm_tab _ _ N) _ _ Hx) as He. pose proof Hl as (Hl1 & Hl2 & Hl3).
  apply (ilock_wp pid s V X G ip x n c i); rewrite ?Esb; [apply N|done..|].
  intros c' s' Hc' F B'. set (y := loaded pid (dnode V sb n) x) in *.
  assert (Ein : inodes s' = <[ip := y]> (inodes s)) by (by rewrite (bd_frame_inodes _ _ F), inodes_upd).
  assert (HF : it_frame s s') by (eapply it_frame_trans; [apply it_frame_upd|by apply it_frame_bd]).
  apply (HQ c' s' x); [done|done| | |done|].
  - apply (nm_frame None (Some ip) s); [done|done|done|]. rewrite Ein.
    eapply tab_lock; [apply N|done|done|done|done| |rewrite Hl3; by destruct (dnode V sb n)].
    split; [|done]. apply (proj1 (proj1 He)).
  - rewrite Ein. apply list_lookup_insert_eq. by eapply lookup_lt_Some.
  - intros m. rewrite Ein. by eapply refs_same.
Qed.

Lemma unlock_run s ip n z c :
  nm_ok (Some ip) s -> kctx c i pid -> inodes s !! ip = Some z -> live ROOTDEV n z ->
  exists c' s', iunlock (Some ip) (c, s) = Ret tt (c', s') /\ kctx c' i pid /\ it_frame s s' /\ nm_ok None s' /\
    inodes s' = <[ip := unlocked z]> (inodes s) /\ forall m, refs (inodes s') m = refs (inodes s) m.
Proof.
  intros N Hc Hz Hl. destruct (to_entry _ _ _ _ _ _ (nm_tab _ _ N) _ _ Hz) as [He _]. rewrite bool_decide_true in He by done.
  destruct (iunlock_run ip z c s i pid Hc Hz He (proj1 Hl)) as (c' & R & Hc'). exists c', (upd_inodes (insert ip (unlocked z)) s).
  split_and!; [done|done|apply it_frame_upd| |done|].
  - apply (nm_frame (Some ip) None s); [done|apply it_frame_upd|by apply upd_inodes_bio, N|]. rewrite inodes_upd.
    eapply tab_unlock; [apply N|done|done|done|done| |done|done]. split; [apply He|done].
  - intros m. rewrite inodes_upd. by eapply refs_same.
Qed.

Lemma put_run s ip n z c :
  nm_ok None s -> kctx c i pid -> inodes s !! ip = Some z -> live ROOTDEV n z -> G n ->
  exists c' s', iput ip (c, s) = Ret tt (c', s') /\ kctx c' i pid /\ it_frame s s' /\ nm_ok None s' /\
    inodes s' = <[ip := set_i_ref (i_ref z - 1) z]> (inodes s) /\ forall m, refs (inodes s') m = refs (inodes s) m - (if decide (m = n) then 1 else 0).
Proof.
  intros N Hc Hz Hl Hg. destruct (to_entry _ _ _ _ _ _ (nm_tab _ _ N) _ _ Hz) as [_ He]. pose proof Hl as (Hl1 & Hl2 & Hl3).
  destruct (tab_iput V sb G pid (inodes s) n ip z (nm_tab _ _ N) Hz Hl) as [T R].
  eexists _, _. split; [apply (iput_run ip z c s); [apply N|apply Hc|done|]|].
  { intros Hv. rewrite Hl3 in He. specialize (He Hl1 Hg Hv). destruct (gf_node _ _ _ HG n Hg) as (_ & _ & Hn). by rewrite <- He in Hn. }
  split_and!; [by apply kctx_settled|apply it_frame_upd| |done|by rewrite inodes_upd].
  apply (nm_frame None None s); [done|apply it_frame_upd|by apply upd_inodes_bio, N|by rewrite inodes_upd].
Qed.

Lemma unlockput_run s ip n z c :
  nm_ok (Some ip) s -> kctx c i pid -> inodes s !! ip = Some z -> live ROOTDEV n z -> G n ->
  exists c' s', iunlockput ip (c, s) = Ret tt (c', s') /\ kctx c' i pid /\ it_frame s s' /\ nm_ok None s' /\
    inodes s' = <[ip := set_i_ref (i_ref z - 1) (unlocked z)]> (inodes s) /\ forall m, refs (inodes s') m = refs (inodes s) m - (if decide (m = n) then 1 else 0).
Proof.
  intros N Hc Hz Hl Hg. destruct (unlock_run s ip n z c N Hc Hz Hl) as (c1 & s1 & R1 & Hc1 & F1 & N1 & I1 & E1).
  assert (Hz1 : inodes s1 !! ip = Some (unlocked z)) by (rewrite I1; apply list_lookup_insert_eq; by eapply lookup_lt_Some).
  destruct (put_run s1 ip n (unlocked z) c1 N1 Hc1 Hz1 Hl Hg) as (c2 & s2 & R2 & Hc2 & F2 & N2 & I2 & E2). exists c2, s2.
  unfold iunlockput. rewrite (bind_ret _ _ _ _ _ R1). split_and!; [done|done|by eapply it_frame_trans|done| |].
  - by rewrite I2, I1, list_insert_insert_eq.
  - intros m. by rewrite E2, E1.
Qed.

(** What the walk returns. *)
Definition nm_result (parent : bool) (found : option Z) (es : list (list Z)) (s : kern) (r : option nat * list Z) : Prop :=
  match found with
  | Some m => exists ip, fst r = Some ip /\ holds s ip m /\ plus s (Some m) /\ G m /\
                (parent = true -> cstring (snd r) = take (Z.to_nat DIRSIZ) (default [] (last es)))
  | None => fst r = None /\ plus s None
  end.

Lemma plus_drop s s' n : plus s (Some n) -> (forall m, refs (inodes s') m = refs (inodes s) m - (if decide (m = n) then 1 else 0)) -> plus s' None.
Proof. intros P E m. rewrite E, P. destruct (decide (m = n)) as [->|Hne]; [rewrite decide_True by done|rewrite decide_False by congruence]; simpl; lia. Qed.

Lemma plus_move s s1 s2 n m : plus s (Some n) -> (forall k, refs (inodes s1) k = refs (inodes s) k + (if decide (k = m) then 1 else 0)) ->
  (forall k, refs (inodes s2) k = refs (inodes s1) k - (if decide (k = n) then 1 else 0)) -> plus s2 (Some m).
Proof.
  intros P E1 E2 k. rewrite E2, E1, P. repeat case_decide; congruence || lia.
Qed.

(** The lookup in one directory, while it is locked. *)
Lemma step_wp s ip n x name e c (Q : option (nat * Z) -> ctx * kern -> Prop) :
  nm_ok (Some ip) s -> kctx c i pid -> inodes s !! ip = Some (loaded pid (dnode V sb n) x) -> live ROOTDEV n x -> G n ->
  di_type (dnode V sb n) = T_DIR -> plus s (Some n) -> Forall is_byte name -> name_str name = name_str e ->
  (forall c' s', child V sb n e = None -> kctx c' i pid -> it_frame s s' -> nm_ok (Some ip) s' -> inodes s' = inodes s -> Q None (c', s')) ->
  (forall c' s' m nip y off, child V sb n e = Some m -> G m -> kctx c' i pid -> it_frame s s' -> nm_ok (Some ip) s' ->
     iget_spec (inodes s) ROOTDEV m nip y -> inodes s' = <[nip := y]> (inodes s) ->
     (forall k, refs (inodes s') k = refs (inodes s) k + (if decide (k = m) then 1 else 0)) -> Q (Some (nip, off)) (c', s')) ->
  wp bd_env (dirlookup ip name) Q (c, s).
Proof.
  intros N Hc Hx Hl Hg Hty P Hb Hn HN HS. set (di := dnode V sb n) in *. set (x' := loaded pid di x) in *.
  assert (Hdev' : i_dev x' = ROOTDEV) by apply Hl. pose proof (gf_dir _ _ _ HG n Hg Hty) as Hdir. fold di in Hdir.
  assert (Hch : child V sb n e = snd <$> find_name name (entries V x' 0 (di_size di / DIRENT_SIZE)) 0).
  { unfold child. fold di. rewrite Hty, Z.eqb_refl. f_equal. symmetry. exact (find_name_ext name e (dir_entries V di) Hn 0). }
  eapply (dirlookup_wp pid V X ip x' name (di_size di / DIRENT_SIZE) i s c); [apply N|done|done|by eapply nm_it_ok|done|by apply dir_ok_loaded; [apply Hl|]|done| |].
  { rewrite Hdev'. by eapply nm_free. }
  intros c' s' res Hc' L B'. destruct L as [s' Hf F|j m nip y s1 Hf F Hig]; rewrite Hf in Hch; cbn [fmap option_fmap option_map snd] in Hch.
  - assert (Ein : inodes s' = inodes s) by (by apply bd_frame_inodes). apply HN; [done|done|by apply it_frame_bd| |done].
    apply (nm_frame (Some ip) (Some ip) s); [done|by apply it_frame_bd|done|]. rewrite Ein. apply N.
  - rewrite Hdev' in Hig. destruct (tab_iget V sb G pid (Some ip) (inodes s) m nip y (nm_tab _ _ N) Hig) as (T & _ & R).
    assert (Ein : inodes (upd_inodes (insert nip y) s1) = <[nip := y]> (inodes s)) by (by rewrite inodes_upd, (bd_frame_inodes s s1)).
    assert (HF : it_frame s (upd_inodes (insert nip y) s1)) by (eapply it_frame_trans; [by apply it_frame_bd|apply it_frame_upd]).
    destruct (find_name_elem _ _ _ _ _ Hf) as (e' & He' & <- & Hnz).
    apply (HS c' _ (de_inum e') nip y); [done|by eapply (gf_closed _ _ _ HG n)|done|done| |done|done|by rewrite Ein].
    apply (nm_frame (Some ip) (Some ip) s); [done|done|done|by rewrite Ein].
Qed.

(** The entry of the directory after the lookup, and that of the next inode after the release. *)
Lemma after_iget l ip nip n m x' y :
  l !! ip = Some x' -> live ROOTDEV n x' -> iget_spec l ROOTDEV m nip y ->
  exists z, <[nip := y]> l !! ip = Some z /\ live ROOTDEV n z /\
    exists w, <[ip := set_i_ref (i_ref z - 1) (unlocked z)]> (<[nip := y]> l) !! nip = Some w /\ live ROOTDEV m w.
Proof.
  intros Hx Hl Hig. destruct (iget_spec_live _ _ _ _ _ Hig) as [Hlt Hly]. destruct (decide (nip = ip)) as [->|Hne].
  - exists y. split; [by apply list_lookup_insert_eq|]. destruct Hl as (Hl1 & Hl2 & Hl3). destruct Hig as [ip a Ha Hla|ip a Hno Ha Hz].
    + assert (a = x') as -> by congruence. destruct Hla as (Ha1 & Ha2 & Ha3). split; [split_and!; simpl; lia || done|].
      eexists. split; [apply list_lookup_insert_eq; by rewrite length_insert|]. split_and!; simpl; lia || done.
    + assert (a = x') as -> by congruence. lia.
  - exists x'. split; [by rewrite list_lookup_insert_ne|]. split; [done|]. exists y. split; [|done].
    rewrite list_lookup_insert_ne by done. by apply list_lookup_insert_eq.
Qed.

Lemma nm_result_weaken parent e es found s r : es <> [] -> nm_result parent found es s r -> nm_result parent found (e :: es) s r.
Proof. intros Hne. destruct found as [m|]; [|done]. intros (ip & H1 & H2 & H3 & H4 & H5). exists ip. split_and!; [done..|]. destruct es; [done|]. exact H5. Qed.

Lemma namex_loop_wp parent es : forall fuel path name ip n s c (Q : option nat * list Z -> ctx * kern -> Prop),
  elements path = es -> (length es < fuel)%nat -> 0 ∉ path -> Forall is_byte path -> Forall is_byte name -> length name = Z.to_nat DIRSIZ ->
  nm_ok None s -> kctx c i pid -> holds s ip n -> G n -> plus s (Some n) ->
  (forall c' s' r, kctx c' i pid -> it_frame s s' -> nm_ok None s' -> nm_result parent (resolve V sb parent n es) es s' r -> Q r (c', s')) ->
  wp bd_env (namex_loop fuel ip path name parent) Q (c, s).
Proof.
  induction es as [|e es IH]; intros fuel path name ip n s c Q Hes Hfu H0 Hpb Hnb Hnl N Hc Hh Hg P HQ; (destruct fuel as [|fuel]; [simpl in Hfu; lia|]);
    cbn [namex_loop]; pose proof (skipelem_spec path name H0 Hnl) as Hsk; rewrite Hes in Hsk.
  { rewrite Hsk. destruct parent.
    - destruct Hh as (x & Hx & Hl). destruct (put_run s ip n x c N Hc Hx Hl Hg) as (c' & s' & R & Hc' & F & N' & _ & E).
      eapply wp_step; [exact R|]. apply wp_ret. apply HQ; [done..|]. split; [done|]. by eapply plus_drop.
    - apply wp_ret. apply HQ; [done|apply it_frame_refl|done|]. exists ip. by split_and!. }
  destruct Hsk as (rest & name' & Hsk & Hrest & Hre & Hr0 & Hnl' & Hcs). rewrite Hsk. destruct (skipelem_bytes _ _ _ _ Hpb Hnb Hsk) as [Hnb' Hpb'].
  assert (Hne : name_str name' = name_str e).
  { apply elem_name; [|done]. intros Hin. apply H0. apply (elements_sub path e); [rewrite Hes; by left|done]. }
  apply wp_bind. apply (lock_wp s ip n c); [done..|]. intros c1 s1 x Hc1 F1 N1 Hx1 Hl1 E1.
  assert (P1 : plus s1 (Some n)) by (intros m; by rewrite E1).
  assert (Hz1 : live ROOTDEV n (loaded pid (dnode V sb n) x)) by exact Hl1.
  eapply wp_step; [by apply ld_inode_run|]. change (i_type (loaded pid (dnode V sb n) x)) with (di_type (dnode V sb n)).
  cbn [resolve] in HQ. assert (Hch : di_type (dnode V sb n) <> T_DIR -> child V sb n e = None).
  { intros Hty. unfold child. by rewrite (proj2 (Z.eqb_neq _ _) Hty). }
  destruct (Z.eqb_spec (di_type (dnode V sb n)) T_DIR) as [Hty|Hty]; cbn [negb].
  2: { rewrite (Hch Hty) in HQ. destruct (unlockput_run s1 ip n _ c1 N1 Hc1 Hx1 Hz1 Hg) as (c2 & s2 & R2 & Hc2 & F2 & N2 & _ & E2).
       eapply wp_step; [exact R2|]. apply wp_ret. apply HQ; [done|by eapply it_frame_trans|done|].
       replace (if parent && bool_decide (es = []) then None else None ≫= _) with (@None Z) by (by destruct (parent && _)).
       split; [done|]. by eapply plus_drop. }
  rewrite (bool_decide_ext (rest = []) (es = []) Hre). destruct (parent && bool_decide (es = [])) eqn:Elast.
  { apply andb_true_iff in Elast as [-> Elast%bool_decide_eq_true]. subst es.
    destruct (unlock_run s1 ip n _ c1 N1 Hc1 Hx1 Hz1) as (c2 & s2 & R2 & Hc2 & F2 & N2 & I2 & E2).
    eapply wp_step; [exact R2|]. apply wp_ret. apply HQ; [done|by eapply it_frame_trans|done|]. exists ip. split_and!; [done| |intros m; by rewrite E2|done|done].
    eexists. split; [rewrite I2; apply list_lookup_insert_eq; by eapply lookup_lt_Some|done]. }
  apply wp_bind. apply (step_wp s1 ip n x name' e c1); [done..| |].
  - intros c2 s2 Ec Hc2 F2 N2 I2. rewrite Ec in HQ. rewrite <- I2 in Hx1.
    destruct (unlockput_run s2 ip n _ c2 N2 Hc2 Hx1 Hz1 Hg) as (c3 & s3 & R3 & Hc3 & F3 & N3 & _ & E3).
    eapply wp_step; [exact R3|]. apply wp_ret. apply HQ; [done|by do 2 (eapply it_frame_trans; [done|])|done|]. split; [done|].
    eapply plus_drop; [exact P1|]. by rewrite <- I2.
  - intros c2 s2 m nip y off Ec Hgm Hc2 F2 N2 Hig I2 E2. rewrite Ec in HQ. cbn [mbind option_bind] in HQ.
    destruct (after_iget _ _ _ _ _ _ _ Hx1 Hz1 Hig) as (z & Hz & Hlz & w & Hw & Hlw). rewrite <- I2 in Hz, Hw.
    destruct (unlockput_run s2 ip n z c2 N2 Hc2 Hz Hlz Hg) as (c3 & s3 & R3 & Hc3 & F3 & N3 & I3 & E3). rewrite <- I3 in Hw.
    eapply wp_step; [exact R3|].
    apply (IH fuel rest name' nip m s3 c3); [done|simpl in Hfu; lia|done..|by exists w|done|by eapply plus_move|].
    intros c4 s4 r Hc4 F4 N4 Hr. apply HQ; [done|by do 3 (eapply it_frame_trans; [done|])|done|].
    destruct es as [|e2 es]; [|by apply nm_result_weaken]. destruct parent; [done|]. destruct Hr as (q & ? & ? & ? & ? & ?). exists q. by split_and!.
Qed.

End Walk.

(** ** Where the walk starts *)

Lemma idup_run ip x c s :
  lock_free (it_lock (k_itable s)) -> cpu_ok (cx_cpu c) -> inodes s !! ip = Some x ->
  idup ip (c, s) = Ret ip (settled c, upd_inodes (insert ip (set_i_ref (i_ref x + 1) x)) s).
Proof.
  intros Hf Hc Hx. unfold idup. rewrite (bind_ret _ _ _ _ _ (it_acquire c s Hf)). set (s1 := set_k_itable _ s).
  rewrite (bind_ret _ _ _ _ _ (up_inode_run (pushed c) s1 ip x _ Hx)).
  erewrite bind_ret; [|apply (it_release c _ (it_lock (k_itable s))); done]. unfold s1. by rewrite upd_inodes_lock.
Qed.

(** The inode a path starts from: the root, or the current directory. *)
Definition starts (c : ctx) (i : nat) (s : kern) (G : Z -> Prop) (path : list Z) (n : Z) : Prop :=
  if bool_decide (head path = Some slash) then n = ROOTINO
  else exists p cwd, cx_procs c !! i = Some p /\ p_cwd p = Some cwd /\ holds s cwd n /\ G n.

Section Namex.
Context {BD : BlockDev} {BO : BlockDevOk BD}.

Lemma start_run V X sb G pid i s c path n :
  nm_ok V X sb G pid None s -> kctx c i pid -> good_fs V sb G -> (size (live_set (inodes s)) + 2 <= Z.to_nat NINODE)%nat -> starts c i s G path n ->
  exists c' s' ip, (if bool_decide (head path = Some slash) then iget ROOTDEV ROOTINO
      else i ← curproc; p ← pget i; match p_cwd p with Some cwd => idup cwd | None => fault end) (c, s) = Ret ip (c', s') /\
    kctx c' i pid /\ it_frame s s' /\ nm_ok V X sb G pid None s' /\ holds s' ip n /\ G n /\ plus (inodes s) s' (Some n).
Proof.
  intros N Hc HG Hroom Hst. pose proof (nm_tab _ _ _ _ _ _ _ N) as T.
  assert (Hgot : forall ip y, iget_spec (inodes s) ROOTDEV n ip y -> G n -> let s' := upd_inodes (insert ip y) s in
    it_frame s s' /\ nm_ok V X sb G pid None s' /\ holds s' ip n /\ G n /\ plus (inodes s) s' (Some n)).
  { intros ip y Hig Hg s'. destruct (tab_iget V sb G pid None (inodes s) n ip y T Hig) as (T' & Hl & R). destruct (iget_spec_live _ _ _ _ _ Hig) as [Hlt _].
    split_and!; [apply it_frame_upd| | |done|].
    - apply (nm_frame V X sb G pid None None s); [done|apply it_frame_upd|apply upd_inodes_bio, N|by unfold s'; rewrite inodes_upd].
    - exists y. split; [unfold s'; rewrite inodes_upd; by apply list_lookup_insert_eq|done].
    - intros m. unfold s'. rewrite inodes_upd, R. repeat case_decide; congruence || lia. }
  unfold starts in Hst. case_bool_decide.
  - subst n. destruct (iget_run ROOTDEV ROOTINO c s) as [(ip & y & R & Hig)|[Hfull _]]; [by eapply nm_it_ok|apply Hc| |].
    + eexists _, _, ip. split; [exact R|]. split; [by apply kctx_settled|]. apply Hgot; [done|apply HG].
    + exfalso. destruct (free_entry (inodes s)) as (k & y & Hk & Hy); [apply T|apply T|rewrite (to_len _ _ _ _ _ _ T); lia|]. by destruct (Hfull k y Hk).
  - destruct Hst as (p & cwd & Hp & Hcwd & (x & Hx & Hl) & Hg). eexists _, _, cwd. split.
    + rewrite (bind_ret _ _ _ _ _ (curproc_run c s i pid (kc_ok _ _ _ Hc))). erewrite bind_ret; [|by apply pget_run]. rewrite Hcwd.
      apply idup_run; [apply N|apply settled_ok, Hc|done].
    + split; [by apply kctx_settled, kctx_settled|]. apply Hgot; [|done]. by constructor.
Qed.

(** C11: Paths are resolved as the directories say.  namex() returns an in-memory inode of the inode
    that the path names on the disk, walking from the root or the current directory, or with
    nameiparent of the directory that holds its last element, with that element in the
    name array; it returns 0 when an element is missing or not a directory.  Afterwards no inode
    is locked, and the reference counts are those of before, plus one for
    the inode returned. *)
Theorem namex_correct V X sb G pid i s c path parent name n :
  nm_ok V X sb G pid None s -> kctx c i pid -> (size X < Z.to_nat NBUF)%nat -> good_fs V sb G ->
  (size (live_set (inodes s)) + 2 <= Z.to_nat NINODE)%nat ->
  0 ∉ path -> Forall is_byte path -> Forall is_byte name -> length name = Z.to_nat DIRSIZ -> starts c i s G path n ->
  wp bd_env (namex path parent name) (fun r w' => kctx (fst w') i pid /\ it_frame s (snd w') /\ nm_ok V X sb G pid None (snd w') /\
    nm_result G (inodes s) parent (resolve V sb parent n (elements path)) (elements path) (snd w') r) (c, s).
Proof.
  intros N Hc HX HG Hroom H0 Hpb Hnb Hnl Hst. destruct (start_run V X sb G pid i s c path n N Hc HG Hroom Hst) as (c1 & s1 & ip & R & Hc1 & F1 & N1 & Hh & Hg & P).
  unfold namex. eapply wp_step; [exact R|]. pose proof (length_elements path).
  eapply (namex_loop_wp V X sb G pid i (inodes s) HX HG); [apply (nm_tab _ _ _ _ _ _ _ N)|done|done|lia|done..|].
  intros c' s' r Hc' F' N' Hr. split_and!; [done|by eapply it_frame_trans|done|done].
Qed.
End Namex.

(** ** A concrete disk: the root directory of [DirSpec], with the file a *)

Definition root_di : dinode := Dinode T_DIR 0 0 1 48 (100 :: replicate 12 0).
Definition file_di : dinode := Dinode T_FILE 0 0 1 5 (101 :: replicate 12 0).
Definition inode_block : list Z := put_dinode 1 root_di (put_dinode 7 file_di (replicate (Z.to_nat BSIZE) 0)).
Definition nm_disk : disk := Disk (fun b => if b =? 32 then inode_block else if b =? 100 then dir_block else replicate (Z.to_nat BSIZE) 0) [].

Lemma nm_disk_len b : length (disk_get nm_disk b) = Z.to_nat BSIZE.
Proof. unfold disk_get, nm_disk. cbn [dk_image dk_writes blocks_after]. repeat case_match; [by vm_compute|by vm_compute|apply length_replicate]. Qed.

Lemma nm_dnodes : dnode (disk_get nm_disk) sb0 1 = root_di /\ dnode (disk_get nm_disk) sb0 7 = file_di.
Proof. split; vm_compute; reflexivity. Qed.

Definition nm_good (n : Z) : Prop := n = 1 \/ n = 7.

Lemma nm_entries : forallb (fun e => (de_inum e =? 0) || (de_inum e =? 1) || (de_inum e =? 7)) (dir_entries (disk_get nm_disk) root_di) = true.
Proof. vm_compute. reflexivity. Qed.

Lemma nm_dir : dir_ok (disk_get nm_disk) (inode_of root_di) 3.
Proof.
  split; try done.
  - intros k Hk. change (DIRENT_SIZE * 3) with 48 in Hk. rewrite Z.div_small by (change BSIZE with 1024; lia). split_and!; done.
  - intros k Hk. change (DIRENT_SIZE * 3) with 48 in Hk. unfold fbyte. rewrite Z.div_small, Z.mod_small by (change BSIZE with 1024; lia).
    change (blk _ _ 0) with 100. change (disk_get nm_disk 100) with dir_block. rewrite nth_lookup. destruct (dir_block !! _) eqn:E; cbn; [|unfold is_byte; lia].
    eapply Forall_lookup_1; [|exact E]. apply bytes_ok. vm_compute. reflexivity.
Qed.

Lemma nm_good_fs : good_fs (disk_get nm_disk) sb0 nm_good.
Proof.
  destruct nm_dnodes as [E1 E7]. split.
  - by left.
  - intros n [->| ->]; [rewrite E1|rewrite E7]; clear E1 E7; vm_compute; repeat split; discriminate.
  - intros n [->| ->]; [rewrite E1; intros _; exact nm_dir|rewrite E7; clear E1 E7; discriminate].
  - intros n e [->| ->]; [rewrite E1|rewrite E7; clear E1 E7; discriminate]. intros _ He Hnz. pose proof nm_entries as H. rewrite forallb_forall in H.
    specialize (H e (proj1 (list_elem_of_In _ _) He)). unfold nm_good. lia.
Qed.

Lemma nm_state : exists s, nm_ok (disk_get nm_disk) ∅ sb0 nm_good 1 None s /\ inodes s = replicate (Z.to_nat NINODE) inode0.
Proof.
  destruct (kern_on_bio nm_disk (log30 (LOGSIZE + 1) 1 0) nm_disk_len) as (bc & B). exists (set_k_bcache bc (kern_on nm_disk (log30 (LOGSIZE + 1) 1 0))).
  split; [|done]. assert (H : forall k x, replicate (Z.to_nat NINODE) inode0 !! k = Some x -> x = inode0) by (intros k x Hk; by apply lookup_replicate in Hk as [-> _]).
  split; [exact B|done|done|]. split; [apply length_replicate| | |].
  - intros j k x y d n Hj Hk [Hx _]. apply H in Hj as ->. cbn in Hx. lia.
  - intros k x ->%H. split; [done|]. cbn. lia.
  - intros k x ->%H. split; [done|]. cbn. lia.
Qed.

Lemma nm_resolve : resolve (disk_get nm_disk) sb0 false 1 (elements [47; 97]) = Some 7.
Proof. vm_compute. reflexivity. Qed.

(** [/a] is inode 7. *)
Lemma namex_correct_witness : exists s, wp solo (@namex sync_dev [47; 97] false name_buf)
  (fun r w' => exists ip, fst r = Some ip /\ holds (snd w') ip 7) (ctx3, s).
Proof.
  destruct nm_state as (s & N & Hin). exists s. eapply wp_mono.
  - apply (@namex_correct sync_dev sync_ok (disk_get nm_disk) ∅ sb0 nm_good 1 0 s ctx3 [47; 97] false name_buf 1 N kctx3);
      [rewrite size_empty; unfold NBUF, MAXOPBLOCKS; lia|exact nm_good_fs| | |repeat constructor; unfold is_byte; lia|apply bytes_ok; vm_compute; reflexivity|reflexivity|reflexivity].
    + rewrite Hin. vm_compute. lia.
    + vm_compute. set_solver.
  - intros r [c' s'] (_ & _ & _ & Hr). rewrite nm_resolve in Hr. destruct Hr as (ip & H1 & H2 & _). exists ip. split; [exact H1|exact H2].
Defined.
