(* ===== verification/PipeSpec.v ===== *)
(** * Pipes (kernel/pipe.c)

    The ring buffer of a pipe, with its free-running 32-bit counters, as a
    FIFO queue: pipewrite() appends the bytes of the user's buffer and
    piperead() takes them off the front. *)

From stdpp Require Import base numbers list list_numbers gmap strings.
From Stdlib Require Import ZArith Lia.
From S2P Require Import Prelude.
From S2P Require Import Ring.
From S2P Require Import Machine.
From S2P Require Import Spinlock.
From S2P Require Import Mem.
From S2P Require Import Kalloc.
From S2P Require Import Vm.
From S2P Require Import VmSpec.
From S2P Require Import Uvm.
From S2P Require Import Kern.
From S2P Require Import Sched.
From S2P Require Import SleepLk.
From S2P Require Import Bio.
From S2P Require Import LogSpec.
From S2P Require Import UserMem.
From S2P Require Import File.

Local Open Scope Z_scope.

(** ** User memory seen from the kernel state *)

Section User.
Context {LY : Layout} {LO : LayoutOk}.

(** The page table at [root] translates as [T]; [l] are the free pages. *)
Definition uspace (root : Z) (s : kern) (T : ptree) (l : list Z) : Prop :=
  vinv root (kk s) T l /\ user_ok (k_mem (kk s)) T l.
Definition umem (s : kern) (T : ptree) (va : Z) : option Z := uread (k_mem (kk s)) T va.

Lemma kmem_id {A} (m : K kst A) c s a : m (c, kk s) = Ret a (c, kk s) -> kmem m (c, s) = Ret a (c, s).
Proof. intros H. unfold kmem. rewrite (zoom_ret kk_l m c s (kk s) a c (kk s)) by done. by destruct s. Qed.

(** copyin() of one byte. *)
Lemma copyin_byte root T l va c s :
  uspace root s T l -> 0 <= va ->
  kmem (copyin root va 1) (c, s) =
    match umem s T va with Some b => Ret ([b], 0) (c, s) | None => Ret ([], -1) (c, s) end.
Proof.
  intros [V U] Hva. destruct (copyin_loop_run (S (Z.to_nat 1)) root T va 1 [] c (kk s) l V U Hva) as (bs & r & R & B & Hr); [lia|lia|].
  unfold umem. destruct Hr as [(-> & Hl)|(-> & va' & Hin & Hn)].
  - destruct bs as [|b []]; [simpl in Hl; lia| |simpl in Hl; lia]. specialize (B 0%nat b eq_refl). rewrite Z.add_0_r in B. rewrite B.
    apply kmem_id. exact R.
  - replace va' with va in Hn by lia. rewrite Hn. apply kmem_id. destruct bs as [|b bs]; [exact R|].
    specialize (B 0%nat b eq_refl). rewrite Z.add_0_r in B. congruence.
Qed.

Lemma ustored_one va b va' o : ustored va [b] va' o = if va' =? va then Some b else o.
Proof.
  unfold ustored. change (Z.of_nat (length [b])) with 1.
  destruct (Z.eqb_spec va' va) as [E|Hne], (Z.leb_spec va va'), (Z.ltb_spec va' (va + 1)); try lia; try done.
  by rewrite E, Z.sub_diag.
Qed.

(** copyout() of one byte. *)
Lemma copyout_byte root T l va b c s :
  uspace root s T l -> 0 <= va -> is_byte b ->
  match umem s T va with
  | None => exists s', kmem (copyout root va [b]) (c, s) = Ret (-1) (c, s') /\ s' = set_kk (kk s') s
  | Some _ => exists s', kmem (copyout root va [b]) (c, s) = Ret 0 (c, s') /\ s' = set_kk (kk s') s /\ uspace root s' T l /\
      forall va', 0 <= va' -> umem s' T va' = if va' =? va then Some b else umem s T va'
  end.
Proof.
  intros [V U] Hva Hb. unfold umem.
  destruct (copyout_loop_run 2 root T va [b] c (kk s) l V U Hva) as (r & k' & R & V' & S' & _ & Hr); [by apply Forall_singleton|simpl; lia|].
  assert (Hk : kmem (copyout root va [b]) (c, s) = Ret r (c, set_kk k' s)) by (by apply (zoom_ret kk_l _ c s (kk s))).
  assert (Hf : set_kk k' s = set_kk (kk (set_kk k' s)) s) by by destruct s.
  destruct Hr as [(-> & L)|(-> & va' & Hin & Hn)].
  - destruct (uread (k_mem (kk s)) T va) eqn:Eu.
    + exists (set_kk k' s). split_and!; [done|done|split; [done|by eapply tree_same_user]|].
      intros va' Hva'. by rewrite L, ustored_one.
    + exfalso. specialize (L va Hva). rewrite ustored_one, Z.eqb_refl in L. unfold uread in Eu, L.
      rewrite (tree_same_uaddr T (k_mem (kk s))) in L by done. by destruct (uaddr (k_mem (kk s)) T va).
  - simpl in Hin. replace va' with va in Hn by lia. rewrite Hn. by exists (set_kk k' s).
Qed.

End User.

(** ** The ring *)

Lemma pipe_ring : 0 < PIPESIZE < 2 ^ 32 /\ (PIPESIZE | 2 ^ 32).
Proof. split; [done|]. by exists 8388608. Qed.

Definition pcount (x : pipe) : Z := rcount (2 ^ 32) (pi_nread x) (pi_nwrite x).
Definition pqueue (x : pipe) : list Z := rlist (2 ^ 32) PIPESIZE (pi_data x) (pi_nread x) (pi_nwrite x).

Record pipe_wf (x : pipe) : Prop := {
  pw_len : length (pi_data x) = Z.to_nat PIPESIZE;
  pw_nread : 0 <= pi_nread x < 2 ^ 32;
  pw_nwrite : 0 <= pi_nwrite x < 2 ^ 32;
  pw_count : pcount x <= PIPESIZE
}.

Definition ppush (b : Z) (x : pipe) : pipe :=
  set_pi_nwrite (u32 (pi_nwrite x + 1)) (set_pi_data (<[Z.to_nat (pi_nwrite x `mod` PIPESIZE) := b]> (pi_data x)) x).
Definition ppop (x : pipe) : pipe := set_pi_nread (u32 (pi_nread x + 1)) x.

Lemma pcount_pos x : 0 <= pcount x < 2 ^ 32.
Proof. by apply (rcount_range _ _ (proj1 pipe_ring)). Qed.

Lemma length_pqueue x : length (pqueue x) = Z.to_nat (pcount x).
Proof. apply length_rlist. Qed.

Lemma ppush_ok b x : pipe_wf x -> pcount x < PIPESIZE ->
  pipe_wf (ppush b x) /\ pcount (ppush b x) = pcount x + 1 /\ pqueue (ppush b x) = pqueue x ++ [b].
Proof.
  intros [W1 W2 W3 W4] Hc. destruct pipe_ring as [HN HD].
  assert (Ec : pcount (ppush b x) = pcount x + 1) by (apply (rcount_push _ _ HN (pi_nread x) (pi_nwrite x)); unfold pcount in Hc; change PIPESIZE with 512 in Hc; lia).
  split; [split; [by simpl; rewrite length_insert|done|apply u32_range|lia]|]. split; [done|]. by apply rlist_push.
Qed.

Lemma ppop_ok x : pipe_wf x -> 0 < pcount x ->
  pipe_wf (ppop x) /\ pqueue x = rslot PIPESIZE (pi_data x) (pi_nread x) 0 :: pqueue (ppop x).
Proof.
  intros [W1 W2 W3 W4] Hc. destruct pipe_ring as [HN HD].
  assert (Ec : pcount (ppop x) = pcount x - 1) by (by apply (rcount_pop _ _ HN)).
  split; [split; [done|apply u32_range|done|lia]|]. by apply rlist_pop.
Qed.

Lemma pipe_full x : pipe_wf x -> (pi_nwrite x =? u32 (pi_nread x + PIPESIZE)) = (pcount x =? PIPESIZE).
Proof. intros [W1 W2 W3 W4]. by apply (rlist_full _ _ (proj1 pipe_ring)). Qed.

Lemma pipe_empty x : pipe_wf x -> (pi_nread x =? pi_nwrite x) = (pcount x =? 0).
Proof. intros [W1 W2 W3 W4]. by apply (rlist_empty _ _ (proj1 pipe_ring)). Qed.

(** ** The loops *)

Definition upd_pipe (pi : Z) (x : pipe) (s : kern) : kern := set_k_pipes (<[pi := x]> (k_pipes s)) s.

Lemma ld_pipe_run c s pi x : k_pipes s !! pi = Some x -> ld_pipe pi (c, s) = Ret x (c, s).
Proof. intros H. by apply load_some. Qed.

Lemma up_pipe_run c s pi x f : k_pipes s !! pi = Some x -> up_pipe pi f (c, s) = Ret tt (c, upd_pipe pi (f x) s).
Proof. intros H. unfold up_pipe. by rewrite (update_some _ _ x). Qed.

Lemma upd_pipe_get pi x s : k_pipes (upd_pipe pi x s) !! pi = Some x.
Proof. apply lookup_insert_eq. Qed.

Lemma upd_pipe_twice pi x y s : upd_pipe pi y (upd_pipe pi x s) = upd_pipe pi y s.
Proof. unfold upd_pipe. simpl. by rewrite insert_insert_eq. Qed.

Lemma upd_pipe_id pi x s : k_pipes s !! pi = Some x -> upd_pipe pi x s = s.
Proof. intros H. unfold upd_pipe. rewrite insert_id by done. by destruct s. Qed.

(** The ends and the lock of a pipe. *)
Definition same_ends (x x' : pipe) : Prop :=
  pi_lock x' = pi_lock x /\ pi_readopen x' = pi_readopen x /\ pi_writeopen x' = pi_writeopen x.

Section Loops.
Context {LY : Layout} {LO : LayoutOk}.

Lemma pipewrite_loop_run fuel pi pr p T l addr n c : forall s x i,
  cx_procs c !! pr = Some p -> p_killed p = 0 -> uspace (p_pagetable p) s T l ->
  k_pipes s !! pi = Some x -> pipe_wf x -> pi_readopen x = true ->
  0 <= addr -> addr + n < 2 ^ 64 -> 0 <= i <= n -> pcount x + (n - i) <= PIPESIZE -> n - i < Z.of_nat fuel ->
  exists k bs x', pipewrite_loop fuel pi pr addr i n (c, s) = Ret (Some k) (c, upd_pipe pi x' s) /\
    i <= k <= n /\ Z.of_nat (length bs) = k - i /\ ubytes (k_mem (kk s)) T (addr + i) bs /\
    (k = n \/ umem s T (addr + k) = None) /\ pipe_wf x' /\ pqueue x' = pqueue x ++ bs /\ same_ends x x'.
Proof.
  induction fuel as [|fuel IH]; intros s x i Hp Hk Hu Hx W Hro Ha H64 Hi Hc Hf; [lia|].
  cbn [pipewrite_loop]. destruct (Z.ltb_spec i n) as [Hlt|Hge]; cbn [negb]; cycle 1.
  { exists i, [], x. rewrite app_nil_r, upd_pipe_id by done. split_and!; try done; try (simpl; lia). }
  rewrite (bind_ret _ _ _ _ _ (ld_pipe_run c s pi x Hx)), (bind_ret _ _ _ _ _ (pget_run c s pr p Hp)), Hro, Hk.
  change (negb true || negb (0 =? 0)) with false. cbv iota. rewrite pipe_full by done.
  rewrite (proj2 (Z.eqb_neq (pcount x) _)) by lia. rewrite (bind_ret _ _ _ _ _ (pget_run c s pr p Hp)).
  rewrite u64_small by lia. unfold mbind at 1, K_bind at 1. rewrite (copyin_byte _ T l) by (done || lia).
  destruct (umem s T (addr + i)) as [b|] eqn:Eb; cbn [obind fst snd].
  - change (0 =? -1) with false. cbv iota.
    rewrite (bind_ret _ _ _ _ _ (up_pipe_run c s pi x _ Hx)).
    rewrite (bind_ret _ _ _ _ _ (up_pipe_run c _ pi _ _ (upd_pipe_get _ _ _))), upd_pipe_twice. cbn [nth].
    change (set_pi_nwrite _ _) with (ppush b x).
    destruct (ppush_ok b x W ltac:(lia)) as (W1 & E1 & Q1).
    destruct (IH (upd_pipe pi (ppush b x) s) (ppush b x) (i + 1)) as (k & bs & x' & R & H1 & H2 & H3 & H4 & H5 & H6 & H7);
      [done|done|done|apply upd_pipe_get|done|done|done|done|lia|lia|lia|].
    exists k, (b :: bs), x'. rewrite R, upd_pipe_twice. split_and!; try done; try (simpl; lia); [|by rewrite H6, Q1, <- app_assoc].
    apply (ubytes_app _ _ _ [b] bs).
    + intros [|[]] y Hy; [|done..]. injection Hy as <-. by rewrite Z.add_0_r.
    + replace (addr + i + Z.of_nat (length [b])) with (addr + (i + 1)) by (simpl; lia). done.
  - change (-1 =? -1) with true. cbv iota. exists i, [], x. rewrite app_nil_r, upd_pipe_id by done. split_and!; try done; try (simpl; lia). by right.
Qed.

Lemma piperead_loop_run fuel pi pr p T l addr n c : forall s x i,
  cx_procs c !! pr = Some p -> uspace (p_pagetable p) s T l -> k_pipes s !! pi = Some x -> pipe_wf x ->
  Forall is_byte (pqueue x) -> 0 <= addr -> addr + n < 2 ^ 64 -> 0 <= i <= n -> n - i < Z.of_nat fuel ->
  exists k m x' s', piperead_loop fuel pi pr addr i n (c, s) = Ret k (c, upd_pipe pi x' s') /\
    s' = set_kk (kk s') s /\ pipe_wf x' /\ same_ends x x' /\ i <= k <= n /\
    pqueue x' = drop m (pqueue x) /\ (m <= length (pqueue x))%nat /\
    ((Z.of_nat m = Z.min (n - i) (Z.of_nat (length (pqueue x))) /\ k = i + Z.of_nat m /\ uspace (p_pagetable p) s' T l /\
      forall va, 0 <= va -> umem s' T va = ustored (addr + i) (take m (pqueue x)) va (umem s T va)) \/
     (k = i + Z.of_nat m - 1 /\ k < n /\ umem s T (addr + k) = None)).
Proof.
  induction fuel as [|fuel IH]; intros s x i Hp Hu Hx W Hb Ha H64 Hi Hf; [lia|].
  cbn [piperead_loop]. destruct (Z.ltb_spec i n) as [Hlt|Hge]; cbn [negb]; cycle 1.
  { exists i, 0%nat, x, s. rewrite drop_0, upd_pipe_id by done. split_and!; try done; try lia; [by destruct s|].
    left. split_and!; [lia|lia|done|]. intros va _. by rewrite take_0, ustored_nil. }
  rewrite (bind_ret _ _ _ _ _ (ld_pipe_run c s pi x Hx)), pipe_empty by done. destruct (Z.eqb_spec (pcount x) 0) as [E0|E0].
  { assert (El : length (pqueue x) = 0%nat) by (rewrite length_pqueue, E0; done).
    exists i, 0%nat, x, s. rewrite drop_0, upd_pipe_id by done. split_and!; try done; try lia; [by destruct s|].
    left. split_and!; [lia|lia|done|]. intros va _. by rewrite take_0, ustored_nil. }
  pose proof (pcount_pos x). destruct (ppop_ok x W ltac:(lia)) as (W1 & Q1).
  assert (Hch : nth (Z.to_nat (pi_nread x `mod` PIPESIZE)) (pi_data x) 0 = rslot PIPESIZE (pi_data x) (pi_nread x) 0) by (unfold rslot; by rewrite Z.add_0_r).
  cbv zeta. rewrite Hch. rewrite (bind_ret _ _ _ _ _ (up_pipe_run c s pi x _ Hx)). change (set_pi_nread _ _) with (ppop x).
  rewrite (bind_ret _ _ _ _ _ (pget_run c _ pr p Hp)), u64_small by lia.
  set (b := rslot PIPESIZE (pi_data x) (pi_nread x) 0) in *. set (s1 := upd_pipe pi (ppop x) s). rewrite Q1 in *. apply Forall_cons in Hb as [Hb Hb'].
  pose proof (copyout_byte (p_pagetable p) T l (addr + i) b c s1 Hu ltac:(lia) Hb) as Hco. change (umem s1 T) with (umem s T) in Hco.
  destruct (umem s T (addr + i)) as [old|] eqn:Eb.
  - destruct Hco as (s2 & R & F & Hu2 & M2). rewrite (bind_ret _ _ _ _ _ R). change (0 =? -1) with false. cbv iota.
    assert (Hp2 : k_pipes s2 = k_pipes s1) by (by rewrite F).
    destruct (IH s2 (ppop x) (i + 1)) as (k & m & x' & s' & R' & F' & W' & [S1 [S2 S3]] & Hk & Q' & Hm & Hr);
      [done|done|rewrite Hp2; apply upd_pipe_get|done|done|done|done|lia|lia|].
    exists k, (S m), x', (upd_pipe pi x s'). rewrite R'. rewrite upd_pipe_twice. cbn [drop length].
    split_and!; try done; try (simpl; lia); [rewrite F', F; unfold s1, upd_pipe; destruct s; simpl in *; by rewrite insert_insert_eq, insert_id|].
    change (umem (upd_pipe pi x s') T) with (umem s' T). change (uspace _ (upd_pipe pi x s') T l) with (uspace (p_pagetable p) s' T l).
    destruct Hr as [(H1 & H2 & H3 & H4)|(H1 & Hkn & H2)].
    + left. split_and!; [lia|lia|done|]. intros va Hva. rewrite H4, M2 by done. cbn [take].
      change (b :: take m (pqueue (ppop x))) with ([b] ++ take m (pqueue (ppop x))).
      rewrite <- ustored_app. cbn [length]. replace (addr + i + Z.of_nat 1) with (addr + (i + 1)) by lia. f_equal.
      by rewrite ustored_one.
    + right. split; [lia|]. split; [lia|]. rewrite M2 in H2 by lia. destruct (Z.eqb_spec (addr + k) (addr + i)); [done|exact H2].
  - destruct Hco as (s2 & R & F). rewrite (bind_ret _ _ _ _ _ R). change (-1 =? -1) with true. cbv iota.
    assert (Hp2 : k_pipes s2 = k_pipes s1) by (by rewrite F).
    exists i, 1%nat, (ppop x), (upd_pipe pi x s2). rewrite upd_pipe_twice, upd_pipe_id by (rewrite Hp2; apply upd_pipe_get).
    split_and!; try done; try (simpl; lia); [rewrite F; unfold s1, upd_pipe; destruct s; simpl in *; by rewrite insert_insert_eq, insert_id|].
    right. split; [lia|by split].
Qed.

(** The lock of a pipe. *)
Lemma pi_acquire c s pi x :
  k_pipes s !! pi = Some x -> lock_free (pi_lock x) ->
  acquire (inS (pi_lk pi)) (c, s) = Ret tt (pushed c, upd_pipe pi (set_pi_lock (held (pi_lock x) (c_id (cx_cpu c))) x) s).
Proof.
  intros Hx Hf. assert (Hg : get (pi_lk pi) s = Some (pi_lock x)) by (unfold pi_lk, pipe_l, comp; simpl; by rewrite Hx).
  rewrite (acquire_S (pi_lk pi) c s (pi_lock x) Hg Hf). unfold pi_lk, pipe_l, comp. simpl. by rewrite Hx.
Qed.

Lemma pi_release c c1 s pi x lk :
  cpu_ok (cx_cpu c) -> cx_cpu c1 = push_cpu (cx_cpu c) -> lock_free lk ->
  k_pipes s !! pi = Some x -> pi_lock x = held lk (c_id (cx_cpu c)) ->
  release (inS (pi_lk pi)) (c1, s) = Ret tt (set_cx_cpu (settle (cx_cpu c)) c1, upd_pipe pi (set_pi_lock lk x) s).
Proof.
  intros Hc Hc1 Hf Hx Hl. assert (Hg : get (pi_lk pi) s = Some (held lk (c_id (cx_cpu c)))).
  { rewrite <- Hl. unfold pi_lk, pipe_l, comp. simpl. by rewrite Hx. }
  rewrite (release_S (pi_lk pi) c c1 s lk Hc Hc1 Hf Hg). unfold pi_lk, pipe_l, comp. simpl. by rewrite Hx.
Qed.

(** Waking the other side and releasing the lock. *)
Lemma pi_finish {A} ch c s pi x lk i pid (a : A) :
  kctx c i pid -> lock_free lk -> k_pipes s !! pi = Some x -> pi_lock x = held lk (c_id (cx_cpu c)) ->
  (wakeup ch ;; release (inS (pi_lk pi)) ;; mret a) (pushed c, s) = Ret a (wake_ctx ch c, upd_pipe pi (set_pi_lock lk x) s).
Proof.
  intros Hc Hf Hx Hl. pose proof (co_cpu _ _ _ (kc_ok _ _ _ Hc)) as Hcp.
  rewrite (bind_ret _ _ _ _ _ (wakeup_run ch (pushed c) s i pid (ctx_ok_pushed _ _ _ (kc_ok _ _ _ Hc)))).
  by rewrite (bind_ret _ _ _ _ _ (pi_release c _ s pi x lk Hcp (wake_pushed ch c Hcp) Hf Hx Hl)).
Qed.

Lemma lock_pipe_wf lk x : pipe_wf x -> pipe_wf (set_pi_lock lk x).
Proof. by intros []. Qed.

Lemma pipewrite_run pi addr n c i pid p s x T l :
  kctx c i pid -> cx_procs c !! i = Some p -> p_killed p = 0 -> uspace (p_pagetable p) s T l ->
  k_pipes s !! pi = Some x -> pipe_wf x -> lock_free (pi_lock x) -> pi_readopen x = true ->
  0 <= addr -> 0 <= n -> addr + n < 2 ^ 64 -> pcount x + n <= PIPESIZE ->
  exists k bs x' c', pipewrite pi addr n (c, s) = Ret k (c', upd_pipe pi x' s) /\ kctx c' i pid /\
    0 <= k <= n /\ Z.of_nat (length bs) = k /\ ubytes (k_mem (kk s)) T addr bs /\
    (k = n \/ umem s T (addr + k) = None) /\ pipe_wf x' /\ pqueue x' = pqueue x ++ bs /\ same_ends x x'.
Proof.
  intros Hc Hp Hk Hu Hx W Hf Hro Ha Hn H64 Hcount. unfold pipewrite.
  rewrite (bind_ret _ _ _ _ _ (curproc_run c s i pid (kc_ok _ _ _ Hc))). apply kctx_settled in Hc as Hc0. set (c0 := settled c) in *.
  rewrite (bind_ret _ _ _ _ _ (pi_acquire c0 s pi x Hx Hf)). set (x0 := set_pi_lock _ x).
  destruct (pipewrite_loop_run (S (Z.to_nat n) * S (cx_fuel c)) pi i p T l addr n (pushed c0) (upd_pipe pi x0 s) x0 0)
    as (k & bs & x' & R & H1 & H2 & H3 & H4 & W' & Q' & [E1 [E2 E3]]);
    [done|done|done|apply upd_pipe_get|by apply lock_pipe_wf|done|done|done|lia|rewrite Z.sub_0_r; exact Hcount|lia|].
  rewrite (bind_ret (with_fuel _) _ _ _ _ R), upd_pipe_twice. cbv iota beta.
  rewrite (pi_finish _ c0 _ pi x' (pi_lock x) i pid k Hc0 Hf (upd_pipe_get _ _ _)), upd_pipe_twice by (by rewrite E1).
  rewrite Z.add_0_r in H3. rewrite Z.sub_0_r in H2.
  exists k, bs, (set_pi_lock (pi_lock x) x'), (wake_ctx (ChPipeNread pi) c0). split_and!; try done; try lia; [by apply kctx_wake|by apply lock_pipe_wf].
Qed.

Lemma piperead_run pi addr n c i pid p s x T l :
  kctx c i pid -> cx_procs c !! i = Some p -> uspace (p_pagetable p) s T l ->
  k_pipes s !! pi = Some x -> pipe_wf x -> lock_free (pi_lock x) -> Forall is_byte (pqueue x) ->
  pqueue x <> [] \/ pi_writeopen x = false -> 0 <= addr -> 0 <= n -> addr + n < 2 ^ 64 ->
  exists k m x' s' c', piperead pi addr n (c, s) = Ret k (c', upd_pipe pi x' s') /\ kctx c' i pid /\
    s' = set_kk (kk s') s /\ pipe_wf x' /\ same_ends x x' /\ 0 <= k <= n /\
    pqueue x' = drop m (pqueue x) /\ (m <= length (pqueue x))%nat /\
    ((Z.of_nat m = Z.min n (Z.of_nat (length (pqueue x))) /\ k = Z.of_nat m /\
      forall va, 0 <= va -> umem s' T va = ustored addr (take m (pqueue x)) va (umem s T va)) \/
     (k = Z.of_nat m - 1 /\ k < n /\ umem s T (addr + k) = None)).
Proof.
  intros Hc Hp Hu Hx W Hf Hb Hready Ha Hn H64. unfold piperead.
  rewrite (bind_ret _ _ _ _ _ (curproc_run c s i pid (kc_ok _ _ _ Hc))). apply kctx_settled in Hc as Hc0. set (c0 := settled c) in *.
  rewrite (bind_ret _ _ _ _ _ (pi_acquire c0 s pi x Hx Hf)). set (x0 := set_pi_lock _ x). set (s0 := upd_pipe pi x0 s).
  assert (Hw : with_fuel (fun fuel => pipe_wait fuel pi i) (pushed c0, s0) = Ret false (pushed c0, s0)).
  { unfold with_fuel. cbn [fst]. destruct (cx_fuel (pushed c0)) as [|fu] eqn:Ef; [pose proof (kc_fuel _ _ _ Hc0); simpl in *; lia|].
    cbn [pipe_wait]. rewrite (bind_ret _ _ _ _ _ (ld_pipe_run _ s0 pi x0 (upd_pipe_get _ _ _))), pipe_empty by (by apply lock_pipe_wf).
    change (pcount x0) with (pcount x). change (pi_writeopen x0) with (pi_writeopen x). destruct Hready as [Hq| ->]; [|by rewrite andb_false_r].
    destruct (Z.eqb_spec (pcount x) 0) as [E|]; [|done]. destruct Hq. apply nil_length_inv. by rewrite length_pqueue, E. }
  rewrite (bind_ret _ _ _ _ _ Hw). cbv iota.
  destruct (piperead_loop_run (S (Z.to_nat n)) pi i p T l addr n (pushed c0) s0 x0 0)
    as (k & m & x' & s' & R & F & W' & [E1 [E2 E3]] & H1 & Q' & Hm & Hr);
    [done|done|apply upd_pipe_get|by apply lock_pipe_wf|done|done|done|lia|lia|].
  rewrite (bind_ret _ _ _ _ _ R).
  rewrite (pi_finish _ c0 _ pi x' (pi_lock x) i pid k Hc0 Hf (upd_pipe_get _ _ _)), upd_pipe_twice by (by rewrite E1).
  exists k, m, (set_pi_lock (pi_lock x) x'), (upd_pipe pi x s'), (wake_ctx (ChPipeNwrite pi) c0). rewrite upd_pipe_twice, Z.add_0_r, !Z.sub_0_r in *.
  split_and!; try done; try lia; [by apply kctx_wake| |by apply lock_pipe_wf|].
  - rewrite F. unfold s0, upd_pipe. destruct s. simpl in *. by rewrite insert_insert_eq, insert_id.
  - destruct Hr as [(G1 & G2 & G3 & G4)|(G1 & G2 & G3)]; [left; by split_and!|right; by split_and!].
Qed.

(** C15: pipewrite() appends to the queue.  With room in the pipe for n bytes and
    a reader, it appends the user's bytes in order and returns how many: all
    n, or those before the first address that is not mapped.  The counters
    are 32-bit numbers that wrap. *)
Theorem pipewrite_correct pi addr n c i pid p s x T l :
  kctx c i pid -> cx_procs c !! i = Some p -> p_killed p = 0 -> uspace (p_pagetable p) s T l ->
  k_pipes s !! pi = Some x -> pipe_wf x -> lock_free (pi_lock x) -> pi_readopen x = true ->
  0 <= addr -> 0 <= n -> addr + n < 2 ^ 64 -> pcount x + n <= PIPESIZE ->
  exists k bs x' c', pipewrite pi addr n (c, s) = Ret k (c', upd_pipe pi x' s) /\ kctx c' i pid /\
    0 <= k <= n /\ Z.of_nat (length bs) = k /\ ubytes (k_mem (kk s)) T addr bs /\
    (k = n \/ umem s T (addr + k) = None) /\ pipe_wf x' /\ pqueue x' = pqueue x ++ bs /\ same_ends x x'.
Proof. apply pipewrite_run. Qed.

(** C16: piperead() takes from the front of the queue.  When the pipe holds data
    or has no writer, it delivers the first min(n, available) bytes, in
    order, to the user's buffer and to no other address, and leaves the rest.
    Only when an address of the buffer is not mapped does it stop short, and
    then the byte it failed to deliver is gone from the queue. *)
Theorem piperead_correct pi addr n c i pid p s x T l :
  kctx c i pid -> cx_procs c !! i = Some p -> uspace (p_pagetable p) s T l ->
  k_pipes s !! pi = Some x -> pipe_wf x -> lock_free (pi_lock x) -> Forall is_byte (pqueue x) ->
  pqueue x <> [] \/ pi_writeopen x = false -> 0 <= addr -> 0 <= n -> addr + n < 2 ^ 64 ->
  exists k m x' s' c', piperead pi addr n (c, s) = Ret k (c', upd_pipe pi x' s') /\ kctx c' i pid /\
    s' = set_kk (kk s') s /\ pipe_wf x' /\ same_ends x x' /\ 0 <= k <= n /\
    pqueue x' = drop m (pqueue x) /\ (m <= length (pqueue x))%nat /\
    ((Z.of_nat m = Z.min n (Z.of_nat (length (pqueue x))) /\ k = Z.of_nat m /\
      forall va, 0 <= va -> umem s' T va = ustored addr (take m (pqueue x)) va (umem s T va)) \/
     (k = Z.of_nat m - 1 /\ k < n /\ umem s T (addr + k) = None)).
Proof. apply piperead_run. Qed.

End Loops.

(** ** A concrete pipe, its counters about to wrap *)

Definition ctx_u : ctx := set_proc 0 (set_p_pagetable (pg 8) (runner 1)) ctx3.
Definition pipe_u : pipe := Pipe lk0 (replicate (Z.to_nat PIPESIZE) 65) (2 ^ 32 - 2) 1 true true.
Definition kern_u : kern := upd_pipe 4096 pipe_u (set_kk vm_s1 kern0).

Lemma kctx_u : kctx ctx_u 0 1.
Proof.
  split; [|done|simpl; lia]. split; [split; simpl; [lia|done]|done|by eexists|done|].
  apply Forall_insert; [apply procs3_free|done].
Qed.

Lemma pipe_u_wf : pipe_wf pipe_u.
Proof. split; [apply length_replicate|simpl; lia|simpl; lia|vm_compute; discriminate]. Qed.

Lemma pipe_u_queue : pqueue pipe_u = [65; 65; 65].
Proof. vm_compute. reflexivity. Qed.

Lemma kern_u_space : @uspace vm_layout (pg 8) kern_u vm_T1 vm_l1.
Proof. split; [exact vm_vinv1|exact vm_user1]. Qed.

Lemma pipewrite_correct_witness : exists k x' c',
  pipewrite 4096 100 3 (ctx_u, kern_u) = Ret k (c', upd_pipe 4096 x' kern_u) /\ take 3 (pqueue x') = [65; 65; 65].
Proof.
  destruct (@pipewrite_correct vm_layout vm_layout_ok 4096 100 3 ctx_u 0 1 (set_p_pagetable (pg 8) (runner 1)) kern_u pipe_u vm_T1 vm_l1
    kctx_u eq_refl eq_refl kern_u_space (upd_pipe_get _ _ _) pipe_u_wf) as (k & bs & x' & c' & R & _ & _ & _ & _ & _ & _ & Q & _);
    [done|done|lia|lia|lia|vm_compute; discriminate|].
  exists k, x', c'. split; [exact R|]. by rewrite Q, pipe_u_queue.
Defined.

Lemma piperead_correct_witness : exists k x' s' c',
  piperead 4096 100 2 (ctx_u, kern_u) = Ret k (c', upd_pipe 4096 x' s') /\
  (umem kern_u vm_T1 100 <> None -> umem kern_u vm_T1 101 <> None -> k = 2 /\ umem s' vm_T1 101 = Some 65).
Proof.
  destruct (@piperead_correct vm_layout vm_layout_ok 4096 100 2 ctx_u 0 1 (set_p_pagetable (pg 8) (runner 1)) kern_u pipe_u vm_T1 vm_l1
    kctx_u eq_refl kern_u_space (upd_pipe_get _ _ _) pipe_u_wf) as (k & m & x' & s' & c' & R & _ & _ & _ & _ & Hk & _ & _ & H);
    [done|rewrite pipe_u_queue; by apply bytes_ok|left; by rewrite pipe_u_queue|lia|lia|lia|].
  exists k, x', s', c'. split; [exact R|]. intros H0 H1. rewrite pipe_u_queue in H. cbn [length] in H.
  destruct H as [(E1 & E2 & M)|(E1 & E2 & E3)].
  - assert (m = 2%nat) as -> by lia. split; [lia|]. rewrite M by lia. reflexivity.
  - exfalso. assert (addr : 100 + k = 100 \/ 100 + k = 101) by lia.
    destruct addr as [Ea|Ea]; rewrite Ea in E3; [exact (H0 E3)|exact (H1 E3)].
Defined.
