(* ===== verification/ReadSpec.v ===== *)
(** * Reading files into memory (kernel/fs.c, readi())

    readi() to each of its destinations: the memory of the calling process
    through its page table (user_dst = 1), physical memory, and an array of the
    kernel's.  The file may lie in several blocks, direct and indirect, and the
    process may sleep between them; that it still has the same page table
    afterwards is [Own]. *)

From stdpp Require Import base numbers list list_numbers gmap strings sets fin_sets.
From Stdlib Require Import ZArith Lia.
From S2P Require Import Prelude.
From S2P Require Import Machine.
From S2P Require Import Spinlock.
From S2P Require Import Mem.
From S2P Require Import Kalloc.
From S2P Require Import Vm.
From S2P Require Import VmSpec.
From S2P Require Import Uvm.
From S2P Require Import Kern.
From S2P Require Import Sched.
From S2P Require Import SleepLk.
From S2P Require Import Bio.
From S2P Require Import Log.
From S2P Require Import LogSpec.
From S2P Require Import LogOps.
From S2P Require Import UserMem.
From S2P Require Import Fs.
From S2P Require Import FsSpec.
From S2P Require Import Own.
From S2P Require Import FsOps.
From S2P Require Import PipeSpec.

Local Open Scope Z_scope.

(** ** Memory *)

Lemma store_bytes_app (m : mem) a b1 b2 : store_bytes (store_bytes m a b1) (a + Z.of_nat (length b1)) b2 = store_bytes m a (b1 ++ b2).
Proof.
  revert m a. induction b1 as [|x b1 IH]; intros m a; cbn [app length store_bytes]; [by rewrite Z.add_0_r|].
  rewrite <- IH. f_equal. lia.
Qed.

Lemma kmem_ret {A} (m : K kst A) c s a c' k' : m (c, kk s) = Ret a (c', k') -> kmem m (c, s) = Ret a (c', set_kk k' s).
Proof. intros H. unfold kmem. by rewrite (zoom_ret kk_l m c s (kk s) a c' k'). Qed.

Lemma bio_ok_kk pid s V X L k : bio_ok pid s V X L -> bio_ok pid (set_kk k s) V X L.
Proof. by intros []. Qed.

Lemma bd_frame_kk s s' : bd_frame s s' -> kk s' = kk s.
Proof. by intros ->. Qed.

Lemma bd_frame_set_kk k s s' : bd_frame s s' -> bd_frame (set_kk k s) (set_kk k s').
Proof. by intros ->. Qed.

Section Deliver.
Context {LY : Layout} {LO : LayoutOk} (root : Z) (T : ptree) (l : list Z) (i : nat) (pid : Z).

(** User memory changed only in pages of this process. *)
Definition user_only (k0 k : kst) : Prop :=
  vinv root k T l /\ tree_same T (k_mem k0) (k_mem k) /\
  forall x, off_user (k_mem k0) T x -> bget (k_mem k) x = bget (k_mem k0) x.

(** [bs] has been delivered to [d0] since [k0]: where the next byte goes, and
    the memory. *)
Definition delivered (d0 : kdst) (k0 : kst) (bs : list Z) (d : kdst) (k : kst) : Prop :=
  match d0 with
  | DLocal b0 => d = DLocal (b0 ++ bs) /\ k = k0
  | DPhys pa => d = DPhys (pa + Z.of_nat (length bs)) /\ k = with_mem k0 (store_bytes (k_mem k0) pa bs)
  | DUser va => d = DUser (va + Z.of_nat (length bs)) /\ user_only k0 k /\
      forall va', 0 <= va' -> uread (k_mem k) T va' = ustored va bs va' (uread (k_mem k0) T va')
  end.

(** What the caller of readi() provides for a destination of [n] bytes. *)
Definition dst_ok (d : kdst) (k : kst) (n : Z) : Prop :=
  match d with
  | DLocal _ => True
  | DPhys pa => 0 <= pa /\ pa + n < 2 ^ 64
  | DUser va => 0 <= va /\ va + n < 2 ^ 64 /\ vinv root k T l /\ user_ok (k_mem k) T l
  end.

Definition is_user (d : kdst) : bool := match d with DUser _ => true | _ => false end.

(** A copy that failed: the buffer has a byte that is not mapped. *)
Definition undelivered (d0 : kdst) (k0 : kst) (n : Z) (k : kst) : Prop :=
  exists va va', d0 = DUser va /\ va <= va' < va + n /\ uread (k_mem k0) T va' = None /\ user_only k0 k.

Lemma user_only_trans k0 k1 k2 : user_only k0 k1 -> user_only k1 k2 -> user_only k0 k2.
Proof.
  intros (V1 & S1 & O1) (V2 & S2 & O2). split_and!; [done|by eapply tree_same_trans|]. intros x Hx. rewrite O2, O1; [done|done|].
  intros va p. rewrite (tree_same_upage T (k_mem k0)) by done. apply Hx.
Qed.

Lemma ustored_above va bs va' o : va + Z.of_nat (length bs) <= va' -> ustored va bs va' o = o.
Proof. intros H. unfold ustored. destruct (Z.leb_spec va va'), (Z.ltb_spec va' (va + Z.of_nat (length bs))); simpl; done || lia. Qed.

Lemma delivered_nil d0 k0 n : dst_ok d0 k0 n -> delivered d0 k0 [] d0 k0.
Proof.
  destruct d0; simpl; [|intros _; rewrite Z.add_0_r; by destruct k0|intros _; by rewrite app_nil_r].
  intros (_ & _ & V & _). rewrite Z.add_0_r. split_and!; [done|by split_and!|]. intros. by rewrite ustored_nil.
Qed.

(** either_copyout() of the next bytes. *)
Lemma deliver_step d0 k0 n bs src d c s :
  dst_ok d0 k0 n -> Z.of_nat (length bs) + Z.of_nat (length src) <= n -> delivered d0 k0 bs d (kk s) -> kctx c i pid ->
  (is_user d0 = true -> p_pagetable <$> cx_procs c !! i = Some root /\ Forall is_byte src) ->
  exists d' r k', either_copyout d src (c, s) = Ret (d', r) (settled c, set_kk k' s) /\
    ((r = 0 /\ delivered d0 k0 (bs ++ src) (dst_add d' (Z.of_nat (length src))) k') \/
     (r = -1 /\ undelivered d0 k0 n k')).
Proof.
  intros Hd Hn HD Hc Hpt. unfold either_copyout. rewrite (bind_ret _ _ _ _ _ (myproc_run (c, s) (co_cpu _ _ _ (kc_ok _ _ _ Hc)))).
  change (upd_cpu settle (c, s)) with (settled c, s). change (c_proc (hart (c, s))) with (c_proc (cx_cpu c)).
  rewrite (co_proc _ _ _ (kc_ok _ _ _ Hc)). destruct d0 as [va|pa|b0]; simpl in Hd, HD, Hpt.
  - destruct HD as (-> & HU & HL). destruct Hd as (Hva & H64 & V0 & U0). pose proof HU as (V & ST & _).
    destruct (Hpt eq_refl) as [Hpr Hb]. apply fmap_Some in Hpr as (p & Hp & Er). rewrite (bind_ret _ _ _ _ _ (pget_run (settled c) s i p Hp)), <- Er.
    destruct (copyout_loop_run (S (length src)) root T (va + Z.of_nat (length bs)) src (settled c) (kk s) l V
      (tree_same_user _ _ _ _ ST U0) ltac:(lia) Hb ltac:(lia)) as (r & k' & R & V' & S' & O' & Hr).
    fold (copyout root (va + Z.of_nat (length bs)) src) in R. rewrite (bind_ret _ _ _ _ _ (kmem_ret _ _ _ _ _ _ R)).
    assert (HU' : user_only k0 k') by (eapply user_only_trans; [exact HU|by split_and!]). eexists _, r, k'. split; [reflexivity|]. destruct Hr as [(-> & L)|(-> & va' & Hv & Hnone)].
    + left. split; [done|]. cbn [delivered dst_add]. rewrite length_app, Nat2Z.inj_add, Z.add_assoc. rewrite u64_small by lia. split_and!; [done|apply HU'..|].
      intros va' Hva'. by rewrite L, HL, ustored_app.
    + right. split; [done|]. exists va, va'. split_and!; [done|lia|lia| |done..]. rewrite HL, ustored_above in Hnone by lia. done.
  - destruct HD as [-> Hk]. destruct Hd as [Hpa H64]. eexists _, 0, _. split.
    { rewrite (bind_ret _ _ _ _ _ (kmem_ret (modify _) (settled c) s tt (settled c) _ eq_refl)). reflexivity. }
    left. split; [done|]. cbn [delivered dst_add]. rewrite length_app, Nat2Z.inj_add, u64_small by lia. split; [f_equal; lia|].
    rewrite Hk. unfold upd_mem, with_mem. simpl. by rewrite store_bytes_app.
  - destruct HD as [-> Hk]. eexists _, 0, (kk s). split; [by destruct s|]. left. split; [done|]. cbn [delivered dst_add]. by rewrite app_assoc.
Qed.

End Deliver.

(** ** The blocks of the file *)

Section Read.
Context {LY : Layout} {LO : LayoutOk} {BD : BlockDev} {BO : BlockDevOk BD} {BW : BlockDevOwn BD}.
Context (root : Z) (T : ptree) (l : list Z) (i : nat) (pid : Z).

Lemma wp_own {A} (m : K kern A) (Q : A -> ctx * kern -> Prop) w :
  keeps i m -> wp bd_env m (fun a w' => own i w w' -> Q a w') w -> wp bd_env m Q w.
Proof.
  intros Hm H. eapply wp_mono; [apply (wp_keeps i _ _ _ _ (bd_own_rely i) Hm H)|]. cbn beta. intros a w' [HQ Ho]. by apply HQ.
Qed.

Lemma bread_own s V X bno c (A : Type) (body : nat -> K kern A) (Q : A -> ctx * kern -> Prop) :
  bio_ok pid s V X ∅ -> kctx c i pid -> (size X < Z.to_nat NBUF)%nat ->
  (forall b bf c' s', kctx c' i pid -> own i (c, s) (c', s') -> bd_frame s s' -> k_disk s' = k_disk s -> bufs s' !! b = Some bf ->
     b_data bf = V bno -> length (V bno) = Z.to_nat BSIZE -> bio_ok pid s' V X {[b := bno]} -> wp bd_env (body b) Q (c', s')) ->
  wp bd_env (b ← bread ROOTDEV bno; body b) Q (c, s).
Proof.
  intros B Hc Hs HQ. apply wp_bind, wp_own; [apply keeps_bread|]. apply (bread_wp pid s V X ∅ bno c i _ B Hc); [by intros j|right; rewrite map_size_empty; lia|].
  intros b bf c1 Hc1 _ [z Hz] Hok s1 B1 Ho. apply (HQ b bf); [done|done|apply bd_frame_bufs|done|by eapply bufs_insert_eq|apply Hok| |done].
  destruct Hok as (_ & Hl & _ & _ & _ & Hd & _). by rewrite <- Hd.
Qed.

Lemma brelse_own s V X b bno c (A : Type) (k : unit -> K kern A) (Q : A -> ctx * kern -> Prop) :
  bio_ok pid s V X {[b := bno]} -> kctx c i pid -> bno ∈ X \/ V bno = disk_get (k_disk s) bno ->
  (forall c' s', kctx c' i pid -> own i (c, s) (c', s') -> bd_frame s s' -> k_disk s' = k_disk s -> bio_ok pid s' V X ∅ -> wp bd_env (k tt) Q (c', s')) ->
  wp bd_env (brelse b ≫= k) Q (c, s).
Proof.
  intros B Hc Hd HQ. destruct (brelse_run pid s V X _ b bno c i B Hc ltac:(apply lookup_insert_eq) Hd) as (c' & bc & R & Hc' & B').
  eapply wp_step; [exact R|]. rewrite delete_singleton_eq in B'.
  apply HQ; [done|exact (keeps_run i _ _ _ _ (keeps_brelse i b) R)|apply bd_frame_bc|done|done].
Qed.

(** How the loop ends, with [bs] the bytes of the request and [n] their number. *)
Definition loop_end (d0 : kdst) (k0 : kst) (bs : list Z) (n : Z) (d : kdst) (r : Z) (k : kst) : Prop :=
  (r = n /\ delivered root T l d0 k0 bs d k) \/ (r = -1 /\ undelivered root T l d0 k0 n k).

Lemma readi_loop_any V X ip x d0 k0 n fuel : dst_ok root T l d0 k0 n -> forall s c bs d off tot (Q : kdst * Z -> ctx * kern -> Prop),
  bio_ok pid s V X ∅ -> kctx c i pid -> (size X < Z.to_nat NBUF)%nat ->
  inodes s !! ip = Some x -> i_dev x = ROOTDEV -> 0 <= off -> 0 <= tot <= n -> off + (n - tot) < 2 ^ 32 ->
  range_mapped V x off (n - tot) -> n - tot < Z.of_nat fuel ->
  Z.of_nat (length bs) = tot -> delivered root T l d0 k0 bs d (kk s) ->
  (is_user d0 = true -> p_pagetable <$> cx_procs c !! i = Some root /\ Forall is_byte (fdata V x off (n - tot))) ->
  (forall c' s' d' r, kctx c' i pid -> bd_frame (set_kk (kk s') s) s' -> k_disk s' = k_disk s -> bio_ok pid s' V X ∅ ->
     loop_end d0 k0 (bs ++ fdata V x off (n - tot)) n d' r (kk s') -> Q (d', r) (c', s')) ->
  wp bd_env (readi_loop fuel ip d off n tot) Q (c, s).
Proof.
  intros Hd0. induction fuel as [|fuel IH]; intros s c bs d off tot Q B Hc Hs Hx Hdev Hoff Htot H32 Hmap Hf Hbs HD Hu HQ; [lia|].
  cbn [readi_loop]. destruct (Z.ltb_spec tot n) as [Hlt|Hge]; cbn [negb]; cycle 1.
  { apply wp_ret. replace tot with n in * by lia. rewrite Z.sub_diag, fdata_nil, app_nil_r in HQ. apply HQ; [done|by destruct s|done|done|by left]. }
  eapply wp_step; [by apply ld_inode_run|]. apply wp_bind, wp_own; [apply keeps_bmap|]. apply (bmap_mapped pid s V X ip x (off / BSIZE) c i); [done..| |].
  { apply Hmap. lia. }
  intros c1 s1 Hc1 F1 D1 B1 O1. rewrite Hdev. apply (bread_own s1 V X); [done..|].
  intros b bf c2 s2 Hc2 O2 F2 D2 Hb Hd Hlen B2. cbv zeta.
  set (m := Z.min (n - tot) (BSIZE - off `mod` BSIZE)). destruct (chunk_bounds off (n - tot) m Hoff ltac:(lia) eq_refl) as [Hm Hmb].
  eapply wp_step; [by apply ld_buf_run|]. rewrite Hd, (fdata_slice V x off m) by (done || lia).
  assert (Ek : kk s2 = kk s) by (rewrite (bd_frame_kk _ _ F2); by apply bd_frame_kk).
  assert (Efd : fdata V x off (n - tot) = fdata V x off m ++ fdata V x (off + m) (n - (tot + m))) by (rewrite <- fdata_app by lia; f_equal; lia).
  rewrite Efd in Hu, HQ. assert (Hlm : Z.of_nat (length (fdata V x off m)) = m) by (rewrite length_fdata; lia).
  destruct (deliver_step root T l i pid d0 k0 n bs (fdata V x off m) d c2 s2 Hd0 ltac:(lia) ltac:(by rewrite Ek) Hc2) as (d' & r & k' & R & Hr).
  { intros Hus. destruct (Hu Hus) as [Hpt Hby]. apply Forall_app in Hby as [Hby _]. split; [|done]. rewrite <- Hpt. etransitivity; [exact O2|exact O1]. }
  eapply wp_step; [exact R|]. cbn [fst snd].
  assert (F : bd_frame (set_kk k' s) (set_kk k' s2)) by (apply bd_frame_set_kk; by eapply bd_frame_trans).
  destruct Hr as [(-> & HD')|(-> & HF)].
  - change (0 =? -1) with false. cbn match. apply (brelse_own (set_kk k' s2) V X b (blk V x (off / BSIZE)));
      [by apply bio_ok_kk|by apply kctx_settled|cbn; rewrite D2; by eapply bio_disk|].
    intros c4 s4 Hc4 O4 F4 D4 B4. rewrite u32_small by lia. rewrite Hlm in HD'.
    assert (E4 : kk s4 = k') by (by rewrite (bd_frame_kk _ _ F4)).
    assert (F' : bd_frame (set_kk k' s) s4) by (by eapply bd_frame_trans).
    apply (IH s4 c4 (bs ++ fdata V x off m)); [done..|rewrite (bd_frame_inodes _ _ F'); exact Hx|done|lia|lia|lia| |lia|rewrite length_app; lia|by rewrite E4| |].
    + replace (n - (tot + m)) with (n - tot - m) by lia. apply range_mapped_step; [lia|done].
    + intros Hus. destruct (Hu Hus) as [Hpt Hby]. apply Forall_app in Hby as [_ Hby]. split; [|done]. rewrite <- Hpt.
      etransitivity; [exact O4|]. etransitivity; [exact O2|exact O1].
    + intros c5 s5 d5 r5 Hc5 F5 D5 B5 HE. rewrite <- app_assoc in HE. apply HQ; [done| | |done|done].
      * eapply bd_frame_trans; [|exact F5]. apply (bd_frame_set_kk (kk s5)) in F'. exact F'.
      * rewrite D5, D4. cbn. congruence.
  - change (-1 =? -1) with true. cbn match. apply (brelse_own (set_kk k' s2) V X b (blk V x (off / BSIZE)));
      [by apply bio_ok_kk|by apply kctx_settled|cbn; rewrite D2; by eapply bio_disk|].
    intros c4 s4 Hc4 O4 F4 D4 B4. assert (E4 : kk s4 = k') by (by rewrite (bd_frame_kk _ _ F4)).
    apply wp_ret, HQ; [done|rewrite E4; by eapply bd_frame_trans|rewrite D4; cbn; congruence|done|]. right. by rewrite E4.
Qed.

(** C10: readi() delivers the file's contents.  For a file all of whose blocks
    are allocated, direct or through the indirect block, reading n bytes at off
    yields exactly the bytes of the file there, cut at its size, and nothing
    when off is past the end or off + n overflows.  They arrive one after
    another from the destination on: in the memory of the process through its
    page table, with every other user byte and every byte outside the
    process's pages as it was; in physical memory; or in the kernel's array;
    and the result is their number.  The result is -1 only for a user
    destination with an unmapped byte among those, and then too nothing outside
    the process's pages changes.  No block of the disk and no inode changes. *)
Theorem readi_correct V X ip x s c dst off n :
  let len := read_len (i_size x) off n in
  let bs := fdata V x off len in
  bio_ok pid s V X ∅ -> kctx c i pid -> (size X < Z.to_nat NBUF)%nat ->
  inodes s !! ip = Some x -> i_dev x = ROOTDEV -> uint off -> uint n -> 0 <= i_size x < 2 ^ 31 ->
  range_mapped V x 0 (i_size x) -> dst_ok root T l dst (kk s) len ->
  (is_user dst = true -> p_pagetable <$> cx_procs c !! i = Some root /\ Forall is_byte bs) ->
  wp bd_env (readi ip dst off n) (fun res w' =>
    let k' := kk (snd w') in
    ((snd res = len /\ delivered root T l dst (kk s) bs (fst res) k') \/
     (snd res = -1 /\ undelivered root T l dst (kk s) len k')) /\
    kctx (fst w') i pid /\ bd_frame (set_kk k' s) (snd w') /\ k_disk (snd w') = k_disk s /\ bio_ok pid (snd w') V X ∅) (c, s).
Proof.
  intros len bs B Hc Hs Hx Hdev Hoff Hn Hsz Hmap Hd Hu. unfold uint in *. unfold readi. eapply wp_step; [by apply ld_inode_run|].
  assert (H0 : len = 0 -> delivered root T l dst (kk s) bs dst (kk s)) by (intros E; unfold bs; rewrite E, fdata_nil; by eapply delivered_nil).
  unfold read_len in len. destruct (Z.ltb_spec (i_size x) off) as [Hso|Hso]; cbn [orb] in *.
  { apply wp_ret. split_and!; [left; split; [done|by apply H0]|done|by destruct s|done|done]. }
  destruct (Z.leb_spec (2 ^ 32) (off + n)) as [Hov|Hov].
  { assert (E : u32 (off + n) = off + n - 2 ^ 32) by (unfold u32; symmetry; apply (Z.mod_unique_pos _ _ 1); lia).
    rewrite E, (proj2 (Z.ltb_lt _ off)) by lia. apply wp_ret. split_and!; [left; split; [done|by apply H0]|done|by destruct s|done|done]. }
  rewrite (u32_small (off + n)), (proj2 (Z.ltb_ge _ off)) by lia. cbv zeta.
  assert (E : (if i_size x <? off + n then i_size x - off else n) = len) by (unfold len; destruct (Z.ltb_spec (i_size x) (off + n)); lia).
  assert (Hlen : 0 <= len <= n /\ off + len <= i_size x) by (unfold len; lia). clearbody len. rewrite E. apply wp_bind.
  apply (readi_loop_any V X ip x dst (kk s) len _ Hd s c [] dst off 0); [done..|lia|lia|lia| |lia|done|by eapply delivered_nil|by rewrite Z.sub_0_r|].
  { intros k Hk. apply Hmap. lia. }
  intros c1 s1 d1 r1 Hc1 F1 D1 B1 HE. apply wp_ret. rewrite Z.sub_0_r in HE. cbn [fst snd app] in *.
  split_and!; [|done..]. destruct HE as [(-> & HE)|(-> & HE)]; [left; rewrite i32_small by lia; done|right; done].
Qed.

End Read.

(** ** A concrete read

    500 bytes from offset 1000 of the file of [FsOps.file_inode], across the end of
    its first block, to address 100 of a process with one page. *)

#[local] Instance sync_own : BlockDevOwn sync_dev.
Proof.
  split; [done|]. intros i b write. unfold virtio_disk_rw, sync_dev, sync_rw, ld_buf. keep; by apply keeps_update, keep_inS.
Qed.

Definition text_disk : disk := Disk (fun b => if b =? 100 then replicate (Z.to_nat BSIZE) 65 else replicate (Z.to_nat BSIZE) 66) [].

Lemma text_disk_len b : length (disk_get text_disk b) = Z.to_nat BSIZE.
Proof. unfold disk_get, text_disk. cbn [dk_image dk_writes blocks_after]. case_match; apply length_replicate. Qed.

Lemma text_bytes : Forall is_byte (fdata (disk_get text_disk) file_inode 1000 500).
Proof.
  assert (H : forallb (fun b => (0 <=? b) && (b <? 256)) (fdata (disk_get text_disk) file_inode 1000 500) = true) by (by vm_compute).
  apply Forall_forall. intros b Hb. rewrite forallb_forall in H. apply list_elem_of_In in Hb. specialize (H b Hb). unfold is_byte. lia.
Qed.

Lemma buffer_mapped va : 100 <= va < 100 + 500 -> uread (k_mem vm_s1) vm_T1 va <> None.
Proof.
  intros Hva. assert (H : forallb (fun a => bool_decide (uread (k_mem vm_s1) vm_T1 a <> None)) (seqZ 100 500) = true) by (by vm_compute).
  rewrite forallb_forall in H. specialize (H va ltac:(apply list_elem_of_In, elem_of_seqZ; lia)). by apply bool_decide_eq_true in H.
Qed.

Lemma readi_correct_witness : exists s,
  wp solo (@readi sync_dev 3 (DUser 100) 1000 2000) (fun res w' =>
    snd res = 500 /\ uread (k_mem (kk (snd w'))) vm_T1 123 = Some 65 /\ uread (k_mem (kk (snd w'))) vm_T1 124 = Some 66) (ctx_u, s).
Proof.
  destruct (kern_on_bio text_disk (log30 (LOGSIZE + 1) 1 0) text_disk_len) as (bc & B).
  set (s := upd_inodes (insert 3%nat file_inode) (set_kk vm_s1 (set_k_bcache bc (kern_on text_disk (log30 (LOGSIZE + 1) 1 0))))).
  assert (B' : bio_ok 1 s (disk_get text_disk) ∅ ∅) by (destruct B; by split).
  exists s. eapply wp_mono.
  - apply (@readi_correct vm_layout vm_layout_ok sync_dev sync_ok sync_own (pg 8) vm_T1 vm_l1 0 1 (disk_get text_disk) ∅ 3 file_inode s ctx_u (DUser 100) 1000 2000 B' kctx_u);
      [rewrite size_empty; unfold NBUF, MAXOPBLOCKS; lia|reflexivity|done|unfold uint; lia|unfold uint; lia|cbn; lia|by apply file_mapped| |].
    + split_and!; [done|done|exact vm_vinv1|exact vm_user1].
    + intros _. split; [reflexivity|exact text_bytes].
  - cbn beta. intros res [c' s'] [[(E & HD)|(_ & va & va' & Eva & Hva & Hn & _)] _].
    2: { injection Eva as <-. destruct (buffer_mapped va' Hva Hn). }
    destruct HD as (_ & _ & HL).
    split_and!; [exact E|rewrite HL by lia; vm_compute; reflexivity|rewrite HL by lia; vm_compute; reflexivity].
Defined.
