(* ===== verification/ConsSpec.v ===== *)
(** * Console input (kernel/console.c)

    consoleintr() as a line editor: the input buffer, with its three
    free-running counters, holds the lines ready for consoleread() and the
    line being typed. *)

From stdpp Require Import base numbers list list_numbers gmap strings.
From Stdlib Require Import ZArith Lia.
From S2P Require Import Prelude.
From S2P Require Import Ring.
From S2P Require Import Machine.
From S2P Require Import Spinlock.
From S2P Require Import Mem.
From S2P Require Import Kalloc.
From S2P Require Import Vm.
From S2P Require Import Kern.
From S2P Require Import Sched.
From S2P Require Import SleepLk.
From S2P Require Import Bio.
From S2P Require Import LogSpec.
From S2P Require Import UserMem.
From S2P Require Import Uart.

Local Open Scope Z_scope.

(** ** The specification: a line editor *)

(** Erasing a character on the screen. *)
Definition erase : list Z := [8; 32; 8].

(** The ready input and the line being typed, after the user types [c]. *)
Definition edit (c : Z) (ready line : list Z) : list Z * list Z :=
  if c =? ctrl 85 then (ready, [])
  else if (c =? ctrl 72) || (c =? 127) then (ready, removelast line)
  else if negb (c =? 0) && (Z.of_nat (length (ready ++ line)) <? INPUT_BUF) then
    let c := if c =? 13 then 10 else c in
    let line := line ++ [c] in
    if (c =? 10) || (c =? ctrl 68) || (Z.of_nat (length (ready ++ line)) =? INPUT_BUF)
    then (ready ++ line, []) else (ready, line)
  else (ready, line).

(** What is sent to the terminal. *)
Definition echo (c : Z) (ready line : list Z) : list Z :=
  if c =? ctrl 85 then mjoin (replicate (length line) erase)
  else if (c =? ctrl 72) || (c =? 127) then (match line with [] => [] | _ => erase end)
  else if negb (c =? 0) && (Z.of_nat (length (ready ++ line)) <? INPUT_BUF) then [if c =? 13 then 10 else c]
  else [].

(** ** The buffer *)

Lemma cons_ring : 0 < INPUT_BUF < 2 ^ 32 /\ (INPUT_BUF | 2 ^ 32).
Proof. split; [done|]. by exists 33554432. Qed.

Definition ready (cn : cons) : list Z := rlist (2 ^ 32) INPUT_BUF (cn_buf cn) (cn_r cn) (cn_w cn).
Definition line (cn : cons) : list Z := rlist (2 ^ 32) INPUT_BUF (cn_buf cn) (cn_w cn) (cn_e cn).

Record cons_wf (cn : cons) : Prop := {
  cw_len : length (cn_buf cn) = Z.to_nat INPUT_BUF;
  cw_r : 0 <= cn_r cn < 2 ^ 32;
  cw_w : 0 <= cn_w cn < 2 ^ 32;
  cw_e : 0 <= cn_e cn < 2 ^ 32;
  cw_room : rcount (2 ^ 32) (cn_r cn) (cn_w cn) + rcount (2 ^ 32) (cn_w cn) (cn_e cn) <= INPUT_BUF;
  cw_line : 10 ∉ line cn
}.

Lemma cons_total cn : cons_wf cn ->
  rlist (2 ^ 32) INPUT_BUF (cn_buf cn) (cn_r cn) (cn_e cn) = ready cn ++ line cn /\
  rcount (2 ^ 32) (cn_r cn) (cn_e cn) = Z.of_nat (length (ready cn ++ line cn)).
Proof.
  intros [W1 W2 W3 W4 W5 W6]. destruct cons_ring as [HN HD].
  destruct (rlist_app _ _ HN HD (cn_buf cn) (cn_r cn) (cn_w cn) (cn_e cn)) as [E1 E2]; [change INPUT_BUF with 128 in W5; lia|].
  split; [done|]. unfold ready, line. rewrite <- E1, length_rlist. pose proof (rcount_range _ _ HN (cn_r cn) (cn_e cn)). lia.
Qed.

(** [cons.e--] *)
Lemma unpush_ok cn : cons_wf cn -> (cn_e cn =? cn_w cn) = bool_decide (line cn = []) /\
  (line cn <> [] -> let cn' := set_cn_e (u32 (cn_e cn - 1)) cn in
     cons_wf cn' /\ ready cn' = ready cn /\
     line cn = line cn' ++ [nth (Z.to_nat (u32 (cn_e cn - 1) `mod` INPUT_BUF)) (cn_buf cn) 0]).
Proof.
  intros [W1 W2 W3 W4 W5 W6]. destruct cons_ring as [HN HD].
  assert (E : (cn_e cn =? cn_w cn) = (rcount (2 ^ 32) (cn_w cn) (cn_e cn) =? 0)) by (rewrite Z.eqb_sym; by apply (rlist_empty _ _ HN)).
  pose proof (rcount_range _ _ HN (cn_w cn) (cn_e cn)) as Hr.
  assert (Hl : line cn = [] <-> rcount (2 ^ 32) (cn_w cn) (cn_e cn) = 0).
  { split; [|apply rlist_nil]. intros Hn. apply (f_equal length) in Hn. unfold line in Hn. rewrite length_rlist in Hn. simpl in Hn. lia. }
  split; [rewrite E; case_bool_decide as H; [by apply Z.eqb_eq, Hl|apply Z.eqb_neq; intros H'; by apply H, Hl]|].
  intros Hne cn'. assert (Hpos : 0 < rcount (2 ^ 32) (cn_w cn) (cn_e cn)) by (destruct (decide (rcount (2 ^ 32) (cn_w cn) (cn_e cn) = 0)) as [H0|]; [by destruct Hne; apply Hl|lia]).
  assert (Hu : line cn = line cn' ++ [nth (Z.to_nat (u32 (cn_e cn - 1) `mod` INPUT_BUF)) (cn_buf cn) 0]) by (by apply (rlist_unpush _ _ HN HD)).
  split_and!; [split; try done|done|done].
  - apply u32_range.
  - pose proof (rcount_unpush _ _ HN (cn_w cn) (cn_e cn) Hpos) as Ec. unfold cn'. cbn [cn_r cn_w cn_e set_cn_e]. unfold u32. lia.
  - rewrite Hu in W6. intros Hin. apply W6. set_solver.
Qed.

(** [cons.buf[cons.e++ % INPUT_BUF] = c] *)
Definition cpush (c : Z) (cn : cons) : cons :=
  set_cn_e (u32 (cn_e cn + 1)) (set_cn_buf (<[Z.to_nat (cn_e cn `mod` INPUT_BUF) := c]> (cn_buf cn)) cn).

Lemma cpush_lists c cn : cons_wf cn -> Z.of_nat (length (ready cn ++ line cn)) < INPUT_BUF ->
  ready (cpush c cn) = ready cn /\ line (cpush c cn) = line cn ++ [c] /\
  length (cn_buf (cpush c cn)) = Z.to_nat INPUT_BUF /\
  rcount (2 ^ 32) (cn_r cn) (cn_w cn) + rcount (2 ^ 32) (cn_w cn) (cn_e (cpush c cn)) <= INPUT_BUF.
Proof.
  intros W Hlen. pose proof W as [W1 W2 W3 W4 W5 W6]. destruct cons_ring as [HN HD]. destruct (cons_total cn W) as [E1 E2].
  rewrite <- E2 in Hlen. set (b := cn_buf cn) in *. set (r := cn_r cn) in *. set (w := cn_w cn) in *. set (e := cn_e cn) in *.
  pose proof (rcount_range _ _ HN r w) as R1. pose proof (rcount_range _ _ HN w e) as R2.
  destruct (rlist_app _ _ HN HD b r w e) as [_ Ec]; [change INPUT_BUF with 128 in W5; lia|]. change INPUT_BUF with 128 in Hlen, W5, W1.
  assert (L : line (cpush c cn) = line cn ++ [c]) by (apply (rlist_push _ _ HN HD b w e c); change INPUT_BUF with 128; [done|lia]).
  pose proof (rcount_push _ _ HN w e ltac:(lia)) as Ep.
  assert (Hb' : length (<[Z.to_nat (e `mod` INPUT_BUF) := c]> b) = Z.to_nat 128) by (by rewrite length_insert).
  split_and!; [|done|done|unfold cpush; cbn [cn_e set_cn_e]; change INPUT_BUF with 128; unfold u32; fold e; lia].
  pose proof (rlist_push _ _ HN HD b r e c ltac:(done) ltac:(change INPUT_BUF with 128; lia)) as P.
  destruct (rlist_app _ _ HN HD (<[Z.to_nat (e `mod` INPUT_BUF) := c]> b) r w ((e + 1) `mod` 2 ^ 32)) as [A _]; [lia|].
  fold (ready cn) in E1. rewrite A, E1 in P. change (rlist (2 ^ 32) INPUT_BUF (<[Z.to_nat (e `mod` INPUT_BUF) := c]> b) w ((e + 1) `mod` 2 ^ 32)) with (line (cpush c cn)) in P.
  rewrite L, <- (app_assoc (ready cn)) in P. by apply app_inv_tail in P.
Qed.

(** Storing [c]: into the line, or with the line into the ready input. *)
Lemma cpush_wf c cn : cons_wf cn -> Z.of_nat (length (ready cn ++ line cn)) < INPUT_BUF -> c <> 10 -> cons_wf (cpush c cn).
Proof.
  intros W Hl Hc. destruct (cpush_lists c cn W Hl) as (E1 & E2 & E3 & E4). destruct W as [W1 W2 W3 W4 W5 W6].
  split; try done; [apply u32_range|]. rewrite E2. set_solver.
Qed.

Definition commit_line (cn : cons) : cons := set_cn_w (cn_e cn) cn.

Lemma cpush_commit c cn : cons_wf cn -> Z.of_nat (length (ready cn ++ line cn)) < INPUT_BUF ->
  let cn' := commit_line (cpush c cn) in cons_wf cn' /\ ready cn' = ready cn ++ line cn ++ [c] /\ line cn' = [].
Proof.
  intros W Hl cn'. destruct (cpush_lists c cn W Hl) as (E1 & E2 & E3 & E4). destruct W as [W1 W2 W3 W4 W5 W6].
  destruct cons_ring as [HN HD]. pose proof (rcount_self _ _ HN (cn_e (cpush c cn))) as Hz.
  assert (Hline : line cn' = []) by (by apply rlist_nil).
  change INPUT_BUF with 128 in E4.
  destruct (rlist_app _ _ HN HD (cn_buf (cpush c cn)) (cn_r cn) (cn_w cn) (cn_e (cpush c cn))) as [A B]; [lia|].
  assert (Hready : ready cn' = ready cn ++ line cn ++ [c]).
  { change (ready cn') with (rlist (2 ^ 32) INPUT_BUF (cn_buf (cpush c cn)) (cn_r cn) (cn_e (cpush c cn))). rewrite A.
    change (ready (cpush c cn) ++ line (cpush c cn) = ready cn ++ line cn ++ [c]). by rewrite E1, E2. }
  split_and!; [|done|done].
  split; try done; [apply u32_range|apply u32_range| |by rewrite Hline; set_solver].
  cbn [cn_r cn_w cn_e commit_line set_cn_w cn']. rewrite Hz. change (cn_r (cpush c cn)) with (cn_r cn). change INPUT_BUF with 128. lia.
Qed.

(** ** Output *)

Section Runs.
Context {IO : Mmio}.

(** The transmitter accepts a character whenever it is asked. *)
Definition tx_idle : Prop :=
  forall w, exists v, mmio_read (UART0 + LSR) w = Ret v w /\ Z.land v LSR_TX_IDLE <> 0.

Context (Hidle : tx_idle).

(** The characters [cs] sent to the UART. *)
Definition sent (cs : list Z) (s : kern) : kern := set_k_mmio (k_mmio s ++ ((fun c => (UART0 + THR, u8 c)) <$> cs)) s.

Lemma sent_app cs cs' s : sent cs' (sent cs s) = sent (cs ++ cs') s.
Proof. unfold sent. simpl. by rewrite fmap_app, app_assoc. Qed.

Lemma sent_nil s : sent [] s = s.
Proof. unfold sent. simpl. rewrite app_nil_r. by destruct s. Qed.

Lemma uartputc_sync_run ch c s :
  cpu_ok (cx_cpu c) -> (0 < cx_fuel c)%nat -> k_panicked s = false ->
  uartputc_sync ch (c, s) = Ret tt (settled c, sent [ch] s).
Proof.
  intros Hc Hf Hp. unfold uartputc_sync. rewrite (bind_ret _ _ _ _ _ (push_off_run (c, s))).
  change (upd_cpu push_cpu (c, s)) with (pushed c, s). rewrite (bind_ret _ _ _ false (pushed c, s)) by (unfold panicked, asks; by rewrite <- Hp).
  cbv iota. assert (Hw : while (lsr ← ReadReg LSR; mret (Z.land lsr LSR_TX_IDLE =? 0)) (mret tt) (pushed c, s) = Ret tt (pushed c, s)).
  { unfold while. cbn [fst pushed set_cx_cpu cx_fuel]. destruct (cx_fuel c) as [|n]; [lia|]. cbn [while_fuel]. unfold ReadReg.
    destruct (Hidle (Ctx (push_cpu (cx_cpu c)) (cx_procs c) (S n), s)) as (v & Hv & Hn).
    destruct (Hidle (pushed c, s)) as (v' & Hv' & Hn'). erewrite bind_ret; [|rewrite (bind_ret _ _ _ _ _ Hv'); reflexivity].
    by rewrite (proj2 (Z.eqb_neq _ _) Hn'). }
  rewrite (bind_ret _ _ _ _ _ Hw). rewrite (bind_ret _ _ _ tt (pushed c, sent [ch] s)) by done.
  rewrite pop_off_run; [|done|unfold hart; simpl; destruct Hc; lia]. unfold upd_cpu, settled. cbn [fst snd pushed set_cx_cpu cx_cpu].
  by rewrite pop_push_cpu.
Qed.

Lemma consputc_run ch c s :
  cpu_ok (cx_cpu c) -> (0 < cx_fuel c)%nat -> k_panicked s = false ->
  consputc ch (c, s) = Ret tt (settled c, sent (if ch =? BACKSPACE then erase else [ch]) s).
Proof.
  intros Hc Hf Hp. unfold consputc. destruct (ch =? BACKSPACE); [|by apply uartputc_sync_run].
  rewrite (bind_ret _ _ _ _ _ (uartputc_sync_run 8 c s Hc Hf Hp)).
  rewrite (bind_ret _ _ _ _ _ (uartputc_sync_run 32 (settled c) (sent [8] s) (settled_ok _ Hc) Hf Hp)), settled_idem.
  rewrite (uartputc_sync_run 8 (settled c) (sent [32] (sent [8] s)) (settled_ok _ Hc) Hf Hp), settled_idem, !sent_app. done.
Qed.

(** ** Input *)

Definition with_cons (cn : cons) (s : kern) : kern := set_k_cons cn s.

Lemma ld_cons_run c s : ld_cons (c, s) = Ret (k_cons s) (c, s).
Proof. done. Qed.

Lemma up_cons_run c s f : up_cons f (c, s) = Ret tt (c, with_cons (f (k_cons s)) s).
Proof. done. Qed.

Lemma kill_line_run c fuel : forall s,
  cpu_ok (cx_cpu c) -> (0 < cx_fuel c)%nat -> k_panicked s = false -> settled c = c -> cons_wf (k_cons s) ->
  (length (line (k_cons s)) < fuel)%nat ->
  exists cn', kill_line fuel (c, s) = Ret tt (c, with_cons cn' (sent (mjoin (replicate (length (line (k_cons s))) erase)) s)) /\
    cons_wf cn' /\ cn_lock cn' = cn_lock (k_cons s) /\ ready cn' = ready (k_cons s) /\ line cn' = [].
Proof.
  induction fuel as [|fuel IH]; intros s Hc Hf Hp Hset W Hl; [lia|].
  cbn [kill_line]. rewrite (bind_ret _ _ _ _ _ (ld_cons_run c s)). set (cn := k_cons s) in *.
  destruct (unpush_ok cn W) as [Ee Hu]. rewrite Ee. case_bool_decide as Hn; cbn [orb].
  { exists cn. rewrite Hn. simpl. rewrite sent_nil. split_and!; try done. unfold with_cons. by destruct s. }
  destruct (Hu Hn) as (W' & Er & El). set (cn1 := set_cn_e (u32 (cn_e cn - 1)) cn) in *.
  set (z := nth _ (cn_buf cn) 0) in *.
  assert (Hz : z <> 10) by (intros ->; apply (cw_line _ W); rewrite El; set_solver). rewrite (proj2 (Z.eqb_neq _ _) Hz).
  rewrite (bind_ret _ _ _ _ _ (up_cons_run c s _)). fold cn cn1.
  rewrite (bind_ret _ _ _ _ _ (consputc_run BACKSPACE c (with_cons cn1 s) Hc Hf Hp)). change (BACKSPACE =? BACKSPACE) with true. cbv iota. rewrite Hset.
  rewrite El in Hl |- *. rewrite length_app in Hl |- *. simpl in Hl.
  destruct (IH (sent erase (with_cons cn1 s)) Hc Hf Hp Hset W') as (cn' & R & W2 & L2 & R2 & E2); [simpl; lia|].
  change (k_cons (sent erase (with_cons cn1 s))) with cn1 in *. exists cn'. rewrite R. split_and!; try done; try (by rewrite R2).
  rewrite Nat.add_comm. cbn [length Nat.add replicate mjoin list_join]. f_equal. f_equal. unfold with_cons. rewrite <- (sent_app erase). done.
Qed.

Lemma cons_acquire c s :
  lock_free (cn_lock (k_cons s)) ->
  acquire cons_lk (c, s) = Ret tt (pushed c, with_cons (set_cn_lock (held (cn_lock (k_cons s)) (c_id (cx_cpu c))) (k_cons s)) s).
Proof. intros H. unfold cons_lk. by rewrite (acquire_S (comp k_cons_l cn_lock_l) c s (cn_lock (k_cons s)) eq_refl H). Qed.

Lemma cons_release c c1 s lk :
  cpu_ok (cx_cpu c) -> cx_cpu c1 = push_cpu (cx_cpu c) -> lock_free lk -> cn_lock (k_cons s) = held lk (c_id (cx_cpu c)) ->
  release cons_lk (c1, s) = Ret tt (set_cx_cpu (settle (cx_cpu c)) c1, with_cons (set_cn_lock lk (k_cons s)) s).
Proof.
  intros H1 H2 H3 H4. unfold cons_lk. rewrite (release_S (comp k_cons_l cn_lock_l) c c1 s lk H1 H2 H3); [done|].
  unfold comp. simpl. by rewrite H4.
Qed.

(** What the handler leaves between acquire() and release(). *)
Record edited (s : kern) (ch : Z) (cn' : cons) (s' : kern) : Prop := {
  ed_wf : cons_wf cn';
  ed_lock : cn_lock cn' = cn_lock (k_cons s);
  ed_text : (ready cn', line cn') = edit ch (ready (k_cons s)) (line (k_cons s));
  ed_state : s' = with_cons cn' (sent (echo ch (ready (k_cons s)) (line (k_cons s))) s)
}.

Section Body.
Context (c : ctx) (i : nat) (pid : Z) (s : kern) (ch : Z).
Context (Hc : kctx c i pid) (Hp : k_panicked s = false) (W : cons_wf (k_cons s)).
Let cn := k_cons s.

(** Characters other than the editing ones. *)
Lemma intr_char :
  0 < ch < 256 -> ch <> ctrl 85 -> ch <> ctrl 72 -> ch <> 127 ->
  exists c' cn' s', (cn ← ld_cons;
     if negb (ch =? 0) && (u32 (cn_e cn - cn_r cn) <? INPUT_BUF) then
       let c := if ch =? 13 then 10 else ch in
       consputc c ;;
       cn ← ld_cons;
       up_cons (set_cn_buf (<[Z.to_nat (cn_e cn `mod` INPUT_BUF) := u8 c]> (cn_buf cn))) ;;
       up_cons (set_cn_e (u32 (cn_e cn + 1))) ;;
       cn ← ld_cons;
       if (c =? 10) || (c =? ctrl 68) || (cn_e cn =? u32 (cn_r cn + INPUT_BUF)) then
         up_cons (set_cn_w (cn_e cn)) ;;
         wakeup ChConsR
       else mret tt
     else mret tt) (pushed c, s) = Ret tt (c', s') /\
   cx_cpu c' = push_cpu (cx_cpu c) /\ kctx (set_cx_cpu (settle (cx_cpu c)) c') i pid /\ edited s ch cn' s'.
Proof.
  intros Hch H1 H2 H3. pose proof (co_cpu _ _ _ (kc_ok _ _ _ Hc)) as Hcpu. pose proof (kctx_settled _ _ _ Hc) as Hcs.
  rewrite (bind_ret _ _ _ _ _ (ld_cons_run _ s)). fold cn. destruct (cons_total cn W) as [_ Et].
  change (u32 (cn_e cn - cn_r cn)) with (rcount (2 ^ 32) (cn_r cn) (cn_e cn)). rewrite Et, (proj2 (Z.eqb_neq ch 0)) by lia. cbn [negb andb].
  set (n := Z.of_nat (length (ready cn ++ line cn))) in *.
  destruct (n <? INPUT_BUF) eqn:En; cycle 1.
  { exists (pushed c), cn, s. split_and!; [done|done|done|].
    split; [done|done| |]; unfold edit, echo; fold cn n; rewrite !(proj2 (Z.eqb_neq ch _)) by (done || lia); rewrite En; cbn; [done|].
    rewrite sent_nil. unfold with_cons. by destruct s. }
  apply Z.ltb_lt in En as Hn. cbv zeta. set (ch' := if ch =? 13 then 10 else ch).
  assert (Hb : ch' <> BACKSPACE /\ u8 ch' = ch' /\ ch' <> 0).
  { unfold ch', BACKSPACE, u8. destruct (ch =? 13); [done|]. split_and!; [lia|apply Z.mod_small; lia|lia]. }
  destruct Hb as (Hb1 & Hb2 & _).
  rewrite (bind_ret _ _ _ _ _ (consputc_run ch' (pushed c) s (push_cpu_ok _ Hcpu) (kc_fuel _ _ _ Hc) Hp)), (proj2 (Z.eqb_neq _ _) Hb1), settled_pushed by done.
  rewrite (bind_ret _ _ _ _ _ (ld_cons_run _ _)), !(bind_ret _ _ _ _ _ (up_cons_run _ _ _)), (bind_ret _ _ _ _ _ (ld_cons_run _ _)), Hb2.
  change (k_cons (sent [ch'] s)) with cn. cbn [k_cons with_cons set_k_cons]. change (set_cn_e _ (set_cn_buf _ cn)) with (cpush ch' cn).
  destruct (cpush_lists ch' cn W Hn) as (E1 & E2 & E3 & E4). destruct cons_ring as [HN HD].
  assert (Efull : (cn_e (cpush ch' cn) =? u32 (cn_r (cpush ch' cn) + INPUT_BUF)) = (Z.of_nat (length (ready cn ++ line cn ++ [ch'])) =? INPUT_BUF)).
  { change (u32 (cn_r (cpush ch' cn) + INPUT_BUF)) with ((cn_r cn + INPUT_BUF) `mod` 2 ^ 32).
    rewrite (rlist_full _ _ HN) by apply u32_range. f_equal. unfold cpush. cbn [cn_e set_cn_e].
    change INPUT_BUF with 128 in Hn. unfold u32. rewrite (rcount_push _ _ HN) by (rewrite Et; lia). rewrite Et. unfold n. rewrite !length_app. simpl. lia. }
  rewrite Efull. destruct ((ch' =? 10) || (ch' =? ctrl 68) || (Z.of_nat (length (ready cn ++ line cn ++ [ch'])) =? INPUT_BUF)) eqn:Ecommit.
  - rewrite (bind_ret _ _ _ _ _ (up_cons_run _ _ _)).
    rewrite (wakeup_run ChConsR (pushed c) _ i pid (ctx_ok_pushed _ _ _ (kc_ok _ _ _ Hc))).
    destruct (cpush_commit ch' cn W Hn) as (Wc & Rc & Lc). exists (wake_ctx ChConsR (pushed c)), (commit_line (cpush ch' cn)). eexists.
    split_and!; [reflexivity|by apply wake_pushed|by apply (kctx_wake ChConsR c)|].
    split; [done|done| |]; unfold edit, echo; fold cn n; rewrite !(proj2 (Z.eqb_neq ch _)) by (done || lia); rewrite En; cbn [negb andb orb]; cbv zeta; fold ch'; [by rewrite Ecommit, Rc, Lc|done].
  - assert (Hnl : ch' <> 10) by (intros E; by rewrite E in Ecommit).
    exists (pushed c), (cpush ch' cn). eexists. split_and!; [reflexivity|done|done|].
    split; [by apply cpush_wf|done| |]; unfold edit, echo; fold cn n; rewrite !(proj2 (Z.eqb_neq ch _)) by (done || lia); rewrite En; cbn [negb andb orb]; cbv zeta; fold ch'; [by rewrite Ecommit, E1, E2|done].
Qed.

(** ^U: erase the line. *)
Lemma intr_kill :
  ch = ctrl 85 ->
  exists cn' s', (cn ← ld_cons; kill_line (S (Z.to_nat (u32 (cn_e cn - cn_w cn))))) (pushed c, s) = Ret tt (pushed c, s') /\ edited s ch cn' s'.
Proof.
  intros ->. pose proof (co_cpu _ _ _ (kc_ok _ _ _ Hc)) as Hcpu. rewrite (bind_ret _ _ _ _ _ (ld_cons_run _ s)). fold cn.
  assert (El : length (line cn) = Z.to_nat (u32 (cn_e cn - cn_w cn))) by apply length_rlist. rewrite <- El.
  destruct (kill_line_run (pushed c) (S (length (line cn))) s (push_cpu_ok _ Hcpu) (kc_fuel _ _ _ Hc) Hp (settled_pushed _ Hcpu) W) as (cn' & R & W' & L' & E1 & E2); [fold cn; lia|].
  exists cn'. eexists. split; [exact R|]. split; [done|done|by rewrite E1, E2|done].
Qed.

(** ^H and DEL: erase a character. *)
Lemma intr_erase :
  ch = ctrl 72 \/ ch = 127 ->
  exists cn' s', (cn ← ld_cons;
     if negb (cn_e cn =? cn_w cn) then
       up_cons (set_cn_e (u32 (cn_e cn - 1))) ;;
       consputc BACKSPACE
     else mret tt) (pushed c, s) = Ret tt (pushed c, s') /\ edited s ch cn' s'.
Proof.
  intros Hch. pose proof (co_cpu _ _ _ (kc_ok _ _ _ Hc)) as Hcpu. rewrite (bind_ret _ _ _ _ _ (ld_cons_run _ s)). fold cn.
  assert (Hedit : edit ch (ready cn) (line cn) = (ready cn, removelast (line cn)) /\ echo ch (ready cn) (line cn) = match line cn with [] => [] | _ => erase end)
    by (by destruct Hch as [->| ->]). destruct Hedit as [He1 He2].
  destruct (unpush_ok cn W) as [Ee Hu]. rewrite Ee. case_bool_decide as Hn; cbn [negb].
  - exists cn, s. split; [done|]. split; [done|done|fold cn; by rewrite He1, Hn|]. fold cn. rewrite He2, Hn, sent_nil. unfold with_cons. by destruct s.
  - destruct (Hu Hn) as (W' & Er & El). set (cn1 := set_cn_e (u32 (cn_e cn - 1)) cn) in *. exists cn1. eexists. split.
    + rewrite (bind_ret _ _ _ _ _ (up_cons_run _ _ _)). fold cn cn1.
      rewrite (consputc_run BACKSPACE (pushed c) (with_cons cn1 s) (push_cpu_ok _ Hcpu) (kc_fuel _ _ _ Hc) Hp), settled_pushed by done. reflexivity.
    + split; [done|done| |].
      * fold cn. rewrite He1, Er. f_equal. by rewrite El, removelast_last.
      * fold cn. rewrite He2. by destruct (line cn).
Qed.

End Body.

Lemma consoleintr_run c i pid s ch :
  kctx c i pid -> k_panicked s = false -> cons_wf (k_cons s) -> lock_free (cn_lock (k_cons s)) ->
  0 <= ch < 256 -> ch <> ctrl 80 ->
  exists c' cn', consoleintr ch (c, s) = Ret tt (c', with_cons cn' (sent (echo ch (ready (k_cons s)) (line (k_cons s))) s)) /\
    kctx c' i pid /\ cons_wf cn' /\ cn_lock cn' = cn_lock (k_cons s) /\
    (ready cn', line cn') = edit ch (ready (k_cons s)) (line (k_cons s)).
Proof.
  intros Hc Hp W Hf Hch H80. pose proof (co_cpu _ _ _ (kc_ok _ _ _ Hc)) as Hcpu. unfold consoleintr.
  rewrite (bind_ret _ _ _ _ _ (cons_acquire c s Hf)). set (lk := cn_lock (k_cons s)) in *. set (cn0 := set_cn_lock _ (k_cons s)). set (s0 := with_cons cn0 s).
  assert (W0 : cons_wf cn0) by (by destruct W). rewrite (proj2 (Z.eqb_neq ch (ctrl 80)) H80).
  match goal with |- context [mbind _ ?m (pushed c, s0)] =>
    assert (Hbody : exists c' cn' s', m (pushed c, s0) = Ret tt (c', s') /\ cx_cpu c' = push_cpu (cx_cpu c) /\
      kctx (set_cx_cpu (settle (cx_cpu c)) c') i pid /\ edited s0 ch cn' s')
  end; cycle 1.
  - destruct Hbody as (c' & cn' & s' & R & Hc' & Hk & [E1 E2 E3 ->]). rewrite (bind_ret _ _ _ _ _ R).
    rewrite (cons_release c c' _ lk Hcpu Hc' Hf) by (cbn; by rewrite E2).
    exists (set_cx_cpu (settle (cx_cpu c)) c'), (set_cn_lock lk cn'). split_and!; [done|done|by destruct E1|done|done].
  - pose proof (kctx_settled _ _ _ Hc) as Hcs. destruct (Z.eqb_spec ch (ctrl 85)) as [E85|N85].
    + destruct (intr_kill c i pid s0 ch Hc Hp W0 E85) as (cn' & s' & R & H). exists (pushed c), cn', s'. split_and!; [exact R|done|done|done].
    + destruct ((ch =? ctrl 72) || (ch =? 127)) eqn:E72.
      * destruct (intr_erase c i pid s0 ch Hc Hp W0) as (cn' & s' & R & H); [bool_to_prop; destruct E72 as [E|E]; apply Z.eqb_eq in E; auto|].
        exists (pushed c), cn', s'. split_and!; [exact R|done|done|done].
      * bool_to_prop. destruct (decide (ch = 0)) as [->|N0]; [|by apply (intr_char c i pid s0 ch Hc Hp W0); try done; lia].
        exists (pushed c), cn0, s0. split_and!; [done|done|done|]. split; [done|done|done|]. cbn. rewrite sent_nil. unfold with_cons. by destruct s.
Qed.

(** C37: consoleintr() is a line editor.  For every input character but ^P, the
    handler turns the ready input and the line being typed into what the
    editor specifies (^U erases the line, ^H and DEL a character, \r is taken
    as \n, and \n, ^D or a full buffer hand the line to readers), echoes
    exactly the specified characters, and keeps the buffer well-formed however
    often the counters have wrapped. *)
Theorem consoleintr_correct c i pid s ch :
  kctx c i pid -> k_panicked s = false -> cons_wf (k_cons s) -> lock_free (cn_lock (k_cons s)) ->
  0 <= ch < 256 -> ch <> ctrl 80 ->
  exists c' cn', consoleintr ch (c, s) = Ret tt (c', with_cons cn' (sent (echo ch (ready (k_cons s)) (line (k_cons s))) s)) /\
    kctx c' i pid /\ cons_wf cn' /\ cn_lock cn' = cn_lock (k_cons s) /\
    (ready cn', line cn') = edit ch (ready (k_cons s)) (line (k_cons s)).
Proof. apply consoleintr_run. Qed.

End Runs.

(** A UART that is always ready, and a console whose counters are about to
    wrap, on which the user types DEL. *)
Definition idle_uart : Mmio := {| mmio_read := fun _ => mret LSR_TX_IDLE |}.
Definition cons_u : cons := Cons lk0 (replicate (Z.to_nat INPUT_BUF) 97) (2 ^ 32 - 1) (2 ^ 32 - 1) 1.

Lemma cons_u_text : ready cons_u = [] /\ line cons_u = [97; 97].
Proof. vm_compute. done. Qed.

Lemma cons_u_wf : cons_wf cons_u.
Proof.
  split; [apply length_replicate|cbn; lia|cbn; lia|cbn; lia|vm_compute; discriminate|].
  rewrite (proj2 cons_u_text). set_solver.
Qed.

Lemma consoleintr_correct_witness : exists c' cn' out,
  @consoleintr idle_uart 127 (ctx3, set_k_cons cons_u kern0) = Ret tt (c', with_cons cn' (sent out (set_k_cons cons_u kern0))) /\
  ready cn' = [] /\ line cn' = [97] /\ out = [8; 32; 8].
Proof.
  destruct (@consoleintr_correct idle_uart ltac:(intros w; by exists LSR_TX_IDLE) ctx3 0 1 (set_k_cons cons_u kern0) 127 kctx3 eq_refl cons_u_wf) as (c' & cn' & R & _ & _ & _ & E);
    [done|lia|done|].
  change (k_cons (set_k_cons cons_u kern0)) with cons_u in R, E. destruct cons_u_text as [Hr Hl]. rewrite Hr, Hl in R, E.
  exists c', cn'. eexists. split; [exact R|]. vm_compute (edit _ _ _) in E. injection E as -> ->. exact (conj eq_refl (conj eq_refl eq_refl)).
Defined.
