(* ===== verification/PrintSpec.v ===== *)
(** * Printing numbers (kernel/printf.c)

    What printint() and printptr() send to the terminal denotes the number
    they were given. *)

From stdpp Require Import base numbers list list_numbers gmap strings.
From Stdlib Require Import ZArith Lia.
From S2P Require Import Prelude.
From S2P Require Import Machine.
From S2P Require Import Spinlock.
From S2P Require Import Kalloc.
From S2P Require Import Kern.
From S2P Require Import Sched.
From S2P Require Import SleepLk.
From S2P Require Import Bio.
From S2P Require Import Uart.
From S2P Require Import ConsSpec.

Local Open Scope Z_scope.

(** ** Reading numerals *)

(** The value of a digit character, if it is one in [base]. *)
Definition digit_value (base ch : Z) : option Z :=
  let v := if (48 <=? ch) && (ch <=? 57) then ch - 48 else if (97 <=? ch) && (ch <=? 102) then ch - 87 else base in
  if v <? base then Some v else None.

Fixpoint read_digits (base : Z) (cs : list Z) (acc : Z) : option Z :=
  match cs with
  | [] => Some acc
  | ch :: r => match digit_value base ch with Some v => read_digits base r (acc * base + v) | None => None end
  end.

(** A numeral: an optional minus sign and at least one digit. *)
Definition read_int (base : Z) (cs : list Z) : option Z :=
  match cs with
  | [] => None
  | ch :: ds =>
      if ch =? 45 then match ds with [] => None | _ => Z.opp <$> read_digits base ds 0 end
      else read_digits base cs 0
  end.

Lemma digit_value_digit base x : 0 <= x < base -> base <= 16 -> digit_value base (digit x) = Some x.
Proof.
  intros Hx Hb. unfold digit_value, digit. destruct (Z.ltb_spec x 10).
  - rewrite (proj2 (Z.leb_le 48 _)), (proj2 (Z.leb_le _ 57)) by lia. cbn [andb]. rewrite (proj2 (Z.ltb_lt _ base)) by lia. f_equal. lia.
  - rewrite (proj2 (Z.leb_gt _ 57)) by lia. rewrite andb_false_r, (proj2 (Z.leb_le 97 _)), (proj2 (Z.leb_le _ 102)) by lia. cbn [andb].
    rewrite (proj2 (Z.ltb_lt _ base)) by lia. f_equal. lia.
Qed.

(** The digits of [x] before those of the part already printed. *)
Lemma read_digits_of base fuel : forall x acc,
  2 <= base <= 16 -> 0 <= x < base ^ Z.of_nat fuel -> (0 < fuel)%nat ->
  exists k, digits_of fuel x base acc = k ++ acc /\ k <> [] /\ (forall r b, read_digits base (k ++ r) b = read_digits base r (b * base ^ Z.of_nat (length k) + x)).
Proof.
  induction fuel as [|fuel IH]; intros x acc Hb Hx Hf; [lia|]. cbn [digits_of]. set (d := digit (x `mod` base)).
  pose proof (Z.mod_pos_bound x base ltac:(lia)) as Hm. pose proof (Z.div_mod x base ltac:(lia)) as Hdm.
  assert (Hd : forall r b, read_digits base (d :: r) b = read_digits base r (b * base + x `mod` base))
    by (intros; cbn [read_digits]; unfold d; by rewrite digit_value_digit by lia).
  destruct (Z.eqb_spec (x / base) 0) as [E|E].
  - exists [d]. split_and!; [done|done|]. intros r b. simpl app. rewrite Hd. simpl length. change (Z.of_nat 1) with 1. rewrite Z.pow_1_r. f_equal. lia.
  - rewrite Nat2Z.inj_succ, Z.pow_succ_r in Hx by lia. assert (Hq : 0 <= x / base < base ^ Z.of_nat fuel).
    { split; [apply Z.div_pos; lia|apply Z.div_lt_upper_bound; lia]. }
    destruct fuel as [|fuel']; [simpl in Hq; lia|].
    destruct (IH (x / base) (d :: acc) Hb Hq ltac:(lia)) as (k & Hk & Hne & Hr).
    exists (k ++ [d]). split_and!; [by rewrite Hk, <- app_assoc|by destruct k|].
    intros r b. rewrite <- app_assoc. simpl app. rewrite Hr, Hd. f_equal. rewrite length_app. simpl length.
    rewrite Nat2Z.inj_add. change (Z.of_nat 1) with 1. rewrite Z.pow_add_r, Z.pow_1_r by lia. lia.
Qed.

Lemma digits_ok base x : 2 <= base <= 16 -> 0 <= x < 2 ^ 32 ->
  exists ch r, digits_of 32 x base [] = ch :: r /\ ch <> 45 /\ read_digits base (ch :: r) 0 = Some x.
Proof.
  intros Hb Hx. assert (Hp : 2 ^ 32 <= base ^ Z.of_nat 32) by (apply Z.pow_le_mono_l; lia).
  destruct (read_digits_of base 32 x [] Hb ltac:(lia) ltac:(lia)) as (k & Hk & Hne & Hr). rewrite app_nil_r in Hk.
  specialize (Hr [] 0). rewrite app_nil_r in Hr. cbn [read_digits] in Hr. destruct k as [|ch r]; [done|]. exists ch, r. rewrite Hk.
  split_and!; [done| |by rewrite Hr].
  intros ->. cbn [read_digits] in Hr. unfold digit_value in Hr. cbn in Hr. rewrite Z.ltb_irrefl in Hr. done.
Qed.

Lemma int_chars_value xx base (sign : bool) : 2 <= base <= 16 -> - 2 ^ 31 <= xx < 2 ^ 31 ->
  int_chars xx base sign <> [] /\ read_int base (int_chars xx base sign) = Some (if sign then xx else u32 xx).
Proof.
  intros Hb Hx. unfold int_chars. cbv zeta. destruct (sign && (xx <? 0)) eqn:En; bool_to_prop.
  - destruct sign; [|done]. rewrite u32_small by lia. destruct (digits_ok base (- xx) Hb ltac:(lia)) as (ch & r & -> & _ & Hr).
    split; [done|]. simpl app. unfold read_int. rewrite Z.eqb_refl, Hr. simpl. f_equal. lia.
  - destruct (digits_ok base (u32 xx) Hb (u32_range xx)) as (ch & r & -> & Hch & Hr). split; [done|]. simpl app. unfold read_int.
    rewrite (proj2 (Z.eqb_neq _ _) Hch), Hr. destruct sign; [|done]. f_equal. apply u32_small. destruct En as [|En]; [done|]. apply Z.ltb_ge in En. lia.
Qed.

(** ** Sending them *)

Section Out.
Context {IO : Mmio} (Hidle : tx_idle).

Lemma put_all_run cs c s :
  cpu_ok (cx_cpu c) -> (0 < cx_fuel c)%nat -> k_panicked s = false -> Forall (fun ch => ch <> BACKSPACE) cs -> settled c = c ->
  put_all cs (c, s) = Ret tt (c, sent cs s).
Proof.
  intros Hc Hf Hp Hb Hset. revert s Hp. induction Hb as [|ch cs Hch _ IH]; intros s Hp; [by rewrite sent_nil|].
  unfold put_all in *. cbn [for_each]. rewrite (bind_ret _ _ _ _ _ (consputc_run Hidle ch c s Hc Hf Hp)), (proj2 (Z.eqb_neq _ _) Hch), Hset.
  rewrite IH by done. by rewrite sent_app.
Qed.

Lemma digit_not_bs x : 0 <= x < 16 -> digit x <> BACKSPACE.
Proof. intros H. unfold digit, BACKSPACE. case_match; lia. Qed.

Lemma digits_not_bs base fuel : forall x acc, 2 <= base <= 16 -> Forall (fun ch => ch <> BACKSPACE) acc ->
  Forall (fun ch => ch <> BACKSPACE) (digits_of fuel x base acc).
Proof.
  induction fuel as [|fuel IH]; intros x acc Hb Ha; [done|]. cbn [digits_of].
  assert (Ha' : Forall (fun ch => ch <> BACKSPACE) (digit (x `mod` base) :: acc)).
  { constructor; [|done]. apply digit_not_bs. pose proof (Z.mod_pos_bound x base ltac:(lia)). lia. }
  case_match; [done|by apply IH].
Qed.

Lemma int_chars_not_bs xx base sign : 2 <= base <= 16 -> Forall (fun ch => ch <> BACKSPACE) (int_chars xx base sign).
Proof. intros Hb. unfold int_chars. cbv zeta. apply Forall_app. split; [case_match; repeat constructor; done|by apply digits_not_bs]. Qed.

(** printint() prints the number.  The characters it sends to the UART are
    a numeral in the given base that denotes xx, the most negative int
    included, or its unsigned reading when sign is 0; nothing else changes. *)
Theorem printint_correct xx base sign c s :
  cpu_ok (cx_cpu c) -> (0 < cx_fuel c)%nat -> k_panicked s = false -> settled c = c ->
  2 <= base <= 16 -> - 2 ^ 31 <= xx < 2 ^ 31 ->
  exists cs, printint xx base sign (c, s) = Ret tt (c, sent cs s) /\
    read_int base cs = Some (if sign then xx else u32 xx).
Proof.
  intros Hc Hf Hp Hset Hb Hx. exists (int_chars xx base sign). split; [|by apply int_chars_value].
  apply put_all_run; [done..|by apply int_chars_not_bs|done].
Qed.

End Out.

Lemma printint_correct_witness : exists cs,
  @printint idle_uart (- 2 ^ 31) 10 true (settled ctx3, kern0) = Ret tt (settled ctx3, sent cs kern0) /\ read_int 10 cs = Some (- 2 ^ 31).
Proof.
  apply (@printint_correct idle_uart ltac:(intros w; by exists LSR_TX_IDLE) (- 2 ^ 31) 10 true (settled ctx3) kern0);
    [split; simpl; [lia|done]|simpl; lia|done|apply settled_idem|lia|lia].
Defined.
