(* ===== verification/FileSpec.v ===== *)
(** * File descriptors and the file table (kernel/file.c, kernel/sysfile.c)

    Reference counts: the count of an open file is the number of descriptors
    that name it, in all processes, and dup() and close() keep it so. *)

From stdpp Require Import base numbers list list_numbers gmap strings.
From Stdlib Require Import ZArith Lia.
From S2P Require Import Prelude.
From S2P Require Import Machine.
From S2P Require Import Spinlock.
From S2P Require Import Mem.
From S2P Require Import Kalloc.
From S2P Require Import VmSpec.
From S2P Require Import Uvm.
From S2P Require Import Kern.
From S2P Require Import Sched.
From S2P Require Import SleepLk.
From S2P Require Import Bio.
From S2P Require Import LogSpec.
From S2P Require Import UserMem.
From S2P Require Import Vm.
From S2P Require Import Uart.
From S2P Require Import File.
From S2P Require Import Proc.
From S2P Require Import Sysfile.

Local Open Scope Z_scope.

Definition files (s : kern) : list file := ft_file (k_ftable s).
Definition upd_files (f : list file -> list file) (s : kern) : kern :=
  set_k_ftable (set_ft_file (f (files s)) (k_ftable s)) s.

(** ** Counting references *)

(** The descriptors of a process that name [f], and those of all. *)
Definition fd_count (f : nat) (l : list (option nat)) : nat := length (filter (fun o => o = Some f) l).
Definition frefs (c : ctx) (f : nat) : nat := sum_list_with (fun p => fd_count f (p_ofile p)) (cx_procs c).

Record refs_ok (c : ctx) (s : kern) : Prop := {
  ro_count : forall f x, files s !! f = Some x -> f_ref x = Z.of_nat (frefs c f);
  ro_dom : forall f, (0 < frefs c f)%nat -> is_Some (files s !! f);
  ro_len : forall j p, cx_procs c !! j = Some p -> length (p_ofile p) = Z.to_nat NOFILE
}.

Definition is_ref (o : option nat) (f : nat) : nat := if bool_decide (o = Some f) then 1 else 0.

Lemma fd_count_cons f o l : fd_count f (o :: l) = (is_ref o f + fd_count f l)%nat.
Proof. unfold fd_count, is_ref. rewrite filter_cons. case_bool_decide; case_decide; done. Qed.

Lemma fd_count_insert f l j o o' :
  l !! j = Some o -> (fd_count f (<[j := o']> l) + is_ref o f = fd_count f l + is_ref o' f)%nat.
Proof.
  revert j. induction l as [|y l IH]; intros [|j]; [done..| |].
  - intros [= ->]. change (<[0%nat := o']> (o :: l)) with (o' :: l). rewrite !fd_count_cons. lia.
  - intros Hj. change (<[S j := o']> (y :: l)) with (y :: <[j := o']> l). rewrite !fd_count_cons. specialize (IH j Hj). lia.
Qed.

Lemma sum_insert {A} (g : A -> nat) l j x x' :
  l !! j = Some x -> (sum_list_with g (<[j := x']> l) + g x = sum_list_with g l + g x')%nat.
Proof.
  revert j. induction l as [|y l IH]; intros [|j]; [done..| |].
  - intros [= ->]. simpl. lia.
  - intros Hj. change (<[S j := x']> (y :: l)) with (y :: <[j := x']> l). specialize (IH j Hj). simpl. lia.
Qed.

Definition set_fd (i : nat) (p : proc) (fd : nat) (o : option nat) (c : ctx) : ctx :=
  set_proc i (set_p_ofile (<[fd := o]> (p_ofile p)) p) c.

Lemma frefs_set_fd c i p fd o o' f :
  cx_procs c !! i = Some p -> p_ofile p !! fd = Some o ->
  (frefs (set_fd i p fd o' c) f + is_ref o f = frefs c f + is_ref o' f)%nat.
Proof.
  intros Hp Hfd. unfold frefs, set_fd, set_proc, set_cx_procs. cbn [cx_procs].
  pose proof (sum_insert (fun p => fd_count f (p_ofile p)) (cx_procs c) i p (set_p_ofile (<[fd := o']> (p_ofile p)) p) Hp) as H.
  pose proof (fd_count_insert f (p_ofile p) fd o o' Hfd) as H2. cbn [p_ofile set_p_ofile] in H. lia.
Qed.

Lemma frefs_pos c i p fd f : cx_procs c !! i = Some p -> p_ofile p !! fd = Some (Some f) -> (0 < frefs c f)%nat.
Proof.
  intros Hp Hfd. pose proof (frefs_set_fd c i p fd (Some f) None f Hp Hfd) as H. unfold is_ref in H.
  rewrite bool_decide_true, bool_decide_false in H by done. lia.
Qed.

Lemma frefs_settled c f : frefs (settled c) f = frefs c f.
Proof. done. Qed.

(** Redirecting a descriptor from [o] to [o'] moves one reference. *)
Lemma refs_ok_set c s i p fd o o' g :
  refs_ok c s -> cx_procs c !! i = Some p -> p_ofile p !! fd = Some o ->
  (forall f x, files s !! f = Some x -> exists x', g (files s) !! f = Some x' /\ f_ref x' + Z.of_nat (is_ref o f) = f_ref x + Z.of_nat (is_ref o' f)) ->
  length (g (files s)) = length (files s) -> (forall f, o' = Some f -> is_Some (files s !! f)) ->
  refs_ok (set_fd i p fd o' c) (upd_files g s).
Proof.
  intros [R1 R2 R3] Hp Hfd Hg Hlen Ho'. split.
  - intros f x' Hx'. change (files (upd_files g s)) with (g (files s)) in Hx'. pose proof (lookup_lt_Some _ _ _ Hx') as Hlt. rewrite Hlen in Hlt.
    destruct (lookup_lt_is_Some_2 _ _ Hlt) as [x Hx]. destruct (Hg f x Hx) as (y & Hy & E). rewrite Hy in Hx'. injection Hx' as ->.
    pose proof (frefs_set_fd c i p fd o o' f Hp Hfd). rewrite (R1 f x Hx) in E. lia.
  - intros f Hf. apply lookup_lt_is_Some. change (files (upd_files g s)) with (g (files s)). rewrite Hlen. apply lookup_lt_is_Some.
    pose proof (frefs_set_fd c i p fd o o' f Hp Hfd) as H. unfold is_ref in H at 2. case_bool_decide as E; [by apply Ho'|]. apply R2. lia.
  - intros j q Hq. cbn [set_fd set_proc set_cx_procs cx_procs] in Hq. apply list_lookup_insert_Some in Hq as [(-> & <- & _)|[_ Hq]]; [|by eapply R3].
    cbn [p_ofile set_p_ofile]. rewrite length_insert. by eapply R3.
Qed.

(** ** The operations *)

Lemma ld_file_run c s f x : files s !! f = Some x -> ld_file f (c, s) = Ret x (c, s).
Proof. intros H. by apply load_some. Qed.

Lemma up_file_run c s f x g : files s !! f = Some x -> up_file f g (c, s) = Ret tt (c, upd_files (insert f (g x)) s).
Proof. intros H. unfold up_file. by rewrite (update_some _ _ x). Qed.

Lemma ft_acquire c s :
  lock_free (ft_lock (k_ftable s)) ->
  acquire ft_lk (c, s) = Ret tt (pushed c, set_k_ftable (set_ft_lock (held (ft_lock (k_ftable s)) (c_id (cx_cpu c))) (k_ftable s)) s).
Proof. intros H. unfold ft_lk. by rewrite (acquire_S (comp k_ftable_l ft_lock_l) c s (ft_lock (k_ftable s)) eq_refl H). Qed.

Lemma ft_release c s lk :
  cpu_ok (cx_cpu c) -> lock_free lk -> ft_lock (k_ftable s) = held lk (c_id (cx_cpu c)) ->
  release ft_lk (pushed c, s) = Ret tt (settled c, set_k_ftable (set_ft_lock lk (k_ftable s)) s).
Proof.
  intros H1 H3 H4. unfold ft_lk. rewrite (release_S (comp k_ftable_l ft_lock_l) c (pushed c) s lk H1 eq_refl H3); [done|].
  unfold comp. simpl. by rewrite H4.
Qed.

Lemma upd_files_lock lk g s :
  let s1 := set_k_ftable (set_ft_lock lk (k_ftable s)) s in
  set_k_ftable (set_ft_lock (ft_lock (k_ftable s)) (k_ftable (upd_files g s1))) (upd_files g s1) = upd_files g s.
Proof. by destruct s as [? ? ? ? ? []]. Qed.

Lemma filedup_run c s f x :
  cpu_ok (cx_cpu c) -> lock_free (ft_lock (k_ftable s)) -> files s !! f = Some x -> 1 <= f_ref x ->
  filedup f (c, s) = Ret f (settled c, upd_files (insert f (set_f_ref (f_ref x + 1) x)) s).
Proof.
  intros Hc Hf Hx Hr. unfold filedup. rewrite (bind_ret _ _ _ _ _ (ft_acquire c s Hf)). set (s1 := set_k_ftable _ s).
  rewrite (bind_ret _ _ _ _ _ (ld_file_run _ s1 f x Hx)), (proj2 (Z.ltb_ge _ _) Hr).
  rewrite (bind_ret _ _ _ _ _ (up_file_run _ s1 f x _ Hx)).
  erewrite bind_ret; [|apply (ft_release c _ (ft_lock (k_ftable s))); done]. unfold s1. by rewrite upd_files_lock.
Qed.

(** Every other reference stays: fileclose() only counts down. *)
Lemma fileclose_shared {LY : Layout} {BD : BlockDev} c s f x :
  cpu_ok (cx_cpu c) -> lock_free (ft_lock (k_ftable s)) -> files s !! f = Some x -> 2 <= f_ref x ->
  fileclose f (c, s) = Ret tt (settled c, upd_files (insert f (set_f_ref (f_ref x - 1) x)) s).
Proof.
  intros Hc Hf Hx Hr. unfold fileclose. rewrite (bind_ret _ _ _ _ _ (ft_acquire c s Hf)). set (s1 := set_k_ftable _ s).
  rewrite (bind_ret _ _ _ _ _ (ld_file_run _ s1 f x Hx)), (proj2 (Z.ltb_ge _ 1)) by lia.
  rewrite (bind_ret _ _ _ _ _ (up_file_run _ s1 f x _ Hx)), (proj2 (Z.ltb_lt 0 _)) by lia.
  rewrite (ft_release c _ (ft_lock (k_ftable s))) by done. unfold s1. by rewrite upd_files_lock.
Qed.

Lemma free_fd_spec l : forall k,
  match free_fd l k with
  | Some fd => exists j, fd = (k + j)%nat /\ l !! j = Some None /\ forall i, (i < j)%nat -> exists f, l !! i = Some (Some f)
  | None => forall j o, l !! j = Some o -> o <> None
  end.
Proof.
  induction l as [|[f|] l IH]; intros k; cbn [free_fd]; [done| |].
  - specialize (IH (S k)). destruct (free_fd l (S k)) as [fd|].
    + destruct IH as (j & -> & Hj & Hlow). exists (S j). split_and!; [lia|done|]. intros [|i] Hi; [by exists f|]. apply Hlow. lia.
    + intros [|j] o; [by intros [= <-]|apply IH].
  - exists 0%nat. split_and!; [lia|done|lia].
Qed.

(** ** The system calls *)

(** Argument [n] of the system call, as an int. *)
Definition arg_int (p : proc) (s : kern) (n : Z) : Z := i32 (ld64 (k_mem (kk s)) (p_trapframe p + (TF_a0 + 8 * n))).

(** The file that descriptor [fd] names. *)
Definition fd_file (p : proc) (fd : Z) : option nat :=
  if (fd <? 0) || (NOFILE <=? fd) then None else default None (p_ofile p !! Z.to_nat fd).

Lemma curproc_settled {S} c (s : S) i pid : kctx c i pid -> curproc (c, s) = Ret i (settled c, s).
Proof. intros Hc. apply (curproc_run c s i pid), Hc. Qed.

Lemma argint_run c s i pid p n :
  kctx c i pid -> cx_procs c !! i = Some p -> p_trapframe p <> 0 -> 0 <= n <= 5 ->
  argint n (c, s) = Ret (arg_int p s n) (settled c, s).
Proof.
  intros Hc Hp Ht Hn. unfold argint, argraw. erewrite bind_ret; [reflexivity|].
  rewrite (bind_ret _ _ _ _ _ (curproc_settled c s i pid Hc)), (proj2 (Z.leb_le 0 n)), (proj2 (Z.leb_le n 5)) by lia. cbn [andb].
  unfold tf_get. rewrite (bind_ret _ _ _ _ _ (pget_run (settled c) s i p Hp)), (proj2 (Z.eqb_neq _ _) Ht).
  unfold kmem. rewrite (zoom_ret kk_l _ (settled c) s (kk s) (ld64 (k_mem (kk s)) (p_trapframe p + (TF_a0 + 8 * n))) (settled c) (kk s)) by done.
  by destruct s.
Qed.

Lemma argfd_run c s i pid p n :
  kctx c i pid -> cx_procs c !! i = Some p -> p_trapframe p <> 0 -> 0 <= n <= 5 ->
  argfd n (c, s) = Ret ((fun f => (arg_int p s n, f)) <$> fd_file p (arg_int p s n)) (settled c, s).
Proof.
  intros Hc Hp Ht Hn. unfold argfd. rewrite (bind_ret _ _ _ _ _ (argint_run c s i pid p n Hc Hp Ht Hn)). unfold fd_file.
  destruct ((arg_int p s n <? 0) || (NOFILE <=? arg_int p s n)); [done|].
  rewrite (bind_ret _ _ _ _ _ (curproc_settled (settled c) s i pid (kctx_settled _ _ _ Hc))), settled_idem.
  rewrite (bind_ret _ _ _ _ _ (pget_run (settled c) s i p Hp)). by destruct (default None _).
Qed.

(** The lowest free descriptor. *)
Inductive first_free (l : list (option nat)) : option nat -> Prop :=
  | ff_some fd : l !! fd = Some None -> (forall j, (j < fd)%nat -> exists f, l !! j = Some (Some f)) -> first_free l (Some fd)
  | ff_none : (forall j o, l !! j = Some o -> o <> None) -> first_free l None.

Lemma fdalloc_run c s i pid p f :
  kctx c i pid -> cx_procs c !! i = Some p -> length (p_ofile p) = Z.to_nat NOFILE ->
  exists o, first_free (p_ofile p) o /\
    fdalloc f (c, s) = match o with
                       | Some fd => Ret (Z.of_nat fd) (set_fd i p fd (Some f) (settled c), s)
                       | None => Ret (-1) (settled c, s)
                       end.
Proof.
  intros Hc Hp Hlen. unfold fdalloc. rewrite (bind_ret _ _ _ _ _ (curproc_settled c s i pid Hc)).
  rewrite (bind_ret _ _ _ _ _ (pget_run (settled c) s i p Hp)), take_ge by lia.
  pose proof (free_fd_spec (p_ofile p) 0) as H. destruct (free_fd (p_ofile p) 0) as [fd|].
  - destruct H as (j & -> & Hj & Hlow). exists (Some j). split; [by constructor|].
    by rewrite (bind_ret _ _ _ _ _ (pupd_run (settled c) s i p _ Hp)).
  - exists None. split; [by constructor|done].
Qed.

Lemma refs_ok_settled c s : refs_ok c s -> refs_ok (settled c) s.
Proof. by intros []. Qed.

Lemma fd_file_lookup p fd f : fd_file p fd = Some f -> p_ofile p !! Z.to_nat fd = Some (Some f).
Proof. unfold fd_file. case_match; [done|]. by destruct (p_ofile p !! Z.to_nat fd) as [[]|]; simpl; intros [= ->]. Qed.

Lemma set_fd_settled i p fd o c : settled (set_fd i p fd o (settled c)) = set_fd i p fd o (settled c).
Proof. unfold set_fd, set_proc, settled. destruct c. simpl. by rewrite settle_idem. Qed.

Lemma insert_refs f x x' (l : list file) o o' :
  l !! f = Some x -> f_ref x' + Z.of_nat (is_ref o f) = f_ref x + Z.of_nat (is_ref o' f) ->
  (forall g, g <> f -> is_ref o g = is_ref o' g) ->
  forall g y, l !! g = Some y -> exists y', <[f := x']> l !! g = Some y' /\ f_ref y' + Z.of_nat (is_ref o g) = f_ref y + Z.of_nat (is_ref o' g).
Proof.
  intros Hx E Hne g y Hy. destruct (decide (g = f)) as [->|Hg].
  - exists x'. rewrite list_lookup_insert_eq by (by eapply lookup_lt_Some). assert (y = x) as -> by congruence. done.
  - exists y. rewrite list_lookup_insert_ne by done. rewrite Hne by done. done.
Qed.

Section Calls.
Context {LY : Layout} {BD : BlockDev} {IO : Mmio}.
Context (c : ctx) (s : kern) (i : nat) (pid : Z) (p : proc).
Context (Hc : kctx c i pid) (Hp : cx_procs c !! i = Some p) (Ht : p_trapframe p <> 0).
Context (Hlk : lock_free (ft_lock (k_ftable s))) (Hok : refs_ok c s).
Let fd := arg_int p s 0.

Lemma ref_lookup f : fd_file p fd = Some f -> exists x, files s !! f = Some x /\ 1 <= f_ref x.
Proof.
  intros Hf. apply fd_file_lookup in Hf. pose proof (frefs_pos c i p _ f Hp Hf) as Hpos.
  destruct (ro_dom _ _ Hok f Hpos) as [x Hx]. exists x. split; [done|]. rewrite (ro_count _ _ Hok f x Hx). lia.
Qed.

Lemma sys_dup_run :
  exists r c' s', sys_dup (c, s) = Ret r (c', s') /\ refs_ok c' s' /\
    match fd_file p fd with
    | None => r = -1 /\ c' = settled c /\ s' = s
    | Some f => exists o, first_free (p_ofile p) o /\
        match o with
        | None => r = -1 /\ c' = settled c /\ s' = s
        | Some new => r = Z.of_nat new /\ c' = set_fd i p new (Some f) (settled c) /\
            exists x, files s !! f = Some x /\ s' = upd_files (insert f (set_f_ref (f_ref x + 1) x)) s
        end
    end.
Proof.
  unfold sys_dup. rewrite (bind_ret _ _ _ _ _ (argfd_run c s i pid p 0 Hc Hp Ht ltac:(lia))). fold fd.
  pose proof (kctx_settled _ _ _ Hc) as Hcs. pose proof (refs_ok_settled _ _ Hok) as Hoks.
  destruct (fd_file p fd) as [f|] eqn:Ef; cbn [fmap option_fmap option_map]; [|by eexists _, _, _; split_and!].
  destruct (fdalloc_run (settled c) s i pid p f Hcs Hp (ro_len _ _ Hok i p Hp)) as (o & Hff & R). rewrite settled_idem in R.
  destruct o as [new|]; rewrite (bind_ret _ _ _ _ _ R); [|by eexists _, _, _; split_and!; [..|exists None; split_and!]].
  rewrite (proj2 (Z.ltb_ge _ 0)) by lia. destruct (ref_lookup f Ef) as (x & Hx & Hr).
  rewrite (bind_ret _ _ _ _ _ (filedup_run (set_fd i p new (Some f) (settled c)) s f x (settled_ok _ (co_cpu _ _ _ (kc_ok _ _ _ Hc))) Hlk Hx Hr)), set_fd_settled.
  inversion Hff as [? Hnew Hlow|]; subst. eexists _, _, _. split; [reflexivity|]. split.
  - apply (refs_ok_set (settled c) s i p new None (Some f)); [done|done|done| |apply length_insert|].
    + apply (insert_refs f x); [done|unfold is_ref; rewrite bool_decide_false, bool_decide_true by done; simpl; lia|].
      intros g Hg. unfold is_ref. by rewrite !bool_decide_false by congruence.
    + intros g [= <-]. by exists x.
  - exists (Some new). split; [done|]. split; [done|]. split; [done|]. by exists x.
Qed.

Lemma sys_close_shared_run :
  (forall f x, fd_file p fd = Some f -> files s !! f = Some x -> 2 <= f_ref x) ->
  exists r c' s', sys_close (c, s) = Ret r (c', s') /\ refs_ok c' s' /\
    match fd_file p fd with
    | None => r = -1 /\ c' = settled c /\ s' = s
    | Some f => r = 0 /\ c' = set_fd i p (Z.to_nat fd) None (settled c) /\
        exists x, files s !! f = Some x /\ s' = upd_files (insert f (set_f_ref (f_ref x - 1) x)) s
    end.
Proof.
  intros Hshared. unfold sys_close. rewrite (bind_ret _ _ _ _ _ (argfd_run c s i pid p 0 Hc Hp Ht ltac:(lia))). fold fd.
  pose proof (kctx_settled _ _ _ Hc) as Hcs. pose proof (refs_ok_settled _ _ Hok) as Hoks.
  destruct (fd_file p fd) as [f|] eqn:Ef; cbn [fmap option_fmap option_map]; [|by eexists _, _, _; split_and!].
  destruct (ref_lookup f Ef) as (x & Hx & _). pose proof (Hshared f x eq_refl Hx) as Hr. apply fd_file_lookup in Ef as Hfd.
  assert (Hclear : fdclear fd (settled c, s) = Ret tt (set_fd i p (Z.to_nat fd) None (settled c), s)).
  { unfold fdclear. rewrite (bind_ret _ _ _ _ _ (curproc_settled (settled c) s i pid Hcs)), settled_idem. by rewrite (pupd_run (settled c) s i p _ Hp). }
  rewrite (bind_ret _ _ _ _ _ Hclear).
  rewrite (bind_ret _ _ _ _ _ (fileclose_shared (set_fd i p (Z.to_nat fd) None (settled c)) s f x (settled_ok _ (co_cpu _ _ _ (kc_ok _ _ _ Hc))) Hlk Hx Hr)), set_fd_settled.
  eexists _, _, _. split; [reflexivity|]. split; [|split_and!; [done|done|by exists x]].
  apply (refs_ok_set (settled c) s i p (Z.to_nat fd) (Some f) None); [done|done|done| |apply length_insert|done].
  apply (insert_refs f x); [done|unfold is_ref; rewrite bool_decide_true, bool_decide_false by done; simpl; lia|].
  intros g Hg. unfold is_ref. by rewrite !bool_decide_false by congruence.
Qed.

End Calls.

(** ** The properties *)

(** dup() fails, with nothing changed, when its argument is not an open
    descriptor or every descriptor of the process is in use; otherwise it
    returns the lowest free descriptor, which now names the same file, and
    adds one to the reference count of that file and of no other.  In every
    case the count of each file is still the number of descriptors, in all
    processes, that name it. *)
Theorem sys_dup_correct c s i pid p :
  kctx c i pid -> cx_procs c !! i = Some p -> p_trapframe p <> 0 -> lock_free (ft_lock (k_ftable s)) -> refs_ok c s ->
  exists r c' s', sys_dup (c, s) = Ret r (c', s') /\ refs_ok c' s' /\
    match fd_file p (arg_int p s 0) with
    | None => r = -1 /\ c' = settled c /\ s' = s
    | Some f => exists o, first_free (p_ofile p) o /\
        match o with
        | None => r = -1 /\ c' = settled c /\ s' = s
        | Some new => r = Z.of_nat new /\ c' = set_fd i p new (Some f) (settled c) /\
            exists x, files s !! f = Some x /\ s' = upd_files (insert f (set_f_ref (f_ref x + 1) x)) s
        end
    end.
Proof. apply sys_dup_run. Qed.

(** close() of a descriptor whose file has other references clears that
    descriptor alone, takes one from the count of the file and leaves the
    file open for the other descriptors; a bad descriptor gives -1 and
    changes nothing.  The counts stay exact. *)
Theorem sys_close_shared {LY : Layout} {BD : BlockDev} c s i pid p :
  kctx c i pid -> cx_procs c !! i = Some p -> p_trapframe p <> 0 -> lock_free (ft_lock (k_ftable s)) -> refs_ok c s ->
  (forall f x, fd_file p (arg_int p s 0) = Some f -> files s !! f = Some x -> 2 <= f_ref x) ->
  exists r c' s', sys_close (c, s) = Ret r (c', s') /\ refs_ok c' s' /\
    match fd_file p (arg_int p s 0) with
    | None => r = -1 /\ c' = settled c /\ s' = s
    | Some f => r = 0 /\ c' = set_fd i p (Z.to_nat (arg_int p s 0)) None (settled c) /\
        exists x, files s !! f = Some x /\ s' = upd_files (insert f (set_f_ref (f_ref x - 1) x)) s
    end.
Proof. apply sys_close_shared_run. Qed.

(** A process with descriptor 0 and the [n] from 2 on, of one open file, and its
    system call's first argument 0. *)
Definition opened (n : nat) : proc :=
  set_p_trapframe 4096 (set_p_ofile ([Some 0%nat; None] ++ replicate n (Some 0%nat) ++ replicate (14 - n) None) (runner 1)).
Definition ctx_f (n : nat) : ctx := set_proc 0 (opened n) ctx3.
Definition kern_f (n : nat) : kern := upd_files (insert 0%nat (File FD_DEVICE (Z.of_nat (S n)) true true 0 None 0 1)) kern0.

Lemma kctx_f n : kctx (ctx_f n) 0 1.
Proof.
  split; [|done|simpl; lia]. split; [split; simpl; [lia|done]|done|by eexists|done|].
  apply Forall_insert; [apply procs3_free|done].
Qed.

Lemma refs_f : refs_ok (ctx_f 1) (kern_f 1).
Proof.
  assert (E : forall f, frefs (ctx_f 1) f = (is_ref (Some 0%nat) f + is_ref (Some 0%nat) f)%nat).
  { by intros [|f]; vm_compute. }
  split.
  - intros f x Hx. rewrite E. unfold is_ref. destruct f as [|f]; [injection Hx as <-; by vm_compute|].
    rewrite bool_decide_false by done. change (replicate (Z.to_nat NFILE - 1) (File FD_NONE 0 false false 0 None 0 0) !! f = Some x) in Hx.
    by apply lookup_replicate_1 in Hx as [-> _].
  - intros f Hf. rewrite E in Hf. unfold is_ref in Hf. case_bool_decide as H; [injection H as <-; by eexists|lia].
  - apply (Forall_lookup (fun p => length (p_ofile p) = Z.to_nat NOFILE)). by repeat (constructor; [reflexivity|]).
Qed.

Lemma sys_dup_correct_witness : exists w', sys_dup (ctx_f 1, kern_f 1) = Ret 1 w'.
Proof.
  destruct (sys_dup_correct (ctx_f 1) (kern_f 1) 0 1 (opened 1) (kctx_f 1) eq_refl ltac:(discriminate) (conj eq_refl eq_refl) refs_f)
    as (r & c' & s' & R & _ & H).
  assert (E : fd_file (opened 1) (arg_int (opened 1) (kern_f 1) 0) = Some 0%nat) by (vm_compute; reflexivity).
  rewrite E in H. destruct H as (o & F & H). destruct F as [new Hn Hlow|Hall]; [|by edestruct (Hall 1%nat None)].
  destruct H as (-> & _). exists (c', s'). rewrite R. f_equal. destruct new as [|[|new]]; [done|done|].
  destruct (Hlow 1%nat ltac:(lia)) as [g [=]].
Defined.

Lemma sys_close_shared_witness : exists w', @sys_close vm_layout sync_dev (ctx_f 1, kern_f 1) = Ret 0 w'.
Proof.
  destruct (@sys_close_shared vm_layout sync_dev (ctx_f 1) (kern_f 1) 0 1 (opened 1) (kctx_f 1) eq_refl ltac:(discriminate) (conj eq_refl eq_refl) refs_f)
    as (r & c' & s' & R & _ & H).
  - assert (E : fd_file (opened 1) (arg_int (opened 1) (kern_f 1) 0) = Some 0%nat) by (vm_compute; reflexivity).
    rewrite E. intros f x [= <-] [= <-]. simpl. lia.
  - assert (E : fd_file (opened 1) (arg_int (opened 1) (kern_f 1) 0) = Some 0%nat) by (vm_compute; reflexivity).
    rewrite E in H. destruct H as (-> & _). by exists (c', s').
Defined.
