(* ===== verification/ProcSpec.v ===== *)
(** * Reaping a child (kernel/proc.c, freeproc() and wait())

    [pspace] (Uvmfree) is the address space of a process.  [reapable] is a process whose
    memory may be taken back, [ppages] are the pages that are then free again, and
    [unused] is what freeproc() leaves in the slot.  wait() is shown on all its branches:
    a ZOMBIE child is reaped, its status copied to the user address; without children it
    fails; otherwise it sleeps on the process itself with wait_lock released. *)

From stdpp Require Import base numbers list list_numbers gmap strings.
From Stdlib Require Import ZArith Lia.
From S2P Require Import Prelude.
From S2P Require Import Machine.
From S2P Require Import Spinlock.
From S2P Require Import Mem.
From S2P Require Import Kalloc.
From S2P Require Import Vm.
From S2P Require Import VmSpec.
From S2P Require Import Uvm.
From S2P Require Import Uvmcopy.
From S2P Require Import Uvmfree.
From S2P Require Import Kern.
From S2P Require Import Sched.
From S2P Require Import SleepLk.
From S2P Require Import Bio.
From S2P Require Import UserMem.
From S2P Require Import Proc.
From S2P Require Import PipeSpec.

Local Open Scope Z_scope.

(** ** freeproc() *)

Definition unused (y : proc) : proc :=
  Proc (p_lock y) UNUSED None 0 0 0 None (p_kstack y) 0 0 0 (p_context y) (p_ofile y) (p_cwd y) (<[0%nat := 0]> (p_name y)).

(** The pages a process owns: its trapframe, its memory, its page table. *)
Definition ppages (y : proc) (T : ptree) (vs : list Z) (p : Z) : Prop :=
  p = p_trapframe y \/ p ∈ PTE2PA <$> vs \/ in_tree T p.

Section Reap.
Context {LY : Layout} {LO : LayoutOk}.

Record reapable (s : kst) (y : proc) (T : ptree) (vt vf : Z) (vs l : list Z) : Prop := {
  rp_space : pspace (p_pagetable y) s T vt vf vs l (p_sz y);
  rp_tf : page_ok (p_trapframe y) /\ (p_trapframe y ∉ l);
  rp_own : ~ in_tree T (p_trapframe y) /\ (p_trapframe y ∉ PTE2PA <$> vs)
}.

Lemma pspace_root root s T vt vf vs l sz : pspace root s T vt vf vs l sz -> page_ok root.
Proof. intros H. apply (tw_page _ _ (v_wf _ _ _ _ (ps_vinv _ _ _ _ _ _ _ _ H)) []). apply (tw_root _ _ (v_wf _ _ _ _ (ps_vinv _ _ _ _ _ _ _ _ H))). Qed.

Lemma page_nonzero p : page_ok p -> (p =? 0) = false.
Proof. intros H%page_ok_pos. apply Z.eqb_neq. lia. Qed.

Lemma reapable_pages s y T vt vf vs l p : reapable s y T vt vf vs l -> ppages y T vs p -> page_ok p /\ (p ∉ l).
Proof.
  intros [S [H1 H2] _] [->|[(v & -> & Hv)%list_elem_of_fmap|[path Hp]]]; [done| |].
  - destruct (ps_user _ _ _ _ _ _ _ _ S) as (_ & _ & _ & H). by destruct (H v Hv) as (? & _ & ?).
  - destruct (ps_vinv _ _ _ _ _ _ _ _ S) as [_ W _ Hs]. split; [by eapply tw_page|]. apply Hs. by exists path.
Qed.

(** A page table does not depend on the memory outside of it. *)
Lemma pspace_ext root s s' T vt vf vs l l' sz :
  pspace root s T vt vf vs l sz -> kinv s' l' -> tree_same T (k_mem s) (k_mem s') ->
  (forall p, p ∈ l' -> p ∈ l \/ ~ in_tree T p /\ (p ∉ PTE2PA <$> vs)) -> pspace root s' T vt vf vs l' sz.
Proof.
  intros [[_ W A Hs] D Ht Hf Hsz (Hv & Hfl & Hn & Hrel) Hrest] K E Hl. split.
  - split; [done|done|by eapply tree_same_at|]. intros p Hp Hin. destruct (Hl p Hin) as [H|[H _]]; [by eapply Hs|done].
  - done.
  - by rewrite (tree_same_look T (k_mem s)).
  - by rewrite (tree_same_look T (k_mem s)).
  - done.
  - split_and!; [|done|split; [done|]].
    + intros j v Hj. rewrite (tree_same_look T (k_mem s)) by done. by apply Hv.
    + intros v Hvs. destruct (Hrel v Hvs) as (H1 & H2 & H3). split_and!; [done..|]. intros Hin.
      destruct (Hl _ Hin) as [H|[_ H]]; [done|]. by apply H, list_elem_of_fmap_2.
  - intros va Hva. rewrite (tree_same_look T (k_mem s)) by done. by apply Hrest.
Qed.

Lemma calm_held c c' : 0 < c_noff (cx_cpu c) -> calm c c' -> c' = c.
Proof.
  intros H [->| ->]; [done|]. unfold settled, settle. rewrite (proj2 (Z.eqb_neq _ _)) by lia. by destruct c.
Qed.

Lemma pupd_step {S A} j f (k : K S A) c s p : cx_procs c !! j = Some p -> (pupd j f ;; k) (c, s) = k (set_proc j (f p) c, s).
Proof. intros H. by rewrite (bind_ret _ _ _ _ _ (pupd_run c s j p f H)). Qed.

Lemma freeproc_run np c s y T vt vf vs l :
  cx_procs c !! np = Some y -> cpu_ok (cx_cpu c) -> 0 < c_noff (cx_cpu c) -> reapable (kk s) y T vt vf vs l ->
  exists k' l', freeproc np (c, s) = Ret tt (set_proc np (unused y) c, set_kk k' s) /\ kinv k' l' /\
    (forall p, p ∈ l' <-> p ∈ l \/ ppages y T vs p) /\
    (forall x, (forall p, ppages y T vs p -> off_page p x) -> bget (k_mem k') x = bget (k_mem (kk s)) x).
Proof.
  intros Hy Hok Hn [S (Htf & Hl) (Hnt & Hnv)]. pose proof (ps_vinv _ _ _ _ _ _ _ _ S) as V.
  destruct (kfree_spec c (kk s) (p_trapframe y) l Hok (v_kinv _ _ _ _ V) Htf Hl) as (k1 & R1 & K1 & O1).
  rewrite (calm_held c (settled c) Hn (calm_settled c)) in R1.
  set (c1 := set_proc np (set_p_trapframe 0 y) c).
  destruct (proc_freepagetable_run (p_pagetable y) k1 T vt vf vs (p_trapframe y :: l) (p_sz y) c1) as (c2 & k2 & l' & R2 & Hc2 & K2 & M2 & O2).
  { apply (pspace_ext _ (kk s) _ _ _ _ _ l); [done|done|by eapply off_page_tree; [apply V|..]|].
    intros p [->|Hp]%elem_of_cons; [by right|by left]. }
  { done. }
  apply (calm_held c1) in Hc2; [|done]. subst c2. exists k2, l'. split_and!; [|done| |].
  - unfold freeproc. rewrite (bind_ret _ _ _ _ _ (pget_run c s np y Hy)), (page_nonzero _ Htf). cbn [negb].
    rewrite (bind_ret _ _ _ _ _ (zoom_ret kk_l _ c s (kk s) tt c k1 eq_refl R1)). change (put kk_l k1 s) with (set_kk k1 s).
    rewrite (pupd_step _ _ _ _ _ _ Hy). fold c1.
    assert (H1 : cx_procs c1 !! np = Some (set_p_trapframe 0 y)) by (apply set_proc_get; eauto).
    rewrite (bind_ret _ _ _ _ _ (pget_run c1 _ np _ H1)). cbn [p_pagetable p_sz set_p_trapframe].
    rewrite (page_nonzero _ (pspace_root _ _ _ _ _ _ _ _ S)). cbn [negb].
    rewrite (bind_ret _ _ _ _ _ (zoom_ret kk_l _ c1 (set_kk k1 s) k1 tt c1 k2 eq_refl R2)).
    replace (put kk_l k2 (set_kk k1 s)) with (set_kk k2 s) by by destruct s.
    unfold c1. do 8 (erewrite pupd_step by (apply set_proc_get; eauto); rewrite set_proc_set).
    erewrite pupd_run by (apply set_proc_get; eauto). by rewrite set_proc_set.
  - intros p. rewrite M2, elem_of_cons. unfold ppages. tauto.
  - intros x Hx. rewrite O2; [apply O1, Hx; by left|intros p Hp; apply Hx; by do 2 right|].
    intros v Hv. apply Hx. right. left. by apply list_elem_of_fmap_2.
Qed.

(** ** wait() *)

Definition child (i : nat) (y : proc) : Prop := p_parent y = Some i.
Definition zombie (i : nat) (y : proc) : Prop := child i y /\ p_state y = ZOMBIE.
#[global] Instance child_dec i y : Decision (child i y).
Proof. unfold child. apply _. Defined.
#[global] Instance zombie_dec i y : Decision (zombie i y).
Proof. unfold zombie. apply _. Defined.

(** The hart inside wait_lock: no p->lock is held. *)
Record scanning (c : ctx) : Prop := {
  sn_cpu : cpu_ok (cx_cpu c);
  sn_noff : 0 < c_noff (cx_cpu c);
  sn_locks : Forall (fun p => lock_free (p_lock p)) (cx_procs c)
}.

Lemma scanning_settled c : scanning c -> settled c = c.
Proof. intros [_ H _]. by apply (calm_held c), calm_settled. Qed.

Lemma set_proc_same c j p : cx_procs c !! j = Some p -> set_proc j p c = c.
Proof. intros H. unfold set_proc, set_cx_procs. rewrite list_insert_id by done. by destruct c. Qed.

(** A child that runs on is looked at and left. *)
Lemma wait_scan_step c s i np y ps addr h :
  scanning c -> cx_procs c !! np = Some y -> ~ zombie i y ->
  wait_scan (np :: ps) i addr h (c, s) = wait_scan ps i addr (h || bool_decide (child i y)) (c, s).
Proof.
  intros H Hy Hz. pose proof (sn_cpu _ H) as Hok. pose proof (Forall_lookup_1 _ _ _ _ (sn_locks _ H) Hy) as Hf. simpl in Hf.
  cbn [wait_scan]. rewrite (bind_ret _ _ _ _ _ (pget_run c s np y Hy)). fold (child i y).
  destruct (decide (child i y)) as [Hc|Hc]; [|by rewrite !bool_decide_false, orb_false_r by done].
  rewrite !bool_decide_true, orb_true_r by done.
  rewrite (bind_ret _ _ _ _ _ (acquire_p c s np y Hy Hf)). set (y1 := set_p_lock _ y). set (c1 := set_proc np y1 _).
  assert (H1 : cx_procs c1 !! np = Some y1) by (apply set_proc_get; simpl; eauto).
  rewrite (bind_ret _ _ _ _ _ (pget_run c1 s np y1 H1)).
  rewrite bool_decide_false by (intros E; by apply Hz).
  unfold c1, y1. rewrite (bind_ret _ _ _ _ _ (crit_p c s np y (fun q => q) Hy Hf Hok eq_refl)), (scanning_settled c H).
  change (set_p_lock _ (set_p_lock _ y)) with (set_p_lock (p_lock y) y). by rewrite set_p_lock_same, set_proc_same.
Qed.

Lemma seq_split j n : (j < n)%nat -> seq 0 n = seq 0 j ++ j :: seq (S j) (n - S j).
Proof.
  intros H. change (j :: seq (S j) (n - S j)) with (seq j (S (n - S j))). rewrite <- (seq_app j _ 0). f_equal. lia.
Qed.

(** The scan up to the first zombie, or to the end. *)
Lemma wait_scan_upto c s i addr ps m k h :
  scanning c -> (k + m <= length (cx_procs c))%nat ->
  (forall j y, (k <= j < k + m)%nat -> cx_procs c !! j = Some y -> ~ zombie i y) ->
  wait_scan (seq k m ++ ps) i addr h (c, s) =
    wait_scan ps i addr (h || existsb (fun y => bool_decide (child i y)) (take m (drop k (cx_procs c)))) (c, s).
Proof.
  intros H. revert k h. induction m as [|m IH]; intros k h Hk Hz; [by rewrite orb_false_r|].
  destruct (lookup_lt_is_Some_2 (cx_procs c) k) as [y Hy]; [lia|]. cbn [seq app].
  rewrite (wait_scan_step c s i k y) by (done || (apply (Hz k); [lia|done])). rewrite IH by (lia || (intros j z Hj; apply Hz; lia)).
  rewrite (drop_S _ _ _ Hy). cbn [take existsb]. by rewrite orb_assoc.
Qed.

(** wait_lock taken by a hart that holds no lock. *)
Definition in_wait (c : ctx) (s : kern) : kern := set_k_wait_lock (held (k_wait_lock s) (c_id (cx_cpu c))) s.

Lemma acquire_wait c s : lock_free (k_wait_lock s) -> acquire wait_lk (c, s) = Ret tt (pushed c, in_wait c s).
Proof. intros [Hl _]. unfold wait_lk. by rewrite (acquire_run _ _ (k_wait_lock s)). Qed.

Lemma release_wait c s c' k :
  cpu_ok (cx_cpu c) -> lock_free (k_wait_lock s) -> cx_cpu c' = push_cpu (cx_cpu c) ->
  release wait_lk (c', set_kk k (in_wait c s)) = Ret tt (set_cx_cpu (settle (cx_cpu c)) c', set_kk k s).
Proof.
  intros Hok Hf E. unfold wait_lk. erewrite release_run; [|apply _|reflexivity|..]; unfold hart; cbn [fst]; rewrite ?E; [|done..|].
  - unfold upd_cpu. cbn [fst snd]. f_equal. f_equal.
    + cbn. by rewrite E, pop_push_cpu.
    + cbn. destruct s. unfold in_wait. cbn in *. unfold set_k_wait_lock, set_kk. cbn. f_equal. exact (unheld_free _ Hf).
  - simpl. destruct Hok. lia.
Qed.

(** The child's pages are none of the caller's. *)
Definition apart (m : mem) (T0 : ptree) (y : proc) (T : ptree) (vs : list Z) : Prop :=
  forall p, ppages y T vs p -> ~ in_tree T0 p /\ forall va, 0 <= va -> upage m T0 va <> Some p.

(** Memory that changes only in the child's pages is the same to the caller. *)
Lemma apart_same root T0 y T vs m m' l :
  tree_wf root T0 -> user_ok m T0 l -> apart m T0 y T vs -> (forall p, ppages y T vs p -> page_ok p) ->
  (forall x, (forall p, ppages y T vs p -> off_page p x) -> bget m' x = bget m x) ->
  tree_same T0 m m' /\ forall va, 0 <= va -> uread m' T0 va = uread m T0 va.
Proof.
  intros W U A Hp H. assert (S : tree_same T0 m m').
  { intros q x [path Hq] Hx. apply H. intros p Hpp. apply (pages_apart p q); [by apply Hp|by eapply tw_page| |done].
    intros ->. apply (A _ Hpp). by exists path. }
  split; [done|]. intros va Hva. unfold uread. rewrite (tree_same_uaddr T0 m) by done. unfold uaddr.
  destruct (upage m T0 va) as [q|] eqn:Eq; [|done]. cbn. f_equal. apply H. intros p Hpp.
  destruct (u_page _ _ _ U va q Hva Eq) as (Hq & _). pose proof (Z.mod_pos_bound va PGSIZE ltac:(done)).
  apply (pages_apart p q); [by apply Hp|done| |lia]. intros ->. by apply (proj2 (A _ Hpp) va).
Qed.

Lemma apart_kept root s k1 T0 y T vs l l' :
  vinv root k1 T0 l -> user_ok (k_mem k1) T0 l -> apart (k_mem k1) T0 y T vs -> (forall p, ppages y T vs p -> page_ok p) ->
  (forall x, (forall p, ppages y T vs p -> off_page p x) -> bget (k_mem (kk s)) x = bget (k_mem k1) x) ->
  kinv (kk s) l' -> (forall p, p ∈ l' <-> p ∈ l \/ ppages y T vs p) ->
  uspace root s T0 l' /\ forall va, 0 <= va -> umem s T0 va = uread (k_mem k1) T0 va.
Proof.
  intros [_ W At Hs] U A Hp O K M. destruct (apart_same root T0 y T vs (k_mem k1) (k_mem (kk s)) l) as [S L]; [done..|].
  split; [|done]. split.
  - split; [done|done|by eapply tree_same_at|]. intros p Hin [Hl|Hpp]%M; [by eapply Hs|by apply (A p Hpp)].
  - destruct U as [U1 U2]. split.
    + intros va p Hva. rewrite (tree_same_upage T0 (k_mem k1)) by done. intros Eq. destruct (U1 va p Hva Eq) as (H1 & H2 & H3).
      split_and!; [done..|]. intros [Hl|Hpp]%M; [done|]. by apply (proj2 (A p Hpp) va).
    + intros va va' p Hva Hva'. rewrite !(tree_same_upage T0 (k_mem k1) (k_mem (kk s))) by done. by apply U2.
Qed.

(** What user memory holds once the status is stored at [addr]; at 0 it is not. *)
Definition status_at (addr xs va : Z) (o : option Z) : option Z := if addr =? 0 then o else ustored addr (le_enc 4 xs) va o.

(** The status copied out to the caller. *)
Lemma status_run root T0 addr xs i me c s l :
  uspace root s T0 l -> cx_procs c !! i = Some me -> p_pagetable me = root -> 0 <= addr ->
  exists e k1, (if addr =? 0 then mret 0 else x ← pget i; kmem (copyout (p_pagetable x) addr (le_enc 4 xs))) (c, s) = Ret e (c, set_kk k1 s) /\
    vinv root k1 T0 l /\ tree_same T0 (k_mem (kk s)) (k_mem k1) /\
    (forall x, off_user (k_mem (kk s)) T0 x -> bget (k_mem k1) x = bget (k_mem (kk s)) x) /\
    (e = 0 /\ (forall va, 0 <= va -> uread (k_mem k1) T0 va = status_at addr xs va (umem s T0 va)) \/
     e = -1 /\ addr <> 0 /\ exists va, addr <= va < addr + 4 /\ umem s T0 va = None).
Proof.
  intros [V U] Hme <- Ha. unfold status_at. destruct (Z.eqb_spec addr 0) as [->|Hne].
  { exists 0, (kk s). split_and!; [by destruct s|done|done|done|]. by left. }
  rewrite (bind_ret _ _ _ _ _ (pget_run c s i me Hme)).
  destruct (copyout_loop_run 5 (p_pagetable me) T0 addr (le_enc 4 xs) c (kk s) l V U Ha) as (r & k1 & R & V1 & S1 & O1 & Hr);
    [apply le_enc_bytes|rewrite length_le_enc; lia|].
  exists r, k1. split_and!; [|done..|].
  - apply (zoom_ret kk_l _ c s (kk s)); [done|]. unfold copyout. by rewrite length_le_enc.
  - destruct Hr as [H|(E & va & H1 & H2)]; [by left|]. right. rewrite length_le_enc in H1. split; [done|]. split; [done|]. by exists va.
Qed.

(** What wait() does with the zombie [y] in slot [np]: it returns its pid, the slot is
    UNUSED and its pages are free, and the caller's memory holds the status; or the status has
    no place to go, and the zombie stays. *)
Inductive reap (c : ctx) (s : kern) (root addr : Z) (T0 : ptree) (np : nat) (y : proc) (T : ptree) (vt vf : Z) (vs l : list Z)
    : Z -> ctx -> kst -> Prop :=
  | reap_done k' l' :
      uspace root (set_kk k' s) T0 l' -> (forall p, p ∈ l' <-> p ∈ l \/ ppages y T vs p) ->
      (forall va, 0 <= va -> uread (k_mem k') T0 va = status_at addr (p_xstate y) va (umem s T0 va)) ->
      (forall x, off_user (k_mem (kk s)) T0 x -> (forall p, ppages y T vs p -> off_page p x) -> bget (k_mem k') x = bget (k_mem (kk s)) x) ->
      reap c s root addr T0 np y T vt vf vs l (p_pid y) (set_proc np (unused y) (settled c)) k'
  | reap_fault k' :
      addr <> 0 -> (exists va, addr <= va < addr + 4 /\ umem s T0 va = None) ->
      uspace root (set_kk k' s) T0 l -> reapable k' y T vt vf vs l ->
      (forall x, off_user (k_mem (kk s)) T0 x -> bget (k_mem k') x = bget (k_mem (kk s)) x) ->
      reap c s root addr T0 np y T vt vf vs l (-1) (settled c) k'.

Lemma reapable_lock k y T vt vf vs l lk : reapable k y T vt vf vs l -> reapable k (set_p_lock lk y) T vt vf vs l.
Proof. by intros [? ? ?]. Qed.

(** The child's space after the status was stored in the caller's. *)
Lemma reapable_ext k k1 root T0 y T vt vf vs l :
  reapable k y T vt vf vs l -> vinv root k1 T0 l -> user_ok (k_mem k) T0 l -> apart (k_mem k) T0 y T vs ->
  (forall x, off_user (k_mem k) T0 x -> bget (k_mem k1) x = bget (k_mem k) x) -> reapable k1 y T vt vf vs l.
Proof.
  intros R V U A O. pose proof R as [S Htf Hown]. split; [|done..]. apply (pspace_ext _ k _ _ _ _ _ l); [done|apply V| |by left].
  intros q x Hq Hx. apply O. intros va p Hva Hp. destruct (u_page _ _ _ U va p Hva Hp) as (Hpo & _).
  assert (Hpp : ppages y T vs q) by by do 2 right.
  apply (pages_apart p q); [done|by eapply reapable_pages|intros ->; by apply (proj2 (A _ Hpp) va)|done].
Qed.

Lemma wait_reaps c s i me np y ps addr h T0 T vt vf vs l :
  cpu_ok (cx_cpu c) -> Forall (fun p => lock_free (p_lock p)) (cx_procs c) -> lock_free (k_wait_lock s) ->
  cx_procs c !! i = Some me -> np <> i -> cx_procs c !! np = Some y -> zombie i y -> 0 <= addr ->
  uspace (p_pagetable me) s T0 l -> reapable (kk s) y T vt vf vs l -> apart (k_mem (kk s)) T0 y T vs ->
  exists r c' k', wait_scan (np :: ps) i addr h (pushed c, in_wait c s) = Ret (inl r) (c', set_kk k' s) /\
    reap c s (p_pagetable me) addr T0 np y T vt vf vs l r c' k'.
Proof.
  intros Hok Hlk Hw Hme Hne Hy [Hc Hz] Ha US RP A. pose proof US as [V U]. pose proof (Forall_lookup_1 _ _ _ _ Hlk Hy) as Hf. simpl in Hf.
  assert (Hok1 : cpu_ok (cx_cpu (pushed c))) by by apply push_cpu_ok.
  assert (Hn1 : 0 < c_noff (cx_cpu (pushed c))) by (destruct Hok; simpl; lia).
  pose proof (calm_held (pushed c) _ Hn1 (calm_settled _)) as Hse.
  cbn [wait_scan]. rewrite (bind_ret _ _ _ _ _ (pget_run (pushed c) _ np y Hy)), bool_decide_true by done.
  rewrite (bind_ret _ _ _ _ _ (acquire_p (pushed c) _ np y Hy Hf)). set (y1 := set_p_lock _ y). set (c2 := set_proc np y1 _).
  assert (H1 : cx_procs c2 !! np = Some y1) by (apply set_proc_get; simpl; eauto).
  rewrite (bind_ret _ _ _ _ _ (pget_run c2 _ np y1 H1)), (bool_decide_true (p_state y1 = ZOMBIE)) by done.
  destruct (status_run (p_pagetable me) T0 addr (p_xstate y1) i me c2 (in_wait c s) l) as (e & k1 & R1 & V1 & S1 & O1 & Hr);
    [done|simpl; by rewrite list_lookup_insert_ne|done|done|].
  rewrite (bind_ret _ _ _ _ _ R1). set (s1 := set_kk k1 _).
  assert (RP1 : reapable k1 y T vt vf vs l) by by eapply (reapable_ext (kk s)).
  destruct Hr as [(-> & Hu)|(-> & Hn0 & Hun)].
  - cbn [Z.ltb Z.compare].
    destruct (freeproc_run np c2 s1 y1 T vt vf vs l) as (k2 & l' & R2 & K2 & M2 & O2);
      [done|by apply push_cpu_ok|simpl in *; lia|by apply reapable_lock|].
    rewrite (bind_ret _ _ _ _ _ R2). unfold c2. rewrite set_proc_set. unfold y1.
    rewrite (bind_ret _ _ _ _ _ (crit_p (pushed c) _ np y unused Hy Hf Hok1 eq_refl)), Hse.
    change (set_p_lock _ (unused _)) with (unused y). replace (set_kk k2 s1) with (set_kk k2 (in_wait c s)) by by destruct s.
    rewrite (bind_ret _ _ _ _ _ (release_wait c s (set_proc np (unused y) (pushed c)) k2 Hok Hw eq_refl)).
    destruct (apart_kept (p_pagetable me) (set_kk k2 s) k1 T0 y T vs l l') as [US2 L2]; [done|by eapply tree_same_user|..].
    { intros p Hp. destruct (A p Hp) as [A1 A2]. split; [done|]. intros va Hva. rewrite (tree_same_upage T0 (k_mem (kk s))) by done. by apply A2. }
    { intros p Hp. by eapply reapable_pages. } { exact O2. } { done. } { exact M2. }
    exists (p_pid y), (set_proc np (unused y) (settled c)), k2. split; [done|]. apply (reap_done _ _ _ _ _ _ _ _ _ _ _ _ k2 l').
    + exact US2.
    + exact M2.
    + intros va Hva. etrans; [by apply (L2 va)|by apply Hu].
    + intros x Hx Hp. rewrite O2 by done. by apply O1.
  - cbn [Z.ltb Z.compare]. unfold c2, y1.
    rewrite (bind_ret _ _ _ _ _ (crit_p (pushed c) _ np y (fun q => q) Hy Hf Hok1 eq_refl)), Hse.
    change (set_p_lock _ (set_p_lock _ y)) with (set_p_lock (p_lock y) y). rewrite set_p_lock_same, set_proc_same by done.
    rewrite (bind_ret _ _ _ _ _ (release_wait c s (pushed c) k1 Hok Hw eq_refl)).
    eexists _, _, k1. split; [done|]. apply reap_fault; [done|done|split; [done|by eapply tree_same_user]|done|done].
Qed.

(** Whether the caller has children at all. *)
Definition kids (i : nat) (c : ctx) : bool := existsb (fun y => bool_decide (child i y)) (cx_procs c).

Lemma wait_scan_none c s i addr :
  scanning c -> length (cx_procs c) = Z.to_nat NPROC -> list_find (zombie i) (cx_procs c) = None ->
  wait_scan all_procs i addr false (c, s) = Ret (inr (kids i c)) (c, s).
Proof.
  intros H Hlen Hz. rewrite list_find_None, Forall_lookup in Hz. unfold all_procs.
  rewrite <- (app_nil_r (seq 0 _)), wait_scan_upto; [|done|lia|intros j y _; apply Hz].
  unfold kids. rewrite drop_0, take_ge by lia. done.
Qed.

Lemma wait_run c s i pid me addr T0 T vt vf vs l :
  kctx c i pid -> lock_free (k_wait_lock s) -> cx_procs c !! i = Some me -> p_state me = RUNNING -> 0 <= addr ->
  (forall np y, list_find (zombie i) (cx_procs c) = Some (np, y) ->
    uspace (p_pagetable me) s T0 l /\ reapable (kk s) y T vt vf vs l /\ apart (k_mem (kk s)) T0 y T vs) ->
  match list_find (zombie i) (cx_procs c) with
  | Some (np, y) => exists r c' k', wait addr (c, s) = Ret r (c', set_kk k' s) /\
      reap c s (p_pagetable me) addr T0 np y T vt vf vs l r c' k'
  | None =>
      if negb (kids i c) || negb (p_killed me =? 0) then wait addr (c, s) = Ret (-1) (settled c, s)
      else exists k, wait addr (c, s) = Swtch (set_proc i (asleep (ChProc i) (c_id (cx_cpu c)) me) (pushed c), s) k /\
        forall w, k w = ((upd_mycpu (set_c_intena (c_intena (cx_cpu (pushed c)))) ;; pupd i (set_p_chan None) ;; release (p_lk i) ;;
                          acquire wait_lk) ;; wait_loop (pred (cx_fuel c)) i addr) w
  end.
Proof.
  intros [CO Hn Hfu] Hw Hme Hst Ha Hz. pose proof (co_proc _ _ _ CO) as Hpr.
  pose proof (co_cpu _ _ _ CO) as Hok. pose proof (co_locks _ _ _ CO) as Hlk. pose proof (co_len _ _ _ CO) as Hlen.
  assert (Hp : pushed (settled c) = pushed c) by (unfold pushed, settled; cbn; by rewrite push_settle).
  assert (Hin : in_wait (settled c) s = in_wait c s) by (unfold in_wait, settled; cbn; by rewrite settle_id).
  assert (Hsn : scanning (pushed c)) by (split; [by apply push_cpu_ok|simpl; lia|done]).
  assert (E : wait addr (c, s) = wait_loop (cx_fuel c) i addr (pushed c, in_wait c s)).
  { unfold wait. rewrite (bind_ret _ _ _ _ _ (curproc_run c s i pid CO)), (bind_ret _ _ _ _ _ (acquire_wait (settled c) s Hw)).
    by rewrite Hp, Hin. }
  rewrite E. destruct (cx_fuel c) as [|f]; [lia|]. cbn [wait_loop].
  destruct (list_find (zombie i) (cx_procs c)) as [[np y]|] eqn:Ef.
  - destruct (Hz np y eq_refl) as (US & RP & A). apply list_find_Some in Ef as (Hy & Hzy & Hbef).
    pose proof (lookup_lt_Some _ _ _ Hy) as Hlt.
    destruct (wait_reaps c s i me np y (seq (S np) (Z.to_nat NPROC - S np)) addr
      (existsb (fun y => bool_decide (child i y)) (take np (drop 0 (cx_procs c)))) T0 T vt vf vs l) as (r & c' & k' & R & HR); [done..| |done|done|done|done|done|done|].
    { intros ->. destruct Hzy. congruence. }
    exists r, c', k'. split; [|done]. unfold all_procs. rewrite (seq_split np) by lia. unfold mbind, K_bind.
    rewrite wait_scan_upto; [|done|simpl; lia|intros j z Hj Hjz; eapply Hbef; [done|lia]]. cbn [orb]. change (cx_procs (pushed c)) with (cx_procs c). by rewrite R.
  - rewrite (bind_ret _ _ _ _ _ (wait_scan_none (pushed c) (in_wait c s) i addr Hsn Hlen Ef)).
    change (kids i (pushed c)) with (kids i c). rewrite (bind_ret _ _ _ _ _ (pget_run (pushed c) _ i me Hme)).
    destruct (_ || _).
    + replace (in_wait c s) with (set_kk (kk s) (in_wait c s)) by by destruct s.
      rewrite (bind_ret _ _ _ _ _ (release_wait c s (pushed c) (kk s) Hok Hw eq_refl)). by destruct s.
    + destruct (sleep_suspends k_wait_lock_l (ChProc i) (pushed c) (in_wait c s) i me (held (k_wait_lock s) (c_id (cx_cpu c)))) as (k & R & Hk);
        [split_and!; simpl; [done|lia|done]|done|by eapply (Forall_lookup_1 _ _ _ _ Hlk)|done|done|].
      eexists. unfold mbind at 1, K_bind at 1. unfold wait_lk at 1. rewrite R. cbn [obind]. split; [f_equal; f_equal|intros w; unfold mbind at 1, K_bind at 1; by rewrite <- Hk].
      destruct s. unfold in_wait. cbn in *. unfold set_k_wait_lock. cbn. f_equal. exact (unheld_free _ Hw).
Qed.

(** C8: wait(addr).  If the caller has a ZOMBIE child, the first one of the table is reaped: its pid is
    returned, its status is in the caller's memory at addr (unless addr is 0), its slot is
    UNUSED, and its trapframe, its memory and its page table are on the free list, each page
    once, with no other byte of memory changed; when addr is not mapped, -1 is returned and the zombie can
    still be reaped.  Otherwise, without children or killed, wait() returns -1 and
    changes nothing; and with children it gives up the CPU, asleep on its own channel with
    wait_lock released, to take it again and look again when it is woken. *)
Theorem wait_correct c s i pid me addr T0 T vt vf vs l :
  kctx c i pid -> lock_free (k_wait_lock s) -> cx_procs c !! i = Some me -> p_state me = RUNNING -> 0 <= addr ->
  (forall np y, list_find (zombie i) (cx_procs c) = Some (np, y) ->
    uspace (p_pagetable me) s T0 l /\ reapable (kk s) y T vt vf vs l /\ apart (k_mem (kk s)) T0 y T vs) ->
  match list_find (zombie i) (cx_procs c) with
  | Some (np, y) => exists r c' k', wait addr (c, s) = Ret r (c', set_kk k' s) /\
      reap c s (p_pagetable me) addr T0 np y T vt vf vs l r c' k'
  | None =>
      if negb (kids i c) || negb (p_killed me =? 0) then wait addr (c, s) = Ret (-1) (settled c, s)
      else exists k, wait addr (c, s) = Swtch (set_proc i (asleep (ChProc i) (c_id (cx_cpu c)) me) (pushed c), s) k /\
        forall w, k w = ((upd_mycpu (set_c_intena (c_intena (cx_cpu (pushed c)))) ;; pupd i (set_p_chan None) ;; release (p_lk i) ;;
                          acquire wait_lk) ;; wait_loop (pred (cx_fuel c)) i addr) w
  end.
Proof. apply wait_run. Qed.

End Reap.

(** ** A concrete child

    The caller has the page table [vm_T1], with one user page; its child in slot 3 has exited
    with status 7. *)

#[local] Instance wt_lay : Layout := vm_layout.

Definition wt_vt : Z := mkpte trampoline (Z.lor PTE_R PTE_X).
Definition wt_vf : Z := mkpte (pg 4) (Z.lor PTE_R PTE_W).
Definition wt_mem : mem :=
  st64 (st64 (st64 (st64 (k_mem vm_s1) (pg 3 + 8 * 255) (mkpte (pg 2) 0)) (pg 2 + 8 * 511) (mkpte (pg 1) 0))
    (pg 1 + 8 * 511) wt_vt) (pg 1 + 8 * 510) wt_vf.
Definition wt_k : kst := Kst wt_mem (Spinlock false "kmem" None) 0.
Definition wt_T : ptree := {[ [] := pg 3; [255] := pg 2; [255; 511] := pg 1 ]}.
Definition wt_child : proc :=
  set_p_xstate 7 (set_p_trapframe (pg 4) (set_p_pagetable (pg 3) (set_p_parent (Some 0%nat) (set_p_state ZOMBIE (set_p_pid 5 proc0))))).
Definition wt_ctx : ctx := set_proc 3 wt_child ctx_u.
Definition wt_s : kern := set_kk wt_k kern0.

Lemma wt_mem_ok : mem_ok wt_mem.
Proof. repeat apply st64_ok; apply mem_ok_empty. Qed.

Lemma wt_in p : in_tree wt_T p -> p = pg 3 \/ p = pg 2 \/ p = pg 1.
Proof. intros [path Hp]. unfold wt_T in Hp. rewrite !lookup_insert_Some, lookup_singleton_Some in Hp. naive_solver. Qed.

Lemma wt_kinv : kinv wt_k [].
Proof. apply vm_kinv; [by vm_compute|done|done|done|apply wt_mem_ok]. Qed.

Lemma wt_same : tree_same vm_T1 (k_mem vm_s1) (k_mem wt_k).
Proof.
  intros q x Hq Hx. unfold wt_k, wt_mem. cbn [k_mem]. rewrite !st64_get_out; [done|..];
    destruct (vm_in1 q Hq) as [->|[->| ->]]; unfold pg, PGSIZE in *; lia.
Qed.

Lemma wt_uspace : uspace (pg 8) wt_s vm_T1 [].
Proof.
  split; [split; [apply wt_kinv|apply vm_vinv1|eapply tree_same_at; [apply wt_same|apply vm_vinv1]|by intros p _ ?%elem_of_nil]|].
  destruct (tree_same_user _ _ _ _ wt_same vm_user1) as [U1 U2]. split; [|done].
  intros va p Hva Hp. destruct (U1 va p Hva Hp) as (? & ? & _). split_and!; [done..|apply not_elem_of_nil].
Qed.

(** The child's table maps nothing below its trapframe. *)
Lemma wt_rest va : 0 <= va < TRAPFRAME -> pte_at wt_mem wt_T va = None.
Proof.
  intros Hva. destruct (pte_at _ _ va) as [v|] eqn:H; [exfalso|done]. destruct (pte_in_leaf _ _ _ _ H) as (r & Hr & Hld & Hv).
  unfold leaf in Hr. apply fmap_Some in Hr as (q & Hq & ->). unfold wt_T in Hq. rewrite !lookup_insert_Some, lookup_singleton_Some in Hq.
  assert (q = pg 1 /\ PX 2 va = 255 /\ PX 1 va = 511) as (-> & E2 & E1).
  { destruct Hq as [[[=] _]|[_ [[[=] _]|[_ [[= E1 E2] <-]]]]]. by rewrite <- E1, <- E2. }
  pose proof (PX_range 0 va ltac:(lia)) as Hrg.
  assert (C : forallb (fun i => (510 <=? i) || negb (has (ld64 wt_mem (pg 1 + 8 * i)) PTE_V)) (seqZ 0 512) = true) by (by vm_compute).
  rewrite forallb_forall in C. specialize (C (PX 0 va) ltac:(apply list_elem_of_In, elem_of_seqZ; lia)).
  rewrite Hld, Hv, orb_false_r in C. apply Z.leb_le in C.
  assert (HT : TRAPFRAME = (255 * 512 * 512 + 511 * 512 + 510) * PGSIZE) by by vm_compute.
  assert (HM : MAXVA = TRAPFRAME + 2 * PGSIZE) by by vm_compute.
  pose proof (PX_page va) as HP. rewrite E2, E1 in HP. pose proof (Z.div_mod va PGSIZE ltac:(done)).
  pose proof (Z.mod_pos_bound va PGSIZE ltac:(done)). assert (PGSIZE = 4096) by done. lia.
Qed.

Lemma wt_reapable : reapable wt_k wt_child wt_T wt_vt wt_vf [] [].
Proof.
  split; [split|..].
  - split; [apply wt_kinv|apply tree_wfb_sound; by vm_compute|apply tree_atb_sound; by vm_compute|by intros p _ ?%elem_of_nil].
  - intros path p Hp. unfold wt_T in Hp. rewrite !lookup_insert_Some, lookup_singleton_Some in Hp.
    destruct Hp as [[<- _]|[_ [[<- _]|[_ [<- _]]]]]; cbn [path_ok]; [done| |]; (split; [lia|]); repeat constructor; lia.
  - split; [by vm_compute|vm_compute; discriminate].
  - split; [by vm_compute|vm_compute; discriminate].
  - split_and!; [done|vm_compute; discriminate|by vm_compute|vm_compute; discriminate].
  - split_and!; [by intros j v ?|constructor|]. split; [constructor|by intros v ?%elem_of_nil].
  - intros va Hva. apply wt_rest. exact Hva.
  - split; [apply page_okb_spec; by vm_compute|apply not_elem_of_nil].
  - split; [|apply not_elem_of_nil]. intros [E|[E|E]]%wt_in; revert E; vm_compute; discriminate.
Qed.

Lemma wt_apart : apart wt_mem vm_T1 wt_child wt_T [].
Proof.
  assert (Hu : forall va p, 0 <= va -> upage wt_mem vm_T1 va = Some p -> p = pg 5).
  { intros va p Hva. change wt_mem with (k_mem wt_k). rewrite (tree_same_upage _ _ _ _ wt_same). unfold upage. destruct (negb _); [done|].
    destruct (pte_at (k_mem vm_s1) vm_T1 va) as [v|] eqn:E; [|done]. cbn [mbind option_bind].
    destruct (vm_leaf1 va v E) as (-> & _). by intros [= <-]. }
  assert (Hp : forall p, ppages wt_child wt_T [] p -> p = pg 4 \/ p = pg 3 \/ p = pg 2 \/ p = pg 1).
  { intros p [->|[[]%elem_of_nil|H%wt_in]]; [by left|by right]. }
  intros p Hpp%Hp. split.
  - intros Hin%vm_in1. unfold pg, PGSIZE in *. lia.
  - intros va Hva E%Hu; [|done]. unfold pg, PGSIZE in *. lia.
Qed.

Lemma wait_correct_witness : exists c' k', wait 100 (wt_ctx, wt_s) = Ret 5 (c', set_kk k' wt_s) /\
  p_state <$> cx_procs c' !! 3%nat = Some UNUSED /\ uread (k_mem k') vm_T1 100 = Some 7.
Proof.
  pose proof (@wait_correct wt_lay vm_layout_ok wt_ctx wt_s 0 1 (set_p_pagetable (pg 8) (runner 1)) 100 vm_T1 wt_T wt_vt wt_vf [] []) as H.
  assert (Ef : list_find (zombie 0) (cx_procs wt_ctx) = Some (3%nat, wt_child)) by by vm_compute.
  rewrite Ef in H. destruct H as (r & c' & k' & R & HR).
  - split; [split; [split; simpl; [lia|done]|done|by eexists|done|]|done|simpl; lia]. apply (bool_decide_unpack _). by vm_compute.
  - done.
  - done.
  - done.
  - lia.
  - intros np y [= <- <-]. split_and!; [apply wt_uspace|apply wt_reapable|apply wt_apart].
  - exists c', k'. destruct HR as [k' l' _ _ Hm _|k' _ (va & Hva & Hn) _ _ _].
    + split; [exact R|]. split; [done|]. rewrite Hm by lia. by vm_compute.
    + exfalso. assert (C : forallb (fun x => bool_decide (is_Some (umem wt_s vm_T1 x))) [100; 101; 102; 103] = true) by by vm_compute.
      rewrite forallb_forall in C. specialize (C va ltac:(simpl; lia)). rewrite Hn in C. done.
Defined.
