(* ===== verification/ForkSpec.v ===== *)
(** * Creating a process (kernel/proc.c, allocproc() and fork())

    [proc_pagetable_run]: a new page table with the trampoline and the trapframe, or none and
    every page given back.  [allocproc] takes the first UNUSED slot, a pid, a trapframe
    and a page table.  [P] stands for the pages that others use: none of them is taken or
    changed. *)

From stdpp Require Import base numbers list list_numbers gmap strings.
From Stdlib Require Import ZArith Lia.
From S2P Require Import Prelude.
From S2P Require Import Machine.
From S2P Require Import Spinlock.
From S2P Require Import Mem.
From S2P Require Import Kalloc.
From S2P Require Import Vm.
From S2P Require Import VmSpec.
From S2P Require Import Uvm.
From S2P Require Import Uvmcopy.
From S2P Require Import Uvmfree.
From S2P Require Import Kern.
From S2P Require Import Sched.
From S2P Require Import SleepLk.
From S2P Require Import Bio.
From S2P Require Import UserMem.
From S2P Require Import Fs.
From S2P Require Import File.
From S2P Require Import Proc.
From S2P Require Import FsSpec.
From S2P Require Import NameSpec.
From S2P Require Import FileSpec.
From S2P Require Import PipeSpec.
From S2P Require Import ProcSpec.

Local Open Scope Z_scope.

Section Table.
Context {LY : Layout} {LO : LayoutOk} (P : Z -> Prop).

(** The pages of a table and the free pages, together. *)
Definition share (T : ptree) (l : list Z) (p : Z) : Prop := p ∈ l \/ in_tree T p.

Lemma grow_share s T l s' T' l' p : grow s T l s' T' l' -> share T' l' p <-> share T l p.
Proof.
  intros G. unfold share. split.
  - intros [H|H]; [left; by apply G|]. destruct (g_new _ _ _ _ _ _ G p H) as [?|[? _]]; auto.
  - intros [H|H]; [by apply G|]. right. eapply in_tree_sub; [apply G|done].
Qed.

(** Counting pages. *)
Lemma count_le (a b : list Z) : NoDup a -> (forall p, p ∈ a -> p ∈ b) -> (length a <= length b)%nat.
Proof. intros N H. by apply submseteq_length, NoDup_submseteq. Qed.

Lemma count_share (a l : list Z) T : NoDup a -> (forall p, p ∈ a -> share T l p) -> (length a <= length l + size T)%nat.
Proof.
  intros N H. rewrite <- length_map_to_list, <- (length_fmap snd), <- length_app. apply count_le; [done|]. intros p Hp. rewrite elem_of_app.
  destruct (H p Hp) as [?|[b Hb]]; [by left|right]. apply list_elem_of_fmap. exists (b, p). split; [done|]. by apply elem_of_map_to_list.
Qed.

Lemma uvmcreate_run c s l :
  kinv s l -> cpu_ok (cx_cpu c) -> kept P ∅ l ->
  (l = [] /\ uvmcreate (c, s) = Ret 0 (settled c, s)) \/
  exists root l1 s', l = root :: l1 /\ uvmcreate (c, s) = Ret root (settled c, s') /\ page_ok root /\ vinv root s' {[ [] := root ]} l1 /\
    kept P {[ [] := root ]} l1 /\ same_pages P (k_mem s) (k_mem s').
Proof.
  intros K Hok HP. unfold uvmcreate. destruct l as [|root l]; [left; by rewrite (bind_ret _ _ _ _ _ (kalloc_empty c s Hok K))|right].
  destruct (kalloc_zeroed c s root l Hok K) as (s1 & R & K1 & Hm & Ho & Ho1 & Hz). destruct (kinv_head _ _ _ K) as (_ & Hr & Hrl).
  rewrite (bind_ret _ _ _ _ _ R), page_nonzero, zero_bind by done. set (z := memset _ _ _ _) in *.
  assert (Hin : forall p, in_tree {[ [] := root ]} p -> p = root) by (intros p [b Hb]; by apply lookup_singleton_Some in Hb as [_ <-]).
  exists root, l, (with_mem s1 z). split_and!; [done|done|done|split| |].
  - apply kinv_write; [done..|]. intros pa x Hpa Hx. apply Ho1. pose proof (kinv_pages _ _ K1) as Hps. rewrite Forall_forall in Hps.
    apply (pages_apart root pa); [done|by apply Hps|by intros ->|unfold PGSIZE; lia].
  - split; [apply lookup_singleton_eq|..].
    + intros path p Hp. apply lookup_singleton_Some in Hp as [_ <-]. done.
    + intros path p Hp. apply lookup_singleton_Some in Hp as [<- _]. simpl. lia.
    + intros path i p Hp. apply lookup_singleton_Some in Hp as [Hp _]. by destruct path.
    + intros a b p Ha Hb. apply lookup_singleton_Some in Ha as [<- _], Hb as [<- _]. done.
  - intros path p i Hp _ Hi. apply lookup_singleton_Some in Hp as [<- <-]. rewrite lookup_singleton_ne by done. cbn [points].
    rewrite ld64_zero; [done|]. intros x Hx. apply Hz. unfold PGSIZE. lia.
  - by intros p ->%Hin.
  - intros q Hq. destruct (HP q Hq) as (H1 & _ & H3). apply not_elem_of_cons in H3 as [H3 H4]. split_and!; [done| |done]. by intros ->%Hin.
  - apply (off_page_same P ∅ (root :: l) root); [done|done| |done]. intros Hq. destruct (HP _ Hq) as (_ & _ & H). apply H. by left.
Qed.

(** A table that maps nothing goes back to the free list. *)
Lemma uvmfree_empty root T c s l :
  vinv root s T l -> tree_dom T -> cpu_ok (cx_cpu c) -> kept P T l -> (forall va, 0 <= va < MAXVA -> pte_at (k_mem s) T va = None) ->
  exists c' s' l', (uvmfree root 0 ;; mret 0) (c, s) = Ret 0 (c', s') /\ calm c c' /\ kinv s' l' /\
    (forall p, p ∈ l' <-> share T l p) /\ same_pages P (k_mem s) (k_mem s').
Proof.
  intros V D Hok K N. destruct (uvmfree_run root T [] 0 c s l) as (c' & s' & l' & R & Hc & K' & M & O);
    [done|done|done|done|done|done| |constructor| |exact N|].
  { by intros j v Hj. } { split; [constructor|by intros v ?%elem_of_nil]. }
  rewrite (bind_ret _ _ _ _ _ R). exists c', s', l'. split_and!; [done..| |].
  - intros p. rewrite M. unfold share. split; [intros [?|[?%elem_of_nil|?]]; auto; done|]. intros [?|?]; auto.
  - apply (untouched_keeps P root T l []); [apply V|done|by intros w ?%elem_of_nil|exact O].
Qed.

(** One page mapped at a place where nothing is. *)
Lemma map_new root T i pa perm c s l :
  vinv root s T l -> tree_dom T -> cpu_ok (cx_cpu c) -> kept P T l -> 0 <= i -> (i + 1) * PGSIZE <= MAXVA ->
  pa_ok pa -> pa + PGSIZE <= 2 ^ 56 -> 0 <= perm < 1024 ->
  (forall va, i * PGSIZE <= va < (i + 1) * PGSIZE -> pte_at (k_mem s) T va = None) ->
  exists r c' s' T' l', mappages root (i * PGSIZE) PGSIZE pa perm (c, s) = Ret r (c', s') /\ calm c c' /\
    vinv root s' T' l' /\ tree_dom T' /\ kept P T' l' /\ same_pages P (k_mem s) (k_mem s') /\
    (forall p, share T' l' p <-> share T l p) /\ (size T' <= size T + 2)%nat /\ (r = 0 \/ r = -1 /\ l' = []) /\
    (forall va, 0 <= va < MAXVA -> pte_at (k_mem s') T' va =
       if (r =? 0) && (va / PGSIZE =? i) then Some (mkpte pa perm) else pte_at (k_mem s) T va).
Proof.
  intros V D Hok K Hi Hm Hpa Hpm Hperm N.
  destruct (map_one root T i pa perm c s l) as (r & c' & s' & T' & l' & R & Hc & V' & G & Hs & Hr); [done..|].
  destruct (grow_keeps P root s T l s' T' l' V' G K) as [K' S']. exists r, c', s', T', l'.
  split_and!; [done..|by apply G|done|done|intros p; by eapply grow_share|done| |].
  - destruct Hr as [[-> _]|(-> & -> & _)]; auto.
  - by destruct Hr as [[-> L]|(-> & _ & L)].
Qed.

Definition TRAMP_PTE : Z := mkpte trampoline (Z.lor PTE_R PTE_X).
Definition TF_PTE (tf : Z) : Z := mkpte tf (Z.lor PTE_R PTE_W).

Lemma tramp_pa : pa_ok trampoline /\ trampoline + PGSIZE <= 2 ^ 56.
Proof.
  destruct layout_tramp as [H1 H2]. destruct layout_order as (L1 & L2 & L3). unfold PHYSTOP, KERNBASE, PGSIZE, pa_ok in *. change (2 ^ 56) with 72057594037927936. split; [split; [done|lia]|lia].
Qed.

Lemma page_index i va : va / PGSIZE = i <-> i * PGSIZE <= va < (i + 1) * PGSIZE.
Proof.
  pose proof (Z.div_mod va PGSIZE ltac:(done)). pose proof (Z.mod_pos_bound va PGSIZE ltac:(done)).
  unfold PGSIZE in *. split; [intros <-; lia|]. intros Hva. symmetry. apply (Z.div_unique _ _ _ (va - i * 4096)); lia.
Qed.

(** What proc_pagetable() returns: a table for a process without memory, or none; [Q] are the
    pages it started from. *)
Inductive new_table (tf : Z) (Q : Z -> Prop) (s' : kst) : Z -> Prop :=
  | table_done root T l' :
      pspace root s' T TRAMP_PTE (TF_PTE tf) [] l' 0 -> kept P T l' -> (forall p, share T l' p <-> Q p) -> (size T <= 5)%nat -> new_table tf Q s' root
  | table_none l' : kinv s' l' -> kept P ∅ l' -> (forall p, p ∈ l' <-> Q p) -> (length l' <= 5)%nat -> new_table tf Q s' 0.

Lemma new_table_ext tf (Q Q' : Z -> Prop) s' r : (forall p, Q p <-> Q' p) -> new_table tf Q s' r -> new_table tf Q' s' r.
Proof.
  intros H [root T l' H1 H2 H3 H4|l' H1 H2 H3 H4]; [apply (table_done _ _ _ root T l')|apply (table_none _ _ _ l')]; try done; intros p; by rewrite H3.
Qed.

Lemma kept_none T l l' : kept P T l -> (forall p, p ∈ l' <-> share T l p) -> kept P ∅ l'.
Proof.
  intros K M q Hq. destruct (K q Hq) as (H1 & H2 & H3). split_and!; [done| |].
  - intros [b Hb]. by rewrite lookup_empty in Hb.
  - rewrite M. unfold share. tauto.
Qed.

(** The table given up again. *)
Lemma table_undo root T tf c s l :
  vinv root s T l -> tree_dom T -> cpu_ok (cx_cpu c) -> kept P T l -> l = [] -> (size T <= 5)%nat -> (forall va, 0 <= va < MAXVA -> pte_at (k_mem s) T va = None) ->
  exists r c' s', (uvmfree root 0 ;; mret 0) (c, s) = Ret r (c', s') /\ calm c c' /\ same_pages P (k_mem s) (k_mem s') /\ new_table tf (share T l) s' r.
Proof.
  intros V D Hok K Hl Hs N. destruct (uvmfree_empty root T c s l V D Hok K N) as (c3 & s3 & l3 & R3 & Hc3 & K3 & M3 & S3).
  exists 0, c3, s3. split_and!; [done..|]. apply (table_none _ _ _ l3); [done|by eapply kept_none|done|].
  pose proof (count_share l3 l T (kinv_nodup _ _ K3)) as H. rewrite Hl in *. simpl in H. etrans; [|exact Hs]. apply H. intros p. apply M3.
Qed.

Lemma tf_flags tf : PTE_FLAGS TRAMP_PTE <> PTE_V /\ PTE_FLAGS (TF_PTE tf) <> PTE_V.
Proof. unfold TRAMP_PTE, TF_PTE. split; (rewrite mkpte_flags by (split; by vm_compute); by vm_compute). Qed.

(** The trapframe mapped into a table that has the trampoline. *)
Lemma table_trapframe root T tf c s l :
  vinv root s T l -> tree_dom T -> cpu_ok (cx_cpu c) -> kept P T l -> page_ok tf -> (size T <= 3)%nat ->
  (forall va, 0 <= va < MAXVA -> pte_at (k_mem s) T va = if va / PGSIZE =? 67108863 then Some TRAMP_PTE else None) ->
  exists r c' s', (r ← mappages root TRAPFRAME PGSIZE tf (Z.lor PTE_R PTE_W);
      if r <? 0 then uvmunmap root TRAMPOLINE 1 false ;; uvmfree root 0 ;; mret 0 else mret root) (c, s) = Ret r (c', s') /\
    calm c c' /\ same_pages P (k_mem s) (k_mem s') /\ new_table tf (share T l) s' r.
Proof.
  intros V D Hok K Htf Hs L. destruct (tf_flags tf) as [F1 F2].
  assert (E1 : TRAMPOLINE = 67108863 * PGSIZE) by done. assert (E2 : TRAPFRAME = 67108862 * PGSIZE) by done.
  assert (E3 : MAXVA = 67108864 * PGSIZE) by done. assert (EP : PGSIZE = 4096) by done.
  destruct (map_new root T 67108862 tf (Z.lor PTE_R PTE_W) c s l) as (r2 & c2 & s2 & T2 & l2 & R2 & Hc2 & V2 & D2 & K2 & S2 & M2 & Hs2 & Hr2 & L2);
    [done|done|done|done|lia|lia|by apply page_pa|by apply page_below|split; by vm_compute| |].
  { intros va Hva. rewrite L by lia. apply page_index in Hva. by rewrite Hva. }
  rewrite E2, (bind_ret _ _ _ _ _ R2). destruct Hr2 as [->|[-> Hl2]]; cbn [Z.ltb Z.compare].
  - exists root, c2, s2. split_and!; [done..|]. apply (table_done _ _ _ root T2 l2); [|done|done|lia]. split.
    + done.
    + done.
    + split; [|done]. by rewrite L2, L by done.
    + split; [|done]. by rewrite L2 by done.
    + split_and!; done.
    + split_and!; [by intros j v ?|constructor|]. split; [constructor|by intros v ?%elem_of_nil].
    + intros va Hva. cbn [length Z.of_nat Z.mul] in Hva. rewrite L2, L by lia. cbn [Z.eqb andb].
      destruct (Z.eqb_spec (va / PGSIZE) 67108862) as [H%page_index|_]; [lia|].
      by destruct (Z.eqb_spec (va / PGSIZE) 67108863) as [H%page_index|_]; [lia|].
  - destruct (unmap_one root T2 TRAMPOLINE TRAMP_PTE c2 s2 l2 V2) as (c3 & s3 & R3 & Hc3 & V3 & U3 & L3);
      [by eapply calm_ok|done|done|lia|by rewrite L2, L by done|done|].
    rewrite (bind_ret _ _ _ _ _ R3). destruct (table_undo root T2 tf c3 s3 l2) as (r & c' & s' & R & Hc & S & NT);
      [done|done|by eapply calm_ok, calm_ok|done|done|lia| |].
    { intros va Hva. rewrite L3, L2, L by done. cbn [Z.eqb andb]. unfold unmapped.
      destruct (Z.eqb_spec (va / PGSIZE) 67108863) as [H|H]; [|by destruct (_ && _)]. apply page_index in H.
      by rewrite (proj2 (Z.leb_le _ _)), (proj2 (Z.ltb_lt _ _)) by lia. }
    exists r, c', s'. split_and!; [done|by do 2 (eapply calm_trans; [done|])| |by eapply new_table_ext].
    eapply same_pages_trans; [done|]. eapply same_pages_trans; [|done].
    apply (untouched_keeps P root T2 l2 []); [apply V2|done|by intros w ?%elem_of_nil|done].
Qed.

Lemma proc_pagetable_run tf c s l :
  kinv s l -> cpu_ok (cx_cpu c) -> kept P ∅ l -> page_ok tf ->
  exists r c' s', proc_pagetable tf (c, s) = Ret r (c', s') /\ calm c c' /\ same_pages P (k_mem s) (k_mem s') /\ new_table tf (fun p => p ∈ l) s' r.
Proof.
  intros K Hok HP Htf. unfold proc_pagetable. destruct tramp_pa as [Htp Htm].
  destruct (uvmcreate_run c s l K Hok HP) as [[-> R]|(root & l1 & s1 & -> & R & Hroot & V1 & K1 & S1)]; rewrite (bind_ret _ _ _ _ _ R); clear R.
  { exists 0, (settled c), s. split_and!; [done|apply calm_settled|done|]. apply (table_none _ _ _ []); [done..|simpl; lia]. }
  rewrite (page_nonzero _ Hroot). set (T0 := {[ [] := root ]}) in *.
  assert (D0 : tree_dom T0) by (intros path p Hp; by apply lookup_singleton_Some in Hp as [<- _]).
  assert (N0 : forall va, pte_at (k_mem s1) T0 va = None) by (intros va; unfold pte_at, leaf, T0; by rewrite lookup_singleton_ne).
  assert (M0 : forall p, share T0 l1 p <-> p ∈ root :: l1).
  { intros p. unfold share, T0. rewrite elem_of_cons. split; [|intros [->|?]; [right; by exists []|by left]].
    intros [?|[b Hb]]; [by right|]. apply lookup_singleton_Some in Hb as [_ <-]. by left. }
  assert (E1 : TRAMPOLINE = 67108863 * PGSIZE) by done. assert (E3 : MAXVA = 67108864 * PGSIZE) by done. assert (EP : PGSIZE = 4096) by done.
  destruct (map_new root T0 67108863 trampoline (Z.lor PTE_R PTE_X) (settled c) s1 l1) as (r2 & c2 & s2 & T2 & l2 & R2 & Hc2 & V2 & D2 & K2 & S2 & M2 & Hs2 & Hr2 & L2);
    [done|done|by apply settled_ok|done|lia|lia|done|done|split; by vm_compute|intros; apply N0|].
  rewrite <- E1 in R2. rewrite (bind_ret _ _ _ _ _ R2).
  assert (Hc : calm c c2) by (eapply calm_trans; [apply calm_settled|done]).
  assert (X : exists r c' s', (if r2 <? 0 then uvmfree root 0 ;; mret 0 else
      r ← mappages root TRAPFRAME PGSIZE tf (Z.lor PTE_R PTE_W);
      if r <? 0 then uvmunmap root TRAMPOLINE 1 false ;; uvmfree root 0 ;; mret 0 else mret root) (c2, s2) = Ret r (c', s') /\
    calm c2 c' /\ same_pages P (k_mem s2) (k_mem s') /\ new_table tf (share T2 l2) s' r).
  { unfold T0 in Hs2. rewrite map_size_singleton in Hs2. destruct Hr2 as [->|[-> Hl2]]; cbn [Z.ltb Z.compare].
    - apply table_trapframe; [done|done|by eapply calm_ok|done|done|lia|]. intros va Hva. rewrite L2, N0 by done. done.
    - apply table_undo; [done|done|by eapply calm_ok|done|done|lia|]. intros va Hva. rewrite L2, N0 by done. done. }
  destruct X as (r & c' & s' & R & Hc' & S' & NT). exists r, c', s'. split_and!; [done|by eapply calm_trans| |].
  - by do 2 (eapply same_pages_trans; [done|]).
  - eapply new_table_ext; [|done]. intros p. by rewrite M2.
Qed.

End Table.

(** ** allocproc() *)

(** An UNUSED slot, as procinit() and freeproc() leave it. *)
Record idle (y : proc) : Prop := {
  id_state : p_state y = UNUSED;
  id_tf : p_trapframe y = 0;
  id_pt : p_pagetable y = 0;
  id_sz : p_sz y = 0;
  id_files : p_ofile y = replicate (Z.to_nat NOFILE) None
}.

Definition is_unused (y : proc) : Prop := p_state y = UNUSED.
#[global] Instance is_unused_dec y : Decision (is_unused y).
Proof. unfold is_unused. apply _. Defined.

Section Alloc.
Context {LY : Layout} {LO : LayoutOk} {SY : Symbols}.

Lemma allocpid_run c s :
  lock_free (k_pid_lock s) -> cpu_ok (cx_cpu c) -> 0 < c_noff (cx_cpu c) ->
  allocpid (c, s) = Ret (k_nextpid s) (c, set_k_nextpid (k_nextpid s + 1) s).
Proof.
  intros Hf Hok Hn. unfold allocpid. set (s1 := set_k_pid_lock (held (k_pid_lock s) (c_id (cx_cpu c))) s).
  assert (E1 : acquire pid_lk (c, s) = Ret tt (pushed c, s1)) by (unfold pid_lk; by rewrite (acquire_run _ _ (k_pid_lock s)) by (done || apply Hf)).
  rewrite (bind_ret _ _ _ _ _ E1).
  assert (E2 : load (inS k_nextpid_l) (pushed c, s1) = Ret (k_nextpid s) (pushed c, s1)) by done. rewrite (bind_ret _ _ _ _ _ E2).
  set (s2 := set_k_nextpid (k_nextpid s + 1) s1).
  assert (E3 : store (inS k_nextpid_l) (k_nextpid s + 1) (pushed c, s1) = Ret tt (pushed c, s2)) by done. rewrite (bind_ret _ _ _ _ _ E3).
  assert (E4 : release pid_lk (pushed c, s2) = Ret tt (c, set_k_nextpid (k_nextpid s + 1) s)); [|by rewrite (bind_ret _ _ _ _ _ E4)].
  unfold pid_lk. erewrite release_run; [|apply _|reflexivity|done|done|simpl; lia]. unfold upd_cpu. cbn [fst snd]. f_equal. f_equal.
  - cbn. rewrite pop_push_cpu by done. unfold settle. rewrite (proj2 (Z.eqb_neq _ _)) by lia. by destruct c.
  - destruct s. cbn in *. unfold s2, s1, set_k_nextpid, set_k_pid_lock. cbn. f_equal. exact (unheld_free _ Hf).
Qed.

(** The slots before the first UNUSED one are passed over. *)
Lemma find_unused_proc_step c s j y ps :
  settled c = c -> cpu_ok (cx_cpu c) -> cx_procs c !! j = Some y -> lock_free (p_lock y) -> ~ is_unused y ->
  find_unused_proc (j :: ps) (c, s) = find_unused_proc ps (c, s).
Proof.
  intros Hs Hok Hy Hf Hu. cbn [find_unused_proc]. rewrite (bind_ret _ _ _ _ _ (acquire_p c s j y Hy Hf)).
  set (y1 := set_p_lock _ y). set (c1 := set_proc j y1 _).
  assert (H1 : cx_procs c1 !! j = Some y1) by (apply set_proc_get; simpl; eauto).
  rewrite (bind_ret _ _ _ _ _ (pget_run c1 s j y1 H1)), bool_decide_false by done.
  unfold c1, y1. rewrite (bind_ret _ _ _ _ _ (crit_p c s j y (fun q => q) Hy Hf Hok eq_refl)), Hs.
  change (set_p_lock _ (set_p_lock _ y)) with (set_p_lock (p_lock y) y). by rewrite set_p_lock_same, set_proc_same.
Qed.

Lemma find_unused_proc_skip c s ps m k :
  settled c = c -> cpu_ok (cx_cpu c) -> Forall (fun p => lock_free (p_lock p)) (cx_procs c) -> (k + m <= length (cx_procs c))%nat ->
  (forall j y, (k <= j < k + m)%nat -> cx_procs c !! j = Some y -> ~ is_unused y) ->
  find_unused_proc (seq k m ++ ps) (c, s) = find_unused_proc ps (c, s).
Proof.
  intros Hs Hok Hlk. revert k. induction m as [|m IH]; intros k Hk Hu; [done|].
  destruct (lookup_lt_is_Some_2 (cx_procs c) k) as [y Hy]; [lia|]. cbn [seq app].
  rewrite (find_unused_proc_step c s k y); [|done|done|done|by eapply (Forall_lookup_1 _ _ _ _ Hlk)|apply (Hu k); [lia|done]].
  apply IH; [lia|]. intros j z Hj. apply Hu. lia.
Qed.

(** The slot allocproc() works on, with p->lock held. *)
Definition owned (c : ctx) (y : proc) : proc := set_p_lock (held (p_lock y) (c_id (cx_cpu c))) y.

Lemma find_unused_proc_run c s :
  settled c = c -> cpu_ok (cx_cpu c) -> Forall (fun p => lock_free (p_lock p)) (cx_procs c) -> length (cx_procs c) = Z.to_nat NPROC ->
  find_unused_proc all_procs (c, s) =
    match list_find is_unused (cx_procs c) with
    | Some (np, y) => Ret (Some np) (set_proc np (owned c y) (pushed c), s)
    | None => Ret None (c, s)
    end.
Proof.
  intros Hs Hok Hlk Hlen. unfold all_procs. destruct (list_find is_unused (cx_procs c)) as [[np y]|] eqn:E.
  - apply list_find_Some in E as (Hy & Hu & Hb). pose proof (lookup_lt_Some _ _ _ Hy).
    rewrite (seq_split np (Z.to_nat NPROC)) by lia.
    rewrite find_unused_proc_skip; [|done|done|done|lia|intros j z Hj Hz; eapply Hb; [done|lia]]. cbn [find_unused_proc].
    rewrite (bind_ret _ _ _ _ _ (acquire_p c s np y Hy (Forall_lookup_1 _ _ _ _ Hlk Hy))).
    erewrite bind_ret by (apply pget_run, set_proc_get; simpl; eauto). by rewrite bool_decide_true.
  - rewrite list_find_None, Forall_lookup in E. rewrite <- (app_nil_r (seq 0 _)).
    rewrite find_unused_proc_skip; [done|done|done|done|lia|intros j z _; apply E].
Qed.

(** freeproc() of a slot that has no page table yet. *)
Lemma freeproc_bare P np c s y l :
  cx_procs c !! np = Some y -> cpu_ok (cx_cpu c) -> 0 < c_noff (cx_cpu c) -> kinv (kk s) l -> kept P ∅ l -> p_pagetable y = 0 ->
  p_trapframe y = 0 \/ page_ok (p_trapframe y) /\ (p_trapframe y ∉ l) /\ ~ P (p_trapframe y) ->
  exists k' l', freeproc np (c, s) = Ret tt (set_proc np (unused y) c, set_kk k' s) /\ kinv k' l' /\
    (forall p, p ∈ l' <-> p ∈ l \/ p = p_trapframe y /\ p <> 0) /\ same_pages P (k_mem (kk s)) (k_mem k').
Proof.
  intros Hy Hok Hn K HP Hpt Htf.
  assert (X : exists k' l', (if negb (p_trapframe y =? 0) then kmem (kfree (p_trapframe y)) else mret tt) (c, s) = Ret tt (c, set_kk k' s) /\ kinv k' l' /\
    (forall p, p ∈ l' <-> p ∈ l \/ p = p_trapframe y /\ p <> 0) /\ same_pages P (k_mem (kk s)) (k_mem k')).
  { destruct Htf as [->|(Hp & Hl & HnP)].
    - exists (kk s), l. split_and!; [by destruct s|done| |done]. intros p. split; [by left|]. by intros [?|[? ?]].
    - rewrite (page_nonzero _ Hp). cbn [negb]. destruct (kfree_spec c (kk s) (p_trapframe y) l Hok K Hp Hl) as (k1 & R1 & K1 & O1).
      rewrite (calm_held c (settled c) Hn (calm_settled c)) in R1. exists k1, (p_trapframe y :: l). split_and!; [by apply (zoom_ret kk_l _ c s (kk s))|done| |].
      + intros p. rewrite elem_of_cons. pose proof (page_ok_pos _ Hp). split; [intros [->|?]; [right; split; [done|lia]|by left]|]. intros [?|[-> _]]; auto.
      + by apply (off_page_same P ∅ l (p_trapframe y)). }
  destruct X as (k' & l' & R & K' & M & S). exists k', l'. split_and!; [|done..].
  unfold freeproc. rewrite (bind_ret _ _ _ _ _ (pget_run c s np y Hy)), (bind_ret _ _ _ _ _ R), (pupd_step _ _ _ _ _ _ Hy).
  erewrite bind_ret by (apply pget_run, set_proc_get; eauto). cbn [p_pagetable set_p_trapframe]. rewrite Hpt. cbn [Z.eqb negb]. rewrite mret_bind.
  do 8 (erewrite pupd_step by (apply set_proc_get; eauto); rewrite set_proc_set).
  erewrite pupd_run by (apply set_proc_get; eauto). by rewrite set_proc_set.
Qed.

(** The slot allocproc() fills. *)
Definition born (c : ctx) (y : proc) (pid tf root : Z) : proc :=
  set_p_context (Context sym_forkret (u64 (p_kstack y + PGSIZE)) (replicate 12 0))
    (set_p_pagetable root (set_p_trapframe tf (set_p_state USED (set_p_pid pid (owned c y))))).

(** What allocproc() makes of the first UNUSED slot; [P] are the pages in use, [k0] is the memory
    before, with the free pages [l]. *)
Inductive alloced (P : Z -> Prop) (c : ctx) (k0 : kst) (pid : Z) (np : nat) (y : proc) (l : list Z) : option nat -> ctx -> kst -> Prop :=
  | alloc_done k' root T l' tf :
      pspace root k' T TRAMP_PTE (TF_PTE tf) [] l' 0 -> kept P T l' -> page_ok tf -> (tf ∉ l') -> ~ in_tree T tf -> ~ P tf -> (size T <= 5)%nat ->
      (forall p, share T l' p \/ p = tf <-> p ∈ l) -> same_pages P (k_mem k0) (k_mem k') ->
      alloced P c k0 pid np y l (Some np) (set_proc np (born c y pid tf root) (pushed c)) k'
  | alloc_none k' l' :
      kinv k' l' -> (forall p, p ∈ l' <-> p ∈ l) -> (length l' <= 6)%nat -> same_pages P (k_mem k0) (k_mem k') ->
      alloced P c k0 pid np y l None (set_proc np (unused y) c) k'.

(** The end of a failed allocproc(): the slot is freed and p->lock released. *)
Lemma alloc_gives_up P c s np y z l :
  settled c = c -> cpu_ok (cx_cpu c) -> cx_procs c !! np = Some y -> lock_free (p_lock y) -> unused z = unused (owned c y) ->
  kinv (kk s) l -> kept P ∅ l -> p_pagetable z = 0 ->
  p_trapframe z = 0 \/ page_ok (p_trapframe z) /\ (p_trapframe z ∉ l) /\ ~ P (p_trapframe z) ->
  exists k' l', (freeproc np ;; release (p_lk np) ;; mret (None (A := nat))) (set_proc np z (pushed c), s) =
      Ret None (set_proc np (unused y) c, set_kk k' s) /\ kinv k' l' /\
    (forall p, p ∈ l' <-> p ∈ l \/ p = p_trapframe z /\ p <> 0) /\ same_pages P (k_mem (kk s)) (k_mem k').
Proof.
  intros Hs Hok Hy Hf Hz K HP Hpt Htf.
  destruct (freeproc_bare P np (set_proc np z (pushed c)) s z l) as (k' & l' & R & K' & M & S);
    [apply set_proc_get; simpl; eauto|by apply push_cpu_ok|destruct Hok; simpl; lia|done..|].
  exists k', l'. split_and!; [|done..]. rewrite (bind_ret _ _ _ _ _ R), set_proc_set, Hz.
  unfold owned, pushed. by rewrite (bind_ret _ _ _ _ _ (crit_p c _ np y unused Hy Hf Hok eq_refl)), Hs.
Qed.

(** The second half of allocproc(), with a trapframe page. *)
Lemma alloc_table P c k0 pid s np y l tf :
  settled c = c -> cpu_ok (cx_cpu c) -> cx_procs c !! np = Some y -> lock_free (p_lock y) -> idle y ->
  kinv (kk s) l -> page_ok tf -> (tf ∉ l) -> ~ P tf -> kept P ∅ l -> same_pages P (k_mem k0) (k_mem (kk s)) ->
  exists r c' k',
    (pagetable ← kmem (proc_pagetable tf);
     pupd np (set_p_pagetable pagetable) ;;
     if pagetable =? 0 then freeproc np ;; release (p_lk np) ;; mret None else
     pupd np (fun x => set_p_context (Context sym_forkret (u64 (p_kstack x + PGSIZE)) (replicate 12 0)) x) ;;
     mret (Some np)) (set_proc np (set_p_trapframe tf (set_p_state USED (set_p_pid pid (owned c y)))) (pushed c), s) = Ret r (c', set_kk k' s) /\
    alloced P c k0 pid np y (tf :: l) r c' k'.
Proof.
  intros Hs Hok Hy Hf [_ Itf Ipt _ _] K Htf Hntf HnP HP S1. set (z := set_p_trapframe tf _).
  assert (Hok1 : cpu_ok (cx_cpu (pushed c))) by by apply push_cpu_ok. assert (Hn1 : 0 < c_noff (cx_cpu (pushed c))) by (destruct Hok; simpl; lia).
  assert (Hget : forall z, cx_procs (set_proc np z (pushed c)) !! np = Some z) by (intros u; apply set_proc_get; simpl; eauto).
  assert (HP1 : kept (fun q => P q \/ q = tf) ∅ l).
  { intros q [Hq| ->]; [by apply HP|]. split_and!; [done| |done]. intros [b Hb]. by rewrite lookup_empty in Hb. }
  destruct (proc_pagetable_run (fun q => P q \/ q = tf) tf (set_proc np z (pushed c)) (kk s) l K Hok1 HP1 Htf) as (r & c2 & k2 & R2 & Hc2 & S2 & NT).
  apply calm_held in Hc2; [|done]. subst c2. rewrite (bind_ret _ _ _ _ _ (zoom_ret kk_l _ _ s (kk s) r _ k2 eq_refl R2)).
  rewrite (pupd_step _ _ _ _ _ _ (Hget _)), set_proc_set. change (put kk_l k2 s) with (set_kk k2 s).
  assert (S12 : same_pages P (k_mem k0) (k_mem k2)) by (eapply same_pages_trans; [done|]; eapply same_pages_sub; [|done]; by left).
  destruct NT as [root T l' SP KP M HT|l' K2 KP M Hl'].
  - rewrite (page_nonzero _ (pspace_root _ _ _ _ _ _ _ _ SP)), (pupd_step _ _ _ _ _ _ (Hget _)), set_proc_set.
    exists (Some np), (set_proc np (born c y pid tf root) (pushed c)), k2. split; [done|].
    destruct (KP tf) as (_ & Hnt & Hnl); [by right|]. apply (alloc_done _ _ _ _ _ _ _ k2 root T l' tf); [done| |done..| |done].
    + intros q Hq. apply KP. by left.
    + intros p. rewrite M, elem_of_cons. tauto.
  - cbn [Z.eqb]. destruct (alloc_gives_up P c (set_kk k2 s) np y (set_p_pagetable 0 z) l') as (k' & l'' & R & K' & M' & S); [done|done|done|done|done|done| |done| |].
    { intros q Hq. apply KP. by left. } { right. split_and!; [done| |done]. cbn. by rewrite M. }
    exists None, (set_proc np (unused y) c), k'. split; [replace (set_kk k' s) with (set_kk k' (set_kk k2 s)) by (by destruct s); exact R|].
    apply (alloc_none _ _ _ _ _ _ _ k' l''); [done| | |by eapply same_pages_trans].
    2: { pose proof (count_le l'' (tf :: l') (kinv_nodup _ _ K')) as H. simpl in H. etrans; [apply H|lia]. intros p [?|[-> _]]%M'; [by right|by left]. }
    intros p. rewrite M', M, elem_of_cons. cbn. pose proof (page_ok_pos _ Htf). split; [intros [?|[? ?]]; auto|].
    intros [->|?]; [right; split; [done|lia]|by left].
Qed.

Lemma allocproc_run P c s np y l :
  settled c = c -> cpu_ok (cx_cpu c) -> Forall (fun p => lock_free (p_lock p)) (cx_procs c) -> length (cx_procs c) = Z.to_nat NPROC ->
  list_find is_unused (cx_procs c) = Some (np, y) -> idle y -> lock_free (k_pid_lock s) -> kinv (kk s) l -> kept P ∅ l ->
  exists r c' k', allocproc (c, s) = Ret r (c', set_kk k' (set_k_nextpid (k_nextpid s + 1) s)) /\
    alloced P c (kk s) (k_nextpid s) np y l r c' k'.
Proof.
  intros Hs Hok Hlk Hlen Hfind I Hpid K HP. unfold allocproc.
  pose proof (find_unused_proc_run c s Hs Hok Hlk Hlen) as R0. rewrite Hfind in R0. rewrite (bind_ret _ _ _ _ _ R0). clear R0.
  apply list_find_Some in Hfind as (Hy & _ & _). pose proof (Forall_lookup_1 _ _ _ _ Hlk Hy) as Hf. cbn beta in Hf.
  assert (Hok1 : cpu_ok (cx_cpu (pushed c))) by by apply push_cpu_ok. assert (Hn1 : 0 < c_noff (cx_cpu (pushed c))) by (destruct Hok; simpl; lia).
  assert (Hget : forall z, cx_procs (set_proc np z (pushed c)) !! np = Some z) by (intros z; apply set_proc_get; simpl; eauto).
  set (s1 := set_k_nextpid (k_nextpid s + 1) s).
  rewrite (bind_ret _ _ _ _ _ (allocpid_run (set_proc np _ (pushed c)) s Hpid Hok1 Hn1)). fold s1.
  do 2 (rewrite (pupd_step _ _ _ _ _ _ (Hget _)), set_proc_set). set (z := set_p_state USED _).
  assert (HP0 : settled (set_proc np z (pushed c)) = set_proc np z (pushed c)) by by apply (calm_held (set_proc np z (pushed c))), calm_settled.
  destruct l as [|tf l].
  - pose proof (kalloc_empty (set_proc np z (pushed c)) (kk s) Hok1 K) as R1. rewrite HP0 in R1.
    rewrite (bind_ret _ _ _ _ _ (zoom_ret kk_l _ _ s1 (kk s) 0 _ (kk s) eq_refl R1)). cbn [Z.eqb].
    rewrite (pupd_step _ _ _ _ _ _ (Hget _)), set_proc_set. replace (put kk_l (kk s) s1) with s1 by by destruct s.
    destruct (alloc_gives_up P c s1 np y (set_p_trapframe 0 z) []) as (k' & l' & R & K' & M & S); [done..|apply I|by left|].
    exists None, (set_proc np (unused y) c), k'. split; [exact R|]. apply (alloc_none _ _ _ _ _ _ _ k' l'); [done| | |done].
    2: { etrans; [apply (count_le l' [])|simpl; lia]; [apply K'|]. by intros p [?|[? ?]]%M. }
    intros p. rewrite M. cbn. split; [by intros [?|[? ?]]|by left].
  - destruct (kalloc_some (set_proc np z (pushed c)) (kk s) tf l Hok1 K) as (k1 & R1 & K1 & O1 & _). rewrite HP0 in R1.
    destruct (kinv_head _ _ _ K) as (_ & Htf & Hntf).
    rewrite (bind_ret _ _ _ _ _ (zoom_ret kk_l _ _ s1 (kk s) tf _ k1 eq_refl R1)).
    rewrite (pupd_step _ _ _ _ _ _ (Hget _)), set_proc_set, (page_nonzero _ Htf).
    assert (HnP : ~ P tf) by (intros Hq; destruct (HP _ Hq) as (_ & _ & H); apply H; by left).
    destruct (alloc_table P c (kk s) (k_nextpid s) (set_kk k1 s1) np y l tf) as (r & c' & k' & R & A); [done..| |by apply (off_page_same P ∅ (tf :: l) tf)|].
    { intros q Hq. destruct (HP q Hq) as (? & ? & H%not_elem_of_cons). by split_and!; [..|apply H]. }
    exists r, c', k'. split; [|done]. replace (set_kk k' s1) with (set_kk k' (set_kk k1 s1)) by (by destruct s). exact R.
Qed.

End Alloc.

(** ** fork() *)

Section Fork.
Context {LY : Layout} {LO : LayoutOk} {SY : Symbols}.

(** The pages that are not free. *)
Definition busy (l : list Z) (q : Z) : Prop := page_ok q /\ (q ∉ l).

Lemma busy_kept l : kept (busy l) ∅ l.
Proof. intros q [H1 H2]. split_and!; [done| |done]. intros [b Hb]. by rewrite lookup_empty in Hb. Qed.

Lemma not_busy l q : page_ok q -> ~ busy l q -> q ∈ l.
Proof. intros H1 H2. destruct (decide (q ∈ l)); [done|]. exfalso. by apply H2. Qed.

Lemma busy_parent root s T vt vf vs l sz q : pspace root s T vt vf vs l sz -> parent_page T vs q -> busy l q.
Proof.
  intros S [[path Hp]|(v & -> & Hv)%list_elem_of_fmap].
  - destruct (ps_vinv _ _ _ _ _ _ _ _ S) as [_ W _ Hs]. split; [by eapply tw_page|]. apply Hs. by exists path.
  - destruct (ps_user _ _ _ _ _ _ _ _ S) as (_ & _ & _ & H). by destruct (H v Hv) as (? & _ & ?).
Qed.

Lemma size_pages sz n : 0 <= sz <= TRAPFRAME -> PGROUNDUP sz = Z.of_nat n * PGSIZE -> n = Z.to_nat ((sz + PGSIZE - 1) / PGSIZE).
Proof.
  intros H. assert (TRAPFRAME < 2 ^ 40) by done. rewrite PGROUNDUP_eq by (unfold PGSIZE; lia). unfold PGSIZE in *. lia.
Qed.

(** Memory that differs only in pages that were free. *)
Lemma busy_same root s T vt vf vs l sz m' :
  pspace root s T vt vf vs l sz -> same_pages (busy l) (k_mem s) m' -> tree_same T (k_mem s) m'.
Proof. intros S H q x Hq. apply H. eapply busy_parent; [done|by left]. Qed.

(** The memory of the new process, after allocproc(): [k1]; [k0] was the memory before. *)
Record forking (k0 k1 : kst) (root : Z) (T : ptree) (tf : Z) (l l1 : list Z) : Prop := {
  fk_space : pspace root k1 T TRAMP_PTE (TF_PTE tf) [] l1 0;
  fk_kept : kept (busy l) T l1;
  fk_tf : page_ok tf /\ (tf ∉ l1) /\ ~ in_tree T tf /\ ~ busy l tf;
  fk_all : forall p, share T l1 p \/ p = tf <-> p ∈ l;
  fk_size : (size T <= 5)%nat;
  fk_same : same_pages (busy l) (k_mem k0) (k_mem k1)
}.

Lemma forking_ready k0 k1 old root TO T vt vf vs tf l l1 sz :
  pspace old k0 TO vt vf vs l sz -> forking k0 k1 root T tf l l1 ->
  fork_ready (fun q => busy l q \/ q = tf) old root k1 TO T vs l1.
Proof.
  intros S [Sn K (H1 & H2 & H3 & H4) M _ E]. pose proof (busy_same _ _ _ _ _ _ _ _ _ S E) as ST. pose proof (ps_vinv _ _ _ _ _ _ _ _ S) as [_ W A _].
  destruct (ps_user _ _ _ _ _ _ _ _ S) as (U1 & U2 & _). destruct (ps_size _ _ _ _ _ _ _ _ S) as (_ & _ & Hle). split.
  - apply Sn.
  - apply Sn.
  - done.
  - by eapply tree_same_at.
  - intros j v Hj. rewrite (tree_same_look TO (k_mem k0)) by done. by apply U1.
  - done.
  - intros q [Hq| ->]; [by apply K|done].
  - intros q Hq. left. by eapply busy_parent.
  - intros va Hva. apply (ps_rest _ _ _ _ _ _ _ _ Sn). simpl. lia.
Qed.

(** The child's space, given what uvmcopy() did below [n] pages. *)
Lemma new_space k1 k2 root T T2 vt vf l1 l2 n ws sz :
  pspace root k1 T vt vf [] l1 0 -> vinv root k2 T2 l2 -> tree_dom T2 -> 0 <= sz <= TRAPFRAME -> PGROUNDUP sz = Z.of_nat (length ws) * PGSIZE ->
  Z.of_nat n * PGSIZE <= TRAPFRAME -> (length ws <= n)%nat ->
  (forall va, Z.of_nat n * PGSIZE <= va < MAXVA -> pte_at (k_mem k2) T2 va = pte_at (k_mem k1) T va) ->
  ptes_from (k_mem k2) T2 0 ws /\ Forall (fun v => PTE_FLAGS v <> PTE_V) ws /\ releasable T2 ws l2 ->
  (forall va, Z.of_nat (length ws) * PGSIZE <= va < Z.of_nat n * PGSIZE -> pte_at (k_mem k2) T2 va = None) ->
  pspace root k2 T2 vt vf ws l2 sz.
Proof.
  intros S V D Hsz Hup Hn Hws Hhi U N. assert (TRAPFRAME < TRAMPOLINE /\ TRAMPOLINE < MAXVA) as [H1 H2] by done. split; [done|done| | | |done|].
  - rewrite Hhi by lia. apply S.
  - rewrite Hhi by lia. apply S.
  - split_and!; [lia|lia|done|unfold PGSIZE in *; lia].
  - intros va Hva. destruct (decide (va < Z.of_nat n * PGSIZE)); [apply N; lia|]. rewrite Hhi by lia. apply (ps_rest _ _ _ _ _ _ _ _ S). simpl. unfold PGSIZE in *. lia.
Qed.

(** Reading depends on the tables and the memory of the process. *)
Lemma space_uread old k0 T vt vf vs l sz m' va :
  pspace old k0 T vt vf vs l sz -> same_pages (parent_page T vs) (k_mem k0) m' -> 0 <= va < Z.of_nat (length vs) * PGSIZE ->
  uread m' T va = uread (k_mem k0) T va.
Proof.
  intros S H Hva. assert (ST : tree_same T (k_mem k0) m') by (intros q x Hq; apply H; by left). destruct (ps_user _ _ _ _ _ _ _ _ S) as (U & _ & Hr).
  destruct (ps_size _ _ _ _ _ _ _ _ S) as (_ & _ & Hle). assert (TRAPFRAME < MAXVA) by done.
  unfold uread. rewrite (tree_same_uaddr T (k_mem k0)) by done. unfold uaddr, upage. destruct (negb _); [done|].
  pose proof (Z.div_pos va PGSIZE ltac:(lia) ltac:(done)). pose proof (Z.mod_pos_bound va PGSIZE ltac:(done)).
  assert (va / PGSIZE < Z.of_nat (length vs)) by (apply Z.div_lt_upper_bound; [done|lia]).
  destruct (lookup_lt_is_Some_2 vs (Z.to_nat (va / PGSIZE))) as [v Hv]; [lia|].
  assert (Hp : pte_at (k_mem k0) T va = Some v).
  { rewrite <- (U _ _ Hv), Z2Nat.id by lia. pose proof (Z.div_mod va PGSIZE ltac:(done)). apply pte_at_page; [lia|unfold PGSIZE in *; lia|].
    apply Z.eqb_eq. by rewrite Z.add_0_l, Z.div_mul. }
  rewrite Hp. cbn [mbind option_bind]. destruct (has v PTE_U); [|done]. cbn. f_equal. apply (H (PTE2PA v)); [|lia].
  right. by eapply list_elem_of_fmap_2, list_elem_of_lookup_2.
Qed.

Lemma space_below root k T vt vf vs l sz va : pspace root k T vt vf vs l sz -> 0 <= va < sz -> 0 <= va < Z.of_nat (length vs) * PGSIZE.
Proof.
  intros S Hva. destruct (ps_size _ _ _ _ _ _ _ _ S) as (Hsz & <- & _). assert (TRAPFRAME < 2 ^ 40) by done.
  pose proof (PGROUNDUP_bounds sz). unfold PGSIZE in *. lia.
Qed.

(** uvmcopy() in fork(): the child owns a copy of the parent's memory, or none; [y] is its slot. *)
Lemma fork_copy k0 k1 old root TO T vt vf vs tf l l1 sz y c :
  pspace old k0 TO vt vf vs l sz -> forking k0 k1 root T tf l l1 -> cpu_ok (cx_cpu c) -> p_trapframe y = tf -> p_pagetable y = root -> p_sz y = 0 ->
  exists r c' k2 T2 ws l2, uvmcopy old root sz (c, k1) = Ret r (c', k2) /\ calm c c' /\ same_pages (busy l) (k_mem k0) (k_mem k2) /\
    (forall p, p ∈ l2 \/ ppages y T2 ws p <-> p ∈ l) /\
    (r = 0 /\ reapable k2 (set_p_sz sz y) T2 TRAMP_PTE (TF_PTE tf) ws l2 /\
       (forall va, 0 <= va < sz -> uread (k_mem k2) T2 va = uread (k_mem k0) TO va) \/
     r = -1 /\ ws = [] /\ reapable k2 y T2 TRAMP_PTE (TF_PTE tf) [] l2 /\ (length l2 + size T2 <= 5 + 3 * length vs)%nat).
Proof.
  intros S F Hok Etf Ert Esz. pose proof (forking_ready _ _ _ _ _ _ _ _ _ _ _ _ _ S F) as R. pose proof F as [Sn K (H1 & H2 & H3 & H4) M Hsz5 E].
  destruct (ps_size _ _ _ _ _ _ _ _ S) as (Hsz & Hup & Hle). pose proof (ps_vinv _ _ _ _ _ _ _ _ S) as V.
  destruct (uvmcopy_run _ _ _ _ _ _ sz c k1 l1 R Hok) as (r & c' & k2 & T2 & l2 & Ru & Hc & V2 & D2 & K2 & S2 & Hhi & CE); [lia|by apply size_pages|..].
  { assert (TRAPFRAME <= MAXVA) by done. lia. }
  assert (S02 : same_pages (busy l) (k_mem k0) (k_mem k2)) by (eapply same_pages_trans; [done|]; eapply same_pages_sub; [|done]; by left).
  destruct (K2 tf) as (_ & T1 & T3); [by right|].
  assert (Htf : tf ∈ l) by (by apply not_busy).
  assert (Own : forall p, page_ok p -> ~ (busy l p \/ p = tf) -> p ∈ l) by (intros p Hp Hn; apply not_busy; tauto).
  assert (Own1 : forall p, p ∈ l2 -> p ∈ l).
  { intros p Hp. apply Own; [|intros Hq; by apply (K2 p Hq)]. pose proof (kinv_pages _ _ (v_kinv _ _ _ _ V2)) as HF. rewrite Forall_forall in HF. by apply HF. }
  assert (Own2 : forall p, in_tree T2 p -> p ∈ l).
  { intros p Hp. apply Own; [|intros Hq; by destruct (K2 p Hq) as (_ & ? & _)]. destruct Hp as [b Hb]. by eapply tw_page; [apply V2|]. }
  destruct CE as [ws Hlen Hp Hrel Hap Hcp Hur Hacc|Hnone Hacc Hl HT2].
  - exists 0, c', k2, T2, ws, l2. split_and!; [done..| |].
    + intros p. unfold ppages. rewrite Etf. split.
      * intros [H|[->|[(w & -> & Hw)%list_elem_of_fmap|H]]]; [by apply Own1|done| |by apply Own2]. apply Own; [by apply Hrel|by apply Hap].
      * intros [H| ->]%M; [destruct (Hacc p H) as [?|[?|?]]; auto|auto].
    + left. split_and!; [done| |].
      * split; [|by subst|subst; split; [done|]].
        -- cbn. rewrite Ert. eapply (new_space k1); [done|done|done|done|by rewrite Hlen|exact Hle|lia|exact Hhi| |lia].
           split_and!; [done| |done]. apply Forall_lookup. intros j w Hw. pose proof (lookup_lt_Some _ _ _ Hw).
           destruct (lookup_lt_is_Some_2 vs j) as [v Hv]; [lia|]. destruct (Hcp j v w Hv Hw) as [-> _].
           destruct (ps_user _ _ _ _ _ _ _ _ S) as (_ & HF & _). by eapply (Forall_lookup_1 _ _ _ _ HF).
        -- cbn. intros (w & E' & Hw)%list_elem_of_fmap. apply (Hap w Hw). by right.
      * intros va Hva. pose proof (space_below _ _ _ _ _ _ _ _ va S Hva).
        rewrite Hur by done. eapply space_uread; [done|eapply same_pages_sub; [intros q; by eapply busy_parent|done]|done].
  - exists (-1), c', k2, T2, [], l2. split_and!; [done..| |].
    + intros p. unfold ppages. rewrite Etf. split.
      * intros [H|[->|[[]%elem_of_nil|H]]]; [by apply Own1|done|by apply Own2].
      * intros [H| ->]%M; [destruct (Hacc p H) as [?|?]; auto|auto].
    + right. split_and!; [done|done| |lia]. split; [|by subst|subst; split; [done|apply not_elem_of_nil]].
      rewrite Ert, Esz. eapply (new_space k1); [done|done|done|done|done|exact Hle|simpl; lia|exact Hhi| |exact Hnone].
      split_and!; [by intros j v ?|constructor|]. split; [constructor|by intros v ?%elem_of_nil].
Qed.

(** ** The trapframe *)

(** *(np->trapframe) = *(p->trapframe), with a0 cleared. *)
Definition tf_mem (m : mem) (tf tfp : Z) : mem := st64 (memmove m tf tfp (Z.to_nat TF_SIZE)) (tf + TF_a0) (u64 0).

Lemma st64_zero_get (m : mem) a x : bget (st64 m a (u64 0)) x = if (a <=? x) && (x <? a + 8) then 0 else bget m x.
Proof.
  destruct (Z.leb_spec a x), (Z.ltb_spec x (a + 8)); cbn [andb]; [|apply st64_get_out; lia..].
  unfold st64, st. rewrite store_bytes_get by auto. change (le_enc 8 (u64 0)) with (replicate 8 0). rewrite length_replicate.
  rewrite (proj2 (Z.leb_le _ _)), (proj2 (Z.ltb_lt _ _)) by lia. cbn [andb]. rewrite nth_lookup.
  destruct (replicate 8 0 !! _) eqn:E; [by apply lookup_replicate in E as [-> _]|done].
Qed.

Lemma tf_mem_spec m tf tfp :
  mem_ok m -> mem_ok (tf_mem m tf tfp) /\ (forall x, off_page tf x -> bget (tf_mem m tf tfp) x = bget m x) /\
  (forall o, 0 <= o < TF_SIZE -> bget (tf_mem m tf tfp) (tf + o) = if (TF_a0 <=? o) && (o <? TF_a0 + 8) then 0 else bget m (tfp + o)).
Proof.
  intros H. unfold tf_mem, off_page, TF_SIZE, TF_a0, PGSIZE. split_and!; [by apply st64_ok, memmove_ok|..].
  - intros x Hx. rewrite st64_zero_get, memmove_get by auto.
    destruct (Z.leb_spec (tf + 112) x), (Z.ltb_spec x (tf + 112 + 8)), (Z.leb_spec tf x), (Z.ltb_spec x (tf + Z.of_nat (Z.to_nat 288))); cbn [andb]; done || lia.
  - intros o Ho. rewrite st64_zero_get, memmove_get by auto. rewrite (proj2 (Z.leb_le tf _)), (proj2 (Z.ltb_lt (tf + o) (tf + _))) by lia.
    cbn [andb]. replace (tfp + (tf + o - tf)) with (tfp + o) by lia.
    destruct (Z.leb_spec (tf + 112) (tf + o)), (Z.leb_spec 112 o), (Z.ltb_spec (tf + o) (tf + 112 + 8)), (Z.ltb_spec o (112 + 8)); cbn [andb]; done || lia.
Qed.

(** Writing the trapframe leaves the rest of the process's memory alone. *)
Lemma reapable_tf k y T vt vf vs l m' :
  reapable k y T vt vf vs l -> mem_ok m' -> (forall x, off_page (p_trapframe y) x -> bget m' x = bget (k_mem k) x) ->
  reapable (with_mem k m') y T vt vf vs l /\
  forall va, 0 <= va < Z.of_nat (length vs) * PGSIZE -> uread m' T va = uread (k_mem k) T va.
Proof.
  intros [S [H1 H2] [H3 H4]] Hm Ho. pose proof (ps_vinv _ _ _ _ _ _ _ _ S) as V.
  destruct (page_write _ k T l (p_trapframe y) m' V H1 H3 H2 Hm Ho) as [ST V'].
  split; [split; [|done..]; apply (pspace_ext _ k _ _ _ _ _ l); [done|apply V'|done|by left]|].
  intros va Hva. eapply space_uread; [done| |done]. intros q x Hq Hx. apply Ho. destruct (busy_parent _ _ _ _ _ _ _ _ q S Hq) as [Hp _].
  apply (pages_apart (p_trapframe y) q); [done|done| |done]. intros <-. by destruct Hq.
Qed.

(** ** Files *)

Definition dup_fd (i np j : nat) : K kern unit :=
  x ← pget i;
  match default None (p_ofile x !! j) with
  | Some f => g ← filedup f; pupd np (fun y => set_p_ofile (<[j := Some g]> (p_ofile y)) y)
  | None => mret tt
  end.

Lemma insert_app_replicate {A} (l : list A) (x y : A) m : <[length l := y]> (l ++ replicate (S m) x) = (l ++ [y]) ++ replicate m x.
Proof. rewrite <- (Nat.add_0_r (length l)), insert_app_r, <- app_assoc. done. Qed.

Lemma dup_fd_run i np j c s me z o m :
  settled c = c -> cpu_ok (cx_cpu c) -> cx_procs c !! i = Some me -> np <> i -> cx_procs c !! np = Some z ->
  p_ofile me !! j = Some o -> p_ofile z = take j (p_ofile me) ++ replicate (S m) None -> refs_ok c s -> lock_free (ft_lock (k_ftable s)) ->
  exists fs, dup_fd i np j (c, s) = Ret tt (set_fd np z j o c, upd_files (fun _ => fs) s) /\ refs_ok (set_fd np z j o c) (upd_files (fun _ => fs) s).
Proof.
  intros Hs Hok Hme Hne Hz Ho Hzo R Hf. pose proof (lookup_lt_Some _ _ _ Ho) as Hlt.
  assert (Hzj : p_ofile z !! j = Some None).
  { rewrite Hzo, lookup_app_r; rewrite length_take_le by lia; [|lia]. by rewrite Nat.sub_diag. }
  unfold dup_fd. rewrite (bind_ret _ _ _ _ _ (pget_run c s i me Hme)), Ho. cbn [default from_option id]. destruct o as [f|].
  - pose proof (frefs_pos c i me j f Hme Ho) as Hpos. destruct (ro_dom _ _ R f Hpos) as [x Hx]. pose proof (ro_count _ _ R f x Hx) as Hc.
    rewrite (bind_ret _ _ _ _ _ (filedup_run c s f x Hok Hf Hx ltac:(lia))), Hs. set (fs := <[f := set_f_ref (f_ref x + 1) x]> (files s)). exists fs.
    change (upd_files (insert f _) s) with (upd_files (fun _ => fs) s).
    rewrite (pupd_run _ _ _ _ _ Hz). split; [done|].
    apply (refs_ok_set c s np z j None (Some f) (fun _ => fs) R Hz Hzj); [|apply length_insert|intros f' [= <-]; eauto].
    intros f' x' Hx'. unfold fs, is_ref. destruct (decide (f = f')) as [<-|Hn].
    + rewrite Hx in Hx'. injection Hx' as <-. eexists. split; [apply list_lookup_insert_eq; by eapply lookup_lt_Some|].
      rewrite bool_decide_false, bool_decide_true by done. cbn. lia.
    + exists x'. split; [by rewrite list_lookup_insert_ne|]. rewrite !bool_decide_false by congruence. lia.
  - exists (files s). assert (E : set_fd np z j None c = c).
    { unfold set_fd. rewrite list_insert_id by done. apply set_proc_same. rewrite Hz. by destruct z. }
    assert (E' : upd_files (fun _ => files s) s = s) by by destruct s as [? ? ? ? ? []]. by rewrite E, E'.
Qed.

Lemma dup_files_run i np me m : forall j c s z,
  settled c = c -> cpu_ok (cx_cpu c) -> cx_procs c !! i = Some me -> np <> i -> cx_procs c !! np = Some z ->
  length (p_ofile me) = (j + m)%nat -> p_ofile z = take j (p_ofile me) ++ replicate m None -> refs_ok c s -> lock_free (ft_lock (k_ftable s)) ->
  exists fs, let c' := set_proc np (set_p_ofile (p_ofile me) z) c in
    for_each (seq j m) (dup_fd i np) (c, s) = Ret tt (c', upd_files (fun _ => fs) s) /\ refs_ok c' (upd_files (fun _ => fs) s).
Proof.
  induction m as [|m IH]; intros j c s z Hs Hok Hme Hne Hz Hlen Hzo R Hf.
  - exists (files s). cbn zeta. assert (E' : upd_files (fun _ => files s) s = s) by by destruct s as [? ? ? ? ? []]. rewrite E'.
    rewrite app_nil_r, take_ge in Hzo by lia. rewrite <- Hzo. replace (set_p_ofile (p_ofile z) z) with z by by destruct z. by rewrite set_proc_same.
  - destruct (lookup_lt_is_Some_2 (p_ofile me) j) as [o Ho]; [lia|].
    destruct (dup_fd_run i np j c s me z o m) as (fs & R1 & RO); [done..|]. cbn [seq for_each]. rewrite (bind_ret _ _ _ _ _ R1).
    set (z1 := set_p_ofile (<[j := o]> (p_ofile z)) z). change (set_fd np z j o c) with (set_proc np z1 c) in *.
    destruct (IH (S j) (set_proc np z1 c) (upd_files (fun _ => fs) s) z1) as (fs' & R2 & RO2); try done.
    + unfold settled in *. destruct c. cbn in *. unfold set_proc, set_cx_cpu. cbn. injection Hs as ->. done.
    + simpl. by rewrite list_lookup_insert_ne.
    + by apply set_proc_get.
    + lia.
    + cbn [p_ofile set_p_ofile z1]. rewrite Hzo. erewrite take_S_r by done. rewrite <- insert_app_replicate. by rewrite length_take_le by lia.
    + exists fs'. cbn zeta in *. rewrite set_proc_set in R2, RO2. change (set_p_ofile (p_ofile me) z1) with (set_p_ofile (p_ofile me) z) in *.
      by destruct s.
Qed.

(** Reference counts depend on the descriptor tables only. *)
Lemma frefs_fmap c f : frefs c f = sum_list_with (fd_count f) (p_ofile <$> cx_procs c).
Proof. unfold frefs. induction (cx_procs c) as [|p ps IH]; [done|]. simpl. by rewrite IH. Qed.

Lemma refs_ok_ext c s c' s' :
  p_ofile <$> cx_procs c' = p_ofile <$> cx_procs c -> files s' = files s -> refs_ok c s -> refs_ok c' s'.
Proof.
  intros E F [R1 R2 R3]. assert (H : forall f, frefs c' f = frefs c f) by (intros f; by rewrite !frefs_fmap, E). split.
  - intros f x. rewrite F, H. apply R1.
  - intros f. rewrite F, H. apply R2.
  - intros j p Hp. assert (E' : (p_ofile <$> cx_procs c) !! j = Some (p_ofile p)) by (by rewrite <- E, list_lookup_fmap, Hp).
    rewrite list_lookup_fmap in E'. destruct (cx_procs c !! j) as [q|] eqn:Hq; [|done]. injection E' as <-. by eapply R3.
Qed.

Lemma ofile_set_proc c np u y : cx_procs c !! np = Some y -> p_ofile u = p_ofile y -> p_ofile <$> cx_procs (set_proc np u c) = p_ofile <$> cx_procs c.
Proof. intros Hy E. simpl. rewrite list_fmap_insert, E. apply list_insert_id. by rewrite list_lookup_fmap, Hy. Qed.

(** ** The rest of fork() *)

(** What the child takes over from its parent [me], process [i]. *)
Definition inherit (i : nat) (me u : proc) : proc :=
  set_p_name (safestrcpy (p_name u) 0 (chars (p_name me)) 16) (set_p_cwd (p_cwd me) (set_p_ofile (p_ofile me) u)).

(** The end of fork(), from the descriptors on. *)
Definition fork_rest (i np : nat) : K kern Z :=
  for_each (seq 0 (Z.to_nat NOFILE)) (dup_fd i np) ;;
  x ← pget i;
  cwd ← (match p_cwd x with Some c => idup c | None => fault end);
  pupd np (set_p_cwd (Some cwd)) ;;
  x ← pget i;
  pupd np (fun y => set_p_name (safestrcpy (p_name y) 0 (chars (p_name x)) 16) y) ;;
  y ← pget np;
  let pid := p_pid y in
  release (p_lk np) ;;
  acquire wait_lk ;;
  pupd np (set_p_parent (Some i)) ;;
  release wait_lk ;;
  acquire (p_lk np) ;;
  pupd np (set_p_state RUNNABLE) ;;
  release (p_lk np) ;;
  mret pid.

(** The child gets its parent and becomes RUNNABLE. *)
Lemma fork_link c s i np v (pid : Z) :
  settled c = c -> cpu_ok (cx_cpu c) -> cx_procs c !! np = Some v -> lock_free (p_lock v) -> lock_free (k_wait_lock s) ->
  (acquire wait_lk ;; pupd np (set_p_parent (Some i)) ;; release wait_lk ;;
   acquire (p_lk np) ;; pupd np (set_p_state RUNNABLE) ;; release (p_lk np) ;; mret pid) (c, s) =
    Ret pid (set_proc np (set_p_state RUNNABLE (set_p_parent (Some i) v)) c, s).
Proof.
  intros Hs Hok Hv Hf Hw. rewrite (bind_ret _ _ _ _ _ (acquire_wait c s Hw)), (pupd_step _ _ _ _ _ _ (Hv : cx_procs (pushed c) !! np = _)).
  set (v1 := set_p_parent (Some i) v). replace (in_wait c s) with (set_kk (kk s) (in_wait c s)) by by destruct s.
  rewrite (bind_ret _ _ _ _ _ (release_wait c s (set_proc np v1 (pushed c)) (kk s) Hok Hw eq_refl)).
  replace (set_kk (kk s) s) with s by by destruct s.
  assert (E : set_cx_cpu (settle (cx_cpu c)) (set_proc np v1 (pushed c)) = set_proc np v1 c) by (rewrite <- Hs at 3; done). rewrite E.
  assert (H1 : cx_procs (set_proc np v1 c) !! np = Some v1) by (apply set_proc_get; eauto).
  rewrite (bind_ret _ _ _ _ _ (acquire_p _ s np v1 H1 Hf)). erewrite pupd_step by (apply set_proc_get; simpl; eauto). rewrite set_proc_set.
  rewrite (bind_ret _ _ _ _ _ (crit_p (set_proc np v1 c) s np v1 (set_p_state RUNNABLE) H1 Hf Hok eq_refl)).
  unfold mret, K_ret. f_equal. f_equal. change (settled (set_proc np v1 c)) with (set_proc np v1 (settled c)). rewrite Hs, set_proc_set. by destruct v.
Qed.

Lemma fork_tail c s i np me u ip x :
  settled c = c -> cpu_ok (cx_cpu c) -> c_noff (cx_cpu c) = 0 -> cx_procs c !! i = Some me -> np <> i -> cx_procs c !! np = Some u -> lock_free (p_lock u) ->
  p_ofile u = replicate (Z.to_nat NOFILE) None -> refs_ok c s -> lock_free (ft_lock (k_ftable s)) -> lock_free (it_lock (k_itable s)) ->
  lock_free (k_wait_lock s) -> p_cwd me = Some ip -> inodes s !! ip = Some x ->
  exists fs, let c' := set_proc np (set_p_state RUNNABLE (set_p_parent (Some i) (inherit i me u))) c in
    fork_rest i np (set_proc np (owned c u) (pushed c), s) =
      Ret (p_pid u) (c', upd_inodes (insert ip (set_i_ref (i_ref x + 1) x)) (upd_files (fun _ => fs) s)) /\
    refs_ok c' (upd_files (fun _ => fs) s).
Proof.
  intros Hs Hok Hn Hme Hne Hu Hf Ho R Hft Hit Hw Hcwd Hip.
  assert (Hget : forall z d, cx_procs d = cx_procs c -> cx_procs (set_proc np z d) !! np = Some z) by (intros z d E; apply set_proc_get; rewrite E; eauto).
  assert (Hgi : forall z d, cx_procs d = cx_procs c -> cx_procs (set_proc np z d) !! i = Some me) by (intros z d E; simpl; by rewrite list_lookup_insert_ne, E).
  assert (Hs1 : forall z, settled (set_proc np z (pushed c)) = set_proc np z (pushed c)).
  { intros z. apply (calm_held (set_proc np z (pushed c))); [simpl; lia|apply calm_settled]. }
  assert (Hok1 : cpu_ok (cx_cpu (pushed c))) by by apply push_cpu_ok.
  destruct (dup_files_run i np me (Z.to_nat NOFILE) 0 (set_proc np (owned c u) (pushed c)) s (owned c u)) as (fs & R1 & RO);
    [by apply Hs1|done|by apply Hgi|done|by apply Hget|by eapply R|done| |done|].
  { eapply refs_ok_ext; [|done|exact R]. change (cx_procs c) with (cx_procs (pushed c)). by apply (ofile_set_proc _ np _ u). }
  cbn zeta in R1, RO. rewrite set_proc_set in R1, RO. set (s2 := upd_files (fun _ => fs) s) in *. exists fs. cbn zeta. split.
  - unfold fork_rest. rewrite (bind_ret _ _ _ _ _ R1), (bind_ret _ _ _ _ _ (pget_run _ _ _ _ (Hgi _ (pushed c) eq_refl))), Hcwd.
    rewrite (bind_ret _ _ _ _ _ (idup_run ip x (set_proc np _ (pushed c)) s2 Hit Hok1 Hip)), Hs1. set (s3 := upd_inodes _ s2).
    rewrite (pupd_step _ _ _ _ _ _ (Hget _ (pushed c) eq_refl)), set_proc_set, (bind_ret _ _ _ _ _ (pget_run _ _ _ _ (Hgi _ (pushed c) eq_refl))).
    rewrite (pupd_step _ _ _ _ _ _ (Hget _ (pushed c) eq_refl)), set_proc_set, (bind_ret _ _ _ _ _ (pget_run _ _ _ _ (Hget _ (pushed c) eq_refl))).
    cbn zeta. set (f := fun q => set_p_name (safestrcpy (p_name q) 0 (chars (p_name me)) 16) (set_p_cwd (Some ip) (set_p_ofile (p_ofile me) q))).
    rewrite (bind_ret _ _ _ _ _ (crit_p c s3 np u f Hu Hf Hok eq_refl)), Hs.
    assert (Eu : set_p_lock (p_lock u) (f (owned c u)) = inherit i me u) by (unfold f, inherit; by rewrite Hcwd). unfold owned in Eu. rewrite Eu.
    set (v := inherit i me u). set (c3 := set_proc np v c). assert (Hs3 : settled c3 = c3) by (unfold c3; destruct c; unfold settled in *; cbn in *; by injection Hs as ->).
    etrans; [apply (fork_link c3 s3 i np v); [done|done|by apply set_proc_get|done|done]|].
    unfold c3. by rewrite set_proc_set.
  - eapply refs_ok_ext; [|reflexivity|exact RO]. simpl. by rewrite !list_fmap_insert.
Qed.

(** ** The whole of fork() *)

(** The child's slot. *)
Definition forked (i : nat) (me y : proc) (pid tf root : Z) : proc :=
  Proc (p_lock y) RUNNABLE (p_chan y) (p_killed y) (p_xstate y) pid (Some i) (p_kstack y) (p_sz me) root tf
    (Context sym_forkret (u64 (p_kstack y + PGSIZE)) (replicate 12 0)) (p_ofile me) (p_cwd me) (safestrcpy (p_name y) 0 (chars (p_name me)) 16).

(** How fork() ends when slot [np] is the first UNUSED one: a child that runs on a copy of the parent's memory
    and registers and shares its files, or -1 with all memory given back. *)
Inductive fork_end (c : ctx) (s : kern) (i : nat) (me : proc) (TO : ptree) (vt vf : Z) (vs l : list Z) (ip : nat) (x : inode) (np : nat) (y : proc)
    : Z -> ctx -> kern -> Prop :=
  | fork_done k' T ws l' fs root tf :
      let p := forked i me y (k_nextpid s) tf root in let c' := set_proc np p (settled c) in
      reapable k' p T TRAMP_PTE (TF_PTE tf) ws l' -> (forall q, q ∈ l' \/ ppages p T ws q <-> q ∈ l) ->
      same_pages (busy l) (k_mem (kk s)) (k_mem k') -> pspace (p_pagetable me) k' TO vt vf vs l' (p_sz me) ->
      (forall va, 0 <= va < p_sz me -> uread (k_mem k') T va = uread (k_mem (kk s)) TO va) ->
      (forall o, 0 <= o < TF_SIZE -> bget (k_mem k') (tf + o) =
         if (TF_a0 <=? o) && (o <? TF_a0 + 8) then 0 else bget (k_mem (kk s)) (p_trapframe me + o)) ->
      refs_ok c' (upd_files (fun _ => fs) s) ->
      fork_end c s i me TO vt vf vs l ip x np y (k_nextpid s) c'
        (upd_inodes (insert ip (set_i_ref (i_ref x + 1) x)) (upd_files (fun _ => fs) (set_kk k' (set_k_nextpid (k_nextpid s + 1) s))))
  | fork_none k' l' ct :
      kinv k' l' -> (forall q, q ∈ l' <-> q ∈ l) -> (length l <= 6 + 3 * length vs)%nat -> same_pages (busy l) (k_mem (kk s)) (k_mem k') ->
      pspace (p_pagetable me) k' TO vt vf vs l' (p_sz me) ->
      fork_end c s i me TO vt vf vs l ip x np y (-1) (set_proc np (set_p_context ct (unused y)) (settled c)) (set_kk k' (set_k_nextpid (k_nextpid s + 1) s)).

(** The locks fork() takes are free. *)
Definition unlocked_kern (s : kern) : Prop :=
  lock_free (k_pid_lock s) /\ lock_free (k_wait_lock s) /\ lock_free (ft_lock (k_ftable s)) /\ lock_free (it_lock (k_itable s)).

Lemma parent_kept root s T vt vf vs l sz k' l' :
  pspace root s T vt vf vs l sz -> same_pages (busy l) (k_mem s) (k_mem k') -> kinv k' l' -> (forall p, p ∈ l' -> p ∈ l) -> pspace root k' T vt vf vs l' sz.
Proof. intros S H K M. apply (pspace_ext _ s _ _ _ _ _ l); [done|done|by eapply busy_same|]. intros p Hp. left. by apply M. Qed.

Lemma tf_copy_bind {A} np c s z tfp (k : K kern A) :
  cx_procs c !! np = Some z -> page_ok (p_trapframe z) ->
  (kmem (modify (upd_mem (fun m => memmove m (p_trapframe z) tfp (Z.to_nat TF_SIZE)))) ;; tf_set np TF_a0 0 ;; k) (c, s) =
    k (c, set_kk (with_mem (kk s) (tf_mem (k_mem (kk s)) (p_trapframe z) tfp)) s).
Proof.
  intros Hz Hp. set (m1 := memmove (k_mem (kk s)) (p_trapframe z) tfp (Z.to_nat TF_SIZE)).
  assert (E1 : kmem (modify (upd_mem (fun m => memmove m (p_trapframe z) tfp (Z.to_nat TF_SIZE)))) (c, s) = Ret tt (c, set_kk (with_mem (kk s) m1) s)) by done.
  rewrite (bind_ret _ _ _ _ _ E1).
  assert (E2 : tf_set np TF_a0 0 (c, set_kk (with_mem (kk s) m1) s) = Ret tt (c, set_kk (with_mem (kk s) (tf_mem (k_mem (kk s)) (p_trapframe z) tfp)) s)).
  { unfold tf_set. rewrite (bind_ret _ _ _ _ _ (pget_run _ _ _ _ Hz)), (page_nonzero _ Hp). by destruct s. }
  by rewrite (bind_ret _ _ _ _ _ E2).
Qed.

(** The parent and the kernel around a fork. *)
Record fork_pre (c : ctx) (s : kern) (i : nat) (me : proc) (TO : ptree) (vt vf : Z) (vs l : list Z) (ip : nat) (x : inode) : Prop := {
  fp_me : cx_procs c !! i = Some me /\ p_state me = RUNNING;
  fp_locks : unlocked_kern s;
  fp_files : refs_ok c s;
  fp_cwd : p_cwd me = Some ip /\ inodes s !! ip = Some x;
  fp_space : pspace (p_pagetable me) (kk s) TO vt vf vs l (p_sz me);
  fp_tf : busy l (p_trapframe me)
}.

(** With the memory copied, fork() copies the registers and goes on as [fork_tail] says. *)
Lemma fork_child c s i pid me TO vt vf vs l ip x np y k2 T2 ws l2 root tf :
  kctx c i pid -> fork_pre c s i me TO vt vf vs l ip x -> np <> i -> cx_procs c !! np = Some y -> idle y ->
  same_pages (busy l) (k_mem (kk s)) (k_mem k2) ->
  reapable k2 (set_p_sz (p_sz me) (born (settled c) y (k_nextpid s) tf root)) T2 TRAMP_PTE (TF_PTE tf) ws l2 ->
  (forall q, q ∈ l2 \/ ppages (forked i me y (k_nextpid s) tf root) T2 ws q <-> q ∈ l) ->
  (forall va, 0 <= va < p_sz me -> uread (k_mem k2) T2 va = uread (k_mem (kk s)) TO va) ->
  exists r c' s',
    (pupd np (set_p_sz (p_sz me)) ;;
     kmem (modify (upd_mem (fun m => memmove m tf (p_trapframe me) (Z.to_nat TF_SIZE)))) ;;
     tf_set np TF_a0 0 ;;
     fork_rest i np) (set_proc np (born (settled c) y (k_nextpid s) tf root) (pushed (settled c)), set_kk k2 (set_k_nextpid (k_nextpid s + 1) s)) = Ret r (c', s') /\
    fork_end c s i me TO vt vf vs l ip x np y r c' s'.
Proof.
  intros [CO Hn _] [[Hme Hst] (L1 & L2 & L3 & L4) RO [Hcwd Hip] SP Btf] Hne Hy I S2 RP M U. set (c0 := settled c) in *. set (z0 := born c0 y _ tf root) in *.
  pose proof (co_cpu _ _ _ CO) as Hok. pose proof (co_locks _ _ _ CO) as Hlk. pose proof (Forall_lookup_1 _ _ _ _ Hlk Hy) as Hf. cbn beta in Hf.
  set (s1 := set_k_nextpid _ s). set (z := set_p_sz (p_sz me) z0) in *.
  assert (Hget : cx_procs (set_proc np z0 (pushed c0)) !! np = Some z0) by (apply set_proc_get; simpl; eauto).
  rewrite (pupd_step _ _ _ _ _ _ Hget), set_proc_set. fold z.
  assert (Hgz : cx_procs (set_proc np z (pushed c0)) !! np = Some z) by (apply set_proc_get; simpl; eauto).
  rewrite (tf_copy_bind np _ _ z (p_trapframe me) _ Hgz (proj1 (rp_tf _ _ _ _ _ _ _ RP))). cbn [kk set_kk p_trapframe z z0 born set_p_sz set_p_context set_p_pagetable set_p_trapframe].
  set (m3 := tf_mem (k_mem k2) tf (p_trapframe me)). replace (set_kk (with_mem k2 m3) (set_kk k2 s1)) with (set_kk (with_mem k2 m3) s1) by by destruct s.
  set (u := set_p_lock (p_lock y) z). assert (Hu : cx_procs (set_proc np u c0) !! np = Some u) by (apply set_proc_get; simpl; eauto).
  destruct (fork_tail (set_proc np u c0) (set_kk (with_mem k2 m3) s1) i np me u ip x) as (fs & R & RO').
  { unfold c0. change (set_proc np u (settled (settled c)) = set_proc np u (settled c)). by rewrite settled_idem. }
  { by apply settled_ok. } { simpl. by rewrite settle_noff. } { simpl. by rewrite list_lookup_insert_ne. } { done. } { done. } { done. } { apply I. }
  { apply (refs_ok_ext c s); [by apply (ofile_set_proc c0 np u y)|done|done]. }
  { done. } { done. } { done. } { done. } { done. }
  cbn zeta in R, RO'. change (pushed (set_proc np u c0)) with (set_proc np u (pushed c0)) in R. rewrite !set_proc_set in R, RO'.
  change (owned (set_proc np u c0) u) with z in R.
  exists (k_nextpid s), (set_proc np (forked i me y (k_nextpid s) tf root) c0), (upd_inodes (insert ip (set_i_ref (i_ref x + 1) x)) (upd_files (fun _ => fs) (set_kk (with_mem k2 m3) s1))).
  split; [etrans; [exact R|by rewrite set_proc_set]|].
  destruct (tf_mem_spec (k_mem k2) tf (p_trapframe me)) as (Hm3 & Ho3 & Hc3); [apply RP|].
  destruct (reapable_tf k2 z T2 TRAMP_PTE (TF_PTE tf) ws l2 m3 RP Hm3 Ho3) as [RP3 U3].
  assert (S3 : same_pages (busy l) (k_mem (kk s)) m3).
  { eapply same_pages_trans; [done|]. apply (off_page_same _ ∅ l tf); [apply busy_kept|apply RP| |exact Ho3].
    intros [_ Hb]. apply Hb, M. right. by left. }
  apply fork_done with (k' := with_mem k2 m3) (T := T2) (ws := ws) (l' := l2) (root := root) (tf := tf).
  - destruct RP3. by split.
  - exact M.
  - exact S3.
  - eapply parent_kept; [done|done|apply RP3|]. intros p Hp. apply M. by left.
  - intros va Hva. cbn [k_mem with_mem]. rewrite U3; [by apply U|]. by eapply space_below; [apply RP|].
  - intros o Ho. etrans; [by apply Hc3|]. destruct (_ && _); [done|]. apply (S2 (p_trapframe me)); [done|unfold TF_SIZE, PGSIZE in *; lia].
  - by refine (refs_ok_ext _ _ _ _ _ _ RO').
Qed.

(** A failed copy: the child's slot and memory are given back. *)
Lemma fork_undo c s i pid me TO vt vf vs l ip x np y k2 T2 l2 root tf :
  kctx c i pid -> fork_pre c s i me TO vt vf vs l ip x -> cx_procs c !! np = Some y ->
  same_pages (busy l) (k_mem (kk s)) (k_mem k2) ->
  reapable k2 (born (settled c) y (k_nextpid s) tf root) T2 TRAMP_PTE (TF_PTE tf) [] l2 ->
  (forall q, q ∈ l2 \/ ppages (born (settled c) y (k_nextpid s) tf root) T2 [] q <-> q ∈ l) ->
  (length l2 + size T2 <= 5 + 3 * length vs)%nat ->
  exists r c' s',
    (freeproc np ;; release (p_lk np) ;; mret (-1))
      (set_proc np (born (settled c) y (k_nextpid s) tf root) (pushed (settled c)), set_kk k2 (set_k_nextpid (k_nextpid s + 1) s)) = Ret r (c', s') /\
    fork_end c s i me TO vt vf vs l ip x np y r c' s'.
Proof.
  intros [CO Hn _] FP Hy S2 RP M HL. set (c0 := settled c) in *. set (z0 := born c0 y _ tf root) in *. set (s1 := set_k_nextpid _ s).
  pose proof (co_cpu _ _ _ CO) as Hok. pose proof (Forall_lookup_1 _ _ _ _ (co_locks _ _ _ CO) Hy) as Hf. cbn beta in Hf.
  assert (Hok0 : cpu_ok (cx_cpu c0)) by by apply settled_ok.
  destruct (freeproc_run np (set_proc np z0 (pushed c0)) (set_kk k2 s1) z0 T2 TRAMP_PTE (TF_PTE tf) [] l2) as (k3 & l3 & R & K3 & M3 & O3);
    [apply set_proc_get; simpl; eauto|by apply push_cpu_ok|simpl; rewrite settle_noff; lia|done|].
  rewrite (bind_ret _ _ _ _ _ R), set_proc_set. set (g := fun q => set_p_context (p_context z0) (unused q)).
  change (unused z0) with (g (set_p_lock (held (p_lock y) (c_id (cx_cpu c0))) y)).
  rewrite (bind_ret _ _ _ _ _ (crit_p c0 _ np y g Hy Hf Hok0 eq_refl)). unfold c0 at 2. rewrite settled_idem. fold c0.
  change (set_p_lock (p_lock y) (g _)) with (set_p_context (p_context z0) (unused y)). replace (set_kk k3 (set_kk k2 s1)) with (set_kk k3 s1) by by destruct s.
  exists (-1), (set_proc np (set_p_context (p_context z0) (unused y)) c0), (set_kk k3 s1). split; [done|].
  assert (M' : forall q, q ∈ l3 <-> q ∈ l) by (intros q; by rewrite M3, M).
  assert (S3 : same_pages (busy l) (k_mem (kk s)) (k_mem k3)).
  { eapply same_pages_trans; [done|]. intros q a [Hq1 Hq2] Ha. apply O3. intros p Hp. apply (pages_apart p q); [by eapply reapable_pages|done| |done].
    intros ->. apply Hq2, M. by right. }
  pose proof (kinv_nodup _ _ (v_kinv _ _ _ _ (ps_vinv _ _ _ _ _ _ _ _ (fp_space _ _ _ _ _ _ _ _ _ _ _ FP)))) as Nl.
  apply (fork_none _ _ _ _ _ _ _ _ _ _ _ _ _ k3 l3); [done|done| |done|eapply parent_kept; [apply FP|done|done|]; intros p; apply M'].
  pose proof (count_share l (tf :: l2) T2 Nl) as H. simpl in H. etrans; [apply H|lia].
  intros p [?|[->|[[]%elem_of_nil|?]]]%M; [left; by right|left; by left|by right].
Qed.

Lemma fork_run c s i pid me TO vt vf vs l ip x :
  kctx c i pid -> fork_pre c s i me TO vt vf vs l ip x -> (forall np y, list_find is_unused (cx_procs c) = Some (np, y) -> idle y) ->
  match list_find is_unused (cx_procs c) with
  | None => fork (c, s) = Ret (-1) (settled c, s)
  | Some (np, y) => exists r c' s', fork (c, s) = Ret r (c', s') /\ fork_end c s i me TO vt vf vs l ip x np y r c' s'
  end.
Proof.
  intros KC FP Hidle. pose proof KC as [CO Hn _]. pose proof FP as [[Hme Hst] (L1 & _) _ _ SP _].
  pose proof (co_cpu _ _ _ CO) as Hok. pose proof (co_locks _ _ _ CO) as Hlk. pose proof (co_len _ _ _ CO) as Hlen.
  assert (Hok0 : cpu_ok (cx_cpu (settled c))) by by apply settled_ok.
  unfold fork. rewrite (bind_ret _ _ _ _ _ (curproc_run c s i pid CO)). destruct (list_find is_unused (cx_procs c)) as [[np y]|] eqn:Ef.
  2: { unfold allocproc. unfold mbind at 1, K_bind at 1. unfold mbind at 1, K_bind at 1.
       rewrite (find_unused_proc_run (settled c) s (settled_idem c) Hok0 Hlk Hlen). change (cx_procs (settled c)) with (cx_procs c). by rewrite Ef. }
  specialize (Hidle np y eq_refl). pose proof Ef as (Hy & Hu & _)%list_find_Some.
  assert (Hne : np <> i) by (intros ->; unfold is_unused in Hu; congruence).
  destruct (allocproc_run (busy l) (settled c) s np y l (settled_idem c) Hok0 Hlk Hlen Ef Hidle L1 (v_kinv _ _ _ _ (ps_vinv _ _ _ _ _ _ _ _ SP)) (busy_kept l))
    as (r & c1 & k1 & R1 & A). rewrite (bind_ret _ _ _ _ _ R1). clear R1. set (s1 := set_k_nextpid (k_nextpid s + 1) s).
  destruct A as [k1 root T l1 tf HS HK H1 H2 H3 H4 HT HM HE|k1 l1 K1 M1 HL1 E1].
  2: { exists (-1), (set_proc np (unused y) (settled c)), (set_kk k1 s1). split; [done|].
       replace (unused y) with (set_p_context (p_context y) (unused y)) by done.
       apply (fork_none _ _ _ _ _ _ _ _ _ _ _ _ _ k1 l1); [done|done| |done|eapply parent_kept; [done|done|done|]; intros p; apply M1].
       etrans; [apply (count_le l l1)|lia]; [apply (kinv_nodup _ _ (v_kinv _ _ _ _ (ps_vinv _ _ _ _ _ _ _ _ SP)))|]. intros p. apply M1. }
  set (z0 := born (settled c) y (k_nextpid s) tf root). set (c1 := set_proc np z0 (pushed (settled c))).
  assert (G1 : cx_procs c1 !! i = Some me) by (simpl; by rewrite list_lookup_insert_ne).
  assert (G2 : cx_procs c1 !! np = Some z0) by (apply set_proc_get; simpl; eauto).
  rewrite (bind_ret _ _ _ _ _ (pget_run c1 _ i me G1)), (bind_ret _ _ _ _ _ (pget_run c1 _ np z0 G2)).
  destruct (fork_copy (kk s) k1 (p_pagetable me) root TO T vt vf vs tf l l1 (p_sz me) z0 c1 SP) as (e & c2 & k2 & T2 & ws & l2 & R2 & Hc2 & S2 & M2 & Hr);
    [by split|by apply push_cpu_ok|done|done|apply Hidle|].
  apply calm_held in Hc2; [|simpl; rewrite settle_noff; lia]. subst c2.
  rewrite (bind_ret _ _ _ _ _ (zoom_ret kk_l _ c1 (set_kk k1 s1) k1 e c1 k2 eq_refl R2)).
  replace (put kk_l k2 (set_kk k1 s1)) with (set_kk k2 s1) by by destruct s.
  destruct Hr as [(-> & RP & U)|(-> & -> & RP & HL)]; cbn [Z.ltb Z.compare].
  - by apply (fork_child c s i pid me TO vt vf vs l ip x np y k2 T2 ws l2 root tf).
  - by apply (fork_undo c s i pid me TO vt vf vs l ip x np y k2 T2 l2 root tf).
Qed.

(** C2: fork().  Without an UNUSED slot it returns -1 and changes nothing.  Otherwise it returns the next pid and
    the first UNUSED slot holds a RUNNABLE child of the caller: it reads at every address
    what the parent reads, from pages of its own, has the parent's registers but for a0, which is 0, the parent's open files and
    current directory, each counted once more, so that every file's count is still the number of
    descriptors that name it; the free pages and the child's pages together are the pages that were free.
    Or it returns -1 for want of memory, and only if a process of n pages finds no more than 6 + 3n pages free;
    the free pages are then the ones before.  In all cases no page in use
    changes, and the parent's address space is as it was. *)
Theorem fork_correct c s i pid me TO vt vf vs l ip x :
  kctx c i pid -> fork_pre c s i me TO vt vf vs l ip x -> (forall np y, list_find is_unused (cx_procs c) = Some (np, y) -> idle y) ->
  match list_find is_unused (cx_procs c) with
  | None => fork (c, s) = Ret (-1) (settled c, s)
  | Some (np, y) => exists r c' s', fork (c, s) = Ret r (c', s') /\ fork_end c s i me TO vt vf vs l ip x np y r c' s'
  end.
Proof. apply fork_run. Qed.

End Fork.

(** ** A concrete parent

    A process with one page of memory and ten pages free. *)

Definition fk_layout : Layout := {|
  kend := PHYSTOP - 24 * PGSIZE;
  etext := KERNBASE + 0x8000;
  trampoline := KERNBASE + 0x7000
|}.
#[local] Instance fk_lay : Layout := fk_layout.
#[local] Instance fk_sym : Symbols := {| sym_forkret := KERNBASE; sym_usertrap := KERNBASE; sym_kernelvec := KERNBASE; off_uservec := 0; off_userret := 0 |}.

Lemma fk_layout_ok : @LayoutOk fk_layout.
Proof. split; vm_compute; repeat split; discriminate. Qed.

Definition fk_tables : mem :=
  st64 (st64 (st64 (st64 (st64 (st64 (st64 ∅ (pg 1) (mkpte (pg 5) 0)) (pg 1 + 8 * 255) (mkpte (pg 2) 0)) (pg 2 + 8 * 511) (mkpte (pg 3) 0))
    (pg 3 + 8 * 511) TRAMP_PTE) (pg 3 + 8 * 510) (TF_PTE (pg 4))) (pg 5) (mkpte (pg 6) 0)) (pg 6) (mkpte (pg 7) UPERM).
Definition fk_k : kst := Kst (foldr (fun i m => st64 m (pg i) (pg (i + 1))) fk_tables (seqZ 8 9)) (Spinlock false "kmem" None) (pg 8).
Definition fk_l : list Z := pg <$> seqZ 8 10.
Definition fk_T : ptree := {[ [] := pg 1; [255] := pg 2; [255; 511] := pg 3; [0] := pg 5; [0; 0] := pg 6 ]}.
Definition fk_vs : list Z := [mkpte (pg 7) UPERM].
Definition fk_me : proc := set_p_sz 4096 (set_p_cwd (Some 0%nat) (set_p_pagetable (pg 1) (set_p_trapframe (pg 4) (opened 1)))).
Definition fk_ctx : ctx := set_proc 0 fk_me ctx3.
Definition fk_s : kern := set_kk fk_k (kern_f 1).

Lemma fk_mem_ok : mem_ok (k_mem fk_k).
Proof.
  assert (H : forall l m, mem_ok m -> mem_ok (foldr (fun i m => st64 m (pg i) (pg (i + 1))) m l)).
  { induction l as [|i l IH]; intros m Hm; [done|]. simpl. by apply st64_ok, IH. }
  apply H. repeat apply st64_ok. apply mem_ok_empty.
Qed.

Lemma fk_kinv : kinv fk_k fk_l.
Proof.
  split; [by vm_compute|apply (bool_decide_unpack _); by vm_compute| |done|apply fk_mem_ok].
  apply Forall_forall. intros p Hp. apply page_okb_spec. assert (C : forallb page_okb fk_l = true) by by vm_compute.
  rewrite forallb_forall in C. apply C. by apply list_elem_of_In.
Qed.

Lemma fk_lookup path p : fk_T !! path = Some p -> (path, p) ∈ [([], pg 1); ([255], pg 2); ([255; 511], pg 3); ([0], pg 5); ([0; 0], pg 6)].
Proof.
  unfold fk_T. rewrite !lookup_insert_Some, lookup_singleton_Some, !elem_of_cons.
  intros [[<- <-]|[_ [[<- <-]|[_ [[<- <-]|[_ [[<- <-]|[_ [<- <-]]]]]]]]]; auto 10.
Qed.

Lemma fk_vinv : vinv (pg 1) fk_k fk_T fk_l.
Proof.
  split; [apply fk_kinv|apply tree_wfb_sound; by vm_compute|apply tree_atb_sound; by vm_compute|].
  intros p [path Hp%fk_lookup]. apply (bool_decide_unpack (p ∉ fk_l)). rewrite !elem_of_cons in Hp.
  destruct Hp as [[= _ ->]|[[= _ ->]|[[= _ ->]|[[= _ ->]|[[= _ ->]|[]%elem_of_nil]]]]]; by vm_compute.
Qed.

Lemma fk_rest va : 4096 <= va < TRAPFRAME -> pte_at (k_mem fk_k) fk_T va = None.
Proof.
  intros Hva. destruct (pte_at _ _ va) as [v|] eqn:H; [exfalso|done]. destruct (pte_in_leaf _ _ _ _ H) as (r & Hr & Hld & Hv).
  unfold leaf in Hr. apply fmap_Some in Hr as (q & Hq%fk_lookup & ->). rewrite !elem_of_cons in Hq.
  assert (E : PX 2 va = 255 /\ PX 1 va = 511 /\ q = pg 3 \/ PX 2 va = 0 /\ PX 1 va = 0 /\ q = pg 6).
  { destruct Hq as [[=]|[[=]|[[=]|[[=]|[[=]|[]%elem_of_nil]]]]]; auto. }
  assert (HT : TRAPFRAME = (255 * 512 * 512 + 511 * 512 + 510) * PGSIZE) by by vm_compute.
  assert (HM : MAXVA = TRAPFRAME + 2 * PGSIZE) by by vm_compute. assert (EP : PGSIZE = 4096) by done.
  pose proof (PX_range 0 va ltac:(lia)) as Hrg. pose proof (PX_page va ltac:(lia)) as HP.
  pose proof (Z.div_mod va PGSIZE ltac:(done)). pose proof (Z.mod_pos_bound va PGSIZE ltac:(done)).
  assert (C : forallb (fun i => ((510 <=? i) || negb (has (ld64 (k_mem fk_k) (pg 3 + 8 * i)) PTE_V)) &&
    ((i =? 0) || negb (has (ld64 (k_mem fk_k) (pg 6 + 8 * i)) PTE_V))) (seqZ 0 512) = true) by (by vm_compute).
  rewrite forallb_forall in C. specialize (C (PX 0 va) ltac:(apply list_elem_of_In, elem_of_seqZ; lia)). apply andb_true_iff in C as [C1 C2].
  destruct E as [(E2 & E1 & ->)|(E2 & E1 & ->)].
  - rewrite Hld, Hv, orb_false_r in C1. apply Z.leb_le in C1. lia.
  - rewrite Hld, Hv, orb_false_r in C2. apply Z.eqb_eq in C2. lia.
Qed.

Lemma fk_pspace : pspace (pg 1) fk_k fk_T TRAMP_PTE (TF_PTE (pg 4)) fk_vs fk_l 4096.
Proof.
  split.
  - apply fk_vinv.
  - intros path p Hp%fk_lookup. rewrite !elem_of_cons in Hp.
    destruct Hp as [[= -> _]|[[= -> _]|[[= -> _]|[[= -> _]|[[= -> _]|[]%elem_of_nil]]]]]; cbn [path_ok]; [done|..]; (split; [lia|]); repeat constructor; lia.
  - split; [by vm_compute|vm_compute; discriminate].
  - split; [by vm_compute|vm_compute; discriminate].
  - split_and!; [done|vm_compute; discriminate|by vm_compute|vm_compute; discriminate].
  - split_and!.
    + intros [|i] v [= <-]. by vm_compute.
    + constructor; [vm_compute; discriminate|constructor].
    + assert (E : PTE2PA (mkpte (pg 7) UPERM) = pg 7) by by vm_compute. split; [apply NoDup_singleton|].
      intros v ->%list_elem_of_singleton. rewrite E. split_and!; [apply page_okb_spec; by vm_compute| |apply (bool_decide_unpack (pg 7 ∉ fk_l)); by vm_compute].
      intros [path Hp%fk_lookup]. rewrite !elem_of_cons in Hp.
      destruct Hp as [[= _ H]|[[= _ H]|[[= _ H]|[[= _ H]|[[= _ H]|[]%elem_of_nil]]]]]; revert H; vm_compute; discriminate.
  - intros va Hva. apply fk_rest. exact Hva.
Qed.

Lemma fk_pre : fork_pre fk_ctx fk_s 0 fk_me fk_T TRAMP_PTE (TF_PTE (pg 4)) fk_vs fk_l 0 inode0.
Proof.
  split; [done|done| |done|apply fk_pspace|].
  - by refine (refs_ok_ext _ _ _ _ _ _ refs_f).
  - split; [apply page_okb_spec; by vm_compute|apply (bool_decide_unpack (pg 4 ∉ fk_l)); by vm_compute].
Qed.

Lemma fork_correct_witness : exists c' s', fork (fk_ctx, fk_s) = Ret 1 (c', s') /\
  (fun p => (p_state p, p_parent p, p_ofile p !! 2%nat)) <$> cx_procs c' !! 3%nat = Some (RUNNABLE, Some 0%nat, Some (Some 0%nat)).
Proof.
  pose proof (@fork_correct fk_lay fk_layout_ok fk_sym fk_ctx fk_s 0 1 fk_me fk_T TRAMP_PTE (TF_PTE (pg 4)) fk_vs fk_l 0 inode0) as H.
  assert (Ef : list_find is_unused (cx_procs fk_ctx) = Some (3%nat, proc0)) by by vm_compute.
  rewrite Ef in H. destruct H as (r & c' & s' & R & HR).
  - split; [|done|simpl; lia]. split; [split; simpl; [lia|done]|done|by eexists|done|]. apply Forall_insert; [apply procs3_free|done].
  - apply fk_pre.
  - intros np y [= <- <-]. by split.
  - exists c', s'. destruct HR as [k' T ws l' fs root tf|k' l' ct _ _ HL].
    + split; [exact R|done].
    + exfalso. revert HL. vm_compute. lia.
Defined.
