(* ===== verification/BrkSpec.v ===== *)
(** * Growing and shrinking a process (kernel/vm.c uvmalloc() and uvmdealloc(),
      kernel/proc.c growproc(), kernel/sysproc.c sys_sbrk())

    [grown] describes an address space while uvmalloc() adds pages to it: the
    pages mapped so far are zeroed pages of their own, and no page that was in
    use is changed.  A failed uvmalloc() ends in the same description with no page
    added.  sys_sbrk() then turns one address space of a process ([pspace])
    into another. *)

From stdpp Require Import base numbers list list_numbers gmap strings.
From Stdlib Require Import ZArith Lia.
From S2P Require Import Prelude.
From S2P Require Import Machine.
From S2P Require Import Spinlock.
From S2P Require Import Mem.
From S2P Require Import Kalloc.
From S2P Require Import Vm.
From S2P Require Import VmSpec.
From S2P Require Import Uvm.
From S2P Require Import Uvmcopy.
From S2P Require Import Uvmfree.
From S2P Require Import Kern.
From S2P Require Import Sched.
From S2P Require Import SleepLk.
From S2P Require Import UserMem.
From S2P Require Import Proc.
From S2P Require Import Sysfile.
From S2P Require Import FileSpec.
From S2P Require Import PipeSpec.
From S2P Require Import ProcSpec.
From S2P Require Import ForkSpec.

Local Open Scope Z_scope.

(** ** uvmdealloc() *)

Section Dealloc.
Context {LY : Layout} {LO : LayoutOk}.

Lemma uvmdealloc_run vs root T oldsz newsz c s l :
  vinv root s T l -> cpu_ok (cx_cpu c) -> 0 <= newsz <= oldsz -> oldsz <= TRAPFRAME ->
  PGROUNDUP oldsz = PGROUNDUP newsz + Z.of_nat (length vs) * PGSIZE -> ptes_from (k_mem s) T (PGROUNDUP newsz) vs ->
  Forall (fun v => PTE_FLAGS v <> PTE_V) vs -> releasable T vs l ->
  exists c' s', uvmdealloc root oldsz newsz (c, s) = Ret newsz (c', s') /\
    calm c c' /\ vinv root s' T (freed true vs l) /\ untouched T vs (k_mem s) (k_mem s') /\
    forall va, 0 <= va < MAXVA -> pte_at (k_mem s') T va = unmapped (PGROUNDUP newsz) (length vs) va (pte_at (k_mem s) T va).
Proof.
  intros V Hok Hn Ho E Hv Hf Hr. assert (TRAPFRAME + PGSIZE < MAXVA /\ MAXVA < 2 ^ 40) as [H1 H2] by done. assert (EP : PGSIZE = 4096) by done.
  destruct (PGROUNDUP_bounds newsz) as [B1 B2]; [lia..|]. destruct (PGROUNDUP_bounds oldsz) as [B3 B4]; [lia..|].
  assert (Same : length vs = 0%nat -> exists c' s', Ret newsz (c, s) = Ret newsz (c', s') /\ calm c c' /\ vinv root s' T (freed true vs l) /\
    untouched T vs (k_mem s) (k_mem s') /\ forall va, 0 <= va < MAXVA -> pte_at (k_mem s') T va = unmapped (PGROUNDUP newsz) (length vs) va (pte_at (k_mem s) T va)).
  { intros ->%length_zero_iff_nil. exists c, s. split_and!; [done|apply calm_refl|done|done|]. intros. by rewrite unmapped_0. }
  unfold uvmdealloc. destruct (Z.leb_spec oldsz newsz) as [Hle|Hlt].
  { replace oldsz with newsz in * by lia. apply Same. lia. }
  destruct (Z.ltb_spec (PGROUNDUP newsz) (PGROUNDUP oldsz)) as [Hup|Hup]; [|apply Same; lia].
  replace (PGROUNDUP oldsz - PGROUNDUP newsz) with (Z.of_nat (length vs) * PGSIZE) by lia. rewrite Z.div_mul by done.
  rewrite i32_small, u64_small by lia.
  destruct (uvmunmap_run vs root T (PGROUNDUP newsz) true c s l) as (c' & s' & R & Hc & V' & U & L); [done|done|lia|done|lia|done..|].
  cbv zeta. rewrite (bind_ret _ _ _ _ _ R). exists c', s'. by split_and!.
Qed.

End Dealloc.

(** ** uvmalloc() *)

(** [PTE_W|PTE_X|PTE_R|PTE_U], the flags of the memory of a process. *)
Definition HEAP : Z := Z.lor (Z.lor (Z.lor PTE_W PTE_X) PTE_R) PTE_U.

Section Grow.
Context {LY : Layout} {LO : LayoutOk}.

(** [n0] is the number of the first page added, [P] the pages that must not change, [m0], [T0] and [l0] what
    there was before. *)
Context (root : Z) (n0 : nat) (P : Z -> Prop) (m0 : mem) (T0 : ptree) (l0 : list Z).

Definition added (ws : list Z) (va : Z) (o : option Z) : option Z :=
  if Z.of_nat n0 <=? va / PGSIZE then default o (Some <$> ws !! Z.to_nat (va / PGSIZE - Z.of_nat n0)) else o.

Definition zeroed (m : mem) (w : Z) : Prop :=
  PTE_FLAGS w = Z.lor HEAP PTE_V /\ forall o, 0 <= o < PGSIZE -> bget m (PTE2PA w + o) = 0.

Record grown (s : kst) (T : ptree) (l ws : list Z) : Prop := {
  gw_vinv : vinv root s T l;
  gw_dom : tree_dom T;
  gw_kept : kept (taken P ws) T l;
  gw_same : same_pages P m0 (k_mem s);
  gw_nodup : NoDup (PTE2PA <$> ws);
  gw_apart : forall w, w ∈ ws -> ~ P (PTE2PA w);
  gw_ptes : forall va, 0 <= va < MAXVA -> pte_at (k_mem s) T va = added ws va (pte_at m0 T0 va);
  gw_zero : forall w, w ∈ ws -> zeroed (k_mem s) w;
  gw_all : forall p, share T l p \/ p ∈ PTE2PA <$> ws <-> share T0 l0 p
}.

Lemma added_nil va o : added [] va o = o.
Proof. unfold added. by destruct (_ <=? _). Qed.

Lemma added_at ws i w o : ws !! i = Some w -> added ws (Z.of_nat n0 * PGSIZE + Z.of_nat i * PGSIZE) o = Some w.
Proof.
  intros H. unfold added. rewrite <- Z.mul_add_distr_r, Z.div_mul by done. rewrite (proj2 (Z.leb_le _ _)) by lia.
  replace (Z.to_nat _) with i by lia. by rewrite H.
Qed.

Lemma added_snoc ws w va o :
  added (ws ++ [w]) va o = if va / PGSIZE =? Z.of_nat n0 + Z.of_nat (length ws) then Some w else added ws va o.
Proof.
  unfold added. destruct (Z.leb_spec (Z.of_nat n0) (va / PGSIZE)).
  - destruct (Z.eqb_spec (va / PGSIZE) (Z.of_nat n0 + Z.of_nat (length ws))) as [->|Hne].
    + replace (Z.to_nat _) with (length ws) by lia. by rewrite lookup_app_r, Nat.sub_diag by lia.
    + destruct (decide (Z.to_nat (va / PGSIZE - Z.of_nat n0) < length ws)%nat); [by rewrite lookup_app_l|].
      rewrite !lookup_ge_None_2; [done|lia|rewrite length_app; simpl; lia].
  - by rewrite (proj2 (Z.eqb_neq _ _)) by lia.
Qed.

Lemma added_out ws va o : va < Z.of_nat n0 * PGSIZE \/ (Z.of_nat n0 + Z.of_nat (length ws)) * PGSIZE <= va -> added ws va o = o.
Proof.
  intros H. unfold added. destruct (Z.leb_spec (Z.of_nat n0) (va / PGSIZE)) as [Hle|]; [|done].
  destruct H as [H|H]; [pose proof (Z.div_lt_upper_bound va PGSIZE (Z.of_nat n0) ltac:(done)); lia|].
  rewrite lookup_ge_None_2; [done|]. pose proof (Z.div_le_lower_bound va PGSIZE (Z.of_nat n0 + Z.of_nat (length ws)) ltac:(done)). lia.
Qed.

(** ** Giving the pages back *)

Lemma grown_from s T l ws :
  grown s T l ws -> (Z.of_nat n0 + Z.of_nat (length ws)) * PGSIZE <= MAXVA ->
  ptes_from (k_mem s) T (Z.of_nat n0 * PGSIZE) ws /\ Forall (fun w => PTE_FLAGS w <> PTE_V) ws /\ releasable T ws l.
Proof.
  intros G HM. split_and!.
  - intros i w Hw. pose proof (lookup_lt_Some _ _ _ Hw). rewrite (gw_ptes _ _ _ _ G) by (unfold PGSIZE in *; lia). by apply added_at.
  - apply Forall_forall. intros w Hw. destruct (gw_zero _ _ _ _ G w Hw) as [-> _]. by vm_compute.
  - split; [apply G|]. intros w Hw. apply (gw_kept _ _ _ _ G). right. by apply list_elem_of_fmap_2.
Qed.

Lemma round_up n : 0 <= n * PGSIZE < 2 ^ 63 -> PGROUNDUP (n * PGSIZE) = n * PGSIZE.
Proof.
  intros H. assert (EP : PGSIZE = 4096) by done. rewrite PGROUNDUP_eq by lia. replace (n * PGSIZE + PGSIZE - 1) with (n * PGSIZE + 4095) by lia.
  by rewrite Z.div_add_l, (Z.div_small 4095), Z.add_0_r by done.
Qed.

Hypothesis Hnone : forall va, Z.of_nat n0 * PGSIZE <= va < TRAPFRAME -> pte_at m0 T0 va = None.

Lemma grown_undo s T l ws c :
  grown s T l ws -> cpu_ok (cx_cpu c) -> (Z.of_nat n0 + Z.of_nat (length ws)) * PGSIZE <= TRAPFRAME ->
  exists c' s', (_ ← uvmdealloc root ((Z.of_nat n0 + Z.of_nat (length ws)) * PGSIZE) (Z.of_nat n0 * PGSIZE); mret 0) (c, s) = Ret 0 (c', s') /\
    calm c c' /\ grown s' T (freed true ws l) [].
Proof.
  intros G Hok HM. assert (TRAPFRAME < MAXVA /\ MAXVA < 2 ^ 40) as [H1 H2] by done. assert (EP : PGSIZE = 4096) by done.
  destruct (grown_from s T l ws G) as (Hv & Hf & Hr); [lia|].
  destruct (uvmdealloc_run ws root T ((Z.of_nat n0 + Z.of_nat (length ws)) * PGSIZE) (Z.of_nat n0 * PGSIZE) c s l)
    as (c' & s' & R & Hc & V & U & L); [apply G|done|lia|lia|rewrite !round_up; lia|rewrite round_up by lia; done|done..|].
  rewrite round_up in L by lia. rewrite (bind_ret _ _ _ _ _ R). exists c', s'. split_and!; [done..|].
  assert (K : kept P T (freed true ws l)).
  { intros q Hq. destruct (gw_kept _ _ _ _ G q) as (K1 & K2 & K3); [by left|]. split_and!; [done..|]. unfold freed.
    rewrite elem_of_app, elem_of_reverse. intros [(w & -> & Hw)%list_elem_of_fmap|H]; [by apply (gw_apart _ _ _ _ G w)|done]. }
  split; [done|apply G| | |apply NoDup_nil_2|by intros w ?%elem_of_nil| |by intros w ?%elem_of_nil|].
  - intros q [Hq|Hq%elem_of_nil]; [by apply K|done].
  - eapply same_pages_trans; [apply G|]. eapply (untouched_keeps _ root T l ws); [apply G| | |done].
    + intros q Hq. apply (gw_kept _ _ _ _ G). by left.
    + intros w Hw. split; [by apply Hr|by apply (gw_apart _ _ _ _ G)].
  - intros va Hva. rewrite L, (gw_ptes _ _ _ _ G), added_nil by done. unfold unmapped.
    destruct (Z.leb_spec (Z.of_nat n0 * PGSIZE) va), (Z.ltb_spec va (Z.of_nat n0 * PGSIZE + Z.of_nat (length ws) * PGSIZE)); cbn [andb];
      [symmetry; apply Hnone; lia|apply added_out; lia..].
  - intros p. rewrite <- (gw_all _ _ _ _ G p). unfold share, freed. rewrite elem_of_app, elem_of_reverse. cbn [fmap list_fmap]. rewrite elem_of_nil. tauto.
Qed.

(** ** One more page *)

Lemma kalloc_zero Q s T p l c :
  vinv root s T (p :: l) -> cpu_ok (cx_cpu c) -> kept Q T (p :: l) ->
  exists s1, kalloc (c, s) = Ret p (settled c, s1) /\
    let s2 := with_mem s1 (memset (k_mem s1) p 0 (Z.to_nat PGSIZE)) in
    vinv root s2 T l /\ kept Q T l /\ same_pages Q (k_mem s) (k_mem s2) /\ tree_same T (k_mem s) (k_mem s2) /\
    (forall o, 0 <= o < PGSIZE -> bget (k_mem s2) (p + o) = 0) /\ page_ok p /\ ~ in_tree T p /\ (p ∉ l) /\ ~ Q p.
Proof.
  intros V Hok K. destruct (vinv_kalloc root s T p l c V Hok) as (s1 & R & V1 & Hp & Hn & Hpl & Ho).
  destruct (kalloc_zeroed c s p l Hok (v_kinv _ _ _ _ V)) as (s1' & R' & _ & Hm & Hz1 & Hz2 & Hz3).
  rewrite R in R'. injection R' as <-. exists s1. split; [done|]. cbn zeta.
  destruct (page_write root s1 T l p _ V1 Hp Hn Hpl Hm Hz2) as [S2 V2].
  assert (HQ : ~ Q p) by (intros H; destruct (K p H) as (_ & _ & Hl); apply Hl; left).
  assert (K1 : kept Q T l).
  { intros q Hq. destruct (K q Hq) as (? & ? & Hl). split_and!; [done..|]. intros Hin. apply Hl. by right. }
  split_and!; [done|done| | | |done..]; cbn [with_mem k_mem].
  - by eapply (off_page_same Q T l p).
  - by eapply off_page_tree; [apply V1|..].
  - intros o Ho'. apply Hz3. lia.
Qed.

(** A step that leaves the pages taken alone, and what is mapped. *)
Lemma grown_frame s T l ws s' T' l' :
  grown s T l ws -> vinv root s' T' l' -> tree_dom T' -> kept (taken P ws) T' l' -> same_pages (taken P ws) (k_mem s) (k_mem s') ->
  (forall va, 0 <= va < MAXVA -> pte_at (k_mem s') T' va = pte_at (k_mem s) T va) ->
  (forall q, share T' l' q <-> share T l q) -> grown s' T' l' ws.
Proof.
  intros [G1 G2 G3 G4 G5 G6 G7 G8 G9] V D K S L A. split; [done..| |done|done| | |].
  - eapply same_pages_trans; [done|]. eapply same_pages_sub; [|done]. by left.
  - intros va Hva. by rewrite L, G7.
  - intros w Hw. destruct (G8 w Hw) as [H1 H2]. split; [done|]. intros o Ho. rewrite <- (H2 o Ho).
    apply (S (PTE2PA w)); [|lia]. right. by apply list_elem_of_fmap_2.
  - intros q. by rewrite A, G9.
Qed.

(** The same, with the zeroed page [p] mapped after those of [ws]. *)
Lemma grown_snoc s T l ws p s' T' l' :
  grown s T (p :: l) ws -> vinv root s' T' l' -> tree_dom T' -> kept (taken P ws) T' l' -> same_pages (taken P ws) (k_mem s) (k_mem s') ->
  page_ok p -> ~ in_tree T' p -> p ∉ l' -> ~ taken P ws p -> (forall o, 0 <= o < PGSIZE -> bget (k_mem s') (p + o) = 0) ->
  (forall va, 0 <= va < MAXVA -> pte_at (k_mem s') T' va =
     if va / PGSIZE =? Z.of_nat n0 + Z.of_nat (length ws) then Some (mkpte p HEAP) else pte_at (k_mem s) T va) ->
  (forall q, share T' l' q <-> share T l q) -> grown s' T' l' (ws ++ [mkpte p HEAP]).
Proof.
  intros [G1 G2 G3 G4 G5 G6 G7 G8 G9] V D K S Hp Hnt Hnl Htk Hz L A. pose proof (page_pa p Hp) as Hpa.
  assert (Epa : PTE2PA (mkpte p HEAP) = p) by (by apply PTE2PA_mkpte).
  assert (Hin : forall q, q ∈ PTE2PA <$> (ws ++ [mkpte p HEAP]) <-> q ∈ PTE2PA <$> ws \/ q = p).
  { intros q. rewrite fmap_app, elem_of_app. cbn [fmap list_fmap]. by rewrite Epa, list_elem_of_singleton. }
  split; [done|done| | | | | | |].
  - intros q [H|[H| ->]%Hin]; [apply K; by left|apply K; by right|done].
  - eapply same_pages_trans; [done|]. eapply same_pages_sub; [|done]. by left.
  - rewrite fmap_app. apply NoDup_app. split_and!; [done| |by apply NoDup_singleton].
    intros q Hq H. apply list_elem_of_singleton in H as ->. apply Htk. right. cbn in Hq. by rewrite Epa in Hq.
  - intros w [Hw|Hw]%elem_of_app; [by apply G6|]. apply list_elem_of_singleton in Hw as ->. rewrite Epa. intros H. apply Htk. by left.
  - intros va Hva. by rewrite L, added_snoc, G7.
  - intros w [Hw|Hw]%elem_of_app.
    + destruct (G8 w Hw) as [H1 H2]. split; [done|]. intros o Ho. rewrite <- (H2 o Ho).
      apply (S (PTE2PA w)); [|lia]. right. by apply list_elem_of_fmap_2.
    + apply list_elem_of_singleton in Hw as ->. split; [by rewrite mkpte_flags|by rewrite Epa].
  - intros q. rewrite Hin, A, <- (G9 q). unfold share. rewrite elem_of_cons. tauto.
Qed.

Lemma page_of va k : k * PGSIZE <= va < (k + 1) * PGSIZE -> va / PGSIZE = k.
Proof. intros H. symmetry. apply (Z.div_unique va PGSIZE k (va - k * PGSIZE)); unfold PGSIZE in *; lia. Qed.

Lemma grown_room s T l ws va :
  grown s T l ws -> (Z.of_nat n0 + Z.of_nat (length ws)) * PGSIZE <= va < TRAPFRAME -> pte_at (k_mem s) T va = None.
Proof.
  intros G H. assert (TRAPFRAME < MAXVA) by done. rewrite (gw_ptes _ _ _ _ G), added_out by (unfold PGSIZE in *; lia).
  apply Hnone. unfold PGSIZE in *. lia.
Qed.

(** A page that could not be mapped goes back to the free list. *)
Lemma grown_kfree s T l ws p s3 T3 c :
  grown s T (p :: l) ws -> vinv root s3 T3 [] -> tree_dom T3 -> cpu_ok (cx_cpu c) -> page_ok p -> ~ in_tree T3 p -> ~ taken P ws p ->
  kept (taken P ws) T3 [] -> same_pages (taken P ws) (k_mem s) (k_mem s3) ->
  (forall va, 0 <= va < MAXVA -> pte_at (k_mem s3) T3 va = pte_at (k_mem s) T va) ->
  (forall q, share T3 [] q <-> share T l q) ->
  exists s4, kfree p (c, s3) = Ret tt (settled c, s4) /\ grown s4 T3 [p] ws.
Proof.
  intros G V3 D3 Hok Hp Hnt Htk K3 S3 L3 A3.
  destruct (vinv_kfree root s3 T3 [] p c V3 Hok Hp Hnt (not_elem_of_nil p)) as (s4 & R4 & V4 & S4 & O4).
  exists s4. split; [done|]. apply (grown_frame s T (p :: l) ws); [done|done|done| | | |].
  - intros q Hq. destruct (K3 q Hq) as (? & ? & _). split_and!; [done..|]. by intros ->%list_elem_of_singleton.
  - eapply same_pages_trans; [done|]. by eapply (off_page_same _ T3 []).
  - intros va Hva. by rewrite (tree_same_look T3 (k_mem s3)), L3.
  - intros q. pose proof (A3 q) as H. revert H. unfold share. rewrite !elem_of_cons, elem_of_nil. tauto.
Qed.

Lemma uvmalloc_round fuel newsz s T l ws c :
  grown s T l ws -> cpu_ok (cx_cpu c) -> (Z.of_nat n0 + Z.of_nat (length ws)) * PGSIZE < newsz ->
  (Z.of_nat n0 + Z.of_nat (length ws) + 1) * PGSIZE <= TRAPFRAME ->
  exists c' s' T' l', calm c c' /\ (size T' <= size T + 2)%nat /\
    (let r := uvmalloc_loop (S fuel) root ((Z.of_nat n0 + Z.of_nat (length ws)) * PGSIZE) (Z.of_nat n0 * PGSIZE) newsz (c, s) in
     (exists w, r = uvmalloc_loop fuel root ((Z.of_nat n0 + Z.of_nat (length (ws ++ [w]))) * PGSIZE) (Z.of_nat n0 * PGSIZE) newsz (c', s') /\
        grown s' T' l' (ws ++ [w])) \/
     (r = Ret 0 (c', s') /\ grown s' T' l' [] /\ (length l' <= S (length ws))%nat)).
Proof.
  intros G Hok Hlt HM. assert (TRAPFRAME < MAXVA /\ MAXVA < 2 ^ 40) as [M1 M2] by done. assert (EP : PGSIZE = 4096) by done.
  cbn [uvmalloc_loop]. rewrite (proj2 (Z.ltb_lt _ _) Hlt). cbn [negb]. cbv zeta.
  assert (Undo : forall s T l c, grown s T l ws -> cpu_ok (cx_cpu c) -> (length l <= 1)%nat -> exists c' s', (_ ← uvmdealloc root
    ((Z.of_nat n0 + Z.of_nat (length ws)) * PGSIZE) (Z.of_nat n0 * PGSIZE); mret 0) (c, s) = Ret 0 (c', s') /\
    calm c c' /\ grown s' T (freed true ws l) [] /\ (length (freed true ws l) <= S (length ws))%nat).
  { intros s1 T1 l1 c1 G1 Hok1 Hl. destruct (grown_undo s1 T1 l1 ws c1 G1 Hok1) as (c' & s' & R & Hc & U); [lia|]. exists c', s'.
    split_and!; [done..|]. unfold freed. rewrite length_app, length_reverse, length_fmap. lia. }
  destruct l as [|p l].
  { rewrite (bind_ret _ _ _ _ _ (kalloc_empty c s Hok (v_kinv _ _ _ _ (gw_vinv _ _ _ _ G)))). cbn [Z.eqb].
    destruct (Undo s T [] (settled c) G (settled_ok _ Hok)) as (c' & s' & R & Hc & U); [simpl; lia|].
    exists c', s', T, (freed true ws []). split_and!; [eapply calm_trans; [apply calm_settled|done]|lia|]. by right. }
  destruct (kalloc_zero (taken P ws) s T p l c (gw_vinv _ _ _ _ G) Hok (gw_kept _ _ _ _ G)) as (s1 & R1 & V2 & K2 & S2 & TS2 & Hz & Hp & Hnt & Hnl & Htk).
  rewrite (bind_ret _ _ _ _ _ R1), (page_nonzero _ Hp), zero_bind. fold (with_mem s1 (memset (k_mem s1) p 0 (Z.to_nat PGSIZE))). set (s2 := with_mem _ _) in *.
  destruct (map_one root T (Z.of_nat n0 + Z.of_nat (length ws)) p HEAP (settled c) s2 l V2 (settled_ok _ Hok))
    as (r & c3 & s3 & T3 & l3 & R3 & Hc3 & V3 & G3 & Hs3 & Hr); [lia|lia|by apply page_pa|by apply page_below|done| |].
  { intros va Hva. rewrite (tree_same_look T (k_mem s)) by done. apply (grown_room s T (p :: l) ws); [done|lia]. }
  fold HEAP. rewrite (bind_ret _ _ _ _ _ R3).
  destruct (grow_keeps (fun q => taken P ws q \/ q = p) root s2 T l s3 T3 l3 V3 G3) as [K3 S3]; [by intros q [H| ->]; [apply K2|]|].
  destruct (K3 p) as (_ & Hnt3 & Hnl3); [by right|].
  assert (K3' : kept (taken P ws) T3 l3) by (intros q Hq; apply K3; by left).
  assert (S3' : same_pages (taken P ws) (k_mem s) (k_mem s3)) by (eapply same_pages_trans; [done|]; eapply same_pages_sub; [|done]; by left).
  assert (D3 : tree_dom T3) by (apply G3, G). assert (Hc : calm c c3) by (eapply calm_trans; [apply calm_settled|done]).
  destruct Hr as [[-> L3]|(-> & -> & L3)]; cbn [Z.eqb negb].
  - exists c3, s3, T3, l3. split_and!; [done|done|]. left. exists (mkpte p HEAP). split.
    + f_equal. rewrite length_app. simpl. rewrite u64_small by lia. lia.
    + eapply (grown_snoc s T l ws p); try done; [|intros va Hva; by rewrite L3, (tree_same_look T (k_mem s))|intros q; by eapply grow_share].
      intros o Ho. rewrite (S3 p), Hz by (done || lia || by right). done.
  - destruct (grown_kfree s T l ws p s3 T3 c3) as (s4 & R4 & G4); [done|done|done|by eapply calm_ok|done..| |intros q; by eapply grow_share|].
    { intros va Hva. by rewrite L3, (tree_same_look T (k_mem s)). }
    rewrite (bind_ret _ _ _ _ _ R4).
    destruct (Undo s4 T3 [p] (settled c3) G4) as (c' & s' & R & Hc' & U); [by eapply settled_ok, calm_ok|simpl; lia|].
    exists c', s', T3, (freed true ws [p]). split_and!; [|done|by right]. eapply calm_trans; [done|]. eapply calm_trans; [apply calm_settled|done].
Qed.

Lemma uvmalloc_loop_run k newsz s T l ws c :
  grown s T l ws -> cpu_ok (cx_cpu c) -> newsz <= (Z.of_nat n0 + Z.of_nat (length ws + k)) * PGSIZE ->
  (forall i, Z.of_nat n0 <= i < Z.of_nat n0 + Z.of_nat (length ws + k) -> i * PGSIZE < newsz) ->
  (Z.of_nat n0 + Z.of_nat (length ws + k)) * PGSIZE <= TRAPFRAME ->
  exists r c' s' T' l' ws', uvmalloc_loop (S k) root ((Z.of_nat n0 + Z.of_nat (length ws)) * PGSIZE) (Z.of_nat n0 * PGSIZE) newsz (c, s) = Ret r (c', s') /\
    calm c c' /\ grown s' T' l' ws' /\ (size T' <= size T + 2 * k)%nat /\
    (r = newsz /\ length ws' = (length ws + k)%nat \/ r = 0 /\ ws' = [] /\ (length l' <= length ws + k)%nat).
Proof.
  revert s T l ws c. induction k as [|k IH]; intros s T l ws c G Hok Hsz Hlt HM.
  - exists newsz, c, s, T, l, ws. cbn [uvmalloc_loop]. rewrite Nat.add_0_r in *. rewrite (proj2 (Z.ltb_ge _ _)) by done.
    split_and!; [done|apply calm_refl|done|lia|]. by left.
  - destruct (uvmalloc_round (S k) newsz s T l ws c G Hok) as (c1 & s1 & T1 & l1 & Hc & Hs & [(w & E & G1)|(E & G1 & Hl)]);
      [apply Hlt; lia|unfold PGSIZE in *; lia|..].
    + assert (EL : (length (ws ++ [w]) + k = length ws + S k)%nat) by (rewrite length_app; simpl; lia).
      rewrite E. destruct (IH s1 T1 l1 (ws ++ [w]) c1 G1) as (r & c' & s' & T' & l' & ws' & R & Hc' & G' & Hs' & Hr); rewrite ?EL in *; [by eapply calm_ok|done..|].
      exists r, c', s', T', l', ws'. split_and!; [done|by eapply calm_trans|done|lia|]. exact Hr.
    + exists 0, c1, s1, T1, l1, []. split_and!; [done..|lia|]. right. split_and!; [done|done|lia].
Qed.

End Grow.

(** ** The address space of a process *)

Section Space.
Context {LY : Layout} {LO : LayoutOk}.

(** Pages in use that are not tables of the process. *)
Definition others (T : ptree) (l : list Z) (q : Z) : Prop := busy l q /\ ~ in_tree T q.

Lemma others_user root s T vt vf vs l sz v : pspace root s T vt vf vs l sz -> v ∈ vs -> others T l (PTE2PA v).
Proof. intros S Hv. destruct (ps_user _ _ _ _ _ _ _ _ S) as (_ & _ & _ & H). by destruct (H v Hv) as (? & ? & ?). Qed.

Lemma user_pte m T vs va :
  ptes_from m T 0 vs -> Z.of_nat (length vs) * PGSIZE <= MAXVA -> 0 <= va < Z.of_nat (length vs) * PGSIZE ->
  exists v, vs !! Z.to_nat (va / PGSIZE) = Some v /\ pte_at m T va = Some v.
Proof.
  intros U HM Hva. pose proof (Z.div_pos va PGSIZE ltac:(lia) ltac:(done)). pose proof (Z.mod_pos_bound va PGSIZE ltac:(done)).
  assert (va / PGSIZE < Z.of_nat (length vs)) by (apply Z.div_lt_upper_bound; [done|lia]).
  destruct (lookup_lt_is_Some_2 vs (Z.to_nat (va / PGSIZE))) as [v Hv]; [lia|]. exists v. split; [done|].
  rewrite <- (U _ _ Hv), Z2Nat.id by lia. pose proof (Z.div_mod va PGSIZE ltac:(done)). apply pte_at_page; [lia|unfold PGSIZE in *; lia|].
  apply Z.eqb_eq. by rewrite Z.add_0_l, Z.div_mul.
Qed.

Lemma uread_pte m T va v :
  va < MAXVA -> pte_at m T va = Some v -> uread m T va = if has v PTE_U then Some (bget m (PTE2PA v + va `mod` PGSIZE)) else None.
Proof.
  intros H E. unfold uread, uaddr, upage. rewrite (proj2 (Z.ltb_lt _ _) H), E. cbn [negb mbind option_bind]. by destruct (has v PTE_U).
Qed.

(** What is read where the mapping and the pages are the same. *)
Lemma uread_kept m m' T T' vs vs' va (Q : Z -> Prop) :
  ptes_from m T 0 vs -> ptes_from m' T' 0 vs' -> Z.of_nat (length vs) * PGSIZE <= MAXVA -> Z.of_nat (length vs') * PGSIZE <= MAXVA ->
  0 <= va < Z.of_nat (length vs) * PGSIZE -> 0 <= va < Z.of_nat (length vs') * PGSIZE ->
  vs' !! Z.to_nat (va / PGSIZE) = vs !! Z.to_nat (va / PGSIZE) ->
  same_pages Q m m' -> (forall v, vs' !! Z.to_nat (va / PGSIZE) = Some v -> Q (PTE2PA v)) -> uread m' T' va = uread m T va.
Proof.
  intros U U' HM HM' Hva Hva' E S HQ. destruct (user_pte m T vs va U HM Hva) as (v & Hv & Hp). destruct (user_pte m' T' vs' va U' HM' Hva') as (v' & Hv' & Hp').
  assert (v' = v) as -> by congruence. rewrite (uread_pte m T va v), (uread_pte m' T' va v) by (done || lia).
  destruct (has v PTE_U); [|done]. f_equal. pose proof (Z.mod_pos_bound va PGSIZE ltac:(done)). apply (S (PTE2PA v)); [by apply HQ|lia].
Qed.

(** A process has no more memory than the machine. *)
Lemma space_bound root s T vt vf vs l sz : pspace root s T vt vf vs l sz -> 0 <= sz <= PHYSTOP - KERNBASE.
Proof.
  intros S. destruct (ps_size _ _ _ _ _ _ _ _ S) as (Hsz & Hup & _). destruct (ps_user _ _ _ _ _ _ _ _ S) as (_ & _ & N & H).
  assert (TRAPFRAME < 2 ^ 40) by done. assert (EP : PGSIZE = 4096) by done. destruct (PGROUNDUP_bounds sz) as [_ B]; [lia..|].
  assert (length (PTE2PA <$> vs) <= length ((fun i : Z => (i * PGSIZE)%Z) <$> seqZ 0x80000 0x8000))%nat as HL.
  { apply count_le; [done|]. intros p (v & -> & Hv)%list_elem_of_fmap. destruct (H v Hv) as ((H1 & H2 & H3) & _). destruct layout_order as (L1 & L2 & L3).
    apply list_elem_of_fmap. exists (PTE2PA v / PGSIZE). unfold PHYSTOP, KERNBASE in *. pose proof (Z.div_mod (PTE2PA v) PGSIZE ltac:(done)).
    split; [lia|]. apply elem_of_seqZ. unfold PGSIZE in *. lia. }
  rewrite !length_fmap, length_seqZ in HL. unfold PHYSTOP, KERNBASE in *. rewrite EP in *. lia.
Qed.

Lemma space_start root s T vt vf vs l sz :
  pspace root s T vt vf vs l sz -> grown root (length vs) (others T l) (k_mem s) T l s T l [].
Proof.
  intros S. split; [apply S|apply S| |done|apply NoDup_nil_2|by intros w ?%elem_of_nil| |by intros w ?%elem_of_nil|].
  - by intros q [[[? ?] ?]|?%elem_of_nil].
  - intros va _. by rewrite added_nil.
  - intros p. cbn [fmap list_fmap]. rewrite elem_of_nil. tauto.
Qed.

(** The address space with the pages of [ws] added. *)
Lemma grown_space root s T vt vf vs l sz s' T' l' ws newsz :
  pspace root s T vt vf vs l sz -> grown root (length vs) (others T l) (k_mem s) T l s' T' l' ws ->
  0 <= newsz <= TRAPFRAME -> PGROUNDUP newsz = Z.of_nat (length (vs ++ ws)) * PGSIZE -> Z.of_nat (length (vs ++ ws)) * PGSIZE <= TRAPFRAME ->
  pspace root s' T' vt vf (vs ++ ws) l' newsz.
Proof.
  intros S G Hn Hup HM. assert (TRAPFRAME < TRAMPOLINE /\ TRAMPOLINE < MAXVA) as [M1 M2] by done. assert (EP : PGSIZE = 4096) by done.
  pose proof HM as HM'. rewrite length_app in HM'. destruct (ps_user _ _ _ _ _ _ _ _ S) as (U1 & U2 & N & U3).
  destruct (grown_from root _ _ _ _ _ _ _ _ _ G) as (W1 & W2 & W3); [lia|].
  assert (Hout : forall va, Z.of_nat (length (vs ++ ws)) * PGSIZE <= va < MAXVA -> pte_at (k_mem s') T' va = pte_at (k_mem s) T va).
  { intros va Hva. rewrite length_app in Hva. rewrite (gw_ptes _ _ _ _ _ _ _ _ _ _ G), added_out by lia. done. }
  split; [apply G|apply G| | |done| |].
  - rewrite Hout by lia. apply S.
  - rewrite Hout by lia. apply S.
  - split_and!; [|by apply Forall_app|split].
    + intros j v [Hv|[Hj Hv]]%lookup_app_Some.
      * pose proof (lookup_lt_Some _ _ _ Hv). rewrite (gw_ptes _ _ _ _ _ _ _ _ _ _ G), added_out by lia. by apply U1.
      * rewrite <- (W1 _ _ Hv). f_equal. lia.
    + rewrite fmap_app. apply NoDup_app. split_and!; [done| |apply G]. intros p (v & -> & Hv)%list_elem_of_fmap (w & E & Hw)%list_elem_of_fmap.
      apply (gw_apart _ _ _ _ _ _ _ _ _ _ G w Hw). rewrite <- E. by eapply others_user.
    + intros v [Hv|Hv]%elem_of_app; [|by apply W3]. apply (gw_kept _ _ _ _ _ _ _ _ _ _ G). left. by eapply others_user.
  - intros va Hva. rewrite Hout by lia. apply (ps_rest _ _ _ _ _ _ _ _ S). rewrite length_app in Hva. lia.
Qed.

Lemma space_ptes root s T vt vf vs l sz : pspace root s T vt vf vs l sz -> ptes_from (k_mem s) T 0 vs /\ Z.of_nat (length vs) * PGSIZE <= MAXVA.
Proof. intros S. destruct (ps_size _ _ _ _ _ _ _ _ S) as (_ & _ & H). assert (TRAPFRAME < MAXVA) by done. split; [apply S|lia]. Qed.

(** What is read at the old and at the new addresses. *)
Lemma grown_reads root s T vt vf vs l sz s' T' l' ws newsz :
  pspace root s T vt vf vs l sz -> grown root (length vs) (others T l) (k_mem s) T l s' T' l' ws ->
  pspace root s' T' vt vf (vs ++ ws) l' newsz ->
  (forall va, 0 <= va < Z.of_nat (length vs) * PGSIZE -> uread (k_mem s') T' va = uread (k_mem s) T va) /\
  (forall va, Z.of_nat (length vs) * PGSIZE <= va < Z.of_nat (length (vs ++ ws)) * PGSIZE -> uread (k_mem s') T' va = Some 0).
Proof.
  intros S G S'. destruct (space_ptes _ _ _ _ _ _ _ _ S) as [U HM]. destruct (space_ptes _ _ _ _ _ _ _ _ S') as [U' HM']. pose proof (Z.mod_pos_bound) as Hmod.
  assert (EP : PGSIZE = 4096) by done. pose proof (length_app vs ws) as EL. split; intros va Hva.
  - assert (Hi : (Z.to_nat (va / PGSIZE) < length vs)%nat) by (destruct (user_pte _ _ _ _ U HM Hva) as (v & Hv & _); by eapply lookup_lt_Some).
    eapply (uread_kept _ _ _ _ vs (vs ++ ws) va (others T l)); [done..|lia|by rewrite lookup_app_l|apply G|].
    intros v Hv. rewrite lookup_app_l in Hv by done. by eapply others_user, list_elem_of_lookup_2.
  - destruct (user_pte (k_mem s') T' (vs ++ ws) va U' HM') as (w & Hw & Hp); [lia|]. rewrite (uread_pte _ _ _ w) by (done || lia).
    pose proof (Z.div_le_lower_bound va PGSIZE (Z.of_nat (length vs)) ltac:(done)). rewrite lookup_app_r in Hw by lia.
    destruct (gw_zero _ _ _ _ _ _ _ _ _ _ G w) as [Hf Hz]; [by eapply list_elem_of_lookup_2|].
    assert (Hu : has w PTE_U = true) by (unfold PTE_U; rewrite <- (PTE_FLAGS_has w 4), Hf by lia; done). rewrite Hu. f_equal. apply Hz. by apply Hmod.
Qed.

(** The pages that uvmalloc() needs. *)
Definition more (vs : list Z) (newsz : Z) : nat := Z.to_nat ((newsz - Z.of_nat (length vs) * PGSIZE + PGSIZE - 1) / PGSIZE).

Lemma more_pages (vs : list Z) sz newsz :
  0 <= sz <= newsz -> newsz <= TRAPFRAME -> PGROUNDUP sz = Z.of_nat (length vs) * PGSIZE ->
  let n := Z.of_nat (length vs) + Z.of_nat (more vs newsz) in
  PGROUNDUP newsz = n * PGSIZE /\ n * PGSIZE <= TRAPFRAME /\ newsz <= n * PGSIZE /\
  forall i, Z.of_nat (length vs) <= i < n -> i * PGSIZE < newsz.
Proof.
  intros H HT E. cbn zeta. assert (ET : TRAPFRAME = 67108862 * PGSIZE) by done. assert (EP : PGSIZE = 4096) by done. unfold more.
  destruct (PGROUNDUP_bounds sz) as [_ B]; [lia..|]. rewrite (PGROUNDUP_eq newsz) by lia. set (k := Z.of_nat (length vs)) in *.
  replace (newsz - k * PGSIZE + PGSIZE - 1) with (newsz + PGSIZE - 1 + (- k) * PGSIZE) by lia. rewrite Z.div_add by done.
  pose proof (Z.div_mod (newsz + PGSIZE - 1) PGSIZE ltac:(done)). pose proof (Z.mod_pos_bound (newsz + PGSIZE - 1) PGSIZE ltac:(done)).
  set (q := (newsz + PGSIZE - 1) / PGSIZE) in *. rewrite EP in *. rewrite Z2Nat.id by lia. split_and!; lia.
Qed.

Lemma space_alloc root s T vt vf vs l sz newsz c :
  pspace root s T vt vf vs l sz -> cpu_ok (cx_cpu c) -> sz <= newsz <= TRAPFRAME ->
  exists r c' s' T' l' ws, uvmalloc root sz newsz (c, s) = Ret r (c', s') /\ calm c c' /\
    grown root (length vs) (others T l) (k_mem s) T l s' T' l' ws /\
    (r = newsz /\ pspace root s' T' vt vf (vs ++ ws) l' newsz \/
     r = 0 /\ ws = [] /\ pspace root s' T' vt vf vs l' sz /\ (length l' <= more vs newsz)%nat /\ (size T' <= size T + 2 * more vs newsz)%nat).
Proof.
  intros S Hok Hn. destruct (ps_size _ _ _ _ _ _ _ _ S) as (Hsz & Hup & HM). unfold uvmalloc. rewrite (proj2 (Z.ltb_ge _ _)), Hup by lia. cbv zeta.
  destruct (more_pages vs sz newsz) as (M1 & M2 & M3 & M4); [lia..|done|].
  destruct (uvmalloc_loop_run root (length vs) (others T l) (k_mem s) T l (ps_rest _ _ _ _ _ _ _ _ S) (more vs newsz) newsz s T l [] c
    (space_start _ _ _ _ _ _ _ _ S) Hok M3 M4 M2) as (r & c' & s' & T' & l' & ws & R & Hc & G & Hs & Hr).
  rewrite Z.add_0_r in R. exists r, c', s', T', l', ws. split_and!; [done..|].
  destruct Hr as [[-> Hl]|(-> & -> & Hl)]; [left|right].
  - split; [done|]. assert (EL : Z.of_nat (length (vs ++ ws)) = Z.of_nat (length vs) + Z.of_nat (more vs newsz)) by (rewrite length_app; cbn [length] in Hl; lia).
    eapply grown_space; [done|done|lia|by rewrite EL, M1|by rewrite EL].
  - split_and!; [done|done| |done..]. pose proof (grown_space root s T vt vf vs l sz s' T' l' [] sz S G) as H. rewrite app_nil_r in H. by apply H.
Qed.

(** The pages that remain. *)
Definition pages (sz : Z) : nat := Z.to_nat (PGROUNDUP sz / PGSIZE).

Lemma pages_le (vs : list Z) sz newsz :
  0 <= newsz <= sz -> sz <= TRAPFRAME -> PGROUNDUP sz = Z.of_nat (length vs) * PGSIZE ->
  PGROUNDUP newsz = Z.of_nat (pages newsz) * PGSIZE /\ (pages newsz <= length vs)%nat.
Proof.
  intros H HT E. assert (TRAPFRAME < 2 ^ 40) by done. assert (EP : PGSIZE = 4096) by done.
  unfold pages. rewrite (PGROUNDUP_eq newsz), Z.div_mul by (done || lia). destruct (PGROUNDUP_bounds newsz) as [_ B]; [lia..|].
  rewrite (PGROUNDUP_eq sz) in E by lia. rewrite (PGROUNDUP_eq newsz) in B by lia. pose proof (Z.div_le_mono (newsz + PGSIZE - 1) (sz + PGSIZE - 1) PGSIZE ltac:(done)).
  assert (0 <= (newsz + PGSIZE - 1) / PGSIZE) by (apply Z.div_pos; lia). rewrite Z2Nat.id by done. rewrite EP in *. split; lia.
Qed.

Lemma space_dealloc root s T vt vf vs l sz newsz c :
  pspace root s T vt vf vs l sz -> cpu_ok (cx_cpu c) -> 0 <= newsz <= sz ->
  let n := pages newsz in
  exists c' s', uvmdealloc root sz newsz (c, s) = Ret newsz (c', s') /\ calm c c' /\
    pspace root s' T vt vf (take n vs) (freed true (drop n vs) l) newsz /\
    same_pages (fun q => others T l q /\ q ∉ PTE2PA <$> drop n vs) (k_mem s) (k_mem s') /\
    (forall va, 0 <= va < Z.of_nat n * PGSIZE -> uread (k_mem s') T va = uread (k_mem s) T va).
Proof.
  intros S Hok Hn. cbn zeta. destruct (ps_size _ _ _ _ _ _ _ _ S) as (Hsz & Hup & HM). destruct (ps_user _ _ _ _ _ _ _ _ S) as (U & F & N & Rl).
  destruct (pages_le vs sz newsz) as [E1 E2]; [lia|lia|done|]. set (n := pages newsz) in *. assert (EP : PGSIZE = 4096) by done.
  assert (TRAPFRAME < TRAMPOLINE /\ TRAMPOLINE < MAXVA) as [M1 M2] by done. pose proof (length_drop vs n) as EL.
  assert (Hlt : length (take n vs) = n) by (rewrite length_take; lia).
  rewrite <- (take_drop n vs), fmap_app, NoDup_app in N. destruct N as (N1 & N2 & N3).
  assert (RD : releasable T (drop n vs) l) by (split; [done|]; intros v Hv; apply Rl; rewrite <- (take_drop n vs); apply elem_of_app; by right).
  destruct (uvmdealloc_run (drop n vs) root T sz newsz c s l) as (c' & s' & R & Hc & V & Un & L); [apply S|done|lia|lia|lia| |by apply Forall_drop|done|].
  { intros j v Hj. rewrite lookup_drop in Hj. rewrite E1, <- (U _ _ Hj). f_equal. lia. }
  assert (EN : PGROUNDUP newsz + Z.of_nat (length (drop n vs)) * PGSIZE = Z.of_nat (length vs) * PGSIZE) by lia.
  assert (Lo : forall va, 0 <= va < Z.of_nat n * PGSIZE -> pte_at (k_mem s') T va = pte_at (k_mem s) T va).
  { intros va Hva. rewrite L by lia. unfold unmapped. by rewrite (proj2 (Z.leb_gt _ _)) by lia. }
  assert (Hi : forall va, Z.of_nat (length vs) * PGSIZE <= va < MAXVA -> pte_at (k_mem s') T va = pte_at (k_mem s) T va).
  { intros va Hva. rewrite L by lia. unfold unmapped. rewrite EN, (proj2 (Z.ltb_ge _ _)) by lia. by rewrite andb_false_r. }
  assert (S' : pspace root s' T vt vf (take n vs) (freed true (drop n vs) l) newsz).
  { split; [done|apply S| | | | |].
    - rewrite Hi by lia. apply S.
    - rewrite Hi by lia. apply S.
    - rewrite Hlt. split_and!; lia.
    - split_and!; [|by apply Forall_take|split; [done|]].
      + intros j v Hj. pose proof (lookup_lt_Some _ _ _ Hj). rewrite Lo by lia. apply U. by rewrite lookup_take_lt in Hj by lia.
      + intros v Hv. destruct (Rl v) as (H1 & H2 & H3); [rewrite <- (take_drop n vs); apply elem_of_app; by left|]. split_and!; [done..|].
        unfold freed. rewrite elem_of_app, elem_of_reverse. intros [H|H]; [|done]. by eapply N2; [apply list_elem_of_fmap_2|].
    - rewrite Hlt. intros va Hva. destruct (decide (va < Z.of_nat (length vs) * PGSIZE)).
      + rewrite L by lia. unfold unmapped. by rewrite EN, (proj2 (Z.leb_le _ _)), (proj2 (Z.ltb_lt _ _)) by lia.
      + rewrite Hi by lia. apply (ps_rest _ _ _ _ _ _ _ _ S). lia. }
  assert (Same : same_pages (fun q => others T l q /\ q ∉ PTE2PA <$> drop n vs) (k_mem s) (k_mem s')).
  { eapply (untouched_keeps _ root T l (drop n vs)); [apply S|by intros q [[[? ?] ?] _]| |done].
    intros v Hv. split; [by apply RD|]. intros [_ H]. by apply H, list_elem_of_fmap_2. }
  exists c', s'. split_and!; [done..|]. intros va Hva. destruct (space_ptes _ _ _ _ _ _ _ _ S') as [U' HM'].
  assert (Hj : (Z.to_nat (va / PGSIZE) < n)%nat) by (rewrite <- Hlt; destruct (user_pte _ _ _ va U' HM') as (v & Hv & _); [lia|by eapply lookup_lt_Some]).
  eapply (uread_kept _ _ _ _ vs (take n vs)); [done|done|lia|lia|lia|lia|by apply lookup_take_lt|done|].
  intros v Hv. pose proof Hv as Hin. rewrite lookup_take_lt in Hv by done. split; [by eapply others_user, list_elem_of_lookup_2|].
  intros H. eapply N2; [|done]. by eapply list_elem_of_fmap_2, list_elem_of_lookup_2.
Qed.

End Space.

(** ** growproc() and sys_sbrk() *)

Section Brk.
Context {LY : Layout} {LO : LayoutOk}.
Context (c : ctx) (s : kern) (i : nat) (pid : Z) (me : proc) (T : ptree) (vt vf : Z) (vs l : list Z).

Record brk_pre : Prop := {
  bp_ctx : kctx c i pid;
  bp_me : cx_procs c !! i = Some me;
  bp_space : pspace (p_pagetable me) (kk s) T vt vf vs l (p_sz me);
  bp_tf : p_trapframe me <> 0
}.

(** The memory of the process after sbrk(n): its new size, and whether the call succeeded. *)
Inductive brk_end (n : Z) (k' : kst) : bool -> Z -> Prop :=
  | brk_grown T' l' ws :
      0 <= n -> pspace (p_pagetable me) k' T' vt vf (vs ++ ws) l' (p_sz me + n) ->
      (forall va, 0 <= va < Z.of_nat (length vs) * PGSIZE -> uread (k_mem k') T' va = uread (k_mem (kk s)) T va) ->
      (forall va, Z.of_nat (length vs) * PGSIZE <= va < p_sz me + n -> uread (k_mem k') T' va = Some 0) ->
      (forall p, share T' l' p \/ p ∈ PTE2PA <$> ws <-> share T l p) ->
      same_pages (others T l) (k_mem (kk s)) (k_mem k') -> brk_end n k' true (p_sz me + n)
  | brk_failed T' l' :
      0 < n -> pspace (p_pagetable me) k' T' vt vf vs l' (p_sz me) ->
      (forall va, 0 <= va < p_sz me -> uread (k_mem k') T' va = uread (k_mem (kk s)) T va) ->
      (forall p, share T' l' p <-> share T l p) ->
      (length l' <= more vs (p_sz me + n))%nat -> (size T' <= size T + 2 * more vs (p_sz me + n))%nat ->
      same_pages (others T l) (k_mem (kk s)) (k_mem k') -> brk_end n k' false (p_sz me)
  | brk_shrunk :
      n < 0 -> 0 <= p_sz me + n ->
      let m := pages (p_sz me + n) in
      pspace (p_pagetable me) k' T vt vf (take m vs) (freed true (drop m vs) l) (p_sz me + n) ->
      (forall va, 0 <= va < p_sz me + n -> uread (k_mem k') T va = uread (k_mem (kk s)) T va) ->
      same_pages (fun q => others T l q /\ q ∉ PTE2PA <$> drop m vs) (k_mem (kk s)) (k_mem k') -> brk_end n k' true (p_sz me + n)
  | brk_ignored : p_sz me + n < 0 -> k' = kk s -> brk_end n k' true (p_sz me).

Lemma kmem_run {A} (m : K kst A) c1 c1' (s1 : kern) a k' : m (c1, kk s1) = Ret a (c1', k') -> kmem m (c1, s1) = Ret a (c1', set_kk k' s1).
Proof. intros H. unfold kmem. by rewrite (zoom_ret kk_l m c1 s1 (kk s1) a c1' k'). Qed.

Lemma calm_twice c1 c2 : calm (settled c1) c2 -> c2 = settled c1.
Proof. intros [->| ->]; [done|apply settled_idem]. Qed.

Lemma set_sz_same : set_p_sz (p_sz me) me = me.
Proof. by destruct me. Qed.

Hypothesis H : brk_pre.

(** Nothing added. *)
Lemma brk_same : brk_end 0 (kk s) true (p_sz me).
Proof.
  pose proof (bp_space H) as S. rewrite <- (Z.add_0_r (p_sz me)). apply (brk_grown 0 (kk s) T l []); rewrite ?Z.add_0_r, ?app_nil_r; [lia|done|done| | |done].
  - intros va Hva. destruct (ps_size _ _ _ _ _ _ _ _ S) as (Hsz & Hup & _). assert (TRAPFRAME < 2 ^ 40) by done. assert (PGSIZE = 4096) by done.
    destruct (PGROUNDUP_bounds (p_sz me)) as [_ B]; [lia..|]. lia.
  - intros p. cbn [fmap list_fmap]. rewrite elem_of_nil. tauto.
Qed.

Lemma growproc_grow n : 0 < n < 2 ^ 31 ->
  exists b sz k', growproc n (c, s) = Ret (if b : bool then 0 else -1) (set_proc i (set_p_sz sz me) (settled c), set_kk k' s) /\ brk_end n k' b sz.
Proof.
  intros Hn. destruct H as [Hc Hme S _]. pose proof (space_bound _ _ _ _ _ _ _ _ S) as B. assert (EB : PHYSTOP - KERNBASE = 2 ^ 27) by done.
  assert (HT : 2 ^ 33 < TRAPFRAME) by done. assert (Hok : cpu_ok (cx_cpu (settled c))) by (apply settled_ok, Hc).
  unfold growproc. rewrite (bind_ret _ _ _ _ _ (curproc_settled c s i pid Hc)), (bind_ret _ _ _ _ _ (pget_run (settled c) s i me Hme)). cbv zeta.
  rewrite (proj2 (Z.ltb_lt 0 n)), !(u32_small (p_sz me)), (u32_small (p_sz me + n)) by lia.
  destruct (space_alloc _ _ _ _ _ _ _ _ (p_sz me + n) (settled c) S Hok) as (r & c' & k' & T' & l' & ws & R & ->%calm_twice & G & Hr); [lia|].
  rewrite (bind_ret _ _ _ _ _ (kmem_run _ _ _ s _ _ R)).
  destruct Hr as [[-> S']|(-> & -> & S' & Hl & HT')].
  - rewrite u32_small, (proj2 (Z.eqb_neq _ 0)), (pupd_step i _ _ (settled c) _ me Hme) by lia.
    exists true, (p_sz me + n), k'. split; [done|]. destruct (grown_reads _ _ _ _ _ _ _ _ _ _ _ _ _ S G S') as [R1 R2].
    apply (brk_grown n k' T' l' ws); [lia|done|done| |apply G|apply G]. intros va Hva. apply R2.
    pose proof (space_below _ _ _ _ _ _ _ _ va S'). assert (0 <= Z.of_nat (length vs) * PGSIZE) by (unfold PGSIZE; lia). lia.
  - exists false, (p_sz me), k'. rewrite set_sz_same, set_proc_same by done. split; [done|].
    destruct (grown_reads _ _ _ _ _ _ _ _ _ _ _ [] (p_sz me) S G) as [R1 _]; [by rewrite app_nil_r|].
    apply (brk_failed n k' T' l'); [lia|done| | |done|done|apply G].
    + intros va Hva. apply R1. by eapply space_below.
    + intros p. rewrite <- (gw_all _ _ _ _ _ _ _ _ _ _ G p). cbn [fmap list_fmap]. rewrite elem_of_nil. tauto.
Qed.

Lemma growproc_shrink n : - 2 ^ 31 <= n < 0 ->
  exists sz k', growproc n (c, s) = Ret 0 (set_proc i (set_p_sz sz me) (settled c), set_kk k' s) /\ brk_end n k' true sz.
Proof.
  intros Hn. destruct H as [Hc Hme S _]. pose proof (space_bound _ _ _ _ _ _ _ _ S) as B. assert (EB : PHYSTOP - KERNBASE = 2 ^ 27) by done.
  assert (Hok : cpu_ok (cx_cpu (settled c))) by (apply settled_ok, Hc).
  unfold growproc. rewrite (bind_ret _ _ _ _ _ (curproc_settled c s i pid Hc)), (bind_ret _ _ _ _ _ (pget_run (settled c) s i me Hme)). cbv zeta.
  rewrite (proj2 (Z.ltb_ge 0 n)), (proj2 (Z.ltb_lt n 0)), !(u32_small (p_sz me)) by lia.
  destruct (decide (0 <= p_sz me + n)) as [Hp|Hp].
  - rewrite u32_small by lia. destruct (space_dealloc _ _ _ _ _ _ _ _ (p_sz me + n) (settled c) S Hok) as (c' & k' & R & ->%calm_twice & S' & Sm & Rd); [lia|].
    rewrite (bind_ret _ _ _ _ _ (kmem_run _ _ _ s _ _ R)), (pupd_step i _ _ (settled c) _ me Hme), u32_small by lia.
    exists (p_sz me + n), k'. split; [done|]. apply brk_shrunk; [lia|lia|done| |done]. intros va Hva. apply Rd.
    pose proof (space_below _ _ _ _ _ _ _ _ va S' Hva) as Hb. rewrite length_take in Hb. unfold PGSIZE in *. lia.
  - assert (E : u32 (p_sz me + n) = p_sz me + n + 2 ^ 32) by (unfold u32; symmetry; apply (Z.mod_unique _ _ (-1)); lia).
    assert (R : uvmdealloc (p_pagetable me) (p_sz me) (u32 (p_sz me + n)) (settled c, kk s) = Ret (p_sz me) (settled c, kk s)).
    { unfold uvmdealloc. rewrite E. by rewrite (proj2 (Z.leb_le _ _)) by lia. }
    rewrite (bind_ret _ _ _ _ _ (kmem_run _ _ _ s _ _ R)), (pupd_step i _ _ (settled c) _ me Hme), u32_small by lia.
    exists (p_sz me), (kk s). split; [done|]. by apply brk_ignored; [lia|].
Qed.

Lemma growproc_run n : - 2 ^ 31 <= n < 2 ^ 31 ->
  exists b sz k', growproc n (c, s) = Ret (if b : bool then 0 else -1) (set_proc i (set_p_sz sz me) (settled c), set_kk k' s) /\ brk_end n k' b sz.
Proof.
  intros Hn. destruct (Z.lt_trichotomy n 0) as [Hlt|[->|Hgt]]; [|clear Hn|apply growproc_grow; lia].
  - destruct (growproc_shrink n) as (sz & k' & R & E); [lia|]. by exists true, sz, k'.
  - exists true, (p_sz me), (kk s). split; [|apply brk_same]. destruct H as [Hc Hme S _]. pose proof (space_bound _ _ _ _ _ _ _ _ S) as B.
    assert (EB : PHYSTOP - KERNBASE = 2 ^ 27) by done.
    unfold growproc. rewrite (bind_ret _ _ _ _ _ (curproc_settled c s i pid Hc)), (bind_ret _ _ _ _ _ (pget_run (settled c) s i me Hme)). cbn [Z.ltb Z.compare].
    rewrite u32_small, (pupd_step i _ _ (settled c) _ me Hme) by lia. by destruct s.
Qed.

End Brk.

Section Sbrk.
Context {LY : Layout} {LO : LayoutOk}.

(** C6: sbrk(n), for every n, ends in one of four ways.  With n at least 0 it
    returns the old size and the process has n bytes more: up to the end of its
    last old page it reads what it read before, so bytes between the old size
    and that end keep what they held, and above it reads zeros, from pages of
    its own that were free.  Or it returns -1 for want of memory: size, mapping
    and contents are as before, every page that was free is free or a table of
    the process, and the free list holds no more pages than were asked for.
    With a negative n down to minus the size it returns the old size, the pages
    above the new size are unmapped and free again, and the rest reads as
    before.  An n below minus the size is ignored: the old size is returned as
    by a call that succeeded, and nothing changes.  No page of another process
    changes.  The size is kept in a uint on the way; no process is large enough
    for that to matter. *)
Theorem sys_sbrk_correct c s i pid me T vt vf vs l :
  brk_pre c s i pid me T vt vf vs l ->
  exists ok sz k', sys_sbrk (c, s) = Ret (if ok : bool then p_sz me else -1) (set_proc i (set_p_sz sz me) (settled c), set_kk k' s) /\
    brk_end s me T vt vf vs l (arg_int me s 0) k' ok sz.
Proof.
  intros [Hc Hme S Ht]. assert (H' : brk_pre (settled c) s i pid me T vt vf vs l) by (split; [by apply kctx_settled|done..]).
  destruct (growproc_run _ _ _ _ _ _ _ _ _ _ H' (arg_int me s 0) (i32_range _)) as (ok & sz & k' & R & E). exists ok, sz, k'. split; [|done].
  pose proof (space_bound _ _ _ _ _ _ _ _ S) as B. assert (EB : PHYSTOP - KERNBASE = 2 ^ 27) by done. rewrite settled_idem in R.
  unfold sys_sbrk. rewrite (bind_ret _ _ _ _ _ (argint_run c s i pid me 0 Hc Hme Ht ltac:(lia))).
  rewrite (bind_ret _ _ _ _ _ (curproc_settled (settled c) s i pid (kctx_settled _ _ _ Hc))), settled_idem, (bind_ret _ _ _ _ _ (pget_run (settled c) s i me Hme)).
  cbv zeta. rewrite (bind_ret _ _ _ _ _ R), i32_small by lia. by destruct ok.
Qed.

End Sbrk.

(** ** A concrete process

    The process of [ForkSpec.fk_me], which has one page, calls sbrk(8192). *)

#[local] Instance bk_lay : Layout := fk_layout.

Definition bk_k : kst := with_mem fk_k (st64 (k_mem fk_k) (pg 4 + TF_a0) 8192).
Definition bk_s : kern := set_kk bk_k (kern_f 1).

Lemma bk_pspace : pspace (pg 1) bk_k fk_T TRAMP_PTE (TF_PTE (pg 4)) fk_vs fk_l 4096.
Proof.
  assert (Hp : page_ok (pg 4)) by (apply page_okb_spec; by vm_compute). assert (Hl : pg 4 ∉ fk_l) by (apply (bool_decide_unpack (pg 4 ∉ fk_l)); by vm_compute).
  assert (Ht : ~ in_tree fk_T (pg 4)).
  { intros [path Hq%fk_lookup]. rewrite !elem_of_cons in Hq. destruct Hq as [[= _ H]|[[= _ H]|[[= _ H]|[[= _ H]|[[= _ H]|[]%elem_of_nil]]]]]; revert H; vm_compute; discriminate. }
  destruct (@page_write fk_lay fk_layout_ok (pg 1) fk_k fk_T fk_l (pg 4) (st64 (k_mem fk_k) (pg 4 + TF_a0) 8192)) as [S V]; [apply fk_vinv|done..| | |].
  - apply st64_ok, fk_mem_ok.
  - intros x Hx. apply st64_get_out. unfold off_page, PGSIZE, TF_a0 in *. lia.
  - apply (@pspace_ext fk_lay (pg 1) fk_k bk_k fk_T TRAMP_PTE (TF_PTE (pg 4)) fk_vs fk_l fk_l 4096); [apply fk_pspace|apply V|apply S|by left].
Qed.

Lemma bk_pre : brk_pre fk_ctx bk_s 0 1 fk_me fk_T TRAMP_PTE (TF_PTE (pg 4)) fk_vs fk_l.
Proof.
  split; [|done|apply bk_pspace|by vm_compute].
  split; [|done|simpl; lia]. split; [split; simpl; [lia|done]|done|by eexists|done|]. apply Forall_insert; [apply procs3_free|done].
Qed.

Lemma sys_sbrk_correct_witness : exists c' s', sys_sbrk (fk_ctx, bk_s) = Ret 4096 (c', s') /\ p_sz <$> cx_procs c' !! 0%nat = Some 12288.
Proof.
  destruct (@sys_sbrk_correct fk_lay fk_layout_ok fk_ctx bk_s 0 1 fk_me fk_T TRAMP_PTE (TF_PTE (pg 4)) fk_vs fk_l bk_pre) as (ok & sz & k' & R & E).
  assert (En : arg_int fk_me bk_s 0 = 8192) by by vm_compute. rewrite En in E. destruct E as [T' l' ws|T' l' Hn _ _ A L1 L2 _|Hn|Hn].
  - eexists _, _. split; [exact R|done].
  - exfalso. change (more fk_vs (p_sz fk_me + 8192)) with 2%nat in *. change (size fk_T) with 5%nat in L2.
    set (a := fk_l ++ (pg <$> [1; 2; 3; 5; 6])). assert (length a = 15%nat) by by vm_compute.
    assert (length a <= length l' + size T')%nat; [|lia]. apply count_share; [apply (bool_decide_unpack (NoDup _)); by vm_compute|].
    intros p [Hp|Hp]%elem_of_app; apply A; [by left|right]. cbn [fmap list_fmap] in Hp. rewrite !elem_of_cons in Hp.
    destruct Hp as [->|[->|[->|[->|[->|[]%elem_of_nil]]]]]; [exists []|exists [255]|exists [255; 511]|exists [0]|exists [0; 0]]; by vm_compute.
  - exfalso. lia.
  - exfalso. change (p_sz fk_me) with 4096 in Hn. lia.
Defined.
