(* ===== verification/ExecSpec.v ===== *)
(** * The second half of exec() (kernel/exec.c): the stack and the new image

    [exec_stack] runs when the program is loaded into a page table of its own: it adds the guard page and the
    stack, pushes the arguments, and makes the new address space the
    process's.  Two address spaces live in the same memory; [foreign]
    are the pages in use that do not belong to the new one. *)

From stdpp Require Import base numbers list list_numbers gmap strings.
From Stdlib Require Import ZArith Lia.
From S2P Require Import Prelude.
From S2P Require Import Machine.
From S2P Require Import Spinlock.
From S2P Require Import Mem.
From S2P Require Import Kalloc.
From S2P Require Import Vm.
From S2P Require Import VmSpec.
From S2P Require Import Uvm.
From S2P Require Import Uvmcopy.
From S2P Require Import Uvmfree.
From S2P Require Import Kern.
From S2P Require Import Sched.
From S2P Require Import SleepLk.
From S2P Require Import Bio.
From S2P Require Import UserMem.
From S2P Require Import Fs.
From S2P Require Import Proc.
From S2P Require Import Sysfile.
From S2P Require Import FileSpec.
From S2P Require Import PipeSpec.
From S2P Require Import ProcSpec.
From S2P Require Import ForkSpec.
From S2P Require Import BrkSpec.
From S2P Require Import Exec.

Local Open Scope Z_scope.

(** ** The user's pages of an address space *)

Section User.
Context {LY : Layout} {LO : LayoutOk}.
Context (root : Z) (k : kst) (T : ptree) (vt vf : Z) (vs l : list Z) (sz : Z).

(** A space whose trampoline and trapframe the user cannot reach. *)
Record uspace_of : Prop := {
  us_space : pspace root k T vt vf vs l sz;
  us_hidden : has vt PTE_U = false /\ has vf PTE_U = false
}.
Hypothesis H : uspace_of.

Lemma space_upage va p : 0 <= va -> upage (k_mem k) T va = Some p ->
  va < Z.of_nat (length vs) * PGSIZE /\ exists v, vs !! Z.to_nat (va / PGSIZE) = Some v /\ p = PTE2PA v.
Proof.
  destruct H as [S [Nt Nf]]. intros Hva Hp. destruct (space_ptes _ _ _ _ _ _ _ _ S) as [U HM]. destruct (decide (va < Z.of_nat (length vs) * PGSIZE)) as [Hlt|Hge].
  - split; [done|]. destruct (user_pte _ _ _ va U HM) as (v & Hv & E); [lia|]. exists v. split; [done|].
    unfold upage in Hp. rewrite E in Hp. destruct (negb _); [done|]. cbn in Hp. destruct (has v PTE_U); by simplify_eq.
  - exfalso. unfold upage in Hp. destruct (Z.ltb_spec va MAXVA) as [Hm|]; [|done]. cbn [negb] in Hp.
    assert (E1 : TRAMPOLINE = TRAPFRAME + PGSIZE) by done. assert (E2 : MAXVA = TRAMPOLINE + PGSIZE) by done. assert (EP : PGSIZE = 4096) by done.
    assert (E0 : 0 <= TRAPFRAME) by done.
    assert (Hsame : forall a, 0 <= a -> a `mod` PGSIZE = 0 -> a <= va < a + PGSIZE -> a < MAXVA -> pte_at (k_mem k) T va = pte_at (k_mem k) T a).
    { intros a Ha Hal Hin Hlt. apply pte_at_page; [lia|lia|]. apply Z.eqb_eq. pose proof (Z.div_mod a PGSIZE ltac:(done)).
      rewrite (page_of va (a / PGSIZE)); [done|lia]. }
    destruct (decide (va < TRAPFRAME)); [by rewrite (ps_rest _ _ _ _ _ _ _ _ S) in Hp by lia|].
    destruct (decide (va < TRAMPOLINE)).
    + rewrite (Hsame TRAPFRAME), (proj1 (ps_tf _ _ _ _ _ _ _ _ S)) in Hp by (done || lia). cbn in Hp. by rewrite Nf in Hp.
    + rewrite (Hsame TRAMPOLINE), (proj1 (ps_tramp _ _ _ _ _ _ _ _ S)) in Hp by (done || lia). cbn in Hp. by rewrite Nt in Hp.
Qed.

Lemma space_user : user_ok (k_mem k) T l.
Proof.
  destruct (ps_user _ _ _ _ _ _ _ _ (us_space H)) as (_ & _ & N & Rl). split.
  - intros va p Hva Hp. destruct (space_upage va p Hva Hp) as (_ & v & Hv & ->). apply Rl. by eapply list_elem_of_lookup_2.
  - intros va va' p Hva Hva' Hp Hp'. destruct (space_upage va p Hva Hp) as (_ & v & Hv & E). destruct (space_upage va' p Hva' Hp') as (_ & v' & Hv' & E').
    assert (Z.to_nat (va / PGSIZE) = Z.to_nat (va' / PGSIZE)) as Hi.
    { eapply (NoDup_lookup (PTE2PA <$> vs)); [done|by rewrite list_lookup_fmap, Hv|rewrite list_lookup_fmap, Hv'; simpl; congruence]. }
    pose proof (Z.div_pos va PGSIZE Hva ltac:(done)). pose proof (Z.div_pos va' PGSIZE Hva' ltac:(done)). apply Z.eqb_eq. lia.
Qed.

Lemma foreign_off q : page_ok q -> (q ∉ PTE2PA <$> vs) -> forall x, q <= x < q + PGSIZE -> off_user (k_mem k) T x.
Proof.
  intros Hq Hn x Hx va p Hva Hp. destruct (space_upage va p Hva Hp) as (_ & v & Hv & ->). apply list_elem_of_lookup_2 in Hv.
  destruct (ps_user _ _ _ _ _ _ _ _ (us_space H)) as (_ & _ & _ & Rl). apply (pages_apart (PTE2PA v) q); [by apply Rl|done| |done].
  intros <-. by apply Hn, list_elem_of_fmap_2.
Qed.

End User.

Section Copyout.
Context {LY : Layout} {LO : LayoutOk}.

(** Pages that are neither tables nor memory of the space. *)
Definition outside (T : ptree) (vs : list Z) (q : Z) : Prop := page_ok q /\ ~ parent_page T vs q.

(** copyout() to mapped addresses stays within the space. *)
Lemma space_copyout root k T vt vf vs l sz va bs c :
  uspace_of root k T vt vf vs l sz -> 0 <= va -> Forall is_byte bs ->
  (forall a, va <= a < va + Z.of_nat (length bs) -> uread (k_mem k) T a <> None) ->
  exists k', copyout root va bs (c, k) = Ret 0 (c, k') /\ uspace_of root k' T vt vf vs l sz /\
    same_pages (outside T vs) (k_mem k) (k_mem k') /\
    (forall a, 0 <= a -> uread (k_mem k') T a = ustored va bs a (uread (k_mem k) T a)).
Proof.
  intros US Hva Hb Hm. pose proof US as [S Nu]. pose proof (ps_vinv _ _ _ _ _ _ _ _ S) as V.
  destruct (copyout_loop_run (Datatypes.S (length bs)) root T va bs c k l V (space_user _ _ _ _ _ _ _ _ US) Hva Hb ltac:(lia))
    as (r & k' & R & V' & TS & O & [(-> & L)|(_ & a & Ha & Hn)]); [|by destruct (Hm a Ha)].
  exists k'. split_and!; [done| | |done].
  - split; [|done]. apply (pspace_ext _ k _ _ _ _ _ l); [done|apply V'|done|by left].
  - intros q x [Hq Hn] Hx. apply O. eapply foreign_off; [done|exact Hq| |exact Hx]. intros Hin. apply Hn. by right.
Qed.

Lemma ustored_out va bs a o : a < va \/ va + Z.of_nat (length bs) <= a -> ustored va bs a o = o.
Proof. intros H. unfold ustored. destruct (Z.leb_spec va a), (Z.ltb_spec a (va + Z.of_nat (length bs))); simpl; done || lia. Qed.

Lemma ustored_in va bs i b o : bs !! i = Some b -> ustored va bs (va + Z.of_nat i) o = Some b.
Proof.
  intros H. pose proof (lookup_lt_Some _ _ _ H). unfold ustored. rewrite (proj2 (Z.leb_le _ _)), (proj2 (Z.ltb_lt _ _)) by lia.
  cbn [andb]. by replace (Z.to_nat (va + Z.of_nat i - va)) with i by lia.
Qed.

End Copyout.

(** ** uvmclear() *)

(** A PTE without PTE_U. *)
Definition hide (v : Z) : Z := Z.land v (Z.lnot PTE_U).

Lemma hide_bit v i : 0 <= i -> Z.testbit (hide v) i = Z.testbit v i && negb (i =? 4).
Proof.
  intros Hi. unfold hide, PTE_U. rewrite Z.land_spec, Z.lnot_spec, Z.shiftl_spec by done. do 2 f_equal.
  destruct (Z.eqb_spec i 4) as [->|Hne]; [done|]. change 1 with (2 ^ 0). apply Z.pow2_bits_false. lia.
Qed.

Lemma hide_PTE2PA v : PTE2PA (hide v) = PTE2PA v.
Proof.
  apply Z.bits_inj'. intros i Hi. rewrite !testbit_PTE2PA by done. destruct (Z.leb_spec 12 i); [|by rewrite !andb_false_r].
  rewrite hide_bit by lia. rewrite (proj2 (Z.eqb_neq (i - 2) 4)) by lia. cbn [negb]. by rewrite !andb_true_r.
Qed.

Lemma hide_has v : has (hide v) PTE_V = has v PTE_V /\ has (hide v) PTE_U = false.
Proof. unfold PTE_V, PTE_U. rewrite !has_bit, !hide_bit by lia. cbn [negb Z.eqb Pos.eqb]. by rewrite andb_true_r, andb_false_r. Qed.

Lemma hide_range v : 0 <= v < 2 ^ 64 -> 0 <= hide v < 2 ^ 64.
Proof.
  intros Hv. assert (E : hide v `mod` 2 ^ 64 = hide v); [|rewrite <- E; apply Z.mod_pos_bound; lia].
  unfold hide. rewrite <- Z.land_ones, <- Z.land_assoc, (Z.land_comm (Z.lnot _)), Z.land_assoc, Z.land_ones by lia. by rewrite Z.mod_small.
Qed.

Lemma hide_flags v : PTE_FLAGS (hide v) = hide (PTE_FLAGS v).
Proof. unfold hide, PTE_FLAGS. by rewrite <- !Z.land_assoc, (Z.land_comm (Z.lnot _)). Qed.

Section Clear.
Context {LY : Layout} {LO : LayoutOk}.

(** The PTE of one page changed, for the same page. *)
Lemma space_relabel root k k' T vt vf v1 g w v2 l sz :
  pspace root k T vt vf (v1 ++ g :: v2) l sz -> vinv root k' T l -> PTE2PA w = PTE2PA g -> PTE_FLAGS w <> PTE_V ->
  (forall va, 0 <= va < MAXVA -> pte_at (k_mem k') T va = if va / PGSIZE =? Z.of_nat (length v1) then Some w else pte_at (k_mem k) T va) ->
  pspace root k' T vt vf (v1 ++ w :: v2) l sz.
Proof.
  intros S V Hpa Hw L. destruct (space_ptes _ _ _ _ _ _ _ _ S) as [U _]. pose proof (ps_user _ _ _ _ _ _ _ _ S) as (_ & F & N & Rl).
  pose proof (ps_size _ _ _ _ _ _ _ _ S) as Hsz. assert (EL : length (v1 ++ w :: v2) = length (v1 ++ g :: v2)) by by rewrite !length_app.
  pose proof (length_app v1 (g :: v2)) as EG. cbn [length] in EG. set (n := length (v1 ++ g :: v2)) in *.
  assert (EP : PGSIZE = 4096) by done. assert (TRAPFRAME < TRAMPOLINE /\ TRAMPOLINE < MAXVA) as [M1 M2] by done.
  assert (Lo : forall va, Z.of_nat n * PGSIZE <= va < MAXVA -> pte_at (k_mem k') T va = pte_at (k_mem k) T va).
  { intros va Hva. rewrite L by lia. pose proof (Z.div_le_lower_bound va PGSIZE (Z.of_nat n) ltac:(done)). by rewrite (proj2 (Z.eqb_neq _ _)) by lia. }
  split; [done|apply S| | |by rewrite EL| |].
  - rewrite Lo by lia. apply S.
  - rewrite Lo by lia. apply S.
  - split_and!.
    + intros j v Hj. pose proof (lookup_lt_Some _ _ _ Hj) as Hlt. rewrite EL in Hlt.
      rewrite L, Z.add_0_l, Z.div_mul by (done || lia). destruct (Z.eqb_spec (Z.of_nat j) (Z.of_nat (length v1))) as [E|E].
      * apply Nat2Z.inj in E as ->. by rewrite lookup_app_r, Nat.sub_diag in Hj by lia.
      * rewrite <- (Z.add_0_l (Z.of_nat j * PGSIZE)). apply U. apply lookup_app_Some in Hj as [Hj|[H1 Hj]]; [by rewrite lookup_app_l by (by eapply lookup_lt_Some)|].
        rewrite lookup_app_r by done. destruct (j - length v1)%nat as [|j'] eqn:Ej; [lia|]. exact Hj.
    + apply Forall_app in F as [F1 [_ F2]%Forall_cons]. apply Forall_app. split; [done|]. by constructor.
    + rewrite fmap_app, fmap_cons in N. split; [by rewrite fmap_app, fmap_cons, Hpa|]. intros v Hv. rewrite elem_of_app, elem_of_cons in Hv.
      destruct Hv as [Hv|[->|Hv]]; [|rewrite Hpa|]; apply Rl; rewrite elem_of_app, elem_of_cons; auto.
  - intros va Hva. rewrite EL in Hva. rewrite Lo by lia. by apply (ps_rest _ _ _ _ _ _ _ _ S).
Qed.

Lemma uvmclear_run root k T vt vf v1 g v2 l sz c :
  uspace_of root k T vt vf (v1 ++ g :: v2) l sz -> PTE_FLAGS (hide g) <> PTE_V ->
  exists k', uvmclear root (Z.of_nat (length v1) * PGSIZE) (c, k) = Ret tt (c, k') /\
    uspace_of root k' T vt vf (v1 ++ hide g :: v2) l sz /\ (forall x, off_tree T x -> bget (k_mem k') x = bget (k_mem k) x).
Proof.
  intros [S Nu] Hg. pose proof (ps_vinv _ _ _ _ _ _ _ _ S) as V. destruct (space_ptes _ _ _ _ _ _ _ _ S) as [U HM].
  assert (EP : PGSIZE = 4096) by done. rewrite length_app in HM. cbn [length] in HM.
  assert (Hla : 0 <= Z.of_nat (length v1) * PGSIZE < MAXVA) by lia.
  assert (Hp : pte_at (k_mem k) T (Z.of_nat (length v1) * PGSIZE) = Some g).
  { rewrite <- (U (length v1) g); [f_equal; lia|]. by rewrite lookup_app_r, Nat.sub_diag by lia. }
  destruct (pte_in_leaf _ _ _ _ Hp) as (r & Hr & Hld & Hval). unfold uvmclear.
  rewrite (bind_ret _ _ _ _ _ (walk_look root T _ c k (v_wf _ _ _ _ V) (v_at _ _ _ _ V) Hla)), Hr. cbn [from_option id].
  rewrite (proj2 (Z.eqb_neq r 0)) by (by eapply leaf_nz; [apply V|]). rewrite rd64_bind, Hld. fold (hide g).
  assert (Hrg : 0 <= hide g < 2 ^ 64) by (apply hide_range; rewrite <- Hld; apply ld64_range, (v_kinv _ _ _ _ V)).
  exists (with_mem k (st64 (k_mem k) r (hide g))). split; [done|]. split; [split; [|done]|].
  - apply (space_relabel root k _ T vt vf v1 g); [done|by apply (leaf_write_vinv _ _ _ _ (Z.of_nat (length v1) * PGSIZE))|apply hide_PTE2PA|done|].
    intros va Hva. cbn [with_mem k_mem]. rewrite (leaf_write_look root k T l _ r (hide g) V Hr Hrg va Hla Hva). unfold same_page, valid_pte.
    by rewrite Z.div_mul, (proj1 (hide_has g)), Hval by done.
  - intros x Hx. by eapply leaf_write_out.
Qed.

End Clear.

(** ** The arguments *)

(** The string [str] at [a], with its NUL, within a page. *)
Definition cstr (m : mem) (a : Z) (str : list Z) : Prop :=
  bytes_at m a (length str) = str /\ bget m (a + Z.of_nat (length str)) = 0 /\ (0 ∉ str) /\ Z.of_nat (length str) < PGSIZE.

Lemma bytes_at_lookup (m : mem) a n i b : bytes_at m a n !! i = Some b -> b = bget m (a + Z.of_nat i).
Proof. unfold bytes_at. intros (j & -> & [-> _]%lookup_seq)%list_lookup_fmap_Some. done. Qed.

Lemma cstr_bytes m a str : mem_ok m -> cstr m a str -> Forall is_byte str.
Proof.
  intros M (H & _). rewrite <- H. apply Forall_lookup. intros i b ->%bytes_at_lookup. apply M.
Qed.

Lemma cstr_same (Q : Z -> Prop) m m' a str : same_pages Q m m' -> Q a -> cstr m a str -> cstr m' a str.
Proof.
  intros S Ha (H1 & H2 & H3 & H4). split_and!; [|rewrite (S a); [done|done|lia]|done|done].
  etrans; [|exact H1]. apply bytes_at_ext. intros x Hx. apply (S a); [done|lia].
Qed.

Lemma str_at_run a str c s : cstr (k_mem (kk s)) a str -> str_at a (c, s) = Ret str (c, s).
Proof.
  intros (H1 & H2 & H3 & H4). unfold str_at.
  rewrite (bind_ret _ _ _ _ _ (kmem_run (asks (fun w => k_mem (snd w))) c c s _ _ eq_refl)).
  replace (set_kk (kk s) s) with s by by destruct s. cbn [snd].
  rewrite (strlen_correct _ (length str)); [by rewrite Nat2Z.id, H1| |done|lia].
  intros j Hj E. apply H3. rewrite <- H1. apply list_elem_of_lookup. exists (Z.to_nat j).
  destruct (lookup_lt_is_Some_2 (bytes_at (k_mem (kk s)) a (length str)) (Z.to_nat j)) as [b Hb]; [rewrite length_bytes_at; lia|].
  rewrite Hb. apply bytes_at_lookup in Hb as ->. rewrite Z2Nat.id by lia. by rewrite E.
Qed.

(** Where a string goes below [sp], and where all of them go. *)
Definition slot (sp : Z) (str : list Z) : Z := let a := sp - (Z.of_nat (length str) + 1) in a - a `mod` 16.
Fixpoint slots (sp : Z) (strs : list (list Z)) : list Z :=
  match strs with [] => [] | str :: strs => slot sp str :: slots (slot sp str) strs end.
Definition stack_ptr (sp : Z) (strs : list (list Z)) : Z := foldl slot sp strs.

Lemma slot_below sp str : slot sp str + (Z.of_nat (length str) + 1) <= sp.
Proof. unfold slot. cbv zeta. pose proof (Z.mod_pos_bound (sp - (Z.of_nat (length str) + 1)) 16 ltac:(lia)). lia. Qed.

Lemma stack_ptr_le strs : forall sp, stack_ptr sp strs <= sp.
Proof. induction strs as [|str strs IH]; intros sp; [done|]. cbn. etrans; [apply IH|]. pose proof (slot_below sp str). lia. Qed.

Lemma length_slots sp strs : length (slots sp strs) = length strs.
Proof. revert sp. induction strs as [|str strs IH]; intros sp; [done|]. cbn [slots length]. by rewrite IH. Qed.

Section Push.
Context {LY : Layout} {LO : LayoutOk}.

(** The stack is the page [base] .. [base + PGSIZE] of a space; [k0] is the memory before. *)
Context (root : Z) (T : ptree) (vt vf : Z) (vs l : list Z) (sz base : Z) (k0 : kst).
Context (Hbase : PGSIZE <= base) (Htop : base + PGSIZE <= MAXVA).

Record pushing (k : kst) (done : list (Z * list Z)) (sp : Z) : Prop := {
  pu_space : uspace_of root k T vt vf vs l sz;
  pu_same : same_pages (outside T vs) (k_mem k0) (k_mem k);
  pu_image : forall va, 0 <= va < base -> uread (k_mem k) T va = uread (k_mem k0) T va;
  pu_mapped : forall va, base <= va < base + PGSIZE -> uread (k_mem k) T va <> None;
  pu_done : Forall (fun d => sp <= fst d /\ ubytes (k_mem k) T (fst d) (snd d ++ [0])) done;
  pu_sp : base <= sp <= base + PGSIZE
}.

(** One copyout() below the stack pointer. *)
Lemma push_bytes k done sp a bs c :
  pushing k done sp -> base <= a -> a + Z.of_nat (length bs) <= sp -> Forall is_byte bs ->
  exists k', copyout root a bs (c, k) = Ret 0 (c, k') /\ pushing k' done a /\ ubytes (k_mem k') T a bs.
Proof.
  intros [P1 P2 P3 P4 P5 P6] Ha Hle Hb. assert (EP : PGSIZE = 4096) by done.
  destruct (space_copyout root k T vt vf vs l sz a bs c P1) as (k' & R & US & SP & L); [lia|done|intros x Hx; apply P4; lia|].
  exists k'. split_and!; [done| |].
  - split; [done|by eapply same_pages_trans| | | |lia].
    + intros va Hva. rewrite L, ustored_out by lia. by apply P3.
    + intros va Hva. rewrite L by lia. unfold ustored. destruct (Z.leb_spec a va), (Z.ltb_spec va (a + Z.of_nat (length bs))); cbn [andb]; try by apply P4.
      destruct (lookup_lt_is_Some_2 bs (Z.to_nat (va - a))) as [b ->]; [lia|done].
    + eapply Forall_impl; [exact P5|]. intros [d str] [H1 H2]. cbn [fst snd] in *. split; [lia|]. intros i b Hi. rewrite L, ustored_out by lia. by apply H2.
  - intros i b Hi. rewrite L by lia. by apply ustored_in.
Qed.

Definition argument (p : Z) (str : list Z) : Prop := outside T vs p /\ cstr (k_mem k0) p str.

Definition too_big (sp : Z) (n : nat) (args : list (list Z)) : Prop :=
  MAXARG < Z.of_nat (n + length args) \/ exists a, a ∈ slots sp args /\ a < base.

Lemma push_args_run argv args : forall us k done sp c s,
  Forall2 argument argv args -> pushing k done sp -> Z.of_nat (length us) <= MAXARG ->
  exists r k' done' sp', push_args argv root sp base us (c, set_kk k s) = Ret r (c, set_kk k' s) /\ pushing k' done' sp' /\
    (r = Some (sp', us ++ slots sp args) /\ sp' = stack_ptr sp args /\ done' = done ++ zip (slots sp args) args /\ Z.of_nat (length us + length args) <= MAXARG \/
     r = None /\ too_big sp (length us) args).
Proof.
  revert args. induction argv as [|p argv IH]; intros args us k done sp c s Ha P Hu.
  { apply Forall2_nil_inv_l in Ha as ->. exists (Some (sp, us)), k, done, sp. split_and!; [done..|]. left. cbn [slots zip_with length]. rewrite !app_nil_r. split_and!; [done..|lia]. }
  apply Forall2_cons_inv_l in Ha as (str & args' & [Ho Hs] & Ha & ->). cbn [push_args]. pose proof (slot_below sp str) as Hsl. pose proof (pu_sp _ _ _ P) as Hsp.
  destruct (Z.leb_spec MAXARG (Z.of_nat (length us))) as [Hm|Hm].
  { exists None, k, done, sp. split_and!; [done..|]. right. split; [done|]. left. cbn [length]. lia. }
  pose proof (cstr_same _ _ _ p str (pu_same _ _ _ P) Ho Hs) as Hs'. assert (EP : PGSIZE = 4096) by done. assert (MAXVA < 2 ^ 40) by done.
  rewrite (bind_ret _ _ _ _ _ (str_at_run p str c (set_kk k s) Hs')). cbv zeta.
  rewrite u64_small by (destruct Hs as (_ & _ & _ & ?); lia). change (_ - _ `mod` 16) with (slot sp str).
  destruct (Z.ltb_spec (slot sp str) base) as [Hlt|Hge].
  { exists None, k, done, sp. split_and!; [done..|]. right. split; [done|]. right. exists (slot sp str). split; [left|done]. }
  destruct (push_bytes k done sp (slot sp str) (str ++ [0]) c P Hge) as (k1 & R1 & P1 & B1).
  { rewrite length_app. cbn [length]. lia. }
  { apply Forall_app. split; [|repeat constructor; done]. eapply cstr_bytes; [|exact Hs']. apply (pu_space _ _ _ P). }
  rewrite (bind_ret _ _ _ _ _ (kmem_run _ c c (set_kk k s) _ _ R1)). change (set_kk k1 (set_kk k s)) with (set_kk k1 s). cbn [Z.ltb Z.compare].
  destruct (IH args' (us ++ [slot sp str]) k1 (done ++ [(slot sp str, str)]) (slot sp str) c s Ha) as (r & k' & done' & sp' & R & P' & Hr).
  - destruct P1 as [Q1 Q2 Q3 Q4 Q5 Q6]. split; [done..| |done]. apply Forall_app. split; [done|]. constructor; [|constructor]. split; [cbn; lia|exact B1].
  - rewrite length_app. cbn [length]. lia.
  - exists r, k', done', sp'. split_and!; [done..|]. cbn [slots]. rewrite length_app in Hr. cbn [length] in *.
    destruct Hr as [(-> & -> & -> & Hl)|(-> & [Hl|(a & Ha' & Hl)])].
    + left. rewrite <- !app_assoc. split_and!; [done..|lia].
    + right. split; [done|]. left. cbn [length]. lia.
    + right. split; [done|]. right. exists a. cbn [slots]. split; [by right|done].
Qed.

End Push.

(** ** The two new pages *)

Section Build.
Context {LY : Layout} {LO : LayoutOk}.

(** Pages in use that the space does not own. *)
Definition foreign (T : ptree) (vs l : list Z) (q : Z) : Prop := busy l q /\ ~ parent_page T vs q.

(** From one space to another in the same memory: which pages there are, and the pages of others. *)
Definition all_pages (T : ptree) (vs l : list Z) (p : Z) : Prop := p ∈ l \/ parent_page T vs p.
Definition keeps (T : ptree) (vs l : list Z) (m : mem) (T' : ptree) (vs' l' : list Z) (m' : mem) : Prop :=
  (forall q, foreign T vs l q -> foreign T' vs' l' q) /\ same_pages (foreign T vs l) m m' /\
  (forall p, all_pages T' vs' l' p <-> all_pages T vs l p).

Lemma keeps_trans T1 vs1 l1 m1 T2 vs2 l2 m2 T3 vs3 l3 m3 :
  keeps T1 vs1 l1 m1 T2 vs2 l2 m2 -> keeps T2 vs2 l2 m2 T3 vs3 l3 m3 -> keeps T1 vs1 l1 m1 T3 vs3 l3 m3.
Proof.
  intros (F1 & S1 & A1) (F2 & S2 & A2). split_and!; [by auto| |intros p; by rewrite A2].
  eapply same_pages_trans; [done|]. eapply same_pages_sub; [|done]. exact F1.
Qed.

Lemma foreign_outside T vs l q : foreign T vs l q -> outside T vs q.
Proof. intros [[H _] ?]. by split. Qed.

Lemma grown_keeps root k T vt vf vs l sz k' T' l' ws :
  pspace root k T vt vf vs l sz -> grown root (length vs) (others T l) (k_mem k) T l k' T' l' ws ->
  keeps T vs l (k_mem k) T' (vs ++ ws) l' (k_mem k').
Proof.
  intros S G.
  assert (Hf : forall q, foreign T vs l q -> others T l q) by (intros q [Hb Hn]; split; [done|]; intros Hin; apply Hn; by left).
  assert (Hin : forall p, p ∈ PTE2PA <$> (vs ++ ws) <-> p ∈ PTE2PA <$> vs \/ p ∈ PTE2PA <$> ws) by (intros p; by rewrite fmap_app, elem_of_app).
  split_and!.
  - intros q Hq. pose proof (Hf q Hq) as Ho. destruct Hq as [[Hpo Hl] Hn]. destruct (gw_kept _ _ _ _ _ _ _ _ _ _ G q) as (_ & K2 & K3); [by left|].
    split; [done|]. intros [H|[H|(w & -> & Hw)%list_elem_of_fmap]%Hin]; [done|apply Hn; by right|by apply (gw_apart _ _ _ _ _ _ _ _ _ _ G w Hw)].
  - eapply same_pages_sub; [exact Hf|apply G].
  - intros p. pose proof (gw_all _ _ _ _ _ _ _ _ _ _ G p) as A. unfold all_pages, parent_page, share in *. rewrite Hin. tauto.
Qed.

Lemma space_round root k T vt vf vs l sz : pspace root k T vt vf vs l sz -> pspace root k T vt vf vs l (PGROUNDUP sz).
Proof.
  intros [V D Ht Hf (Hs & Hu & Hl) U R]. split; [done..| |done|done]. rewrite Hu. split_and!; [unfold PGSIZE; lia|done|apply round_up|done].
  assert (TRAPFRAME < 2 ^ 40) by done. unfold PGSIZE in *. lia.
Qed.

(** uvmalloc() of the guard page and the stack, then uvmclear() of the guard page. *)
Inductive built (root : Z) (k : kst) (T : ptree) (vt vf : Z) (vs l : list Z) (sz : Z) (c : ctx) (k1 : kst) : Z -> Prop :=
  | built_none T' l' :
      uspace_of root k1 T' vt vf vs l' sz -> keeps T vs l (k_mem k) T' vs l' (k_mem k1) ->
      (length l' <= 2)%nat -> (size T' <= size T + 4)%nat -> built root k T vt vf vs l sz c k1 0
  | built_stack T' l' g st k2 :
      uvmclear root sz (c, k1) = Ret tt (c, k2) -> uspace_of root k2 T' vt vf (vs ++ [g; st]) l' (sz + 2 * PGSIZE) ->
      keeps T vs l (k_mem k) T' (vs ++ [g; st]) l' (k_mem k2) ->
      (forall va, 0 <= va < sz -> uread (k_mem k2) T' va = uread (k_mem k) T va) ->
      (forall va, sz <= va < sz + PGSIZE -> uread (k_mem k2) T' va = None) ->
      (forall va, sz + PGSIZE <= va < sz + 2 * PGSIZE -> uread (k_mem k2) T' va = Some 0) -> built root k T vt vf vs l sz c k1 (sz + 2 * PGSIZE).

Lemma off_tree_same root T m m' :
  tree_wf root T -> (forall x, off_tree T x -> bget m' x = bget m x) -> same_pages (fun q => page_ok q /\ ~ in_tree T q) m m'.
Proof.
  intros W H q x [Hq Hn] Hx. apply H. intros p [b Hb]. apply (pages_apart p q); [by eapply tw_page|done| |done]. intros ->. apply Hn. by exists b.
Qed.

Lemma clear_reads root k1 k2 T vt vf vs g st l sz :
  uspace_of root k1 T vt vf (vs ++ [g; st]) l sz -> uspace_of root k2 T vt vf (vs ++ [hide g; st]) l sz ->
  (forall x, off_tree T x -> bget (k_mem k2) x = bget (k_mem k1) x) ->
  let n := Z.of_nat (length vs) in
  (forall va, 0 <= va < (n + 2) * PGSIZE -> va / PGSIZE <> n -> uread (k_mem k2) T va = uread (k_mem k1) T va) /\
  (forall va, n * PGSIZE <= va < (n + 1) * PGSIZE -> uread (k_mem k2) T va = None).
Proof.
  intros [S1 _] [S2 _] O. cbn zeta. destruct (space_ptes _ _ _ _ _ _ _ _ S1) as [U1 M1]. destruct (space_ptes _ _ _ _ _ _ _ _ S2) as [U2 M2].
  rewrite length_app in M1, M2. cbn [length] in M1, M2. assert (EP : PGSIZE = 4096) by done. destruct (ps_user _ _ _ _ _ _ _ _ S2) as (_ & _ & _ & Rl). split.
  - intros va Hva Hne. pose proof (Z.div_pos va PGSIZE ltac:(lia) ltac:(done)). apply (uread_kept _ _ _ _ (vs ++ [g; st]) (vs ++ [hide g; st]) va (fun q => page_ok q /\ ~ in_tree T q) U1 U2); rewrite ?length_app; cbn [length];
      [lia|lia|lia|lia| |eapply off_tree_same; [apply S1|done]|].
    + set (i := Z.to_nat (va / PGSIZE)). assert (i <> length vs) by lia. destruct (decide (i < length vs)%nat); [by rewrite !lookup_app_l|].
      rewrite !lookup_app_r by lia. destruct (i - length vs)%nat as [|j] eqn:Ej; [lia|done].
    + intros v Hv. destruct (Rl v) as (? & ? & _); [by eapply list_elem_of_lookup_2|done].
  - intros va Hva. destruct (user_pte _ _ _ va U2) as (v & Hv & Hp); rewrite ?length_app; cbn [length]; [lia|lia|].
    rewrite (page_of va (Z.of_nat (length vs))), Nat2Z.id, lookup_app_r, Nat.sub_diag in Hv by lia. injection Hv as <-.
    rewrite (uread_pte _ _ _ (hide g)) by (done || lia). by rewrite (proj2 (hide_has g)).
Qed.

Lemma build_run root k T vt vf vs l c :
  let sz := Z.of_nat (length vs) * PGSIZE in
  uspace_of root k T vt vf vs l sz -> cpu_ok (cx_cpu c) ->
  exists r c' k1, uvmalloc root sz (sz + 2 * PGSIZE) (c, k) = Ret r (c', k1) /\ calm c c' /\ built root k T vt vf vs l sz c' k1 r.
Proof.
  intros sz [S Nu] Hok. assert (EP : PGSIZE = 4096) by done. pose proof (space_bound _ _ _ _ _ _ _ _ S) as B. assert (EB : PHYSTOP - KERNBASE = 2 ^ 27) by done.
  assert (TB : 2 ^ 30 < TRAPFRAME) by done. assert (Hmore : more vs (sz + 2 * PGSIZE) = 2%nat).
  { unfold more. replace (sz + 2 * PGSIZE - _ + PGSIZE - 1) with (3 * PGSIZE - 1) by lia. done. }
  destruct (space_alloc _ _ _ _ _ _ _ _ (sz + 2 * PGSIZE) c S Hok) as (r & c' & k1 & T' & l' & ws & R & Hc & G & Hr); [lia|]. rewrite Hmore in Hr.
  exists r, c', k1. split_and!; [done..|]. pose proof (grown_keeps _ _ _ _ _ _ _ _ _ _ _ _ S G) as K.
  destruct Hr as [[-> S']|(-> & -> & S' & Hl & HT)]; [|rewrite app_nil_r in K; by apply (built_none _ _ _ _ _ _ _ _ _ _ T' l')].
  destruct (grown_reads _ _ _ _ _ _ _ _ _ _ _ _ _ S G S') as [R1 R2]. destruct (ps_size _ _ _ _ _ _ _ _ S') as (_ & Hup & _).
  replace (sz + 2 * PGSIZE) with ((Z.of_nat (length vs) + 2) * PGSIZE) in Hup by lia. rewrite round_up, length_app in Hup by lia.
  destruct ws as [|g [|st [|]]]; cbn [length] in Hup; try lia.
  destruct (gw_zero _ _ _ _ _ _ _ _ _ _ G g) as [Fg _]; [by left|]. assert (Hg : PTE_FLAGS (hide g) <> PTE_V) by (rewrite hide_flags, Fg; by vm_compute).
  assert (US' : uspace_of root k1 T' vt vf (vs ++ [g; st]) l' (sz + 2 * PGSIZE)) by by split.
  destruct (uvmclear_run root k1 T' vt vf vs g [st] l' _ c' US' Hg) as (k2 & R3 & US2 & O2).
  destruct (clear_reads _ _ _ _ _ _ _ _ _ _ _ US' US2 O2) as [C1 C2]. rewrite length_app in R2. cbn [length] in R2.
  apply (built_stack _ _ _ _ _ _ _ _ _ _ T' l' (hide g) st k2); [done|done| | | |].
  - assert (EQ : forall p, p ∈ PTE2PA <$> (vs ++ [hide g; st]) <-> p ∈ PTE2PA <$> (vs ++ [g; st])) by (intros p; rewrite !fmap_app, !fmap_cons; by rewrite hide_PTE2PA).
    assert (EQ2 : forall p, parent_page T' (vs ++ [hide g; st]) p <-> parent_page T' (vs ++ [g; st]) p) by (intros p; unfold parent_page; by rewrite EQ).
    destruct K as (F & Sm & A). split_and!.
    + intros q Hq. destruct (F q Hq) as [Hb Hn]. split; [done|]. by rewrite EQ2.
    + eapply same_pages_trans; [done|]. intros q x Hq. destruct (F q Hq) as [[Hp _] Hn]. eapply (off_tree_same root T'); [apply S'|done|]. split; [done|]. intros Hin. apply Hn. by left.
    + intros p. rewrite <- A. unfold all_pages. by rewrite EQ2.
  - intros va Hva. rewrite C1; [by apply R1|lia|]. pose proof (Z.div_lt_upper_bound va PGSIZE (Z.of_nat (length vs)) ltac:(done)). lia.
  - intros va Hva. apply C2. lia.
  - intros va Hva. pose proof (Z.div_le_lower_bound va PGSIZE (Z.of_nat (length vs) + 1) ltac:(done)). rewrite C1 by lia. apply R2. lia.
Qed.

End Build.

(** ** Leaving one image for another *)

Section Commit.
Context {LY : Layout} {LO : LayoutOk}.

Lemma drop_space root k T vt vf vs l sz c :
  pspace root k T vt vf vs l sz -> cpu_ok (cx_cpu c) ->
  exists c' k' l', proc_freepagetable root sz (c, k) = Ret tt (c', k') /\ calm c c' /\ kinv k' l' /\
    (forall p, p ∈ l' <-> all_pages T vs l p) /\ same_pages (outside T vs) (k_mem k) (k_mem k').
Proof.
  intros S Hok. destruct (proc_freepagetable_run _ _ _ _ _ _ _ _ c S Hok) as (c' & k' & l' & R & Hc & K & M & U).
  exists c', k', l'. split_and!; [done..| |].
  - intros p. rewrite M. unfold all_pages, parent_page. tauto.
  - destruct (ps_vinv _ _ _ _ _ _ _ _ S) as [_ W _ _]. destruct (ps_user _ _ _ _ _ _ _ _ S) as (_ & _ & _ & Rl). intros q x [Hq Hn] Hx. apply U.
    + intros p [b Hb]. apply (pages_apart p q); [by eapply tw_page|done| |done]. intros ->. apply Hn. left. by exists b.
    + intros v Hv. apply (pages_apart (PTE2PA v) q); [by apply Rl|done| |done]. intros <-. apply Hn. right. by apply list_elem_of_fmap_2.
Qed.

(** A space depends on its own pages only. *)
Lemma space_moves root k k' T vt vf vs l l' sz :
  uspace_of root k T vt vf vs l sz -> kinv k' l' -> same_pages (parent_page T vs) (k_mem k) (k_mem k') -> (forall p, p ∈ l' -> ~ parent_page T vs p) ->
  uspace_of root k' T vt vf vs l' sz /\ forall va, 0 <= va -> uread (k_mem k') T va = uread (k_mem k) T va.
Proof.
  intros US K Sm Hl. pose proof US as [S Nu]. assert (TS : tree_same T (k_mem k) (k_mem k')) by (intros q x Hq; apply Sm; by left). split.
  - split; [|done]. apply (pspace_ext _ k _ _ _ _ _ l); [done..|]. intros p Hp. right. split; intros Hin; apply (Hl p Hp); [by left|by right].
  - intros va Hva. unfold uread. rewrite (tree_same_uaddr T (k_mem k)) by done. unfold uaddr. destruct (upage (k_mem k) T va) as [p|] eqn:E; [|done].
    destruct (space_upage _ _ _ _ _ _ _ _ US va p Hva E) as (_ & v & Hv & ->). cbn. f_equal. pose proof (Z.mod_pos_bound va PGSIZE ltac:(done)).
    apply (Sm (PTE2PA v)); [|lia]. right. by eapply list_elem_of_fmap_2, list_elem_of_lookup_2.
Qed.

(** The registers exec() sets. *)
Definition tf_exec (m : mem) (tf entry sp : Z) : mem :=
  st64 (st64 (st64 m (tf + TF_a1) (u64 sp)) (tf + TF_epc) (u64 entry)) (tf + TF_sp) (u64 sp).

Lemma tf_exec_spec m tf entry sp :
  mem_ok m -> let m' := tf_exec m tf entry sp in
  mem_ok m' /\ (forall x, off_page tf x -> bget m' x = bget m x) /\
  ld64 m' (tf + TF_epc) = u64 entry /\ ld64 m' (tf + TF_sp) = u64 sp /\ ld64 m' (tf + TF_a1) = u64 sp /\
  (forall o, o `mod` 8 = 0 -> o <> TF_epc -> o <> TF_sp -> o <> TF_a1 -> ld64 m' (tf + o) = ld64 m (tf + o)).
Proof.
  intros M. cbn zeta. unfold tf_exec, off_page, TF_a1, TF_epc, TF_sp, PGSIZE. pose proof (u64_range sp). pose proof (u64_range entry). split_and!.
  - by repeat apply st64_ok.
  - intros x Hx. rewrite !st64_get_out by lia. done.
  - rewrite ld64_st64_ne by lia. by apply ld64_st64_eq.
  - by apply ld64_st64_eq.
  - rewrite !ld64_st64_ne by lia. by apply ld64_st64_eq.
  - intros o Ho H1 H2 H3. pose proof (Z.div_mod o 8 ltac:(lia)). rewrite !ld64_st64_ne by lia. done.
Qed.

Lemma tf_set_run c s p me off v : cx_procs c !! p = Some me -> p_trapframe me <> 0 ->
  tf_set p off v (c, s) = Ret tt (c, set_kk (with_mem (kk s) (st64 (k_mem (kk s)) (p_trapframe me + off) (u64 v))) s).
Proof. intros Hp Ht. unfold tf_set. rewrite (bind_ret _ _ _ _ _ (pget_run _ _ _ _ Hp)), (proj2 (Z.eqb_neq _ _) Ht). by destruct s. Qed.

Lemma calm_set_proc j p c c' : calm (set_proc j p c) c' -> exists c1, calm c c1 /\ c' = set_proc j p c1.
Proof. intros [->| ->]; [exists c|exists (settled c)]; (split; [|done]); [apply calm_refl|apply calm_settled]. Qed.

(** The process with its new image. *)
Definition imaged (me : proc) (path : list Z) (root sz : Z) : proc :=
  set_p_sz sz (set_p_pagetable root (set_p_name (safestrcpy (p_name me) 0 (chars (last_elem path path)) 16) me)).

Definition commit (p : nat) (path : list Z) (entry root sz sp oldsz argc : Z) : K kern Z :=
  tf_set p TF_a1 sp ;;
  pupd p (fun x => set_p_name (safestrcpy (p_name x) 0 (chars (last_elem path path)) 16) x) ;;
  x ← pget p;
  let oldpagetable := p_pagetable x in
  pupd p (set_p_pagetable root) ;;
  pupd p (set_p_sz sz) ;;
  tf_set p TF_epc entry ;;
  tf_set p TF_sp sp ;;
  kmem (proc_freepagetable oldpagetable oldsz) ;;
  mret argc.

(** The old space [To], the new space [T] and the trapframe have no page in common. *)
Record two_spaces (k : kst) (me : proc) (To : ptree) (vto vfo : Z) (vso : list Z) (root : Z) (T : ptree) (vt vf : Z) (vs l : list Z) (sz : Z) : Prop := {
  ts_old : pspace (p_pagetable me) k To vto vfo vso l (p_sz me);
  ts_new : uspace_of root k T vt vf vs l sz;
  ts_apart : forall q, parent_page To vso q -> ~ parent_page T vs q;
  ts_tf : busy l (p_trapframe me) /\ ~ parent_page To vso (p_trapframe me) /\ ~ parent_page T vs (p_trapframe me)
}.

Lemma commit_run c s p me path entry To vto vfo vso root T vt vf vs l sz sp argc :
  two_spaces (kk s) me To vto vfo vso root T vt vf vs l sz -> cpu_ok (cx_cpu c) -> cx_procs c !! p = Some me ->
  exists c1 k' l', commit p path entry root sz sp (p_sz me) argc (c, s) = Ret argc (set_proc p (imaged me path root sz) c1, set_kk k' s) /\
    calm c c1 /\ uspace_of root k' T vt vf vs l' sz /\ (forall va, 0 <= va -> uread (k_mem k') T va = uread (k_mem (kk s)) T va) /\
    (forall q, q ∈ l' <-> all_pages To vso l q) /\
    (forall x, p_trapframe me <= x < p_trapframe me + PGSIZE -> bget (k_mem k') x = bget (tf_exec (k_mem (kk s)) (p_trapframe me) entry sp) x) /\
    same_pages (fun q => outside To vso q /\ q <> p_trapframe me) (k_mem (kk s)) (k_mem k').
Proof.
  intros [So Sn Ap ([Htf Htl] & Hto & Htn)] Hok Hp. pose proof (us_space _ _ _ _ _ _ _ _ Sn) as Sp. set (tf := p_trapframe me) in *. assert (Hnz : tf <> 0) by (pose proof (page_ok_pos tf Htf); lia).
  assert (Hlen : (p < length (cx_procs c))%nat) by (by eapply lookup_lt_Some).
  unfold commit. rewrite (bind_ret _ _ _ _ _ (tf_set_run c s p me TF_a1 sp Hp Hnz)). rewrite (pupd_step p _ _ c _ me Hp). set (y := set_p_name _ me).
  assert (Hg : forall z c, (p < length (cx_procs c))%nat -> cx_procs (set_proc p z c) !! p = Some z) by (intros z c' Hl; cbn; by apply list_lookup_insert_eq).
  rewrite (bind_ret _ _ _ _ _ (pget_run _ _ _ _ (Hg y c Hlen))). cbv zeta. rewrite (pupd_step p _ _ _ _ _ (Hg y c Hlen)), set_proc_set.
  rewrite (pupd_step p _ _ _ _ _ (Hg _ c Hlen)), set_proc_set. change (set_p_sz sz _) with (imaged me path root sz). set (c2 := set_proc p _ c).
  rewrite (bind_ret _ _ _ _ _ (tf_set_run c2 _ p (imaged me path root sz) TF_epc entry (Hg _ c Hlen) Hnz)).
  rewrite (bind_ret _ _ _ _ _ (tf_set_run c2 _ p (imaged me path root sz) TF_sp sp (Hg _ c Hlen) Hnz)). set (s3 := set_kk _ (set_kk _ _)).
  assert (Em : k_mem (kk s3) = tf_exec (k_mem (kk s)) tf entry sp) by done. assert (Ek : kk s3 = with_mem (kk s) (tf_exec (k_mem (kk s)) tf entry sp)) by done.
  destruct (ps_vinv _ _ _ _ _ _ _ _ So) as [K0 _ _ _]. destruct (tf_exec_spec (k_mem (kk s)) tf entry sp (kinv_mem _ _ K0)) as (M3 & O3 & _).
  assert (K3 : kinv (kk s3) l).
  { destruct (page_write (p_pagetable me) (kk s) To l tf (tf_exec (k_mem (kk s)) tf entry sp) (ps_vinv _ _ _ _ _ _ _ _ So) Htf) as [_ V]; [intros H; apply Hto; by left|done|exact M3|exact O3|]. apply V. }
  assert (Sm : forall Q : Z -> Prop, (forall q, Q q -> page_ok q /\ q <> tf) -> same_pages Q (k_mem (kk s)) (k_mem (kk s3))).
  { intros Q HQ q x Hq Hx. destruct (HQ q Hq) as [H1 H2]. rewrite Em. apply O3. by apply (pages_apart tf q). }
  assert (So3 : pspace (p_pagetable me) (kk s3) To vto vfo vso l (p_sz me)).
  { apply (pspace_ext _ (kk s) _ _ _ _ _ l); [done..| |by left]. intros q x Hq. apply (Sm (fun q => in_tree To q)); [|done]. intros r Hr.
    split; [eapply busy_parent; [exact So|by left]|]. intros ->. apply Hto. by left. }
  destruct (drop_space (p_pagetable me) (kk s3) To vto vfo vso l (p_sz me) c2 So3) as (c' & k' & l' & R & Hc & K' & A & O'); [done|].
  rewrite (bind_ret _ _ _ _ _ (kmem_run _ c2 c' s3 _ _ R)). apply calm_set_proc in Hc as (c1 & Hc & ->).
  destruct (space_moves root (kk s) k' T vt vf vs l l' sz Sn K') as [US Rd].
  { intros q x Hq Hx. assert (Hb : page_ok q) by (eapply busy_parent; [exact Sp|done]).
    rewrite (O' q) by (done || (split; [done|]; intros H; by apply (Ap q))). refine (Sm (parent_page T vs) _ q x Hq Hx).
    intros r Hr. split; [by eapply busy_parent; [exact Sp|]|]. by intros ->. }
  { intros q [Hq|Hq]%A Hin; [|by apply (Ap q)]. eapply busy_parent in Hin; [|exact Sp]. by destruct Hin. }
  exists c1, k', l'. split_and!; [done..| |].
  - intros x Hx. rewrite (O' tf) by done. by rewrite Em.
  - intros q x [Hq Hne] Hx. rewrite (O' q) by done. refine (Sm (fun q => outside To vso q /\ q <> tf) _ q x (conj Hq Hne) Hx). by intros r [[? _] ?].
Qed.

End Commit.

(** ** The whole of it *)

Section Stack.
Context {LY : Layout} {LO : LayoutOk} {BD : BlockDev}.

(** Where the array of pointers goes, and when everything has room in the stack's page. *)
Definition array_ptr (top : Z) (args : list (list Z)) : Z :=
  let a := stack_ptr top args - (Z.of_nat (length args) + 1) * 8 in a - a `mod` 16.
Definition args_fit (top : Z) (args : list (list Z)) : Prop :=
  Z.of_nat (length args) <= MAXARG /\ (forall a, a ∈ slots top args -> top - PGSIZE <= a) /\ top - PGSIZE <= array_ptr top args.

Lemma array_aligned top args : array_ptr top args `mod` 16 = 0.
Proof. unfold array_ptr. cbv zeta. rewrite Zminus_mod_idemp_r, Z.sub_diag. done. Qed.

Lemma keeps_mem T vs l m T' vs' l' m' m'' :
  keeps T vs l m T' vs' l' m' -> same_pages (outside T' vs') m' m'' -> keeps T vs l m T' vs' l' m''.
Proof.
  intros (F & S & A) S'. split_and!; [done| |done]. eapply same_pages_trans; [done|]. eapply same_pages_sub; [|done]. intros q Hq. by eapply foreign_outside, F.
Qed.

(** The new space changes, the old one stays. *)
Lemma two_keep k k' me To vto vfo vso root T vt vf vs l sz T' vs' l' sz' :
  two_spaces k me To vto vfo vso root T vt vf vs l sz -> keeps T vs l (k_mem k) T' vs' l' (k_mem k') -> uspace_of root k' T' vt vf vs' l' sz' ->
  two_spaces k' me To vto vfo vso root T' vt vf vs' l' sz'.
Proof.
  intros [So Sn Ap (Htf & Hto & Htn)] (F & Sm & A) US.
  assert (Hold : forall q, parent_page To vso q -> foreign T vs l q) by (intros q Hq; split; [by eapply busy_parent|by apply Ap]).
  split; [|done| |].
  - destruct US as [S' _]. apply (pspace_ext _ k _ _ _ _ _ l); [done|apply (ps_vinv _ _ _ _ _ _ _ _ S')|intros q x Hq; apply Sm, Hold; by left|].
    intros p Hp. right. assert (Hn : ~ parent_page To vso p) by (intros Hq; by destruct (F p (Hold p Hq)) as [[_ ?] _]). split; intros Hin; apply Hn; [by left|by right].
  - intros q Hq. by destruct (F q (Hold q Hq)) as [_ ?].
  - destruct (F (p_trapframe me)) as [? ?]; done.
Qed.

Lemma tables_nodup root T : tree_wf root T -> NoDup (snd <$> map_to_list T).
Proof.
  intros W. apply NoDup_fmap_2_strong; [|apply NoDup_map_to_list]. intros [a p] [b q] Ha%elem_of_map_to_list Hb%elem_of_map_to_list E. cbn in E. subst q.
  by rewrite (tw_inj _ _ W a b p).
Qed.

(** Few pages were free, when two could not be added. *)
Lemma was_short root k T vt vf vs l sz T' l' m' :
  pspace root k T vt vf vs l sz -> keeps T vs l (k_mem k) T' vs l' m' -> (length l' <= 2)%nat -> (size T' <= size T + 4)%nat -> (length l <= 6)%nat.
Proof.
  intros S (_ & _ & A) Hl HT. pose proof (ps_vinv _ _ _ _ _ _ _ _ S) as [K W _ Sep]. destruct (ps_user _ _ _ _ _ _ _ _ S) as (_ & _ & _ & Rl).
  assert (Hin : forall p, p ∈ snd <$> map_to_list T -> in_tree T p) by (intros p ([b q] & -> & H%elem_of_map_to_list)%list_elem_of_fmap; by exists b).
  pose proof (count_share (l ++ (snd <$> map_to_list T)) l' T') as C. rewrite length_app, length_fmap, length_map_to_list in C.
  assert (length l + size T <= length l' + size T')%nat; [|lia]. apply C.
  - apply NoDup_app. split_and!; [apply (kinv_nodup _ _ K)| |by eapply tables_nodup]. intros p Hp Hq%Hin. by apply (Sep p).
  - assert (Hs : forall p, all_pages T vs l p -> (p ∉ PTE2PA <$> vs) -> share T' l' p).
    { intros p Hp Hn. apply A in Hp. unfold all_pages, parent_page, share in *. tauto. }
    intros p [Hp|Hp%Hin]%elem_of_app; (apply Hs; [|intros (v & -> & Hv)%list_elem_of_fmap; by destruct (Rl v Hv) as (? & ? & ?)]); [by left|right; by left].
Qed.

(** The label bad:, from here on. *)
Lemma bad_run c s k me To vto vfo vso root T vt vf vs l sz T' vs' l' sz' :
  two_spaces (kk s) me To vto vfo vso root T vt vf vs l sz -> keeps T vs l (k_mem (kk s)) T' vs' l' (k_mem k) -> uspace_of root k T' vt vf vs' l' sz' ->
  cpu_ok (cx_cpu c) ->
  exists c' k' l2, exec_bad root sz' None (c, set_kk k s) = Ret (-1) (c', set_kk k' s) /\ calm c c' /\
    pspace (p_pagetable me) k' To vto vfo vso l2 (p_sz me) /\ (forall p, p ∈ l2 <-> all_pages T vs l p) /\ same_pages (foreign T vs l) (k_mem (kk s)) (k_mem k').
Proof.
  intros TS K US Hok. pose proof (two_keep _ _ _ _ _ _ _ _ _ _ _ _ _ _ _ _ _ _ TS K US) as [So Sn Ap _]. destruct US as [S' Nu]. destruct K as (F & Sm & A).
  destruct (drop_space root k T' vt vf vs' l' sz' c S' Hok) as (c' & k' & l2 & R & Hc & K' & A' & O').
  exists c', k', l2. unfold exec_bad. rewrite (page_nonzero root) by (by eapply pspace_root). cbn [negb].
  rewrite (bind_ret _ _ _ _ _ (kmem_run _ c c' (set_kk k s) _ _ R)). split_and!; [done|done| | |].
  - apply (pspace_ext _ k _ _ _ _ _ l'); [done|done| |].
    + intros q x Hq Hx. apply (O' q); [|done]. split; [eapply busy_parent; [exact So|by left]|]. apply Ap. by left.
    + intros p [Hp|Hp]%A'; [by left|right]. split; intros Hin; apply (Ap p); (done || (by left) || (by right)).
  - intros p. by rewrite A', A.
  - eapply same_pages_trans; [done|]. eapply same_pages_sub; [|done]. intros q Hq. by eapply foreign_outside, F.
Qed.

Lemma length_words ws : length (mjoin (le_enc 8 <$> ws)) = (8 * length ws)%nat.
Proof. induction ws as [|w ws IH]; [done|]. change (length (le_enc 8 w ++ mjoin (le_enc 8 <$> ws)) = 8 * S (length ws))%nat. rewrite length_app, length_le_enc, IH. lia. Qed.

Lemma words_bytes ws : Forall is_byte (mjoin (le_enc 8 <$> ws)).
Proof. induction ws as [|w ws IH]; [constructor|]. rewrite fmap_cons. apply Forall_app. split; [apply le_enc_bytes|exact IH]. Qed.

(** What is on the stack: the strings, and below them the array of their addresses. *)
Definition argv_at (m : mem) (T : ptree) (top : Z) (args : list (list Z)) : Prop :=
  (forall i a str, slots top args !! i = Some a -> args !! i = Some str -> ubytes m T a (str ++ [0])) /\
  ubytes m T (array_ptr top args) (mjoin (le_enc 8 <$> (slots top args ++ [0]))).

(** Pushing the strings and then the array. *)
Lemma args_run c s k argv args root T vt vf vs l top :
  uspace_of root k T vt vf vs l top -> 2 * PGSIZE <= top <= MAXVA -> (forall va, top - PGSIZE <= va < top -> uread (k_mem k) T va = Some 0) ->
  Forall2 (argument T vs k) argv args ->
  exists r k1, push_args argv root top (top - PGSIZE) [] (c, set_kk k s) = Ret r (c, set_kk k1 s) /\
    uspace_of root k1 T vt vf vs l top /\ same_pages (outside T vs) (k_mem k) (k_mem k1) /\
    (r = None /\ ~ args_fit top args \/
     r = Some (stack_ptr top args, slots top args) /\ Z.of_nat (length args) <= MAXARG /\ top - PGSIZE <= stack_ptr top args /\
     (array_ptr top args < top - PGSIZE \/ args_fit top args /\
      exists k2, copyout root (array_ptr top args) (mjoin (le_enc 8 <$> (slots top args ++ [0]))) (c, k1) = Ret 0 (c, k2) /\
        uspace_of root k2 T vt vf vs l top /\ same_pages (outside T vs) (k_mem k) (k_mem k2) /\
        (forall va, 0 <= va < top - PGSIZE -> uread (k_mem k2) T va = uread (k_mem k) T va) /\ argv_at (k_mem k2) T top args)).
Proof.
  intros US Ht Hz Ha. assert (EP : PGSIZE = 4096) by done. set (base := top - PGSIZE). assert (Eb : base + PGSIZE = top) by lia.
  assert (P0 : pushing root T vt vf vs l top base k k [] top).
  { split; [done|done|done| |constructor|lia]. intros va Hva. rewrite Hz by lia. done. }
  destruct (push_args_run root T vt vf vs l top base k ltac:(lia) ltac:(lia) argv args [] k [] top c s Ha P0 ltac:(done)) as (r & k1 & dn & sp & R & P1 & Hr).
  exists r, k1. split_and!; [done|apply P1|apply P1|]. destruct Hr as [(-> & -> & -> & Hl)|(-> & Hbig)].
  2: { left. split; [done|]. intros (H1 & H2 & _). destruct Hbig as [H|(a & Hin & H)]; [cbn [length] in H; lia|]. specialize (H2 a Hin). lia. }
  right. cbn [app length] in *. pose proof (pu_sp _ _ _ _ _ _ _ _ _ _ _ _ P1) as Hsp. split_and!; [done|lia|lia|].
  destruct (decide (array_ptr top args < base)) as [Hlt|Hge]; [by left|right].
  assert (Hfit : forall a, a ∈ slots top args -> stack_ptr top args <= a).
  { intros a (i & Hi)%list_elem_of_lookup. destruct (lookup_lt_is_Some_2 args i) as [str Hs]; [rewrite <- (length_slots top); by eapply lookup_lt_Some|].
    pose proof (pu_done _ _ _ _ _ _ _ _ _ _ _ _ P1) as Hd. rewrite Forall_lookup in Hd. destruct (Hd i (a, str)) as [H _]; [|exact H].
    apply lookup_zip_with_Some. by exists a, str. }
  split; [split_and!; [lia|intros a Hin; specialize (Hfit a Hin); lia|lia]|].
  destruct (push_bytes root T vt vf vs l top base k ltac:(lia) k1 _ _ (array_ptr top args) (mjoin (le_enc 8 <$> (slots top args ++ [0]))) c P1) as (k2 & R2 & P2 & B2);
    [lia| |apply words_bytes|].
  { rewrite length_words, length_app, length_slots. cbn [length]. unfold array_ptr. cbv zeta.
    pose proof (Z.mod_pos_bound (stack_ptr top args - (Z.of_nat (length args) + 1) * 8) 16 ltac:(lia)). lia. }
  exists k2. split_and!; [done|apply P2|apply P2|apply P2|]. split; [|done]. intros i a str Hi Hs.
  pose proof (pu_done _ _ _ _ _ _ _ _ _ _ _ _ P2) as Hd. rewrite Forall_lookup in Hd. destruct (Hd i (a, str)) as [_ H]; [|exact H].
  apply lookup_zip_with_Some. by exists a, str.
Qed.

Section Run.
Context (c : ctx) (s : kern) (p : nat) (me : proc) (path argv : list Z) (args : list (list Z)) (entry : Z).
Context (To : ptree) (vto vfo : Z) (vso : list Z) (root : Z) (T : ptree) (vt vf : Z) (vs l : list Z) (sz : Z).

(** The program is loaded in the new space; [argv] are pages of the kernel with the strings [args]. *)
Record exec_ready : Prop := {
  xr_cpu : cpu_ok (cx_cpu c);
  xr_me : cx_procs c !! p = Some me;
  xr_two : two_spaces (kk s) me To vto vfo vso root T vt vf vs l sz;
  xr_args : Forall2 (fun q str => foreign T vs l q /\ cstr (k_mem (kk s)) q str) argv args
}.

Definition new_top : Z := PGROUNDUP sz + 2 * PGSIZE.

(** The result, the process and the memory. *)
Inductive exec_end (k' : kst) : Z -> proc -> Prop :=
  | exec_done T' l' g st (sp := array_ptr new_top args) (tf := p_trapframe me) :
      args_fit new_top args -> uspace_of root k' T' vt vf (vs ++ [g; st]) l' new_top ->
      (forall va, 0 <= va < PGROUNDUP sz -> uread (k_mem k') T' va = uread (k_mem (kk s)) T va) ->
      (forall va, PGROUNDUP sz <= va < PGROUNDUP sz + PGSIZE -> uread (k_mem k') T' va = None) ->
      argv_at (k_mem k') T' new_top args -> sp `mod` 16 = 0 ->
      ld64 (k_mem k') (tf + TF_epc) = u64 entry -> ld64 (k_mem k') (tf + TF_sp) = sp -> ld64 (k_mem k') (tf + TF_a1) = sp ->
      (forall o, 0 <= o < PGSIZE -> o `mod` 8 = 0 -> o <> TF_epc -> o <> TF_sp -> o <> TF_a1 -> ld64 (k_mem k') (tf + o) = ld64 (k_mem (kk s)) (tf + o)) ->
      (forall q, all_pages T' (vs ++ [g; st]) l' q <-> all_pages T vs l q \/ parent_page To vso q) ->
      same_pages (fun q => foreign T vs l q /\ ~ parent_page To vso q /\ q <> tf) (k_mem (kk s)) (k_mem k') ->
      exec_end k' (Z.of_nat (length args)) (imaged me path root new_top)
  | exec_failed l' :
      ~ args_fit new_top args \/ (length l <= 6)%nat ->
      pspace (p_pagetable me) k' To vto vfo vso l' (p_sz me) -> (forall q, q ∈ l' <-> all_pages T vs l q) ->
      same_pages (foreign T vs l) (k_mem (kk s)) (k_mem k') -> exec_end k' (-1) me.

Hypothesis H : exec_ready.

Lemma array_word : args_fit new_top args -> new_top <= MAXVA -> 0 <= array_ptr new_top args < 2 ^ 64.
Proof.
  intros (_ & _ & H1) H2. assert (MAXVA < 2 ^ 40) by done. assert (EP : PGSIZE = 4096) by done.
  pose proof (stack_ptr_le args new_top). unfold array_ptr in *. cbv zeta in *.
  pose proof (Z.mod_pos_bound (stack_ptr new_top args - (Z.of_nat (length args) + 1) * 8) 16 ltac:(lia)).
  destruct (ps_size _ _ _ _ _ _ _ _ (us_space _ _ _ _ _ _ _ _ (ts_new _ _ _ _ _ _ _ _ _ _ _ _ _ (xr_two H)))) as (_ & Hu & _).
  unfold new_top in *. lia.
Qed.

(** Failing with the space in any state. *)
Lemma fail_end k c1 T' vs' l' sz' :
  keeps T vs l (k_mem (kk s)) T' vs' l' (k_mem k) -> uspace_of root k T' vt vf vs' l' sz' -> calm c c1 -> ~ args_fit new_top args \/ (length l <= 6)%nat ->
  exists r me' c2 k', exec_bad root sz' None (c1, set_kk k s) = Ret r (set_proc p me' c2, set_kk k' s) /\ calm c c2 /\ exec_end k' r me'.
Proof.
  intros K US Hc Hr. destruct H as [Hok Hme TS _].
  destruct (bad_run c1 s k me To vto vfo vso root T vt vf vs l sz T' vs' l' sz' TS K US) as (c2 & k' & l2 & R & Hc2 & S & A & O); [by eapply calm_ok|].
  assert (Hc' : calm c c2) by (by eapply calm_trans). exists (-1), me, c2, k'. rewrite set_proc_same by (by destruct Hc' as [->| ->]). split_and!; [done..|].
  by apply (exec_failed k' l2).
Qed.

(** Ending well. *)
Lemma done_end k c1 T' g st l' :
  keeps T vs l (k_mem (kk s)) T' (vs ++ [g; st]) l' (k_mem k) -> uspace_of root k T' vt vf (vs ++ [g; st]) l' new_top -> calm c c1 ->
  args_fit new_top args -> new_top <= MAXVA -> argv_at (k_mem k) T' new_top args ->
  (forall va, 0 <= va < PGROUNDUP sz -> uread (k_mem k) T' va = uread (k_mem (kk s)) T va) ->
  (forall va, PGROUNDUP sz <= va < PGROUNDUP sz + PGSIZE -> uread (k_mem k) T' va = None) ->
  exists r me' c2 k', commit p path entry root new_top (array_ptr new_top args) (p_sz me) (Z.of_nat (length args)) (c1, set_kk k s) = Ret r (set_proc p me' c2, set_kk k' s) /\
    calm c c2 /\ exec_end k' r me'.
Proof.
  intros K US Hc Hf Hm [Av1 Av2] Im Gd. pose proof H as [Hok Hme TS _]. pose proof (two_keep _ _ _ _ _ _ _ _ _ _ _ _ _ _ _ _ _ _ TS K US) as TS'.
  destruct (commit_run c1 (set_kk k s) p me path entry To vto vfo vso root T' vt vf (vs ++ [g; st]) l' new_top (array_ptr new_top args) (Z.of_nat (length args)) TS')
    as (c2 & k' & l2 & R & Hc2 & US' & Rd & A & Tf & O); [by eapply calm_ok|by destruct Hc as [->| ->]|].
  eexists _, _, c2, k'. split; [exact R|]. split; [by eapply calm_trans|]. pose proof (array_word Hf Hm) as Hw. cbn [kk set_kk] in *. change (kk (set_kk k s)) with k in *.
  assert (EP : PGSIZE = 4096) by done. assert (E0 : 0 <= PGROUNDUP sz).
  { destruct (ps_size _ _ _ _ _ _ _ _ (us_space _ _ _ _ _ _ _ _ (ts_new _ _ _ _ _ _ _ _ _ _ _ _ _ TS))) as (_ & Hu & _). lia. }
  destruct K as (F & Sm & Al). destruct TS as [So Sn Ap (Htf & Hto & Htn)].
  assert (Mk : mem_ok (k_mem k)) by (apply (us_space _ _ _ _ _ _ _ _ US)).
  destruct (tf_exec_spec (k_mem k) (p_trapframe me) entry (array_ptr new_top args) Mk) as (_ & _ & W1 & W2 & W3 & W4).
  assert (Ld : forall o, 0 <= o <= PGSIZE - 8 -> ld64 (k_mem k') (p_trapframe me + o) = ld64 (tf_exec (k_mem k) (p_trapframe me) entry (array_ptr new_top args)) (p_trapframe me + o)).
  { intros o Ho. apply ld64_ext. intros x Hx. apply Tf. lia. }
  rewrite u64_small in W2, W3 by done.
  apply (exec_done k' T' l2 g st).
  - done.
  - done.
  - intros va Hva. rewrite Rd by lia. by apply Im.
  - intros va Hva. rewrite Rd by lia. by apply Gd.
  - split; [intros i a str Hi Hs j b Hj|intros j b Hj].
    + assert (0 <= a) by (destruct Hf as (_ & Hf & _); specialize (Hf a (list_elem_of_lookup_2 _ _ _ Hi)); unfold new_top in Hf; lia).
      rewrite Rd by lia. by eapply Av1.
    + rewrite Rd by lia. by apply Av2.
  - apply array_aligned.
  - rewrite Ld by (unfold TF_epc; lia). done.
  - rewrite Ld by (unfold TF_sp; lia). done.
  - rewrite Ld by (unfold TF_a1; lia). done.
  - intros o Ho Hal H1 H2 H3. pose proof (Z.div_mod o 8 ltac:(lia)). rewrite Ld, W4 by (done || lia). apply ld64_ext. intros x Hx.
    apply (Sm (p_trapframe me)); [by split|lia].
  - intros q. rewrite <- Al. unfold all_pages at 1. rewrite A. unfold all_pages. tauto.
  - intros q x (Hq & Hno & Hne) Hx. rewrite (O q); [by apply (Sm q)| |done]. split; [|done]. split; [apply Hq|done].
Qed.

End Run.

(** C7: exec(), once the program is loaded into its own page table.  When the arguments fit (at most MAXARG, the strings and the array
    of pointers in one page) and memory does not run out, it returns argc.  The process then has the new address space: the program's
    memory as it was loaded, above it a guard page that the user cannot read or write, then the stack, which holds each argument as a
    NUL-terminated string and below them the 16-byte aligned array of their addresses, ended by 0; sp and a1 point to the array, epc to
    the entry, and the other registers are as before.  Every page of the old address space is free.  Otherwise it returns -1: the pages
    of the new space are free, and the process, its old address space and its registers are unchanged; this happens only if the arguments do not fit or at most six pages are free.
    In both cases no page of another owner changes. *)
Theorem exec_stack_correct c s p me path argv args entry To vto vfo vso root T vt vf vs l sz :
  exec_ready c s p me argv args To vto vfo vso root T vt vf vs l sz ->
  exists r me' c' k', exec_stack p path argv entry root sz (c, s) = Ret r (set_proc p me' c', set_kk k' s) /\ calm c c' /\
    exec_end s me path args entry To vto vfo vso root T vt vf vs l sz k' r me'.
Proof.
  intros X. pose proof X as [Hok Hme TS Ha]. pose proof (ts_new _ _ _ _ _ _ _ _ _ _ _ _ _ TS) as [S Nu]. destruct (ps_size _ _ _ _ _ _ _ _ S) as (_ & Hu & _).
  pose proof (space_round _ _ _ _ _ _ _ _ S) as Sr. pose proof (space_bound _ _ _ _ _ _ _ _ Sr) as B. assert (EB : PHYSTOP - KERNBASE = 2 ^ 27) by done.
  assert (EP : PGSIZE = 4096) by done. assert (TB : 2 ^ 30 < MAXVA /\ MAXVA < 2 ^ 40) by done.
  unfold exec_stack. rewrite (bind_ret _ _ _ _ _ (pget_run c s p me Hme)). cbv zeta. rewrite (u64_small (PGROUNDUP sz + 2 * PGSIZE)) by lia.
  destruct (build_run root (kk s) T vt vf vs l c) as (r & c1 & k1 & R & Hc & Bt); [rewrite <- Hu; by split|done|]. rewrite <- Hu in R, Bt.
  rewrite (bind_ret _ _ _ _ _ (kmem_run _ _ _ s _ _ R)). destruct Bt as [T' l' US K Hl HT|T' l' g st k2 Rc US K Im Gd Zr].
  { cbn [Z.eqb]. eapply fail_end; [done..|]. right. by eapply was_short. }
  rewrite (proj2 (Z.eqb_neq _ 0)) by lia. replace (PGROUNDUP sz + 2 * PGSIZE - 2 * PGSIZE) with (PGROUNDUP sz) by lia. rewrite (u64_small (PGROUNDUP sz)) by lia.
  rewrite (bind_ret _ _ _ _ _ (kmem_run _ c1 c1 (set_kk k1 s) _ _ Rc)). change (set_kk k2 (set_kk k1 s)) with (set_kk k2 s).
  change (PGROUNDUP sz + 2 * PGSIZE) with (new_top sz) in *. assert (Et : new_top sz - PGSIZE = PGROUNDUP sz + PGSIZE) by (unfold new_top; lia).
  rewrite (u64_small (new_top sz - PGSIZE)) by lia.
  destruct (args_run c1 s k2 argv args root T' vt vf (vs ++ [g; st]) l' (new_top sz) US) as (o & k3 & R3 & US3 & S3 & Ho); [unfold new_top; lia|rewrite Et; exact Zr| |].
  { eapply Forall2_impl; [exact Ha|]. intros q str [Hq Hs]. destruct K as (F & Sm & _). split; [by eapply foreign_outside, F|by eapply cstr_same]. }
  rewrite (bind_ret _ _ _ _ _ R3). pose proof (keeps_mem _ _ _ _ _ _ _ _ _ K S3) as K3.
  destruct Ho as [(-> & Hn)|(-> & Hm & Hsp & Hr)]; [eapply fail_end; [done..|by left]|]. rewrite length_slots.
  pose proof (stack_ptr_le args (new_top sz)) as Hle. rewrite u64_small by (unfold MAXARG in Hm; unfold new_top in *; lia). change (_ - _ `mod` 16) with (array_ptr (new_top sz) args).
  destruct Hr as [Hlt|(Hf & k4 & R4 & US4 & S4 & Im4 & Av)].
  { rewrite (proj2 (Z.ltb_lt _ _) Hlt). eapply fail_end; [done..|]. left. intros (_ & _ & Hge). lia. }
  rewrite (proj2 (Z.ltb_ge _ _)) by apply Hf. rewrite (bind_ret _ _ _ _ _ (kmem_run _ c1 c1 (set_kk k3 s) _ _ R4)). change (set_kk k4 (set_kk k3 s)) with (set_kk k4 s).
  cbn [Z.ltb Z.compare]. eapply done_end; [done|exact (keeps_mem _ _ _ _ _ _ _ _ _ K S4)|done|done|done|unfold new_top; lia|done| |].
  - intros va Hva. rewrite Im4 by lia. by apply Im.
  - intros va Hva. rewrite Im4 by lia. by apply Gd.
Qed.

End Stack.

(** ** Checking an address space *)

Section Check.
Context {LY : Layout} {LO : LayoutOk}.

Definition tables (T : ptree) : list Z := snd <$> map_to_list T.
Definition path_okb (path : list Z) : bool :=
  match path with [] => true | a :: r => (0 <=? a) && (a <? 256) && forallb (fun i => (0 <=? i) && (i <? 512)) r end.
Definition restb (m : mem) (T : ptree) (n : Z) : bool :=
  forallb (fun kv => match fst kv with
    | [a; b] => forallb (fun i => negb (has (ld64 m (snd kv + 8 * i)) PTE_V) ||
        let k := a * 512 * 512 + b * 512 + i in (k <? n) || (TRAPFRAME / PGSIZE <=? k)) (seqZ 0 512)
    | _ => true end) (map_to_list T).
Definition pspaceb (root : Z) (m : mem) (T : ptree) (vt vf : Z) (vs l : list Z) (sz : Z) : bool :=
  tree_wfb root T && tree_atb m T && forallb (fun p => bool_decide (p ∉ l)) (tables T) && forallb (fun kv => path_okb (fst kv)) (map_to_list T) &&
  bool_decide (pte_at m T TRAMPOLINE = Some vt /\ PTE_FLAGS vt <> PTE_V /\ pte_at m T TRAPFRAME = Some vf /\ PTE_FLAGS vf <> PTE_V) &&
  ((0 <=? sz) && (sz <=? TRAPFRAME) && (PGROUNDUP sz =? Z.of_nat (length vs) * PGSIZE) && (Z.of_nat (length vs) * PGSIZE <=? TRAPFRAME)) &&
  bool_decide (Forall (fun iv => pte_at m T (Z.of_nat (fst iv) * PGSIZE) = Some (snd iv)) (imap pair vs)) &&
  bool_decide (Forall (fun v => PTE_FLAGS v <> PTE_V) vs) &&
  bool_decide (NoDup (PTE2PA <$> vs)) && forallb (fun v => page_okb (PTE2PA v) && bool_decide (PTE2PA v ∉ tables T) && bool_decide (PTE2PA v ∉ l)) vs &&
  restb m T (Z.of_nat (length vs)).

Lemma kinv_check (s : kst) l :
  freelist_at (k_mem s) (k_freelist s) l -> bool_decide (NoDup l) = true -> forallb page_okb l = true -> lock_free (k_lock s) -> mem_ok (k_mem s) -> kinv s l.
Proof.
  intros H1 H2%bool_decide_eq_true H3 H4 H5. split; try done. rewrite forallb_forall in H3.
  apply Forall_forall. intros x Hx. apply page_okb_spec, H3. by apply list_elem_of_In.
Qed.

Lemma in_tables T p : in_tree T p <-> p ∈ tables T.
Proof.
  unfold tables. rewrite list_elem_of_fmap. split.
  - intros [b Hb]. exists (b, p). split; [done|]. by apply elem_of_map_to_list.
  - intros ([b q] & -> & Hb%elem_of_map_to_list). by exists b.
Qed.

Lemma restb_sound m T n va : restb m T n = true -> 0 <= n -> n * PGSIZE <= va < TRAPFRAME -> pte_at m T va = None.
Proof.
  intros R Hn Hva. destruct (pte_at m T va) as [v|] eqn:E; [exfalso|done]. destruct (pte_in_leaf _ _ _ _ E) as (r & Hr & Hld & Hv).
  unfold leaf in Hr. apply fmap_Some in Hr as (q & Hq & ->). unfold restb in R. rewrite forallb_forall in R.
  specialize (R ([PX 2 va; PX 1 va], q) ltac:(by apply list_elem_of_In, elem_of_map_to_list)). cbn [fst snd] in R. rewrite forallb_forall in R.
  pose proof (PX_range 0 va ltac:(lia)) as Hrg. specialize (R (PX 0 va) ltac:(apply list_elem_of_In, elem_of_seqZ; lia)).
  assert (EP : PGSIZE = 4096) by done. assert (ET : TRAPFRAME = 67108862 * PGSIZE) by done. assert (TRAPFRAME < MAXVA) by done.
  rewrite Hld, Hv in R. cbn [negb orb] in R. cbv zeta in R. rewrite <- PX_page, ET, Z.div_mul in R by (done || lia). apply orb_true_iff in R as [R%Z.ltb_lt|R%Z.leb_le].
  - pose proof (Z.div_le_lower_bound va PGSIZE n ltac:(done)). lia.
  - pose proof (Z.div_lt_upper_bound va PGSIZE 67108862 ltac:(done)). lia.
Qed.

Lemma pspaceb_sound root k T vt vf vs l sz : kinv k l -> pspaceb root (k_mem k) T vt vf vs l sz = true -> pspace root k T vt vf vs l sz.
Proof.
  intros K H. unfold pspaceb in H. rewrite !andb_true_iff, !bool_decide_eq_true, !forallb_forall in H.
  destruct H as ((((((((((W & A) & Sep) & D) & (Ht & Hft & Hf & Hff)) & (((Z1 & Z2) & Z3) & Z4)) & U) & F) & N) & Rl) & Rs).
  assert (Hn : forall p, in_tree T p -> p ∉ l) by (intros p Hp%in_tables%list_elem_of_In; by apply Sep, bool_decide_eq_true in Hp).
  split.
  - split; [done|by apply tree_wfb_sound|by apply tree_atb_sound|exact Hn].
  - intros path p Hp. specialize (D (path, p) ltac:(by apply list_elem_of_In, elem_of_map_to_list)). destruct path as [|a r]; [done|]. cbn in D.
    rewrite !andb_true_iff, forallb_forall in D. destruct D as [[D1%Z.leb_le D2%Z.ltb_lt] D3]. split; [lia|]. apply Forall_forall.
    intros i Hi%list_elem_of_In. specialize (D3 i Hi). apply andb_true_iff in D3 as [?%Z.leb_le ?%Z.ltb_lt]. lia.
  - done.
  - done.
  - apply Z.leb_le in Z1, Z2, Z4. apply Z.eqb_eq in Z3. done.
  - split_and!; [|done|split; [done|]].
    + intros i v Hi. rewrite Forall_lookup in U. rewrite Z.add_0_l. apply (U i (i, v)). by rewrite list_lookup_imap, Hi.
    + intros v Hv%list_elem_of_In. specialize (Rl v Hv). rewrite !andb_true_iff, !bool_decide_eq_true, <- in_tables in Rl. destruct Rl as [[R1 R2] R3].
      split_and!; [by apply page_okb_spec|done|done].
  - intros va Hva. apply (restb_sound _ _ (Z.of_nat (length vs))); [done|lia|done].
Qed.

End Check.

(** ** A concrete exec()

    The process of [ForkSpec.fk_me] has loaded a program without memory of its own; the one argument is ls. *)

#[local] Instance xe_lay : Layout := fk_layout.

Definition xe_tables : mem :=
  st64 (st64 (st64 (st64 fk_tables (pg 8 + 8 * 255) (mkpte (pg 9) 0)) (pg 9 + 8 * 511) (mkpte (pg 10) 0)) (pg 10 + 8 * 511) TRAMP_PTE) (pg 10 + 8 * 510) (TF_PTE (pg 4)).
Definition xe_arg : list Z := [108; 115].
Definition xe_k : kst :=
  Kst (store_bytes (foldr (fun i m => st64 m (pg i) (pg (i + 1))) xe_tables (seqZ 11 6)) (pg 18) (xe_arg ++ [0])) (Spinlock false "kmem" None) (pg 11).
Definition xe_s : kern := set_kk xe_k (kern_f 1).
Definition xe_l : list Z := pg <$> seqZ 11 7.
Definition xe_T : ptree := {[ [] := pg 8; [255] := pg 9; [255; 511] := pg 10 ]}.

Lemma xe_kinv : kinv xe_k xe_l.
Proof.
  apply kinv_check; [by vm_compute|by vm_compute|by vm_compute|done|]. apply store_bytes_ok; [|by repeat constructor].
  assert (H : forall l m, mem_ok m -> mem_ok (foldr (fun i m => st64 m (pg i) (pg (i + 1))) m l)) by (induction l as [|j l IH]; intros m Hm; [done|]; simpl; by apply st64_ok, IH).
  apply H. repeat apply st64_ok. apply mem_ok_empty.
Qed.

Lemma xe_old : pspace (pg 1) xe_k fk_T TRAMP_PTE (TF_PTE (pg 4)) fk_vs xe_l 4096.
Proof. apply (@pspaceb_sound fk_lay); [apply xe_kinv|by vm_compute]. Qed.

Lemma xe_new : uspace_of (pg 8) xe_k xe_T TRAMP_PTE (TF_PTE (pg 4)) [] xe_l 0.
Proof. split; [apply (@pspaceb_sound fk_lay); [apply xe_kinv|by vm_compute]|by split; vm_compute]. Qed.

Lemma parent_list T vs q : parent_page T vs q <-> q ∈ tables T ++ (PTE2PA <$> vs).
Proof. unfold parent_page. by rewrite in_tables, elem_of_app. Qed.

Lemma xe_ready : exec_ready fk_ctx xe_s 0 fk_me [pg 18] [xe_arg] fk_T TRAMP_PTE (TF_PTE (pg 4)) fk_vs (pg 8) xe_T TRAMP_PTE (TF_PTE (pg 4)) [] xe_l 0.
Proof.
  split; [split; simpl; [lia|done]|done| |].
  - split; [apply xe_old|apply xe_new| |].
    + intros q Hq%parent_list%list_elem_of_In Hn%parent_list.
      assert (C : forallb (fun q => bool_decide (q ∉ tables xe_T ++ (PTE2PA <$> []))) (tables fk_T ++ (PTE2PA <$> fk_vs)) = true) by by vm_compute.
      rewrite forallb_forall in C. specialize (C q Hq). apply bool_decide_eq_true in C. exact (C Hn).
    + rewrite !parent_list. split; [split|split]; [apply page_okb_spec; by vm_compute|apply (bool_decide_unpack (pg 4 ∉ xe_l)); by vm_compute|apply (bool_decide_unpack (_ ∉ _)); by vm_compute..].
  - constructor; [|constructor]. split; [split; [split|]|].
    + apply page_okb_spec. by vm_compute.
    + apply (bool_decide_unpack (pg 18 ∉ xe_l)). by vm_compute.
    + rewrite parent_list. apply (bool_decide_unpack (_ ∉ _)). by vm_compute.
    + split_and!; [by vm_compute|by vm_compute|apply (bool_decide_unpack (0 ∉ xe_arg)); by vm_compute|by vm_compute].
Qed.

Lemma exec_stack_correct_witness : exists c' s', @exec_stack fk_lay sync_dev 0 [47; 108; 115] [pg 18] 0 (pg 8) 0 (fk_ctx, xe_s) = Ret 1 (c', s') /\
  p_sz <$> cx_procs c' !! 0%nat = Some 8192.
Proof.
  destruct (@exec_stack_correct fk_lay fk_layout_ok sync_dev fk_ctx xe_s 0 fk_me [47; 108; 115] [pg 18] [xe_arg] 0 fk_T TRAMP_PTE (TF_PTE (pg 4)) fk_vs (pg 8) xe_T TRAMP_PTE
    (TF_PTE (pg 4)) [] xe_l 0 xe_ready) as (r & me' & c' & k' & R & Hc & E).
  destruct E as [T' l' g st sp tf|l' [Hn|Hn]].
  - eexists _, _. split; [exact R|]. by destruct Hc as [->| ->].
  - exfalso. apply Hn. split_and!; [by vm_compute|intros a ->%list_elem_of_singleton; by vm_compute|by vm_compute].
  - exfalso. revert Hn. vm_compute. lia.
Defined.
