(* ===== verification/ExitSpec.v ===== *)
(** * The end of a process (kernel/proc.c, exit())

    exit() closes the files, drops the working directory in a transaction, hands
    its children to init, wakes its parent, and gives the hart up as a ZOMBIE
    that holds its own lock, for wait() to reap ([ProcSpec]). *)

From stdpp Require Import base numbers list list_numbers gmap strings.
From Stdlib Require Import ZArith Lia.
From S2P Require Import Prelude.
From S2P Require Import Machine.
From S2P Require Import Spinlock.
From S2P Require Import Mem.
From S2P Require Import Kalloc.
From S2P Require Import Vm.
From S2P Require Import VmSpec.
From S2P Require Import Kern.
From S2P Require Import Sched.
From S2P Require Import SleepLk.
From S2P Require Import Bio.
From S2P Require Import Log.
From S2P Require Import LogSpec.
From S2P Require Import LogOps.
From S2P Require Import UserMem.
From S2P Require Import Fs.
From S2P Require Import File.
From S2P Require Import Proc.
From S2P Require Import FsSpec.
From S2P Require Import DirSpec.
From S2P Require Import InodeSpec.
From S2P Require Import FileSpec.
From S2P Require Import ProcSpec.
From S2P Require Import ForkSpec.

Local Open Scope Z_scope.

(** ** An operation that logs nothing *)

Section Quiet.
Context {BD : BlockDev}.

(** The transaction of exit(): iput() of a directory that keeps its links. *)
Lemma put_cwd {A} c s i pid p ip x (k : K kern A) :
  kctx c i pid -> cx_procs c !! i = Some p -> p_cwd p = Some ip ->
  lock_free (lg_lock (k_log s)) -> must_wait (k_log s) = false ->
  (lg_outstanding (k_log s) = 0 -> lh_n (lg_lh (k_log s)) = 0) ->
  lock_free (it_lock (k_itable s)) -> inodes s !! ip = Some x -> (i_valid x = true -> i_nlink x <> 0) ->
  (begin_op ;; y ← pget i; (match p_cwd y with Some d => iput d | None => fault end) ;; end_op ;; k) (c, s) =
    k (wake_ctx ChLog c, upd_inodes (insert ip (set_i_ref (i_ref x - 1) x)) s).
Proof.
  intros Hc Hp Hcwd Hf Hw Hn Hit Hx Hl. pose proof (co_cpu _ _ _ (kc_ok _ _ _ Hc)) as Hok.
  rewrite (bind_ret _ _ _ _ _ (begin_op_run c s Hok (kc_fuel _ _ _ Hc) Hf Hw)). set (s1 := set_k_log _ s).
  rewrite (bind_ret _ _ _ _ _ (pget_run (settled c) s1 i p Hp)), Hcwd.
  assert (R : iput ip (settled c, s1) = Ret tt (settled c, upd_inodes (insert ip (set_i_ref (i_ref x - 1) x)) s1)).
  { rewrite (iput_run ip x (settled c) s1 Hit (settled_ok _ Hok) Hx Hl). by rewrite settled_idem. }
  rewrite (bind_ret _ _ _ _ _ R). unfold must_wait in Hw. apply orb_false_iff in Hw as [Hcm _].
  erewrite bind_ret; [|apply (end_op_quiet (settled c) _ i pid (kctx_settled _ _ _ Hc))].
  - rewrite wake_ctx_settled. unfold s1.
    assert (E : set_lg_outstanding (lg_outstanding (op_begun (k_log s)) - 1) (op_begun (k_log s)) = k_log s)
      by (unfold op_begun; destruct (k_log s); cbn; unfold set_lg_outstanding; cbn; f_equal; lia).
    cbn [k_log upd_inodes set_k_itable set_k_log]. rewrite E. by destruct s.
  - done.
  - done.
  - unfold s1. cbn. intros. apply Hn. lia.
Qed.

End Quiet.

(** ** Closing the files *)

Section Close.
Context {LY : Layout} {BD : BlockDev}.

Definition close_fd (i fd : nat) : K kern unit :=
  x ← pget i;
  match default None (p_ofile x !! fd) with
  | Some f =>
      fileclose f ;;
      pupd i (fun x => set_p_ofile (<[fd := None]> (p_ofile x)) x)
  | None => mret tt
  end.

(** The references of descriptors [k], ... are not the last ones. *)
Definition shared_from (k : nat) (l : list (option nat)) (s : kern) : Prop :=
  forall f x, files s !! f = Some x -> (0 < fd_count f (drop k l))%nat -> Z.of_nat (fd_count f (drop k l)) < f_ref x.

(** The file table without the references of [l]. *)
Definition less (l : list (option nat)) (fs : list file) : list file :=
  imap (fun f x => set_f_ref (f_ref x - Z.of_nat (fd_count f l)) x) fs.

Lemma less_nil fs : less [] fs = fs.
Proof.
  apply list_eq. intros f. unfold less. rewrite list_lookup_imap. destruct (fs !! f) as [[]|]; [|done]. simpl. by rewrite Z.sub_0_r.
Qed.

Lemma less_none l fs : less (None :: l) fs = less l fs.
Proof. apply list_eq. intros f. unfold less. rewrite !list_lookup_imap. destruct (fs !! f); [|done]. simpl. by rewrite fd_count_cons. Qed.

Lemma less_some f x l fs : fs !! f = Some x -> less l (<[f := set_f_ref (f_ref x - 1) x]> fs) = less (Some f :: l) fs.
Proof.
  intros Hx. apply list_eq. intros g. unfold less. rewrite !list_lookup_imap. destruct (decide (g = f)) as [->|Hne].
  - rewrite list_lookup_insert_eq by (by eapply lookup_lt_Some). rewrite Hx. simpl. rewrite fd_count_cons. unfold is_ref. rewrite bool_decide_true by done.
    f_equal. destruct x. unfold set_f_ref. cbn. f_equal. lia.
  - rewrite list_lookup_insert_ne by done. destruct (fs !! g); [|done]. simpl. rewrite fd_count_cons. unfold is_ref. by rewrite bool_decide_false by congruence.
Qed.

Lemma close_loop i n k c s p :
  cpu_ok (cx_cpu c) -> settled c = c -> cx_procs c !! i = Some p -> lock_free (ft_lock (k_ftable s)) -> refs_ok c s ->
  length (p_ofile p) = (k + n)%nat -> shared_from k (p_ofile p) s ->
  let c' := set_proc i (set_p_ofile (take k (p_ofile p) ++ replicate n None) p) c in
  let s' := upd_files (less (drop k (p_ofile p))) s in
  for_each (seq k n) (close_fd i) (c, s) = Ret tt (c', s') /\ refs_ok c' s'.
Proof.
  intros Hok Hs. revert k c s p Hok Hs. induction n as [|n IH]; intros k c s p Hok Hs Hp Hft Hr Hl Hsh.
  { cbn zeta. rewrite Nat.add_0_r in Hl. rewrite take_ge, drop_ge, app_nil_r by lia.
    assert (E1 : set_proc i (set_p_ofile (p_ofile p) p) c = c) by (rewrite <- (set_proc_same c i p Hp) at 2; by destruct p).
    assert (E2 : upd_files (less []) s = s) by (unfold upd_files; rewrite less_nil; by destruct s as [? ? ? ? ? []]).
    by rewrite E1, E2. }
  destruct (lookup_lt_is_Some_2 (p_ofile p) k) as [o Ho]; [lia|]. cbn [seq for_each].
  assert (Ed : drop k (p_ofile p) = o :: drop (S k) (p_ofile p)) by (by apply drop_S).
  destruct o as [f|].
  - destruct (ro_dom _ _ Hr f (frefs_pos c i p k f Hp Ho)) as [x Hx]. pose proof (Hsh f x Hx) as Hx2. rewrite Ed, fd_count_cons in Hx2.
    unfold is_ref in Hx2. rewrite bool_decide_true in Hx2 by done. assert (H2 : 2 <= f_ref x) by lia.
    assert (R : close_fd i k (c, s) = Ret tt (set_fd i p k None c, upd_files (insert f (set_f_ref (f_ref x - 1) x)) s)).
    { unfold close_fd. rewrite (bind_ret _ _ _ _ _ (pget_run c s i p Hp)), Ho. change (default None (Some (Some f))) with (Some f). cbn match.
      rewrite (bind_ret _ _ _ _ _ (fileclose_shared c s f x Hok Hft Hx H2)), Hs. by rewrite (pupd_run c _ i p _ Hp). }
    rewrite (bind_ret _ _ _ _ _ R). set (p1 := set_p_ofile (<[k := None]> (p_ofile p)) p). set (s1 := upd_files _ s).
    destruct (IH (S k) (set_fd i p k None c) s1 p1) as [R' RO].
    + done.
    + rewrite <- Hs at 2. rewrite <- set_fd_settled, Hs. done.
    + apply set_proc_get. by eexists.
    + done.
    + apply (refs_ok_set c s i p k (Some f) None); [done|done|done| |apply length_insert|done].
      apply (insert_refs f x); [done|unfold is_ref; rewrite bool_decide_true, bool_decide_false by done; simpl; lia|].
      intros g Hg. unfold is_ref. by rewrite !bool_decide_false by congruence.
    + cbn. rewrite length_insert. lia.
    + intros g y Hy Hc. unfold p1 in *. cbn [p_ofile set_p_ofile] in *. rewrite drop_insert_lt in Hc |- * by lia. change (files s1) with (<[f := set_f_ref (f_ref x - 1) x]> (files s)) in Hy.
      apply list_lookup_insert_Some in Hy as [(-> & <- & _)|[Hne Hy]]; [cbn; lia|]. pose proof (Hsh g y Hy) as G. rewrite Ed, fd_count_cons in G.
      unfold is_ref in G. rewrite bool_decide_false in G by congruence. cbn in G. apply G. lia.
    + cbn zeta in *. change (p_ofile p1) with (<[k := None]> (p_ofile p)) in R', RO. rewrite drop_insert_lt, (take_S_r _ _ None) in R', RO by (lia || (apply list_lookup_insert_eq; lia)).
      rewrite take_insert_ge, <- app_assoc in R', RO by lia. rewrite Ed.
      assert (E1 : set_proc i (set_p_ofile (take k (p_ofile p) ++ [None] ++ replicate n None) p1) (set_fd i p k None c) =
        set_proc i (set_p_ofile (take k (p_ofile p) ++ replicate (S n) None) p) c) by (unfold set_fd; by rewrite set_proc_set).
      assert (E2 : upd_files (less (drop (S k) (p_ofile p))) s1 = upd_files (less (Some f :: drop (S k) (p_ofile p))) s)
        by (unfold s1, upd_files; cbn; by rewrite <- (less_some f x)).
      rewrite E1, E2 in R', RO. done.
  - assert (R : close_fd i k (c, s) = Ret tt (c, s)) by (unfold close_fd; by rewrite (bind_ret _ _ _ _ _ (pget_run c s i p Hp)), Ho).
    rewrite (bind_ret _ _ _ _ _ R). destruct (IH (S k) c s p) as [R' RO]; [done|done|done|done|done|lia| |].
    + intros f x Hx Hc. pose proof (Hsh f x Hx) as G. rewrite Ed, fd_count_cons in G. by apply G.
    + cbn zeta in *. rewrite (take_S_r _ _ None Ho), <- app_assoc in R', RO. rewrite Ed.
      assert (E2 : upd_files (less (None :: drop (S k) (p_ofile p))) s = upd_files (less (drop (S k) (p_ofile p))) s) by (unfold upd_files; by rewrite less_none).
      rewrite E2. done.
Qed.

End Close.

(** ** Giving the children away *)

Definition adopt (i init : nat) (q : proc) : proc :=
  if bool_decide (child i q) then set_p_parent (Some init) q else q.

(** wakeup() on behalf of [i], which does not wake itself. *)
Definition wake_but (i : nat) (ch : chan) (j : nat) (q : proc) : proc := if bool_decide (j = i) then q else woken ch q.

Lemma woken_parent ch q : p_parent (woken ch q) = p_parent q.
Proof. unfold woken. by destruct (_ && _). Qed.

Lemma woken_idem ch q : woken ch (woken ch q) = woken ch q.
Proof.
  unfold woken. destruct (bool_decide (p_state q = SLEEPING) && bool_decide (p_chan q = Some ch)) eqn:E; [|by rewrite E]. done.
Qed.

Lemma woken_ofile ch q : p_ofile (woken ch q) = p_ofile q.
Proof. unfold woken. by destruct (_ && _). Qed.

Lemma wake_but_adopt i init ch j q : wake_but i ch j (adopt i init q) = adopt i init (wake_but i ch j q).
Proof.
  unfold wake_but, adopt. case_bool_decide; [done|].
  rewrite (bool_decide_ext (child i (woken ch q)) (child i q)) by (unfold child; by rewrite woken_parent).
  case_bool_decide; [|done]. unfold woken. cbn. by destruct (_ && _).
Qed.

Lemma wake_but_idem i ch j q : wake_but i ch j (wake_but i ch j q) = wake_but i ch j q.
Proof. unfold wake_but. case_bool_decide; [done|]. apply woken_idem. Qed.

Lemma wake_but_parent i ch j q : p_parent (wake_but i ch j q) = p_parent q.
Proof. unfold wake_but. case_bool_decide; [done|]. apply woken_parent. Qed.

Lemma wake_ctx_lookup ch c i j : c_proc (cx_cpu c) = Some i -> cx_procs (wake_ctx ch c) !! j = wake_but i ch j <$> cx_procs c !! j.
Proof.
  intros Hp. unfold wake_ctx, wake_but. cbn. rewrite list_lookup_imap, Hp. destruct (cx_procs c !! j); [|done]. cbn. f_equal.
  destruct (decide (j = i)) as [->|]; [by rewrite !bool_decide_true|by rewrite !bool_decide_false by congruence].
Qed.

Lemma ctx_ok_set c i pid j q q' : ctx_ok c i pid -> cx_procs c !! j = Some q -> p_lock q' = p_lock q -> p_pid q' = p_pid q -> ctx_ok (set_proc j q' c) i pid.
Proof.
  intros [H1 H2 (p & Hp & Hpid) H4 H5] Hq El Ep. split; [done|done| |by cbn; rewrite length_insert|].
  - destruct (decide (j = i)) as [->|Hne]; [|exists p; cbn; by rewrite list_lookup_insert_ne].
    exists q'. cbn. rewrite list_lookup_insert_eq by (by eapply lookup_lt_Some). split; [done|]. congruence.
  - cbn. apply Forall_insert; [done|]. rewrite El. exact (Forall_lookup_1 _ _ _ _ H5 Hq).
Qed.

Section Kin.
Context {LY : Layout} {BD : BlockDev}.

Definition reparent_body (i pp : nat) : K kern unit :=
  x ← pget pp;
  if bool_decide (p_parent x = Some i) then
    init ← load (inS k_initproc_l);
    pupd pp (set_p_parent init) ;;
    wakeup_proc init
  else mret tt.

Definition kids (i : nat) (l : list proc) : bool := existsb (fun q => bool_decide (child i q)) l.

Lemma kids_ext i l l' : (p_parent <$> l) = (p_parent <$> l') -> kids i l = kids i l'.
Proof.
  revert l'. induction l as [|q l IH]; intros [|q' l'] E; [done|done|done|]. injection E as E1 E. unfold kids. cbn [existsb]. fold (kids i l) (kids i l'). rewrite (IH l') by done.
  f_equal. apply bool_decide_ext. unfold child. by rewrite E1.
Qed.

Lemma reparent_loop i init pid n k c s :
  ctx_ok c i pid -> settled c = c -> k_initproc s = Some init -> (k + n <= length (cx_procs c))%nat ->
  exists c', for_each (seq k n) (reparent_body i) (c, s) = Ret tt (c', s) /\ ctx_ok c' i pid /\ cx_cpu c' = cx_cpu c /\ cx_fuel c' = cx_fuel c /\
    forall j, cx_procs c' !! j =
      (fun q => let q := if decide (k <= j < k + n)%nat then adopt i init q else q in
                if kids i (take n (drop k (cx_procs c))) then wake_but i (ChProc init) j q else q) <$> cx_procs c !! j.
Proof.
  revert k c. induction n as [|n IH]; intros k c Hc Hs Hi Hk.
  { exists c. split_and!; [done..|]. intros j. destruct (cx_procs c !! j); [|done]. cbn [fmap option_fmap option_map]. by rewrite decide_False by lia. }
  destruct (lookup_lt_is_Some_2 (cx_procs c) k) as [y Hy]; [lia|]. cbn [seq for_each]. rewrite (drop_S _ _ _ Hy). cbn [take].
  unfold kids. cbn [existsb]. fold (kids i (take n (drop (S k) (cx_procs c)))).
  destruct (decide (child i y)) as [Hch|Hch].
  - set (c1 := set_proc k (set_p_parent (Some init) y) c). assert (Hc1 : ctx_ok c1 i pid) by (by apply (ctx_ok_set c i pid k y)).
    assert (R : reparent_body i k (c, s) = Ret tt (wake_ctx (ChProc init) c1, s)).
    { unfold reparent_body. rewrite (bind_ret _ _ _ _ _ (pget_run c s k y Hy)), bool_decide_true by done.
      assert (L : load (inS k_initproc_l) (c, s) = Ret (Some init) (c, s)) by (rewrite <- Hi; done).
      rewrite (bind_ret _ _ _ _ _ L), (pupd_step k _ _ c s y Hy). cbn [wakeup_proc]. by apply (wakeup_run (ChProc init) c1 s i pid). }
    set (c2 := wake_ctx (ChProc init) c1) in *. assert (Hc2 : ctx_ok c2 i pid) by (by apply ctx_ok_wake).
    assert (Ecpu : cx_cpu c2 = cx_cpu c) by exact (f_equal cx_cpu Hs).
    assert (Hl2 : forall j, cx_procs c2 !! j = wake_but i (ChProc init) j <$> cx_procs c1 !! j) by (intros j; apply wake_ctx_lookup, Hc1).
    destruct (IH (S k) c2) as (c' & R' & Hc' & E1 & E2 & E3).
    { done. } { unfold c2, settled, wake_ctx, set_cx_cpu. cbn. by rewrite settle_idem. } { done. }
    { rewrite (co_len _ _ _ Hc2), <- (co_len _ _ _ Hc). lia. }
    exists c'. rewrite (bind_ret _ _ _ _ _ R). split_and!; [done|done|by rewrite E1|by rewrite E2|]. intros j. rewrite E3, Hl2. unfold c1. cbn [set_proc cx_procs set_cx_procs].
    rewrite bool_decide_true by done. cbn [orb]. destruct (decide (j = k)) as [->|Hne].
    + rewrite list_lookup_insert_eq by (by eapply lookup_lt_Some). rewrite Hy. cbn [fmap option_fmap option_map]. rewrite decide_False, decide_True by lia. f_equal.
      unfold adopt. rewrite bool_decide_true by done. destruct (kids _ _); [apply wake_but_idem|done].
    + rewrite list_lookup_insert_ne by done. destruct (cx_procs c !! j) as [q|]; [|done]. cbn [fmap option_fmap option_map]. f_equal.
      destruct (decide (S k <= j < S k + n)%nat), (decide (k <= j < k + S n)%nat); try lia.
      * rewrite <- wake_but_adopt. destruct (kids _ _); [apply wake_but_idem|done].
      * destruct (kids _ _); [apply wake_but_idem|done].
  - assert (R : reparent_body i k (c, s) = Ret tt (c, s)).
    { unfold reparent_body. by rewrite (bind_ret _ _ _ _ _ (pget_run c s k y Hy)), bool_decide_false. }
    destruct (IH (S k) c) as (c' & R' & Hc' & E1 & E2 & E3); [done|done|done|lia|]. exists c'. rewrite (bind_ret _ _ _ _ _ R). split_and!; [done..|].
    intros j. rewrite E3, (bool_decide_false (child i y)) by done. cbn [orb]. destruct (decide (j = k)) as [->|Hne].
    + rewrite Hy. cbn [fmap option_fmap option_map]. rewrite decide_False, decide_True by lia. unfold adopt. by rewrite bool_decide_false.
    + destruct (cx_procs c !! j); [|done]. cbn [fmap option_fmap option_map]. f_equal. destruct (decide (S k <= j < S k + n)%nat), (decide (k <= j < k + S n)%nat); done || lia.
Qed.

End Kin.

(** ** The last steps *)

Section Back.
Context {LY : Layout} {BD : BlockDev}.

(** The slot wait() will find, with p->lock held by the hart [h]. *)
Definition dead (status h : Z) (p : proc) : proc :=
  set_p_state ZOMBIE (set_p_xstate status (set_p_lock (held (p_lock p) h) p)).

(** What becomes of another process. *)
Definition bereaved (i init par : nat) (has : bool) (q : proc) : proc :=
  let q := adopt i init q in
  woken (ChProc par) (if has then woken (ChProc init) q else q).

Lemma exit_back c s i pid p par init status :
  kctx c i pid -> settled c = c -> cx_procs c !! i = Some p -> p_parent p = Some par -> par <> i ->
  lock_free (k_wait_lock s) -> k_initproc s = Some init ->
  exists c' k, (acquire wait_lk ;; reparent i ;; x ← pget i; wakeup_proc (p_parent x) ;; acquire (p_lk i) ;;
      pupd i (set_p_xstate status) ;; pupd i (set_p_state ZOMBIE) ;; release wait_lk ;; sched ;; panic "zombie exit" : K kern unit) (c, s) = Swtch (c', s) k /\
    (forall w, k w = Panic "zombie exit") /\ one_lock i c' /\ length (cx_procs c') = length (cx_procs c) /\ cx_procs c' !! i = Some (dead status (c_id (cx_cpu c)) p) /\
    forall j q, j <> i -> cx_procs c !! j = Some q -> cx_procs c' !! j = Some (bereaved i init par (kids i (cx_procs c)) q).
Proof.
  intros Hc Hs Hp Hpar Hne Hw Hi. pose proof (kc_ok _ _ _ Hc) as Hco. pose proof (co_cpu _ _ _ Hco) as Hok.
  rewrite (bind_ret _ _ _ _ _ (acquire_wait c s Hw)). set (s1 := in_wait c s). pose proof (ctx_ok_pushed _ _ _ Hco) as Hc1.
  assert (Hs1 : settled (pushed c) = pushed c) by (by apply settled_pushed).
  destruct (reparent_loop i init pid (Z.to_nat NPROC) 0 (pushed c) s1 Hc1 Hs1 Hi) as (c2 & R2 & Hc2 & E2 & _ & L2); [by rewrite (co_len _ _ _ Hc1)|].
  change (reparent i) with (for_each all_procs (reparent_body i)). unfold all_procs. rewrite (bind_ret _ _ _ _ _ R2).
  assert (Hl : length (cx_procs c) = Z.to_nat NPROC) by apply Hco.
  rewrite drop_0, take_ge in L2 by (cbn; lia). change (cx_procs (pushed c)) with (cx_procs c) in L2.
  assert (Hnc : bool_decide (child i p) = false) by (apply bool_decide_false; unfold child; congruence).
  assert (Hp2 : cx_procs c2 !! i = Some p).
  { rewrite L2, Hp. cbn [fmap option_fmap option_map]. rewrite decide_True by (pose proof (lookup_lt_Some _ _ _ Hp); lia). unfold adopt, wake_but. rewrite Hnc, bool_decide_true by done. by destruct (kids _ _). }
  rewrite (bind_ret _ _ _ _ _ (pget_run c2 s1 i p Hp2)), Hpar. cbn [wakeup_proc].
  rewrite (bind_ret _ _ _ _ _ (wakeup_run (ChProc par) c2 s1 i pid Hc2)). set (c3 := wake_ctx (ChProc par) c2).
  assert (Hcpu : cx_cpu c3 = push_cpu (cx_cpu c)) by (unfold c3, wake_ctx; cbn [cx_cpu]; rewrite E2; exact (f_equal cx_cpu Hs1)).
  assert (L3 : forall j, cx_procs c3 !! j = wake_but i (ChProc par) j <$> cx_procs c2 !! j) by (intros j; apply wake_ctx_lookup, Hc2).
  assert (Hp3 : cx_procs c3 !! i = Some p) by (rewrite L3, Hp2; unfold wake_but; cbn [fmap option_fmap option_map]; by rewrite bool_decide_true).
  assert (Hf : lock_free (p_lock p)) by exact (Forall_lookup_1 _ _ _ _ (co_locks _ _ _ Hco) Hp).
  rewrite (bind_ret _ _ _ _ _ (acquire_p c3 s1 i p Hp3 Hf)), Hcpu. set (c4 := set_cx_cpu (push_cpu (push_cpu (cx_cpu c))) c3).
  change (c_id (push_cpu (cx_cpu c))) with (c_id (cx_cpu c)).
  assert (Hg : forall q, cx_procs (set_proc i q c4) !! i = Some q) by (intros q; apply set_proc_get; by exists p).
  rewrite (pupd_step i _ _ _ _ _ (Hg _)), set_proc_set, (pupd_step i _ _ _ _ _ (Hg _)), set_proc_set. fold (dead status (c_id (cx_cpu c)) p).
  assert (Rw : release wait_lk (set_proc i (dead status (c_id (cx_cpu c)) p) c4, s1) =
    Ret tt (set_cx_cpu (push_cpu (cx_cpu c)) (set_proc i (dead status (c_id (cx_cpu c)) p) c4), s)).
  { pose proof (release_wait (pushed c) s (set_proc i (dead status (c_id (cx_cpu c)) p) c4) (kk s) (co_cpu _ _ _ Hc1) Hw eq_refl) as Rw.
    change (settle (cx_cpu (pushed c))) with (cx_cpu (settled (pushed c))) in Rw. rewrite Hs1 in Rw. cbn [cx_cpu pushed set_cx_cpu] in Rw.
    replace (set_kk (kk s) (in_wait (pushed c) s)) with s1 in Rw by (unfold s1; by destruct s). by replace (set_kk (kk s) s) with s in Rw by (by destruct s). }
  rewrite (bind_ret _ _ _ _ _ Rw). set (c5 := set_cx_cpu _ _).
  destruct Hok as [Hn0 Hint]. pose proof (kc_noff _ _ _ Hc) as Hz.
  assert (Rs : sched (c5, s) = Swtch (c5, s) (fun w => upd_mycpu (set_c_intena (c_intena (cx_cpu c5))) w)).
  { apply (sched_run c5 s i (dead status (c_id (cx_cpu c)) p)); [exact (co_proc _ _ _ Hco)|exact (Hg _)|done| |done|done]. cbn. by rewrite Hz. }
  eexists c5, _. split; [unfold mbind at 1, K_bind; rewrite Rs; reflexivity|]. split_and!.
  - intros w. done.
  - split_and!; [exact (co_proc _ _ _ Hco)|cbn; by rewrite Hz|done].
  - change (cx_procs c5) with (<[i := dead status (c_id (cx_cpu c)) p]> (cx_procs c3)). rewrite length_insert, Hl. apply (ctx_ok_wake (ChProc par) c2 i pid Hc2).
  - exact (Hg _).
  - intros j q Hj Hq. change (cx_procs c5) with (<[i := dead status (c_id (cx_cpu c)) p]> (cx_procs c3)). rewrite list_lookup_insert_ne by done. rewrite L3, L2, Hq.
    cbn [fmap option_fmap option_map]. rewrite decide_True by (pose proof (lookup_lt_Some _ _ _ Hq); lia). unfold wake_but, bereaved. by rewrite !bool_decide_false.
Qed.

End Back.

(** ** The whole of exit() *)

(** A process other than init, whose files others have open too and whose
    working directory has links, with the log not full and none of the locks
    it takes held. *)
Record exit_pre (c : ctx) (s : kern) (i : nat) (pid : Z) (p : proc) (init par ip : nat) (x : inode) : Prop := {
  xp_ctx : kctx c i pid;
  xp_proc : cx_procs c !! i = Some p;
  xp_init : k_initproc s = Some init;
  xp_other : init <> i;
  xp_parent : p_parent p = Some par;
  xp_par : par <> i;
  xp_ft : lock_free (ft_lock (k_ftable s));
  xp_refs : refs_ok c s;
  xp_shared : shared_from 0 (p_ofile p) s;
  xp_cwd : p_cwd p = Some ip;
  xp_it : lock_free (it_lock (k_itable s));
  xp_ip : inodes s !! ip = Some x;
  xp_linked : i_valid x = true -> i_nlink x <> 0;
  xp_log : lock_free (lg_lock (k_log s));
  xp_room : must_wait (k_log s) = false;
  xp_empty : lg_outstanding (k_log s) = 0 -> lh_n (lg_lh (k_log s)) = 0;
  xp_wait : lock_free (k_wait_lock s)
}.

(** The slot after the files and the directory are dropped. *)
Definition dropped (p : proc) : proc := set_p_cwd None (set_p_ofile (replicate (Z.to_nat NOFILE) None) p).

Section Exit.
Context {LY : Layout} {BD : BlockDev}.

Lemma exit_front c s i pid p init par ip x status :
  exit_pre c s i pid p init par ip x ->
  let s' := upd_inodes (insert ip (set_i_ref (i_ref x - 1) x)) (upd_files (less (p_ofile p)) s) in
  exists c', exit status (c, s) = (acquire wait_lk ;; reparent i ;; y ← pget i; wakeup_proc (p_parent y) ;; acquire (p_lk i) ;;
      pupd i (set_p_xstate status) ;; pupd i (set_p_state ZOMBIE) ;; release wait_lk ;; sched ;; panic "zombie exit" : K kern unit) (c', s') /\
    kctx c' i pid /\ settled c' = c' /\ cx_cpu c' = settle (cx_cpu c) /\ refs_ok c' s' /\ cx_procs c' !! i = Some (dropped p) /\
    forall j, j <> i -> cx_procs c' !! j = woken ChLog <$> cx_procs c !! j.
Proof.
  intros [Hc Hp Hi Hio Hpar Hpn Hft Hr Hsh Hcwd Hit Hx Hl Hlg Hrm Hem Hw] s'. pose proof (kc_ok _ _ _ Hc) as Hco. pose proof (co_cpu _ _ _ Hco) as Hok.
  unfold exit. rewrite (bind_ret _ _ _ _ _ (curproc_run c s i pid Hco)).
  assert (Li : load (inS k_initproc_l) (settled c, s) = Ret (Some init) (settled c, s)) by (rewrite <- Hi; done).
  rewrite (bind_ret _ _ _ _ _ Li), bool_decide_false by congruence. pose proof (ro_len _ _ Hr i p Hp) as Hlen.
  destruct (close_loop i (Z.to_nat NOFILE) 0 (settled c) s p (settled_ok _ Hok) (settled_idem c) Hp Hft (refs_ok_settled _ _ Hr) Hlen Hsh) as [R1 RO1].
  rewrite drop_0 in R1, RO1. change (take 0 (p_ofile p) ++ replicate (Z.to_nat NOFILE) None) with (replicate (Z.to_nat NOFILE) (@None nat)) in R1, RO1. set (p1 := set_p_ofile (replicate (Z.to_nat NOFILE) None) p) in *.
  set (c1 := set_proc i p1 (settled c)) in *. set (s1 := upd_files (less (p_ofile p)) s) in *.
  change (for_each (seq 0 (Z.to_nat NOFILE)) _ : K kern unit) with (for_each (seq 0 (Z.to_nat NOFILE)) (close_fd i)).
  rewrite (bind_ret _ _ _ _ _ R1).
  assert (Hp1 : cx_procs c1 !! i = Some p1) by (apply set_proc_get; by exists p).
  assert (Hc1 : kctx c1 i pid). { destruct (kctx_settled _ _ _ Hc) as [K1 K2 K3]. split; [by apply (ctx_ok_set (settled c) i pid i p)|done|done]. }
  rewrite (put_cwd c1 s1 i pid p1 ip x) by done. fold s'. set (c2 := wake_ctx ChLog c1).
  assert (L2 : forall j, cx_procs c2 !! j = wake_but i ChLog j <$> cx_procs c1 !! j) by (intros j; apply wake_ctx_lookup, Hc1).
  assert (Hp2 : cx_procs c2 !! i = Some p1) by (rewrite L2, Hp1; unfold wake_but; cbn [fmap option_fmap option_map]; by rewrite bool_decide_true).
  rewrite (pupd_step i _ _ _ _ _ Hp2). eexists. split; [reflexivity|]. split_and!.
  - destruct (kctx_wake ChLog _ _ _ Hc1) as [K1 K2 K3]. split; [by apply (ctx_ok_set c2 i pid i p1)|done|done].
  - unfold settled, set_proc, c2, wake_ctx. cbn. unfold set_cx_cpu, set_cx_procs. cbn. by rewrite !settle_idem.
  - unfold c2, c1. cbn. by rewrite settle_idem.
  - refine (refs_ok_ext c1 s1 _ s' _ eq_refl RO1). apply list_eq. intros j. rewrite !list_lookup_fmap. cbn [set_proc cx_procs set_cx_procs].
    destruct (decide (j = i)) as [->|Hne]; [rewrite list_lookup_insert_eq by (by eapply lookup_lt_Some); by rewrite Hp1|].
    rewrite list_lookup_insert_ne, L2 by done. destruct (cx_procs c1 !! j); [|done]. cbn [fmap option_fmap option_map]. f_equal. unfold wake_but. by rewrite bool_decide_false, woken_ofile.
  - apply set_proc_get. by exists p1.
  - intros j Hj. cbn [set_proc cx_procs set_cx_procs]. rewrite list_lookup_insert_ne, L2 by done. unfold c1. cbn [set_proc cx_procs set_cx_procs]. rewrite list_lookup_insert_ne by done.
    change (cx_procs (settled c)) with (cx_procs c). destruct (cx_procs c !! j); [|done]. cbn [fmap option_fmap option_map]. unfold wake_but. by rewrite bool_decide_false.
Qed.

(** C9: exit() ends the process.  A process other than init, whose files others have
    open too and whose working directory has links, is left in its slot as a
    ZOMBIE with its status, without files and without directory, and gives the hart up with only
    its own lock held, never to run again.  Its children are init's, and init is woken
    if there are any; its parent is woken if it sleeps in wait(); nothing else about
    the other processes changes.  The reference counts of the files equal the number of
    descriptors again, the directory has one reference less, and the log and the
    disk are as they were. *)
Theorem exit_correct c s i pid p init par ip x status :
  exit_pre c s i pid p init par ip x ->
  exists c' s' k, exit status (c, s) = Swtch (c', s') k /\ (forall w, k w = Panic "zombie exit") /\ one_lock i c' /\
    cx_procs c' !! i = Some (dead status (c_id (cx_cpu c)) (dropped p)) /\
    (forall j q, j <> i -> cx_procs c !! j = Some q -> cx_procs c' !! j = Some (bereaved i init par (kids i (cx_procs c)) (woken ChLog q))) /\
    refs_ok c' s' /\ files s' = less (p_ofile p) (files s) /\ inodes s' = <[ip := set_i_ref (i_ref x - 1) x]> (inodes s) /\
    k_log s' = k_log s /\ k_disk s' = k_disk s /\ k_wait_lock s' = k_wait_lock s.
Proof.
  intros Hx. destruct (exit_front c s i pid p init par ip x status Hx) as (c1 & R1 & Hc1 & Hs1 & E1 & RO & Hp1 & L1). set (s' := upd_inodes _ _) in *.
  destruct (exit_back c1 s' i pid (dropped p) par init status Hc1 Hs1 Hp1 (xp_parent _ _ _ _ _ _ _ _ _ Hx) (xp_par _ _ _ _ _ _ _ _ _ Hx) (xp_wait _ _ _ _ _ _ _ _ _ Hx)
    (xp_init _ _ _ _ _ _ _ _ _ Hx)) as (c2 & k & R2 & Hk & Ho & Hl & Hp2 & L2).
  assert (Ek : kids i (cx_procs c1) = kids i (cx_procs c)).
  { apply kids_ext, list_eq. intros j. rewrite !list_lookup_fmap. destruct (decide (j = i)) as [->|Hne]; [by rewrite Hp1, (xp_proc _ _ _ _ _ _ _ _ _ Hx)|].
    rewrite L1 by done. destruct (cx_procs c !! j); [|done]. cbn [fmap option_fmap option_map]. by rewrite woken_parent. }
  rewrite Ek in L2. exists c2, s', k. rewrite R1. split_and!; [exact R2|exact Hk|exact Ho| | | |done|done|done|done|done].
  - rewrite Hp2, E1. by rewrite settle_id.
  - intros j q Hj Hq. apply L2; [done|]. by rewrite L1, Hq.
  - refine (refs_ok_ext c1 s' c2 s' _ eq_refl RO). apply list_eq. intros j. rewrite !list_lookup_fmap.
    destruct (decide (j = i)) as [->|Hne]; [by rewrite Hp1, Hp2|]. destruct (cx_procs c1 !! j) as [q|] eqn:Eq.
    + rewrite (L2 j q Hne Eq). cbn [fmap option_fmap option_map]. f_equal. unfold bereaved, adopt. rewrite woken_ofile. destruct (kids _ _), (bool_decide _); rewrite ?woken_ofile; done.
    + apply lookup_ge_None in Eq. rewrite <- Hl in Eq. apply lookup_ge_None in Eq. by rewrite Eq.
Qed.

End Exit.

(** ** A process that exits *)

(** Slot 0 exits; slot 1 is its parent and waits for it, with the same file
    open; slot 2 is init, which waits too; slot 3 is a child of slot 0. *)
Definition ex_me : proc := set_p_cwd (Some 0%nat) (set_p_parent (Some 1%nat) (opened 0)).
Definition ex_parent : proc := set_p_ofile (Some 0%nat :: replicate 15 None) (sleeper 2 (ChProc 1)).
Definition ex_ctx : ctx :=
  Ctx (Cpu 0 (Some 0%nat) 0 false true) ([ex_me; ex_parent; sleeper 3 (ChProc 2); set_p_parent (Some 0%nat) proc0] ++ replicate 60 proc0) 1.
Definition ex_kern : kern := set_k_initproc (Some 2%nat) (kern_f 1).

Lemma ex_refs : refs_ok ex_ctx ex_kern.
Proof.
  assert (E : forall f, frefs ex_ctx f = (is_ref (Some 0%nat) f + is_ref (Some 0%nat) f)%nat) by (by intros [|f]; vm_compute).
  split.
  - intros f x Hx. rewrite E. unfold is_ref. destruct f as [|f]; [injection Hx as <-; by vm_compute|].
    rewrite bool_decide_false by done. change (replicate (Z.to_nat NFILE - 1) (File FD_NONE 0 false false 0 None 0 0) !! f = Some x) in Hx.
    by apply lookup_replicate_1 in Hx as [-> _].
  - intros f Hf. rewrite E in Hf. unfold is_ref in Hf. case_bool_decide as H; [injection H as <-; by eexists|lia].
  - apply (Forall_lookup (fun p => length (p_ofile p) = Z.to_nat NOFILE)). by repeat (constructor; [reflexivity|]).
Qed.

Lemma ex_pre : exit_pre ex_ctx ex_kern 0 1 ex_me 2 1 0 inode0.
Proof.
  split; try done.
  - split; [|done|simpl; lia]. split; [split; simpl; [lia|done]|done|by eexists|done|]. unfold ex_ctx. apply Forall_app. split; [by repeat constructor|by apply Forall_replicate].
  - apply ex_refs.
  - intros f x Hx Hc. destruct f as [|f]; [injection Hx as <-; by vm_compute|]. exfalso. revert Hc. vm_compute. lia.
Qed.

Lemma exit_correct_witness : exists c' s' k, @exit fk_layout sync_dev 5 (ex_ctx, ex_kern) = Swtch (c', s') k /\
  p_state <$> cx_procs c' !! 0%nat = Some ZOMBIE /\ p_state <$> cx_procs c' !! 1%nat = Some RUNNABLE /\
  p_state <$> cx_procs c' !! 2%nat = Some RUNNABLE /\ p_parent <$> cx_procs c' !! 3%nat = Some (Some 2%nat).
Proof.
  destruct (@exit_correct fk_layout sync_dev ex_ctx ex_kern 0 1 ex_me 2 1 0 inode0 5 ex_pre) as (c' & s' & k & R & _ & _ & Hp & L & _).
  exists c', s', k. split_and!; [exact R|by rewrite Hp| | |].
  - by rewrite (L 1%nat _ ltac:(discriminate) eq_refl).
  - by rewrite (L 2%nat _ ltac:(discriminate) eq_refl).
  - by rewrite (L 3%nat _ ltac:(discriminate) eq_refl).
Defined.
