(* ===== verification/VirtioSpec.v ===== *)
(** * The disk driver carries requests out (kernel/virtio_disk.c)

    The device is known by what the virtio specification says it does with a
    chain of three descriptors that make up a block request.  virtio_disk_rw()
    hands it such a chain and sleeps; virtio_disk_intr() finds the finished
    request and wakes the sleeper; the block is then in the buffer or on the
    disk, the descriptors are free again, and nothing else of the kernel's
    state differs. *)

From stdpp Require Import base numbers list list_numbers gmap strings.
From Stdlib Require Import ZArith Lia.
From S2P Require Import Prelude.
From S2P Require Import Machine.
From S2P Require Import Spinlock.
From S2P Require Import Mem.
From S2P Require Import Kalloc.
From S2P Require Import Vm.
From S2P Require Import Kern.
From S2P Require Import Sched.
From S2P Require Import SleepLk.
From S2P Require Import Bio.
From S2P Require Import Uart.
From S2P Require Import Virtio.

Local Open Scope Z_scope.

(** ** The state that the driver changes *)

(** [s] with other buffers, driver state, disk and register stores. *)
Definition nf (s : kern) (B : list buf) (vd : vdisk) (d : disk) (mm : list (Z * Z)) : kern :=
  set_k_mmio mm (set_k_disk d (set_k_vdisk vd (set_k_bcache (set_bc_buf B (k_bcache s)) s))).

Lemma nf_id s : nf s (bufs s) (k_vdisk s) (k_disk s) (k_mmio s) = s.
Proof. by destruct s as [? []]. Qed.

Section Steps.
Context (c : ctx) (s : kern) (B : list buf) (vd : vdisk) (d : disk) (mm : list (Z * Z)).

Lemma up_vd_nf f : up_vd f (c, nf s B vd d mm) = Ret tt (c, nf s B (f vd) d mm).
Proof. done. Qed.
Lemma ld_vd_nf : ld_vd (c, nf s B vd d mm) = Ret vd (c, nf s B vd d mm).
Proof. done. Qed.
Lemma ld_buf_nf b bf : B !! b = Some bf -> ld_buf b (c, nf s B vd d mm) = Ret bf (c, nf s B vd d mm).
Proof. intros H. by apply ld_buf_run. Qed.
Lemma up_buf_nf b bf f : B !! b = Some bf -> up_buf b f (c, nf s B vd d mm) = Ret tt (c, nf s (<[b := f bf]> B) vd d mm).
Proof. intros H. by rewrite (up_buf_run _ _ b bf). Qed.
Lemma mmio_write_nf a v : mmio_write a v (c, nf s B vd d mm) = Ret tt (c, nf s B vd d (mm ++ [(a, v)])).
Proof. done. Qed.

Lemma acquire_nf : locked (vd_lock vd) = false ->
  acquire vd_lk (c, nf s B vd d mm) = Ret tt (pushed c, nf s B (set_vd_lock (held (vd_lock vd) (c_id (cx_cpu c))) vd) d mm).
Proof. intros H. unfold vd_lk. by rewrite (acquire_run _ _ (vd_lock vd)). Qed.

Lemma release_nf : held_by (vd_lock vd) (c_id (cx_cpu c)) -> c_intr (cx_cpu c) = false -> 1 <= c_noff (cx_cpu c) ->
  release vd_lk (c, nf s B vd d mm) = Ret tt (set_cx_cpu (pop_cpu (cx_cpu c)) c, nf s B (set_vd_lock (unheld (vd_lock vd)) vd) d mm).
Proof. intros H1 H2 H3. unfold vd_lk. by rewrite (release_run _ _ (vd_lock vd)). Qed.
End Steps.

(** ** Descriptors *)

Record vd_len (vd : vdisk) : Prop := {
  vl_desc : length (vd_desc vd) = 8%nat;
  vl_free : length (vd_free vd) = 8%nat;
  vl_avail : length (vd_avail_ring vd) = 8%nat;
  vl_used : length (vd_used_ring vd) = 8%nat;
  vl_b : length (vd_info_b vd) = 8%nat;
  vl_status : length (vd_info_status vd) = 8%nat;
  vl_ops : length (vd_ops vd) = 8%nat
}.

Lemma free_slot_some l i j : free_slot l i = Some j -> i <= j /\ l !! Z.to_nat (j - i) = Some true.
Proof.
  revert i. induction l as [|b l IH]; intros i H; [done|]. simpl in H. destruct b.
  - injection H as ->. rewrite Z.sub_diag. split; [lia|done].
  - apply IH in H as [H1 H2]. split; [lia|]. replace (Z.to_nat (j - i)) with (S (Z.to_nat (j - (i + 1)))) by lia. done.
Qed.

Lemma free_slot_none l i : free_slot l i = None -> Forall (fun b => b = false) l.
Proof. revert i. induction l as [|b l IH]; intros i H; [done|]. simpl in H. destruct b; [done|]. constructor; [done|by eapply IH]. Qed.

Definition nfree (l : list bool) : nat := length (filter (fun b => b = true) l).

Lemma nfree_insert l i : l !! i = Some true -> nfree l = S (nfree (<[i := false]> l)).
Proof.
  unfold nfree. revert i. induction l as [|b l IH]; intros [|i] H; [done..| |].
  - injection H as ->. change (<[0%nat := false]> (true :: l)) with (false :: l). by rewrite !filter_cons.
  - change (<[S i := false]> (b :: l)) with (b :: <[i := false]> l). rewrite !filter_cons. destruct (decide (b = true)); simpl; by rewrite (IH i H).
Qed.

Definition take_desc (i : Z) (vd : vdisk) : vdisk := set_vd_free (<[Z.to_nat i := false]> (vd_free vd)) vd.

Lemma alloc_desc_run c s B vd d mm : vd_len vd -> (0 < nfree (vd_free vd))%nat ->
  exists i, 0 <= i < NUM /\ vd_free vd !! Z.to_nat i = Some true /\
    alloc_desc (c, nf s B vd d mm) = Ret i (c, nf s B (take_desc i vd) d mm).
Proof.
  intros HL Hn. unfold alloc_desc. rewrite (bind_ret _ _ _ _ _ (ld_vd_nf _ _ _ _ _ _)).
  rewrite (take_ge (vd_free vd)) by (rewrite (vl_free _ HL); unfold NUM; lia).
  destruct (free_slot (vd_free vd) 0) as [i|] eqn:E.
  - apply free_slot_some in E as [H0 Hi]. rewrite Z.sub_0_r in Hi. exists i. split; [|split; [done|done]].
    apply lookup_lt_Some in Hi. rewrite (vl_free _ HL) in Hi. unfold NUM. lia.
  - apply free_slot_none in E. exfalso. unfold nfree in Hn. assert (filter (fun b => b = true) (vd_free vd) = []) as F; [|rewrite F in Hn; simpl in Hn; lia].
    clear -E. induction E as [|b l -> _ IH]; [done|]. rewrite filter_cons. by rewrite decide_False.
Qed.

(** Three descriptors, when there are three free ones. *)
Lemma alloc3_run c s B vd d mm : vd_len vd -> (3 <= nfree (vd_free vd))%nat ->
  exists i0 i1 i2, (0 <= i0 < NUM /\ 0 <= i1 < NUM /\ 0 <= i2 < NUM) /\ (i0 <> i1 /\ i0 <> i2 /\ i1 <> i2) /\
    (vd_free vd !! Z.to_nat i0 = Some true /\ vd_free vd !! Z.to_nat i1 = Some true /\ vd_free vd !! Z.to_nat i2 = Some true) /\
    alloc3_desc (c, nf s B vd d mm) = Ret (Some [i0; i1; i2]) (c, nf s B (take_desc i2 (take_desc i1 (take_desc i0 vd))) d mm).
Proof.
  intros HL Hn.
  assert (T : forall i vd, vd_len vd -> vd_len (take_desc i vd)) by (intros i v [? ? ? ? ? ? ?]; split; cbn; rewrite ?length_insert; done).
  destruct (alloc_desc_run c s B vd d mm HL ltac:(lia)) as (i0 & R0 & F0 & E0). pose proof (nfree_insert _ _ F0) as N0.
  destruct (alloc_desc_run c s B (take_desc i0 vd) d mm (T _ _ HL) ltac:(cbn [take_desc vd_free set_vd_free] in *; lia)) as (i1 & R1 & F1 & E1). pose proof (nfree_insert _ _ F1) as N1. cbn [take_desc vd_free set_vd_free] in N1, F1.
  destruct (alloc_desc_run c s B (take_desc i1 (take_desc i0 vd)) d mm (T _ _ (T _ _ HL)) ltac:(cbn [take_desc vd_free set_vd_free] in *; lia)) as (i2 & R2 & F2 & E2).
  cbn [take_desc vd_free set_vd_free] in F2. apply list_lookup_insert_Some in F1 as [[_ [? _]]|[D1 F1]]; [done|].
  apply list_lookup_insert_Some in F2 as [[_ [? _]]|[D2 F2]]; [done|]. apply list_lookup_insert_Some in F2 as [[_ [? _]]|[D3 F2]]; [done|].
  exists i0, i1, i2. split; [done|]. split; [|split; [done|]].
  - split_and!; intros ->; by lia.
  - unfold alloc3_desc. cbn [alloc3_loop]. rewrite (bind_ret _ _ _ _ _ E0), (proj2 (Z.ltb_ge i0 0)) by lia.
    rewrite (bind_ret _ _ _ _ _ E1), (proj2 (Z.ltb_ge i1 0)) by lia. by rewrite (bind_ret _ _ _ _ _ E2), (proj2 (Z.ltb_ge i2 0)) by lia.
Qed.

Definition give_desc (i : Z) (vd : vdisk) : vdisk := set_vd_free (<[Z.to_nat i := true]> (vd_free vd)) (set_desc i desc0 vd).

Lemma free_desc_run c s B vd d mm i j pid : 0 <= i < NUM -> vd_free vd !! Z.to_nat i = Some false -> ctx_ok c j pid ->
  free_desc i (c, nf s B vd d mm) = Ret tt (wake_ctx ChDiskFree c, nf s B (give_desc i vd) d mm).
Proof.
  intros Hi Hf Hc. unfold free_desc. rewrite (proj2 (Z.leb_gt NUM i)) by lia.
  rewrite (bind_ret _ _ _ _ _ (ld_vd_nf _ _ _ _ _ _)), (nth_lookup_Some _ _ _ _ Hf).
  rewrite (bind_ret _ _ _ _ _ (up_vd_nf _ _ _ _ _ _ _)), (bind_ret _ _ _ _ _ (up_vd_nf _ _ _ _ _ _ _)). by eapply wakeup_run.
Qed.

Lemma desc_at_give i j vd : 0 <= i -> 0 <= j -> i <> j -> desc_at (give_desc i vd) j = desc_at vd j.
Proof. intros Hi Hj Hn. unfold desc_at. cbn [give_desc set_vd_free set_desc set_vd_desc vd_desc]. rewrite !nth_lookup, list_lookup_insert_ne by lia. done. Qed.

Lemma vd_free_give i j vd : 0 <= i -> 0 <= j -> i <> j -> vd_free (give_desc i vd) !! Z.to_nat j = vd_free vd !! Z.to_nat j.
Proof. intros Hi Hj Hn. cbn [give_desc set_vd_free vd_free set_desc set_vd_desc]. by rewrite list_lookup_insert_ne by lia. Qed.

(** One round of free_chain(). *)
Lemma free_chain_step k c s B vd d mm i j pid : 0 <= i < NUM -> vd_free vd !! Z.to_nat i = Some false -> ctx_ok c j pid ->
  free_chain_loop (S k) i (c, nf s B vd d mm) =
    (if negb (Z.land (d_flags (desc_at vd i)) VRING_DESC_F_NEXT =? 0) then free_chain_loop k (d_next (desc_at vd i)) else mret tt)
      (wake_ctx ChDiskFree c, nf s B (give_desc i vd) d mm).
Proof.
  intros Hi Hf Hc. cbn [free_chain_loop]. by rewrite (bind_ret _ _ _ _ _ (ld_vd_nf _ _ _ _ _ _)), (bind_ret _ _ _ _ _ (free_desc_run _ _ _ _ _ _ _ _ _ Hi Hf Hc)).
Qed.

(** Freeing a chain of three. *)
Lemma free_chain_run c s B vd d mm i0 i1 i2 j pid :
  (0 <= i0 < NUM /\ 0 <= i1 < NUM /\ 0 <= i2 < NUM) -> (i0 <> i1 /\ i0 <> i2 /\ i1 <> i2) -> ctx_ok c j pid ->
  (vd_free vd !! Z.to_nat i0 = Some false /\ vd_free vd !! Z.to_nat i1 = Some false /\ vd_free vd !! Z.to_nat i2 = Some false) ->
  Z.land (d_flags (desc_at vd i0)) VRING_DESC_F_NEXT <> 0 -> d_next (desc_at vd i0) = i1 ->
  Z.land (d_flags (desc_at vd i1)) VRING_DESC_F_NEXT <> 0 -> d_next (desc_at vd i1) = i2 ->
  Z.land (d_flags (desc_at vd i2)) VRING_DESC_F_NEXT = 0 ->
  free_chain i0 (c, nf s B vd d mm) =
    Ret tt (wake_ctx ChDiskFree (wake_ctx ChDiskFree (wake_ctx ChDiskFree c)), nf s B (give_desc i2 (give_desc i1 (give_desc i0 vd))) d mm).
Proof.
  intros (R0 & R1 & R2) (D1 & D2 & D3) Hc (F0 & F1 & F2) G0 N0 G1 N1 G2. rewrite <- (vd_free_give i0 i1 vd) in F1 by lia.
  rewrite <- (vd_free_give i0 i2 vd), <- (vd_free_give i1 i2) in F2 by lia. unfold free_chain. change (S (Z.to_nat NUM)) with 9%nat.
  rewrite (free_chain_step _ _ _ _ _ _ _ _ _ _ R0 F0 Hc), (proj2 (Z.eqb_neq _ _) G0), N0. cbn [negb]. apply (ctx_ok_wake ChDiskFree) in Hc.
  rewrite (free_chain_step _ _ _ _ _ _ _ _ _ _ R1 F1 Hc), desc_at_give by lia.
  rewrite (proj2 (Z.eqb_neq _ _) G1), N1. cbn [negb]. apply (ctx_ok_wake ChDiskFree) in Hc.
  rewrite (free_chain_step _ _ _ _ _ _ _ _ _ _ R2 F2 Hc), !desc_at_give by lia.
  by rewrite (proj2 (Z.eqb_eq _ _) G2).
Qed.

(** ** Block requests *)

Section Device.
Context {DA : DmaAddrs}.

(** The newest entry of the available ring is the head of a chain of three
    descriptors: the request itself, the buffer's data, which the device
    writes for a read and reads for a write, and the status byte. *)
Record block_request (vd : vdisk) (i0 : Z) (b : nat) (write : bool) (sector : Z) : Prop := {
  br_range : 0 <= i0 < NUM;
  br_avail : vd_avail_ring vd !! Z.to_nat (u16 (vd_avail_idx vd - 1) `mod` NUM) = Some i0;
  br_op : vd_ops vd !! Z.to_nat i0 = Some (BlkReq (if write then VIRTIO_BLK_T_OUT else VIRTIO_BLK_T_IN) 0 sector);
  br_chain : exists i1 i2 n,
    desc_at vd i0 = Desc (addr_op i0) 16 VRING_DESC_F_NEXT i1 /\
    desc_at vd i1 = Desc (addr_data b) BSIZE (Z.lor (if write then 0 else VRING_DESC_F_WRITE) VRING_DESC_F_NEXT) i2 /\
    desc_at vd i2 = Desc (addr_status i0) 1 VRING_DESC_F_WRITE n
}.

(** The device's part of the rings and of the status after the request. *)
Definition complete (i0 : Z) (vd : vdisk) : vdisk :=
  set_vd_info_status (<[Z.to_nat i0 := 0]> (vd_info_status vd))
    (set_vd_used_ring (<[Z.to_nat (vd_used_idx_dev vd `mod` NUM) := i0]> (vd_used_ring vd))
      (set_vd_used_idx_dev (u16 (vd_used_idx_dev vd + 1)) vd)).

(** What the device does when it serves the newest request. *)
Class Device := serves : kern -> kern -> Prop.

Class DeviceOk `{Device} : Prop := serves_ok : forall s s' i0 b bf write bno,
  serves s s' -> block_request (k_vdisk s) i0 b write (2 * bno) -> bufs s !! b = Some bf -> 0 <= bno ->
  s' = nf s (if write then bufs s else <[b := set_b_data (disk_get (k_disk s) bno) bf]> (bufs s))
         (complete i0 (k_vdisk s))
         (if write then disk_put bno (b_data bf) (k_disk s) else k_disk s) (k_mmio s).

End Device.

(** ** The interrupt handler *)

Section Driver.
Context {IO : Mmio} {DA : DmaAddrs}.

(** Reading the interrupt status has no effect on the kernel. *)
Context (isr_read : forall w, exists v, mmio_read (R VIRTIO_MMIO_INTERRUPT_STATUS) w = Ret v w).

(** One finished request, that of buffer [b], in the used ring. *)
Record finished (vd : vdisk) (i0 : Z) (b : nat) : Prop := {
  fi_next : u16 (vd_used_idx vd + 1) = vd_used_idx_dev vd;
  fi_new : vd_used_idx vd <> vd_used_idx_dev vd;
  fi_ring : vd_used_ring vd !! Z.to_nat (vd_used_idx vd `mod` NUM) = Some i0;
  fi_status : vd_info_status vd !! Z.to_nat i0 = Some 0;
  fi_b : vd_info_b vd !! Z.to_nat i0 = Some (Some b)
}.

Definition seen (vd : vdisk) : vdisk := set_vd_used_idx (vd_used_idx_dev vd) vd.

Lemma used_loop_run k c s B vd d mm i0 b bf j pid :
  finished vd i0 b -> B !! b = Some bf -> ctx_ok c j pid ->
  used_loop (S (S k)) (c, nf s B vd d mm) = Ret tt (wake_ctx (ChBuf b) c, nf s (<[b := set_b_disk false bf]> B) (seen vd) d mm).
Proof.
  intros [H1 H2 H3 H4 H5] Hb Hc. cbn [used_loop]. rewrite (bind_ret _ _ _ _ _ (ld_vd_nf _ _ _ _ _ _)), (proj2 (Z.eqb_neq _ _) H2).
  rewrite (nth_lookup_Some _ _ _ _ H3), (nth_lookup_Some _ _ _ _ H4), H5. cbn [negb Z.eqb from_option id].
  rewrite (bind_ret _ _ _ _ _ (up_buf_nf _ _ _ _ _ _ _ _ _ Hb)), (bind_ret _ _ _ _ _ (wakeup_run _ _ _ _ _ Hc)).
  rewrite (bind_ret _ _ _ _ _ (up_vd_nf _ _ _ _ _ _ _)), (bind_ret _ _ _ _ _ (ld_vd_nf _ _ _ _ _ _)).
  cbn [vd_used_idx vd_used_idx_dev set_vd_used_idx]. rewrite H1, Z.eqb_refl. done.
Qed.

Lemma virtio_disk_intr_run c s B vd d mm i0 b bf j pid :
  finished vd i0 b -> B !! b = Some bf -> ctx_ok c j pid -> lock_free (vd_lock vd) -> (2 <= cx_fuel c)%nat ->
  exists v, virtio_disk_intr (c, nf s B vd d mm) =
    Ret tt (wake_ctx (ChBuf b) c, nf s (<[b := set_b_disk false bf]> B) (seen vd) d (mm ++ [(R VIRTIO_MMIO_INTERRUPT_ACK, Z.land v 0x3)])).
Proof.
  intros Hf Hb Hc Hl Hk. unfold virtio_disk_intr. rewrite (bind_ret _ _ _ _ _ (acquire_nf _ _ _ _ _ _ (proj1 Hl))).
  set (vd1 := set_vd_lock _ vd). destruct (isr_read (pushed c, nf s B vd1 d mm)) as (v & E). exists v.
  rewrite (bind_ret _ _ _ _ _ E), (bind_ret _ _ _ _ _ (mmio_write_nf _ _ _ _ _ _ _ _)).
  assert (Hf1 : finished vd1 i0 b) by (destruct Hf; split; done).
  assert (E1 : with_fuel used_loop (pushed c, nf s B vd1 d (mm ++ [(R VIRTIO_MMIO_INTERRUPT_ACK, Z.land v 0x3)])) =
    Ret tt (wake_ctx (ChBuf b) (pushed c), nf s (<[b := set_b_disk false bf]> B) (seen vd1) d (mm ++ [(R VIRTIO_MMIO_INTERRUPT_ACK, Z.land v 0x3)]))).
  { unfold with_fuel. cbn [fst pushed cx_fuel set_cx_cpu]. destruct (cx_fuel c) as [|[|k]]; [lia..|].
    apply (used_loop_run k _ _ _ _ _ _ _ _ _ j pid Hf1 Hb). by apply ctx_ok_pushed. }
  rewrite (bind_ret _ _ _ _ _ E1). pose proof (co_cpu _ _ _ Hc) as Hok.
  assert (Ew : cx_cpu (wake_ctx (ChBuf b) (pushed c)) = push_cpu (cx_cpu c)).
  { change (cx_cpu (wake_ctx (ChBuf b) (pushed c))) with (cx_cpu (settled (pushed c))). by rewrite settled_pushed. }
  rewrite release_nf; [|by rewrite Ew|by rewrite Ew|rewrite Ew; destruct Hok; simpl; lia].
  rewrite Ew, pop_push_cpu by done. f_equal. f_equal.
  cbn [seen vd1 set_vd_lock set_vd_used_idx vd_lock]. unfold seen. destruct vd. cbn in *.
  replace (unheld (held vd_lock (c_id (cx_cpu c)))) with vd_lock by (symmetry; exact (unheld_free _ Hl)). done.
Qed.

(** ** The request *)

Definition post (b : nat) (write : bool) (sector i0 i1 i2 : Z) (vd : vdisk) : vdisk :=
  let vd := set_vd_ops (<[Z.to_nat i0 := BlkReq (if write then VIRTIO_BLK_T_OUT else VIRTIO_BLK_T_IN) 0 sector]> (vd_ops vd)) vd in
  let vd := set_desc i0 (Desc (addr_op i0) 16 VRING_DESC_F_NEXT i1) vd in
  let vd := set_desc i1 (Desc (addr_data b) BSIZE (Z.lor (if write then 0 else VRING_DESC_F_WRITE) VRING_DESC_F_NEXT) i2) vd in
  let vd := set_vd_info_status (<[Z.to_nat i0 := 0xff]> (vd_info_status vd)) vd in
  let vd := set_desc i2 (Desc (addr_status i0) 1 VRING_DESC_F_WRITE 0) vd in
  let vd := set_vd_info_b (<[Z.to_nat i0 := Some b]> (vd_info_b vd)) vd in
  let vd := set_vd_avail_ring (<[Z.to_nat (vd_avail_idx vd `mod` NUM) := i0]> (vd_avail_ring vd)) vd in
  set_vd_avail_idx (u16 (vd_avail_idx vd + 1)) vd.

Lemma submit_run c s B vd d mm b bf write sector i0 i1 i2 : B !! b = Some bf ->
  virtio_submit b write sector i0 i1 i2 (c, nf s B vd d mm) =
    Ret tt (c, nf s (<[b := set_b_disk true bf]> B) (post b write sector i0 i1 i2 vd) d (mm ++ [(R VIRTIO_MMIO_QUEUE_NOTIFY, 0)])).
Proof.
  intros Hb. unfold virtio_submit. do 5 rewrite (bind_ret _ _ _ _ _ (up_vd_nf _ _ _ _ _ _ _)).
  rewrite (bind_ret _ _ _ _ _ (up_buf_nf _ _ _ _ _ _ _ _ _ Hb)). by do 3 rewrite (bind_ret _ _ _ _ _ (up_vd_nf _ _ _ _ _ _ _)).
Qed.

Section Posted.
Context (b : nat) (write : bool) (sector i0 i1 i2 : Z) (vd : vdisk).
Context (HL : vd_len vd) (HR : 0 <= i0 < NUM /\ 0 <= i1 < NUM /\ 0 <= i2 < NUM) (HD : i0 <> i1 /\ i0 <> i2 /\ i1 <> i2).
Context (Hav : 0 <= vd_avail_idx vd < 65536).

Lemma post_desc :
  desc_at (post b write sector i0 i1 i2 vd) i0 = Desc (addr_op i0) 16 VRING_DESC_F_NEXT i1 /\
  desc_at (post b write sector i0 i1 i2 vd) i1 = Desc (addr_data b) BSIZE (Z.lor (if write then 0 else VRING_DESC_F_WRITE) VRING_DESC_F_NEXT) i2 /\
  desc_at (post b write sector i0 i1 i2 vd) i2 = Desc (addr_status i0) 1 VRING_DESC_F_WRITE 0.
Proof.
  destruct HL as [L _ _ _ _ _ _], HR as (R0 & R1 & R2), HD as (D1 & D2 & D3). unfold NUM in *. unfold desc_at, post. cbn -[nth Z.to_nat u16].
  split_and!; rewrite nth_lookup.
  - by rewrite list_lookup_insert_ne, list_lookup_insert_ne, list_lookup_insert_eq by (rewrite ?length_insert; lia).
  - by rewrite list_lookup_insert_ne, list_lookup_insert_eq by (rewrite ?length_insert; lia).
  - by rewrite list_lookup_insert_eq by (rewrite ?length_insert; lia).
Qed.

Lemma post_request : block_request (post b write sector i0 i1 i2 vd) i0 b write sector.
Proof.
  destruct HL as [_ _ La _ _ _ Lo], HR as (R0 & R1 & R2). split; [done| | |].
  - unfold post. cbn -[nth Z.to_nat u16 Z.modulo]. replace (u16 (u16 (vd_avail_idx vd + 1) - 1)) with (vd_avail_idx vd).
    + rewrite list_lookup_insert_eq; [done|]. pose proof (Z.mod_pos_bound (vd_avail_idx vd) NUM ltac:(unfold NUM; lia)). unfold NUM in *. lia.
    + unfold u16. rewrite Zminus_mod_idemp_l, Z.mod_small; lia.
  - unfold post. cbn -[nth Z.to_nat u16 Z.modulo]. rewrite list_lookup_insert_eq; [done|]. unfold NUM in *. lia.
  - destruct post_desc as (E0 & E1 & E2). by exists i1, i2, 0.
Qed.
End Posted.


(** ** The whole operation *)

(** A driver without requests in flight, with three free descriptors. *)
Record vd_idle (vd : vdisk) : Prop := {
  id_len : vd_len vd;
  id_lock : lock_free (vd_lock vd);
  id_free : (3 <= nfree (vd_free vd))%nat;
  id_avail : 0 <= vd_avail_idx vd < 65536;
  id_used : 0 <= vd_used_idx vd < 65536;
  id_dev : vd_used_idx_dev vd = vd_used_idx vd
}.

(** A process that the scheduler has switched to: it holds its own p->lock,
    and the other processes' are free. *)
Record resumed (i : nat) (pid : Z) (c : ctx) : Prop := {
  rs_one : one_lock i c;
  rs_len : length (cx_procs c) = Z.to_nat NPROC;
  rs_proc : exists p, cx_procs c !! i = Some p /\ held_by (p_lock p) (c_id (cx_cpu c)) /\ p_pid p = pid;
  rs_others : forall j p, j <> i -> cx_procs c !! j = Some p -> lock_free (p_lock p);
  rs_fuel : (0 < cx_fuel c)%nat
}.

Context {DV : Device} {DO : DeviceOk}.

(** The rest of the system while process [i] waits for its request: the
    device serves it, the interrupt is handled in the context of some other
    process, and the scheduler switches back. *)
Definition disk_env (b : nat) (write : bool) (bno : Z) (i : nat) (pid : Z) : env kern := Env
  (fun w => exists i0, block_request (k_vdisk (snd w)) i0 b write (2 * bno) /\ locked (vd_lock (k_vdisk (snd w))) = false)
  (fun w w' => exists s1 j pj cj cj', serves (snd w) s1 /\ ctx_ok cj j pj /\ (2 <= cx_fuel cj)%nat /\
     virtio_disk_intr (cj, s1) = Ret tt (cj', snd w') /\ resumed i pid (fst w')).

(** What sleep() returns with. *)
Lemma resumed_ok i pid c p ie : resumed i pid c -> cx_procs c !! i = Some p ->
  ctx_ok (set_proc i (set_p_lock (unheld (p_lock p)) (set_p_chan None p)) (set_cx_cpu (set_c_intena ie (cx_cpu c)) c)) i pid.
Proof.
  intros [(Hp & Hn & Hi) Hlen (p' & Hp' & _ & Hpid) Ho Hf] E. split; cbn.
  - split; cbn; [lia|]. by intros _.
  - done.
  - rewrite list_lookup_insert_eq by (by eapply lookup_lt_Some). eexists. split; [done|]. cbn. congruence.
  - by rewrite length_insert.
  - apply Forall_lookup. intros j q Hq. apply list_lookup_insert_Some in Hq as [(<- & <- & _)|[Hne Hq]]; [done|]. by eapply Ho.
Qed.

Lemma complete_finished vd i0 b : vd_len vd -> 0 <= i0 < NUM -> 0 <= vd_used_idx vd < 65536 -> vd_used_idx_dev vd = vd_used_idx vd ->
  vd_info_b vd !! Z.to_nat i0 = Some (Some b) -> finished (complete i0 vd) i0 b.
Proof.
  intros HL Hr Hu Hd Hb. destruct HL as [_ _ _ Lu _ Ls _]. unfold complete. split; cbn -[u16 Z.modulo Z.to_nat]; rewrite ?Hd.
  - done.
  - unfold u16. destruct (decide (vd_used_idx vd = 65535)) as [->|]; [done|]. rewrite Z.mod_small; lia.
  - rewrite list_lookup_insert_eq; [done|]. pose proof (Z.mod_pos_bound (vd_used_idx vd) NUM ltac:(unfold NUM; lia)). unfold NUM in *. lia.
  - rewrite list_lookup_insert_eq; [done|]. unfold NUM in *. lia.
  - done.
Qed.

Lemma wp_while {S} (E : env S) cond body Q w : wp E (while_fuel (cx_fuel (fst w)) cond body) Q w -> wp E (while cond body) Q w.
Proof. done. Qed.

(** The wait: one sleep, after which the request is finished. *)
Lemma virtio_wait_run c s B vd d mm i0 b bf write bno i pid p Q :
  block_request vd i0 b write (2 * bno) -> 0 <= bno -> vd_len vd -> 0 <= vd_used_idx vd < 65536 -> vd_used_idx_dev vd = vd_used_idx vd ->
  vd_info_b vd !! Z.to_nat i0 = Some (Some b) -> B !! b = Some bf -> b_disk bf = true ->
  one_lock i c -> cx_procs c !! i = Some p -> lock_free (p_lock p) -> held_by (vd_lock vd) (c_id (cx_cpu c)) -> (2 <= cx_fuel c)%nat ->
  (forall c' mm', ctx_ok c' i pid -> one_lock i c' -> (0 < cx_fuel c')%nat ->
     Q tt (c', nf s (<[b := set_b_disk false (if write then bf else set_b_data (disk_get d bno) bf)]> B)
                 (set_vd_lock (held (vd_lock vd) (c_id (cx_cpu c'))) (seen (complete i0 vd)))
                 (if write then disk_put bno (b_data bf) d else d) mm')) ->
  wp (disk_env b write bno i pid) (virtio_wait b) Q (c, nf s B vd d mm).
Proof.
  intros Hreq Hbno HL Hu Hd Hib Hb Hdisk H1 Hp Hpl Hh Hk HQ. unfold virtio_wait. apply wp_while. cbn [fst]. destruct (cx_fuel c) as [|[|k]] eqn:Ek; [lia..|].
  cbn [while_fuel]. apply wp_bind. eapply wp_run; [by rewrite (bind_ret _ _ _ _ _ (ld_buf_nf _ _ _ _ _ _ _ _ Hb)), Hdisk|].
  cbn iota. apply wp_bind.
  destruct (sleep_suspends (comp k_vdisk_l vd_lock_l) (ChBuf b) c (nf s B vd d mm) i p (vd_lock vd) H1 Hp Hpl eq_refl Hh) as (kk & E & Hkk).
  unfold wp. unfold vd_lk. rewrite E. cbn [owp]. clear E.
  change (put (comp k_vdisk_l vd_lock_l) (unheld (vd_lock vd)) (nf s B vd d mm)) with (nf s B (set_vd_lock (unheld (vd_lock vd)) vd) d mm).
  set (vd1 := set_vd_lock (unheld (vd_lock vd)) vd). assert (Hreq1 : block_request vd1 i0 b write (2 * bno)) by (by destruct Hreq).
  split; [by exists i0|]. intros [c' s'] (s1 & j & pj & cj & cj' & Hs & Hj & Hjf & Hint & Hres). cbn [fst snd] in *.
  rewrite (serves_ok _ _ _ _ _ _ _ Hs Hreq1 Hb Hbno) in Hint. clear Hs. cbn [bufs k_bcache nf k_vdisk k_disk k_mmio set_k_mmio set_k_disk set_k_vdisk set_k_bcache bc_buf set_bc_buf] in Hint.
  set (bf1 := if write then bf else set_b_data (disk_get d bno) bf).
  assert (Hb1 : (if write then B else <[b := set_b_data (disk_get d bno) bf]> B) !! b = Some bf1).
  { unfold bf1. destruct write; [done|]. apply list_lookup_insert_eq. by eapply lookup_lt_Some. }
  assert (HL1 : vd_len vd1) by (by destruct HL).
  destruct (virtio_disk_intr_run cj s _ (complete i0 vd1) (if write then disk_put bno (b_data bf) d else d) mm i0 b bf1 j pj
    (complete_finished _ _ _ HL1 (br_range _ _ _ _ _ Hreq) Hu Hd Hib) Hb1 Hj ltac:(done) Hjf) as (v & Hint').
  change (nf (nf s B vd1 d mm)) with (nf s) in Hint. rewrite Hint' in Hint. injection Hint as _ <-.
  destruct (rs_proc _ _ _ Hres) as (p' & Hp' & Hh' & _).
  assert (Eb : <[b := set_b_disk false bf1]> (if write then B else <[b := set_b_data (disk_get d bno) bf]> B) = <[b := set_b_disk false bf1]> B).
  { destruct write; [done|]. apply list_insert_insert_eq. }
  rewrite Eb. clear Eb. rewrite Hkk. eapply wp_run; [eapply (sleep_resumes (comp k_vdisk_l vd_lock_l)); [exact (rs_one _ _ _ Hres)|exact Hp'|done|reflexivity|done]|].
  set (c2 := set_proc i _ _). cbn [while_fuel]. apply wp_bind.
  match goal with |- wp _ _ _ (_, ?s2) => assert (Hl : bufs s2 !! b = Some (set_b_disk false bf1)) by (apply list_lookup_insert_eq; by eapply lookup_lt_Some) end.
  eapply wp_run; [by rewrite (bind_ret _ _ _ _ _ (ld_buf_run c2 _ _ _ Hl))|]. apply wp_ret.
  apply HQ; [by apply resumed_ok|exact (rs_one _ _ _ Hres)|exact (rs_fuel _ _ _ Hres)].
Qed.

(** The driver's state when the request is over. *)
Definition after (b : nat) (write : bool) (sector i0 i1 i2 : Z) (vd : vdisk) : vdisk :=
  set_vd_info_b (<[Z.to_nat i0 := None]> (<[Z.to_nat i0 := Some b]> (vd_info_b vd)))
    (seen (complete i0 (post b write sector i0 i1 i2 (take_desc i2 (take_desc i1 (take_desc i0 vd)))))).

Lemma give_take i0 i1 i2 (l : list bool) : l !! Z.to_nat i0 = Some true -> l !! Z.to_nat i1 = Some true -> l !! Z.to_nat i2 = Some true ->
  <[Z.to_nat i2 := true]> (<[Z.to_nat i1 := true]> (<[Z.to_nat i0 := true]>
    (<[Z.to_nat i2 := false]> (<[Z.to_nat i1 := false]> (<[Z.to_nat i0 := false]> l))))) = l.
Proof.
  intros F0 F1 F2. apply list_eq. intros k.
  assert (L0 := lookup_lt_Some _ _ _ F0). assert (L1 := lookup_lt_Some _ _ _ F1). assert (L2 := lookup_lt_Some _ _ _ F2).
  destruct (decide (k = Z.to_nat i2)) as [->|N2]; [by rewrite list_lookup_insert_eq by (rewrite !length_insert; lia)|]. rewrite list_lookup_insert_ne by done.
  destruct (decide (k = Z.to_nat i1)) as [->|N1]; [by rewrite list_lookup_insert_eq by (rewrite !length_insert; lia)|]. rewrite list_lookup_insert_ne by done.
  destruct (decide (k = Z.to_nat i0)) as [->|N0]; [by rewrite list_lookup_insert_eq by (rewrite !length_insert; lia)|]. by rewrite !list_lookup_insert_ne by done.
Qed.

Lemma after_idle b write sector i0 i1 i2 vd lk : vd_idle vd -> lock_free lk ->
  vd_free vd !! Z.to_nat i0 = Some true -> vd_free vd !! Z.to_nat i1 = Some true -> vd_free vd !! Z.to_nat i2 = Some true ->
  let vd' := set_vd_lock lk (give_desc i2 (give_desc i1 (give_desc i0 (after b write sector i0 i1 i2 vd)))) in
  vd_idle vd' /\ vd_free vd' = vd_free vd.
Proof.
  intros [[L1 L2 L3 L4 L5 L6 L7] Hl Hf Ha Hu Hd] Hlk F0 F1 F2 vd'. pose proof (give_take i0 i1 i2 _ F0 F1 F2) as EF.
  split; [|exact EF]. split; [split|..]; cbn -[u16 Z.modulo Z.to_nat insert nfree]; rewrite ?length_insert; try done.
  - by rewrite EF.
  - unfold u16. apply Z.mod_pos_bound. lia.
  - rewrite Hd. unfold u16. apply Z.mod_pos_bound. lia.
Qed.

Lemma disk_rw_run b bf write c s i pid :
  kctx c i pid -> (2 <= cx_fuel c)%nat -> bufs s !! b = Some bf -> b_disk bf = false -> 0 <= b_blockno bf < 2 ^ 31 -> vd_idle (k_vdisk s) ->
  wp (disk_env b write (b_blockno bf) i pid) (disk_rw b write)
    (fun _ w' => exists c' vd' mm', kctx c' i pid /\ vd_idle vd' /\ vd_free vd' = vd_free (k_vdisk s) /\
       w' = (c', nf s (if write then bufs s else <[b := set_b_data (disk_get (k_disk s) (b_blockno bf)) bf]> (bufs s)) vd'
                   (if write then disk_put (b_blockno bf) (b_data bf) (k_disk s) else k_disk s) mm')) (c, s).
Proof.
  intros [Hc Hnoff Hfu] Hk Hb Hbd Hbno Hid. set (bno := b_blockno bf) in *. set (vd := k_vdisk s) in *. pose proof Hid as [HL Hlk Hfr Ha Hu Hd].
  replace (c, s) with (c, nf s (bufs s) vd (k_disk s) (k_mmio s)) by (unfold vd; by rewrite nf_id). unfold disk_rw.
  eapply wp_step; [exact (ld_buf_nf _ _ _ _ _ _ _ _ Hb)|]. fold bno.
  replace (u32 (bno * (BSIZE / 512))) with (2 * bno) by (unfold u32; change (BSIZE / 512) with 2; rewrite Z.mod_small; lia).
  eapply wp_step; [apply acquire_nf, Hlk|]. set (vd1 := set_vd_lock _ vd).
  assert (HL1 : vd_len vd1) by (by destruct HL).
  destruct (alloc3_run (pushed c) s (bufs s) vd1 (k_disk s) (k_mmio s) HL1 Hfr) as (i0 & i1 & i2 & HR & HD & (F0 & F1 & F2) & E3).
  eapply wp_step.
  { unfold with_fuel. cbn [fst pushed cx_fuel set_cx_cpu]. destruct (cx_fuel c) as [|k]; [lia|]. cbn [alloc3_wait]. by rewrite (bind_ret _ _ _ _ _ E3). }
  cbn iota. set (vd3 := take_desc i2 (take_desc i1 (take_desc i0 vd1))).
  assert (HL3 : vd_len vd3) by (destruct HL; split; cbn; rewrite ?length_insert; done).
  eapply wp_step; [exact (submit_run _ _ _ _ _ _ _ _ _ _ _ _ _ Hb)|]. set (vd4 := post b write (2 * bno) i0 i1 i2 vd3).
  assert (HL4 : vd_len vd4) by (destruct HL; split; cbn -[u16 Z.modulo]; rewrite ?length_insert; done).
  pose proof (post_request b write (2 * bno) i0 i1 i2 vd3 HL3 HR HD Ha) as Hreq.
  destruct (post_desc b write (2 * bno) i0 i1 i2 vd3 HL3 HR HD) as (D0 & D1 & D2). fold vd4 in D0, D1, D2, Hreq.
  destruct (co_pid _ _ _ Hc) as (p & Hp & _).
  assert (Hlen : (b < length (bufs s))%nat) by (by eapply lookup_lt_Some).
  apply wp_bind, (virtio_wait_run _ _ _ _ _ _ i0 b (set_b_disk true bf) write bno i pid p);
    [exact Hreq|lia|exact HL4|exact Hu|exact Hd| | |done| |exact Hp|by eapply (Forall_lookup_1 _ _ _ _ (co_locks _ _ _ Hc))|done|done|].
  { cbn. rewrite list_lookup_insert_eq; [done|]. rewrite (vl_b _ HL). unfold NUM in *. lia. }
  { by apply list_lookup_insert_eq. }
  { split_and!; cbn; [exact (co_proc _ _ _ Hc)|lia|done]. }
  intros c' mm' Hc' (Hp' & Hn' & Hi') Hf'. eapply wp_step; [apply up_vd_nf|].
  eapply wp_step; [apply (free_chain_run _ _ _ _ _ _ i0 i1 i2 i pid HR HD Hc')|].
  { cbn. unfold NUM in *. pose proof (vl_free _ HL). split_and!.
    - by rewrite list_lookup_insert_ne, list_lookup_insert_ne, list_lookup_insert_eq by (rewrite ?length_insert; lia).
    - by rewrite list_lookup_insert_ne, list_lookup_insert_eq by (rewrite ?length_insert; lia).
    - by rewrite list_lookup_insert_eq by (rewrite ?length_insert; lia). }
  { change (Z.land (d_flags (desc_at vd4 i0)) VRING_DESC_F_NEXT <> 0). by rewrite D0. }
  { change (d_next (desc_at vd4 i0) = i1). by rewrite D0. }
  { change (Z.land (d_flags (desc_at vd4 i1)) VRING_DESC_F_NEXT <> 0). rewrite D1. by destruct write. }
  { change (d_next (desc_at vd4 i1) = i2). by rewrite D1. }
  { change (Z.land (d_flags (desc_at vd4 i2)) VRING_DESC_F_NEXT = 0). by rewrite D2. }
  set (c3 := wake_ctx ChDiskFree (wake_ctx ChDiskFree (wake_ctx ChDiskFree c'))).
  assert (Es : settle (cx_cpu c') = cx_cpu c') by (unfold settle; by rewrite Hn').
  assert (Ecpu : cx_cpu c3 = cx_cpu c') by (change (settle (settle (settle (cx_cpu c'))) = cx_cpu c'); by rewrite !Es).
  assert (Hc3 : ctx_ok c3 i pid) by (by do 3 apply ctx_ok_wake).
  eapply wp_run; [apply release_nf; [by rewrite Ecpu|by rewrite Ecpu|rewrite Ecpu; lia]|]. rewrite Ecpu.
  set (lk := unheld _). destruct (after_idle b write (2 * bno) i0 i1 i2 vd lk Hid ltac:(done) F0 F1 F2) as [Hidle Hfree].
  exists (set_cx_cpu (pop_cpu (cx_cpu c')) c3). eexists _, _. split; [|split; [exact Hidle|split; [exact Hfree|]]].
  - assert (En : c_noff (pop_cpu (cx_cpu c')) = 0) by (change (c_noff (cx_cpu c') - 1 = 0); lia).
    split; [|exact En|exact Hf']. destruct Hc3 as [? ? ? ? ?]. split; [split|..]; cbn [cx_cpu set_cx_cpu]; [lia|lia|exact Hp'|done..].
  - apply (f_equal2 pair); [done|]. clear -Hb Hbd Hlen. rewrite list_insert_insert_eq. destruct write.
    + replace (set_b_disk false (set_b_disk true bf)) with bf by (destruct bf; cbn in *; by subst). by rewrite (list_insert_id (bufs s)).
    + replace (set_b_disk false (set_b_data _ (set_b_disk true bf))) with (set_b_data (disk_get (k_disk s) bno) bf) by (destruct bf; cbn in *; by subst). done.
Qed.
End Driver.

(** ** The properties *)

(** C18: A disk request is carried out.  virtio_disk_rw() on a buffer of block bno, with
    three free descriptors, makes available to the device a chain of three descriptors
    that is a block request for sector 2*bno, and sleeps with the driver's lock released;
    when the device has served the request as the virtio specification says, and
    virtio_disk_intr() has run, it returns with the block in the buffer (for a read) or the
    buffer on the disk (for a write), the descriptors free again and the driver ready for
    the next request; nothing else of the kernel's state has changed. *)
Theorem disk_rw_correct {IO : Mmio} {DA : DmaAddrs} {DV : Device} {DO : DeviceOk} b bf write c s i pid :
  (forall w, exists v, mmio_read (R VIRTIO_MMIO_INTERRUPT_STATUS) w = Ret v w) ->
  kctx c i pid -> (2 <= cx_fuel c)%nat -> bufs s !! b = Some bf -> b_disk bf = false -> 0 <= b_blockno bf < 2 ^ 31 -> vd_idle (k_vdisk s) ->
  wp (disk_env b write (b_blockno bf) i pid) (disk_rw b write)
    (fun _ w' => exists c' vd' mm', kctx c' i pid /\ vd_idle vd' /\ vd_free vd' = vd_free (k_vdisk s) /\
       w' = (c', nf s (if write then bufs s else <[b := set_b_data (disk_get (k_disk s) (b_blockno bf)) bf]> (bufs s)) vd'
                   (if write then disk_put (b_blockno bf) (b_data bf) (k_disk s) else k_disk s) mm')) (c, s).
Proof. intros Hisr. by apply disk_rw_run. Qed.

(** C34: A process that waits for the disk is woken.  With one finished request in the used
    ring, virtio_disk_intr() returns, marks the request's buffer done and the ring entry
    seen, releases the driver's lock, and makes the process that sleeps on the buffer
    RUNNABLE. *)
Theorem virtio_disk_intr_wakes {IO : Mmio} b bf i0 c s j pid i p :
  (forall w, exists v, mmio_read (R VIRTIO_MMIO_INTERRUPT_STATUS) w = Ret v w) ->
  finished (k_vdisk s) i0 b -> bufs s !! b = Some bf -> ctx_ok c j pid -> lock_free (vd_lock (k_vdisk s)) -> (2 <= cx_fuel c)%nat ->
  i <> j -> cx_procs c !! i = Some p -> p_state p = SLEEPING -> p_chan p = Some (ChBuf b) ->
  exists c' mm', virtio_disk_intr (c, s) = Ret tt (c', nf s (<[b := set_b_disk false bf]> (bufs s)) (seen (k_vdisk s)) (k_disk s) mm') /\
    ctx_ok c' j pid /\ cx_procs c' !! i = Some (set_p_state RUNNABLE p).
Proof.
  intros Hisr Hf Hb Hc Hl Hk Hij Hp Hst Hch. destruct (virtio_disk_intr_run Hisr c s _ _ (k_disk s) (k_mmio s) _ _ _ _ _ Hf Hb Hc Hl Hk) as (v & E).
  rewrite nf_id in E. eexists _, _. split; [exact E|]. split; [by apply ctx_ok_wake|]. cbn. rewrite list_lookup_imap, Hp. cbn.
  rewrite (co_proc _ _ _ Hc), bool_decide_false by congruence. unfold woken. by rewrite Hst, Hch, !bool_decide_true.
Qed.

(** ** A concrete device *)

#[local] Instance dma0 : DmaAddrs := {| addr_pages := 0x80008000; addr_op i := 0x80010000 + 16 * i; addr_status i := 0x80011000 + 16 * i; addr_data b := Z.of_nat b |}.
#[local] Instance mmio0 : Mmio := {| mmio_read _ := mret 1 |}.

Lemma isr0 (w : ctx * kern) : exists v, mmio_read (R VIRTIO_MMIO_INTERRUPT_STATUS) w = Ret v w.
Proof. by exists 1. Qed.

(** The device follows the chain of the newest request. *)
Definition serve0 (s : kern) : kern :=
  let vd := k_vdisk s in
  let i0 := default 0 (vd_avail_ring vd !! Z.to_nat (u16 (vd_avail_idx vd - 1) `mod` NUM)) in
  let rq := default (BlkReq 0 0 0) (vd_ops vd !! Z.to_nat i0) in
  let d1 := desc_at vd (d_next (desc_at vd i0)) in
  let b := Z.to_nat (d_addr d1) in
  let bno := rq_sector rq / 2 in
  match bufs s !! b with
  | Some bf =>
      if rq_type rq =? VIRTIO_BLK_T_OUT
      then nf s (bufs s) (complete i0 vd) (disk_put bno (b_data bf) (k_disk s)) (k_mmio s)
      else nf s (<[b := set_b_data (disk_get (k_disk s) bno) bf]> (bufs s)) (complete i0 vd) (k_disk s) (k_mmio s)
  | None => s
  end.
#[local] Instance device0 : Device := fun s s' => s' = serve0 s.
#[local] Instance device0_ok : DeviceOk.
Proof.
  intros s s' i0 b bf write bno -> [Hr Ha Ho (i1 & i2 & n & E0 & E1 & E2)] Hb Hbno. unfold serve0. rewrite Ha. cbn [default from_option id].
  rewrite Ho, E0. cbn [from_option id d_next rq_sector rq_type]. rewrite E1. cbn [d_addr addr_data dma0]. rewrite Nat2Z.id, Hb.
  replace (2 * bno / 2) with bno by (rewrite Z.mul_comm, Z.div_mul; lia). by destruct write.
Qed.

Definition vdisk0 : vdisk :=
  Vdisk (replicate 8 desc0) 0 (replicate 8 0) 0 (replicate 8 0) (replicate 8 true) 0 (replicate 8 None) (replicate 8 0) (replicate 8 (BlkReq 0 0 0)) lk0.
Lemma vdisk0_idle : vd_idle vdisk0.
Proof. split; [by split|done|vm_compute; lia|cbn; lia|cbn; lia|done]. Qed.

Definition ctx3f : ctx := Ctx (cx_cpu ctx3) (cx_procs ctx3) 5.
Lemma kctx3f : kctx ctx3f 0 1.
Proof. split; [|done|cbn; lia]. destruct ctx3_ok as [? ? ? ? ?]. by split. Qed.

Definition kern_v : kern := set_k_vdisk vdisk0 kern0.
Lemma kern_v_buf : bufs kern_v !! 3%nat = Some buf0.
Proof. apply lookup_replicate_2. unfold NBUF, MAXOPBLOCKS. lia. Qed.

Lemma disk_rw_correct_witness :
  wp (disk_env 3 false (b_blockno buf0) 0 1) (disk_rw 3 false)
    (fun _ w' => exists c' vd' mm', kctx c' 0 1 /\ vd_idle vd' /\ vd_free vd' = vd_free (k_vdisk kern_v) /\
       w' = (c', nf kern_v (<[3%nat := set_b_data (disk_get (k_disk kern_v) (b_blockno buf0)) buf0]> (bufs kern_v)) vd' (k_disk kern_v) mm'))
    (ctx3f, kern_v).
Proof.
  exact (@disk_rw_correct mmio0 dma0 device0 device0_ok 3 buf0 false ctx3f kern_v 0 1 isr0 kctx3f ltac:(cbn; lia) kern_v_buf eq_refl ltac:(cbn; lia) vdisk0_idle).
Defined.

(** Process 2 waits for buffer 3, whose request has index 5. *)
Definition ctx_waits : ctx := set_proc 1 (sleeper 2 (ChBuf 3)) ctx3f.
Definition vdisk_done : vdisk :=
  set_vd_used_ring (<[0%nat := 5]> (replicate 8 0)) (set_vd_used_idx_dev 1 (set_vd_info_b (<[5%nat := Some 3%nat]> (replicate 8 None)) vdisk0)).

Lemma ctx_waits_ok : ctx_ok ctx_waits 0 1.
Proof.
  destruct ctx3_ok as [H1 H2 (p & H3 & H4) H5 H6]. split; [done|done| |done|].
  - by exists (runner 1).
  - cbn [ctx_waits set_proc cx_procs set_cx_procs ctx3f]. by apply Forall_insert.
Qed.

Definition kern_d : kern := set_k_vdisk vdisk_done kern0.
Lemma kern_d_finished : finished (k_vdisk kern_d) 5 3.
Proof. change (k_vdisk kern_d) with vdisk_done. split; by vm_compute. Qed.

Lemma virtio_disk_intr_wakes_witness :
  exists c' mm', virtio_disk_intr (ctx_waits, kern_d) =
      Ret tt (c', nf kern_d (<[3%nat := set_b_disk false buf0]> (bufs kern_d)) (seen (k_vdisk kern_d)) (k_disk kern_d) mm') /\
    ctx_ok c' 0 1 /\ cx_procs c' !! 1%nat = Some (set_p_state RUNNABLE (sleeper 2 (ChBuf 3))).
Proof.
  exact (@virtio_disk_intr_wakes mmio0 3 buf0 5 ctx_waits kern_d 0 1 1 (sleeper 2 (ChBuf 3)) isr0 kern_d_finished kern_v_buf
    ctx_waits_ok ltac:(done) ltac:(cbn; lia) ltac:(done) eq_refl eq_refl eq_refl).
Defined.
