(* ===== verification/Riscv.v ===== *)
(** * The registers of a hart (kernel/riscv.h)

    A hart as a register file, its control registers, its mode and the memory;
    the constants of the control registers and the functions that read and
    write them; and interrupts as the SIE bit of sstatus, which is how the
    rest of the kernel is modelled ([Spinlock.intr_on] and its companions). *)

From stdpp Require Import base numbers list list_numbers gmap strings.
From Stdlib Require Import ZArith Lia.
From S2P Require Import Prelude.
From S2P Require Import Machine.
From S2P Require Import Mem.

Local Open Scope Z_scope.

(** ** The machine *)

Inductive reg :=
  | ra | sp | gp | tp | t0 | t1 | t2 | s0 | s1 | a0 | a1 | a2 | a3 | a4 | a5 | a6 | a7
  | s2 | s3 | s4 | s5 | s6 | s7 | s8 | s9 | s10 | s11 | t3 | t4 | t5 | t6.

#[export] Instance reg_eq_dec : EqDecision reg.
Proof. solve_decision. Defined.

Inductive creg :=
  | sscratch | satp | sip | sie | mscratch | mcause | mhartid | mstatus | mepc | medeleg | mideleg
  | mtvec | mie | pmpaddr0 | pmpcfg0 | sstatus | sepc | stvec | scause | stval | mcounteren | time.

#[export] Instance creg_eq_dec : EqDecision creg.
Proof. solve_decision. Defined.

Inductive mode := M_mode | S_mode.

Record hart := Hart {
  h_reg : reg -> Z;
  h_csr : creg -> Z;
  h_mem : mem;
  h_mode : mode
}.

Definition set_reg (r : reg) (v : Z) (h : hart) : hart :=
  Hart (fun q => if decide (q = r) then v else h_reg h q) (h_csr h) (h_mem h) (h_mode h).
Definition set_csr (c : creg) (v : Z) (h : hart) : hart :=
  Hart (h_reg h) (fun q => if decide (q = c) then v else h_csr h q) (h_mem h) (h_mode h).
Definition set_mem (m : mem) (h : hart) : hart := Hart (h_reg h) (h_csr h) m (h_mode h).

(** ** Constants *)

Definition MSTATUS_MPP_MASK : Z := Z.shiftl 3 11.
Definition MSTATUS_MPP_M : Z := Z.shiftl 3 11.
Definition MSTATUS_MPP_S : Z := Z.shiftl 1 11.
Definition MSTATUS_MPP_U : Z := Z.shiftl 0 11.
Definition MSTATUS_MIE : Z := Z.shiftl 1 3.
Definition PMP_R : Z := Z.shiftl 1 0.
Definition PMP_W : Z := Z.shiftl 1 1.
Definition PMP_X : Z := Z.shiftl 1 2.
Definition PMP_MATCH_NAPOT : Z := Z.shiftl 3 3.
Definition SIE_SEIE : Z := Z.shiftl 1 9.
Definition SIE_STIE : Z := Z.shiftl 1 5.
Definition SIE_SSIE : Z := Z.shiftl 1 1.
Definition MIE_MEIE : Z := Z.shiftl 1 11.
Definition MIE_MTIE : Z := Z.shiftl 1 7.
Definition MIE_MSIE : Z := Z.shiftl 1 3.
Definition SSTATUS_SPP : Z := Z.shiftl 1 8.
Definition SSTATUS_SPIE : Z := Z.shiftl 1 5.
Definition SSTATUS_UPIE : Z := Z.shiftl 1 4.
Definition SSTATUS_SIE : Z := Z.shiftl 1 1.
Definition SSTATUS_UIE : Z := Z.shiftl 1 0.

(** ** Reading and writing registers *)

Definition r_mhartid (h : hart) : Z := h_csr h mhartid.
Definition r_mstatus (h : hart) : Z := h_csr h mstatus.
Definition w_mstatus (x : Z) (h : hart) : hart := set_csr mstatus x h.
Definition w_mepc (x : Z) (h : hart) : hart := set_csr mepc x h.
Definition w_pmpcfg0 (x : Z) (h : hart) : hart := set_csr pmpcfg0 x h.
Definition w_pmpaddr0 (x : Z) (h : hart) : hart := set_csr pmpaddr0 x h.
Definition r_sstatus (h : hart) : Z := h_csr h sstatus.
Definition w_sstatus (x : Z) (h : hart) : hart := set_csr sstatus x h.
Definition r_sip (h : hart) : Z := h_csr h sip.
Definition w_sip (x : Z) (h : hart) : hart := set_csr sip x h.
Definition r_sie (h : hart) : Z := h_csr h sie.
Definition w_sie (x : Z) (h : hart) : hart := set_csr sie x h.
Definition r_mie (h : hart) : Z := h_csr h mie.
Definition w_mie (x : Z) (h : hart) : hart := set_csr mie x h.
Definition w_sepc (x : Z) (h : hart) : hart := set_csr sepc x h.
Definition r_sepc (h : hart) : Z := h_csr h sepc.
Definition r_medeleg (h : hart) : Z := h_csr h medeleg.
Definition w_medeleg (x : Z) (h : hart) : hart := set_csr medeleg x h.
Definition r_mideleg (h : hart) : Z := h_csr h mideleg.
Definition w_mideleg (x : Z) (h : hart) : hart := set_csr mideleg x h.
Definition w_stvec (x : Z) (h : hart) : hart := set_csr stvec x h.
Definition r_stvec (h : hart) : Z := h_csr h stvec.
Definition w_mtvec (x : Z) (h : hart) : hart := set_csr mtvec x h.
Definition w_satp (x : Z) (h : hart) : hart := set_csr satp x h.
Definition r_satp (h : hart) : Z := h_csr h satp.
Definition w_sscratch (x : Z) (h : hart) : hart := set_csr sscratch x h.
Definition w_mscratch (x : Z) (h : hart) : hart := set_csr mscratch x h.
Definition r_scause (h : hart) : Z := h_csr h scause.
Definition r_stval (h : hart) : Z := h_csr h stval.
Definition w_mcounteren (x : Z) (h : hart) : hart := set_csr mcounteren x h.
Definition r_mcounteren (h : hart) : Z := h_csr h mcounteren.
Definition r_time (h : hart) : Z := h_csr h time.
Definition r_sp (h : hart) : Z := h_reg h sp.
Definition r_tp (h : hart) : Z := h_reg h tp.
Definition w_tp (x : Z) (h : hart) : hart := set_reg tp x h.
Definition r_ra (h : hart) : Z := h_reg h ra.

(** sfence.vma drops cached translations, and the hart caches none. *)
Definition sfence_vma (h : hart) : hart := h.

Create HintDb riscv.
#[export] Hint Unfold r_mhartid r_mstatus w_mstatus w_mepc w_pmpcfg0 w_pmpaddr0 r_sstatus w_sstatus r_sip w_sip r_sie w_sie r_mie w_mie w_sepc r_sepc r_medeleg w_medeleg r_mideleg w_mideleg w_stvec r_stvec w_mtvec w_satp r_satp w_sscratch w_mscratch r_scause r_stval w_mcounteren r_mcounteren r_time r_sp r_tp w_tp r_ra : riscv.

(** ** Interrupts *)

Definition intr_on (h : hart) : hart := w_sstatus (Z.lor (r_sstatus h) SSTATUS_SIE) h.
Definition intr_off (h : hart) : hart := w_sstatus (Z.land (r_sstatus h) (Z.lnot SSTATUS_SIE)) h.
Definition intr_get (h : hart) : bool :=
  let x := r_sstatus h in negb (Z.land x SSTATUS_SIE =? 0).

(** The SIE bit is bit 1. *)
Definition sie_bit (h : hart) : bool := Z.testbit (r_sstatus h) 1.

(** All but the SIE bit. *)
Definition but_sie (h h' : hart) : Prop :=
  h_reg h' = h_reg h /\ h_mem h' = h_mem h /\ h_mode h' = h_mode h /\ (forall c, c <> sstatus -> h_csr h' c = h_csr h c) /\
  forall n, 0 <= n -> n <> 1 -> Z.testbit (r_sstatus h') n = Z.testbit (r_sstatus h) n.

Lemma sie_testbit n : 0 <= n -> Z.testbit SSTATUS_SIE n = (n =? 1).
Proof. intros H. unfold SSTATUS_SIE. rewrite Z.shiftl_1_l, Z.pow2_bits_eqb by lia. apply Z.eqb_sym. Qed.

Lemma intr_get_bit h : intr_get h = sie_bit h.
Proof.
  unfold intr_get, sie_bit. set (x := r_sstatus h). destruct (Z.testbit x 1) eqn:E.
  - rewrite (proj2 (Z.eqb_neq _ 0)); [done|]. intros H. assert (B : Z.testbit (Z.land x SSTATUS_SIE) 1 = true) by (by rewrite Z.land_spec, E, sie_testbit).
    by rewrite H in B.
  - rewrite (proj2 (Z.eqb_eq _ 0)); [done|]. apply Z.bits_inj'. intros n Hn. rewrite Z.land_spec, sie_testbit, Z.bits_0 by done.
    destruct (Z.eqb_spec n 1) as [->|]; [by rewrite E|by rewrite andb_false_r].
Qed.

Lemma intr_on_bit h : sie_bit (intr_on h) = true /\ but_sie h (intr_on h).
Proof.
  unfold sie_bit, but_sie, intr_on, r_sstatus, w_sstatus. cbn [h_csr h_reg h_mem h_mode set_csr]. rewrite decide_True by done.
  split; [by rewrite Z.lor_spec, sie_testbit, orb_true_r|]. split_and!; try done.
  - intros c Hc. by rewrite decide_False.
  - intros n Hn H1. rewrite Z.lor_spec, sie_testbit by done. by rewrite (proj2 (Z.eqb_neq n 1)), orb_false_r.
Qed.

Lemma intr_off_bit h : sie_bit (intr_off h) = false /\ but_sie h (intr_off h).
Proof.
  unfold sie_bit, but_sie, intr_off, r_sstatus, w_sstatus. cbn [h_csr h_reg h_mem h_mode set_csr]. rewrite decide_True by done.
  split; [by rewrite Z.land_spec, Z.lnot_spec, sie_testbit, andb_false_r|]. split_and!; try done.
  - intros c Hc. by rewrite decide_False.
  - intros n Hn H1. rewrite Z.land_spec, Z.lnot_spec, sie_testbit by done. by rewrite (proj2 (Z.eqb_neq n 1)), andb_true_r.
Qed.
