(* ===== verification/Asm.v ===== *)
(** * The assembly code of the kernel (kernel/swtch.S, kernel/trampoline.S,
      kernel/kernelvec.S, kernel/entry.S) and kernel/start.c

    The instructions the sources use, on the hart of [Riscv], with address
    translation a parameter; the routines as instruction lists; start() and
    what it calls on the same state. *)

From stdpp Require Import base numbers list list_numbers gmap strings.
From Stdlib Require Import ZArith Lia.
From S2P Require Import Prelude.
From S2P Require Import Machine.
From S2P Require Import Mem.
From S2P Require Import Vm.
From S2P Require Import Riscv.

Local Open Scope Z_scope.

(** ** Instructions *)

(** Where control goes: a label of the file or a symbol, an address, or the
    return of a trap. *)
Inductive target := TLabel (l : string) | TAddr (a : Z) | TSret | TMret.

Inductive instr :=
  | Sd (rs : reg) (off : Z) (rb : reg)
  | Ld (rd : reg) (off : Z) (rb : reg)
  | Addi (rd rs : reg) (imm : Z)
  | Add (rd rs rt : reg)
  | Mul (rd rs rt : reg)
  | Li (rd : reg) (imm : Z)
  | La (rd : reg) (sym : string)
  | Csrrw (rd : reg) (c : creg) (rs : reg)
  | Csrr (rd : reg) (c : creg)
  | Csrw (c : creg) (rs : reg)
  | Sfence
  | Bgez (rs : reg) (l : string)
  | Bne (rs rt : reg) (l : string)
  | Call (sym : string)
  | Jr (rs : reg)
  | J (l : string)
  | Sret
  | Mret.

(** Running a list of instructions: to its end, to a jump out of it, or to a
    fault of the translation. *)
Inductive result := Fell (h : hart) | Goto (t : target) (h : hart) | PageFault (va : Z) (h : hart).

(** Address translation under a value of satp, the addresses of symbols, and
    the C functions that the code calls
    (the call's own effect on ra included). *)
Class Mmu := { translate : mem -> Z -> Z -> option Z }.
Class Linked := { symbol : string -> Z; callee : string -> hart -> hart }.

Section Exec.
Context {MM : Mmu} {LK : Linked}.

(** Machine mode uses physical addresses; satp = 0 turns paging off. *)
Definition xlate (h : hart) (va : Z) : option Z :=
  match h_mode h with
  | M_mode => Some va
  | S_mode => if h_csr h satp =? 0 then Some va else translate (h_mem h) (h_csr h satp) va
  end.

Definition effective (h : hart) (rb : reg) (off : Z) : Z := u64 (h_reg h rb + off).

Definition step1 (i : instr) (h : hart) : result :=
  match i with
  | Sd rs off rb =>
      let va := effective h rb off in
      match xlate h va with
      | Some pa => Fell (set_mem (st64 (h_mem h) pa (h_reg h rs)) h)
      | None => PageFault va h
      end
  | Ld rd off rb =>
      let va := effective h rb off in
      match xlate h va with
      | Some pa => Fell (set_reg rd (ld64 (h_mem h) pa) h)
      | None => PageFault va h
      end
  | Addi rd rs imm => Fell (set_reg rd (u64 (h_reg h rs + imm)) h)
  | Add rd rs rt => Fell (set_reg rd (u64 (h_reg h rs + h_reg h rt)) h)
  | Mul rd rs rt => Fell (set_reg rd (u64 (h_reg h rs * h_reg h rt)) h)
  | Li rd imm => Fell (set_reg rd (u64 imm) h)
  | La rd sym => Fell (set_reg rd (symbol sym) h)
  | Csrrw rd c rs => Fell (set_reg rd (h_csr h c) (set_csr c (h_reg h rs) h))
  | Csrr rd c => Fell (set_reg rd (h_csr h c) h)
  | Csrw c rs => Fell (set_csr c (h_reg h rs) h)
  | Sfence => Fell h
  | Bgez rs l => if sgn 64 (h_reg h rs) <? 0 then Fell h else Goto (TLabel l) h
  | Bne rs rt l => if h_reg h rs =? h_reg h rt then Fell h else Goto (TLabel l) h
  | Call sym => Fell (callee sym h)
  | Jr rs => Goto (TAddr (h_reg h rs)) h
  | J l => Goto (TLabel l) h
  | Sret => Goto TSret h
  | Mret => Goto TMret h
  end.

Fixpoint run_asm (p : list instr) (h : hart) : result :=
  match p with
  | [] => Fell h
  | i :: p => match step1 i h with Fell h' => run_asm p h' | r => r end
  end.

End Exec.

(** ** kernel/swtch.S *)

Definition swtch_S : list instr :=
  [ Sd ra 0 a0; Sd sp 8 a0; Sd s0 16 a0; Sd s1 24 a0; Sd s2 32 a0; Sd s3 40 a0; Sd s4 48 a0;
    Sd s5 56 a0; Sd s6 64 a0; Sd s7 72 a0; Sd s8 80 a0; Sd s9 88 a0; Sd s10 96 a0; Sd s11 104 a0;
    Ld ra 0 a1; Ld sp 8 a1; Ld s0 16 a1; Ld s1 24 a1; Ld s2 32 a1; Ld s3 40 a1; Ld s4 48 a1;
    Ld s5 56 a1; Ld s6 64 a1; Ld s7 72 a1; Ld s8 80 a1; Ld s9 88 a1; Ld s10 96 a1; Ld s11 104 a1;
    Jr ra ].

(** ** kernel/trampoline.S *)

Definition uservec : list instr :=
  [ Csrrw a0 sscratch a0;
    Sd ra 40 a0; Sd sp 48 a0; Sd gp 56 a0; Sd tp 64 a0; Sd t0 72 a0; Sd t1 80 a0; Sd t2 88 a0;
    Sd s0 96 a0; Sd s1 104 a0; Sd a1 120 a0; Sd a2 128 a0; Sd a3 136 a0; Sd a4 144 a0; Sd a5 152 a0;
    Sd a6 160 a0; Sd a7 168 a0; Sd s2 176 a0; Sd s3 184 a0; Sd s4 192 a0; Sd s5 200 a0; Sd s6 208 a0;
    Sd s7 216 a0; Sd s8 224 a0; Sd s9 232 a0; Sd s10 240 a0; Sd s11 248 a0; Sd t3 256 a0; Sd t4 264 a0;
    Sd t5 272 a0; Sd t6 280 a0;
    Csrr t0 sscratch; Sd t0 112 a0;
    Ld sp 8 a0; Ld tp 32 a0; Ld t0 16 a0; Ld t1 0 a0;
    Csrw satp t1; Sfence;
    Jr t0 ].

Definition userret : list instr :=
  [ Csrw satp a1; Sfence;
    Ld t0 112 a0; Csrw sscratch t0;
    Ld ra 40 a0; Ld sp 48 a0; Ld gp 56 a0; Ld tp 64 a0; Ld t0 72 a0; Ld t1 80 a0; Ld t2 88 a0;
    Ld s0 96 a0; Ld s1 104 a0; Ld a1 120 a0; Ld a2 128 a0; Ld a3 136 a0; Ld a4 144 a0; Ld a5 152 a0;
    Ld a6 160 a0; Ld a7 168 a0; Ld s2 176 a0; Ld s3 184 a0; Ld s4 192 a0; Ld s5 200 a0; Ld s6 208 a0;
    Ld s7 216 a0; Ld s8 224 a0; Ld s9 232 a0; Ld s10 240 a0; Ld s11 248 a0; Ld t3 256 a0; Ld t4 264 a0;
    Ld t5 272 a0; Ld t6 280 a0;
    Csrrw a0 sscratch a0;
    Sret ].

(** ** kernel/kernelvec.S *)

Definition kernelvec : list instr :=
  [ Addi sp sp (-256);
    Sd ra 0 sp; Sd sp 8 sp; Sd gp 16 sp; Sd tp 24 sp; Sd t0 32 sp; Sd t1 40 sp; Sd t2 48 sp;
    Sd s0 56 sp; Sd s1 64 sp; Sd a0 72 sp; Sd a1 80 sp; Sd a2 88 sp; Sd a3 96 sp; Sd a4 104 sp;
    Sd a5 112 sp; Sd a6 120 sp; Sd a7 128 sp; Sd s2 136 sp; Sd s3 144 sp; Sd s4 152 sp; Sd s5 160 sp;
    Sd s6 168 sp; Sd s7 176 sp; Sd s8 184 sp; Sd s9 192 sp; Sd s10 200 sp; Sd s11 208 sp; Sd t3 216 sp;
    Sd t4 224 sp; Sd t5 232 sp; Sd t6 240 sp;
    Call "kerneltrap";
    Ld ra 0 sp; Ld sp 8 sp; Ld gp 16 sp; Ld t0 32 sp; Ld t1 40 sp; Ld t2 48 sp;
    Ld s0 56 sp; Ld s1 64 sp; Ld a0 72 sp; Ld a1 80 sp; Ld a2 88 sp; Ld a3 96 sp; Ld a4 104 sp;
    Ld a5 112 sp; Ld a6 120 sp; Ld a7 128 sp; Ld s2 136 sp; Ld s3 144 sp; Ld s4 152 sp; Ld s5 160 sp;
    Ld s6 168 sp; Ld s7 176 sp; Ld s8 184 sp; Ld s9 192 sp; Ld s10 200 sp; Ld s11 208 sp; Ld t3 216 sp;
    Ld t4 224 sp; Ld t5 232 sp; Ld t6 240 sp;
    Addi sp sp 256;
    Sret ].

Definition timervec : list instr :=
  [ Csrrw a0 mscratch a0;
    Sd a1 0 a0; Sd a2 8 a0; Sd a3 16 a0;
    Csrr a1 mcause;
    Bgez a1 "unexpected_exc";
    Li a2 (Z.lor (Z.shiftl 1 63) 7);
    Bne a1 a2 "unexpected_int";
    Ld a1 24 a0; Ld a2 32 a0; Ld a3 0 a1; Add a3 a3 a2; Sd a3 0 a1;
    Li a1 2; Csrw sip a1;
    Ld a3 16 a0; Ld a2 8 a0; Ld a1 0 a0;
    Csrrw a0 mscratch a0;
    Mret ].

(** The two labels loop for ever. *)
Definition unexpected_exc : list instr := [J "unexpected_exc"].
Definition unexpected_int : list instr := [J "unexpected_int"].

(** ** kernel/entry.S *)

Definition entry : list instr :=
  [ La sp "stack0"; Li a0 (1024 * 4); Csrr a1 mhartid; Addi a1 a1 1; Mul a0 a0 a1; Add sp sp a0;
    Call "start" ].
Definition spin : list instr := [J "spin"].

(** ** kernel/start.c, with its constants of riscv.h and memlayout.h *)

Definition CLINT : Z := 0x2000000.
Definition CLINT_MTIMECMP (hartid : Z) : Z := CLINT + 0x4000 + 8 * hartid.
Definition CLINT_MTIME : Z := CLINT + 0xBFF8.

(** ~0L is the long -1, and its right shift is arithmetic. *)
Definition pmpinit (h : hart) : hart :=
  let h := w_pmpaddr0 (u64 (Z.shiftr (-1) 10)) h in
  w_pmpcfg0 (Z.lor (Z.lor (Z.lor PMP_R PMP_W) PMP_X) PMP_MATCH_NAPOT) h.

Section Start.
Context {LK : Linked}.

Definition timer_interval : Z := 1000000.
Definition scratch_addr (id : Z) : Z := symbol "timer_scratch" + 40 * id.

Definition timerinit (h : hart) : hart :=
  let id := i32 (r_mhartid h) in
  let interval := timer_interval in
  let h := set_mem (st64 (h_mem h) (CLINT_MTIMECMP id) (u64 (ld64 (h_mem h) CLINT_MTIME + interval))) h in
  let scratch := scratch_addr id in
  let h := set_mem (st64 (h_mem h) (scratch + 24) (CLINT_MTIMECMP id)) h in
  let h := set_mem (st64 (h_mem h) (scratch + 32) interval) h in
  let h := w_mscratch scratch h in
  let h := w_mtvec (symbol "timervec") h in
  let h := w_mstatus (Z.lor (r_mstatus h) MSTATUS_MIE) h in
  w_mie (Z.lor (r_mie h) MIE_MTIE) h.

(** start() ends in mret. *)
Definition start (h : hart) : hart :=
  let x := r_mstatus h in
  let x := Z.land x (Z.lnot MSTATUS_MPP_MASK) in
  let x := Z.lor x MSTATUS_MPP_S in
  let h := w_mstatus x h in
  let h := w_mepc (symbol "main") h in
  let h := w_satp 0 h in
  let h := w_medeleg 0xffff h in
  let h := w_mideleg 0xffff h in
  let h := w_sie (Z.lor (Z.lor (Z.lor (r_sie h) SIE_SEIE) SIE_STIE) SIE_SSIE) h in
  let h := timerinit h in
  let id := i32 (r_mhartid h) in
  let h := w_tp (u64 id) h in
  pmpinit h.

End Start.
