(* ===== verification/AsmSpec.v ===== *)
(** * The assembly code of the kernel: saving and restoring registers

    swtch() resumes a thread with the registers it was suspended with; a trap
    through the trampoline and back gives the user every register; an
    interrupt in the kernel gives back every register but tp; the timer
    interrupt gives back every register and re-arms the timer that start()
    set up. *)

From stdpp Require Import base numbers list list_numbers gmap strings.
From Stdlib Require Import ZArith Lia.
From S2P Require Import Prelude.
From S2P Require Import Machine.
From S2P Require Import Mem.
From S2P Require Import Vm.
From S2P Require Import Riscv.
From S2P Require Import Asm.

Local Open Scope Z_scope.

(** ** Blocks of stores and loads *)

Definition slots := list (reg * Z).
Definition saves (rb : reg) (l : slots) : list instr := (fun x => Sd (fst x) (snd x) rb) <$> l.
Definition loads (rb : reg) (l : slots) : list instr := (fun x => Ld (fst x) (snd x) rb) <$> l.

(** Slots at distinct multiples of 8 in a block of [n] bytes. *)
Definition slots_ok (n : Z) (l : slots) : Prop :=
  NoDup (snd <$> l) /\ Forall (fun x => snd x `mod` 8 = 0 /\ 0 <= snd x /\ snd x + 8 <= n) l.

#[export] Instance slots_ok_dec n l : Decision (slots_ok n l).
Proof. unfold slots_ok. apply _. Defined.

Definition regs_ok (h : hart) : Prop := forall r, 0 <= h_reg h r < 2 ^ 64.

(** Memories that agree outside [n] bytes at [pa]. *)
Definition same_outside (m m' : mem) (pa n : Z) : Prop := forall x, x < pa \/ pa + n <= x -> bget m' x = bget m x.

Section Blocks.
Context {MM : Mmu} {LK : Linked}.

(** [n] bytes at [va] are mapped to [pa], whatever is stored there. *)
Definition frame_at (h : hart) (va pa n : Z) : Prop :=
  0 <= va /\ va + n < 2 ^ 64 /\
  forall m', same_outside (h_mem h) m' pa n -> forall o, 0 <= o < n -> xlate (set_mem m' h) (va + o) = Some (pa + o).

Lemma same_outside_refl m pa n : same_outside m m pa n.
Proof. done. Qed.

Lemma same_outside_st m m' pa n a v :
  same_outside m m' pa n -> pa <= a -> a + 8 <= pa + n -> same_outside m (st64 m' a v) pa n.
Proof. intros H ? ? x Hx. rewrite st64_get_out by lia. by apply H. Qed.

Lemma run_app p q h : run_asm (p ++ q) h = match run_asm p h with Fell h' => run_asm q h' | r => r end.
Proof. revert h. induction p as [|i p IH]; intros h; [done|]. simpl. by destruct (step1 i h). Qed.

Lemma set_mem_twice m m' h : set_mem m (set_mem m' h) = set_mem m h.
Proof. done. Qed.

Lemma set_mem_same h : set_mem (h_mem h) h = h.
Proof. by destruct h. Qed.

(** Storing registers in their slots. *)
Lemma run_saves rb l h m1 pa n :
  frame_at h (h_reg h rb) pa n -> slots_ok n l -> regs_ok h -> same_outside (h_mem h) m1 pa n ->
  exists m2, run_asm (saves rb l) (set_mem m1 h) = Fell (set_mem m2 h) /\ same_outside (h_mem h) m2 pa n /\
    (forall r o, (r, o) ∈ l -> ld64 m2 (pa + o) = h_reg h r) /\
    (forall o, o `mod` 8 = 0 -> o ∉ (snd <$> l) -> ld64 m2 (pa + o) = ld64 m1 (pa + o)).
Proof.
  intros Hf [Hnd Hl] Hr. revert m1. induction l as [|[r o] l IH]; intros m1 Hs.
  { exists m1. split_and!; [done|done|by intros ? ? ?%elem_of_nil|done]. }
  apply NoDup_cons in Hnd as [Hni Hnd]. apply Forall_cons in Hl as [(Ho8 & Ho & Ho') Hl]. cbn [snd fst] in *.
  destruct Hf as (Hv & Hv' & Hx).
  set (m2 := st64 m1 (pa + o) (h_reg h r)).
  assert (Hs2 : same_outside (h_mem h) m2 pa n) by (apply same_outside_st; [done|lia|lia]).
  assert (E : step1 (Sd r o rb) (set_mem m1 h) = Fell (set_mem m2 h)).
  { simpl. unfold effective. change (h_reg (set_mem m1 h)) with (h_reg h). rewrite u64_small by lia.
    by rewrite (Hx m1 Hs o) by lia. }
  destruct (IH Hnd Hl m2 Hs2) as (m3 & R & Hs3 & Hin & Hout). exists m3.
  cbn [saves fmap list_fmap run_asm]. cbn [fst snd]. rewrite E. split_and!; [exact R|done| |].
  - intros r' o' [[= -> ->]|Hin']%elem_of_cons; [|by apply Hin].
    rewrite Hout by done. unfold m2. by rewrite ld64_st64_eq.
  - intros o' Hm Hni'. cbn [fmap list_fmap] in Hni'. apply not_elem_of_cons in Hni' as [Hne Hni'].
    rewrite Hout by done. unfold m2. apply ld64_st64_ne.
    destruct (decide (o' < o)); [left|right]; pose proof (Z.div_mod o 8); pose proof (Z.div_mod o' 8); cbn [snd] in *; lia.
Qed.

(** The register file after loading slots from memory at [pa]. *)
Definition restored (m : mem) (pa : Z) (l : slots) (h h' : hart) : Prop :=
  h_csr h' = h_csr h /\ h_mem h' = h_mem h /\ h_mode h' = h_mode h /\
  (forall r o, (r, o) ∈ l -> h_reg h' r = ld64 m (pa + o)) /\
  (forall r, r ∉ (fst <$> l) -> h_reg h' r = h_reg h r).

(** Loading registers from their slots; the base may be among them when its
    slot holds its value. *)
Lemma run_loads rb l h va pa n :
  frame_at h va pa n -> h_reg h rb = va -> slots_ok n l -> NoDup (fst <$> l) ->
  (forall o, (rb, o) ∈ l -> ld64 (h_mem h) (pa + o) = va) ->
  exists h', run_asm (loads rb l) h = Fell h' /\ restored (h_mem h) pa l h h'.
Proof.
  intros Hf Hrb [Hno Hl] Hnd Hb. revert h Hf Hrb Hb. induction l as [|[r o] l IH]; intros h Hf Hrb Hb.
  { exists h. split; [done|]. split_and!; try done. by intros ? ? ?%elem_of_nil. }
  cbn [fmap list_fmap fst snd] in Hnd, Hno. apply NoDup_cons in Hno as [_ Hno]. apply NoDup_cons in Hnd as [Hni Hnd].
  apply Forall_cons in Hl as [(Ho8 & Ho & Ho') Hl]. cbn [snd fst] in *.
  set (h1 := set_reg r (ld64 (h_mem h) (pa + o)) h).
  assert (E : step1 (Ld r o rb) h = Fell h1).
  { destruct Hf as (Hv & Hv' & Hx). simpl. unfold effective. rewrite Hrb, u64_small by lia.
    pose proof (Hx (h_mem h) (same_outside_refl _ _ _) o ltac:(lia)) as X. rewrite set_mem_same in X. by rewrite X. }
  destruct (IH Hno Hl Hnd h1) as (h' & R & E1 & E2 & E3 & E4 & E5); [done| | |].
  - simpl. case_decide as D; [subst r|done]. apply (Hb o). by left.
  - intros o' Ho1. apply (Hb o'). by right.
  - exists h'. cbn [loads fmap list_fmap run_asm fst snd]. rewrite E. split; [exact R|]. split_and!; [done..| |].
    + intros r' o' [[= -> ->]|Hin]%elem_of_cons; [|by apply E4].
      rewrite E5 by done. simpl. by rewrite decide_True.
    + intros q Hq. cbn [fmap list_fmap fst] in Hq. apply not_elem_of_cons in Hq as [Hq1 Hq2]. rewrite E5 by done.
      simpl. by rewrite decide_False.
Qed.

End Blocks.

(** ** Frames *)

Section Frames.
Context {MM : Mmu} {LK : Linked}.

Lemma frame_at_same h h' va pa n :
  h_mode h' = h_mode h -> h_csr h' satp = h_csr h satp -> h_mem h' = h_mem h -> frame_at h va pa n -> frame_at h' va pa n.
Proof.
  intros E1 E2 E3 (Hv & Hv' & Hx). split_and!; [done|done|]. intros m' Hs o Ho. rewrite E3 in Hs.
  rewrite <- (Hx m' Hs o Ho). unfold xlate. simpl. by rewrite E1, E2.
Qed.

Lemma frame_at_mem h m' va pa n : same_outside (h_mem h) m' pa n -> frame_at h va pa n -> frame_at (set_mem m' h) va pa n.
Proof.
  intros Hm (Hv & Hv' & Hx). split_and!; [done|done|]. intros m2 Hs o Ho. rewrite set_mem_twice. apply Hx; [|done].
  intros x Hx2. rewrite <- (Hm x Hx2). by apply Hs.
Qed.

Lemma ld64_outside m m' pa n a : same_outside m m' pa n -> a + 8 <= pa \/ pa + n <= a -> ld64 m' a = ld64 m a.
Proof. intros Hs Ha. apply ld64_ext. intros x Hx. apply Hs. lia. Qed.

Lemma not_slot r o (l : slots) : bool_decide (r ∉ (fst <$> l)) = true -> (r, o) ∈ l -> False.
Proof. intros H%bool_decide_eq_true Hro. apply H. apply list_elem_of_fmap. by exists (r, o). Qed.

(** ** swtch() *)

Definition ctx_slots : slots :=
  [(ra, 0); (sp, 8); (s0, 16); (s1, 24); (s2, 32); (s3, 40); (s4, 48); (s5, 56); (s6, 64); (s7, 72); (s8, 80);
   (s9, 88); (s10, 96); (s11, 104)].

Lemma swtch_code : swtch_S = saves a0 ctx_slots ++ loads a1 ctx_slots ++ [Jr ra].
Proof. reflexivity. Qed.

(** The two contexts are mapped, and do not overlap. *)
Definition contexts_at (h : hart) (old new : Z) : Prop :=
  frame_at h (h_reg h a0) old 112 /\ (old + 112 <= new \/ new + 112 <= old) /\
  forall m', same_outside (h_mem h) m' old 112 -> frame_at (set_mem m' h) (h_reg h a1) new 112.

Lemma swtch_run h old new :
  regs_ok h -> contexts_at h old new ->
  exists h', run_asm swtch_S h = Goto (TAddr (ld64 (h_mem h) new)) h' /\ same_outside (h_mem h) (h_mem h') old 112 /\
    h_csr h' = h_csr h /\ h_mode h' = h_mode h /\ (forall r, r ∉ (fst <$> ctx_slots) -> h_reg h' r = h_reg h r) /\
    forall r o, (r, o) ∈ ctx_slots -> ld64 (h_mem h') (old + o) = h_reg h r /\ h_reg h' r = ld64 (h_mem h) (new + o).
Proof.
  intros Hr (Ho & Hd & Hn). assert (Hok : slots_ok 112 ctx_slots) by (by apply (bool_decide_unpack _); vm_compute).
  destruct (run_saves a0 ctx_slots h (h_mem h) old 112 Ho Hok Hr (same_outside_refl _ _ _)) as (m2 & R & Hs & Hin & _).
  rewrite set_mem_same in R.
  destruct (run_loads a1 ctx_slots (set_mem m2 h) (h_reg h a1) new 112) as (h' & R2 & E1 & E2 & E3 & E4 & E5);
    [by apply Hn|done|done|by apply (bool_decide_unpack _); vm_compute|intros o Ho1; exfalso; apply (not_slot a1 o ctx_slots); [by vm_compute|done]|].
  exists h'. rewrite swtch_code, run_app, R, run_app, R2.
  assert (Hld : forall r o, (r, o) ∈ ctx_slots -> ld64 m2 (new + o) = ld64 (h_mem h) (new + o)).
  { intros r o Hro. apply (ld64_outside _ _ old 112); [done|]. destruct Hok as [_ F].
    rewrite Forall_forall in F. specialize (F _ Hro). simpl in F. lia. }
  assert (H0 : (ra, 0) ∈ ctx_slots) by (by left).
  split_and!; [|by rewrite E2|done|done|done|].
  - simpl. f_equal. f_equal. pose proof (Hld ra 0 H0) as X. rewrite (E4 ra 0 H0). cbn [set_mem h_mem]. by rewrite X, Z.add_0_r.
  - intros r o Hro. rewrite E2. split; [by apply Hin|]. rewrite (E4 r o Hro). by apply (Hld r).
Qed.

(** ** The trampoline *)

(** The user registers of struct trapframe, a0 apart. *)
Definition tf_slots : slots :=
  [(ra, 40); (sp, 48); (gp, 56); (tp, 64); (t0, 72); (t1, 80); (t2, 88); (s0, 96); (s1, 104); (a1, 120); (a2, 128);
   (a3, 136); (a4, 144); (a5, 152); (a6, 160); (a7, 168); (s2, 176); (s3, 184); (s4, 192); (s5, 200); (s6, 208);
   (s7, 216); (s8, 224); (s9, 232); (s10, 240); (s11, 248); (t3, 256); (t4, 264); (t5, 272); (t6, 280)].
Definition kernel_slots : slots := [(sp, 8); (tp, 32); (t0, 16); (t1, 0)].

(** The slot of each user register. *)
Definition user_slot (r : reg) : Z :=
  match list_find (fun x : reg * Z => fst x = r) tf_slots with
  | Some (_, x) => snd x
  | None => 112
  end.

Lemma user_slot_in r : r <> a0 -> (r, user_slot r) ∈ tf_slots.
Proof. destruct r; intros H; [by apply (bool_decide_unpack _); vm_compute..]. Qed.

Lemma user_slot_far r : r <> a0 -> user_slot r + 8 <= 112 \/ 120 <= user_slot r.
Proof. destruct r; intros H; try done; first [left; vm_compute; discriminate|right; vm_compute; discriminate]. Qed.

Lemma kernel_slot r o : (r, o) ∈ kernel_slots -> o `mod` 8 = 0 /\ o <= 32 /\ o ∉ (snd <$> tf_slots).
Proof.
  assert (F : Forall (fun x : reg * Z => snd x `mod` 8 = 0 /\ snd x <= 32 /\ snd x ∉ (snd <$> tf_slots)) kernel_slots)
    by (by apply (bool_decide_unpack _); vm_compute).
  intros H. rewrite Forall_forall in F. exact (F _ H).
Qed.

Lemma uservec_code :
  uservec = [Csrrw a0 sscratch a0] ++ saves a0 tf_slots ++ [Csrr t0 sscratch; Sd t0 112 a0] ++ loads a0 kernel_slots ++ [Csrw satp t1; Sfence; Jr t0].
Proof. reflexivity. Qed.

Lemma userret_code :
  userret = [Csrw satp a1; Sfence; Ld t0 112 a0; Csrw sscratch t0] ++ loads a0 tf_slots ++ [Csrrw a0 sscratch a0; Sret].
Proof. reflexivity. Qed.

(** The trap of a user process whose trapframe, at physical address [pa], is
    mapped at the address in sscratch. *)
Lemma uservec_run h pa :
  regs_ok h -> (forall c, 0 <= h_csr h c < 2 ^ 64) -> frame_at h (h_csr h sscratch) pa 288 ->
  exists h', run_asm uservec h = Goto (TAddr (ld64 (h_mem h) (pa + 16))) h' /\ same_outside (h_mem h) (h_mem h') pa 288 /\
    h_mode h' = h_mode h /\ h_csr h' satp = ld64 (h_mem h) pa /\ h_reg h' sp = ld64 (h_mem h) (pa + 8) /\
    h_reg h' tp = ld64 (h_mem h) (pa + 32) /\ forall r, ld64 (h_mem h') (pa + user_slot r) = h_reg h r.
Proof.
  intros Hr Hcs Hf. set (tf := h_csr h sscratch) in *.
  set (h0 := set_reg a0 tf (set_csr sscratch (h_reg h a0) h)).
  assert (Hf0 : frame_at h0 (h_reg h0 a0) pa 288) by (by apply (frame_at_same h)).
  assert (Hr0 : regs_ok h0) by (intros r; simpl; case_decide; [apply Hcs|apply Hr]).
  destruct (run_saves a0 tf_slots h0 (h_mem h) pa 288) as (m2 & R & Hs & Hin & Hout);
    [done|by apply (bool_decide_unpack _); vm_compute|done|done|].
  change (set_mem (h_mem h) h0) with h0 in R.
  set (h1 := set_reg t0 (h_reg h a0) (set_mem m2 h0)). set (m3 := st64 m2 (pa + 112) (h_reg h a0)).
  assert (Hs3 : same_outside (h_mem h) m3 pa 288) by (apply same_outside_st; [done|lia|lia]).
  assert (E1 : step1 (Sd t0 112 a0) h1 = Fell (set_mem m3 h1)).
  { destruct Hf0 as (Hv & Hv' & Hx). simpl. unfold effective. change (h_reg h1 a0) with tf. change (h_reg h0 a0) with tf in *.
    rewrite u64_small by lia. pose proof (Hx m2 Hs 112 ltac:(lia)) as X. change (xlate h1 (tf + 112)) with (xlate (set_mem m2 h0) (tf + 112)). by rewrite X. }
  destruct (run_loads a0 kernel_slots (set_mem m3 h1) tf pa 288) as (h' & R2 & E2 & E3 & E4 & E5 & E6).
  { apply (frame_at_same (set_mem m3 h0)); [done|done|done|]. by apply frame_at_mem. }
  { done. }
  { by apply (bool_decide_unpack _); vm_compute. }
  { by apply (bool_decide_unpack _); vm_compute. }
  { intros o Ho. exfalso. by apply (not_slot a0 o kernel_slots). }
  assert (K : forall r o, (r, o) ∈ kernel_slots -> h_reg h' r = ld64 (h_mem h) (pa + o)).
  { intros r o Hro. rewrite (E5 r o Hro). cbn [set_mem h_mem]. unfold m3.
    destruct (kernel_slot r o Hro) as (Ho1 & Ho2 & Ho3).
    rewrite ld64_st64_ne by lia. by apply Hout. }
  exists (set_csr satp (h_reg h' t1) h'). rewrite uservec_code, run_app.
  change (run_asm [Csrrw a0 sscratch a0] h) with (Fell h0). cbn iota. rewrite run_app, R, run_app.
  change (run_asm [Csrr t0 sscratch; Sd t0 112 a0] (set_mem m2 h0)) with (match step1 (Sd t0 112 a0) h1 with Fell h' => Fell h' | r => r end).
  rewrite E1, run_app, R2. simpl. rewrite E3.
  assert (KB : forall r o, bool_decide ((r, o) ∈ kernel_slots) = true -> h_reg h' r = ld64 (h_mem h) (pa + o))
    by (intros r o H%bool_decide_eq_true; by apply K).
  split_and!; [by rewrite (KB t0 16 eq_refl)|done|by rewrite E4|by rewrite (KB t1 0 eq_refl), Z.add_0_r
    |exact (KB sp 8 eq_refl)|exact (KB tp 32 eq_refl)|].
  - intros r. destruct (decide (r = a0)) as [->|Hra].
    + change (user_slot a0) with 112. apply ld64_st64_eq, Hr.
    + pose proof (user_slot_in r Hra) as Hin1. unfold m3. cbn [set_mem h_mem].
      rewrite ld64_st64_ne; [rewrite (Hin r _ Hin1); simpl; by rewrite decide_False|].
      pose proof (user_slot_far r Hra). lia.
Qed.
(** Back to the user: every register from its slot. *)
Lemma userret_run h tf pa :
  h_reg h a0 = tf -> frame_at (set_csr satp (h_reg h a1) h) tf pa 288 ->
  exists h', run_asm userret h = Goto TSret h' /\ h_mem h' = h_mem h /\ h_mode h' = h_mode h /\
    h_csr h' satp = h_reg h a1 /\ h_csr h' sscratch = tf /\
    forall r, h_reg h' r = ld64 (h_mem h) (pa + user_slot r).
Proof.
  intros Ha0 Hf. set (h0 := set_csr satp (h_reg h a1) h) in *.
  set (h1 := set_csr sscratch (ld64 (h_mem h) (pa + 112)) (set_reg t0 (ld64 (h_mem h) (pa + 112)) h0)).
  assert (E1 : step1 (Ld t0 112 a0) h0 = Fell (set_reg t0 (ld64 (h_mem h) (pa + 112)) h0)).
  { destruct Hf as (Hv & Hv' & Hx). simpl. unfold effective. change (h_reg h0 a0) with (h_reg h a0). rewrite Ha0, u64_small by lia.
    pose proof (Hx (h_mem h0) (same_outside_refl _ _ _) 112 ltac:(lia)) as X. rewrite set_mem_same in X. by rewrite X. }
  destruct (run_loads a0 tf_slots h1 tf pa 288) as (h' & R & E2 & E3 & E4 & E5 & E6).
  { by apply (frame_at_same h0). }
  { done. }
  { by apply (bool_decide_unpack _); vm_compute. }
  { by apply (bool_decide_unpack _); vm_compute. }
  { intros o Ho. exfalso. by apply (not_slot a0 o tf_slots). }
  exists (set_reg a0 (ld64 (h_mem h) (pa + 112)) (set_csr sscratch tf h')). rewrite userret_code, run_app.
  change (run_asm [Csrw satp a1; Sfence; Ld t0 112 a0; Csrw sscratch t0] h)
    with (match step1 (Ld t0 112 a0) h0 with Fell h' => Fell (set_csr sscratch (h_reg h' t0) h') | r => r end).
  rewrite E1. cbn iota. change (set_csr sscratch (h_reg (set_reg t0 _ h0) t0) (set_reg t0 _ h0)) with h1. rewrite run_app, R.
  assert (Ha : h_reg h' a0 = tf) by (rewrite E6; [done|by apply (bool_decide_unpack _); vm_compute]).
  split_and!; [|done|done| |done|].
  - simpl. by rewrite E2, Ha.
  - simpl. by rewrite E2.
  - intros r. cbn [h_reg set_reg set_csr]. case_decide as D; [by subst r|]. by rewrite (E5 r _ (user_slot_in r D)).
Qed.

(** ** kernelvec *)

Definition kv_restored : slots :=
  [(ra, 0); (sp, 8); (gp, 16); (t0, 32); (t1, 40); (t2, 48); (s0, 56); (s1, 64); (a0, 72); (a1, 80); (a2, 88);
   (a3, 96); (a4, 104); (a5, 112); (a6, 120); (a7, 128); (s2, 136); (s3, 144); (s4, 152); (s5, 160); (s6, 168);
   (s7, 176); (s8, 184); (s9, 192); (s10, 200); (s11, 208); (t3, 216); (t4, 224); (t5, 232); (t6, 240)].
Definition kv_saved : slots := take 3 kv_restored ++ (tp, 24) :: drop 3 kv_restored.

Lemma kernelvec_code :
  kernelvec = [Addi sp sp (-256)] ++ saves sp kv_saved ++ [Call "kerneltrap"] ++ loads sp kv_restored ++ [Addi sp sp 256; Sret].
Proof. reflexivity. Qed.

Lemma kv_slot r : r <> tp -> exists o, (r, o) ∈ kv_restored /\ (r, o) ∈ kv_saved.
Proof.
  intros Hr. assert (F : Forall (fun x => x ∈ kv_saved) kv_restored) by (by apply (bool_decide_unpack _); vm_compute).
  assert (Hin : r ∈ (fst <$> kv_restored)) by (destruct r; try done; by apply (bool_decide_unpack _); vm_compute).
  apply list_elem_of_fmap in Hin as ([r' o] & -> & Hin). exists o. split; [done|]. rewrite Forall_forall in F. by apply F.
Qed.

(** A C function called with its frame of [n] bytes at [va]: it returns with
    the stack pointer and the caller's frame as they were. *)
Definition keeps_frame (f : hart -> hart) (va pa n : Z) : Prop :=
  forall h, h_reg h sp = va -> frame_at h va pa n ->
    h_reg (f h) sp = va /\ frame_at (f h) va pa n /\ forall x, pa <= x < pa + n -> bget (h_mem (f h)) x = bget (h_mem h) x.

Lemma kernelvec_run h va pa :
  regs_ok h -> va = h_reg h sp - 256 -> frame_at h va pa 256 -> keeps_frame (callee "kerneltrap") va pa 256 ->
  exists hc h', run_asm kernelvec h = Goto TSret h' /\ h_csr hc = h_csr h /\ same_outside (h_mem h) (h_mem hc) pa 256 /\
    h_mem h' = h_mem (callee "kerneltrap" hc) /\ h_csr h' = h_csr (callee "kerneltrap" hc) /\
    h_reg h' tp = h_reg (callee "kerneltrap" hc) tp /\ forall r, r <> tp -> h_reg h' r = h_reg h r.
Proof.
  intros Hr Hva Hf Hk. set (h0 := set_reg sp va h). pose proof Hf as (Hv & Hv' & _). pose proof (Hr sp) as Hsp.
  assert (Hf0 : frame_at h0 va pa 256) by (by apply (frame_at_same h)).
  assert (Hr0 : regs_ok h0) by (intros r; simpl; case_decide; [lia|apply Hr]).
  destruct (run_saves sp kv_saved h0 (h_mem h) pa 256) as (m2 & R & Hs & Hin & _);
    [done|by apply (bool_decide_unpack _); vm_compute|done|done|].
  set (hc := set_mem m2 h0) in *. set (hr := callee "kerneltrap" hc).
  destruct (Hk hc eq_refl (frame_at_mem h0 m2 va pa 256 Hs Hf0)) as (Ksp & Kf & Km). fold hr in Ksp, Kf, Km.
  assert (Hld : forall r o, (r, o) ∈ kv_saved -> ld64 (h_mem hr) (pa + o) = h_reg h0 r).
  { intros r o Hro. rewrite <- (Hin r o Hro). apply ld64_ext. intros x Hx. apply Km.
    assert (F : Forall (fun x : reg * Z => 0 <= snd x /\ snd x + 8 <= 256) kv_saved) by (by apply (bool_decide_unpack _); vm_compute).
    rewrite Forall_forall in F. specialize (F _ Hro). simpl in F. lia. }
  destruct (run_loads sp kv_restored hr va pa 256) as (h' & R2 & E2 & E3 & E4 & E5 & E6).
  { done. }
  { done. }
  { by apply (bool_decide_unpack _); vm_compute. }
  { by apply (bool_decide_unpack _); vm_compute. }
  { intros o Ho. destruct (kv_slot sp ltac:(done)) as (o' & H1 & H2).
    assert (F : forall o, (sp, o) ∈ kv_restored -> o = 8).
    { intros q Hq. unfold kv_restored in Hq. repeat (apply elem_of_cons in Hq as [Hq|Hq]; [congruence|]). by apply elem_of_nil in Hq. }
    rewrite (F o Ho). rewrite (F o' H1) in H2. by rewrite (Hld sp 8 H2). }
  exists hc, (set_reg sp (u64 (va + 256)) h'). rewrite kernelvec_code, run_app.
  assert (E0 : run_asm [Addi sp sp (-256)] h = Fell h0) by (simpl; unfold h0; rewrite Hva, u64_small by lia; done).
  rewrite E0, run_app. change (set_mem (h_mem h) h0) with h0 in R. rewrite R, run_app. cbn [run_asm step1]. fold hr. rewrite run_app, R2.
  assert (Esp : h_reg h' sp = va) by (rewrite (E5 sp 8); [apply (Hld sp 8)|]; by apply (bool_decide_unpack _); vm_compute).
  split_and!; [simpl; by rewrite Esp|done|done|by rewrite <- E3|by rewrite <- E2| |].
  - simpl. apply E6. by apply (bool_decide_unpack _); vm_compute.
  - intros r Htp. cbn [set_reg h_reg]. case_decide as D; [subst r; rewrite u64_small by lia; lia|].
    destruct (kv_slot r Htp) as (o & H1 & H2). rewrite (E5 r o H1), (Hld r o H2). simpl. by rewrite decide_False.
Qed.

End Frames.

(** ** The timer *)

Section Timer.
Context {MM : Mmu} {LK : Linked}.

Definition TIMER_CAUSE : Z := 2 ^ 63 + 7.

(** What start() leaves for timervec on hart [id]. *)
Record timer_ready (id : Z) (h : hart) : Prop := {
  tr_scratch : h_csr h mscratch = scratch_addr id;
  tr_vec : h_csr h mtvec = symbol "timervec";
  tr_cmp : ld64 (h_mem h) (scratch_addr id + 24) = CLINT_MTIMECMP id;
  tr_interval : ld64 (h_mem h) (scratch_addr id + 32) = timer_interval
}.

(** timer_scratch[] is in the kernel's data, above the CLINT. *)
Definition scratch_ok : Prop := CLINT + 0x10000 <= symbol "timer_scratch" /\ symbol "timer_scratch" + 40 * 8 < 2 ^ 64.

Lemma scratch_bounds id :
  scratch_ok -> 0 <= id < 8 -> 0 <= scratch_addr id /\ scratch_addr id + 40 < 2 ^ 64 /\
  CLINT_MTIMECMP id + 8 <= scratch_addr id /\ 0 <= CLINT_MTIMECMP id < 2 ^ 64.
Proof. unfold scratch_ok, scratch_addr, CLINT_MTIMECMP, CLINT. lia. Qed.

Lemma timerinit_ready h id :
  scratch_ok -> h_csr h mhartid = id -> 0 <= id < 8 ->
  timer_ready id (timerinit h) /\ ld64 (h_mem (timerinit h)) (CLINT_MTIMECMP id) = u64 (ld64 (h_mem h) CLINT_MTIME + timer_interval).
Proof.
  intros [S1 S2] Hid Hr. assert (E : i32 (h_csr h mhartid) = id) by (rewrite Hid; apply i32_small; lia).
  unfold timerinit. autounfold with riscv. rewrite E. unfold CLINT in *. split; [split|]; cbn [h_mem h_csr set_mem set_csr].
  - done.
  - done.
  - rewrite ld64_st64_ne by lia. apply ld64_st64_eq. unfold CLINT_MTIMECMP, CLINT. lia.
  - apply ld64_st64_eq. unfold timer_interval. lia.
  - unfold scratch_addr, CLINT_MTIMECMP, CLINT. rewrite !ld64_st64_ne by lia. apply ld64_st64_eq, u64_range.
Qed.

Lemma pmp_ready id h v : timer_ready id h -> timer_ready id (pmpinit (set_reg tp v h)).
Proof. by intros []. Qed.

(** One instruction at a time. *)
Lemma run_step i p h h' : step1 i h = Fell h' -> run_asm (i :: p) h = run_asm p h'.
Proof. intros E. simpl. by rewrite E. Qed.

Lemma m_sd rs off rb h a : h_mode h = M_mode -> u64 (h_reg h rb + off) = a -> step1 (Sd rs off rb) h = Fell (set_mem (st64 (h_mem h) a (h_reg h rs)) h).
Proof. intros Hm Ha. simpl. unfold effective, xlate. by rewrite Hm, Ha. Qed.

Lemma m_ld rd off rb h a v :
  h_mode h = M_mode -> u64 (h_reg h rb + off) = a -> ld64 (h_mem h) a = v -> step1 (Ld rd off rb) h = Fell (set_reg rd v h).
Proof. intros Hm Ha Hv. simpl. unfold effective, xlate. by rewrite Hm, Ha, Hv. Qed.

Lemma m_bgez rs l h v : h_reg h rs = v -> (sgn 64 v <? 0) = true -> step1 (Bgez rs l) h = Fell h.
Proof. intros E H. simpl. by rewrite E, H. Qed.

Lemma m_bne rs rt l h : h_reg h rs = h_reg h rt -> step1 (Bne rs rt l) h = Fell h.
Proof. intros E. simpl. by rewrite E, Z.eqb_refl. Qed.

Lemma timervec_run h sc cmp :
  regs_ok h -> h_mode h = M_mode -> h_csr h mscratch = sc -> h_csr h mcause = TIMER_CAUSE ->
  0 <= sc -> sc + 40 < 2 ^ 64 -> cmp = ld64 (h_mem h) (sc + 24) -> 0 <= cmp < 2 ^ 64 -> cmp + 8 <= sc \/ sc + 40 <= cmp ->
  exists h', run_asm timervec h = Goto TMret h' /\ (forall r, h_reg h' r = h_reg h r) /\
    (forall c, c <> sip -> h_csr h' c = h_csr h c) /\ h_csr h' sip = 2 /\ h_mode h' = M_mode /\
    ld64 (h_mem h') cmp = u64 (ld64 (h_mem h) cmp + ld64 (h_mem h) (sc + 32)) /\
    (forall a, a + 8 <= sc \/ sc + 24 <= a -> a + 8 <= cmp \/ cmp + 8 <= a -> ld64 (h_mem h') a = ld64 (h_mem h) a).
Proof.
  intros Hr Hm Hsc Hcause S1 S2 Hcmp C1 C2.
  set (m1 := st64 (st64 (st64 (h_mem h) sc (h_reg h a1)) (sc + 8) (h_reg h a2)) (sc + 16) (h_reg h a3)).
  set (m2 := st64 m1 cmp (u64 (ld64 (h_mem h) cmp + ld64 (h_mem h) (sc + 32)))).
  assert (F : forall a, a + 8 <= sc \/ sc + 24 <= a -> ld64 m1 a = ld64 (h_mem h) a) by (intros a Ha; unfold m1; by rewrite !ld64_st64_ne by lia).
  assert (L0 : ld64 m2 (sc + 0) = h_reg h a1) by (unfold m2, m1; rewrite Z.add_0_r, !ld64_st64_ne by lia; apply ld64_st64_eq, Hr).
  assert (L8 : ld64 m2 (sc + 8) = h_reg h a2) by (unfold m2, m1; rewrite !ld64_st64_ne by lia; apply ld64_st64_eq, Hr).
  assert (L16 : ld64 m2 (sc + 16) = h_reg h a3) by (unfold m2, m1; rewrite !ld64_st64_ne by lia; apply ld64_st64_eq, Hr).
  assert (U : forall o, 0 <= o < 40 -> u64 (sc + o) = sc + o) by (intros; apply u64_small; lia).
  eexists. unfold timervec. split.
  - erewrite run_step by reflexivity. rewrite Hsc.
    erewrite run_step by (apply (m_sd _ _ _ _ (sc + 0)); [done|apply U; lia]).
    erewrite run_step by (apply (m_sd _ _ _ _ (sc + 8)); [done|apply U; lia]).
    erewrite run_step by (apply (m_sd _ _ _ _ (sc + 16)); [done|apply U; lia]).
    erewrite run_step by reflexivity. erewrite run_step by (apply (m_bgez _ _ _ TIMER_CAUSE); [exact Hcause|reflexivity]).
    erewrite run_step by reflexivity. erewrite run_step by (apply m_bne; exact Hcause).
    rewrite Z.add_0_r. change (st64 (st64 (st64 _ sc _) (sc + 8) _) (sc + 16) _) with m1.
    erewrite run_step by (apply (m_ld _ _ _ _ (sc + 24) cmp); [done|apply U; lia|simpl; rewrite F by lia; done]).
    erewrite run_step by (apply (m_ld _ _ _ _ (sc + 32) (ld64 (h_mem h) (sc + 32))); [done|apply U; lia|simpl; apply F; lia]).
    erewrite run_step by (apply (m_ld _ _ _ _ cmp (ld64 (h_mem h) cmp)); [done|simpl; rewrite Z.add_0_r; apply u64_small; lia|simpl; apply F; lia]).
    erewrite run_step by reflexivity.
    erewrite run_step by (apply (m_sd _ _ _ _ cmp); [done|simpl; rewrite Z.add_0_r; apply u64_small; lia]).
    erewrite run_step by reflexivity. erewrite run_step by reflexivity.
    erewrite run_step by (apply (m_ld _ _ _ _ (sc + 16) (h_reg h a3)); [done|apply U; lia|exact L16]).
    erewrite run_step by (apply (m_ld _ _ _ _ (sc + 8) (h_reg h a2)); [done|apply U; lia|exact L8]).
    erewrite run_step by (apply (m_ld _ _ _ _ (sc + 0) (h_reg h a1)); [done|apply U; lia|exact L0]).
    erewrite run_step by reflexivity. reflexivity.
  - split_and!; [intros r; simpl; repeat case_decide; congruence|intros c Hc; simpl; repeat case_decide; congruence|done|done|apply ld64_st64_eq, u64_range|].
    intros a Ha Ha'. change (ld64 m2 a = ld64 (h_mem h) a). unfold m2. rewrite ld64_st64_ne by lia. by apply F.
Qed.
End Timer.

(** ** The properties *)

Section Properties.
Context {MM : Mmu} {LK : Linked}.

(** C20: A thread that swtch() suspends is resumed as it was.  swtch() continues
    at the return address of the new context with its stack pointer and
    callee-saved registers, and writes nothing but the old context; a later
    swtch() to that context, whatever ran in between, returns to where the
    first one was called with all fourteen registers as they were then. *)
Theorem swtch_resumes h old new :
  regs_ok h -> contexts_at h old new ->
  exists h1, run_asm swtch_S h = Goto (TAddr (ld64 (h_mem h) new)) h1 /\ same_outside (h_mem h) (h_mem h1) old 112 /\
    (forall r o, (r, o) ∈ ctx_slots -> h_reg h1 r = ld64 (h_mem h) (new + o)) /\
    forall h2 old2, regs_ok h2 -> contexts_at h2 old2 old ->
      (forall x, old <= x < old + 112 -> bget (h_mem h2) x = bget (h_mem h1) x) ->
      exists h3, run_asm swtch_S h2 = Goto (TAddr (h_reg h ra)) h3 /\ forall r o, (r, o) ∈ ctx_slots -> h_reg h3 r = h_reg h r.
Proof.
  intros Hr Hc. destruct (swtch_run h old new Hr Hc) as (h1 & R & Hs & _ & _ & _ & H). exists h1.
  split_and!; [done|done|by intros r o Hro; apply H|]. intros h2 old2 Hr2 Hc2 Hm.
  destruct (swtch_run h2 old2 old Hr2 Hc2) as (h3 & R3 & _ & _ & _ & _ & H3).
  assert (Hk : forall r o, (r, o) ∈ ctx_slots -> ld64 (h_mem h2) (old + o) = h_reg h r).
  { intros r o Hro. rewrite <- (proj1 (H r o Hro)). apply ld64_ext. intros x Hx. apply Hm.
    assert (F : Forall (fun x : reg * Z => 0 <= snd x /\ snd x + 8 <= 112) ctx_slots) by (by apply (bool_decide_unpack _); vm_compute).
    rewrite Forall_forall in F. specialize (F _ Hro). simpl in F. lia. }
  exists h3. split; [|intros r o Hro; by rewrite (proj2 (H3 r o Hro)), (Hk r o Hro)].
  rewrite R3, <- (Hk ra 0) by (by left). by rewrite Z.add_0_r.
Qed.

(** C19: A trap gives the user program back every register.  uservec enters
    usertrap() on the kernel's stack, hart id and page table taken from the
    trapframe, and writes nothing but the trapframe; when the kernel returns
    through userret with the saved registers untouched, all 31 registers have
    the values they had at the trap, under the user's page table and with
    sscratch ready for the next trap. *)
Theorem trap_roundtrip h pa :
  regs_ok h -> (forall c, 0 <= h_csr h c < 2 ^ 64) -> frame_at h (h_csr h sscratch) pa 288 ->
  exists h1, run_asm uservec h = Goto (TAddr (ld64 (h_mem h) (pa + 16))) h1 /\ same_outside (h_mem h) (h_mem h1) pa 288 /\
    h_csr h1 satp = ld64 (h_mem h) pa /\ h_reg h1 sp = ld64 (h_mem h) (pa + 8) /\ h_reg h1 tp = ld64 (h_mem h) (pa + 32) /\
    forall h2, h_reg h2 a0 = h_csr h sscratch -> h_reg h2 a1 = h_csr h satp ->
      frame_at (set_csr satp (h_reg h2 a1) h2) (h_csr h sscratch) pa 288 ->
      (forall r, ld64 (h_mem h2) (pa + user_slot r) = ld64 (h_mem h1) (pa + user_slot r)) ->
      exists h3, run_asm userret h2 = Goto TSret h3 /\ (forall r, h_reg h3 r = h_reg h r) /\
        h_csr h3 satp = h_csr h satp /\ h_csr h3 sscratch = h_csr h sscratch.
Proof.
  intros Hr Hcs Hf. destruct (uservec_run h pa Hr Hcs Hf) as (h1 & R & Hs & _ & E1 & E2 & E3 & Hu). exists h1.
  split_and!; [done..|]. intros h2 Ha0 Ha1 Hf2 Hm.
  destruct (userret_run h2 (h_csr h sscratch) pa Ha0 Hf2) as (h3 & R3 & _ & _ & E4 & E5 & Hu3). exists h3.
  split_and!; [done| |congruence|done]. intros r. by rewrite Hu3, Hm, Hu.
Qed.

(** C21: An interrupt in the kernel is transparent.  kernelvec calls kerneltrap()
    with the registers saved below the stack pointer; for any kerneltrap()
    that respects its caller's frame, sret continues with every register as
    it was at the interrupt, except tp, which stays the id of the hart the
    thread now runs on. *)
Theorem kernelvec_transparent h va pa :
  regs_ok h -> va = h_reg h sp - 256 -> frame_at h va pa 256 -> keeps_frame (callee "kerneltrap") va pa 256 ->
  exists hc h', run_asm kernelvec h = Goto TSret h' /\ h_csr hc = h_csr h /\ same_outside (h_mem h) (h_mem hc) pa 256 /\
    h_mem h' = h_mem (callee "kerneltrap" hc) /\ h_csr h' = h_csr (callee "kerneltrap" hc) /\
    h_reg h' tp = h_reg (callee "kerneltrap" hc) tp /\ forall r, r <> tp -> h_reg h' r = h_reg h r.
Proof. apply kernelvec_run. Qed.

(** C22: The timer keeps ticking.  On every hart, start() leaves the scratch area
    that timervec expects; from such a state a machine timer interrupt
    changes no register, moves the hart's comparator on by the interval,
    raises a supervisor software interrupt and leaves the scratch area ready
    for the next one. *)
Theorem timer_ticks id :
  scratch_ok -> 0 <= id < 8 ->
  (forall h, h_csr h mhartid = id -> timer_ready id (start h)) /\
  (forall h, timer_ready id h -> regs_ok h -> h_mode h = M_mode -> h_csr h mcause = TIMER_CAUSE ->
   exists h', run_asm timervec h = Goto TMret h' /\ timer_ready id h' /\ (forall r, h_reg h' r = h_reg h r) /\
     h_csr h' sip = 2 /\ (forall c, c <> sip -> h_csr h' c = h_csr h c) /\
     ld64 (h_mem h') (CLINT_MTIMECMP id) = u64 (ld64 (h_mem h) (CLINT_MTIMECMP id) + timer_interval)).
Proof.
  intros Hs Hid. split.
  - intros h Hh. unfold start. cbv zeta. apply pmp_ready. by apply timerinit_ready.
  - intros h [E1 E2 E3 E4] Hr Hm Hc. destruct (scratch_bounds id Hs Hid) as (B1 & B2 & B3 & B4).
    destruct (timervec_run h (scratch_addr id) (CLINT_MTIMECMP id) Hr Hm E1 Hc B1 B2 (eq_sym E3) B4 (or_introl B3))
      as (h' & R & Rr & Rc & Rs & _ & Rm & Ro).
    exists h'. rewrite E4 in Rm. split_and!; [done| |done|done|done|done].
    split; [by rewrite Rc|by rewrite Rc|rewrite Ro by lia; done|rewrite Ro by lia; done].
Qed.

End Properties.

(** ** A concrete hart *)

#[local] Instance flat_mmu : Mmu := {| translate := fun _ _ va => Some va |}.
#[local] Instance linked0 : Linked := {|
  symbol := fun s => if decide (s = "timer_scratch"%string) then 0x80010000 else 0x80000000;
  callee := fun _ h => set_reg a0 0 (set_reg t0 0 (set_reg ra 0 h))
|}.

Definition hart0 : hart := Hart (fun r => if decide (r = a0) then 0x80020000 else 0x80021000) (fun _ => 0x8000000) ∅ S_mode.

Lemma hart0_regs : regs_ok hart0.
Proof. intros r. simpl. case_decide; lia. Qed.

Lemma flat_frame h va n : h_mode h = S_mode -> 0 <= va -> va + n < 2 ^ 64 -> frame_at h va va n.
Proof. intros Hm H1 H2. split_and!; [done|done|]. intros m' _ o Ho. unfold xlate. simpl. rewrite Hm. by case_match. Qed.

Lemma swtch_resumes_witness : exists h1, run_asm swtch_S hart0 = Goto (TAddr 0) h1 /\ h_reg h1 sp = 0.
Proof.
  destruct (swtch_resumes hart0 0x80020000 0x80021000 hart0_regs) as (h1 & R & _ & H & _).
  - split_and!; [by apply flat_frame|by left|]. intros m' _. by apply flat_frame.
  - exists h1. split; [exact R|]. apply (H sp 8). by apply (bool_decide_unpack _); vm_compute.
Defined.

Lemma trap_roundtrip_witness : exists h1, run_asm uservec hart0 = Goto (TAddr 0) h1 /\ h_reg h1 sp = 0.
Proof.
  destruct (trap_roundtrip hart0 0x8000000 hart0_regs ltac:(done)) as (h1 & R & _ & _ & H & _); [by apply flat_frame|].
  exists h1. split; [exact R|exact H].
Defined.

Lemma kernelvec_transparent_witness : exists h', run_asm kernelvec hart0 = Goto TSret h' /\ h_reg h' a0 = 0x80020000 /\ h_reg h' ra = 0x80021000.
Proof.
  destruct (kernelvec_transparent hart0 0x80020f00 0x80020f00 hart0_regs eq_refl) as (hc & h' & R & _ & _ & _ & _ & _ & H).
  - by apply flat_frame.
  - intros h Hsp Hf. split_and!; [done|by apply (frame_at_same h)|done].
  - exists h'. split_and!; [exact R|by rewrite H|by rewrite H].
Defined.

Lemma timer_ticks_witness : timer_ready 3 (start (set_csr mhartid 3 hart0)).
Proof. apply (timer_ticks 3); [split; vm_compute; [discriminate|reflexivity]|lia|done]. Defined.
