(* ===== verification/AsmType.v ===== *)
(** * Machine words of the assembly code

    The typing of a hart: every general and control register holds a 64-bit
    word and every address of memory a byte.  Every instruction keeps it, and
    so do the routines of swtch.S, trampoline.S, kernelvec.S and entry.S, and
    start(); and what start() leaves in the control registers. *)

From stdpp Require Import base numbers list list_numbers gmap strings.
From Stdlib Require Import ZArith Lia.
From S2P Require Import Prelude.
From S2P Require Import Machine.
From S2P Require Import Mem.
From S2P Require Import Riscv.
From S2P Require Import Asm.
From S2P Require Import AsmSpec.

Local Open Scope Z_scope.

Definition word (x : Z) : Prop := 0 <= x < 2 ^ 64.

Record hart_ok (h : hart) : Prop := {
  ok_reg : forall r, word (h_reg h r);
  ok_csr : forall c, word (h_csr h c);
  ok_mem : mem_ok (h_mem h)
}.

(** ** Words *)

Create HintDb words.

Lemma word_u64 x : word (u64 x).
Proof. apply Z.mod_pos_bound. lia. Qed.

Lemma word_land x y : word x -> word (Z.land x y).
Proof.
  intros [H0 H1]. assert (0 <= Z.land x y) by (apply Z.land_nonneg; lia). split; [done|].
  replace x with (x mod 2 ^ 64) by (apply Z.mod_small; lia). rewrite <- Z.land_ones by lia. rewrite <- Z.land_assoc, (Z.land_comm _ y), Z.land_assoc, Z.land_ones by lia.
  apply Z.mod_pos_bound. lia.
Qed.

Lemma word_lor x y : word x -> word y -> word (Z.lor x y).
Proof.
  intros [X0 X1] [Y0 Y1]. assert (0 <= Z.lor x y) by (apply Z.lor_nonneg; lia). split; [done|].
  replace x with (x mod 2 ^ 64) by (apply Z.mod_small; lia). replace y with (y mod 2 ^ 64) by (apply Z.mod_small; lia).
  rewrite <- !Z.land_ones, <- Z.land_lor_distr_l, Z.land_ones by lia. apply Z.mod_pos_bound. lia.
Qed.

Lemma word_ld64 m a : mem_ok m -> word (ld64 m a).
Proof. apply ld64_range. Qed.

#[export] Hint Resolve word_u64 word_land word_lor word_ld64 ok_reg ok_csr ok_mem st64_ok : words.

(** The constants of riscv.h are words by computation. *)
Ltac word_const :=
  lazymatch goal with
  | |- word (u64 _) => fail
  | |- word (ld64 _ _) => fail
  | |- word (symbol _) => fail
  | |- word (h_reg _ _) => fail
  | |- word (h_csr _ _) => fail
  | |- word (scratch_addr _) => fail
  | |- word (Z.land _ _) => fail
  | |- word (Z.lor _ _) => fail
  | |- word _ => split; vm_compute; congruence
  end.
#[export] Hint Extern 3 (word _) => word_const : words.

(** ** Updates *)

Lemma hart_ok_reg h r v : hart_ok h -> word v -> hart_ok (set_reg r v h).
Proof. intros [R C M] Hv. split; [|done|done]. intros q. simpl. by case_decide. Qed.

Lemma hart_ok_csr h c v : hart_ok h -> word v -> hart_ok (set_csr c v h).
Proof. intros [R C M] Hv. split; [done| |done]. intros q. simpl. by case_decide. Qed.

Lemma hart_ok_mem h m : hart_ok h -> mem_ok m -> hart_ok (set_mem m h).
Proof. intros [R C M] Hm. by split. Qed.

#[export] Hint Resolve hart_ok_reg hart_ok_csr hart_ok_mem : words.

Section Typing.
Context {MM : Mmu} {LK : Linked}.

(** What the rest of the kernel owes: symbols below 2^63, and C functions that
    keep the types. *)
Definition linked_ok : Prop :=
  (forall s, 0 <= symbol s < 2 ^ 63) /\ (forall s h, hart_ok h -> hart_ok (callee s h)).

Definition target_ok (t : target) : Prop := match t with TAddr a => word a | _ => True end.

Definition result_ok (r : result) : Prop :=
  match r with
  | Fell h => hart_ok h
  | Goto t h => target_ok t /\ hart_ok h
  | PageFault va h => word va /\ hart_ok h
  end.

Lemma word_symbol s : linked_ok -> word (symbol s).
Proof. intros [H _]. specialize (H s). split; lia. Qed.

Lemma step1_typed i h : linked_ok -> hart_ok h -> result_ok (step1 i h).
Proof.
  intros L H. pose proof (fun s => word_symbol s L) as Hs. destruct L as [_ Hc].
  destruct i; cbn [step1]; unfold effective; repeat case_match; cbn [result_ok target_ok]; try split; auto 6 with words.
Qed.

Lemma run_asm_typed p h : linked_ok -> hart_ok h -> result_ok (run_asm p h).
Proof.
  intros L. revert h. induction p as [|i p IH]; intros h H; [done|]. cbn [run_asm].
  pose proof (step1_typed i h L H) as G. by destruct (step1 i h); [apply IH|..].
Qed.

Lemma start_typed h : linked_ok -> hart_ok h -> 0 <= h_csr h mhartid < 8 -> hart_ok (start h).
Proof.
  intros L H Hid. pose proof (fun s => word_symbol s L) as Hs. destruct L as [Hb _].
  assert (Hsc : word (scratch_addr (i32 (h_csr h mhartid)))) by (rewrite i32_small by lia; specialize (Hb "timer_scratch"%string); unfold word, scratch_addr; lia).
  unfold start, pmpinit, timerinit, w_pmpcfg0, w_pmpaddr0, w_tp, w_mie, w_mstatus, w_mtvec, w_mscratch, w_sie, w_mideleg, w_medeleg, w_satp, w_mepc.
  unfold r_mhartid, r_mstatus, r_mie, r_sie. cbv zeta.
  repeat first [apply hart_ok_reg | apply hart_ok_csr | apply hart_ok_mem | exact H]; auto 40 with words.
Qed.

(** ** Control registers by their bits *)

Lemma mpp_mask_bit n : 0 <= n -> Z.testbit MSTATUS_MPP_MASK n = (n =? 11) || (n =? 12).
Proof. intros Hn. change MSTATUS_MPP_MASK with (Z.lor (2 ^ 11) (2 ^ 12)). rewrite Z.lor_spec, !Z.pow2_bits_eqb by lia. by rewrite !(Z.eqb_sym n). Qed.

(** mstatus after start(): MIE (bit 3) is set, MPP (bits 11 and 12) is
    supervisor mode, the rest is as it was. *)
Lemma start_mstatus h n :
  0 <= n -> Z.testbit (h_csr (start h) mstatus) n = (n =? 3) || (n =? 11) || (negb (n =? 12) && Z.testbit (h_csr h mstatus) n).
Proof.
  intros Hn. change (h_csr (start h) mstatus) with (Z.lor (Z.lor (Z.land (h_csr h mstatus) (Z.lnot MSTATUS_MPP_MASK)) (2 ^ 11)) (2 ^ 3)).
  rewrite !Z.lor_spec, Z.land_spec, Z.lnot_spec, mpp_mask_bit, !Z.pow2_bits_eqb, !(Z.eqb_sym n) by lia.
  destruct (3 =? n), (11 =? n), (12 =? n), (Z.testbit (h_csr h mstatus) n); done.
Qed.

(** sie after start(): software, timer and external interrupts are enabled. *)
Lemma start_sie h n :
  Z.testbit (h_csr (start h) sie) n = (n =? 1) || (n =? 5) || (n =? 9) || Z.testbit (h_csr h sie) n.
Proof.
  change (h_csr (start h) sie) with (Z.lor (Z.lor (Z.lor (h_csr h sie) (2 ^ 9)) (2 ^ 5)) (2 ^ 1)).
  rewrite !Z.lor_spec, !Z.pow2_bits_eqb, !(Z.eqb_sym n) by lia.
  destruct (1 =? n), (5 =? n), (9 =? n), (Z.testbit (h_csr h sie) n); done.
Qed.

Lemma start_mie h n : Z.testbit (h_csr (start h) mie) n = (n =? 7) || Z.testbit (h_csr h mie) n.
Proof.
  change (h_csr (start h) mie) with (Z.lor (h_csr h mie) (2 ^ 7)). rewrite Z.lor_spec, Z.pow2_bits_eqb, (Z.eqb_sym n) by lia. apply orb_comm.
Qed.

(** *** Physical memory protection

    Entry 0 as the privileged specification (3.6.1) reads it: pmpaddr0 holds
    bits 55 to 2 of an address in its low 54 bits, and under NAPOT the trailing
    ones and the zero above them are not compared. *)
Definition pmp0_allows (h : hart) (a : Z) : bool :=
  let p := h_csr h pmpaddr0 `mod` 2 ^ 54 in
  let care := Z.lnot (Z.lxor p (p + 1)) in
  (Z.land (h_csr h pmpcfg0) (Z.shiftl 3 3) =? PMP_MATCH_NAPOT) &&
  (Z.land (h_csr h pmpcfg0) 7 =? Z.lor (Z.lor PMP_R PMP_W) PMP_X) &&
  (Z.land (Z.shiftr a 2) care =? Z.land p care).

Lemma start_pmp h a : 0 <= a < 2 ^ 56 -> pmp0_allows (start h) a = true.
Proof.
  intros Ha. unfold pmp0_allows. change (h_csr (start h) pmpaddr0) with (2 ^ 64 - 1). change (h_csr (start h) pmpcfg0) with 31.
  change ((2 ^ 64 - 1) `mod` 2 ^ 54) with (Z.ones 54). change (Z.lxor (Z.ones 54) (Z.ones 54 + 1)) with (Z.ones 55). cbv zeta.
  change (Z.land (Z.ones 54) (Z.lnot (Z.ones 55))) with 0.
  change (Z.land 31 (Z.shiftl 3 3) =? PMP_MATCH_NAPOT) with true. change (Z.land 31 7 =? Z.lor (Z.lor PMP_R PMP_W) PMP_X) with true. cbn [andb].
  apply Z.eqb_eq. rewrite <- Z.ldiff_land, Z.ldiff_ones_r, Z.shiftr_shiftr by lia. rewrite (Z.shiftr_div_pow2 a) by lia.
  rewrite Z.div_small by (change (2 ^ (2 + 55)) with (2 * 2 ^ 56); lia). done.
Qed.

(** The registers start() writes. *)
Definition start_csrs : list creg :=
  [mstatus; mepc; satp; medeleg; mideleg; sie; mscratch; mtvec; mie; pmpaddr0; pmpcfg0].

Lemma start_timer id h :
  scratch_ok -> 0 <= id < 8 -> h_csr h mhartid = id ->
  timer_ready id (start h) /\ ld64 (h_mem (start h)) (CLINT_MTIMECMP id) = u64 (ld64 (h_mem h) CLINT_MTIME + timer_interval).
Proof.
  intros Hs Hid Hh. unfold start. cbv zeta. match goal with |- context [timerinit ?x] => destruct (timerinit_ready x id Hs Hh Hid) as [T E] end.
  split; [by apply pmp_ready|exact E].
Qed.

(** C23: start() prepares a hart for supervisor mode.  On each of the eight
    harts, whose registers hold 64-bit words and whose memory holds bytes: the
    final mret will enter main() in supervisor mode (mepc, and MPP in mstatus)
    with paging off; all exceptions and interrupts are delegated; the three
    supervisor interrupts and the machine timer interrupt are enabled, with
    machine interrupts on; the timer is armed one interval ahead and its
    handler timervec finds its scratch area; entry 0 of the physical memory
    protection allows every access to every 56-bit address; and tp holds the
    hart's number, for cpuid().  Every other general and control register and
    every other bit of mstatus, sie and mie is as it was, and all registers
    still hold words and the memory bytes. *)
Theorem start_prepares h :
  linked_ok -> scratch_ok -> hart_ok h -> 0 <= h_csr h mhartid < 8 ->
  let id := h_csr h mhartid in
  let h' := start h in
  (h_csr h' mepc = symbol "main" /\ h_csr h' satp = 0 /\ h_csr h' medeleg = 0xffff /\ h_csr h' mideleg = 0xffff) /\
  (forall n, 0 <= n -> Z.testbit (h_csr h' mstatus) n = (n =? 3) || (n =? 11) || (negb (n =? 12) && Z.testbit (h_csr h mstatus) n)) /\
  (forall n, Z.testbit (h_csr h' sie) n = (n =? 1) || (n =? 5) || (n =? 9) || Z.testbit (h_csr h sie) n) /\
  (forall n, Z.testbit (h_csr h' mie) n = (n =? 7) || Z.testbit (h_csr h mie) n) /\
  (timer_ready id h' /\ ld64 (h_mem h') (CLINT_MTIMECMP id) = u64 (ld64 (h_mem h) CLINT_MTIME + timer_interval)) /\
  (forall a, 0 <= a < 2 ^ 56 -> pmp0_allows h' a = true) /\
  (h_reg h' tp = id /\ (forall q, q <> tp -> h_reg h' q = h_reg h q) /\ (forall q, q ∉ start_csrs -> h_csr h' q = h_csr h q) /\ h_mode h' = h_mode h) /\
  hart_ok h'.
Proof.
  intros L Hs H Hid id h'. split_and!; try done.
  - intros n Hn. by apply start_mstatus.
  - intros n. apply start_sie.
  - intros n. apply start_mie.
  - by apply start_timer.
  - by apply start_timer.
  - intros a. apply start_pmp.
  - change (h_reg h' tp) with (u64 (i32 id)). unfold id. rewrite i32_small by lia. unfold u64. apply Z.mod_small. lia.
  - intros q Hq. unfold h'. cbn. by rewrite decide_False.
  - intros q Hq. unfold h', start_csrs in *. cbn. rewrite !decide_False by (intros ->; apply Hq; set_solver). done.
  - by apply start_typed.
Qed.

End Typing.

(** ** A concrete hart *)

#[local] Instance typed_mmu : Mmu := {| translate := fun _ _ va => if va <? 4096 then None else Some va |}.
#[local] Instance typed_linked : Linked := {| symbol := fun _ => 0x80010000; callee := fun _ h => set_reg a0 0 h |}.

Lemma start_prepares_witness : let h := Hart (fun _ => 2 ^ 64 - 1) (fun _ => 3) ∅ M_mode in
  h_csr (start h) mepc = 0x80010000 /\ h_reg (start h) tp = 3 /\ hart_ok (start h).
Proof.
  intros h. assert (L : linked_ok) by (split; [intros s; simpl; lia|intros s g Hg; apply hart_ok_reg; [exact Hg|split; lia]]).
  assert (H : hart_ok h) by (split; [intros r; simpl; split; lia|intros c; simpl; split; lia|intros a; simpl; rewrite lookup_empty; split; simpl; lia]).
  destruct (start_prepares h L) as ((E & _) & _ & _ & _ & _ & _ & (T & _) & O); [split; vm_compute; congruence|exact H|simpl; lia|].
  split_and!; [exact E|exact T|exact O].
Defined.
