(* ===== verification/Initcode.v ===== *)
(** * The first user code (user/initcode.S)

    The instructions of RV64I that the program uses, with their encoding; the
    source as a list of items and the assembler's layout of it; and the machine
    in user mode that runs an image.  The theorem is about two images: the one
    the source assembles to, and the array initcode[] of proc.c that userinit()
    loads. *)

From stdpp Require Import base numbers list list_numbers gmap strings.
From Stdlib Require Import ZArith Lia.
From S2P Require Import Prelude.
From S2P Require Import Machine.
From S2P Require Import Mem.
From S2P Require Import Proc.

Local Open Scope Z_scope.

(** ** Instructions *)

(** Registers are numbers: 0 reads as zero, 1 is ra, 10 is a0, 11 is a1, 17 is a7. *)
Inductive uinstr :=
  | Auipc (rd imm : Z)
  | UAddi (rd rs imm : Z)
  | Ecall
  | Jal (rd off : Z).

(** Bits [lo], ..., [lo + n - 1] of a word. *)
Definition bits (w lo n : Z) : Z := Z.shiftr w lo `mod` 2 ^ n.

(** The immediate of a jump: its bits 20, 10 to 1, 11 and 19 to 12. *)
Definition jal_imm (w : Z) : Z :=
  sgn 21 (bits w 31 1 * 2 ^ 20 + bits w 12 8 * 2 ^ 12 + bits w 20 1 * 2 ^ 11 + bits w 21 10 * 2).
Definition jal_enc (off : Z) : Z :=
  bits off 20 1 * 2 ^ 31 + bits off 1 10 * 2 ^ 21 + bits off 11 1 * 2 ^ 20 + bits off 12 8 * 2 ^ 12.

Definition encode (i : uinstr) : Z :=
  match i with
  | Auipc rd imm => bits imm 0 20 * 2 ^ 12 + rd * 2 ^ 7 + 0x17
  | UAddi rd rs imm => bits imm 0 12 * 2 ^ 20 + rs * 2 ^ 15 + rd * 2 ^ 7 + 0x13
  | Ecall => 0x73
  | Jal rd off => jal_enc off + rd * 2 ^ 7 + 0x6f
  end.

Definition decode (w : Z) : option uinstr :=
  let op := bits w 0 7 in
  if op =? 0x17 then Some (Auipc (bits w 7 5) (sgn 20 (bits w 12 20)))
  else if (op =? 0x13) && (bits w 12 3 =? 0) then Some (UAddi (bits w 7 5) (bits w 15 5) (sgn 12 (bits w 20 12)))
  else if w =? 0x73 then Some Ecall
  else if op =? 0x6f then Some (Jal (bits w 7 5) (jal_imm w))
  else None.

(** ** The source *)

Inductive item :=
  | Label (l : string)
  | ILa (rd : Z) (l : string)
  | ILi (rd imm : Z)
  | IEcall
  | IJal (l : string)
  | IString (s : list Z)
  | IAlign (n : Z)
  | ILongOf (l : string)
  | ILong (v : Z).

Definition SYS_exit : Z := 2.
Definition SYS_exec : Z := 7.

(** .string adds a NUL to the one that is written. *)
Definition initcode_S : list item := [
  Label "start";
  ILa 10 "init";
  ILa 11 "argv";
  ILi 17 SYS_exec;
  IEcall;
  Label "exit";
  ILi 17 SYS_exit;
  IEcall;
  IJal "exit";
  Label "init";
  IString (bytes "/init" ++ [0]);
  IAlign 2;
  Label "argv";
  ILongOf "init";
  ILong 0
].

(** ** The assembler *)

Definition pad (n pc : Z) : Z := (- pc) `mod` 2 ^ n.

Definition item_size (pc : Z) (i : item) : Z :=
  match i with
  | Label _ => 0
  | ILa _ _ => 8
  | ILi _ _ | IEcall | IJal _ | ILongOf _ | ILong _ => 4
  | IString s => Z.of_nat (length s) + 1
  | IAlign n => pad n pc
  end.

(** The address of a label, with the program at [pc]. *)
Fixpoint label_at (l : string) (pc : Z) (p : list item) : option Z :=
  match p with
  | [] => None
  | Label l' :: p => if decide (l = l') then Some pc else label_at l pc p
  | i :: p => label_at l (pc + item_size pc i) p
  end.

(** la is auipc and addi, relative to the pc; li of a small number is addi. *)
Definition emit (pc : Z) (i : item) (addr : string -> option Z) : option (list Z) :=
  match i with
  | Label _ => Some []
  | ILa rd l =>
      a ← addr l;
      let hi := (a - pc + 0x800) / 2 ^ 12 in
      Some (le_enc 4 (encode (Auipc rd hi)) ++ le_enc 4 (encode (UAddi rd rd (a - pc - hi * 2 ^ 12))))
  | ILi rd imm => Some (le_enc 4 (encode (UAddi rd 0 imm)))
  | IEcall => Some (le_enc 4 (encode Ecall))
  | IJal l => a ← addr l; Some (le_enc 4 (encode (Jal 1 (a - pc))))
  | IString s => Some (s ++ [0])
  | IAlign n => Some (replicate (Z.to_nat (pad n pc)) 0)
  | ILongOf l => a ← addr l; Some (le_enc 4 a)
  | ILong v => Some (le_enc 4 v)
  end.

Fixpoint assemble_from (addr : string -> option Z) (pc : Z) (p : list item) : option (list Z) :=
  match p with
  | [] => Some []
  | i :: p =>
      bs ← emit pc i addr;
      (bs ++.) <$> assemble_from addr (pc + item_size pc i) p
  end.

Definition assemble (p : list item) : option (list Z) := assemble_from (fun l => label_at l 0 p) 0 p.

(** ** The machine in user mode *)

Record ustate := Ustate { u_pc : Z; u_x : Z -> Z; u_m : list Z }.

Definition xget (s : ustate) (r : Z) : Z := if r =? 0 then 0 else u_x s r.
Definition xset (r v : Z) (x : Z -> Z) : Z -> Z := fun q => if q =? r then v else x q.
Definition load (n : nat) (s : ustate) (a : Z) : Z := ld n (u_m s) a.

(** One instruction; [None] is an instruction that is not modelled.  An ecall
    stays where it is: the kernel moves the pc past it. *)
Definition ustep (s : ustate) : option (bool * ustate) :=
  i ← decode (load 4 s (u_pc s));
  let next x := Ustate (u_pc s + 4) x (u_m s) in
  Some match i with
  | Auipc rd imm => (false, next (xset rd (u64 (u_pc s + imm * 2 ^ 12)) (u_x s)))
  | UAddi rd rs imm => (false, next (xset rd (u64 (xget s rs + imm)) (u_x s)))
  | Ecall => (true, s)
  | Jal rd off => (false, Ustate (u64 (u_pc s + off)) (xset rd (u64 (u_pc s + 4)) (u_x s)) (u_m s))
  end.

(** To the next ecall. *)
Fixpoint to_ecall (fuel : nat) (s : ustate) : option ustate :=
  match fuel with
  | O => None
  | S k =>
      r ← ustep s;
      let '(stop, s) := (r : bool * ustate) in
      if stop then Some s else to_ecall k s
  end.

(** The return of a system call: usertrap() adds 4 to epc, and syscall() stores
    the result in a0. *)
Definition sysret (v : Z) (s : ustate) : ustate := Ustate (u_pc s + 4) (xset 10 v (u_x s)) (u_m s).

(** The numbers of the successive system calls, when they return [vs]. *)
Fixpoint calls (vs : list Z) (s : ustate) : option (list Z) :=
  match vs with
  | [] => Some []
  | v :: vs =>
      s' ← to_ecall 6 s;
      (xget s' 17 ::.) <$> calls vs (sysret v s')
  end.

(** The state userinit() prepares: the image at 0 in a page of zeros, the pc at
    0 and the stack pointer at the end of the page; the other registers hold
    whatever was in the trapframe. *)
Definition first_state (img : list Z) (x : Z -> Z) : ustate :=
  Ustate 0 (xset 2 PGSIZE x) (img ++ replicate (Z.to_nat PGSIZE - length img) 0).

(** ** What it does *)

Definition asm_image : list Z := default [] (assemble initcode_S).

Lemma asm_image_spec : assemble initcode_S = Some asm_image.
Proof. by vm_compute. Qed.

Definition page (img : list Z) : list Z := img ++ replicate (Z.to_nat PGSIZE - length img) 0.

(** Both images have the same loop at the label exit. *)
Definition exits (m : list Z) : Prop := forall x v,
  to_ecall 6 (Ustate 24 x m) = Some (Ustate 28 (xset 17 SYS_exit x) m) /\
  exists x', to_ecall 6 (sysret v (Ustate 28 x m)) = Some (Ustate 28 (xset 17 SYS_exit x') m).

Lemma exits_initcode : exits (page initcode).
Proof. intros x v. split; [by vm_compute|]. exists (xset 1 36 (xset 10 v x)). by vm_compute. Qed.

Lemma exits_asm : exits (page asm_image).
Proof. intros x v. split; [by vm_compute|]. exists (xset 1 36 (xset 10 v x)). by vm_compute. Qed.

Lemma calls_exit m vs v x : exits m -> calls vs (sysret v (Ustate 28 x m)) = Some (replicate (length vs) SYS_exit).
Proof.
  intros He. revert v x. induction vs as [|u vs IH]; intros v x; [done|]. destruct (He x v) as [_ (x' & E)].
  cbn [calls]. rewrite E. cbn [mbind option_bind]. by rewrite IH.
Qed.

Lemma calls_after_exec m vs x : exits m -> calls vs (Ustate 24 x m) = Some (replicate (length vs) SYS_exit).
Proof.
  intros He. destruct vs as [|u vs]; [done|]. destruct (He x u) as [E _]. cbn [calls]. rewrite E. cbn [mbind option_bind]. by rewrite calls_exit.
Qed.

(** The state at the first ecall of either image. *)
Definition at_exec (img : list Z) (argv : Z) (x : Z -> Z) : ustate :=
  Ustate 20 (xset 17 7 (xset 11 argv (xset 11 8 (xset 10 36 (xset 10 0 (xset 2 PGSIZE x)))))) (page img).

Lemma initcode_run x : to_ecall 6 (first_state initcode x) = Some (at_exec initcode 43 x).
Proof. by vm_compute. Qed.

Lemma asm_run x : to_ecall 6 (first_state asm_image x) = Some (at_exec asm_image 44 x).
Proof. by vm_compute. Qed.

(** The registers and the memory that sys_exec() looks at. *)
Definition asks_init (s : ustate) : Prop :=
  xget s 17 = SYS_exec /\ cstring (drop (Z.to_nat (xget s 10)) (u_m s)) = bytes "/init" /\
  load 8 s (xget s 11) = xget s 10 /\ load 8 s (xget s 11 + 8) = 0.

Lemma asks_initcode x : asks_init (at_exec initcode 43 x).
Proof. split_and!; by vm_compute. Qed.

Lemma asks_asm x : asks_init (at_exec asm_image 44 x).
Proof. split_and!; by vm_compute. Qed.

(** C24: The first process runs /init.  From the state userinit() prepares, whatever
    the other registers hold, the image in initcode[] and the one that
    initcode.S assembles to make exec("/init", { "/init", 0 }) their first system
    call, with the string and the vector in memory where a0 and a1 point; should it
    return, every system call after it is exit(), for ever.  The two images
    are not the same: the array has argv at an address that is not aligned. *)
Theorem initcode_execs img x :
  img = initcode \/ assemble initcode_S = Some img ->
  (exists s, to_ecall 6 (first_state img x) = Some s /\ asks_init s) /\
  (forall v vs, calls (v :: vs) (first_state img x) = Some (SYS_exec :: replicate (length vs) SYS_exit)) /\
  assemble initcode_S <> Some initcode.
Proof.
  intros Hi. assert (G : exists argv, to_ecall 6 (first_state img x) = Some (at_exec img argv x) /\ asks_init (at_exec img argv x) /\ exits (page img)).
  { destruct Hi as [->|Hi].
    - exists 43. split_and!; [apply initcode_run|apply asks_initcode|apply exits_initcode].
    - rewrite asm_image_spec in Hi. injection Hi as <-. exists 44. split_and!; [apply asm_run|apply asks_asm|apply exits_asm]. }
  destruct G as (argv & R & A & E). split_and!.
  - by exists (at_exec img argv x).
  - intros v vs. cbn [calls]. rewrite R. cbn [mbind option_bind]. destruct A as [A _]. rewrite A.
    unfold at_exec, sysret. cbn [u_pc u_x u_m]. by rewrite calls_after_exec.
  - by vm_compute.
Qed.

Lemma initcode_execs_witness : calls [-1; 0; 0] (first_state initcode (fun _ => 0)) = Some [SYS_exec; SYS_exit; SYS_exit].
Proof. destruct (initcode_execs initcode (fun _ => 0) ltac:(left; reflexivity)) as (_ & C & _). exact (C (-1) [0; 0]). Defined.
