(* ===== verification/User.v ===== *)
(** * User programs: processes, system calls, the C library
      (user/user.h, user/ulib.c, user/printf.c)

    A user program is a function of the world it runs in.  The system calls of
    user/user.h are an interface: the kernel behind it is modelled in the other
    files.  A C string is the list of its characters before the NUL; an array
    is a byte store. *)

From stdpp Require Import base numbers list list_numbers gmap strings.
From Stdlib Require Import ZArith Lia Ascii.
From S2P Require Import Prelude.
From S2P Require Import Mem.

Local Open Scope Z_scope.

(** ** Outcomes *)

(** A program returns a value, exits, is replaced by another program, or runs
    for ever (or beyond the bound of a loop); [UFault] is undefined
    behaviour. *)
Inductive ures (W A : Type) :=
  | UDone (a : A) (w : W)
  | UExit (status : Z) (w : W)
  | UExec (path : list Z) (argv : list (list Z)) (w : W)
  | UHang
  | UFault.
Arguments UDone {W A} a w.
Arguments UExit {W A} status w.
Arguments UExec {W A} path argv w.
Arguments UHang {W A}.
Arguments UFault {W A}.

Definition U (W A : Type) : Type := W -> ures W A.

#[export] Instance U_ret W : MRet (U W) := fun A a w => UDone a w.
#[export] Instance U_bind W : MBind (U W) := fun A B k m w =>
  match m w with
  | UDone a w => k a w
  | UExit s w => UExit s w
  | UExec p a w => UExec p a w
  | UHang => UHang
  | UFault => UFault
  end.

Lemma ubind_done {W A B} (m : U W A) (k : A -> U W B) w a w' : m w = UDone a w' -> (m ≫= k) w = k a w'.
Proof. intros E. unfold mbind, U_bind. by rewrite E. Qed.

(** What fstat() fills in. *)
Record ustat := Ustat { us_dev : Z; us_ino : Z; us_type : Z; us_nlink : Z; us_size : Z }.

(** ** The system calls (user/user.h) *)

Class Sys (W : Type) := {
  fork : U W Z;
  wait : U W Z;
  pipe2 : U W (Z * (Z * Z));
  write : Z -> list Z -> U W Z;
  read : Z -> Z -> U W (list Z * Z);
  close : Z -> U W Z;
  kill : Z -> U W Z;
  exec : list Z -> list (list Z) -> U W Z;
  open : list Z -> Z -> U W Z;
  mknod : list Z -> Z -> Z -> U W Z;
  unlink : list Z -> U W Z;
  fstat : Z -> U W (ustat * Z);
  link : list Z -> list Z -> U W Z;
  mkdir : list Z -> U W Z;
  chdir : list Z -> U W Z;
  dup : Z -> U W Z;
  sbrk : Z -> U W Z;
  usleep : Z -> U W Z;
  getpid : U W Z;
  (** wait(&st): the pid, and the status when there was a child *)
  wait_status : U W (Z * option Z)
}.

(** Reading and writing, as programs rely on them: a readable descriptor
    delivers its bytes in order, at least one of them while there are any and
    at most as many as asked for; what is written to descriptor 1 is appended
    to the output. *)
Class FileIO (W : Type) := {
  readable : W -> Z -> Prop;
  pending : W -> Z -> list Z;
  output : W -> list Z
}.

Class FileIOOk (W : Type) `{Sys W} `{FileIO W} : Prop := {
  read_ok : forall w fd n, readable w fd -> 0 <= n ->
    exists bs w', read fd n w = UDone (bs, Z.of_nat (length bs)) w' /\ bs = take (length bs) (pending w fd) /\
      Z.of_nat (length bs) <= n /\ (0 < n -> pending w fd <> [] -> bs <> []) /\
      readable w' fd /\ pending w' fd = drop (length bs) (pending w fd) /\ output w' = output w;
  write_ok : forall w bs, exists w', write 1 bs w = UDone (Z.of_nat (length bs)) w' /\ output w' = output w ++ bs /\
    forall fd, readable w fd -> readable w' fd /\ pending w' fd = pending w fd
}.

Definition exit {W A} (status : Z) : U W A := fun w => UExit status w.
Definition undefined {W A} : U W A := fun _ => UFault.

(** wait(&st): without a child st is not set. *)
Definition wait_st `{Sys W} : U W Z :=
  r ← wait_status;
  (match snd r with Some st => mret st | None => undefined end).

(** ** user/ulib.c *)

Module Ulib.

(** The character a pointer into a string reads: 0 at its end. *)
Definition chr (s : list Z) : Z := hd 0 s.

Fixpoint strcmp (p q : list Z) : Z :=
  match p with
  | [] => chr p - chr q
  | c :: p' => if c =? chr q then strcmp p' (tl q) else c - chr q
  end.

Fixpoint strlen (s : list Z) : Z :=
  match s with
  | [] => 0
  | _ :: s => 1 + strlen s
  end.

(** The offset of the first [c]; the terminator is not found. *)
Fixpoint strchr (s : list Z) (c : Z) : option nat :=
  match s with
  | [] => None
  | x :: s => if x =? c then Some O else S <$> strchr s c
  end.

Definition isdigit (c : Z) : bool := (48 <=? c) && (c <=? 57).
Fixpoint atoi_from (n : Z) (s : list Z) : Z :=
  match s with
  | [] => n
  | c :: s => if isdigit c then atoi_from (i32 (n * 10 + c - 48)) s else n
  end.
Definition atoi (s : list Z) : Z := atoi_from 0 s.

Section Stores.
Context {B : Type} {BS : ByteStore B}.

(** [while(( *s++ = *t++) != 0)], with the bytes of [t] and its NUL. *)
Fixpoint strcpy (b : B) (s : Z) (t : list Z) : B :=
  match t with
  | [] => bset s 0 b
  | c :: t => strcpy (bset s c b) (s + 1) t
  end.

Definition memset (b : B) (dst c : Z) (n : nat) : B := memset_from b dst c 0 n.

Definition memmove (b : B) (vdst vsrc : Z) (n : nat) : B :=
  if vdst <? vsrc then copy_up b vdst vsrc n else copy_down b (vdst + Z.of_nat n) (vsrc + Z.of_nat n) n.

Fixpoint memcmp (b : B) (p1 p2 : Z) (n : nat) : Z :=
  match n with
  | O => 0
  | S n => if bget b p1 =? bget b p2 then memcmp b (p1 + 1) (p2 + 1) n else bget b p1 - bget b p2
  end.

Definition memcpy (b : B) (dst src : Z) (n : nat) : B := memmove b dst src n.

End Stores.

Section Calls.
Context {W : Type} {SY : Sys W}.

(** gets(): the characters it stores before the NUL; [k] is the room left. *)
Fixpoint gets_loop (k : nat) (acc : list Z) : U W (list Z) :=
  match k with
  | O => mret acc
  | S k =>
      r ← read 0 1;
      if snd r <? 1 then mret acc else
      let c := chr (fst r) in
      let acc := acc ++ [c] in
      if (c =? 10) || (c =? 13) then mret acc else gets_loop k acc
  end.
Definition gets (max : Z) : U W (list Z) := gets_loop (Z.to_nat (max - 1)) [].

Definition stat (n : list Z) : U W (option ustat * Z) :=
  fd ← open n 0;
  if fd <? 0 then mret (None, -1) else
  r ← fstat fd;
  _ ← close fd;
  mret (Some (fst r), snd r).

End Calls.
End Ulib.

(** strchr() finds the first occurrence. *)
Lemma strchr_app a b c : c ∉ a -> Ulib.strchr (a ++ c :: b) c = Some (length a).
Proof.
  induction a as [|x a IH]; intros H; simpl; [by rewrite Z.eqb_refl|]. apply not_elem_of_cons in H as [H0 H].
  rewrite (proj2 (Z.eqb_neq x c)) by done. by rewrite IH.
Qed.

Lemma strchr_none s c : Ulib.strchr s c = None <-> c ∉ s.
Proof.
  induction s as [|x s IH]; simpl; [split; [by intros _ ?%elem_of_nil|done]|]. rewrite not_elem_of_cons.
  destruct (Z.eqb_spec x c) as [->|Hne]; [split; [done|by intros [? _]]|]. rewrite <- IH. destruct (Ulib.strchr s c); naive_solver.
Qed.

(** ** user/printf.c *)

Module Printf.

Definition digits (x : Z) : Z := if x <? 10 then 48 + x else 55 + x.

(** [do buf[i++] = digits[x % base]; while((x /= base) != 0);] and the loop
    that prints buf backwards: the digits most significant first; 32 rounds
    are enough for a uint. *)
Fixpoint digit_loop (fuel : nat) (x base : Z) (acc : list Z) : list Z :=
  match fuel with
  | O => acc
  | S k =>
      let acc := digits (x `mod` base) :: acc in
      if x / base =? 0 then acc else digit_loop k (x / base) base acc
  end.

Definition int_text (xx base : Z) (sgn : bool) : list Z :=
  let neg := sgn && (xx <? 0) in
  let x := if neg then u32 (- xx) else u32 xx in
  (if neg then [45] else []) ++ digit_loop 32 x base [].

Fixpoint hex_text (n : nat) (x : Z) : list Z :=
  match n with
  | O => []
  | S k => digits (Z.shiftr x 60) :: hex_text k (u64 (Z.shiftl x 4))
  end.

(** An argument: a register, or a pointer to a string (0 is [None]). *)
Inductive arg := AWord (x : Z) | AStr (s : option (list Z)).

Section Calls.
Context {W : Type} {SY : Sys W}.

Definition putc (fd c : Z) : U W unit := _ ← write fd [c]; mret tt.

Fixpoint puts (fd : Z) (cs : list Z) : U W unit :=
  match cs with
  | [] => mret tt
  | c :: cs => putc fd c ;; puts fd cs
  end.

Definition printint (fd xx base : Z) (sgn : bool) : U W unit := puts fd (int_text xx base sgn).
Definition printptr (fd x : Z) : U W unit := putc fd 48 ;; putc fd 120 ;; puts fd (hex_text 16 x).

(** The loop over fmt; [state] is whether the last character was a %. *)
Fixpoint vprintf (fd : Z) (fmt : list Z) (state : bool) (ap : list arg) : U W unit :=
  match fmt with
  | [] => mret tt
  | c :: fmt =>
      if negb state then
        if c =? 37 then vprintf fd fmt true ap else putc fd c ;; vprintf fd fmt false ap
      else if c =? 100 then
        match ap with AWord x :: ap => printint fd (i32 x) 10 true ;; vprintf fd fmt false ap | _ => fun _ => UFault end
      else if c =? 108 then
        match ap with AWord x :: ap => printint fd (i32 x) 10 false ;; vprintf fd fmt false ap | _ => fun _ => UFault end
      else if c =? 120 then
        match ap with AWord x :: ap => printint fd (i32 x) 16 false ;; vprintf fd fmt false ap | _ => fun _ => UFault end
      else if c =? 112 then
        match ap with AWord x :: ap => printptr fd x ;; vprintf fd fmt false ap | _ => fun _ => UFault end
      else if c =? 115 then
        match ap with
        | AStr s :: ap => puts fd (default (bytes "(null)") s) ;; vprintf fd fmt false ap
        | _ => fun _ => UFault
        end
      else if c =? 99 then
        match ap with AWord x :: ap => putc fd (u8 x) ;; vprintf fd fmt false ap | _ => fun _ => UFault end
      else if c =? 37 then putc fd c ;; vprintf fd fmt false ap
      else putc fd 37 ;; putc fd c ;; vprintf fd fmt false ap
  end.

Definition fprintf (fd : Z) (fmt : list Z) (ap : list arg) : U W unit := vprintf fd fmt false ap.
Definition printf (fmt : list Z) (ap : list arg) : U W unit := vprintf 1 fmt false ap.

End Calls.
End Printf.

(** ** Small worlds *)

(** A world with reading, writing and a break, where every other call fails. *)
Definition ans {W A} (r : A) : U W A := fun w => UDone r w.
Definition small_sys {W} (rd : Z -> Z -> U W (list Z * Z)) (wr : Z -> list Z -> U W Z) (sb : Z -> U W Z) : Sys W := {|
  fork := ans (-1); wait := ans (-1); pipe2 := ans (-1, (0, 0));
  write := wr; read := rd; close := fun _ => ans 0; kill := fun _ => ans (-1);
  exec := fun _ _ => ans (-1); open := fun _ _ => ans (-1); mknod := fun _ _ _ => ans (-1);
  unlink := fun _ => ans (-1); fstat := fun _ => ans (Ustat 0 0 0 0 0, -1); link := fun _ _ => ans (-1);
  mkdir := fun _ => ans (-1); chdir := fun _ => ans (-1); dup := fun _ => ans (-1);
  sbrk := sb; usleep := fun _ => ans 0; getpid := ans 1; wait_status := ans (-1, None)
|}.

(** A tape: standard input that arrives at most seven bytes at a time. *)

Record tape := Tape { t_in : list Z; t_out : list Z }.

Definition tape_read (fd n : Z) : U tape (list Z * Z) := fun w =>
  let bs := take (Z.to_nat (Z.min n 7)) (t_in w) in
  UDone (bs, Z.of_nat (length bs)) (Tape (drop (length bs) (t_in w)) (t_out w)).
Definition tape_write (fd : Z) (bs : list Z) : U tape Z := fun w =>
  UDone (Z.of_nat (length bs)) (if fd =? 1 then Tape (t_in w) (t_out w ++ bs) else w).

#[local] Instance tape_sys : Sys tape := small_sys tape_read tape_write (fun _ => ans (-1)).

#[local] Instance tape_io : FileIO tape := {|
  readable := fun _ fd => fd = 0; pending := fun w _ => t_in w; output := fun w => t_out w
|}.

#[local] Instance tape_ok : FileIOOk tape.
Proof.
  split.
  - intros w fd n -> Hn. set (bs := take (Z.to_nat (Z.min n 7)) (t_in w)).
    exists bs, (Tape (drop (length bs) (t_in w)) (t_out w)). split_and!; [done| | | |done|done|done].
    + unfold bs. rewrite length_take. simpl. destruct (decide (Z.to_nat (Z.min n 7) <= length (t_in w))%nat).
      * by rewrite Nat.min_l by lia.
      * rewrite Nat.min_r by lia. by rewrite !take_ge by lia.
    + unfold bs. rewrite length_take. lia.
    + intros Hpos Hne. unfold bs. simpl in Hne. destruct (t_in w) as [|x l]; [done|].
      destruct (Z.to_nat (Z.min n 7)) eqn:E; [lia|done].
  - intros w bs. exists (Tape (t_in w) (t_out w ++ bs)). split_and!; [done|done|]. intros fd ->. done.
Qed.
