(* ===== verification/Grep.v ===== *)
(** * grep (user/grep.c)

    The matcher against the meaning of its patterns, and the program against
    the lines of its input. *)

From stdpp Require Import base numbers list list_numbers gmap strings.
From Stdlib Require Import ZArith Lia.
From S2P Require Import Prelude.
From S2P Require Import Mem.
From S2P Require Import User.

Local Open Scope Z_scope.

(** ** The matcher *)

(** The do-while loop of matchstar(), with matchhere(re, .) as [here]. *)
Fixpoint matchstar (here : list Z -> bool) (c : Z) (text : list Z) : bool :=
  if here text then true else
  match text with
  | [] => false
  | t :: text => if (t =? c) || (c =? 46) then matchstar here c text else false
  end.

Fixpoint matchhere (re text : list Z) {struct re} : bool :=
  match re with
  | [] => true
  | r0 :: re1 =>
      match re1 with
      | r1 :: re2 =>
          if r1 =? 42 then matchstar (matchhere re2) r0 text
          else match text with
               | [] => false
               | t :: text => if (r0 =? 46) || (r0 =? t) then matchhere re1 text else false
               end
      | [] =>
          if r0 =? 36 then bool_decide (text = [])
          else match text with
               | [] => false
               | t :: text => if (r0 =? 46) || (r0 =? t) then matchhere re1 text else false
               end
      end
  end.

(** The do-while loop of match(). *)
Fixpoint match_from (re text : list Z) : bool :=
  if matchhere re text then true else
  match text with
  | [] => false
  | _ :: text => match_from re text
  end.

Definition match_re (re text : list Z) : bool :=
  match re with
  | r0 :: re1 => if r0 =? 94 then matchhere re1 text else match_from re text
  | [] => match_from re text
  end.

(** ** The program *)

Definition BUFSZ : Z := 1024.

Section Program.
Context {W : Type} {SY : Sys W}.

(** The inner loop over the lines in buf, from offset [p]. *)
Fixpoint grep_lines (fuel : nat) (pattern buf : list Z) (p : nat) : U W (list Z * nat) :=
  match fuel with
  | O => fun _ => UHang
  | S k =>
      match Ulib.strchr (cstring (drop p buf)) 10 with
      | None => mret (buf, p)
      | Some j =>
          let q := (p + j)%nat in
          let buf := <[q := 0]> buf in
          buf ← (if match_re pattern (cstring (drop p buf)) then
                   let buf := <[q := 10]> buf in
                   _ ← write 1 (slice p (q + 1 - p) buf);
                   mret buf
                 else mret buf);
          grep_lines k pattern buf (q + 1)
      end
  end.

Fixpoint grep_loop (fuel : nat) (pattern : list Z) (fd : Z) (buf : list Z) (m : nat) : U W (list Z) :=
  match fuel with
  | O => fun _ => UHang
  | S k =>
      r ← read fd (BUFSZ - Z.of_nat m - 1);
      let n := snd r in
      if n <=? 0 then mret buf else
      let buf := splice buf m (fst r) in
      let m := (m + Z.to_nat n)%nat in
      let buf := <[m := 0]> buf in
      l ← grep_lines (Z.to_nat BUFSZ) pattern buf 0;
      let buf := fst l in
      let p := snd l in
      if bool_decide (0 < m)%nat then
        let m := (m - p)%nat in
        grep_loop k pattern fd (Ulib.memmove buf 0 (Z.of_nat p) m) m
      else grep_loop k pattern fd buf m
  end.

(** The array buf is global: [buf] is what earlier calls left in it. *)
Definition grep (fuel : nat) (pattern : list Z) (fd : Z) (buf : list Z) : U W (list Z) :=
  grep_loop fuel pattern fd buf 0.

Fixpoint grep_files (fuel : nat) (pattern : list Z) (buf : list Z) (files : list (list Z)) : U W unit :=
  match files with
  | [] => mret tt
  | f :: files =>
      fd ← open f 0;
      if fd <? 0 then
        Printf.printf (bytes "grep: cannot open %s" ++ [10]) [Printf.AStr (Some f)] ;;
        exit 1
      else
        buf ← grep fuel pattern fd buf;
        _ ← close fd;
        grep_files fuel pattern buf files
  end.

Definition main (fuel : nat) (argv : list (list Z)) : U W unit :=
  match argv with
  | _ :: pattern :: files =>
      let buf := replicate (Z.to_nat BUFSZ) 0 in
      if bool_decide (files = []) then grep fuel pattern 0 buf ;; exit 0
      else grep_files fuel pattern buf files ;; exit 0
  | _ =>
      Printf.fprintf 2 (bytes "usage: grep pattern [file ...]" ++ [10]) [] ;;
      exit 1
  end.

End Program.

(** ** What a pattern means *)

Inductive atom := Any | Chr (c : Z).
Inductive item := One (a : atom) | Star (a : atom).

Definition atom_of (c : Z) : atom := if c =? 46 then Any else Chr c.
Definition accepts (a : atom) (x : Z) : Prop := match a with Any => True | Chr c => x = c end.

(** The items of a pattern, and whether it ends in $. *)
Fixpoint items (re : list Z) : list item * bool :=
  match re with
  | [] => ([], false)
  | r0 :: re1 =>
      match re1 with
      | r1 :: re2 =>
          if r1 =? 42 then let '(l, e) := items re2 in (Star (atom_of r0) :: l, e)
          else let '(l, e) := items re1 in (One (atom_of r0) :: l, e)
      | [] => if r0 =? 36 then ([], true) else ([One (atom_of r0)], false)
      end
  end.

(** A regular expression: anchored at the start, items, anchored at the end. *)
Record regex := Regex { re_bol : bool; re_items : list item; re_eol : bool }.
Definition parse_re (re : list Z) : regex :=
  match re with
  | r0 :: re1 => if r0 =? 94 then let '(l, e) := items re1 in Regex true l e else let '(l, e) := items re in Regex false l e
  | [] => Regex false [] false
  end.

(** The strings an item list stands for. *)
Inductive denotes : list item -> list Z -> Prop :=
  | d_nil : denotes [] []
  | d_one a x l s : accepts a x -> denotes l s -> denotes (One a :: l) (x :: s)
  | d_star a xs l s : Forall (accepts a) xs -> denotes l s -> denotes (Star a :: l) (xs ++ s).

(** Some part of the text, at the ends where the pattern is anchored. *)
Definition occurs (r : regex) (text : list Z) : Prop :=
  exists pre mid post, text = pre ++ mid ++ post /\ denotes (re_items r) mid /\
    (re_bol r = true -> pre = []) /\ (re_eol r = true -> post = []).

(** ** The matcher is right *)

(** An initial part of the text. *)
Definition starts (p : list item * bool) (text : list Z) : Prop :=
  exists mid post, text = mid ++ post /\ denotes (fst p) mid /\ (snd p = true -> post = []).

Lemma accepts_spec c x : ((c =? 46) || (c =? x)) = true <-> accepts (atom_of c) x.
Proof.
  unfold atom_of. destruct (Z.eqb_spec c 46); simpl; [done|]. rewrite Z.eqb_eq. split; congruence.
Qed.

Lemma starts_one a l e t text : starts (One a :: l, e) (t :: text) <-> accepts a t /\ starts (l, e) text.
Proof.
  split.
  - intros (mid & post & E & D & He). inversion D; subst. injection E as <- ->. split; [done|]. by exists s, post.
  - intros (Ha & mid & post & -> & D & He). exists (t :: mid), post. split_and!; [done|by constructor|done].
Qed.

Lemma starts_one_nil a l e : ~ starts (One a :: l, e) [].
Proof. intros (mid & post & E & D & _). inversion D; subst. discriminate. Qed.

Lemma starts_star a l e text :
  starts (Star a :: l, e) text <->
  starts (l, e) text \/ exists t r, text = t :: r /\ accepts a t /\ starts (Star a :: l, e) r.
Proof.
  split.
  - intros (mid & post & E & D & He). inversion D as [| |? xs ? s Hxs Ds]; subst. destruct xs as [|x xs].
    + left. by exists s, post.
    + right. apply Forall_cons in Hxs as [Hx Hxs]. exists x, ((xs ++ s) ++ post). split_and!; [done|done|].
      exists (xs ++ s), post. split_and!; [done|by constructor|done].
  - intros [(mid & post & -> & D & He)|(t & r & -> & Ha & mid & post & -> & D & He)].
    + exists mid, post. split_and!; [done|by apply (d_star a [])|done].
    + inversion D as [| |? xs ? s Hxs Ds]; subst. exists (t :: xs ++ s), post. split_and!; [done| |done].
      apply (d_star a (t :: xs)); [by constructor|done].
Qed.

Lemma matchstar_spec here c l e text :
  (forall t, here t = true <-> starts (l, e) t) ->
  matchstar here c text = true <-> starts (Star (atom_of c) :: l, e) text.
Proof.
  intros Hh. induction text as [|t text IH]; rewrite starts_star; cbn [matchstar].
  - pose proof (Hh []) as H. destruct (here []); [naive_solver|]. split; [done|]. intros [?|(?&?&?&?)]; [naive_solver|done].
  - pose proof (Hh (t :: text)) as H. destruct (here (t :: text)); [naive_solver|].
    pose proof (accepts_spec c t) as Ha. rewrite orb_comm, (Z.eqb_sym t c).
    destruct ((c =? 46) || (c =? t)).
    + rewrite IH. split; [intros S; right; exists t, text; naive_solver|]. intros [S|(? & ? & [= <- <-] & _ & S)]; [by apply H in S|done].
    + split; [done|]. intros [S|(? & ? & [= <- <-] & S & _)]; [by apply H in S|by apply Ha in S].
Qed.

Lemma items_cons r0 r1 re :
  items (r0 :: r1 :: re) =
  if r1 =? 42 then (Star (atom_of r0) :: fst (items re), snd (items re))
  else (One (atom_of r0) :: fst (items (r1 :: re)), snd (items (r1 :: re))).
Proof. cbn [items]. destruct (r1 =? 42); [by destruct (items re)|]. by destruct (match re with [] => _ | _ => _ end). Qed.

Lemma matchhere_cons r0 r1 re text :
  matchhere (r0 :: r1 :: re) text =
  if r1 =? 42 then matchstar (matchhere re) r0 text
  else match text with [] => false | t :: text => if (r0 =? 46) || (r0 =? t) then matchhere (r1 :: re) text else false end.
Proof. done. Qed.

Lemma matchhere_spec re text : matchhere re text = true <-> starts (items re) text.
Proof.
  remember (length re) as n eqn:En. revert re text En. induction (lt_wf n) as [n _ IH]. intros re text ->.
  destruct re as [|r0 [|r1 re2]]; [cbn [matchhere items]..|rewrite matchhere_cons, items_cons].
  - split; [intros _; exists [], text; split_and!; [done|constructor|done]|done].
  - destruct (r0 =? 36).
    + rewrite bool_decide_eq_true. split; [intros ->; exists [], []; split_and!; [done|constructor|done]|].
      intros (mid & post & -> & D & He). inversion D; subst. by rewrite He.
    + destruct text as [|t text]; [split; [done|by intros ?%starts_one_nil]|]. rewrite starts_one, <- accepts_spec.
      destruct ((r0 =? 46) || (r0 =? t)); [|naive_solver]. split; [|done]. intros _. split; [done|]. exists [], text. split_and!; [done|constructor|done].
  - destruct (r1 =? 42).
    + pose proof (fun t => IH (length re2) ltac:(simpl; lia) re2 t eq_refl) as IH2.
      apply matchstar_spec. intros t. by rewrite <- surjective_pairing.
    + pose proof (fun t => IH (length (r1 :: re2)) ltac:(simpl; lia) (r1 :: re2) t eq_refl) as IH2.
      destruct text as [|t text]; [split; [done|by intros ?%starts_one_nil]|].
      rewrite starts_one, <- accepts_spec, <- surjective_pairing. destruct ((r0 =? 46) || (r0 =? t)); [|naive_solver]. rewrite IH2. naive_solver.
Qed.

Lemma match_from_spec re text : match_from re text = true <-> exists pre suf, text = pre ++ suf /\ starts (items re) suf.
Proof.
  induction text as [|t text IH]; cbn [match_from].
  - pose proof (matchhere_spec re []) as H. destruct (matchhere re []).
    + split; [|done]. intros _. exists [], []. naive_solver.
    + split; [done|]. intros (pre & suf & E & S). destruct pre; [|done]. destruct suf; [naive_solver|done].
  - pose proof (matchhere_spec re (t :: text)) as H. destruct (matchhere re (t :: text)).
    + split; [|done]. intros _. exists [], (t :: text). naive_solver.
    + rewrite IH. split.
      * intros (pre & suf & -> & S). by exists (t :: pre), suf.
      * intros (pre & suf & E & S). destruct pre as [|x pre]; [simpl in E; subst; naive_solver|]. injection E as -> ->. by exists pre, suf.
Qed.

Lemma match_re_spec re text : match_re re text = true <-> occurs (parse_re re) text.
Proof.
  assert (Hf : forall re, match_from re text = true <-> occurs (Regex false (fst (items re)) (snd (items re))) text).
  { intros q. rewrite match_from_spec. unfold starts, occurs. simpl. split.
    - intros (pre & suf & -> & mid & post & -> & D & He). by exists pre, mid, post.
    - intros (pre & mid & post & -> & D & _ & He). exists pre, (mid ++ post). split; [done|]. by exists mid, post. }
  unfold match_re, parse_re. destruct re as [|r0 re1]; [by rewrite Hf|]. destruct (r0 =? 94).
  - rewrite matchhere_spec. unfold starts, occurs. destruct (items re1) as [l e]. simpl. split.
    + intros (mid & post & -> & D & He). by exists [], mid, post.
    + intros (pre & mid & post & -> & D & Hp & He). rewrite (Hp eq_refl). by exists mid, post.
  - rewrite Hf. by destruct (items (r0 :: re1)).
Qed.

(** ** Lines *)

Definition full_lines (s : list Z) : list (list Z) := removelast (split_on 10 s).
Definition rest_line (s : list Z) : list Z := List.last (split_on 10 s) [].

Lemma full_lines_app a b : 10 ∉ a -> full_lines (a ++ 10 :: b) = a :: full_lines b.
Proof. intros H. unfold full_lines. rewrite split_on_app by done. simpl. pose proof (split_on_ne 10 b). by destruct (split_on 10 b). Qed.

Lemma rest_line_app a b : 10 ∉ a -> rest_line (a ++ 10 :: b) = rest_line b.
Proof. intros H. unfold rest_line. rewrite split_on_app by done. simpl. pose proof (split_on_ne 10 b). by destruct (split_on 10 b). Qed.

Lemma full_lines_one a : 10 ∉ a -> full_lines a = [].
Proof. intros H. unfold full_lines. by rewrite split_on_one. Qed.

Lemma rest_line_one a : 10 ∉ a -> rest_line a = a.
Proof. intros H. unfold rest_line. by rewrite split_on_one. Qed.

(** Induction on a text by its lines. *)
Lemma lines_ind (P : list Z -> Prop) :
  (forall a, 10 ∉ a -> P a) -> (forall a b, 10 ∉ a -> P b -> P (a ++ 10 :: b)) -> forall s, P s.
Proof.
  intros H1 H2 s. remember (length s) as n eqn:En. revert s En. induction (lt_wf n) as [n _ IH]. intros s ->.
  destruct (split_first 10 s) as [(a & b & -> & Ha)|Hs]; [|by apply H1]. apply H2; [done|].
  apply (IH (length b)); [rewrite length_app; simpl; lia|done].
Qed.

Lemma rest_line_no s : 10 ∉ rest_line s.
Proof. induction s as [a Ha|a b Ha IH] using lines_ind; [by rewrite rest_line_one|by rewrite rest_line_app]. Qed.

Lemma rest_line_sub s x : x ∈ rest_line s -> x ∈ s.
Proof.
  induction s as [a Ha|a b Ha IH] using lines_ind; [by rewrite rest_line_one|]. rewrite rest_line_app by done. set_solver.
Qed.

Lemma split_on_two x y : split_on 10 (x ++ y) = full_lines x ++ split_on 10 (rest_line x ++ y).
Proof.
  induction x as [a Ha|a b Ha IH] using lines_ind; [by rewrite full_lines_one, rest_line_one|].
  rewrite full_lines_app, rest_line_app, <- app_assoc by done. simpl. rewrite split_on_app by done. by rewrite IH.
Qed.

Lemma full_lines_two x y : full_lines (x ++ y) = full_lines x ++ full_lines (rest_line x ++ y).
Proof. unfold full_lines at 1 3. rewrite split_on_two. apply removelast_app, split_on_ne. Qed.

Lemma split_on_head a y : 10 ∉ a -> exists t ls, split_on 10 (a ++ y) = (a ++ t) :: ls.
Proof.
  intros Ha. destruct (split_first 10 y) as [(u & v & -> & Hu)|Hy].
  - exists u, (split_on 10 v). rewrite app_assoc. apply split_on_app. set_solver.
  - exists y, []. apply split_on_one. set_solver.
Qed.

(** ** The program prints the matching lines *)

Definition selected (pattern : list Z) (ls : list (list Z)) : list Z :=
  mjoin ((fun l => l ++ [10]) <$> filter (fun l => match_re pattern l = true) ls).

Lemma selected_app pattern a b : selected pattern (a ++ b) = selected pattern a ++ selected pattern b.
Proof. unfold selected. by rewrite filter_app, fmap_app, join_app. Qed.

Lemma insert_mid {A} (pre : list A) x y post i : i = length pre -> <[i := y]> (pre ++ x :: post) = pre ++ y :: post.
Proof. intros ->. rewrite insert_app_r_alt by lia. by rewrite Nat.sub_diag. Qed.

(** User memmove(), also between overlapping ranges. *)
Lemma umemmove_get (b : list Z) dst src n x :
  valid_range b dst n ->
  bget (Ulib.memmove b dst src n) x = if (dst <=? x) && (x <? dst + Z.of_nat n) then bget b (src + (x - dst)) else bget b x.
Proof.
  intros Hv. unfold Ulib.memmove. destruct (Z.ltb_spec dst src).
  - apply copy_up_get; [done|lia].
  - rewrite copy_down_get by (try lia; replace (dst + Z.of_nat n - Z.of_nat n) with dst by lia; done).
    replace (dst + Z.of_nat n - Z.of_nat n) with dst by lia. by replace (src + Z.of_nat n + (x - (dst + Z.of_nat n))) with (src + (x - dst)) by lia.
Qed.

Lemma length_bset i v (b : list Z) : length (bset i v b) = length b.
Proof. simpl. case_match; [apply length_insert|done]. Qed.

Lemma length_umemmove (b : list Z) dst src n : length (Ulib.memmove b dst src n) = length b.
Proof.
  assert (U : forall n (b : list Z) d s, length (copy_up b d s n) = length b).
  { clear. induction n as [|n IH]; intros b d s; [done|]. cbn [copy_up]. by rewrite IH, length_bset. }
  assert (D : forall n (b : list Z) d s, length (copy_down b d s n) = length b).
  { clear. induction n as [|n IH]; intros b d s; [done|]. cbn [copy_down]. by rewrite IH, length_bset. }
  unfold Ulib.memmove. by case_match; rewrite ?U, ?D.
Qed.

(** Moving the middle of an array to its front. *)
Lemma umemmove_front (pre r post : list Z) :
  take (length r) (Ulib.memmove (pre ++ r ++ post) 0 (Z.of_nat (length pre)) (length r)) = r.
Proof.
  set (b := pre ++ r ++ post). set (b' := Ulib.memmove b 0 _ _).
  assert (Hlen : length b' = length b) by apply length_umemmove. unfold b in Hlen. rewrite !length_app in Hlen.
  apply list_eq. intros k. destruct (decide (k < length r)%nat) as [Hk|Hk].
  - rewrite lookup_take_lt by done. destruct (lookup_lt_is_Some_2 b' k ltac:(lia)) as [v Hv]. destruct (lookup_lt_is_Some_2 r k Hk) as [v' Hv'].
    rewrite Hv, Hv'. f_equal. assert (G : bget b' (Z.of_nat k) = bget b (Z.of_nat (length pre + k))).
    { unfold b'. rewrite umemmove_get.
      - rewrite (proj2 (Z.leb_le _ _)), (proj2 (Z.ltb_lt _ _)) by lia. f_equal. lia.
      - intros x Hx. simpl. unfold b. rewrite !length_app. lia. }
    simpl in G. rewrite !(proj2 (Z.leb_le _ _)), !Nat2Z.id, Hv in G by lia. unfold b in G. rewrite lookup_app_r, lookup_app_l in G by lia.
    replace (length pre + k - length pre)%nat with k in G by lia. rewrite Hv' in G. done.
  - rewrite lookup_take_ge by lia. symmetry. apply lookup_ge_None. lia.
Qed.

(** What read() and the NUL leave in the buffer. *)
Lemma grep_fill (held bs buf : list Z) :
  take (length held) buf = held -> (length held + length bs < length buf)%nat ->
  <[(length held + length bs)%nat := 0]> (splice buf (length held) bs) = [] ++ (held ++ bs) ++ 0 :: drop (S (length held + length bs)) buf.
Proof.
  intros Hheld Hlt. unfold splice. rewrite Hheld. destruct (drop (length held + length bs) buf) as [|x j] eqn:Ej.
  - apply (f_equal length) in Ej. rewrite length_drop in Ej. simpl in Ej. lia.
  - rewrite app_assoc, (insert_mid (held ++ bs) x 0) by (by rewrite length_app). simpl. f_equal. f_equal.
    replace (S (length held + length bs)) with (length held + length bs + 1)%nat by lia. by rewrite <- drop_drop, Ej.
Qed.

Section Run.
Context {W : Type} {SY : Sys W} {IO : FileIO W} {OK : FileIOOk W}.
Context (pattern : list Z) (fd : Z).

(** The inner loop prints the matching lines of the text up to the NUL. *)
Lemma grep_lines_run fuel body pre junk w :
  (length body < fuel)%nat -> 0 ∉ body -> readable w fd ->
  exists pre' w', grep_lines fuel pattern (pre ++ body ++ 0 :: junk) (length pre) w =
      UDone (pre' ++ rest_line body ++ 0 :: junk, length pre') w' /\
    ((length pre' + length (rest_line body))%nat = (length pre + length body)%nat) /\
    output w' = output w ++ selected pattern (full_lines body) /\ readable w' fd /\ pending w' fd = pending w fd.
Proof.
  revert body pre w. induction fuel as [|k IH]; intros body pre w Hlen H0 Hrd; [lia|]. cbn [grep_lines].
  rewrite drop_app_length, cstring_app by done. destruct (split_first 10 body) as [(a & b & -> & Ha)|Hno].
  - rewrite strchr_app by done. rewrite full_lines_app, rest_line_app by done. assert ((0 ∉ a) /\ 0 ∉ b) as [H0a H0b] by set_solver.
    rewrite length_app in Hlen. simpl in Hlen. rewrite <- !app_assoc. simpl.
    rewrite !(app_assoc pre), (insert_mid (pre ++ a) 10 0) by (by rewrite length_app).
    rewrite <- (app_assoc pre), drop_app_length, cstring_app by done.
    change (a :: full_lines b) with ([a] ++ full_lines b). rewrite selected_app.
    destruct (match_re pattern a) eqn:Em.
    + rewrite app_assoc, (insert_mid (pre ++ a) 0 10) by (by rewrite length_app).
      destruct (write_ok w (a ++ [10])) as (w1 & Hw & Ho & Hfd). destruct (Hfd fd Hrd) as [Hrd1 Hp1].
      assert (Es : slice (length pre) (length pre + length a + 1 - length pre) ((pre ++ a) ++ 10 :: b ++ 0 :: junk) = a ++ [10]).
      { unfold slice. rewrite <- app_assoc, drop_app_length. replace (length pre + length a + 1 - length pre)%nat with (length (a ++ [10])) by (rewrite length_app; simpl; lia).
        change (10 :: b ++ 0 :: junk) with ([10] ++ (b ++ 0 :: junk)). by rewrite app_assoc, take_app_length. }
      rewrite Es. erewrite ubind_done by (erewrite ubind_done by exact Hw; reflexivity).
      destruct (IH b (pre ++ a ++ [10]) w1 ltac:(lia) H0b Hrd1) as (pre' & w' & R & L & O & Hrd' & P).
      replace ((pre ++ a) ++ 10 :: b ++ 0 :: junk) with ((pre ++ a ++ [10]) ++ b ++ 0 :: junk) by (by rewrite <- !app_assoc).
      replace (length pre + length a + 1)%nat with (length (pre ++ a ++ [10])) by (rewrite !length_app; simpl; lia).
      rewrite !length_app in L. simpl in L. exists pre', w'.
      split_and!; [exact R|rewrite length_app; simpl; lia| |done|by rewrite P].
      unfold selected at 1. rewrite filter_cons_True by done. rewrite O, Ho. simpl. by rewrite app_nil_r, <- app_assoc.
    + erewrite ubind_done by reflexivity.
      destruct (IH b (pre ++ a ++ [0]) w ltac:(lia) H0b Hrd) as (pre' & w' & R & L & O & Hrd' & P).
      replace (pre ++ a ++ 0 :: b ++ 0 :: junk) with ((pre ++ a ++ [0]) ++ b ++ 0 :: junk) by (by rewrite <- !app_assoc).
      replace (length pre + length a + 1)%nat with (length (pre ++ a ++ [0])) by (rewrite !length_app; simpl; lia).
      rewrite !length_app in L. simpl in L. exists pre', w'.
      split_and!; [exact R|rewrite length_app; simpl; lia| |done|done].
      unfold selected at 1. rewrite filter_cons_False by congruence. by rewrite O.
  - rewrite (proj2 (strchr_none _ _) Hno). exists pre, w. rewrite full_lines_one, rest_line_one by done. split_and!; [done|done|by rewrite app_nil_r|done|done].
Qed.

(** The text held over from the last read, and what is still to come. *)
Lemma grep_loop_run fuel held buf w :
  (length (pending w fd) < fuel)%nat -> readable w fd -> length buf = Z.to_nat BUFSZ -> take (length held) buf = held ->
  10 ∉ held -> 0 ∉ held ++ pending w fd -> Forall (fun l => (length l <= 1022)%nat) (split_on 10 (held ++ pending w fd)) ->
  exists buf' w', grep_loop fuel pattern fd buf (length held) w = UDone buf' w' /\ length buf' = Z.to_nat BUFSZ /\
    output w' = output w ++ selected pattern (full_lines (held ++ pending w fd)) /\ readable w' fd /\ pending w' fd = [].
Proof.
  revert held buf w. induction fuel as [|k IH]; intros held buf w Hfuel Hrd Hlen Hheld Hh H0 Hshort; [lia|]. cbn [grep_loop].
  destruct (split_on_head held (pending w fd) Hh) as (t & ls & Es). pose proof Hshort as Hm. rewrite Es in Hm. apply Forall_cons in Hm as [Hm _].
  rewrite length_app in Hm. change (Z.to_nat BUFSZ) with 1024%nat in *.
  destruct (read_ok w fd (BUFSZ - Z.of_nat (length held) - 1) Hrd ltac:(unfold BUFSZ; lia)) as (bs & w1 & R & Ebs & Hn & Hne & Hrd1 & Hp1 & Ho1).
  rewrite (ubind_done _ _ _ _ _ R). cbn [fst snd]. unfold BUFSZ in Hn. destruct (decide (pending w fd = [])) as [Hnil|Hdata].
  { rewrite Hnil in *. assert (bs = []) as -> by (rewrite Ebs; by destruct (length bs)). simpl. exists buf, w1.
    rewrite app_nil_r, full_lines_one by done. split_and!; [done|done|by rewrite Ho1, app_nil_r|done|done]. }
  specialize (Hne ltac:(unfold BUFSZ; lia) Hdata). assert (Hbs : (0 < length bs)%nat) by (destruct bs; [done|simpl; lia]).
  rewrite (proj2 (Z.leb_gt _ 0)), Nat2Z.id by lia. set (rest := drop (length bs) (pending w fd)) in *.
  assert (Ed : pending w fd = bs ++ rest) by (rewrite Ebs at 1; symmetry; apply take_drop).
  rewrite Ed in H0. apply not_elem_of_app in H0 as [H0h [H0b H0r]%not_elem_of_app].
  set (junk := drop (S (length held + length bs)) buf).
  assert (Eb : <[(length held + length bs)%nat := 0]> (splice buf (length held) bs) = [] ++ (held ++ bs) ++ 0 :: junk) by (apply grep_fill; [done|lia]).
  rewrite Eb. destruct (grep_lines_run 1024 (held ++ bs) [] junk w1) as (pre' & w2 & R2 & L2 & O2 & Hrd2 & P2);
    [rewrite length_app; lia|by apply not_elem_of_app|done|].
  rewrite (ubind_done _ _ _ _ _ R2). cbn [fst snd]. rewrite bool_decide_true by lia. rewrite length_app in L2. simpl in L2.
  replace (length held + length bs - length pre')%nat with (length (rest_line (held ++ bs))) by lia. set (r := rest_line (held ++ bs)) in *.
  assert (Hr0 : 0 ∉ r ++ rest).
  { apply not_elem_of_app. split; [|done]. intros H. apply rest_line_sub in H. by apply elem_of_app in H as [?|?]. }
  rewrite Ed, app_assoc, split_on_two in Hshort. rewrite Ed, (app_assoc held), full_lines_two, selected_app. fold r in Hshort |- *.
  assert (Hp2 : pending w2 fd = rest) by (by rewrite P2, Hp1).
  destruct (IH r (Ulib.memmove (pre' ++ r ++ 0 :: junk) 0 (Z.of_nat (length pre')) (length r)) w2) as (buf' & w' & R3 & L3 & O3 & Hrd3 & P3).
  - rewrite Hp2. rewrite Ed, length_app in Hfuel. lia.
  - done.
  - rewrite length_umemmove, !length_app. simpl. unfold junk. rewrite length_drop. lia.
  - apply umemmove_front.
  - apply rest_line_no.
  - by rewrite Hp2.
  - rewrite Hp2. by apply Forall_app in Hshort as [_ ?].
  - rewrite Hp2 in O3. exists buf', w'. split_and!; [exact R3|exact L3| |done|done]. by rewrite O3, O2, Ho1, <- app_assoc.
Qed.

End Run.

(** ** Lines that do not fit in the buffer *)

Section Long.
Context {W : Type} {SY : Sys W} {IO : FileIO W} {OK : FileIOOk W}.
Context (pattern : list Z) (fd : Z).

Lemma grep_loop_long fuel held buf w :
  (1024 - length held < fuel)%nat -> readable w fd -> length buf = Z.to_nat BUFSZ -> take (length held) buf = held ->
  (length held <= 1023)%nat -> (1023 <= length held + length (pending w fd))%nat ->
  10 ∉ held ++ take (1023 - length held) (pending w fd) -> 0 ∉ held ++ take (1023 - length held) (pending w fd) ->
  exists buf' w', grep_loop fuel pattern fd buf (length held) w = UDone buf' w' /\ output w' = output w /\
    pending w' fd = drop (1023 - length held) (pending w fd).
Proof.
  revert held buf w. induction fuel as [|k IH]; intros held buf w Hfuel Hrd Hlen Hheld Hm Hd Hn0 H0; [lia|]. cbn [grep_loop].
  change (Z.to_nat BUFSZ) with 1024%nat in *.
  destruct (read_ok w fd (BUFSZ - Z.of_nat (length held) - 1) Hrd ltac:(unfold BUFSZ; lia)) as (bs & w1 & R & Ebs & Hn & Hne & Hrd1 & Hp1 & Ho1).
  rewrite (ubind_done _ _ _ _ _ R). cbn [fst snd]. unfold BUFSZ in Hn. destruct (decide (length held = 1023%nat)) as [Hfull|Hroom].
  { assert (Hz : length bs = 0%nat) by lia. rewrite Hz. exists buf, w1. rewrite Hfull, Hp1, Hz. done. }
  assert (Hdata : pending w fd <> []) by (intros E; rewrite E in Hd; simpl in Hd; lia).
  specialize (Hne ltac:(unfold BUFSZ; lia) Hdata). assert (Hbs : (0 < length bs)%nat) by (destruct bs; [done|simpl; lia]).
  rewrite (proj2 (Z.leb_gt _ 0)), Nat2Z.id by lia. set (rest := drop (length bs) (pending w fd)) in *.
  assert (Ed : pending w fd = bs ++ rest) by (rewrite Ebs at 1; symmetry; apply take_drop).
  set (junk := drop (S (length held + length bs)) buf).
  assert (Eb : <[(length held + length bs)%nat := 0]> (splice buf (length held) bs) = [] ++ (held ++ bs) ++ 0 :: junk) by (apply grep_fill; [done|lia]).
  assert (Et : take (1023 - length held) (pending w fd) = bs ++ take (1023 - length (held ++ bs)) rest).
  { rewrite Ed, take_app, take_ge by lia. f_equal. f_equal. rewrite length_app. lia. }
  rewrite Et, app_assoc in Hn0, H0. pose proof (proj1 (proj1 (not_elem_of_app _ _ _) Hn0)) as Hn1. pose proof (proj1 (proj1 (not_elem_of_app _ _ _) H0)) as H1.
  rewrite Eb. destruct (grep_lines_run pattern fd 1024 (held ++ bs) [] junk w1) as (pre' & w2 & R2 & L2 & O2 & Hrd2 & P2);
    [rewrite length_app; lia|done|done|].
  rewrite rest_line_one in R2, L2 by done. rewrite full_lines_one in O2 by done. change (selected pattern []) with (@nil Z) in O2. rewrite app_nil_r in O2.
  rewrite (ubind_done _ _ _ _ _ R2). cbn [fst snd]. rewrite bool_decide_true by lia. rewrite length_app in L2. simpl in L2.
  replace (length held + length bs - length pre')%nat with (length (held ++ bs)) by (rewrite length_app; lia).
  assert (Hp2 : pending w2 fd = rest) by (by rewrite P2, Hp1).
  destruct (IH (held ++ bs) (Ulib.memmove (pre' ++ (held ++ bs) ++ 0 :: junk) 0 (Z.of_nat (length pre')) (length (held ++ bs))) w2) as (buf' & w' & R3 & O3 & P3).
  - rewrite length_app. lia.
  - done.
  - rewrite length_umemmove, !length_app. simpl. unfold junk. rewrite length_drop. lia.
  - apply umemmove_front.
  - rewrite length_app. lia.
  - rewrite Hp2, length_app. rewrite Ed, length_app in Hd. lia.
  - by rewrite Hp2.
  - by rewrite Hp2.
  - exists buf', w'. split_and!; [exact R3|by rewrite O3, O2|]. rewrite P3, Hp2, length_app. unfold rest. rewrite drop_drop. f_equal. lia.
Qed.

End Long.

(** ** The properties *)

(** C39: The matcher decides the meaning of its patterns.  match() returns 1
    exactly when some part of the text, the start of it under ^ and the end
    of it under $, is a string of the pattern, where c stands for itself, .
    for any character and x* for any number of x. *)
Theorem match_correct re text : match_re re text = true <-> occurs (parse_re re) text.
Proof. apply match_re_spec. Qed.

(** C40: grep() prints the matching lines.  However the input arrives, and
    whatever earlier calls left in the buffer, grep() terminates after writing
    exactly the newline-terminated lines of the input that match, in order,
    when no line is longer than 1022 bytes and the input has no NUL. *)
Theorem grep_correct {W} `{Sys W} `{FileIO W} `{!FileIOOk W} fuel pattern fd buf (w : W) :
  length buf = Z.to_nat BUFSZ -> readable w fd -> (length (pending w fd) < fuel)%nat -> 0 ∉ pending w fd ->
  Forall (fun l => (length l <= 1022)%nat) (split_on 10 (pending w fd)) ->
  exists buf' w', grep fuel pattern fd buf w = UDone buf' w' /\
    output w' = output w ++ selected pattern (full_lines (pending w fd)) /\ pending w' fd = [].
Proof.
  intros Hb Hr Hf Hz Hs. destruct (grep_loop_run pattern fd fuel [] buf w) as (buf' & w' & R & _ & O & _ & P); try done; [set_solver|].
  by exists buf', w'.
Qed.

(** A line of 1023 bytes or more ends grep().  When the input starts with
    1023 bytes without a newline, grep() asks read() for zero bytes, takes the
    answer for the end of the file and returns without printing anything,
    however many matching lines follow. *)
Theorem grep_long_line {W} `{Sys W} `{FileIO W} `{!FileIOOk W} fuel pattern fd buf (w : W) :
  length buf = Z.to_nat BUFSZ -> readable w fd -> (1024 < fuel)%nat -> (1023 <= length (pending w fd))%nat ->
  10 ∉ take 1023 (pending w fd) -> 0 ∉ take 1023 (pending w fd) ->
  exists buf' w', grep fuel pattern fd buf w = UDone buf' w' /\ output w' = output w /\ pending w' fd = drop 1023 (pending w fd).
Proof. intros. apply (grep_loop_long pattern fd fuel [] buf w); [simpl; lia|done|done|done|simpl; lia|simpl; lia|done|done]. Qed.

Definition text0 : list Z := bytes "one" ++ [10] ++ bytes "two" ++ [10] ++ bytes "three" ++ [10] ++ bytes "on".

Lemma grep_correct_witness : exists buf' w',
  @grep tape tape_sys 100 (bytes "^t.*e") 0 (replicate 1024 0) (Tape text0 []) = UDone buf' w' /\ t_out w' = bytes "three" ++ [10].
Proof.
  destruct (@grep_correct tape tape_sys tape_io tape_ok 100 (bytes "^t.*e") 0 (replicate 1024 0) (Tape text0 [])) as (buf' & w' & R & O & _).
  - apply length_replicate.
  - done.
  - vm_compute. lia.
  - by apply (bool_decide_unpack _); vm_compute.
  - by apply (bool_decide_unpack _); vm_compute.
  - exists buf', w'. split; [exact R|]. etransitivity; [exact O|]. vm_compute. reflexivity.
Defined.

Lemma grep_long_line_witness : exists buf' w',
  @grep tape tape_sys 2000 (bytes "a") 0 (replicate 1024 0) (Tape (replicate 1023 97 ++ [10] ++ bytes "a" ++ [10]) []) = UDone buf' w' /\ t_out w' = [].
Proof.
  destruct (@grep_long_line tape tape_sys tape_io tape_ok 2000 (bytes "a") 0 (replicate 1024 0) (Tape (replicate 1023 97 ++ [10] ++ bytes "a" ++ [10]) []))
    as (buf' & w' & R & O & _).
  - apply length_replicate.
  - done.
  - by apply (bool_decide_unpack _); vm_compute.
  - by apply (bool_decide_unpack _); vm_compute.
  - by apply (bool_decide_unpack _); vm_compute.
  - by apply (bool_decide_unpack _); vm_compute.
  - exists buf', w'. split; [exact R|exact O].
Defined.
