(* ===== verification/Tools.v ===== *)
(** * The small user programs (user/cat.c, user/wc.c, user/echo.c, user/ls.c,
      user/init.c, user/kill.c, user/ln.c, user/mkdir.c, user/rm.c,
      user/zombie.c, user/forktest.c, user/stressfs.c)

    Loops that depend on the outside world take their bound as [fuel]. *)

From stdpp Require Import base numbers list list_numbers gmap strings.
From Stdlib Require Import ZArith Lia.
From S2P Require Import Prelude.
From S2P Require Import Mem.
From S2P Require Import User.

Local Open Scope Z_scope.

Section Programs.
Context {W : Type} {SY : Sys W}.
Import Printf.

(** A line of text, as in a format that ends in a newline. *)
Definition ln (s : string) : list Z := bytes s ++ [10].

(** ** cat *)

Fixpoint cat (fuel : nat) (fd : Z) : U W unit :=
  match fuel with
  | O => fun _ => UHang
  | S k =>
      r ← read fd 512;
      let n := snd r in
      if 0 <? n then
        m ← write 1 (fst r);
        if negb (m =? n) then fprintf 2 (ln "cat: write error") [] ;; exit 1
        else cat k fd
      else if n <? 0 then fprintf 2 (ln "cat: read error") [] ;; exit 1
      else mret tt
  end.

Fixpoint cat_files (fuel : nat) (files : list (list Z)) : U W unit :=
  match files with
  | [] => mret tt
  | f :: files =>
      fd ← open f 0;
      if fd <? 0 then fprintf 2 (ln "cat: cannot open %s") [AStr (Some f)] ;; exit 1 else
      cat fuel fd ;;
      _ ← close fd;
      cat_files fuel files
  end.

Definition cat_main (fuel : nat) (argv : list (list Z)) : U W unit :=
  match argv with
  | _ :: f :: files => cat_files fuel (f :: files) ;; exit 0
  | _ => cat fuel 0 ;; exit 0
  end.

(** ** wc *)

(** The counters l, w, c and the flag inword. *)
Record counts := Counts { wc_l : Z; wc_w : Z; wc_c : Z; wc_inword : bool }.

(** The characters of the string [" \r\t\n\v"]. *)
Definition wc_spaces : list Z := [32; 13; 9; 10; 11].

Definition wc_char (x : counts) (ch : Z) : counts :=
  let c := i32 (wc_c x + 1) in
  let l := if ch =? 10 then i32 (wc_l x + 1) else wc_l x in
  match Ulib.strchr wc_spaces ch with
  | Some _ => Counts l (wc_w x) c false
  | None => if negb (wc_inword x) then Counts l (i32 (wc_w x + 1)) c true else Counts l (wc_w x) c (wc_inword x)
  end.

Fixpoint wc_loop (fuel : nat) (fd : Z) (x : counts) : U W (counts * Z) :=
  match fuel with
  | O => fun _ => UHang
  | S k =>
      r ← read fd 512;
      let n := snd r in
      if 0 <? n then wc_loop k fd (foldl wc_char x (take (Z.to_nat n) (fst r)))
      else mret (x, n)
  end.

Definition wc (fuel : nat) (fd : Z) (name : list Z) : U W unit :=
  r ← wc_loop fuel fd (Counts 0 0 0 false);
  if snd r <? 0 then printf (ln "wc: read error") [] ;; exit 1 else
  let x := fst r in
  printf (ln "%d %d %d %s") [AWord (wc_l x); AWord (wc_w x); AWord (wc_c x); AStr (Some name)].

Fixpoint wc_files (fuel : nat) (files : list (list Z)) : U W unit :=
  match files with
  | [] => mret tt
  | f :: files =>
      fd ← open f 0;
      if fd <? 0 then printf (ln "wc: cannot open %s") [AStr (Some f)] ;; exit 1 else
      wc fuel fd f ;;
      _ ← close fd;
      wc_files fuel files
  end.

Definition wc_main (fuel : nat) (argv : list (list Z)) : U W unit :=
  match argv with
  | _ :: f :: files => wc_files fuel (f :: files) ;; exit 0
  | _ => wc fuel 0 [] ;; exit 0
  end.

(** ** echo, kill, ln, mkdir, rm *)

Fixpoint echo_loop (args : list (list Z)) : U W unit :=
  match args with
  | [] => mret tt
  | a :: args =>
      _ ← write 1 a;
      _ ← write 1 (if bool_decide (args = []) then [10] else [32]);
      echo_loop args
  end.
Definition echo_main (argv : list (list Z)) : U W unit := echo_loop (drop 1 argv) ;; exit 0.

Fixpoint kill_loop_u (args : list (list Z)) : U W unit :=
  match args with
  | [] => mret tt
  | a :: args => _ ← kill (Ulib.atoi a); kill_loop_u args
  end.
Definition kill_main (argv : list (list Z)) : U W unit :=
  if bool_decide (length argv < 2)%nat then fprintf 2 (ln "usage: kill pid...") [] ;; exit 1 else
  kill_loop_u (drop 1 argv) ;; exit 0.

Definition ln_main (argv : list (list Z)) : U W unit :=
  match argv with
  | [_; old; new] =>
      r ← link old new;
      (if r <? 0 then fprintf 2 (ln "link %s %s: failed") [AStr (Some old); AStr (Some new)] else mret tt) ;;
      exit 0
  | _ => fprintf 2 (ln "Usage: ln old new") [] ;; exit 1
  end.

Fixpoint mkdir_loop (args : list (list Z)) : U W unit :=
  match args with
  | [] => mret tt
  | a :: args =>
      r ← mkdir a;
      if r <? 0 then fprintf 2 (ln "mkdir: %s failed to create") [AStr (Some a)] else mkdir_loop args
  end.
Definition mkdir_main (argv : list (list Z)) : U W unit :=
  if bool_decide (length argv < 2)%nat then fprintf 2 (ln "Usage: mkdir files...") [] ;; exit 1 else
  mkdir_loop (drop 1 argv) ;; exit 0.

Fixpoint rm_loop (args : list (list Z)) : U W unit :=
  match args with
  | [] => mret tt
  | a :: args =>
      r ← unlink a;
      if r <? 0 then fprintf 2 (ln "rm: %s failed to delete") [AStr (Some a)] else rm_loop args
  end.
Definition rm_main (argv : list (list Z)) : U W unit :=
  if bool_decide (length argv < 2)%nat then fprintf 2 (ln "Usage: rm files...") [] ;; exit 1 else
  rm_loop (drop 1 argv) ;; exit 0.

(** ** zombie, forktest, stressfs *)

Definition zombie_main : U W unit :=
  pid ← fork;
  (if 0 <? pid then _ ← usleep 5; mret tt else mret tt) ;;
  exit 0.

Definition print (s : list Z) : U W unit := _ ← write 1 s; mret tt.

(** The first loop of forktest(): how many forks worked. *)
Fixpoint forktest_forks (k : nat) (n : Z) : U W Z :=
  match k with
  | O => mret n
  | S k =>
      pid ← fork;
      if pid <? 0 then mret n else
      if pid =? 0 then exit 0 else forktest_forks k (n + 1)
  end.
Fixpoint forktest_waits (n : nat) : U W unit :=
  match n with
  | O => mret tt
  | S n =>
      r ← wait;
      if r <? 0 then print (ln "wait stopped early") ;; exit 1 else forktest_waits n
  end.
Definition forktest : U W unit :=
  print (ln "fork test") ;;
  n ← forktest_forks 1000 0;
  if n =? 1000 then print (ln "fork claimed to work N times!") ;; exit 1 else
  forktest_waits (Z.to_nat n) ;;
  r ← wait;
  if negb (r =? -1) then print (ln "wait got too many") ;; exit 1 else
  print (ln "fork test OK").
Definition forktest_main : U W unit := forktest ;; exit 0.

(** The forking loop of stressfs: the value of i it ends with. *)
Fixpoint stressfs_forks (k : nat) (i : Z) : U W Z :=
  match k with
  | O => mret i
  | S k => pid ← fork; if 0 <? pid then mret i else stressfs_forks k (i + 1)
  end.
Fixpoint times (n : nat) (m : U W unit) : U W unit :=
  match n with O => mret tt | S n => m ;; times n m end.

Definition stressfs_main : U W unit :=
  printf (ln "stressfs starting") [] ;;
  let data := replicate 512 97 in
  i ← stressfs_forks 4 0;
  printf (ln "write %d") [AWord i] ;;
  let path := bytes "stressfs" ++ [u8 (48 + i)] in
  fd ← open path (Z.lor 0x200 0x002);
  times 20 (_ ← write fd data; mret tt) ;;
  _ ← close fd;
  printf (ln "read") [] ;;
  fd ← open path 0;
  times 20 (_ ← read fd 512; mret tt) ;;
  _ ← close fd;
  _ ← wait;
  exit 0.

(** ** init *)

(** The inner loop: wait until the shell [pid] has exited. *)
Fixpoint init_wait (fuel : nat) (pid : Z) : U W unit :=
  match fuel with
  | O => fun _ => UHang
  | S k =>
      wpid ← wait;
      if wpid =? pid then mret tt
      else if wpid <? 0 then printf (ln "init: wait returned an error") [] ;; exit 1
      else init_wait k pid
  end.

Fixpoint init_loop (fuel : nat) : U W unit :=
  match fuel with
  | O => fun _ => UHang
  | S k =>
      printf (ln "init: starting sh") [] ;;
      pid ← fork;
      if pid <? 0 then printf (ln "init: fork failed") [] ;; exit 1 else
      if pid =? 0 then
        _ ← exec (bytes "sh") [bytes "sh"];
        printf (ln "init: exec sh failed") [] ;;
        exit 1
      else
        init_wait fuel pid ;;
        init_loop k
  end.

Definition init_main (fuel : nat) : U W unit :=
  fd ← open (bytes "console") 0x002;
  (if fd <? 0 then
     _ ← mknod (bytes "console") 1 0;
     _ ← open (bytes "console") 0x002;
     mret tt
   else mret tt) ;;
  _ ← dup 0;
  _ ← dup 0;
  init_loop fuel.

(** ** ls *)

Definition DIRSIZ_u : nat := 14.

(** The part of a path after its last slash. *)
Definition basename (path : list Z) : list Z := default path (last (split_on 47 path)).

(** fmtname(): the last element, padded with blanks to DIRSIZ in the static
    array [fbuf] of DIRSIZ + 1 bytes, which it also returns. *)
Definition fmtname (fbuf path : list Z) : list Z * list Z :=
  let p := basename path in
  if bool_decide (DIRSIZ_u <= length p)%nat then (fbuf, p) else
  let fbuf := splice fbuf 0 p in
  let fbuf := splice fbuf (length p) (replicate (DIRSIZ_u - length p) 32) in
  (fbuf, cstring fbuf).

(** The loop over the entries of a directory; [path] is the name with its
    slash in buf. *)
Fixpoint ls_dir (fuel : nat) (fd : Z) (path fbuf : list Z) : U W (list Z) :=
  match fuel with
  | O => fun _ => UHang
  | S k =>
      r ← read fd 16;
      if negb (snd r =? 16) then mret fbuf else
      let de := fst r in
      if getn 2 0 de =? 0 then ls_dir k fd path fbuf else
      let buf := path ++ cstring (slice 2 DIRSIZ_u de) in
      st ← Ulib.stat buf;
      match fst st with
      | Some x =>
          if snd st <? 0 then printf (ln "ls: cannot stat %s") [AStr (Some buf)] ;; ls_dir k fd path fbuf else
          let '(fbuf, name) := fmtname fbuf buf in
          printf (ln "%s %d %d %d") [AStr (Some name); AWord (us_type x); AWord (us_ino x); AWord (us_size x)] ;;
          ls_dir k fd path fbuf
      | None => printf (ln "ls: cannot stat %s") [AStr (Some buf)] ;; ls_dir k fd path fbuf
      end
  end.

Definition ls (fuel : nat) (path fbuf : list Z) : U W (list Z) :=
  fd ← open path 0;
  if fd <? 0 then fprintf 2 (ln "ls: cannot open %s") [AStr (Some path)] ;; mret fbuf else
  r ← fstat fd;
  if snd r <? 0 then
    fprintf 2 (ln "ls: cannot stat %s") [AStr (Some path)] ;;
    _ ← close fd;
    mret fbuf
  else
  let st := fst r in
  fbuf ← (if us_type st =? 2 then
            let '(fbuf, name) := fmtname fbuf path in
            printf (ln "%s %d %d %l") [AStr (Some name); AWord (us_type st); AWord (us_ino st); AWord (us_size st)] ;;
            mret fbuf
          else if us_type st =? 1 then
            if 512 <? Z.of_nat (length path) + 1 + Z.of_nat DIRSIZ_u + 1 then printf (ln "ls: path too long") [] ;; mret fbuf
            else ls_dir fuel fd (path ++ [47]) fbuf
          else mret fbuf);
  _ ← close fd;
  mret fbuf.

Fixpoint ls_args (fuel : nat) (args : list (list Z)) (fbuf : list Z) : U W unit :=
  match args with
  | [] => mret tt
  | a :: args => fbuf ← ls fuel a fbuf; ls_args fuel args fbuf
  end.
Definition ls_main (fuel : nat) (argv : list (list Z)) : U W unit :=
  let fbuf := replicate (S DIRSIZ_u) 0 in
  if bool_decide (length argv < 2)%nat then ls fuel (bytes ".") fbuf ;; exit 0
  else ls_args fuel (drop 1 argv) fbuf ;; exit 0.

End Programs.
