(* ===== verification/ToolsSpec.v ===== *)
(** * The user C library and the small programs: what they print

    printf() against a rendering function, cat against its input, wc against
    the lines, words and bytes of its input, echo against its arguments. *)

From stdpp Require Import base numbers list list_numbers gmap strings.
From Stdlib Require Import ZArith Lia.
From S2P Require Import Prelude.
From S2P Require Import Mem.
From S2P Require Import User.
From S2P Require Import Tools.

Local Open Scope Z_scope.

(** ** printf() *)

(** What one conversion prints, with the arguments left; [None] when its
    argument is missing or of the wrong type. *)
Definition conversion (c : Z) (ap : list Printf.arg) : option (list Z * list Printf.arg) :=
  match ap with
  | Printf.AWord x :: ap =>
      if c =? 100 then Some (Printf.int_text (i32 x) 10 true, ap)
      else if c =? 108 then Some (Printf.int_text (i32 x) 10 false, ap)
      else if c =? 120 then Some (Printf.int_text (i32 x) 16 false, ap)
      else if c =? 112 then Some (bytes "0x" ++ Printf.hex_text 16 x, ap)
      else if c =? 99 then Some ([u8 x], ap)
      else None
  | Printf.AStr s :: ap => if c =? 115 then Some (default (bytes "(null)") s, ap) else None
  | [] => None
  end.

Definition is_conversion (c : Z) : bool := bool_decide (c ∈ [100; 108; 120; 112; 115; 99]).

(** The text of a format: characters stand for themselves, %% for %, % and
    another character for both. *)
Fixpoint render (fmt : list Z) (ap : list Printf.arg) : option (list Z) :=
  match fmt with
  | [] => Some []
  | c :: fmt =>
      if c =? 37 then
        match fmt with
        | [] => Some []
        | d :: fmt =>
            if is_conversion d then '(t, ap) ← conversion d ap; (t ++.) <$> render fmt ap
            else (((if d =? 37 then [37] else [37; d]) ++.) <$> render fmt ap)
        end
      else ((c ::.) <$> render fmt ap)
  end.

(** What it takes for a program to print: what its writes to descriptor 1 add
    up to, and what they leave alone. *)
Class Printing (W : Type) `{Sys W} := {
  wrote : list Z -> W -> W -> Prop;
  wrote_nil : forall w, wrote [] w w;
  wrote_app : forall t u w1 w2 w3, wrote t w1 w2 -> wrote u w2 w3 -> wrote (t ++ u) w1 w3;
  wrote_write : forall w bs, exists w', write 1 bs w = UDone (Z.of_nat (length bs)) w' /\ wrote bs w w'
}.

#[export] Instance fileio_printing {W} `{Sys W} `{FileIO W} `{!FileIOOk W} : Printing W.
Proof.
  refine {| wrote := fun t w w' => output w' = output w ++ t /\ forall fd, readable w fd -> readable w' fd /\ pending w' fd = pending w fd |}.
  - intros w. by rewrite app_nil_r.
  - intros t u w1 w2 w3 [O1 F1] [O2 F2]. split; [by rewrite O2, O1, app_assoc|].
    intros fd Hr. destruct (F1 fd Hr) as [Hr1 E1]. destruct (F2 fd Hr1) as [Hr2 E2]. split; [done|congruence].
  - intros w bs. exact (write_ok w bs).
Defined.

Lemma render_plain p fmt ap : 37 ∉ p -> render (p ++ fmt) ap = (p ++.) <$> render fmt ap.
Proof.
  induction p as [|c p IH]; intros H; [cbn [app]; by destruct (render fmt ap)|]. apply not_elem_of_cons in H as [H0 H]. cbn [app render].
  rewrite (proj2 (Z.eqb_neq c 37)) by done. rewrite IH by done. by destruct (render fmt ap).
Qed.

Lemma render_d fmt x ap : render (37 :: 100 :: fmt) (Printf.AWord x :: ap) = (Printf.int_text (i32 x) 10 true ++.) <$> render fmt ap.
Proof. done. Qed.

Section Output.
Context {W : Type} {SY : Sys W} {PR : Printing W}.

(** A program that only prints [t]. *)
Definition prints {A} (m : U W A) (a : A) (t : list Z) : Prop := forall w, exists w', m w = UDone a w' /\ wrote t w w'.

Lemma prints_ret {A} (a : A) : prints (mret a) a [].
Proof. intros w. exists w. split; [done|apply wrote_nil]. Qed.

Lemma prints_bind {A B} (m : U W A) (k : A -> U W B) a b t u : prints m a t -> prints (k a) b u -> prints (m ≫= k) b (t ++ u).
Proof.
  intros H1 H2 w. destruct (H1 w) as (w1 & R1 & O1). destruct (H2 w1) as (w2 & R2 & O2). exists w2.
  rewrite (ubind_done _ _ _ _ _ R1). split; [done|by eapply wrote_app].
Qed.

Lemma prints_write bs : prints (write 1 bs) (Z.of_nat (length bs)) bs.
Proof. intros w. apply wrote_write. Qed.

Lemma prints_putc c : prints (Printf.putc 1 c) tt [c].
Proof. unfold Printf.putc. rewrite <- (app_nil_r [c]). eapply prints_bind; [apply (prints_write [c])|apply prints_ret]. Qed.

Lemma prints_puts cs : prints (Printf.puts 1 cs) tt cs.
Proof. induction cs as [|c cs IH]; [apply prints_ret|]. apply (prints_bind _ _ tt tt [c] cs); [apply prints_putc|done]. Qed.

Lemma prints_vprintf fmt ap t : render fmt ap = Some t -> prints (Printf.vprintf 1 fmt false ap) tt t.
Proof.
  remember (length fmt) as n eqn:En. revert fmt ap t En. induction (lt_wf n) as [n _ IH]. intros fmt ap t -> H.
  destruct fmt as [|c fmt]; [injection H as <-; apply prints_ret|]. cbn [render Printf.vprintf negb] in *.
  destruct (c =? 37).
  2: { apply fmap_Some in H as (u & Hu & ->). apply (prints_bind _ _ tt tt [c] u); [apply prints_putc|]. by eapply (IH (length fmt)); [simpl; lia| |]. }
  destruct fmt as [|d fmt]; [injection H as <-; apply prints_ret|]. cbn [Printf.vprintf negb].
  assert (IHf : forall ap t, render fmt ap = Some t -> prints (Printf.vprintf 1 fmt false ap) tt t)
    by (intros ? ? ?; by eapply (IH (length fmt)); [simpl; lia| |]).
  clear IH. destruct (is_conversion d) eqn:Ed.
  - apply bind_Some in H as ([u ap'] & Hc & (v & Hv & ->)%fmap_Some). unfold conversion in Hc. destruct ap as [|[x|s] ap]; [done| |].
    + destruct (Z.eqb_spec d 100); [injection Hc as <- <-; apply (prints_bind _ _ tt); [apply prints_puts|by apply IHf]|].
      destruct (Z.eqb_spec d 108); [injection Hc as <- <-; apply (prints_bind _ _ tt); [apply prints_puts|by apply IHf]|].
      destruct (Z.eqb_spec d 120); [injection Hc as <- <-; apply (prints_bind _ _ tt); [apply prints_puts|by apply IHf]|].
      destruct (Z.eqb_spec d 112).
      * injection Hc as <- <-. apply (prints_bind _ _ tt); [|by apply IHf].
        apply (prints_bind _ _ tt tt [48]); [apply prints_putc|]. apply (prints_bind _ _ tt tt [120]); [apply prints_putc|apply prints_puts].
      * destruct (Z.eqb_spec d 99); [|done]. injection Hc as <- <-. subst d. simpl.
        apply (prints_bind _ _ tt tt [u8 x]); [apply prints_putc|by apply IHf].
    + destruct (Z.eqb_spec d 115) as [->|]; [|done]. injection Hc as <- <-. simpl. apply (prints_bind _ _ tt); [apply prints_puts|by apply IHf].
  - apply fmap_Some in H as (v & Hv & ->). apply bool_decide_eq_false in Ed.
    assert (d <> 100 /\ d <> 108 /\ d <> 120 /\ d <> 112 /\ d <> 115 /\ d <> 99) as (N1 & N2 & N3 & N4 & N5 & N6) by set_solver.
    rewrite (proj2 (Z.eqb_neq _ _) N1), (proj2 (Z.eqb_neq _ _) N2), (proj2 (Z.eqb_neq _ _) N3), (proj2 (Z.eqb_neq _ _) N4),
      (proj2 (Z.eqb_neq _ _) N5), (proj2 (Z.eqb_neq _ _) N6).
    destruct (Z.eqb_spec d 37) as [->|].
    + apply (prints_bind _ _ tt tt [37]); [apply prints_putc|by apply IHf].
    + apply (prints_bind _ _ tt tt [37] (d :: v)); [apply prints_putc|]. apply (prints_bind _ _ tt tt [d]); [apply prints_putc|by apply IHf].
Qed.

End Output.

(** ** Lines, words and bytes *)

Definition is_space (x : Z) : bool := bool_decide (x ∈ wc_spaces).

(** The parts between white space. *)
Fixpoint fields (s : list Z) : list (list Z) :=
  match s with
  | [] => [[]]
  | x :: r =>
      if is_space x then [] :: fields r
      else match fields r with h :: t => (x :: h) :: t | [] => [[x]] end
  end.
Definition words (s : list Z) : list (list Z) := filter (fun f => f <> []) (fields s).
Definition newlines (s : list Z) : Z := Z.of_nat (length (filter (fun x => x = 10) s)).

Lemma fields_ne s : fields s <> [].
Proof. destruct s as [|x s]; simpl; [done|]. repeat case_match; done. Qed.

(** Whether the text starts inside a word. *)
Definition starts_word (s : list Z) : bool := match s with x :: _ => negb (is_space x) | [] => false end.

(** The words that begin in [s], after a text that ends inside a word or not. *)
Definition new_words (inword : bool) (s : list Z) : Z :=
  Z.of_nat (length (words s)) - (if inword && starts_word s then 1 else 0).

Lemma words_cons x s :
  length (words (x :: s)) = if is_space x then length (words s) else (S (length (words s)) - (if starts_word s then 1 else 0))%nat.
Proof.
  assert (N : forall l, filter (fun f : list Z => f <> []) ([] :: l) = filter (fun f => f <> []) l) by done.
  assert (C : forall y h l, filter (fun f : list Z => f <> []) ((y :: h) :: l) = (y :: h) :: filter (fun f => f <> []) l) by done.
  unfold words. cbn [fields]. destruct (is_space x) eqn:Ex; [by rewrite N|].
  destruct s as [|y s]; [done|]. cbn [fields starts_word]. destruct (is_space y); cbn [negb].
  - rewrite C, N. simpl. lia.
  - pose proof (fields_ne s). destruct (fields s) as [|h t]; [done|]. rewrite !C. simpl. lia.
Qed.

Lemma words_pos s : starts_word s = true -> (0 < length (words s))%nat.
Proof.
  induction s as [|x s IH]; [done|]. cbn [starts_word]. intros Hx. rewrite words_cons. destruct (is_space x); [done|].
  destruct (starts_word s); [specialize (IH eq_refl)|]; lia.
Qed.

Lemma new_words_cons b x s :
  new_words b (x :: s) = if is_space x then new_words false s else (if b then 0 else 1) + new_words true s.
Proof.
  unfold new_words. rewrite words_cons. cbn [starts_word]. pose proof (words_pos s) as Hp.
  destruct (is_space x), b, (starts_word s); simpl; lia.
Qed.

Lemma i32_add_l a b : i32 (i32 a + b) = i32 (a + b).
Proof.
  unfold i32, sgn. change (32 - 1) with 31. f_equal. rewrite <- (Z.add_mod_idemp_l (a + b) (2 ^ 31)), <- (Z.add_mod_idemp_l (_ + b) (2 ^ 31)) by lia.
  f_equal. f_equal. replace ((a + 2 ^ 31) `mod` 2 ^ 32 - 2 ^ 31 + b) with ((a + 2 ^ 31) `mod` 2 ^ 32 + (b - 2 ^ 31)) by lia.
  rewrite Z.add_mod_idemp_l by lia. f_equal. lia.
Qed.

Lemma strchr_space x : Ulib.strchr wc_spaces x = None <-> is_space x = false.
Proof. unfold is_space. by rewrite bool_decide_eq_false, strchr_none. Qed.

(** The counters after a text. *)
Definition in_range (x : counts) : Prop := i32 (wc_l x) = wc_l x /\ i32 (wc_w x) = wc_w x /\ i32 (wc_c x) = wc_c x.

Lemma newlines_cons x s : newlines (x :: s) = (if x =? 10 then 1 else 0) + newlines s.
Proof. unfold newlines. rewrite filter_cons. destruct (Z.eqb_spec x 10); case_decide; simpl; lia. Qed.

Lemma i32_idem a : i32 (i32 a) = i32 a.
Proof. pose proof (i32_add_l a 0). by rewrite !Z.add_0_r in H. Qed.

Lemma wc_fold s x :
  in_range x -> exists b, foldl wc_char x s =
    Counts (i32 (wc_l x + newlines s)) (i32 (wc_w x + new_words (wc_inword x) s)) (i32 (wc_c x + Z.of_nat (length s))) b.
Proof.
  revert x. induction s as [|ch s IH]; intros x (R1 & R2 & R3).
  - exists (wc_inword x). assert (new_words (wc_inword x) [] = 0) as -> by (unfold new_words; by rewrite andb_false_r).
    change (newlines []) with 0. change (Z.of_nat (length [])) with 0. rewrite !Z.add_0_r, R1, R2, R3. by destruct x.
  - cbn [foldl]. destruct (IH (wc_char x ch)) as [b E].
    { unfold wc_char. repeat case_match; split_and!; simpl; by rewrite ?i32_idem. }
    exists b. rewrite E. clear E IH. rewrite newlines_cons, new_words_cons. cbn [length]. rewrite Nat2Z.inj_succ.
    pose proof (strchr_space ch) as Hs. unfold wc_char. destruct (Ulib.strchr wc_spaces ch) eqn:Ec.
    + assert (is_space ch = true) as -> by (destruct (is_space ch); naive_solver). cbn [wc_l wc_w wc_c wc_inword].
      f_equal; [destruct (ch =? 10); rewrite ?i32_add_l; f_equal; lia|rewrite i32_add_l; f_equal; lia].
    + assert (is_space ch = false) as -> by naive_solver.
      destruct (wc_inword x); cbn [negb wc_l wc_w wc_c wc_inword]; (f_equal; [destruct (ch =? 10); rewrite ?i32_add_l; f_equal; lia|rewrite ?i32_add_l; f_equal; lia..]).
Qed.

Section Filters.
Context {W : Type} {SY : Sys W} {IO : FileIO W} {OK : FileIOOk W}.

(** One read of a program's loop: the end of the data, or some of it. *)
Lemma read_some w fd n :
  readable w fd -> 0 < n ->
  exists bs w', read fd n w = UDone (bs, Z.of_nat (length bs)) w' /\ readable w' fd /\ output w' = output w /\
    pending w fd = bs ++ pending w' fd /\ (pending w fd <> [] -> bs <> []).
Proof.
  intros Hr Hn. destruct (read_ok w fd n Hr ltac:(lia)) as (bs & w' & R & Ebs & _ & Hne & Hr' & Hp & Ho). exists bs, w'.
  split_and!; [done|done|done| |by intros; apply Hne]. rewrite Hp, Ebs at 1. symmetry. apply take_drop.
Qed.

Lemma cat_run fuel fd w :
  (length (pending w fd) < fuel)%nat -> readable w fd ->
  exists w', cat fuel fd w = UDone tt w' /\ output w' = output w ++ pending w fd /\ readable w' fd /\ pending w' fd = [].
Proof.
  revert w. induction fuel as [|k IH]; intros w Hf Hr; [lia|]. cbn [cat].
  destruct (read_some w fd 512 Hr ltac:(lia)) as (bs & w1 & R & Hr1 & Ho1 & Ep & Hne). rewrite (ubind_done _ _ _ _ _ R). cbn [fst snd].
  destruct bs as [|x bs].
  - simpl. exists w1. destruct (pending w fd) as [|y l]; [|by destruct Hne]. simpl in Ep. by rewrite app_nil_r, <- Ep.
  - rewrite (proj2 (Z.ltb_lt 0 _)) by (simpl; lia). destruct (write_ok w1 (x :: bs)) as (w2 & R2 & Ho2 & F2). destruct (F2 fd Hr1) as [Hr2 Hp2].
    rewrite (ubind_done _ _ _ _ _ R2), Z.eqb_refl. cbn [negb].
    destruct (IH w2) as (w' & R3 & O3 & Hr3 & P3); [rewrite Hp2; rewrite Ep, length_app in Hf; simpl in Hf; lia|done|].
    exists w'. split_and!; [done| |done|done]. by rewrite O3, Ho2, Ho1, Hp2, Ep, <- app_assoc.
Qed.

Lemma wc_loop_run fuel fd x w :
  (length (pending w fd) < fuel)%nat -> readable w fd ->
  exists w', wc_loop fuel fd x w = UDone (foldl wc_char x (pending w fd), 0) w' /\ output w' = output w /\ readable w' fd /\ pending w' fd = [].
Proof.
  revert x w. induction fuel as [|k IH]; intros x w Hf Hr; [lia|]. cbn [wc_loop].
  destruct (read_some w fd 512 Hr ltac:(lia)) as (bs & w1 & R & Hr1 & Ho1 & Ep & Hne). rewrite (ubind_done _ _ _ _ _ R). cbn [fst snd].
  destruct bs as [|y bs].
  - simpl. exists w1. destruct (pending w fd) as [|z l]; [|by destruct Hne]. simpl in Ep. by rewrite <- Ep.
  - rewrite (proj2 (Z.ltb_lt 0 _)) by (simpl; lia). rewrite Nat2Z.id, firstn_all.
    destruct (IH (foldl wc_char x (y :: bs)) w1) as (w' & R3 & O3 & Hr3 & P3); [rewrite Ep, length_app in Hf; simpl in Hf; lia|done|].
    exists w'. rewrite Ep, foldl_app. split_and!; [done|by rewrite O3|done|done].
Qed.

Lemma render_wc l w c name :
  render (ln "%d %d %d %s") [Printf.AWord l; Printf.AWord w; Printf.AWord c; Printf.AStr (Some name)] =
  Some (Printf.int_text (i32 l) 10 true ++ 32 :: Printf.int_text (i32 w) 10 true ++ 32 :: Printf.int_text (i32 c) 10 true ++ 32 :: name ++ [10]).
Proof. cbn -[Printf.int_text i32 app]. reflexivity. Qed.

Lemma wc_run fuel fd name w :
  (length (pending w fd) < fuel)%nat -> readable w fd ->
  exists t w', render (ln "%d %d %d %s") [Printf.AWord (newlines (pending w fd)); Printf.AWord (Z.of_nat (length (words (pending w fd))));
      Printf.AWord (Z.of_nat (length (pending w fd))); Printf.AStr (Some name)] = Some t /\
    wc fuel fd name w = UDone tt w' /\ output w' = output w ++ t /\ pending w' fd = [].
Proof.
  intros Hf Hr. destruct (wc_loop_run fuel fd (Counts 0 0 0 false) w Hf Hr) as (w1 & R & Ho & Hr1 & Hp1).
  destruct (wc_fold (pending w fd) (Counts 0 0 0 false)) as [b E]; [done|]. rewrite E in R. cbn [wc_l wc_w wc_c wc_inword] in R.
  unfold new_words in R. rewrite Z.sub_0_r, !Z.add_0_l in R. unfold wc. rewrite (ubind_done _ _ _ _ _ R). cbn [fst snd wc_l wc_w wc_c].
  rewrite (proj2 (Z.ltb_ge 0 0)) by lia.
  destruct (prints_vprintf _ _ _ (render_wc (i32 (newlines (pending w fd))) (i32 (Z.of_nat (length (words (pending w fd)))))
    (i32 (Z.of_nat (length (pending w fd)))) name) w1) as (w2 & R2 & O2 & F2). rewrite !i32_idem in O2.
  eexists _, w2. split_and!; [apply render_wc|exact R2|by rewrite O2, Ho|by rewrite (proj2 (F2 fd Hr1))].
Qed.

(** The arguments with blanks between them and a newline after them. *)
Fixpoint spaced (args : list (list Z)) : list Z :=
  match args with
  | [] => []
  | a :: args => a ++ (if bool_decide (args = []) then [10] else [32]) ++ spaced args
  end.

Lemma prints_echo args : prints (echo_loop args) tt (spaced args).
Proof.
  induction args as [|a args IH]; [apply prints_ret|]. cbn [echo_loop spaced].
  eapply prints_bind; [apply prints_write|]. eapply prints_bind; [apply prints_write|done].
Qed.

End Filters.

(** ** The properties *)

(** printf() prints its format.  For a format and arguments that fit it, the
    characters written one at a time to standard output are the text of the
    format with each conversion replaced by its argument. *)
Theorem printf_renders {W} `{Sys W} `{FileIO W} `{!FileIOOk W} fmt ap t (w : W) :
  render fmt ap = Some t ->
  exists w', Printf.printf fmt ap w = UDone tt w' /\ output w' = output w ++ t /\
    forall fd, readable w fd -> readable w' fd /\ pending w' fd = pending w fd.
Proof. intros Hr. exact (prints_vprintf fmt ap t Hr w). Qed.

(** cat copies its input.  However the reads cut it up, cat() terminates
    after writing exactly the bytes of the file, in order. *)
Theorem cat_correct {W} `{Sys W} `{FileIO W} `{!FileIOOk W} fuel fd (w : W) :
  (length (pending w fd) < fuel)%nat -> readable w fd ->
  exists w', cat fuel fd w = UDone tt w' /\ output w' = output w ++ pending w fd /\ pending w' fd = [].
Proof. intros Hf Hr. destruct (cat_run fuel fd w Hf Hr) as (w' & R & O & _ & P). by exists w'. Qed.

(** wc counts lines, words and bytes.  However the reads cut the input up,
    inside words too, wc() prints the number of newlines, of maximal runs of
    characters other than white space, and of bytes, and the name. *)
Theorem wc_correct {W} `{Sys W} `{FileIO W} `{!FileIOOk W} fuel fd name (w : W) :
  (length (pending w fd) < fuel)%nat -> readable w fd ->
  exists t w', render (ln "%d %d %d %s") [Printf.AWord (newlines (pending w fd)); Printf.AWord (Z.of_nat (length (words (pending w fd))));
      Printf.AWord (Z.of_nat (length (pending w fd))); Printf.AStr (Some name)] = Some t /\
    wc fuel fd name w = UDone tt w' /\ output w' = output w ++ t /\ pending w' fd = [].
Proof. apply wc_run. Qed.

Definition text1 : list Z := bytes "to be or" ++ [10] ++ bytes "not to be" ++ [10].

Lemma printf_renders_witness : exists w', @Printf.printf tape tape_sys (bytes "x = %d%%, %s %p") [Printf.AWord (2 ^ 32 - 5); Printf.AStr None; Printf.AWord 255] (Tape [] []) = UDone tt w' /\
  t_out w' = bytes "x = -5%, (null) 0x00000000000000FF".
Proof.
  destruct (@printf_renders tape tape_sys tape_io tape_ok (bytes "x = %d%%, %s %p") [Printf.AWord (2 ^ 32 - 5); Printf.AStr None; Printf.AWord 255]
    (bytes "x = -5%, (null) 0x00000000000000FF") (Tape [] []) ltac:(vm_compute; reflexivity)) as (w' & R & O & _).
  by exists w'.
Defined.

Lemma cat_correct_witness : exists w', @cat tape tape_sys 20 0 (Tape text1 []) = UDone tt w' /\ t_out w' = text1.
Proof.
  destruct (@cat_correct tape tape_sys tape_io tape_ok 20 0 (Tape text1 [])) as (w' & R & O & _); [vm_compute; lia|done|].
  by exists w'.
Defined.

Lemma wc_correct_witness : exists w', @wc tape tape_sys 20 0 (bytes "f") (Tape text1 []) = UDone tt w' /\ t_out w' = bytes "2 6 19 f" ++ [10].
Proof.
  destruct (@wc_correct tape tape_sys tape_io tape_ok 20 0 (bytes "f") (Tape text1 [])) as (t & w' & T & R & O & _); [vm_compute; lia|done|].
  exists w'. split; [exact R|]. vm_compute in T. injection T as <-. exact O.
Defined.
