(* ===== verification/Umalloc.v ===== *)
(** * The user memory allocator (user/umalloc.c)

    The circular list of free blocks in the memory of the process.  The theorems
    say that malloc() hands out blocks that overlap no other and that free()
    takes them back, that neither touches the contents of the blocks in use,
    and that both terminate. *)

From stdpp Require Import base numbers list list_numbers gmap strings.
From Stdlib Require Import ZArith Lia.
From S2P Require Import Prelude.
From S2P Require Import Mem.
From S2P Require Import User.

Local Open Scope Z_scope.

(** ** The code *)

(** A union header: ptr at offset 0, size at offset 8. *)
Definition HDR : Z := 16.
Definition hptr (m : mem) (p : Z) : Z := ld64 m p.
Definition hsize (m : mem) (p : Z) : Z := ld32 m (p + 8).
Definition set_ptr (p v : Z) (m : mem) : mem := st64 m p v.
Definition set_size (p v : Z) (m : mem) : mem := st32 m (p + 8) v.

(** The address of the static header base. *)
Class Base := { base_hdr : Z }.

Record heap := Heap { hp_mem : mem; hp_freep : Z }.

(** The for loop of free(). *)
Fixpoint free_find (fuel : nat) (m : mem) (bp p : Z) : option Z :=
  match fuel with
  | O => None
  | S k =>
      let nx := hptr m p in
      if (p <? bp) && (bp <? nx) then Some p
      else if (nx <=? p) && ((p <? bp) || (bp <? nx)) then Some p
      else free_find k m bp nx
  end.

Definition free_link (m : mem) (bp p : Z) : mem :=
  let nx := hptr m p in
  let m := if bp + HDR * hsize m bp =? nx then
             let m := set_size bp (u32 (hsize m bp + hsize m nx)) m in
             set_ptr bp (hptr m nx) m
           else set_ptr bp nx m in
  if p + HDR * hsize m p =? bp then
    let m := set_size p (u32 (hsize m p + hsize m bp)) m in
    set_ptr p (hptr m bp) m
  else set_ptr p bp m.

Section Code.
Context {W : Type} {SY : Sys W} {BS : Base}.

Definition free (fuel : nat) (ap : Z) (h : heap) : U W heap :=
  let bp := ap - HDR in
  match free_find fuel (hp_mem h) bp (hp_freep h) with
  | None => fun _ => UHang
  | Some p => mret (Heap (free_link (hp_mem h) bp p) p)
  end.

(** The product is a 64-bit number, passed as an int. *)
Definition morecore (fuel : nat) (nu : Z) (h : heap) : U W (Z * heap) :=
  let nu := if nu <? 4096 then 4096 else nu in
  p ← sbrk (i32 (nu * HDR));
  if p =? -1 then mret (0, h) else
  h ← free fuel (p + HDR) (Heap (set_size p nu (hp_mem h)) (hp_freep h));
  mret (hp_freep h, h).

Fixpoint malloc_loop (fuel : nat) (nunits prevp p : Z) (h : heap) : U W (Z * heap) :=
  match fuel with
  | O => fun _ => UHang
  | S k =>
      let m := hp_mem h in
      if nunits <=? hsize m p then
        if hsize m p =? nunits then mret (p + HDR, Heap (set_ptr prevp (hptr m p) m) prevp)
        else
          let sz := u32 (hsize m p - nunits) in
          let m := set_size p sz m in
          let p := p + HDR * sz in
          let m := set_size p nunits m in
          mret (p + HDR, Heap m prevp)
      else if p =? hp_freep h then
        r ← morecore k nunits h;
        let '(p, h) := r in
        if p =? 0 then mret (0, h) else malloc_loop k nunits p (hptr (hp_mem h) p) h
      else malloc_loop k nunits p (hptr m p) h
  end.

Definition units (nbytes : Z) : Z := u32 ((nbytes + HDR - 1) / HDR + 1).

Definition malloc (fuel : nat) (nbytes : Z) (h : heap) : U W (Z * heap) :=
  let nunits := units nbytes in
  let h := if hp_freep h =? 0
           then Heap (set_size base_hdr 0 (set_ptr base_hdr base_hdr (hp_mem h))) base_hdr
           else h in
  let prevp := hp_freep h in
  malloc_loop fuel nunits prevp (hptr (hp_mem h) prevp) h.

End Code.

(** ** Headers *)

Definition apart (p q : Z) : Prop := p + 16 <= q \/ q + 16 <= p.

Lemma hptr_set_ptr p v m : 0 <= v < 2 ^ 64 -> hptr (set_ptr p v m) p = v.
Proof. apply ld64_st64_eq. Qed.

Lemma hptr_set_ptr_ne p v m q : apart p q -> hptr (set_ptr p v m) q = hptr m q.
Proof. intros [|]; apply ld64_st64_ne; lia. Qed.

Lemma hsize_set_ptr p v m q : p = q \/ apart p q -> hsize (set_ptr p v m) q = hsize m q.
Proof. intros [->|[|]]; apply ld_ext; intros x Hx; apply st64_get_out; lia. Qed.

Lemma st32_get_out m a v x : x < a \/ a + 4 <= x -> bget (st32 m a v) x = bget m x.
Proof. intros. apply st_get_out; [done|lia]. Qed.

Lemma hsize_set_size p v m : 0 <= v < 2 ^ 32 -> hsize (set_size p v m) p = v.
Proof.
  intros Hv. unfold hsize, set_size, ld32, st32. rewrite ld_st_eq by done.
  change (256 ^ Z.of_nat 4) with (2 ^ 32). by apply Z.mod_small.
Qed.

Lemma hsize_set_size_ne p v m q : apart p q -> hsize (set_size p v m) q = hsize m q.
Proof. intros [|]; apply ld_ext; intros x Hx; apply st32_get_out; lia. Qed.

Lemma hptr_set_size p v m q : p = q \/ apart p q -> hptr (set_size p v m) q = hptr m q.
Proof. intros [->|[|]]; apply ld64_ext; intros x Hx; apply st32_get_out; lia. Qed.

(** Memories that differ in the headers at [p] and [q] only. *)
Definition same_but (p q : Z) (m m' : mem) : Prop :=
  forall a, (a < p \/ p + 16 <= a) -> (a < q \/ q + 16 <= a) -> bget m' a = bget m a.

Lemma same_but_refl p q m : same_but p q m m.
Proof. done. Qed.

Lemma same_but_ptr p q m m' r v : same_but p q m m' -> r = p \/ r = q -> same_but p q m (set_ptr r v m').
Proof. intros H [->| ->] a H1 H2; unfold set_ptr; rewrite st64_get_out by lia; by apply H. Qed.

Lemma same_but_size p q m m' r v : same_but p q m m' -> r = p \/ r = q -> same_but p q m (set_size r v m').
Proof. intros H [->| ->] a H1 H2; unfold set_size; rewrite st32_get_out by lia; by apply H. Qed.

Lemma same_but_hptr p q m m' x : same_but p q m m' -> apart p x -> apart q x -> hptr m' x = hptr m x.
Proof. intros H [|] [|]; apply ld64_ext; intros a Ha; apply H; lia. Qed.

Lemma same_but_hsize p q m m' x : same_but p q m m' -> apart p x -> apart q x -> hsize m' x = hsize m x.
Proof. intros H [|] [|]; apply ld_ext; intros a Ha; apply H; lia. Qed.

(** ** Lists of blocks *)

Abbreviation block := (Z * Z)%type.

(** A block of [n] units covers its [n] headers' worth of bytes; the header of
    an empty block counts as well. *)
Definition bend (b : block) : Z := b.1 + 16 * Z.max b.2 1.
Definition clear_of (b c : block) : Prop := bend b <= c.1 \/ bend c <= b.1.

Fixpoint ordered (l : list block) : Prop :=
  match l with
  | [] => True
  | b :: r => 0 <= b.1 /\ bend b < 2 ^ 36 /\ 0 <= b.2 /\ Forall (fun c => bend b <= c.1) r /\ ordered r
  end.

(** The headers of a list of blocks, each pointing to the next and the last to
    [z]. *)
Definition head_or (l : list block) (z : Z) : Z := match l with b :: _ => b.1 | [] => z end.
Fixpoint chain (m : mem) (l : list block) (z : Z) : Prop :=
  match l with
  | [] => True
  | b :: r => hptr m b.1 = head_or r z /\ hsize m b.1 = b.2 /\ chain m r z
  end.

Lemma chain_app m a b z : chain m (a ++ b) z <-> chain m a (head_or b z) /\ chain m b z.
Proof.
  induction a as [|x a IH]; simpl; [naive_solver|]. rewrite IH. destruct a; simpl; naive_solver.
Qed.

Lemma ordered_app a b : ordered (a ++ b) <-> ordered a /\ ordered b /\ Forall (fun x => Forall (fun y => bend x <= y.1) b) a.
Proof.
  induction a as [|x a IH]; simpl; [naive_solver|]. rewrite IH, Forall_app, Forall_cons. naive_solver.
Qed.

Lemma chain_frame m m' l z :
  chain m l z -> Forall (fun b => hptr m' b.1 = hptr m b.1 /\ hsize m' b.1 = hsize m b.1) l -> chain m' l z.
Proof. induction l as [|b l IH]; [done|]. simpl. intros (H1 & H2 & H3) [[E1 E2] F]%Forall_cons. rewrite E1, E2. auto. Qed.

Lemma bend_ge b : b.1 + 16 <= bend b.
Proof. unfold bend. lia. Qed.

Lemma clear_apart b c : clear_of b c -> apart b.1 c.1.
Proof. unfold clear_of, apart. pose proof (bend_ge b). pose proof (bend_ge c). lia. Qed.

(** Bytes of the blocks of a list. *)
Definition covers (l : list block) (a : Z) : Prop := exists b, b ∈ l /\ b.1 <= a < b.1 + 16 * b.2.

Lemma covers_app l l' a : covers (l ++ l') a <-> covers l a \/ covers l' a.
Proof. unfold covers. setoid_rewrite elem_of_app. naive_solver. Qed.

Lemma covers_cons b l a : covers (b :: l) a <-> b.1 <= a < b.1 + 16 * b.2 \/ covers l a.
Proof. unfold covers. setoid_rewrite elem_of_cons. naive_solver. Qed.

Lemma covers_nil a : ~ covers [] a.
Proof. intros (b & ?%elem_of_nil & _). done. Qed.

(** ** free() finds the place of a block *)

(** Where a block that overlaps none of an ordered list belongs. *)
Lemma place l b :
  ordered l -> Forall (clear_of b) l ->
  exists pre post, l = pre ++ post /\ Forall (fun c => bend c <= b.1) pre /\ Forall (fun c => bend b <= c.1) post.
Proof.
  induction l as [|c l IH]; intros Ho Hc; [by exists [], []|].
  apply Forall_cons in Hc as [Hc Hcl]. destruct Ho as (H0 & _ & _ & Hcs & Ho). destruct Hc as [Hc|Hc].
  - exists [], (c :: l). split_and!; [done|done|]. constructor; [done|]. eapply Forall_impl; [exact Hcs|]. pose proof (bend_ge c). simpl. lia.
  - destruct (IH Ho Hcl) as (pre & post & -> & H1 & H2). exists (c :: pre), post. split_and!; [done|by constructor|done].
Qed.

Lemma chain_head m b l z : chain m (b :: l) z -> hptr m b.1 = head_or l z.
Proof. by intros [? _]. Qed.

(** Walking through blocks below [bp] reaches the last of them. *)
Lemma find_below fuel m bp a p post z :
  ordered (a ++ p :: post) -> chain m (a ++ p :: post) z -> Forall (fun c => c.1 < bp) (a ++ [p]) -> Forall (fun c => bp < c.1) post ->
  (length a < fuel)%nat -> z <= p.1 ->
  free_find fuel m bp (head_or (a ++ [p]) 0) = Some p.1.
Proof.
  revert fuel. induction a as [|x a IH]; intros fuel Ho Hc Hlt Hgt Hf Hz; (destruct fuel as [|k]; [simpl in Hf; lia|]).
  - apply Forall_cons in Hlt as [Hp _]. simpl. rewrite (chain_head _ _ _ _ Hc). rewrite (proj2 (Z.ltb_lt _ _) Hp). simpl.
    destruct post as [|y post]; simpl.
    + destruct (bp <? z); [done|]. by rewrite (proj2 (Z.leb_le _ _) Hz).
    + apply Forall_cons in Hgt as [Hy _]. by rewrite (proj2 (Z.ltb_lt _ _) Hy).
  - destruct Ho as (_ & _ & _ & Hxs & Ho). pose proof (chain_head m x (a ++ p :: post) z Hc) as Hn. destruct Hc as (_ & _ & Hc).
    simpl in Hlt. apply Forall_cons in Hlt as [Hx Hlt]. cbn [free_find app head_or]. rewrite Hn.
    assert (E : head_or (a ++ p :: post) z = head_or (a ++ [p]) 0) by (by destruct a). rewrite E.
    assert (Hnx : x.1 < head_or (a ++ [p]) 0 < bp).
    { pose proof (bend_ge x). destruct a as [|y a]; simpl in *; apply Forall_cons in Hlt as [? _]; apply Forall_cons in Hxs as [? _]; lia. }
    rewrite (proj2 (Z.ltb_ge bp _)), andb_false_r, (proj2 (Z.leb_gt _ x.1)) by lia. simpl. apply IH; [done|done|done|done|simpl in Hf; lia|done].
Qed.

(** Walking through blocks above [bp] reaches their end. *)
Lemma find_above fuel m bp post z :
  ordered post -> chain m post z -> Forall (fun c => bp < c.1) post -> z < bp -> post <> [] ->
  free_find (length post + fuel) m bp (head_or post 0) = free_find fuel m bp z.
Proof.
  induction post as [|x post IH]; intros Ho Hc Hgt Hz Hne; [done|].
  destruct Ho as (_ & _ & _ & Hxs & Ho). pose proof (chain_head m x post z Hc) as Hn. destruct Hc as (_ & _ & Hc).
  apply Forall_cons in Hgt as [Hx Hgt]. cbn [length Nat.add free_find head_or]. rewrite Hn, (proj2 (Z.ltb_ge x.1 bp)) by lia. cbn [andb orb].
  destruct post as [|y post].
  - simpl. by rewrite (proj2 (Z.ltb_ge bp z)), andb_false_r by lia.
  - cbn [head_or]. apply Forall_cons in Hxs as [Hy _]. pose proof (bend_ge x). rewrite (proj2 (Z.leb_gt y.1 x.1)) by lia. simpl. by apply IH.
Qed.

Lemma free_find_ok fuel m bp pre p post s :
  let l := pre ++ p :: post in
  ordered l -> chain m l (head_or l 0) -> Forall (fun c => c.1 < bp) (pre ++ [p]) -> Forall (fun c => bp < c.1) post ->
  s ∈ l.*1 -> (length l + length l <= fuel)%nat -> free_find fuel m bp s = Some p.1.
Proof.
  intros l Ho Hc Hlt Hgt Hs Hf. set (z := head_or l 0) in *.
  assert (Hz : z <= p.1 /\ z < bp).
  { unfold z, l. destruct pre as [|x pre]; simpl in *.
    - apply Forall_cons in Hlt as [? _]. lia.
    - destruct Ho as (_ & _ & _ & F & _). apply Forall_app in F as [_ [F _]%Forall_cons]. apply Forall_cons in Hlt as [? _]. pose proof (bend_ge x). lia. }
  assert (Hbase : forall k, (length pre < k)%nat -> free_find k m bp z = Some p.1).
  { intros k Hk. replace z with (head_or (pre ++ [p]) 0) by (unfold z, l; by destruct pre). apply (find_below k m bp pre p post z); [done|done|done|done|done|lia]. }
  unfold l in *. rewrite length_app in Hf. simpl in Hf.
  apply list_elem_of_fmap in Hs as (x & -> & Hx). rewrite cons_middle, app_assoc in Hx. apply elem_of_app in Hx as [Hx|Hx].
  - apply list_elem_of_split in Hx as (u & v & E). destruct v as [|y v] using rev_ind.
    + apply app_inj_tail in E as [-> ->]. change x.1 with (head_or ([] ++ [x]) 0).
      apply ordered_app in Ho as (_ & Ho & _). apply chain_app in Hc as [_ Hc]. apply Forall_app in Hlt as [_ Hlt].
      apply (find_below fuel m bp [] x post z); [done|done|done|done|simpl; lia|lia].
    + rewrite app_comm_cons, app_assoc in E. apply app_inj_tail in E as [-> ->]. change x.1 with (head_or ((x :: v) ++ [y]) 0).
      rewrite <- app_assoc in Ho, Hc, Hlt. apply ordered_app in Ho as (_ & Ho & _). apply chain_app in Hc as [_ Hc]. apply Forall_app in Hlt as [_ Hlt].
      apply (find_below fuel m bp (x :: v) y post z); [done|done|done|done| |lia]. rewrite length_app in Hf. simpl in *. lia.
  - apply list_elem_of_split in Hx as (u & v & ->). rewrite app_comm_cons, app_assoc in Ho, Hc.
    change x.1 with (head_or (x :: v) 0). rewrite length_app in Hf. simpl in Hf.
    replace fuel with (length (x :: v) + (fuel - S (length v)))%nat by (simpl; lia).
    apply ordered_app in Ho as (_ & Ho & _). apply chain_app in Hc as [_ Hc]. apply Forall_app in Hgt as [_ Hgt].
    rewrite (find_above _ m bp (x :: v) z) by (try done; lia). apply Hbase. lia.
Qed.

(** ** free() links the block in *)

Section Link.
Context (m : mem) (pre post : list block) (p b : block) (z : Z).
Let l := pre ++ p :: post.
Context (Ho : ordered l) (Hc : chain m l z) (Hz : 0 <= z < b.1).
Context (Hb : 1 <= b.2 /\ bend b < 2 ^ 36 /\ hsize m b.1 = b.2) (Hbelow : bend p <= b.1).
Context (Habove : Forall (fun c => bend b <= c.1 /\ 1 <= c.2) post).

Lemma link_order : ordered pre /\ ordered post /\ 0 <= p.1 /\ 0 <= p.2 /\ Forall (fun c => bend c <= p.1) pre.
Proof.
  unfold l in Ho. apply ordered_app in Ho as (H1 & (H2 & _ & H3 & _ & H4) & F). split_and!; [done|done|done|done|].
  eapply Forall_impl; [exact F|]. simpl. by intros x [? _]%Forall_cons.
Qed.

Lemma link_chain : chain m pre p.1 /\ hptr m p.1 = head_or post z /\ hsize m p.1 = p.2 /\ chain m post z.
Proof. unfold l in Hc. by apply chain_app in Hc as [? (? & ? & ?)]. Qed.

Lemma link_apart : apart p.1 b.1.
Proof. pose proof (bend_ge p). unfold apart. lia. Qed.

(** The first half: the block, joined with the one after it when they touch. *)
Definition joined_next : block * list block :=
  match post with
  | c :: post' => if bend b =? c.1 then ((b.1, b.2 + c.2), post') else (b, post)
  | [] => (b, [])
  end.

Lemma joined_next_ok :
  let '(b', rest) := joined_next in
  b'.1 = b.1 /\ 1 <= b'.2 /\ bend b' < 2 ^ 36 /\ ordered rest /\ Forall (fun c => bend b' <= c.1 /\ 1 <= c.2) rest /\
  forall a, covers (b' :: rest) a <-> covers (b :: post) a.
Proof.
  destruct link_order as (_ & Hop & _). destruct Hb as (H1 & H2 & _). unfold joined_next.
  destruct post as [|c post']; [split_and!; try done|].
  pose proof Habove as Ha. apply Forall_cons in Ha as [[Hc1 Hc2] Ha].
  destruct (Z.eqb_spec (bend b) c.1) as [E|Hne]; [|split_and!; try done; by constructor].
  destruct Hop as (Hc0 & Hcb & _ & Hcs & Hop). unfold bend in *. cbn [fst snd] in *.
  split_and!; [done|lia|lia|done| |].
  - apply Forall_forall. intros x Hx. rewrite Forall_forall in Hcs, Ha. specialize (Hcs x Hx). specialize (Ha x Hx). lia.
  - intros a. rewrite !covers_cons. cbn [fst snd]. split; [intros [H|H]|intros [H|[H|H]]]; try (right; right; exact H); try (right; exact H); lia.
Qed.

Definition link_next (m : mem) : mem :=
  let nx := hptr m p.1 in
  if b.1 + HDR * hsize m b.1 =? nx then
    let m := set_size b.1 (u32 (hsize m b.1 + hsize m nx)) m in set_ptr b.1 (hptr m nx) m
  else set_ptr b.1 nx m.

Lemma link_next_ok :
  let '(b', rest) := joined_next in
  same_but b.1 b.1 m (link_next m) /\ hsize (link_next m) b.1 = b'.2 /\ hptr (link_next m) b.1 = head_or rest z.
Proof.
  destruct link_order as (_ & Hop & _). destruct link_chain as (_ & Hp & _ & Hcp). destruct Hb as (H1 & H2 & H3).
  unfold link_next, joined_next, HDR. rewrite Hp, H3. unfold bend in H2. rewrite Z.max_l in H2 by lia.
  destruct post as [|c post'].
  - cbn [head_or]. rewrite (proj2 (Z.eqb_neq _ z)) by lia. split_and!; [by apply same_but_ptr; [|left]| |apply hptr_set_ptr; lia].
    by rewrite hsize_set_ptr by (by left).
  - cbn [head_or]. pose proof Habove as Ha. apply Forall_cons in Ha as [[Hc1 Hc2] _]. destruct Hop as (Hc0 & Hcb & _ & _ & Hop).
    destruct Hcp as (Hcn & Hcsz & Hcp). unfold bend in *. rewrite !Z.max_l in * by lia.
    assert (Hap : apart b.1 c.1) by (unfold apart; lia).
    destruct (Z.eqb_spec (b.1 + 16 * b.2) c.1) as [E|Hne].
    + rewrite hptr_set_size by (by right). rewrite Hcsz, Hcn, u32_small by lia.
      assert (0 <= head_or post' z < 2 ^ 64).
      { destruct post' as [|d post'']; [cbn [head_or]; lia|]. destruct Hop as (? & Hd & _). pose proof (bend_ge d). cbn [head_or]. lia. }
      split_and!; [by apply same_but_ptr; [apply same_but_size; [|left]|left]|rewrite hsize_set_ptr by (by left); apply hsize_set_size; cbn [snd]; lia|by apply hptr_set_ptr].
    + cbn [head_or]. split_and!; [by apply same_but_ptr; [|left]|by rewrite hsize_set_ptr by (by left)|apply hptr_set_ptr; lia].
Qed.

(** The second half: joined with the block before it when they touch. *)
Definition link_prev (m : mem) : mem :=
  if p.1 + HDR * hsize m p.1 =? b.1 then
    let m := set_size p.1 (u32 (hsize m p.1 + hsize m b.1)) m in set_ptr p.1 (hptr m b.1) m
  else set_ptr p.1 b.1 m.

Definition freed : list block :=
  let '(b', rest) := joined_next in
  if p.1 + 16 * p.2 =? b.1 then pre ++ (p.1, p.2 + b'.2) :: rest else pre ++ p :: b' :: rest.

Lemma frame_rest m' (rest : list block) x :
  same_but p.1 b.1 m m' -> Forall (fun c => x <= c.1) rest -> b.1 + 16 <= x ->
  Forall (fun c => hptr m' c.1 = hptr m c.1 /\ hsize m' c.1 = hsize m c.1) rest.
Proof.
  intros Hs Hr Hx. eapply Forall_impl; [exact Hr|]. intros c Hcx. cbn beta in Hcx. pose proof (bend_ge p).
  split; [eapply same_but_hptr|eapply same_but_hsize]; try exact Hs; unfold apart; lia.
Qed.

Lemma chain_suffix (b' : block) rest : joined_next = (b', rest) -> chain m rest z.
Proof.
  destruct link_chain as (_ & _ & _ & Hcp). unfold joined_next. destruct post as [|c post']; [by intros [= <- <-]|].
  destruct (bend b =? c.1); intros [= <- <-]; [by destruct Hcp as (_ & _ & ?)|done].
Qed.

Lemma same_but_weaken q p' m' : same_but q q m m' -> same_but p' q m m'.
Proof. intros H a H1 H2. by apply H. Qed.

Lemma above_rest (b' : block) rest : joined_next = (b', rest) -> Forall (fun c => bend b' <= c.1) rest /\ Forall (fun c => b.1 + 16 <= c.1) rest.
Proof.
  intros Ej. pose proof joined_next_ok as J. rewrite Ej in J. destruct J as (J1 & J2 & J3 & J4 & J5 & _).
  split; (eapply Forall_impl; [exact J5|]); intros c [? _]; pose proof (bend_ge b'); cbn beta; lia.
Qed.

Lemma freed_ordered : ordered freed.
Proof.
  destruct link_order as (Hopre & _ & Hp0 & Hp2 & Hpre). pose proof joined_next_ok as J. pose proof above_rest as Hr. pose proof (bend_ge p) as Hbp.
  unfold freed. destruct joined_next as [b' rest]. destruct J as (J1 & J2 & J3 & J4 & _). destruct (Hr b' rest eq_refl) as [Hr1 Hr2].
  assert (Hbe : bend b' = b.1 + 16 * b'.2) by (unfold bend; lia).
  destruct (Z.eqb_spec (p.1 + 16 * p.2) b.1) as [E|Hne]; apply ordered_app.
  - split_and!; [done| |].
    + cbn [ordered fst snd]. split_and!; [done|unfold bend; cbn [fst snd]; lia|lia| |done].
      eapply Forall_impl; [exact Hr1|]. intros c. cbn beta. unfold bend in *. cbn [fst snd]. lia.
    + apply Forall_forall. intros x Hx. rewrite Forall_forall in Hpre. specialize (Hpre x Hx). constructor; [done|].
      eapply Forall_impl; [exact Hr2|]. cbn beta. intros c. lia.
  - split_and!; [done| |].
    + cbn [ordered]. rewrite J1. split_and!; [done|lia|done| |lia|done|lia|done|done].
      constructor; [lia|]. eapply Forall_impl; [exact Hr2|]. cbn beta. intros c. lia.
    + apply Forall_forall. intros x Hx. rewrite Forall_forall in Hpre. specialize (Hpre x Hx). constructor; [done|]. constructor; [lia|].
      eapply Forall_impl; [exact Hr2|]. cbn beta. intros c. lia.
Qed.

Lemma freed_covers a : covers freed a <-> covers l a \/ b.1 <= a < b.1 + 16 * b.2.
Proof.
  destruct link_order as (_ & _ & _ & Hp2 & _). pose proof joined_next_ok as J. unfold freed, l. destruct joined_next as [b' rest]. destruct J as (J1 & J2 & _ & _ & _ & J6).
  specialize (J6 a). rewrite (covers_cons b'), (covers_cons b post), J1 in J6. rewrite (covers_app pre (p :: post)), (covers_cons p post).
  destruct (Z.eqb_spec (p.1 + 16 * p.2) b.1) as [E|Hne]; rewrite covers_app, covers_cons; cbn [fst snd].
  - assert (p.1 <= a < p.1 + 16 * (p.2 + b'.2) <-> p.1 <= a < p.1 + 16 * p.2 \/ b.1 <= a < b.1 + 16 * b'.2) by lia. tauto.
  - rewrite (covers_cons b'), J1. tauto.
Qed.

Lemma chain_pre m' : same_but p.1 b.1 m m' -> chain m' pre p.1.
Proof.
  destruct link_order as (_ & _ & _ & _ & Hpre). destruct link_chain as (Hcpre & _). pose proof (bend_ge p) as Hbp.
  intros Hm. eapply chain_frame; [exact Hcpre|]. eapply Forall_impl; [exact Hpre|]. intros c Hcp. cbn beta in Hcp. pose proof (bend_ge c).
  split; [eapply same_but_hptr|eapply same_but_hsize]; try exact Hm; unfold apart; lia.
Qed.

Lemma free_link_ok :
  free_link m b.1 p.1 = link_prev (link_next m) /\ chain (link_prev (link_next m)) freed z /\
  same_but p.1 b.1 m (link_prev (link_next m)).
Proof.
  split; [done|]. destruct link_order as (_ & _ & Hp0 & Hp2 & _). destruct link_chain as (_ & _ & Hpsz & _).
  pose proof joined_next_ok as J. pose proof link_next_ok as L. pose proof chain_suffix as S. pose proof above_rest as Hr. pose proof chain_pre as Fpre.
  pose proof link_apart as Hap. pose proof (bend_ge p) as Hbp. pose proof (bend_ge b) as Hbb. destruct Hb as (Hb1 & Hb2 & Hb3).
  unfold freed. destruct joined_next as [b' rest]. destruct J as (J1 & J2 & J3 & J4 & _). destruct L as (L1 & L2 & L3).
  specialize (S b' rest eq_refl). destruct (Hr b' rest eq_refl) as [_ Hrest].
  set (m1 := link_next m) in *. pose proof (same_but_weaken _ p.1 _ L1) as L1'.
  assert (Hp1 : hsize m1 p.1 = p.2) by (rewrite <- Hpsz; eapply same_but_hsize; [exact L1|..]; unfold apart in *; lia).
  assert (Hhr : 0 <= head_or rest z < 2 ^ 64).
  { destruct rest as [|d rest']; [simpl; lia|]. destruct J4 as (? & ? & _). pose proof (bend_ge d). cbn [head_or]. lia. }
  assert (Hbe : bend b' = b.1 + 16 * b'.2) by (unfold bend; lia). unfold link_prev. rewrite Hp1. unfold HDR.
  destruct (Z.eqb_spec (p.1 + 16 * p.2) b.1) as [E|Hne].
  - rewrite L2, u32_small by lia. set (m2 := set_size p.1 _ m1).
    assert (Hq : hptr m2 b.1 = head_or rest z) by (unfold m2; rewrite hptr_set_size by (by right); done). rewrite Hq.
    assert (Hm2 : same_but p.1 b.1 m (set_ptr p.1 (head_or rest z) m2)) by (apply same_but_ptr; [apply same_but_size; [done|by left]|by left]).
    split; [|done]. apply chain_app. split; [by apply Fpre|]. cbn [chain fst snd]. split_and!.
    + by apply hptr_set_ptr.
    + rewrite hsize_set_ptr by (by left). apply hsize_set_size. lia.
    + eapply chain_frame; [exact S|]. by eapply frame_rest.
  - assert (Hm2 : same_but p.1 b.1 m (set_ptr p.1 b.1 m1)) by (apply same_but_ptr; [done|by left]).
    split; [|done]. apply chain_app. split; [by apply Fpre|]. cbn [chain head_or fst snd]. rewrite J1. split_and!.
    + apply hptr_set_ptr. lia.
    + by rewrite hsize_set_ptr by (by left).
    + by rewrite hptr_set_ptr_ne.
    + by rewrite hsize_set_ptr by (by right).
    + eapply chain_frame; [exact S|]. by eapply frame_rest.
Qed.

End Link.

(** ** The heap *)

Definition within (lo hi : Z) (c : block) : Prop := lo <= c.1 /\ bend c <= hi /\ 1 <= c.2.

(** The free list, with base first. *)
Record free_ok {BS : Base} (lo hi : Z) (h : heap) (t : list block) : Prop := {
  fo_chain : chain (hp_mem h) ((base_hdr, 0) :: t) base_hdr;
  fo_ordered : ordered ((base_hdr, 0) :: t);
  fo_within : Forall (within lo hi) t;
  fo_freep : hp_freep h ∈ ((base_hdr, 0) :: t).*1
}.

Definition bounds_ok {BS : Base} (lo hi : Z) : Prop := 0 < base_hdr /\ base_hdr + 16 <= lo /\ lo <= hi /\ hi < 2 ^ 36.

Lemma joined_next_fst post b : (joined_next post b).1.1 = b.1.
Proof. unfold joined_next. by repeat case_match. Qed.

Lemma joined_within post b lo hi :
  within lo hi b -> Forall (within lo hi) post ->
  within lo hi (joined_next post b).1 /\ Forall (within lo hi) (joined_next post b).2.
Proof.
  intros Hb Hp. unfold joined_next. destruct post as [|c post]; [done|]. apply Forall_cons in Hp as [Hc Hp].
  destruct (Z.eqb_spec (bend b) c.1) as [E|]; cbn [fst snd]; [|split; [done|by constructor]]. split; [|done].
  unfold within, bend in *. cbn [fst snd] in *. lia.
Qed.

Lemma freed_within {BS : Base} pre p post b t lo hi :
  bounds_ok lo hi -> (base_hdr, 0) :: t = pre ++ p :: post -> Forall (within lo hi) t -> within lo hi b -> bend p <= b.1 ->
  exists t', freed pre post p b = (base_hdr, 0) :: t' /\ Forall (within lo hi) t' /\ (p.1 = base_hdr \/ p ∈ t).
Proof.
  intros (B1 & B2 & B3 & B4) E Ht Hb Hpb. unfold freed. destruct pre as [|x pre]; injection E.
  - intros <- <-. destruct (joined_within t b lo hi Hb Ht) as [J1 J2]. destruct (joined_next t b) as [b' rest]. cbn [fst snd] in *.
    assert (bend (base_hdr, 0) <= b.1) by done. unfold bend in H. cbn [fst snd] in H. rewrite (proj2 (Z.eqb_neq _ b.1)) by lia.
    exists (b' :: rest). split_and!; [done|by constructor|by left].
  - intros -> <-. apply Forall_app in Ht as [Hpre [Hp Hpost]%Forall_cons]. destruct (joined_within post b lo hi Hb Hpost) as [J1 J2].
    pose proof (joined_next_fst post b) as J0. destruct (joined_next post b) as [b' rest]. cbn [fst snd] in *.
    assert (Hcov : p ∈ pre ++ p :: post) by set_solver.
    destruct (Z.eqb_spec (p.1 + 16 * p.2) b.1) as [E1|]; [exists (pre ++ (p.1, p.2 + b'.2) :: rest)|exists (pre ++ p :: b' :: rest)].
    + split_and!; [done| |by right]. apply Forall_app. split; [done|]. constructor; [|done]. unfold within, bend in *. cbn [fst snd] in *. lia.
    + split_and!; [done| |by right]. apply Forall_app. split; [done|]. constructor; [done|]. by constructor.
Qed.

Lemma freed_in pre post p b : p.1 ∈ (freed pre post p b).*1.
Proof. unfold freed. destruct (joined_next post b). case_match; rewrite fmap_app; apply elem_of_app; right; left. Qed.

Lemma freed_length pre post p b : (length (freed pre post p b) <= length pre + length post + 2)%nat.
Proof.
  assert (Hj : (length (joined_next post b).2 <= length post)%nat) by (unfold joined_next; repeat case_match; simpl; lia).
  unfold freed. destruct (joined_next post b) as [b' rest]. cbn [snd] in Hj. case_match; rewrite length_app; simpl; lia.
Qed.

Lemma freed_big pre post p b :
  1 <= b.2 -> Forall (fun c => 1 <= c.2) post -> 0 <= p.2 -> exists c, c ∈ freed pre post p b /\ b.2 <= c.2.
Proof.
  intros Hb Hpost Hp. assert (Hj : b.2 <= (joined_next post b).1.2).
  { unfold joined_next. destruct post as [|c post]; [done|]. apply Forall_cons in Hpost as [Hc _]. case_match; cbn [fst snd]; lia. }
  unfold freed. destruct (joined_next post b) as [b' rest]. cbn [fst] in Hj. case_match.
  - exists (p.1, p.2 + b'.2). split; [apply elem_of_app; right; left|cbn [snd]; lia].
  - exists b'. split; [apply elem_of_app; right; right; left|done].
Qed.

Lemma covers_base {BS : Base} t a : covers ((base_hdr, 0) :: t) a <-> covers t a.
Proof. rewrite covers_cons. cbn [fst snd]. split; [intros [?|?]; [lia|done]|by right]. Qed.

Lemma within_cover lo hi t c : Forall (within lo hi) t -> c ∈ t -> forall a, c.1 <= a < c.1 + 16 -> covers t a.
Proof. intros Ht Hc a Ha. exists c. split; [done|]. rewrite Forall_forall in Ht. destruct (Ht c Hc) as (_ & _ & ?). lia. Qed.

Section Free.
Context {W : Type} {SY : Sys W} {BS : Base}.

(** The free list after [b] is given back: in its place by address, joined with
    the block before it and the block after it where they touch. *)
Definition join_next (b : block) (t : list block) : list block :=
  match t with
  | [] => [b]
  | c :: t' => if bend b =? c.1 then (b.1, b.2 + c.2) :: t' else b :: t
  end.

Fixpoint give_back (b : block) (t : list block) : list block :=
  match t with
  | [] => [b]
  | c :: t' =>
      if b.1 <? c.1 then join_next b t
      else if bend c =? b.1 then join_next (c.1, c.2 + b.2) t'
      else c :: give_back b t'
  end.

Lemma joined_join post b : (joined_next post b).1 :: (joined_next post b).2 = join_next b post.
Proof. unfold joined_next, join_next. destruct post as [|c post]; [done|]. by case_match. Qed.

Lemma give_back_above b post : Forall (fun c => bend b <= c.1) post -> give_back b post = join_next b post.
Proof.
  intros Hp. destruct post as [|c post]; [done|]. apply Forall_cons in Hp as [Hc _]. pose proof (bend_ge b). cbn [give_back].
  by rewrite (proj2 (Z.ltb_lt b.1 c.1)) by lia.
Qed.

Lemma give_back_at pre p post b :
  Forall (fun c => bend c <= p.1) pre -> 1 <= p.2 -> 1 <= b.2 -> bend p <= b.1 -> Forall (fun c => bend b <= c.1) post ->
  give_back b (pre ++ p :: post) = freed pre post p b.
Proof.
  intros Hpre Hp2 Hb2 Hpb Hpost. pose proof (bend_ge p) as Hp. pose proof (joined_join post b) as J. unfold freed.
  induction pre as [|c pre IH]; cbn [app give_back].
  - rewrite (proj2 (Z.ltb_ge b.1 p.1)) by lia. rewrite (give_back_above b post Hpost), <- J.
    replace (p.1 + 16 * p.2) with (bend p) by (unfold bend; lia). destruct (Z.eqb_spec (bend p) b.1) as [E|]; [|by destruct (joined_next post b)].
    assert (Eb : bend (p.1, p.2 + b.2) = bend b) by (unfold bend in *; cbn [fst snd]; lia).
    unfold joined_next, join_next in *. rewrite Eb. destruct post as [|d post]; [done|]. case_match; cbn [fst snd]; [|done]. do 2 f_equal. lia.
  - apply Forall_cons in Hpre as [Hc Hpre]. specialize (IH Hpre). pose proof (bend_ge c).
    rewrite (proj2 (Z.ltb_ge b.1 c.1)), (proj2 (Z.eqb_neq (bend c) b.1)), IH by lia. destruct (joined_next post b). by case_match.
Qed.

(** The list from base is the list after base. *)
Lemma give_back_base lo hi pre p post b t :
  bounds_ok lo hi -> ordered ((base_hdr, 0) :: t) -> Forall (within lo hi) t -> (base_hdr, 0) :: t = pre ++ p :: post ->
  within lo hi b -> bend p <= b.1 -> Forall (fun c => bend b <= c.1) post ->
  freed pre post p b = (base_hdr, 0) :: give_back b t.
Proof.
  intros (B1 & B2 & B3 & B4) Ho Ht E (W1 & W2 & W3) Hpb Hpost. destruct pre as [|x pre]; injection E.
  - intros -> <-. unfold freed. pose proof (joined_join post b) as J. rewrite (give_back_above b post Hpost), <- J. destruct (joined_next post b).
    cbn [fst snd]. by rewrite (proj2 (Z.eqb_neq _ b.1)) by lia.
  - intros -> <-. apply Forall_app in Ht as [_ [(_ & _ & Hp2) _]%Forall_cons].
    destruct Ho as (_ & _ & _ & _ & Ho). apply ordered_app in Ho as (_ & _ & Hpre).
    rewrite (give_back_at pre p post b); [unfold freed; destruct (joined_next post b); by case_match| |done|done|done|done].
    eapply Forall_impl; [exact Hpre|]. by intros y [? _]%Forall_cons.
Qed.

Lemma free_run lo hi fuel h t b (w : W) :
  bounds_ok lo hi -> free_ok lo hi h t -> within lo hi b -> hsize (hp_mem h) b.1 = b.2 -> Forall (clear_of b) t ->
  (2 * S (length t) <= fuel)%nat ->
  exists h', let t' := give_back b t in free fuel (b.1 + HDR) h w = UDone h' w /\ free_ok lo hi h' t' /\
    (forall a, covers t' a <-> covers t a \/ b.1 <= a < b.1 + 16 * b.2) /\
    (exists c, c ∈ t' /\ b.2 <= c.2) /\ (length t' <= S (length t))%nat /\
    (forall a, ~ covers t' a -> a < base_hdr \/ base_hdr + 16 <= a -> bget (hp_mem h') a = bget (hp_mem h) a).
Proof.
  intros HB [F1 F2 F3 F4] Hb Hsz Hcl Hf. pose proof HB as (B1 & B2 & B3 & B4). pose proof Hb as (W1 & W2 & W3).
  assert (Hcl' : Forall (clear_of b) ((base_hdr, 0) :: t)) by (constructor; [right; unfold bend; cbn [fst snd]; lia|done]).
  destruct (place _ b F2 Hcl') as (pre0 & post & E & Hpre & Hpost).
  destruct pre0 as [|p pre _] using rev_ind.
  { destruct post as [|c post]; [done|]. injection E as <- <-. apply Forall_cons in Hpost as [Hpost _]. cbn [fst] in Hpost. pose proof (bend_ge b). lia. }
  rewrite <- app_assoc in E. cbn [app] in E. pose proof (proj1 (Forall_app _ _ _) Hpre) as [_ [Hp _]%Forall_cons].
  destruct (freed_within pre p post b t lo hi HB E F3 Hb Hp) as (t' & Ef & Hw' & Hpc).
  assert (Hpost' : Forall (fun c => bend b <= c.1 /\ 1 <= c.2) post).
  { apply Forall_forall. intros c Hc. rewrite Forall_forall in Hpost. split; [by apply Hpost|]. rewrite Forall_forall in F3. apply F3.
    destruct pre as [|x pre]; injection E as _ ->; set_solver. }
  assert (Et : t' = give_back b t).
  { assert (G : freed pre post p b = (base_hdr, 0) :: give_back b t) by (apply (give_back_base lo hi pre p post b t); try done).
    rewrite Ef in G. by injection G. }
  rewrite E in F1, F2. assert (Hz : 0 <= base_hdr < b.1) by lia. assert (Hbb : 1 <= b.2 /\ bend b < 2 ^ 36 /\ hsize (hp_mem h) b.1 = b.2) by (split_and!; [done|lia|done]).
  destruct (free_link_ok (hp_mem h) pre post p b base_hdr F2 F1 Hz Hbb Hp Hpost') as (L1 & L2 & L3).
  assert (Of : ordered (freed pre post p b)) by (eapply freed_ordered; eassumption).
  assert (Cf : forall a, covers (freed pre post p b) a <-> covers (pre ++ p :: post) a \/ b.1 <= a < b.1 + 16 * b.2)
    by (intros a; eapply freed_covers; eassumption).
  rewrite Ef in L2, Of. setoid_rewrite Ef in Cf. rewrite <- E in Cf. setoid_rewrite covers_base in Cf.
  exists (Heap (free_link (hp_mem h) b.1 p.1) p.1). cbv zeta. rewrite <- Et. unfold free. replace (b.1 + HDR - HDR) with b.1 by lia.
  assert (Hfind : free_find fuel (hp_mem h) b.1 (hp_freep h) = Some p.1).
  { apply (free_find_ok fuel _ b.1 pre p post); [done| | | |by rewrite <- E|].
    - rewrite <- E in F1 |- *. exact F1.
    - eapply Forall_impl; [exact Hpre|]. intros c Hc. cbn beta in *. pose proof (bend_ge c). lia.
    - eapply Forall_impl; [exact Hpost|]. intros c Hc. cbn beta in *. pose proof (bend_ge b). lia.
    - rewrite <- E. cbn [length]. lia. }
  rewrite Hfind. split_and!; [done| |done| | |].
  - split; cbn [hp_mem hp_freep]; [by rewrite L1|done|done|]. rewrite <- Ef. apply freed_in.
  - destruct (freed_big pre post p b) as (c & Hc & Hsize); [lia|eapply Forall_impl; [exact Hpost'|]; by intros c [_ ?]|
      by apply link_order in F2 as (_ & _ & _ & ? & _)|].
    rewrite Ef in Hc. apply elem_of_cons in Hc as [->|Hc]; [cbn [snd] in Hsize; lia|by exists c].
  - pose proof (freed_length pre post p b) as Hl. apply (f_equal length) in E. rewrite Ef in Hl. rewrite length_app in E. simpl in E, Hl. lia.
  - intros a Ha Hba. cbn [hp_mem]. rewrite L1. apply L3.
    + destruct Hpc as [->|Hpc]; [done|]. destruct (decide (a < p.1 \/ p.1 + 16 <= a)); [done|]. exfalso. apply Ha, Cf. left. apply (within_cover lo hi t p F3 Hpc). lia.
    + destruct (decide (a < b.1 \/ b.1 + 16 <= a)); [done|]. exfalso. apply Ha. apply Cf. right. lia.
Qed.

End Free.

(** ** malloc() looks for a block *)

Definition last_or (z : Z) (r : list block) : Z := match last r with Some x => x.1 | None => z end.

(** What malloc() does with the block [c] it chose, whose predecessor is [q]. *)
Definition take_block (nunits q : Z) (c : block) (h : heap) : Z * heap :=
  let m := hp_mem h in
  if c.2 =? nunits then (c.1 + HDR, Heap (set_ptr q (hptr m c.1) m) q)
  else
    let sz := u32 (c.2 - nunits) in
    (c.1 + HDR * sz + HDR, Heap (set_size (c.1 + HDR * sz) nunits (set_size c.1 sz m)) q).

Lemma first_fit n (r : list block) :
  Forall (fun x => x.2 < n) r \/ exists r1 c r2, r = r1 ++ c :: r2 /\ Forall (fun x => x.2 < n) r1 /\ n <= c.2.
Proof.
  induction r as [|x r IH]; [by left|]. destruct (decide (x.2 < n)) as [Hx|Hx].
  - destruct IH as [H|(r1 & c & r2 & -> & H1 & H2)]; [left; by constructor|right]. exists (x :: r1), c, r2. split_and!; [done|by constructor|done].
  - right. exists [], x, r. split_and!; [done|done|lia].
Qed.

Lemma ordered_nodup l : ordered l -> NoDup (l.*1).
Proof.
  induction l as [|x l IH]; [constructor|]. intros (_ & _ & _ & F & Ho). cbn [fmap list_fmap]. constructor; [|by apply IH].
  intros (y & E & Hy)%list_elem_of_fmap. rewrite Forall_forall in F. specialize (F y Hy). pose proof (bend_ge x). lia.
Qed.

Section Scan.
Context {W : Type} {SY : Sys W} {BS : Base}.

Lemma scan_found k nunits h z r1 c r2 prevp (w : W) :
  chain (hp_mem h) (r1 ++ c :: r2) z -> Forall (fun x => x.2 < nunits /\ x.1 <> hp_freep h) r1 -> nunits <= c.2 ->
  malloc_loop (length r1 + S k) nunits prevp (head_or (r1 ++ c :: r2) 0) h w = UDone (take_block nunits (last_or prevp r1) c h) w.
Proof.
  revert prevp. induction r1 as [|x r1 IH]; intros prevp Hc Hf Hn; cbn [length Nat.add malloc_loop app head_or].
  - destruct Hc as (_ & Hsz & _). rewrite Hsz, (proj2 (Z.leb_le _ _) Hn). unfold take_block. by case_match.
  - apply Forall_cons in Hf as [[Hx Hfp] Hf]. destruct Hc as (Hp & Hsz & Hc). rewrite Hsz, (proj2 (Z.leb_gt _ _)) by lia.
    rewrite (proj2 (Z.eqb_neq _ _) Hfp), Hp.
    replace (head_or (r1 ++ c :: r2) z) with (head_or (r1 ++ c :: r2) 0) by (by destruct r1). rewrite IH by done.
    unfold last_or. rewrite last_cons. by destruct (last r1).
Qed.

Lemma scan_none k nunits h z r1 f prevp (w : W) :
  chain (hp_mem h) (r1 ++ [f]) z -> Forall (fun x => x.2 < nunits /\ x.1 <> hp_freep h) r1 -> f.2 < nunits -> f.1 = hp_freep h ->
  malloc_loop (length r1 + S k) nunits prevp (head_or (r1 ++ [f]) 0) h w =
    (r ← morecore k nunits h; let '(p, h) := r in if p =? 0 then mret (0, h) else malloc_loop k nunits p (hptr (hp_mem h) p) h) w.
Proof.
  revert prevp. induction r1 as [|x r1 IH]; intros prevp Hc Hf Hn Hfp; cbn [length Nat.add malloc_loop app head_or].
  - destruct Hc as (_ & Hsz & _). by rewrite Hsz, (proj2 (Z.leb_gt _ _)), (proj2 (Z.eqb_eq _ _) Hfp) by lia.
  - apply Forall_cons in Hf as [[Hx Hxf] Hf]. destruct Hc as (Hp & Hsz & Hc). rewrite Hsz, (proj2 (Z.leb_gt _ _)) by lia.
    rewrite (proj2 (Z.eqb_neq _ _) Hxf), Hp.
    replace (head_or (r1 ++ [f]) z) with (head_or (r1 ++ [f]) 0) by (by destruct r1). by apply IH.
Qed.

(** The list from the block after freep round to freep. *)
Lemma rotate lo hi h t :
  free_ok lo hi h t ->
  exists r1 f, f.1 = hp_freep h /\ (r1 ++ [f]) ≡ₚ (base_hdr, 0) :: t /\ chain (hp_mem h) (r1 ++ [f]) (head_or (r1 ++ [f]) 0) /\
    hptr (hp_mem h) (hp_freep h) = head_or (r1 ++ [f]) 0 /\ Forall (fun x => x.1 <> hp_freep h) r1.
Proof.
  intros [F1 F2 _ F4]. apply list_elem_of_fmap in F4 as (f & Ef & Hf). apply list_elem_of_split in Hf as (u & v & E).
  pose proof (ordered_nodup _ F2) as Hnd. rewrite E in F1, F2, Hnd. apply chain_app in F1 as [C1 C2]. pose proof C2 as (C3 & C4 & C5).
  assert (Hh : forall x, head_or (u ++ [f]) x = base_hdr) by (intros x; destruct u; injection E as <- _; done).
  exists (v ++ u), f. rewrite Ef. split_and!; [done|rewrite E; solve_Permutation| | |].
  - rewrite <- app_assoc. apply chain_app. rewrite Hh. split; [done|]. apply chain_app. split; [done|]. cbn [chain head_or]. split_and!; [|done|done].
    rewrite C3. destruct v; simpl; [by rewrite Hh|done].
  - rewrite C3, <- app_assoc. destruct v; simpl; [by rewrite Hh|done].
  - rewrite fmap_app in Hnd. cbn [fmap list_fmap] in Hnd. apply NoDup_app in Hnd as (_ & N1 & N2). apply NoDup_cons in N2 as [N2 _].
    apply Forall_forall. intros x Hx Ex. apply elem_of_app in Hx as [Hx|Hx].
    + apply N2. rewrite <- Ex. apply list_elem_of_fmap. by exists x.
    + apply (N1 x.1); [apply list_elem_of_fmap; by exists x|rewrite Ex; left].
Qed.
End Scan.

(** ** malloc() takes a block *)

Lemma chain_size m l z c : chain m l z -> c ∈ l -> hsize m c.1 = c.2.
Proof. induction l as [|x l IH]; intros Hc Hin; [by apply elem_of_nil in Hin|]. destruct Hc as (_ & H & Hc). apply elem_of_cons in Hin as [->|?]; auto. Qed.

Section Take.
Context {BS : Base} (lo hi : Z) (h : heap) (t : list block) (HB : bounds_ok lo hi) (HF : free_ok lo hi h t).

(** The block before [c] in the list. *)
Lemma pred_split q c :
  q ∈ ((base_hdr, 0) :: t).*1 -> hptr (hp_mem h) q = c.1 -> c ∈ t ->
  exists u x v, (base_hdr, 0) :: t = u ++ x :: c :: v /\ x.1 = q.
Proof.
  destruct HF as [F1 F2 F3 _]. destruct HB as (B1 & B2 & B3 & B4). intros Hq Hp Hc. rewrite Forall_forall in F3. destruct (F3 c Hc) as (W1 & _).
  apply list_elem_of_fmap in Hq as (x & -> & Hx). apply list_elem_of_split in Hx as (u & v & E). exists u, x.
  pose proof F1 as Fc. rewrite E in F1. apply chain_app in F1 as [_ (Hn & _ & F1)]. rewrite Hp in Hn. destruct v as [|c' v]; [cbn [head_or] in Hn; lia|].
  cbn [head_or] in Hn. exists v. split; [|done]. rewrite E. do 2 f_equal. destruct F1 as (_ & Hsz & _).
  rewrite <- Hn, (chain_size _ _ _ c Fc) in Hsz by (by right). destruct c, c'. simpl in *. by subst.
Qed.

Context (u : list block) (x : block) (c : block) (v : list block) (E : (base_hdr, 0) :: t = u ++ x :: c :: v) (nunits : Z).
Context (Hn : 1 <= nunits <= c.2).

Lemma take_parts :
  let m := hp_mem h in
  (chain m u x.1 /\ hsize m x.1 = x.2 /\ hptr m x.1 = c.1 /\ hptr m c.1 = head_or v base_hdr /\ chain m v base_hdr) /\
  (Forall (fun y => bend y <= x.1) u /\ bend x <= c.1 /\ Forall (fun y => bend c <= y.1) v) /\ within lo hi c.
Proof.
  destruct HF as [F1 F2 F3 _]. rewrite E in F1, F2. apply chain_app in F1 as [C1 (C2 & C3 & C4 & _ & C6)]. apply ordered_app in F2 as (_ & (_ & _ & _ & O1 & _ & _ & _ & O2 & _) & O3).
  split; [done|]. split.
  - apply Forall_cons in O1 as [O1 _]. split_and!; [|done|done]. eapply Forall_impl; [exact O3|]. by intros y [? _]%Forall_cons.
  - rewrite Forall_forall in F3. apply F3. destruct u as [|y u']; injection E as _ ->; set_solver.
Qed.

(** The list with [c] replaced by what is left of it. *)
Definition leftover : list block := if c.2 =? nunits then [] else [(c.1, c.2 - nunits)].
Definition taken : block := (c.1 + 16 * (c.2 - nunits), nunits).

Definition after_take : list block := u ++ x :: leftover ++ v.

Lemma leftover_above : Forall (fun y => bend x <= y.1) (leftover ++ v).
Proof.
  destruct take_parts as (_ & (_ & O2 & O3) & _). pose proof (bend_ge c). apply Forall_app. split.
  - unfold leftover. case_match; [done|]. constructor; [cbn [fst]; lia|done].
  - eapply Forall_impl; [exact O3|]. intros y Hy. cbn beta in Hy. lia.
Qed.

Lemma leftover_ordered : ordered after_take.
Proof.
  destruct take_parts as (_ & (O1 & O2 & O3) & Wc). destruct HF as [_ F2 _ _]. rewrite E in F2.
  apply ordered_app in F2 as (Ou & (X1 & X2 & X3 & _ & C1 & C2 & C3 & _ & Ov) & _). pose proof leftover_above as Hl. pose proof (bend_ge x).
  assert (Ol : ordered (leftover ++ v)).
  { unfold leftover. destruct (Z.eqb_spec c.2 nunits); [done|]. cbn [app ordered fst snd].
    split_and!; [done|unfold bend in *; cbn [fst snd]; lia|lia| |done]. eapply Forall_impl; [exact O3|]. intros y. unfold bend. cbn [fst snd]. lia. }
  apply ordered_app. split_and!; [done|by cbn [ordered]; split_and!|].
  apply Forall_forall. intros y Hy. rewrite Forall_forall in O1. specialize (O1 y Hy). constructor; [done|].
  eapply Forall_impl; [exact Hl|]. intros d. cbn beta. lia.
Qed.

Lemma leftover_covers a : covers t a <-> covers after_take a \/ taken.1 <= a < taken.1 + 16 * taken.2.
Proof.
  rewrite <- (covers_base t), E. unfold after_take. rewrite !covers_app, !covers_cons, covers_app. unfold taken, leftover. cbn [fst snd]. pose proof (covers_nil a).
  destruct (Z.eqb_spec c.2 nunits) as [E0|]; [rewrite E0, Z.sub_diag, Z.mul_0_r, Z.add_0_r; tauto|].
  rewrite covers_cons. cbn [fst snd].
  assert (c.1 <= a < c.1 + 16 * c.2 <-> c.1 <= a < c.1 + 16 * (c.2 - nunits) \/ c.1 + 16 * (c.2 - nunits) <= a < c.1 + 16 * (c.2 - nunits) + 16 * nunits) by lia.
  tauto.
Qed.

Lemma leftover_clear : within lo hi taken /\ Forall (clear_of taken) after_take.
Proof.
  destruct take_parts as (_ & (O1 & O2 & O3) & Wc). pose proof (bend_ge x) as Hx. assert (Ht : bend taken = bend c) by (unfold bend, taken; cbn [fst snd]; lia).
  split; [unfold within in *; rewrite Ht; unfold taken; cbn [fst snd]; lia|].
  apply Forall_app. split; [|constructor; [|apply Forall_app; split]].
  - eapply Forall_impl; [exact O1|]. intros y Hy. cbn beta in Hy. right. unfold taken. cbn [fst]. lia.
  - right. unfold taken. cbn [fst]. lia.
  - unfold leftover. case_match; [done|]. constructor; [|done]. right. unfold taken, bend. cbn [fst snd]. lia.
  - eapply Forall_impl; [exact O3|]. intros y Hy. left. by rewrite Ht.
Qed.

Lemma leftover_shape : exists t', after_take = (base_hdr, 0) :: t' /\ Forall (within lo hi) t'.
Proof.
  destruct take_parts as (_ & _ & Wc). destruct HF as [_ _ F3 _]. unfold after_take.
  assert (Hl : Forall (within lo hi) leftover).
  { unfold leftover. destruct (Z.eqb_spec c.2 nunits); [done|]. constructor; [|done]. unfold within, bend in *. cbn [fst snd]. lia. }
  destruct u as [|y u']; injection E as <- ->.
  - exists (leftover ++ v). split; [done|]. apply Forall_cons in F3 as [_ F3]. by apply Forall_app.
  - exists (u' ++ x :: leftover ++ v). split; [done|]. apply Forall_app in F3 as [F3 [F4 [_ F5]%Forall_cons]%Forall_cons]. apply Forall_app. split; [done|]. constructor; [done|by apply Forall_app].
Qed.

(** Framing the parts of the list that the update leaves alone. *)
Lemma take_frame p q m' :
  same_but p q (hp_mem h) m' -> x.1 <= p -> p + 16 <= bend c -> x.1 <= q -> q + 16 <= bend c ->
  chain m' u x.1 /\ chain m' v base_hdr.
Proof.
  destruct take_parts as ((C1 & _ & _ & _ & C5) & (O1 & O2 & O3) & _). intros Hs P1 P2 Q1 Q2.
  split; (eapply chain_frame; [eassumption|]); (eapply Forall_impl; [eassumption|]); intros y Hy; cbn beta in Hy; pose proof (bend_ge y);
    (split; [eapply same_but_hptr|eapply same_but_hsize]; try exact Hs; unfold apart; lia).
Qed.

(** Bytes outside the free blocks and base are outside the headers written. *)
Lemma take_outside a : ~ covers t a -> a < base_hdr \/ base_hdr + 16 <= a -> (a < x.1 \/ x.1 + 16 <= a) /\ (a < c.1 \/ bend c <= a).
Proof.
  destruct take_parts as (_ & _ & Wc). destruct HF as [_ _ F3 _]. intros Ha Hb. split.
  - assert (Hx : x ∈ (base_hdr, 0) :: t) by (rewrite E; set_solver). apply elem_of_cons in Hx as [->|Hx]; [done|].
    destruct (decide (a < x.1 \/ x.1 + 16 <= a)); [done|]. exfalso. apply Ha, (within_cover lo hi t x F3 Hx). lia.
  - destruct (decide (a < c.1 \/ bend c <= a)); [done|]. exfalso. apply Ha. exists c. unfold within, bend in *. split; [|lia].
    destruct u as [|y u']; injection E as _ ->; set_solver.
Qed.

(** The memory after taking the block. *)
Lemma take_chain :
  let '(r, h') := take_block nunits x.1 c h in
  r = taken.1 + 16 /\ hp_freep h' = x.1 /\ chain (hp_mem h') after_take base_hdr /\ hsize (hp_mem h') taken.1 = nunits /\
  (forall a, ~ covers t a -> a < base_hdr \/ base_hdr + 16 <= a -> bget (hp_mem h') a = bget (hp_mem h) a).
Proof.
  destruct take_parts as ((C1 & C2 & C3 & C4 & C5) & (O1 & O2 & O3) & Wc). pose proof HB as (B1 & B2 & B3 & B4).
  pose proof (bend_ge x) as Hbx. pose proof (bend_ge c) as Hbc. pose proof (chain_size _ _ _ c (fo_chain _ _ _ _ HF) ltac:(rewrite E; set_solver)) as Hcs.
  assert (Hxc : apart x.1 c.1) by (unfold apart; lia). destruct Wc as (W1 & W2 & W3). pose proof take_frame as Fr. pose proof take_outside as Out.
  unfold take_block, taken, after_take, leftover, HDR. cbn [fst snd]. destruct (Z.eqb_spec c.2 nunits) as [E0|Hne]; cbn [hp_mem hp_freep app].
  - set (m' := set_ptr x.1 _ _). assert (Hm : same_but x.1 x.1 (hp_mem h) m') by (by apply same_but_ptr; [|left]).
    destruct (Fr x.1 x.1 m' Hm) as [Fu Fv]; [lia..|]. rewrite E0, Z.sub_diag, Z.mul_0_r, Z.add_0_r. split_and!; [done|done| | |].
    + apply chain_app. split; [done|]. cbn [chain]. split_and!; [|by unfold m'; rewrite hsize_set_ptr by (by left)|done]. unfold m'. rewrite C4. apply hptr_set_ptr.
      destruct v as [|d v']; cbn [head_or]; [lia|]. destruct HF as [_ F2 _ _]. rewrite E in F2. apply ordered_app in F2 as (_ & (_ & _ & _ & _ & _ & _ & _ & _ & D1 & D2 & _) & _).
      pose proof (bend_ge d). lia.
    + unfold m'. rewrite hsize_set_ptr by (by right). lia.
    + intros a Ha Hb. destruct (Out a Ha Hb) as [H1 _]. by apply Hm.
  - assert (Hbe : bend c = c.1 + 16 * c.2) by (unfold bend; lia). rewrite u32_small by lia. set (sz := c.2 - nunits) in *. set (p := c.1 + 16 * sz).
    set (m' := set_size p _ _). assert (Hm : same_but c.1 p (hp_mem h) m') by (apply same_but_size; [by apply same_but_size; [|left]|by right]).
    destruct (Fr c.1 p m' Hm) as [Fu Fv]; [unfold p; lia..|]. assert (Hcp : apart p c.1) by (unfold apart, p; lia). split_and!; [done|done| | |].
    + apply chain_app. split; [done|]. cbn [chain head_or fst snd]. split_and!; [..|done].
      * rewrite <- C3. eapply same_but_hptr; [exact Hm|..]; unfold apart, p; lia.
      * rewrite <- C2. eapply same_but_hsize; [exact Hm|..]; unfold apart, p; lia.
      * unfold m'. rewrite hptr_set_size by (by right). rewrite hptr_set_size by (by left). done.
      * unfold m'. rewrite hsize_set_size_ne by done. apply hsize_set_size. lia.
    + apply hsize_set_size. lia.
    + intros a Ha Hb. destruct (Out a Ha Hb) as [_ H2]. apply Hm; unfold p; lia.
Qed.

End Take.

(** ** Blocks in use *)

(** What sbrk() promises: it fails, or extends the process at its end. *)
Class Brk (W : Type) := { brk : W -> Z }.
Class BrkOk (W : Type) `{Sys W} `{Brk W} : Prop := {
  brk_bound : forall w : W, 0 <= brk w < 2 ^ 36;
  sbrk_ok : forall n (w : W), 0 < n ->
    exists r w', sbrk n w = UDone r w' /\ ((r = -1 /\ brk w' = brk w) \/ (r = brk w /\ brk w' = brk w + n))
}.

Fixpoint all_clear (A : list block) : Prop :=
  match A with
  | [] => True
  | c :: A => Forall (clear_of c) A /\ all_clear A
  end.

(** The heap of a process: before the first call, or the free list [t] together
    with the blocks [A] in use, none of which overlap. *)
Inductive heap_ok {W} `{Brk W} {BS : Base} (lo : Z) (w : W) (h : heap) : list block -> list block -> Prop :=
  | heap_new : hp_freep h = 0 -> heap_ok lo w h [] []
  | heap_used t A :
      free_ok lo (brk w) h t ->
      Forall (fun c => within lo (brk w) c /\ hsize (hp_mem h) c.1 = c.2 /\ Forall (clear_of c) t) A -> all_clear A ->
      heap_ok lo w h t A.

Lemma clear_covers lo hi c t :
  1 <= c.2 -> Forall (within lo hi) t -> Forall (clear_of c) t <-> forall a, c.1 <= a < c.1 + 16 * c.2 -> ~ covers t a.
Proof.
  intros Hc Ht. split.
  - intros F a Ha (y & Hy & Hy2). rewrite Forall_forall in F, Ht. specialize (F y Hy). destruct (Ht y Hy) as (_ & _ & ?).
    unfold clear_of, bend in F. lia.
  - intros H. apply Forall_forall. intros y Hy. rewrite Forall_forall in Ht. destruct (Ht y Hy) as (_ & _ & Hy1).
    destruct (decide (clear_of c y)) as [|Hno]; [done|]. exfalso. apply (H (Z.max c.1 y.1)); [|exists y; split; [done|]];
      unfold clear_of, bend in Hno; lia.
Qed.

Section Alloc.
Context {W : Type} {SY : Sys W} {BS : Base}.

Definition allocated_from (lo hi : Z) (h h' : heap) (t t' : list block) (b : block) : Prop :=
  free_ok lo hi h' t' /\ within lo hi b /\ hsize (hp_mem h') b.1 = b.2 /\ Forall (clear_of b) t' /\
  (forall a, covers t a <-> covers t' a \/ b.1 <= a < b.1 + 16 * b.2) /\
  (forall a, ~ covers t a -> a < base_hdr \/ base_hdr + 16 <= a -> bget (hp_mem h') a = bget (hp_mem h) a).

Lemma take_ok lo hi h t q c nunits :
  bounds_ok lo hi -> free_ok lo hi h t -> q ∈ ((base_hdr, 0) :: t).*1 -> hptr (hp_mem h) q = c.1 -> c ∈ t -> 1 <= nunits <= c.2 ->
  exists t' b, b.2 = nunits /\ (take_block nunits q c h).1 = b.1 + 16 /\ allocated_from lo hi h (take_block nunits q c h).2 t t' b.
Proof.
  intros HB HF Hq Hp Hc Hn. destruct (pred_split lo hi h t HB HF q c Hq Hp Hc) as (u & x & v & E & <-).
  pose proof (take_chain lo hi h t HB HF u x c v E nunits Hn) as T. destruct (take_block nunits x.1 c h) as [r h']. destruct T as (T1 & T2 & T3 & T4 & T5).
  assert (Ot : ordered (after_take u x c v nunits)) by (eapply leftover_ordered; eassumption).
  assert (Ct : forall a, covers t a <-> covers (after_take u x c v nunits) a \/ (taken c nunits).1 <= a < (taken c nunits).1 + 16 * (taken c nunits).2)
    by (intros a; eapply leftover_covers; eassumption).
  assert (Cl : within lo hi (taken c nunits) /\ Forall (clear_of (taken c nunits)) (after_take u x c v nunits)) by (eapply leftover_clear; eassumption).
  assert (Sh : exists t', after_take u x c v nunits = (base_hdr, 0) :: t' /\ Forall (within lo hi) t') by (eapply leftover_shape; eassumption).
  destruct Sh as (t' & Et & Wt). destruct Cl as [Wb Cl]. rewrite Et in T3, Ot, Cl. setoid_rewrite Et in Ct. setoid_rewrite covers_base in Ct.
  apply Forall_cons in Cl as [_ Cl]. exists t', (taken c nunits). split_and!; [done|done|]. split_and!; try done.
  split; [done|done|done|]. cbn [snd]. rewrite T2, <- Et. unfold after_take. rewrite fmap_app. apply elem_of_app. right. left.
Qed.

Lemma alloc_step lo hi h t nunits fuel (w : W) :
  bounds_ok lo hi -> free_ok lo hi h t -> (exists c, c ∈ t /\ nunits <= c.2) -> 1 <= nunits -> (length t + 2 <= fuel)%nat ->
  exists h' t' b, malloc_loop fuel nunits (hp_freep h) (hptr (hp_mem h) (hp_freep h)) h w = UDone (b.1 + 16, h') w /\
    b.2 = nunits /\ allocated_from lo hi h h' t t' b.
Proof.
  intros HB HF (c0 & Hc0 & Hfit0) Hn Hf. destruct (rotate lo hi h t HF) as (r1 & f & Ef & Hperm & Hch & Hnext & Hfp).
  destruct (first_fit nunits (r1 ++ [f])) as [Hnone|(s1 & c & s2 & E & Hs1 & Hfit)].
  { rewrite Hperm in Hnone. rewrite Forall_forall in Hnone. specialize (Hnone c0 ltac:(by right)). lia. }
  assert (Hpre : forall x, x ∈ s1 -> x ∈ r1).
  { intros x Hx. destruct s2 as [|y s2 _] using rev_ind; [by apply app_inj_tail in E as [-> _]|].
    rewrite app_comm_cons, app_assoc in E. apply app_inj_tail in E as [-> _]. apply elem_of_app. by left. }
  assert (Hin : forall x, x ∈ s1 ++ c :: s2 -> x ∈ (base_hdr, 0) :: t) by (intros x Hx; rewrite <- Hperm, E; done).
  assert (Hc : c ∈ t) by (destruct (proj1 (elem_of_cons _ _ _) (Hin c ltac:(set_solver))) as [->|]; [cbn [snd] in Hfit; lia|done]).
  assert (Hq : last_or (hp_freep h) s1 ∈ ((base_hdr, 0) :: t).*1 /\ hptr (hp_mem h) (last_or (hp_freep h) s1) = c.1).
  { unfold last_or. destruct s1 as [|y s1 _] using rev_ind; [split; [apply (fo_freep _ _ _ _ HF)|cbn [last]; by rewrite Hnext, E]|]. rewrite last_snoc. split.
    - apply list_elem_of_fmap. exists y. split; [done|]. apply Hin. set_solver.
    - rewrite E, <- app_assoc in Hch. apply chain_app in Hch as [_ [? _]]. done. }
  destruct Hq as [Hq Hqp]. destruct (take_ok lo hi h t (last_or (hp_freep h) s1) c nunits HB HF Hq Hqp Hc ltac:(lia)) as (t' & b & Hb2 & Hr & Ha).
  exists (take_block nunits (last_or (hp_freep h) s1) c h).2, t', b. split_and!; [|done|done].
  assert (Hlen : (length s1 <= length t)%nat) by (apply Permutation_length in Hperm; rewrite E, length_app in Hperm; simpl in Hperm; lia).
  replace fuel with (length s1 + S (fuel - S (length s1)))%nat by lia. rewrite Hnext, E.
  rewrite E in Hch. rewrite (scan_found _ nunits h _ s1 c s2 _ w Hch), <- Hr by (try done; apply Forall_forall; intros x Hx; rewrite Forall_forall in Hs1, Hfp; auto).
  by rewrite <- surjective_pairing.
Qed.
Context `{!Brk W} `{!BrkOk W}.

(** Widening the heap keeps its free list. *)
Lemma free_ok_grow lo hi hi' h t : hi <= hi' -> free_ok lo hi h t -> free_ok lo hi' h t.
Proof. intros Hh [F1 F2 F3 F4]. split; [done|done| |done]. eapply Forall_impl; [exact F3|]. unfold within. intros c. lia. Qed.

Lemma free_ok_size lo hi h t p v : bounds_ok lo hi -> hi <= p -> free_ok lo hi h t -> free_ok lo hi (Heap (set_size p v (hp_mem h)) (hp_freep h)) t.
Proof.
  intros (B1 & B2 & B3 & B4) Hp [F1 F2 F3 F4]. split; [|done|done|done]. cbn [hp_mem]. eapply chain_frame; [exact F1|].
  assert (Hap : forall c, c ∈ (base_hdr, 0) :: t -> apart p c.1).
  { intros c [->|Hc]%elem_of_cons; [unfold apart; cbn [fst]; lia|]. rewrite Forall_forall in F3. destruct (F3 c Hc) as (_ & ? & _). pose proof (bend_ge c). unfold apart. lia. }
  apply Forall_forall. intros c Hc. specialize (Hap c Hc). split; [apply hptr_set_size; by right|by apply hsize_set_size_ne].
Qed.

Definition grown (nunits : Z) : Z := if nunits <? 4096 then 4096 else nunits.

Lemma grown_bytes nunits : 1 <= nunits < 2 ^ 27 -> i32 (grown nunits * HDR) = 16 * Z.max 4096 nunits.
Proof. intros Hn. unfold grown, HDR. destruct (Z.ltb_spec nunits 4096); rewrite i32_small; lia. Qed.

(** morecore() fails when sbrk() does, or adds a block of at least [nunits] units. *)
Lemma morecore_run lo h t nunits fuel (w : W) :
  bounds_ok lo (brk w) -> free_ok lo (brk w) h t -> 1 <= nunits < 2 ^ 27 -> (2 * S (length t) <= fuel)%nat ->
  exists r h' w', morecore fuel nunits h w = UDone (r, h') w' /\
    ((r = 0 /\ h' = h /\ brk w' = brk w /\ sbrk (16 * Z.max 4096 nunits) w = UDone (-1) w') \/
     exists t', r = hp_freep h' /\ sbrk (16 * Z.max 4096 nunits) w = UDone (brk w) w' /\ r <> 0 /\ brk w <= brk w' /\ free_ok lo (brk w') h' t' /\ (exists c, c ∈ t' /\ nunits <= c.2) /\ (length t' <= S (length t))%nat /\
       (forall a, covers t' a <-> covers t a \/ brk w <= a < brk w') /\
       (forall a, ~ covers t' a -> a < base_hdr \/ base_hdr + 16 <= a -> bget (hp_mem h') a = bget (hp_mem h) a)).
Proof.
  intros HB HF Hn Hf. pose proof HB as (B1 & B2 & B3 & B4). unfold morecore. fold (grown nunits). assert (Hg : nunits <= grown nunits < 2 ^ 27 /\ 4096 <= grown nunits) by (unfold grown; destruct (Z.ltb_spec nunits 4096); lia).
  assert (Eg : grown nunits * 16 = 16 * Z.max 4096 nunits) by (unfold grown; destruct (Z.ltb_spec nunits 4096); lia).
  rewrite (grown_bytes nunits Hn). destruct (sbrk_ok (16 * Z.max 4096 nunits) w ltac:(lia)) as (r & w' & R & Hr). rewrite (ubind_done _ _ _ _ _ R).
  pose proof (brk_bound w) as Bw. pose proof (brk_bound w') as Bw'. destruct Hr as [[-> Hbrk]|[-> Hbrk]].
  { exists 0, h, w'. simpl. split; [done|]. by left. }
  rewrite (proj2 (Z.eqb_neq (brk w) (-1))) by lia. rewrite <- Eg in Hbrk. set (b := (brk w, grown nunits) : block).
  assert (HB' : bounds_ok lo (brk w')) by (unfold bounds_ok; lia). assert (Hb : within lo (brk w') b) by (unfold within, bend, b; cbn [fst snd]; lia).
  set (h1 := Heap (set_size (brk w) (grown nunits) (hp_mem h)) (hp_freep h)).
  assert (HF1 : free_ok lo (brk w') h1 t) by (apply (free_ok_grow lo (brk w)); [lia|]; apply free_ok_size; [done|lia|done]).
  destruct (free_run lo (brk w') fuel h1 t b w' HB' HF1 Hb) as (h' & Rf & HF' & Hcov & Hbig & Hlen & Hout).
  - apply hsize_set_size. unfold b. cbn [snd]. lia.
  - apply Forall_forall. intros c Hc. destruct HF as [_ _ F3 _]. rewrite Forall_forall in F3. destruct (F3 c Hc) as (_ & ? & _). right. done.
  - done.
  - exists (hp_freep h'), h', w'. change (brk w + HDR) with (b.1 + HDR). rewrite (ubind_done _ _ _ _ _ Rf). split; [done|]. right. exists (give_back b t).
    assert (Hnz : hp_freep h' <> 0).
    { destruct HF' as [_ O F3 F4]. apply list_elem_of_fmap in F4 as (c & -> & [->|Hc]%elem_of_cons); [cbn [fst]; lia|]. rewrite Forall_forall in F3. destruct (F3 c Hc). lia. }
    assert (Eb : b.1 + 16 * b.2 = brk w') by (unfold b; cbn [fst snd]; lia).
    split_and!; [done|done|done|lia|done| |done| |].
    + destruct Hbig as (c & Hc & Hsz). exists c. split; [done|]. unfold b in Hsz. cbn [snd] in Hsz. lia.
    + intros a. rewrite Hcov, Eb. done.
    + intros a Ha Hba. rewrite (Hout a Ha Hba). unfold h1. cbn [hp_mem]. apply st32_get_out.
      destruct (decide (a < brk w + 8 \/ brk w + 8 + 4 <= a)); [done|]. exfalso. apply Ha, Hcov. right. unfold b. cbn [fst snd]. lia.
Qed.

(** How a round of malloc() ends for [nunits] units on the free list [t]: a block
    of the list is large enough, or sbrk() adds one, or sbrk() fails. *)
Inductive round_end (lo : Z) (t : list block) (w : W) (h h' : heap) (nunits : Z) : Z -> list block -> W -> Prop :=
  | round_fits c t' b :
      c ∈ t -> nunits <= c.2 -> b.2 = nunits -> allocated_from lo (brk w) h h' t t' b -> round_end lo t w h h' nunits (b.1 + 16) t' w
  | round_grows t' b w' :
      Forall (fun c => c.2 < nunits) t -> sbrk (16 * Z.max 4096 nunits) w = UDone (brk w) w' -> brk w <= brk w' -> b.2 = nunits ->
      free_ok lo (brk w') h' t' -> within lo (brk w') b -> hsize (hp_mem h') b.1 = b.2 -> Forall (clear_of b) t' ->
      (forall a, covers t a \/ brk w <= a < brk w' <-> covers t' a \/ b.1 <= a < b.1 + 16 * b.2) ->
      round_end lo t w h h' nunits (b.1 + 16) t' w'
  | round_fails w' :
      Forall (fun c => c.2 < nunits) t -> sbrk (16 * Z.max 4096 nunits) w = UDone (-1) w' -> brk w' = brk w -> h' = h ->
      round_end lo t w h h' nunits 0 t w'.

(** A round of malloc() on an initialised heap. *)
Lemma malloc_loop_run lo h t nunits fuel (w : W) :
  bounds_ok lo (brk w) -> free_ok lo (brk w) h t -> 1 <= nunits < 2 ^ 27 -> (4 * (length t + 3) <= fuel)%nat ->
  exists r h' w' t', malloc_loop fuel nunits (hp_freep h) (hptr (hp_mem h) (hp_freep h)) h w = UDone (r, h') w' /\
    (forall a, ~ covers t a -> a < brk w -> a < base_hdr \/ base_hdr + 16 <= a -> bget (hp_mem h') a = bget (hp_mem h) a) /\
    round_end lo t w h h' nunits r t' w'.
Proof.
  intros HB HF Hn Hf. destruct (first_fit nunits t) as [Hnone|(s1 & c & s2 & -> & _ & Hfit)].
  2: { destruct (alloc_step lo (brk w) h (s1 ++ c :: s2) nunits fuel w HB HF) as (h' & t' & b & R & Hb & Ha);
         [exists c; split; [set_solver|done]|lia|lia|].
       exists (b.1 + 16), h', w, t'. split_and!; [done| |by apply (round_fits lo _ w h h' nunits c); [set_solver|..]].
       intros a Hc _ Hb2. by apply Ha. }
  destruct (rotate lo (brk w) h t HF) as (r1 & f & Ef & Hperm & Hch & Hnext & Hfp).
  assert (Hall : Forall (fun x => x.2 < nunits) (r1 ++ [f])) by (rewrite Hperm; constructor; [cbn [snd]; lia|done]).
  apply Forall_app in Hall as [Hr1 [Hff _]%Forall_cons]. pose proof (Permutation_length Hperm) as Hlen. rewrite length_app in Hlen. simpl in Hlen.
  replace fuel with (length r1 + S (fuel - S (length r1)))%nat by lia. rewrite Hnext.
  rewrite (scan_none _ nunits h _ r1 f _ w Hch) by (try done; apply Forall_forall; intros x Hx; rewrite Forall_forall in Hr1, Hfp; auto).
  destruct (morecore_run lo h t nunits (fuel - S (length r1)) w HB HF Hn ltac:(lia)) as (r & h1 & w1 & R & Hr). rewrite (ubind_done _ _ _ _ _ R).
  pose proof (brk_bound w1) as Bw1. destruct Hr as [(-> & -> & Hb & Hs)|(t1 & -> & Hs & Hnz & Hb & HF1 & Hbig & Hl1 & Hcov & Hout)].
  - exists 0, h, w1, t. split_and!; [done|done|by apply round_fails].
  - rewrite (proj2 (Z.eqb_neq _ 0) Hnz). pose proof HB as (B1 & B2 & B3 & B4).
    destruct (alloc_step lo (brk w1) h1 t1 nunits (fuel - S (length r1)) w1) as (h' & t' & b & R2 & Hb2 & A1 & A2 & A3 & A4 & A5 & A6);
      [unfold bounds_ok; lia|done|done|lia|lia|].
    exists (b.1 + 16), h', w1, t'. split_and!; [done| |].
    + intros a Ha Hlt Hba. assert (Hn1 : ~ covers t1 a) by (rewrite Hcov; intros [?|?]; [done|lia]). rewrite A6 by done. by apply Hout.
    + apply round_grows; try done. intros a. by rewrite <- Hcov, A5.
Qed.

(** A block in use, beside the free list [t]. *)
Definition in_use (lo : Z) (w : W) (h : heap) (t : list block) (c : block) : Prop :=
  within lo (brk w) c /\ hsize (hp_mem h) c.1 = c.2 /\ Forall (clear_of c) t.

Lemma in_use_bytes lo (w : W) h t c a :
  bounds_ok lo (brk w) -> free_ok lo (brk w) h t -> in_use lo w h t c -> c.1 <= a < bend c ->
  ~ covers t a /\ a < brk w /\ (a < base_hdr \/ base_hdr + 16 <= a).
Proof.
  intros (B1 & B2 & B3 & B4) HF (Wc & _ & Hcl) Ha. pose proof Wc as (W1 & W2 & W3). split_and!; [|lia|lia].
  apply (clear_covers lo (brk w) c t W3 (fo_within _ _ _ _ HF)); [done|]. unfold bend in Ha. lia.
Qed.

(** Blocks in use survive when their bytes do and the free list stays clear of them. *)
Lemma in_use_keep lo (w w' : W) h h' t t' c :
  in_use lo w h t c -> brk w <= brk w' -> (forall a, c.1 <= a < bend c -> bget (hp_mem h') a = bget (hp_mem h) a) ->
  Forall (within lo (brk w')) t' -> (forall a, covers t' a -> covers t a \/ brk w <= a) -> Forall (within lo (brk w)) t ->
  in_use lo w' h' t' c.
Proof.
  intros ((W1 & W2 & W3) & Hs & Hcl) Hb Hm Wt' Hc Wt. split_and!; [unfold within; lia| |].
  - rewrite <- Hs. apply ld_ext. intros x Hx. apply Hm. pose proof (bend_ge c). lia.
  - apply (clear_covers lo (brk w') c t' W3 Wt'). intros a Ha [Hin|Hge]%Hc; [|unfold bend in W2; lia].
    by apply (proj1 (clear_covers lo (brk w) c t W3 Wt) Hcl a Ha).
Qed.

(** A block cut from free or new memory is clear of the blocks in use. *)
Lemma cut_clear lo hi (w : W) h t b c :
  free_ok lo (brk w) h t -> in_use lo w h t c -> within lo hi b ->
  (forall a, b.1 <= a < b.1 + 16 * b.2 -> covers t a \/ brk w <= a) -> clear_of b c.
Proof.
  intros HF ((W1 & W2 & W3) & _ & Hcc) Wb Hin. assert (Hcb : Forall (clear_of c) [b]).
  { apply (clear_covers lo hi c [b] W3); [by constructor|]. intros a Ha (y & ->%list_elem_of_singleton & Hy).
    destruct (Hin a Hy) as [Hct|]; [|unfold bend in W2; lia]. by apply (proj1 (clear_covers lo (brk w) c t W3 (fo_within _ _ _ _ HF)) Hcc a Ha). }
  apply Forall_cons in Hcb as [Hcb _]. unfold clear_of in *. tauto.
Qed.

(** The blocks in use, the new one included. *)
Lemma heap_cut lo (w w' : W) h h' t t' b A :
  bounds_ok lo (brk w) -> free_ok lo (brk w) h t -> Forall (in_use lo w h t) A -> all_clear A -> brk w <= brk w' ->
  free_ok lo (brk w') h' t' -> within lo (brk w') b -> hsize (hp_mem h') b.1 = b.2 -> Forall (clear_of b) t' ->
  (forall a, covers t' a \/ b.1 <= a < b.1 + 16 * b.2 -> covers t a \/ brk w <= a) ->
  (forall c a, c ∈ A -> c.1 <= a < bend c -> bget (hp_mem h') a = bget (hp_mem h) a) ->
  heap_ok lo w' h' t' (b :: A).
Proof.
  intros HB HF HA Hcl Hb HF' Wb Hsz Hclb Hcov Hbytes. apply heap_used; [done|constructor; [done|]|split; [|done]].
  - apply Forall_forall. intros c Hc. rewrite Forall_forall in HA. apply (in_use_keep lo w w' h h' t t' c (HA c Hc) Hb); [by intros a; apply Hbytes|apply HF'| |apply HF].
    intros a Ha. apply Hcov. by left.
  - apply Forall_forall. intros c Hc. rewrite Forall_forall in HA. apply (cut_clear lo (brk w') w h t b c HF (HA c Hc) Wb).
    intros a Ha. apply Hcov. by right.
Qed.

(** How malloc() ends for [nunits] units.  A block of the free list is large
    enough, and the new block is cut from the list; or none is, and it is cut
    from the list and the memory that sbrk() adds; or none is and sbrk()
    refuses the memory, and malloc() returns 0. *)
Inductive malloc_end (lo nunits : Z) (t A : list block) (w : W) (h' : heap) : Z -> W -> Prop :=
  | malloc_fits c r t' :
      c ∈ t -> nunits <= c.2 -> heap_ok lo w h' t' ((r - 16, nunits) :: A) ->
      (forall a, covers t a <-> covers t' a \/ r - 16 <= a < r - 16 + 16 * nunits) ->
      malloc_end lo nunits t A w h' r w
  | malloc_grows r t' w' :
      Forall (fun c => c.2 < nunits) t -> sbrk (16 * Z.max 4096 nunits) w = UDone (brk w) w' ->
      heap_ok lo w' h' t' ((r - 16, nunits) :: A) ->
      (forall a, covers t a \/ brk w <= a < brk w' <-> covers t' a \/ r - 16 <= a < r - 16 + 16 * nunits) ->
      malloc_end lo nunits t A w h' r w'
  | malloc_fails w' :
      Forall (fun c => c.2 < nunits) t -> sbrk (16 * Z.max 4096 nunits) w = UDone (-1) w' -> heap_ok lo w' h' t A ->
      malloc_end lo nunits t A w h' 0 w'.

Lemma malloc_heap lo h t A nunits fuel (w : W) :
  bounds_ok lo (brk w) -> free_ok lo (brk w) h t -> Forall (in_use lo w h t) A -> all_clear A -> 1 <= nunits < 2 ^ 27 -> (4 * (length t + 3) <= fuel)%nat ->
  exists r h' w', malloc_loop fuel nunits (hp_freep h) (hptr (hp_mem h) (hp_freep h)) h w = UDone (r, h') w' /\
    malloc_end lo nunits t A w h' r w' /\
    forall c a, c ∈ A -> c.1 <= a < bend c -> bget (hp_mem h') a = bget (hp_mem h) a.
Proof.
  intros HB HF HA Hcl Hn Hf. destruct (malloc_loop_run lo h t nunits fuel w HB HF Hn Hf) as (r & h' & w' & t' & R & Hout & Hr).
  assert (Hbytes : forall c a, c ∈ A -> c.1 <= a < bend c -> bget (hp_mem h') a = bget (hp_mem h) a).
  { intros c a Hc Ha. rewrite Forall_forall in HA. destruct (in_use_bytes lo w h t c a HB HF (HA c Hc) Ha) as (? & ? & ?). by apply Hout. }
  exists r, h', w'. split_and!; [done| |done]. assert (Hr16 : forall b : block, (b.1 + 16 - 16, b.2) = b) by (intros []; cbn [fst snd]; f_equal; lia).
  destruct Hr as [c t' b Hc Hfit <- (A1 & A2 & A3 & A4 & A5 & _)|t' b w' Hnone Hs Hb <- A1 A2 A3 A4 A5|w1 Hnone Hs Hb Eh].
  - apply (malloc_fits lo _ t A w h' c _ t'); rewrite ?Hr16; [done|done| |by replace (b.1 + 16 - 16) with b.1 by lia].
    apply (heap_cut lo w w h h' t t' b A); try done. intros a Ha. left. by apply A5.
  - apply (malloc_grows lo _ t A w h' _ t'); rewrite ?Hr16; [done|done| |by replace (b.1 + 16 - 16) with b.1 by lia].
    apply (heap_cut lo w w' h h' t t' b A); try done. intros a Ha. apply A5 in Ha as [?|[? _]]; [by left|by right].
  - subst h'. apply malloc_fails; [done|done|]. apply heap_used; [by rewrite Hb| |done]. by rewrite Hb.
Qed.

Lemma heap_init lo h (w : W) :
  bounds_ok lo (brk w) -> free_ok lo (brk w) (Heap (set_size base_hdr 0 (set_ptr base_hdr base_hdr (hp_mem h))) base_hdr) [].
Proof.
  intros (B1 & B2 & B3 & B4). split; cbn [hp_mem hp_freep chain head_or fst snd ordered].
  - split_and!; [|by apply hsize_set_size|done]. rewrite hptr_set_size by (by left). apply hptr_set_ptr. lia.
  - unfold bend. cbn [fst snd]. split_and!; [lia|lia|lia|done|done].
  - done.
  - left.
Qed.

Lemma units_spec nbytes : 0 <= nbytes < 2 ^ 31 - 64 -> 1 <= units nbytes < 2 ^ 27 /\ nbytes <= 16 * (units nbytes - 1).
Proof.
  intros Hn. unfold units, HDR. pose proof (Z.div_mod (nbytes + 16 - 1) 16 ltac:(lia)). pose proof (Z.mod_pos_bound (nbytes + 16 - 1) 16 ltac:(lia)).
  rewrite u32_small by lia. lia.
Qed.

Lemma all_clear_remove A1 b A2 :
  all_clear (A1 ++ b :: A2) -> all_clear (A1 ++ A2) /\ Forall (fun c => clear_of b c) (A1 ++ A2).
Proof.
  induction A1 as [|c A1 IH]; simpl; [naive_solver|]. intros [F H]. destruct (IH H) as [H1 H2]. apply Forall_app in F as [F1 [F2 F3]%Forall_cons].
  split; [split; [by apply Forall_app|done]|]. constructor; [unfold clear_of in *; tauto|done].
Qed.

Lemma free_heap lo h t A1 b A2 fuel (w : W) :
  bounds_ok lo (brk w) -> heap_ok lo w h t (A1 ++ b :: A2) -> (2 * S (length t) <= fuel)%nat ->
  exists h', free fuel (b.1 + 16) h w = UDone h' w /\ heap_ok lo w h' (give_back b t) (A1 ++ A2) /\
    (forall a, covers (give_back b t) a <-> covers t a \/ b.1 <= a < b.1 + 16 * b.2) /\
    forall c a, c ∈ A1 ++ A2 -> c.1 <= a < bend c -> bget (hp_mem h') a = bget (hp_mem h) a.
Proof.
  intros HB HK Hf. inversion HK as [Hz Et Enil|t0 A HF HA Hcl Et EA]; [by destruct A1|subst t0 A].
  assert (HAb : in_use lo w h t b /\ Forall (in_use lo w h t) (A1 ++ A2)) by (apply Forall_app in HA as [? [? ?]%Forall_cons]; split; [done|by apply Forall_app]).
  destruct HAb as [(Wb & Hsz & Hclb) HA12]. apply all_clear_remove in Hcl as [Hcl12 Hb12].
  destruct (free_run lo (brk w) fuel h t b w HB HF Wb Hsz Hclb Hf) as (h' & R & HF' & Hcov & _ & _ & Hout). exists h'. split; [done|].
  assert (Hnc : forall c a, c ∈ A1 ++ A2 -> c.1 <= a < bend c -> ~ covers (give_back b t) a /\ (a < base_hdr \/ base_hdr + 16 <= a)).
  { intros c a Hc Ha. rewrite Forall_forall in HA12, Hb12. destruct (in_use_bytes lo w h t c a HB HF (HA12 c Hc) Ha) as (N1 & _ & N3). split; [|done].
    rewrite Hcov. intros [?|Hb]; [done|]. specialize (Hb12 c Hc). unfold clear_of, bend in *. lia. }
  assert (Hbytes : forall c a, c ∈ A1 ++ A2 -> c.1 <= a < bend c -> bget (hp_mem h') a = bget (hp_mem h) a)
    by (intros c a Hc Ha; destruct (Hnc c a Hc Ha); by apply Hout).
  split; [|done]. apply heap_used; [exact HF'| |done]. apply Forall_forall. intros c Hc. rewrite Forall_forall in HA12. destruct (HA12 c Hc) as (Wc & Hs & Hcc).
  pose proof Wc as (_ & _ & W3). split_and!; [done| |].
  - rewrite <- Hs. apply ld_ext. intros x Hx. apply (Hbytes c); [done|]. pose proof (bend_ge c). lia.
  - apply (clear_covers lo (brk w) c _ W3 (fo_within _ _ _ _ HF')). intros a Ha. apply (Hnc c a Hc). unfold bend. lia.
Qed.

(** A request for almost 4 GB: the size of the block is right, but the int
    passed to sbrk() has wrapped to 16. *)
Definition huge : Z := 2 ^ 28 + 1.

Lemma morecore_wraps lo h t fuel (w w1 : W) :
  bounds_ok lo (brk w) -> brk w < 2 ^ 35 -> free_ok lo (brk w) h t -> sbrk 16 w = UDone (brk w) w1 -> (2 * S (length t) <= fuel)%nat ->
  exists h' t', morecore fuel huge h w = UDone (hp_freep h', h') w1 /\ hp_freep h' <> 0 /\
    free_ok lo (brk w + 16 * huge) h' t' /\ (exists c, c ∈ t' /\ huge <= c.2) /\ (length t' <= S (length t))%nat.
Proof.
  intros HB Hlt HF Hs Hf. pose proof HB as (B1 & B2 & B3 & B4). unfold morecore. change (huge <? 4096) with false. change (i32 (huge * HDR)) with 16. cbv zeta.
  rewrite (ubind_done _ _ _ _ _ Hs), (proj2 (Z.eqb_neq (brk w) (-1))) by lia. set (hi := brk w + 16 * huge). set (b := (brk w, huge) : block).
  assert (HB' : bounds_ok lo hi) by (unfold bounds_ok, hi, huge; lia). assert (Hb : within lo hi b) by (unfold within, bend, b, hi, huge; cbn [fst snd]; lia).
  set (h1 := Heap (set_size (brk w) huge (hp_mem h)) (hp_freep h)).
  assert (HF1 : free_ok lo hi h1 t) by (apply (free_ok_grow lo (brk w)); [unfold hi, huge; lia|]; apply free_ok_size; [done|lia|done]).
  destruct (free_run lo hi fuel h1 t b w1 HB' HF1 Hb) as (h' & Rf & HF' & _ & Hbig & Hlen & _).
  - apply hsize_set_size. unfold b, huge. cbn [snd]. lia.
  - apply Forall_forall. intros c Hc. destruct HF as [_ _ F3 _]. rewrite Forall_forall in F3. destruct (F3 c Hc) as (_ & ? & _). right. done.
  - done.
  - exists h', (give_back b t). change (brk w + HDR) with (b.1 + HDR). rewrite (ubind_done _ _ _ _ _ Rf). split_and!; [done| |done|done|done].
    destruct HF' as [_ O F3 F4]. apply list_elem_of_fmap in F4 as (c & -> & [->|Hc]%elem_of_cons); [cbn [fst]; lia|]. rewrite Forall_forall in F3. destruct (F3 c Hc). lia.
Qed.

Lemma malloc_wraps lo h fuel (w w1 : W) :
  bounds_ok lo (brk w) -> brk w < 2 ^ 35 -> hp_freep h = 0 -> sbrk 16 w = UDone (brk w) w1 -> (10 <= fuel)%nat ->
  exists r h', malloc fuel (2 ^ 32 - 1) h w = UDone (r, h') w1 /\ r <> 0 /\ hsize (hp_mem h') (r - 16) = huge.
Proof.
  intros HB Hlt Hz Hs Hf. pose proof HB as (B1 & B2 & B3 & B4). unfold malloc. change (units (2 ^ 32 - 1)) with huge. rewrite Hz. cbn [Z.eqb]. cbv zeta.
  set (h0 := Heap _ base_hdr). pose proof (heap_init lo h w HB) as HF. fold h0 in HF. cbn [hp_freep].
  assert (Hn0 : hptr (hp_mem h0) base_hdr = base_hdr) by exact (chain_head _ _ _ _ (fo_chain _ _ _ _ HF)).
  change (hp_freep h0) with base_hdr. rewrite Hn0. destruct fuel as [|k]; [lia|].
  pose proof (scan_none k huge h0 base_hdr [] (base_hdr, 0) base_hdr w (fo_chain _ _ _ _ HF) ltac:(done) ltac:(unfold huge; cbn [snd]; lia) eq_refl) as S.
  destruct (morecore_wraps lo h0 [] k w w1 HB Hlt HF Hs ltac:(simpl; lia)) as (h1 & t1 & R & Hnz & HF1 & Hbig & Hlen).
  rewrite (ubind_done _ _ _ _ _ R), (proj2 (Z.eqb_neq _ 0) Hnz) in S.
  destruct (alloc_step lo (brk w + 16 * huge) h1 t1 huge k w1) as (h' & t' & b & R2 & Hb2 & _ & (W1 & _) & A3 & _);
    [unfold bounds_ok, huge; lia|done|done|unfold huge; lia|simpl in Hlen; lia|].
  rewrite R2 in S. exists (b.1 + 16), h'. split_and!; [exact S|lia|]. replace (b.1 + 16 - 16) with b.1 by lia. by rewrite A3.
Qed.

End Alloc.

(** ** The properties *)

Section Properties.
Context {W : Type} {SY : Sys W} {BK : Brk W} {OK : BrkOk W} {BS : Base}.

(** C28: malloc() hands out memory that nothing else uses, and fails only when
    sbrk() does.  For a request below 2^31 - 64 bytes, on a heap with free list
    [t] and blocks [A] in use that do not overlap, it terminates in one of
    three ways: some free block is large enough, and the new block is cut from
    the free list without a call of sbrk(); no free block is, sbrk() adds at
    least 4096 units, and the block is cut from the free list and the added
    memory; no free block is, sbrk() returns -1, and malloc() returns 0 with
    the free list as it was.  In the first two the new block has room for
    nbytes after its header, which says its size; it and the free list make up
    exactly the memory that was free or added; the free list and all blocks in
    use do not overlap; and no byte of a block in use has changed. *)
Theorem malloc_correct lo nbytes h t A fuel (w : W) :
  bounds_ok lo (brk w) -> heap_ok lo w h t A -> 0 <= nbytes < 2 ^ 31 - 64 -> (4 * (length t + 5) <= fuel)%nat ->
  nbytes <= 16 * (units nbytes - 1) /\
  exists r h' w', malloc fuel nbytes h w = UDone (r, h') w' /\
    malloc_end lo (units nbytes) t A w h' r w' /\
    forall c a, c ∈ A -> c.1 <= a < bend c -> bget (hp_mem h') a = bget (hp_mem h) a.
Proof.
  intros HB HK Hn Hf. destruct (units_spec nbytes Hn) as [Hu Hu2]. split; [done|]. pose proof HB as (B1 & _). unfold malloc. destruct HK as [Hz|t A HF HA Hcl].
  - rewrite Hz. pose proof (heap_init lo h w HB) as HF.
    destruct (malloc_heap lo _ [] [] (units nbytes) fuel w HB HF ltac:(done) I Hu ltac:(simpl in *; lia)) as (r & h' & w' & R & Hr & _).
    exists r, h', w'. split_and!; [exact R|done|by intros c a ?%elem_of_nil].
  - assert (Hnz : hp_freep h <> 0).
    { destruct HF as [_ _ F3 F4]. apply list_elem_of_fmap in F4 as (c & -> & [->|Hc]%elem_of_cons); [cbn [fst]; lia|]. rewrite Forall_forall in F3. destruct (F3 c Hc), HB. lia. }
    rewrite (proj2 (Z.eqb_neq _ 0) Hnz). apply malloc_heap; try done. lia.
Qed.

(** C29: free() puts a block back on the free list.  On a heap with free list
    [t] and a block [b] in use it terminates with the free list
    [give_back b t], which is [t] with [b] in its place by address, joined
    with the block before and the block after where they touch: it covers
    exactly the bytes of [t] and of [b].  [b] is no longer in use, the
    remaining blocks in use keep their bytes, and none of them overlaps the
    free list. *)
Theorem free_correct lo h t A1 b A2 fuel (w : W) :
  bounds_ok lo (brk w) -> heap_ok lo w h t (A1 ++ b :: A2) -> (2 * S (length t) <= fuel)%nat ->
  exists h', free fuel (b.1 + 16) h w = UDone h' w /\ heap_ok lo w h' (give_back b t) (A1 ++ A2) /\
    (forall a, covers (give_back b t) a <-> covers t a \/ b.1 <= a < b.1 + 16 * b.2) /\
    forall c a, c ∈ A1 ++ A2 -> c.1 <= a < bend c -> bget (hp_mem h') a = bget (hp_mem h) a.
Proof. apply free_heap. Qed.

(** malloc() of almost 4 GB returns a pointer to 16 bytes.  The number of
    bytes asked of sbrk() is passed as an int and wraps: for nbytes =
    2^32 - 1 the process grows by 16 bytes, and malloc() returns a block
    whose header claims 2^28 + 1 units. *)
Theorem malloc_overflow lo h fuel (w w1 : W) :
  bounds_ok lo (brk w) -> brk w < 2 ^ 35 -> hp_freep h = 0 -> sbrk 16 w = UDone (brk w) w1 -> (10 <= fuel)%nat ->
  exists r h', malloc fuel (2 ^ 32 - 1) h w = UDone (r, h') w1 /\ r <> 0 /\ hsize (hp_mem h') (r - 16) = 2 ^ 28 + 1.
Proof. apply malloc_wraps. Qed.

End Properties.

(** ** A process that can grow to 64 GB *)

#[local] Instance brk0 : Brk Z := {| brk := fun w => w `mod` 2 ^ 36 |}.
Definition sbrk0 (n : Z) : U Z Z := fun w => if brk w + n <? 2 ^ 36 then UDone (brk w) (brk w + n) else UDone (-1) w.
#[local] Instance brk_sys : Sys Z := small_sys (fun _ _ => ans ([], 0)) (fun _ _ => ans (-1)) sbrk0.
#[local] Instance base0 : Base := {| base_hdr := 4096 |}.

#[local] Instance brk_sys_ok : BrkOk Z.
Proof.
  split; [intros w; apply Z.mod_pos_bound; lia|]. intros n w Hn. pose proof (Z.mod_pos_bound w (2 ^ 36) ltac:(lia)) as Hw.
  cbn [sbrk brk_sys small_sys]. unfold sbrk0. destruct (Z.ltb_spec (brk w + n) (2 ^ 36)) as [Hlt|].
  - eexists _, _. split; [reflexivity|right]. split; [done|]. cbn [brk brk0] in *. rewrite Z.mod_small by lia. done.
  - eexists _, _. split; [reflexivity|by left].
Qed.

Definition heap0 : heap := Heap ∅ 0.

Lemma bounds0 : bounds_ok 8192 (brk 8192).
Proof. vm_compute. split_and!; congruence. Qed.

(** The first call: the free list is empty, so the block comes from sbrk(). *)
Lemma malloc_correct_witness : exists r h' w', @malloc Z brk_sys base0 20 100 heap0 8192 = UDone (r, h') w' /\
  @malloc_end Z brk_sys base0 brk0 8192 8 [] [] 8192 h' r w'.
Proof.
  destruct (@malloc_correct Z brk_sys brk0 brk_sys_ok base0 8192 100 heap0 [] [] 20 8192 bounds0 (heap_new 8192 8192 heap0 eq_refl) ltac:(lia) ltac:(simpl; lia)) as (_ & r & h' & w' & R & E & _).
  exists r, h', w'. split; [exact R|exact E].
Defined.

(** A heap with two blocks in use around a free one. *)
Definition heap1 : heap :=
  Heap (set_size 8320 4 (set_ptr 8256 4096 (set_size 8256 4 (set_size 8192 4 (set_size 4096 0 (set_ptr 4096 8256 ∅)))))) 4096.

Lemma heap1_ok : @heap_ok Z brk0 base0 8192 (8192 + 192) heap1 [(8256, 4)] [(8192, 4); (8320, 4)].
Proof.
  apply (@heap_used Z brk0 base0 8192 (8192 + 192) heap1 [(8256, 4)]).
  - split; [vm_compute; done|vm_compute; repeat (split || constructor); congruence|vm_compute; repeat (split || constructor); congruence|left].
  - repeat constructor; vm_compute; congruence.
  - cbn [all_clear]. split_and!; [|constructor|done]. repeat constructor; vm_compute; congruence.
Qed.

(** The freed block is joined with the free block after it. *)
Lemma free_correct_witness : exists h', @free Z 10 (8192 + 16) heap1 (8192 + 192) = UDone h' (8192 + 192) /\
  @heap_ok Z brk0 base0 8192 (8192 + 192) h' [(8192, 8)] [(8320, 4)].
Proof.
  destruct (@free_correct Z brk0 base0 8192 heap1 [(8256, 4)] [] (8192, 4) [(8320, 4)] 10 (8192 + 192)) as (h' & R & H & _);
    [vm_compute; split_and!; congruence|exact heap1_ok|simpl; lia|].
  exists h'. split; [exact R|exact H].
Defined.

Lemma malloc_overflow_witness : exists r h', @malloc Z brk_sys base0 10 (2 ^ 32 - 1) heap0 8192 = UDone (r, h') (8192 + 16) /\ r <> 0.
Proof.
  destruct (@malloc_overflow Z brk_sys brk0 base0 8192 heap0 10 8192 (8192 + 16) bounds0 eq_refl eq_refl eq_refl ltac:(lia)) as (r & h' & R & Hr & _).
  exists r, h'. split; [exact R|exact Hr].
Defined.
