(* ===== verification/Sh.v ===== *)
(** * The shell (user/sh.c): the code

    A command line is the list of its characters; a pointer into it is an
    offset, and the character at its end is the NUL.  Nodes of the tree that
    the parser builds are values; they keep the offsets of their strings, and
    nulterminate() puts the NULs in the line.  malloc() is taken to succeed. *)

From stdpp Require Import base numbers list list_numbers gmap strings.
From Stdlib Require Import ZArith Lia.
From S2P Require Import Prelude.
From S2P Require Import Mem.
From S2P Require Import User.

Local Open Scope Z_scope.

Definition MAXARGS : nat := 10.

(** ** Commands *)

(** A string of the line: where it starts and ends. *)
Abbreviation span := (nat * nat)%type.

Inductive cmd :=
  | EXEC (argv : list span)
  | REDIR (c : cmd) (file : span) (mode fd : Z)
  | PIPE (left right : cmd)
  | LIST (left right : cmd)
  | BACK (c : cmd).

(** ** Constructors *)

Definition execcmd : cmd := EXEC [].
Definition pipecmd (left right : cmd) : cmd := PIPE left right.
Definition listcmd (left right : cmd) : cmd := LIST left right.
Definition backcmd (subcmd : cmd) : cmd := BACK subcmd.

(** ** The scanner *)

Definition whitespace : list Z := [32; 9; 13; 10; 11].
Definition symbols : list Z := [60; 124; 62; 38; 59; 40; 41].

Definition is_ws (c : Z) : bool := bool_decide (is_Some (Ulib.strchr whitespace c)).
Definition is_sym (c : Z) : bool := bool_decide (is_Some (Ulib.strchr symbols c)).

(** [while(s < es && strchr(whitespace, *s)) s++]: how far s moves. *)
Fixpoint ws_len (t : list Z) : nat :=
  match t with
  | [] => O
  | c :: t => if is_ws c then S (ws_len t) else O
  end.
(** [while(s < es && !strchr(whitespace, *s) && !strchr(symbols, *s)) s++] *)
Fixpoint word_len (t : list Z) : nat :=
  match t with
  | [] => O
  | c :: t => if is_ws c || is_sym c then O else S (word_len t)
  end.

Definition skip_ws (line : list Z) (s : nat) : nat := (s + ws_len (drop s line))%nat.
Definition char_at (line : list Z) (s : nat) : Z := hd 0 (drop s line).

(** gettoken(): the token, the offsets q and eq, and the new ps. *)
Definition gettoken (line : list Z) (s : nat) : Z * span * nat :=
  let s := skip_ws line s in
  let q := s in
  let c := char_at line s in
  let '(ret, s) :=
    if c =? 0 then (c, s)
    else if bool_decide (c ∈ [124; 40; 41; 59; 38; 60]) then (c, S s)
    else if c =? 62 then
      if char_at line (S s) =? 62 then (43, S (S s)) else (c, S s)
    else (97, (s + word_len (drop s line))%nat) in
  let eq := s in
  (ret, (q, eq), skip_ws line s).

Definition peek (line : list Z) (s : nat) (toks : list Z) : bool * nat :=
  let s := skip_ws line s in
  let c := char_at line s in
  (negb (c =? 0) && bool_decide (is_Some (Ulib.strchr toks c)), s).

(** ** The parser *)

(** A parse gives a result, or an error message for panic(), preceded by the
    leftovers; [PHang] is the end of the fuel. *)
Inductive pres (A : Type) := POk (a : A) | PErr (msg : string) | PHang.
Arguments POk {A} a.
Arguments PErr {A} msg.
Arguments PHang {A}.

#[export] Instance pres_ret : MRet pres := @POk.
#[export] Instance pres_bind : MBind pres := fun A B k m =>
  match m with POk a => k a | PErr s => PErr s | PHang => PHang end.

(** What gettoken() and a file name make of one redirection. *)
Record redir := Redir { rd_file : span; rd_mode : Z; rd_fd : Z }.
Definition redircmd (c : cmd) (r : redir) : cmd := REDIR c (rd_file r) (rd_mode r) (rd_fd r).

(** The loop of parseredirs(): the redirections in order. *)
Fixpoint redirs (k : nat) (line : list Z) (s : nat) : pres (list redir * nat) :=
  match k with
  | O => PHang
  | S k =>
      let '(more, s) := peek line s [60; 62] in
      if negb more then mret ([], s) else
      let '(tok, _, s) := gettoken line s in
      let '(tok2, file, s) := gettoken line s in
      if negb (tok2 =? 97) then PErr "missing file for redirection" else
      let r := if tok =? 60 then Redir file 0 0
               else if tok =? 62 then Redir file (Z.lor (Z.lor 1 0x200) 0x400) 1
               else Redir file (Z.lor 1 0x200) 1 in
      '(rs, s) ← redirs k line s;
      mret (r :: rs, s)
  end.
Definition parseredirs (k : nat) (c : cmd) (line : list Z) (s : nat) : pres (cmd * nat) :=
  '(rs, s) ← redirs k line s;
  mret (foldl redircmd c rs, s).

(** [cmd->argv[argc] = q; cmd->eargv[argc] = eq] in the node of execcmd(). *)
Definition add_arg (c : cmd) (a : span) : cmd := match c with EXEC argv => EXEC (argv ++ [a]) | _ => c end.

(** The loop of parseexec(): the arguments, and the redirections between
    them.  The node of the command is under all of them, and is filled in
    through its own pointer. *)
Fixpoint exec_loop (k : nat) (line : list Z) (argv : list span) (s : nat) : pres (list span * list redir * nat) :=
  match k with
  | O => PHang
  | S k =>
      let '(stop, s) := peek line s [124; 41; 38; 59] in
      if stop then mret (argv, [], s) else
      let '(tok, arg, s) := gettoken line s in
      if tok =? 0 then mret (argv, [], s) else
      if negb (tok =? 97) then PErr "syntax" else
      let argv := argv ++ [arg] in
      if bool_decide (MAXARGS <= length argv)%nat then PErr "too many args" else
      '(rs, s) ← redirs k line s;
      '(argv, rs', s) ← exec_loop k line argv s;
      mret (argv, rs ++ rs', s)
  end.

(** [while(peek(ps, es, "&"))] *)
Fixpoint amps (k : nat) (c : cmd) (line : list Z) (s : nat) : pres (cmd * nat) :=
  match k with
  | O => PHang
  | S k =>
      let '(more, s) := peek line s [38] in
      if negb more then mret (c, s) else
      let '(_, _, s) := gettoken line s in
      amps k (backcmd c) line s
  end.

Fixpoint parseline (k : nat) (line : list Z) (s : nat) {struct k} : pres (cmd * nat) :=
  match k with
  | O => PHang
  | S k =>
      '(c, s) ← parsepipe k line s;
      '(c, s) ← amps k c line s;
      let '(more, s) := peek line s [59] in
      if more then
        let '(_, _, s) := gettoken line s in
        '(c2, s) ← parseline k line s;
        mret (listcmd c c2, s)
      else mret (c, s)
  end
with parsepipe (k : nat) (line : list Z) (s : nat) {struct k} : pres (cmd * nat) :=
  match k with
  | O => PHang
  | S k =>
      '(c, s) ← parseexec k line s;
      let '(more, s) := peek line s [124] in
      if more then
        let '(_, _, s) := gettoken line s in
        '(c2, s) ← parsepipe k line s;
        mret (pipecmd c c2, s)
      else mret (c, s)
  end
with parseexec (k : nat) (line : list Z) (s : nat) {struct k} : pres (cmd * nat) :=
  match k with
  | O => PHang
  | S k =>
      let '(block, s) := peek line s [40] in
      if block then parseblock k line s else
      '(rs, s) ← redirs k line s;
      '(argv, rs', s) ← exec_loop k line [] s;
      mret (foldl redircmd (foldl add_arg execcmd argv) (rs ++ rs'), s)
  end
with parseblock (k : nat) (line : list Z) (s : nat) {struct k} : pres (cmd * nat) :=
  match k with
  | O => PHang
  | S k =>
      let '(open, s) := peek line s [40] in
      if negb open then PErr "parseblock" else
      let '(_, _, s) := gettoken line s in
      '(c, s) ← parseline k line s;
      let '(close, s) := peek line s [41] in
      if negb close then PErr "syntax - missing )" else
      let '(_, _, s) := gettoken line s in
      parseredirs k c line s
  end.

(** [*eq = 0] for every string of the tree. *)
Fixpoint nulterminate (c : cmd) (buf : list Z) : list Z :=
  match c with
  | EXEC argv => foldl (fun buf a => <[snd a := 0]> buf) buf argv
  | REDIR c file _ _ => <[snd file := 0]> (nulterminate c buf)
  | PIPE l r => nulterminate r (nulterminate l buf)
  | LIST l r => nulterminate r (nulterminate l buf)
  | BACK c => nulterminate c buf
  end.

(** Enough rounds for every line: each level of the grammar takes one, and
    between two rounds of the same level a character is consumed. *)
Definition parse_fuel (line : list Z) : nat := (4 * length line + 8)%nat.

(** parsecmd() up to the leftovers: the tree, and where parsing stopped. *)
Definition parse (line : list Z) : pres (cmd * nat) :=
  '(c, s) ← parseline (parse_fuel line) line 0;
  let '(_, s) := peek line s [] in
  mret (c, s).

(** ** Running commands *)

Section Run.
Context {W : Type} {SY : Sys W}.
Import Printf.

Definition panic {A} (s : string) : U W A :=
  fprintf 2 (bytes "%s" ++ [10]) [AStr (Some (bytes s))] ;;
  exit 1.

Definition fork1 : U W Z :=
  pid ← fork;
  if pid =? -1 then panic "fork" else mret pid.

(** buf is the array, with the line and its NUL at the front. *)
Definition parsecmd (buf : list Z) : U W (cmd * list Z) :=
  let line := cstring buf in
  match parse line with
  | POk (c, s) =>
      if bool_decide (s = length line) then mret (c, nulterminate c buf)
      else
        fprintf 2 (bytes "leftovers: %s" ++ [10]) [AStr (Some (drop s line))] ;;
        panic "syntax"
  | PErr msg => panic msg
  | PHang => fun _ => UHang
  end.

(** The string of a span, in the array with its NULs. *)
Definition str_of (buf : list Z) (a : span) : list Z := cstring (drop (fst a) buf).

Definition opt {A} (b : bool) (m : U W A) : U W unit := if b then _ ← m; mret tt else mret tt.

(** runcmd() does not return: it exits, or the process runs another program. *)
Fixpoint runcmd (buf : list Z) (c : cmd) : U W unit :=
  match c with
  | EXEC argv =>
      match argv with
      | [] => exit 1
      | a0 :: _ =>
          _ ← exec (str_of buf a0) (str_of buf <$> argv);
          fprintf 2 (bytes "exec %s failed" ++ [10]) [AStr (Some (str_of buf a0))] ;;
          exit 0
      end
  | REDIR c file mode fd =>
      _ ← close fd;
      r ← open (str_of buf file) mode;
      if r <? 0 then
        fprintf 2 (bytes "open %s failed" ++ [10]) [AStr (Some (str_of buf file))] ;;
        exit 1
      else
        runcmd buf c ;;
        exit 0
  | LIST l r =>
      pid ← fork1;
      opt (pid =? 0) (runcmd buf l) ;;
      _ ← wait;
      runcmd buf r ;;
      exit 0
  | PIPE l r =>
      p ← pipe2;
      let '(e, (p0, p1)) := p in
      if e <? 0 then panic "pipe" else
      pid ← fork1;
      opt (pid =? 0) (_ ← close 1; _ ← dup p1; _ ← close p0; _ ← close p1; runcmd buf l) ;;
      pid ← fork1;
      opt (pid =? 0) (_ ← close 0; _ ← dup p0; _ ← close p0; _ ← close p1; runcmd buf r) ;;
      _ ← close p0;
      _ ← close p1;
      _ ← wait;
      _ ← wait;
      exit 0
  | BACK c =>
      pid ← fork1;
      opt (pid =? 0) (runcmd buf c) ;;
      exit 0
  end.

Definition NBUF_sh : Z := 100.

(** getcmd(): the line read into the zeroed array, or the end of the input. *)
Definition getcmd : U W (list Z * Z) :=
  fprintf 2 (bytes "$ ") [] ;;
  l ← Ulib.gets NBUF_sh;
  let buf := splice (replicate (Z.to_nat NBUF_sh) 0) 0 l in
  mret (buf, if hd 0 buf =? 0 then -1 else 0).

Fixpoint open_console (fuel : nat) : U W unit :=
  match fuel with
  | O => fun _ => UHang
  | S k =>
      fd ← open (bytes "console") 0x002;
      if fd <? 0 then mret tt else
      if 3 <=? fd then _ ← close fd; mret tt else open_console k
  end.

Fixpoint main_loop (fuel : nat) : U W unit :=
  match fuel with
  | O => fun _ => UHang
  | S k =>
      '(buf, r) ← getcmd;
      if r <? 0 then exit 0 else
      if bool_decide (take 3 buf = bytes "cd ") then
        let buf := <[(length (cstring buf) - 1)%nat := 0]> buf in
        let dir := cstring (drop 3 buf) in
        e ← chdir dir;
        (if e <? 0 then fprintf 2 (bytes "cannot cd %s" ++ [10]) [AStr (Some dir)] else mret tt) ;;
        main_loop k
      else
        pid ← fork1;
        (if pid =? 0 then '(c, buf) ← parsecmd buf; runcmd buf c else mret tt) ;;
        _ ← wait;
        main_loop k
  end.

Definition sh_main (fuel : nat) : U W unit := open_console fuel ;; main_loop fuel.

End Run.
