(* ===== verification/ShSpec.v ===== *)
(** * The shell: its parser and the grammar of commands

    Tokens of a line, the commands of the grammar with their trees, and the
    proof that the parser builds, for every line of tokens of a command, the
    tree of that command, whose strings nulterminate() cuts out of the line. *)

From stdpp Require Import base numbers list list_numbers gmap strings.
From Stdlib Require Import ZArith Lia.
From S2P Require Import Prelude.
From S2P Require Import Mem.
From S2P Require Import User.
From S2P Require Import Sh.

Local Open Scope Z_scope.

(** ** Tokens *)

Definition wordchar (c : Z) : bool := negb (c =? 0) && negb (is_ws c || is_sym c).
Definition word (w : list Z) : Prop := w <> [] /\ Forall (fun c => wordchar c = true) w.

(** A symbol, where 43 stands for >>, or a word. *)
Inductive token := TSym (c : Z) | TWord (w : list Z).

Definition strip (t : list Z) : list Z := drop (ws_len t) t.

(** The tokens of a text: words as long as possible, >> before >. *)
Inductive lex : list Z -> list token -> Prop :=
  | lex_nil t : strip t = [] -> lex t []
  | lex_sym t c r ts : strip t = c :: r -> c ∈ [124; 40; 41; 59; 38; 60] -> lex r ts -> lex t (TSym c :: ts)
  | lex_gt t r ts : strip t = 62 :: r -> hd 0 r <> 62 -> lex r ts -> lex t (TSym 62 :: ts)
  | lex_gtgt t r ts : strip t = 62 :: 62 :: r -> lex r ts -> lex t (TSym 43 :: ts)
  | lex_word t w r ts : strip t = w ++ r -> word w -> wordchar (hd 0 r) = false -> 0 ∉ r -> lex r ts -> lex t (TWord w :: ts).

Lemma strip_strip t : strip (strip t) = strip t.
Proof. unfold strip. induction t as [|c t IH]; [done|]. simpl. destruct (is_ws c) eqn:E; [exact IH|]. simpl. by rewrite E. Qed.

Lemma lex_strip t t' ts : strip t = strip t' -> lex t ts -> lex t' ts.
Proof. intros E H. inversion H; subst; rewrite E in *; by econstructor. Qed.

Lemma drop_skip line s : drop (skip_ws line s) line = strip (drop s line).
Proof. unfold skip_ws, strip. by rewrite drop_drop. Qed.

(** The string at a span: a whole word of the line. *)
Definition spanned (line : list Z) (a : span) (w : list Z) : Prop :=
  slice (fst a) (snd a - fst a) line = w /\ word w /\ (fst a <= snd a <= length line)%nat /\ wordchar (char_at line (snd a)) = false.

(** ** The scanner finds the tokens *)

Definition code (t : token) : Z := match t with TSym c => c | TWord _ => 97 end.
(** The character that peek() sees. *)
Definition first (t : token) : Z := match t with TSym c => if c =? 43 then 62 else c | TWord w => hd 0 w end.

Lemma word_len_word w r : Forall (fun c => wordchar c = true) w -> wordchar (hd 0 r) = false -> 0 ∉ r -> word_len (w ++ r) = length w.
Proof.
  intros Hw Hr H0. induction Hw as [|c w Hc Hw IH]; simpl.
  - destruct r as [|c r]; [done|]. simpl in *. unfold wordchar in Hr. apply not_elem_of_cons in H0 as [H0 _].
    rewrite (proj2 (Z.eqb_neq c 0)) in Hr by done. simpl in Hr. by destruct (is_ws c || is_sym c).
  - unfold wordchar in Hc. destruct (is_ws c || is_sym c); [by rewrite andb_false_r in Hc|]. by rewrite IH.
Qed.

Lemma sym_first c : c ∈ [124; 40; 41; 59; 38; 60; 62] -> c <> 0 /\ wordchar c = false /\ is_ws c = false.
Proof. intros H. repeat (apply elem_of_cons in H as [->|H]; [by vm_compute|]). by apply elem_of_nil in H. Qed.

Lemma wordchar_not_sym c : wordchar c = true -> c <> 0 /\ (c ∉ [124; 40; 41; 59; 38; 60]) /\ c <> 62.
Proof.
  intros H. split; [|split].
  - intros ->. by vm_compute in H.
  - intros Hc. assert (Hc' : c ∈ [124; 40; 41; 59; 38; 60; 62]) by set_solver. destruct (sym_first c Hc') as (_ & E & _). congruence.
  - intros ->. by vm_compute in H.
Qed.

Lemma drop_add line s n (t r : list Z) : drop s line = t ++ r -> n = length t -> drop (s + n) line = r.
Proof. intros E ->. by rewrite <- drop_drop, E, drop_app_length. Qed.

Lemma gettoken_ok line s tok ts :
  lex (drop s line) (tok :: ts) ->
  exists a s', gettoken line s = (code tok, a, s') /\ lex (drop s' line) ts /\ (s < s' <= length line)%nat /\
    forall w, tok = TWord w -> spanned line a w.
Proof.
  intros H. unfold gettoken, char_at. pose proof (drop_skip line s) as Hd. assert (Hge : (s <= skip_ws line s)%nat) by (unfold skip_ws; lia).
  set (s1 := skip_ws line s) in *.
  (** What follows once the token is known to be [t], before [r]. *)
  assert (K : forall t r ts, drop s1 line = t ++ r -> t <> [] -> lex r ts ->
    lex (drop (skip_ws line (s1 + length t)) line) ts /\ (s < skip_ws line (s1 + length t) <= length line)%nat).
  { intros t r ts' E Hne Hr. pose proof (drop_add line s1 (length t) t r E eq_refl) as E2. split.
    - rewrite drop_skip, E2. exact (lex_strip r _ _ (eq_sym (strip_strip r)) Hr).
    - apply (f_equal length) in E. rewrite length_drop, length_app in E. assert (length t <> 0%nat) by (by destruct t).
      unfold skip_ws. rewrite E2. assert (ws_len r <= length r)%nat by (clear; induction r as [|c r IH]; simpl; [lia|]; case_match; lia). lia. }
  inversion H as [|? c r ts' E Hc Hr|? r ts' E Hn Hr|? r ts' E Hr|? w r ts' E Hw Hn H0 Hr]; subst; rewrite E in Hd; rewrite Hd; cbn [hd].
  - destruct (sym_first c ltac:(set_solver)) as (N0 & _ & _). rewrite (proj2 (Z.eqb_neq c 0)), bool_decide_true by done.
    destruct (K [c] r ts Hd ltac:(done) Hr) as [K1 K2]. rewrite Nat.add_1_r in K1, K2. eexists _, _. split_and!; [reflexivity|done|lia|lia|done].
  - cbn [Z.eqb]. change (bool_decide (62 ∈ [124; 40; 41; 59; 38; 60])) with false. destruct (K [62] r ts Hd ltac:(done) Hr) as [K1 K2]. simpl in K1, K2. rewrite Nat.add_1_r in K1, K2.
    replace (drop (S s1) line) with r by (rewrite <- Nat.add_1_r, <- drop_drop, Hd; done). rewrite (proj2 (Z.eqb_neq (hd 0 r) 62)) by done.
    eexists _, _. split_and!; [reflexivity|done|lia|lia|done].
  - cbn [Z.eqb]. change (bool_decide (62 ∈ [124; 40; 41; 59; 38; 60])) with false. destruct (K [62; 62] r ts Hd ltac:(done) Hr) as [K1 K2].
    replace (drop (S s1) line) with (62 :: r) by (rewrite <- Nat.add_1_r, <- drop_drop, Hd; done).
    change (length [62; 62]) with 2%nat in K1, K2. replace (s1 + 2)%nat with (S (S s1)) in K1, K2 by lia. eexists _, _. split_and!; [reflexivity|done|lia|lia|done].
  - destruct Hw as [Hne Hw]. destruct w as [|c w]; [done|]. destruct (wordchar_not_sym c ltac:(by apply Forall_cons in Hw as [? _])) as (N0 & N1 & N2). cbn [hd app].
    rewrite (proj2 (Z.eqb_neq c 0)), bool_decide_false, (proj2 (Z.eqb_neq c 62)) by done. change (c :: w ++ r) with ((c :: w) ++ r).
    rewrite word_len_word by done. destruct (K (c :: w) r ts Hd ltac:(done) Hr) as [K1 K2].
    eexists _, _. split_and!; [reflexivity|done|lia|lia|]. intros w' [= <-].
    split_and!; cbn [fst snd]; [|done|lia| |].
    + unfold slice. rewrite Hd. replace (s1 + length (c :: w) - s1)%nat with (length (c :: w)) by lia. apply take_app_length.
    + apply (f_equal length) in Hd. rewrite length_drop, length_app in Hd. simpl in *. lia.
    + unfold char_at. by rewrite (drop_add line s1 (length (c :: w)) (c :: w) r Hd eq_refl).
Qed.

Lemma strchr_in s c : bool_decide (is_Some (Ulib.strchr s c)) = bool_decide (c ∈ s).
Proof.
  apply bool_decide_ext. pose proof (strchr_none s c) as H. destruct (Ulib.strchr s c); split; intros.
  - destruct (decide (c ∈ s)); [done|]. by apply H in n0.
  - by eexists.
  - by destruct H0.
  - by apply H in H0.
Qed.

Lemma lex_first t tok ts : lex t (tok :: ts) -> exists r, strip t = first tok :: r /\ first tok <> 0.
Proof.
  intros H. inversion H as [|? c r ts' E Hc Hr|? r ts' E Hn Hr|? r ts' E Hr|? w r ts' E Hw Hn H0 Hr]; subst; cbn [first].
  - exists r. destruct (sym_first c ltac:(set_solver)) as (N0 & _). destruct (Z.eqb_spec c 43) as [->|]; [|done]. exfalso. repeat (apply elem_of_cons in Hc as [Hc|Hc]; [done|]). by apply elem_of_nil in Hc.
  - by exists r.
  - by exists (62 :: r).
  - destruct Hw as [Hne Hw]. destruct w as [|c w]; [done|]. apply Forall_cons in Hw as [Hc _]. exists (w ++ r). split; [done|]. by apply wordchar_not_sym in Hc as (? & _).
Qed.

Definition sees (toks : list Z) (ts : list token) : bool :=
  match ts with t :: _ => bool_decide (first t ∈ toks) | [] => false end.

Lemma skip_le line s : (s <= length line)%nat -> (s <= skip_ws line s <= length line)%nat.
Proof.
  intros H. unfold skip_ws. assert (G : forall r, (ws_len r <= length r)%nat) by (clear; induction r as [|c r IH]; simpl; [lia|]; case_match; lia).
  specialize (G (drop s line)). rewrite length_drop in G. lia.
Qed.

Lemma peek_ok line s toks ts :
  lex (drop s line) ts -> (s <= length line)%nat ->
  exists s', peek line s toks = (sees toks ts, s') /\ lex (drop s' line) ts /\ (s <= s' <= length line)%nat.
Proof.
  intros H Hs. unfold peek, char_at. exists (skip_ws line s). rewrite drop_skip, strchr_in. split_and!; [|by eapply lex_strip; [|exact H]; rewrite strip_strip|by apply skip_le..].
  f_equal. destruct ts as [|t ts]; cbn [sees].
  - inversion H as [? E| | | |]; subst. by rewrite E.
  - destruct (lex_first _ _ _ H) as (r & -> & Hne). cbn [hd]. by rewrite (proj2 (Z.eqb_neq _ 0) Hne).
Qed.

(** At the end of the tokens. *)
Lemma lex_end line s : lex (drop s line) [] -> (s <= length line)%nat -> skip_ws line s = length line.
Proof.
  intros H Hs. inversion H as [? E| | | |]; subst. pose proof (drop_skip line s) as D. rewrite E in D. apply (f_equal length) in D. rewrite length_drop in D. simpl in D.
  pose proof (skip_le line s Hs). lia.
Qed.

Lemma gettoken_end line s :
  lex (drop s line) [] -> (s <= length line)%nat -> exists a s', gettoken line s = (0, a, s') /\ lex (drop s' line) [] /\ s' = length line.
Proof.
  intros H Hs. pose proof (lex_end line s H Hs) as E. unfold gettoken, char_at. rewrite E, drop_all. cbn [hd Z.eqb].
  eexists _, _. split; [reflexivity|]. unfold skip_ws. rewrite drop_all. simpl. rewrite Nat.add_0_r. split; [rewrite drop_all; by constructor|done].
Qed.

(** ** The grammar *)

(** A redirection: <, > or >> (43), and its file. *)
Definition rsyn := (Z * list Z)%type.

Inductive lsyn :=
  | LEnd (p : psyn) (amps : nat)
  | LSeq (p : psyn) (amps : nat) (l : lsyn)
with psyn :=
  | PEnd (e : esyn)
  | PPipe (e : esyn) (p : psyn)
with esyn :=
  | ESimple (rs : list rsyn) (args : list (list Z * list rsyn))
  | EBlock (l : lsyn) (rs : list rsyn).

Scheme lsyn_mind := Induction for lsyn Sort Prop
  with psyn_mind := Induction for psyn Sort Prop
  with esyn_mind := Induction for esyn Sort Prop.
Combined Scheme syn_mind from lsyn_mind, psyn_mind, esyn_mind.

Definition toks_r (rs : list rsyn) : list token := mjoin ((fun r => [TSym (fst r); TWord (snd r)]) <$> rs).
Definition toks_a (args : list (list Z * list rsyn)) : list token := mjoin ((fun a => TWord (fst a) :: toks_r (snd a)) <$> args).
Definition toks_amp (n : nat) : list token := replicate n (TSym 38).

Fixpoint toks_l (l : lsyn) : list token :=
  match l with
  | LEnd p n => toks_p p ++ toks_amp n
  | LSeq p n l => toks_p p ++ toks_amp n ++ TSym 59 :: toks_l l
  end
with toks_p (p : psyn) : list token :=
  match p with
  | PEnd e => toks_e e
  | PPipe e p => toks_e e ++ TSym 124 :: toks_p p
  end
with toks_e (e : esyn) : list token :=
  match e with
  | ESimple rs args => toks_r rs ++ toks_a args
  | EBlock l rs => TSym 40 :: toks_l l ++ TSym 41 :: toks_r rs
  end.

(** Words are words, and a command has at most MAXARGS - 1 arguments. *)
Definition wf_r (rs : list rsyn) : Prop := Forall (fun r => fst r ∈ [60; 62; 43] /\ word (snd r)) rs.
Fixpoint wf_l (l : lsyn) : Prop :=
  match l with
  | LEnd p _ => wf_p p
  | LSeq p _ l => wf_p p /\ wf_l l
  end
with wf_p (p : psyn) : Prop :=
  match p with
  | PEnd e => wf_e e
  | PPipe e p => wf_e e /\ wf_p p
  end
with wf_e (e : esyn) : Prop :=
  match e with
  | ESimple rs args => wf_r rs /\ Forall (fun a => word (fst a) /\ wf_r (snd a)) args /\ (length args < MAXARGS)%nat
  | EBlock l rs => wf_l l /\ wf_r rs
  end.

(** Commands with their strings. *)
Inductive scmd :=
  | SExec (argv : list (list Z))
  | SRedir (c : scmd) (file : list Z) (mode fd : Z)
  | SPipe (left right : scmd)
  | SList (left right : scmd)
  | SBack (c : scmd).

(** < reads from descriptor 0; > and >> write to descriptor 1, > from the
    start of the file. *)
Definition sredir (c : scmd) (r : rsyn) : scmd :=
  if fst r =? 60 then SRedir c (snd r) 0 0
  else if fst r =? 62 then SRedir c (snd r) (Z.lor (Z.lor 1 0x200) 0x400) 1
  else SRedir c (snd r) (Z.lor 1 0x200) 1.

Fixpoint tree_l (l : lsyn) : scmd :=
  match l with
  | LEnd p n => Nat.iter n SBack (tree_p p)
  | LSeq p n l => SList (Nat.iter n SBack (tree_p p)) (tree_l l)
  end
with tree_p (p : psyn) : scmd :=
  match p with
  | PEnd e => tree_e e
  | PPipe e p => SPipe (tree_e e) (tree_p p)
  end
with tree_e (e : esyn) : scmd :=
  match e with
  | ESimple rs args => foldl sredir (SExec (fst <$> args)) (rs ++ mjoin (snd <$> args))
  | EBlock l rs => foldl sredir (tree_l l) rs
  end.

(** A tree of spans with the strings of a line. *)
Inductive reads (line : list Z) : cmd -> scmd -> Prop :=
  | rd_exec argv ws : Forall2 (spanned line) argv ws -> reads line (EXEC argv) (SExec ws)
  | rd_redir c sc a w mode fd : reads line c sc -> spanned line a w -> reads line (REDIR c a mode fd) (SRedir sc w mode fd)
  | rd_pipe l r sl sr : reads line l sl -> reads line r sr -> reads line (PIPE l r) (SPipe sl sr)
  | rd_list l r sl sr : reads line l sl -> reads line r sr -> reads line (LIST l r) (SList sl sr)
  | rd_back c sc : reads line c sc -> reads line (BACK c) (SBack sc).

(** ** Every line of tokens of a command is parsed into its tree *)

Definition at_toks (line : list Z) (s : nat) (ts : list token) : Prop := lex (drop s line) ts /\ (s <= length line)%nat.

(** The tokens that may follow: none, or a symbol of [cs]. *)
Definition follow (cs : list Z) (ts : list token) : Prop :=
  match ts with [] => True | TSym c :: _ => c ∈ cs | TWord _ :: _ => False end.

Lemma get_ok line s tok ts :
  at_toks line s (tok :: ts) ->
  exists a s', gettoken line s = (code tok, a, s') /\ at_toks line s' ts /\ forall w, tok = TWord w -> spanned line a w.
Proof. intros [H Hs]. destruct (gettoken_ok _ _ _ _ H) as (a & s' & E & H' & ? & Ha). exists a, s'. by split_and!; [|split; [|lia]|]. Qed.

Lemma look_ok line s toks ts : at_toks line s ts -> exists s', peek line s toks = (sees toks ts, s') /\ at_toks line s' ts.
Proof. intros [H Hs]. destruct (peek_ok _ _ toks _ H Hs) as (s' & E & H' & ?). exists s'. split; [done|]. split; [done|lia]. Qed.

Lemma stop_ok line s : at_toks line s [] -> exists a s', gettoken line s = (0, a, s') /\ at_toks line s' [].
Proof. intros [H Hs]. destruct (gettoken_end _ _ H Hs) as (a & s' & E & H' & ->). exists a, (length line). by split_and!. Qed.

(** Symbols that are not looked for are not seen. *)
Lemma follow_unseen cs toks ts : follow cs ts -> (43 ∉ cs) -> (forall c, c ∈ cs -> c ∉ toks) -> sees toks ts = false.
Proof.
  destruct ts as [|[c|w] ts]; [done| |done]. cbn [follow sees first]. intros Hc H43 H. destruct (Z.eqb_spec c 43) as [->|]; [done|].
  apply bool_decide_false, H, Hc.
Qed.
Lemma follow_seen cs toks t ts : follow cs (t :: ts) -> (43 ∉ cs) -> (forall c, c ∈ cs -> c ∈ toks) -> sees toks (t :: ts) = true.
Proof.
  destruct t as [c|w]; [|done]. cbn [follow sees first]. intros Hc H43 H. destruct (Z.eqb_spec c 43) as [->|]; [done|].
  apply bool_decide_true, H, Hc.
Qed.
Lemma follow_weaken cs cs' ts : follow cs ts -> (forall c, c ∈ cs -> c ∈ cs') -> follow cs' ts.
Proof. destruct ts as [|[c|w] ts]; [done| |done]. cbn [follow]. auto. Qed.

Lemma word_unseen toks w ts : word w -> (forall c, c ∈ toks -> c ∈ [124; 40; 41; 59; 38; 60; 62]) -> sees toks (TWord w :: ts) = false.
Proof.
  intros [Hne Hw] H. destruct w as [|c w]; [done|]. apply Forall_cons in Hw as [Hc _]. cbn [sees first hd].
  apply bool_decide_false. intros Hin. destruct (sym_first c (H c Hin)) as (_ & E & _). congruence.
Qed.

Ltac syms := let c := fresh in let H := fresh in intros c H; repeat (apply elem_of_cons in H as [->|H]; [by apply (bool_decide_unpack _); vm_compute|]); by apply elem_of_nil in H.
Ltac nosym := cbn [follow toks_amp replicate app]; by apply (bool_decide_unpack _); vm_compute.

(** A redirection of the parser is one of the grammar. *)
Definition rmatch (line : list Z) (rd : redir) (r : rsyn) : Prop :=
  spanned line (rd_file rd) (snd r) /\
  rd = if fst r =? 60 then Redir (rd_file rd) 0 0
       else if fst r =? 62 then Redir (rd_file rd) (Z.lor (Z.lor 1 0x200) 0x400) 1
       else Redir (rd_file rd) (Z.lor 1 0x200) 1.

Lemma reads_redirs line rds rs : Forall2 (rmatch line) rds rs -> forall c sc, reads line c sc -> reads line (foldl redircmd c rds) (foldl sredir sc rs).
Proof.
  induction 1 as [|rd r rds rs [Hs E] _ IH]; intros c sc Hc; [done|]. cbn [foldl]. apply IH. rewrite E. unfold sredir, redircmd.
  destruct (fst r =? 60); [|destruct (fst r =? 62)]; by constructor.
Qed.

Lemma toks_r_cons c w rs ts : toks_r ((c, w) :: rs) ++ ts = TSym c :: TWord w :: toks_r rs ++ ts.
Proof. done. Qed.
Lemma toks_a_cons w rs args ts : toks_a ((w, rs) :: args) ++ ts = TWord w :: toks_r rs ++ toks_a args ++ ts.
Proof. change (toks_a ((w, rs) :: args)) with (TWord w :: toks_r rs ++ toks_a args). cbn [app]. by rewrite <- app_assoc. Qed.

Lemma redirs_ok line rs : forall k s ts,
  wf_r rs -> at_toks line s (toks_r rs ++ ts) -> sees [60; 62] ts = false -> (length rs < k)%nat ->
  exists rds s', redirs k line s = POk (rds, s') /\ at_toks line s' ts /\ Forall2 (rmatch line) rds rs.
Proof.
  induction rs as [|[c w] rs IH]; intros k s ts Hwf H Hno Hk; (destruct k as [|k]; [simpl in Hk; lia|]); cbn [redirs].
  - destruct (look_ok line s [60; 62] ts H) as (s' & -> & H'). rewrite Hno. cbn [negb]. exists [], s'. by split_and!; [|done|constructor].
  - apply Forall_cons in Hwf as [[Hc Hw] Hwf]. cbn [fst snd] in *. rewrite toks_r_cons in H. destruct (look_ok line s [60; 62] _ H) as (s1 & -> & H1).
    replace (sees [60; 62] (TSym c :: TWord w :: toks_r rs ++ ts)) with true
      by (symmetry; revert Hc; clear; intros Hc; repeat (apply elem_of_cons in Hc as [->|Hc]; [done|]); by apply elem_of_nil in Hc).
    cbn [negb]. destruct (get_ok line s1 (TSym c) _ H1) as (a & s2 & -> & H2 & _).
    destruct (get_ok line s2 (TWord w) _ H2) as (b & s3 & -> & H3 & Hb). cbn [code Z.eqb negb Pos.eqb].
    destruct (IH k s3 ts Hwf H3 Hno ltac:(simpl in Hk; lia)) as (rds & s' & -> & H' & Hr). eexists _, s'. split_and!; [reflexivity|done|].
    constructor; [|done]. split; cbn [fst snd]; [destruct (c =? 60); [|destruct (c =? 62)]; by apply Hb|].
    by destruct (c =? 60); [|destruct (c =? 62)].
Qed.

Lemma toks_r_length rs : length (toks_r rs) = (2 * length rs)%nat.
Proof. induction rs as [|[c w] rs IH]; [done|]. rewrite <- (app_nil_r (toks_r _)), toks_r_cons, app_nil_r. simpl. lia. Qed.

(** What may stand after a simple command. *)
Abbreviation follow_e := (follow [124; 41; 38; 59]).

Lemma args_unseen args ts : Forall (fun a => word (fst a) /\ wf_r (snd a)) args -> follow_e ts -> sees [60; 62] (toks_a args ++ ts) = false.
Proof.
  intros Ha Hf. destruct args as [|[w rs] args].
  - apply (follow_unseen _ _ _ Hf); [nosym|syms].
  - apply Forall_cons in Ha as [[Hw _] _]. rewrite toks_a_cons. apply word_unseen; [done|syms].
Qed.

Lemma exec_loop_ok line args : forall k s ts argv ws,
  Forall (fun a => word (fst a) /\ wf_r (snd a)) args -> at_toks line s (toks_a args ++ ts) -> follow_e ts ->
  (length (toks_a args) < k)%nat -> (length argv + length args < MAXARGS)%nat -> Forall2 (spanned line) argv ws ->
  exists argv' rds s', exec_loop k line argv s = POk (argv', rds, s') /\ at_toks line s' ts /\
    Forall2 (spanned line) argv' (ws ++ (fst <$> args)) /\ Forall2 (rmatch line) rds (mjoin (snd <$> args)).
Proof.
  induction args as [|[w rs] args IH]; intros k s ts argv ws Hwf H Hf Hk Hn Hws; (destruct k as [|k]; [lia|]); cbn [exec_loop].
  - change (toks_a [] ++ ts) with ts in H. destruct (look_ok line s [124; 41; 38; 59] ts H) as (s1 & -> & H1). cbn [fmap list_fmap mjoin list_join]. rewrite app_nil_r.
    destruct ts as [|t ts].
    + cbn [sees]. destruct (stop_ok line s1 H1) as (a & s2 & -> & H2). cbn [Z.eqb]. exists argv, [], s2. by split_and!; [| | |constructor].
    + rewrite (follow_seen _ _ _ _ Hf) by (nosym || done). exists argv, [], s1. by split_and!; [| | |constructor].
  - pose proof Hwf as Hall. apply Forall_cons in Hwf as [[Hw Hr] Hwf]. cbn [fst snd] in Hw, Hr. rewrite toks_a_cons in H.
    destruct (look_ok line s [124; 41; 38; 59] _ H) as (s1 & -> & H1). rewrite word_unseen by (done || syms).
    destruct (get_ok line s1 _ _ H1) as (a & s2 & -> & H2 & Ha). cbn [code Z.eqb Pos.eqb negb].
    rewrite bool_decide_false by (rewrite length_app; simpl in *; lia).
    rewrite <- (app_nil_r (toks_a _)), toks_a_cons, app_nil_r in Hk. cbn [length] in Hk. rewrite length_app, toks_r_length in Hk.
    destruct (redirs_ok line rs k s2 (toks_a args ++ ts) Hr H2 (args_unseen _ _ Hwf Hf) ltac:(lia)) as (rds & s3 & -> & H3 & Hrd).
    destruct (IH k s3 ts (argv ++ [a]) (ws ++ [w]) Hwf H3 Hf ltac:(lia) ltac:(rewrite length_app; simpl in *; lia)
      ltac:(by apply Forall2_app; [|constructor; [apply Ha|]])) as (argv' & rds' & s' & E & H' & Hv & Hd).
    cbn [mbind pres_bind]. rewrite E. exists argv', (rds ++ rds'), s'. split_and!; [done|done| |].
    + by rewrite <- app_assoc in Hv.
    + by apply Forall2_app.
Qed.

Lemma amps_ok line n : forall k s ts c sc,
  at_toks line s (toks_amp n ++ ts) -> sees [38] ts = false -> (n < k)%nat -> reads line c sc ->
  exists c' s', amps k c line s = POk (c', s') /\ at_toks line s' ts /\ reads line c' (Nat.iter n SBack sc).
Proof.
  induction n as [|n IH]; intros k s ts c sc H Hno Hk Hc; (destruct k as [|k]; [lia|]); cbn [amps].
  - destruct (look_ok line s [38] ts H) as (s1 & -> & H1). rewrite Hno. by exists c, s1.
  - cbn [toks_amp replicate app] in H. destruct (look_ok line s [38] _ H) as (s1 & -> & H1). cbn [sees first Z.eqb Pos.eqb].
    change (bool_decide (38 ∈ [38])) with true. cbn [negb]. destruct (get_ok line s1 _ _ H1) as (a & s2 & -> & H2 & _).
    rewrite Nat.iter_succ_r. by apply (IH k s2 ts (BACK c) (SBack sc)); [| |lia|constructor].
Qed.

(** A parsing function reads the tokens [tk] before a symbol of [fol]. *)
Definition parses (p : nat -> list Z -> nat -> pres (cmd * nat)) (slack : nat) (fol : list Z) (tk : list token) (t : scmd) : Prop :=
  forall k line s ts, at_toks line s (tk ++ ts) -> follow fol ts -> (4 * length tk + slack <= k)%nat ->
  exists c s', p k line s = POk (c, s') /\ at_toks line s' ts /\ reads line c t.

Lemma exec_node argv : foldl add_arg execcmd argv = EXEC argv.
Proof. induction argv as [|a argv IH] using rev_ind; [done|]. by rewrite foldl_app, IH. Qed.

Lemma parse_simple rs args :
  wf_e (ESimple rs args) -> parses parseexec 2 [124; 41; 38; 59] (toks_e (ESimple rs args)) (tree_e (ESimple rs args)).
Proof.
  intros (Hr & Ha & Hn) k line s ts H Hf Hk. cbn [toks_e tree_e] in *. rewrite length_app, toks_r_length in Hk. rewrite <- app_assoc in H.
  destruct k as [|k]; [lia|]. cbn [parseexec]. destruct (look_ok line s [40] _ H) as (s1 & -> & H1).
  replace (sees [40] (toks_r rs ++ toks_a args ++ ts)) with false.
  2: { symmetry. destruct rs as [|[c w] rs].
    - change (toks_r [] ++ toks_a args ++ ts) with (toks_a args ++ ts). destruct args as [|[w rs] args].
      + apply (follow_unseen _ _ _ Hf); [nosym|syms].
      + apply Forall_cons in Ha as [[Hw _] _]. rewrite toks_a_cons. apply word_unseen; [done|syms].
    - apply Forall_cons in Hr as [[Hc _] _]. cbn [fst] in Hc. rewrite toks_r_cons.
      repeat (apply elem_of_cons in Hc as [->|Hc]; [done|]). by apply elem_of_nil in Hc. }
  destruct (redirs_ok line rs k s1 (toks_a args ++ ts) Hr H1 (args_unseen _ _ Ha Hf) ltac:(lia)) as (rds & s2 & -> & H2 & Hrd).
  destruct (exec_loop_ok line args k s2 ts [] [] Ha H2 Hf ltac:(lia) ltac:(simpl; lia) ltac:(constructor)) as (argv & rds' & s' & E & H' & Hv & Hd).
  cbn [mbind pres_bind]. rewrite E. eexists _, s'. split_and!; [reflexivity|done|]. rewrite exec_node. apply reads_redirs; [by apply Forall2_app|by constructor].
Qed.

Lemma parse_block l rs :
  parses parseline 4 [41] (toks_l l) (tree_l l) -> wf_r rs ->
  parses parseexec 2 [124; 41; 38; 59] (toks_e (EBlock l rs)) (tree_e (EBlock l rs)).
Proof.
  intros IH Hr k line s ts H Hf Hk. cbn [toks_e tree_e app] in *. rewrite <- app_assoc in H. cbn [app] in H.
  simpl in Hk. rewrite length_app in Hk. cbn [length] in Hk. rewrite toks_r_length in Hk.
  destruct k as [|[|k]]; [lia..|]. cbn [parseexec]. destruct (look_ok line s [40] _ H) as (s1 & -> & H1).
  change (sees [40] (TSym 40 :: toks_l l ++ TSym 41 :: toks_r rs ++ ts)) with true. cbn iota. cbn [parseblock].
  destruct (look_ok line s1 [40] _ H1) as (s2 & -> & H2). change (sees [40] (TSym 40 :: toks_l l ++ TSym 41 :: toks_r rs ++ ts)) with true. cbn [negb].
  destruct (get_ok line s2 _ _ H2) as (a & s3 & -> & H3 & _).
  destruct (IH k line s3 (TSym 41 :: toks_r rs ++ ts) H3 ltac:(nosym) ltac:(lia)) as (c & s4 & -> & H4 & Hc). cbn [mbind pres_bind].
  destruct (look_ok line s4 [41] _ H4) as (s5 & -> & H5). change (sees [41] (TSym 41 :: toks_r rs ++ ts)) with true. cbn [negb].
  destruct (get_ok line s5 _ _ H5) as (b & s6 & -> & H6 & _). unfold parseredirs.
  destruct (redirs_ok line rs k s6 ts Hr H6) as (rds & s' & E & H' & Hrd); [by apply (follow_unseen _ _ _ Hf); [nosym|syms]|lia|].
  rewrite E. eexists _, s'. split_and!; [reflexivity|done|]. by apply reads_redirs.
Qed.

Lemma parse_pipe e q :
  parses parseexec 2 [124; 41; 38; 59] (toks_e e) (tree_e e) -> parses parsepipe 3 [41; 38; 59] (toks_p q) (tree_p q) ->
  parses parsepipe 3 [41; 38; 59] (toks_p (PPipe e q)) (tree_p (PPipe e q)).
Proof.
  intros IHe IHq k line s ts H Hf Hk. cbn [toks_p tree_p app] in *. rewrite <- app_assoc in H. cbn [app] in H. rewrite length_app in Hk. simpl in Hk.
  destruct k as [|k]; [lia|]. cbn [parsepipe]. destruct (IHe k line s (TSym 124 :: toks_p q ++ ts) H ltac:(nosym) ltac:(lia)) as (c & s1 & -> & H1 & Hc).
  cbn [mbind pres_bind]. destruct (look_ok line s1 [124] _ H1) as (s2 & -> & H2). change (sees [124] (TSym 124 :: toks_p q ++ ts)) with true. cbn iota.
  destruct (get_ok line s2 _ _ H2) as (a & s3 & -> & H3 & _). destruct (IHq k line s3 ts H3 Hf ltac:(lia)) as (c2 & s' & E & H' & Hc2).
  rewrite E. eexists _, s'. by split_and!; [| |constructor].
Qed.

Lemma parse_pipe_end e :
  parses parseexec 2 [124; 41; 38; 59] (toks_e e) (tree_e e) -> parses parsepipe 3 [41; 38; 59] (toks_e e) (tree_e e).
Proof.
  intros IHe k line s ts H Hf Hk. destruct k as [|k]; [lia|]. cbn [parsepipe].
  destruct (IHe k line s ts H (follow_weaken _ [124; 41; 38; 59] _ Hf ltac:(syms)) ltac:(lia)) as (c & s1 & -> & H1 & Hc).
  cbn [mbind pres_bind]. destruct (look_ok line s1 [124] _ H1) as (s2 & -> & H2).
  rewrite (follow_unseen _ _ _ Hf) by (nosym || syms). eexists _, s2. by split_and!.
Qed.

(** A pipeline and the ampersands after it. *)
Lemma parse_back q n k line s ts :
  parses parsepipe 3 [41; 38; 59] (toks_p q) (tree_p q) -> at_toks line s (toks_p q ++ toks_amp n ++ ts) -> follow [41; 59] ts ->
  (4 * length (toks_p q) + 4 * n + 3 <= k)%nat ->
  exists c s1 c' s', parsepipe k line s = POk (c, s1) /\ amps k c line s1 = POk (c', s') /\ at_toks line s' ts /\ reads line c' (Nat.iter n SBack (tree_p q)).
Proof.
  intros IHq H Hf Hk. destruct (IHq k line s _ H) as (c & s1 & E & H1 & Hc); [|lia|].
  - destruct n; [exact (follow_weaken _ [41; 38; 59] _ Hf ltac:(syms))|nosym].
  - destruct (amps_ok line n k s1 ts c (tree_p q) H1) as (c' & s' & E' & H' & Hc'); [by apply (follow_unseen _ _ _ Hf); [nosym|syms]|lia|exact Hc|].
    by exists c, s1, c', s'.
Qed.

Lemma parse_line_end q n :
  parses parsepipe 3 [41; 38; 59] (toks_p q) (tree_p q) -> parses parseline 4 [41] (toks_l (LEnd q n)) (tree_l (LEnd q n)).
Proof.
  intros IHq k line s ts H Hf Hk. cbn [toks_l tree_l] in *. rewrite <- app_assoc in H. rewrite length_app in Hk. unfold toks_amp in Hk. rewrite length_replicate in Hk.
  destruct k as [|k]; [lia|]. cbn [parseline].
  destruct (parse_back q n k line s ts IHq H (follow_weaken _ [41; 59] _ Hf ltac:(syms)) ltac:(lia)) as (c & s1 & c' & s2 & -> & E & H2 & Hc).
  cbn [mbind pres_bind]. rewrite E. cbn [mbind pres_bind]. destruct (look_ok line s2 [59] _ H2) as (s3 & -> & H3).
  rewrite (follow_unseen _ _ _ Hf) by (nosym || syms). eexists _, s3. by split_and!.
Qed.

Lemma parse_line_seq q n l :
  parses parsepipe 3 [41; 38; 59] (toks_p q) (tree_p q) -> parses parseline 4 [41] (toks_l l) (tree_l l) ->
  parses parseline 4 [41] (toks_l (LSeq q n l)) (tree_l (LSeq q n l)).
Proof.
  intros IHq IHl k line s ts H Hf Hk. cbn [toks_l tree_l] in *. rewrite <- !app_assoc in H. cbn [app] in H.
  rewrite !length_app in Hk. unfold toks_amp in Hk. rewrite length_replicate in Hk. simpl in Hk. destruct k as [|k]; [lia|]. cbn [parseline].
  destruct (parse_back q n k line s (TSym 59 :: toks_l l ++ ts) IHq H ltac:(nosym) ltac:(lia)) as (c & s1 & c' & s2 & -> & E & H2 & Hc).
  cbn [mbind pres_bind]. rewrite E. cbn [mbind pres_bind]. destruct (look_ok line s2 [59] _ H2) as (s3 & -> & H3). change (sees [59] (TSym 59 :: toks_l l ++ ts)) with true. cbn iota.
  destruct (get_ok line s3 _ _ H3) as (a & s4 & -> & H4 & _). destruct (IHl k line s4 ts H4 Hf ltac:(lia)) as (c2 & s' & E' & H' & Hc2).
  rewrite E'. eexists _, s'. by split_and!; [| |constructor].
Qed.

Lemma parses_all :
  (forall l, wf_l l -> parses parseline 4 [41] (toks_l l) (tree_l l)) /\
  (forall q, wf_p q -> parses parsepipe 3 [41; 38; 59] (toks_p q) (tree_p q)) /\
  (forall e, wf_e e -> parses parseexec 2 [124; 41; 38; 59] (toks_e e) (tree_e e)).
Proof.
  apply syn_mind.
  - intros q IH n Hq. by apply parse_line_end, IH.
  - intros q IHq n l IHl [Hq Hl]. by apply parse_line_seq; [apply IHq|apply IHl].
  - intros e IH He. by apply parse_pipe_end, IH.
  - intros e IHe q IHq [He Hq]. by apply parse_pipe; [apply IHe|apply IHq].
  - intros rs args. apply parse_simple.
  - intros l IH rs [Hl Hr]. by apply parse_block; [apply IH|].
Qed.

Lemma lex_length t ts : lex t ts -> (length ts <= length t)%nat.
Proof.
  assert (G : forall t, (length (strip t) <= length t)%nat) by (intros u; unfold strip; rewrite length_drop; lia).
  induction 1 as [|t c r ts E Hc _ IH|t r ts E Hn _ IH|t r ts E _ IH|t w r ts E [Hne _] Hn H0 _ IH]; simpl; [lia|..];
    specialize (G t); rewrite E in G; simpl in G; rewrite ?length_app in G; try lia. destruct w; [done|]. simpl in G. lia.
Qed.

Lemma parse_complete line l :
  lex line (toks_l l) -> wf_l l -> exists c, parse line = POk (c, length line) /\ reads line c (tree_l l).
Proof.
  intros H Hwf. pose proof (lex_length _ _ H) as Hlen. unfold parse.
  destruct (proj1 parses_all l Hwf (parse_fuel line) line 0%nat [] ltac:(rewrite app_nil_r; split; [by rewrite drop_0|lia]) I ltac:(unfold parse_fuel; lia))
    as (c & s & -> & [Hs Hle] & Hc). cbn [mbind pres_bind]. unfold peek. rewrite (lex_end line s Hs Hle). by exists c.
Qed.

(** ** Every line is parsed or refused, and only commands are parsed *)

Definition tok_ok (t : token) : Prop :=
  match t with TSym c => c ∈ [124; 40; 41; 59; 38; 60; 62; 43] | TWord w => word w end.

Lemma lex_tok_ok t ts : lex t ts -> Forall tok_ok ts.
Proof. induction 1; constructor; try done; cbn [tok_ok]; try nosym. set_solver. Qed.

Lemma strip_head t c r : strip t = c :: r -> is_ws c = false.
Proof.
  unfold strip. induction t as [|d t IH]; [done|]. simpl. destruct (is_ws d) eqn:E; [exact IH|]. by intros [= <- _].
Qed.

Lemma word_split r : 0 ∉ r -> exists w r', r = w ++ r' /\ Forall (fun c => wordchar c = true) w /\ wordchar (hd 0 r') = false.
Proof.
  induction r as [|c r IH]; intros H; [by exists [], []|]. apply not_elem_of_cons in H as [Hc H]. destruct (wordchar c) eqn:E.
  - destruct (IH H) as (w & r' & -> & Hw & Hr). exists (c :: w), r'. by split_and!; [|constructor|].
  - by exists [], (c :: r).
Qed.

Lemma lex_total t : 0 ∉ t -> exists ts, lex t ts.
Proof.
  remember (length t) as n eqn:Hn. revert t Hn. induction (lt_wf n) as [n _ IH]. intros t Hn H0.
  assert (Hsub : forall c, c ∈ strip t -> c ∈ t) by (intros c Hc; rewrite <- (take_drop (ws_len t) t); apply elem_of_app; by right).
  assert (Hle : (length (strip t) <= length t)%nat) by (unfold strip; rewrite length_drop; lia).
  destruct (strip t) as [|c r] eqn:E; [exists []; by constructor|].
  assert (Hr0 : forall r', r' `suffix_of` r -> 0 ∉ r') by (intros r' [k ->] Hin; apply H0, Hsub; set_solver).
  assert (Hrec : forall r', r' `suffix_of` r -> exists ts, lex r' ts).
  { intros r' Hs. pose proof (suffix_length _ _ Hs). apply (IH (length r')); [simpl in Hle; lia|done|auto]. }
  destruct (decide (c ∈ [124; 40; 41; 59; 38; 60])) as [Hc|Hc].
  { destruct (Hrec r ltac:(done)) as [ts Hts]. exists (TSym c :: ts). by econstructor. }
  destruct (decide (c = 62)) as [->|Hc62].
  { destruct (decide (hd 0 r = 62)) as [H62|H62].
    - destruct r as [|c r]; [done|]. simpl in H62. subst c. destruct (Hrec r ltac:(by exists [62])) as [ts Hts]. exists (TSym 43 :: ts). by econstructor.
    - destruct (Hrec r ltac:(done)) as [ts Hts]. exists (TSym 62 :: ts). by econstructor. }
  assert (Hws : is_ws c = false) by exact (strip_head t c r E).
  assert (Hc0 : c <> 0) by (intros ->; apply H0, Hsub; set_solver).
  assert (Hsy : is_sym c = false) by (unfold is_sym; rewrite strchr_in; apply bool_decide_false; set_solver).
  assert (Hwc : wordchar c = true) by (unfold wordchar; rewrite Hws, Hsy, (proj2 (Z.eqb_neq c 0) Hc0); done).
  destruct (word_split r (Hr0 r ltac:(done))) as (w & r' & -> & Hw & Hr'). destruct (Hrec r' ltac:(by exists w)) as [ts Hts].
  exists (TWord (c :: w) :: ts). apply (lex_word t (c :: w) r'); [done|split; [done|by constructor]|done|apply Hr0; by exists w|done].
Qed.

Lemma at_tok_ok line s ts : at_toks line s ts -> Forall tok_ok ts.
Proof. intros [H _]. by eapply lex_tok_ok. Qed.

(** A run gives an error, or a result as [P] says. *)
Definition settles {A} (r : pres A) (P : A -> Prop) : Prop :=
  match r with POk a => P a | PErr _ => True | PHang => False end.

Lemma settles_bind {A B} (m : pres A) (f : A -> pres B) P Q :
  settles m P -> (forall a, P a -> settles (f a) Q) -> settles (mbind f m) Q.
Proof. destruct m; simpl; auto. Qed.

Lemma sees_sym toks t ts :
  sees toks (t :: ts) = true -> (forall c, c ∈ toks -> c ∈ [124; 40; 41; 59; 38; 60; 62]) -> tok_ok t ->
  exists c, t = TSym c /\ (if c =? 43 then 62 else c) ∈ toks.
Proof.
  intros H Ht Hok. destruct t as [c|w].
  - exists c. split; [done|]. by apply bool_decide_eq_true in H.
  - by rewrite word_unseen in H.
Qed.

(** Any token, or the end of the tokens. *)
Lemma get_any line s ts :
  at_toks line s ts -> exists tok a s', gettoken line s = (tok, a, s') /\
    match ts with
    | [] => tok = 0 /\ at_toks line s' []
    | t :: ts => tok = code t /\ at_toks line s' ts /\ forall w, t = TWord w -> spanned line a w
    end.
Proof.
  intros H. destruct ts as [|t ts].
  - destruct (stop_ok _ _ H) as (a & s' & E & H'). by exists 0, a, s'.
  - destruct (get_ok _ _ _ _ H) as (a & s' & E & H' & Ha). by exists (code t), a, s'.
Qed.

Lemma code_word t : tok_ok t -> code t = 97 -> exists w, t = TWord w /\ word w.
Proof.
  destruct t as [c|w]; cbn [code tok_ok]; [|by exists w]. intros H ->.
  repeat (apply elem_of_cons in H as [H|H]; [done|]). by apply elem_of_nil in H.
Qed.

Lemma code_nonzero t : tok_ok t -> code t <> 0.
Proof.
  destruct t as [c|w]; cbn [code tok_ok]; [|done]. intros H ->.
  repeat (apply elem_of_cons in H as [H|H]; [done|]). by apply elem_of_nil in H.
Qed.

Lemma redirs_sound line : forall k s ts, at_toks line s ts -> (length ts < k)%nat ->
  settles (redirs k line s) (fun '(rds, s') => exists rs ts', ts = toks_r rs ++ ts' /\ wf_r rs /\ at_toks line s' ts' /\ Forall2 (rmatch line) rds rs).
Proof.
  induction k as [|k IH]; intros s ts H Hk; [lia|]. cbn [redirs]. destruct (look_ok line s [60; 62] ts H) as (s1 & -> & H1).
  destruct (sees [60; 62] ts) eqn:Es; cbn [negb]; [|by exists [], ts; split_and!; [|constructor| |constructor]].
  destruct ts as [|t ts]; [done|]. pose proof (at_tok_ok _ _ _ H) as Hok. apply Forall_cons in Hok as [Ht Hok].
  destruct (sees_sym _ _ _ Es ltac:(syms) Ht) as (c & -> & Hc). destruct (get_ok _ _ _ _ H1) as (a & s2 & -> & H2 & _). cbn [code].
  destruct (get_any _ _ _ H2) as (tok & b & s3 & -> & H3). destruct ts as [|t ts]; [by destruct H3 as [-> _]|]. destruct H3 as (-> & H3 & Hb).
  destruct (Z.eqb_spec (code t) 97) as [Ec|]; cbn [negb]; [|done].
  apply Forall_cons in Hok as [Hw Hok]. destruct (code_word t Hw Ec) as (w & -> & Hword).
  eapply settles_bind; [by apply (IH s3 ts); [|simpl in Hk; lia]|]. intros [rds s'] (rs & ts' & -> & Hwf & H' & Hr).
  exists ((c, w) :: rs), ts'. split_and!; [by rewrite toks_r_cons| |done|].
  - constructor; [|done]. split; [|done]. cbn [fst]. destruct (Z.eqb_spec c 43) as [->|]; [nosym|]. set_solver.
  - constructor; [|done]. specialize (Hb w eq_refl). split; cbn [fst snd]; [by destruct (c =? 60); [|destruct (c =? 62)]|].
    by destruct (c =? 60); [|destruct (c =? 62)].
Qed.

(** Arguments and redirections at the front of the tokens, after [argv]. *)
Definition args_read line ts (argv : list span) ws : list span * list redir * nat -> Prop := fun '(argv', rds, s') =>
  exists args ts', ts = toks_a args ++ ts' /\
    Forall (fun a => word (fst a) /\ wf_r (snd a)) args /\ (length argv + length args < MAXARGS)%nat /\ at_toks line s' ts' /\
    Forall2 (spanned line) argv' (ws ++ (fst <$> args)) /\ Forall2 (rmatch line) rds (mjoin (snd <$> args)).

Lemma exec_loop_sound line : forall k s ts argv ws,
  at_toks line s ts -> (length ts < k)%nat -> Forall2 (spanned line) argv ws -> (length argv < MAXARGS)%nat ->
  settles (exec_loop k line argv s) (args_read line ts argv ws).
Proof.
  induction k as [|k IH]; intros s ts argv ws H Hk Hws Hn; [lia|]. cbn [exec_loop]. destruct (look_ok line s [124; 41; 38; 59] ts H) as (s1 & -> & H1).
  assert (Hend : forall s', at_toks line s' ts -> settles (mret (argv, [], s')) (args_read line ts argv ws)).
  { intros s' H'. exists [], ts. cbn [fmap list_fmap mjoin list_join length]. rewrite app_nil_r. split_and!; try done; try lia; constructor. }
  destruct (sees _ ts); [by apply Hend|]. destruct (get_any _ _ _ H1) as (tok & a & s2 & -> & H2).
  destruct ts as [|t ts]; [destruct H2 as [-> H2]; by apply Hend|]. destruct H2 as (-> & H2 & Ha).
  pose proof (at_tok_ok _ _ _ H) as Hok. apply Forall_cons in Hok as [Ht Hok].
  destruct (Z.eqb_spec (code t) 0) as [E0|]; [exfalso; exact (code_nonzero t Ht E0)|]. destruct (Z.eqb_spec (code t) 97) as [Ec|]; cbn [negb]; [|done].
  destruct (code_word t Ht Ec) as (w & -> & Hword). case_bool_decide as Hmax; [done|].
  eapply settles_bind; [apply (redirs_sound line k s2 ts H2); simpl in Hk; lia|]. intros [rds s3] (rs & ts' & -> & Hwf & H3 & Hr).
  eapply settles_bind; [apply (IH s3 ts' (argv ++ [a]) (ws ++ [w]) H3)|].
  - simpl in Hk. rewrite length_app in Hk. lia.
  - by apply Forall2_app; [|constructor; [apply Ha|]].
  - lia.
  - intros [[argv' rds'] s'] (args & ts'' & -> & Hargs & Hlen & H' & Hv & Hd). exists ((w, rs) :: args), ts''. split_and!; [by rewrite toks_a_cons|by constructor| |done| |].
    + rewrite length_app in Hlen. simpl in *. lia.
    + by rewrite <- app_assoc in Hv.
    + by apply Forall2_app.
Qed.

Lemma sees_one c t ts : sees [c] (t :: ts) = true -> tok_ok t -> c ∈ [124; 40; 41; 59; 38] -> t = TSym c.
Proof.
  intros H Hok Hc. destruct (sees_sym [c] t ts H) as (d & -> & Hd); [|done|].
  - intros e He. apply list_elem_of_singleton in He as ->. set_solver.
  - apply list_elem_of_singleton in Hd. destruct (Z.eqb_spec d 43) as [->|]; [|by subst]. subst c. exfalso.
    repeat (apply elem_of_cons in Hc as [Hc|Hc]; [done|]). by apply elem_of_nil in Hc.
Qed.

Lemma amps_sound line : forall k s ts c sc, at_toks line s ts -> (length ts < k)%nat -> reads line c sc ->
  settles (amps k c line s) (fun '(c', s') => exists n ts', ts = toks_amp n ++ ts' /\ at_toks line s' ts' /\ reads line c' (Nat.iter n SBack sc)).
Proof.
  induction k as [|k IH]; intros s ts c sc H Hk Hc; [lia|]. cbn [amps]. destruct (look_ok line s [38] ts H) as (s1 & -> & H1).
  destruct (sees [38] ts) eqn:Es; cbn [negb]; [|by exists 0%nat, ts].
  destruct ts as [|t ts]; [done|]. pose proof (at_tok_ok _ _ _ H) as Hok. apply Forall_cons in Hok as [Ht _].
  pose proof (sees_one _ _ _ Es Ht ltac:(nosym)) as ->. destruct (get_ok _ _ _ _ H1) as (a & s2 & -> & H2 & _).
  pose proof (IH s2 ts (backcmd c) (SBack sc) H2 ltac:(simpl in Hk; lia) ltac:(by constructor)) as G.
  destruct (amps k (backcmd c) line s2) as [[c' s']| |]; [|done..]. destruct G as (n & ts' & -> & H' & Hr). exists (S n), ts'. split_and!; [done|done|].
  by rewrite Nat.iter_succ_r.
Qed.

(** A parsing function gives an error, or the tree of a phrase of its level
    that stands at the front of the tokens. *)
Definition sound {A} (p : nat -> list Z -> nat -> pres (cmd * nat)) (k slack : nat) (toks : A -> list token) (wf : A -> Prop) (tree : A -> scmd) : Prop :=
  forall line s ts, at_toks line s ts -> (4 * length ts + slack <= k)%nat ->
  settles (p k line s) (fun '(c, s') => exists x ts', ts = toks x ++ ts' /\ wf x /\ at_toks line s' ts' /\ reads line c (tree x)).
Abbreviation sound_l k := (sound parseline k 4 toks_l wf_l tree_l).
Abbreviation sound_p k := (sound parsepipe k 3 toks_p wf_p tree_p).
Abbreviation sound_e k := (sound parseexec k 2 toks_e wf_e tree_e).

Lemma parseexec_sound k : (forall j, (j < k)%nat -> sound_l j) -> sound_e k.
Proof.
  intros IH line s ts H Hk. destruct k as [|k]; [lia|]. cbn [parseexec]. destruct (look_ok line s [40] ts H) as (s1 & -> & H1).
  destruct (sees [40] ts) eqn:Es.
  - destruct ts as [|t ts]; [done|]. pose proof (at_tok_ok _ _ _ H) as Hok. apply Forall_cons in Hok as [Ht _].
    pose proof (sees_one _ _ _ Es Ht ltac:(nosym)) as ->. simpl in Hk. destruct k as [|k]; [lia|]. cbn [parseblock].
    destruct (look_ok line s1 [40] _ H1) as (s2 & -> & H2). rewrite Es. cbn [negb]. destruct (get_ok _ _ _ _ H2) as (a & s3 & -> & H3 & _).
    eapply settles_bind; [apply (IH k ltac:(lia) line s3 ts H3); lia|]. intros [c s4] (l & ts' & -> & Hl & H4 & Hc).
    destruct (look_ok line s4 [41] ts' H4) as (s5 & -> & H5). destruct (sees [41] ts') eqn:Es'; cbn [negb]; [|done].
    destruct ts' as [|t' ts']; [done|]. pose proof (at_tok_ok _ _ _ H4) as Hok'. apply Forall_cons in Hok' as [Ht' _].
    pose proof (sees_one _ _ _ Es' Ht' ltac:(nosym)) as ->. destruct (get_ok _ _ _ _ H5) as (b & s6 & -> & H6 & _). unfold parseredirs.
    rewrite length_app in Hk. simpl in Hk.
    eapply settles_bind; [apply (redirs_sound line k s6 ts' H6); lia|]. intros [rds s'] (rs & ts'' & -> & Hr & H' & Hrd).
    exists (EBlock l rs), ts''. split_and!; [cbn [toks_e app]; by rewrite <- app_assoc|done|done|by apply reads_redirs].
  - eapply settles_bind; [apply (redirs_sound line k s1 ts H1); lia|]. intros [rds s2] (rs & ts' & -> & Hr & H2 & Hrd).
    rewrite length_app in Hk. eapply settles_bind; [apply (exec_loop_sound line k s2 ts' [] [] H2); [lia|constructor|unfold MAXARGS; simpl; lia]|].
    intros [[argv rds'] s'] (args & ts'' & -> & Ha & Hn & H' & Hv & Hd). exists (ESimple rs args), ts''.
    split_and!; [cbn [toks_e]; by rewrite <- app_assoc|done|done|]. rewrite exec_node. apply reads_redirs; [by apply Forall2_app|by constructor].
Qed.

Lemma parsepipe_sound k : (forall j, (j < k)%nat -> sound_e j /\ sound_p j) -> sound_p k.
Proof.
  intros IH line s ts H Hk. destruct k as [|k]; [lia|]. destruct (IH k ltac:(lia)) as [IHe IHp]. cbn [parsepipe].
  eapply settles_bind; [apply (IHe line s ts H); lia|]. intros [c s1] (e & ts' & -> & He & H1 & Hc).
  destruct (look_ok line s1 [124] ts' H1) as (s2 & -> & H2). destruct (sees [124] ts') eqn:Es; [|by exists (PEnd e), ts'].
  destruct ts' as [|t ts']; [done|]. pose proof (at_tok_ok _ _ _ H1) as Hok. apply Forall_cons in Hok as [Ht _].
  pose proof (sees_one _ _ _ Es Ht ltac:(nosym)) as ->. destruct (get_ok _ _ _ _ H2) as (a & s3 & -> & H3 & _).
  rewrite length_app in Hk. simpl in Hk. eapply settles_bind; [apply (IHp line s3 ts' H3); lia|]. intros [c2 s'] (q & ts'' & -> & Hq & H' & Hc2).
  exists (PPipe e q), ts''. split_and!; [cbn [toks_p]; by rewrite <- app_assoc|done|done|by constructor].
Qed.

Lemma parseline_sound k : (forall j, (j < k)%nat -> sound_p j /\ sound_l j) -> sound_l k.
Proof.
  intros IH line s ts H Hk. destruct k as [|k]; [lia|]. destruct (IH k ltac:(lia)) as [IHp IHl]. cbn [parseline].
  eapply settles_bind; [apply (IHp line s ts H); lia|]. intros [c s1] (q & ts1 & -> & Hq & H1 & Hc). rewrite length_app in Hk.
  eapply settles_bind; [apply (amps_sound line k s1 ts1 c _ H1 ltac:(lia) Hc)|]. intros [c' s2] (n & ts2 & -> & H2 & Hc').
  destruct (look_ok line s2 [59] ts2 H2) as (s3 & -> & H3). destruct (sees [59] ts2) eqn:Es.
  - destruct ts2 as [|t ts2]; [done|]. pose proof (at_tok_ok _ _ _ H2) as Hok. apply Forall_cons in Hok as [Ht _].
    pose proof (sees_one _ _ _ Es Ht ltac:(nosym)) as ->. destruct (get_ok _ _ _ _ H3) as (a & s4 & -> & H4 & _).
    rewrite length_app in Hk. simpl in Hk. eapply settles_bind; [apply (IHl line s4 ts2 H4); lia|]. intros [c2 s'] (l & ts'' & -> & Hl & H' & Hc2).
    exists (LSeq q n l), ts''. split_and!; [cbn [toks_l]; by rewrite <- !app_assoc|done|done|by constructor].
  - exists (LEnd q n), ts2. split_and!; [cbn [toks_l]; by rewrite <- app_assoc|done..].
Qed.

Lemma parse_levels_sound k : sound_l k /\ sound_p k /\ sound_e k.
Proof.
  induction (lt_wf k) as [k _ IH]. split_and!.
  - apply parseline_sound. intros j Hj. destruct (IH j Hj) as (? & ? & ?). done.
  - apply parsepipe_sound. intros j Hj. destruct (IH j Hj) as (? & ? & ?). done.
  - apply parseexec_sound. intros j Hj. by destruct (IH j Hj).
Qed.

(** ** The strings of the tree *)

(** The ends of the strings of a tree, where nulterminate() puts the NULs. *)
Fixpoint ends (c : cmd) : list nat :=
  match c with
  | EXEC argv => snd <$> argv
  | REDIR c file _ _ => snd file :: ends c
  | PIPE l r | LIST l r => ends r ++ ends l
  | BACK c => ends c
  end.

Lemma nulterminate_length c : forall buf, length (nulterminate c buf) = length buf.
Proof.
  induction c as [argv| | | |]; intros buf; cbn [nulterminate]; rewrite ?length_insert; try congruence.
  revert buf. induction argv as [|a argv IH]; intros buf; [done|]. cbn [foldl]. by rewrite IH, length_insert.
Qed.

Lemma nulterminate_lookup c : forall buf i, (i < length buf)%nat ->
  nulterminate c buf !! i = if bool_decide (i ∈ ends c) then Some 0 else buf !! i.
Proof.
  induction c as [argv|c IH a m f|l IHl r IHr|l IHl r IHr|c IH]; intros buf i Hi; cbn [nulterminate ends]; [| | | |by apply IH].
  - revert buf Hi. induction argv as [|a argv IH]; intros buf Hi; [done|]. cbn [foldl fmap list_fmap]. rewrite IH by by rewrite length_insert.
    destruct (decide (i = snd a)) as [->|Hne].
    + rewrite list_lookup_insert_eq, (bool_decide_true (snd a ∈ _ :: _)) by (done || apply elem_of_cons; by left). by case_bool_decide.
    + rewrite list_lookup_insert_ne by done. by rewrite (bool_decide_ext (i ∈ snd a :: _) (i ∈ snd <$> argv)) by (rewrite elem_of_cons; naive_solver).
  - destruct (decide (i = snd a)) as [->|Hne].
    + rewrite list_lookup_insert_eq by by rewrite nulterminate_length. rewrite bool_decide_true by (apply elem_of_cons; by left). done.
    + rewrite list_lookup_insert_ne, IH by done. by rewrite (bool_decide_ext (i ∈ snd a :: _) (i ∈ ends c)) by (rewrite elem_of_cons; naive_solver).
  - rewrite IHr, IHl by (rewrite ?nulterminate_length; done). repeat case_bool_decide; set_solver.
  - rewrite IHr, IHl by (rewrite ?nulterminate_length; done). repeat case_bool_decide; set_solver.
Qed.

(** No end is inside a word. *)
Lemma ends_at line c sc : reads line c sc -> forall i, i ∈ ends c -> (i <= length line)%nat /\ wordchar (char_at line i) = false.
Proof.
  induction 1 as [argv ws H|c sc a w m f _ IH Ha|l r sl sr _ IHl _ IHr|l r sl sr _ IHl _ IHr|c sc _ IH]; intros i Hi; cbn [ends] in Hi.
  - apply list_elem_of_fmap in Hi as (a & -> & Ha). apply list_elem_of_lookup_1 in Ha as [j Hj].
    destruct (Forall2_lookup_l _ _ _ _ _ H Hj) as (w & _ & _ & _ & [_ ?] & ?). done.
  - apply elem_of_cons in Hi as [->|Hi]; [|by apply IH]. by destruct Ha as (_ & _ & [_ ?] & ?).
  - apply elem_of_app in Hi as [Hi|Hi]; auto.
  - apply elem_of_app in Hi as [Hi|Hi]; auto.
  - auto.
Qed.

Fixpoint strs (buf : list Z) (c : cmd) : scmd :=
  match c with
  | EXEC argv => SExec (str_of buf <$> argv)
  | REDIR c file mode fd => SRedir (strs buf c) (str_of buf file) mode fd
  | PIPE l r => SPipe (strs buf l) (strs buf r)
  | LIST l r => SList (strs buf l) (strs buf r)
  | BACK c => SBack (strs buf c)
  end.

(** In an array that differs from the line only by NULs between words, the
    string of a span whose end is a NUL is its word. *)
Lemma str_of_word line buf a w :
  spanned line a w -> buf !! snd a = Some 0 ->
  (forall i x, line !! i = Some x -> wordchar x = true -> buf !! i = Some x) -> str_of buf a = w.
Proof.
  intros (Hs & [_ Hw] & [Hle Hlen] & _) Hend Hsame. unfold str_of.
  assert (E : drop (fst a) buf = w ++ 0 :: drop (S (snd a)) buf).
  { rewrite <- (take_drop (snd a - fst a) (drop (fst a) buf)). rewrite drop_drop. replace (fst a + (snd a - fst a))%nat with (snd a) by lia.
    rewrite (drop_S _ _ _ Hend). f_equal. rewrite <- Hs. unfold slice. apply list_eq. intros i.
    destruct (decide (i < snd a - fst a)%nat) as [Hi|Hi]; [|rewrite !lookup_take_ge by lia; done]. rewrite !lookup_take_lt, !lookup_drop by lia.
    destruct (lookup_lt_is_Some_2 line (fst a + i)) as [x Hx]; [lia|]. rewrite Hx. apply Hsame; [done|].
    eapply (proj1 (Forall_lookup _ w) Hw i). rewrite <- Hs. unfold slice. by rewrite lookup_take_lt, lookup_drop by lia. }
  rewrite E. apply cstring_app. intros H0. rewrite Forall_forall in Hw. by specialize (Hw 0 H0).
Qed.

Lemma strs_reads line buf c sc :
  reads line c sc -> (forall i, i ∈ ends c -> buf !! i = Some 0) ->
  (forall i x, line !! i = Some x -> wordchar x = true -> buf !! i = Some x) -> strs buf c = sc.
Proof.
  intros H. induction H as [argv ws H|c sc a w m f _ IH Ha|l r sl sr _ IHl _ IHr|l r sl sr _ IHl _ IHr|c sc _ IH]; intros He Hsame; cbn [strs ends] in *.
  - f_equal. induction H as [|a w argv ws Ha _ IH]; [done|]. cbn [fmap list_fmap]. f_equal.
    + eapply str_of_word; [done| |done]. apply He. apply elem_of_cons. by left.
    + apply IH. intros i Hi. apply He. apply elem_of_cons. by right.
  - f_equal; [apply IH; [|done]; intros i Hi; apply He, elem_of_cons; by right|]. eapply str_of_word; [done| |done]. apply He, elem_of_cons. by left.
  - f_equal; [apply IHl|apply IHr]; try done; intros i Hi; apply He, elem_of_app; auto.
  - f_equal; [apply IHl|apply IHr]; try done; intros i Hi; apply He, elem_of_app; auto.
  - f_equal. auto.
Qed.

Lemma cstring_lookup buf : forall i x, cstring buf !! i = Some x -> buf !! i = Some x.
Proof. induction buf as [|b buf IH]; intros i x; [done|]. cbn [cstring]. destruct (b =? 0); [done|]. destruct i; [done|]. apply IH. Qed.

Lemma nulterminate_strs buf c sc :
  reads (cstring buf) c sc -> (length (cstring buf) < length buf)%nat -> strs (nulterminate c buf) c = sc.
Proof.
  intros H Hlen. apply (strs_reads (cstring buf)); [done| |].
  - intros i Hi. destruct (ends_at _ _ _ H i Hi) as [Hle _]. rewrite nulterminate_lookup by lia. by rewrite bool_decide_true.
  - intros i x Hx Hw. pose proof (lookup_lt_Some _ _ _ Hx). rewrite nulterminate_lookup by lia. rewrite bool_decide_false.
    + by apply cstring_lookup.
    + intros Hi. destruct (ends_at _ _ _ H i Hi) as [_ E]. unfold char_at in E. rewrite (drop_S _ _ _ Hx) in E. simpl in E. congruence.
Qed.

(** ** What the parser promises *)

(** C26: The parser gives, for every line that is a command of the grammar (pipelines,
    lists, background commands, blocks and redirections), the tree of that command:
    the words and files of the tree, read in the line after nulterminate() has put
    its NULs in, are those of the command, in order. *)
Theorem parsecmd_correct {W} {SY : Sys W} (buf : list Z) (l : lsyn) (w : W) :
  lex (cstring buf) (toks_l l) -> wf_l l -> (length (cstring buf) < length buf)%nat ->
  exists c buf', parsecmd buf w = UDone (c, buf') w /\ strs buf' c = tree_l l.
Proof.
  intros H Hwf Hlen. destruct (parse_complete _ _ H Hwf) as (c & E & Hc). unfold parsecmd. rewrite E, bool_decide_true by done.
  exists c, (nulterminate c buf). split; [done|]. by apply nulterminate_strs.
Qed.

Ltac lexes :=
  lazymatch goal with
  | |- lex _ [] => apply lex_nil; by vm_compute
  | |- lex _ (TWord ?w :: _) => eapply (lex_word _ w); [by vm_compute|split; [done|by repeat constructor]|done|nosym|lexes]
  | |- lex _ (TSym 43 :: _) => eapply lex_gtgt; [by vm_compute|lexes]
  | |- lex _ (TSym 62 :: _) => eapply lex_gt; [by vm_compute|done|lexes]
  | |- lex _ (TSym _ :: _) => eapply lex_sym; [by vm_compute|nosym|lexes]
  end.

(** [ls -l | (wc a >>f &); b <g], with the newline of gets(). *)
Definition sample : lsyn :=
  LSeq (PPipe (ESimple [] [(bytes "ls", []); (bytes "-l", [])])
              (PEnd (EBlock (LEnd (PEnd (ESimple [] [(bytes "wc", []); (bytes "a", [(43, bytes "f")])])) 1) []))) 0
       (LEnd (PEnd (ESimple [] [(bytes "b", [(60, bytes "g")])])) 0).
Definition sample_line : list Z := bytes "ls -l | (wc a >>f &); b <g" ++ [10].

Lemma sample_lex : lex sample_line (toks_l sample).
Proof. unfold sample_line, sample. cbn [toks_l toks_p toks_e]. vm_compute bytes. cbn. lexes. Qed.
Lemma sample_wf : wf_l sample.
Proof. apply (bool_decide_unpack _); by vm_compute. Qed.

Lemma parsecmd_correct_witness :
  exists c buf', @parsecmd tape tape_sys (sample_line ++ replicate 10 0) (Tape [] []) = UDone (c, buf') (Tape [] []) /\ strs buf' c = tree_l sample.
Proof.
  apply (@parsecmd_correct tape tape_sys).
  - replace (cstring (sample_line ++ replicate 10 0)) with sample_line by by vm_compute. exact sample_lex.
  - exact sample_wf.
  - by apply Nat.ltb_lt; vm_compute.
Defined.

(** C27: The parser ends on every line without a NUL, and reads a line to its end
    exactly when the line is a command of the grammar with at most nine arguments
    in each simple command; every other line is refused with a message. *)
Theorem parse_accepts (line : list Z) :
  0 ∉ line ->
  (parse line <> PHang) /\ ((exists c, parse line = POk (c, length line)) <-> exists l, lex line (toks_l l) /\ wf_l l).
Proof.
  intros H0. destruct (lex_total line H0) as [ts Hts]. pose proof (lex_length _ _ Hts) as Hlen.
  pose proof (proj1 (parse_levels_sound (parse_fuel line)) line 0%nat ts ltac:(split; [by rewrite drop_0|lia]) ltac:(unfold parse_fuel; lia)) as G.
  unfold parse. destruct (parseline (parse_fuel line) line 0) as [[c s]|msg|] eqn:E; cbn [settles] in G; [| |done]; (split; [done|]); split.
  - destruct G as (l & ts' & -> & Hl & [H' Hle] & _). intros [c' E']. cbn [mbind pres_bind] in E'. unfold peek in E'. injection E' as _ Es.
    exists l. split; [|done]. pose proof (drop_skip line s) as D. rewrite Es, drop_all in D.
    inversion H' as [| ? ? ? ? A | ? ? ? A | ? ? ? A | ? w ? ? A [Hw _]]; subst; [by rewrite app_nil_r in Hts|..]; rewrite A in D; try done.
    by destruct w.
  - intros (l & Hl & Hwf). destruct (parse_complete line l Hl Hwf) as (c' & E' & _). exists c'. unfold parse in E'. by rewrite E in E'.
  - by intros [c E'].
  - intros (l & Hl & Hwf). destruct (parse_complete line l Hl Hwf) as (c' & E' & _). unfold parse in E'. by rewrite E in E'.
Qed.

Lemma parse_accepts_witness :
  (parse sample_line <> PHang) /\ ((exists c, parse sample_line = POk (c, length sample_line)) <-> exists l, lex sample_line (toks_l l) /\ wf_l l).
Proof. apply parse_accepts. nosym. Defined.
