(* ===== verification/ShRun.v ===== *)
(** * The shell: what its commands run with (user/sh.c)

    The descriptors of a process as the system calls change them, and the
    proof that runcmd() replaces a process by a program of the command only
    with the descriptors that the command asks for: the redirections of the
    program, the ends of the pipes it stands between, and no other end of a
    pipe of the command. *)

From stdpp Require Import base numbers list list_numbers gmap strings.
From Stdlib Require Import ZArith Lia.
From S2P Require Import Prelude.
From S2P Require Import User.
From S2P Require Import Sh.
From S2P Require Import ShSpec.

Local Open Scope Z_scope.

(** ** Programs that are not replaced, and programs that do not return *)

Definition noexec {W A} (m : U W A) : Prop := forall w p a w', m w <> UExec p a w'.
Definition noreturn {W A} (m : U W A) : Prop := forall w a w', m w <> UDone a w'.

Lemma noexec_ret {W A} (a : A) : noexec (mret a : U W A).
Proof. done. Qed.
Lemma noexec_bind {W A B} (m : U W A) (f : A -> U W B) : noexec m -> (forall a, noexec (f a)) -> noexec (m ≫= f).
Proof. intros Hm Hf w p a w'. unfold mbind, U_bind. specialize (Hm w). destruct (m w); try done. - apply Hf. - intros [= -> -> ->]. by eapply Hm. Qed.
Lemma noexec_exit {W A} s : noexec (exit s : U W A).
Proof. done. Qed.
Lemma noexec_fault {W A} : noexec (fun _ => UFault : ures W A).
Proof. done. Qed.
Lemma noreturn_exit {W A} s : noreturn (exit s : U W A).
Proof. done. Qed.
Lemma noreturn_bind {W A B} (m : U W A) (f : A -> U W B) : (forall a, noreturn (f a)) -> noreturn (m ≫= f).
Proof. intros Hf w a w'. unfold mbind, U_bind. destruct (m w); try done. apply Hf. Qed.

(** Code after a program that does not return is not reached. *)
Lemma noreturn_exec {W A B} (m : U W A) (f : A -> U W B) w p a w' : noreturn m -> (m ≫= f) w = UExec p a w' -> m w = UExec p a w'.
Proof. intros N. unfold mbind, U_bind. specialize (N w). destruct (m w) eqn:E; try done; [by edestruct N|]. by intros [= -> -> ->]. Qed.

Create HintDb uprog.
#[export] Hint Resolve noexec_ret noexec_bind noexec_exit noexec_fault noreturn_exit noreturn_bind : uprog.

(** ** Descriptors *)

(** What a descriptor names. *)
Inductive fdobj := FFile (name : list Z) (mode : Z) | FPipeR (id : Z) | FPipeW (id : Z) | FGiven (n : Z).
Abbreviation fdtab := (gmap Z fdobj).

(** fdalloc() takes the lowest free descriptor. *)
Definition lowest (t : fdtab) (n : Z) : Prop := 0 <= n /\ t !! n = None /\ forall m, 0 <= m < n -> is_Some (t !! m).

Lemma lowest_unique t n m : lowest t n -> lowest t m -> n = m.
Proof.
  intros (H0 & Hn & Hlt) (H0' & Hm & Hlt'). destruct (Z.lt_trichotomy n m) as [H|[H|H]]; [|done|].
  - destruct (Hlt' n ltac:(lia)). congruence.
  - destruct (Hlt m ltac:(lia)). congruence.
Qed.

(** A pipe that no descriptor names yet. *)
Definition fresh_pipe (t : fdtab) (id : Z) : Prop := forall n, t !! n <> Some (FPipeR id) /\ t !! n <> Some (FPipeW id).

(** The system calls and the descriptors of the calling process: fork() gives
    the child those of the parent, and only close(), dup(), open() and pipe()
    change them. *)
Class Fds (W : Type) := fds : W -> fdtab.

Class FdsOk (W : Type) `{SY : Sys W} `{Fds W} : Prop := {
  fork_fds : forall w, exists r w', fork w = UDone r w' /\ fds w' = fds w;
  wait_fds : forall w, exists r w', wait w = UDone r w' /\ fds w' = fds w;
  write_fds : forall fd bs w, exists r w', write fd bs w = UDone r w' /\ fds w' = fds w;
  exec_fds : forall p argv w, exists w', fds w' = fds w /\ (exec p argv w = UExec p argv w' \/ exec p argv w = UDone (-1) w');
  close_fds : forall fd w, exists r w', close fd w = UDone r w' /\ fds w' = delete fd (fds w);
  dup_fds : forall fd w o n, fds w !! fd = Some o -> lowest (fds w) n -> n < 16 ->
    exists w', dup fd w = UDone n w' /\ fds w' = <[n := o]> (fds w);
  open_fds : forall p mode w, exists r w', open p mode w = UDone r w' /\
    ((r < 0 /\ fds w' = fds w) \/ (lowest (fds w) r /\ fds w' = <[r := FFile p mode]> (fds w)));
  pipe2_fds : forall w, exists r p0 p1 w', pipe2 w = UDone (r, (p0, p1)) w' /\
    ((r < 0 /\ fds w' = fds w) \/
     (0 <= r /\ exists id, fresh_pipe (fds w) id /\ lowest (fds w) p0 /\ lowest (<[p0 := FPipeR id]> (fds w)) p1 /\
      fds w' = <[p1 := FPipeW id]> (<[p0 := FPipeR id]> (fds w))))
}.

(** ** What a command runs with *)

(** The programs of a command started with descriptors [t]: their arguments
    and their descriptors. *)
Inductive starts : scmd -> fdtab -> list (list Z) -> fdtab -> Prop :=
  | st_exec argv t : argv <> [] -> starts (SExec argv) t argv t
  | st_redir c file mode fd t argv t' : starts c (<[fd := FFile file mode]> t) argv t' -> starts (SRedir c file mode fd) t argv t'
  | st_pipe_l l r id t argv t' : fresh_pipe t id -> starts l (<[1 := FPipeW id]> t) argv t' -> starts (SPipe l r) t argv t'
  | st_pipe_r l r id t argv t' : fresh_pipe t id -> starts r (<[0 := FPipeR id]> t) argv t' -> starts (SPipe l r) t argv t'
  | st_list_l l r t argv t' : starts l t argv t' -> starts (SList l r) t argv t'
  | st_list_r l r t argv t' : starts r t argv t' -> starts (SList l r) t argv t'
  | st_back c t argv t' : starts c t argv t' -> starts (SBack c) t argv t'.

(** Redirections are of descriptors 0 and 1. *)
Fixpoint std_redirs (c : scmd) : Prop :=
  match c with
  | SExec _ => True
  | SRedir c _ _ fd => (fd = 0 \/ fd = 1) /\ std_redirs c
  | SPipe l r | SList l r => std_redirs l /\ std_redirs r
  | SBack c => std_redirs c
  end.

Lemma std_redirs_fold rs : forall c, std_redirs c -> std_redirs (foldl sredir c rs).
Proof. induction rs as [|r rs IH]; intros c Hc; [done|]. apply IH. unfold sredir. repeat case_match; simpl; auto. Qed.

Lemma std_redirs_tree : (forall l, std_redirs (tree_l l)) /\ (forall q, std_redirs (tree_p q)) /\ (forall e, std_redirs (tree_e e)).
Proof.
  assert (B : forall n c, std_redirs c -> std_redirs (Nat.iter n SBack c)) by (induction n; simpl; auto).
  apply syn_mind; intros; cbn [tree_l tree_p tree_e std_redirs]; auto; by apply std_redirs_fold.
Qed.

Definition std_open (t : fdtab) : Prop := is_Some (t !! 0) /\ is_Some (t !! 1).

Lemma std_open_insert t fd o : std_open t -> std_open (<[fd := o]> t).
Proof. intros [H0 H1]. split; rewrite lookup_insert_is_Some; destruct (decide (fd = 0)), (decide (fd = 1)); auto. Qed.

(** After close() of 0 or 1, that descriptor is the lowest free one. *)
Lemma lowest_closed t fd : std_open t -> fd = 0 \/ fd = 1 -> lowest (delete fd t) fd.
Proof.
  intros [H0 H1] Hfd. split_and!; [lia|by rewrite lookup_delete_eq|]. intros m Hm. destruct Hfd as [->| ->]; [lia|].
  replace m with 0 by lia. by rewrite lookup_delete_ne by lia.
Qed.

(** ** Running a command *)

Section Run.
Context {W : Type} {SY : Sys W} {FD : Fds W} {OK : FdsOk W}.
Implicit Types w : W.

(** A run that ends in another program goes through each call. *)
Section Calls.
Context {A : Type}.

Lemma noexec_write fd bs : noexec (write fd bs).
Proof. intros w p a w' E. destruct (write_fds fd bs w) as (r & w1 & E1 & _). congruence. Qed.
#[local] Hint Resolve noexec_write : uprog.

Lemma noexec_puts fd cs : noexec (Printf.puts fd cs).
Proof. induction cs; cbn [Printf.puts]; unfold Printf.putc; auto 6 with uprog. Qed.
Lemma noexec_putc fd c : noexec (Printf.putc fd c).
Proof. unfold Printf.putc; auto with uprog. Qed.
#[local] Hint Resolve noexec_puts noexec_putc : uprog.

Lemma noexec_fprintf fd fmt ap : noexec (Printf.fprintf fd fmt ap).
Proof.
  unfold Printf.fprintf. generalize false as st. revert ap. induction fmt as [|c fmt IH]; intros ap st; cbn [Printf.vprintf]; [done|].
  unfold Printf.printint, Printf.printptr. repeat case_match; auto 6 with uprog.
Qed.

Lemma exec_fprintf {B} fd fmt ap s : noexec (Printf.fprintf fd fmt ap ≫= fun _ => (exit s : U W B)).
Proof. apply noexec_bind; [apply noexec_fprintf|]. auto with uprog. Qed.

Lemma fork1_inv (f : Z -> U W A) w p a w' :
  (fork1 ≫= f) w = UExec p a w' -> exists r w1, fds w1 = fds w /\ f r w1 = UExec p a w'.
Proof.
  unfold fork1. destruct (fork_fds w) as (r & w1 & E & F). unfold mbind, U_bind. rewrite E. intros H. exists r, w1. split; [done|].
  destruct (r =? -1); [exfalso|done]. pose proof (exec_fprintf (B := Z) 2 (bytes "%s" ++ [10]) [Printf.AStr (Some (bytes "fork"))] 1 w1) as N.
  pose proof (noreturn_bind (Printf.fprintf 2 (bytes "%s" ++ [10]) [Printf.AStr (Some (bytes "fork"))]) (fun _ => (exit 1 : U W Z)) (fun _ => noreturn_exit 1) w1) as M.
  unfold panic in H. unfold mbind, U_bind in *. destruct (match Printf.fprintf _ _ _ w1 with UDone _ _ => _ | _ => _ end); try done; [by eapply M|by eapply N].
Qed.

Lemma wait_inv (f : Z -> U W A) w p a w' : (wait ≫= f) w = UExec p a w' -> exists r w1, fds w1 = fds w /\ f r w1 = UExec p a w'.
Proof. destruct (wait_fds w) as (r & w1 & E & F). rewrite (ubind_done _ _ _ _ _ E). by exists r, w1. Qed.
Lemma close_inv fd (f : Z -> U W A) w p a w' :
  (close fd ≫= f) w = UExec p a w' -> exists r w1, fds w1 = delete fd (fds w) /\ f r w1 = UExec p a w'.
Proof. destruct (close_fds fd w) as (r & w1 & E & F). rewrite (ubind_done _ _ _ _ _ E). by exists r, w1. Qed.
Lemma dup_inv fd o n (f : Z -> U W A) w p a w' : fds w !! fd = Some o -> lowest (fds w) n -> n < 16 ->
  (dup fd ≫= f) w = UExec p a w' -> exists r w1, fds w1 = <[n := o]> (fds w) /\ f r w1 = UExec p a w'.
Proof. intros H1 H2 H3. destruct (dup_fds fd w o n H1 H2 H3) as (w1 & E & F). rewrite (ubind_done _ _ _ _ _ E). by exists n, w1. Qed.

(** The child's branch of a fork, and the parent's. *)
Lemma opt_inv (b : bool) (m : U W unit) (f : unit -> U W A) w p a w' : noreturn m ->
  (opt b m ≫= f) w = UExec p a w' -> (b = true /\ m w = UExec p a w') \/ (b = false /\ f tt w = UExec p a w').
Proof.
  intros N. unfold opt. destruct b; unfold mbind, U_bind, mret, U_ret; [|auto]. specialize (N w). destruct (m w) eqn:E; try done; [by edestruct N|].
  intros [= -> -> ->]. auto.
Qed.
End Calls.

Lemma runcmd_noreturn buf c : noreturn (runcmd buf c).
Proof. destruct c as [[|]| | | |]; cbn [runcmd]; unfold panic; repeat first [apply noreturn_exit | apply noreturn_bind; intros ? | case_match]. Qed.

Lemma exec_inv (prog : list Z) av (f : Z -> U W unit) w p a w' : (forall r, noexec (f r)) ->
  (exec prog av ≫= f) w = UExec p a w' -> p = prog /\ a = av /\ fds w' = fds w.
Proof.
  intros N. destruct (exec_fds prog av w) as (w1 & F & [E|E]); unfold mbind, U_bind; rewrite E.
  - by intros [= -> -> ->].
  - intros H. by edestruct N.
Qed.

Lemma open_inv file mode (f : Z -> U W unit) w p a w' : (forall r, r < 0 -> noexec (f r)) ->
  (open file mode ≫= f) w = UExec p a w' ->
  exists r w1, 0 <= r /\ lowest (fds w) r /\ fds w1 = <[r := FFile file mode]> (fds w) /\ f r w1 = UExec p a w'.
Proof.
  intros N. destruct (open_fds file mode w) as (r & w1 & E & [[Hr F]|[Hl F]]); rewrite (ubind_done _ _ _ _ _ E).
  - intros H. by edestruct N.
  - intros H. exists r, w1. split_and!; [by destruct Hl|done..].
Qed.

Lemma pipe2_inv (f : Z * (Z * Z) -> U W unit) w p a w' : (forall r pp, r < 0 -> noexec (f (r, pp))) ->
  (pipe2 ≫= f) w = UExec p a w' ->
  exists r p0 p1 id w1, 0 <= r /\ fresh_pipe (fds w) id /\ lowest (fds w) p0 /\ lowest (<[p0 := FPipeR id]> (fds w)) p1 /\
    fds w1 = <[p1 := FPipeW id]> (<[p0 := FPipeR id]> (fds w)) /\ f (r, (p0, p1)) w1 = UExec p a w'.
Proof.
  intros N. destruct (pipe2_fds w) as (r & p0 & p1 & w1 & E & [[Hr F]|(Hr & id & Hid & H0 & H1 & F)]); rewrite (ubind_done _ _ _ _ _ E).
  - intros H. by edestruct N.
  - intros H. by exists r, p0, p1, id, w1.
Qed.

(** The descriptors of the child on one side of a pipe: close(fd), dup() of
    its end [pe], and close() of both ends. *)
Lemma pipe_side t id p0 p1 fd pe o :
  std_open t -> fd = 0 \/ fd = 1 -> lowest t p0 -> lowest (<[p0 := FPipeR id]> t) p1 ->
  (pe = p0 /\ o = FPipeR id) \/ (pe = p1 /\ o = FPipeW id) ->
  let t1 := <[p1 := FPipeW id]> (<[p0 := FPipeR id]> t) in
  lowest (delete fd t1) fd /\ delete fd t1 !! pe = Some o /\ delete p1 (delete p0 (<[fd := o]> (delete fd t1))) = <[fd := o]> t.
Proof.
  intros Ht Hfd (_ & L0 & _) (_ & L1 & _) Hpe t1. rewrite lookup_insert_None in L1. destruct L1 as [L1 Hne].
  assert (fd <> p0 /\ fd <> p1) as [N0 N1] by (destruct Ht as [[? H0] [? H1]]; split; intros ->; destruct Hfd as [->| ->]; congruence).
  split_and!.
  - apply lowest_closed; [by apply std_open_insert, std_open_insert|done].
  - unfold t1. destruct Hpe as [[-> ->]|[-> ->]]; rewrite lookup_delete_ne by done.
    + by rewrite lookup_insert_ne, lookup_insert_eq by done.
    + by rewrite lookup_insert_eq.
  - apply map_eq. intros k. unfold t1. destruct (decide (p1 = k)), (decide (p0 = k)), (decide (fd = k)); subst; by simplify_map_eq.
Qed.

(** One side of a pipe, from the fork to the command. *)
Lemma pipe_child buf c sc t w fd pe o id p0 p1 p a w' :
  (forall w, std_open (fds w) -> runcmd buf c w = UExec p a w' -> starts sc (fds w) a (fds w') /\ head a = Some p) ->
  std_open t -> fd = 0 \/ fd = 1 -> lowest t p0 -> lowest (<[p0 := FPipeR id]> t) p1 ->
  (pe = p0 /\ o = FPipeR id) \/ (pe = p1 /\ o = FPipeW id) -> fds w = <[p1 := FPipeW id]> (<[p0 := FPipeR id]> t) ->
  (_ ← close fd; _ ← dup pe; _ ← close p0; _ ← close p1; runcmd buf c) w = UExec p a w' ->
  starts sc (<[fd := o]> t) a (fds w') /\ head a = Some p.
Proof.
  intros IH Ht Hfd H0 H1 Hpe Hw H. destruct (pipe_side t id p0 p1 fd pe o Ht Hfd H0 H1 Hpe) as (L & Hl & E). rewrite <- Hw in L, Hl, E.
  apply close_inv in H as (r1 & w1 & F1 & H). rewrite <- F1 in L, Hl, E.
  apply (dup_inv _ o fd) in H as (r2 & w2 & F2 & H); [|done|done|lia].
  apply close_inv in H as (r3 & w3 & F3 & H). apply close_inv in H as (r4 & w4 & F4 & H).
  assert (F : fds w4 = <[fd := o]> t) by (by rewrite F4, F3, F2).
  rewrite <- F. apply IH; [|done]. rewrite F. by apply std_open_insert.
Qed.

Lemma runcmd_starts buf c : forall w p a w',
  std_redirs (strs buf c) -> std_open (fds w) -> runcmd buf c w = UExec p a w' ->
  starts (strs buf c) (fds w) a (fds w') /\ head a = Some p.
Proof.
  induction c as [argv|c IH file mode fd|l IHl r IHr|l IHl r IHr|c IH]; intros w p a w' Hstd Ht H; cbn [runcmd strs std_redirs] in *.
  - destruct argv as [|a0 argv]; [done|]. apply exec_inv in H as (-> & -> & ->); [|intros; apply exec_fprintf]. split; [by constructor|done].
  - destruct Hstd as [Hfd Hstd]. apply close_inv in H as (r1 & w1 & F1 & H). apply open_inv in H as (r & w2 & Hr & L & F2 & H).
    2: { intros r Hr. rewrite (proj2 (Z.ltb_lt r 0) Hr). apply exec_fprintf. }
    rewrite (proj2 (Z.ltb_ge r 0) Hr) in H. rewrite F1 in L. pose proof (lowest_unique _ _ _ L (lowest_closed _ _ Ht Hfd)) as ->.
    rewrite F1, insert_delete_eq in F2. apply noreturn_exec in H; [|apply runcmd_noreturn].
    destruct (IH w2 p a w' Hstd) as [G ?]; [rewrite F2; by apply std_open_insert|done|]. split; [|done]. rewrite F2 in G. by constructor.
  - destruct Hstd as [Hsl Hsr]. apply pipe2_inv in H as (r1 & p0 & p1 & id & w1 & Hr1 & Hid & H0 & H1 & F1 & H).
    2: { intros r1 [p0 p1] Hr1. rewrite (proj2 (Z.ltb_lt r1 0) Hr1). apply exec_fprintf. }
    rewrite (proj2 (Z.ltb_ge r1 0) Hr1) in H. apply fork1_inv in H as (pid & w2 & F2 & H). apply opt_inv in H as [[_ H]|[_ H]].
    + rewrite <- F2 in F1. eapply pipe_child in H as [G ?]; [| |exact Ht|by right|exact H0|exact H1|right; done|exact F1].
      * split; [|done]. by eapply st_pipe_l.
      * intros w3 Hw3. by apply IHl.
    + rewrite <- F2 in F1. apply fork1_inv in H as (pid2 & w3 & F3 & H). rewrite <- F3 in F1. apply opt_inv in H as [[_ H]|[_ H]].
      * eapply pipe_child in H as [G ?]; [| |exact Ht|by left|exact H0|exact H1|left; done|exact F1].
        -- split; [|done]. by eapply st_pipe_r.
        -- intros w4 Hw4. by apply IHr.
      * apply close_inv in H as (? & ? & _ & H). apply close_inv in H as (? & ? & _ & H). apply wait_inv in H as (? & ? & _ & H). by apply wait_inv in H as (? & ? & _ & H).
      * repeat (apply noreturn_bind; intros ?). apply runcmd_noreturn.
    + repeat (apply noreturn_bind; intros ?). apply runcmd_noreturn.
  - destruct Hstd as [Hsl Hsr]. apply fork1_inv in H as (pid & w1 & F1 & H). apply opt_inv in H as [[_ H]|[_ H]]; [| |apply runcmd_noreturn].
    + rewrite <- F1 in Ht |- *. destruct (IHl w1 p a w' Hsl Ht H). split; [by constructor|done].
    + apply wait_inv in H as (? & w2 & F2 & H). apply noreturn_exec in H; [|apply runcmd_noreturn]. rewrite <- F1, <- F2 in Ht |- *.
      destruct (IHr w2 p a w' Hsr Ht H). split; [by apply st_list_r|done].
  - apply fork1_inv in H as (pid & w1 & F1 & H). apply opt_inv in H as [[_ H]|[_ H]]; [|done|apply runcmd_noreturn].
    rewrite <- F1 in Ht |- *. destruct (IH w1 p a w' Hstd Ht H). split; [by constructor|done].
Qed.
End Run.

(** ** A world of descriptors *)

(** Descriptors, and the answers of the next forks. *)
Record fdworld := FdWorld { fw_fds : fdtab; fw_forks : list Z }.

Definition free_fd (t : fdtab) : option Z :=
  snd <$> list_find (fun n => t !! n = None) (seqZ 0 16).

Definition pipe_id (o : fdobj) : Z := match o with FPipeR id | FPipeW id => id | _ => 0 end.
Definition new_pipe (t : fdtab) : Z := 1 + foldr Z.max 0 ((fun kv => pipe_id (snd kv)) <$> map_to_list t).

Lemma free_fd_lowest t n : free_fd t = Some n -> lowest t n.
Proof.
  unfold free_fd. destruct (list_find _ _) as [[i x]|] eqn:E; [|done]. cbn. intros [= <-].
  apply list_find_Some in E as (Hi & Hx & Hlt). apply lookup_seqZ in Hi as [-> Hi]. split_and!; [lia|done|].
  intros m Hm. destruct (t !! m) eqn:Em; [by eexists|]. exfalso.
  apply (Hlt (Z.to_nat m) m); [apply lookup_seqZ; lia|lia|done].
Qed.

Lemma free_fd_exists t n : lowest t n -> n < 16 -> free_fd t = Some n.
Proof.
  intros L Hn. destruct (free_fd t) as [m|] eqn:E; [f_equal; by eapply lowest_unique; [apply free_fd_lowest|]|]. exfalso. revert E. unfold free_fd.
  destruct (list_find _ _) as [[i x]|] eqn:E; [done|]. apply list_find_None in E. rewrite Forall_forall in E. destruct L as (? & L & _).
  by destruct (E n ltac:(apply elem_of_seqZ; lia)).
Qed.

Lemma new_pipe_fresh t : fresh_pipe t (new_pipe t).
Proof.
  assert (G : forall n o, t !! n = Some o -> pipe_id o < new_pipe t).
  { intros n o Ho. apply elem_of_map_to_list in Ho. unfold new_pipe. revert Ho. generalize (map_to_list t). intros l Ho.
    induction l as [|kv l IH]; [by apply elem_of_nil in Ho|]. apply elem_of_cons in Ho as [<-|Ho]; cbn [fmap list_fmap foldr snd] in *; [lia|]. specialize (IH Ho). lia. }
  intros n. split; intros E; apply G in E; simpl in E; lia.
Qed.

Definition put_fd (n : Z) (o : fdobj) (w : fdworld) : fdworld := FdWorld (<[n := o]> (fw_fds w)) (fw_forks w).

#[local] Instance fdworld_fds : Fds fdworld := fw_fds.
#[local] Instance fdworld_sys : Sys fdworld := {|
  fork := fun w => UDone (hd (-1) (fw_forks w)) (FdWorld (fw_fds w) (tl (fw_forks w)));
  wait := ans (-1); write := fun _ bs => ans (Z.of_nat (length bs)); exec := fun p a w => UExec p a w;
  close := fun fd w => UDone 0 (FdWorld (delete fd (fw_fds w)) (fw_forks w));
  dup := fun fd w => match fw_fds w !! fd, free_fd (fw_fds w) with Some o, Some n => UDone n (put_fd n o w) | _, _ => UDone (-1) w end;
  open := fun p m w => match free_fd (fw_fds w) with Some n => UDone n (put_fd n (FFile p m) w) | None => UDone (-1) w end;
  pipe2 := fun w =>
    let id := new_pipe (fw_fds w) in
    match free_fd (fw_fds w) with
    | Some p0 => match free_fd (<[p0 := FPipeR id]> (fw_fds w)) with
      | Some p1 => UDone (0, (p0, p1)) (put_fd p1 (FPipeW id) (put_fd p0 (FPipeR id) w))
      | None => UDone (-1, (0, 0)) w
      end
    | None => UDone (-1, (0, 0)) w
    end;
  read := fun _ _ => ans ([], 0); kill := fun _ => ans (-1); mknod := fun _ _ _ => ans (-1);
  unlink := fun _ => ans (-1); fstat := fun _ => ans (Ustat 0 0 0 0 0, -1); link := fun _ _ => ans (-1);
  mkdir := fun _ => ans (-1); chdir := fun _ => ans (-1); sbrk := fun _ => ans (-1); usleep := fun _ => ans 0;
  getpid := ans 1; wait_status := ans (-1, None)
|}.

#[local] Instance fdworld_ok : FdsOk fdworld.
Proof.
  split; try (intros; by eexists _, _).
  - intros p argv w. exists w. auto.
  - intros fd w o n Ho L Hn. exists (put_fd n o w). split; [|done]. cbn. unfold fds, fdworld_fds in *. by rewrite Ho, (free_fd_exists _ _ L Hn).
  - intros p mode w. cbn. unfold fds, fdworld_fds. destruct (free_fd (fw_fds w)) as [n|] eqn:E.
    + exists n, (put_fd n (FFile p mode) w). split; [done|]. right. split; [by apply free_fd_lowest|done].
    + exists (-1), w. split; [done|]. left. done.
  - intros w. cbn. unfold fds, fdworld_fds. destruct (free_fd (fw_fds w)) as [p0|] eqn:E0; [|exists (-1), 0, 0, w; split; [done|by left]].
    destruct (free_fd (<[p0 := _]> _)) as [p1|] eqn:E1; [|exists (-1), 0, 0, w; split; [done|by left]].
    eexists 0, p0, p1, _. split; [reflexivity|]. right. split; [lia|]. exists (new_pipe (fw_fds w)).
    split_and!; [apply new_pipe_fresh|by apply free_fd_lowest|by apply free_fd_lowest|done].
Qed.

(** ** The promise *)

(** C25: runcmd(parsecmd(buf)) in the shell's child, for a line that is a command of the
    grammar and descriptors 0 and 1 open: the call does not return, and when the process
    becomes another program, that program is one of the command's, with its arguments, and
    its descriptors are those of the shell except for the redirections of the program and
    one end of the pipe on its side; the shell leaves no other end of a pipe open in it. *)
Theorem shell_runs {W} {SY : Sys W} {FD : Fds W} {OK : FdsOk W} (buf : list Z) (l : lsyn) (w : W) :
  lex (cstring buf) (toks_l l) -> wf_l l -> (length (cstring buf) < length buf)%nat -> std_open (fds w) ->
  let child := '(c, buf) ← parsecmd buf; runcmd buf c in
  noreturn child /\
  forall path argv w', child w = UExec path argv w' -> starts (tree_l l) (fds w) argv (fds w') /\ head argv = Some path.
Proof.
  intros H Hwf Hlen Ht child. split; [apply noreturn_bind; intros [c b]; apply runcmd_noreturn|]. intros path argv w' E.
  destruct (parse_complete _ _ H Hwf) as (c & Ep & Hc). unfold child in E.
  assert (Ec : parsecmd buf w = UDone (c, nulterminate c buf) w) by (unfold parsecmd; by rewrite Ep, bool_decide_true).
  rewrite (ubind_done _ _ _ _ _ Ec) in E. pose proof (nulterminate_strs _ _ _ Hc Hlen) as Es. rewrite <- Es.
  eapply runcmd_starts; [|done|exact E]. rewrite Es. apply std_redirs_tree.
Qed.

Definition sample_fds : fdtab := {[ 0 := FGiven 0; 1 := FGiven 1; 2 := FGiven 2 ]}.

(** The parent of the list waits, and the second child of the pipe runs wc. *)
Lemma shell_runs_witness :
  exists w', starts (tree_l sample) sample_fds [bytes "wc"; bytes "a"] (fds w') /\ head [bytes "wc"; bytes "a"] = Some (bytes "wc") /\
    fds w' !! 0 = Some (FPipeR 1) /\ fds w' !! 1 = Some (FFile (bytes "f") 513) /\ fds w' !! 3 = None.
Proof.
  destruct (shell_runs (sample_line ++ replicate 10 0) sample (FdWorld sample_fds [0; 7; 0; 0])) as [_ H].
  - replace (cstring (sample_line ++ replicate 10 0)) with sample_line by by vm_compute. exact sample_lex.
  - exact sample_wf.
  - by apply Nat.ltb_lt; vm_compute.
  - split; by eexists.
  - eexists. edestruct (H (bytes "wc") [bytes "wc"; bytes "a"]) as [G1 G2]; [by vm_compute|]. split_and!; [exact G1|exact G2|by vm_compute..].
Defined.
