(* ===== verification/Grind.v ===== *)
(** * The random system call program (user/grind.c)

    The generator do_rand() with the proof that it computes the Park and
    Miller recurrence within 31 bits, and go(), iter() and main() over the
    system calls. *)

From stdpp Require Import base numbers list list_numbers gmap strings.
From Stdlib Require Import ZArith Lia.
From S2P Require Import Prelude.
From S2P Require Import User.
From S2P Require Import Sh.
From S2P Require Import ShSpec.
From S2P Require Import ShRun.

Local Open Scope Z_scope.

(** ** The generator *)

(** The steps of do_rand() on the number of the range [1, 0x7ffffffe]. *)
Definition rand_start (ctx : Z) : Z := ctx `mod` 0x7ffffffe + 1.
Definition rand_step (x : Z) : Z :=
  let hi := Z.quot x 127773 in
  let lo := Z.rem x 127773 in
  16807 * lo - 2836 * hi.

(** The value returned, which is also the new context. *)
Definition do_rand (ctx : Z) : Z :=
  let x := rand_step (rand_start ctx) in
  let x := if x <? 0 then x + 0x7fffffff else x in
  x - 1.

(** rand(): rand_next is the context. *)
Definition rand (rand_next : Z) : Z * Z := let x := do_rand rand_next in (x, x).

(** ** The random calls *)

Section Calls.
Context {W : Type} {SY : Sys W}.
Import Printf.

Definition O_CREATE_RDWR : Z := Z.lor 0x200 0x002.

(** printf() of a message, and exit(1). *)
Definition complain {A} (msg : string) (status : Z) : U W A := printf (bytes msg ++ [10]) [] ;; exit status.
Definition complain2 {A} (msg : string) (status : Z) : U W A := fprintf 2 (bytes msg ++ [10]) [] ;; exit status.

Definition touch (path : string) : U W unit :=
  fd ← open (bytes path) O_CREATE_RDWR;
  _ ← close fd;
  mret tt.

(** [pid = fork(); if(pid == 0){ child; } else if(pid < 0){ ... exit(1); }]; the
    children end in exit(). *)
Definition spawn (child : U W Z) : U W Z :=
  pid ← fork;
  if pid =? 0 then child else
  if pid <? 0 then complain "grind: fork failed" 1 else
  mret pid.

(** what == 4 *)
Definition unlink_b : U W unit :=
  r ← chdir (bytes "grindir");
  if negb (r =? 0) then complain "grind: chdir grindir failed" 1 else
  _ ← unlink (bytes "../b");
  _ ← chdir (bytes "/");
  mret tt.

(** what == 16 *)
Definition shrink (break0 : Z) : U W unit :=
  b ← sbrk 0;
  if u64 break0 <? u64 b then
    b ← sbrk 0;
    _ ← sbrk (i32 (- (b - break0)));
    mret tt
  else mret tt.

(** what == 13, 14, 17, 18 *)
Definition fork_exit : U W unit := _ ← spawn (exit 0); _ ← wait; mret tt.
Definition fork_more : U W unit := _ ← spawn (_ ← fork; _ ← fork; exit 0); _ ← wait; mret tt.
Definition fork_kill : U W unit :=
  pid ← spawn (touch "a" ;; exit 0);
  r ← chdir (bytes "../grindir/..");
  if negb (r =? 0) then complain "grind: chdir failed" 1 else
  _ ← kill pid;
  _ ← wait;
  mret tt.
Definition fork_suicide : U W unit := _ ← spawn (p ← getpid; _ ← kill p; exit 0); _ ← wait; mret tt.

(** what == 19 *)
Definition fork_pipe : U W unit :=
  p ← pipe2;
  let '(e, (p0, p1)) := p in
  if e <? 0 then complain "grind: pipe failed" 1 else
  _ ← spawn (
    _ ← fork;
    _ ← fork;
    n ← write p1 (bytes "x");
    (if negb (n =? 1) then printf (bytes "grind: pipe write failed" ++ [10]) [] else mret tt) ;;
    r ← read p0 1;
    (if negb (snd r =? 1) then printf (bytes "grind: pipe read failed" ++ [10]) [] else mret tt) ;;
    exit 0);
  _ ← close p0;
  _ ← close p1;
  _ ← wait;
  mret tt.

(** what == 20 *)
Definition fork_dir : U W unit :=
  _ ← spawn (
    _ ← unlink (bytes "a");
    _ ← mkdir (bytes "a");
    _ ← chdir (bytes "a");
    _ ← unlink (bytes "../a");
    _ ← open (bytes "x") O_CREATE_RDWR;
    _ ← unlink (bytes "x");
    exit 0);
  _ ← wait;
  mret tt.

(** what == 21 *)
Definition check_c : U W unit :=
  _ ← unlink (bytes "c");
  fd1 ← open (bytes "c") O_CREATE_RDWR;
  if fd1 <? 0 then complain "grind: create c failed" 1 else
  n ← write fd1 (bytes "x");
  if negb (n =? 1) then complain "grind: write c failed" 1 else
  r ← fstat fd1;
  let '(st, e) := r in
  if negb (e =? 0) then complain "grind: fstat failed" 1 else
  if negb (us_size st =? 1) then
    printf (bytes "grind: fstat reports wrong size %d" ++ [10]) [AWord (i32 (us_size st))] ;; exit 1 else
  if 200 <? us_ino st then
    printf (bytes "grind: fstat reports crazy i-number %d" ++ [10]) [AWord (us_ino st)] ;; exit 1 else
  _ ← close fd1;
  _ ← unlink (bytes "c");
  mret tt.

(** what == 22: echo hi | cat, with the output of cat read from a second
    pipe. *)
Definition pipe_or_exit : U W (Z * Z) :=
  p ← pipe2;
  if fst p <? 0 then complain2 "grind: pipe failed" 1 else mret (snd p).

(** [if(dup(fd) != want){ ... exit(status); }] *)
Definition dup_or_exit (fd want status : Z) : U W unit :=
  r ← dup fd;
  if negb (r =? want) then complain2 "grind: dup failed" status else mret tt.

Definition echo_child (aa bb : Z * Z) : U W Z :=
  _ ← close (fst bb);
  _ ← close (snd bb);
  _ ← close (fst aa);
  _ ← close 1;
  dup_or_exit (snd aa) 1 1 ;;
  _ ← close (snd aa);
  _ ← exec (bytes "grindir/../echo") [bytes "echo"; bytes "hi"];
  complain2 "grind: echo: not found" 2.

Definition cat_child (aa bb : Z * Z) : U W Z :=
  _ ← close (snd aa);
  _ ← close (fst bb);
  _ ← close 0;
  dup_or_exit (fst aa) 0 4 ;;
  _ ← close (fst aa);
  _ ← close 1;
  dup_or_exit (snd bb) 1 5 ;;
  _ ← close (snd bb);
  _ ← exec (bytes "/cat") [bytes "cat"];
  complain2 "grind: cat: not found" 6.

Definition spawn_or_exit (child : U W Z) (status : Z) : U W Z :=
  pid ← fork;
  if pid =? 0 then child else
  if pid <? 0 then complain2 "grind: fork failed" status else
  mret pid.

(** One byte of the output at index [i] of buf. *)
Definition read1 (fd : Z) (i : nat) (buf : list Z) : U W (list Z) :=
  r ← read fd 1;
  mret (splice buf i (take 1 (fst r))).

Definition pipeline : U W unit :=
  aa ← pipe_or_exit;
  bb ← pipe_or_exit;
  _ ← spawn_or_exit (echo_child aa bb) 3;
  _ ← spawn_or_exit (cat_child aa bb) 7;
  _ ← close (fst aa);
  _ ← close (snd aa);
  _ ← close (snd bb);
  buf ← read1 (fst bb) 0 [0; 0; 0; 0];
  buf ← read1 (fst bb) 1 buf;
  buf ← read1 (fst bb) 2 buf;
  _ ← close (fst bb);
  st1 ← wait_st;
  st2 ← wait_st;
  if negb (st1 =? 0) || negb (st2 =? 0) || negb (Ulib.strcmp (cstring buf) (bytes "hi" ++ [10]) =? 0) then
    printf (bytes "grind: exec pipeline failed %d %d " ++ [34] ++ bytes "%s" ++ [34; 10]) [AWord st1; AWord st2; AStr (Some (cstring buf))] ;; exit 1
  else mret tt.

(** ** go(), iter(), main() *)

(** What the loop of go() carries: fd, buf and rand_next. *)
Record gstate := Gstate { g_fd : Z; g_buf : list Z; g_rand : Z }.

Definition reopen (g : gstate) (path : string) : U W gstate :=
  _ ← close (g_fd g);
  fd ← open (bytes path) O_CREATE_RDWR;
  mret (Gstate fd (g_buf g) (g_rand g)).

(** The branch of [what]. *)
Definition go_what (break0 what : Z) (g : gstate) : U W gstate :=
  let same (m : U W unit) := m ;; mret g in
  if what =? 1 then same (touch "grindir/../a")
  else if what =? 2 then same (touch "grindir/../grindir/../b")
  else if what =? 3 then same (_ ← unlink (bytes "grindir/../a"); mret tt)
  else if what =? 4 then same unlink_b
  else if what =? 5 then reopen g "/grindir/../a"
  else if what =? 6 then reopen g "/./grindir/./../b"
  else if what =? 7 then same (_ ← write (g_fd g) (g_buf g); mret tt)
  else if what =? 8 then
    r ← read (g_fd g) 999;
    mret (Gstate (g_fd g) (splice (g_buf g) 0 (fst r)) (g_rand g))
  else if what =? 9 then same (_ ← mkdir (bytes "grindir/../a"); touch "a/../a/./a" ;; _ ← unlink (bytes "a/a"); mret tt)
  else if what =? 10 then same (_ ← mkdir (bytes "/../b"); touch "grindir/../b/b" ;; _ ← unlink (bytes "b/b"); mret tt)
  else if what =? 11 then same (_ ← unlink (bytes "b"); _ ← link (bytes "../grindir/./../a") (bytes "../b"); mret tt)
  else if what =? 12 then same (_ ← unlink (bytes "../grindir/../a"); _ ← link (bytes ".././b") (bytes "/grindir/../a"); mret tt)
  else if what =? 13 then same fork_exit
  else if what =? 14 then same fork_more
  else if what =? 15 then same (_ ← sbrk 6011; mret tt)
  else if what =? 16 then same (shrink break0)
  else if what =? 17 then same fork_kill
  else if what =? 18 then same fork_suicide
  else if what =? 19 then same fork_pipe
  else if what =? 20 then same fork_dir
  else if what =? 21 then same check_c
  else if what =? 22 then same pipeline
  else mret g.

(** [while(1)]: [fuel] rounds, the first of them number [iters] + 1. *)
Fixpoint go_loop (fuel : nat) (which_child break0 iters : Z) (g : gstate) : U W unit :=
  match fuel with
  | O => fun _ => UHang
  | S k =>
      let iters := u64 (iters + 1) in
      (if iters `mod` 500 =? 0 then _ ← write 1 (if negb (which_child =? 0) then bytes "B" else bytes "A"); mret tt else mret tt) ;;
      let '(x, next) := rand (g_rand g) in
      let what := x `mod` 23 in
      g ← go_what break0 what (Gstate (g_fd g) (g_buf g) next);
      go_loop k which_child break0 iters g
  end.

Definition go (fuel : nat) (which_child rand_next : Z) : U W unit :=
  break0 ← sbrk 0;
  _ ← mkdir (bytes "grindir");
  r ← chdir (bytes "grindir");
  if negb (r =? 0) then complain "grind: chdir grindir failed" 1 else
  _ ← chdir (bytes "/");
  go_loop fuel which_child break0 0 (Gstate (-1) (replicate 999 0) rand_next).

Definition iter (fuel : nat) : U W unit :=
  _ ← unlink (bytes "a");
  _ ← unlink (bytes "b");
  pid1 ← fork;
  if pid1 <? 0 then complain "grind: fork failed" 1 else
  if pid1 =? 0 then go fuel 0 31 ;; exit 0 else
  pid2 ← fork;
  if pid2 <? 0 then complain "grind: fork failed" 1 else
  if pid2 =? 0 then go fuel 1 7177 ;; exit 0 else
  r ← wait_status;
  (if negb (default (-1) (snd r) =? 0) then _ ← kill pid1; _ ← kill pid2; mret tt else mret tt) ;;
  _ ← wait_status;
  exit 0.

(** [rounds] rounds of main(), each with its bound for go(). *)
Fixpoint main (rounds fuel : nat) : U W unit :=
  match rounds with
  | O => fun _ => UHang
  | S k =>
      pid ← fork;
      if pid =? 0 then iter fuel ;; exit 0 else
      (if 0 <? pid then _ ← wait; mret tt else mret tt) ;;
      _ ← usleep 20;
      main k fuel
  end.

End Calls.

(** ** The generator is that of Park and Miller *)

Lemma rand_start_range ctx : 1 <= rand_start ctx <= 0x7ffffffe.
Proof. unfold rand_start. pose proof (Z.mod_pos_bound ctx 0x7ffffffe ltac:(lia)). lia. Qed.

(** Schrage's decomposition: the step is 16807 x up to a multiple of 2^31 - 1,
    and stays within 31 bits. *)
Lemma rand_step_spec x : 1 <= x <= 0x7ffffffe ->
  rand_step x = 16807 * x - (x / 127773) * 0x7fffffff /\ - 0x7fffffff < rand_step x < 0x7fffffff.
Proof.
  intros H. unfold rand_step. rewrite Z.quot_div_nonneg, Z.rem_mod_nonneg by lia.
  pose proof (Z.div_mod x 127773 ltac:(lia)). pose proof (Z.mod_pos_bound x 127773 ltac:(lia)).
  assert (0 <= x / 127773 < 16808) by (split; [apply Z.div_pos; lia|apply Z.div_lt_upper_bound; lia]). lia.
Qed.

Lemma rand_coprime : Z.gcd 0x7fffffff 16807 = 1.
Proof. by vm_compute. Qed.

(** No number of the range is taken to a multiple of 2^31 - 1. *)
Lemma rand_nonzero x : 1 <= x <= 0x7ffffffe -> (16807 * x) mod 0x7fffffff <> 0.
Proof.
  intros H E. apply Z.mod_divide in E; [|lia]. pose proof (Z.gauss _ _ _ E rand_coprime) as G. apply Z.divide_pos_le in G; lia.
Qed.

Lemma do_rand_mod ctx : do_rand ctx = (16807 * rand_start ctx) mod 0x7fffffff - 1.
Proof.
  pose proof (rand_start_range ctx) as H. unfold do_rand. set (x := rand_start ctx) in *. destruct (rand_step_spec x H) as [E B]. pose proof (rand_nonzero x H) as N.
  destruct (Z.ltb_spec (rand_step x) 0) as [L|L].
  - rewrite <- (Z.mod_unique (16807 * x) 0x7fffffff (x / 127773 - 1) (rand_step x + 0x7fffffff)); [done|lia|lia].
  - rewrite <- (Z.mod_unique (16807 * x) 0x7fffffff (x / 127773) (rand_step x)); [done|lia|lia].
Qed.

Lemma rand_injective x y : 1 <= x <= 0x7ffffffe -> 1 <= y <= 0x7ffffffe ->
  (16807 * x) mod 0x7fffffff - 1 = (16807 * y) mod 0x7fffffff - 1 -> x = y.
Proof.
  intros Hx Hy E. assert (G : (0x7fffffff | 16807 * (x - y))).
  { apply Z.mod_divide; [lia|]. rewrite Z.mul_sub_distr_l, Zminus_mod. replace ((16807 * x) mod 0x7fffffff) with ((16807 * y) mod 0x7fffffff) by lia.
    by rewrite Z.sub_diag. }
  destruct (Z.gauss _ _ _ G rand_coprime) as [q Hq]. assert (q = 0) by nia. lia.
Qed.

(** do_rand() computes x -> 7^5 x mod (2^31 - 1) on the numbers 1 to 2^31 - 2, in its
    range moved down by one: the result is between 0 and 0x7ffffffd, no intermediate value
    leaves 31 bits and a sign, and no two contexts of the range have the same successor, so the
    generator never leaves its cycle. *)
Theorem do_rand_correct (ctx : Z) :
  do_rand ctx = (7 ^ 5 * (ctx mod 0x7ffffffe + 1)) mod (2 ^ 31 - 1) - 1 /\
  0 <= do_rand ctx <= 0x7ffffffd /\
  (- 2 ^ 31 < rand_step (rand_start ctx) < 2 ^ 31) /\
  forall ctx', 0 <= ctx <= 0x7ffffffd -> 0 <= ctx' <= 0x7ffffffd -> do_rand ctx = do_rand ctx' -> ctx = ctx'.
Proof.
  pose proof (rand_start_range ctx) as H. destruct (rand_step_spec _ H) as [_ B]. pose proof (rand_nonzero _ H) as N.
  pose proof (Z.mod_pos_bound (16807 * rand_start ctx) 0x7fffffff ltac:(lia)) as M. rewrite do_rand_mod. split_and!; [done|lia..|].
  intros ctx' H1 H2 E. rewrite do_rand_mod in E. unfold rand_start in E. rewrite !(Z.mod_small ctx), !(Z.mod_small ctx') in E by lia.
  apply (rand_injective (ctx + 1) (ctx' + 1)) in E; lia.
Qed.

Lemma do_rand_correct_witness : do_rand 1 = 33613 /\ (do_rand 1 = do_rand 1 -> 1 = 1).
Proof.
  destruct (do_rand_correct 1) as (E & _ & _ & I). split; [rewrite E; by vm_compute|]. intros H. apply (I 1); [lia|lia|exact H].
Defined.
