(* ===== verification/UtMem.v ===== *)
(** * The kernel tests: memory (user/usertests.c)

    The interface of a process to its memory, the control operators the tests
    are written with, and the tests that pass wild pointers to the system calls,
    move the break and run the kernel out of memory. *)

From stdpp Require Import base numbers list list_numbers gmap strings.
From Stdlib Require Import ZArith Lia.
From S2P Require Import Prelude.
From S2P Require Import Mem.
From S2P Require Import Machine.
From S2P Require Import Kalloc.
From S2P Require Import Kern.
From S2P Require Import User.
From S2P Require Import Umalloc.

Local Open Scope Z_scope.

(** ** The memory of the process *)

(** A char * argument: a string of the program, or an address. *)
Inductive cstr := Lit (s : list Z) | At (a : Z).

(** Loads and stores, and the system calls with an address in place of a
    buffer or a string.  A load or store that faults ends the process: the
    kernel kills it. *)
Class UMem (W : Type) := {
  load8 : Z -> U W Z;
  store8 : Z -> Z -> U W unit;
  write_at : Z -> Z -> Z -> U W Z;
  read_at : Z -> Z -> Z -> U W Z;
  open_at : cstr -> Z -> U W Z;
  unlink_at : cstr -> U W Z;
  link_at : cstr -> cstr -> U W Z;
  exec_at : cstr -> list cstr -> U W Z;
  pipe_at : Z -> U W Z;
  r_sp : U W Z;
  (** the address of the array uninit *)
  uninit : Z
}.

(** ** Control *)

Definition ln (s : string) : list Z := bytes s ++ [10].
Definition idx (b : list Z) (i : Z) : Z := nth (Z.to_nat i) b 0.

(** The values of i in [for(i = lo; i < hi; i += step)]. *)
Definition range (lo hi step : Z) : list Z := (fun k => lo + step * k) <$> seqZ 0 ((hi - lo + step - 1) / step).

(** char buf[BUFSZ]: a test runs in a process of its own, where buf starts out
    zero. *)
Definition BUFSZ : Z := (MAXOPBLOCKS + 2) * BSIZE.
Definition buf0 : list Z := replicate (Z.to_nat BUFSZ) 0.

Definition NOADDR : Z := 0xffffffffffffffff.

Section Control.
Context {W : Type} {SY : Sys W}.
Import Printf.

Fixpoint for_in {T} (l : list T) (body : T -> U W unit) : U W unit :=
  match l with
  | [] => mret tt
  | i :: l => body i ;; for_in l body
  end.

Fixpoint fold_in {T A} (l : list T) (a : A) (body : T -> A -> U W A) : U W A :=
  match l with
  | [] => mret a
  | i :: l => a ← body i a; fold_in l a body
  end.

(** A loop of at most [fuel] rounds: [inl] goes on, [inr] leaves it. *)
Fixpoint loop {A B} (fuel : nat) (body : A -> U W (A + B)) (a : A) : U W B :=
  match fuel with
  | O => fun _ => UHang
  | S k =>
      r ← body a;
      match r with
      | inl a => loop k body a
      | inr b => mret b
      end
  end.

Definition str (s : list Z) : arg := AStr (Some s).
Definition die {A} (fmt : list Z) (ap : list arg) : U W A := printf fmt ap ;; exit 1.
Definition die_if (b : bool) (fmt : list Z) (ap : list arg) : U W unit := if b then die fmt ap else mret tt.
Definition exit_if (b : bool) (status : Z) : U W unit := if b then exit status else mret tt.

(** sbrk() as an address. *)
Definition sbrkp (n : Z) : U W Z := a ← sbrk n; mret (u64 a).

End Control.

(** ** Wild pointers *)

Section Tests.
Context {W : Type} {SY : Sys W} {UM : UMem W}.
Import Printf.

(** The bound of the loops that have none. *)
Context (fuel : nat).

Definition wild : list Z := [0x80000000; NOADDR].

Definition copyin (s : list Z) : U W unit :=
  for_in wild (fun addr =>
    fd ← open (bytes "copyin1") (Z.lor O_CREATE O_WRONLY);
    die_if (fd <? 0) (ln "open(copyin1) failed") [] ;;
    n ← write_at fd addr 8192;
    die_if (0 <=? n) (ln "write(fd, %p, 8192) returned %d, not -1") [AWord addr; AWord n] ;;
    _ ← close fd;
    _ ← unlink (bytes "copyin1");
    n ← write_at 1 addr 8192;
    die_if (0 <? n) (ln "write(1, %p, 8192) returned %d, not -1 or 0") [AWord addr; AWord n] ;;
    p ← pipe2;
    let '(e, (fds0, fds1)) := p in
    die_if (e <? 0) (ln "pipe() failed") [] ;;
    n ← write_at fds1 addr 8192;
    die_if (0 <? n) (ln "write(pipe, %p, 8192) returned %d, not -1 or 0") [AWord addr; AWord n] ;;
    _ ← close fds0;
    _ ← close fds1;
    mret tt).

Definition copyout (s : list Z) : U W unit :=
  for_in wild (fun addr =>
    fd ← open (bytes "README") 0;
    die_if (fd <? 0) (ln "open(README) failed") [] ;;
    n ← read_at fd addr 8192;
    die_if (0 <? n) (ln "read(fd, %p, 8192) returned %d, not -1 or 0") [AWord addr; AWord n] ;;
    _ ← close fd;
    p ← pipe2;
    let '(e, (fds0, fds1)) := p in
    die_if (e <? 0) (ln "pipe() failed") [] ;;
    n ← write fds1 (bytes "x");
    die_if (negb (n =? 1)) (ln "pipe write failed") [] ;;
    n ← read_at fds0 addr 8192;
    die_if (0 <? n) (ln "read(pipe, %p, 8192) returned %d, not -1 or 0") [AWord addr; AWord n] ;;
    _ ← close fds0;
    _ ← close fds1;
    mret tt).

Definition copyinstr1 (s : list Z) : U W unit :=
  for_in wild (fun addr =>
    fd ← open_at (At addr) (Z.lor O_CREATE O_WRONLY);
    die_if (0 <=? fd) (ln "open(%p) returned %d, not -1") [AWord addr; AWord fd]).

(** The messages about exec() print fd. *)
Definition copyinstr2 (s : list Z) : U W unit :=
  let b := replicate (Z.to_nat MAXPATH) 120 in
  ret ← unlink b;
  die_if (negb (ret =? -1)) (ln "unlink(%s) returned %d, not -1") [str b; AWord ret] ;;
  fd ← open b (Z.lor O_CREATE O_WRONLY);
  die_if (negb (fd =? -1)) (ln "open(%s) returned %d, not -1") [str b; AWord fd] ;;
  ret ← link b b;
  die_if (negb (ret =? -1)) (ln "link(%s, %s) returned %d, not -1") [str b; str b; AWord ret] ;;
  ret ← exec b [bytes "xx"];
  die_if (negb (ret =? -1)) (ln "exec(%s) returned %d, not -1") [str b; AWord fd] ;;
  pid ← fork;
  die_if (pid <? 0) (ln "fork failed") [] ;;
  (if pid =? 0 then
     let big := replicate (Z.to_nat PGSIZE) 120 in
     ret ← exec (bytes "echo") [big; big; big];
     die_if (negb (ret =? -1)) (ln "exec(echo, BIG) returned %d, not -1") [AWord fd] ;;
     exit 747
   else mret tt) ;;
  r ← wait_status;
  let st := default 0 (snd r) in
  die_if (negb (st =? 747)) (ln "exec(echo, BIG) succeeded, should have failed") [].

(** printf("%s") of the string at an address. *)
Definition puts_at (a : Z) : U W unit :=
  loop fuel (fun p =>
    c ← load8 p;
    if c =? 0 then mret (inr tt) else putc 1 c ;; mret (inl (u64 (p + 1)))) a.

(** [if(r != -1){ printf("<call>(%s...) returned %d, not -1\n", b, ..., shown); exit(1); }] *)
Definition refuse (call : string) (args : list Z) (r shown : Z) : U W unit :=
  if r =? -1 then mret tt else
  printf (bytes call) [] ;;
  (match args with
   | [] => mret tt
   | b :: bs => puts_at b ;; for_in bs (fun b => printf (bytes ", ") [] ;; puts_at b)
   end) ;;
  die (ln ") returned %d, not -1") [AWord shown].

Definition copyinstr3 (s : list Z) : U W unit :=
  _ ← sbrkp 8192;
  top ← sbrkp 0;
  (if negb (top `mod` PGSIZE =? 0) then _ ← sbrkp (PGSIZE - top `mod` PGSIZE); mret tt else mret tt) ;;
  top ← sbrkp 0;
  die_if (negb (top `mod` PGSIZE =? 0)) (ln "oops") [] ;;
  let b := u64 (top - 1) in
  store8 b 120 ;;
  ret ← unlink_at (At b);
  refuse "unlink(" [b] ret ret ;;
  fd ← open_at (At b) (Z.lor O_CREATE O_WRONLY);
  refuse "open(" [b] fd fd ;;
  ret ← link_at (At b) (At b);
  refuse "link(" [b; b] ret ret ;;
  ret ← exec_at (At b) [Lit (bytes "xx")];
  refuse "exec(" [b] ret fd.

Definition rwsbrk (s : list Z) : U W unit :=
  a ← sbrkp 8192;
  die_if (a =? NOADDR) (ln "sbrk(rwsbrk) failed") [] ;;
  a' ← sbrkp (-8192);
  die_if (a' =? NOADDR) (ln "sbrk(rwsbrk) shrink failed") [] ;;
  fd ← open (bytes "rwsbrk") (Z.lor O_CREATE O_WRONLY);
  die_if (fd <? 0) (ln "open(rwsbrk) failed") [] ;;
  n ← write_at fd (u64 (a + 4096)) 1024;
  die_if (0 <=? n) (ln "write(fd, %p, 1024) returned %d, not -1") [AWord (u64 (a + 4096)); AWord n] ;;
  _ ← close fd;
  _ ← unlink (bytes "rwsbrk");
  fd ← open (bytes "README") O_RDONLY;
  die_if (fd <? 0) (ln "open(rwsbrk) failed") [] ;;
  n ← read_at fd (u64 (a + 4096)) 10;
  die_if (0 <=? n) (ln "read(fd, %p, 10) returned %d, not -1") [AWord (u64 (a + 4096)); AWord n] ;;
  _ ← close fd;
  exit 0.

(** ** The break *)

(** The failing printf() of the loop has no argument for its %s. *)
Definition sbrkbasic (s : list Z) : U W unit :=
  let TOOMUCH := 1024 * 1024 * 1024 in
  pid ← fork;
  die_if (pid <? 0) (ln "fork failed in sbrkbasic") [] ;;
  (if pid =? 0 then
     a ← sbrkp TOOMUCH;
     exit_if (a =? NOADDR) 0 ;;
     for_in (range a (a + TOOMUCH) 4096) (fun b => store8 b 99) ;;
     exit 1
   else mret tt) ;;
  xstatus ← wait_st;
  die_if (xstatus =? 1) (ln "%s: too much memory allocated!") [str s] ;;
  a ← sbrkp 0;
  a ← fold_in (range 0 5000 1) a (fun i a =>
    b ← sbrkp 1;
    die_if (negb (b =? a)) (ln "%s: sbrk test failed %d %x %x") [AWord i; AWord a; AWord b] ;;
    store8 b 1 ;;
    mret (u64 (b + 1)));
  pid ← fork;
  die_if (pid <? 0) (ln "%s: sbrk test fork failed") [str s] ;;
  _ ← sbrkp 1;
  c ← sbrkp 1;
  die_if (negb (c =? u64 (a + 1))) (ln "%s: sbrk test failed post-fork") [str s] ;;
  exit_if (pid =? 0) 0 ;;
  xstatus ← wait_st;
  exit xstatus.

Definition sbrkmuch (s : list Z) : U W unit :=
  let BIG := 100 * 1024 * 1024 in
  oldbrk ← sbrkp 0;
  a ← sbrkp 0;
  let amt := u64 (BIG - a) in
  p ← sbrkp (i32 amt);
  die_if (negb (p =? a)) (ln "%s: sbrk test failed to grow big address space; enough phys mem?") [str s] ;;
  eee ← sbrkp 0;
  for_in (range a eee 4096) (fun pp => store8 pp 1) ;;
  let lastaddr := BIG - 1 in
  store8 lastaddr 99 ;;
  a ← sbrkp 0;
  c ← sbrkp (- PGSIZE);
  die_if (c =? NOADDR) (ln "%s: sbrk could not deallocate") [str s] ;;
  c ← sbrkp 0;
  die_if (negb (c =? u64 (a - PGSIZE))) (ln "%s: sbrk deallocation produced wrong address, a %x c %x") [str s; AWord a; AWord c] ;;
  a ← sbrkp 0;
  c ← sbrkp PGSIZE;
  bad ← (if negb (c =? a) then mret true else b ← sbrkp 0; mret (negb (b =? u64 (a + PGSIZE))));
  die_if bad (ln "%s: sbrk re-allocation failed, a %x c %x") [str s; AWord a; AWord c] ;;
  v ← load8 lastaddr;
  die_if (v =? 99) (ln "%s: sbrk de-allocation didn't really deallocate") [str s] ;;
  a ← sbrkp 0;
  b ← sbrkp 0;
  c ← sbrkp (i32 (- (b - oldbrk)));
  die_if (negb (c =? a)) (ln "%s: sbrk downsize failed, a %x c %x") [str s; AWord a; AWord c].

Definition kernmem (s : list Z) : U W unit :=
  for_in (range KERNBASE (KERNBASE + 2000000) 50000) (fun a =>
    pid ← fork;
    die_if (pid <? 0) (ln "%s: fork failed") [str s] ;;
    (if pid =? 0 then
       v ← load8 a;
       die (ln "%s: oops could read %x = %x") [str s; AWord a; AWord v]
     else mret tt) ;;
    xstatus ← wait_st;
    exit_if (negb (xstatus =? -1)) 1).

Definition sbrkfail (s : list Z) : U W unit :=
  let BIG := 100 * 1024 * 1024 in
  p ← pipe2;
  let '(e, (fds0, fds1)) := p in
  die_if (negb (e =? 0)) (ln "%s: pipe() failed") [str s] ;;
  pids ← fold_in (range 0 10 1) [] (fun i pids =>
    pid ← fork;
    (if pid =? 0 then
       b ← sbrkp 0;
       _ ← sbrkp (i32 (BIG - b));
       _ ← write fds1 (bytes "x");
       loop fuel (fun _ => _ ← usleep 1000; mret (inl tt)) tt
     else mret tt) ;;
    (if negb (pid =? -1) then _ ← read fds0 1; mret tt else mret tt) ;;
    mret (pids ++ [pid]));
  c ← sbrkp PGSIZE;
  for_in pids (fun pid =>
    if pid =? -1 then mret tt else
    _ ← kill pid;
    _ ← wait;
    mret tt) ;;
  die_if (c =? NOADDR) (ln "%s: failed sbrk leaked memory") [str s] ;;
  pid ← fork;
  die_if (pid <? 0) (ln "%s: fork failed") [str s] ;;
  (if pid =? 0 then
     a ← sbrkp 0;
     _ ← sbrkp (10 * BIG);
     n ← fold_in (range 0 (10 * BIG) PGSIZE) 0 (fun i n => v ← load8 (u64 (a + i)); mret (i32 (n + v)));
     die (ln "%s: allocate a lot of memory succeeded %d") [str s; AWord n]
   else mret tt) ;;
  xstatus ← wait_st;
  exit_if (negb (xstatus =? -1) && negb (xstatus =? 2)) 1.

Definition sbrkarg (s : list Z) : U W unit :=
  a ← sbrkp PGSIZE;
  fd ← open (bytes "sbrk") (Z.lor O_CREATE O_WRONLY);
  _ ← unlink (bytes "sbrk");
  die_if (fd <? 0) (ln "%s: open sbrk failed") [str s] ;;
  n ← write_at fd a PGSIZE;
  die_if (n <? 0) (ln "%s: write sbrk failed") [str s] ;;
  _ ← close fd;
  a ← sbrkp PGSIZE;
  r ← pipe_at a;
  die_if (negb (r =? 0)) (ln "%s: pipe() failed") [str s].

Definition validatetest (s : list Z) : U W unit :=
  let hi := 1100 * 1024 in
  for_in (range 0 (hi + 1) PGSIZE) (fun p =>
    r ← link_at (Lit (bytes "nosuchfile")) (At p);
    die_if (negb (r =? -1)) (ln "%s: link should not succeed") [str s]).

Definition bsstest (s : list Z) : U W unit :=
  for_in (range 0 10000 1) (fun i =>
    c ← load8 (uninit + i);
    die_if (negb (c =? 0)) (ln "%s: bss test failed") [str s]).

Definition argptest (s : list Z) : U W unit :=
  fd ← open (bytes "init") O_RDONLY;
  die_if (fd <? 0) (ln "%s: open failed") [str s] ;;
  b ← sbrkp 0;
  _ ← read_at fd (u64 (b - 1)) (-1);
  _ ← close fd;
  mret tt.

Definition stacktest (s : list Z) : U W unit :=
  pid ← fork;
  (if pid =? 0 then
     sp ← r_sp;
     let sp := u64 (sp - PGSIZE) in
     v ← load8 sp;
     die (ln "%s: stacktest: read below stack %p") [str s; AWord v]
   else die_if (pid <? 0) (ln "%s: fork failed") [str s]) ;;
  xstatus ← wait_st;
  if xstatus =? -1 then exit 0 else exit xstatus.

Definition pgbug (s : list Z) : U W unit :=
  _ ← exec_at (At 0xeaeb0b5b00002f5e) [];
  _ ← pipe_at 0xeaeb0b5b00002f5e;
  exit 0.

(** After the break is set to 0 there is no instruction left to run: that
    sbrk() ends the process. *)
Definition sbrkbugs (s : list Z) : U W unit :=
  pid ← fork;
  die_if (pid <? 0) (ln "fork failed") [] ;;
  (if pid =? 0 then
     b ← sbrkp 0;
     let sz := i32 b in
     _ ← sbrkp (i32 (- sz));
     exit 0
   else mret tt) ;;
  _ ← wait;
  pid ← fork;
  die_if (pid <? 0) (ln "fork failed") [] ;;
  (if pid =? 0 then
     b ← sbrkp 0;
     let sz := i32 b in
     _ ← sbrkp (i32 (- (sz - 3500)));
     exit 0
   else mret tt) ;;
  _ ← wait;
  pid ← fork;
  die_if (pid <? 0) (ln "fork failed") [] ;;
  (if pid =? 0 then
     b ← sbrkp 0;
     _ ← sbrkp (i32 ((10 * 4096 + 2048) - b));
     _ ← sbrkp (-10);
     exit 0
   else mret tt) ;;
  _ ← wait;
  exit 0.

(** ** Running out *)

(** The chain of blocks that the first loop of mem() builds in the heap, and the
    loop that frees it; nothing has called malloc() before. *)
Definition mem_fill {BS : Base} (h : heap) : U W (Z * heap) :=
  loop fuel (fun '(m1, h) =>
    r ← malloc fuel 10001 h;
    let '(m2, h) := r in
    if m2 =? 0 then mret (inr (m1, h))
    else mret (inl (m2, Heap (st64 (hp_mem h) m2 m1) (hp_freep h)))) (0, h).
Definition mem_drain {BS : Base} (m1 : Z) (h : heap) : U W heap :=
  loop fuel (fun '(m1, h) =>
    if m1 =? 0 then mret (inr h) else
    let m2 := ld64 (hp_mem h) m1 in
    h ← free fuel m1 h;
    mret (inl (m2, h))) (m1, h).

Definition mem {BS : Base} (m0 : Mem.mem) (s : list Z) : U W unit :=
  pid ← fork;
  if pid =? 0 then
    r ← mem_fill (Heap m0 0);
    h ← mem_drain (fst r) (snd r);
    r ← malloc fuel (1024 * 20) h;
    let '(m1, h) := r in
    die_if (m1 =? 0) (ln "couldn't allocate mem?!!") [str s] ;;
    _ ← free fuel m1 h;
    exit 0
  else
    xstatus ← wait_st;
    exit_if (xstatus =? -1) 0 ;;
    exit xstatus.

Definition bigarg : list Z := ln "bigargs test: failed" ++ replicate 199 32.

Definition bigargtest (s : list Z) : U W unit :=
  _ ← unlink (bytes "bigarg-ok");
  pid ← fork;
  (if pid =? 0 then
     _ ← exec (bytes "echo") (replicate (Z.to_nat (MAXARG - 1)) bigarg);
     fd ← open (bytes "bigarg-ok") O_CREATE;
     _ ← close fd;
     exit 0
   else die_if (pid <? 0) (ln "%s: bigargtest: fork failed") [str s]) ;;
  xstatus ← wait_st;
  exit_if (negb (xstatus =? 0)) xstatus ;;
  fd ← open (bytes "bigarg-ok") 0;
  die_if (fd <? 0) (ln "%s: bigarg test failed!") [str s] ;;
  _ ← close fd;
  mret tt.

Definition badwrite (s : list Z) : U W unit :=
  let assumed_free := 600 in
  _ ← unlink (bytes "junk");
  for_in (range 0 assumed_free 1) (fun _ =>
    fd ← open (bytes "junk") (Z.lor O_CREATE O_WRONLY);
    die_if (fd <? 0) (ln "open junk failed") [] ;;
    _ ← write_at fd 0xffffffffff 1;
    _ ← close fd;
    _ ← unlink (bytes "junk");
    mret tt) ;;
  fd ← open (bytes "junk") (Z.lor O_CREATE O_WRONLY);
  die_if (fd <? 0) (ln "open junk failed") [] ;;
  n ← write fd (bytes "x");
  die_if (negb (n =? 1)) (ln "write failed") [] ;;
  _ ← close fd;
  _ ← unlink (bytes "junk");
  exit 0.

Definition badarg (s : list Z) : U W unit :=
  for_in (range 0 50000 1) (fun _ =>
    _ ← exec_at (Lit (bytes "echo")) [At 0xffffffff];
    mret tt) ;;
  exit 0.

Definition execout (s : list Z) : U W unit :=
  for_in (range 0 15 1) (fun avail =>
    pid ← fork;
    if pid <? 0 then die (ln "fork failed") []
    else if pid =? 0 then
      loop fuel (fun _ =>
        a ← sbrkp 4096;
        if a =? NOADDR then mret (inr tt) else
        store8 (u64 (a + 4096 - 1)) 1 ;;
        mret (inl tt)) tt ;;
      for_in (range 0 avail 1) (fun _ => _ ← sbrkp (-4096); mret tt) ;;
      _ ← close 1;
      _ ← exec (bytes "echo") [bytes "echo"; bytes "x"];
      exit 0
    else _ ← wait; mret tt) ;;
  exit 0.

End Tests.
