(* ===== verification/UtFs.v ===== *)
(** * The kernel tests: the file system (user/usertests.c)

    The tests of open(), read(), write(), link(), unlink(), mkdir() and chdir(),
    by one process and by several at a time. *)

From stdpp Require Import base numbers list list_numbers gmap strings.
From Stdlib Require Import ZArith Lia.
From S2P Require Import Prelude.
From S2P Require Import Machine.
From S2P Require Import Kern.
From S2P Require Import User.
From S2P Require Import UtMem.

Local Open Scope Z_scope.

Section Tests.
Context {W : Type} {SY : Sys W}.
Import Printf.

(** The bound of the loops that have none. *)
Context (fuel : nat).

(** [if(b){ printf(fmt, s); exit(1); }] *)
Definition bad (s : list Z) (b : bool) (fmt : string) : U W unit := die_if b (ln fmt) [str s].
(** The same with a format that has no newline. *)
Definition bad0 (s : list Z) (b : bool) (fmt : string) : U W unit := die_if b (bytes fmt) [str s].

Definition rdwr : Z := Z.lor O_CREATE O_RDWR.

(** close(open(path, mode)) *)
Definition poke (path : list Z) (mode : Z) : U W unit :=
  fd ← open path mode;
  _ ← close fd;
  mret tt.

(** ** Truncation *)

Definition truncate1 (s : list Z) : U W unit :=
  let want n m := die_if (negb (n =? m)) (ln "%s: read %d bytes, wanted %d") [str s; AWord n; AWord m] in
  let f := bytes "truncfile" in
  _ ← unlink f;
  fd1 ← open f (Z.lor (Z.lor O_CREATE O_WRONLY) O_TRUNC);
  _ ← write fd1 (bytes "abcd");
  _ ← close fd1;
  fd2 ← open f O_RDONLY;
  r ← read fd2 32;
  want (snd r) 4 ;;
  fd1 ← open f (Z.lor O_WRONLY O_TRUNC);
  fd3 ← open f O_RDONLY;
  r ← read fd3 32;
  (if negb (snd r =? 0) then printf (ln "aaa fd3=%d") [AWord fd3] else mret tt) ;;
  want (snd r) 0 ;;
  r ← read fd2 32;
  (if negb (snd r =? 0) then printf (ln "bbb fd2=%d") [AWord fd2] else mret tt) ;;
  want (snd r) 0 ;;
  _ ← write fd1 (bytes "abcdef");
  r ← read fd3 32;
  want (snd r) 6 ;;
  r ← read fd2 32;
  want (snd r) 2 ;;
  _ ← unlink f;
  _ ← close fd1;
  _ ← close fd2;
  _ ← close fd3;
  mret tt.

Definition truncate2 (s : list Z) : U W unit :=
  let f := bytes "truncfile" in
  _ ← unlink f;
  fd1 ← open f (Z.lor (Z.lor O_CREATE O_TRUNC) O_WRONLY);
  _ ← write fd1 (bytes "abcd");
  fd2 ← open f (Z.lor O_TRUNC O_WRONLY);
  n ← write fd1 (bytes "x");
  die_if (negb (n =? -1)) (ln "%s: write returned %d, expected -1") [str s; AWord n] ;;
  _ ← unlink f;
  _ ← close fd1;
  _ ← close fd2;
  mret tt.

Definition truncate3 (s : list Z) : U W unit :=
  let f := bytes "truncfile" in
  poke f (Z.lor (Z.lor O_CREATE O_TRUNC) O_WRONLY) ;;
  pid ← fork;
  bad s (pid <? 0) "%s: fork failed" ;;
  (if pid =? 0 then
     for_in (range 0 100 1) (fun _ =>
       fd ← open f O_WRONLY;
       bad s (fd <? 0) "%s: open failed" ;;
       n ← write fd (bytes "1234567890");
       die_if (negb (n =? 10)) (ln "%s: write got %d, expected 10") [str s; AWord n] ;;
       _ ← close fd;
       fd ← open f O_RDONLY;
       _ ← read fd 32;
       _ ← close fd;
       mret tt) ;;
     exit 0
   else mret tt) ;;
  for_in (range 0 150 1) (fun _ =>
    fd ← open f (Z.lor (Z.lor O_CREATE O_WRONLY) O_TRUNC);
    bad s (fd <? 0) "%s: open failed" ;;
    n ← write fd (bytes "xxx");
    die_if (negb (n =? 3)) (ln "%s: write got %d, expected 3") [str s; AWord n] ;;
    _ ← close fd;
    mret tt) ;;
  r ← wait_status;
  _ ← unlink f;
  match snd r with Some xstatus => exit xstatus | None => undefined end.

(** ** Directories and transactions *)

Definition iputtest (s : list Z) : U W unit :=
  r ← mkdir (bytes "iputdir");
  bad s (r <? 0) "%s: mkdir failed" ;;
  r ← chdir (bytes "iputdir");
  bad s (r <? 0) "%s: chdir iputdir failed" ;;
  r ← unlink (bytes "../iputdir");
  bad s (r <? 0) "%s: unlink ../iputdir failed" ;;
  r ← chdir (bytes "/");
  bad s (r <? 0) "%s: chdir / failed".

Definition exitiputtest (s : list Z) : U W unit :=
  pid ← fork;
  bad s (pid <? 0) "%s: fork failed" ;;
  (if pid =? 0 then
     r ← mkdir (bytes "iputdir");
     bad s (r <? 0) "%s: mkdir failed" ;;
     r ← chdir (bytes "iputdir");
     bad s (r <? 0) "%s: child chdir failed" ;;
     r ← unlink (bytes "../iputdir");
     bad s (r <? 0) "%s: unlink ../iputdir failed" ;;
     exit 0
   else mret tt) ;;
  xstatus ← wait_st;
  exit xstatus.

Definition openiputtest (s : list Z) : U W unit :=
  r ← mkdir (bytes "oidir");
  bad s (r <? 0) "%s: mkdir oidir failed" ;;
  pid ← fork;
  bad s (pid <? 0) "%s: fork failed" ;;
  (if pid =? 0 then
     fd ← open (bytes "oidir") O_RDWR;
     bad s (0 <=? fd) "%s: open directory for write succeeded" ;;
     exit 0
   else mret tt) ;;
  _ ← usleep 1;
  r ← unlink (bytes "oidir");
  bad s (negb (r =? 0)) "%s: unlink failed" ;;
  xstatus ← wait_st;
  exit xstatus.

Definition opentest (s : list Z) : U W unit :=
  fd ← open (bytes "echo") 0;
  bad s (fd <? 0) "%s: open echo failed!" ;;
  _ ← close fd;
  fd ← open (bytes "doesnotexist") 0;
  bad s (0 <=? fd) "%s: open doesnotexist succeeded!".

Definition dirtest (s : list Z) : U W unit :=
  r ← mkdir (bytes "dir0");
  bad s (r <? 0) "%s: mkdir failed" ;;
  r ← chdir (bytes "dir0");
  bad s (r <? 0) "%s: chdir dir0 failed" ;;
  r ← chdir (bytes "..");
  bad s (r <? 0) "%s: chdir .. failed" ;;
  r ← unlink (bytes "dir0");
  bad s (r <? 0) "%s: unlink dir0 failed".

(** ** Reading and writing *)

Definition writetest (s : list Z) : U W unit :=
  let N := 100 in
  let SZ := 10 in
  fd ← open (bytes "small") rdwr;
  bad s (fd <? 0) "%s: error: creat small failed!" ;;
  for_in (range 0 N 1) (fun i =>
    n ← write fd (bytes "aaaaaaaaaa");
    die_if (negb (n =? SZ)) (ln "%s: error: write aa %d new file failed") [str s; AWord i] ;;
    n ← write fd (bytes "bbbbbbbbbb");
    die_if (negb (n =? SZ)) (ln "%s: error: write bb %d new file failed") [str s; AWord i]) ;;
  _ ← close fd;
  fd ← open (bytes "small") O_RDONLY;
  bad s (fd <? 0) "%s: error: open small failed!" ;;
  r ← read fd (N * SZ * 2);
  bad s (negb (snd r =? N * SZ * 2)) "%s: read failed" ;;
  _ ← close fd;
  r ← unlink (bytes "small");
  bad s (r <? 0) "%s: unlink small failed".

(** The first int of buf. *)
Definition int0 (buf : list Z) : Z := i32 (le_dec (take 4 buf)).

(** The loop that reads big back, a block at a time. *)
Definition writebig_read (s : list Z) (fd : Z) (buf : list Z) : U W unit :=
  loop fuel (fun '(buf, n) =>
    r ← read fd BSIZE;
    let '(bs, i) := r in
    let buf := splice buf 0 bs in
    if i =? 0 then
      die_if (n =? MAXFILE - 1) (bytes "%s: read only %d blocks from big") [str s; AWord n] ;;
      mret (inr tt)
    else
      die_if (negb (i =? BSIZE)) (ln "%s: read failed %d") [str s; AWord i] ;;
      die_if (negb (int0 buf =? n)) (ln "%s: read content of block %d is %d") [str s; AWord n; AWord (int0 buf)] ;;
      mret (inl (buf, n + 1))) (buf, 0).

Definition writebig (s : list Z) : U W unit :=
  fd ← open (bytes "big") rdwr;
  bad s (fd <? 0) "%s: error: creat big failed!" ;;
  buf ← fold_in (range 0 MAXFILE 1) buf0 (fun i buf =>
    let buf := splice buf 0 (le_enc 4 i) in
    n ← write fd (take (Z.to_nat BSIZE) buf);
    die_if (negb (n =? BSIZE)) (ln "%s: error: write big file failed") [str s; AWord i] ;;
    mret buf);
  _ ← close fd;
  fd ← open (bytes "big") O_RDONLY;
  bad s (fd <? 0) "%s: error: open big failed!" ;;
  writebig_read s fd buf ;;
  _ ← close fd;
  r ← unlink (bytes "big");
  bad s (r <? 0) "%s: unlink big failed".

Definition createtest (s : list Z) : U W unit :=
  let N := 52 in
  for_in (range 0 N 1) (fun i => poke [97; 48 + i] rdwr) ;;
  for_in (range 0 N 1) (fun i => _ ← unlink [97; 48 + i]; mret tt).

(** A failed wait() is reported, and then xstatus is read. *)
Definition exectest (s : list Z) : U W unit :=
  _ ← unlink (bytes "echo-ok");
  pid ← fork;
  bad s (pid <? 0) "%s: fork failed" ;;
  (if pid =? 0 then
     _ ← close 1;
     fd ← open (bytes "echo-ok") (Z.lor O_CREATE O_WRONLY);
     bad s (fd <? 0) "%s: create failed" ;;
     bad s (negb (fd =? 1)) "%s: wrong fd" ;;
     r ← exec (bytes "echo") [bytes "echo"; bytes "OK"];
     bad s (r <? 0) "%s: exec echo failed"
   else mret tt) ;;
  r ← wait_status;
  (if negb (fst r =? pid) then printf (ln "%s: wait failed!") [str s] else mret tt) ;;
  xstatus ← (match snd r with Some x => mret x | None => undefined end);
  exit_if (negb (xstatus =? 0)) xstatus ;;
  fd ← open (bytes "echo-ok") O_RDONLY;
  bad s (fd <? 0) "%s: open failed" ;;
  r ← read fd 2;
  bad s (negb (snd r =? 2)) "%s: read failed" ;;
  _ ← unlink (bytes "echo-ok");
  if (idx (fst r) 0 =? 79) && (idx (fst r) 1 =? 75) then exit 0
  else die (ln "%s: wrong output") [str s].

Definition bigwrite (s : list Z) : U W unit :=
  let f := bytes "bigwrite" in
  _ ← unlink f;
  for_in (range 499 ((MAXOPBLOCKS + 2) * BSIZE) 471) (fun sz =>
    fd ← open f rdwr;
    bad s (fd <? 0) "%s: cannot create bigwrite" ;;
    for_in (range 0 2 1) (fun _ =>
      cc ← write fd (take (Z.to_nat sz) buf0);
      die_if (negb (cc =? sz)) (ln "%s: write(%d) ret %d") [str s; AWord sz; AWord cc]) ;;
    _ ← close fd;
    _ ← unlink f;
    mret tt).

(** The loop that reads bigfile.dat back in halves of what was written. *)
Definition bigfile_read (s : list Z) (fd : Z) (buf : list Z) : U W Z :=
  let SZ := 600 in
  loop fuel (fun '(buf, i, total) =>
    r ← read fd (SZ / 2);
    let '(bs, cc) := r in
    let buf := splice buf 0 bs in
    bad s (cc <? 0) "%s: read bigfile failed" ;;
    if cc =? 0 then mret (inr total) else
    bad s (negb (cc =? SZ / 2)) "%s: short read bigfile" ;;
    bad s (negb (idx buf 0 =? i / 2) || negb (idx buf (SZ / 2 - 1) =? i / 2)) "%s: read bigfile wrong data" ;;
    mret (inl (buf, i + 1, total + cc))) (buf, 0, 0).

Definition bigfile (s : list Z) : U W unit :=
  let N := 20 in
  let SZ := 600 in
  let f := bytes "bigfile.dat" in
  _ ← unlink f;
  fd ← open f rdwr;
  bad0 s (fd <? 0) "%s: cannot create bigfile" ;;
  buf ← fold_in (range 0 N 1) buf0 (fun i buf =>
    let buf := splice buf 0 (replicate (Z.to_nat SZ) i) in
    n ← write fd (take (Z.to_nat SZ) buf);
    bad s (negb (n =? SZ)) "%s: write bigfile failed" ;;
    mret buf);
  _ ← close fd;
  fd ← open f 0;
  bad s (fd <? 0) "%s: cannot open bigfile" ;;
  total ← bigfile_read s fd buf;
  _ ← close fd;
  bad s (negb (total =? N * SZ)) "%s: read bigfile wrong total" ;;
  _ ← unlink f;
  mret tt.

(** ** Names and links *)

Definition unlinkread (s : list Z) : U W unit :=
  let SZ := 5 in
  let f := bytes "unlinkread" in
  fd ← open f rdwr;
  bad s (fd <? 0) "%s: create unlinkread failed" ;;
  _ ← write fd (bytes "hello");
  _ ← close fd;
  fd ← open f O_RDWR;
  bad s (fd <? 0) "%s: open unlinkread failed" ;;
  r ← unlink f;
  bad s (negb (r =? 0)) "%s: unlink unlinkread failed" ;;
  fd1 ← open f rdwr;
  _ ← write fd1 (bytes "yyy");
  _ ← close fd1;
  r ← read fd BUFSZ;
  let buf := splice buf0 0 (fst r) in
  bad0 s (negb (snd r =? SZ)) "%s: unlinkread read failed" ;;
  bad s (negb (idx buf 0 =? 104)) "%s: unlinkread wrong data" ;;
  n ← write fd (take 10 buf);
  bad s (negb (n =? 10)) "%s: unlinkread write failed" ;;
  _ ← close fd;
  _ ← unlink f;
  mret tt.

Definition linktest (s : list Z) : U W unit :=
  let SZ := 5 in
  _ ← unlink (bytes "lf1");
  _ ← unlink (bytes "lf2");
  fd ← open (bytes "lf1") rdwr;
  bad s (fd <? 0) "%s: create lf1 failed" ;;
  n ← write fd (bytes "hello");
  bad s (negb (n =? SZ)) "%s: write lf1 failed" ;;
  _ ← close fd;
  r ← link (bytes "lf1") (bytes "lf2");
  bad s (r <? 0) "%s: link lf1 lf2 failed" ;;
  _ ← unlink (bytes "lf1");
  fd ← open (bytes "lf1") 0;
  bad s (0 <=? fd) "%s: unlinked lf1 but it is still there!" ;;
  fd ← open (bytes "lf2") 0;
  bad s (fd <? 0) "%s: open lf2 failed" ;;
  r ← read fd BUFSZ;
  bad s (negb (snd r =? SZ)) "%s: read lf2 failed" ;;
  _ ← close fd;
  r ← link (bytes "lf2") (bytes "lf2");
  bad s (0 <=? r) "%s: link lf2 lf2 succeeded! oops" ;;
  _ ← unlink (bytes "lf2");
  r ← link (bytes "lf2") (bytes "lf1");
  bad s (0 <=? r) "%s: link non-existant succeeded! oops" ;;
  r ← link (bytes ".") (bytes "lf1");
  bad s (0 <=? r) "%s: link . lf1 succeeded! oops".

Definition bigdir_name (i : Z) : list Z := [120; 48 + i / 64; 48 + i `mod` 64].

Definition bigdir (s : list Z) : U W unit :=
  let N := 500 in
  _ ← unlink (bytes "bd");
  fd ← open (bytes "bd") O_CREATE;
  bad s (fd <? 0) "%s: bigdir create failed" ;;
  _ ← close fd;
  for_in (range 0 N 1) (fun i =>
    r ← link (bytes "bd") (bigdir_name i);
    die_if (negb (r =? 0)) (ln "%s: bigdir link(bd, %s) failed") [str s; str (bigdir_name i)]) ;;
  _ ← unlink (bytes "bd");
  for_in (range 0 N 1) (fun i =>
    r ← unlink (bigdir_name i);
    bad0 s (negb (r =? 0)) "%s: bigdir unlink failed").

(** subdir() up to the chdir() calls: the files it makes. *)
Definition subdir_make (s : list Z) : U W unit :=
  _ ← unlink (bytes "ff");
  r ← mkdir (bytes "dd");
  bad s (negb (r =? 0)) "%s: mkdir dd failed" ;;
  fd ← open (bytes "dd/ff") rdwr;
  bad s (fd <? 0) "%s: create dd/ff failed" ;;
  _ ← write fd (bytes "ff");
  _ ← close fd;
  r ← unlink (bytes "dd");
  bad s (0 <=? r) "%s: unlink dd (non-empty dir) succeeded!" ;;
  r ← mkdir (bytes "/dd/dd");
  bad s (negb (r =? 0)) "subdir mkdir dd/dd failed" ;;
  fd ← open (bytes "dd/dd/ff") rdwr;
  bad s (fd <? 0) "%s: create dd/dd/ff failed" ;;
  _ ← write fd (bytes "FF");
  _ ← close fd;
  fd ← open (bytes "dd/dd/../ff") 0;
  bad s (fd <? 0) "%s: open dd/dd/../ff failed" ;;
  r ← read fd BUFSZ;
  let buf := splice buf0 0 (fst r) in
  bad s (negb (snd r =? 2) || negb (idx buf 0 =? 102)) "%s: dd/dd/../ff wrong content" ;;
  _ ← close fd;
  r ← link (bytes "dd/dd/ff") (bytes "dd/dd/ffff");
  bad s (negb (r =? 0)) "link dd/dd/ff dd/dd/ffff failed" ;;
  r ← unlink (bytes "dd/dd/ff");
  bad s (negb (r =? 0)) "%s: unlink dd/dd/ff failed" ;;
  fd ← open (bytes "dd/dd/ff") O_RDONLY;
  bad s (0 <=? fd) "%s: open (unlinked) dd/dd/ff succeeded".

(** The chdir() calls, and the paths that lead nowhere. *)
Definition subdir_walk (s : list Z) : U W unit :=
  r ← chdir (bytes "dd");
  bad s (negb (r =? 0)) "%s: chdir dd failed" ;;
  r ← chdir (bytes "dd/../../dd");
  bad s (negb (r =? 0)) "%s: chdir dd/../../dd failed" ;;
  r ← chdir (bytes "dd/../../../dd");
  bad s (negb (r =? 0)) "chdir dd/../../dd failed" ;;
  r ← chdir (bytes "./..");
  bad s (negb (r =? 0)) "%s: chdir ./.. failed" ;;
  fd ← open (bytes "dd/dd/ffff") 0;
  bad s (fd <? 0) "%s: open dd/dd/ffff failed" ;;
  r ← read fd BUFSZ;
  bad s (negb (snd r =? 2)) "%s: read dd/dd/ffff wrong len" ;;
  _ ← close fd;
  fd ← open (bytes "dd/dd/ff") O_RDONLY;
  bad s (0 <=? fd) "%s: open (unlinked) dd/dd/ff succeeded!" ;;
  fd ← open (bytes "dd/ff/ff") rdwr;
  bad s (0 <=? fd) "%s: create dd/ff/ff succeeded!" ;;
  fd ← open (bytes "dd/xx/ff") rdwr;
  bad s (0 <=? fd) "%s: create dd/xx/ff succeeded!" ;;
  fd ← open (bytes "dd") O_CREATE;
  bad s (0 <=? fd) "%s: create dd succeeded!" ;;
  fd ← open (bytes "dd") O_RDWR;
  bad s (0 <=? fd) "%s: open dd rdwr succeeded!" ;;
  fd ← open (bytes "dd") O_WRONLY;
  bad s (0 <=? fd) "%s: open dd wronly succeeded!".

(** The links, directories and names that must be refused, and the
    clean-up. *)
Definition subdir_refused (s : list Z) : U W unit :=
  r ← link (bytes "dd/ff/ff") (bytes "dd/dd/xx");
  bad s (r =? 0) "%s: link dd/ff/ff dd/dd/xx succeeded!" ;;
  r ← link (bytes "dd/xx/ff") (bytes "dd/dd/xx");
  bad s (r =? 0) "%s: link dd/xx/ff dd/dd/xx succeeded!" ;;
  r ← link (bytes "dd/ff") (bytes "dd/dd/ffff");
  bad s (r =? 0) "%s: link dd/ff dd/dd/ffff succeeded!" ;;
  r ← mkdir (bytes "dd/ff/ff");
  bad s (r =? 0) "%s: mkdir dd/ff/ff succeeded!" ;;
  r ← mkdir (bytes "dd/xx/ff");
  bad s (r =? 0) "%s: mkdir dd/xx/ff succeeded!" ;;
  r ← mkdir (bytes "dd/dd/ffff");
  bad s (r =? 0) "%s: mkdir dd/dd/ffff succeeded!" ;;
  r ← unlink (bytes "dd/xx/ff");
  bad s (r =? 0) "%s: unlink dd/xx/ff succeeded!" ;;
  r ← unlink (bytes "dd/ff/ff");
  bad s (r =? 0) "%s: unlink dd/ff/ff succeeded!" ;;
  r ← chdir (bytes "dd/ff");
  bad s (r =? 0) "%s: chdir dd/ff succeeded!" ;;
  r ← chdir (bytes "dd/xx");
  bad s (r =? 0) "%s: chdir dd/xx succeeded!" ;;
  r ← unlink (bytes "dd/dd/ffff");
  bad s (negb (r =? 0)) "%s: unlink dd/dd/ff failed" ;;
  r ← unlink (bytes "dd/ff");
  bad s (negb (r =? 0)) "%s: unlink dd/ff failed" ;;
  r ← unlink (bytes "dd");
  bad s (r =? 0) "%s: unlink non-empty dd succeeded!" ;;
  r ← unlink (bytes "dd/dd");
  bad s (r <? 0) "%s: unlink dd/dd failed" ;;
  r ← unlink (bytes "dd");
  bad s (r <? 0) "%s: unlink dd failed".

Definition subdir (s : list Z) : U W unit :=
  subdir_make s ;;
  subdir_walk s ;;
  subdir_refused s.

Definition fourteen (s : list Z) : U W unit :=
  r ← mkdir (bytes "12345678901234");
  bad s (negb (r =? 0)) "%s: mkdir 12345678901234 failed" ;;
  r ← mkdir (bytes "12345678901234/123456789012345");
  bad s (negb (r =? 0)) "%s: mkdir 12345678901234/123456789012345 failed" ;;
  fd ← open (bytes "123456789012345/123456789012345/123456789012345") O_CREATE;
  bad s (fd <? 0) "%s: create 123456789012345/123456789012345/123456789012345 failed" ;;
  _ ← close fd;
  fd ← open (bytes "12345678901234/12345678901234/12345678901234") 0;
  bad s (fd <? 0) "%s: open 12345678901234/12345678901234/12345678901234 failed" ;;
  _ ← close fd;
  r ← mkdir (bytes "12345678901234/12345678901234");
  bad s (r =? 0) "%s: mkdir 12345678901234/12345678901234 succeeded!" ;;
  r ← mkdir (bytes "123456789012345/12345678901234");
  bad s (r =? 0) "%s: mkdir 12345678901234/123456789012345 succeeded!" ;;
  _ ← unlink (bytes "123456789012345/12345678901234");
  _ ← unlink (bytes "12345678901234/12345678901234");
  _ ← unlink (bytes "12345678901234/12345678901234/12345678901234");
  _ ← unlink (bytes "123456789012345/123456789012345/123456789012345");
  _ ← unlink (bytes "12345678901234/123456789012345");
  _ ← unlink (bytes "12345678901234");
  mret tt.

Definition rmdot (s : list Z) : U W unit :=
  r ← mkdir (bytes "dots");
  bad s (negb (r =? 0)) "%s: mkdir dots failed" ;;
  r ← chdir (bytes "dots");
  bad s (negb (r =? 0)) "%s: chdir dots failed" ;;
  r ← unlink (bytes ".");
  bad s (r =? 0) "%s: rm . worked!" ;;
  r ← unlink (bytes "..");
  bad s (r =? 0) "%s: rm .. worked!" ;;
  r ← chdir (bytes "/");
  bad s (negb (r =? 0)) "%s: chdir / failed" ;;
  r ← unlink (bytes "dots/.");
  bad s (r =? 0) "%s: unlink dots/. worked!" ;;
  r ← unlink (bytes "dots/..");
  bad s (r =? 0) "%s: unlink dots/.. worked!" ;;
  r ← unlink (bytes "dots");
  bad s (negb (r =? 0)) "%s: unlink dots failed!".

Definition dirfile (s : list Z) : U W unit :=
  fd ← open (bytes "dirfile") O_CREATE;
  bad s (fd <? 0) "%s: create dirfile failed" ;;
  _ ← close fd;
  r ← chdir (bytes "dirfile");
  bad s (r =? 0) "%s: chdir dirfile succeeded!" ;;
  fd ← open (bytes "dirfile/xx") 0;
  bad s (0 <=? fd) "%s: create dirfile/xx succeeded!" ;;
  fd ← open (bytes "dirfile/xx") O_CREATE;
  bad s (0 <=? fd) "%s: create dirfile/xx succeeded!" ;;
  r ← mkdir (bytes "dirfile/xx");
  bad s (r =? 0) "%s: mkdir dirfile/xx succeeded!" ;;
  r ← unlink (bytes "dirfile/xx");
  bad s (r =? 0) "%s: unlink dirfile/xx succeeded!" ;;
  r ← link (bytes "README") (bytes "dirfile/xx");
  bad s (r =? 0) "%s: link to dirfile/xx succeeded!" ;;
  r ← unlink (bytes "dirfile");
  bad s (negb (r =? 0)) "%s: unlink dirfile failed!" ;;
  fd ← open (bytes ".") O_RDWR;
  bad s (0 <=? fd) "%s: open . for writing succeeded!" ;;
  fd ← open (bytes ".") 0;
  n ← write fd (bytes "x");
  bad s (0 <? n) "%s: write . succeeded!" ;;
  _ ← close fd;
  mret tt.

(** [fd = open(path, O_CREATE); if(fd >= 0) close(fd);] *)
Definition try_create (path : list Z) : U W unit :=
  fd ← open path O_CREATE;
  if 0 <=? fd then _ ← close fd; mret tt else mret tt.

Definition iref (s : list Z) : U W unit :=
  for_in (range 0 (NINODE + 1) 1) (fun _ =>
    r ← mkdir (bytes "irefd");
    bad s (negb (r =? 0)) "%s: mkdir irefd failed" ;;
    r ← chdir (bytes "irefd");
    bad s (negb (r =? 0)) "%s: chdir irefd failed" ;;
    _ ← mkdir [];
    _ ← link (bytes "README") [];
    try_create [] ;;
    try_create (bytes "xx") ;;
    _ ← unlink (bytes "xx");
    mret tt) ;;
  for_in (range 0 (NINODE + 1) 1) (fun _ =>
    _ ← chdir (bytes "..");
    _ ← unlink (bytes "irefd");
    mret tt) ;;
  _ ← chdir (bytes "/");
  mret tt.

(** ** Several processes at a time *)

Definition sharedfd (s : list Z) : U W unit :=
  let N := 1000 in
  let SZ := 10 in
  let f := bytes "sharedfd" in
  _ ← unlink f;
  fd ← open f rdwr;
  bad0 s (fd <? 0) "%s: cannot open sharedfd for writing" ;;
  pid ← fork;
  let buf := replicate (Z.to_nat SZ) (if pid =? 0 then 99 else 112) in
  for_in (range 0 N 1) (fun _ =>
    n ← write fd buf;
    bad s (negb (n =? SZ)) "%s: write sharedfd failed") ;;
  (if pid =? 0 then exit 0
   else xstatus ← wait_st; exit_if (negb (xstatus =? 0)) xstatus) ;;
  _ ← close fd;
  fd ← open f 0;
  bad s (fd <? 0) "%s: cannot open sharedfd for reading" ;;
  r ← loop fuel (fun '(buf, nc, np) =>
    r ← read fd SZ;
    if snd r <=? 0 then mret (inr (nc, np)) else
    let buf := splice buf 0 (fst r) in
    let count c := Z.of_nat (length (filter (fun x => x = c) buf)) in
    mret (inl (buf, nc + count 99, np + count 112))) (buf, 0, 0);
  let '(nc, np) := r in
  _ ← close fd;
  _ ← unlink f;
  if (nc =? N * SZ) && (np =? N * SZ) then exit 0
  else die (ln "%s: nc/np test fails") [str s].

(** The file of child [pi]. *)
Definition fourfiles_name (pi : Z) : list Z := [102; 48 + pi].

Definition fourfiles_child (s : list Z) (pi : Z) : U W unit :=
  let N := 12 in
  let SZ := 500 in
  fd ← open (fourfiles_name pi) rdwr;
  bad s (fd <? 0) "create failed" ;;
  for_in (range 0 N 1) (fun _ =>
    n ← write fd (replicate (Z.to_nat SZ) (48 + pi));
    die_if (negb (n =? SZ)) (ln "write failed %d") [AWord n]) ;;
  exit 0.

(** The while loop that checks file [i]: the bytes read, and buf. *)
Definition fourfiles_check (s : list Z) (i fd : Z) (buf : list Z) : U W (Z * list Z) :=
  loop fuel (fun '(total, buf) =>
    r ← read fd BUFSZ;
    let '(bs, n) := r in
    let buf := splice buf 0 bs in
    if n <=? 0 then mret (inr (total, buf)) else
    bad s (existsb (fun j => negb (idx buf j =? 48 + i)) (range 0 n 1)) "wrong char" ;;
    mret (inl (total + n, buf))) (0, buf).

Definition fourfiles (s : list Z) : U W unit :=
  let N := 12 in
  let NCHILD := 4 in
  let SZ := 500 in
  for_in (range 0 NCHILD 1) (fun pi =>
    _ ← unlink (fourfiles_name pi);
    pid ← fork;
    bad s (pid <? 0) "fork failed" ;;
    if pid =? 0 then fourfiles_child s pi else mret tt) ;;
  for_in (range 0 NCHILD 1) (fun _ =>
    xstatus ← wait_st;
    exit_if (negb (xstatus =? 0)) xstatus) ;;
  _ ← fold_in (range 0 NCHILD 1) buf0 (fun i buf =>
    fd ← open (fourfiles_name i) 0;
    r ← fourfiles_check s i fd buf;
    let '(total, buf) := r in
    _ ← close fd;
    die_if (negb (total =? N * SZ)) (ln "wrong length %d") [AWord total] ;;
    _ ← unlink (fourfiles_name i);
    mret buf);
  mret tt.

Definition createdelete_child (s : list Z) (pi : Z) : U W unit :=
  let N := 20 in
  for_in (range 0 N 1) (fun i =>
    fd ← open [112 + pi; 48 + i] rdwr;
    bad s (fd <? 0) "%s: create failed" ;;
    _ ← close fd;
    if (0 <? i) && (i `mod` 2 =? 0) then
      r ← unlink [112 + pi; 48 + i / 2];
      bad s (r <? 0) "%s: unlink failed"
    else mret tt) ;;
  exit 0.

(** The last loops remove the names ['p' + i, '0' + i], not ['p' + pi, '0' + i]. *)
Definition createdelete (s : list Z) : U W unit :=
  let N := 20 in
  let NCHILD := 4 in
  for_in (range 0 NCHILD 1) (fun pi =>
    pid ← fork;
    bad s (pid <? 0) "fork failed" ;;
    if pid =? 0 then createdelete_child s pi else mret tt) ;;
  for_in (range 0 NCHILD 1) (fun _ =>
    xstatus ← wait_st;
    exit_if (negb (xstatus =? 0)) 1) ;;
  for_in (range 0 N 1) (fun i =>
    for_in (range 0 NCHILD 1) (fun pi =>
      let name := [112 + pi; 48 + i] in
      fd ← open name 0;
      (if ((i =? 0) || (N / 2 <=? i)) && (fd <? 0) then
         die (ln "%s: oops createdelete %s didn't exist") [str s; str name]
       else die_if ((1 <=? i) && (i <? N / 2) && (0 <=? fd)) (ln "%s: oops createdelete %s did exist") [str s; str name]) ;;
      if 0 <=? fd then _ ← close fd; mret tt else mret tt)) ;;
  for_in (range 0 N 1) (fun i =>
    for_in (range 0 NCHILD 1) (fun _ => _ ← unlink [112 + i; 48 + i]; mret tt)).

(** The first loop of concreate(): parent and child make the same name, by
    link() or by open(). *)
Definition concreate_make (s : list Z) : U W unit :=
  for_in (range 0 40 1) (fun i =>
    let file := [67; 48 + i] in
    _ ← unlink file;
    pid ← fork;
    (if negb (pid =? 0) && (i `mod` 3 =? 1) then _ ← link (bytes "C0") file; mret tt
     else if (pid =? 0) && (i `mod` 5 =? 1) then _ ← link (bytes "C0") file; mret tt
     else
       fd ← open file rdwr;
       die_if (fd <? 0) (ln "concreate create %s failed") [str file] ;;
       _ ← close fd;
       mret tt) ;;
    if pid =? 0 then exit 0 else
    xstatus ← wait_st;
    exit_if (negb (xstatus =? 0)) 1).

(** The loop over the entries of the directory: how many of the names C0 ...
    there are.  [de] is the entry on the stack: inum, then name. *)
Definition concreate_list (s : list Z) (fd : Z) (de : list Z) : U W Z :=
  loop fuel (fun '(de, fa, n) =>
    r ← read fd 16;
    if snd r <=? 0 then mret (inr n) else
    let de := splice de 0 (fst r) in
    if le_dec (take 2 de) =? 0 then mret (inl (de, fa, n)) else
    if (idx de 2 =? 67) && (idx de 4 =? 0) then
      let i := idx de 3 - 48 in
      die_if ((i <? 0) || (40 <=? i)) (ln "%s: concreate weird file %s") [str s; str (cstring (drop 2 de))] ;;
      die_if (negb (idx fa i =? 0)) (ln "%s: concreate duplicate file %s") [str s; str (cstring (drop 2 de))] ;;
      mret (inl (de, <[Z.to_nat i := 1]> fa, n + 1))
    else mret (inl (de, fa, n))) (de, replicate 40 0, 0).

Fixpoint times (n : nat) (m : U W unit) : U W unit :=
  match n with
  | O => mret tt
  | S k => m ;; times k m
  end.

(** [de0] is what the variable de holds at first. *)
Definition concreate (de0 s : list Z) : U W unit :=
  let N := 40 in
  concreate_make s ;;
  fd ← open (bytes ".") 0;
  n ← concreate_list s fd de0;
  _ ← close fd;
  bad s (negb (n =? N)) "%s: concreate not enough files in directory listing" ;;
  for_in (range 0 N 1) (fun i =>
    let file := [67; 48 + i] in
    pid ← fork;
    bad s (pid <? 0) "%s: fork failed" ;;
    (if ((i `mod` 3 =? 0) && (pid =? 0)) || ((i `mod` 3 =? 1) && negb (pid =? 0))
     then times 6 (poke file 0)
     else times 6 (_ ← unlink file; mret tt)) ;;
    if pid =? 0 then exit 0 else _ ← wait; mret tt).

Definition linkunlink (s : list Z) : U W unit :=
  _ ← unlink (bytes "x");
  pid ← fork;
  bad s (pid <? 0) "%s: fork failed" ;;
  _ ← fold_in (range 0 100 1) (if negb (pid =? 0) then 1 else 97) (fun _ x =>
    let x := u32 (x * 1103515245 + 12345) in
    (if x `mod` 3 =? 0 then poke (bytes "x") (Z.lor O_RDWR O_CREATE)
     else if x `mod` 3 =? 1 then _ ← link (bytes "cat") (bytes "x"); mret tt
     else _ ← unlink (bytes "x"); mret tt) ;;
    mret x);
  if negb (pid =? 0) then _ ← wait; mret tt else exit 0.

Definition manywrites_child (s : list Z) (ci : Z) : U W unit :=
  let howmany := 30 in
  let name := [98; 97 + ci] in
  _ ← unlink name;
  for_in (range 0 howmany 1) (fun _ =>
    for_in (range 0 (ci + 1) 1) (fun _ =>
      fd ← open name rdwr;
      die_if (fd <? 0) (ln "%s: cannot create %s") [str s; str name] ;;
      let sz := BUFSZ in
      cc ← write fd buf0;
      die_if (negb (cc =? sz)) (ln "%s: write(%d) ret %d") [str s; AWord sz; AWord cc] ;;
      _ ← close fd;
      mret tt) ;;
    _ ← unlink name;
    mret tt) ;;
  _ ← unlink name;
  exit 0.

Definition manywrites (s : list Z) : U W unit :=
  let nchildren := 4 in
  for_in (range 0 nchildren 1) (fun ci =>
    pid ← fork;
    die_if (pid <? 0) (ln "fork failed") [] ;;
    if pid =? 0 then manywrites_child s ci else mret tt) ;;
  for_in (range 0 nchildren 1) (fun _ =>
    r ← wait_status;
    let st := default 0 (snd r) in
    exit_if (negb (st =? 0)) st) ;;
  exit 0.

(** fsfull() is not one of main()'s tests. *)
Definition fsfull_name (nfiles : Z) : list Z :=
  [102; u8 (48 + nfiles / 1000); 48 + nfiles `mod` 1000 / 100; 48 + nfiles `mod` 100 / 10; 48 + nfiles `mod` 10].

Definition fsfull_fill (fd : Z) : U W Z :=
  loop fuel (fun total =>
    cc ← write fd (take (Z.to_nat BSIZE) buf0);
    if cc <? BSIZE then mret (inr total) else mret (inl (total + cc))) 0.

Definition fsfull : U W unit :=
  printf (ln "fsfull test") [] ;;
  nfiles ← loop fuel (fun nfiles =>
    let name := fsfull_name nfiles in
    printf (ln "writing %s") [str name] ;;
    fd ← open name rdwr;
    if fd <? 0 then printf (ln "open %s failed") [str name] ;; mret (inr nfiles) else
    total ← fsfull_fill fd;
    printf (ln "wrote %d bytes") [AWord total] ;;
    _ ← close fd;
    if total =? 0 then mret (inr nfiles) else mret (inl (nfiles + 1))) 0;
  for_in (reverse (range 0 (nfiles + 1) 1)) (fun nfiles => _ ← unlink (fsfull_name nfiles); mret tt) ;;
  printf (ln "fsfull test finished") [].

End Tests.
