(* ===== verification/UtProc.v ===== *)
(** * The kernel tests: processes and pipes (user/usertests.c)

    The tests of fork(), exit(), wait(), kill() and pipe(). *)

From stdpp Require Import base numbers list list_numbers gmap strings.
From Stdlib Require Import ZArith Lia.
From S2P Require Import Prelude.
From S2P Require Import Machine.
From S2P Require Import Kern.
From S2P Require Import User.
From S2P Require Import UtMem.
From S2P Require Import UtFs.

Local Open Scope Z_scope.

Section Tests.
Context {W : Type} {SY : Sys W}.
Import Printf.

(** The bound of the loops that have none. *)
Context (fuel : nat).

(** [for(;;) ;] *)
Definition spin {A} : U W A := fun _ => UHang.

(** ** Pipes *)

(** The child of pipe1(): N writes of SZ bytes that count up. *)
Definition pipe1_child (s : list Z) (fds0 fds1 : Z) : U W unit :=
  let N := 5 in
  let SZ := 1033 in
  _ ← close fds0;
  _ ← fold_in (range 0 N 1) 0 (fun _ seq =>
    n ← write fds1 (u8 <$> range seq (seq + SZ) 1);
    bad s (negb (n =? SZ)) "%s: pipe1 oops 1" ;;
    mret (seq + SZ));
  exit 0.

(** The reading loop of the parent: the bytes read, or nothing when one is
    wrong and pipe1() returns. *)
Definition pipe1_read (s : list Z) (fds0 : Z) : U W (option Z) :=
  loop fuel (fun '(buf, seq, total, cc) =>
    r ← read fds0 cc;
    let '(bs, n) := r in
    let buf := splice buf 0 bs in
    if n <=? 0 then mret (inr (Some total)) else
    if existsb (fun i => negb (Z.land (idx buf i) 0xff =? Z.land (seq + i) 0xff)) (range 0 n 1) then
      printf (ln "%s: pipe1 oops 2") [str s] ;; mret (inr None)
    else
      let cc := cc * 2 in
      mret (inl (buf, seq + n, total + n, if BUFSZ <? cc then BUFSZ else cc))) (buf0, 0, 0, 1).

(** The message about the total has no argument for its %s. *)
Definition pipe1 (s : list Z) : U W unit :=
  let N := 5 in
  let SZ := 1033 in
  p ← pipe2;
  let '(e, (fds0, fds1)) := p in
  bad s (negb (e =? 0)) "%s: pipe() failed" ;;
  pid ← fork;
  if pid =? 0 then pipe1_child s fds0 fds1
  else if 0 <? pid then
    _ ← close fds1;
    total ← pipe1_read s fds0;
    match total with
    | None => mret tt
    | Some total =>
        die_if (negb (total =? N * SZ)) (ln "%s: pipe1 oops 3 total %d") [AWord total] ;;
        _ ← close fds0;
        xstatus ← wait_st;
        exit xstatus
    end
  else die (ln "%s: fork() failed") [str s].

(** ** kill() *)

Definition killstatus (s : list Z) : U W unit :=
  for_in (range 0 100 1) (fun _ =>
    pid1 ← fork;
    bad s (pid1 <? 0) "%s: fork failed" ;;
    (if pid1 =? 0 then loop fuel (fun _ => _ ← getpid; mret (inl tt)) tt else mret tt) ;;
    _ ← usleep 1;
    _ ← kill pid1;
    xst ← wait_st;
    bad s (negb (xst =? -1)) "%s: status should be -1") ;;
  exit 0.

Definition preempt (s : list Z) : U W unit :=
  pid1 ← fork;
  bad0 s (pid1 <? 0) "%s: fork failed" ;;
  if pid1 =? 0 then spin else
  pid2 ← fork;
  bad s (pid2 <? 0) "%s: fork failed" ;;
  if pid2 =? 0 then spin else
  p ← pipe2;
  let '(e, (pfds0, pfds1)) := p in
  (if e <? 0 then undefined else mret tt) ;;
  pid3 ← fork;
  bad s (pid3 <? 0) "%s: fork failed" ;;
  if pid3 =? 0 then
    _ ← close pfds0;
    n ← write pfds1 (bytes "x");
    (if negb (n =? 1) then printf (bytes "%s: preempt write error") [str s] else mret tt) ;;
    _ ← close pfds1;
    spin
  else
  _ ← close pfds1;
  r ← read pfds0 BUFSZ;
  if negb (snd r =? 1) then printf (bytes "%s: preempt read error") [str s] else
  _ ← close pfds0;
  printf (bytes "kill... ") [] ;;
  _ ← kill pid1;
  _ ← kill pid2;
  _ ← kill pid3;
  printf (bytes "wait... ") [] ;;
  _ ← wait;
  _ ← wait;
  _ ← wait;
  mret tt.

(** ** fork(), exit() and wait() *)

Definition exitwait (s : list Z) : U W unit :=
  for_in (range 0 100 1) (fun i =>
    pid ← fork;
    bad s (pid <? 0) "%s: fork failed" ;;
    if negb (pid =? 0) then
      r ← wait_status;
      bad s (negb (fst r =? pid)) "%s: wait wrong pid" ;;
      xstate ← (match snd r with Some x => mret x | None => undefined end);
      bad s (negb (i =? xstate)) "%s: wait wrong exit status"
    else exit i).

Definition reparent (s : list Z) : U W unit :=
  master_pid ← getpid;
  for_in (range 0 200 1) (fun _ =>
    pid ← fork;
    bad s (pid <? 0) "%s: fork failed" ;;
    if negb (pid =? 0) then
      r ← wait;
      bad s (negb (r =? pid)) "%s: wait wrong pid"
    else
      pid2 ← fork;
      (if pid2 <? 0 then _ ← kill master_pid; exit 1 else mret tt) ;;
      exit 0) ;;
  exit 0.

Definition twochildren (s : list Z) : U W unit :=
  for_in (range 0 1000 1) (fun _ =>
    pid1 ← fork;
    bad s (pid1 <? 0) "%s: fork failed" ;;
    if pid1 =? 0 then exit 0 else
    pid2 ← fork;
    bad s (pid2 <? 0) "%s: fork failed" ;;
    if pid2 =? 0 then exit 0 else
    _ ← wait;
    _ ← wait;
    mret tt).

Definition forkfork (s : list Z) : U W unit :=
  let N := 2 in
  for_in (range 0 N 1) (fun _ =>
    pid ← fork;
    bad0 s (pid <? 0) "%s: fork failed" ;;
    if pid =? 0 then
      for_in (range 0 200 1) (fun _ =>
        pid1 ← fork;
        exit_if (pid1 <? 0) 1 ;;
        exit_if (pid1 =? 0) 0 ;;
        _ ← wait;
        mret tt) ;;
      exit 0
    else mret tt) ;;
  for_in (range 0 N 1) (fun _ =>
    xstatus ← wait_st;
    bad0 s (negb (xstatus =? 0)) "%s: fork in child failed").

Definition forkforkfork (s : list Z) : U W unit :=
  let f := bytes "stopforking" in
  _ ← unlink f;
  pid ← fork;
  bad0 s (pid <? 0) "%s: fork failed" ;;
  (if pid =? 0 then
     loop fuel (fun _ =>
       fd ← open f 0;
       exit_if (0 <=? fd) 0 ;;
       r ← fork;
       (if r <? 0 then poke f rdwr else mret tt) ;;
       mret (inl tt)) tt
   else mret tt) ;;
  _ ← usleep 20;
  poke f rdwr ;;
  _ ← wait;
  _ ← usleep 10;
  mret tt.

Definition reparent2 (s : list Z) : U W unit :=
  for_in (range 0 800 1) (fun _ =>
    pid1 ← fork;
    die_if (pid1 <? 0) (ln "fork failed") [] ;;
    (if pid1 =? 0 then _ ← fork; _ ← fork; exit 0 else mret tt) ;;
    _ ← wait;
    mret tt) ;;
  exit 0.

(** The forks: how many succeeded, at most N. *)
Definition forktest_fork : U W Z :=
  let N := 1000 in
  loop (S (Z.to_nat N)) (fun n =>
    if N <=? n then mret (inr n) else
    pid ← fork;
    if pid <? 0 then mret (inr n) else
    exit_if (pid =? 0) 0 ;;
    mret (inl (n + 1))) 0.

Definition forktest (s : list Z) : U W unit :=
  n ← forktest_fork;
  bad s (n =? 0) "%s: no fork at all!" ;;
  bad s (n =? 1000) "%s: fork claimed to work 1000 times!" ;;
  for_in (range 0 n 1) (fun _ =>
    r ← wait;
    bad s (r <? 0) "%s: wait stopped early") ;;
  r ← wait;
  bad s (negb (r =? -1)) "%s: wait got too many".

End Tests.
