(* ===== verification/Usertests.v ===== *)
(** * The kernel tests: the driver (user/usertests.c)

    run() and main(), which run each test in a process of its own and compare
    the free memory before and after, and countfree(), which measures it.  The
    theorems say what the driver reports for the statuses its children exit
    with. *)

From stdpp Require Import base numbers list list_numbers gmap strings.
From Stdlib Require Import ZArith Lia.
From S2P Require Import Prelude.
From S2P Require Import Mem.
From S2P Require Import Machine.
From S2P Require Import User.
From S2P Require Import ToolsSpec.
From S2P Require Import Umalloc.
From S2P Require Import UtMem.
From S2P Require Import UtFs.
From S2P Require Import UtProc.

Local Open Scope Z_scope.

(** rand(): the new randstate, and the number returned. *)
Definition rand (randstate : Z) : Z * Z :=
  let randstate := u64 (randstate * 1664525 + 1013904223) in
  (randstate, u32 randstate).

(** ** The driver *)

Section Driver.
Context {W : Type} {SY : Sys W} {UM : UMem W} {BS : Base}.
Import Printf.

(** The bound of the loops that have none; the memory the heap is in, and what
    a variable of concreate() holds, at the start. *)
Context (fuel : nat) (m0 : Mem.mem) (de0 : list Z).

(** The child of countfree(): a byte for each page it gets. *)
Definition countfree_child (fds0 fds1 : Z) : U W unit :=
  _ ← close fds0;
  loop fuel (fun _ =>
    a ← sbrkp 4096;
    if a =? NOADDR then mret (inr tt) else
    store8 (u64 (a + 4096 - 1)) 1 ;;
    n ← write fds1 (bytes "x");
    die_if (negb (n =? 1)) (ln "write() failed in countfree()") [] ;;
    mret (inl tt)) tt ;;
  exit 0.

Definition countfree_read (fds0 : Z) : U W Z :=
  loop fuel (fun n =>
    r ← read fds0 1;
    let cc := snd r in
    die_if (cc <? 0) (ln "read() failed in countfree()") [] ;;
    if cc =? 0 then mret (inr n) else mret (inl (n + 1))) 0.

Definition countfree : U W Z :=
  p ← pipe2;
  let '(e, (fds0, fds1)) := p in
  die_if (e <? 0) (ln "pipe() failed in countfree()") [] ;;
  pid ← fork;
  die_if (pid <? 0) (ln "fork failed in countfree()") [] ;;
  (if pid =? 0 then countfree_child fds0 fds1 else mret tt) ;;
  _ ← close fds1;
  n ← countfree_read fds0;
  _ ← close fds0;
  _ ← wait;
  mret n.

(** run(): whether the test passed. *)
Definition run (f : list Z -> U W unit) (s : list Z) : U W bool :=
  printf (bytes "test %s: ") [str s] ;;
  pid ← fork;
  die_if (pid <? 0) (ln "runtest: fork error") [] ;;
  if pid =? 0 then f s ;; exit 0 else
  xstatus ← wait_st;
  (if negb (xstatus =? 0) then printf (ln "FAILED") [] else printf (ln "OK") []) ;;
  mret (xstatus =? 0).

Record test := Test { t_f : list Z -> U W unit; t_s : list Z }.

Definition tests : list test := [
  Test manywrites (bytes "manywrites");
  Test (execout fuel) (bytes "execout");
  Test copyin (bytes "copyin");
  Test copyout (bytes "copyout");
  Test copyinstr1 (bytes "copyinstr1");
  Test copyinstr2 (bytes "copyinstr2");
  Test (copyinstr3 fuel) (bytes "copyinstr3");
  Test rwsbrk (bytes "rwsbrk");
  Test truncate1 (bytes "truncate1");
  Test truncate2 (bytes "truncate2");
  Test truncate3 (bytes "truncate3");
  Test reparent2 (bytes "reparent2");
  Test pgbug (bytes "pgbug");
  Test sbrkbugs (bytes "sbrkbugs");
  Test badarg (bytes "badarg");
  Test reparent (bytes "reparent");
  Test twochildren (bytes "twochildren");
  Test forkfork (bytes "forkfork");
  Test (forkforkfork fuel) (bytes "forkforkfork");
  Test argptest (bytes "argptest");
  Test createdelete (bytes "createdelete");
  Test linkunlink (bytes "linkunlink");
  Test linktest (bytes "linktest");
  Test unlinkread (bytes "unlinkread");
  Test (concreate fuel de0) (bytes "concreate");
  Test subdir (bytes "subdir");
  Test (fourfiles fuel) (bytes "fourfiles");
  Test (sharedfd fuel) (bytes "sharedfd");
  Test dirtest (bytes "dirtest");
  Test exectest (bytes "exectest");
  Test bigargtest (bytes "bigargtest");
  Test bigwrite (bytes "bigwrite");
  Test bsstest (bytes "bsstest");
  Test sbrkbasic (bytes "sbrkbasic");
  Test sbrkmuch (bytes "sbrkmuch");
  Test kernmem (bytes "kernmem");
  Test (sbrkfail fuel) (bytes "sbrkfail");
  Test sbrkarg (bytes "sbrkarg");
  Test validatetest (bytes "validatetest");
  Test stacktest (bytes "stacktest");
  Test opentest (bytes "opentest");
  Test writetest (bytes "writetest");
  Test (writebig fuel) (bytes "writebig");
  Test createtest (bytes "createtest");
  Test openiputtest (bytes "openiput");
  Test exitiputtest (bytes "exitiput");
  Test iputtest (bytes "iput");
  Test (mem fuel m0) (bytes "mem");
  Test (pipe1 fuel) (bytes "pipe1");
  Test (killstatus fuel) (bytes "killstatus");
  Test preempt (bytes "preempt");
  Test exitwait (bytes "exitwait");
  Test rmdot (bytes "rmdot");
  Test fourteen (bytes "fourteen");
  Test (bigfile fuel) (bytes "bigfile");
  Test dirfile (bytes "dirfile");
  Test iref (bytes "iref");
  Test forktest (bytes "forktest");
  Test bigdir (bytes "bigdir")
].

(** The loop of the continuous mode: it stops at the first failure. *)
Fixpoint run_until (ts : list test) : U W bool :=
  match ts with
  | [] => mret false
  | t :: ts =>
      ok ← run (t_f t) (t_s t);
      if (ok : bool) then run_until ts else mret true
  end.

(** One round of [while(1)] with -c (1) or -C (2). *)
Definition continuous_round (continuous : Z) : U W unit :=
  free0 ← countfree;
  fail ← run_until tests;
  (if (fail : bool) then
     printf (ln "SOME TESTS FAILED") [] ;;
     exit_if (negb (continuous =? 2)) 1
   else mret tt) ;;
  free1 ← countfree;
  if free1 <? free0 then
    printf (ln "FAILED -- lost %d free pages") [AWord (free0 - free1)] ;;
    exit_if (negb (continuous =? 2)) 1
  else mret tt.

(** The loop over the tests; [justone] is the name on the command line. *)
Definition selected (justone : option (list Z)) (t : test) : bool :=
  match justone with
  | None => true
  | Some n => Ulib.strcmp (t_s t) n =? 0
  end.
Fixpoint run_all (justone : option (list Z)) (ts : list test) (fail : bool) : U W bool :=
  match ts with
  | [] => mret fail
  | t :: ts =>
      fail ← (if selected justone t then
                ok ← run (t_f t) (t_s t);
                mret (if (ok : bool) then fail else true)
              else mret fail);
      run_all justone ts fail
  end.

(** The command line: continuous, and justone. *)
Definition options (argv : list (list Z)) : U W (Z * option (list Z)) :=
  let argc := Z.of_nat (length argv) in
  let arg1 := nth 1 argv [] in
  if (argc =? 2) && (Ulib.strcmp arg1 (bytes "-c") =? 0) then mret (1, None)
  else if (argc =? 2) && (Ulib.strcmp arg1 (bytes "-C") =? 0) then mret (2, None)
  else if (argc =? 2) && negb (Ulib.chr arg1 =? 45) then mret (0, Some arg1)
  else if 1 <? argc then die (ln "Usage: usertests [-c] [testname]") []
  else mret (0, None).

Definition main (argv : list (list Z)) : U W unit :=
  o ← options argv;
  let '(continuous, justone) := o in
  (if negb (continuous =? 0) then
     printf (ln "continuous usertests starting") [] ;;
     loop fuel (fun _ => continuous_round continuous ;; mret (inl tt)) tt
   else mret tt) ;;
  printf (ln "usertests starting") [] ;;
  free0 ← countfree;
  fail ← run_all justone tests false;
  if (fail : bool) then die (ln "SOME TESTS FAILED") [] else
  free1 ← countfree;
  if free1 <? free0 then die (ln "FAILED -- lost some free pages %d (out of %d)") [AWord free1; AWord free0]
  else printf (ln "ALL TESTS PASSED") [] ;; exit 0.

End Driver.

(** ** What the parent sees *)

(** A child to come: the bytes it will write to the pipe it finds, and its exit
    status. *)
Record kid := Kid { k_out : nat; k_status : Z }.

(** The children to come, the one that runs, the two ends of the pipe the
    process has open, and the text printed. *)
Record view := View { v_kids : list kid; v_now : option kid; v_rd : option Z; v_wr : option Z; v_text : list Z }.

Definition drop_fd (fd : Z) (o : option Z) : option Z := if decide (o = Some fd) then None else o.

Class Parent (W : Type) := pview : W -> view.

(** fork(), wait() and pipe() as the driver relies on them.  The end of a pipe
    is read when the child has written all it will, provided the parent has
    closed the writing end. *)
Class ParentOk (W : Type) `{Sys W} `{Parent W} : Prop := {
  p_fork : forall w k ks r o t, pview w = View (k :: ks) None r o t ->
    exists pid w', fork w = UDone pid w' /\ 0 < pid /\ pview w' = View ks (Some k) r o t;
  p_wait_status : forall w k ks r o t, pview w = View ks (Some k) r o t ->
    exists pid w', wait_status w = UDone (pid, Some (k_status k)) w' /\ pview w' = View ks None r o t;
  p_wait : forall w k ks r o t, pview w = View ks (Some k) r o t ->
    exists pid w', wait w = UDone pid w' /\ pview w' = View ks None r o t;
  p_pipe : forall w ks now t, pview w = View ks now None None t ->
    exists a b w', pipe2 w = UDone (0, (a, b)) w' /\ a <> b /\ pview w' = View ks now (Some a) (Some b) t;
  p_close : forall w fd ks now r o t, pview w = View ks now r o t ->
    exists e w', close fd w = UDone e w' /\ pview w' = View ks now (drop_fd fd r) (drop_fd fd o) t;
  p_read : forall w fd n st ks o t, pview w = View ks (Some (Kid (S n) st)) (Some fd) o t ->
    exists w', read fd 1 w = UDone ([120], 1) w' /\ pview w' = View ks (Some (Kid n st)) (Some fd) o t;
  p_read_end : forall w fd st ks t, pview w = View ks (Some (Kid 0 st)) (Some fd) None t ->
    exists w', read fd 1 w = UDone ([], 0) w' /\ pview w' = View ks (Some (Kid 0 st)) (Some fd) None t;
  p_write : forall w bs ks now r o t, pview w = View ks now r o t ->
    exists w', write 1 bs w = UDone (Z.of_nat (length bs)) w' /\ pview w' = View ks now r o (t ++ bs)
}.

Definition add_text (u : list Z) (v : view) : view := View (v_kids v) (v_now v) (v_rd v) (v_wr v) (v_text v ++ u).

#[export] Instance parent_printing {W} `{Sys W} `{Parent W} `{!ParentOk W} : Printing W.
Proof.
  refine {| wrote := fun t w w' => pview w' = add_text t (pview w) |}.
  - intros w. unfold add_text. rewrite app_nil_r. by destruct (pview w).
  - intros t u w1 w2 w3 E1 E2. rewrite E2, E1. unfold add_text. cbn [v_kids v_now v_rd v_wr v_text]. by rewrite app_assoc.
  - intros w bs. destruct (pview w) as [ks now r o t] eqn:E. destruct (p_write w bs _ _ _ _ _ E) as (w' & R & V). exists w'. by rewrite R, V.
Defined.

(** The line run() prints for a test. *)
Definition report (s : list Z) (k : kid) : list Z :=
  bytes "test " ++ s ++ bytes ": " ++ ln (if k_status k =? 0 then "OK" else "FAILED").

Definition failed (k : kid) : bool := negb (k_status k =? 0).

Section Verdict.
Context {W : Type} {SY : Sys W} {PA : Parent W} {POK : ParentOk W} {UM : UMem W} {BS : Base}.

Lemma printf_text fmt ap u w ks now r o t : render fmt ap = Some u -> pview w = View ks now r o t ->
  exists w', Printf.printf fmt ap w = UDone tt w' /\ pview w' = View ks now r o (t ++ u).
Proof. intros Hr Hv. destruct (prints_vprintf fmt ap u Hr w) as (w' & R & V). exists w'. split; [exact R|]. simpl in V. by rewrite V, Hv. Qed.

Lemma run_verdict f s w k ks r o t : pview w = View (k :: ks) None r o t ->
  exists w', run f s w = UDone (k_status k =? 0) w' /\ pview w' = View ks None r o (t ++ report s k).
Proof.
  intros Hv. destruct (printf_text (bytes "test %s: ") [str s] (bytes "test " ++ s ++ bytes ": ") w _ _ _ _ _ ltac:(cbn; reflexivity) Hv) as (w1 & R1 & V1).
  destruct (p_fork _ _ _ _ _ _ V1) as (pid & w2 & R2 & Hp & V2).
  destruct (p_wait_status _ _ _ _ _ _ V2) as (q & w3 & R3 & V3).
  destruct (printf_text (ln (if k_status k =? 0 then "OK" else "FAILED")) [] (ln (if k_status k =? 0 then "OK" else "FAILED")) w3 _ _ _ _ _ ltac:(by destruct (k_status k =? 0)) V3)
    as (w4 & R4 & V4).
  exists w4. split; [|rewrite V4; unfold report; by rewrite <- !app_assoc].
  unfold run. rewrite (ubind_done _ _ _ _ _ R1), (ubind_done _ _ _ _ _ R2), (proj2 (Z.ltb_ge pid 0)), (proj2 (Z.eqb_neq pid 0)) by lia. cbn [die_if].
  rewrite (ubind_done _ _ w2 tt w2 eq_refl). unfold wait_st. rewrite (ubind_done _ _ w2 (k_status k) w3).
  2: { rewrite (ubind_done _ _ _ _ _ R3). done. }
  rewrite (ubind_done _ _ w3 tt w4); [done|]. destruct (k_status k =? 0); exact R4.
Qed.

Lemma run_all_verdict just ts fail w ks rest r o t :
  length ks = length (List.filter (selected just) ts) -> pview w = View (ks ++ rest) None r o t ->
  exists w', run_all just ts fail w = UDone (fail || existsb failed ks) w' /\
    pview w' = View rest None r o (t ++ mjoin (zip_with report (t_s <$> List.filter (selected just) ts) ks)).
Proof.
  revert fail w ks t. induction ts as [|x ts IH]; intros fail w ks t Hl Hv.
  { destruct ks; [|done]. exists w. cbn in *. by rewrite orb_false_r, app_nil_r. }
  cbn [List.filter run_all] in *. destruct (selected just x) eqn:Es.
  - destruct ks as [|k ks]; [done|]. injection Hl as Hl. destruct (run_verdict (t_f x) (t_s x) w k (ks ++ rest) r o t Hv) as (w1 & R1 & V1).
    destruct (IH (fail || failed k) w1 ks _ Hl V1) as (w2 & R2 & V2). exists w2. split.
    + rewrite (ubind_done _ _ w (fail || failed k) w1).
      * rewrite R2. cbn [existsb]. by rewrite orb_assoc.
      * rewrite (ubind_done _ _ _ _ _ R1). unfold mret, U_ret, failed. f_equal. by destruct (k_status k =? 0), fail.
    + rewrite V2. f_equal. cbn. by rewrite <- app_assoc.
  - destruct (IH fail w ks t Hl Hv) as (w2 & R2 & V2). exists w2. by rewrite (ubind_done _ _ w fail w eq_refl).
Qed.

Lemma countfree_read_run fuel fd k n st w ks t : (k < fuel)%nat -> pview w = View ks (Some (Kid k st)) (Some fd) None t ->
  exists w', loop fuel (fun n =>
      r ← read fd 1;
      let cc := snd r in
      die_if (cc <? 0) (ln "read() failed in countfree()") [] ;;
      if cc =? 0 then mret (inr n) else mret (inl (n + 1))) n w = UDone (n + Z.of_nat k) w' /\
    pview w' = View ks (Some (Kid 0 st)) (Some fd) None t.
Proof.
  revert k n w. induction fuel as [|f IH]; intros k n w Hf Hv; [lia|]. cbn [loop]. destruct k as [|k].
  - destruct (p_read_end _ _ _ _ _ Hv) as (w1 & R1 & V1). exists w1. split; [|done].
    rewrite (ubind_done _ _ w (inr n) w1); [cbn; by rewrite Z.add_0_r|]. by rewrite (ubind_done _ _ _ _ _ R1).
  - destruct (p_read _ _ _ _ _ _ _ Hv) as (w1 & R1 & V1). destruct (IH k (n + 1) w1 ltac:(lia) V1) as (w2 & R2 & V2). exists w2. split; [|done].
    rewrite (ubind_done _ _ w (inl (n + 1)) w1); [refine (eq_trans R2 _); f_equal; lia|]. by rewrite (ubind_done _ _ _ _ _ R1).
Qed.

(** The parent's side of countfree(): the number of bytes that come through
    the pipe. *)
Lemma countfree_parent fuel w k st ks t : (k < fuel)%nat -> pview w = View (Kid k st :: ks) None None None t ->
  exists w', countfree fuel w = UDone (Z.of_nat k) w' /\ pview w' = View ks None None None t.
Proof.
  intros Hf Hv. destruct (p_pipe _ _ _ _ Hv) as (a & b & w1 & R1 & Hab & V1). destruct (p_fork _ _ _ _ _ _ V1) as (pid & w2 & R2 & Hp & V2).
  destruct (p_close _ b _ _ _ _ _ V2) as (e & w3 & R3 & V3). unfold drop_fd in V3. rewrite decide_False, decide_True in V3 by congruence.
  destruct (countfree_read_run fuel a k 0 st w3 ks t Hf V3) as (w4 & R4 & V4).
  destruct (p_close _ a _ _ _ _ _ V4) as (e' & w5 & R5 & V5). unfold drop_fd in V5. rewrite decide_True, decide_False in V5 by done.
  destruct (p_wait _ _ _ _ _ _ V5) as (q & w6 & R6 & V6). exists w6. split; [|done].
  unfold countfree. rewrite (ubind_done _ _ _ _ _ R1). cbn [die_if Z.ltb Z.compare]. rewrite (ubind_done _ _ w1 tt w1 eq_refl), (ubind_done _ _ _ _ _ R2).
  rewrite (proj2 (Z.ltb_ge pid 0)), (proj2 (Z.eqb_neq pid 0)) by lia. cbn [die_if]. rewrite !(ubind_done _ _ w2 tt w2 eq_refl), (ubind_done _ _ _ _ _ R3).
  unfold countfree_read. rewrite (ubind_done _ _ _ _ _ R4), (ubind_done _ _ _ _ _ R5), (ubind_done _ _ _ _ _ R6). done.
Qed.

(** The command lines that run the tests once: none of them, or one name. *)
Definition asks (argv : list (list Z)) (just : option (list Z)) : Prop :=
  match just with
  | None => (length argv <= 1)%nat
  | Some n => exists p, argv = [p; n] /\ Ulib.chr n <> 45
  end.

Lemma strcmp_dash n c : Ulib.chr n <> 45 -> (Ulib.strcmp n (45 :: c) =? 0) = false.
Proof.
  intros H. apply Z.eqb_neq. destruct n as [|x n]; cbn [Ulib.strcmp Ulib.chr hd] in *; [lia|].
  rewrite (proj2 (Z.eqb_neq x 45)) by done. lia.
Qed.

Lemma options_asks argv just w : asks argv just -> options (W := W) argv w = UDone (0, just) w.
Proof.
  unfold options. destruct just as [n|]; cbn [asks].
  - intros (p & -> & Hn). cbn [length nth]. change (bytes "-c") with [45; 99]. change (bytes "-C") with [45; 67].
    rewrite !strcmp_dash by done. rewrite (proj2 (Z.eqb_neq _ _) Hn). done.
  - intros Hl. destruct (Z.eqb_spec (Z.of_nat (length argv)) 2); [lia|]. rewrite (proj2 (Z.ltb_ge 1 _)) by lia. done.
Qed.

(** What main() prints at the end, and its status. *)
Definition verdict (ks : list kid) (free0 free1 : nat) : list Z * Z :=
  if existsb failed ks then (ln "SOME TESTS FAILED", 1)
  else if decide (free1 < free0)%nat then
    (bytes "FAILED -- lost some free pages " ++ Printf.int_text (i32 (Z.of_nat free1)) 10 true ++
     bytes " (out of " ++ Printf.int_text (i32 (Z.of_nat free0)) 10 true ++ ln ")", 1)
  else (ln "ALL TESTS PASSED", 0).

Lemma printf_exit {A} fmt ap u st w ks now r o t : render fmt ap = Some u -> pview w = View ks now r o t ->
  exists w', (Printf.printf fmt ap ;; exit st : U W A) w = UExit st w' /\ pview w' = View ks now r o (t ++ u).
Proof. intros Hr Hv. destruct (printf_text fmt ap u w ks now r o t Hr Hv) as (w' & R & V). exists w'. by rewrite (ubind_done _ _ _ _ _ R). Qed.

Lemma render_lost x y : render (ln "FAILED -- lost some free pages %d (out of %d)") [Printf.AWord x; Printf.AWord y] =
  Some (bytes "FAILED -- lost some free pages " ++ Printf.int_text (i32 x) 10 true ++ bytes " (out of " ++ Printf.int_text (i32 y) 10 true ++ ln ")").
Proof.
  change (ln "FAILED -- lost some free pages %d (out of %d)") with (bytes "FAILED -- lost some free pages " ++ 37 :: 100 :: bytes " (out of " ++ 37 :: 100 :: ln ")").
  rewrite render_plain, render_d, render_plain, render_d by (apply (bool_decide_unpack _); vm_compute; exact I). done.
Qed.

Lemma main_verdict fuel m0 de0 argv just w ks free0 e0 free1 e1 rest t :
  let chosen := List.filter (selected just) (tests fuel m0 de0) in
  asks argv just -> length ks = length chosen -> (free0 < fuel)%nat -> (free1 < fuel)%nat ->
  pview w = View (Kid free0 e0 :: ks ++ Kid free1 e1 :: rest) None None None t ->
  exists w', main fuel m0 de0 argv w = UExit (verdict ks free0 free1).2 w' /\
    v_text (pview w') = t ++ ln "usertests starting" ++ mjoin (zip_with report (t_s <$> chosen) ks) ++ (verdict ks free0 free1).1.
Proof.
  intros chosen Ha Hl H0 H1 Hv. unfold main. rewrite (ubind_done _ _ _ _ _ (options_asks argv just w Ha)). cbn [negb Z.eqb].
  rewrite (ubind_done _ _ w tt w eq_refl).
  destruct (printf_text (ln "usertests starting") [] (ln "usertests starting") w _ _ _ _ _ eq_refl Hv) as (w1 & R1 & V1). rewrite (ubind_done _ _ _ _ _ R1).
  destruct (countfree_parent fuel w1 free0 e0 _ _ H0 V1) as (w2 & R2 & V2). rewrite (ubind_done _ _ _ _ _ R2).
  destruct (run_all_verdict just _ false w2 ks _ _ _ _ Hl V2) as (w3 & R3 & V3). rewrite (ubind_done _ _ _ _ _ R3). unfold verdict. cbn [orb].
  destruct (existsb failed ks).
  { destruct (printf_exit (A := unit) (ln "SOME TESTS FAILED") [] (ln "SOME TESTS FAILED") 1 w3 _ _ _ _ _ eq_refl V3) as (w4 & R4 & V4). exists w4. split; [exact R4|].
    rewrite V4. cbn [v_text fst]. by rewrite <- !app_assoc. }
  destruct (countfree_parent fuel w3 free1 e1 _ _ H1 V3) as (w4 & R4 & V4). rewrite (ubind_done _ _ _ _ _ R4).
  destruct (decide (free1 < free0)%nat) as [L|L].
  - rewrite (proj2 (Z.ltb_lt _ _)) by lia.
    destruct (printf_exit (A := unit) _ _ _ 1 w4 _ _ _ _ _ (render_lost (Z.of_nat free1) (Z.of_nat free0)) V4) as (w5 & R5 & V5).
    exists w5. split; [exact R5|]. rewrite V5. cbn [v_text fst]. by rewrite <- !app_assoc.
  - rewrite (proj2 (Z.ltb_ge _ _)) by lia.
    destruct (printf_exit (A := unit) (ln "ALL TESTS PASSED") [] (ln "ALL TESTS PASSED") 0 w4 _ _ _ _ _ eq_refl V4) as (w5 & R5 & V5).
    exists w5. split; [exact R5|]. rewrite V5. cbn [v_text fst]. by rewrite <- !app_assoc.
Qed.

Lemma verdict_status ks free0 free1 : (verdict ks free0 free1).2 = 0 <-> Forall (fun k => k_status k = 0) ks /\ (free0 <= free1)%nat.
Proof.
  assert (G : existsb failed ks = false <-> Forall (fun k => k_status k = 0) ks).
  { induction ks as [|k ks IH]; [done|]. cbn [existsb]. rewrite orb_false_iff, IH, Forall_cons. unfold failed. by rewrite negb_false_iff, Z.eqb_eq. }
  unfold verdict. rewrite <- G. destruct (existsb failed ks); [naive_solver|]. destruct (decide _); cbn; naive_solver lia.
Qed.

Lemma strcmp_eq p q : 0 ∉ p -> 0 ∉ q -> Ulib.strcmp p q = 0 -> p = q.
Proof.
  revert q. induction p as [|c p IH]; intros q Hp Hq E; cbn [Ulib.strcmp] in E.
  - destruct q as [|d q]; [done|]. apply not_elem_of_cons in Hq as [? _]. cbn in E. lia.
  - apply not_elem_of_cons in Hp as [Hc Hp]. destruct (Z.eqb_spec c (Ulib.chr q)) as [Ec|Ec]; [|lia].
    destruct q as [|d q]; cbn in Ec; [lia|]. apply not_elem_of_cons in Hq as [_ Hq]. subst d. f_equal. by apply IH.
Qed.

Lemma tests_names fuel m0 de0 : Forall (fun t => 0 ∉ t_s t) (tests fuel m0 de0).
Proof. unfold tests. repeat constructor; cbn [t_s]; apply (bool_decide_unpack _); vm_compute; exact I. Qed.

Lemma selected_none fuel m0 de0 name : name ∉ (t_s <$> tests fuel m0 de0 : list (list Z)) -> 0 ∉ name ->
  List.filter (selected (Some name)) (tests fuel m0 de0) = [].
Proof.
  intros Hn Hz. pose proof (tests_names fuel m0 de0) as Hf. induction (tests fuel m0 de0) as [|x ts IH]; [done|].
  apply Forall_cons in Hf as [Hx Hf]. apply not_elem_of_cons in Hn as [Hne Hn]. cbn [List.filter selected].
  destruct (Z.eqb_spec (Ulib.strcmp (t_s x) name) 0) as [E|_]; [|by apply IH]. by apply strcmp_eq in E.
Qed.

End Verdict.

(** ** What the child of countfree() sees *)

(** The pages that are left, what was written to each descriptor, and the
    addresses the process may use. *)
Class Free (W : Type) := {
  avail : W -> nat;
  sent : W -> Z -> list Z;
  usable : W -> Z -> Prop
}.

Class FreeOk (W : Type) `{Sys W} `{UMem W} `{Free W} : Prop := {
  f_close : forall w fd, exists e w', close fd w = UDone e w' /\ avail w' = avail w /\ sent w' = sent w;
  f_sbrk : forall w n, avail w = S n -> exists a w', sbrk 4096 w = UDone a w' /\ 0 <= a < 2 ^ 38 /\
    (forall b, a <= b < a + 4096 -> usable w' b) /\ avail w' = n /\ sent w' = sent w;
  f_full : forall w, avail w = O -> exists w', sbrk 4096 w = UDone (-1) w' /\ avail w' = O /\ sent w' = sent w;
  f_store : forall w b v, usable w b -> exists w', store8 b v w = UDone tt w' /\ avail w' = avail w /\ sent w' = sent w;
  f_write : forall w fd bs, exists w', write fd bs w = UDone (Z.of_nat (length bs)) w' /\ avail w' = avail w /\
    sent w' fd = sent w fd ++ bs
}.

Section Child.
Context {W : Type} {SY : Sys W} {UM : UMem W} {FR : Free W} {FOK : FreeOk W}.

(** The child's side of countfree(): one byte for each page that is left. *)
Lemma countfree_child_run fuel fds0 fds1 w : (avail w < fuel)%nat ->
  exists w', countfree_child fuel fds0 fds1 w = UExit 0 w' /\ sent w' fds1 = sent w fds1 ++ replicate (avail w) 120 /\ avail w' = O.
Proof.
  intros Hf. destruct (f_close w fds0) as (e & w1 & R1 & A1 & S1). unfold countfree_child. rewrite (ubind_done _ _ _ _ _ R1).
  rewrite <- S1, <- A1. rewrite <- A1 in Hf. clear R1 A1 S1 w e. rename w1 into w.
  match goal with |- exists w', (?m ;; _) w = _ /\ _ => assert (G : exists w', m w = UDone tt w' /\ sent w' fds1 = sent w fds1 ++ replicate (avail w) 120 /\ avail w' = O) end.
  { revert w Hf. induction fuel as [|f IH]; intros w Hf; [lia|]. cbn [loop]. destruct (avail w) as [|n] eqn:En.
    - destruct (f_full w En) as (w1 & R1 & A1 & S1). exists w1. split; [|by rewrite S1, app_nil_r].
      rewrite (ubind_done _ _ w (inr tt) w1); [done|]. unfold sbrkp. rewrite (ubind_done _ _ w NOADDR w1); [done|]. by rewrite (ubind_done _ _ _ _ _ R1).
    - destruct (f_sbrk w n En) as (a & w1 & R1 & Ha & U1 & A1 & S1).
      assert (Ea : u64 a = a) by (apply Z.mod_small; lia). assert (Eb : u64 (a + 4096 - 1) = a + 4096 - 1) by (apply Z.mod_small; lia).
      destruct (f_store w1 (a + 4096 - 1) 1 ltac:(apply U1; lia)) as (w2 & R2 & A2 & S2). destruct (f_write w2 fds1 (bytes "x")) as (w3 & R3 & A3 & S3).
      destruct (IH w3 ltac:(lia)) as (w4 & R4 & S4 & A4). exists w4. split; [|split; [|done]].
      + rewrite (ubind_done _ _ w (inl tt) w3); [exact R4|]. unfold sbrkp. rewrite (ubind_done _ _ w a w1); [|by rewrite (ubind_done _ _ _ _ _ R1), Ea].
        rewrite (proj2 (Z.eqb_neq a NOADDR)), Eb by (unfold NOADDR; lia). rewrite (ubind_done _ _ _ _ _ R2). by rewrite (ubind_done _ _ _ _ _ R3).
      + rewrite S4, S3, S2, S1, A3, A2, A1, <- app_assoc. done. }
  destruct G as (w' & R & S & A). exists w'. rewrite (ubind_done _ _ _ _ _ R). done.
Qed.

End Child.

(** ** Small worlds *)

(** A parent whose children are given by a view. *)
#[local] Instance view_parent : Parent view := fun v => v.
#[local] Instance view_sys : Sys view := {|
  fork := fun v => match v with View (k :: ks) None r o t => UDone 3 (View ks (Some k) r o t) | _ => UDone (-1) v end;
  wait := fun v => match v with View ks (Some k) r o t => UDone 3 (View ks None r o t) | _ => UDone (-1) v end;
  wait_status := fun v => match v with View ks (Some k) r o t => UDone (3, Some (k_status k)) (View ks None r o t) | _ => UDone (-1, None) v end;
  pipe2 := fun v => match v with View ks now None None t => UDone (0, (4, 5)) (View ks now (Some 4) (Some 5) t) | _ => UDone (-1, (0, 0)) v end;
  close := fun fd v => UDone 0 (View (v_kids v) (v_now v) (drop_fd fd (v_rd v)) (drop_fd fd (v_wr v)) (v_text v));
  read := fun fd n v =>
    match v with
    | View ks (Some (Kid (S k) st)) r o t => UDone ([120], 1) (View ks (Some (Kid k st)) r o t)
    | View _ (Some (Kid O _)) _ None _ => UDone ([], 0) v
    | _ => UHang
    end;
  write := fun fd bs v => UDone (Z.of_nat (length bs)) (add_text bs v);
  kill := fun _ => ans (-1); exec := fun _ _ => ans (-1); open := fun _ _ => ans (-1); mknod := fun _ _ _ => ans (-1);
  unlink := fun _ => ans (-1); fstat := fun _ => ans (Ustat 0 0 0 0 0, -1); link := fun _ _ => ans (-1);
  mkdir := fun _ => ans (-1); chdir := fun _ => ans (-1); dup := fun _ => ans (-1);
  sbrk := fun _ => ans (-1); usleep := fun _ => ans 0; getpid := ans 1
|}.

#[local] Instance view_ok : ParentOk view.
Proof.
  split; unfold pview, view_parent; cbn.
  - intros w k ks r o t ->. by exists 3, (View ks (Some k) r o t).
  - intros w k ks r o t ->. by exists 3, (View ks None r o t).
  - intros w k ks r o t ->. by exists 3, (View ks None r o t).
  - intros w ks now t ->. by exists 4, 5, (View ks now (Some 4) (Some 5) t).
  - intros w fd ks now r o t ->. by exists 0, (View ks now (drop_fd fd r) (drop_fd fd o) t).
  - intros w fd n st ks o t ->. by exists (View ks (Some (Kid n st)) (Some fd) o t).
  - intros w fd st ks t ->. by exists (View ks (Some (Kid 0 st)) (Some fd) None t).
  - intros w bs ks now r o t ->. by exists (View ks now r o (t ++ bs)).
Qed.

(** Every access faults and every call with an address fails. *)
Definition no_mem {W} : UMem W := {|
  load8 := fun _ => exit (-1); store8 := fun _ _ => exit (-1); write_at := fun _ _ _ => ans (-1); read_at := fun _ _ _ => ans (-1);
  open_at := fun _ _ => ans (-1); unlink_at := fun _ => ans (-1); link_at := fun _ _ => ans (-1); exec_at := fun _ _ => ans (-1);
  pipe_at := fun _ => ans (-1); r_sp := ans 0; uninit := 0
|}.
#[local] Instance view_mem : UMem view := no_mem.
#[local] Instance view_base : Base := {| base_hdr := 0x2000 |}.

(** A child with some pages left: their number, the address of the last page it
    got, and what it wrote to each descriptor.  Only that page is usable. *)
Record poor := Poor { po_pages : nat; po_last : Z; po_sent : Z -> list Z }.
#[local] Instance poor_sys : Sys poor := small_sys (fun _ _ => ans ([], 0))
  (fun fd bs w => UDone (Z.of_nat (length bs)) (Poor (po_pages w) (po_last w) (fun d => if d =? fd then po_sent w d ++ bs else po_sent w d)))
  (fun n w => match po_pages w with
              | O => UDone (-1) w
              | S k => let a := (po_last w + n) mod 2 ^ 37 in UDone a (Poor k a (po_sent w))
              end).
#[local] Instance poor_mem : UMem poor := {|
  store8 := fun b v w => if (po_last w <=? b) && (b <? po_last w + 4096) then UDone tt w else UExit (-1) w;
  load8 := fun _ => exit (-1); write_at := fun _ _ _ => ans (-1); read_at := fun _ _ _ => ans (-1);
  open_at := fun _ _ => ans (-1); unlink_at := fun _ => ans (-1); link_at := fun _ _ => ans (-1); exec_at := fun _ _ => ans (-1);
  pipe_at := fun _ => ans (-1); r_sp := ans 0; uninit := 0
|}.
#[local] Instance poor_free : Free poor := {|
  avail := po_pages; sent := po_sent; usable := fun w b => po_last w <= b < po_last w + 4096
|}.
#[local] Instance poor_ok : FreeOk poor.
Proof.
  split; cbn.
  - intros w fd. by exists 0, w.
  - intros w n En. rewrite En. pose proof (Z.mod_pos_bound (po_last w + 4096) (2 ^ 37) ltac:(lia)).
    eexists _, _. split_and!; [reflexivity|lia|lia|intros b Hb; exact Hb|done|done].
  - intros w En. rewrite En. by exists w.
  - intros w b v Hb. exists w. by rewrite (proj2 (Z.leb_le _ _)), (proj2 (Z.ltb_lt _ _)) by lia.
  - intros w fd bs. eexists. split_and!; [reflexivity|done|]. cbn. by rewrite Z.eqb_refl.
Qed.

(** ** The properties *)

(** C38: usertests reports the truth about its children.  Run without a name, or
    with one that is not an option, main() prints one line for each test
    chosen, OK when its process exited with status 0 and FAILED otherwise, and
    ends with ALL TESTS PASSED and status 0 exactly when none failed and
    countfree() found no fewer free pages at the end than at the start. *)
Theorem usertests_verdict {W} `{SY : Sys W} `{!Parent W} `{!ParentOk W} `{UM : UMem W} `{BS : Base}
    fuel m0 de0 argv just (w : W) ks free0 e0 free1 e1 rest t :
  let chosen := List.filter (selected just) (tests fuel m0 de0) in
  asks argv just -> length ks = length chosen -> (free0 < fuel)%nat -> (free1 < fuel)%nat ->
  pview w = View (Kid free0 e0 :: ks ++ Kid free1 e1 :: rest) None None None t ->
  exists status w', main fuel m0 de0 argv w = UExit status w' /\ status = (verdict ks free0 free1).2 /\
    v_text (pview w') = t ++ ln "usertests starting" ++ mjoin (zip_with report (t_s <$> chosen) ks) ++ (verdict ks free0 free1).1 /\
    (status = 0 <-> Forall (fun k => k_status k = 0) ks /\ (free0 <= free1)%nat).
Proof.
  intros chosen Ha Hl H0 H1 Hv. destruct (main_verdict fuel m0 de0 argv just w ks free0 e0 free1 e1 rest t Ha Hl H0 H1 Hv) as (w' & R & T).
  exists (verdict ks free0 free1).2, w'. split_and!; [exact R|done|exact T|apply verdict_status].
Qed.

(** A name that is no test's passes.  With a name on the command line that no
    test has, main() runs no test at all, and still prints ALL TESTS PASSED and
    exits with status 0 when no memory was lost. *)
Theorem unknown_test_passes {W} `{SY : Sys W} `{!Parent W} `{!ParentOk W} `{UM : UMem W} `{BS : Base}
    fuel m0 de0 p name (w : W) free0 e0 free1 e1 rest t :
  name ∉ (t_s <$> tests fuel m0 de0 : list (list Z)) -> 0 ∉ name -> Ulib.chr name <> 45 -> (free0 <= free1 < fuel)%nat ->
  pview w = View (Kid free0 e0 :: Kid free1 e1 :: rest) None None None t ->
  exists w', main fuel m0 de0 [p; name] w = UExit 0 w' /\ v_text (pview w') = t ++ ln "usertests starting" ++ ln "ALL TESTS PASSED".
Proof.
  intros Hn Hz Hd Hf Hv. pose proof (selected_none fuel m0 de0 name Hn Hz) as Ec.
  destruct (main_verdict fuel m0 de0 [p; name] (Some name) w [] free0 e0 free1 e1 rest t) as (w' & R & T).
  - by exists p.
  - by rewrite Ec.
  - lia.
  - lia.
  - exact Hv.
  - exists w'. rewrite Ec in T. unfold verdict in R, T. cbn [existsb] in R, T. rewrite decide_False in R, T by lia. by split.
Qed.

(** countfree() counts the free pages.  Its child gets every page there is,
    touches it, writes one byte to the pipe for each and exits with status 0;
    the parent, whose child writes [n] bytes, terminates and returns [n], with
    both ends of the pipe closed and the child reaped. *)
Theorem countfree_counts {V W} `{SV : Sys V} `{UV : UMem V} `{!Free V} `{!FreeOk V} `{SY : Sys W} `{!Parent W} `{!ParentOk W} `{UM : UMem W} :
  (forall fuel fds0 fds1 (v : V), (avail v < fuel)%nat ->
     exists v', countfree_child fuel fds0 fds1 v = UExit 0 v' /\ sent v' fds1 = sent v fds1 ++ replicate (avail v) 120 /\ avail v' = O) /\
  (forall fuel (w : W) n st ks t, (n < fuel)%nat -> pview w = View (Kid n st :: ks) None None None t ->
     exists w', countfree fuel w = UDone (Z.of_nat n) w' /\ pview w' = View ks None None None t).
Proof. split; [intros; by apply countfree_child_run|intros; by eapply countfree_parent]. Qed.

(** One test, which fails, and no memory lost. *)
Definition one_failure : view := View [Kid 2 0; Kid 0 1; Kid 2 0] None None None [].

Lemma usertests_verdict_witness : exists w', main (W := view) 5 ∅ [] [bytes "usertests"; bytes "mem"] one_failure = UExit 1 w' /\
  v_text (pview w') = ln "usertests starting" ++ ln "test mem: FAILED" ++ ln "SOME TESTS FAILED".
Proof.
  destruct (usertests_verdict (W := view) 5 ∅ [] [bytes "usertests"; bytes "mem"] (Some (bytes "mem")) one_failure [Kid 0 1] 2 0 2 0 [] [])
    as (st & w' & R & -> & T & _).
  - exists (bytes "usertests"). split; [reflexivity|vm_compute; discriminate].
  - vm_compute. reflexivity.
  - lia.
  - lia.
  - reflexivity.
  - exists w'. split; [exact R|]. rewrite T. vm_compute. reflexivity.
Defined.

Lemma unknown_test_passes_witness : exists w', main (W := view) 5 ∅ [] [bytes "usertests"; bytes "nosuch"] (View [Kid 2 0; Kid 2 0] None None None []) = UExit 0 w' /\
  v_text (pview w') = ln "usertests starting" ++ ln "ALL TESTS PASSED".
Proof.
  apply (unknown_test_passes (W := view) 5 ∅ [] (bytes "usertests") (bytes "nosuch") (View [Kid 2 0; Kid 2 0] None None None []) 2 0 2 0 [] []).
  - apply (bool_decide_unpack _). vm_compute. exact I.
  - apply (bool_decide_unpack _). vm_compute. exact I.
  - vm_compute. discriminate.
  - lia.
  - reflexivity.
Defined.

Lemma countfree_counts_witness :
  (exists v', countfree_child (W := poor) 9 4 5 (Poor 3 0 (fun _ => [])) = UExit 0 v' /\ sent v' 5 = [120; 120; 120]) /\
  (exists w', countfree (W := view) 9 (View [Kid 3 0] None None None []) = UDone 3 w').
Proof.
  destruct (countfree_counts (V := poor) (W := view)) as [C P]. split.
  - destruct (C 9%nat 4 5 (Poor 3 0 (fun _ => [])) ltac:(cbn; lia)) as (v' & R & S & _). exists v'. split; [exact R|exact S].
  - destruct (P 9%nat (View [Kid 3 0] None None None []) 3%nat 0 [] [] ltac:(lia) eq_refl) as (w' & R & _). exists w'. exact R.
Defined.
